(* ===== verification/_CoqProject ===== *)
-Q . S2P
Prelude.v
Effects.v
Text.v
OrderedMap.v
Decimal.v
Domain.v
Wire.v
DomainEnums.v
DomainRecords.v
BinanceNormalize.v
DepthBook.v
IngestWatch.v
StreamReaders.v
Records.v
Columns.v
Sink.v
SinkReach.v
Retention.v
S3Client.v
Eviction.v
Orphan.v
VenueStats.v
BinanceVenue.v
UpbitVenue.v
Derivatives.v
VenueWatch.v
Waiting.v
Cli.v
LogStream.v
NormalizeArgs.v
L1Window.v
L1Inputs.v
SpoolTree.v
SpoolInputs.v
L1Build.v
L1BuildFacts.v
L1Order.v
L1Read.v
SliceColumns.v
SliceRoundTrip.v
L0RoundTrip.v
Live.v
Projection.v
Regime.v
ProjectionFacts.v
Universe.v
UniverseFacts.v
Admissible.v
NormalizeRun.v
L1Publish.v
Pipeline.v
PublishFacts.v
IndexSearch.v
WorkerLife.v
TempFiles.v
IngestArgs.v
Config.v
UpbitUniverse.v
VenueRun.v
VenueRunFacts.v
BackfillArgs.v
Backfill.v
BackfillFacts.v
SupervisorArgs.v
Maintenance.v
WorkerArgs.v
Supervisor.v
SupervisorFacts.v
SupervisorRuns.v
Programs.v
