(* ===== verification/Prelude.v ===== *)
(** * The market-data ingest workspace, verified

    The workspace collects crypto market data and refines it.  Realtime watchers follow the
    streams of Binance and Upbit and store every event, health record and gap alert as
    Parquet objects of the L0 bucket; a backfill stores historical trades the same way; a
    normalizer turns L0 windows into L1 slices and market projections and publishes them
    behind index pointers; a supervisor starts and restarts the three and bootstraps the
    history chunk by chunk.  The paths below are those of the repository: [crates/...] are
    its two libraries, everything else is the package [src].

    ** The files, by subject

    - Foundations.  [Prelude]: results, machine integers with their wrap-around, lists,
      sorting, the tactics and hints of the development.  [Effects]: the state and error
      monad [io], equality of runs, Hoare triples.  [Text]: the [str] operations of the
      standard library on UTF-8 bytes.  [OrderedMap]: [BTreeMap] as its sorted entries.
    - [crates/crypto-domain].  [Decimal]: fixed-point decimals ([numeric]).  [Domain]: the
      value types and their validation ([market], [symbol], [time_window]).  [Wire]: serde's
      codecs over a self-describing format.  [DomainEnums], [DomainRecords]: the
      enumerations, market data, signals, decisions and positions, and their wire form.
    - [crates/crypto-market-data].  [BinanceNormalize]: stream messages to snapshots
      ([normalize], [stream_config.rs]).  [DepthBook]: local order books ([depth_sync],
      [stats.rs]).  [IngestWatch]: counting and routing of frames ([ingest_watch]).
      [StreamReaders]: the loops that wait for a stream ([reader], [ingest_watch/watch]).
    - The L0 layer, [storage].  [Records]: drafts, records, partitions and keys.  [Columns]:
      the schemas and columns of the four files.  [Sink]: buffers, flushes and reports, and
      [SinkReach], its runs with errors in them.  [Retention], [S3Client], [Eviction],
      [Orphan]: retention of buckets, requests to the bucket, the spool disk and what a
      crash left on it.  [SpoolTree]: the three walks over the spool.
    - The watchers.  [VenueStats]: what both keep of a stream.  [BinanceVenue] and
      [UpbitVenue]: events and checks ([binance], [upbit]).  [Derivatives]: funding rates
      and open interest.  [VenueWatch]: sessions, reconnects and finalization, written
      once against the interface [Venue] with an instance per exchange.  [Waiting]: sleeps
      and polling.  [UpbitUniverse]: the markets followed.  [VenueRun] with [VenueRunFacts]:
      a run from its start to its report.  [Live]: ticks on the live stream ([live]).
    - The normalizer, [normalize].  [NormalizeArgs] and [L1Window]: arguments, modes, the
      drain, discovery and audit.  [NormalizeRun]: preflight, audit, backfill and the loop of
      the worker, whose turns meet in the index: [IndexSearch], [WorkerLife].  [L1Inputs]
      and [SpoolInputs]: the objects a run reads.  [L1Read] and [L1Order]: materializing and
      decoding them, in whatever order downloads end.
      [L1Build] with [L1BuildFacts]: accumulation into slices.  [L0RoundTrip]: the rows of
      the files of [Columns].  [SliceColumns] with [SliceRoundTrip]: the slice files.
      [Projection], [Regime], [Universe] with [ProjectionFacts], [UniverseFacts]: the market
      projections.  [Admissible], [L1Publish] with [PublishFacts], [TempFiles]: publishing
      and reading back.  [Pipeline]: from the socket to the slice.
    - The binaries.  [Cli], [IngestArgs], [BackfillArgs], [SupervisorArgs]: command lines
      ([args], [backfill/args], [supervisor/args]).  [LogStream]: the structured log.
      [Config]: configuration files and the settings of the watchers ([config],
      [venue_runner.rs]).  [Backfill] with [BackfillFacts]: the historical backfill
      ([backfill]).  [Maintenance]: the retention and disk loops.  [WorkerArgs],
      [Supervisor], [SupervisorFacts], [SupervisorRuns]: the supervisor ([supervisor]).
      [Programs]: the four executables and their exit codes ([main.rs], [bin]).

    Every modelled definition is preceded by a comment [rust:] with the file and the item
    it translates.  A handler of the code is one definition: guards in the order of the
    code, errors as values of [result], state threaded explicitly or through [io].

    ** How the parts meet

    The watchers and the backfill are clients of [Sink]; [L1Inputs], [SpoolInputs],
    [L0RoundTrip] and [L1BuildFacts] are proved against the keys, files and records [Sink]
    writes, so that what one process stores is what the other lists and decodes, and
    [Pipeline] composes them.  [PublishFacts] reads what [L1Publish] wrote with the reader of
    [Admissible], and [TempFiles] shows that the reader's temporary files change nothing.
    [WorkerArgs] runs the command lines [SupervisorArgs] builds through the parsers of the
    workers, and [SupervisorFacts] then through the planner of [L1Window].

    The interfaces are classes.  Of the program: [Venue] with [VenueLaws] and [VenueReach]
    (a watcher, and what its run does to the sink), [Family] (a record family of the sink),
    [WireEnum] (an enumeration and its names).  Of what surrounds it, with the documented
    behaviour a theorem needs as a second class of laws: [ObjectStore] (the bucket), [Disk],
    [PublishEnv], [Host] (files and processes), [Arrow] and [ArrowLaws], [Builders] and
    [BuilderLaws] (columns and Parquet), [DataFormat] and [FormatLaws] (serde's formats),
    [Float], [FloatMath], [NumberOrder], [StorageLib] with [UtcHours] and [Calendar] (hashes,
    dates and hours), [Json],
    [DocJson], [PayloadJson], [ConfigFiles].

    ** What the theorems show

    - From end to end: an event of a watcher's socket reaches its slice ([Pipeline]); a
      watcher exits with 0 only when its run is complete ([Programs]).
    - Order books: a synchronized book is the exchange's ([DepthBook]), the buffer is
      bounded, and what a failed snapshot leaves behind.
    - Decimals: comparison is comparison of values, checked addition is exact or an error
      away from the one overflow it misses, parsing and the wire form.  Every record of the
      domain is read back as it was written ([DomainRecords]).
    - L0: no record is lost, doubled or overwritten, and flushing writes all of them, and
      the files read back as the records; retention, its loops and eviction delete only what
      has expired; the orphan cleanup keeps every file; alerts are those a look back through
      the history gives; a session ends exactly when it is stale; waits end; the Upbit
      universe is the busiest markets; live ticks agree with the slices.
    - Backfill: the loops end, and a run is the plain loop over the trades of the range,
      errors included; a run over the last day stores it as Upbit's API answers.
    - L1 planning: a tick never goes back, a worker that finds its way by the index its runs
      have written leaves no window out over its whole life, the audit checks each of them;
      a catch-up run reads every object written for its window, a live run every file
      spooled for it.
    - L1 building: every row is counted once, what the sink wrote never blocks a run,
      complete slices have no gap behind them, building while files arrive is building from
      all of them; projections never look ahead; rollups count each source window once.
    - Publishing: slice files read back; whatever fails, pointers lead to readable runs; a
      successful run reads back as its slices, through temporary files too; pointers never
      clobber an unseen version; retries are bounded.
    - Supervisor: workers read the settings they were started with; the bootstrap covers
      its range, and exactly some intervals let it finish; a complete marker was earned;
      the right normalizer always runs.

    ** Fuel and bounds

    Loops of the code that are not structural have a fuel argument and a result that says
    when it ran out: paging of listings and backfills (one turn more than there are pages,
    at most one page per element), chunk loops (a turn per chunk), the drain (the
    configured maximum), the scheduler (turns of its loop).  Each such definition has a
    theorem that enough fuel gives the result, but for the scheduler, which runs until the
    world lets it end: its theorem holds for every fuel.  Loops that wait for the world (a
    worker, a retention loop, a session) run in the list of what each turn meets, and their
    theorems hold for every list.  Integers are kept in [Z] with [wrap], [saturate] or
    [checked] where the code adds; hypotheses on clocks keep times away from the ends of
    [i64].

    ** Not modelled

    What is inside the libraries: sockets, TLS, the NATS, HTTP and S3 clients, the
    asynchronous runtime, timers and signals (a loop that waits is given by what ends the
    wait), Arrow and Parquet bytes (files are batches of columns, where they are written and
    read, and the rows they hold elsewhere), the text of JSON, floating point arithmetic.
    Of the program: help texts, the payloads of log lines (a log call is its result), the
    wrapping of one error type in another by [From] where the model uses one type, and the
    second copies of helpers that several files of the code repeat.  Deployment scripts,
    configuration files, documents and tests are not code of the system. *)
From stdpp Require Export base option list strings gmap.
From stdpp Require Import sorting.
From Stdlib Require Export ZArith Lia Bool.
From Stdlib Require Import Sorting.Sorted.


(** ** Fallible code: Rust's [Result<A, E>]

    [anyhow::Result] and typed errors alike become [result E A]; the [?]
    operator is the bind [x ← m; k] of the stdpp monad classes. *)

Inductive result (E A : Type) : Type :=
| Ok (a : A)
| Err (e : E).
Arguments Ok {E A} a.
Arguments Err {E A} e.

#[export] Instance result_ret {E} : MRet (result E) := fun A a => Ok a.
#[export] Instance result_bind {E} : MBind (result E) :=
  fun A B k m => match m with Ok a => k a | Err e => Err e end.
#[export] Instance result_fmap {E} : FMap (result E) :=
  fun A B f m => match m with Ok a => Ok (f a) | Err e => Err e end.
#[export] Instance result_eq_dec {E A} `{EqDecision E, EqDecision A} :
  EqDecision (result E A).
Proof. solve_decision. Defined.

(** The error of an operation that can also abort: a division that overflows, an
    index out of range. *)
Inductive fault (E : Type) : Type :=
| Panics
| Fails (e : E).
Arguments Panics {E}.
Arguments Fails {E} e.

(** [opt.ok_or(e)] *)
Definition ok_or {E A} (o : option A) (e : E) : result E A :=
  match o with Some a => Ok a | None => Err e end.

(** [res.ok()] *)
Definition ok_opt {E A} (r : result E A) : option A :=
  match r with Ok a => Some a | Err _ => None end.

(** [res.map_err(f)] *)
Definition map_err {E F A} (f : E -> F) (r : result E A) : result F A :=
  match r with Ok a => Ok a | Err e => Err (f e) end.

(** [res.is_ok()] *)
Definition is_ok {E A} (r : result E A) : bool :=
  match r with Ok _ => true | Err _ => false end.

(** [ensure!(cond, e)] and [if !cond { return Err(e) }] *)
Definition ensure {E} (cond : bool) (e : E) : result E () :=
  if cond then Ok () else Err e.

(** A [for] loop whose body may return early with [?]. *)
Fixpoint try_fold {E S A} (f : S -> A -> result E S) (s : S) (l : list A) : result E S :=
  match l with
  | [] => Ok s
  | a :: l' => s' ← f s a; try_fold f s' l'
  end.

(** [iter.map(f).collect::<Result<Vec<_>, _>>()]: the first error wins. *)
Fixpoint try_map {E A B} (f : A -> result E B) (l : list A) : result E (list B) :=
  match l with
  | [] => Ok []
  | a :: l' => b ← f a; bs ← try_map f l'; Ok (b :: bs)
  end.

(** ** Machine integers

    A machine integer is its mathematical value as a [Z]; the width appears in
    the operation.  The release profile of the workspace leaves
    [overflow-checks] off, so a plain [+] or [-] wraps. *)

Inductive int_ty := I128 | I64 | I32 | U128 | U64 | U32 | U16 | U8 | Usize.

Definition int_min (t : int_ty) : Z :=
  match t with
  | I128 => -170141183460469231731687303715884105728
  | I64 => -9223372036854775808
  | I32 => -2147483648
  | U128 | U64 | U32 | U16 | U8 | Usize => 0
  end.

Definition int_max (t : int_ty) : Z :=
  match t with
  | I128 => 170141183460469231731687303715884105727
  | I64 => 9223372036854775807
  | I32 => 2147483647
  | U128 => 340282366920938463463374607431768211455
  | U64 | Usize => 18446744073709551615
  | U32 => 4294967295
  | U16 => 65535
  | U8 => 255
  end.

Definition in_range (t : int_ty) (z : Z) : Prop := (int_min t <= z <= int_max t)%Z.

#[export] Instance in_range_dec t z : Decision (in_range t z).
Proof. unfold in_range. apply _. Defined.

Definition in_rangeb (t : int_ty) (z : Z) : bool :=
  ((int_min t <=? z) && (z <=? int_max t))%Z.

(** [checked_*]: the exact result or [None]. *)
Definition checked (t : int_ty) (z : Z) : option Z :=
  if in_rangeb t z then Some z else None.

(** [saturating_*]: the exact result clamped to the type. *)
Definition saturate (t : int_ty) (z : Z) : Z :=
  Z.max (int_min t) (Z.min (int_max t) z).

(** Plain [+], [-], [*] of a release build, and [as] casts. *)
Definition wrap (t : int_ty) (z : Z) : Z :=
  ((z - int_min t) mod (int_max t - int_min t + 1) + int_min t)%Z.

(** [div_euclid] and [rem_euclid]. *)
Definition div_euclid (a d : Z) : Z :=
  if (0 <? d)%Z then (a / d)%Z else (- (a / - d))%Z.
Definition rem_euclid (a d : Z) : Z := (a mod Z.abs d)%Z.

(** A counter increment [x += 1] on a [u64]. *)
Definition incr_u64 (x : Z) : Z := wrap U64 (x + 1).

(** [x.len()] as the integer type the code casts it to. *)
Definition zlen {A} (l : list A) : Z := Z.of_nat (length l).

Definition is_nil {A} (l : list A) : bool := match l with [] => true | _ => false end.

(** [Iterator::max_by_key]: the last of the elements with the largest key. *)
Definition max_by_key {A} (key : A -> Z) (l : list A) : option A :=
  fold_left (fun acc x =>
    match acc with
    | None => Some x
    | Some y => if (key y <=? key x)%Z then Some x else Some y
    end) l None.

(** [Iterator::min] on integers. *)
Definition zmin_list (l : list Z) : option Z :=
  match l with [] => None | x :: xs => Some (fold_left Z.min xs x) end.

(** [slice::sort_by]: a stable sort.  An element goes before the elements it is
    equal to, and the elements are inserted from the last one on. *)
Fixpoint insert_by {A} (le : A -> A -> bool) (x : A) (l : list A) : list A :=
  match l with
  | [] => [x]
  | y :: l' => if le x y then x :: l else y :: insert_by le x l'
  end.
Definition sort_by {A} (le : A -> A -> bool) (l : list A) : list A :=
  fold_right (insert_by le) [] l.

(** ** Automation *)

Create HintDb ingest.

Ltac bool_prop :=
  repeat match goal with
  | H : _ && _ = true |- _ => apply andb_prop in H; destruct H
  | H : _ && _ = false |- _ => apply andb_false_iff in H
  | H : _ || _ = false |- _ => apply orb_false_iff in H; destruct H
  | H : _ || _ = true |- _ => apply orb_true_iff in H
  | H : negb _ = true |- _ => apply negb_true_iff in H
  | H : negb _ = false |- _ => apply negb_false_iff in H
  | H : (_ <=? _)%Z = true |- _ => apply Z.leb_le in H
  | H : (_ <=? _)%Z = false |- _ => apply Z.leb_gt in H
  | H : (_ <? _)%Z = true |- _ => apply Z.ltb_lt in H
  | H : (_ <? _)%Z = false |- _ => apply Z.ltb_ge in H
  | H : (_ =? _)%Z = true |- _ => apply Z.eqb_eq in H
  | H : (_ =? _)%Z = false |- _ => apply Z.eqb_neq in H
  | H : (_ <=? _)%nat = true |- _ => apply Nat.leb_le in H
  | H : (_ <=? _)%nat = false |- _ => apply Nat.leb_gt in H
  | H : (_ <? _)%nat = true |- _ => apply Nat.ltb_lt in H
  | H : (_ <? _)%nat = false |- _ => apply Nat.ltb_ge in H
  | H : bool_decide _ = true |- _ => apply bool_decide_eq_true_1 in H
  | H : bool_decide _ = false |- _ => apply bool_decide_eq_false_1 in H
  end.

(** Case analysis on every [if] and [match] scrutinee of a hypothesis or the goal. *)
Ltac case_if :=
  match goal with
  | |- context [if ?b then _ else _] => let E := fresh "E" in destruct b eqn:E
  | H : context [if ?b then _ else _] |- _ => let E := fresh "E" in destruct b eqn:E
  end.
Ltac case_match_hyp H :=
  match type of H with
  | context [match ?x with _ => _ end] => let E := fresh "E" in destruct x eqn:E
  end.

(** Take apart a successful chain of [?]s. *)
Ltac inv_bind H :=
  match type of H with
  | mbind _ ?m = Ok _ =>
      let E := fresh "Em" in destruct m eqn:E; cbn [mbind result_bind] in H; [|discriminate H]
  end.

(** Decide a closed goal by evaluating its [Decision] instance. *)
Ltac vm_decide := apply (bool_decide_unpack _); vm_compute; exact I.

Ltac unfold_int := unfold checked, in_rangeb, saturate, in_range, incr_u64, wrap in *;
  cbn [int_min int_max] in *.

(** ** Lemmas on results *)

Section result_facts.
Context {E A B S : Type}.

Lemma bind_ok (m : result E A) (k : A -> result E B) b :
  (x ← m; k x) = Ok b <-> exists a, m = Ok a /\ k a = Ok b.
Proof.
  destruct m as [a|e]; cbn; split.
  - eauto.
  - intros (? & [= ->] & ?); done.
  - discriminate.
  - intros (? & ? & ?); discriminate.
Qed.

Lemma bind_err (m : result E A) (k : A -> result E B) e :
  (x ← m; k x) = Err e <-> m = Err e \/ exists a, m = Ok a /\ k a = Err e.
Proof.
  destruct m as [a|e']; cbn; split.
  - eauto.
  - intros [[=]|(? & [= ->] & ?)]; done.
  - intros [= ->]; auto.
  - intros [[= ->]|(? & [=] & ?)]; done.
Qed.

Lemma ensure_ok (c : bool) (e : E) u : ensure c e = Ok u <-> c = true.
Proof. destruct c, u; cbn; split; congruence. Qed.

Lemma ensure_err (c : bool) (e e' : E) : ensure c e = Err e' <-> c = false /\ e = e'.
Proof. destruct c; cbn; split; intros; destruct_and?; try congruence. split; congruence. Qed.

Lemma try_fold_app (f : S -> A -> result E S) s l1 l2 :
  try_fold f s (l1 ++ l2) = (s' ← try_fold f s l1; try_fold f s' l2).
Proof.
  revert s; induction l1 as [|a l1 IH]; intros s; cbn; [done|].
  destruct (f s a); cbn; [apply IH | done].
Qed.

(** A predicate preserved by each successful body is preserved by the loop. *)
Lemma try_fold_ind (P : S -> Prop) (f : S -> A -> result E S) l s s' :
  (forall x a x', a ∈ l -> P x -> f x a = Ok x' -> P x') ->
  P s -> try_fold f s l = Ok s' -> P s'.
Proof.
  revert s; induction l as [|a l IH]; intros s Hf HP; cbn; [by intros [= <-]|].
  destruct (f s a) as [x|] eqn:Ha; cbn; [|done].
  intros Hl; eapply IH; [| |exact Hl].
  - intros; eapply Hf; [by apply list_elem_of_further| |]; eauto.
  - eapply Hf; [by apply list_elem_of_here| |]; eauto.
Qed.

Lemma try_map_ok_Forall2 (f : A -> result E B) l bs :
  try_map f l = Ok bs <-> Forall2 (fun a b => f a = Ok b) l bs.
Proof.
  revert bs; induction l as [|a l IH]; intros bs; cbn.
  - split; [intros [= <-]; constructor | by inversion 1].
  - destruct (f a) as [b|e] eqn:Ha; cbn.
    + destruct (try_map f l) as [bs'|] eqn:Hl; cbn; split.
      * intros [= <-]; constructor; [done|]. by apply IH.
      * inversion 1 as [|? ? ? ? Hb Hbs]; subst.
        apply IH in Hbs. congruence.
      * done.
      * inversion 1 as [|? ? ? ? Hb Hbs]; subst.
        apply IH in Hbs. discriminate.
    + split; [done|]. inversion 1; congruence.
Qed.

Lemma try_map_length (f : A -> result E B) l bs :
  try_map f l = Ok bs -> length bs = length l.
Proof. rewrite try_map_ok_Forall2. intros H. symmetry. by eapply Forall2_length. Qed.

(** A list that maps to results maps to them in any order. *)
Lemma try_map_perm (f : A -> result E B) l l' bs : l ≡ₚ l' -> try_map f l = Ok bs ->
  exists bs', try_map f l' = Ok bs' /\ bs ≡ₚ bs'.
Proof.
  intros Hp H%try_map_ok_Forall2. destruct (Permutation_Forall2 Hp H) as (bs' & Hb & H').
  exists bs'. split; [by apply try_map_ok_Forall2|done].
Qed.

(** A loop that maps each element before it uses it. *)
Lemma try_fold_map (f : A -> result E B) (g : S -> B -> S) s l :
  try_fold (fun s a => b ← f a; Ok (g s b)) s l = (bs ← try_map f l; Ok (fold_left g bs s)).
Proof.
  revert s. induction l as [|a l IH]; intros s; [done|]. cbn. destruct (f a) as [b|]; [|done]. cbn.
  rewrite IH. by destruct (try_map f l).
Qed.

End result_facts.

(** ** Lemmas on machine integers *)

Open Scope Z_scope.

Lemma checked_Some t z z' : checked t z = Some z' <-> z' = z /\ in_range t z.
Proof.
  unfold checked, in_rangeb, in_range.
  destruct ((int_min t <=? z) && (z <=? int_max t)) eqn:E; bool_prop.
  - split; [intros [= <-] | intros [-> _]]; auto.
  - split; [done|]. intros [-> ?]. destruct E; bool_prop; lia.
Qed.

Lemma checked_None t z : checked t z = None <-> ~ in_range t z.
Proof.
  unfold checked, in_rangeb, in_range.
  destruct ((int_min t <=? z) && (z <=? int_max t)) eqn:E; bool_prop.
  - split; [done | lia].
  - split; [|done]. intros _. destruct E; bool_prop; lia.
Qed.

Lemma checked_in_range t z : in_range t z -> checked t z = Some z.
Proof. intros. by apply checked_Some. Qed.

Lemma int_bounds t : int_min t <= 0 < int_max t.
Proof. destruct t; cbn; lia. Qed.

Lemma wrap_in_range t z : in_range t (wrap t z).
Proof.
  unfold in_range, wrap. pose proof (int_bounds t).
  pose proof (Z.mod_pos_bound (z - int_min t) (int_max t - int_min t + 1)); lia.
Qed.

Lemma wrap_id t z : in_range t z -> wrap t z = z.
Proof.
  unfold in_range, wrap. intros. rewrite Z.mod_small; lia.
Qed.

(** Wrapping never hides a sum: the difference is a multiple of the modulus. *)
Lemma wrap_congr t z : exists k, wrap t z = z + k * (int_max t - int_min t + 1).
Proof.
  unfold wrap. pose proof (int_bounds t).
  exists (- ((z - int_min t) / (int_max t - int_min t + 1))).
  pose proof (Z.div_mod (z - int_min t) (int_max t - int_min t + 1)); lia.
Qed.

Lemma wrap_succ t a : wrap t (wrap t a + 1) = wrap t (a + 1).
Proof.
  unfold wrap. set (m := int_max t - int_min t + 1).
  replace ((a - int_min t) mod m + int_min t + 1 - int_min t) with ((a - int_min t) mod m + 1) by lia.
  rewrite Zplus_mod_idemp_l. do 2 f_equal. lia.
Qed.

Lemma saturate_in_range t z : in_range t (saturate t z).
Proof. unfold in_range, saturate. pose proof (int_bounds t). lia. Qed.

Lemma saturate_id t z : in_range t z -> saturate t z = z.
Proof. unfold in_range, saturate. lia. Qed.

Lemma saturate_mono t a b : a <= b -> saturate t a <= saturate t b.
Proof. unfold saturate. lia. Qed.

Lemma div_euclid_pos a d : 0 < d -> div_euclid a d = a / d.
Proof. intros. unfold div_euclid. destruct (Z.ltb_spec 0 d); [done | lia]. Qed.

Lemma rem_euclid_pos a d : 0 < d -> rem_euclid a d = a mod d.
Proof. intros. unfold rem_euclid. by rewrite Z.abs_eq by lia. Qed.

#[export] Hint Resolve wrap_in_range saturate_in_range : ingest.

(** ** Lemmas on lists *)

Lemma zlen_nonneg {A} (l : list A) : 0 <= zlen l.
Proof. unfold zlen. lia. Qed.

Lemma zlen_app {A} (l k : list A) : zlen (l ++ k) = zlen l + zlen k.
Proof. unfold zlen. rewrite length_app. lia. Qed.

Lemma zlen_cons {A} (x : A) l : zlen (x :: l) = 1 + zlen l.
Proof. unfold zlen. cbn [length]. lia. Qed.

Lemma zlen_nil {A} : zlen (@nil A) = 0.
Proof. done. Qed.

Lemma zlen_snoc {A} (l : list A) x : zlen (l ++ [x]) = zlen l + 1.
Proof. by rewrite zlen_app. Qed.

Lemma max_by_key_spec {A} (key : A -> Z) l x :
  max_by_key key l = Some x -> x ∈ l /\ forall y, y ∈ l -> key y <= key x.
Proof.
  unfold max_by_key.
  assert (H : forall acc, fold_left (fun acc x => match acc with
      | None => Some x
      | Some y => if (key y <=? key x) then Some x else Some y end) l acc = Some x ->
    (x ∈ l \/ acc = Some x) /\ (forall y, y ∈ l \/ acc = Some y -> key y <= key x)).
  { induction l as [|a l IH]; intros acc; cbn.
    - intros ->. split; [by right|]. intros y [Hy|[= ->]]; [by inversion Hy | lia].
    - intros HF. apply IH in HF as [Hin Hmax]. destruct acc as [b|].
      + destruct (Z.leb_spec (key b) (key a)).
        * split.
          -- destruct Hin as [?|[= ->]]; left; [by apply list_elem_of_further | apply list_elem_of_here].
          -- intros y [Hy|[= <-]].
             ++ apply elem_of_cons in Hy as [->|Hy]; apply Hmax; auto.
             ++ transitivity (key a); [done|]. apply Hmax; auto.
        * split.
          -- destruct Hin as [?|?]; [left; by apply list_elem_of_further | by right].
          -- intros y [Hy|Hy]; [|by apply Hmax; auto].
             apply elem_of_cons in Hy as [->|Hy]; [|apply Hmax; auto].
             transitivity (key b); [lia|]. apply Hmax; auto.
      + split.
        * destruct Hin as [?|[= ->]]; left; [by apply list_elem_of_further | apply list_elem_of_here].
        * intros y [Hy|[=]]. apply elem_of_cons in Hy as [->|Hy]; apply Hmax; auto. }
  intros HF. apply H in HF as [[?|[=]] Hmax]. split; [done|]. intros; apply Hmax; auto.
Qed.

Lemma max_by_key_is_Some {A} (key : A -> Z) l : l <> [] -> is_Some (max_by_key key l).
Proof.
  unfold max_by_key. destruct l as [|a l]; [done|intros _]. cbn.
  generalize a. induction l as [|b l IH]; intros c; cbn; [by eexists|].
  destruct (key c <=? key b); apply IH.
Qed.

(** The largest key decides, when it is that of one element. *)
Lemma max_by_key_perm {A} (key : A -> Z) l l' :
  (forall x y, x ∈ l -> y ∈ l -> key x = key y -> x = y) -> l ≡ₚ l' -> max_by_key key l = max_by_key key l'.
Proof.
  intros Hinj Hp. destruct (max_by_key key l) as [x|] eqn:E.
  - destruct (max_by_key_is_Some key l') as [y Hy].
    { intros ->. apply Permutation_nil_r in Hp as ->. done. }
    rewrite Hy. f_equal. apply max_by_key_spec in E as [Hx Hmax]. apply max_by_key_spec in Hy as [Hy Hmax'].
    rewrite <- Hp in Hy. apply Hinj; [done..|]. specialize (Hmax y Hy).
    specialize (Hmax' x ltac:(by rewrite <- Hp)). lia.
  - destruct l as [|a l]; [apply Permutation_nil_l in Hp as <-; done|].
    destruct (max_by_key_is_Some key (a :: l)) as [z Hz]; [done|]. by rewrite Hz in E.
Qed.

(** ** Stable sorting *)

Section sorting.
Context {A : Type} (le : A -> A -> bool).

Lemma insert_by_perm x l : insert_by le x l ≡ₚ x :: l.
Proof.
  induction l as [|y l IH]; cbn; [done|]. destruct (le x y); [done|].
  rewrite IH. apply Permutation_swap.
Qed.

Lemma sort_by_perm l : sort_by le l ≡ₚ l.
Proof. induction l as [|x l IH]; cbn; [done|]. by rewrite insert_by_perm, IH. Qed.

Context (le_total : forall x y, le x y = true \/ le y x = true).
Context (le_trans : forall x y z, le x y = true -> le y z = true -> le x z = true).

Lemma insert_by_sorted x l : StronglySorted (fun a b => le a b = true) l ->
  StronglySorted (fun a b => le a b = true) (insert_by le x l).
Proof.
  induction l as [|y l IH]; cbn; intros Hs; [by repeat constructor|].
  apply StronglySorted_inv in Hs as [Hs Hy]. destruct (le x y) eqn:E.
  - constructor; [by constructor|]. constructor; [done|].
    eapply Forall_impl; [exact Hy|]. cbn. eauto.
  - constructor; [by apply IH|]. rewrite insert_by_perm. constructor; [|done].
    destruct (le_total x y); [congruence | done].
Qed.

Lemma sort_by_sorted l : StronglySorted (fun a b => le a b = true) (sort_by le l).
Proof. induction l as [|x l IH]; cbn; [constructor | by apply insert_by_sorted]. Qed.
Lemma insert_by_head x l : Forall (fun y => le x y = true) l -> insert_by le x l = x :: l.
Proof. destruct l as [|y l]; cbn; [done|]. intros Hf. inversion Hf as [|? ? E]; subst. by rewrite E. Qed.

(** A stable sort commutes with dropping elements. *)
Lemma insert_by_filter p x l : StronglySorted (fun a b => le a b = true) l ->
  List.filter p (insert_by le x l)
  = if p x then insert_by le x (List.filter p l) else List.filter p l.
Proof.
  induction l as [|y l IH]; cbn; intros Hs; [by destruct (p x)|].
  apply StronglySorted_inv in Hs as [Hs Hy]. destruct (le x y) eqn:E; cbn.
  - destruct (p x) eqn:Ex; [|done]. destruct (p y) eqn:Ey; cbn; [by rewrite E|].
    rewrite insert_by_head; [done|]. apply List.Forall_forall. intros z [Hz _]%filter_In.
    rewrite List.Forall_forall in Hy. eauto.
  - rewrite IH by done. destruct (p x) eqn:Ex, (p y) eqn:Ey; cbn; rewrite ?E; done.
Qed.

Lemma sort_by_filter p l : List.filter p (sort_by le l) = sort_by le (List.filter p l).
Proof.
  induction l as [|x l IH]; [done|].
  change (sort_by le (x :: l)) with (insert_by le x (sort_by le l)).
  rewrite insert_by_filter by apply sort_by_sorted. rewrite IH. cbn [List.filter].
  by destruct (p x).
Qed.

(** Sorting forgets the order, when only equal elements are below each other. *)
Lemma sort_by_unique l l' : (forall x y, x ∈ l -> y ∈ l -> le x y = true -> le y x = true -> x = y) ->
  l ≡ₚ l' -> sort_by le l = sort_by le l'.
Proof.
  intros Hanti Hp. apply (StronglySorted_unique_strong (fun a b => le a b = true)).
  - intros x y Hx Hy. apply Hanti.
    + by rewrite sort_by_perm in Hx.
    + by rewrite sort_by_perm, <- Hp in Hy.
  - apply sort_by_sorted.
  - apply sort_by_sorted.
  - by rewrite !sort_by_perm.
Qed.
End sorting.

(** ** Filters *)

Lemma Permutation_filter_bool {A} (p : A -> bool) l l' : l ≡ₚ l' -> List.filter p l ≡ₚ List.filter p l'.
Proof.
  induction 1 as [|x l l' _ IH|x y l|l l' l'' _ IH _ IH']; cbn; [done| | |by etransitivity].
  - destruct (p x); [by constructor|done].
  - destruct (p x), (p y); try done. constructor.
Qed.

Lemma filter_swap {A} (p q : A -> bool) l :
  List.filter p (List.filter q l) = List.filter q (List.filter p l).
Proof.
  induction l as [|x l IH]; cbn; [done|].
  destruct (p x) eqn:Ep, (q x) eqn:Eq; cbn; rewrite ?Ep, ?Eq, IH; done.
Qed.

Lemma filter_concat_map {A B} (p : B -> bool) (f : A -> list B) l :
  List.filter p (List.concat (map f l)) = List.concat (map (fun x => List.filter p (f x)) l).
Proof. induction l as [|x l IH]; cbn; [done|]. by rewrite List.filter_app, IH. Qed.

Lemma filter_map {A B} (p : B -> bool) (f : A -> B) l :
  List.filter p (map f l) = map f (List.filter (fun x => p (f x)) l).
Proof. induction l as [|x l IH]; cbn; [done|]. destruct (p (f x)); cbn; by rewrite IH. Qed.

Lemma filter_all {A} (p : A -> bool) l : (forall x, In x l -> p x = true) -> List.filter p l = l.
Proof.
  induction l as [|x l IH]; cbn; [done|]. intros Hp. rewrite (Hp x) by auto. f_equal. auto.
Qed.
Lemma filter_none {A} (p : A -> bool) l : (forall x, In x l -> p x = false) -> List.filter p l = [].
Proof. induction l as [|x l IH]; cbn; [done|]. intros Hp. rewrite (Hp x) by auto. auto. Qed.

Lemma fold_left_map {A B S} (f : S -> B -> S) (g : A -> B) l s :
  fold_left f (map g l) s = fold_left (fun s a => f s (g a)) l s.
Proof. revert s. induction l as [|a l IH]; cbn; auto. Qed.

(** ** Powers of ten *)

Lemma pow10_pos n : 0 <= n -> 0 < 10 ^ n.
Proof. intros. by apply Z.pow_pos_nonneg. Qed.

Lemma pow10_succ (n : nat) : 10 ^ Z.of_nat (S n) = 10 * 10 ^ Z.of_nat n.
Proof. by rewrite Nat2Z.inj_succ, Z.pow_succ_r by lia. Qed.

Lemma compare_mul_pos k a b : 0 < k -> (k * a ?= k * b) = (a ?= b).
Proof. intros. destruct (Z.compare_spec a b) as [->|H1|H1].
  - by rewrite Z.compare_refl.
  - apply Z.compare_lt_iff. nia.
  - apply Z.compare_gt_iff. nia.
Qed.
