(* ===== verification/Effects.v ===== *)
(** * Effects: fallible code in a changing world

    An effectful function takes the world and returns it with a result; [io] is its
    monad, with the [?] of Rust as bind.  The triples [pre ⊢ m ▷ post | exit] say what
    holds after success and after an error, for the proofs on the publisher. *)
From S2P Require Import Prelude.

Definition io (W E A : Type) : Type := W -> W * result E A.

#[export] Instance io_ret {W E} : MRet (io W E) := fun A a w => (w, Ok a).
#[export] Instance io_bind {W E} : MBind (io W E) :=
  fun A B k m w => match m w with (w, Ok a) => k a w | (w, Err e) => (w, Err e) end.

Definition io_fail {W E A} (e : E) : io W E A := fun w => (w, Err e).
(** A pure fallible step. *)
Definition io_of {W E A} (r : result E A) : io W E A := fun w => (w, r).
Definition io_map_err {W E E' A} (f : E -> E') (m : io W E A) : io W E' A :=
  fun w => let (w, r) := m w in (w, map_err f r).
(** The result as a value: the caller decides what an error means. *)
Definition io_try {W E E' A} (m : io W E A) : io W E' (result E A) :=
  fun w => let (w, r) := m w in (w, Ok r).

(** A [for] loop that returns at the first error. *)
Fixpoint io_fold {W E S A} (f : S -> A -> io W E S) (s : S) (l : list A) : io W E S :=
  match l with
  | [] => mret s
  | a :: l => s ← f s a; io_fold f s l
  end.

(** ** Computations with the same runs *)

Record io_eq {W E A} (m m' : io W E A) : Prop := same_runs { io_run : forall w, m w = m' w }.
Arguments same_runs {W E A m m'}. Arguments io_run {W E A m m'}.
Infix "≅" := io_eq (at level 70).

#[export] Instance io_eq_equivalence {W E A} : Equivalence (@io_eq W E A).
Proof.
  split; [done|by intros ?? [H]; split|]. intros ??? [H] [H']. split. intros w. by rewrite H.
Qed.

#[export] Instance io_bind_proper {W E A B} :
  Proper (pointwise_relation A io_eq ==> io_eq ==> io_eq) (@mbind (io W E) io_bind A B).
Proof.
  intros k k' Hk m m' [Hm]. split. intros w. unfold mbind, io_bind. rewrite Hm.
  destruct (m' w) as [w' [a|e]]; [|done]. apply Hk.
Qed.

Lemma io_bind_ret_l {W E A B} (a : A) (k : A -> io W E B) : mret a ≫= k ≅ k a.
Proof. done. Qed.

Lemma io_bind_of_ok {W E A B} (a : A) (k : A -> io W E B) : io_of (Ok a) ≫= k ≅ k a.
Proof. done. Qed.

Lemma io_bind_ret_r {W E A} (m : io W E A) : m ≫= mret ≅ m.
Proof. split. intros w. unfold mbind, io_bind. by destruct (m w) as [w' [a|e]]. Qed.

Lemma io_bind_assoc {W E A B D} (m : io W E A) (k : A -> io W E B) (h : B -> io W E D) :
  (m ≫= k) ≫= h ≅ m ≫= (fun a => k a ≫= h).
Proof. split. intros w. unfold mbind, io_bind. by destruct (m w) as [w' [a|e]]. Qed.

Lemma io_fold_app {W E S A} (f : S -> A -> io W E S) l l' s :
  io_fold f s (l ++ l') ≅ (io_fold f s l ≫= fun s => io_fold f s l').
Proof.
  revert s. induction l as [|a l IH]; intros s; cbn [io_fold app]; [done|].
  rewrite io_bind_assoc. apply io_bind_proper; [|done]. intros s'. apply IH.
Qed.

(** What a loop answers, when every step's answer is known. *)
Lemma io_fold_answer {W E S A} (f : S -> A -> io W E S) (g : S -> A -> S) l s w w' s' :
  (forall s a w w' s', f s a w = (w', Ok s') -> s' = g s a) ->
  io_fold f s l w = (w', Ok s') -> s' = fold_left g l s.
Proof.
  intros Hf. revert s w. induction l as [|a l IH]; intros s w; cbn [io_fold fold_left].
  - by intros [= _ <-].
  - unfold mbind, io_bind. destruct (f s a w) as [w1 [s1|e]] eqn:Ef; [|done].
    apply Hf in Ef as ->. apply IH.
Qed.

(** ** Triples *)

Section triples.
Context {W E : Type}.

Definition triple {A} (pre : W -> Prop) (m : io W E A) (post : A -> W -> Prop) (exit : W -> Prop)
    : Prop :=
  forall w, pre w -> match m w with (w', Ok a) => post a w' | (w', Err _) => exit w' end.

Lemma triple_ret {A} (a : A) pre (post : A -> W -> Prop) exit :
  (forall w, pre w -> post a w) -> triple pre (mret a) post exit.
Proof. intros H w Hw. cbn. auto. Qed.

Lemma triple_bind {A B} (m : io W E A) (k : A -> io W E B) pre mid post exit :
  triple pre m mid exit -> (forall a, triple (mid a) (k a) post exit) ->
  triple pre (m ≫= k) post exit.
Proof.
  intros Hm Hk w Hw. specialize (Hm w Hw). unfold mbind, io_bind.
  destruct (m w) as [w' [a|e]]; [by apply Hk|done].
Qed.

Lemma triple_weaken {A} (m : io W E A) (pre pre' : W -> Prop) (post post' : A -> W -> Prop)
    (exit exit' : W -> Prop) :
  triple pre m post exit -> (forall w, pre' w -> pre w) -> (forall a w, post a w -> post' a w) ->
  (forall w, exit w -> exit' w) -> triple pre' m post' exit'.
Proof.
  intros Hm Hp Hq He w Hw. specialize (Hm w (Hp w Hw)). destruct (m w) as [w' [a|e]]; auto.
Qed.

(** An invariant of a computation. *)
Definition keeps {A} (inv : W -> Prop) (m : io W E A) : Prop := triple inv m (fun _ => inv) inv.

Lemma keeps_run {A} inv (m : io W E A) w : keeps inv m -> inv w -> inv (m w).1.
Proof. intros Hm Hw. specialize (Hm w Hw). by destruct (m w) as [w' [a|e]]. Qed.

Lemma keeps_ret {A} inv (a : A) : keeps inv (mret a).
Proof. by apply triple_ret. Qed.

Lemma keeps_bind {A B} inv (m : io W E A) (k : A -> io W E B) :
  keeps inv m -> (forall a, keeps inv (k a)) -> keeps inv (m ≫= k).
Proof. intros Hm Hk. by eapply triple_bind. Qed.

Lemma keeps_fold {A S} inv (f : S -> A -> io W E S) s l :
  (forall s a, a ∈ l -> keeps inv (f s a)) -> keeps inv (io_fold f s l).
Proof.
  revert s. induction l as [|a l IH]; intros s Hf; cbn; [apply keeps_ret|].
  apply keeps_bind; [apply Hf; by left|]. intros s'. apply IH. intros; apply Hf; by right.
Qed.

(** A loop invariant on the elements done so far. *)
Lemma triple_fold {A S} (f : S -> A -> io W E S) (I : list A -> S -> W -> Prop) exit l s :
  (forall d a s, d ++ [a] `prefix_of` l -> triple (I d s) (f s a) (I (d ++ [a])) exit) ->
  triple (I [] s) (io_fold f s l) (I l) exit.
Proof.
  assert (H : forall l d s, (forall d' a s, d' ++ [a] `prefix_of` d ++ l ->
      triple (I d' s) (f s a) (I (d' ++ [a])) exit) ->
    triple (I d s) (io_fold f s l) (I (d ++ l)) exit).
  { clear. induction l as [|a l IH]; intros d s Hf; cbn.
    - apply triple_ret. intros w. by rewrite app_nil_r.
    - eapply triple_bind; [apply Hf; exists l; by rewrite <- app_assoc|]. intros s'.
      specialize (IH (d ++ [a]) s'). rewrite <- app_assoc in IH. by apply IH. }
  intros Hf. by apply (H l []).
Qed.
End triples.

Lemma keeps_map_err {W E E' A} inv (f : E -> E') (m : io W E A) :
  keeps inv m -> keeps inv (io_map_err f m).
Proof.
  intros Hm w Hw. specialize (Hm w Hw). unfold io_map_err. by destruct (m w) as [w' [a|e]].
Qed.

Lemma triple_map_err {W E E' A} (f : E -> E') (m : io W E A) pre post exit :
  triple pre m post exit -> triple pre (io_map_err f m) post exit.
Proof.
  intros Hm w Hw. specialize (Hm w Hw). unfold io_map_err. by destruct (m w) as [w' [a|e]].
Qed.

Lemma triple_try {W E E' A} (m : io W E A) pre (post : A -> W -> Prop) (exit : W -> Prop) out :
  triple pre m post exit ->
  triple pre (io_try (E' := E') m)
    (fun r w => match r with Ok a => post a w | Err _ => exit w end) out.
Proof.
  intros Hm w Hw. specialize (Hm w Hw). unfold io_try. by destruct (m w) as [w' [a|e]].
Qed.
