(* ===== verification/Text.v ===== *)
(** * Text: the operations on [str] the workspace uses

    A Rust [&str] is its UTF-8 bytes, a [string].  This file has the standard
    library functions the other files call (trimming, splitting, searching,
    case mapping, decimal printing and parsing of integers), with their
    lemmas: printing an integer and parsing it back is the identity. *)
From Stdlib Require Export String Ascii.
From S2P Require Import Prelude.
Open Scope Z_scope.

(** Bytes of a string and back. *)
Abbreviation bytes := list_ascii_of_string.
Abbreviation of_bytes := string_of_list_ascii.

(** [s.len()] *)
Definition str_len (s : string) : Z := Z.of_nat (String.length s).

(** ** Whitespace, [str::trim] *)

Definition byte_val (a : ascii) : Z := Z.of_N (N_of_ascii a).

(** U+0009..U+000D and U+0020 *)
Definition ws1 (a : ascii) : bool :=
  let x := byte_val a in ((9 <=? x) && (x <=? 13)) || (x =? 32).
(** U+0085 and U+00A0 *)
Definition ws2 (a b : ascii) : bool :=
  (byte_val a =? 194) && ((byte_val b =? 133) || (byte_val b =? 160)).
(** U+1680, U+2000..U+200A, U+2028, U+2029, U+202F, U+205F, U+3000 *)
Definition ws3 (a b c : ascii) : bool :=
  let x := byte_val a in let y := byte_val b in let z := byte_val c in
  ((x =? 225) && (y =? 154) && (z =? 128)) ||
  ((x =? 226) && (y =? 128) &&
     (((128 <=? z) && (z <=? 138)) || (z =? 168) || (z =? 169) || (z =? 175))) ||
  ((x =? 226) && (y =? 129) && (z =? 159)) ||
  ((x =? 227) && (y =? 128) && (z =? 128)).

Fixpoint trim_front (l : list ascii) : list ascii :=
  match l with
  | [] => []
  | a :: l1 =>
      if ws1 a then trim_front l1 else
      match l1 with
      | [] => l
      | b :: l2 =>
          if ws2 a b then trim_front l2 else
          match l2 with
          | [] => l
          | c :: l3 => if ws3 a b c then trim_front l3 else l
          end
      end
  end.

(** The same from the back, on the reversed bytes. *)
Fixpoint trim_back (l : list ascii) : list ascii :=
  match l with
  | [] => []
  | c :: l1 =>
      if ws1 c then trim_back l1 else
      match l1 with
      | [] => l
      | b :: l2 =>
          if ws2 b c then trim_back l2 else
          match l2 with
          | [] => l
          | a :: l3 => if ws3 a b c then trim_back l3 else l
          end
      end
  end.

Definition trim (s : string) : string :=
  of_bytes (rev (trim_back (rev (trim_front (bytes s))))).

Definition str_is_empty (s : string) : bool :=
  match s with EmptyString => true | _ => false end.

(** ** Searching and splitting *)

Definition contains (p s : string) : bool :=
  match String.index 0 p s with Some _ => true | None => false end.

(** [s.strip_prefix(p)] *)
Fixpoint strip_prefix (p s : string) : option string :=
  match p, s with
  | EmptyString, _ => Some s
  | String a p', String b s' => if Ascii.eqb a b then strip_prefix p' s' else None
  | String _ _, EmptyString => None
  end.

(** [s.strip_suffix(p)] *)
Definition strip_suffix (p s : string) : option string :=
  option_map (fun r => of_bytes (rev (bytes r)))
    (strip_prefix (of_bytes (rev (bytes p))) (of_bytes (rev (bytes s)))).

Definition starts_with (p s : string) : bool :=
  match strip_prefix p s with Some _ => true | None => false end.
Definition ends_with (p s : string) : bool :=
  match strip_suffix p s with Some _ => true | None => false end.

(** [s.split(c)] for a character: always at least one piece. *)
Fixpoint split_char (c : ascii) (s : string) : list string :=
  match s with
  | EmptyString => [EmptyString]
  | String a s' =>
      if Ascii.eqb a c then EmptyString :: split_char c s'
      else match split_char c s' with
           | p :: ps => String a p :: ps
           | [] => [String a EmptyString]
           end
  end.

(** [s.split_once(p)]: at the first occurrence of [p]. *)
Fixpoint split_once (p s : string) : option (string * string) :=
  match strip_prefix p s with
  | Some rest => Some (EmptyString, rest)
  | None =>
      match s with
      | EmptyString => None
      | String a s' =>
          match split_once p s' with
          | Some (l, r) => Some (String a l, r)
          | None => None
          end
      end
  end.

(** [s.rsplit_once(p)] for a pattern that is not empty. *)
Fixpoint rsplit_once (p s : string) : option (string * string) :=
  match s with
  | EmptyString => None
  | String c s' =>
      match rsplit_once p s' with
      | Some (a, b) => Some (String c a, b)
      | None => match strip_prefix p s with Some r => Some (EmptyString, r) | None => None end
      end
  end.

(** [parts.join(sep)] *)
Definition join (sep : string) (l : list string) : string := String.concat sep l.

(** ** ASCII classes and case *)

Definition is_digit (a : ascii) : bool :=
  (48 <=? byte_val a) && (byte_val a <=? 57).

Definition is_ascii_upper (a : ascii) : bool :=
  (65 <=? byte_val a) && (byte_val a <=? 90).
Definition is_ascii_lower (a : ascii) : bool :=
  (97 <=? byte_val a) && (byte_val a <=? 122).

Definition ascii_of_Z (z : Z) : ascii := ascii_of_N (Z.to_N z).

Definition to_upper (a : ascii) : ascii :=
  if is_ascii_lower a then ascii_of_Z (byte_val a - 32) else a.
Definition to_lower (a : ascii) : ascii :=
  if is_ascii_upper a then ascii_of_Z (byte_val a + 32) else a.

Definition map_str (f : ascii -> ascii) (s : string) : string :=
  of_bytes (List.map f (bytes s)).

Definition to_ascii_uppercase (s : string) : string := map_str to_upper s.
Definition to_ascii_lowercase (s : string) : string := map_str to_lower s.

Definition eq_ignore_ascii_case (a b : string) : bool :=
  String.eqb (to_ascii_lowercase a) (to_ascii_lowercase b).

Definition all_bytes (f : ascii -> bool) (s : string) : bool :=
  forallb f (bytes s).

(** ** Integers: [to_string] and [parse] *)

Definition digit_char (d : Z) : ascii := ascii_of_Z (48 + d).
Definition digit_val (a : ascii) : Z := byte_val a - 48.

(** Digits of [n], most significant first, in front of [acc]. *)
Fixpoint show_digits (fuel : nat) (n : Z) (acc : list ascii) : list ascii :=
  match fuel with
  | O => acc
  | S f =>
      let acc' := digit_char (n mod 10) :: acc in
      if n <? 10 then acc' else show_digits f (n / 10) acc'
  end.

(** The binary length bounds the decimal length. *)
Definition show_fuel (n : Z) : nat := S (Z.to_nat (Z.log2 n)).

Definition show_nonneg (n : Z) : string := of_bytes (show_digits (show_fuel n) n []).

(** [x.to_string()] and [{x}] of an integer. *)
Definition show_Z (z : Z) : string :=
  if z <? 0 then String "-" (show_nonneg (- z)) else show_nonneg z.

(** [{x:0w$}] *)
Definition pad_zero (w : nat) (z : Z) : string :=
  let body := show_nonneg (Z.abs z) in
  let sign := if z <? 0 then "-"%string else ""%string in
  let width := (w - String.length sign)%nat in
  (sign ++ of_bytes (repeat "0"%char (width - String.length body)) ++ body)%string.

(** The value of a digit string read on top of [acc]. *)
Fixpoint digits_value (acc : Z) (l : list ascii) : Z :=
  match l with
  | [] => acc
  | a :: l' => digits_value (10 * acc + digit_val a) l'
  end.

(** A nonempty run of ASCII digits. *)
Definition parse_digits (l : list ascii) : option Z :=
  match l with
  | [] => None
  | _ => if forallb is_digit l then Some (digits_value 0 l) else None
  end.

Definition is_signed (t : int_ty) : bool := int_min t <? 0.

(** [s.parse::<t>()]: an optional [+], a [-] for the signed types, then digits
    whose value is in range. *)
Definition parse_int (t : int_ty) (s : string) : option Z :=
  match bytes s with
  | a :: l =>
      if Ascii.eqb a "+" then v ← parse_digits l; checked t v
      else if Ascii.eqb a "-" && is_signed t then v ← parse_digits l; checked t (- v)
      else v ← parse_digits (a :: l); checked t v
  | [] => None
  end.

(** [a.cmp(b)] on strings: byte-wise lexicographic. *)
Definition str_cmp : string -> string -> comparison := String.compare.
Definition str_ltb (a b : string) : bool :=
  match str_cmp a b with Lt => true | _ => false end.
Definition str_leb (a b : string) : bool :=
  match str_cmp a b with Gt => false | _ => true end.

(** [Path::join]: an absolute right side replaces the left. *)
Definition path_join (a b : string) : string :=
  if starts_with "/" b then b
  else if str_is_empty a || ends_with "/" a then (a ++ b)%string
  else (a ++ "/" ++ b)%string.

(** [s.trim_end_matches(c)] for a character *)
Fixpoint drop_while {A} (f : A -> bool) (l : list A) : list A :=
  match l with [] => [] | a :: l' => if f a then drop_while f l' else l end.
Definition trim_end_matches (c : ascii) (s : string) : string :=
  of_bytes (rev (drop_while (Ascii.eqb c) (rev (bytes s)))).

Definition is_alphanumeric (a : ascii) : bool :=
  is_digit a || is_ascii_upper a || is_ascii_lower a.

(** [strings.sort()] *)
Definition sort_strings (l : list string) : list string := sort_by str_leb l.

(** ** Lemmas *)

#[global] Arguments String.append !_ _ : simpl nomatch.
#[global] Arguments parse_digits : simpl never.
#[global] Arguments show_nonneg : simpl never.
#[global] Arguments is_signed : simpl never.

Lemma of_bytes_bytes s : of_bytes (bytes s) = s.
Proof. apply string_of_list_ascii_of_string. Qed.
Lemma bytes_of_bytes l : bytes (of_bytes l) = l.
Proof. apply list_ascii_of_string_of_list_ascii. Qed.

Lemma bytes_app a b : bytes (a ++ b)%string = (bytes a ++ bytes b)%list.
Proof. induction a; cbn; congruence. Qed.

Lemma of_bytes_app a b : of_bytes (a ++ b)%list = (of_bytes a ++ of_bytes b)%string.
Proof. induction a as [|x a IH]; cbn; [done | by rewrite IH]. Qed.

Lemma length_bytes s : length (bytes s) = String.length s.
Proof. induction s; cbn; congruence. Qed.

Lemma str_app_assoc a b c : ((a ++ b) ++ c = a ++ (b ++ c))%string.
Proof. induction a; cbn; congruence. Qed.

Lemma bytes_inj a b : bytes a = bytes b -> a = b.
Proof. intros H. by rewrite <- (of_bytes_bytes a), H, of_bytes_bytes. Qed.

Lemma digit_char_facts d : 0 <= d < 10 ->
  is_digit (digit_char d) = true /\ digit_val (digit_char d) = d.
Proof.
  intros H.
  assert (d = 0 \/ d = 1 \/ d = 2 \/ d = 3 \/ d = 4 \/ d = 5 \/ d = 6 \/ d = 7 \/ d = 8 \/ d = 9)
    as Hd by lia.
  repeat (destruct Hd as [->|Hd]; [by vm_compute|]). by subst.
Qed.

Lemma is_digit_not_sign a : is_digit a = true -> Ascii.eqb a "+" = false /\ Ascii.eqb a "-" = false.
Proof.
  intros H. split; apply Ascii.eqb_neq; intros ->; by vm_compute in H.
Qed.

Lemma show_digits_spec fuel n acc :
  0 <= n < 10 ^ Z.of_nat fuel ->
  (forall v, digits_value v acc = v * 10 ^ zlen acc + digits_value 0 acc) ->
  forallb is_digit acc = true ->
  let out := show_digits fuel n acc in
  forallb is_digit out = true /\ (fuel <> O -> out <> []) /\
  digits_value 0 out = digits_value n acc.
Proof.
  revert n acc. induction fuel as [|f IH]; intros n acc Hn Hacc Hd; cbn [show_digits].
  - change (10 ^ Z.of_nat 0) with 1 in Hn. assert (n = 0) as -> by lia. done.
  - destruct (digit_char_facts (n mod 10)) as [Hdig Hval]; [apply Z.mod_pos_bound; lia|].
    assert (Hacc' : forall v, digits_value v (digit_char (n mod 10) :: acc) =
      v * 10 ^ zlen (digit_char (n mod 10) :: acc) + digits_value 0 (digit_char (n mod 10) :: acc)).
    { intros v. cbn [digits_value]. rewrite Hval, (Hacc (10 * v + _)), (Hacc (10 * 0 + _)).
      unfold zlen. cbn [length]. rewrite Nat2Z.inj_succ, Z.pow_succ_r by lia. lia. }
    destruct (Z.ltb_spec n 10) as [Hlt|Hge].
    + cbn. rewrite Hdig, Hd, Hval, Z.mod_small by lia. done.
    + destruct (IH (n / 10) (digit_char (n mod 10) :: acc)) as (H1 & H2 & H3).
      * rewrite Nat2Z.inj_succ, Z.pow_succ_r in Hn by lia. split; [by apply Z.div_pos; lia|].
        apply Z.div_lt_upper_bound; lia.
      * done.
      * cbn. by rewrite Hdig, Hd.
      * split; [done|]. split.
        -- intros _. destruct f; [|by apply H2]. cbn. done.
        -- rewrite H3. cbn. rewrite Hval. f_equal. pose proof (Z.div_mod n 10). lia.
Qed.

Lemma show_fuel_enough n : 0 <= n -> n < 10 ^ Z.of_nat (show_fuel n).
Proof.
  intros Hn. unfold show_fuel. rewrite Nat2Z.inj_succ, Z2Nat.id by apply Z.log2_nonneg.
  assert (n < 2 ^ Z.succ (Z.log2 n)).
  { destruct (Z.eq_dec n 0) as [->|]; [done|]. apply Z.log2_spec. lia. }
  pose proof (Z.pow_le_mono_l 2 10 (Z.succ (Z.log2 n)) ltac:(lia)). by eapply Z.lt_le_trans.
Qed.

Lemma show_nonneg_digits n : 0 <= n ->
  forallb is_digit (bytes (show_nonneg n)) = true /\
  bytes (show_nonneg n) <> [] /\ digits_value 0 (bytes (show_nonneg n)) = n.
Proof.
  intros Hn. unfold show_nonneg. rewrite bytes_of_bytes.
  destruct (show_digits_spec (show_fuel n) n []) as (H1 & H2 & H3); try done.
  - split; [done | by apply show_fuel_enough].
  - intros v. cbn. change (zlen (@nil ascii)) with 0. lia.
  - split; [done|]. split; [by apply H2 | done].
Qed.

Lemma parse_digits_show n : 0 <= n -> parse_digits (bytes (show_nonneg n)) = Some n.
Proof.
  intros Hn. destruct (show_nonneg_digits n Hn) as (H1 & H2 & H3).
  unfold parse_digits. destruct (bytes (show_nonneg n)) eqn:E; [done|].
  rewrite H1. by rewrite H3.
Qed.

(** [x.to_string().parse()] is [x]. *)
Lemma parse_show_Z t z : in_range t z -> parse_int t (show_Z z) = Some z.
Proof.
  intros Hz. unfold show_Z, parse_int. destruct (Z.ltb_spec z 0).
  - cbn. assert (is_signed t = true) as -> by (apply Z.ltb_lt; unfold in_range in Hz; lia).
    rewrite parse_digits_show by lia. cbn. apply checked_Some. split; [lia|].
    by replace (- - z) with z by lia.
  - pose proof (show_nonneg_digits z ltac:(lia)) as (Hd & Hne & _).
    pose proof (parse_digits_show z ltac:(lia)) as Hp.
    destruct (bytes (show_nonneg z)) as [|a l] eqn:E; [done|].
    cbn in Hd. apply andb_prop in Hd as [Ha _].
    destruct (is_digit_not_sign a Ha) as [-> ->]. cbn [andb].
    rewrite Hp. cbn. by apply checked_in_range.
Qed.

Lemma show_Z_inj a b : show_Z a = show_Z b -> a = b.
Proof.
  intros H.
  assert (Hd : forall z, 0 <= z -> exists x l, bytes (show_nonneg z) = x :: l /\ is_digit x = true).
  { intros z Hz. destruct (show_nonneg_digits z Hz) as (H1 & H2 & _).
    destruct (bytes (show_nonneg z)) as [|x l]; [done|]. cbn in H1. bool_prop. eauto. }
  assert (Hneg : forall n m, 0 <= n -> 0 <= m -> String "-" (show_nonneg n) <> show_nonneg m).
  { intros n m Hn Hm Heq. destruct (Hd m Hm) as (x & l & Hx & Hdx).
    rewrite <- Heq in Hx. cbn in Hx. injection Hx as <- _. by vm_compute in Hdx. }
  assert (Hpos : forall n m, 0 <= n -> 0 <= m -> show_nonneg n = show_nonneg m -> n = m).
  { intros n m Hn Hm Heq. pose proof (parse_digits_show n Hn) as Hp.
    rewrite Heq, parse_digits_show in Hp by done. congruence. }
  unfold show_Z in H. destruct (Z.ltb_spec a 0), (Z.ltb_spec b 0).
  - injection H as H. apply Hpos in H; lia.
  - by apply Hneg in H; [|lia|lia].
  - symmetry in H. by apply Hneg in H; [|lia|lia].
  - apply Hpos in H; lia.
Qed.

Lemma split_char_nonempty c s : split_char c s <> [].
Proof. destruct s as [|a s]; cbn; [done|]. destruct (Ascii.eqb a c); [done|]. by destruct (split_char c s). Qed.

Lemma split_char_none c s : ~ In c (bytes s) -> split_char c s = [s].
Proof.
  induction s as [|a s IH]; cbn; intros H; [done|].
  destruct (Ascii.eqb_spec a c); [naive_solver|]. rewrite IH by naive_solver. done.
Qed.

Lemma split_char_app c s t : ~ In c (bytes s) ->
  split_char c (s ++ String c t) = s :: split_char c t.
Proof.
  induction s as [|a s IH]; cbn; intros H; [by rewrite Ascii.eqb_refl|].
  destruct (Ascii.eqb_spec a c); [naive_solver|]. rewrite IH by naive_solver. done.
Qed.

(** A separator splits, whatever is before it. *)
Lemma split_char_sep c s t : split_char c (s ++ String c t) = (split_char c s ++ split_char c t)%list.
Proof.
  induction s as [|a s IH]; cbn; [by rewrite Ascii.eqb_refl|].
  destruct (Ascii.eqb a c); rewrite IH; [done|].
  destruct (split_char c s) eqn:E; [by apply split_char_nonempty in E|done].
Qed.

Lemma strip_prefix_app p s : strip_prefix p (p ++ s)%string = Some s.
Proof. induction p as [|a p IH]; cbn; [by destruct s|]. by rewrite Ascii.eqb_refl. Qed.

Lemma strip_prefix_Some p s r : strip_prefix p s = Some r -> s = (p ++ r)%string.
Proof.
  revert s; induction p as [|a p IH]; intros [|b s]; cbn; try congruence.
  destruct (Ascii.eqb_spec a b) as [->|]; [|done]. intros H. f_equal. by apply IH.
Qed.

Lemma str_cmp_refl a : str_cmp a a = Eq.
Proof. unfold str_cmp. induction a as [|x a IH]; cbn; [done|]. unfold Ascii.compare. by rewrite N.compare_refl. Qed.
Lemma str_cmp_eq a b : str_cmp a b = Eq <-> a = b.
Proof. split; [apply String.compare_eq_iff | intros ->; apply str_cmp_refl]. Qed.
Lemma str_cmp_sym a b : str_cmp b a = CompOpp (str_cmp a b).
Proof. apply String.compare_antisym. Qed.

Lemma split_once_app c s t : ~ In c (bytes s) ->
  split_once (String c "") (s ++ String c t) = Some (s, t).
Proof.
  induction s as [|a s IH]; cbn; intros H; [by rewrite Ascii.eqb_refl|].
  destruct (Ascii.eqb_spec c a); [naive_solver|]. by rewrite IH by naive_solver.
Qed.

Lemma rsplit_once_cons p c s : rsplit_once p (String c s) =
  match rsplit_once p s with
  | Some (a, b) => Some (String c a, b)
  | None => match strip_prefix p (String c s) with Some r => Some (EmptyString, r) | None => None end
  end.
Proof. done. Qed.

Lemma rsplit_once_Some p s a b : rsplit_once p s = Some (a, b) -> s = (a ++ p ++ b)%string.
Proof.
  revert a b. induction s as [|c s IH]; intros a b; [done|]. rewrite rsplit_once_cons.
  destruct (rsplit_once p s) as [[a' b']|].
  - intros [= <- <-]. cbn. f_equal. by apply IH.
  - destruct (strip_prefix p (String c s)) as [r|] eqn:E; [|done].
    intros [= <- <-]. by apply strip_prefix_Some in E.
Qed.

Lemma rsplit_once_found p s : p <> ""%string -> is_Some (strip_prefix p s) ->
  is_Some (rsplit_once p s).
Proof.
  intros Hp. destruct s as [|c s].
  - destruct p; [done|]. by intros [? ?].
  - rewrite rsplit_once_cons. intros [r ->]. destruct (rsplit_once p s) as [[a b]|]; by eexists.
Qed.

Lemma rsplit_once_app p a b : p <> ""%string -> is_Some (rsplit_once p (a ++ p ++ b)%string).
Proof.
  intros Hp. induction a as [|c a IH].
  - change (EmptyString ++ p ++ b)%string with (p ++ b)%string.
    apply rsplit_once_found; [done|]. rewrite strip_prefix_app. by eexists.
  - change (String c a ++ p ++ b)%string with (String c (a ++ p ++ b)).
    rewrite rsplit_once_cons. destruct IH as [[x y] ->]. by eexists.
Qed.

Lemma starts_with_app p s : starts_with p (p ++ s)%string = true.
Proof. unfold starts_with. by rewrite strip_prefix_app. Qed.

Lemma ends_with_app p a : ends_with p (a ++ p)%string = true.
Proof.
  unfold ends_with, strip_suffix. rewrite bytes_app, rev_app_distr, of_bytes_app, strip_prefix_app.
  done.
Qed.

Lemma starts_with_inv p s : starts_with p s = true -> exists r, s = (p ++ r)%string.
Proof.
  unfold starts_with. destruct (strip_prefix p s) as [r|] eqn:E; [|done].
  intros _. exists r. by apply strip_prefix_Some.
Qed.

Lemma strip_suffix_Some p s r : strip_suffix p s = Some r -> s = (r ++ p)%string.
Proof.
  unfold strip_suffix. destruct (strip_prefix _ _) as [x|] eqn:E; [|done]. intros [= <-].
  apply strip_prefix_Some in E. apply (f_equal bytes) in E. rewrite bytes_app, !bytes_of_bytes in E.
  apply (f_equal (@rev ascii)) in E. rewrite rev_app_distr, !rev_involutive in E.
  apply bytes_inj. by rewrite bytes_app, bytes_of_bytes.
Qed.

Lemma ends_with_inv p s : ends_with p s = true -> exists r, s = (r ++ p)%string.
Proof.
  unfold ends_with. destruct (strip_suffix p s) as [r|] eqn:E; [|done].
  intros _. exists r. by apply strip_suffix_Some.
Qed.

Lemma substring_middle a p b :
  String.substring (String.length a) (String.length p) (a ++ p ++ b)%string = p.
Proof.
  induction a as [|c a IH]; cbn; [|done].
  induction p as [|d p IHp]; cbn; [by destruct b|by rewrite IHp].
Qed.

Lemma contains_app p a b : contains p (a ++ p ++ b)%string = true.
Proof.
  unfold contains. destruct (String.index 0 p _) as [i|] eqn:E; [done|].
  destruct p as [|c p].
  - exfalso. destruct (a ++ "" ++ b)%string; cbn in E; done.
  - exfalso. apply (String.index_correct3 _ (String.length a) _ _ E); [done|lia|].
    apply substring_middle.
Qed.

(** ** Trimmed text *)

(** No whitespace at the front, no whitespace at the back of the reversed list. *)
Definition front_clean (l : list ascii) : Prop :=
  match l with
  | [] => True
  | a :: l1 => ws1 a = false /\ match l1 with
      | [] => True
      | b :: l2 => ws2 a b = false /\ match l2 with [] => True | c :: _ => ws3 a b c = false end
      end
  end.
Definition back_clean (l : list ascii) : Prop :=
  match l with
  | [] => True
  | c :: l1 => ws1 c = false /\ match l1 with
      | [] => True
      | b :: l2 => ws2 b c = false /\ match l2 with [] => True | a :: _ => ws3 a b c = false end
      end
  end.

(** Induction as the trimming functions recur. *)
Lemma list_ind3 {A} (P : list A -> Prop) : P [] -> (forall a, P [a]) -> (forall a b, P [b] -> P [a; b]) ->
  (forall a b c l, P (b :: c :: l) -> P (c :: l) -> P l -> P (a :: b :: c :: l)) -> forall l, P l.
Proof.
  intros H0 H1 H2 H3 l. enough (H : P l /\ (forall a, P (a :: l)) /\ forall a b, P (a :: b :: l)) by tauto.
  induction l as [|x l (IH0 & IH1 & IH2)]; split_and!; auto.
Qed.

Lemma trim_front_clean l : front_clean (trim_front l).
Proof.
  induction l as [|a|a b IHb|a b c l IHb IHc IH] using list_ind3; cbn -[trim_front]; [done| | |].
  - cbn. by destruct (ws1 a) eqn:E1.
  - cbn in *. destruct (ws1 a) eqn:E1; [done|]. by destruct (ws2 a b) eqn:E2.
  - change (trim_front _) with (if ws1 a then trim_front (b :: c :: l) else
      if ws2 a b then trim_front (c :: l) else
      if ws3 a b c then trim_front l else a :: b :: c :: l).
    destruct (ws1 a) eqn:E1; [done|]. destruct (ws2 a b) eqn:E2; [done|].
    by destruct (ws3 a b c) eqn:E3.
Qed.

Lemma trim_back_clean l : back_clean (trim_back l).
Proof.
  induction l as [|a|a b IHb|a b c l IHb IHc IH] using list_ind3; cbn -[trim_back]; [done| | |].
  - cbn. by destruct (ws1 a) eqn:E1.
  - cbn in *. destruct (ws1 a) eqn:E1; [done|]. by destruct (ws2 b a) eqn:E2.
  - change (trim_back _) with (if ws1 a then trim_back (b :: c :: l) else
      if ws2 b a then trim_back (c :: l) else
      if ws3 c b a then trim_back l else a :: b :: c :: l).
    destruct (ws1 a) eqn:E1; [done|]. destruct (ws2 b a) eqn:E2; [done|].
    by destruct (ws3 c b a) eqn:E3.
Qed.

Lemma trim_front_id l : front_clean l -> trim_front l = l.
Proof.
  destruct l as [|a [|b [|c l]]]; cbn; [done| | |].
  - by intros [-> _].
  - by intros (-> & -> & _).
  - by intros (-> & -> & ->).
Qed.
Lemma trim_back_id l : back_clean l -> trim_back l = l.
Proof.
  destruct l as [|a [|b [|c l]]]; cbn; [done| | |].
  - by intros [-> _].
  - by intros (-> & -> & _).
  - by intros (-> & -> & ->).
Qed.

Lemma trim_back_suffix l : exists k, l = (k ++ trim_back l)%list.
Proof.
  induction l as [|a|a b [kb Hb]|a b c l [kb Hb] [kc Hc] [k H]] using list_ind3; [by exists []| | |].
  - cbn. destruct (ws1 a); [by exists [a]|by exists []].
  - cbn in *. destruct (ws1 a); [exists (a :: kb)%list; cbn; by f_equal|].
    destruct (ws2 b a); [by exists [a; b]|by exists []].
  - change (trim_back _) with (if ws1 a then trim_back (b :: c :: l) else
      if ws2 b a then trim_back (c :: l) else
      if ws3 c b a then trim_back l else a :: b :: c :: l) at 1.
    destruct (ws1 a); [exists (a :: kb)%list; cbn -[trim_back]; by f_equal|].
    destruct (ws2 b a); [exists (a :: b :: kc)%list; cbn -[trim_back]; by do 2 f_equal|].
    destruct (ws3 c b a); [exists (a :: b :: c :: k)%list; cbn -[trim_back]; by do 3 f_equal|by exists []].
Qed.

Lemma front_clean_prefix l k : front_clean (l ++ k)%list -> front_clean l.
Proof. destruct l as [|a [|b [|c l]]]; cbn; naive_solver. Qed.

Definition trimmed (s : string) : Prop := front_clean (bytes s) /\ back_clean (rev (bytes s)).

Lemma trim_trimmed s : trimmed (trim s).
Proof.
  unfold trimmed, trim. rewrite bytes_of_bytes, List.rev_involutive. split; [|apply trim_back_clean].
  destruct (trim_back_suffix (rev (trim_front (bytes s)))) as [k Hk].
  apply (front_clean_prefix _ (rev k)). rewrite <- List.rev_app_distr, <- Hk, List.rev_involutive.
  apply trim_front_clean.
Qed.

Lemma trimmed_trim s : trimmed s -> trim s = s.
Proof.
  intros [Hf Hb]. unfold trim. rewrite trim_front_id by done. rewrite trim_back_id by done.
  by rewrite List.rev_involutive, of_bytes_bytes.
Qed.

(** ** Upper case *)

Lemma byte_val_upper a :
  byte_val (to_upper a) = if is_ascii_lower a then byte_val a - 32 else byte_val a.
Proof.
  unfold to_upper. destruct (is_ascii_lower a) eqn:E; [|done].
  unfold is_ascii_lower in E. unfold byte_val at 1, ascii_of_Z.
  pose proof (N_ascii_bounded a). unfold byte_val in *. rewrite N_ascii_embedding; lia.
Qed.

Lemma to_upper_idem a : to_upper (to_upper a) = to_upper a.
Proof.
  unfold to_upper at 1. unfold is_ascii_lower. rewrite byte_val_upper.
  destruct (is_ascii_lower a) eqn:E; unfold is_ascii_lower in *.
  - replace ((97 <=? byte_val a - 32) && _) with false; [done|]. lia.
  - by rewrite E.
Qed.

Lemma ws_upper a b c : ws1 (to_upper a) = ws1 a /\ ws2 (to_upper a) (to_upper b) = ws2 a b
  /\ ws3 (to_upper a) (to_upper b) (to_upper c) = ws3 a b c.
Proof.
  unfold ws1, ws2, ws3. rewrite !byte_val_upper. unfold is_ascii_lower.
  destruct ((97 <=? byte_val a) && _) eqn:Ea, ((97 <=? byte_val b) && _) eqn:Eb,
    ((97 <=? byte_val c) && _) eqn:Ec; split_and!; lia.
Qed.

Lemma trimmed_upper s : trimmed s -> trimmed (to_ascii_uppercase s).
Proof.
  unfold trimmed, to_ascii_uppercase, map_str. rewrite bytes_of_bytes, <- List.map_rev.
  assert (Hf : forall l, front_clean l -> front_clean (map to_upper l)).
  { intros [|a [|b [|c l]]]; cbn; [done| | |].
    - by rewrite (proj1 (ws_upper a a a)).
    - destruct (ws_upper a b a) as (-> & -> & _). done.
    - destruct (ws_upper a b c) as (-> & -> & ->). done. }
  assert (Hb : forall l, back_clean l -> back_clean (map to_upper l)).
  { intros [|a [|b [|c l]]]; cbn; [done| | |].
    - by rewrite (proj1 (ws_upper a a a)).
    - rewrite (proj1 (ws_upper a a a)). destruct (ws_upper b a a) as (_ & -> & _). done.
    - rewrite (proj1 (ws_upper a a a)). destruct (ws_upper b a a) as (_ & -> & _).
      destruct (ws_upper c b a) as (_ & _ & ->). done. }
  intros []. auto.
Qed.

Lemma upper_idem s : to_ascii_uppercase (to_ascii_uppercase s) = to_ascii_uppercase s.
Proof.
  unfold to_ascii_uppercase, map_str. rewrite bytes_of_bytes, List.map_map. f_equal.
  apply List.map_ext. apply to_upper_idem.
Qed.

(** ** Splitting what was joined *)

Lemma split_char_join_back c l : l <> [] -> Forall (fun s => ~ In c (bytes s)) l ->
  split_char c (join (String c "") l) = l.
Proof.
  intros Hl H. induction H as [|s l Hs _ IH]; [done|]. destruct l as [|t l]; cbn.
  - by apply split_char_none.
  - rewrite split_char_app by done. f_equal. by apply IH.
Qed.

Lemma split_char_join c s : join (String c "") (split_char c s) = s.
Proof.
  induction s as [|a s IH]; cbn; [done|].
  pose proof (split_char_nonempty c s) as Hne.
  destruct (Ascii.eqb_spec a c) as [->|].
  - destruct (split_char c s) as [|p ps]; [done|]. unfold join in *. cbn in *.
    destruct ps; cbn in *; by rewrite IH.
  - destruct (split_char c s) as [|p ps]; [done|]. unfold join in *. cbn in *.
    destruct ps; cbn in *; by rewrite IH.
Qed.

Lemma split_char_without c s : Forall (fun p => ~ In c (bytes p)) (split_char c s).
Proof.
  induction s as [|a s IH]; cbn; [repeat constructor; cbn; tauto|].
  destruct (Ascii.eqb_spec a c) as [->|Hne]; [constructor; [cbn; tauto|done]|].
  destruct (split_char c s) as [|p ps]; [repeat constructor; cbn; tauto|].
  inversion IH; subst. constructor; [cbn; naive_solver|done].
Qed.

Lemma trim_bytes s a : In a (bytes (trim s)) -> In a (bytes s).
Proof.
  unfold trim. rewrite bytes_of_bytes, <- List.in_rev. intros H.
  destruct (trim_back_suffix (rev (trim_front (bytes s)))) as [k Hk].
  assert (H' : In a (rev (trim_front (bytes s)))) by (rewrite Hk; apply in_or_app; by right).
  rewrite <- List.in_rev in H'. clear -H'. induction (bytes s)
    as [|x|x y IHy|x y z l IHy IHz IH] using list_ind3; [done| | |].
  - cbn in *. by destruct (ws1 x).
  - cbn in *. destruct (ws1 x); [auto|]. by destruct (ws2 x y).
  - change (In a (if ws1 x then trim_front (y :: z :: l) else
      if ws2 x y then trim_front (z :: l) else
      if ws3 x y z then trim_front l else x :: y :: z :: l)) in H'.
    destruct (ws1 x); [right; auto|]. destruct (ws2 x y); [right; right; auto|].
    destruct (ws3 x y z); [right; right; right; auto|done].
Qed.
