(* ===== verification/OrderedMap.v ===== *)
(** * OrderedMap: [BTreeMap]

    A [BTreeMap<K, V>] is its sequence of entries in key order.  The order is a
    type class [KeyCmp]; its laws [KeyLaws] are stated on a domain of keys,
    because the order the workspace defines on decimals is lawful only away
    from the ends of [i128].  The operations are those of the Rust standard
    library: inserting at an equal key keeps the stored key and replaces the
    value.  The file proves the lookup equations clients rely on, the
    preservation of the order, and the laws for integers and strings. *)
From S2P Require Import Prelude Text.
From Stdlib Require Import Sorting.Sorted.
Open Scope Z_scope.

Class KeyCmp (K : Type) := kcmp : K -> K -> comparison.

Class KeyLaws (K : Type) {cmp : KeyCmp K} (P : K -> Prop) := {
  kcmp_refl : forall a, P a -> kcmp a a = Eq;
  kcmp_sym : forall a b, P a -> P b -> kcmp b a = CompOpp (kcmp a b);
  kcmp_lt_trans : forall a b c, P a -> P b -> P c ->
    kcmp a b = Lt -> kcmp b c = Lt -> kcmp a c = Lt;
  kcmp_eq_l : forall a b c, P a -> P b -> P c ->
    kcmp a b = Eq -> kcmp a c = kcmp b c;
}.

Definition btree (K V : Type) : Type := list (K * V).

Section operations.
Context {K V : Type} {cmp : KeyCmp K}.

(** [map.get(&k)] *)
Fixpoint bget (k : K) (m : btree K V) : option V :=
  match m with
  | [] => None
  | (k', v) :: m' =>
      match kcmp k k' with Lt => None | Eq => Some v | Gt => bget k m' end
  end.

(** [map.insert(k, v)] *)
Fixpoint binsert (k : K) (v : V) (m : btree K V) : btree K V :=
  match m with
  | [] => [(k, v)]
  | (k', v') :: m' =>
      match kcmp k k' with
      | Lt => (k, v) :: m
      | Eq => (k', v) :: m'
      | Gt => (k', v') :: binsert k v m'
      end
  end.

(** [map.remove(&k)] *)
Fixpoint bremove (k : K) (m : btree K V) : btree K V :=
  match m with
  | [] => []
  | (k', v') :: m' =>
      match kcmp k k' with
      | Lt => m
      | Eq => m'
      | Gt => (k', v') :: bremove k m'
      end
  end.

(** [*map.entry(k).or_insert(d)] updated by [f]. *)
Definition bupdate (k : K) (d : V) (f : V -> V) (m : btree K V) : btree K V :=
  match bget k m with
  | Some v => binsert k (f v) m
  | None => binsert k (f d) m
  end.

Definition bkeys (m : btree K V) : list K := m.*1.
Definition bvalues (m : btree K V) : list V := m.*2.

Definition bsorted (m : btree K V) : Prop :=
  StronglySorted (fun x y => kcmp x.1 y.1 = Lt) m.
End operations.

(** [iter.collect::<BTreeMap<_, _>>()] *)
Definition bcollect {K V} {cmp : KeyCmp K} (l : list (K * V)) : btree K V :=
  fold_left (fun m kv => binsert kv.1 kv.2 m) l [].

#[export] Instance Z_KeyCmp : KeyCmp Z := Z.compare.
#[export] Instance string_KeyCmp : KeyCmp string := str_cmp.

(** ** Lemmas *)

Section laws.
Context {K V : Type} {cmp : KeyCmp K} (P : K -> Prop) {HL : KeyLaws K P}.

(** The keys of a map lie in the domain and increase strictly. *)
Definition bmap_ok (m : btree K V) : Prop :=
  bsorted m /\ Forall (fun kv => P kv.1) m.

Lemma bmap_ok_nil : bmap_ok [].
Proof. split; constructor. Qed.

Lemma bmap_ok_cons k v m :
  bmap_ok ((k, v) :: m) <->
  P k /\ bmap_ok m /\ Forall (fun kv => kcmp k kv.1 = Lt) m.
Proof.
  unfold bmap_ok, bsorted. split.
  - intros [Hs Hf]. apply StronglySorted_inv in Hs as [? ?]. by inversion Hf; subst.
  - intros (? & [? ?] & ?). split; by constructor.
Qed.

Lemma kcmp_gt_lt a b : P a -> P b -> kcmp a b = Gt <-> kcmp b a = Lt.
Proof. intros. rewrite (kcmp_sym a b) by done. by destruct (kcmp a b). Qed.

Lemma kcmp_eq_r a b c : P a -> P b -> P c -> kcmp a b = Eq -> kcmp c a = kcmp c b.
Proof.
  intros. rewrite (kcmp_sym a c), (kcmp_sym b c) by done. f_equal. by apply (kcmp_eq_l (P:=P)).
Qed.

(** Below the first key there is nothing. *)
Lemma bget_lt_head k (m : btree K V) : P k -> Forall (fun kv => P kv.1) m ->
  Forall (fun kv => kcmp k kv.1 = Lt) m -> bget k m = None.
Proof. intros Hk HP Hlt. destruct m as [|[k' v'] m]; cbn; [done|]. inversion Hlt as [|? ? E]; subst. cbn in E. by rewrite E. Qed.

Lemma bget_insert k (v : V) q m : P k -> P q -> bmap_ok m ->
  bget q (binsert k v m) = match kcmp q k with Eq => Some v | _ => bget q m end.
Proof.
  intros Hk Hq. induction m as [|[k' v'] m IH]; intros Hm; cbn.
  - by destruct (kcmp q k).
  - apply bmap_ok_cons in Hm as (Hk' & Hm & Hlt).
    destruct (kcmp k k') eqn:E; cbn.
    + rewrite (kcmp_eq_r k k' q) by done. by destruct (kcmp q k').
    + destruct (kcmp q k) eqn:Eq; try done.
      by rewrite (kcmp_lt_trans (P:=P) q k k') by done.
    + apply kcmp_gt_lt in E; [|done..].
      destruct (kcmp q k') eqn:Eq.
      * rewrite (kcmp_eq_l (P:=P) q k' k) by done. by rewrite E.
      * by rewrite (kcmp_lt_trans (P:=P) q k' k) by done.
      * by apply IH.
Qed.

Lemma bget_remove k q (m : btree K V) : P k -> P q -> bmap_ok m ->
  bget q (bremove k m) = match kcmp q k with Eq => None | _ => bget q m end.
Proof.
  intros Hk Hq. induction m as [|[k' v'] m IH]; intros Hm; cbn.
  - by destruct (kcmp q k).
  - apply bmap_ok_cons in Hm as (Hk' & Hm & Hlt).
    destruct (kcmp k k') eqn:E; cbn.
    + rewrite (kcmp_eq_r k k' q) by done.
      assert (Hnone : forall x, P x -> kcmp x k' <> Gt -> bget x m = None).
      { intros x Hx Hn. apply bget_lt_head; [done|by destruct Hm|].
        destruct Hm as [_ Hm]. rewrite Forall_forall in *. intros [y w] Hy.
        specialize (Hlt _ Hy). specialize (Hm _ Hy). cbn in *.
        destruct (kcmp x k') eqn:Ex; [| |done].
        - by rewrite (kcmp_eq_l (P:=P) x k' y).
        - by apply (kcmp_lt_trans (P:=P) x k' y). }
      destruct (kcmp q k') eqn:Eq; [by apply Hnone; [|rewrite Eq]..|done].
    + destruct (kcmp q k) eqn:Eq; cbn; try done.
      by rewrite (kcmp_eq_l (P:=P) q k k'), E by done.
    + apply kcmp_gt_lt in E; [|done..].
      destruct (kcmp q k') eqn:Eq.
      * rewrite (kcmp_eq_l (P:=P) q k' k) by done. by rewrite E.
      * by rewrite (kcmp_lt_trans (P:=P) q k' k) by done.
      * by apply IH.
Qed.

Lemma binsert_Forall (Q : K * V -> Prop) k v m :
  (forall k', Q (k', v)) -> Forall Q m -> Forall Q (binsert k v m).
Proof.
  intros Hv. induction m as [|[k' v'] m IH]; cbn; intros Hm; [by repeat constructor|].
  inversion Hm; subst. destruct (kcmp k k'); repeat constructor; auto.
Qed.

Lemma binsert_Forall_key (Q : K -> Prop) k v m :
  Q k -> Forall (fun kv : K * V => Q kv.1) m -> Forall (fun kv => Q kv.1) (binsert k v m).
Proof.
  intros Hk. induction m as [|[k' v'] m IH]; cbn; intros Hm; [by repeat constructor|].
  inversion Hm; subst. destruct (kcmp k k'); repeat constructor; auto.
Qed.

Lemma bremove_Forall (Q : K * V -> Prop) k m : Forall Q m -> Forall Q (bremove k m).
Proof.
  induction m as [|[k' v'] m IH]; cbn; intros Hm; [done|].
  inversion Hm; subst. destruct (kcmp k k'); repeat constructor; auto.
Qed.

Lemma binsert_ok k (v : V) m : P k -> bmap_ok m -> bmap_ok (binsert k v m).
Proof.
  intros Hk. induction m as [|[k' v'] m IH]; intros Hm; cbn.
  - apply bmap_ok_cons. repeat split; try done; constructor.
  - pose proof Hm as Hm'. apply bmap_ok_cons in Hm as (Hk' & Hm & Hlt).
    destruct (kcmp k k') eqn:E; apply bmap_ok_cons; (split; [done|]); (split; [by auto|]).
    + done.
    + constructor; [done|]. destruct Hm as [_ Hm]. rewrite Forall_forall in *.
      intros [y w] Hy. specialize (Hlt _ Hy). specialize (Hm _ Hy).
      by apply (kcmp_lt_trans (P:=P) k k' y).
    + apply (binsert_Forall_key (fun x => kcmp k' x = Lt)); [|done]. by apply kcmp_gt_lt.
Qed.

Lemma bremove_ok k (m : btree K V) : bmap_ok m -> bmap_ok (bremove k m).
Proof.
  induction m as [|[k' v'] m IH]; intros Hm; cbn; [done|].
  pose proof Hm as Hm'. apply bmap_ok_cons in Hm as (Hk' & Hm & Hlt).
  destruct (kcmp k k') eqn:E; try done.
  apply bmap_ok_cons. split; [done|]. split; [by auto|]. by apply bremove_Forall.
Qed.

Lemma bupdate_ok k (d : V) f m : P k -> bmap_ok m -> bmap_ok (bupdate k d f m).
Proof. intros. unfold bupdate. destruct (bget k m); by apply binsert_ok. Qed.

Lemma bget_update k (d : V) f q m : P k -> P q -> bmap_ok m ->
  bget q (bupdate k d f m) =
  match kcmp q k with Eq => Some (f (default d (bget k m))) | _ => bget q m end.
Proof.
  intros. unfold bupdate. destruct (bget k m); by apply bget_insert.
Qed.

Lemma bget_elem_of k (v : V) m : P k -> bmap_ok m -> bget k m = Some v ->
  exists k', (k', v) ∈ m /\ kcmp k k' = Eq.
Proof.
  intros Hk. induction m as [|[k' v'] m IH]; intros Hm; cbn; [done|].
  apply bmap_ok_cons in Hm as (Hk' & Hm & Hlt).
  destruct (kcmp k k') eqn:E; [intros [= <-]; exists k'; split; [apply list_elem_of_here|done] | done |].
  intros (k2 & ? & ?)%IH; [|done]. exists k2. split; [by apply list_elem_of_further|done].
Qed.

Lemma bget_of_elem k (v : V) m : bmap_ok m -> (k, v) ∈ m -> bget k m = Some v.
Proof.
  induction m as [|[k' v'] m IH]; intros Hm Hin; [by apply elem_of_nil in Hin|].
  apply bmap_ok_cons in Hm as (Hk' & Hm & Hlt). cbn.
  apply elem_of_cons in Hin as [[= -> ->]|Hin]; [by rewrite (kcmp_refl (P:=P))|].
  rewrite Forall_forall in Hlt. pose proof (Hlt _ Hin) as E. cbn in E.
  assert (P k) by (destruct Hm as [_ Hm]; rewrite Forall_forall in Hm; apply (Hm _ Hin)).
  rewrite (proj2 (kcmp_gt_lt k k' ltac:(done) Hk') E). by apply IH.
Qed.
End laws.

Lemma ascii_cmp_lt_trans a b c :
  Ascii.compare a b = Lt -> Ascii.compare b c = Lt -> Ascii.compare a c = Lt.
Proof. unfold Ascii.compare. rewrite !N.compare_lt_iff. lia. Qed.

Lemma str_cmp_lt_trans a b c : str_cmp a b = Lt -> str_cmp b c = Lt -> str_cmp a c = Lt.
Proof.
  revert b c. induction a as [|x a IH]; intros [|y b] [|z c]; cbn; try done.
  destruct (Ascii.compare x y) eqn:E1; try done.
  - apply Ascii.compare_eq_iff in E1 as ->. destruct (Ascii.compare y z) eqn:E2; try done.
    apply IH.
  - intros _. destruct (Ascii.compare y z) eqn:E2; try done.
    + apply Ascii.compare_eq_iff in E2 as ->. by rewrite E1.
    + by rewrite (ascii_cmp_lt_trans x y z).
Qed.

Lemma str_leb_total a b : str_leb a b = true \/ str_leb b a = true.
Proof. unfold str_leb. rewrite (str_cmp_sym a b). destruct (str_cmp a b); cbn; auto. Qed.

Lemma str_leb_lt_or_eq a b : str_leb a b = true <-> a = b \/ str_cmp a b = Lt.
Proof.
  unfold str_leb. destruct (str_cmp a b) eqn:Ec; cbn.
  - apply str_cmp_eq in Ec. naive_solver.
  - naive_solver.
  - split; [done|]. intros [->|?]; [|done]. by rewrite str_cmp_refl in Ec.
Qed.

Lemma str_leb_trans a b c : str_leb a b = true -> str_leb b c = true -> str_leb a c = true.
Proof.
  rewrite !str_leb_lt_or_eq. intros [->|Hab] [->|Hbc]; auto. right. by eapply str_cmp_lt_trans.
Qed.

Lemma str_leb_antisym a b : str_leb a b = true -> str_leb b a = true -> a = b.
Proof.
  rewrite !str_leb_lt_or_eq. intros [?|Hab] [?|Hba]; try by subst.
  by rewrite str_cmp_sym, Hab in Hba.
Qed.

#[export] Hint Resolve bmap_ok_nil binsert_ok bremove_ok bupdate_ok : ingest.

(** ** Derived orders: fields compared in turn, or through an injective view *)

#[export] Instance pair_KeyCmp {A B} `{KeyCmp A, KeyCmp B} : KeyCmp (A * B) :=
  fun x y => match kcmp x.1 y.1 with Eq => kcmp x.2 y.2 | c => c end.

(** Laws of an order whose [Eq] is equality. *)
Class StrictKey (K : Type) {c : KeyCmp K} := {
  sk_eq : forall a b : K, kcmp a b = Eq <-> a = b;
  sk_sym : forall a b : K, kcmp b a = CompOpp (kcmp a b);
  sk_trans : forall a b d : K, kcmp a b = Lt -> kcmp b d = Lt -> kcmp a d = Lt;
}.

#[export] Instance Z_StrictKey : StrictKey Z.
Proof.
  split; unfold kcmp, Z_KeyCmp; intros.
  - apply Z.compare_eq_iff.
  - apply Z.compare_antisym.
  - rewrite Z.compare_lt_iff in *. lia.
Qed.

#[export] Instance string_StrictKey : StrictKey string.
Proof.
  split; unfold kcmp, string_KeyCmp; intros.
  - apply str_cmp_eq.
  - apply str_cmp_sym.
  - by eapply str_cmp_lt_trans.
Qed.

Lemma pair_kcmp {A B} `{KeyCmp A, KeyCmp B} (a a' : A) (b b' : B) :
  kcmp (a, b) (a', b') = match kcmp a a' with Eq => kcmp b b' | c => c end.
Proof. done. Qed.

#[export] Instance pair_StrictKey {A B} `{StrictKey A, StrictKey B} : StrictKey (A * B).
Proof.
  split.
  - intros [a b] [a' b']. rewrite pair_kcmp. destruct (kcmp a a') eqn:E.
    + apply sk_eq in E as ->. rewrite sk_eq. split; [by intros -> | by intros [= ->]].
    + split; [done|]. intros [= -> ->]. by rewrite (proj2 (sk_eq a' a') eq_refl) in E.
    + split; [done|]. intros [= -> ->]. by rewrite (proj2 (sk_eq a' a') eq_refl) in E.
  - intros [a b] [a' b']. rewrite !pair_kcmp, (sk_sym a a'), (sk_sym b b').
    by destruct (kcmp a a').
  - intros [a b] [a' b'] [a2 b2]. rewrite !pair_kcmp.
    destruct (kcmp a a') eqn:E1; [apply sk_eq in E1 as ->|intros _|done].
    + destruct (kcmp a' a2); try done. apply sk_trans.
    + destruct (kcmp a' a2) eqn:E2; [apply sk_eq in E2 as ->|intros _|done].
      * by rewrite E1.
      * by rewrite (sk_trans _ _ _ E1 E2).
Qed.

(** A record compared as the tuple of its fields, the derived [Ord]. *)
Definition via_cmp {A B} `{KeyCmp B} (f : A -> B) : KeyCmp A := fun x y => kcmp (f x) (f y).

Lemma via_StrictKey {A B} `{StrictKey B} (f : A -> B) (f_inj : forall x y, f x = f y -> x = y) :
  @StrictKey A (via_cmp f).
Proof.
  split; unfold kcmp, via_cmp.
  - intros a b. rewrite sk_eq. split; [apply f_inj | by intros ->].
  - intros. apply sk_sym.
  - intros a b d. apply sk_trans.
Qed.

#[export] Instance StrictKey_laws {K} `{StrictKey K} : KeyLaws K (fun _ => True).
Proof.
  split.
  - intros. by apply sk_eq.
  - intros. apply sk_sym.
  - intros a b d _ _ _. apply sk_trans.
  - intros a b d _ _ _ E. by apply sk_eq in E as ->.
Qed.

(** ** Entries as a multiset, for keys whose [Eq] is equality *)

Section entries.
Context {K V : Type} {c : KeyCmp K} {HK : StrictKey K}.

Lemma bget_perm k (v : V) m : bget k m = Some v -> m ≡ₚ (k, v) :: bremove k m.
Proof.
  induction m as [|[k' v'] m IH]; cbn; [done|].
  destruct (kcmp k k') eqn:E; [apply sk_eq in E as ->; by intros [= ->] | done |].
  intros H. rewrite IH at 1 by done. apply Permutation_swap.
Qed.

Lemma binsert_perm_Some k (v v' : V) m : bget k m = Some v -> binsert k v' m ≡ₚ (k, v') :: bremove k m.
Proof.
  induction m as [|[k2 v2] m IH]; cbn; [done|].
  destruct (kcmp k k2) eqn:E; [apply sk_eq in E as ->; done | done |].
  intros H. rewrite IH by done. apply Permutation_swap.
Qed.

Lemma binsert_perm_None k (v : V) m : bget k m = None -> bmap_ok (fun _ => True) m ->
  binsert k v m ≡ₚ (k, v) :: m.
Proof.
  intros H _. revert H. induction m as [|[k2 v2] m IH]; cbn; [done|].
  destruct (kcmp k k2) eqn:E; [done | done |].
  intros H. rewrite IH by done. apply Permutation_swap.
Qed.
End entries.

Lemma bget_insert_str {V} (k q : string) (v : V) m : bmap_ok (fun _ => True) m ->
  bget q (binsert k v m) = if String.eqb q k then Some v else bget q m.
Proof.
  intros. rewrite (bget_insert (fun _ => True)) by done.
  destruct (kcmp q k) eqn:E; destruct (String.eqb_spec q k) as [->|Hn]; try done.
  - by apply str_cmp_eq in E.
  - change (str_cmp k k = Lt) in E. by rewrite str_cmp_refl in E.
  - change (str_cmp k k = Gt) in E. by rewrite str_cmp_refl in E.
Qed.

(** ** Keys of a collected map *)

Lemma binsert_keys {K V} `{StrictKey K} (k q : K) (v : V) m :
  q ∈ bkeys (binsert k v m) <-> q = k \/ q ∈ bkeys m.
Proof.
  unfold bkeys. induction m as [|[k' v'] m IH]; cbn.
  - rewrite list_elem_of_singleton, elem_of_nil. tauto.
  - destruct (kcmp k k') eqn:E; cbn; rewrite !elem_of_cons; [|tauto|].
    + apply sk_eq in E as ->. tauto.
    + rewrite IH. tauto.
Qed.

Lemma bcollect_keys {K V} `{StrictKey K} (l : list (K * V)) (q : K) :
  q ∈ bkeys (bcollect l) <-> q ∈ l.*1.
Proof.
  assert (Hg : forall m : btree K V,
    q ∈ bkeys (fold_left (fun m kv => binsert kv.1 kv.2 m) l m) <-> q ∈ bkeys m \/ q ∈ l.*1).
  { induction l as [|[k v] l IH]; intros m; cbn [fold_left fst snd fmap list_fmap].
    - rewrite elem_of_nil. tauto.
    - rewrite (IH (binsert k v m)), binsert_keys, elem_of_cons. tauto. }
  unfold bcollect. rewrite (Hg []). unfold bkeys. cbn. rewrite elem_of_nil. tauto.
Qed.

Section strict.
Context {K V : Type} {c : KeyCmp K} {HK : StrictKey K}.
Abbreviation ok := (bmap_ok (fun _ : K => True)).

Lemma fold_insert_ok (l : list (K * V)) m : ok m ->
  ok (fold_left (fun m kv => binsert kv.1 kv.2 m) l m).
Proof. revert m. induction l; cbn; intros; [done|]. by apply IHl, (binsert_ok (fun _ => True)). Qed.

Lemma bcollect_ok (l : list (K * V)) : ok (bcollect l).
Proof. apply fold_insert_ok, bmap_ok_nil. Qed.

Lemma bget_insert_strict (k q : K) (v : V) m : ok m ->
  bget q (binsert k v m) = Some v /\ q = k \/ bget q (binsert k v m) = bget q m /\ q <> k.
Proof.
  intros Hm. rewrite (bget_insert (fun _ => True)) by done. destruct (kcmp q k) eqn:E.
  - left. split; [done|]. by apply sk_eq.
  - right. split; [done|]. intros ->. by rewrite (proj2 (sk_eq k k) eq_refl) in E.
  - right. split; [done|]. intros ->. by rewrite (proj2 (sk_eq k k) eq_refl) in E.
Qed.

Lemma bget_collect_elem (l : list (K * V)) q v : bget q (bcollect l) = Some v -> (q, v) ∈ l.
Proof.
  assert (H : forall l m, ok m -> bget q (fold_left (fun m kv => binsert kv.1 kv.2 m) l m) = Some v ->
    (q, v) ∈ l \/ bget q m = Some v).
  { clear l. induction l as [|[k x] l IH]; cbn; intros m Hm Hq; [by right|].
    destruct (IH _ (binsert_ok (fun _ => True) k x m I Hm) Hq) as [?|Hg]; [left; by right|].
    destruct (bget_insert_strict k q x m Hm) as [[E ->]|[E _]]; rewrite E in Hg; [|by right].
    injection Hg as ->. left. by left. }
  intros Hq. destruct (H l [] (bmap_ok_nil _) Hq) as [?|?]; done.
Qed.

Lemma bget_is_Some_keys q (m : btree K V) : ok m -> is_Some (bget q m) <-> q ∈ bkeys m.
Proof.
  intros Hm. unfold bkeys. rewrite list_elem_of_fmap. split.
  - intros [v Hv]. destruct (bget_elem_of (fun _ => True) q v m I Hm Hv) as (k & Hin & E).
    apply sk_eq in E as ->. by exists (k, v).
  - intros ([k v] & -> & Hin). exists v. by apply (bget_of_elem (fun _ => True)).
Qed.

Lemma bget_collect_is_Some (l : list (K * V)) q : is_Some (bget q (bcollect l)) <-> q ∈ l.*1.
Proof. rewrite bget_is_Some_keys by apply bcollect_ok. apply bcollect_keys. Qed.

(** The entries of a map, from its lookups. *)
Lemma bget_entries q v (m : btree K V) : ok m -> (q, v) ∈ m <-> bget q m = Some v.
Proof.
  intros Hm. split; [by apply (bget_of_elem (fun _ => True))|]. intros Hv.
  destruct (bget_elem_of (fun _ => True) q v m I Hm Hv) as (k & Hin & E). by apply sk_eq in E as ->.
Qed.

Lemma bget_insert_ne (k q : K) (v : V) m : ok m -> q <> k -> bget q (binsert k v m) = bget q m.
Proof. intros Hm Hne. by destruct (bget_insert_strict k q v m Hm) as [[_ ?]|[? _]]. Qed.

Lemma bget_insert_eq (k : K) (v : V) m : ok m -> bget k (binsert k v m) = Some v.
Proof. intros Hm. by destruct (bget_insert_strict k k v m Hm) as [[? _]|[_ ?]]. Qed.

(** [map.entry(k).or_insert(d)] *)
Lemma bget_or_insert (k q : K) (d : V) m : ok m ->
  bget q (bupdate k d (fun v => v) m) =
  match bget q m, kcmp q k with Some v, _ => Some v | None, Eq => Some d | None, _ => None end.
Proof.
  intros Hm. rewrite (bget_update (fun _ => True)) by done. destruct (kcmp q k) eqn:E.
  - apply sk_eq in E as ->. by destruct (bget k m).
  - by destruct (bget q m).
  - by destruct (bget q m).
Qed.
Definition key_eqb (a b : K) : bool := match kcmp a b with Eq => true | _ => false end.

Lemma key_eqb_spec a b : reflect (a = b) (key_eqb a b).
Proof.
  unfold key_eqb. destruct (kcmp a b) eqn:E; constructor; [by apply sk_eq| |];
    intros ->; by rewrite (proj2 (sk_eq b b) eq_refl) in E.
Qed.

Lemma key_eqb_refl a : key_eqb a a = true.
Proof. unfold key_eqb. by rewrite (proj2 (sk_eq a a) eq_refl). Qed.

Lemma bget_update_strict (k q : K) (d : V) f m : ok m ->
  bget q (bupdate k d f m) = if key_eqb q k then Some (f (default d (bget k m))) else bget q m.
Proof.
  intros Hm. rewrite (bget_update (fun _ => True)) by done. unfold key_eqb. by destruct (kcmp q k).
Qed.

Lemma bget_below k q v (m : btree K V) : ok ((k, v) :: m) -> kcmp q k <> Gt -> bget q m = None.
Proof.
  intros (_ & Hm & Hlt)%(bmap_ok_cons (fun _ => True)) Hq.
  apply (bget_lt_head (fun _ => True)); [done|by destruct Hm|].
  eapply Forall_impl; [exact Hlt|]. intros [x w]; cbn. intros Hx.
  destruct (kcmp q k) eqn:E; [by apply sk_eq in E as ->| |done]. by eapply sk_trans.
Qed.

(** A map is determined by its lookups. *)
Lemma bget_ext (m m' : btree K V) : ok m -> ok m' -> (forall q, bget q m = bget q m') -> m = m'.
Proof.
  revert m'. induction m as [|[k v] m IH]; intros [|[k' v'] m'] Hm Hm' Hq; [done| | |].
  - specialize (Hq k'). cbn in Hq. by rewrite (proj2 (sk_eq k' k') eq_refl) in Hq.
  - specialize (Hq k). cbn in Hq. by rewrite (proj2 (sk_eq k k) eq_refl) in Hq.
  - assert (Hk : k = k').
    { pose proof (Hq k) as H1. pose proof (Hq k') as H2. cbn in H1, H2.
      rewrite (proj2 (sk_eq k k) eq_refl) in H1. rewrite (proj2 (sk_eq k' k') eq_refl) in H2.
      destruct (kcmp k k') eqn:E; [by apply sk_eq|done|]. by rewrite (sk_sym k k'), E in H2. }
    subst k'. pose proof (Hq k) as H1. cbn in H1. rewrite (proj2 (sk_eq k k) eq_refl) in H1.
    injection H1 as ->. f_equal. apply IH.
    + by apply (bmap_ok_cons (fun _ => True)) in Hm as (_ & Hm & _).
    + by apply (bmap_ok_cons (fun _ => True)) in Hm' as (_ & Hm' & _).
    + intros q. specialize (Hq q). cbn in Hq. destruct (kcmp q k) eqn:E; [| |done];
        rewrite (bget_below k q v' m), (bget_below k q v' m'); try done; congruence.
Qed.
(** A loop that updates one entry for each element: the entry of a key is the fold of the
    elements with that key. *)
Definition bfold {A} (key : A -> K) (d : A -> V) (step : A -> V -> V) (l : list A) : btree K V :=
  fold_left (fun m x => bupdate (key x) (d x) (step x) m) l [].

Lemma bfold_snoc {A} (key : A -> K) d step l (x : A) :
  bfold key d step (l ++ [x]) = bupdate (key x) (d x) (step x) (bfold key d step l).
Proof. unfold bfold. by rewrite fold_left_app. Qed.

Lemma bfold_ok {A} (key : A -> K) d step l : ok (bfold (A := A) key d step l).
Proof.
  induction l as [|x l IH] using rev_ind; [apply bmap_ok_nil|].
  rewrite bfold_snoc. by apply (bupdate_ok (fun _ => True)).
Qed.

Definition with_key {A} (key : A -> K) (q : K) (l : list A) : list A :=
  List.filter (fun x => key_eqb q (key x)) l.

Lemma bget_bfold {A} (key : A -> K) d step l q : bget q (bfold (A := A) key d step l) =
  match with_key key q l with
  | [] => None
  | x :: g => Some (fold_left (fun v y => step y v) (x :: g) (d x))
  end.
Proof.
  induction l as [|x l IH] using rev_ind; [done|].
  rewrite bfold_snoc, bget_update_strict by apply bfold_ok. unfold with_key in *.
  rewrite List.filter_app. cbn [List.filter]. destruct (key_eqb_spec q (key x)) as [->|Hne].
  - rewrite IH. destruct (List.filter _ l) as [|y g]; cbn; [done|]. by rewrite fold_left_app.
  - by rewrite List.app_nil_r.
Qed.

Lemma with_key_In {A} (key : A -> K) q l (x : A) : In x (with_key key q l) <-> In x l /\ key x = q.
Proof.
  unfold with_key. rewrite filter_In. destruct (key_eqb_spec q (key x)); naive_solver.
Qed.
Lemma bkeys_NoDup (m : btree K V) : ok m -> NoDup (bkeys m).
Proof.
  induction m as [|[k v] m IH]; intros Hm; [constructor|].
  pose proof Hm as Hm0. apply (bmap_ok_cons (fun _ => True)) in Hm as (_ & Hm & _).
  unfold bkeys. cbn. constructor; [|by apply IH]. intros Hin.
  apply (bget_is_Some_keys k m Hm) in Hin as [w Hw].
  rewrite (bget_below k k v m Hm0) in Hw; [done|]. by rewrite (proj2 (sk_eq k k) eq_refl).
Qed.
End strict.

(** The values seen through a function: two maps show the same when their lookups do. *)
Lemma bvalues_same {K V W} {c : KeyCmp K} {HK : StrictKey K} (f g : V -> W) (m m' : btree K V) :
  bmap_ok (fun _ => True) m -> bmap_ok (fun _ => True) m' ->
  (forall q, f <$> bget q m = g <$> bget q m') -> f <$> bvalues m = g <$> bvalues m'.
Proof.
  set (see := fun (f : V -> W) (kv : K * V) => (kv.1, f kv.2)). intros Hm Hm' Hq.
  assert (Hget : forall f (m : btree K V) q, bget q (see f <$> m) = f <$> bget q m).
  { intros h n q. induction n as [|[k v] n IH]; [done|]. cbn. by destruct (kcmp q k). }
  assert (Hok : forall f (n : btree K V), bmap_ok (fun _ => True) n -> bmap_ok (fun _ : K => True) (see f <$> n)).
  { intros h n. induction n as [|[k v] n IH]; intros Hn; [apply bmap_ok_nil|].
    apply bmap_ok_cons in Hn as (_ & Hn & Hlt). apply bmap_ok_cons. split; [done|]. split; [by apply IH|].
    by apply Forall_fmap. }
  assert (Hvals : forall f (n : btree K V), f <$> bvalues n = bvalues (see f <$> n)).
  { intros h n. unfold bvalues. by rewrite <- !list_fmap_compose. }
  rewrite !Hvals. f_equal. apply bget_ext; [by apply Hok|by apply Hok|]. intros q. by rewrite !Hget.
Qed.
