(* ===== verification/Decimal.v ===== *)
(** * Decimal: fixed-point numbers of [crypto-domain]

    [FixedDecimal] is an [i128] value with a [u32] scale.  The operations are
    those of [crates/crypto-domain/src/numeric]: parsing, alignment to a common
    scale, checked and saturating comparison, arithmetic and the wire form. *)
From S2P Require Import Prelude Text.
Open Scope Z_scope.

(* rust: crypto-domain/src/error.rs DomainError *)
Inductive DomainError :=
| EmptyDecimal
| InvalidDecimal (s : string)
| NegativeUnsignedDecimal (s : string)
| ScaleOverflow
| DivideByZero
| InvalidSymbol (s : string)
| InvalidMarketValue (s : string).

#[export] Instance DomainError_eq_dec : EqDecision DomainError.
Proof. solve_decision. Defined.

(* rust: crypto-domain/src/numeric/bps.rs Bps *)
Record Bps := mkBps { bps_value : Z }.

(* rust: crypto-domain/src/numeric/fixed_decimal.rs FixedDecimal *)
Record FixedDecimal := mkDec { value : Z; scale : Z }.

#[export] Instance Bps_eq_dec : EqDecision Bps.
Proof. solve_decision. Defined.
#[export] Instance FixedDecimal_eq_dec : EqDecision FixedDecimal.
Proof. solve_decision. Defined.

(** The values the Rust type can hold. *)
Definition dec_wf (d : FixedDecimal) : Prop :=
  in_range I128 (value d) /\ in_range U32 (scale d).

#[export] Instance dec_wf_dec d : Decision (dec_wf d).
Proof. unfold dec_wf. apply _. Defined.

(* rust: crypto-domain/src/numeric/fixed_decimal.rs zero *)
Definition zero : FixedDecimal := mkDec 0 0.

(* rust: crypto-domain/src/numeric/fixed_decimal.rs is_positive *)
Definition is_positive (d : FixedDecimal) : bool := 0 <? value d.

(* rust: crypto-domain/src/numeric/fixed_decimal.rs is_non_negative *)
Definition is_non_negative (d : FixedDecimal) : bool := 0 <=? value d.

(** ** Scale alignment *)

Fixpoint pow10_loop (n : nat) (acc : Z) : option Z :=
  match n with
  | O => Some acc
  | S n' => acc' ← checked I128 (acc * 10); pow10_loop n' acc'
  end.

(* rust: fixed_decimal/scale.rs pow10 *)
Definition pow10 (s : Z) : result DomainError Z :=
  ok_or (pow10_loop (Z.to_nat s) 1) ScaleOverflow.

(* rust: fixed_decimal/scale.rs align_value *)
Definition align_value (d : FixedDecimal) (target_scale : Z) : result DomainError Z :=
  scale_delta ← ok_or (checked U32 (target_scale - scale d)) ScaleOverflow;
  p ← pow10 scale_delta;
  ok_or (checked I128 (value d * p)) ScaleOverflow.

Fixpoint saturating_align_loop (n : nat) (acc : Z) : Z :=
  match n with
  | O => acc
  | S n' =>
      match checked I128 (acc * 10) with
      | Some next => saturating_align_loop n' next
      | None => if 0 <=? acc then int_max I128 else int_min I128
      end
  end.

(* rust: fixed_decimal/scale.rs saturating_align *)
Definition saturating_align (v scale_delta : Z) : Z :=
  saturating_align_loop (Z.to_nat scale_delta) v.

(** ** Ordering *)

(* rust: fixed_decimal/ordering.rs cmp *)
Definition cmp (self other : FixedDecimal) : comparison :=
  let s := Z.max (scale self) (scale other) in
  let left := saturating_align (value self) (saturate U32 (s - scale self)) in
  let right := saturating_align (value other) (saturate U32 (s - scale other)) in
  left ?= right.

(* rust: fixed_decimal/comparison.rs cmp_scaled *)
Definition cmp_scaled (self rhs : FixedDecimal) : result DomainError comparison :=
  let s := Z.max (scale self) (scale rhs) in
  l ← align_value self s; r ← align_value rhs s; Ok (l ?= r).

(* rust: fixed_decimal/comparison.rs checked_min *)
Definition checked_min (self rhs : FixedDecimal) : result DomainError FixedDecimal :=
  c ← cmp_scaled self rhs; Ok (match c with Gt => rhs | _ => self end).

(* rust: fixed_decimal/comparison.rs checked_gt *)
Definition checked_gt (self rhs : FixedDecimal) : result DomainError bool :=
  c ← cmp_scaled self rhs; Ok (match c with Gt => true | _ => false end).

(* rust: fixed_decimal/comparison.rs checked_lt *)
Definition checked_lt (self rhs : FixedDecimal) : result DomainError bool :=
  c ← cmp_scaled self rhs; Ok (match c with Lt => true | _ => false end).

(* rust: fixed_decimal/comparison.rs checked_eq *)
Definition checked_eq (self rhs : FixedDecimal) : result DomainError bool :=
  c ← cmp_scaled self rhs; Ok (match c with Eq => true | _ => false end).

(** ** Arithmetic: the sums are plain [+] and [-], which wrap *)

(* rust: fixed_decimal/arithmetic.rs checked_add *)
Definition checked_add (self rhs : FixedDecimal) : result DomainError FixedDecimal :=
  let s := Z.max (scale self) (scale rhs) in
  left ← align_value self s;
  right ← align_value rhs s;
  Ok (mkDec (wrap I128 (left + right)) s).

(* rust: fixed_decimal/arithmetic.rs checked_sub *)
Definition checked_sub (self rhs : FixedDecimal) : result DomainError FixedDecimal :=
  let s := Z.max (scale self) (scale rhs) in
  left ← align_value self s;
  right ← align_value rhs s;
  Ok (mkDec (wrap I128 (left - right)) s).

(** [numerator / denominator] aborts on [i128::MIN / -1]. *)
Definition div_i128 (n d : Z) : result (fault DomainError) Z :=
  if (n =? int_min I128) && (d =? -1) then Err Panics else Ok (Z.quot n d).

(* rust: fixed_decimal/arithmetic.rs div_to_scale *)
Definition div_to_scale (self rhs : FixedDecimal) (output_scale : Z)
    : result (fault DomainError) FixedDecimal :=
  if value rhs =? 0 then Err (Fails DivideByZero) else
  rhs_factor ← map_err Fails (pow10 (scale rhs));
  numerator ← ok_or (v ← checked I128 (value self * rhs_factor);
                     out_factor ← ok_opt (pow10 output_scale);
                     checked I128 (v * out_factor)) (Fails ScaleOverflow);
  self_factor ← map_err Fails (pow10 (scale self));
  denominator ← ok_or (checked I128 (value rhs * self_factor)) (Fails ScaleOverflow);
  q ← div_i128 numerator denominator;
  Ok (mkDec q output_scale).

(* rust: fixed_decimal/arithmetic.rs mul_bps *)
Definition mul_bps (self : FixedDecimal) (bps : Bps) : result DomainError FixedDecimal :=
  v ← ok_or (checked I128 (value self * bps_value bps)) ScaleOverflow;
  Ok (mkDec (Z.quot v 10000) (scale self)).

(* rust: fixed_decimal/arithmetic.rs mul_to_scale *)
Definition mul_to_scale (self rhs : FixedDecimal) (output_scale : Z)
    : result DomainError FixedDecimal :=
  product ← ok_or (checked I128 (value self * value rhs)) ScaleOverflow;
  input_scale ← ok_or (checked U32 (scale self + scale rhs)) ScaleOverflow;
  v ← (if input_scale <=? output_scale then
         p ← pow10 (output_scale - input_scale);
         ok_or (checked I128 (product * p)) ScaleOverflow
       else
         p ← pow10 (input_scale - output_scale);
         Ok (Z.quot product p));
  Ok (mkDec v output_scale).

(* rust: fixed_decimal/arithmetic.rs abs *)
Definition abs (self : FixedDecimal) : result DomainError FixedDecimal :=
  v ← ok_or (checked I128 (Z.abs (value self))) ScaleOverflow;
  Ok (mkDec v (scale self)).

(** ** Parsing *)

(* rust: fixed_decimal/parse.rs 19-41 from_str *)
Definition parse_parts (input : string) (negative : bool) (digits : string)
    : result DomainError FixedDecimal :=
  match split_char "." digits with
  | [] => Err (InvalidDecimal input)
  | whole :: rest =>
      let fraction := match rest with f :: _ => f | [] => ""%string end in
      let third := match rest with _ :: _ :: _ => true | _ => false end in
      if third || str_is_empty whole || negb (all_bytes is_digit whole)
         || negb (all_bytes is_digit fraction)
      then Err (InvalidDecimal input) else
      s ← ok_or (checked U32 (str_len fraction)) ScaleOverflow;
      v ← ok_or (parse_int I128 (whole ++ fraction)) (InvalidDecimal input);
      Ok (mkDec (if negative then - v else v) s)
  end.

(* rust: fixed_decimal/parse.rs from_str *)
Definition from_str (input : string) : result DomainError FixedDecimal :=
  let trimmed := trim input in
  if str_is_empty trimmed then Err EmptyDecimal else
  let negative := starts_with "-" trimmed in
  let digits := if negative then String.substring 1 (String.length trimmed - 1) trimmed
                else trimmed in
  if str_is_empty digits then Err (InvalidDecimal input) else
  parse_parts input negative digits.

(* rust: numeric/fixed_decimal.rs parse_unsigned *)
Definition parse_unsigned (input : string) : result DomainError FixedDecimal :=
  parsed ← from_str input;
  if value parsed <? 0 then Err (NegativeUnsignedDecimal input) else Ok parsed.

(** ** Wire form: the value as a decimal string, the scale as a number *)

Record FixedDecimalWire := mkWire { wire_value : string; wire_scale : Z }.

(* rust: fixed_decimal/wire.rs serialize *)
Definition serialize (d : FixedDecimal) : FixedDecimalWire :=
  mkWire (show_Z (value d)) (scale d).

(* rust: fixed_decimal/wire.rs deserialize *)
Definition deserialize (w : FixedDecimalWire) : option FixedDecimal :=
  v ← parse_int I128 (wire_value w); Some (mkDec v (wire_scale w)).

(** ** Alignment computes the scaled value, clamped or checked *)

Lemma pow10_loop_spec n acc : 0 <= acc -> in_range I128 acc ->
  pow10_loop n acc = checked I128 (acc * 10 ^ Z.of_nat n).
Proof.
  revert acc. induction n as [|n IH]; intros acc H0 Hr; cbn [pow10_loop].
  - rewrite Z.mul_1_r. symmetry. by apply checked_in_range.
  - rewrite pow10_succ. pose proof (pow10_pos (Z.of_nat n) ltac:(lia)).
    destruct (checked I128 (acc * 10)) as [z|] eqn:E; cbn.
    + apply checked_Some in E as [-> Hz]. rewrite IH by (done || lia). f_equal. lia.
    + apply checked_None in E. symmetry. apply checked_None.
      unfold in_range in *. cbn [int_min int_max] in *. nia.
Qed.

Lemma pow10_spec s : 0 <= s -> pow10 s = ok_or (checked I128 (10 ^ s)) ScaleOverflow.
Proof.
  intros Hs. unfold pow10. rewrite pow10_loop_spec by (unfold in_range; cbn; lia).
  by rewrite Z2Nat.id, Z.mul_1_l by lia.
Qed.

Lemma pow10_Ok s p : 0 <= s -> pow10 s = Ok p -> p = 10 ^ s.
Proof.
  intros Hs. rewrite pow10_spec by done.
  destruct (checked _ _) eqn:E; cbn; [|done]. apply checked_Some in E as [-> _]. congruence.
Qed.

Lemma saturating_align_spec v n : in_range I128 v -> 0 <= n ->
  saturating_align v n = saturate I128 (v * 10 ^ n).
Proof.
  intros Hv Hn. unfold saturating_align.
  rewrite <- (Z2Nat.id n) at 2 by done.
  generalize (Z.to_nat n) as k. intros k. clear Hn. revert v Hv.
  induction k as [|k IH]; intros v Hv; cbn [saturating_align_loop].
  - rewrite Z.mul_1_r. symmetry. by apply saturate_id.
  - rewrite pow10_succ. pose proof (pow10_pos (Z.of_nat k) ltac:(lia)).
    destruct (checked I128 (v * 10)) as [z|] eqn:E.
    + apply checked_Some in E as [-> Hz]. rewrite IH by done. f_equal. lia.
    + apply checked_None in E. unfold in_range, saturate in *. cbn [int_min int_max] in *.
      destruct (Z.leb_spec 0 v); nia.
Qed.

(** What [align_value] returns when it does, for a target no smaller than the scale. *)
Lemma align_value_Ok d s v : align_value d s = Ok v ->
  scale d <= s /\ v = value d * 10 ^ (s - scale d) /\ in_range I128 v.
Proof.
  unfold align_value. intros H.
  inv_bind H. inv_bind H. destruct (checked U32 (s - scale d)) eqn:E; [|done].
  apply checked_Some in E as [-> Hr]. injection Em as <-.
  unfold in_range in Hr. cbn in Hr. apply pow10_Ok in Em0; [|lia]. subst.
  destruct (checked I128 _) eqn:E; [|done]. apply checked_Some in E as [-> Hr'].
  injection H as <-. split; [lia|]. split; [done|]. exact Hr'.
Qed.

Lemma align_value_self d : dec_wf d -> align_value d (scale d) = Ok (value d).
Proof.
  intros [Hv Hs]. unfold align_value. rewrite Z.sub_diag.
  change (checked U32 0) with (Some 0). cbn [ok_or mbind result_bind].
  change (pow10 0) with (@Ok DomainError Z 1). cbn [ok_or mbind result_bind]. by rewrite Z.mul_1_r, checked_in_range.
Qed.

Lemma align_value_err d s e : align_value d s = Err e -> e = ScaleOverflow.
Proof.
  unfold align_value, pow10.
  destruct (checked U32 _); cbn; [|congruence].
  destruct (pow10_loop _ _); cbn; [|congruence].
  destruct (checked I128 _); cbn; congruence.
Qed.

Lemma saturate_compare t x y : int_min t < y < int_max t ->
  (saturate t x ?= y) = (x ?= y).
Proof.
  intros Hy. unfold saturate.
  destruct (Z.compare_spec x y) as [->|H|H].
  - apply Z.compare_eq_iff. lia.
  - apply Z.compare_lt_iff. lia.
  - apply Z.compare_gt_iff. lia.
Qed.

(** The order of the denoted rationals [value / 10^scale]. *)
Definition cmp_exact (a b : FixedDecimal) : comparison :=
  value a * 10 ^ scale b ?= value b * 10 ^ scale a.

(** Strictly inside [i128]: what a value must be for [Ord] to be exact. *)
Definition non_extreme (d : FixedDecimal) : Prop :=
  int_min I128 < value d < int_max I128 /\ in_range U32 (scale d).

#[export] Instance non_extreme_dec d : Decision (non_extreme d).
Proof. unfold non_extreme. apply _. Defined.

Lemma cmp_le a b : non_extreme a -> non_extreme b -> scale a <= scale b ->
  cmp a b = cmp_exact a b.
Proof.
  intros [Ha Hsa] [Hb Hsb] Hle. unfold cmp, cmp_exact.
  rewrite Z.max_r, Z.sub_diag by done. unfold in_range in *. cbn [int_min int_max] in *.
  rewrite !saturate_id by (unfold in_range; cbn [int_min int_max]; lia).
  rewrite !saturating_align_spec by (unfold in_range; cbn [int_min int_max]; lia).
  rewrite Z.mul_1_r, (saturate_id _ (value b)) by (unfold in_range; cbn [int_min int_max]; lia).
  rewrite saturate_compare by (cbn; lia).
  replace (scale b) with (scale a + (scale b - scale a)) at 2 by lia.
  rewrite Z.pow_add_r by lia. pose proof (pow10_pos (scale a) ltac:(lia)).
  rewrite <- (compare_mul_pos (10 ^ scale a)) by done. f_equal; lia.
Qed.

Lemma cmp_antisym a b : cmp b a = CompOpp (cmp a b).
Proof.
  unfold cmp. rewrite (Z.max_comm (scale b)). by rewrite Z.compare_antisym.
Qed.

Lemma cmp_exact_antisym a b : cmp_exact b a = CompOpp (cmp_exact a b).
Proof. unfold cmp_exact. by rewrite Z.compare_antisym. Qed.

Lemma cmp_is_exact a b : non_extreme a -> non_extreme b -> cmp a b = cmp_exact a b.
Proof.
  intros Ha Hb. destruct (Z.le_ge_cases (scale a) (scale b)).
  - by apply cmp_le.
  - rewrite cmp_antisym, cmp_exact_antisym. f_equal. by apply cmp_le.
Qed.

(** The exact order is transitive and compatible with numeric equality. *)
Lemma cmp_exact_refl a : cmp_exact a a = Eq.
Proof. apply Z.compare_refl. Qed.

Lemma cmp_exact_scale a b k : 0 <= k - scale a -> 0 <= k - scale b ->
  0 <= scale a -> 0 <= scale b ->
  cmp_exact a b = (value a * 10 ^ (k - scale a) ?= value b * 10 ^ (k - scale b)).
Proof.
  intros. unfold cmp_exact.
  assert (E1 : 10 ^ scale a * 10 ^ (k - scale a) = 10 ^ k)
    by (rewrite <- Z.pow_add_r by lia; f_equal; lia).
  assert (E2 : 10 ^ scale b * 10 ^ (k - scale b) = 10 ^ k)
    by (rewrite <- Z.pow_add_r by lia; f_equal; lia).
  pose proof (pow10_pos k ltac:(lia)) as Hk.
  pose proof (pow10_pos (k - scale a) ltac:(lia)) as HP.
  pose proof (pow10_pos (k - scale b) ltac:(lia)) as HQ.
  set (A := 10 ^ scale a) in *. set (B := 10 ^ scale b) in *.
  set (P := 10 ^ (k - scale a)) in *. set (Q := 10 ^ (k - scale b)) in *.
  rewrite <- (compare_mul_pos (P * Q) (value a * B)) by nia.
  rewrite <- (compare_mul_pos (10 ^ k) (value a * P)) by done.
  f_equal; [rewrite <- E2 | rewrite <- E1]; ring.
Qed.

Lemma cmp_exact_trans_lt a b c : 0 <= scale a -> 0 <= scale b -> 0 <= scale c ->
  cmp_exact a b = Lt -> cmp_exact b c = Lt -> cmp_exact a c = Lt.
Proof.
  intros Ha Hb Hc. set (k := scale a + scale b + scale c).
  rewrite !(cmp_exact_scale _ _ k) by lia. rewrite !Z.compare_lt_iff. lia.
Qed.

Lemma cmp_exact_eq_l a b c : 0 <= scale a -> 0 <= scale b -> 0 <= scale c ->
  cmp_exact a b = Eq -> cmp_exact a c = cmp_exact b c.
Proof.
  intros Ha Hb Hc. set (k := scale a + scale b + scale c).
  rewrite !(cmp_exact_scale _ _ k) by lia. rewrite Z.compare_eq_iff. by intros ->.
Qed.

(** ** Sums *)

(** The value of [d] written at scale [s], and whether alignment can reach it. *)
Definition at_scale (d : FixedDecimal) (s : Z) : Z := value d * 10 ^ (s - scale d).
Definition alignable (d : FixedDecimal) (s : Z) : Prop :=
  in_range I128 (10 ^ (s - scale d)) /\ in_range I128 (at_scale d s).

Lemma align_value_spec d s : dec_wf d -> scale d <= s -> in_range U32 s ->
  (alignable d s /\ align_value d s = Ok (at_scale d s)) \/
  (~ alignable d s /\ align_value d s = Err ScaleOverflow).
Proof.
  intros [Hv Hs] Hle Hu. unfold in_range in Hs, Hu. cbn in Hs, Hu.
  unfold align_value, alignable, at_scale.
  rewrite checked_in_range by (unfold in_range; cbn; lia). cbn [ok_or mbind result_bind].
  rewrite pow10_spec by lia.
  destruct (checked I128 (10 ^ (s - scale d))) as [p|] eqn:Ep; cbn [ok_or mbind result_bind].
  - apply checked_Some in Ep as [-> Hp].
    destruct (checked I128 (value d * _)) eqn:E; cbn.
    + apply checked_Some in E as [-> E]. by left.
    + apply checked_None in E. right. split; [|done]. by intros [_ ?].
  - apply checked_None in Ep. right. split; [|done]. by intros [? _].
Qed.

Lemma checked_add_Ok a b c : checked_add a b = Ok c ->
  let s := Z.max (scale a) (scale b) in
  in_range I128 (at_scale a s) /\ in_range I128 (at_scale b s) /\
  c = mkDec (wrap I128 (at_scale a s + at_scale b s)) s.
Proof.
  unfold checked_add. cbv zeta. intros H. inv_bind H. inv_bind H. injection H as <-.
  apply align_value_Ok in Em as (_ & -> & ?), Em0 as (_ & -> & ?). done.
Qed.

Lemma checked_sub_Ok a b c : checked_sub a b = Ok c ->
  let s := Z.max (scale a) (scale b) in
  in_range I128 (at_scale a s) /\ in_range I128 (at_scale b s) /\
  c = mkDec (wrap I128 (at_scale a s - at_scale b s)) s.
Proof.
  unfold checked_sub. cbv zeta. intros H. inv_bind H. inv_bind H. injection H as <-.
  apply align_value_Ok in Em as (_ & -> & ?), Em0 as (_ & -> & ?). done.
Qed.

Lemma at_scale_nonneg a s : scale a <= s -> 0 <= value a -> 0 <= at_scale a s.
Proof. intros. unfold at_scale. pose proof (pow10_pos (s - scale a) ltac:(lia)). nia. Qed.

Lemma wf_max_scale a b : dec_wf a -> dec_wf b ->
  scale a <= Z.max (scale a) (scale b) /\ scale b <= Z.max (scale a) (scale b) /\
  in_range U32 (Z.max (scale a) (scale b)).
Proof. unfold dec_wf, in_range. cbn. lia. Qed.

Lemma quot_sign n d : d <> 0 -> 0 <= (n ÷ d) * (n * d).
Proof.
  intros Hd.
  assert (Hp : forall x y, 0 <= x -> 0 < y -> 0 <= x ÷ y) by (intros; apply Z.quot_pos; lia).
  destruct (Z.le_gt_cases 0 n), (Z.lt_ge_cases 0 d).
  - specialize (Hp n d). nia.
  - specialize (Hp n (- d)). rewrite Z.quot_opp_r in Hp by done. nia.
  - specialize (Hp (- n) d). rewrite Z.quot_opp_l in Hp by done. nia.
  - specialize (Hp (- n) (- d)). rewrite Z.quot_opp_opp in Hp by done. nia.
Qed.

Lemma div_to_scale_Ok a b q out :
  dec_wf a -> dec_wf b -> in_range U32 out -> div_to_scale a b out = Ok q ->
  value b <> 0 /\ scale q = out /\
  value q = (value a * 10 ^ (scale b + out)) ÷ (value b * 10 ^ scale a).
Proof.
  intros [_ Ha] [_ Hb] Ho H. unfold in_range in *. cbn in Ha, Hb, Ho.
  unfold div_to_scale in H. destruct (Z.eqb_spec (value b) 0) as [|Hnz]; [done|].
  inv_bind H. destruct (pow10 (scale b)) as [pb|] eqn:Epb; [|done]. injection Em as <-.
  apply pow10_Ok in Epb; [|lia]. inv_bind H. inv_bind H. inv_bind H. inv_bind H.
  injection H as <-. cbn. split; [done|]. split; [done|].
  destruct (pow10 (scale a)) as [pa|] eqn:Epa; [|done]. injection Em0 as <-.
  apply pow10_Ok in Epa; [|lia]. subst pa pb.
  destruct (checked I128 (value a * _)) as [v|] eqn:Ev; [|done]. cbn in Em.
  apply checked_Some in Ev as [-> _].
  destruct (pow10 out) as [po|] eqn:Epo; [|done]. cbn in Em. apply pow10_Ok in Epo; [|lia]. subst po.
  destruct (checked I128 (_ * 10 ^ out)) as [v|] eqn:Ev; [|done]. injection Em as <-.
  apply checked_Some in Ev as [-> _].
  destruct (checked I128 (value b * _)) as [v|] eqn:Ev; [|done]. injection Em1 as <-.
  apply checked_Some in Ev as [-> _]. unfold div_i128 in Em2. case_if; [done|]. injection Em2 as <-.
  f_equal. rewrite Z.pow_add_r by lia. ring.
Qed.

(** ** The texts [from_str] accepts *)

(** An optional sign, digits, and optionally a point with more digits. *)
Definition decimal_text (neg : bool) (whole : string) (frac : option string) : string :=
  ((if neg then "-" else "") ++ whole ++
   match frac with Some f => String "." f | None => "" end)%string.
Definition frac_digits (frac : option string) : string :=
  match frac with Some f => f | None => ""%string end.

Lemma all_bytes_app f a b : all_bytes f (a ++ b)%string = all_bytes f a && all_bytes f b.
Proof. unfold all_bytes. by rewrite bytes_app, forallb_app. Qed.

Lemma all_digits_no_dot s : all_bytes is_digit s = true -> ~ In "."%char (bytes s).
Proof.
  unfold all_bytes. rewrite forallb_forall. intros H Hin. specialize (H _ Hin). by vm_compute in H.
Qed.

Lemma parse_int_digits t s : s <> ""%string -> all_bytes is_digit s = true ->
  parse_int t s = checked t (digits_value 0 (bytes s)).
Proof.
  intros Hne Hd. unfold parse_int, all_bytes in *.
  destruct (bytes s) as [|a l] eqn:E; [by destruct s|].
  assert (Ha : is_digit a = true) by (cbn in Hd; by bool_prop).
  destruct (is_digit_not_sign a Ha) as [-> ->]. cbn [andb].
  unfold parse_digits. by rewrite Hd.
Qed.

Lemma digits_value_nonneg l acc : forallb is_digit l = true -> 0 <= acc -> 0 <= digits_value acc l.
Proof.
  revert acc. induction l as [|a l IH]; intros acc; cbn; [done|]. intros H Hacc. bool_prop.
  apply IH; [done|]. unfold is_digit, digit_val in *. bool_prop. lia.
Qed.

Lemma str_app_nil_r s : (s ++ "")%string = s.
Proof. induction s as [|a s IH]; cbn; [done | by rewrite IH]. Qed.

Lemma decimal_text_split w frac :
  all_bytes is_digit w = true -> all_bytes is_digit (frac_digits frac) = true ->
  split_char "." (w ++ match frac with Some f => String "." f | None => "" end)%string =
  w :: match frac with Some f => [f] | None => [] end.
Proof.
  intros Hw Hf. destruct frac as [f|].
  - rewrite split_char_app by (by apply all_digits_no_dot).
    by rewrite split_char_none by (by apply all_digits_no_dot).
  - rewrite str_app_nil_r. by rewrite split_char_none by (by apply all_digits_no_dot).
Qed.

Lemma substring_all s : String.substring 0 (String.length s) s = s.
Proof. induction s as [|a s IH]; cbn; [done | by rewrite IH]. Qed.

Lemma starts_with_minus a s : starts_with "-" (String a s) = Ascii.eqb "-" a.
Proof. unfold starts_with, strip_prefix. by destruct (Ascii.eqb "-" a). Qed.

(** The reading of an accepted text. *)
Definition reads_as (whole : string) (frac : option string) (neg : bool) (d : FixedDecimal) : Prop :=
  let n := digits_value 0 (bytes (whole ++ frac_digits frac)) in
  whole <> ""%string /\ all_bytes is_digit whole = true /\
  all_bytes is_digit (frac_digits frac) = true /\
  scale d = str_len (frac_digits frac) /\ in_range U32 (scale d) /\
  n <= int_max I128 /\ value d = if neg then - n else n.

Lemma str_is_empty_false s : str_is_empty s = false <-> s <> ""%string.
Proof. by destruct s. Qed.

Lemma parse_parts_complete input neg whole frac d :
  reads_as whole frac neg d -> parse_parts input neg (decimal_text false whole frac) = Ok d.
Proof.
  intros (Hne & Hw & Hf & Hs & Hr & Hn & Hv). unfold parse_parts, decimal_text.
  change ("" ++ ?x)%string with x. rewrite decimal_text_split by done.
  assert (Hne' : (whole ++ frac_digits frac)%string <> ""%string) by (by destruct whole).
  assert (Hd : all_bytes is_digit (whole ++ frac_digits frac) = true)
    by (by rewrite all_bytes_app, Hw, Hf).
  assert (Hfr : match match frac with Some f => [f] | None => [] end with
    | f :: _ => f | [] => ""%string end = frac_digits frac) by (by destruct frac).
  rewrite Hfr, Hw, Hf, (proj2 (str_is_empty_false whole) Hne).
  replace (match match frac with Some f => [f] | None => [] end with
    | _ :: _ :: _ => true | _ => false end) with false by (by destruct frac).
  cbn [orb negb]. rewrite checked_in_range by (by rewrite <- Hs). cbn [ok_or mbind result_bind].
  rewrite parse_int_digits by done. rewrite checked_in_range.
  - cbn. destruct d as [v sc]. cbn in *. by subst.
  - pose proof (digits_value_nonneg (bytes (whole ++ frac_digits frac)) 0 Hd ltac:(lia)).
    unfold in_range. cbn [int_min int_max] in *. lia.
Qed.

Lemma parse_parts_sound input neg digits d : parse_parts input neg digits = Ok d ->
  exists whole frac, digits = decimal_text false whole frac /\ reads_as whole frac neg d.
Proof.
  unfold parse_parts. intros H. pose proof (split_char_join "." digits) as Hj.
  destruct (split_char "." digits) as [|whole rest]; [done|].
  case_if; [done|]. bool_prop. inv_bind H. inv_bind H. injection H as <-.
  match goal with H : str_is_empty whole = false |- _ => apply str_is_empty_false in H end.
  set (frac := match rest with f :: _ => Some f | [] => None end).
  assert (Hfr : match rest with f :: _ => f | [] => ""%string end = frac_digits frac)
    by (by destruct rest).
  exists whole, frac. rewrite Hfr in *. split.
  { rewrite <- Hj. unfold decimal_text, frac, join. destruct rest as [|f [|]]; [| |done]; cbn.
    - by rewrite str_app_nil_r.
    - done. }
  destruct (checked U32 _) as [sc|] eqn:Es; [|done]. injection Em as <-.
  apply checked_Some in Es as [-> Hsc].
  rewrite parse_int_digits in Em0; [|by destruct whole | rewrite all_bytes_app; by apply andb_true_intro].
  destruct (checked I128 _) as [v|] eqn:Ev; [|done]. injection Em0 as <-.
  apply checked_Some in Ev as [-> Hv]. unfold reads_as. cbn [value scale].
  repeat (split; [done|]). by destruct Hv.
Qed.

Lemma div_to_scale_bounds (a b q : FixedDecimal) (out : Z) :
  dec_wf a -> dec_wf b -> in_range U32 out ->
  div_to_scale a b out = Ok q ->
  let num := value a * 10 ^ (scale b + out) in
  let den := value b * 10 ^ scale a in
  scale q = out /\
  Z.abs (value q) * Z.abs den <= Z.abs num < (Z.abs (value q) + 1) * Z.abs den /\
  0 <= value q * (value a * value b).
Proof.
  intros Ha Hb Ho H num den. destruct (div_to_scale_Ok a b q out Ha Hb Ho H) as (Hnz & Hs & Hq).
  destruct Ha as [_ Ha], Hb as [_ Hb]. unfold in_range in *. cbn in Ha, Hb, Ho.
  split; [done|]. fold num den in Hq. rewrite Hq. clear H Hq.
  assert (Hd : den <> 0) by (unfold den; pose proof (pow10_pos (scale a) ltac:(lia)); nia).
  assert (Hq : Z.abs (num ÷ den) = Z.abs num / Z.abs den)
    by (rewrite <- Z.quot_abs, Z.quot_div_nonneg by lia; done).
  rewrite Hq. pose proof (Z.div_mod (Z.abs num) (Z.abs den) ltac:(lia)).
  pose proof (Z.mod_pos_bound (Z.abs num) (Z.abs den) ltac:(lia)).
  split; [lia|]. pose proof (quot_sign num den Hd) as Hg.
  pose proof (pow10_pos (scale a) ltac:(lia)) as Hpa.
  pose proof (pow10_pos (scale b + out) ltac:(lia)) as Hpb.
  apply (Zmult_le_reg_r _ _ (10 ^ (scale b + out) * 10 ^ scale a)); [nia|].
  rewrite Z.mul_0_l. etransitivity; [exact Hg|]. apply Z.eq_le_incl. unfold num, den. ring.
Qed.

Lemma from_str_accepts (s : string) (d : FixedDecimal) :
  from_str s = Ok d <->
  exists neg whole frac, trim s = decimal_text neg whole frac /\ reads_as whole frac neg d.
Proof.
  unfold from_str. split.
  - destruct (trim s) as [|a t] eqn:Et; [done|]. cbn [str_is_empty].
    rewrite starts_with_minus. destruct (Ascii.eqb_spec "-" a) as [<-|Ha].
    + cbn [String.length Nat.sub String.substring]. rewrite Nat.sub_0_r, substring_all.
      case_if; [done|]. intros H. apply parse_parts_sound in H as (w & f & -> & Hr).
      by exists true, w, f.
    + case_if; [done|]. intros H. apply parse_parts_sound in H as (w & f & Hw & Hr).
      exists false, w, f. by rewrite <- Hw.
  - intros (neg & w & f & -> & Hr). destruct Hr as (Hne & Hw & Hr).
    destruct w as [|x w]; [done|]. assert (Hx : Ascii.eqb "-" x = false).
    { apply Ascii.eqb_neq. intros <-. by vm_compute in Hw. }
    unfold decimal_text at 1. destruct neg; cbn [String.append str_is_empty];
      unfold decimal_text; cbn [String.append]; rewrite starts_with_minus.
    + cbn [Ascii.eqb Bool.eqb String.length Nat.sub String.substring str_is_empty].
      rewrite substring_all. by apply (parse_parts_complete s true (String x w) f).
    + rewrite Hx. cbn [str_is_empty]. by apply (parse_parts_complete s false (String x w) f).
Qed.

Lemma parse_unsigned_wf s d : parse_unsigned s = Ok d -> dec_wf d /\ 0 <= value d.
Proof.
  unfold parse_unsigned. intros H. inv_bind H. case_if; [done|]. injection H as <-. bool_prop.
  apply from_str_accepts in Em as (neg & w & f & _ & Hr).
  destruct Hr as (_ & Hw & Hf & _ & Hsc & Hn & Hv). split; [|lia]. split; [|done].
  assert (Hd : all_bytes is_digit (w ++ frac_digits f) = true)
    by (rewrite all_bytes_app; by apply andb_true_intro).
  pose proof (digits_value_nonneg _ 0 Hd ltac:(lia)).
  unfold in_range. cbn [int_min int_max] in *. destruct neg; lia.
Qed.

(** ** Properties *)

(** C20: [Ord for FixedDecimal] orders two decimals by the rationals
    [value / 10^scale] they denote, whatever their scales, as long as neither
    value is [i128::MIN] or [i128::MAX]; alignment saturates but never changes
    the verdict. *)
Theorem cmp_numeric (a b : FixedDecimal) :
  non_extreme a -> non_extreme b ->
  cmp a b = cmp_exact a b.
Proof. apply cmp_is_exact. Qed.

Lemma cmp_numeric_witness :
  cmp (mkDec (2 ^ 120) 0) (mkDec 1005 60) = Gt /\
  cmp (mkDec (2 ^ 120) 0) (mkDec 1005 60) = cmp_exact (mkDec (2 ^ 120) 0) (mkDec 1005 60).
Proof. split; [by vm_compute | apply cmp_numeric; vm_decide]. Defined.

(** The order used for book keys is not transitive on all of [i128]:
    saturation makes [i128::MAX] at scale 1 equal both to [i128::MAX] and to
    [i128::MAX - 1] at scale 0, of which the second is below the first. *)
Theorem cmp_not_transitive :
  exists x y z, dec_wf x /\ dec_wf y /\ dec_wf z /\
    cmp x y = Eq /\ cmp y z = Eq /\ cmp x z = Gt.
Proof.
  exists (mkDec (int_max I128) 0), (mkDec (int_max I128) 1), (mkDec (int_max I128 - 1) 0).
  split; [vm_decide|]. split; [vm_decide|]. split; [vm_decide|]. by vm_compute.
Qed.

(** C21: [checked_add] succeeds exactly when both operands can be aligned to the
    larger scale; the sum is then exact if it fits [i128], and otherwise is off
    by [2^128] because the addition itself is not checked.  Every failure is
    [ScaleOverflow]. *)
Theorem checked_add_spec (a b : FixedDecimal) :
  dec_wf a -> dec_wf b ->
  let s := Z.max (scale a) (scale b) in
  let sum := at_scale a s + at_scale b s in
  (alignable a s /\ alignable b s /\
     exists c, checked_add a b = Ok c /\ scale c = s /\ in_range I128 (value c) /\
       (in_range I128 sum -> value c = sum) /\
       (~ in_range I128 sum -> value c = sum - 2 ^ 128 \/ value c = sum + 2 ^ 128)) \/
  (~ (alignable a s /\ alignable b s) /\ checked_add a b = Err ScaleOverflow).
Proof.
  intros Ha Hb s sum. unfold checked_add. fold s.
  destruct (wf_max_scale a b Ha Hb) as (H1 & H2 & H3).
  destruct (align_value_spec a s Ha H1 H3) as [[Aa ->]|[Aa ->]]; [|right; cbn; tauto].
  destruct (align_value_spec b s Hb H2 H3) as [[Ab ->]|[Ab ->]]; [|right; cbn; tauto].
  left. split; [done|]. split; [done|]. cbn. eexists. split; [done|]. cbn.
  split; [done|]. split; [apply wrap_in_range|]. fold sum. split; [apply wrap_id|].
  intros Hn. destruct (wrap_congr I128 sum) as [k Hk]. pose proof (wrap_in_range I128 sum) as Hr.
  assert (Hs : -(2^128) <= sum <= 2^128 - 2).
  { destruct Aa as [_ Aa], Ab as [_ Ab]. unfold in_range in Aa, Ab. cbn [int_min int_max] in *.
    change (2 ^ 128) with 340282366920938463463374607431768211456. unfold sum. lia. }
  unfold in_range in Hn, Hr. cbn [int_min int_max] in *.
  change (2 ^ 128) with 340282366920938463463374607431768211456 in *. lia.
Qed.

Lemma checked_add_spec_witness :
  checked_add (mkDec (int_max I128) 0) (mkDec 1 0) = Ok (mkDec (int_min I128) 0) /\
  ~ in_range I128 (at_scale (mkDec (int_max I128) 0) 0 + at_scale (mkDec 1 0) 0).
Proof.
  split; [|vm_decide].
  destruct (checked_add_spec (mkDec (int_max I128) 0) (mkDec 1 0)) as [(_ & _ & c & Hc & _)|[_ H]].
  - vm_decide.
  - vm_decide.
  - by vm_compute.
  - by vm_compute in H.
Defined.

(** A quotient returned by [div_to_scale] is the exact rational quotient at
    the output scale truncated toward zero: its magnitude brackets
    [|a| * 10^(scale b + out) / (|b| * 10^(scale a))] and its sign is the sign
    of [a * b]. *)
Theorem div_to_scale_truncates (a b q : FixedDecimal) (out : Z) :
  dec_wf a -> dec_wf b -> in_range U32 out ->
  div_to_scale a b out = Ok q ->
  let num := value a * 10 ^ (scale b + out) in
  let den := value b * 10 ^ scale a in
  scale q = out /\
  Z.abs (value q) * Z.abs den <= Z.abs num < (Z.abs (value q) + 1) * Z.abs den /\
  0 <= value q * (value a * value b).
Proof. apply div_to_scale_bounds. Qed.

Lemma div_to_scale_truncates_witness :
  div_to_scale (mkDec (-10) 0) (mkDec 30 1) 2 = Ok (mkDec (-333) 2) /\
  Z.abs (-333) * 30 <= 1000 * 10.
Proof.
  split; [by vm_compute|].
  destruct (div_to_scale_truncates (mkDec (-10) 0) (mkDec 30 1) (mkDec (-333) 2) 2) as (_ & H & _);
    [vm_decide | vm_decide | vm_decide | by vm_compute |].
  vm_compute in H. by vm_compute.
Defined.


(** C28: [from_str] accepts exactly the texts that, trimmed, are an optional
    minus sign, at least one digit and optionally a point followed by digits,
    with at most [2^32 - 1] fraction digits and a digit value that fits [i128];
    it returns that value with the number of fraction digits as the scale. *)
Theorem from_str_spec (s : string) (d : FixedDecimal) :
  from_str s = Ok d <->
  exists neg whole frac, trim s = decimal_text neg whole frac /\ reads_as whole frac neg d.
Proof. apply from_str_accepts. Qed.

(** serializing a decimal and deserializing it returns the same decimal. *)
Theorem wire_roundtrip (d : FixedDecimal) :
  dec_wf d -> deserialize (serialize d) = Some d.
Proof.
  intros [Hv _]. unfold deserialize, serialize. cbn [wire_value wire_scale].
  rewrite parse_show_Z by done. by destruct d.
Qed.

Lemma wire_roundtrip_witness :
  serialize (mkDec (-12345) 2) = mkWire "-12345" 2 /\
  deserialize (serialize (mkDec (-12345) 2)) = Some (mkDec (-12345) 2).
Proof. split; [by vm_compute | apply wire_roundtrip; vm_decide]. Defined.
