(* ===== verification/Domain.v ===== *)
(** * Domain: symbols, windows and market values of [crypto-domain]

    The value types exchanged between the crates and their [validate]
    functions, with every guard in the order of the code. *)
From S2P Require Import Prelude Text Decimal.
Open Scope Z_scope.

(* rust: crypto-domain/src/error.rs fmt *)
Definition DomainError_display (e : DomainError) : string :=
  match e with
  | EmptyDecimal => "decimal value is empty"
  | InvalidDecimal v => "invalid decimal value: " ++ v
  | NegativeUnsignedDecimal v => "unsigned decimal cannot be negative: " ++ v
  | ScaleOverflow => "decimal scale overflow"
  | DivideByZero => "cannot divide by zero"
  | InvalidSymbol v => "invalid symbol: " ++ v
  | InvalidMarketValue v => "invalid market value: " ++ v
  end.

(** ** Time windows *)

(* rust: crypto-domain/src/time_window.rs TimeWindow *)
Record TimeWindow := mkTimeWindow { tw_start_ms : Z; tw_end_ms : Z }.

(* rust: crypto-domain/src/time_window.rs TimeWindow::validate *)
Definition time_window_validate (w : TimeWindow) : result DomainError () :=
  if tw_end_ms w <=? tw_start_ms w
  then Err (InvalidMarketValue "time window start must be before end")
  else Ok ().

(** ** Symbols *)

(* rust: crypto-domain/src/symbol.rs Symbol *)
Record Symbol := mkSymbol {
  sym_exchange : string;
  sym_base : string;
  sym_quote : string;
  sym_normalized : string;
  sym_raw : string;
}.

#[export] Instance Symbol_eq_dec : EqDecision Symbol.
Proof. solve_decision. Defined.

(* rust: crypto-domain/src/symbol.rs Symbol::new *)
Definition symbol_new (exchange base quote raw : string) : result DomainError Symbol :=
  if str_is_empty (trim exchange) || str_is_empty (trim base)
     || str_is_empty (trim quote) || str_is_empty (trim raw)
  then Err (InvalidSymbol (exchange ++ ":" ++ base ++ "/" ++ quote ++ ":" ++ raw)%string)
  else
    let base := to_ascii_uppercase (trim base) in
    let quote := to_ascii_uppercase (trim quote) in
    Ok (mkSymbol (trim exchange) base quote (base ++ "-" ++ quote)%string (trim raw)).

(** ** Market values *)

(* rust: crypto-domain/src/enums.rs EventQuality *)
Inductive EventQuality := QOk | QDelayed | QGap | QStale | QInvalid.

#[export] Instance EventQuality_eq_dec : EqDecision EventQuality.
Proof. solve_decision. Defined.

(* rust: crypto-domain/src/market/depth.rs OrderBookLevel *)
Record OrderBookLevel := mkLevel { lvl_price : FixedDecimal; lvl_quantity : FixedDecimal }.

(* rust: crypto-domain/src/market/depth.rs OrderBookLevel::validate *)
Definition level_validate (l : OrderBookLevel) : result DomainError () :=
  if negb (is_positive (lvl_price l)) || negb (is_non_negative (lvl_quantity l))
  then Err (InvalidMarketValue "order book level price and quantity constraints failed")
  else Ok ().

(* rust: crypto-domain/src/market/depth.rs MarketDepthSnapshot *)
Record MarketDepthSnapshot := mkDepthSnapshot {
  ds_decision_trace_id : Z;
  ds_exchange : string;
  ds_symbol : Symbol;
  ds_event_time_ms : Z;
  ds_received_time_ms : Z;
  ds_sequence : Z;
  ds_quality : EventQuality;
  ds_level_count : Z;
  ds_bids : list OrderBookLevel;
  ds_asks : list OrderBookLevel;
  ds_bid_depth_qty : FixedDecimal;
  ds_ask_depth_qty : FixedDecimal;
  ds_depth_imbalance_bps : Bps;
  ds_spread_bps : Bps;
}.

(* rust: crypto-domain/src/market/depth.rs MarketDepthSnapshot::validate *)
Definition depth_snapshot_validate (s : MarketDepthSnapshot) : result DomainError () :=
  if ds_decision_trace_id s =? 0 then Err (InvalidMarketValue "trace id is zero") else
  if (ds_event_time_ms s <=? 0) || (ds_received_time_ms s <=? 0)
  then Err (InvalidMarketValue "timestamp must be positive") else
  match ds_bids s, ds_asks s with
  | best_bid :: _, best_ask :: _ =>
      if ds_level_count s =? 0
      then Err (InvalidMarketValue "market depth requires at least one bid and ask level") else
      _ ← try_fold (fun _ l => level_validate l) () (ds_bids s ++ ds_asks s);
      if negb (is_non_negative (ds_bid_depth_qty s)) || negb (is_non_negative (ds_ask_depth_qty s))
      then Err (InvalidMarketValue "depth quantity constraints failed") else
      crossed ← checked_gt (lvl_price best_bid) (lvl_price best_ask);
      if crossed : bool
      then Err (InvalidMarketValue "depth best bid cannot be greater than best ask")
      else Ok ()
  | _, _ => Err (InvalidMarketValue "market depth requires at least one bid and ask level")
  end.

(* rust: crypto-domain/src/market/snapshot.rs MarketSnapshot *)
Record MarketSnapshot := mkMarketSnapshot {
  ms_decision_trace_id : Z;
  ms_exchange : string;
  ms_symbol : Symbol;
  ms_event_time_ms : Z;
  ms_received_time_ms : Z;
  ms_sequence : Z;
  ms_quality : EventQuality;
  ms_last_price : FixedDecimal;
  ms_best_bid : FixedDecimal;
  ms_best_ask : FixedDecimal;
  ms_best_bid_qty : FixedDecimal;
  ms_best_ask_qty : FixedDecimal;
  ms_spread_bps : Bps;
}.

(* rust: crypto-domain/src/market/snapshot.rs MarketSnapshot::validate *)
Definition market_snapshot_validate (s : MarketSnapshot) : result DomainError () :=
  if ms_decision_trace_id s =? 0 then Err (InvalidMarketValue "trace id is zero") else
  if (ms_event_time_ms s <=? 0) || (ms_received_time_ms s <=? 0)
  then Err (InvalidMarketValue "timestamp must be positive") else
  if negb (is_positive (ms_last_price s)) || negb (is_positive (ms_best_bid s))
     || negb (is_positive (ms_best_ask s)) || negb (is_non_negative (ms_best_bid_qty s))
     || negb (is_non_negative (ms_best_ask_qty s))
  then Err (InvalidMarketValue "price and quantity constraints failed") else
  crossed ← checked_gt (ms_best_bid s) (ms_best_ask s);
  if crossed : bool
  then Err (InvalidMarketValue "best bid cannot be greater than best ask")
  else Ok ().

(* rust: crypto-domain/src/market/frame.rs CrossSectionalMarketFrame *)
Record CrossSectionalMarketFrame := mkFrame {
  fr_decision_trace_id : Z;
  fr_exchange : string;
  fr_event_time_ms : Z;
  fr_received_time_ms : Z;
  fr_sequence : Z;
  fr_markets : list MarketSnapshot;
}.

(** One iteration of the frame's loop, on the set of symbols seen. *)
Definition frame_step (exchange : string) (symbols : gset string) (m : MarketSnapshot)
    : result DomainError (gset string) :=
  _ ← market_snapshot_validate m;
  if negb (String.eqb (ms_exchange m) exchange)
  then Err (InvalidMarketValue "cross-sectional frame requires one exchange") else
  let name := sym_normalized (ms_symbol m) in
  if bool_decide (name ∈ symbols)
  then Err (InvalidMarketValue ("duplicate symbol in cross-sectional frame: " ++ name)%string)
  else Ok ({[name]} ∪ symbols).

(* rust: crypto-domain/src/market/frame.rs CrossSectionalMarketFrame::validate *)
Definition frame_validate (f : CrossSectionalMarketFrame) : result DomainError () :=
  if fr_decision_trace_id f =? 0
  then Err (InvalidMarketValue "cross-sectional trace id is zero") else
  if (fr_event_time_ms f <=? 0) || (fr_received_time_ms f <=? 0)
  then Err (InvalidMarketValue "cross-sectional timestamp must be positive") else
  if zlen (fr_markets f) <? 2
  then Err (InvalidMarketValue "cross-sectional frame requires at least two markets") else
  _ ← try_fold (frame_step (fr_exchange f)) ∅ (fr_markets f); Ok ().

(** ** What validation guarantees *)

Lemma checked_gt_false a b : checked_gt a b = Ok false ->
  value a * 10 ^ (Z.max (scale a) (scale b) - scale a) <=
  value b * 10 ^ (Z.max (scale a) (scale b) - scale b).
Proof.
  unfold checked_gt, cmp_scaled. intros H. inv_bind H. inv_bind Em. inv_bind Em.
  apply align_value_Ok in Em0 as (_ & -> & _). apply align_value_Ok in Em1 as (_ & -> & _).
  injection Em as <-. destruct (Z.compare_spec (value a * 10 ^ (Z.max (scale a) (scale b) - scale a))
    (value b * 10 ^ (Z.max (scale a) (scale b) - scale b))); try done; lia.
Qed.

(** A price at or below another, as the rationals they denote. *)
Definition price_le (a b : FixedDecimal) : Prop :=
  let s := Z.max (scale a) (scale b) in at_scale a s <= at_scale b s.

Record market_snapshot_valid (s : MarketSnapshot) : Prop := {
  msv_trace : ms_decision_trace_id s <> 0;
  msv_event_time : 0 < ms_event_time_ms s;
  msv_received_time : 0 < ms_received_time_ms s;
  msv_last : 0 < value (ms_last_price s);
  msv_bid : 0 < value (ms_best_bid s);
  msv_ask : 0 < value (ms_best_ask s);
  msv_bid_qty : 0 <= value (ms_best_bid_qty s);
  msv_ask_qty : 0 <= value (ms_best_ask_qty s);
  msv_uncrossed : price_le (ms_best_bid s) (ms_best_ask s);
}.

Lemma market_snapshot_validate_ok s u :
  market_snapshot_validate s = Ok u -> market_snapshot_valid s.
Proof.
  unfold market_snapshot_validate. intros H. repeat (case_if; [done|]).
  inv_bind H. destruct a; [done|]. apply checked_gt_false in Em.
  unfold is_positive, is_non_negative in *. bool_prop. split; done || lia.
Qed.

Record depth_snapshot_valid (s : MarketDepthSnapshot) : Prop := {
  dsv_trace : ds_decision_trace_id s <> 0;
  dsv_event_time : 0 < ds_event_time_ms s;
  dsv_received_time : 0 < ds_received_time_ms s;
  dsv_levels : Forall (fun l => 0 < value (lvl_price l) /\ 0 <= value (lvl_quantity l))
    (ds_bids s ++ ds_asks s);
  dsv_bid_qty : 0 <= value (ds_bid_depth_qty s);
  dsv_ask_qty : 0 <= value (ds_ask_depth_qty s);
  dsv_uncrossed : exists b bs a al, ds_bids s = b :: bs /\ ds_asks s = a :: al /\
    price_le (lvl_price b) (lvl_price a);
}.

Lemma level_validate_ok l u : level_validate l = Ok u ->
  0 < value (lvl_price l) /\ 0 <= value (lvl_quantity l).
Proof.
  unfold level_validate, is_positive, is_non_negative. case_if; [done|]. bool_prop. intros _.
  bool_prop. done.
Qed.

Lemma levels_validate_ok ls u v : try_fold (fun _ l => level_validate l) u ls = Ok v ->
  Forall (fun l => 0 < value (lvl_price l) /\ 0 <= value (lvl_quantity l)) ls.
Proof.
  revert u. induction ls as [|l ls IH]; intros u; cbn; [by constructor|].
  intros H. inv_bind H. constructor; [by eapply level_validate_ok | by eapply IH].
Qed.

Lemma depth_snapshot_validate_ok s u :
  depth_snapshot_validate s = Ok u -> depth_snapshot_valid s.
Proof.
  unfold depth_snapshot_validate. intros H. case_if; [done|]. case_if; [done|].
  destruct (ds_bids s) as [|b bs] eqn:Eb; [done|]. destruct (ds_asks s) as [|a al] eqn:Ea; [done|].
  case_if; [done|]. inv_bind H. case_if; [done|]. inv_bind H. destruct a1; [done|].
  apply levels_validate_ok in Em. apply checked_gt_false in Em0.
  unfold is_non_negative in *. bool_prop.
  split; rewrite ?Eb, ?Ea; try done; try lia. by exists b, bs, a, al.
Qed.

(** Symbols of a validated frame are pairwise distinct and of one exchange. *)
Lemma frame_loop_ok ex ms seen seen' :
  try_fold (frame_step ex) seen ms = Ok seen' ->
  Forall (fun m => market_snapshot_valid m /\ ms_exchange m = ex) ms /\
  NoDup ((fun m => sym_normalized (ms_symbol m)) <$> ms) /\
  (forall m, m ∈ ms -> sym_normalized (ms_symbol m) ∉ seen).
Proof.
  revert seen. induction ms as [|m ms IH]; intros seen; cbn.
  { intros _. split; [done|]. split; [by constructor|]. intros m Hm. by apply elem_of_nil in Hm. }
  intros H. inv_bind H. unfold frame_step in Em. inv_bind Em. case_if; [done|]. case_if; [done|].
  injection Em as <-. apply market_snapshot_validate_ok in Em0. bool_prop.
  apply String.eqb_eq in E. apply IH in H as (Hall & Hnd & Hnot).
  split; [by constructor|]. split.
  - constructor; [|done]. intros (m' & Heq & Hm')%list_elem_of_fmap.
    apply (Hnot m' Hm'). rewrite <- Heq. apply elem_of_union_l, elem_of_singleton_2; reflexivity.
  - intros m' [->|Hm']%elem_of_cons; [done|]. specialize (Hnot _ Hm'). by apply not_elem_of_union in Hnot as [_ ?].
Qed.

(** a cross-sectional frame that validates has at least two markets, every
    one a valid snapshot of the frame's exchange, uncrossed and positive, and no
    two of the same normalized symbol. *)
Theorem frame_validate_sound (f : CrossSectionalMarketFrame) :
  frame_validate f = Ok () ->
  2 <= zlen (fr_markets f) /\
  Forall (fun m => market_snapshot_valid m /\ ms_exchange m = fr_exchange f) (fr_markets f) /\
  NoDup ((fun m => sym_normalized (ms_symbol m)) <$> fr_markets f).
Proof.
  unfold frame_validate. intros H. do 3 (case_if; [done|]). inv_bind H. bool_prop.
  apply frame_loop_ok in Em as (? & ? & _). by split; [|split].
Qed.

Definition sample_snapshot (base : string) : MarketSnapshot :=
  mkMarketSnapshot 1 "binance" (mkSymbol "binance" base "USDT" (base ++ "-USDT") (base ++ "USDT"))
    10 11 7 QOk (mkDec 100 0) (mkDec 9995 2) (mkDec 1000 1) (mkDec 1 0) (mkDec 2 0) (mkBps 1).

Lemma frame_validate_sound_witness :
  let f := mkFrame 1 "binance" 10 11 7 [sample_snapshot "BTC"; sample_snapshot "ETH"] in
  frame_validate f = Ok () /\ NoDup ((fun m => sym_normalized (ms_symbol m)) <$> fr_markets f).
Proof.
  intros f. split; [by vm_compute|]. apply (frame_validate_sound f). by vm_compute.
Defined.
