(* ===== verification/Wire.v ===== *)
(** * Wire: codecs of a self-describing format

    What serde's derived implementations do for the data of [crypto-domain]: a struct is a
    map from its field names, a unit variant is its renamed name, an absent field is its
    default or, for an [Option], none.  The format itself (serde_json in the program) is the
    class [DataFormat]; its documented behaviour is [FormatLaws]. *)
From S2P Require Import Prelude Text Decimal Domain.
Open Scope Z_scope.
Open Scope list_scope.

(** ** The format *)

Class DataFormat (V : Type) := {
  v_null : V; v_bool : bool -> V; v_int : Z -> V; v_str : string -> V; v_seq : list V -> V;
  v_map : list (string * V) -> V;
  d_is_null : V -> bool; d_bool : V -> option bool; d_int : V -> option Z; d_str : V -> option string;
  d_seq : V -> option (list V); d_is_map : V -> bool; d_field : string -> V -> option V;
}.

(** The first field of a name. *)
Fixpoint assoc {V} (name : string) (l : list (string * V)) : option V :=
  match l with [] => None | (n, v) :: l => if String.eqb n name then Some v else assoc name l end.

Class FormatLaws (V : Type) {D : DataFormat V} := {
  null_null : d_is_null v_null = true;
  bool_back : forall b, d_bool (v_bool b) = Some b /\ d_is_null (v_bool b) = false;
  int_back : forall z, d_int (v_int z) = Some z /\ d_is_null (v_int z) = false;
  str_back : forall s, d_str (v_str s) = Some s /\ d_is_null (v_str s) = false;
  seq_back : forall l, d_seq (v_seq l) = Some l /\ d_is_null (v_seq l) = false;
  map_back : forall l, d_is_map (v_map l) = true /\ d_is_null (v_map l) = false;
  field_back : forall l name, NoDup l.*1 -> d_field name (v_map l) = assoc name l;
}.

(** ** Codecs *)

(** How a type is written and read; [c_absent] is what a missing field of the type reads as,
    and [c_ok] the values the Rust type can hold. *)
Record Codec (V A : Type) := mkCodec {
  c_enc : A -> V; c_dec : V -> option A; c_absent : option A; c_ok : A -> Prop }.
Arguments mkCodec {V A}.
Arguments c_enc {V A}.
Arguments c_dec {V A}.
Arguments c_absent {V A}.
Arguments c_ok {V A}.

Section codecs.
Context {V : Type} {D : DataFormat V}.

Definition bool_c : Codec V bool := mkCodec v_bool d_bool None (fun _ => True).
Definition str_c : Codec V string := mkCodec v_str d_str None (fun _ => True).
Definition int_c (t : int_ty) : Codec V Z :=
  mkCodec v_int (fun v => z ← d_int v; if in_rangeb t z then Some z else None) None (in_range t).
Definition list_c {A} (c : Codec V A) : Codec V (list A) :=
  mkCodec (fun l => v_seq (map (c_enc c) l)) (fun v => l ← d_seq v; mapM (c_dec c) l) None (Forall (c_ok c)).
Definition opt_c {A} (c : Codec V A) : Codec V (option A) :=
  mkCodec (fun o => match o with Some a => c_enc c a | None => v_null end)
    (fun v => if d_is_null v then Some None else Some <$> c_dec c v)
    (Some None) (fun o => match o with Some a => c_ok c a | None => True end).

(** A field of a struct: its name, its codec, the default of [#[serde(default)]] and the
    test of [skip_serializing_if]. *)
Record FieldSpec (A : Type) := mkSpec {
  fs_name : string; fs_codec : Codec V A; fs_default : option A; fs_skip : A -> bool }.

(** The derived implementations of a struct [R], field by field: [T] is the type of the
    constructor that is still to be applied. *)
Inductive Fields (R : Type) : Type -> Type :=
  | fields_end : Fields R R
  | fields_cons {A T} (spec : FieldSpec A) (get : R -> A) (rest : Fields R T) : Fields R (A -> T).

(** What a field that is not there reads as. *)
Definition when_absent {A} (f : FieldSpec A) : option A :=
  match fs_default _ f with Some d => Some d | None => c_absent (fs_codec _ f) end.

Definition enc_field {A} (f : FieldSpec A) (a : A) : list (string * V) :=
  if fs_skip _ f a then [] else [(fs_name _ f, c_enc (fs_codec _ f) a)].

Definition dec_field {A} (f : FieldSpec A) (v : V) : option A :=
  match d_field (fs_name _ f) v with Some v => c_dec (fs_codec _ f) v | None => when_absent f end.

Fixpoint enc_fields {R T} (fs : Fields R T) (r : R) : list (string * V) :=
  match fs with
  | fields_end _ => []
  | fields_cons _ spec get rest => enc_field spec (get r) ++ enc_fields rest r
  end.

Fixpoint dec_fields {R T} (fs : Fields R T) : T -> V -> option R :=
  match fs with
  | fields_end _ => fun r _ => Some r
  | fields_cons _ spec get rest => fun mk v => a ← dec_field spec v; dec_fields rest (mk a) v
  end.

(** The values the Rust type can hold. *)
Fixpoint ok_fields {R T} (fs : Fields R T) (r : R) : Prop :=
  match fs with
  | fields_end _ => True
  | fields_cons _ spec get rest => c_ok (fs_codec _ spec) (get r) /\ ok_fields rest r
  end.

Definition struct_c {R T} (mk : T) (fs : Fields R T) : Codec V R :=
  mkCodec (fun r => v_map (enc_fields fs r)) (fun v => if d_is_map v then dec_fields fs mk v else None) None
    (ok_fields fs).

(** An enum of unit variants with their wire names; every value of it is allowed. *)
Definition enum_c {A} (name : A -> string) (variants : list A) : Codec V A :=
  mkCodec (fun a => v_str (name a))
    (fun v => s ← d_str v; List.find (fun a => String.eqb (name a) s) variants) None (fun _ => True).
End codecs.
Arguments fields_end {V R}.
Arguments fields_cons {V R A T}.
Arguments mkSpec {V A}.
Arguments fs_name {V A}.
Arguments fs_codec {V A}.
Arguments fs_default {V A}.
Arguments fs_skip {V A}.

Declare Scope wire_scope.
Delimit Scope wire_scope with wire.

(** A plain field; one with [#[serde(default)]]; and an optional one that is also left out
    when it is none. *)
Definition required {V A} (name : string) (c : Codec V A) : FieldSpec A := mkSpec name c None (fun _ => false).
Definition with_default {V A} (d : A) (name : string) (c : Codec V A) : FieldSpec A :=
  mkSpec name c (Some d) (fun _ => false).
Definition unless_none {V A} (name : string) (c : Codec V (option A)) : FieldSpec (option A) :=
  mkSpec name c (Some None) (fun o => match o with None => true | Some _ => false end).
Notation "get '=:' spec ';' rest" := (fields_cons spec get rest)
  (at level 100, spec at level 99, rest at level 200, right associativity) : wire_scope.

(** ** [rename_all] *)

Fixpoint snake_bytes (first : bool) (l : list ascii) : list ascii :=
  match l with
  | [] => []
  | a :: l => (if is_ascii_upper a && negb first then ["_"%char; to_lower a] else [to_lower a]) ++ snake_bytes false l
  end.

(** The variant [TrendUp] is [trend_up] in snake_case and [TREND_UP] in screaming
    snake case; PascalCase leaves it. *)
Definition snake_case (variant : string) : string := of_bytes (snake_bytes true (bytes variant)).
Definition screaming_snake_case (variant : string) : string := to_ascii_uppercase (snake_case variant).
Definition pascal_case (variant : string) : string := variant.

(** ** Lawful codecs *)

(** What is written is read back, and is not null. *)
Definition reads_back {V} {D : DataFormat V} {A} (c : Codec V A) : Prop :=
  forall a, c_ok c a -> c_dec c (c_enc c a) = Some a.
Definition lawful {V} {D : DataFormat V} {A} (c : Codec V A) : Prop :=
  reads_back c /\ forall a, d_is_null (c_enc c a) = false.

(** The variants of an enum, none left out, and no wire name given to two of them. *)
Class WireEnum {A : Type} (name : A -> string) (variants : list A) : Prop := {
  listed : forall a, a ∈ variants;
  names_differ : NoDup (map name variants);
}.

Lemma find_by_name {A} (name : A -> string) variants a : NoDup (map name variants) -> a ∈ variants ->
  List.find (fun b => String.eqb (name b) (name a)) variants = Some a.
Proof.
  induction variants as [|b variants IH]; [by intros _ []%elem_of_nil|]. cbn. intros [Hb Hn]%NoDup_cons Ha.
  destruct (String.eqb_spec (name b) (name a)) as [Hab|Hab].
  - apply elem_of_cons in Ha as [->|Ha]; [done|]. destruct Hb. rewrite Hab. by apply list_elem_of_fmap_2.
  - apply elem_of_cons in Ha as [->|Ha]; [done|by apply IH].
Qed.

Section laws.
Context {V : Type} {D : DataFormat V} {L : FormatLaws V}.

Lemma bool_lawful : lawful bool_c.
Proof. split; intros b; [intros _|]; apply bool_back. Qed.

Lemma str_lawful : lawful str_c.
Proof. split; intros s; [intros _|]; apply str_back. Qed.

Lemma int_lawful t : lawful (int_c t).
Proof.
  split; intros z; [intros Hz|]; cbn; [|apply int_back]. destruct (int_back z) as [-> _]. cbn.
  cbn in Hz. unfold in_rangeb. unfold in_range in Hz. by rewrite (proj2 (andb_true_iff _ _)) by lia.
Qed.

Lemma list_lawful {A} (c : Codec V A) : lawful c -> lawful (list_c c).
Proof.
  intros [Hc _]. split; intros l; [intros Hl|]; cbn; [|apply seq_back]. destruct (seq_back (map (c_enc c) l)) as [-> _].
  cbn. cbn in Hl. induction Hl as [|a l Ha _ IH]; [done|]. cbn. by rewrite (Hc a Ha), IH.
Qed.

Lemma opt_reads_back {A} (c : Codec V A) : lawful c -> reads_back (opt_c c).
Proof.
  intros [Hc Hn] [a|] Ha; cbn; [|by rewrite null_null]. by rewrite Hn, (Hc a Ha).
Qed.

Lemma enum_lawful {A} (name : A -> string) variants `{E : WireEnum A name variants} : lawful (enum_c name variants).
Proof.
  split; intros a; [intros _|]; cbn; [|apply str_back]. destruct (str_back (name a)) as [-> _].
  apply find_by_name; apply E.
Qed.

(** A text is read as a variant exactly when it is its name. *)
Lemma enum_reads_names {A} (name : A -> string) variants `{E : WireEnum A name variants} s a :
  c_dec (enum_c name variants) (v_str s) = Some a <-> s = name a.
Proof.
  split; [|intros ->; by apply (proj1 (enum_lawful name variants))]. cbn. destruct (str_back s) as [-> _]. cbn.
  intros [_ H]%find_some. symmetry. by apply String.eqb_eq.
Qed.

(** A field whose values are read back, also those it leaves out. *)
Definition field_reads {A} (f : FieldSpec (V := V) A) : Prop :=
  reads_back (fs_codec f) /\ forall a, fs_skip f a = true -> when_absent f = Some a.

Lemma required_reads {A} name (c : Codec V A) : reads_back c -> field_reads (required name c).
Proof. by split. Qed.
Lemma with_default_reads {A} d name (c : Codec V A) : reads_back c -> field_reads (with_default d name c).
Proof. by split. Qed.
Lemma unless_none_reads {A} name (c : Codec V (option A)) : reads_back c -> field_reads (unless_none name c).
Proof. by split; [|intros []]. Qed.

Fixpoint names {R T} (fs : Fields (V := V) R T) : list string :=
  match fs with fields_end => [] | fields_cons spec _ rest => fs_name spec :: names rest end.

Fixpoint reading {R T} (fs : Fields (V := V) R T) : Prop :=
  match fs with fields_end => True | fields_cons spec _ rest => field_reads spec /\ reading rest end.

(** The constructor applied to the fields of a record. *)
Fixpoint rebuilt {R T} (fs : Fields (V := V) R T) : T -> R -> R :=
  match fs with fields_end => fun r _ => r | fields_cons _ get rest => fun mk r => rebuilt rest (mk (get r)) r end.

(** Every field of a record is found as it was written, or is not there and reads as it is. *)
Fixpoint located {R T} (fs : Fields (V := V) R T) (r : R) (look : string -> option V) : Prop :=
  match fs with
  | fields_end => True
  | fields_cons spec get rest =>
      (look (fs_name spec) = Some (c_enc (fs_codec spec) (get r)) \/
       look (fs_name spec) = None /\ when_absent spec = Some (get r)) /\
      located rest r look
  end.

Lemma located_ext {R T} (fs : Fields (V := V) R T) r look look' :
  (forall name, name ∈ names fs -> look name = look' name) -> located fs r look -> located fs r look'.
Proof.
  induction fs as [|A T spec get rest IH]; intros Heq; [done|]. cbn in *. intros [H Hrest]. split.
  - by rewrite <- !Heq by (constructor).
  - apply IH; [|done]. intros name Hname. apply Heq. by constructor.
Qed.

Lemma assoc_none (l : list (string * V)) name : name ∉ l.*1 -> assoc name l = None.
Proof.
  induction l as [|[n v] l IH]; [done|]. cbn. intros H. apply not_elem_of_cons in H as [Hn Hl].
  destruct (String.eqb_spec n name); [congruence|by apply IH].
Qed.

Lemma assoc_enc_field {A} (spec : FieldSpec (V := V) A) a l name : fs_name spec <> name ->
  assoc name (enc_field spec a ++ l) = assoc name l.
Proof. intros Hn. unfold enc_field. destruct (fs_skip spec a); [done|]. cbn. by destruct (String.eqb_spec (fs_name spec) name). Qed.

Lemma enc_names {R T} (fs : Fields (V := V) R T) r : (enc_fields fs r).*1 `sublist_of` names fs.
Proof.
  induction fs as [|A T spec get rest IH]; [constructor|]. cbn. unfold enc_field.
  destruct (fs_skip spec (get r)); cbn; by constructor.
Qed.

Lemma enc_located {R T} (fs : Fields R T) r : NoDup (names fs) -> reading fs ->
  located fs r (fun name => assoc name (enc_fields fs r)).
Proof.
  induction fs as [|A T spec get rest IH]; [done|]. cbn. intros [Hn Hd]%NoDup_cons [[_ Hskip] Hread]. split.
  - unfold enc_field. destruct (fs_skip spec (get r)) eqn:Hs; cbn; [right|left; by rewrite String.eqb_refl].
    split; [|by apply Hskip]. apply assoc_none. intros Hin. apply Hn. by apply (elem_of_sublist _ _ _ Hin), enc_names.
  - apply (located_ext rest r (fun name => assoc name (enc_fields rest r))); [|by apply IH].
    intros name Hname. symmetry. apply assoc_enc_field. by intros <-.
Qed.

Lemma dec_located {R T} (fs : Fields R T) mk r v : reading fs -> ok_fields fs r ->
  located fs r (fun name => d_field name v) -> dec_fields fs mk v = Some (rebuilt fs mk r).
Proof.
  induction fs as [|A T spec get rest IH]; [done|]. cbn. intros [[Hc _] Hr] [Hok Hrest] [[Hfield|[Hfield Habsent]] Hloc];
    unfold dec_field; rewrite Hfield.
  - rewrite (Hc _ Hok). cbn. by apply IH.
  - rewrite Habsent. cbn. by apply IH.
Qed.

(** A map of distinct names reads as the record whose fields it holds or leaves out. *)
Lemma struct_reads_located {R T} (mk : T) (fs : Fields R T) r l : NoDup l.*1 -> reading fs -> ok_fields fs r ->
  (forall r, rebuilt fs mk r = r) -> located fs r (fun name => assoc name l) -> c_dec (struct_c mk fs) (v_map l) = Some r.
Proof.
  intros Hl Hread Hok Hmk Hloc. cbn. destruct (map_back l) as [-> _]. rewrite <- (Hmk r). apply dec_located; [done..|].
  apply (located_ext fs r (fun name => assoc name l)); [|done]. intros name _. symmetry. by apply field_back.
Qed.

(** A struct of distinct names is read back when its fields are. *)
Lemma struct_lawful {R T} (mk : T) (fs : Fields R T) : bool_decide (NoDup (names fs)) = true -> reading fs ->
  (forall r, rebuilt fs mk r = r) -> lawful (struct_c mk fs).
Proof.
  intros Hnames Hread Hmk. apply bool_decide_eq_true in Hnames. split; intros r; [intros Hok|]; [|apply map_back].
  apply struct_reads_located; [|done..|by apply enc_located].
  eapply sublist_NoDup; [exact Hnames|apply enc_names].
Qed.

(** A record that differs from another in the fields that are gone, which read as they are. *)
Fixpoint adjusted {R T} (fs : Fields (V := V) R T) (gone : string -> bool) (r r' : R) : Prop :=
  match fs with
  | fields_end => True
  | fields_cons spec get rest =>
      (if gone (fs_name spec) then when_absent spec = Some (get r') else get r' = get r) /\ adjusted rest gone r r'
  end.

Lemma located_adjusted {R T} (fs : Fields R T) gone r r' look : adjusted fs gone r r' -> located fs r look ->
  located fs r' (fun name => if gone name then None else look name).
Proof.
  induction fs as [|A T spec get rest IH]; [done|]. cbn. intros [Hf Hrest] [Hl Hloc]. split; [|by apply IH].
  destruct (gone (fs_name spec)); [by right|]. by rewrite Hf.
Qed.

Lemma assoc_filter (p : string -> bool) (l : list (string * V)) name :
  assoc name (List.filter (fun f => p f.1) l) = if p name then assoc name l else None.
Proof.
  induction l as [|[n v] l IH]; cbn; [by destruct (p name)|]. destruct (p n) eqn:Hn; cbn;
    (destruct (String.eqb_spec n name) as [->|]; [rewrite ?Hn; try done|done]).
  by rewrite IH, Hn.
Qed.
(** A record written before some of its fields were added. *)
Lemma older_reads {R T} (mk : T) (fs : Fields R T) gone r r' : bool_decide (NoDup (names fs)) = true -> reading fs ->
  (forall r, rebuilt fs mk r = r) -> ok_fields fs r' -> adjusted fs gone r r' ->
  c_dec (struct_c mk fs) (v_map (List.filter (fun f => negb (gone f.1)) (enc_fields fs r))) = Some r'.
Proof.
  intros Hnames Hread Hmk Hok Hadj. apply bool_decide_eq_true in Hnames.
  apply struct_reads_located; try done.
  - eapply sublist_NoDup; [exact Hnames|]. transitivity (enc_fields fs r).*1; [|apply enc_names].
    induction (enc_fields fs r) as [|f l IH]; [done|]. cbn. destruct (negb (gone f.1)); cbn; by constructor.
  - apply (located_ext fs r' (fun name => if gone name then None else assoc name (enc_fields fs r))).
    + intros name _. rewrite (assoc_filter (fun name => negb (gone name))). by destruct (gone name).
    + apply (located_adjusted fs gone r); [done|by apply enc_located].
Qed.
End laws.

(** ** The codecs of the numbers *)

Section numbers.
Context {V : Type} {D : DataFormat V}.

(* rust: crypto-domain/src/numeric/bps.rs Bps *)
Definition bps_c : Codec V Bps := struct_c mkBps (bps_value =: required "value" (int_c I64); fields_end)%wire.

(* rust: crypto-domain/src/numeric/bps.rs MicroBps *)
Record MicroBps := mkMicroBps { micro_bps_value : Z }.

Definition micro_bps_c : Codec V MicroBps :=
  struct_c mkMicroBps (micro_bps_value =: required "value" (int_c I64); fields_end)%wire.

(* rust: fixed_decimal/wire.rs 23-26 FixedDecimalWire *)
Definition decimal_wire_c : Codec V FixedDecimalWire :=
  struct_c mkWire (wire_value =: required "value" str_c; wire_scale =: required "scale" (int_c U32); fields_end)%wire.

(** A decimal goes through its wire form. *)
Definition decimal_c : Codec V FixedDecimal :=
  mkCodec (fun d => c_enc decimal_wire_c (serialize d)) (fun v => w ← c_dec decimal_wire_c v; deserialize w) None dec_wf.
End numbers.

Create HintDb wire.

Lemma lawful_reads {V} {D : DataFormat V} {A} (c : Codec V A) : lawful c -> reads_back c.
Proof. by intros [H _]. Qed.
#[export] Hint Resolve lawful_reads bool_lawful str_lawful int_lawful list_lawful opt_reads_back
  required_reads with_default_reads unless_none_reads : wire.

(** The fields of a struct, one after another. *)
Ltac struct_reads :=
  apply struct_lawful; [vm_compute; reflexivity | cbn [reading]; repeat (split; [solve [eauto 8 with wire]|]); exact I | by intros [] ].

Section number_laws.
Context {V : Type} {D : DataFormat V} {L : FormatLaws V}.

Lemma bps_lawful : lawful bps_c.
Proof. unfold bps_c. struct_reads. Qed.

Lemma micro_bps_lawful : lawful micro_bps_c.
Proof. unfold micro_bps_c. struct_reads. Qed.

Lemma decimal_wire_lawful : lawful decimal_wire_c.
Proof. unfold decimal_wire_c. struct_reads. Qed.

Lemma decimal_lawful : lawful decimal_c.
Proof.
  destruct decimal_wire_lawful as [Hr Hn]. split; intros d; [intros [Hv Hs]|apply Hn]. cbn [decimal_c c_dec c_enc].
  rewrite (Hr (serialize d)) by done. cbn. unfold deserialize, serialize. cbn [wire_value wire_scale].
  rewrite parse_show_Z by done. by destruct d.
Qed.
End number_laws.
#[export] Hint Resolve bps_lawful micro_bps_lawful decimal_lawful : wire.

(** ** A format that keeps the laws: trees *)

Inductive Tree := TNull | TBool (b : bool) | TInt (z : Z) | TStr (s : string) | TSeq (l : list Tree)
  | TMap (l : list (string * Tree)).

#[export] Instance tree_format : DataFormat Tree := {|
  v_null := TNull; v_bool := TBool; v_int := TInt; v_str := TStr; v_seq := TSeq; v_map := TMap;
  d_is_null v := match v with TNull => true | _ => false end;
  d_bool v := match v with TBool b => Some b | _ => None end;
  d_int v := match v with TInt z => Some z | _ => None end;
  d_str v := match v with TStr s => Some s | _ => None end;
  d_seq v := match v with TSeq l => Some l | _ => None end;
  d_is_map v := match v with TMap _ => true | _ => false end;
  d_field name v := match v with TMap l => assoc name l | _ => None end;
|}.

#[export] Instance tree_laws : FormatLaws Tree.
Proof. by split. Qed.
