(* ===== verification/DomainEnums.v ===== *)
(** * DomainEnums: the enumerations of the domain and their wire names

    [enums.rs], and the enums of [position_payload.rs] and [ai.rs]: the name of a variant is
    its identifier under the [rename_all] rule of its enum, or its own [rename]. *)
From S2P Require Import Prelude Text Decimal Domain Wire.
Open Scope Z_scope.
Open Scope list_scope.

(** ** Direction *)

(* rust: crypto-domain/src/enums.rs Direction *)
Inductive Direction :=
  | Direction_Long | Direction_Flat | Direction_Exit.

Definition Direction_all : list Direction :=
  [Direction_Long; Direction_Flat; Direction_Exit].

(* rust: crypto-domain/src/enums.rs Direction *)
Definition Direction_name (e : Direction) : string :=
  match e with
  | Direction_Long => snake_case "Long" | Direction_Flat => snake_case "Flat"
  | Direction_Exit => snake_case "Exit"
  end.

(** ** OrderStyle *)

(* rust: crypto-domain/src/enums.rs OrderStyle *)
Inductive OrderStyle :=
  | OrderStyle_Maker | OrderStyle_Taker | OrderStyle_Reject.

Definition OrderStyle_all : list OrderStyle :=
  [OrderStyle_Maker; OrderStyle_Taker; OrderStyle_Reject].

(* rust: crypto-domain/src/enums.rs OrderStyle *)
Definition OrderStyle_name (e : OrderStyle) : string :=
  match e with
  | OrderStyle_Maker => snake_case "Maker" | OrderStyle_Taker => snake_case "Taker"
  | OrderStyle_Reject => snake_case "Reject"
  end.

(** ** EventQuality *)

Definition EventQuality_all : list EventQuality :=
  [QOk; QDelayed; QGap; QStale; QInvalid].

(* rust: crypto-domain/src/enums.rs EventQuality *)
Definition EventQuality_name (e : EventQuality) : string :=
  match e with
  | QOk => snake_case "Ok" | QDelayed => snake_case "Delayed" | QGap => snake_case "Gap"
  | QStale => snake_case "Stale" | QInvalid => snake_case "Invalid"
  end.

(** ** DepthAttachmentStatus *)

(* rust: crypto-domain/src/enums.rs DepthAttachmentStatus *)
Inductive DepthAttachmentStatus :=
  | DepthAttachmentStatus_Attached | DepthAttachmentStatus_Missing.

Definition DepthAttachmentStatus_all : list DepthAttachmentStatus :=
  [DepthAttachmentStatus_Attached; DepthAttachmentStatus_Missing].

(* rust: crypto-domain/src/enums.rs DepthAttachmentStatus *)
Definition DepthAttachmentStatus_name (e : DepthAttachmentStatus) : string :=
  match e with
  | DepthAttachmentStatus_Attached => snake_case "Attached"
  | DepthAttachmentStatus_Missing => snake_case "Missing"
  end.

(** ** DepthMissingReason *)

(* rust: crypto-domain/src/enums.rs DepthMissingReason *)
Inductive DepthMissingReason :=
  | DepthMissingReason_NoSnapshotSeen | DepthMissingReason_SnapshotAfterMarket
  | DepthMissingReason_SnapshotTooOld.

Definition DepthMissingReason_all : list DepthMissingReason :=
  [DepthMissingReason_NoSnapshotSeen; DepthMissingReason_SnapshotAfterMarket; DepthMissingReason_SnapshotTooOld].

(* rust: crypto-domain/src/enums.rs DepthMissingReason *)
Definition DepthMissingReason_name (e : DepthMissingReason) : string :=
  match e with
  | DepthMissingReason_NoSnapshotSeen => snake_case "NoSnapshotSeen"
  | DepthMissingReason_SnapshotAfterMarket => snake_case "SnapshotAfterMarket"
  | DepthMissingReason_SnapshotTooOld => snake_case "SnapshotTooOld"
  end.

(** ** Regime *)

(* rust: crypto-domain/src/enums.rs Regime *)
Inductive Regime :=
  | Regime_TrendUp | Regime_TrendDown | Regime_Range | Regime_Squeeze | Regime_Jump | Regime_ToxicFlow
  | Regime_Illiquid | Regime_Uncertain.

Definition Regime_all : list Regime :=
  [Regime_TrendUp; Regime_TrendDown; Regime_Range; Regime_Squeeze; Regime_Jump; Regime_ToxicFlow;
   Regime_Illiquid; Regime_Uncertain].

(* rust: crypto-domain/src/enums.rs Regime *)
Definition Regime_name (e : Regime) : string :=
  match e with
  | Regime_TrendUp => snake_case "TrendUp" | Regime_TrendDown => snake_case "TrendDown"
  | Regime_Range => snake_case "Range" | Regime_Squeeze => snake_case "Squeeze"
  | Regime_Jump => snake_case "Jump" | Regime_ToxicFlow => snake_case "ToxicFlow"
  | Regime_Illiquid => snake_case "Illiquid" | Regime_Uncertain => snake_case "Uncertain"
  end.

(** ** ExpertStatus *)

(* rust: crypto-domain/src/enums.rs ExpertStatus *)
Inductive ExpertStatus :=
  | ExpertStatus_Candidate | ExpertStatus_PaperProbation | ExpertStatus_PaperActive | ExpertStatus_Throttled
  | ExpertStatus_Retired.

Definition ExpertStatus_all : list ExpertStatus :=
  [ExpertStatus_Candidate; ExpertStatus_PaperProbation; ExpertStatus_PaperActive; ExpertStatus_Throttled;
   ExpertStatus_Retired].

(* rust: crypto-domain/src/enums.rs ExpertStatus *)
Definition ExpertStatus_name (e : ExpertStatus) : string :=
  match e with
  | ExpertStatus_Candidate => snake_case "Candidate"
  | ExpertStatus_PaperProbation => snake_case "PaperProbation"
  | ExpertStatus_PaperActive => snake_case "PaperActive" | ExpertStatus_Throttled => snake_case "Throttled"
  | ExpertStatus_Retired => snake_case "Retired"
  end.

(** ** ReasonCode *)

(* rust: crypto-domain/src/enums.rs ReasonCode *)
Inductive ReasonCode :=
  | ReasonCode_EventDelayed | ReasonCode_EventGap | ReasonCode_EventStale | ReasonCode_EventInvalid
  | ReasonCode_SymbolUnhealthy | ReasonCode_UnfinishedCandle | ReasonCode_ChannelOverflow
  | ReasonCode_RegimeMismatch | ReasonCode_LowConfidence | ReasonCode_RecentFailure | ReasonCode_NoConsensus
  | ReasonCode_DuplicateSignal | ReasonCode_ExpertDisabled | ReasonCode_CostTooHigh | ReasonCode_LatencyTooHigh
  | ReasonCode_SpreadTooWide | ReasonCode_AdversePriceImpact | ReasonCode_AdversePriceImpact10Tick
  | ReasonCode_AdverseOrderbookImbalance | ReasonCode_AdverseDepthImbalance | ReasonCode_AdverseMicropriceEdge
  | ReasonCode_WeakRelativeMomentum | ReasonCode_InsufficientTradeIntensityExpansion
  | ReasonCode_InsufficientVolatilityExpansion | ReasonCode_AdverseMicrostructure | ReasonCode_SlippageUnknown
  | ReasonCode_FillQualityLow | ReasonCode_RiskLimit | ReasonCode_DailyStop | ReasonCode_WeeklyDrawdownReduced
  | ReasonCode_MonthlyDrawdownPaperOnly | ReasonCode_SymbolStop | ReasonCode_StrategyThrottled
  | ReasonCode_CooldownActive | ReasonCode_NotionalCap | ReasonCode_PortfolioCap | ReasonCode_PaperOnly
  | ReasonCode_LocalRiskFlag | ReasonCode_SimulationRejected | ReasonCode_PartialFillSimulated
  | ReasonCode_PairAtomicityRequired | ReasonCode_PairLeggingRisk | ReasonCode_PairCompensationRequired
  | ReasonCode_LedgerWriteFailed | ReasonCode_TraceIdMissing | ReasonCode_CorrectionAppended
  | ReasonCode_MarketEventAccepted | ReasonCode_MetaCandidateCreated | ReasonCode_CostApproved
  | ReasonCode_RiskApproved | ReasonCode_RiskCapped | ReasonCode_PaperOrderSimulated
  | ReasonCode_PaperFillCreated.

Definition ReasonCode_all : list ReasonCode :=
  [ReasonCode_EventDelayed; ReasonCode_EventGap; ReasonCode_EventStale; ReasonCode_EventInvalid;
   ReasonCode_SymbolUnhealthy; ReasonCode_UnfinishedCandle; ReasonCode_ChannelOverflow;
   ReasonCode_RegimeMismatch; ReasonCode_LowConfidence; ReasonCode_RecentFailure; ReasonCode_NoConsensus;
   ReasonCode_DuplicateSignal; ReasonCode_ExpertDisabled; ReasonCode_CostTooHigh; ReasonCode_LatencyTooHigh;
   ReasonCode_SpreadTooWide; ReasonCode_AdversePriceImpact; ReasonCode_AdversePriceImpact10Tick;
   ReasonCode_AdverseOrderbookImbalance; ReasonCode_AdverseDepthImbalance; ReasonCode_AdverseMicropriceEdge;
   ReasonCode_WeakRelativeMomentum; ReasonCode_InsufficientTradeIntensityExpansion;
   ReasonCode_InsufficientVolatilityExpansion; ReasonCode_AdverseMicrostructure; ReasonCode_SlippageUnknown;
   ReasonCode_FillQualityLow; ReasonCode_RiskLimit; ReasonCode_DailyStop; ReasonCode_WeeklyDrawdownReduced;
   ReasonCode_MonthlyDrawdownPaperOnly; ReasonCode_SymbolStop; ReasonCode_StrategyThrottled;
   ReasonCode_CooldownActive; ReasonCode_NotionalCap; ReasonCode_PortfolioCap; ReasonCode_PaperOnly;
   ReasonCode_LocalRiskFlag; ReasonCode_SimulationRejected; ReasonCode_PartialFillSimulated;
   ReasonCode_PairAtomicityRequired; ReasonCode_PairLeggingRisk; ReasonCode_PairCompensationRequired;
   ReasonCode_LedgerWriteFailed; ReasonCode_TraceIdMissing; ReasonCode_CorrectionAppended;
   ReasonCode_MarketEventAccepted; ReasonCode_MetaCandidateCreated; ReasonCode_CostApproved;
   ReasonCode_RiskApproved; ReasonCode_RiskCapped; ReasonCode_PaperOrderSimulated; ReasonCode_PaperFillCreated].

(* rust: crypto-domain/src/enums.rs ReasonCode *)
Definition ReasonCode_name (e : ReasonCode) : string :=
  match e with
  | ReasonCode_EventDelayed => screaming_snake_case "EventDelayed"
  | ReasonCode_EventGap => screaming_snake_case "EventGap"
  | ReasonCode_EventStale => screaming_snake_case "EventStale"
  | ReasonCode_EventInvalid => screaming_snake_case "EventInvalid"
  | ReasonCode_SymbolUnhealthy => screaming_snake_case "SymbolUnhealthy"
  | ReasonCode_UnfinishedCandle => screaming_snake_case "UnfinishedCandle"
  | ReasonCode_ChannelOverflow => screaming_snake_case "ChannelOverflow"
  | ReasonCode_RegimeMismatch => screaming_snake_case "RegimeMismatch"
  | ReasonCode_LowConfidence => screaming_snake_case "LowConfidence"
  | ReasonCode_RecentFailure => screaming_snake_case "RecentFailure"
  | ReasonCode_NoConsensus => screaming_snake_case "NoConsensus"
  | ReasonCode_DuplicateSignal => screaming_snake_case "DuplicateSignal"
  | ReasonCode_ExpertDisabled => screaming_snake_case "ExpertDisabled"
  | ReasonCode_CostTooHigh => screaming_snake_case "CostTooHigh"
  | ReasonCode_LatencyTooHigh => screaming_snake_case "LatencyTooHigh"
  | ReasonCode_SpreadTooWide => screaming_snake_case "SpreadTooWide"
  | ReasonCode_AdversePriceImpact => screaming_snake_case "AdversePriceImpact"
  | ReasonCode_AdversePriceImpact10Tick => "ADVERSE_PRICE_IMPACT_10_TICK"
  | ReasonCode_AdverseOrderbookImbalance => screaming_snake_case "AdverseOrderbookImbalance"
  | ReasonCode_AdverseDepthImbalance => screaming_snake_case "AdverseDepthImbalance"
  | ReasonCode_AdverseMicropriceEdge => screaming_snake_case "AdverseMicropriceEdge"
  | ReasonCode_WeakRelativeMomentum => screaming_snake_case "WeakRelativeMomentum"
  | ReasonCode_InsufficientTradeIntensityExpansion => screaming_snake_case "InsufficientTradeIntensityExpansion"
  | ReasonCode_InsufficientVolatilityExpansion => screaming_snake_case "InsufficientVolatilityExpansion"
  | ReasonCode_AdverseMicrostructure => screaming_snake_case "AdverseMicrostructure"
  | ReasonCode_SlippageUnknown => screaming_snake_case "SlippageUnknown"
  | ReasonCode_FillQualityLow => screaming_snake_case "FillQualityLow"
  | ReasonCode_RiskLimit => screaming_snake_case "RiskLimit"
  | ReasonCode_DailyStop => screaming_snake_case "DailyStop"
  | ReasonCode_WeeklyDrawdownReduced => screaming_snake_case "WeeklyDrawdownReduced"
  | ReasonCode_MonthlyDrawdownPaperOnly => screaming_snake_case "MonthlyDrawdownPaperOnly"
  | ReasonCode_SymbolStop => screaming_snake_case "SymbolStop"
  | ReasonCode_StrategyThrottled => screaming_snake_case "StrategyThrottled"
  | ReasonCode_CooldownActive => screaming_snake_case "CooldownActive"
  | ReasonCode_NotionalCap => screaming_snake_case "NotionalCap"
  | ReasonCode_PortfolioCap => screaming_snake_case "PortfolioCap"
  | ReasonCode_PaperOnly => screaming_snake_case "PaperOnly"
  | ReasonCode_LocalRiskFlag => screaming_snake_case "LocalRiskFlag"
  | ReasonCode_SimulationRejected => screaming_snake_case "SimulationRejected"
  | ReasonCode_PartialFillSimulated => screaming_snake_case "PartialFillSimulated"
  | ReasonCode_PairAtomicityRequired => screaming_snake_case "PairAtomicityRequired"
  | ReasonCode_PairLeggingRisk => screaming_snake_case "PairLeggingRisk"
  | ReasonCode_PairCompensationRequired => screaming_snake_case "PairCompensationRequired"
  | ReasonCode_LedgerWriteFailed => screaming_snake_case "LedgerWriteFailed"
  | ReasonCode_TraceIdMissing => screaming_snake_case "TraceIdMissing"
  | ReasonCode_CorrectionAppended => screaming_snake_case "CorrectionAppended"
  | ReasonCode_MarketEventAccepted => screaming_snake_case "MarketEventAccepted"
  | ReasonCode_MetaCandidateCreated => screaming_snake_case "MetaCandidateCreated"
  | ReasonCode_CostApproved => screaming_snake_case "CostApproved"
  | ReasonCode_RiskApproved => screaming_snake_case "RiskApproved"
  | ReasonCode_RiskCapped => screaming_snake_case "RiskCapped"
  | ReasonCode_PaperOrderSimulated => screaming_snake_case "PaperOrderSimulated"
  | ReasonCode_PaperFillCreated => screaming_snake_case "PaperFillCreated"
  end.

(** ** LedgerRecordType *)

(* rust: crypto-domain/src/enums.rs LedgerRecordType *)
Inductive LedgerRecordType :=
  | LedgerRecordType_MarketEventAccepted | LedgerRecordType_MarketEventRejected
  | LedgerRecordType_FeatureSnapshot | LedgerRecordType_RegimeChanged | LedgerRecordType_SignalOpinionCreated
  | LedgerRecordType_OpinionRejected | LedgerRecordType_TradeCandidateCreated | LedgerRecordType_CostApproved
  | LedgerRecordType_CostRejected | LedgerRecordType_RiskApproved | LedgerRecordType_RiskCapped
  | LedgerRecordType_RiskRejected | LedgerRecordType_SymbolBlocked | LedgerRecordType_DailyRiskBlocked
  | LedgerRecordType_WeeklyRiskReduced | LedgerRecordType_MonthlyPaperOnly
  | LedgerRecordType_PaperOrderSimulated | LedgerRecordType_PaperFillCreated
  | LedgerRecordType_PaperFillRejected | LedgerRecordType_PaperPositionUpdated
  | LedgerRecordType_CorrectionAppended | LedgerRecordType_EngineStopped.

Definition LedgerRecordType_all : list LedgerRecordType :=
  [LedgerRecordType_MarketEventAccepted; LedgerRecordType_MarketEventRejected;
   LedgerRecordType_FeatureSnapshot; LedgerRecordType_RegimeChanged; LedgerRecordType_SignalOpinionCreated;
   LedgerRecordType_OpinionRejected; LedgerRecordType_TradeCandidateCreated; LedgerRecordType_CostApproved;
   LedgerRecordType_CostRejected; LedgerRecordType_RiskApproved; LedgerRecordType_RiskCapped;
   LedgerRecordType_RiskRejected; LedgerRecordType_SymbolBlocked; LedgerRecordType_DailyRiskBlocked;
   LedgerRecordType_WeeklyRiskReduced; LedgerRecordType_MonthlyPaperOnly; LedgerRecordType_PaperOrderSimulated;
   LedgerRecordType_PaperFillCreated; LedgerRecordType_PaperFillRejected;
   LedgerRecordType_PaperPositionUpdated; LedgerRecordType_CorrectionAppended; LedgerRecordType_EngineStopped].

(* rust: crypto-domain/src/enums.rs LedgerRecordType *)
Definition LedgerRecordType_name (e : LedgerRecordType) : string :=
  match e with
  | LedgerRecordType_MarketEventAccepted => pascal_case "MarketEventAccepted"
  | LedgerRecordType_MarketEventRejected => pascal_case "MarketEventRejected"
  | LedgerRecordType_FeatureSnapshot => pascal_case "FeatureSnapshot"
  | LedgerRecordType_RegimeChanged => pascal_case "RegimeChanged"
  | LedgerRecordType_SignalOpinionCreated => pascal_case "SignalOpinionCreated"
  | LedgerRecordType_OpinionRejected => pascal_case "OpinionRejected"
  | LedgerRecordType_TradeCandidateCreated => pascal_case "TradeCandidateCreated"
  | LedgerRecordType_CostApproved => pascal_case "CostApproved"
  | LedgerRecordType_CostRejected => pascal_case "CostRejected"
  | LedgerRecordType_RiskApproved => pascal_case "RiskApproved"
  | LedgerRecordType_RiskCapped => pascal_case "RiskCapped"
  | LedgerRecordType_RiskRejected => pascal_case "RiskRejected"
  | LedgerRecordType_SymbolBlocked => pascal_case "SymbolBlocked"
  | LedgerRecordType_DailyRiskBlocked => pascal_case "DailyRiskBlocked"
  | LedgerRecordType_WeeklyRiskReduced => pascal_case "WeeklyRiskReduced"
  | LedgerRecordType_MonthlyPaperOnly => pascal_case "MonthlyPaperOnly"
  | LedgerRecordType_PaperOrderSimulated => pascal_case "PaperOrderSimulated"
  | LedgerRecordType_PaperFillCreated => pascal_case "PaperFillCreated"
  | LedgerRecordType_PaperFillRejected => pascal_case "PaperFillRejected"
  | LedgerRecordType_PaperPositionUpdated => pascal_case "PaperPositionUpdated"
  | LedgerRecordType_CorrectionAppended => pascal_case "CorrectionAppended"
  | LedgerRecordType_EngineStopped => pascal_case "EngineStopped"
  end.

(** ** CostDecisionKind *)

(* rust: crypto-domain/src/enums.rs CostDecisionKind *)
Inductive CostDecisionKind :=
  | CostDecisionKind_Approve | CostDecisionKind_Reject.

Definition CostDecisionKind_all : list CostDecisionKind :=
  [CostDecisionKind_Approve; CostDecisionKind_Reject].

(* rust: crypto-domain/src/enums.rs CostDecisionKind *)
Definition CostDecisionKind_name (e : CostDecisionKind) : string :=
  match e with
  | CostDecisionKind_Approve => snake_case "Approve" | CostDecisionKind_Reject => snake_case "Reject"
  end.

(** ** RiskDecisionKind *)

(* rust: crypto-domain/src/enums.rs RiskDecisionKind *)
Inductive RiskDecisionKind :=
  | RiskDecisionKind_Approve | RiskDecisionKind_CapSize | RiskDecisionKind_Reject
  | RiskDecisionKind_BlockSymbol | RiskDecisionKind_BlockAll | RiskDecisionKind_PaperOnly.

Definition RiskDecisionKind_all : list RiskDecisionKind :=
  [RiskDecisionKind_Approve; RiskDecisionKind_CapSize; RiskDecisionKind_Reject; RiskDecisionKind_BlockSymbol;
   RiskDecisionKind_BlockAll; RiskDecisionKind_PaperOnly].

(* rust: crypto-domain/src/enums.rs RiskDecisionKind *)
Definition RiskDecisionKind_name (e : RiskDecisionKind) : string :=
  match e with
  | RiskDecisionKind_Approve => snake_case "Approve" | RiskDecisionKind_CapSize => snake_case "CapSize"
  | RiskDecisionKind_Reject => snake_case "Reject" | RiskDecisionKind_BlockSymbol => snake_case "BlockSymbol"
  | RiskDecisionKind_BlockAll => snake_case "BlockAll" | RiskDecisionKind_PaperOnly => snake_case "PaperOnly"
  end.

(** ** FillQuality *)

(* rust: crypto-domain/src/enums.rs FillQuality *)
Inductive FillQuality :=
  | FillQuality_Good | FillQuality_Partial | FillQuality_Poor | FillQuality_None.

Definition FillQuality_all : list FillQuality :=
  [FillQuality_Good; FillQuality_Partial; FillQuality_Poor; FillQuality_None].

(* rust: crypto-domain/src/enums.rs FillQuality *)
Definition FillQuality_name (e : FillQuality) : string :=
  match e with
  | FillQuality_Good => snake_case "Good" | FillQuality_Partial => snake_case "Partial"
  | FillQuality_Poor => snake_case "Poor" | FillQuality_None => snake_case "None"
  end.

(** ** ExecutionDecisionKind *)

(* rust: crypto-domain/src/enums.rs ExecutionDecisionKind *)
Inductive ExecutionDecisionKind :=
  | ExecutionDecisionKind_SimulatedFill | ExecutionDecisionKind_PartialFill | ExecutionDecisionKind_Rejected.

Definition ExecutionDecisionKind_all : list ExecutionDecisionKind :=
  [ExecutionDecisionKind_SimulatedFill; ExecutionDecisionKind_PartialFill; ExecutionDecisionKind_Rejected].

(* rust: crypto-domain/src/enums.rs ExecutionDecisionKind *)
Definition ExecutionDecisionKind_name (e : ExecutionDecisionKind) : string :=
  match e with
  | ExecutionDecisionKind_SimulatedFill => snake_case "SimulatedFill"
  | ExecutionDecisionKind_PartialFill => snake_case "PartialFill"
  | ExecutionDecisionKind_Rejected => snake_case "Rejected"
  end.

(** ** PositionEventType *)

(* rust: crypto-domain/src/position_payload.rs PositionEventType *)
Inductive PositionEventType :=
  | PositionEventType_Opened | PositionEventType_Increased | PositionEventType_Reduced
  | PositionEventType_Closed.

Definition PositionEventType_all : list PositionEventType :=
  [PositionEventType_Opened; PositionEventType_Increased; PositionEventType_Reduced; PositionEventType_Closed].

(* rust: crypto-domain/src/position_payload.rs PositionEventType *)
Definition PositionEventType_name (e : PositionEventType) : string :=
  match e with
  | PositionEventType_Opened => snake_case "Opened" | PositionEventType_Increased => snake_case "Increased"
  | PositionEventType_Reduced => snake_case "Reduced" | PositionEventType_Closed => snake_case "Closed"
  end.

(** ** PositionEffect *)

(* rust: crypto-domain/src/position_payload.rs PositionEffect *)
Inductive PositionEffect :=
  | PositionEffect_OpenLong | PositionEffect_IncreaseLong | PositionEffect_ReduceLong
  | PositionEffect_CloseLong.

Definition PositionEffect_all : list PositionEffect :=
  [PositionEffect_OpenLong; PositionEffect_IncreaseLong; PositionEffect_ReduceLong; PositionEffect_CloseLong].

(* rust: crypto-domain/src/position_payload.rs PositionEffect *)
Definition PositionEffect_name (e : PositionEffect) : string :=
  match e with
  | PositionEffect_OpenLong => snake_case "OpenLong" | PositionEffect_IncreaseLong => snake_case "IncreaseLong"
  | PositionEffect_ReduceLong => snake_case "ReduceLong" | PositionEffect_CloseLong => snake_case "CloseLong"
  end.

(** ** AccountingMethod *)

(* rust: crypto-domain/src/position_payload.rs AccountingMethod *)
Inductive AccountingMethod :=
  | AccountingMethod_WeightedAverageCost.

Definition AccountingMethod_all : list AccountingMethod :=
  [AccountingMethod_WeightedAverageCost].

(* rust: crypto-domain/src/position_payload.rs AccountingMethod *)
Definition AccountingMethod_name (e : AccountingMethod) : string :=
  match e with
  | AccountingMethod_WeightedAverageCost => snake_case "WeightedAverageCost"
  end.

(** ** CandidateDecisionLabel *)

(* rust: crypto-domain/src/ai.rs CandidateDecisionLabel *)
Inductive CandidateDecisionLabel :=
  | CandidateDecisionLabel_Promote | CandidateDecisionLabel_Retest | CandidateDecisionLabel_RiskOnly
  | CandidateDecisionLabel_Prune.

Definition CandidateDecisionLabel_all : list CandidateDecisionLabel :=
  [CandidateDecisionLabel_Promote; CandidateDecisionLabel_Retest; CandidateDecisionLabel_RiskOnly;
   CandidateDecisionLabel_Prune].

(* rust: crypto-domain/src/ai.rs CandidateDecisionLabel *)
Definition CandidateDecisionLabel_name (e : CandidateDecisionLabel) : string :=
  match e with
  | CandidateDecisionLabel_Promote => snake_case "Promote"
  | CandidateDecisionLabel_Retest => snake_case "Retest"
  | CandidateDecisionLabel_RiskOnly => snake_case "RiskOnly"
  | CandidateDecisionLabel_Prune => snake_case "Prune"
  end.

(** ** Codecs *)

Section codecs.
Context {V : Type} {D : DataFormat V}.

Definition Direction_c : Codec V Direction := enum_c Direction_name Direction_all.
Definition OrderStyle_c : Codec V OrderStyle := enum_c OrderStyle_name OrderStyle_all.
Definition EventQuality_c : Codec V EventQuality := enum_c EventQuality_name EventQuality_all.
Definition DepthAttachmentStatus_c : Codec V DepthAttachmentStatus := enum_c DepthAttachmentStatus_name DepthAttachmentStatus_all.
Definition DepthMissingReason_c : Codec V DepthMissingReason := enum_c DepthMissingReason_name DepthMissingReason_all.
Definition Regime_c : Codec V Regime := enum_c Regime_name Regime_all.
Definition ExpertStatus_c : Codec V ExpertStatus := enum_c ExpertStatus_name ExpertStatus_all.
Definition ReasonCode_c : Codec V ReasonCode := enum_c ReasonCode_name ReasonCode_all.
Definition LedgerRecordType_c : Codec V LedgerRecordType := enum_c LedgerRecordType_name LedgerRecordType_all.
Definition CostDecisionKind_c : Codec V CostDecisionKind := enum_c CostDecisionKind_name CostDecisionKind_all.
Definition RiskDecisionKind_c : Codec V RiskDecisionKind := enum_c RiskDecisionKind_name RiskDecisionKind_all.
Definition FillQuality_c : Codec V FillQuality := enum_c FillQuality_name FillQuality_all.
Definition ExecutionDecisionKind_c : Codec V ExecutionDecisionKind := enum_c ExecutionDecisionKind_name ExecutionDecisionKind_all.
Definition PositionEventType_c : Codec V PositionEventType := enum_c PositionEventType_name PositionEventType_all.
Definition PositionEffect_c : Codec V PositionEffect := enum_c PositionEffect_name PositionEffect_all.
Definition AccountingMethod_c : Codec V AccountingMethod := enum_c AccountingMethod_name AccountingMethod_all.
Definition CandidateDecisionLabel_c : Codec V CandidateDecisionLabel := enum_c CandidateDecisionLabel_name CandidateDecisionLabel_all.
End codecs.

(** Every enum lists its variants under distinct names. *)
Ltac enum_wire :=
  split; [intros []; repeat first [apply list_elem_of_here | apply list_elem_of_further] | vm_decide].

#[export] Instance Direction_wire : WireEnum Direction_name Direction_all.
Proof. enum_wire. Qed.
#[export] Instance OrderStyle_wire : WireEnum OrderStyle_name OrderStyle_all.
Proof. enum_wire. Qed.
#[export] Instance EventQuality_wire : WireEnum EventQuality_name EventQuality_all.
Proof. enum_wire. Qed.
#[export] Instance DepthAttachmentStatus_wire : WireEnum DepthAttachmentStatus_name DepthAttachmentStatus_all.
Proof. enum_wire. Qed.
#[export] Instance DepthMissingReason_wire : WireEnum DepthMissingReason_name DepthMissingReason_all.
Proof. enum_wire. Qed.
#[export] Instance Regime_wire : WireEnum Regime_name Regime_all.
Proof. enum_wire. Qed.
#[export] Instance ExpertStatus_wire : WireEnum ExpertStatus_name ExpertStatus_all.
Proof. enum_wire. Qed.
#[export] Instance ReasonCode_wire : WireEnum ReasonCode_name ReasonCode_all.
Proof. enum_wire. Qed.
#[export] Instance LedgerRecordType_wire : WireEnum LedgerRecordType_name LedgerRecordType_all.
Proof. enum_wire. Qed.
#[export] Instance CostDecisionKind_wire : WireEnum CostDecisionKind_name CostDecisionKind_all.
Proof. enum_wire. Qed.
#[export] Instance RiskDecisionKind_wire : WireEnum RiskDecisionKind_name RiskDecisionKind_all.
Proof. enum_wire. Qed.
#[export] Instance FillQuality_wire : WireEnum FillQuality_name FillQuality_all.
Proof. enum_wire. Qed.
#[export] Instance ExecutionDecisionKind_wire : WireEnum ExecutionDecisionKind_name ExecutionDecisionKind_all.
Proof. enum_wire. Qed.
#[export] Instance PositionEventType_wire : WireEnum PositionEventType_name PositionEventType_all.
Proof. enum_wire. Qed.
#[export] Instance PositionEffect_wire : WireEnum PositionEffect_name PositionEffect_all.
Proof. enum_wire. Qed.
#[export] Instance AccountingMethod_wire : WireEnum AccountingMethod_name AccountingMethod_all.
Proof. enum_wire. Qed.
#[export] Instance CandidateDecisionLabel_wire : WireEnum CandidateDecisionLabel_name CandidateDecisionLabel_all.
Proof. enum_wire. Qed.

(** A codec that is one of an enum. *)
#[export] Hint Extern 1 (lawful _) => apply enum_lawful; apply _ : wire.
