(* ===== verification/DomainRecords.v ===== *)
(** * DomainRecords: the records of the domain and their wire form

    Market data, signals, decisions, positions and the rows of the candidate ranker
    ([crypto-domain]): the data, its codec, and that it is read back as it was written. *)
From S2P Require Import Prelude Text Decimal Domain Wire DomainEnums.
Open Scope Z_scope.
Open Scope list_scope.

(** ** Data *)

(* rust: crypto-domain/src/market/health.rs SymbolHealthSnapshot *)
Record SymbolHealthSnapshot := mkSymbolHealthSnapshot {
  sh_exchange : string;
  sh_symbol : Symbol;
  sh_last_event_time_ms : Z;
  sh_last_received_time_ms : Z;
  sh_latency_ms : Z;
  sh_gap_count : Z;
  sh_stale_count : Z;
  sh_overflow_count : Z;
  sh_is_tradeable : bool;
  sh_reason_codes : list ReasonCode;
}.

(* rust: crypto-domain/src/market/features.rs RollingFeatures *)
Record RollingFeatures := mkRollingFeatures {
  rf_decision_trace_id : Z;
  rf_symbol : Symbol;
  rf_window_ms : Z;
  rf_spread_bps : Bps;
  rf_liquidity_score_ppm : Z;
  rf_orderbook_imbalance_bps : Bps;
  rf_volatility_bps : Bps;
  rf_jump_score_bps : Bps;
  rf_short_horizon_price_impact_bps : Bps;
  rf_short_horizon_price_impact_3_tick_bps : Bps;
  rf_short_horizon_price_impact_10_tick_bps : Bps;
  rf_microprice_edge_bps : Bps;
  rf_microprice_edge_micro_bps : MicroBps;
  rf_volatility_expansion_bps : Bps;
  rf_trade_intensity_60s : Z;
  rf_trade_intensity_previous_60s : Z;
  rf_trade_intensity_expansion_ppm : Z;
  rf_symbol_relative_momentum_bps : Bps;
  rf_depth_attachment_status : DepthAttachmentStatus;
  rf_depth_level_count : option Z;
  rf_depth_imbalance_bps : option Bps;
  rf_depth_spread_bps : option Bps;
  rf_depth_age_ms : option Z;
  rf_depth_missing_reason : option DepthMissingReason;
  rf_reason_codes : list ReasonCode;
}.

(* rust: crypto-domain/src/signals.rs RegimeSnapshot *)
Record RegimeSnapshot := mkRegimeSnapshot {
  rg_decision_trace_id : Z;
  rg_symbol : Symbol;
  rg_primary_regime : Regime;
  rg_confidence_ppm : Z;
  rg_valid_until_ms : Z;
  rg_reason_codes : list ReasonCode;
}.

(* rust: crypto-domain/src/signals.rs SignalOpinion *)
Record SignalOpinion := mkSignalOpinion {
  so_decision_trace_id : Z;
  so_expert_id : string;
  so_feature_family : string;
  so_symbol : Symbol;
  so_direction : Direction;
  so_confidence_ppm : Z;
  so_expected_edge_bps : Bps;
  so_horizon_ms : Z;
  so_required_regime : Regime;
  so_reason_codes : list ReasonCode;
}.

(* rust: crypto-domain/src/signals.rs TradeCandidate *)
Record TradeCandidate := mkTradeCandidate {
  tc_decision_trace_id : Z;
  tc_symbol : Symbol;
  tc_source_expert_ids : list string;
  tc_direction : Direction;
  tc_gross_edge_bps : Bps;
  tc_confidence_ppm : Z;
  tc_horizon_ms : Z;
  tc_suggested_notional : FixedDecimal;
  tc_order_style : OrderStyle;
  tc_created_at_ms : Z;
  tc_reason_codes : list ReasonCode;
}.

(* rust: crypto-domain/src/decisions.rs CostDecision *)
Record CostDecision := mkCostDecision {
  cd_decision_trace_id : Z;
  cd_symbol : Symbol;
  cd_source_expert_ids : list string;
  cd_direction : Direction;
  cd_order_style : OrderStyle;
  cd_gross_edge_bps : Bps;
  cd_fee_bps : Bps;
  cd_spread_cost_bps : Bps;
  cd_slippage_bps : Bps;
  cd_latency_penalty_bps : Bps;
  cd_adverse_selection_bps : Bps;
  cd_safety_margin_bps : Bps;
  cd_net_edge_bps : Bps;
  cd_minimum_required_edge_bps : Bps;
  cd_decision : CostDecisionKind;
  cd_reason_codes : list ReasonCode;
}.

(* rust: crypto-domain/src/decisions.rs RiskDecision *)
Record RiskDecision := mkRiskDecision {
  rd_decision_trace_id : Z;
  rd_symbol : Symbol;
  rd_source_expert_ids : list string;
  rd_decision : RiskDecisionKind;
  rd_requested_notional : FixedDecimal;
  rd_allowed_notional : FixedDecimal;
  rd_max_symbol_notional : FixedDecimal;
  rd_max_total_notional : FixedDecimal;
  rd_daily_drawdown_bps : Bps;
  rd_weekly_drawdown_bps : Bps;
  rd_monthly_drawdown_bps : Bps;
  rd_cooldown_until_ms : Z;
  rd_reason_codes : list ReasonCode;
}.

(* rust: crypto-domain/src/decisions.rs ExecutionResult *)
Record ExecutionResult := mkExecutionResult {
  er_decision_trace_id : Z;
  er_symbol : Symbol;
  er_order_style : OrderStyle;
  er_requested_quantity : FixedDecimal;
  er_filled_quantity : FixedDecimal;
  er_simulated_price : FixedDecimal;
  er_reference_price : FixedDecimal;
  er_fee_bps : Bps;
  er_slippage_bps : Bps;
  er_latency_ms : Z;
  er_fill_quality : FillQuality;
  er_decision : ExecutionDecisionKind;
  er_reason_codes : list ReasonCode;
}.

(* rust: crypto-domain/src/position_payload.rs PaperPositionFill *)
Record PaperPositionFill := mkPaperPositionFill {
  pf_requested_quantity : FixedDecimal;
  pf_filled_quantity : FixedDecimal;
  pf_simulated_price : FixedDecimal;
  pf_reference_price : FixedDecimal;
  pf_executed_notional_quote : FixedDecimal;
}.

(* rust: crypto-domain/src/position_payload.rs PaperPositionFee *)
Record PaperPositionFee := mkPaperPositionFee {
  pe_fee_bps : Bps;
  pe_fee_quote : FixedDecimal;
  pe_fee_asset : string;
  pe_fee_model : string;
}.

(* rust: crypto-domain/src/position_payload.rs PaperPositionState *)
Record PaperPositionState := mkPaperPositionState {
  ps_symbol : Symbol;
  ps_open_quantity : FixedDecimal;
  ps_average_entry_price : FixedDecimal;
  ps_cost_basis_quote : FixedDecimal;
  ps_entry_fee_quote : FixedDecimal;
  ps_realized_gross_pnl_quote : FixedDecimal;
  ps_realized_net_pnl_quote : FixedDecimal;
  ps_gross_unrealized_pnl_quote : FixedDecimal;
  ps_net_unrealized_pnl_quote : FixedDecimal;
  ps_last_mark_price : FixedDecimal;
  ps_updated_at_ms : Z;
}.

(* rust: crypto-domain/src/position_payload.rs PaperRealizedPnl *)
Record PaperRealizedPnl := mkPaperRealizedPnl {
  pr_matched_quantity : FixedDecimal;
  pr_matched_cost_basis_quote : FixedDecimal;
  pr_matched_entry_fee_quote : FixedDecimal;
  pr_gross_realized_pnl_quote : FixedDecimal;
  pr_net_realized_pnl_quote : FixedDecimal;
}.

(* rust: crypto-domain/src/position_payload.rs PaperUnrealizedPnl *)
Record PaperUnrealizedPnl := mkPaperUnrealizedPnl {
  pu_mark_price : FixedDecimal;
  pu_gross_unrealized_pnl_quote : FixedDecimal;
  pu_net_unrealized_pnl_quote : FixedDecimal;
  pu_conservative_exit_fee_quote : FixedDecimal;
}.

(* rust: crypto-domain/src/position_payload.rs PaperPositionAttribution *)
Record PaperPositionAttribution := mkPaperPositionAttribution {
  pa_direction : Direction;
  pa_order_style : OrderStyle;
  pa_slippage_bps : Bps;
  pa_latency_ms : Z;
}.

(* rust: crypto-domain/src/position_payload.rs PaperPositionUpdatePayload *)
Record PaperPositionUpdatePayload := mkPaperPositionUpdatePayload {
  pp_schema_version : Z;
  pp_position_event_type : PositionEventType;
  pp_source_order_record_id : Z;
  pp_source_fill_record_id : Z;
  pp_accounting_method : AccountingMethod;
  pp_quote_asset : string;
  pp_position_effect : PositionEffect;
  pp_fill : PaperPositionFill;
  pp_fee : PaperPositionFee;
  pp_pre_position : PaperPositionState;
  pp_post_position : PaperPositionState;
  pp_realized_pnl : PaperRealizedPnl;
  pp_unrealized_pnl : PaperUnrealizedPnl;
  pp_attribution : PaperPositionAttribution;
}.

(* rust: crypto-domain/src/ai.rs CandidatePerformanceVector *)
Record CandidatePerformanceVector := mkCandidatePerformanceVector {
  cp_events : Z;
  cp_avg_net_pnl_bps : option Z;
  cp_cumulative_net_pnl_bps : Z;
}.

(* rust: crypto-domain/src/ai.rs CandidateFeatureVector *)
Record CandidateFeatureVector := mkCandidateFeatureVector {
  cf_search_surface : string;
  cf_evaluation_surface : string;
  cf_validation_split_method : string;
  cf_validation_path_count : Z;
  cf_grouped_validation_enabled : bool;
  cf_proof_surface_required : bool;
  cf_proof_surface_ready : bool;
  cf_strategy_family : string;
  cf_candidate_side : string;
  cf_execution_model : string;
  cf_symbol_count : Z;
  cf_hedge_ratio_micros : Z;
  cf_lookback_secs : Z;
  cf_horizon_secs : Z;
  cf_trigger_threshold_bps : option Z;
  cf_take_profit_bps : option Z;
  cf_stop_loss_bps : option Z;
  cf_entry_zscore_x100 : Z;
  cf_exit_zscore_x100 : Z;
  cf_volatility_regime_filter : string;
  cf_hedge_ratio_stability_gate : string;
  cf_residual_half_life_gate : string;
  cf_liquidity_confirmation_gate : string;
  cf_momentum_confirmation_gate : string;
  cf_depth_confirmation_gate : string;
  cf_context_selector : string;
  cf_dominant_market_context : string;
  cf_dominant_relative_strength_regime : string;
  cf_dominant_volatility_state : string;
  cf_dominant_trade_intensity_state : string;
  cf_dominant_liquidity_tier : string;
  cf_dominant_market_breadth_state : string;
  cf_dominant_dispersion_state : string;
  cf_dominant_depth_state : string;
  cf_avg_relative_strength_bps : Z;
  cf_avg_volatility_expansion_ppm : Z;
  cf_avg_trade_intensity_expansion_ppm : Z;
  cf_avg_imbalance_divergence_bps : Z;
  cf_gross_edge_bps : Z;
  cf_fee_drag_bps : Z;
  cf_slippage_proxy_bps : Z;
  cf_adverse_selection_proxy_bps : Z;
  cf_depth_shortfall_proxy_bps : option Z;
  cf_train : CandidatePerformanceVector;
  cf_validation : CandidatePerformanceVector;
  cf_test : CandidatePerformanceVector;
  cf_stress_train : CandidatePerformanceVector;
  cf_stress_validation : CandidatePerformanceVector;
  cf_stress_test : CandidatePerformanceVector;
  cf_validation_test_min_avg_net_pnl_bps : option Z;
  cf_stress_validation_test_min_avg_net_pnl_bps : option Z;
  cf_positive_unseen_split_count : Z;
  cf_stress_positive_unseen_split_count : Z;
  cf_max_drawdown_bps : Z;
  cf_event_count : Z;
  cf_gate_reject_count : Z;
  cf_gate_reject_rate_ppm : Z;
  cf_promotion_failure_cause : string;
}.

(* rust: crypto-domain/src/ai.rs LightweightAiTrainingRow *)
Record LightweightAiTrainingRow := mkLightweightAiTrainingRow {
  ai_schema_version : string;
  ai_source_report : string;
  ai_candidate_id : string;
  ai_symbols : list string;
  ai_feature_vector : CandidateFeatureVector;
  ai_label : CandidateDecisionLabel;
  ai_label_score : Z;
  ai_allowed_use : string;
}.

(* rust: crypto-domain/src/ai.rs LIGHTWEIGHT_AI_CANDIDATE_RANKER_SCHEMA_VERSION *)
Definition LIGHTWEIGHT_AI_CANDIDATE_RANKER_SCHEMA_VERSION : string := "lightweight_ai_candidate_ranker_v3".

(** ** Codecs *)

Section codecs.
Context {V : Type} {D : DataFormat V}.

(* rust: crypto-domain/src/symbol.rs Symbol *)
Definition Symbol_c : Codec V Symbol := struct_c mkSymbol (
  sym_exchange =: required "exchange" str_c; sym_base =: required "base" str_c;
  sym_quote =: required "quote" str_c; sym_normalized =: required "normalized" str_c;
  sym_raw =: required "raw" str_c; fields_end)%wire.

(* rust: crypto-domain/src/time_window.rs TimeWindow *)
Definition TimeWindow_c : Codec V TimeWindow := struct_c mkTimeWindow (
  tw_start_ms =: required "start_ms" (int_c I64); tw_end_ms =: required "end_ms" (int_c I64); fields_end)%wire.

(* rust: crypto-domain/src/market/depth.rs OrderBookLevel *)
Definition OrderBookLevel_c : Codec V OrderBookLevel := struct_c mkLevel (
  lvl_price =: required "price" decimal_c; lvl_quantity =: required "quantity" decimal_c; fields_end)%wire.

(* rust: crypto-domain/src/market/snapshot.rs MarketSnapshot *)
Definition MarketSnapshot_c : Codec V MarketSnapshot := struct_c mkMarketSnapshot (
  ms_decision_trace_id =: required "decision_trace_id" (int_c U128); ms_exchange =: required "exchange" str_c;
  ms_symbol =: required "symbol" Symbol_c; ms_event_time_ms =: required "event_time_ms" (int_c I64);
  ms_received_time_ms =: required "received_time_ms" (int_c I64);
  ms_sequence =: required "sequence" (int_c U64); ms_quality =: required "quality" EventQuality_c;
  ms_last_price =: required "last_price" decimal_c; ms_best_bid =: required "best_bid" decimal_c;
  ms_best_ask =: required "best_ask" decimal_c; ms_best_bid_qty =: required "best_bid_qty" decimal_c;
  ms_best_ask_qty =: required "best_ask_qty" decimal_c; ms_spread_bps =: required "spread_bps" bps_c;
  fields_end)%wire.

(* rust: crypto-domain/src/market/depth.rs MarketDepthSnapshot *)
Definition MarketDepthSnapshot_c : Codec V MarketDepthSnapshot := struct_c mkDepthSnapshot (
  ds_decision_trace_id =: required "decision_trace_id" (int_c U128); ds_exchange =: required "exchange" str_c;
  ds_symbol =: required "symbol" Symbol_c; ds_event_time_ms =: required "event_time_ms" (int_c I64);
  ds_received_time_ms =: required "received_time_ms" (int_c I64);
  ds_sequence =: required "sequence" (int_c U64); ds_quality =: required "quality" EventQuality_c;
  ds_level_count =: required "level_count" (int_c Usize); ds_bids =: required "bids" (list_c OrderBookLevel_c);
  ds_asks =: required "asks" (list_c OrderBookLevel_c); ds_bid_depth_qty =: required "bid_depth_qty" decimal_c;
  ds_ask_depth_qty =: required "ask_depth_qty" decimal_c;
  ds_depth_imbalance_bps =: required "depth_imbalance_bps" bps_c; ds_spread_bps =: required "spread_bps" bps_c;
  fields_end)%wire.

(* rust: crypto-domain/src/market/frame.rs CrossSectionalMarketFrame *)
Definition CrossSectionalMarketFrame_c : Codec V CrossSectionalMarketFrame := struct_c mkFrame (
  fr_decision_trace_id =: required "decision_trace_id" (int_c U128); fr_exchange =: required "exchange" str_c;
  fr_event_time_ms =: required "event_time_ms" (int_c I64);
  fr_received_time_ms =: required "received_time_ms" (int_c I64);
  fr_sequence =: required "sequence" (int_c U64); fr_markets =: required "markets" (list_c MarketSnapshot_c);
  fields_end)%wire.

(* rust: crypto-domain/src/market/health.rs SymbolHealthSnapshot *)
Definition SymbolHealthSnapshot_c : Codec V SymbolHealthSnapshot := struct_c mkSymbolHealthSnapshot (
  sh_exchange =: required "exchange" str_c; sh_symbol =: required "symbol" Symbol_c;
  sh_last_event_time_ms =: required "last_event_time_ms" (int_c I64);
  sh_last_received_time_ms =: required "last_received_time_ms" (int_c I64);
  sh_latency_ms =: required "latency_ms" (int_c I64); sh_gap_count =: required "gap_count" (int_c U32);
  sh_stale_count =: required "stale_count" (int_c U32);
  sh_overflow_count =: required "overflow_count" (int_c U32);
  sh_is_tradeable =: required "is_tradeable" bool_c;
  sh_reason_codes =: required "reason_codes" (list_c ReasonCode_c); fields_end)%wire.

(* rust: crypto-domain/src/market/features.rs RollingFeatures *)
Definition RollingFeatures_fields : Fields (V := V) RollingFeatures _ := (
  rf_decision_trace_id =: required "decision_trace_id" (int_c U128); rf_symbol =: required "symbol" Symbol_c;
  rf_window_ms =: required "window_ms" (int_c I64); rf_spread_bps =: required "spread_bps" bps_c;
  rf_liquidity_score_ppm =: required "liquidity_score_ppm" (int_c U32);
  rf_orderbook_imbalance_bps =: required "orderbook_imbalance_bps" bps_c;
  rf_volatility_bps =: required "volatility_bps" bps_c; rf_jump_score_bps =: required "jump_score_bps" bps_c;
  rf_short_horizon_price_impact_bps =: required "short_horizon_price_impact_bps" bps_c;
  rf_short_horizon_price_impact_3_tick_bps =: required "short_horizon_price_impact_3_tick_bps" bps_c;
  rf_short_horizon_price_impact_10_tick_bps =: required "short_horizon_price_impact_10_tick_bps" bps_c;
  rf_microprice_edge_bps =: required "microprice_edge_bps" bps_c;
  rf_microprice_edge_micro_bps =: required "microprice_edge_micro_bps" micro_bps_c;
  rf_volatility_expansion_bps =: with_default (mkBps 0) "volatility_expansion_bps" bps_c;
  rf_trade_intensity_60s =: with_default 0 "trade_intensity_60s" (int_c U32);
  rf_trade_intensity_previous_60s =: with_default 0 "trade_intensity_previous_60s" (int_c U32);
  rf_trade_intensity_expansion_ppm =: with_default 0 "trade_intensity_expansion_ppm" (int_c U32);
  rf_symbol_relative_momentum_bps =: with_default (mkBps 0) "symbol_relative_momentum_bps" bps_c;
  rf_depth_attachment_status =: required "depth_attachment_status" DepthAttachmentStatus_c;
  rf_depth_level_count =: unless_none "depth_level_count" (opt_c (int_c Usize));
  rf_depth_imbalance_bps =: unless_none "depth_imbalance_bps" (opt_c bps_c);
  rf_depth_spread_bps =: unless_none "depth_spread_bps" (opt_c bps_c);
  rf_depth_age_ms =: unless_none "depth_age_ms" (opt_c (int_c I64));
  rf_depth_missing_reason =: unless_none "depth_missing_reason" (opt_c DepthMissingReason_c);
  rf_reason_codes =: required "reason_codes" (list_c ReasonCode_c); fields_end)%wire.

Definition RollingFeatures_c : Codec V RollingFeatures := struct_c mkRollingFeatures RollingFeatures_fields.

(* rust: crypto-domain/src/signals.rs RegimeSnapshot *)
Definition RegimeSnapshot_c : Codec V RegimeSnapshot := struct_c mkRegimeSnapshot (
  rg_decision_trace_id =: required "decision_trace_id" (int_c U128); rg_symbol =: required "symbol" Symbol_c;
  rg_primary_regime =: required "primary_regime" Regime_c;
  rg_confidence_ppm =: required "confidence_ppm" (int_c U32);
  rg_valid_until_ms =: required "valid_until_ms" (int_c I64);
  rg_reason_codes =: required "reason_codes" (list_c ReasonCode_c); fields_end)%wire.

(* rust: crypto-domain/src/signals.rs SignalOpinion *)
Definition SignalOpinion_c : Codec V SignalOpinion := struct_c mkSignalOpinion (
  so_decision_trace_id =: required "decision_trace_id" (int_c U128);
  so_expert_id =: required "expert_id" str_c; so_feature_family =: required "feature_family" str_c;
  so_symbol =: required "symbol" Symbol_c; so_direction =: required "direction" Direction_c;
  so_confidence_ppm =: required "confidence_ppm" (int_c U32);
  so_expected_edge_bps =: required "expected_edge_bps" bps_c;
  so_horizon_ms =: required "horizon_ms" (int_c I64);
  so_required_regime =: required "required_regime" Regime_c;
  so_reason_codes =: required "reason_codes" (list_c ReasonCode_c); fields_end)%wire.

(* rust: crypto-domain/src/signals.rs TradeCandidate *)
Definition TradeCandidate_c : Codec V TradeCandidate := struct_c mkTradeCandidate (
  tc_decision_trace_id =: required "decision_trace_id" (int_c U128); tc_symbol =: required "symbol" Symbol_c;
  tc_source_expert_ids =: required "source_expert_ids" (list_c str_c);
  tc_direction =: required "direction" Direction_c; tc_gross_edge_bps =: required "gross_edge_bps" bps_c;
  tc_confidence_ppm =: required "confidence_ppm" (int_c U32);
  tc_horizon_ms =: required "horizon_ms" (int_c I64);
  tc_suggested_notional =: required "suggested_notional" decimal_c;
  tc_order_style =: required "order_style" OrderStyle_c;
  tc_created_at_ms =: required "created_at_ms" (int_c I64);
  tc_reason_codes =: required "reason_codes" (list_c ReasonCode_c); fields_end)%wire.

(* rust: crypto-domain/src/decisions.rs CostDecision *)
Definition CostDecision_c : Codec V CostDecision := struct_c mkCostDecision (
  cd_decision_trace_id =: required "decision_trace_id" (int_c U128); cd_symbol =: required "symbol" Symbol_c;
  cd_source_expert_ids =: required "source_expert_ids" (list_c str_c);
  cd_direction =: required "direction" Direction_c; cd_order_style =: required "order_style" OrderStyle_c;
  cd_gross_edge_bps =: required "gross_edge_bps" bps_c; cd_fee_bps =: required "fee_bps" bps_c;
  cd_spread_cost_bps =: required "spread_cost_bps" bps_c; cd_slippage_bps =: required "slippage_bps" bps_c;
  cd_latency_penalty_bps =: required "latency_penalty_bps" bps_c;
  cd_adverse_selection_bps =: required "adverse_selection_bps" bps_c;
  cd_safety_margin_bps =: required "safety_margin_bps" bps_c; cd_net_edge_bps =: required "net_edge_bps" bps_c;
  cd_minimum_required_edge_bps =: required "minimum_required_edge_bps" bps_c;
  cd_decision =: required "decision" CostDecisionKind_c;
  cd_reason_codes =: required "reason_codes" (list_c ReasonCode_c); fields_end)%wire.

(* rust: crypto-domain/src/decisions.rs RiskDecision *)
Definition RiskDecision_c : Codec V RiskDecision := struct_c mkRiskDecision (
  rd_decision_trace_id =: required "decision_trace_id" (int_c U128); rd_symbol =: required "symbol" Symbol_c;
  rd_source_expert_ids =: required "source_expert_ids" (list_c str_c);
  rd_decision =: required "decision" RiskDecisionKind_c;
  rd_requested_notional =: required "requested_notional" decimal_c;
  rd_allowed_notional =: required "allowed_notional" decimal_c;
  rd_max_symbol_notional =: required "max_symbol_notional" decimal_c;
  rd_max_total_notional =: required "max_total_notional" decimal_c;
  rd_daily_drawdown_bps =: required "daily_drawdown_bps" bps_c;
  rd_weekly_drawdown_bps =: required "weekly_drawdown_bps" bps_c;
  rd_monthly_drawdown_bps =: required "monthly_drawdown_bps" bps_c;
  rd_cooldown_until_ms =: required "cooldown_until_ms" (int_c I64);
  rd_reason_codes =: required "reason_codes" (list_c ReasonCode_c); fields_end)%wire.

(* rust: crypto-domain/src/decisions.rs ExecutionResult *)
Definition ExecutionResult_c : Codec V ExecutionResult := struct_c mkExecutionResult (
  er_decision_trace_id =: required "decision_trace_id" (int_c U128); er_symbol =: required "symbol" Symbol_c;
  er_order_style =: required "order_style" OrderStyle_c;
  er_requested_quantity =: required "requested_quantity" decimal_c;
  er_filled_quantity =: required "filled_quantity" decimal_c;
  er_simulated_price =: required "simulated_price" decimal_c;
  er_reference_price =: required "reference_price" decimal_c; er_fee_bps =: required "fee_bps" bps_c;
  er_slippage_bps =: required "slippage_bps" bps_c; er_latency_ms =: required "latency_ms" (int_c I64);
  er_fill_quality =: required "fill_quality" FillQuality_c;
  er_decision =: required "decision" ExecutionDecisionKind_c;
  er_reason_codes =: required "reason_codes" (list_c ReasonCode_c); fields_end)%wire.

(* rust: crypto-domain/src/position_payload.rs PaperPositionFill *)
Definition PaperPositionFill_c : Codec V PaperPositionFill := struct_c mkPaperPositionFill (
  pf_requested_quantity =: required "requested_quantity" decimal_c;
  pf_filled_quantity =: required "filled_quantity" decimal_c;
  pf_simulated_price =: required "simulated_price" decimal_c;
  pf_reference_price =: required "reference_price" decimal_c;
  pf_executed_notional_quote =: required "executed_notional_quote" decimal_c; fields_end)%wire.

(* rust: crypto-domain/src/position_payload.rs PaperPositionFee *)
Definition PaperPositionFee_c : Codec V PaperPositionFee := struct_c mkPaperPositionFee (
  pe_fee_bps =: required "fee_bps" bps_c; pe_fee_quote =: required "fee_quote" decimal_c;
  pe_fee_asset =: required "fee_asset" str_c; pe_fee_model =: required "fee_model" str_c; fields_end)%wire.

(* rust: crypto-domain/src/position_payload.rs PaperPositionState *)
Definition PaperPositionState_c : Codec V PaperPositionState := struct_c mkPaperPositionState (
  ps_symbol =: required "symbol" Symbol_c; ps_open_quantity =: required "open_quantity" decimal_c;
  ps_average_entry_price =: required "average_entry_price" decimal_c;
  ps_cost_basis_quote =: required "cost_basis_quote" decimal_c;
  ps_entry_fee_quote =: required "entry_fee_quote" decimal_c;
  ps_realized_gross_pnl_quote =: required "realized_gross_pnl_quote" decimal_c;
  ps_realized_net_pnl_quote =: required "realized_net_pnl_quote" decimal_c;
  ps_gross_unrealized_pnl_quote =: required "gross_unrealized_pnl_quote" decimal_c;
  ps_net_unrealized_pnl_quote =: required "net_unrealized_pnl_quote" decimal_c;
  ps_last_mark_price =: required "last_mark_price" decimal_c;
  ps_updated_at_ms =: required "updated_at_ms" (int_c I64); fields_end)%wire.

(* rust: crypto-domain/src/position_payload.rs PaperRealizedPnl *)
Definition PaperRealizedPnl_c : Codec V PaperRealizedPnl := struct_c mkPaperRealizedPnl (
  pr_matched_quantity =: required "matched_quantity" decimal_c;
  pr_matched_cost_basis_quote =: required "matched_cost_basis_quote" decimal_c;
  pr_matched_entry_fee_quote =: required "matched_entry_fee_quote" decimal_c;
  pr_gross_realized_pnl_quote =: required "gross_realized_pnl_quote" decimal_c;
  pr_net_realized_pnl_quote =: required "net_realized_pnl_quote" decimal_c; fields_end)%wire.

(* rust: crypto-domain/src/position_payload.rs PaperUnrealizedPnl *)
Definition PaperUnrealizedPnl_c : Codec V PaperUnrealizedPnl := struct_c mkPaperUnrealizedPnl (
  pu_mark_price =: required "mark_price" decimal_c;
  pu_gross_unrealized_pnl_quote =: required "gross_unrealized_pnl_quote" decimal_c;
  pu_net_unrealized_pnl_quote =: required "net_unrealized_pnl_quote" decimal_c;
  pu_conservative_exit_fee_quote =: required "conservative_exit_fee_quote" decimal_c; fields_end)%wire.

(* rust: crypto-domain/src/position_payload.rs PaperPositionAttribution *)
Definition PaperPositionAttribution_c : Codec V PaperPositionAttribution := struct_c mkPaperPositionAttribution (
  pa_direction =: required "direction" Direction_c; pa_order_style =: required "order_style" OrderStyle_c;
  pa_slippage_bps =: required "slippage_bps" bps_c; pa_latency_ms =: required "latency_ms" (int_c I64);
  fields_end)%wire.

(* rust: crypto-domain/src/position_payload.rs PaperPositionUpdatePayload *)
Definition PaperPositionUpdatePayload_c : Codec V PaperPositionUpdatePayload := struct_c mkPaperPositionUpdatePayload (
  pp_schema_version =: required "schema_version" (int_c U32);
  pp_position_event_type =: required "position_event_type" PositionEventType_c;
  pp_source_order_record_id =: required "source_order_record_id" (int_c U64);
  pp_source_fill_record_id =: required "source_fill_record_id" (int_c U64);
  pp_accounting_method =: required "accounting_method" AccountingMethod_c;
  pp_quote_asset =: required "quote_asset" str_c;
  pp_position_effect =: required "position_effect" PositionEffect_c;
  pp_fill =: required "fill" PaperPositionFill_c; pp_fee =: required "fee" PaperPositionFee_c;
  pp_pre_position =: required "pre_position" PaperPositionState_c;
  pp_post_position =: required "post_position" PaperPositionState_c;
  pp_realized_pnl =: required "realized_pnl" PaperRealizedPnl_c;
  pp_unrealized_pnl =: required "unrealized_pnl" PaperUnrealizedPnl_c;
  pp_attribution =: required "attribution" PaperPositionAttribution_c; fields_end)%wire.

(* rust: crypto-domain/src/ai.rs CandidatePerformanceVector *)
Definition CandidatePerformanceVector_c : Codec V CandidatePerformanceVector := struct_c mkCandidatePerformanceVector (
  cp_events =: required "events" (int_c U64);
  cp_avg_net_pnl_bps =: required "avg_net_pnl_bps" (opt_c (int_c I64));
  cp_cumulative_net_pnl_bps =: required "cumulative_net_pnl_bps" (int_c I64); fields_end)%wire.

(* rust: crypto-domain/src/ai.rs CandidateFeatureVector *)
Definition CandidateFeatureVector_c : Codec V CandidateFeatureVector := struct_c mkCandidateFeatureVector (
  cf_search_surface =: required "search_surface" str_c;
  cf_evaluation_surface =: required "evaluation_surface" str_c;
  cf_validation_split_method =: required "validation_split_method" str_c;
  cf_validation_path_count =: required "validation_path_count" (int_c U64);
  cf_grouped_validation_enabled =: required "grouped_validation_enabled" bool_c;
  cf_proof_surface_required =: required "proof_surface_required" bool_c;
  cf_proof_surface_ready =: required "proof_surface_ready" bool_c;
  cf_strategy_family =: required "strategy_family" str_c; cf_candidate_side =: required "candidate_side" str_c;
  cf_execution_model =: required "execution_model" str_c;
  cf_symbol_count =: required "symbol_count" (int_c U32);
  cf_hedge_ratio_micros =: required "hedge_ratio_micros" (int_c I64);
  cf_lookback_secs =: required "lookback_secs" (int_c I64);
  cf_horizon_secs =: required "horizon_secs" (int_c I64);
  cf_trigger_threshold_bps =: required "trigger_threshold_bps" (opt_c (int_c I64));
  cf_take_profit_bps =: required "take_profit_bps" (opt_c (int_c I64));
  cf_stop_loss_bps =: required "stop_loss_bps" (opt_c (int_c I64));
  cf_entry_zscore_x100 =: required "entry_zscore_x100" (int_c I64);
  cf_exit_zscore_x100 =: required "exit_zscore_x100" (int_c I64);
  cf_volatility_regime_filter =: required "volatility_regime_filter" str_c;
  cf_hedge_ratio_stability_gate =: required "hedge_ratio_stability_gate" str_c;
  cf_residual_half_life_gate =: required "residual_half_life_gate" str_c;
  cf_liquidity_confirmation_gate =: required "liquidity_confirmation_gate" str_c;
  cf_momentum_confirmation_gate =: required "momentum_confirmation_gate" str_c;
  cf_depth_confirmation_gate =: required "depth_confirmation_gate" str_c;
  cf_context_selector =: required "context_selector" str_c;
  cf_dominant_market_context =: required "dominant_market_context" str_c;
  cf_dominant_relative_strength_regime =: required "dominant_relative_strength_regime" str_c;
  cf_dominant_volatility_state =: required "dominant_volatility_state" str_c;
  cf_dominant_trade_intensity_state =: required "dominant_trade_intensity_state" str_c;
  cf_dominant_liquidity_tier =: required "dominant_liquidity_tier" str_c;
  cf_dominant_market_breadth_state =: required "dominant_market_breadth_state" str_c;
  cf_dominant_dispersion_state =: required "dominant_dispersion_state" str_c;
  cf_dominant_depth_state =: required "dominant_depth_state" str_c;
  cf_avg_relative_strength_bps =: required "avg_relative_strength_bps" (int_c I64);
  cf_avg_volatility_expansion_ppm =: required "avg_volatility_expansion_ppm" (int_c U32);
  cf_avg_trade_intensity_expansion_ppm =: required "avg_trade_intensity_expansion_ppm" (int_c U32);
  cf_avg_imbalance_divergence_bps =: required "avg_imbalance_divergence_bps" (int_c I64);
  cf_gross_edge_bps =: required "gross_edge_bps" (int_c I64);
  cf_fee_drag_bps =: required "fee_drag_bps" (int_c I64);
  cf_slippage_proxy_bps =: required "slippage_proxy_bps" (int_c I64);
  cf_adverse_selection_proxy_bps =: required "adverse_selection_proxy_bps" (int_c I64);
  cf_depth_shortfall_proxy_bps =: required "depth_shortfall_proxy_bps" (opt_c (int_c I64));
  cf_train =: required "train" CandidatePerformanceVector_c;
  cf_validation =: required "validation" CandidatePerformanceVector_c;
  cf_test =: required "test" CandidatePerformanceVector_c;
  cf_stress_train =: required "stress_train" CandidatePerformanceVector_c;
  cf_stress_validation =: required "stress_validation" CandidatePerformanceVector_c;
  cf_stress_test =: required "stress_test" CandidatePerformanceVector_c;
  cf_validation_test_min_avg_net_pnl_bps =: required "validation_test_min_avg_net_pnl_bps" (opt_c (int_c I64));
  cf_stress_validation_test_min_avg_net_pnl_bps =: required "stress_validation_test_min_avg_net_pnl_bps" (opt_c (int_c I64));
  cf_positive_unseen_split_count =: required "positive_unseen_split_count" (int_c U32);
  cf_stress_positive_unseen_split_count =: required "stress_positive_unseen_split_count" (int_c U32);
  cf_max_drawdown_bps =: required "max_drawdown_bps" (int_c I64);
  cf_event_count =: required "event_count" (int_c U64);
  cf_gate_reject_count =: required "gate_reject_count" (int_c U64);
  cf_gate_reject_rate_ppm =: required "gate_reject_rate_ppm" (int_c U64);
  cf_promotion_failure_cause =: required "promotion_failure_cause" str_c; fields_end)%wire.

(* rust: crypto-domain/src/ai.rs LightweightAiTrainingRow *)
Definition LightweightAiTrainingRow_c : Codec V LightweightAiTrainingRow := struct_c mkLightweightAiTrainingRow (
  ai_schema_version =: required "schema_version" str_c; ai_source_report =: required "source_report" str_c;
  ai_candidate_id =: required "candidate_id" str_c; ai_symbols =: required "symbols" (list_c str_c);
  ai_feature_vector =: required "feature_vector" CandidateFeatureVector_c;
  ai_label =: required "label" CandidateDecisionLabel_c; ai_label_score =: required "label_score" (int_c I64);
  ai_allowed_use =: required "allowed_use" str_c; fields_end)%wire.

End codecs.

(** ** Every record is read back *)

Section laws.
Context {V : Type} {D : DataFormat V} {L : FormatLaws V}.

Lemma Symbol_lawful : lawful Symbol_c.
Proof. unfold Symbol_c. struct_reads. Qed.
#[local] Hint Resolve Symbol_lawful : wire.

Lemma TimeWindow_lawful : lawful TimeWindow_c.
Proof. unfold TimeWindow_c. struct_reads. Qed.
#[local] Hint Resolve TimeWindow_lawful : wire.

Lemma OrderBookLevel_lawful : lawful OrderBookLevel_c.
Proof. unfold OrderBookLevel_c. struct_reads. Qed.
#[local] Hint Resolve OrderBookLevel_lawful : wire.

Lemma MarketSnapshot_lawful : lawful MarketSnapshot_c.
Proof. unfold MarketSnapshot_c. struct_reads. Qed.
#[local] Hint Resolve MarketSnapshot_lawful : wire.

Lemma MarketDepthSnapshot_lawful : lawful MarketDepthSnapshot_c.
Proof. unfold MarketDepthSnapshot_c. struct_reads. Qed.
#[local] Hint Resolve MarketDepthSnapshot_lawful : wire.

Lemma CrossSectionalMarketFrame_lawful : lawful CrossSectionalMarketFrame_c.
Proof. unfold CrossSectionalMarketFrame_c. struct_reads. Qed.
#[local] Hint Resolve CrossSectionalMarketFrame_lawful : wire.

Lemma SymbolHealthSnapshot_lawful : lawful SymbolHealthSnapshot_c.
Proof. unfold SymbolHealthSnapshot_c. struct_reads. Qed.
#[local] Hint Resolve SymbolHealthSnapshot_lawful : wire.

Lemma RollingFeatures_lawful : lawful RollingFeatures_c.
Proof. unfold RollingFeatures_c, RollingFeatures_fields. struct_reads. Qed.
#[local] Hint Resolve RollingFeatures_lawful : wire.

Lemma RegimeSnapshot_lawful : lawful RegimeSnapshot_c.
Proof. unfold RegimeSnapshot_c. struct_reads. Qed.
#[local] Hint Resolve RegimeSnapshot_lawful : wire.

Lemma SignalOpinion_lawful : lawful SignalOpinion_c.
Proof. unfold SignalOpinion_c. struct_reads. Qed.
#[local] Hint Resolve SignalOpinion_lawful : wire.

Lemma TradeCandidate_lawful : lawful TradeCandidate_c.
Proof. unfold TradeCandidate_c. struct_reads. Qed.
#[local] Hint Resolve TradeCandidate_lawful : wire.

Lemma CostDecision_lawful : lawful CostDecision_c.
Proof. unfold CostDecision_c. struct_reads. Qed.
#[local] Hint Resolve CostDecision_lawful : wire.

Lemma RiskDecision_lawful : lawful RiskDecision_c.
Proof. unfold RiskDecision_c. struct_reads. Qed.
#[local] Hint Resolve RiskDecision_lawful : wire.

Lemma ExecutionResult_lawful : lawful ExecutionResult_c.
Proof. unfold ExecutionResult_c. struct_reads. Qed.
#[local] Hint Resolve ExecutionResult_lawful : wire.

Lemma PaperPositionFill_lawful : lawful PaperPositionFill_c.
Proof. unfold PaperPositionFill_c. struct_reads. Qed.
#[local] Hint Resolve PaperPositionFill_lawful : wire.

Lemma PaperPositionFee_lawful : lawful PaperPositionFee_c.
Proof. unfold PaperPositionFee_c. struct_reads. Qed.
#[local] Hint Resolve PaperPositionFee_lawful : wire.

Lemma PaperPositionState_lawful : lawful PaperPositionState_c.
Proof. unfold PaperPositionState_c. struct_reads. Qed.
#[local] Hint Resolve PaperPositionState_lawful : wire.

Lemma PaperRealizedPnl_lawful : lawful PaperRealizedPnl_c.
Proof. unfold PaperRealizedPnl_c. struct_reads. Qed.
#[local] Hint Resolve PaperRealizedPnl_lawful : wire.

Lemma PaperUnrealizedPnl_lawful : lawful PaperUnrealizedPnl_c.
Proof. unfold PaperUnrealizedPnl_c. struct_reads. Qed.
#[local] Hint Resolve PaperUnrealizedPnl_lawful : wire.

Lemma PaperPositionAttribution_lawful : lawful PaperPositionAttribution_c.
Proof. unfold PaperPositionAttribution_c. struct_reads. Qed.
#[local] Hint Resolve PaperPositionAttribution_lawful : wire.

Lemma PaperPositionUpdatePayload_lawful : lawful PaperPositionUpdatePayload_c.
Proof. unfold PaperPositionUpdatePayload_c. struct_reads. Qed.
#[local] Hint Resolve PaperPositionUpdatePayload_lawful : wire.

Lemma CandidatePerformanceVector_lawful : lawful CandidatePerformanceVector_c.
Proof. unfold CandidatePerformanceVector_c. struct_reads. Qed.
#[local] Hint Resolve CandidatePerformanceVector_lawful : wire.

Lemma CandidateFeatureVector_lawful : lawful CandidateFeatureVector_c.
Proof. unfold CandidateFeatureVector_c. struct_reads. Qed.
#[local] Hint Resolve CandidateFeatureVector_lawful : wire.

Lemma LightweightAiTrainingRow_lawful : lawful LightweightAiTrainingRow_c.
Proof. unfold LightweightAiTrainingRow_c. struct_reads. Qed.
#[local] Hint Resolve LightweightAiTrainingRow_lawful : wire.

(** ** Feature records of older writers *)

(** The fields that were added later: an older record may lack any of them. *)
Definition later_fields : list string :=
  ["volatility_expansion_bps"; "trade_intensity_60s"; "trade_intensity_previous_60s";
   "trade_intensity_expansion_ppm"; "symbol_relative_momentum_bps"; "depth_level_count"; "depth_imbalance_bps";
   "depth_spread_bps"; "depth_age_ms"; "depth_missing_reason"].

(** What such a record reads as. *)
Definition without (gone : string -> bool) (r : RollingFeatures) : RollingFeatures :=
  mkRollingFeatures (rf_decision_trace_id r) (rf_symbol r) (rf_window_ms r) (rf_spread_bps r)
  (rf_liquidity_score_ppm r) (rf_orderbook_imbalance_bps r) (rf_volatility_bps r) (rf_jump_score_bps r)
  (rf_short_horizon_price_impact_bps r) (rf_short_horizon_price_impact_3_tick_bps r)
  (rf_short_horizon_price_impact_10_tick_bps r) (rf_microprice_edge_bps r) (rf_microprice_edge_micro_bps r)
  (if gone "volatility_expansion_bps" then mkBps 0 else rf_volatility_expansion_bps r)
  (if gone "trade_intensity_60s" then 0 else rf_trade_intensity_60s r)
  (if gone "trade_intensity_previous_60s" then 0 else rf_trade_intensity_previous_60s r)
  (if gone "trade_intensity_expansion_ppm" then 0 else rf_trade_intensity_expansion_ppm r)
  (if gone "symbol_relative_momentum_bps" then mkBps 0 else rf_symbol_relative_momentum_bps r)
  (rf_depth_attachment_status r) (if gone "depth_level_count" then None else rf_depth_level_count r)
  (if gone "depth_imbalance_bps" then None else rf_depth_imbalance_bps r)
  (if gone "depth_spread_bps" then None else rf_depth_spread_bps r)
  (if gone "depth_age_ms" then None else rf_depth_age_ms r)
  (if gone "depth_missing_reason" then None else rf_depth_missing_reason r) (rf_reason_codes r).


Lemma without_ok gone (r : RollingFeatures) : c_ok RollingFeatures_c r -> c_ok (V := V) RollingFeatures_c (without gone r).
Proof.
  destruct r. cbn. intros H. repeat (destruct H as [? H]). unfold without. cbn.
  repeat (split; [first [assumption | match goal with |- context [gone ?n] => destruct (gone n) end; [vm_compute; by try split|assumption]]|]).
  done.
Qed.

(** A feature record that was written before some of the later fields existed. *)
Lemma older_features (gone : string -> bool) (r : RollingFeatures) :
  (forall name, gone name = true -> name ∈ later_fields) -> c_ok (V := V) RollingFeatures_c r ->
  c_dec RollingFeatures_c (v_map (List.filter (fun f => negb (gone f.1)) (enc_fields RollingFeatures_fields r))) =
    Some (without gone r).
Proof.
  intros Hgone Hok. apply older_reads; [done| |by intros []|by apply without_ok|].
  - cbn [reading RollingFeatures_fields]. repeat (split; [solve [eauto 8 with wire]|]); exact I.
  - cbn. repeat (split; [match goal with |- if gone ?n then _ else _ => destruct (gone n) eqn:Hn; cbn; rewrite ?Hn end;
      first [done | exfalso; apply Hgone in Hn; revert Hn; vm_decide]|]). done.
Qed.

(** C24: Every record of the domain is read back as it was written: market data, signals,
    decisions, positions and the rows of the candidate ranker, decimals and reason codes
    included.  A feature record that was written before some of its later fields existed is
    read with the defaults of the missing ones, whichever they are, and unchanged otherwise.
    A text is read as a reason code exactly when it is the name of that code: no two codes
    share a name and no other text is read as one. *)
Theorem domain_records_read_back :
  reads_back (V := V) CrossSectionalMarketFrame_c /\ reads_back (V := V) MarketDepthSnapshot_c /\
  reads_back (V := V) SymbolHealthSnapshot_c /\ reads_back (V := V) RollingFeatures_c /\
  reads_back (V := V) RegimeSnapshot_c /\ reads_back (V := V) SignalOpinion_c /\ reads_back (V := V) TradeCandidate_c /\
  reads_back (V := V) CostDecision_c /\ reads_back (V := V) RiskDecision_c /\ reads_back (V := V) ExecutionResult_c /\
  reads_back (V := V) PaperPositionUpdatePayload_c /\ reads_back (V := V) LightweightAiTrainingRow_c /\
  reads_back (V := V) TimeWindow_c /\
  (forall (code : ReasonCode) s, c_dec (V := V) ReasonCode_c (v_str s) = Some code <-> s = ReasonCode_name code) /\
  forall (gone : string -> bool) (r : RollingFeatures),
    (forall name, gone name = true -> name ∈ later_fields) -> c_ok (V := V) RollingFeatures_c r ->
    c_dec RollingFeatures_c (v_map (List.filter (fun f => negb (gone f.1)) (enc_fields RollingFeatures_fields r))) =
      Some (without gone r).
Proof.
  split_and!; [apply lawful_reads..|intros code s; apply (enum_reads_names ReasonCode_name ReasonCode_all)|by apply older_features]; [apply CrossSectionalMarketFrame_lawful|apply MarketDepthSnapshot_lawful
    |apply SymbolHealthSnapshot_lawful|apply RollingFeatures_lawful|apply RegimeSnapshot_lawful|apply SignalOpinion_lawful
    |apply TradeCandidate_lawful|apply CostDecision_lawful|apply RiskDecision_lawful|apply ExecutionResult_lawful
    |apply PaperPositionUpdatePayload_lawful|apply LightweightAiTrainingRow_lawful|apply TimeWindow_lawful].
Qed.
End laws.

(** ** Feature records in a tree *)

Definition sample_features : RollingFeatures :=
  mkRollingFeatures 340282366920938463463374607431768211455 (mkSymbol "binance" "BTC" "USDT" "BTC-USDT" "BTCUSDT") 60000
    (mkBps 12) 900000 (mkBps (-3)) (mkBps 40) (mkBps 5) (mkBps 1) (mkBps 2) (mkBps 3) (mkBps 0) (mkMicroBps 250) (mkBps 7)
    10 4 2500000 (mkBps (-1)) DepthAttachmentStatus_Missing None None None None
    (Some DepthMissingReason_SnapshotTooOld) [ReasonCode_AdversePriceImpact10Tick; ReasonCode_SpreadTooWide].

Lemma sample_features_ok : c_ok (V := Tree) RollingFeatures_c sample_features.
Proof.
  cbn -[in_range]. repeat (split; [first [vm_decide|exact I|reflexivity|repeat split; vm_decide|repeat constructor]|]). exact I.
Qed.

(** The names the reason codes have on the wire, in the order of the enum. *)
Example reason_codes_on_the_wire : map ReasonCode_name ReasonCode_all =
    ["EVENT_DELAYED"; "EVENT_GAP"; "EVENT_STALE"; "EVENT_INVALID"; "SYMBOL_UNHEALTHY"; "UNFINISHED_CANDLE";
     "CHANNEL_OVERFLOW"; "REGIME_MISMATCH"; "LOW_CONFIDENCE"; "RECENT_FAILURE"; "NO_CONSENSUS";
     "DUPLICATE_SIGNAL"; "EXPERT_DISABLED"; "COST_TOO_HIGH"; "LATENCY_TOO_HIGH"; "SPREAD_TOO_WIDE";
     "ADVERSE_PRICE_IMPACT"; "ADVERSE_PRICE_IMPACT_10_TICK"; "ADVERSE_ORDERBOOK_IMBALANCE";
     "ADVERSE_DEPTH_IMBALANCE"; "ADVERSE_MICROPRICE_EDGE"; "WEAK_RELATIVE_MOMENTUM";
     "INSUFFICIENT_TRADE_INTENSITY_EXPANSION"; "INSUFFICIENT_VOLATILITY_EXPANSION"; "ADVERSE_MICROSTRUCTURE";
     "SLIPPAGE_UNKNOWN"; "FILL_QUALITY_LOW"; "RISK_LIMIT"; "DAILY_STOP"; "WEEKLY_DRAWDOWN_REDUCED";
     "MONTHLY_DRAWDOWN_PAPER_ONLY"; "SYMBOL_STOP"; "STRATEGY_THROTTLED"; "COOLDOWN_ACTIVE"; "NOTIONAL_CAP";
     "PORTFOLIO_CAP"; "PAPER_ONLY"; "LOCAL_RISK_FLAG"; "SIMULATION_REJECTED"; "PARTIAL_FILL_SIMULATED";
     "PAIR_ATOMICITY_REQUIRED"; "PAIR_LEGGING_RISK"; "PAIR_COMPENSATION_REQUIRED"; "LEDGER_WRITE_FAILED";
     "TRACE_ID_MISSING"; "CORRECTION_APPENDED"; "MARKET_EVENT_ACCEPTED"; "META_CANDIDATE_CREATED";
     "COST_APPROVED"; "RISK_APPROVED"; "RISK_CAPPED"; "PAPER_ORDER_SIMULATED"; "PAPER_FILL_CREATED"]%string.
Proof. by vm_compute. Qed.

(** The wire names of the reason codes, one of them not the one of the rule. *)
Example reason_names : map ReasonCode_name (rf_reason_codes sample_features) =
    ["ADVERSE_PRICE_IMPACT_10_TICK"; "SPREAD_TOO_WIDE"]%string /\
  screaming_snake_case "AdversePriceImpact10Tick" = "ADVERSE_PRICE_IMPACT10_TICK"%string.
Proof. by vm_compute. Qed.

Definition before_momentum (name : string) : bool :=
  bool_decide (name ∈ ["trade_intensity_60s"; "symbol_relative_momentum_bps"; "depth_missing_reason"]%string).

Example older_sample_features :
  let r := without before_momentum sample_features in
  rf_trade_intensity_60s r = 0 /\ rf_trade_intensity_previous_60s r = 4 /\ rf_depth_missing_reason r = None.
Proof. by vm_compute. Qed.

Lemma domain_records_read_back_witness :
  c_dec (V := Tree) RollingFeatures_c (c_enc RollingFeatures_c sample_features) = Some sample_features /\
  c_dec (V := Tree) RollingFeatures_c
    (v_map (List.filter (fun f => negb (before_momentum f.1)) (enc_fields RollingFeatures_fields sample_features))) =
    Some (without before_momentum sample_features) /\
  c_dec (V := Tree) ReasonCode_c (v_str "LOW_CONFIDENCE"%string) = Some ReasonCode_LowConfidence.
Proof.
  split; [apply domain_records_read_back; exact sample_features_ok|].
  split; [|by apply domain_records_read_back].
  apply domain_records_read_back; [|exact sample_features_ok].
  intros name H. apply bool_decide_eq_true in H. revert name H. apply Forall_forall. vm_decide.
Defined.
