(* ===== verification/BinanceNormalize.v ===== *)
(** * BinanceNormalize: from stream messages to market snapshots

    The normalization crate [crypto-market-data]: stream names and kinds
    ([stream_config.rs]), unwrapping of combined payloads ([normalize/payload.rs]),
    the price arithmetic ([normalize/math.rs]), and the ticker and partial-depth
    normalizers.  JSON itself is a parameter: a [Json] instance gives the parsed
    [Value] type and the decoders serde derives from the message structs. *)
From S2P Require Import Prelude Text OrderedMap Decimal Domain.
Open Scope Z_scope.

(* rust: crypto-market-data/src/error.rs MarketDataError *)
Inductive MarketDataError :=
| MDJson (rendered : string)
| MDDomain (e : DomainError)
| MDHttp (rendered : string)
| MDWebSocket (rendered : string)
| MDUnknownSymbol (s : string)
| MDInvalidMessage (s : string)
| MDAborts.

(* rust: crypto-market-data/src/error.rs fmt *)
Definition MarketDataError_display (e : MarketDataError) : string :=
  match e with
  | MDJson r => "json error: " ++ r
  | MDDomain d => "domain error: " ++ DomainError_display d
  | MDHttp r => "http error: " ++ r
  | MDWebSocket r => "websocket error: " ++ r
  | MDUnknownSymbol s => "unknown symbol: " ++ s
  | MDInvalidMessage m => "invalid market data message: " ++ m
  | MDAborts => ""
  end.

(** [?] on a domain result inside a market-data function. *)
Definition dom {A} (r : result DomainError A) : result MarketDataError A := map_err MDDomain r.

(** The same for an operation that can abort the process. *)
Definition dom_fault {A} (r : result (fault DomainError) A) : result MarketDataError A :=
  map_err (fun f => match f with Panics => MDAborts | Fails e => MDDomain e end) r.

(** ** Stream kinds and names *)

(* rust: crypto-market-data/src/stream_config.rs BinanceStreamKind *)
Inductive BinanceStreamKind :=
| Trade | Ticker | BookTicker | DiffDepth100ms | PartialDepth5 | PartialDepth10 | PartialDepth20.

#[export] Instance BinanceStreamKind_eq_dec : EqDecision BinanceStreamKind.
Proof. solve_decision. Defined.

(* rust: crypto-market-data/src/stream_config.rs suffix *)
Definition suffix (k : BinanceStreamKind) : string :=
  match k with
  | Trade => "trade"
  | Ticker => "ticker"
  | BookTicker => "bookTicker"
  | DiffDepth100ms => "depth@100ms"
  | PartialDepth5 => "depth5"
  | PartialDepth10 => "depth10"
  | PartialDepth20 => "depth20"
  end.

(* rust: crypto-market-data/src/normalize/payload.rs stream_kind_from_stream *)
Definition stream_kind_from_stream (stream : string) : result MarketDataError BinanceStreamKind :=
  let unsupported := MDInvalidMessage ("unsupported stream: " ++ stream) in
  match split_once "@" stream with
  | None => Err unsupported
  | Some (_, sfx) =>
      if String.eqb sfx "trade" then Ok Trade
      else if String.eqb sfx "ticker" then Ok Ticker
      else if String.eqb sfx "depth@100ms" then Ok DiffDepth100ms
      else if String.eqb sfx "depth5" then Ok PartialDepth5
      else if String.eqb sfx "depth10" then Ok PartialDepth10
      else if String.eqb sfx "depth20" then Ok PartialDepth20
      else if String.eqb sfx "bookTicker" then Ok BookTicker
      else Err unsupported
  end.

(* rust: crypto-market-data/src/normalize/payload.rs stream_symbol *)
Definition stream_symbol (stream : string) : option string :=
  p ← head (split_char "@" stream);
  let symbol := trim p in
  if str_is_empty symbol then None else Some symbol.

(** [symbols_by_raw] is a hash map: its keys in any order. *)
(* rust: crypto-market-data/src/stream_config.rs BinanceStreamConfig *)
Record BinanceStreamConfig := mkStreamConfig {
  base_url : string;
  max_latency_ms : Z;
  symbols_by_raw : gmap string Symbol;
}.

(* rust: crypto-market-data/src/stream_config.rs BinanceStreamConfig::new *)
Definition stream_config_new (url : string) (latency : Z) (symbols : list Symbol)
    : BinanceStreamConfig :=
  mkStreamConfig url latency
    (fold_left (fun m s => <[to_ascii_uppercase (sym_raw s) := s]> m) symbols ∅).

(* rust: crypto-market-data/src/stream_config.rs combined_stream_names_for_kinds *)
Definition combined_stream_names_for_kinds (c : BinanceStreamConfig) (kinds : list BinanceStreamKind)
    : result MarketDataError (list string) :=
  if bool_decide (symbols_by_raw c = ∅)
  then Err (MDInvalidMessage "at least one symbol is required") else
  match kinds with
  | [] => Err (MDInvalidMessage "at least one stream kind is required")
  | _ =>
      let raw_symbols := sort_strings (map_to_list (symbols_by_raw c)).*1 in
      Ok (flat_map (fun s => List.map (fun k =>
            (to_ascii_lowercase s ++ "@" ++ suffix k)%string) kinds) raw_symbols)
  end.

(* rust: crypto-market-data/src/stream_config.rs symbol *)
Definition config_symbol (c : BinanceStreamConfig) (raw_symbol : string)
    : result MarketDataError Symbol :=
  ok_or (symbols_by_raw c !! to_ascii_uppercase raw_symbol) (MDUnknownSymbol raw_symbol).

(* rust: crypto-market-data/src/stream_config.rs validate_combined_stream_names *)
Definition validate_combined_stream_names (streams : list string) : result MarketDataError () :=
  try_fold (fun _ s =>
    if str_is_empty s || negb (all_bytes (fun b => is_alphanumeric b || Ascii.eqb b "@") s)
    then Err (MDInvalidMessage ("invalid Binance stream name: " ++ s)) else Ok ()) () streams.

(** A parsed URL, as the [url] crate presents it. *)
Record Url := mkUrl {
  url_str : string;
  url_scheme : string;
  url_host : option string;
  url_username : string;
  url_password : option string;
  url_query : option string;
  url_fragment : option string;
}.

(** The checks shared by the stream and REST base URLs. *)
Definition validate_url (what required : string) (u : Url) : result MarketDataError () :=
  if negb (String.eqb (url_scheme u) required)
  then Err (MDInvalidMessage (what ++ " must use " ++ required)) else
  match url_host u with
  | None => Err (MDInvalidMessage (what ++ " must include a host"))
  | Some _ =>
      if negb (str_is_empty (url_username u)) || bool_decide (is_Some (url_password u))
      then Err (MDInvalidMessage (what ++ " must not include credentials")) else
      if bool_decide (is_Some (url_query u)) || bool_decide (is_Some (url_fragment u))
      then Err (MDInvalidMessage (what ++ " must not include query or fragment components"))
      else Ok ()
  end.

(* rust: crypto-market-data/src/stream_config.rs validate_binance_stream_base_url *)
Definition validate_binance_stream_base_url : Url -> result MarketDataError () :=
  validate_url "Binance stream base URL" "wss".

(* rust: depth_sync/sync/snapshot.rs validate_binance_depth_rest_base_url *)
Definition validate_binance_depth_rest_base_url : Url -> result MarketDataError () :=
  validate_url "Binance depth REST base URL" "https".

(* rust: crypto-market-data/src/stream_config.rs binance_combined_stream_url *)
Definition binance_combined_stream_url (url_parse : string -> result string Url)
    (base : string) (streams : list string) : result MarketDataError string :=
  _ ← validate_combined_stream_names streams;
  u ← map_err (fun e => MDInvalidMessage ("invalid Binance stream base URL: " ++ e))
        (url_parse (trim base));
  _ ← validate_binance_stream_base_url u;
  Ok (trim_end_matches "/" (url_str u) ++ "/stream?streams=" ++ join "/" streams)%string.

(** ** Price arithmetic *)

Definition MAX_CLOCK_SKEW_MS : Z := 5000.

(** [ratio_to_bps]: the common tail [value * 10_000 / 100_000_000] fitted in [i64]. *)
Definition fit_bps (v : Z) : result MarketDataError Bps :=
  dom (b ← ok_or (checked I64 v) ScaleOverflow; Ok (mkBps b)).

(* rust: crypto-market-data/src/normalize/math.rs calculate_depth_imbalance_bps *)
Definition calculate_depth_imbalance_bps (bid_depth_qty ask_depth_qty : FixedDecimal)
    : result MarketDataError Bps :=
  total_qty ← dom (checked_add bid_depth_qty ask_depth_qty);
  if value total_qty =? 0 then Ok (mkBps 0) else
  delta_qty ← dom (checked_sub bid_depth_qty ask_depth_qty);
  ratio ← dom_fault (div_to_scale delta_qty total_qty 8);
  v ← dom (ok_or (checked I128 (value ratio * 10000)) ScaleOverflow);
  fit_bps (Z.quot v 100000000).

(* rust: crypto-market-data/src/normalize/math.rs classify_quality *)
Definition classify_quality (event_time_ms received_time_ms max_latency : Z) : EventQuality :=
  if (event_time_ms <=? 0) || (received_time_ms <=? 0) || (received_time_ms <? event_time_ms)
  then QInvalid else
  if max_latency <? wrap I64 (received_time_ms - event_time_ms) then QDelayed else QOk.

(* rust: crypto-market-data/src/normalize/math.rs normalize_received_time *)
Definition normalize_received_time (event_time_ms received_time_ms : Z) : Z :=
  if (0 <? event_time_ms) && (0 <? received_time_ms) && (received_time_ms <? event_time_ms)
     && (wrap I64 (event_time_ms - received_time_ms) <=? MAX_CLOCK_SKEW_MS)
  then event_time_ms else received_time_ms.

(* rust: crypto-market-data/src/normalize/math.rs midpoint_price *)
Definition midpoint_price (best_bid best_ask : FixedDecimal) : result MarketDataError FixedDecimal :=
  total ← dom (checked_add best_bid best_ask);
  Ok (mkDec (Z.quot (value total) 2) (scale total)).

(* rust: crypto-market-data/src/normalize/math.rs calculate_spread_bps *)
Definition calculate_spread_bps (best_bid best_ask reference_price : FixedDecimal)
    : result MarketDataError Bps :=
  crossed ← dom (checked_lt best_ask best_bid);
  if crossed : bool then Ok (mkBps 0) else
  spread ← dom (checked_sub best_ask best_bid);
  spread_ratio ← dom_fault (div_to_scale spread reference_price 8);
  n ← dom (ok_or (checked I128 (value spread_ratio * 10000)) ScaleOverflow);
  let numerator := Z.max n 0 in
  let denominator := 100000000 in
  let v := if numerator =? 0 then 0
           else Z.quot (wrap I128 (numerator + denominator - 1)) denominator in
  fit_bps v.

(** ** Messages and payloads *)

(* rust: crypto-market-data/src/messages.rs BinanceTickerMessage *)
Record BinanceTickerMessage := mkTicker {
  tk_event_type : string;
  tk_event_time_ms : Z;
  tk_symbol : string;
  tk_last_price : string;
  tk_best_bid : string;
  tk_best_bid_qty : string;
  tk_best_ask : string;
  tk_best_ask_qty : string;
  tk_last_trade_id : Z;
}.

(* rust: crypto-market-data/src/messages.rs BinancePartialDepthMessage *)
Record BinancePartialDepthMessage := mkPartialDepth {
  pd_last_update_id : Z;
  pd_bids : list (string * string);
  pd_asks : list (string * string);
}.

(* rust: crypto-market-data/src/messages.rs BinanceDiffDepthMessage *)
Record BinanceDiffDepthMessage := mkDiff {
  dd_symbol : string;
  dd_first_update_id : Z;
  dd_final_update_id : Z;
  dd_bids : list (string * string);
  dd_asks : list (string * string);
}.

(** What the code uses of [serde_json] and of the derived deserializers. *)
Class Json (V : Type) := {
  json_parse : string -> result string V;
  json_get : string -> V -> option V;
  json_as_u64 : V -> option Z;
  json_combined : V -> result string (string * V);
  json_ticker : V -> result string BinanceTickerMessage;
  json_partial_depth : V -> result string BinancePartialDepthMessage;
  json_diff_depth : V -> result string BinanceDiffDepthMessage;
}.

(* rust: crypto-market-data/src/messages.rs BinancePayload *)
Record BinancePayload (V : Type) := mkPayload { bp_stream : option string; bp_data : V }.
Arguments mkPayload {V}.
Arguments bp_stream {V}.
Arguments bp_data {V}.

Section with_json.
Context {V : Type} {J : Json V}.

(* rust: crypto-market-data/src/normalize/payload.rs sequence_from_binance_payload *)
Definition sequence_from_binance_payload (kind : BinanceStreamKind) (payload : V) : option Z :=
  let field := match kind with
    | Trade => "t"
    | Ticker => "L"
    | BookTicker => "u"
    | DiffDepth100ms => "u"
    | PartialDepth5 | PartialDepth10 | PartialDepth20 => "lastUpdateId"
    end%string in
  v ← json_get field payload; json_as_u64 v.

(* rust: crypto-market-data/src/normalize/payload.rs unwrap_binance_payload *)
Definition unwrap_binance_payload (v : V) : result MarketDataError (BinancePayload V) :=
  if bool_decide (is_Some (json_get "stream" v)) && bool_decide (is_Some (json_get "data" v)) then
    combined ← map_err MDJson (json_combined v);
    if str_is_empty (trim combined.1)
    then Err (MDInvalidMessage "combined stream name is empty")
    else Ok (mkPayload (Some combined.1) combined.2)
  else Ok (mkPayload None v).

(* rust: crypto-market-data/src/normalize/payload.rs unwrap_combined_payload *)
Definition unwrap_combined_payload (v : V) : result MarketDataError V :=
  p ← unwrap_binance_payload v; Ok (bp_data p).

(* rust: crypto-market-data/src/normalize/payload.rs unwrap_combined_stream_payload *)
Definition unwrap_combined_stream_payload (v : V) : result MarketDataError (string * V) :=
  p ← unwrap_binance_payload v;
  stream ← ok_or (bp_stream p)
    (MDInvalidMessage "combined stream wrapper is required for partial depth payload");
  Ok (stream, bp_data p).
End with_json.

(** ** Normalizers *)

(* rust: crypto-market-data/src/normalize/ticker.rs normalize_binance_ticker *)
Definition normalize_binance_ticker (c : BinanceStreamConfig) (m : BinanceTickerMessage)
    (received_time_ms decision_trace_id : Z) : result MarketDataError MarketSnapshot :=
  if negb (String.eqb (tk_event_type m) "24hrTicker")
  then Err (MDInvalidMessage ("unsupported event type: " ++ tk_event_type m)) else
  symbol ← config_symbol c (tk_symbol m);
  last_price ← dom (parse_unsigned (tk_last_price m));
  best_bid ← dom (parse_unsigned (tk_best_bid m));
  best_ask ← dom (parse_unsigned (tk_best_ask m));
  best_bid_qty ← dom (parse_unsigned (tk_best_bid_qty m));
  best_ask_qty ← dom (parse_unsigned (tk_best_ask_qty m));
  spread_bps ← calculate_spread_bps best_bid best_ask last_price;
  let received := normalize_received_time (tk_event_time_ms m) received_time_ms in
  let quality := classify_quality (tk_event_time_ms m) received (max_latency_ms c) in
  let snapshot q := mkMarketSnapshot decision_trace_id (sym_exchange symbol) symbol
    (tk_event_time_ms m) received (tk_last_trade_id m) q last_price best_bid best_ask
    best_bid_qty best_ask_qty spread_bps in
  if negb (is_ok (market_snapshot_validate (snapshot quality)))
  then Ok (snapshot QInvalid) else Ok (snapshot quality).

(* rust: crypto-market-data/src/normalize/depth.rs partial_depth_symbol_from_stream *)
Definition partial_depth_symbol_from_stream (stream : string) : result MarketDataError string :=
  let parts := split_char "@" stream in
  let symbol := default ""%string (parts !! 0%nat) in
  let sfx := default ""%string (parts !! 1%nat) in
  if str_is_empty (trim symbol)
     || negb (String.eqb sfx "depth5" || String.eqb sfx "depth10" || String.eqb sfx "depth20")
  then Err (MDInvalidMessage ("unsupported partial depth stream: " ++ stream))
  else Ok symbol.

(* rust: crypto-market-data/src/normalize/depth.rs parse_depth_levels *)
Definition parse_depth_levels (raw : list (string * string))
    : result MarketDataError (list OrderBookLevel) :=
  try_map (fun raw_level =>
    p ← dom (parse_unsigned raw_level.1);
    q ← dom (parse_unsigned raw_level.2);
    Ok (mkLevel p q)) raw.

(* rust: crypto-market-data/src/normalize/depth.rs sum_level_quantities *)
Definition sum_level_quantities (levels : list OrderBookLevel) : result MarketDataError FixedDecimal :=
  try_fold (fun total l => dom (checked_add total (lvl_quantity l))) zero levels.

(* rust: crypto-market-data/src/normalize/depth.rs normalize_binance_partial_depth *)
Definition normalize_binance_partial_depth (c : BinanceStreamConfig) (stream : string)
    (m : BinancePartialDepthMessage) (received_time_ms decision_trace_id : Z)
    : result MarketDataError MarketDepthSnapshot :=
  raw_symbol ← partial_depth_symbol_from_stream stream;
  symbol ← config_symbol c raw_symbol;
  bids ← parse_depth_levels (pd_bids m);
  asks ← parse_depth_levels (pd_asks m);
  best_bid ← ok_or (head bids) (MDInvalidMessage "depth bids are empty");
  best_ask ← ok_or (head asks) (MDInvalidMessage "depth asks are empty");
  bid_depth_qty ← sum_level_quantities bids;
  ask_depth_qty ← sum_level_quantities asks;
  imbalance ← calculate_depth_imbalance_bps bid_depth_qty ask_depth_qty;
  reference_price ← midpoint_price (lvl_price best_bid) (lvl_price best_ask);
  spread_bps ← calculate_spread_bps (lvl_price best_bid) (lvl_price best_ask) reference_price;
  let quality := classify_quality received_time_ms received_time_ms (max_latency_ms c) in
  let snapshot q := mkDepthSnapshot decision_trace_id (sym_exchange symbol) symbol
    received_time_ms received_time_ms (pd_last_update_id m) q (Z.max (zlen bids) (zlen asks))
    bids asks bid_depth_qty ask_depth_qty imbalance spread_bps in
  if negb (is_ok (depth_snapshot_validate (snapshot quality)))
  then Ok (snapshot QInvalid) else Ok (snapshot quality).

(* rust: crypto-market-data/src/stream_config.rs BinanceNormalizedMarketEvent *)
Inductive BinanceNormalizedMarketEvent :=
| NMarket (s : MarketSnapshot)
| NDepth (s : MarketDepthSnapshot).

Section messages.
Context {V : Type} {J : Json V}.

(* rust: crypto-market-data/src/normalize.rs normalize_binance_ticker_message *)
Definition normalize_binance_ticker_message (c : BinanceStreamConfig) (raw_json : string)
    (received_time_ms decision_trace_id : Z) : result MarketDataError MarketSnapshot :=
  v ← map_err MDJson (json_parse raw_json);
  payload ← unwrap_combined_payload v;
  m ← map_err MDJson (json_ticker payload);
  normalize_binance_ticker c m received_time_ms decision_trace_id.

(* rust: crypto-market-data/src/normalize.rs normalize_binance_partial_depth_message *)
Definition normalize_binance_partial_depth_message (c : BinanceStreamConfig) (raw_json : string)
    (received_time_ms decision_trace_id : Z) : result MarketDataError MarketDepthSnapshot :=
  v ← map_err MDJson (json_parse raw_json);
  sp ← unwrap_combined_stream_payload v;
  m ← map_err MDJson (json_partial_depth sp.2);
  normalize_binance_partial_depth c sp.1 m received_time_ms decision_trace_id.

(* rust: crypto-market-data/src/normalize.rs normalize_binance_stream_message *)
Definition normalize_binance_stream_message (c : BinanceStreamConfig) (raw_json : string)
    (received_time_ms decision_trace_id : Z) : result MarketDataError BinanceNormalizedMarketEvent :=
  v ← map_err MDJson (json_parse raw_json);
  payload ← unwrap_binance_payload v;
  let as_ticker :=
    m ← map_err MDJson (json_ticker (bp_data payload));
    s ← normalize_binance_ticker c m received_time_ms decision_trace_id; Ok (NMarket s) in
  match bp_stream payload with
  | None => as_ticker
  | Some stream =>
      kind ← stream_kind_from_stream stream;
      match kind with
      | Ticker => as_ticker
      | PartialDepth5 | PartialDepth10 | PartialDepth20 =>
          m ← map_err MDJson (json_partial_depth (bp_data payload));
          s ← normalize_binance_partial_depth c stream m received_time_ms decision_trace_id;
          Ok (NDepth s)
      | Trade | BookTicker | DiffDepth100ms =>
          Err (MDInvalidMessage (suffix kind ++
            " stream is raw-ingest only and is not supported for replay normalization"))
      end
  end.
End messages.

(** ** Lemmas *)

Lemma map_err_ok {E F A} (f : E -> F) (r : result E A) a : map_err f r = Ok a <-> r = Ok a.
Proof. destruct r; cbn; split; congruence. Qed.

Lemma dom_ok {A} (r : result DomainError A) a : dom r = Ok a <-> r = Ok a.
Proof. apply map_err_ok. Qed.
Lemma dom_fault_ok {A} (r : result (fault DomainError) A) a : dom_fault r = Ok a <-> r = Ok a.
Proof. apply map_err_ok. Qed.
Lemma ok_or_ok {E A} (o : option A) (e : E) a : ok_or o e = Ok a <-> o = Some a.
Proof. destruct o; cbn; split; congruence. Qed.

Lemma fit_bps_ok v b : fit_bps v = Ok b -> bps_value b = v /\ in_range I64 v.
Proof.
  unfold fit_bps. rewrite dom_ok. intros H. inv_bind H. injection H as <-.
  by apply ok_or_ok, checked_Some in Em as [-> ?].
Qed.

Lemma in_map_bytes f c s : In c (bytes (map_str f s)) -> exists a, In a (bytes s) /\ f a = c.
Proof. unfold map_str. rewrite bytes_of_bytes, in_map_iff. intros (a & ? & ?). by exists a. Qed.

Lemma to_lower_at a : to_lower a = "@"%char -> a = "@"%char.
Proof.
  destruct a as [b0 b1 b2 b3 b4 b5 b6 b7].
  destruct b0, b1, b2, b3, b4, b5, b6, b7; vm_compute; congruence.
Qed.

(** [|x ÷ y| <= 10^k] when [|x| <= 10^k |y|]. *)
Lemma quot_bound x y k : y <> 0 -> 0 <= k -> Z.abs x <= k * Z.abs y -> Z.abs (x ÷ y) <= k.
Proof.
  intros Hy Hk H. rewrite <- Z.quot_abs by done. rewrite Z.quot_div_nonneg by lia.
  apply Z.div_le_upper_bound; lia.
Qed.

(** Modulo [2^128] the wrapped sum of two nonnegative operands is never smaller in
    magnitude than their difference. *)
Lemma wrapped_total_dominates x y :
  0 <= x <= int_max I128 -> 0 <= y <= int_max I128 ->
  Z.abs (wrap I128 (x - y)) <= Z.abs (wrap I128 (x + y)).
Proof.
  intros Hx Hy. rewrite (wrap_id I128 (x - y)) by (unfold in_range; cbn in *; lia).
  destruct (decide (in_range I128 (x + y))) as [Hr|Hr].
  - rewrite wrap_id by done. lia.
  - destruct (wrap_congr I128 (x + y)) as [k Hk].
    pose proof (wrap_in_range I128 (x + y)). unfold in_range in *. cbn [int_min int_max] in *. lia.
Qed.

(** The name built for a symbol and a stream kind parses back to that kind. *)
Theorem stream_name_roundtrip (symbol : string) (k : BinanceStreamKind) :
  ~ In "@"%char (bytes symbol) ->
  stream_kind_from_stream (to_ascii_lowercase symbol ++ "@" ++ suffix k) = Ok k.
Proof.
  intros Hs. unfold stream_kind_from_stream.
  change ("@" ++ suffix k)%string with (String "@" (suffix k)). rewrite split_once_app.
  - by destruct k.
  - intros (a & Ha & Heq)%in_map_bytes. apply to_lower_at in Heq as ->. done.
Qed.

Lemma stream_name_roundtrip_witness :
  (to_ascii_lowercase "BTCUSDT" ++ "@" ++ suffix DiffDepth100ms)%string = "btcusdt@depth@100ms"%string /\
  stream_kind_from_stream (to_ascii_lowercase "BTCUSDT" ++ "@" ++ suffix DiffDepth100ms)
  = Ok DiffDepth100ms.
Proof.
  split; [by vm_compute|]. apply stream_name_roundtrip. vm_compute. intuition congruence.
Defined.

(** the depth imbalance of two nonnegative depths lies between -10000 and
    10000 basis points, even where the unchecked total wraps. *)
Theorem imbalance_bounded (bid ask : FixedDecimal) (b : Bps) :
  dec_wf bid -> dec_wf ask -> 0 <= value bid -> 0 <= value ask ->
  calculate_depth_imbalance_bps bid ask = Ok b ->
  -10000 <= bps_value b <= 10000.
Proof.
  intros Hwb Hwa Hb Ha H. unfold calculate_depth_imbalance_bps in H.
  inv_bind H. rename a into total. destruct (Z.eqb_spec (value total) 0) as [|Hnz].
  { injection H as <-. cbn. lia. }
  inv_bind H. inv_bind H. inv_bind H. rename a into delta, a0 into ratio, a1 into v.
  apply dom_ok, ok_or_ok, checked_Some in Em2 as [-> _]. apply fit_bps_ok in H as [H _]. rewrite H.
  apply dom_ok, checked_add_Ok in Em as (Hx & Hy & ->).
  apply dom_ok, checked_sub_Ok in Em0 as (_ & _ & ->). apply dom_fault_ok in Em1.
  set (s := Z.max (scale bid) (scale ask)) in *.
  destruct (wf_max_scale bid ask Hwb Hwa) as (Hl & Hr & Hs). fold s in Hs, Hl, Hr.
  pose proof (at_scale_nonneg bid s Hl Hb). pose proof (at_scale_nonneg ask s Hr Ha).
  assert (Hd := wrapped_total_dominates (at_scale bid s) (at_scale ask s)
    ltac:(unfold in_range in *; lia) ltac:(unfold in_range in *; lia)).
  apply div_to_scale_Ok in Em1 as (_ & _ & Hq); [|by split; [apply wrap_in_range|]..|vm_decide].
  cbn [value scale] in *. rewrite Hq. clear Hq H.
  set (d := wrap I128 (at_scale bid s - _)) in *. set (t := wrap I128 (at_scale bid s + _)) in *.
  unfold in_range in Hs. cbn in Hs. rewrite Z.pow_add_r by lia.
  pose proof (pow10_pos s ltac:(lia)).
  assert (Hr' : Z.abs ((d * (10 ^ s * 10 ^ 8)) ÷ (t * 10 ^ s)) <= 10 ^ 8)
    by (apply quot_bound; [nia|lia|rewrite !Z.abs_mul; rewrite (Z.abs_eq (10 ^ s)) by lia; nia]).
  assert (Z.abs ((d * (10 ^ s * 10 ^ 8)) ÷ (t * 10 ^ s) * 10000 ÷ 100000000) <= 10000)
    by (apply quot_bound; [lia|lia|]; rewrite Z.abs_mul; lia).
  lia.
Qed.

Lemma imbalance_bounded_witness :
  calculate_depth_imbalance_bps (mkDec 3 0) (mkDec 10 1) = Ok (mkBps 5000) /\
  -10000 <= bps_value (mkBps 5000) <= 10000.
Proof.
  split; [by vm_compute|].
  apply (imbalance_bounded (mkDec 3 0) (mkDec 10 1)); [vm_decide | vm_decide | done | done | by vm_compute].
Defined.

Lemma normalize_ticker_valid c m r t s :
  normalize_binance_ticker c m r t = Ok s -> ms_quality s <> QInvalid ->
  market_snapshot_valid s /\ ms_event_time_ms s <= ms_received_time_ms s.
Proof.
  unfold normalize_binance_ticker. intros H Hq. case_if; [done|].
  do 7 inv_bind H. cbv zeta in H.
  destruct (market_snapshot_validate _) as [u|] eqn:Ev in H; cbn [is_ok negb] in H;
    injection H as <-; [|done].
  split; [by eapply market_snapshot_validate_ok|]. cbn in *. unfold classify_quality in Hq.
  case_if; [done|]. bool_prop. lia.
Qed.

Lemma normalize_depth_valid c st m r t s :
  normalize_binance_partial_depth c st m r t = Ok s -> ds_quality s <> QInvalid ->
  depth_snapshot_valid s /\ ds_event_time_ms s <= ds_received_time_ms s.
Proof.
  unfold normalize_binance_partial_depth. intros H Hq.
  do 11 inv_bind H. cbv zeta in H.
  destruct (depth_snapshot_validate _) as [u|] eqn:Ev in H; cbn [is_ok negb] in H;
    injection H as <-; [|done].
  split; [by eapply depth_snapshot_validate_ok|]. cbn. lia.
Qed.

(** The checks a published snapshot has passed. *)
Definition event_quality (ev : BinanceNormalizedMarketEvent) : EventQuality :=
  match ev with NMarket s => ms_quality s | NDepth s => ds_quality s end.
Definition event_valid (ev : BinanceNormalizedMarketEvent) : Prop :=
  match ev with
  | NMarket s => market_snapshot_valid s /\ ms_event_time_ms s <= ms_received_time_ms s
  | NDepth s => depth_snapshot_valid s /\ ds_event_time_ms s <= ds_received_time_ms s
  end.

(** whatever the JSON library decodes, a stream message that normalizes to
    an event not marked invalid carries positive prices, nonnegative quantities,
    an uncrossed book, a nonzero trace id and a reception time that is positive
    and not before the event time. *)
Theorem normalized_event_valid {V} {J : Json V} (c : BinanceStreamConfig) (raw : string)
    (received trace : Z) (ev : BinanceNormalizedMarketEvent) :
  normalize_binance_stream_message c raw received trace = Ok ev ->
  event_quality ev <> QInvalid ->
  event_valid ev.
Proof.
  unfold normalize_binance_stream_message. intros H Hq. inv_bind H. inv_bind H.
  assert (Ht : (m ← map_err MDJson (json_ticker (bp_data a0));
    s ← normalize_binance_ticker c m received trace; Ok (NMarket s)) = Ok ev -> event_valid ev).
  { intros H'. inv_bind H'. inv_bind H'. injection H' as <-. by eapply normalize_ticker_valid. }
  destruct (bp_stream a0) as [stream|]; [|by apply Ht].
  inv_bind H. destruct a1; try done; try (by apply Ht);
    inv_bind H; inv_bind H; injection H as <-; by eapply normalize_depth_valid.
Qed.

(** A JSON library of one document, a bare ticker. *)
Definition one_ticker : BinanceTickerMessage :=
  mkTicker "24hrTicker" 1000 "btcusdt" "100.5" "100.4" "1" "100.6" "2.5" 9.
#[local] Instance one_ticker_json : Json () := {
  json_parse _ := Ok ();
  json_get _ _ := None;
  json_as_u64 _ := None;
  json_combined _ := Err "no stream"%string;
  json_ticker _ := Ok one_ticker;
  json_partial_depth _ := Err "no depth"%string;
  json_diff_depth _ := Err "no depth"%string;
}.
Definition btc_config : BinanceStreamConfig :=
  stream_config_new "wss://stream.binance.com:9443" 500
    [mkSymbol "binance" "BTC" "USDT" "BTC-USDT" "BTCUSDT"].

Lemma normalized_event_valid_witness :
  exists s, normalize_binance_stream_message btc_config "{}" 1200 7 = Ok (NMarket s) /\
    ms_quality s = QOk /\ ms_spread_bps s = mkBps 20 /\ event_valid (NMarket s).
Proof.
  eexists. split; [by vm_compute|]. split; [by vm_compute|]. split; [by vm_compute|].
  apply (normalized_event_valid btc_config "{}" 1200 7); by vm_compute.
Defined.

(** The part of the spread computed from the nonnegative difference. *)
Lemma spread_tail diff s ref b :
  in_range U32 s -> dec_wf ref -> 0 < value ref -> 0 <= diff <= int_max I128 ->
  (spread_ratio ← dom_fault (div_to_scale (mkDec diff s) ref 8);
   n ← dom (ok_or (checked I128 (value spread_ratio * 10000)) ScaleOverflow);
   let numerator := Z.max n 0 in
   let denominator := 100000000 in
   let v := if numerator =? 0 then 0
            else Z.quot (wrap I128 (numerator + denominator - 1)) denominator in
   fit_bps v) = Ok b ->
  exists ratio,
     ratio * (value ref * 10 ^ s) <= diff * 10 ^ (scale ref + 8)
       < (ratio + 1) * (value ref * 10 ^ s) /\
     0 <= ratio /\ (bps_value b - 1) * 10000 < ratio <= bps_value b * 10000.
Proof.
  intros Hs Hwr Hr Hd H. inv_bind H. inv_bind H. cbv zeta in H.
  apply dom_fault_ok in Em. apply dom_ok, ok_or_ok, checked_Some in Em0 as [-> Hn].
  assert (Hwd : dec_wf (mkDec diff s)).
  { split; [|done]. unfold in_range. cbn [value int_min int_max] in *. lia. }
  pose proof (div_to_scale_bounds _ _ _ 8 Hwd Hwr ltac:(vm_decide) Em) as (_ & Hb & _).
  apply div_to_scale_Ok in Em as (_ & _ & Hq); [|done..|vm_decide]. cbn [value scale] in *.
  destruct Hwr as [_ Hsr]. unfold in_range in Hs, Hsr. cbn in Hs, Hsr.
  pose proof (pow10_pos s ltac:(lia)). pose proof (pow10_pos (scale ref + 8) ltac:(lia)).
  assert (0 <= value a) by (rewrite Hq; apply Z.quot_pos; nia).
  exists (value a). rewrite !Z.abs_eq in Hb by nia. split; [done|]. split; [done|].
  apply fit_bps_ok in H as [H Hfit]. rewrite H. unfold in_range in Hn. cbn [int_min int_max] in Hn.
  rewrite Z.max_l in * by lia. destruct (Z.eqb_spec (value a * 10000) 0); [lia|].
  destruct (decide (in_range I128 (value a * 10000 + 100000000 - 1))) as [Hin|Hout].
  - rewrite wrap_id, Z.quot_div_nonneg by (done || lia).
    pose proof (Z.div_mod (value a * 10000 + 100000000 - 1) 100000000).
    pose proof (Z.mod_pos_bound (value a * 10000 + 100000000 - 1) 100000000). lia.
  - exfalso. revert Hfit. destruct (wrap_congr I128 (value a * 10000 + 100000000 - 1)) as [k Hk].
    pose proof (wrap_in_range I128 (value a * 10000 + 100000000 - 1)) as Hw.
    unfold in_range in *. cbn [int_min int_max] in *.
    set (w := wrap I128 _) in *. pose proof (Z.quot_rem' w 100000000).
    pose proof (Z.rem_bound_abs w 100000000 ltac:(lia)). lia.
Qed.

(** The spread is zero for a crossed book; otherwise, for positive prices, it
    is the quotient [(ask - bid) / reference] truncated to eight decimals and then
    rounded up to whole basis points. *)
Theorem spread_rounds_up (bid ask ref : FixedDecimal) (b : Bps) :
  dec_wf bid -> dec_wf ask -> dec_wf ref ->
  0 < value bid -> 0 < value ask -> 0 < value ref ->
  calculate_spread_bps bid ask ref = Ok b ->
  let s := Z.max (scale ask) (scale bid) in
  let diff := at_scale ask s - at_scale bid s in
  (diff < 0 -> bps_value b = 0) /\
  (0 <= diff -> exists ratio,
     ratio * (value ref * 10 ^ s) <= diff * 10 ^ (scale ref + 8)
       < (ratio + 1) * (value ref * 10 ^ s) /\
     0 <= ratio /\ (bps_value b - 1) * 10000 < ratio <= bps_value b * 10000).
Proof.
  intros Hwb Hwa Hwr Hb Ha Hr H s diff. unfold calculate_spread_bps in H.
  inv_bind H. apply dom_ok in Em. unfold checked_lt, cmp_scaled in Em. cbv zeta in Em. fold s in Em.
  inv_bind Em. inv_bind Em0. inv_bind Em0.
  apply align_value_Ok in Em1 as (_ & Hx & _), Em2 as (_ & Hy & _).
  fold (at_scale ask s) in Hx. fold (at_scale bid s) in Hy. subst a1 a2.
  injection Em0 as <-. destruct (Z.compare_spec (at_scale ask s) (at_scale bid s)) as [E|E|E];
    injection Em as <-; [|injection H as <-; cbn; split; [done|lia]|];
    (split; [lia|]); intros _; inv_bind H;
    apply dom_ok, checked_sub_Ok in Em as (Hra & Hrb & ->); fold s in Hra, Hrb, H; fold diff in H;
    cbn [value scale] in H.
  all: destruct (wf_max_scale ask bid Hwa Hwb) as (Hla & Hlb & Hs); fold s in Hs, Hla, Hlb.
  all: pose proof (at_scale_nonneg ask s Hla ltac:(lia)); pose proof (at_scale_nonneg bid s Hlb ltac:(lia)).
  all: rewrite (wrap_id I128 diff) in H by (unfold in_range, diff in *; cbn in *; lia).
  all: apply (spread_tail diff s ref b); try done; unfold diff, in_range in *; cbn [int_min int_max] in *; lia.
Qed.

Lemma spread_rounds_up_witness :
  calculate_spread_bps (mkDec 1004 1) (mkDec 1006 1) (mkDec 1005 1) = Ok (mkBps 20) /\
  exists ratio, 0 <= ratio /\ (20 - 1) * 10000 < ratio <= 20 * 10000.
Proof.
  split; [by vm_compute|].
  destruct (spread_rounds_up (mkDec 1004 1) (mkDec 1006 1) (mkDec 1005 1) (mkBps 20)) as [_ H];
    [vm_decide | vm_decide | vm_decide | done | done | done | by vm_compute |].
  destruct H as (r & _ & H0 & H1); [by vm_compute|]. by exists r.
Defined.
