(* ===== verification/DepthBook.v ===== *)
(** * DepthBook: the local order book and its synchronization

    [crates/crypto-market-data/src/depth_sync] and [stats.rs].  A book collects
    diff-depth events until a REST snapshot arrives, replays the buffered events
    that follow the snapshot, and then applies contiguous events; a gap, a
    malformed level or a full buffer sends it back to buffering.  The snapshot
    request is a parameter [fetch].

    The abstract specification is the exchange: a book for every update id
    ([Exchange]).  The refinement theorem says that a synchronized local book is
    the exchange book at its [last_update_id]. *)
From S2P Require Import Prelude Text OrderedMap Decimal Domain BinanceNormalize.
Open Scope Z_scope.

#[export] Instance FixedDecimal_KeyCmp : KeyCmp FixedDecimal := Decimal.cmp.

(** ** State *)

(* rust: crypto-market-data/src/messages.rs BinanceOrderBookSnapshot *)
Record BinanceOrderBookSnapshot := mkSnapshot {
  sn_last_update_id : Z;
  sn_bids : list (string * string);
  sn_asks : list (string * string);
}.

(* rust: depth_sync/types.rs BinanceGapAlert *)
Record BinanceGapAlert := mkGapAlert {
  ga_gap_type : string;
  ga_symbol : string;
  ga_detected_at_ms : Z;
  ga_expected_sequence_id : option Z;
  ga_observed_sequence_id : option Z;
  ga_heal_action : string;
  ga_heal_status : string;
}.

(* rust: depth_sync/types.rs BinanceLocalOrderBook *)
Record BinanceLocalOrderBook := mkBook {
  last_update_id : option Z;
  book_bids : btree FixedDecimal FixedDecimal;
  book_asks : btree FixedDecimal FixedDecimal;
  buffered_events : list BinanceDiffDepthMessage;
}.

Definition empty_book : BinanceLocalOrderBook := mkBook None [] [] [].

(* rust: depth_sync/types.rs MAX_BUFFERED_EVENTS *)
Definition MAX_BUFFERED_EVENTS : Z := 1000.

(* rust: depth_sync/types.rs is_synced *)
Definition is_synced (b : BinanceLocalOrderBook) : bool :=
  match last_update_id b with Some _ => true | None => false end.

(* rust: depth_sync/types.rs reset_for_resync *)
Definition reset_for_resync (b : BinanceLocalOrderBook) (e : BinanceDiffDepthMessage)
    : BinanceLocalOrderBook := mkBook None [] [] [e].

(* rust: depth_sync/types.rs reset_after_overflow *)
Definition reset_after_overflow (b : BinanceLocalOrderBook) : BinanceLocalOrderBook :=
  mkBook None [] [] [].

(* rust: depth_sync/types.rs buffered_at_capacity *)
Definition buffered_at_capacity (b : BinanceLocalOrderBook) : bool :=
  MAX_BUFFERED_EVENTS <=? zlen (buffered_events b).

Definition push_event (b : BinanceLocalOrderBook) (e : BinanceDiffDepthMessage)
    : BinanceLocalOrderBook :=
  mkBook (last_update_id b) (book_bids b) (book_asks b) (buffered_events b ++ [e]).

(** ** Statistics *)

(* rust: crypto-market-data/src/stats.rs BinanceIngestWatchStats *)
Record BinanceIngestWatchStats := mkWatchStats {
  ws_stream_url : string;
  ws_planned_stream_count : Z;
  ws_received_messages : Z;
  ws_parsed_messages : Z;
  ws_malformed_messages : Z;
  ws_control_messages : Z;
  ws_pings_received : Z;
  ws_pongs_received : Z;
  ws_close_messages : Z;
  ws_kind_counts : btree string Z;
  ws_symbol_counts : btree string Z;
  ws_normalized_market_snapshots : Z;
  ws_normalized_depth_snapshots : Z;
  ws_normalization_errors : Z;
  ws_sequence_anomalies : Z;
  ws_source_health_status : string;
  ws_source_health_events : Z;
  ws_depth_delta_messages : Z;
  ws_depth_snapshot_requests : Z;
  ws_depth_snapshot_successes : Z;
  ws_depth_snapshot_failures : Z;
  ws_depth_books_synced : Z;
  ws_depth_books_buffering : Z;
  ws_buffer_overflow_count : Z;
  ws_gap_alert_count : Z;
  ws_recent_gap_alerts : list BinanceGapAlert;
}.

Definition set_ws_received_messages (v : Z) (s : BinanceIngestWatchStats) :
    BinanceIngestWatchStats :=
  mkWatchStats (ws_stream_url s) (ws_planned_stream_count s) v (ws_parsed_messages s)
    (ws_malformed_messages s) (ws_control_messages s) (ws_pings_received s) (ws_pongs_received s)
    (ws_close_messages s) (ws_kind_counts s) (ws_symbol_counts s) (ws_normalized_market_snapshots
    s) (ws_normalized_depth_snapshots s) (ws_normalization_errors s) (ws_sequence_anomalies s)
    (ws_source_health_status s) (ws_source_health_events s) (ws_depth_delta_messages s)
    (ws_depth_snapshot_requests s) (ws_depth_snapshot_successes s) (ws_depth_snapshot_failures s)
    (ws_depth_books_synced s) (ws_depth_books_buffering s) (ws_buffer_overflow_count s)
    (ws_gap_alert_count s) (ws_recent_gap_alerts s).
Definition set_ws_parsed_messages (v : Z) (s : BinanceIngestWatchStats) : BinanceIngestWatchStats :=
  mkWatchStats (ws_stream_url s) (ws_planned_stream_count s) (ws_received_messages s) v
    (ws_malformed_messages s) (ws_control_messages s) (ws_pings_received s) (ws_pongs_received s)
    (ws_close_messages s) (ws_kind_counts s) (ws_symbol_counts s) (ws_normalized_market_snapshots
    s) (ws_normalized_depth_snapshots s) (ws_normalization_errors s) (ws_sequence_anomalies s)
    (ws_source_health_status s) (ws_source_health_events s) (ws_depth_delta_messages s)
    (ws_depth_snapshot_requests s) (ws_depth_snapshot_successes s) (ws_depth_snapshot_failures s)
    (ws_depth_books_synced s) (ws_depth_books_buffering s) (ws_buffer_overflow_count s)
    (ws_gap_alert_count s) (ws_recent_gap_alerts s).
Definition set_ws_malformed_messages (v : Z) (s : BinanceIngestWatchStats) :
    BinanceIngestWatchStats :=
  mkWatchStats (ws_stream_url s) (ws_planned_stream_count s) (ws_received_messages s)
    (ws_parsed_messages s) v (ws_control_messages s) (ws_pings_received s) (ws_pongs_received s)
    (ws_close_messages s) (ws_kind_counts s) (ws_symbol_counts s) (ws_normalized_market_snapshots
    s) (ws_normalized_depth_snapshots s) (ws_normalization_errors s) (ws_sequence_anomalies s)
    (ws_source_health_status s) (ws_source_health_events s) (ws_depth_delta_messages s)
    (ws_depth_snapshot_requests s) (ws_depth_snapshot_successes s) (ws_depth_snapshot_failures s)
    (ws_depth_books_synced s) (ws_depth_books_buffering s) (ws_buffer_overflow_count s)
    (ws_gap_alert_count s) (ws_recent_gap_alerts s).
Definition set_ws_control_messages (v : Z) (s : BinanceIngestWatchStats) : BinanceIngestWatchStats
    :=
  mkWatchStats (ws_stream_url s) (ws_planned_stream_count s) (ws_received_messages s)
    (ws_parsed_messages s) (ws_malformed_messages s) v (ws_pings_received s) (ws_pongs_received s)
    (ws_close_messages s) (ws_kind_counts s) (ws_symbol_counts s) (ws_normalized_market_snapshots
    s) (ws_normalized_depth_snapshots s) (ws_normalization_errors s) (ws_sequence_anomalies s)
    (ws_source_health_status s) (ws_source_health_events s) (ws_depth_delta_messages s)
    (ws_depth_snapshot_requests s) (ws_depth_snapshot_successes s) (ws_depth_snapshot_failures s)
    (ws_depth_books_synced s) (ws_depth_books_buffering s) (ws_buffer_overflow_count s)
    (ws_gap_alert_count s) (ws_recent_gap_alerts s).
Definition set_ws_pings_received (v : Z) (s : BinanceIngestWatchStats) : BinanceIngestWatchStats :=
  mkWatchStats (ws_stream_url s) (ws_planned_stream_count s) (ws_received_messages s)
    (ws_parsed_messages s) (ws_malformed_messages s) (ws_control_messages s) v (ws_pongs_received
    s) (ws_close_messages s) (ws_kind_counts s) (ws_symbol_counts s)
    (ws_normalized_market_snapshots s) (ws_normalized_depth_snapshots s) (ws_normalization_errors
    s) (ws_sequence_anomalies s) (ws_source_health_status s) (ws_source_health_events s)
    (ws_depth_delta_messages s) (ws_depth_snapshot_requests s) (ws_depth_snapshot_successes s)
    (ws_depth_snapshot_failures s) (ws_depth_books_synced s) (ws_depth_books_buffering s)
    (ws_buffer_overflow_count s) (ws_gap_alert_count s) (ws_recent_gap_alerts s).
Definition set_ws_pongs_received (v : Z) (s : BinanceIngestWatchStats) : BinanceIngestWatchStats :=
  mkWatchStats (ws_stream_url s) (ws_planned_stream_count s) (ws_received_messages s)
    (ws_parsed_messages s) (ws_malformed_messages s) (ws_control_messages s) (ws_pings_received s)
    v (ws_close_messages s) (ws_kind_counts s) (ws_symbol_counts s)
    (ws_normalized_market_snapshots s) (ws_normalized_depth_snapshots s) (ws_normalization_errors
    s) (ws_sequence_anomalies s) (ws_source_health_status s) (ws_source_health_events s)
    (ws_depth_delta_messages s) (ws_depth_snapshot_requests s) (ws_depth_snapshot_successes s)
    (ws_depth_snapshot_failures s) (ws_depth_books_synced s) (ws_depth_books_buffering s)
    (ws_buffer_overflow_count s) (ws_gap_alert_count s) (ws_recent_gap_alerts s).
Definition set_ws_close_messages (v : Z) (s : BinanceIngestWatchStats) : BinanceIngestWatchStats :=
  mkWatchStats (ws_stream_url s) (ws_planned_stream_count s) (ws_received_messages s)
    (ws_parsed_messages s) (ws_malformed_messages s) (ws_control_messages s) (ws_pings_received s)
    (ws_pongs_received s) v (ws_kind_counts s) (ws_symbol_counts s)
    (ws_normalized_market_snapshots s) (ws_normalized_depth_snapshots s) (ws_normalization_errors
    s) (ws_sequence_anomalies s) (ws_source_health_status s) (ws_source_health_events s)
    (ws_depth_delta_messages s) (ws_depth_snapshot_requests s) (ws_depth_snapshot_successes s)
    (ws_depth_snapshot_failures s) (ws_depth_books_synced s) (ws_depth_books_buffering s)
    (ws_buffer_overflow_count s) (ws_gap_alert_count s) (ws_recent_gap_alerts s).
Definition set_ws_kind_counts (v : btree string Z) (s : BinanceIngestWatchStats) :
    BinanceIngestWatchStats :=
  mkWatchStats (ws_stream_url s) (ws_planned_stream_count s) (ws_received_messages s)
    (ws_parsed_messages s) (ws_malformed_messages s) (ws_control_messages s) (ws_pings_received s)
    (ws_pongs_received s) (ws_close_messages s) v (ws_symbol_counts s)
    (ws_normalized_market_snapshots s) (ws_normalized_depth_snapshots s) (ws_normalization_errors
    s) (ws_sequence_anomalies s) (ws_source_health_status s) (ws_source_health_events s)
    (ws_depth_delta_messages s) (ws_depth_snapshot_requests s) (ws_depth_snapshot_successes s)
    (ws_depth_snapshot_failures s) (ws_depth_books_synced s) (ws_depth_books_buffering s)
    (ws_buffer_overflow_count s) (ws_gap_alert_count s) (ws_recent_gap_alerts s).
Definition set_ws_symbol_counts (v : btree string Z) (s : BinanceIngestWatchStats) :
    BinanceIngestWatchStats :=
  mkWatchStats (ws_stream_url s) (ws_planned_stream_count s) (ws_received_messages s)
    (ws_parsed_messages s) (ws_malformed_messages s) (ws_control_messages s) (ws_pings_received s)
    (ws_pongs_received s) (ws_close_messages s) (ws_kind_counts s) v
    (ws_normalized_market_snapshots s) (ws_normalized_depth_snapshots s) (ws_normalization_errors
    s) (ws_sequence_anomalies s) (ws_source_health_status s) (ws_source_health_events s)
    (ws_depth_delta_messages s) (ws_depth_snapshot_requests s) (ws_depth_snapshot_successes s)
    (ws_depth_snapshot_failures s) (ws_depth_books_synced s) (ws_depth_books_buffering s)
    (ws_buffer_overflow_count s) (ws_gap_alert_count s) (ws_recent_gap_alerts s).
Definition set_ws_normalized_market_snapshots (v : Z) (s : BinanceIngestWatchStats) :
    BinanceIngestWatchStats :=
  mkWatchStats (ws_stream_url s) (ws_planned_stream_count s) (ws_received_messages s)
    (ws_parsed_messages s) (ws_malformed_messages s) (ws_control_messages s) (ws_pings_received s)
    (ws_pongs_received s) (ws_close_messages s) (ws_kind_counts s) (ws_symbol_counts s) v
    (ws_normalized_depth_snapshots s) (ws_normalization_errors s) (ws_sequence_anomalies s)
    (ws_source_health_status s) (ws_source_health_events s) (ws_depth_delta_messages s)
    (ws_depth_snapshot_requests s) (ws_depth_snapshot_successes s) (ws_depth_snapshot_failures s)
    (ws_depth_books_synced s) (ws_depth_books_buffering s) (ws_buffer_overflow_count s)
    (ws_gap_alert_count s) (ws_recent_gap_alerts s).
Definition set_ws_normalized_depth_snapshots (v : Z) (s : BinanceIngestWatchStats) :
    BinanceIngestWatchStats :=
  mkWatchStats (ws_stream_url s) (ws_planned_stream_count s) (ws_received_messages s)
    (ws_parsed_messages s) (ws_malformed_messages s) (ws_control_messages s) (ws_pings_received s)
    (ws_pongs_received s) (ws_close_messages s) (ws_kind_counts s) (ws_symbol_counts s)
    (ws_normalized_market_snapshots s) v (ws_normalization_errors s) (ws_sequence_anomalies s)
    (ws_source_health_status s) (ws_source_health_events s) (ws_depth_delta_messages s)
    (ws_depth_snapshot_requests s) (ws_depth_snapshot_successes s) (ws_depth_snapshot_failures s)
    (ws_depth_books_synced s) (ws_depth_books_buffering s) (ws_buffer_overflow_count s)
    (ws_gap_alert_count s) (ws_recent_gap_alerts s).
Definition set_ws_normalization_errors (v : Z) (s : BinanceIngestWatchStats) :
    BinanceIngestWatchStats :=
  mkWatchStats (ws_stream_url s) (ws_planned_stream_count s) (ws_received_messages s)
    (ws_parsed_messages s) (ws_malformed_messages s) (ws_control_messages s) (ws_pings_received s)
    (ws_pongs_received s) (ws_close_messages s) (ws_kind_counts s) (ws_symbol_counts s)
    (ws_normalized_market_snapshots s) (ws_normalized_depth_snapshots s) v (ws_sequence_anomalies
    s) (ws_source_health_status s) (ws_source_health_events s) (ws_depth_delta_messages s)
    (ws_depth_snapshot_requests s) (ws_depth_snapshot_successes s) (ws_depth_snapshot_failures s)
    (ws_depth_books_synced s) (ws_depth_books_buffering s) (ws_buffer_overflow_count s)
    (ws_gap_alert_count s) (ws_recent_gap_alerts s).
Definition set_ws_sequence_anomalies (v : Z) (s : BinanceIngestWatchStats) :
    BinanceIngestWatchStats :=
  mkWatchStats (ws_stream_url s) (ws_planned_stream_count s) (ws_received_messages s)
    (ws_parsed_messages s) (ws_malformed_messages s) (ws_control_messages s) (ws_pings_received s)
    (ws_pongs_received s) (ws_close_messages s) (ws_kind_counts s) (ws_symbol_counts s)
    (ws_normalized_market_snapshots s) (ws_normalized_depth_snapshots s) (ws_normalization_errors
    s) v (ws_source_health_status s) (ws_source_health_events s) (ws_depth_delta_messages s)
    (ws_depth_snapshot_requests s) (ws_depth_snapshot_successes s) (ws_depth_snapshot_failures s)
    (ws_depth_books_synced s) (ws_depth_books_buffering s) (ws_buffer_overflow_count s)
    (ws_gap_alert_count s) (ws_recent_gap_alerts s).
Definition set_ws_source_health_status (v : string) (s : BinanceIngestWatchStats) :
    BinanceIngestWatchStats :=
  mkWatchStats (ws_stream_url s) (ws_planned_stream_count s) (ws_received_messages s)
    (ws_parsed_messages s) (ws_malformed_messages s) (ws_control_messages s) (ws_pings_received s)
    (ws_pongs_received s) (ws_close_messages s) (ws_kind_counts s) (ws_symbol_counts s)
    (ws_normalized_market_snapshots s) (ws_normalized_depth_snapshots s) (ws_normalization_errors
    s) (ws_sequence_anomalies s) v (ws_source_health_events s) (ws_depth_delta_messages s)
    (ws_depth_snapshot_requests s) (ws_depth_snapshot_successes s) (ws_depth_snapshot_failures s)
    (ws_depth_books_synced s) (ws_depth_books_buffering s) (ws_buffer_overflow_count s)
    (ws_gap_alert_count s) (ws_recent_gap_alerts s).
Definition set_ws_source_health_events (v : Z) (s : BinanceIngestWatchStats) :
    BinanceIngestWatchStats :=
  mkWatchStats (ws_stream_url s) (ws_planned_stream_count s) (ws_received_messages s)
    (ws_parsed_messages s) (ws_malformed_messages s) (ws_control_messages s) (ws_pings_received s)
    (ws_pongs_received s) (ws_close_messages s) (ws_kind_counts s) (ws_symbol_counts s)
    (ws_normalized_market_snapshots s) (ws_normalized_depth_snapshots s) (ws_normalization_errors
    s) (ws_sequence_anomalies s) (ws_source_health_status s) v (ws_depth_delta_messages s)
    (ws_depth_snapshot_requests s) (ws_depth_snapshot_successes s) (ws_depth_snapshot_failures s)
    (ws_depth_books_synced s) (ws_depth_books_buffering s) (ws_buffer_overflow_count s)
    (ws_gap_alert_count s) (ws_recent_gap_alerts s).
Definition set_ws_depth_delta_messages (v : Z) (s : BinanceIngestWatchStats) :
    BinanceIngestWatchStats :=
  mkWatchStats (ws_stream_url s) (ws_planned_stream_count s) (ws_received_messages s)
    (ws_parsed_messages s) (ws_malformed_messages s) (ws_control_messages s) (ws_pings_received s)
    (ws_pongs_received s) (ws_close_messages s) (ws_kind_counts s) (ws_symbol_counts s)
    (ws_normalized_market_snapshots s) (ws_normalized_depth_snapshots s) (ws_normalization_errors
    s) (ws_sequence_anomalies s) (ws_source_health_status s) (ws_source_health_events s) v
    (ws_depth_snapshot_requests s) (ws_depth_snapshot_successes s) (ws_depth_snapshot_failures s)
    (ws_depth_books_synced s) (ws_depth_books_buffering s) (ws_buffer_overflow_count s)
    (ws_gap_alert_count s) (ws_recent_gap_alerts s).
Definition set_ws_depth_snapshot_requests (v : Z) (s : BinanceIngestWatchStats) :
    BinanceIngestWatchStats :=
  mkWatchStats (ws_stream_url s) (ws_planned_stream_count s) (ws_received_messages s)
    (ws_parsed_messages s) (ws_malformed_messages s) (ws_control_messages s) (ws_pings_received s)
    (ws_pongs_received s) (ws_close_messages s) (ws_kind_counts s) (ws_symbol_counts s)
    (ws_normalized_market_snapshots s) (ws_normalized_depth_snapshots s) (ws_normalization_errors
    s) (ws_sequence_anomalies s) (ws_source_health_status s) (ws_source_health_events s)
    (ws_depth_delta_messages s) v (ws_depth_snapshot_successes s) (ws_depth_snapshot_failures s)
    (ws_depth_books_synced s) (ws_depth_books_buffering s) (ws_buffer_overflow_count s)
    (ws_gap_alert_count s) (ws_recent_gap_alerts s).
Definition set_ws_depth_snapshot_successes (v : Z) (s : BinanceIngestWatchStats) :
    BinanceIngestWatchStats :=
  mkWatchStats (ws_stream_url s) (ws_planned_stream_count s) (ws_received_messages s)
    (ws_parsed_messages s) (ws_malformed_messages s) (ws_control_messages s) (ws_pings_received s)
    (ws_pongs_received s) (ws_close_messages s) (ws_kind_counts s) (ws_symbol_counts s)
    (ws_normalized_market_snapshots s) (ws_normalized_depth_snapshots s) (ws_normalization_errors
    s) (ws_sequence_anomalies s) (ws_source_health_status s) (ws_source_health_events s)
    (ws_depth_delta_messages s) (ws_depth_snapshot_requests s) v (ws_depth_snapshot_failures s)
    (ws_depth_books_synced s) (ws_depth_books_buffering s) (ws_buffer_overflow_count s)
    (ws_gap_alert_count s) (ws_recent_gap_alerts s).
Definition set_ws_depth_snapshot_failures (v : Z) (s : BinanceIngestWatchStats) :
    BinanceIngestWatchStats :=
  mkWatchStats (ws_stream_url s) (ws_planned_stream_count s) (ws_received_messages s)
    (ws_parsed_messages s) (ws_malformed_messages s) (ws_control_messages s) (ws_pings_received s)
    (ws_pongs_received s) (ws_close_messages s) (ws_kind_counts s) (ws_symbol_counts s)
    (ws_normalized_market_snapshots s) (ws_normalized_depth_snapshots s) (ws_normalization_errors
    s) (ws_sequence_anomalies s) (ws_source_health_status s) (ws_source_health_events s)
    (ws_depth_delta_messages s) (ws_depth_snapshot_requests s) (ws_depth_snapshot_successes s) v
    (ws_depth_books_synced s) (ws_depth_books_buffering s) (ws_buffer_overflow_count s)
    (ws_gap_alert_count s) (ws_recent_gap_alerts s).
Definition set_ws_depth_books_synced (v : Z) (s : BinanceIngestWatchStats) :
    BinanceIngestWatchStats :=
  mkWatchStats (ws_stream_url s) (ws_planned_stream_count s) (ws_received_messages s)
    (ws_parsed_messages s) (ws_malformed_messages s) (ws_control_messages s) (ws_pings_received s)
    (ws_pongs_received s) (ws_close_messages s) (ws_kind_counts s) (ws_symbol_counts s)
    (ws_normalized_market_snapshots s) (ws_normalized_depth_snapshots s) (ws_normalization_errors
    s) (ws_sequence_anomalies s) (ws_source_health_status s) (ws_source_health_events s)
    (ws_depth_delta_messages s) (ws_depth_snapshot_requests s) (ws_depth_snapshot_successes s)
    (ws_depth_snapshot_failures s) v (ws_depth_books_buffering s) (ws_buffer_overflow_count s)
    (ws_gap_alert_count s) (ws_recent_gap_alerts s).
Definition set_ws_depth_books_buffering (v : Z) (s : BinanceIngestWatchStats) :
    BinanceIngestWatchStats :=
  mkWatchStats (ws_stream_url s) (ws_planned_stream_count s) (ws_received_messages s)
    (ws_parsed_messages s) (ws_malformed_messages s) (ws_control_messages s) (ws_pings_received s)
    (ws_pongs_received s) (ws_close_messages s) (ws_kind_counts s) (ws_symbol_counts s)
    (ws_normalized_market_snapshots s) (ws_normalized_depth_snapshots s) (ws_normalization_errors
    s) (ws_sequence_anomalies s) (ws_source_health_status s) (ws_source_health_events s)
    (ws_depth_delta_messages s) (ws_depth_snapshot_requests s) (ws_depth_snapshot_successes s)
    (ws_depth_snapshot_failures s) (ws_depth_books_synced s) v (ws_buffer_overflow_count s)
    (ws_gap_alert_count s) (ws_recent_gap_alerts s).
Definition set_ws_buffer_overflow_count (v : Z) (s : BinanceIngestWatchStats) :
    BinanceIngestWatchStats :=
  mkWatchStats (ws_stream_url s) (ws_planned_stream_count s) (ws_received_messages s)
    (ws_parsed_messages s) (ws_malformed_messages s) (ws_control_messages s) (ws_pings_received s)
    (ws_pongs_received s) (ws_close_messages s) (ws_kind_counts s) (ws_symbol_counts s)
    (ws_normalized_market_snapshots s) (ws_normalized_depth_snapshots s) (ws_normalization_errors
    s) (ws_sequence_anomalies s) (ws_source_health_status s) (ws_source_health_events s)
    (ws_depth_delta_messages s) (ws_depth_snapshot_requests s) (ws_depth_snapshot_successes s)
    (ws_depth_snapshot_failures s) (ws_depth_books_synced s) (ws_depth_books_buffering s) v
    (ws_gap_alert_count s) (ws_recent_gap_alerts s).
Definition set_ws_gap_alert_count (v : Z) (s : BinanceIngestWatchStats) : BinanceIngestWatchStats :=
  mkWatchStats (ws_stream_url s) (ws_planned_stream_count s) (ws_received_messages s)
    (ws_parsed_messages s) (ws_malformed_messages s) (ws_control_messages s) (ws_pings_received s)
    (ws_pongs_received s) (ws_close_messages s) (ws_kind_counts s) (ws_symbol_counts s)
    (ws_normalized_market_snapshots s) (ws_normalized_depth_snapshots s) (ws_normalization_errors
    s) (ws_sequence_anomalies s) (ws_source_health_status s) (ws_source_health_events s)
    (ws_depth_delta_messages s) (ws_depth_snapshot_requests s) (ws_depth_snapshot_successes s)
    (ws_depth_snapshot_failures s) (ws_depth_books_synced s) (ws_depth_books_buffering s)
    (ws_buffer_overflow_count s) v (ws_recent_gap_alerts s).
Definition set_ws_recent_gap_alerts (v : list BinanceGapAlert) (s : BinanceIngestWatchStats) :
    BinanceIngestWatchStats :=
  mkWatchStats (ws_stream_url s) (ws_planned_stream_count s) (ws_received_messages s)
    (ws_parsed_messages s) (ws_malformed_messages s) (ws_control_messages s) (ws_pings_received s)
    (ws_pongs_received s) (ws_close_messages s) (ws_kind_counts s) (ws_symbol_counts s)
    (ws_normalized_market_snapshots s) (ws_normalized_depth_snapshots s) (ws_normalization_errors
    s) (ws_sequence_anomalies s) (ws_source_health_status s) (ws_source_health_events s)
    (ws_depth_delta_messages s) (ws_depth_snapshot_requests s) (ws_depth_snapshot_successes s)
    (ws_depth_snapshot_failures s) (ws_depth_books_synced s) (ws_depth_books_buffering s)
    (ws_buffer_overflow_count s) (ws_gap_alert_count s) v.

(* rust: crypto-market-data/src/stats.rs BinanceIngestWatchStats::new *)
Definition watch_stats_new (url : string) (planned : Z) : BinanceIngestWatchStats :=
  mkWatchStats url planned 0 0 0 0 0 0 0 [] [] 0 0 0 0 "connected" 1 0 0 0 0 0 0 0 0 [].

(** [stats.f += 1] *)
Definition bump (get : BinanceIngestWatchStats -> Z)
    (set : Z -> BinanceIngestWatchStats -> BinanceIngestWatchStats)
    (s : BinanceIngestWatchStats) : BinanceIngestWatchStats := set (incr_u64 (get s)) s.

(* rust: crypto-market-data/src/stats.rs increment_kind *)
Definition increment_kind (k : BinanceStreamKind) (s : BinanceIngestWatchStats) :=
  set_ws_kind_counts (bupdate (suffix k) 0 incr_u64 (ws_kind_counts s)) s.

(* rust: crypto-market-data/src/stats.rs increment_symbol *)
Definition increment_symbol (raw_symbol : string) (s : BinanceIngestWatchStats) :=
  set_ws_symbol_counts
    (bupdate (to_ascii_uppercase raw_symbol) 0 incr_u64 (ws_symbol_counts s)) s.

(* rust: crypto-market-data/src/stats.rs update_depth_book_counts *)
Definition update_depth_book_counts (books : btree string BinanceLocalOrderBook)
    (s : BinanceIngestWatchStats) : BinanceIngestWatchStats :=
  let synced := zlen (List.filter is_synced (bvalues books)) in
  set_ws_depth_books_buffering (saturate Usize (zlen books - synced))
    (set_ws_depth_books_synced synced s).

(* rust: crypto-market-data/src/stats.rs record_gap_alert *)
Definition record_gap_alert (a : BinanceGapAlert) (s : BinanceIngestWatchStats)
    : BinanceIngestWatchStats :=
  let s := bump ws_gap_alert_count set_ws_gap_alert_count s in
  let recent := ws_recent_gap_alerts s ++ [a] in
  set_ws_recent_gap_alerts (if 20 <? zlen recent then tail recent else recent) s.

(** ** Levels *)

(* rust: depth_sync/book.rs depth_level_parse_alert *)
Definition depth_level_parse_alert (side field value reason : string) (observed : Z)
    : BinanceGapAlert :=
  mkGapAlert "depth_level_parse_failed" "" 0 None (Some observed) "refetch_snapshot"
    ("side=" ++ side ++ " field=" ++ field ++ " value=" ++ value ++ " reason=" ++ reason).

(* rust: depth_sync/book.rs snapshot_parse_alert *)
Definition snapshot_parse_alert (reason : string) : BinanceGapAlert :=
  mkGapAlert "snapshot_parse_failed" "" 0 None None "refetch_snapshot" reason.

(* rust: depth_sync/book.rs parse_level_updates *)
Definition parse_level_updates (levels : list (string * string)) (side : string)
    (e : BinanceDiffDepthMessage) : result BinanceGapAlert (list (FixedDecimal * FixedDecimal)) :=
  try_map (fun l =>
    price ← map_err (fun err => depth_level_parse_alert side "price" l.1
              (DomainError_display err) (dd_first_update_id e)) (parse_unsigned l.1);
    quantity ← map_err (fun err => depth_level_parse_alert side "quantity" l.2
              (DomainError_display err) (dd_first_update_id e)) (parse_unsigned l.2);
    Ok (price, quantity)) levels.

(* rust: depth_sync/book.rs apply_parsed_level_updates *)
Definition apply_parsed_level_updates (side : btree FixedDecimal FixedDecimal)
    (levels : list (FixedDecimal * FixedDecimal)) : btree FixedDecimal FixedDecimal :=
  fold_left (fun m pq =>
    if is_positive pq.2 then binsert pq.1 pq.2 m else bremove pq.1 m) levels side.

(* rust: depth_sync/book.rs parse_snapshot_levels *)
Definition parse_snapshot_levels (levels : list (string * string))
    : result string (btree FixedDecimal FixedDecimal) :=
  try_fold (fun m l =>
    price ← map_err (fun err => ("invalid snapshot price " ++ l.1 ++ ": "
              ++ DomainError_display err)%string) (parse_unsigned l.1);
    quantity ← map_err (fun err => ("invalid snapshot quantity " ++ l.2 ++ ": "
              ++ DomainError_display err)%string) (parse_unsigned l.2);
    Ok (if is_positive quantity then binsert price quantity m else m)) [] levels.

(* rust: depth_sync/book.rs apply_depth_delta *)
Definition apply_depth_delta (b : BinanceLocalOrderBook) (e : BinanceDiffDepthMessage)
    : result BinanceGapAlert BinanceLocalOrderBook :=
  bid_updates ← parse_level_updates (dd_bids e) "bid" e;
  ask_updates ← parse_level_updates (dd_asks e) "ask" e;
  Ok (mkBook (Some (dd_final_update_id e))
        (apply_parsed_level_updates (book_bids b) bid_updates)
        (apply_parsed_level_updates (book_asks b) ask_updates)
        (buffered_events b)).

(** ** Synchronization from a snapshot

    The book is changed in place, so the outcome carries it on every path. *)

Definition sync_alert (gap_type : string) (expected observed : Z) : BinanceGapAlert :=
  mkGapAlert gap_type "" 0 (Some expected) (Some observed) "refetch_snapshot" "pending".

(** The loop over the buffered events taken out of the book. *)
(* rust: depth_sync/book.rs 35-58 sync_depth_book_from_snapshot *)
Fixpoint replay (b : BinanceLocalOrderBook) (events : list BinanceDiffDepthMessage)
    : BinanceLocalOrderBook * option BinanceGapAlert :=
  match events with
  | [] => (b, None)
  | e :: rest =>
      let apply :=
        match apply_depth_delta b e with
        | Ok b' => replay b' rest
        | Err alert => (reset_after_overflow b, Some alert)
        end in
      match last_update_id b with
      | Some last =>
          if dd_final_update_id e <=? last then replay b rest else
          if wrap U64 (last + 1) <? dd_first_update_id e
          then (push_event b e,
                Some (sync_alert "buffered_sequence_gap" (wrap U64 (last + 1)) (dd_first_update_id e)))
          else apply
      | None => apply
      end
  end.

(* rust: depth_sync/book.rs sync_depth_book_from_snapshot *)
Definition sync_depth_book_from_snapshot (b : BinanceLocalOrderBook) (s : BinanceOrderBookSnapshot)
    : BinanceLocalOrderBook * option BinanceGapAlert :=
  let id := sn_last_update_id s in
  match parse_snapshot_levels (sn_bids s) with
  | Err reason =>
      (mkBook (Some id) (book_bids b) (book_asks b) (buffered_events b),
       Some (snapshot_parse_alert reason))
  | Ok bids =>
      match parse_snapshot_levels (sn_asks s) with
      | Err reason =>
          (mkBook (Some id) bids (book_asks b) (buffered_events b),
           Some (snapshot_parse_alert reason))
      | Ok asks =>
          let retained :=
            List.filter (fun e => id <? dd_final_update_id e) (buffered_events b) in
          match retained with
          | [] => (mkBook (Some id) bids asks [], None)
          | first_event :: _ =>
              if wrap U64 (id + 1) <? dd_first_update_id first_event
              then (mkBook (Some id) bids asks retained,
                    Some (sync_alert "snapshot_alignment_gap" (wrap U64 (id + 1))
                            (dd_first_update_id first_event)))
              else replay (mkBook (Some id) bids asks []) retained
          end
      end
  end.

(** ** Event handling *)

(* rust: depth_sync/sync/alerts.rs record_sequence_gap *)
Definition record_sequence_gap (raw_symbol : string) (received expected observed : Z)
    : BinanceIngestWatchStats -> BinanceIngestWatchStats :=
  record_gap_alert (mkGapAlert "sequence_gap" raw_symbol received (Some expected) (Some observed)
    "refetch_snapshot" "resync_requested").

(* rust: depth_sync/sync/alerts.rs record_delta_parse_gap *)
Definition record_delta_parse_gap (raw_symbol : string) (received : Z) (a : BinanceGapAlert)
    : BinanceIngestWatchStats -> BinanceIngestWatchStats :=
  record_gap_alert (mkGapAlert (ga_gap_type a) raw_symbol received (ga_expected_sequence_id a)
    (ga_observed_sequence_id a) (ga_heal_action a) (ga_heal_status a)).

(* rust: depth_sync/sync/alerts.rs record_snapshot_fetch_failure *)
Definition record_snapshot_fetch_failure (raw_symbol : string) (received : Z) (err : MarketDataError)
    (s : BinanceIngestWatchStats) : BinanceIngestWatchStats :=
  record_gap_alert (mkGapAlert "snapshot_fetch_failed" raw_symbol received None None
    "retry_snapshot" ("failed: " ++ MarketDataError_display err))
    (bump ws_depth_snapshot_failures set_ws_depth_snapshot_failures s).

(** What one symbol's event touches. *)
Record SymbolSync := mkSync {
  sy_book : BinanceLocalOrderBook;
  sy_attempted : gset string;
  sy_stats : BinanceIngestWatchStats;
}.

(* rust: depth_sync/sync/event.rs handle_synced_depth_event *)
Definition handle_synced_depth_event (e : BinanceDiffDepthMessage) (raw_symbol : string)
    (received : Z) (st : SymbolSync) : SymbolSync :=
  let b := sy_book st in
  match last_update_id b with
  | None => st
  | Some last =>
      if dd_final_update_id e <=? last then st else
      if wrap U64 (last + 1) <? dd_first_update_id e then
        mkSync (reset_for_resync b e) (sy_attempted st ∖ {[raw_symbol]})
          (record_sequence_gap raw_symbol received (wrap U64 (last + 1)) (dd_first_update_id e)
             (sy_stats st))
      else
        match apply_depth_delta b e with
        | Ok b' => mkSync b' (sy_attempted st) (sy_stats st)
        | Err alert =>
            mkSync (reset_after_overflow b) (sy_attempted st ∖ {[raw_symbol]})
              (record_delta_parse_gap raw_symbol received alert (sy_stats st))
        end
  end.

(* rust: depth_sync/sync/event.rs buffer_unsynced_depth_event *)
Definition buffer_unsynced_depth_event (e : BinanceDiffDepthMessage) (raw_symbol : string)
    (received : Z) (st : SymbolSync) : SymbolSync :=
  let st :=
    if buffered_at_capacity (sy_book st) then
      let dropped_count := zlen (buffered_events (sy_book st)) in
      mkSync (reset_after_overflow (sy_book st)) (sy_attempted st ∖ {[raw_symbol]})
        (record_gap_alert (mkGapAlert "buffered_overflow" raw_symbol received None
           (Some (dd_first_update_id e)) "refetch_snapshot"
           ("dropped_count=" ++ show_Z dropped_count))
           (bump ws_buffer_overflow_count set_ws_buffer_overflow_count (sy_stats st)))
    else st in
  mkSync (push_event (sy_book st) e) (sy_attempted st) (sy_stats st).

(** The whole state of the depth watcher. *)
Record DepthState := mkDepthState {
  dp_books : btree string BinanceLocalOrderBook;
  dp_attempted : gset string;
  dp_stats : BinanceIngestWatchStats;
}.

(** The answer, and the set the call leaves behind. *)
(* rust: depth_sync/sync/snapshot.rs should_fetch_snapshot *)
Definition should_fetch_snapshot (st : DepthState) (raw_symbol : string) : bool * gset string :=
  match bget raw_symbol (dp_books st) with
  | Some b =>
      if negb (is_synced b)
      then (bool_decide (raw_symbol ∉ dp_attempted st), {[raw_symbol]} ∪ dp_attempted st)
      else (false, dp_attempted st)
  | None => (false, dp_attempted st)
  end.

(* rust: depth_sync/sync/snapshot.rs sync_fetched_snapshot *)
Definition sync_fetched_snapshot (raw_symbol : string) (received : Z)
    (s : BinanceOrderBookSnapshot) (st : DepthState) : DepthState :=
  let stats := bump ws_depth_snapshot_successes set_ws_depth_snapshot_successes (dp_stats st) in
  match bget raw_symbol (dp_books st) with
  | None => mkDepthState (dp_books st) (dp_attempted st) stats
  | Some b =>
      let (b', alert) := sync_depth_book_from_snapshot b s in
      let books := binsert raw_symbol b' (dp_books st) in
      match alert with
      | None => mkDepthState books (dp_attempted st) stats
      | Some a => mkDepthState books (dp_attempted st ∖ {[raw_symbol]})
                    (record_delta_parse_gap raw_symbol received a stats)
      end
  end.

(* rust: depth_sync/sync/snapshot.rs fetch_and_sync_snapshot *)
Definition fetch_and_sync_snapshot
    (fetch : string -> result MarketDataError BinanceOrderBookSnapshot)
    (raw_symbol : string) (received : Z) (st : DepthState) : DepthState :=
  let st := mkDepthState (dp_books st) (dp_attempted st)
    (bump ws_depth_snapshot_requests set_ws_depth_snapshot_requests (dp_stats st)) in
  match fetch raw_symbol with
  | Ok s => sync_fetched_snapshot raw_symbol received s st
  | Err err => mkDepthState (dp_books st) (dp_attempted st)
                 (record_snapshot_fetch_failure raw_symbol received err (dp_stats st))
  end.

(* rust: depth_sync/sync.rs handle_diff_depth_event *)
Definition handle_diff_depth_event
    (fetch : string -> result MarketDataError BinanceOrderBookSnapshot)
    (e : BinanceDiffDepthMessage) (received : Z) (st : DepthState) : DepthState :=
  let raw_symbol := to_ascii_uppercase (dd_symbol e) in
  let book := default empty_book (bget raw_symbol (dp_books st)) in
  let one := mkSync book (dp_attempted st) (dp_stats st) in
  let one := if is_synced book then handle_synced_depth_event e raw_symbol received one
             else buffer_unsynced_depth_event e raw_symbol received one in
  let st := mkDepthState (binsert raw_symbol (sy_book one) (dp_books st)) (sy_attempted one)
              (sy_stats one) in
  let (fetch_now, attempted) := should_fetch_snapshot st raw_symbol in
  let st := mkDepthState (dp_books st) attempted (dp_stats st) in
  if fetch_now then fetch_and_sync_snapshot fetch raw_symbol received st else st.

(** ** The exchange, and what its messages say

    [ex_bid ex i p] is the quantity resting at price [p] after update [i]. *)
Record Exchange := mkExchange {
  ex_bid : Z -> FixedDecimal -> option FixedDecimal;
  ex_ask : Z -> FixedDecimal -> option FixedDecimal;
}.

(** The effect of a list of level updates on one price: the last one decides. *)
Definition last_update (ups : list (FixedDecimal * FixedDecimal)) (p : FixedDecimal)
    : option (option FixedDecimal) :=
  fold_left (fun acc pq =>
    match kcmp p pq.1 with
    | Eq => Some (if is_positive pq.2 then Some pq.2 else None)
    | _ => acc
    end) ups None.

(** The updates report every price that changed between [first] and [final], at
    its quantity after [final]. *)
Definition truthful_side (f : Z -> FixedDecimal -> option FixedDecimal) (first final : Z)
    (ups : list (FixedDecimal * FixedDecimal)) : Prop :=
  Forall (fun pq => non_extreme pq.1) ups /\
  forall p, non_extreme p ->
    match last_update ups p with
    | Some r => f final p = r
    | None => forall i, first - 1 <= i <= final -> f i p = f final p
    end.

Definition truthful_event (ex : Exchange) (e : BinanceDiffDepthMessage) : Prop :=
  0 <= dd_first_update_id e <= dd_final_update_id e /\ dd_final_update_id e < int_max U64 /\
  exists bu au,
    parse_level_updates (dd_bids e) "bid" e = Ok bu /\
    parse_level_updates (dd_asks e) "ask" e = Ok au /\
    truthful_side (ex_bid ex) (dd_first_update_id e) (dd_final_update_id e) bu /\
    truthful_side (ex_ask ex) (dd_first_update_id e) (dd_final_update_id e) au.

Definition mirrors (ex : Exchange) (id : Z) (bids asks : btree FixedDecimal FixedDecimal) : Prop :=
  bmap_ok non_extreme bids /\ bmap_ok non_extreme asks /\
  forall p, non_extreme p -> bget p bids = ex_bid ex id p /\ bget p asks = ex_ask ex id p.

Definition truthful_snapshot (ex : Exchange) (s : BinanceOrderBookSnapshot) : Prop :=
  0 <= sn_last_update_id s < int_max U64 /\
  exists bids asks,
    parse_snapshot_levels (sn_bids s) = Ok bids /\
    parse_snapshot_levels (sn_asks s) = Ok asks /\
    mirrors ex (sn_last_update_id s) bids asks.

Definition initial_depth_state (url : string) (planned : Z) : DepthState :=
  mkDepthState [] ∅ (watch_stats_new url planned).

(** States reached by handling events, the snapshot answers being free within
    [okS] and the events within [okE]. *)
Inductive reachable (okE : BinanceDiffDepthMessage -> Prop)
    (okS : string -> BinanceOrderBookSnapshot -> Prop) : DepthState -> Prop :=
| reach_init url planned : reachable okE okS (initial_depth_state url planned)
| reach_step st fetch e received :
    reachable okE okS st -> okE e ->
    (forall sym s, fetch sym = Ok s -> okS sym s) ->
    reachable okE okS (handle_diff_depth_event fetch e received st).

(** ** Lemmas on levels *)

#[export] Instance FixedDecimal_KeyLaws : KeyLaws FixedDecimal non_extreme.
Proof.
  split; unfold kcmp, FixedDecimal_KeyCmp.
  - intros a Ha. rewrite cmp_is_exact by done. apply cmp_exact_refl.
  - intros a b _ _. apply cmp_antisym.
  - intros a b c Ha Hb Hc. rewrite !cmp_is_exact by done.
    destruct Ha as [_ Ha], Hb as [_ Hb], Hc as [_ Hc]. unfold in_range in *. cbn in *.
    apply cmp_exact_trans_lt; lia.
  - intros a b c Ha Hb Hc. rewrite !cmp_is_exact by done.
    destruct Ha as [_ Ha], Hb as [_ Hb], Hc as [_ Hc]. unfold in_range in *. cbn in *.
    apply cmp_exact_eq_l; lia.
Qed.

Lemma apply_updates_ok side ups :
  bmap_ok non_extreme side -> Forall (fun pq => non_extreme pq.1) ups ->
  bmap_ok non_extreme (apply_parsed_level_updates side ups).
Proof.
  unfold apply_parsed_level_updates. revert side.
  induction ups as [|[p q] ups IH]; intros side Hs Hu; cbn; [done|].
  inversion Hu; subst. apply IH; [|done].
  destruct (is_positive q); [by apply (binsert_ok non_extreme) | by apply (bremove_ok non_extreme)].
Qed.

Lemma last_update_acc ups p acc :
  fold_left (fun acc pq => match kcmp p pq.1 with
    | Eq => Some (if is_positive pq.2 then Some pq.2 else None) | _ => acc end) ups acc =
  match last_update ups p with Some r => Some r | None => acc end.
Proof.
  unfold last_update. revert acc. induction ups as [|[k q] ups IH]; intros acc; cbn; [done|].
  rewrite IH. symmetry. rewrite IH. destruct (fold_left _ ups None); [done|].
  by destruct (kcmp p k).
Qed.

Lemma last_update_cons k q ups p :
  last_update ((k, q) :: ups) p =
  match last_update ups p with
  | Some r => Some r
  | None => match kcmp p k with
            | Eq => Some (if is_positive q then Some q else None) | _ => None end
  end.
Proof. unfold last_update at 1. cbn [fold_left fst snd]. by rewrite last_update_acc. Qed.

(** A price's entry after the updates: the last update's if there is one. *)
Lemma apply_updates_get side ups p :
  bmap_ok non_extreme side -> Forall (fun pq => non_extreme pq.1) ups -> non_extreme p ->
  bget p (apply_parsed_level_updates side ups) =
  match last_update ups p with Some r => r | None => bget p side end.
Proof.
  unfold apply_parsed_level_updates. revert side.
  induction ups as [|[k q] ups IH]; intros side Hs Hu Hp; [done|].
  inversion Hu as [|? ? Hk Hu']; subst. cbn [fst] in Hk. cbn [fold_left fst snd].
  assert (Hs' : bmap_ok non_extreme (if is_positive q then binsert k q side else bremove k side))
    by (destruct (is_positive q);
        [by apply (binsert_ok non_extreme) | by apply (bremove_ok non_extreme)]).
  rewrite IH by done.
  rewrite last_update_cons. destruct (last_update ups p); [done|].
  destruct (is_positive q).
  - rewrite (bget_insert non_extreme) by done. by destruct (kcmp p k).
  - rewrite (bget_remove non_extreme) by done. by destruct (kcmp p k).
Qed.

(** ** Refinement of the exchange book *)

Lemma truthful_side_advance f first final ups side last :
  bmap_ok non_extreme side -> truthful_side f first final ups ->
  first - 1 <= last <= final ->
  (forall p, non_extreme p -> bget p side = f last p) ->
  bmap_ok non_extreme (apply_parsed_level_updates side ups) /\
  forall p, non_extreme p -> bget p (apply_parsed_level_updates side ups) = f final p.
Proof.
  intros Hs [Hu Ht] Hl Hm. split; [by apply apply_updates_ok|].
  intros p Hp. rewrite apply_updates_get by done. specialize (Ht p Hp).
  destruct (last_update ups p); [done|]. rewrite Hm by done. by apply Ht.
Qed.

(** A contiguous truthful event moves a mirror of update [last] to its final id. *)
Lemma delta_advances ex b e last :
  truthful_event ex e -> mirrors ex last (book_bids b) (book_asks b) ->
  dd_first_update_id e <= last + 1 -> last < dd_final_update_id e ->
  exists b', apply_depth_delta b e = Ok b' /\
    last_update_id b' = Some (dd_final_update_id e) /\ buffered_events b' = buffered_events b /\
    mirrors ex (dd_final_update_id e) (book_bids b') (book_asks b').
Proof.
  intros (Hr & _ & bu & au & Hb & Ha & Tb & Ta) (Ob & Oa & Hm) Hf Hl.
  unfold apply_depth_delta. rewrite Hb, Ha. cbn. eexists. split; [done|]. cbn.
  split; [done|]. split; [done|].
  destruct (truthful_side_advance _ _ _ _ (book_bids b) last Ob Tb) as [Ob' Hb']; [lia|apply Hm|].
  destruct (truthful_side_advance _ _ _ _ (book_asks b) last Oa Ta) as [Oa' Ha']; [lia|apply Hm|].
  split; [done|]. split; [done|]. intros p Hp. by split; [apply Hb'|apply Ha'].
Qed.

(** What holds of one symbol's book on a truthful feed. *)
Definition book_mirrors (ex : Exchange) (b : BinanceLocalOrderBook) : Prop :=
  Forall (truthful_event ex) (buffered_events b) /\
  match last_update_id b with
  | Some id => 0 <= id < int_max U64 /\ mirrors ex id (book_bids b) (book_asks b)
  | None => book_bids b = [] /\ book_asks b = []
  end.

Lemma wrap_succ_pred id : 0 <= id < int_max U64 -> wrap U64 (id + 1) = id + 1.
Proof. intros. apply wrap_id. unfold in_range. cbn [int_min int_max] in *. lia. Qed.

Lemma push_event_mirrors ex b e :
  truthful_event ex e -> book_mirrors ex b -> book_mirrors ex (push_event b e).
Proof. intros He [Hb Hi]. split; [|done]. cbn. apply Forall_app. by split; [|constructor]. Qed.

Lemma reset_mirrors ex b : book_mirrors ex (reset_after_overflow b).
Proof. by split. Qed.

Lemma replay_mirrors ex events b :
  Forall (truthful_event ex) events -> book_mirrors ex b -> is_synced b = true ->
  book_mirrors ex (replay b events).1.
Proof.
  revert b. induction events as [|e events IH]; intros b He Hb Hs; cbn; [done|].
  inversion He; subst. pose proof Hb as [Hbuf Hm]. unfold is_synced in Hs.
  destruct (last_update_id b) as [last|] eqn:El; [|done]. destruct Hm as [Hl Hm].
  destruct (Z.leb_spec (dd_final_update_id e) last).
  { apply IH; [done|done|]. unfold is_synced. by rewrite El. }
  rewrite wrap_succ_pred by done. destruct (Z.ltb_spec (last + 1) (dd_first_update_id e)).
  { by apply push_event_mirrors. }
  destruct (delta_advances ex b e last) as (b' & -> & Hid & Hbuf' & Hm'); [done..|lia|].
  apply IH; [done| |unfold is_synced; by rewrite Hid].
  split; [by rewrite Hbuf'|]. rewrite Hid. split; [|done].
  match goal with H : truthful_event _ _ |- _ => destruct H as (? & ? & _) end. lia.
Qed.

Lemma filter_Forall {A} (P : A -> Prop) f (l : list A) : Forall P l -> Forall P (List.filter f l).
Proof. rewrite !List.Forall_forall. intros H x [Hx _]%filter_In. auto. Qed.

Lemma sync_mirrors ex b s :
  truthful_snapshot ex s -> Forall (truthful_event ex) (buffered_events b) ->
  book_mirrors ex (sync_depth_book_from_snapshot b s).1.
Proof.
  intros (Hid & bids & asks & Hb & Ha & Hm) Hbuf. unfold sync_depth_book_from_snapshot.
  rewrite Hb, Ha. pose proof (filter_Forall _ (fun e => sn_last_update_id s <? dd_final_update_id e) _ Hbuf) as Hr.
  destruct (List.filter _ _) as [|e rest]; [by split|].
  case_if; [by split|]. apply replay_mirrors; [done| |done]. by split.
Qed.

Lemma handle_synced_mirrors ex e sym r st :
  truthful_event ex e -> book_mirrors ex (sy_book st) ->
  book_mirrors ex (sy_book (handle_synced_depth_event e sym r st)).
Proof.
  intros He Hb. unfold handle_synced_depth_event. pose proof Hb as [Hbuf Hm].
  destruct (last_update_id (sy_book st)) as [last|] eqn:El; [|done]. destruct Hm as [Hl Hm].
  destruct (Z.leb_spec (dd_final_update_id e) last); [done|].
  rewrite wrap_succ_pred by done. destruct (Z.ltb_spec (last + 1) (dd_first_update_id e)).
  { split; [|done]. by constructor. }
  destruct (delta_advances ex (sy_book st) e last) as (b' & -> & Hid & Hbuf' & Hm'); [done..|lia|].
  split; cbn; [by rewrite Hbuf'|]. rewrite Hid. split; [|done]. destruct He as (? & ? & _). cbn in *. lia.
Qed.

Lemma buffer_mirrors ex e sym r st :
  truthful_event ex e -> book_mirrors ex (sy_book st) ->
  book_mirrors ex (sy_book (buffer_unsynced_depth_event e sym r st)).
Proof.
  intros He Hb. unfold buffer_unsynced_depth_event. cbn. apply push_event_mirrors; [done|].
  destruct (buffered_at_capacity _); [apply reset_mirrors | done].
Qed.

(** ** Invariants of every book, lifted to reachable states *)

Section book_invariant.
Context (Q : string -> BinanceLocalOrderBook -> Prop).
Context (okE : BinanceDiffDepthMessage -> Prop).
Context (okS : string -> BinanceOrderBookSnapshot -> Prop).
Context (Q_empty : forall sym, Q sym empty_book).
Context (Q_synced : forall e r st, okE e -> let sym := to_ascii_uppercase (dd_symbol e) in
  Q sym (sy_book st) -> Q sym (sy_book (handle_synced_depth_event e sym r st))).
Context (Q_buffer : forall e r st, okE e -> let sym := to_ascii_uppercase (dd_symbol e) in
  is_synced (sy_book st) = false ->
  Q sym (sy_book st) -> Q sym (sy_book (buffer_unsynced_depth_event e sym r st))).
Context (Q_sync : forall sym b s, okS sym s -> is_synced b = false -> Q sym b ->
  Q sym (sync_depth_book_from_snapshot b s).1).

Definition all_books (books : btree string BinanceLocalOrderBook) : Prop :=
  bmap_ok (fun _ => True) books /\ forall sym b, bget sym books = Some b -> Q sym b.

Lemma all_books_insert sym b books :
  all_books books -> Q sym b -> all_books (binsert sym b books).
Proof.
  intros [Hok Hall] Hb. split; [by apply (binsert_ok (fun _ => True))|].
  intros sym' b'. rewrite (bget_insert (fun _ => True)) by done.
  destruct (kcmp sym' sym) eqn:E; [|by apply Hall..].
  apply str_cmp_eq in E as ->. by intros [= <-].
Qed.

Lemma fetch_preserves fetch sym r st :
  (forall s, fetch sym = Ok s -> okS sym s) ->
  (forall b, bget sym (dp_books st) = Some b -> is_synced b = false) ->
  all_books (dp_books st) -> all_books (dp_books (fetch_and_sync_snapshot fetch sym r st)).
Proof.
  intros Hf Hu Hall. unfold fetch_and_sync_snapshot. cbn [dp_books].
  destruct (fetch sym) as [s|] eqn:E; [|done]. unfold sync_fetched_snapshot. cbn [dp_books].
  destruct (bget sym (dp_books st)) as [b|] eqn:Eb; [|done].
  pose proof (Q_sync sym b s (Hf s eq_refl) (Hu b eq_refl) (proj2 Hall sym b Eb)) as HQ.
  destruct (sync_depth_book_from_snapshot b s) as [b' [a|]]; cbn in *; by apply all_books_insert.
Qed.

Lemma should_fetch_unsynced st sym a :
  should_fetch_snapshot st sym = (true, a) ->
  forall b, bget sym (dp_books st) = Some b -> is_synced b = false.
Proof.
  unfold should_fetch_snapshot. destruct (bget sym (dp_books st)) as [b|]; [|done].
  destruct (is_synced b) eqn:E; [done|]. by intros _ b' [= <-].
Qed.

Lemma handle_preserves fetch e r st :
  okE e -> (forall sym s, fetch sym = Ok s -> okS sym s) ->
  all_books (dp_books st) -> all_books (dp_books (handle_diff_depth_event fetch e r st)).
Proof.
  intros He Hf Hall. unfold handle_diff_depth_event.
  set (sym := to_ascii_uppercase (dd_symbol e)). set (book := default empty_book _).
  set (one := if is_synced book then _ else _).
  assert (HQ : Q sym book).
  { unfold book. destruct (bget sym (dp_books st)) eqn:E; cbn; [by apply Hall | apply Q_empty]. }
  assert (HQ1 : Q sym (sy_book one)).
  { unfold one. destruct (is_synced book) eqn:E; [by apply Q_synced | by apply Q_buffer]. }
  set (st1 := mkDepthState _ _ _).
  assert (Hall1 : all_books (dp_books st1)) by (by apply all_books_insert).
  destruct (should_fetch_snapshot st1 sym) as [[|] a] eqn:E; [|done].
  apply fetch_preserves; [apply Hf | |done]. exact (should_fetch_unsynced _ _ _ E).
Qed.

Lemma reachable_all_books st : reachable okE okS st -> all_books (dp_books st).
Proof.
  induction 1 as [|st fetch e r Hr IH He Hf].
  - by split; [apply bmap_ok_nil|].
  - by apply handle_preserves.
Qed.
End book_invariant.

(** ** Bounded buffers and positive levels, on any feed *)

Definition levels_positive (m : btree FixedDecimal FixedDecimal) : Prop :=
  Forall (fun pq => 0 < value pq.2) m.

(** At most [MAX_BUFFERED_EVENTS] events wait, every resting quantity is
    positive, and a book that is not synchronized shows no level. *)
Definition book_bounded (b : BinanceLocalOrderBook) : Prop :=
  zlen (buffered_events b) <= MAX_BUFFERED_EVENTS /\
  levels_positive (book_bids b) /\ levels_positive (book_asks b) /\
  (is_synced b = false -> book_bids b = [] /\ book_asks b = []).

Lemma apply_updates_positive side ups :
  levels_positive side -> levels_positive (apply_parsed_level_updates side ups).
Proof.
  unfold apply_parsed_level_updates, levels_positive. revert side.
  induction ups as [|[p q] ups IH]; intros side Hs; cbn; [done|]. apply IH.
  destruct (is_positive q) eqn:E.
  - apply binsert_Forall; [|done]. intros ?. unfold is_positive in E. bool_prop. done.
  - by apply bremove_Forall.
Qed.

Lemma delta_levels b e b' : apply_depth_delta b e = Ok b' ->
  buffered_events b' = buffered_events b /\ is_synced b' = true /\
  (levels_positive (book_bids b) -> levels_positive (book_bids b')) /\
  (levels_positive (book_asks b) -> levels_positive (book_asks b')).
Proof.
  unfold apply_depth_delta. intros H. inv_bind H. inv_bind H. injection H as <-. cbn.
  repeat split; apply apply_updates_positive.
Qed.

Lemma snapshot_levels_positive ls m : parse_snapshot_levels ls = Ok m -> levels_positive m.
Proof.
  unfold parse_snapshot_levels. apply (try_fold_ind levels_positive); [|by constructor].
  intros x l x' _ Hx H. inv_bind H. inv_bind H. injection H as <-.
  destruct (is_positive a0) eqn:E; [|done]. apply binsert_Forall; [|done].
  intros ?. unfold is_positive in E. bool_prop. done.
Qed.

Lemma empty_sides_bounded l : zlen l <= MAX_BUFFERED_EVENTS -> book_bounded (mkBook None [] [] l).
Proof. intros. split; [done|]. split; [constructor|]. by split; [constructor|]. Qed.

Lemma replay_bounded events b :
  book_bounded b -> zlen (buffered_events b) + zlen events <= MAX_BUFFERED_EVENTS ->
  is_synced b = true -> book_bounded (replay b events).1.
Proof.
  revert b. induction events as [|e events IH]; intros b Hb Hl Hs; cbn [replay]; [done|].
  rewrite zlen_cons in Hl.
  pose proof (zlen_nonneg events). pose proof Hb as (_ & Hbp & Hap & Hu).
  unfold is_synced in Hs. destruct (last_update_id b) as [last|] eqn:El; [|done].
  case_if; [apply IH; [done | lia | by unfold is_synced; rewrite El]|].
  case_if.
  - split; cbn; [rewrite zlen_app, zlen_cons, zlen_nil; lia|].
    split; [done|]. split; [done|]. unfold is_synced. cbn. by rewrite El.
  - destruct (apply_depth_delta b e) as [b'|] eqn:Ed; [|by apply empty_sides_bounded].
    apply delta_levels in Ed as (Hbuf & Hs' & Hp1 & Hp2).
    apply IH; [|rewrite Hbuf; lia|done]. split; [rewrite Hbuf; lia|].
    split; [by apply Hp1|]. split; [by apply Hp2|]. by rewrite Hs'.
Qed.

Lemma filter_zlen {A} f (l : list A) : zlen (List.filter f l) <= zlen l.
Proof. unfold zlen. pose proof (List.filter_length_le f l). lia. Qed.

Lemma sync_bounded b s : is_synced b = false -> book_bounded b ->
  book_bounded (sync_depth_book_from_snapshot b s).1.
Proof.
  intros Hs (Hlen & Hb & Ha & Hu). unfold sync_depth_book_from_snapshot.
  destruct (parse_snapshot_levels (sn_bids s)) as [bids|] eqn:Eb; [|by repeat split].
  destruct (parse_snapshot_levels (sn_asks s)) as [asks|] eqn:Ea;
    [|repeat split; try done; by eapply snapshot_levels_positive].
  apply snapshot_levels_positive in Eb, Ea.
  pose proof (filter_zlen (fun e => sn_last_update_id s <? dd_final_update_id e) (buffered_events b)).
  destruct (List.filter _ _) as [|e rest] eqn:Ef; [by repeat split|].
  case_if; [by repeat split; try done; cbn; lia|].
  apply replay_bounded; [by repeat split| |done].
  cbn [buffered_events]. rewrite zlen_nil. lia.
Qed.

Lemma handle_synced_bounded e sym r st :
  book_bounded (sy_book st) -> book_bounded (sy_book (handle_synced_depth_event e sym r st)).
Proof.
  intros Hb. unfold handle_synced_depth_event. pose proof Hb as (Hlen & Hbp & Hap & _).
  destruct (last_update_id (sy_book st)) as [last|]; [|done].
  case_if; [done|]. case_if; [by apply empty_sides_bounded|].
  destruct (apply_depth_delta _ e) as [b'|] eqn:Ed; [|by apply empty_sides_bounded].
  apply delta_levels in Ed as (Hbuf & Hs' & Hp1 & Hp2). cbn. split; [by rewrite Hbuf|].
  split; [by apply Hp1|]. split; [by apply Hp2|]. by rewrite Hs'.
Qed.

Lemma buffer_bounded e sym r st : is_synced (sy_book st) = false ->
  book_bounded (sy_book st) -> book_bounded (sy_book (buffer_unsynced_depth_event e sym r st)).
Proof.
  intros Hs (Hlen & Hb & Ha & Hu). unfold buffer_unsynced_depth_event. cbn.
  destruct (buffered_at_capacity _) eqn:E; cbn; [by apply empty_sides_bounded|].
  unfold buffered_at_capacity in E. bool_prop. unfold book_bounded, is_synced. cbn.
  split; [rewrite zlen_app, zlen_cons, zlen_nil; lia|]. by split; [|split].
Qed.

(** ** Properties *)

(** C1: on a feed whose events and snapshots tell the truth about an exchange
    book per symbol, every reachable state refines it: a book with
    [last_update_id = id] holds, at every price, exactly the quantity resting on
    the exchange after update [id].  No event is lost, doubled or applied across
    a gap, whatever the interleaving of buffering, failed and successful
    snapshots, overflow and resynchronization. *)
Theorem synced_book_mirrors_exchange (EX : string -> Exchange) (st : DepthState)
    (sym : string) (b : BinanceLocalOrderBook) (id : Z) :
  reachable (fun e => truthful_event (EX (to_ascii_uppercase (dd_symbol e))) e)
    (fun sym s => truthful_snapshot (EX sym) s) st ->
  bget sym (dp_books st) = Some b -> last_update_id b = Some id ->
  forall p, non_extreme p ->
    bget p (book_bids b) = ex_bid (EX sym) id p /\ bget p (book_asks b) = ex_ask (EX sym) id p.
Proof.
  intros Hr Hb Hid.
  assert (Hall : all_books (fun sym b => book_mirrors (EX sym) b) (dp_books st)).
  { eapply reachable_all_books; [| | | |exact Hr]; cbn.
    - by split.
    - intros. by apply handle_synced_mirrors.
    - intros. by apply buffer_mirrors.
    - intros s b' sn Hs _ [Hbuf _]. by apply sync_mirrors. }
  destruct (proj2 Hall sym b Hb) as [_ H]. rewrite Hid in H. by destruct H as (_ & _ & _ & H).
Qed.

(** An exchange with one price, whose quantity changes at update 11. *)
Definition sample_exchange : Exchange :=
  let f := fun i p => match kcmp p (mkDec 100 0) with
    | Eq => Some (if i <? 11 then mkDec 1 0 else mkDec 2 0) | _ => None end in
  mkExchange f (fun _ _ => None).
Definition sample_event : BinanceDiffDepthMessage := mkDiff "btcusdt" 11 12 [("100", "2")]%string [].
Definition sample_book_snapshot : BinanceOrderBookSnapshot :=
  mkSnapshot 10 [("100", "1")]%string [].

Lemma sample_event_truthful : truthful_event sample_exchange sample_event.
Proof.
  split; [by vm_compute|]. split; [by vm_compute|]. exists [(mkDec 100 0, mkDec 2 0)], [].
  split; [by vm_compute|]. split; [by vm_compute|]. split; split.
  - constructor; [vm_decide | constructor].
  - intros p _. rewrite last_update_cons. cbn -[kcmp]. by destruct (kcmp p (mkDec 100 0)).
  - constructor.
  - done.
Qed.

Lemma sample_snapshot_truthful : truthful_snapshot sample_exchange sample_book_snapshot.
Proof.
  split; [by vm_compute|]. exists [(mkDec 100 0, mkDec 1 0)], [].
  split; [by vm_compute|]. split; [by vm_compute|]. split; [|split].
  - apply bmap_ok_cons. split; [vm_decide|]. split; [apply bmap_ok_nil | constructor].
  - apply bmap_ok_nil.
  - intros p Hp. cbn -[kcmp]. split; [|done]. by destruct (kcmp p (mkDec 100 0)).
Qed.

Definition sample_state : DepthState :=
  handle_diff_depth_event (fun _ => Ok sample_book_snapshot) sample_event 5
    (initial_depth_state "wss://stream.binance.com:9443" 1).

Lemma synced_book_mirrors_exchange_witness :
  exists b, bget "BTCUSDT"%string (dp_books sample_state) = Some b /\ last_update_id b = Some 12 /\
    bget (mkDec 1000 1) (book_bids b) = ex_bid sample_exchange 12 (mkDec 1000 1).
Proof.
  eexists. split; [by vm_compute|]. split; [by vm_compute|].
  refine (proj1 (synced_book_mirrors_exchange (fun _ => sample_exchange) sample_state "BTCUSDT"
    _ 12 _ _ _ (mkDec 1000 1) _)); [| by vm_compute | by vm_compute | vm_decide].
  apply reach_step; [apply reach_init | exact sample_event_truthful |].
  intros ? ? [= <-]. exact sample_snapshot_truthful.
Defined.

(** on any feed and any snapshot answers, every reachable book buffers at
    most [MAX_BUFFERED_EVENTS] events, holds only positive quantities, and shows
    no level while it is not synchronized. *)
Theorem reachable_books_bounded (st : DepthState) (sym : string) (b : BinanceLocalOrderBook) :
  reachable (fun _ => True) (fun _ _ => True) st ->
  bget sym (dp_books st) = Some b ->
  book_bounded b.
Proof.
  intros Hr Hb.
  assert (Hall : all_books (fun _ b => book_bounded b) (dp_books st)).
  { eapply reachable_all_books; [| | | |exact Hr]; cbn; intros.
    - by apply empty_sides_bounded.
    - by apply handle_synced_bounded.
    - by apply buffer_bounded.
    - by apply sync_bounded. }
  by apply (proj2 Hall sym b).
Qed.

Lemma reachable_books_bounded_witness :
  exists b, bget "BTCUSDT"%string (dp_books sample_state) = Some b /\ book_bounded b.
Proof.
  eexists. split; [by vm_compute|]. apply (reachable_books_bounded sample_state "BTCUSDT").
  - apply reach_step; [apply reach_init | done | done].
  - by vm_compute.
Defined.

(** C32: a snapshot whose bids do not parse leaves the book marked synchronized
    at the snapshot's id with no bid from it; the alert asks for a refetch, but the
    next event that follows the id is applied to that book, and no snapshot is
    requested. *)
Theorem failed_snapshot_marks_synced (b : BinanceLocalOrderBook) (s : BinanceOrderBookSnapshot)
    (reason : string) (e : BinanceDiffDepthMessage) (b1 : BinanceLocalOrderBook)
    (sym : string) (received : Z) (attempted : gset string) (stats : BinanceIngestWatchStats) :
  parse_snapshot_levels (sn_bids s) = Err reason ->
  let after := (sync_depth_book_from_snapshot b s).1 in
  dd_first_update_id e <= wrap U64 (sn_last_update_id s + 1) ->
  sn_last_update_id s < dd_final_update_id e ->
  apply_depth_delta after e = Ok b1 ->
  (sync_depth_book_from_snapshot b s).2 = Some (snapshot_parse_alert reason) /\
  ga_heal_action (snapshot_parse_alert reason) = "refetch_snapshot"%string /\
  is_synced after = true /\ book_bids after = book_bids b /\
  let st := handle_synced_depth_event e sym received (mkSync after attempted stats) in
  sy_book st = b1 /\ sy_stats st = stats /\
  (should_fetch_snapshot (mkDepthState (binsert sym b1 []) attempted stats) sym).1 = false.
Proof.
  intros Hp after H1 H2 Hd.
  assert (Hsync : sync_depth_book_from_snapshot b s =
    (mkBook (Some (sn_last_update_id s)) (book_bids b) (book_asks b) (buffered_events b),
     Some (snapshot_parse_alert reason)))
    by (unfold sync_depth_book_from_snapshot; by rewrite Hp).
  unfold after in *. clear after. rewrite Hsync in *. cbn [fst snd] in *.
  split; [done|]. split; [done|]. split; [done|]. split; [done|].
  unfold handle_synced_depth_event. cbn [sy_book last_update_id].
  destruct (Z.leb_spec (dd_final_update_id e) (sn_last_update_id s)); [lia|].
  destruct (Z.ltb_spec (wrap U64 (sn_last_update_id s + 1)) (dd_first_update_id e)); [lia|].
  rewrite Hd. split; [done|]. split; [done|]. apply delta_levels in Hd as (_ & Hs & _).
  unfold should_fetch_snapshot. cbn. unfold kcmp, string_KeyCmp. rewrite str_cmp_refl. by rewrite Hs.
Qed.

Lemma failed_snapshot_marks_synced_witness :
  let s := mkSnapshot 10 [("1OO", "1")]%string [] in
  let after := (sync_depth_book_from_snapshot empty_book s).1 in
  is_synced after = true /\ book_bids after = [].
Proof.
  intros s after.
  destruct (failed_snapshot_marks_synced empty_book s
    "invalid snapshot price 1OO: invalid decimal value: 1OO" sample_event
    (mkBook (Some 12) [(mkDec 100 0, mkDec 2 0)] [] []) "BTCUSDT" 5 ∅ (watch_stats_new "" 0))
    as (_ & _ & H1 & H2 & _); [by vm_compute | by vm_compute | by vm_compute | by vm_compute |].
  by split.
Defined.

(** after a failed snapshot request the request is not repeated: while the
    symbol stays marked as attempted and its buffer has room, events for it send
    no request, although the recorded action is to retry. *)
Theorem failed_fetch_not_retried (fetch : string -> result MarketDataError BinanceOrderBookSnapshot)
    (sym : string) (events : list (BinanceDiffDepthMessage * Z)) (st : DepthState)
    (b : BinanceLocalOrderBook) :
  bmap_ok (fun _ => True) (dp_books st) ->
  bget sym (dp_books st) = Some b -> is_synced b = false -> sym ∈ dp_attempted st ->
  Forall (fun er => to_ascii_uppercase (dd_symbol er.1) = sym) events ->
  zlen (buffered_events b) + zlen events <= MAX_BUFFERED_EVENTS ->
  let st' := fold_left (fun st er => handle_diff_depth_event fetch er.1 er.2 st) events st in
  dp_stats st' = dp_stats st /\
  exists b', bget sym (dp_books st') = Some b' /\ is_synced b' = false /\
    buffered_events b' = buffered_events b ++ events.*1.
Proof.
  revert st b. induction events as [|[e r] events IH]; intros st b Hok Hb Hs Hin He Hl; cbn.
  { split; [done|]. exists b. by rewrite app_nil_r. }
  apply Forall_cons in He as [Hsym He']. cbn [fst] in Hsym. rewrite zlen_cons in Hl.
  pose proof (zlen_nonneg events).
  assert (Hstep : handle_diff_depth_event fetch e r st =
    mkDepthState (binsert sym (push_event b e) (dp_books st)) (dp_attempted st) (dp_stats st)).
  { unfold handle_diff_depth_event. rewrite Hsym, Hb. cbn [default from_option]. unfold default, from_option, id. rewrite Hs.
    unfold buffer_unsynced_depth_event, buffered_at_capacity. cbn [sy_book].
    destruct (Z.leb_spec MAX_BUFFERED_EVENTS (zlen (buffered_events b))); [lia|].
    cbn [sy_book sy_attempted sy_stats]. unfold should_fetch_snapshot. cbn [dp_books dp_attempted].
    rewrite (bget_insert (fun _ => True)) by done. unfold kcmp, string_KeyCmp. rewrite str_cmp_refl.
    change (is_synced (push_event b e)) with (is_synced b). rewrite Hs. cbn [negb].
    rewrite bool_decide_eq_false_2 by auto. f_equal.
    apply subseteq_union_1_L. by apply singleton_subseteq_l. }
  cbn [fst snd]. rewrite Hstep.
  destruct (IH (mkDepthState (binsert sym (push_event b e) (dp_books st)) (dp_attempted st)
    (dp_stats st)) (push_event b e)) as (Hst & b' & Hb' & Hs' & Hbuf); cbn; try done.
  - by apply (binsert_ok (fun _ => True)).
  - rewrite (bget_insert (fun _ => True)) by done. unfold kcmp, string_KeyCmp.
    by rewrite str_cmp_refl.
  - rewrite zlen_app, zlen_cons, zlen_nil. lia.
  - split; [done|]. exists b'. split; [done|]. split; [done|]. rewrite Hbuf. cbn.
    by rewrite <- app_assoc.
Qed.

Lemma failed_fetch_not_retried_witness :
  let fetch := fun _ : string => Err (MDHttp "timeout") : result MarketDataError BinanceOrderBookSnapshot in
  let st := handle_diff_depth_event fetch sample_event 5 (initial_depth_state "" 1) in
  let st' := fold_left (fun st er => handle_diff_depth_event fetch er.1 er.2 st)
               [(sample_event, 6); (sample_event, 7)] st in
  ws_depth_snapshot_requests (dp_stats st) = 1 /\ dp_stats st' = dp_stats st.
Proof.
  intros fetch st st'. split; [by vm_compute|].
  refine (proj1 (failed_fetch_not_retried fetch "BTCUSDT" [(sample_event, 6); (sample_event, 7)] st
    (mkBook None [] [] [sample_event]) _ _ _ _ _ _)); try (by vm_compute).
  - apply bmap_ok_cons. split; [done|]. split; [apply bmap_ok_nil | constructor].
  - vm_decide.
Defined.
