(* ===== verification/IngestWatch.v ===== *)
(** * IngestWatch: counting and routing of the watched stream messages

    [crates/crypto-market-data/src/ingest_watch]: classification of websocket
    frames, parsing and counting of payloads, per-stream sequence checks, and the
    routing of diff-depth events to the order-book synchronization. *)
From S2P Require Import Prelude Text OrderedMap Decimal Domain BinanceNormalize DepthBook.
Open Scope Z_scope.

(** A websocket frame as tungstenite delivers it; a binary frame comes with the
    result of its UTF-8 check. *)
Inductive WsMessage :=
| WsText (s : string)
| WsBinary (utf8 : result string string)
| WsPing (payload : string)
| WsPong (payload : string)
| WsClose
| WsFrame.

(* rust: ingest_watch/message.rs IngestWebSocketMessage *)
Inductive IngestWebSocketMessage :=
| IwPayload (s : string)
| IwPong (payload : string)
| IwClosed
| IwControl.

(* rust: ingest_watch/message.rs classify_websocket_message *)
Definition classify_websocket_message (m : WsMessage) (track_source_health : bool)
    (s : BinanceIngestWatchStats)
    : result MarketDataError IngestWebSocketMessage * BinanceIngestWatchStats :=
  let control := bump ws_control_messages set_ws_control_messages in
  match m with
  | WsText t => (Ok (IwPayload t), s)
  | WsBinary (Ok t) => (Ok (IwPayload t), s)
  | WsBinary (Err e) =>
      (Err (MDInvalidMessage ("binary websocket payload is not utf-8: " ++ e)), s)
  | WsPing p =>
      let s := bump ws_pings_received set_ws_pings_received (control s) in
      (Ok (IwPong p),
       if track_source_health then set_ws_source_health_status "connected" s else s)
  | WsPong _ => (Ok IwControl, bump ws_pongs_received set_ws_pongs_received (control s))
  | WsClose =>
      let s := bump ws_close_messages set_ws_close_messages (control s) in
      (Ok IwClosed,
       if track_source_health
       then bump ws_source_health_events set_ws_source_health_events
              (set_ws_source_health_status "closed" s)
       else s)
  | WsFrame => (Ok IwControl, control s)
  end.

(** The state of one watch: the last sequence of each stream beside the books. *)
Record WatchState := mkWatch {
  wt_last_sequence : btree string Z;
  wt_depth : DepthState;
}.

Definition wt_stats (w : WatchState) : BinanceIngestWatchStats := dp_stats (wt_depth w).
Definition upd_stats (f : BinanceIngestWatchStats -> BinanceIngestWatchStats) (w : WatchState)
    : WatchState :=
  let d := wt_depth w in
  mkWatch (wt_last_sequence w) (mkDepthState (dp_books d) (dp_attempted d) (f (dp_stats d))).

Section with_json.
Context {V : Type} {J : Json V}.

(* rust: ingest_watch/observe/sequence.rs record_sequence_observation *)
Definition record_sequence_observation (kind : BinanceStreamKind) (payload : V) (stream : string)
    (w : WatchState) : WatchState :=
  match sequence_from_binance_payload kind payload with
  | None => w
  | Some sequence =>
      let previous := bget stream (wt_last_sequence w) in
      let w := mkWatch (binsert stream sequence (wt_last_sequence w)) (wt_depth w) in
      match previous with
      | Some p =>
          if sequence <=? p
          then upd_stats (bump ws_sequence_anomalies set_ws_sequence_anomalies) w else w
      | None => w
      end
  end.

(* rust: ingest_watch/observe/parsed.rs ParsedBinancePayload *)
Record ParsedBinancePayload := mkParsed { pp_kind : BinanceStreamKind; pp_data : V }.

(* rust: ingest_watch/observe/parsed.rs observe_parsed_binance_payload *)
Definition observe_parsed_binance_payload (raw_payload : string) (w : WatchState)
    : option ParsedBinancePayload * WatchState :=
  let malformed := (None, upd_stats (bump ws_malformed_messages set_ws_malformed_messages) w) in
  match json_parse raw_payload with
  | Err _ => malformed
  | Ok v =>
      match unwrap_binance_payload v with
      | Err _ => malformed
      | Ok payload =>
          match bp_stream payload with
          | None => malformed
          | Some stream =>
              match stream_kind_from_stream stream with
              | Err _ => malformed
              | Ok kind =>
                  match stream_symbol stream with
                  | None => malformed
                  | Some raw_symbol =>
                      let w := upd_stats (fun s =>
                        increment_symbol raw_symbol (increment_kind kind
                          (bump ws_parsed_messages set_ws_parsed_messages s))) w in
                      let w := record_sequence_observation kind (bp_data payload) stream w in
                      (Some (mkParsed kind (bp_data payload)), w)
                  end
              end
          end
      end
  end.

(* rust: ingest_watch/observe/normalization.rs record_normalization_outcome *)
Definition record_normalization_outcome (c : BinanceStreamConfig) (raw_payload : string)
    (received trace : Z) (s : BinanceIngestWatchStats) : BinanceIngestWatchStats :=
  match normalize_binance_stream_message c raw_payload received trace with
  | Ok (NMarket _) => bump ws_normalized_market_snapshots set_ws_normalized_market_snapshots s
  | Ok (NDepth _) => bump ws_normalized_depth_snapshots set_ws_normalized_depth_snapshots s
  | Err _ => bump ws_normalization_errors set_ws_normalization_errors s
  end.

(* rust: ingest_watch/observe.rs observe_binance_ingest_payload *)
Definition observe_binance_ingest_payload (c : BinanceStreamConfig) (raw_payload : string)
    (received trace : Z) (w : WatchState) : WatchState :=
  let w := upd_stats (bump ws_received_messages set_ws_received_messages) w in
  match observe_parsed_binance_payload raw_payload w with
  | (None, w) => w
  | (Some observation, w) =>
      match pp_kind observation with
      | Ticker | PartialDepth5 | PartialDepth10 | PartialDepth20 =>
          upd_stats (record_normalization_outcome c raw_payload received trace) w
      | Trade | BookTicker | DiffDepth100ms => w
      end
  end.

(** An undecodable diff-depth payload ends the watch with the JSON error. *)
(* rust: ingest_watch/observe.rs observe_binance_ingest_payload_with_depth_sync *)
Definition observe_binance_ingest_payload_with_depth_sync
    (fetch : string -> result MarketDataError BinanceOrderBookSnapshot)
    (c : BinanceStreamConfig) (raw_payload : string) (received trace : Z) (w : WatchState)
    : result MarketDataError () * WatchState :=
  let w := upd_stats (bump ws_received_messages set_ws_received_messages) w in
  match observe_parsed_binance_payload raw_payload w with
  | (None, w) => (Ok (), w)
  | (Some observation, w) =>
      match pp_kind observation with
      | DiffDepth100ms =>
          let w := upd_stats (bump ws_depth_delta_messages set_ws_depth_delta_messages) w in
          match json_diff_depth (pp_data observation) with
          | Err e => (Err (MDJson e), w)
          | Ok event =>
              (Ok (), mkWatch (wt_last_sequence w)
                        (handle_diff_depth_event fetch event received (wt_depth w)))
          end
      | Ticker | PartialDepth5 | PartialDepth10 | PartialDepth20 =>
          (Ok (), upd_stats (record_normalization_outcome c raw_payload received trace) w)
      | Trade | BookTicker => (Ok (), w)
      end
  end.
End with_json.

(** ** Every received payload is counted once *)

(** The three counters of the payload accounting. *)
Definition payload_counts (s : BinanceIngestWatchStats) : Z * Z * Z :=
  (ws_received_messages s, ws_parsed_messages s, ws_malformed_messages s).

Definition counted (s : BinanceIngestWatchStats) : Prop :=
  ws_received_messages s = wrap U64 (ws_parsed_messages s + ws_malformed_messages s).

Lemma counted_of_counts s s' : payload_counts s = payload_counts s' -> counted s' -> counted s.
Proof. unfold payload_counts, counted. by intros [= -> -> ->]. Qed.

Lemma wrap_add_wrap t a b : wrap t (wrap t a + b) = wrap t (a + b).
Proof.
  unfold wrap. pose proof (int_bounds t).
  replace ((a - int_min t) mod (int_max t - int_min t + 1) + int_min t + b - int_min t)
    with ((a - int_min t) mod (int_max t - int_min t + 1) + b) by lia.
  rewrite Zplus_mod_idemp_l. f_equal. f_equal. lia.
Qed.

Lemma wrap_add_wrap_r t a b : wrap t (a + wrap t b) = wrap t (a + b).
Proof. rewrite Z.add_comm, wrap_add_wrap. f_equal. lia. Qed.

(** Counters the depth synchronization leaves alone. *)
Lemma record_gap_alert_counts a s : payload_counts (record_gap_alert a s) = payload_counts s.
Proof. done. Qed.

Lemma handle_depth_counts fetch e r st :
  payload_counts (dp_stats (handle_diff_depth_event fetch e r st)) = payload_counts (dp_stats st).
Proof.
  unfold handle_diff_depth_event. set (sym := to_ascii_uppercase _). set (book := default _ _).
  set (one := if is_synced book then _ else _).
  assert (H1 : payload_counts (sy_stats one) = payload_counts (dp_stats st)).
  { unfold one, handle_synced_depth_event, buffer_unsynced_depth_event.
    repeat case_match; done. }
  set (st1 := mkDepthState _ _ (sy_stats one)).
  destruct (should_fetch_snapshot st1 sym) as [[|] a]; [|done].
  unfold fetch_and_sync_snapshot, sync_fetched_snapshot. rewrite <- H1.
  repeat case_match; done.
Qed.

Section accounting.
Context {V : Type} {J : Json V}.

Lemma observe_parsed_counted raw w :
  ws_received_messages (wt_stats w) =
    wrap U64 (ws_parsed_messages (wt_stats w) + ws_malformed_messages (wt_stats w) + 1) ->
  counted (wt_stats (observe_parsed_binance_payload raw w).2).
Proof.
  intros H. unfold counted, observe_parsed_binance_payload.
  assert (Hm : counted (wt_stats (upd_stats (bump ws_malformed_messages set_ws_malformed_messages) w))).
  { unfold counted, wt_stats in *. cbn. unfold incr_u64. rewrite wrap_add_wrap_r, H. f_equal. lia. }
  repeat case_match; try exact Hm. cbn [snd].
  assert (Hs : forall k v s w', payload_counts (wt_stats (record_sequence_observation k v s w'))
    = payload_counts (wt_stats w')).
  { intros. unfold record_sequence_observation. repeat case_match; done. }
  match goal with |- context [record_sequence_observation ?k ?v ?s ?w'] =>
    pose proof (Hs k v s w') as E end.
  unfold payload_counts in E. injection E as -> -> ->. unfold wt_stats in *. cbn. rewrite H.
  unfold incr_u64. rewrite wrap_add_wrap. f_equal. lia.
Qed.

(** every payload a watch receives is counted as received and as exactly one
    of parsed or malformed, modulo the width of the counters, whatever the payload
    and however the depth synchronization ends. *)
Theorem observe_counts_payload fetch c raw received trace (w : WatchState) :
  counted (wt_stats w) ->
  counted (wt_stats (observe_binance_ingest_payload_with_depth_sync fetch c raw received trace w).2) /\
  counted (wt_stats (observe_binance_ingest_payload c raw received trace w)).
Proof.
  intros H. unfold observe_binance_ingest_payload_with_depth_sync, observe_binance_ingest_payload.
  set (w1 := upd_stats (bump ws_received_messages set_ws_received_messages) w).
  assert (H1 : counted (wt_stats (observe_parsed_binance_payload raw w1).2)).
  { apply observe_parsed_counted. unfold w1, wt_stats, counted in *. cbn. unfold incr_u64.
    by rewrite H, wrap_add_wrap. }
  assert (Hn : forall w', counted (wt_stats w') ->
    counted (wt_stats (upd_stats (record_normalization_outcome c raw received trace) w'))).
  { intros w' Hw. unfold counted, wt_stats, record_normalization_outcome in *. cbn.
    repeat case_match; exact Hw. }
  destruct (observe_parsed_binance_payload raw w1) as [[o|] w2]; cbn [snd] in H1; [|by split].
  destruct (pp_kind o); try (split; first [done | by apply Hn]).
  destruct (json_diff_depth (pp_data o)) as [e|]; cbn [snd]; [|by split].
  split; [|done]. eapply counted_of_counts; [apply handle_depth_counts | exact H1].
Qed.
End accounting.

#[local] Existing Instance one_ticker_json.
Lemma observe_counts_payload_witness :
  let w := mkWatch [] (initial_depth_state "" 1) in
  let w' := observe_binance_ingest_payload btc_config "{}" 1200 7 w in
  ws_malformed_messages (wt_stats w') = 1 /\ counted (wt_stats w').
Proof.
  intros w w'. split; [by vm_compute|].
  apply (observe_counts_payload (fun _ => Err MDAborts) btc_config "{}" 1200 7 w). by vm_compute.
Defined.
