(* ===== verification/StreamReaders.v ===== *)
(** * StreamReaders: the loops of the market data library

    [ingest_watch/watch] watches the combined streams for a while and counts what arrives;
    [reader] reads one snapshot, or streams snapshots into a bounded channel.  A loop runs
    in the list of its turns: each says what ended the wait and what the clocks showed. *)
From S2P Require Import Prelude Text OrderedMap Decimal Domain BinanceNormalize DepthBook IngestWatch.
Open Scope Z_scope.
Open Scope list_scope.

(** ** The address of the streams *)

(* rust: crypto-market-data/src/stream_config.rs combined_stream_url_for_kinds *)
Definition combined_stream_url_for_kinds (url_parse : string -> result string Url) (c : BinanceStreamConfig)
    (kinds : list BinanceStreamKind) : result MarketDataError string :=
  streams ← combined_stream_names_for_kinds c kinds;
  binance_combined_stream_url url_parse (base_url c) streams.

(* rust: crypto-market-data/src/stream_config.rs combined_stream_url *)
Definition combined_stream_url (url_parse : string -> result string Url) (c : BinanceStreamConfig)
    (kind : BinanceStreamKind) : result MarketDataError string :=
  combined_stream_url_for_kinds url_parse c [kind].

(** ** Log lines *)

(** The next line is due at the first multiple of the interval that lies ahead. *)
Fixpoint skip_past (fuel : nat) (now log_interval next_log : Z) : Z :=
  match fuel with
  | O => next_log
  | S fuel => if next_log <=? now then skip_past fuel now log_interval (next_log + log_interval) else next_log
  end.

(** Instants and durations are nanoseconds.  Whether the line is due, and when the next is. *)
(* rust: ingest_watch/message.rs advance_log_if_due *)
Definition advance_log_if_due (now log_interval next_log : Z) : bool * Z :=
  if now <? next_log then (false, next_log)
  else if log_interval =? 0 then (true, now)
  else (true, skip_past (Z.to_nat ((now - next_log) / log_interval + 1)) now log_interval next_log).

(** ** Watching *)

(** What ends a wait: a message or an error of the socket, the end of the stream, the
    time. *)
Inductive Poll := PMessage (m : result MarketDataError WsMessage) | PEnded | PTimeout.

(** A turn of a watch: the instant it starts at, what ends its wait, the wall clock at a
    payload, the answer to a pong, and the instant of the log check. *)
Record Turn := mkTurn {
  tn_now : Z; tn_poll : Poll; tn_received_at : result MarketDataError Z; tn_pong : result MarketDataError ();
  tn_log_now : Z }.

(** [trace_id += 1] *)
Definition next_trace (t : Z) : Z := (t + 1) mod 2 ^ 128.

(** The state of a watch: what it counted, its clock for log lines, the next trace id, and
    the statistics it logged. *)
Record Watch := mkWatching {
  wa_state : WatchState; wa_next_log : Z; wa_trace : Z; wa_logged : list BinanceIngestWatchStats }.

Definition wa_stats (w : Watch) : BinanceIngestWatchStats := wt_stats (wa_state w).

Definition update_counts (w : WatchState) : WatchState :=
  upd_stats (update_depth_book_counts (dp_books (wt_depth w))) w.

Section watch.
Context {V : Type} {J : Json V}.

(** What the two watchers do differently: the handling of a payload, whether the health of
    the source is tracked, and what is updated beside it. *)
Record Watcher := mkWatcher {
  wr_observe : string -> Z -> Z -> WatchState -> result MarketDataError () * WatchState;
  wr_track_health : bool;
  wr_update : WatchState -> WatchState }.

(** The status of the source, counted as an event of its health. *)
Definition health_event (h : Watcher) (status : string) (w : WatchState) : WatchState :=
  if wr_track_health h
  then upd_stats (fun s => bump ws_source_health_events set_ws_source_health_events
                             (set_ws_source_health_status status s)) w
  else w.

Definition with_state (state : WatchState) (w : Watch) : Watch :=
  mkWatching state (wa_next_log w) (wa_trace w) (wa_logged w).

(** [on_due] is what the closure does before it logs. *)
Definition log_if_due (on_due : WatchState -> WatchState) (log_interval now : Z) (w : Watch) : Watch :=
  let '(due, next_log) := advance_log_if_due now log_interval (wa_next_log w) in
  if (due : bool) then
    let state := on_due (wa_state w) in
    mkWatching state next_log (wa_trace w) (wa_logged w ++ [wt_stats state])
  else mkWatching (wa_state w) next_log (wa_trace w) (wa_logged w).

(** The watch after one message, and whether it ends. *)
Definition watch_message (h : Watcher) (t : Turn) (m : WsMessage) (w : Watch)
    : result MarketDataError (bool * Watch) :=
  let (message, stats) := classify_websocket_message m (wr_track_health h) (wa_stats w) in
  let w := with_state (upd_stats (fun _ => stats) (wa_state w)) w in
  message ← message;
  match message with
  | IwPayload text =>
      now ← tn_received_at t;
      let (r, state) := wr_observe h text now (wa_trace w) (wa_state w) in
      _ ← r;
      Ok (false, mkWatching state (wa_next_log w) (next_trace (wa_trace w)) (wa_logged w))
  | IwPong _ => _ ← tn_pong t; Ok (false, w)
  | IwClosed => Ok (true, w)
  | IwControl => Ok (false, w)
  end.

(** The loop: the watch, whether it ended, and the turns left. *)
Fixpoint watch_loop (h : Watcher) (deadline log_interval : Z) (turns : list Turn) (w : Watch)
    : result MarketDataError (Watch * bool * list Turn) :=
  match turns with
  | [] => Ok (w, false, [])
  | t :: rest =>
      if deadline <=? tn_now t then Ok (w, true, turns) else
      match tn_poll t with
      | PMessage m =>
          m ← m;
          step ← watch_message h t m w;
          let '(ended, w) := step in
          if (ended : bool) then Ok (w, true, rest)
          else
            let w := with_state (wr_update h (wa_state w)) w in
            watch_loop h deadline log_interval rest (log_if_due id log_interval (tn_log_now t) w)
      | PEnded => Ok (with_state (health_event h "ended" (wa_state w)) w, true, rest)
      | PTimeout =>
          let w := with_state (health_event h "waiting_for_messages" (wa_state w)) w in
          watch_loop h deadline log_interval rest (log_if_due (wr_update h) log_interval (tn_log_now t) w)
      end
  end.

(** A watch from its connection on: [start] is the instant of the connection, which
    [connect] answers. *)
Definition run_watch (h : Watcher) (url_parse : string -> result string Url) (connect : string -> result MarketDataError ())
    (config : BinanceStreamConfig) (start duration : Z) (kinds : list BinanceStreamKind) (log_interval : Z)
    (first_decision_trace_id : Z) (turns : list Turn) : result MarketDataError (Watch * bool * list Turn) :=
  stream_names ← combined_stream_names_for_kinds config kinds;
  url ← combined_stream_url_for_kinds url_parse config kinds;
  _ ← connect url;
  out ← watch_loop h (start + duration) log_interval turns
    (mkWatching (mkWatch [] (initial_depth_state url (zlen stream_names))) (start + log_interval)
       first_decision_trace_id []);
  let '(w, ended, rest) := out in
  if (ended : bool) then
    let state := wr_update h (wa_state w) in
    Ok (mkWatching state (wa_next_log w) (wa_trace w) (wa_logged w ++ [wt_stats state]), true, rest)
  else Ok (w, false, rest).

(* rust: ingest_watch/watch/basic.rs watch_binance_ingest_streams *)
Definition watch_binance_ingest_streams (url_parse : string -> result string Url)
    (connect : string -> result MarketDataError ()) (config : BinanceStreamConfig) : Z -> Z -> list BinanceStreamKind ->
    Z -> Z -> list Turn -> result MarketDataError (Watch * bool * list Turn) :=
  run_watch (mkWatcher (fun text now trace w => (Ok (), observe_binance_ingest_payload config text now trace w))
    false id) url_parse connect config.

(** [fetch] answers the requests for order book snapshots. *)
(* rust: ingest_watch/watch/depth.rs watch_binance_ingest_streams_with_depth_sync *)
Definition watch_binance_ingest_streams_with_depth_sync (url_parse : string -> result string Url)
    (connect : string -> result MarketDataError ())
    (fetch : string -> result MarketDataError BinanceOrderBookSnapshot) (config : BinanceStreamConfig) :
    Z -> Z -> list BinanceStreamKind -> Z -> Z -> list Turn -> result MarketDataError (Watch * bool * list Turn) :=
  run_watch (mkWatcher (observe_binance_ingest_payload_with_depth_sync fetch config) true update_counts)
    url_parse connect config.
End watch.

(** ** Reading snapshots *)

(* rust: reader/kind.rs ensure_partial_depth_kind *)
Definition ensure_partial_depth_kind (kind : BinanceStreamKind) (error_message : string) : result MarketDataError () :=
  match kind with
  | PartialDepth5 | PartialDepth10 | PartialDepth20 => Ok ()
  | _ => Err (MDInvalidMessage error_message)
  end.

(** A close frame is rendered by its [Debug] form. *)
(* rust: reader/payload.rs websocket_text_payload_for *)
Definition websocket_text_payload_for (frame : string) (m : WsMessage) (close_context : string)
    : result MarketDataError (option string) :=
  match m with
  | WsText text => Ok (Some text)
  | WsBinary (Ok text) => Ok (Some text)
  | WsBinary (Err e) => Err (MDInvalidMessage ("binary websocket payload is not utf-8: " ++ e))
  | WsPing _ | WsPong _ | WsFrame => Ok None
  | WsClose => Err (MDInvalidMessage ("websocket closed before " ++ close_context ++ ": " ++ frame))
  end.

(* rust: reader/payload.rs websocket_text_payload *)
Definition websocket_text_payload (frame : string) (m : WsMessage) : result MarketDataError (option string) :=
  websocket_text_payload_for frame m "ticker payload".

(** A message of the socket, the wall clock when it is handled, and, for a stream, what
    the channel answers to the snapshot. *)
Inductive TrySend := Accepted | Full | ChannelClosed.
Record Arrival := mkArrival {
  av_poll : Poll; av_now : result MarketDataError Z; av_close_frame : string; av_send : TrySend }.

Section read.
Context {V : Type} {J : Json V}.
Context (url_parse : string -> result string Url) (connect : string -> result MarketDataError ()).

(** [None]: the socket is silent so far. *)
Fixpoint read_one {A} (normalize : string -> Z -> Z -> result MarketDataError A) (what : string) (trace : Z)
    (arrivals : list Arrival) : option (result MarketDataError A) :=
  match arrivals with
  | [] => None
  | a :: arrivals =>
      match av_poll a with
      | PMessage (Ok m) =>
          match websocket_text_payload_for (av_close_frame a) m what with
          | Ok None => read_one normalize what trace arrivals
          | Ok (Some raw_payload) => Some (now ← av_now a; normalize raw_payload now trace)
          | Err e => Some (Err e)
          end
      | PMessage (Err e) => Some (Err e)
      | PEnded => Some (Err (MDInvalidMessage ("websocket ended before " ++ what)))
      | PTimeout => read_one normalize what trace arrivals
      end
  end.

Definition connected {A} (config : BinanceStreamConfig) (kinds : list BinanceStreamKind)
    (k : option (result MarketDataError A)) : option (result MarketDataError A) :=
  match (url ← combined_stream_url_for_kinds url_parse config kinds; connect url) with
  | Ok _ => k
  | Err e => Some (Err e)
  end.

(* rust: reader/single.rs read_one_binance_ticker_snapshot *)
Definition read_one_binance_ticker_snapshot (config : BinanceStreamConfig) (trace : Z) (arrivals : list Arrival)
    : option (result MarketDataError MarketSnapshot) :=
  connected config [Ticker] (read_one (normalize_binance_ticker_message config) "ticker payload" trace arrivals).

(* rust: reader/single.rs read_one_binance_partial_depth_snapshot *)
Definition read_one_binance_partial_depth_snapshot (config : BinanceStreamConfig) (kind : BinanceStreamKind)
    (trace : Z) (arrivals : list Arrival) : option (result MarketDataError MarketDepthSnapshot) :=
  match ensure_partial_depth_kind kind "partial depth reader requires a partial depth stream kind" with
  | Err e => Some (Err e)
  | Ok _ =>
      connected config [kind]
        (read_one (normalize_binance_partial_depth_message config) "depth payload" trace arrivals)
  end.

(* rust: crypto-market-data/src/stats.rs MarketStreamStats *)
Record MarketStreamStats := mkStreamStats {
  st_received_messages : Z; st_sent_snapshots : Z; st_overflowed_snapshots : Z }.

(** The statistics and the snapshots in the channel; [None] when neither the deadline nor
    the end of the stream has come.  [PTimeout] is the deadline. *)
Fixpoint stream_loop {A} (normalize : string -> Z -> Z -> result MarketDataError A) (trace : Z)
    (arrivals : list Arrival) (stats : MarketStreamStats) (sent : list A)
    : option (result MarketDataError (MarketStreamStats * list A)) :=
  match arrivals with
  | [] => None
  | a :: arrivals =>
      match av_poll a with
      | PEnded | PTimeout => Some (Ok (stats, sent))
      | PMessage m =>
          match (m ← m; websocket_text_payload (av_close_frame a) m) with
          | Err e => Some (Err e)
          | Ok None => stream_loop normalize trace arrivals stats sent
          | Ok (Some raw_payload) =>
              let received := incr_u64 (st_received_messages stats) in
              match (now ← av_now a; normalize raw_payload now trace) with
              | Err e => Some (Err e)
              | Ok snapshot =>
                  match av_send a with
                  | Accepted => stream_loop normalize (next_trace trace) arrivals
                      (mkStreamStats received (incr_u64 (st_sent_snapshots stats)) (st_overflowed_snapshots stats))
                      (sent ++ [snapshot])
                  | Full => stream_loop normalize (next_trace trace) arrivals
                      (mkStreamStats received (st_sent_snapshots stats) (incr_u64 (st_overflowed_snapshots stats))) sent
                  | ChannelClosed => Some (Ok (mkStreamStats received (st_sent_snapshots stats)
                                                 (st_overflowed_snapshots stats), sent))
                  end
              end
          end
      end
  end.

(* rust: reader/stream.rs stream_binance_ticker_snapshots *)
Definition stream_binance_ticker_snapshots (config : BinanceStreamConfig) (first_decision_trace_id : Z)
    (arrivals : list Arrival) : option (result MarketDataError (MarketStreamStats * list MarketSnapshot)) :=
  connected config [Ticker] (stream_loop (normalize_binance_ticker_message config) first_decision_trace_id arrivals
    (mkStreamStats 0 0 0) []).

(* rust: reader/stream.rs stream_binance_ticker_and_partial_depth_snapshots *)
Definition stream_binance_ticker_and_partial_depth_snapshots (config : BinanceStreamConfig)
    (depth_kind : BinanceStreamKind) (first_decision_trace_id : Z) (arrivals : list Arrival)
    : option (result MarketDataError (MarketStreamStats * list BinanceNormalizedMarketEvent)) :=
  match ensure_partial_depth_kind depth_kind "public replay recorder requires a partial depth stream kind" with
  | Err e => Some (Err e)
  | Ok _ =>
      connected config [Ticker; depth_kind] (stream_loop (normalize_binance_stream_message config)
        first_decision_trace_id arrivals (mkStreamStats 0 0 0) [])
  end.
End read.

(** ** Every payload of a watch is counted *)

(** The text of a turn, if its message carries one. *)
Definition payload_of (t : Turn) : option string :=
  match tn_poll t with
  | PMessage (Ok (WsText text)) | PMessage (Ok (WsBinary (Ok text))) => Some text
  | _ => None
  end.

Section counting.
Context {V : Type} {J : Json V}.

Lemma observe_parsed_received raw w :
  ws_received_messages (wt_stats (observe_parsed_binance_payload raw w).2) = ws_received_messages (wt_stats w).
Proof.
  unfold observe_parsed_binance_payload, record_sequence_observation. repeat case_match; done.
Qed.

Lemma normalization_received c raw received trace w :
  ws_received_messages (wt_stats (upd_stats (record_normalization_outcome c raw received trace) w))
  = ws_received_messages (wt_stats w).
Proof. unfold record_normalization_outcome. cbn. repeat case_match; done. Qed.

(** One payload is one message received. *)
Lemma observe_received fetch c raw received trace w :
  ws_received_messages (wt_stats (observe_binance_ingest_payload c raw received trace w))
    = incr_u64 (ws_received_messages (wt_stats w)) /\
  ws_received_messages (wt_stats (observe_binance_ingest_payload_with_depth_sync fetch c raw received trace w).2)
    = incr_u64 (ws_received_messages (wt_stats w)).
Proof.
  unfold observe_binance_ingest_payload, observe_binance_ingest_payload_with_depth_sync.
  set (w1 := upd_stats (bump ws_received_messages set_ws_received_messages) w).
  pose proof (observe_parsed_received raw w1) as H1.
  destruct (observe_parsed_binance_payload raw w1) as [[o|] w2]; cbn [snd] in *; [|by split].
  destruct (pp_kind o); try (split; cbn [snd]; rewrite ?normalization_received; exact H1).
  split; [exact H1|]. destruct (json_diff_depth (pp_data o)) as [e|]; cbn [snd]; [|exact H1].
  pose proof (handle_depth_counts fetch e received (wt_depth
    (upd_stats (bump ws_depth_delta_messages set_ws_depth_delta_messages) w2))) as Hd.
  unfold payload_counts in Hd. injection Hd as Hd _ _. unfold wt_stats in *. cbn in *. by rewrite Hd.
Qed.

(** A watcher of the library: what it observes is one payload, counted, and its updates
    leave the counters alone. *)
Record counting (h : Watcher) : Prop := {
  cn_observe : forall text now trace w, counted (wt_stats w) -> counted (wt_stats (wr_observe h text now trace w).2);
  cn_received : forall text now trace w, ws_received_messages (wt_stats (wr_observe h text now trace w).2)
    = incr_u64 (ws_received_messages (wt_stats w));
  cn_update : forall w, payload_counts (wt_stats (wr_update h w)) = payload_counts (wt_stats w);
}.

Lemma basic_counting c :
  counting (mkWatcher (fun text now trace w => (Ok (), observe_binance_ingest_payload c text now trace w)) false id).
Proof.
  split; cbn; intros *; [|by apply (observe_received (fun _ => Err MDAborts))|done].
  intros Hw. by apply (observe_counts_payload (fun _ => Err MDAborts)).
Qed.

Lemma depth_counting fetch c :
  counting (mkWatcher (observe_binance_ingest_payload_with_depth_sync fetch c) true update_counts).
Proof.
  split; cbn; intros *; [|by apply observe_received|done].
  intros Hw. by apply observe_counts_payload.
Qed.

(** The statistics of a watch that has handled [k] payloads, and of all it logged. *)
Definition counts (k : Z) (w : Watch) : Prop :=
  counted (wa_stats w) /\ ws_received_messages (wa_stats w) = wrap U64 k /\ Forall counted (wa_logged w).

Lemma counts_state k state w : payload_counts (wt_stats state) = payload_counts (wa_stats w) -> counts k w ->
  counts k (with_state state w).
Proof using Type.
  intros He (Hc & Hr & Hl). split_and!; [by eapply counted_of_counts| |done].
  injection He as He _ _. by rewrite <- Hr.
Qed.

Lemma counts_log on_due interval now k w : (forall v, payload_counts (wt_stats (on_due v)) = payload_counts (wt_stats v)) ->
  counts k w -> counts k (log_if_due on_due interval now w).
Proof using Type.
  intros Hdue (Hc & Hr & Hl). unfold log_if_due. destruct (advance_log_if_due _ _ _) as [[] next]; [|done].
  specialize (Hdue (wa_state w)). split_and!; cbn.
  - by eapply counted_of_counts.
  - injection Hdue as Hdue _ _. by rewrite <- Hr.
  - apply Forall_app. split; [done|]. constructor; [|done]. by eapply counted_of_counts.
Qed.

Lemma health_event_counts h status w : payload_counts (wt_stats (health_event h status w)) = payload_counts (wt_stats w).
Proof using Type. unfold health_event. by destruct (wr_track_health h). Qed.

Lemma classify_counts m track s : payload_counts (classify_websocket_message m track s).2 = payload_counts s.
Proof using Type. destruct m as [|[]| | | |], track; done. Qed.

Lemma message_counts h t m k w ended w' : counting h -> tn_poll t = PMessage (Ok m) -> counts k w ->
  watch_message h t m w = Ok (ended, w') -> counts (k + if payload_of t then 1 else 0) w'.
Proof using Type.
  intros Hh Hm Hw H. unfold watch_message in H. pose proof (classify_counts m (wr_track_health h) (wa_stats w)) as Hc.
  destruct (classify_websocket_message _ _ _) as [r stats] eqn:Er. cbn [snd] in Hc.
  set (w1 := with_state _ w) in H.
  assert (H1 : counts k w1) by (by apply counts_state).
  apply bind_ok in H as (message & -> & H).
  assert (Hp : (if payload_of t then 1 else 0) = match message with IwPayload _ => 1 | _ => 0 end).
  { unfold payload_of. rewrite Hm. by destruct m as [|[]| | | |]; cbn in Er; simplify_eq. }
  rewrite Hp. destruct message as [text|p| |]; rewrite ?Z.add_0_r.
  - apply bind_ok in H as (now & _ & H).
    destruct (wr_observe h text now _ _) as [r state] eqn:Eo. apply bind_ok in H as (u & -> & [= <- <-]).
    destruct H1 as (H1 & H2 & H3).
    pose proof (cn_observe h Hh text now (wa_trace w1) (wa_state w1) H1) as Hco.
    pose proof (cn_received h Hh text now (wa_trace w1) (wa_state w1)) as Hre.
    rewrite Eo in Hco, Hre. cbn [snd] in *. split_and!; [done| |done].
    unfold wa_stats in *. cbn [wa_state]. rewrite Hre, H2. apply wrap_succ.
  - by apply bind_ok in H as (u & _ & [= <- <-]).
  - by injection H as <- <-.
  - by injection H as <- <-.
Qed.

Lemma loop_counts h deadline interval turns k w w' ended rest : counting h -> counts k w ->
  watch_loop h deadline interval turns w = Ok (w', ended, rest) ->
  exists handled, turns = handled ++ rest /\ counts (k + zlen (omap payload_of handled)) w'.
Proof using Type.
  intros Hh. revert k w. induction turns as [|t turns IH]; intros k w Hw H; cbn [watch_loop] in H.
  { injection H as <- <- <-. exists []. by rewrite Z.add_0_r. }
  destruct (deadline <=? tn_now t); [injection H as <- <- <-; exists []; by rewrite Z.add_0_r|].
  destruct (tn_poll t) as [m| |] eqn:Ep.
  - apply bind_ok in H as (m' & -> & H). apply bind_ok in H as ([b w1] & H1 & H).
    apply (message_counts _ _ _ k) in H1; [|done..].
    assert (Hz : forall l, zlen (omap payload_of (t :: l)) = (if payload_of t then 1 else 0) + zlen (omap payload_of l)).
    { intros l. cbn. destruct (payload_of t); [by rewrite zlen_cons|done]. }
    destruct b.
    + injection H as <- <- <-. exists [t]. split; [done|]. by rewrite Hz, Z.add_0_r.
    + apply IH with (k := k + if payload_of t then 1 else 0) in H as (handled & -> & H).
      * exists (t :: handled). split; [done|]. by rewrite Hz, Z.add_assoc.
      * apply counts_log; [done|]. apply counts_state; [apply Hh|done].
  - injection H as <- <- <-. exists [t]. split; [done|]. cbn. unfold payload_of. rewrite Ep. cbn.
    rewrite Z.add_0_r. apply counts_state; [apply health_event_counts|done].
  - apply IH with (k := k) in H as (handled & -> & H).
    + exists (t :: handled). split; [done|]. cbn. unfold payload_of at 1. rewrite Ep. done.
    + apply counts_log; [apply Hh|]. apply counts_state; [apply health_event_counts|done].
Qed.

Lemma run_counts h url_parse connect config start duration kinds interval trace turns w rest :
  counting h ->
  run_watch h url_parse connect config start duration kinds interval trace turns = Ok (w, true, rest) ->
  exists handled, turns = handled ++ rest /\ counts (zlen (omap payload_of handled)) w /\
    last (wa_logged w) = Some (wa_stats w).
Proof using Type.
  intros Hh H. unfold run_watch in H. apply bind_ok in H as (names & _ & H). apply bind_ok in H as (url & _ & H).
  apply bind_ok in H as (u & _ & H). apply bind_ok in H as ([[w1 ended] rest'] & H1 & H).
  destruct ended; [|done]. injection H as <- <-.
  apply (loop_counts h _ _ _ 0) in H1 as (handled & -> & Hc & Hr & Hl); [|done|by split_and!].
  exists handled. split; [done|]. split; [|by cbn; rewrite last_snoc].
  pose proof (cn_update h Hh (wa_state w1)) as Hu.
  assert (Hc' : counted (wt_stats (wr_update h (wa_state w1)))) by (by eapply counted_of_counts).
  split_and!; [exact Hc'| |cbn; apply Forall_app; split; [done|by constructor]].
  injection Hu as Hu _ _. unfold wa_stats in *. cbn [wa_state]. by rewrite Hu, Hr.
Qed.

(** A watch that ends has counted every payload it was handed: the messages received are
    the payloads of the turns it handled, each of them counted as parsed or as malformed
    (modulo the width of the counters), in the statistics it answers as in all it logged;
    and the last line it logged is its answer.  With or without order books. *)
Theorem watches_count_every_payload (url_parse : string -> result string Url)
    (connect : string -> result MarketDataError ()) fetch (config : BinanceStreamConfig) (start duration : Z)
    (kinds : list BinanceStreamKind) (log_interval trace : Z) (turns rest : list Turn) (w : Watch) :
  watch_binance_ingest_streams url_parse connect config start duration kinds log_interval trace turns
    = Ok (w, true, rest) \/
  watch_binance_ingest_streams_with_depth_sync url_parse connect fetch config start duration kinds log_interval
    trace turns = Ok (w, true, rest) ->
  exists handled, turns = handled ++ rest /\
    ws_received_messages (wa_stats w) = wrap U64 (zlen (omap payload_of handled)) /\
    Forall counted (wa_stats w :: wa_logged w) /\ last (wa_logged w) = Some (wa_stats w).
Proof using Type.
  intros H. assert (H' : exists handled, turns = handled ++ rest /\ counts (zlen (omap payload_of handled)) w /\
    last (wa_logged w) = Some (wa_stats w)).
  { destruct H as [H|H]; apply run_counts in H; auto using basic_counting, depth_counting. }
  destruct H' as (handled & -> & (Hc & Hr & Hl) & Hlast). exists handled. split_and!; [done|done| |done].
  by constructor.
Qed.
End counting.

(** ** Every snapshot is sent, or counted as lost *)

(** The text of an arrival, with it. *)
Definition text_of (a : Arrival) : option (string * Arrival) :=
  match av_poll a with
  | PMessage (Ok (WsText text)) | PMessage (Ok (WsBinary (Ok text))) => Some (text, a)
  | _ => None
  end.

Section stream.
Context {A : Type} (normalize : string -> Z -> Z -> result MarketDataError A).

(** The snapshot of a text under a trace id. *)
Definition snapshot_of (trace : Z) (t : string * Arrival) : result MarketDataError A :=
  now ← av_now t.2; normalize t.1 now trace.

(** The snapshots of the texts, under consecutive trace ids, that the channel accepts. *)
Fixpoint accepted (trace : Z) (texts : list (string * Arrival)) : list A :=
  match texts with
  | [] => []
  | t :: texts =>
      match snapshot_of trace t, av_send t.2 with
      | Ok snapshot, Accepted => snapshot :: accepted (next_trace trace) texts
      | _, _ => accepted (next_trace trace) texts
      end
  end.

Definition is_full (t : string * Arrival) : bool := match av_send t.2 with Full => true | _ => false end.

Lemma text_payload a m : av_poll a = PMessage (Ok m) ->
  text_of a = match websocket_text_payload (av_close_frame a) m with Ok (Some text) => Some (text, a) | _ => None end.
Proof using Type. intros H. unfold text_of. rewrite H. by destruct m as [|[]| | | |]. Qed.

Lemma stream_counts trace arrivals stats sent stats' sent' n s f :
  stream_loop normalize trace arrivals stats sent = Some (Ok (stats', sent')) ->
  stats = mkStreamStats (wrap U64 n) (wrap U64 s) (wrap U64 f) ->
  exists handled rest, arrivals = handled ++ rest /\
    let texts := omap text_of handled in
    sent' = sent ++ accepted trace texts /\
    stats' = mkStreamStats (wrap U64 (n + zlen texts)) (wrap U64 (s + zlen (accepted trace texts)))
      (wrap U64 (f + zlen (List.filter is_full texts))).
Proof using Type.
  revert trace stats sent n s f. induction arrivals as [|a arrivals IH]; intros trace stats sent n s f H Hst; [done|].
  assert (Hnone : forall r, Some (Ok (stats, sent)) = Some (@Ok MarketDataError _ (stats', sent')) ->
    exists handled rest, r = handled ++ rest /\
    let texts := omap text_of handled in
    sent' = sent ++ accepted trace texts /\
    stats' = mkStreamStats (wrap U64 (n + zlen texts)) (wrap U64 (s + zlen (accepted trace texts)))
      (wrap U64 (f + zlen (List.filter is_full texts)))).
  { intros r [= <- <-]. exists [], r. cbn. by rewrite app_nil_r, !Z.add_0_r, Hst. }
  cbn [stream_loop] in H. destruct (av_poll a) as [m| |] eqn:Ep; [|by apply Hnone..].
  destruct m as [m|]; [|done]. cbn [mbind result_bind] in H. pose proof (text_payload a m Ep) as Ht.
  destruct (websocket_text_payload _ m) as [[text|]|]; [| |done].
  2: { destruct (IH _ _ _ _ _ _ H Hst) as (handled & rest & -> & H').
       exists (a :: handled), rest. split; [done|]. cbn. by rewrite Ht. }
  destruct (now ← av_now a; normalize text now trace) as [snapshot|] eqn:Es; [|done].
  assert (Hsnap : snapshot_of trace (text, a) = Ok snapshot) by exact Es.
  assert (Hcons : forall handled, omap text_of (a :: handled) = (text, a) :: omap text_of handled)
    by (intros handled; cbn; by rewrite Ht).
  subst stats. cbn [st_received_messages st_sent_snapshots st_overflowed_snapshots] in H.
  unfold incr_u64 in H. rewrite !wrap_succ in H. destruct (av_send a) eqn:Esend.
  - apply IH with (n := n + 1) (s := s + 1) (f := f) in H as (handled & rest & -> & -> & ->); [|done].
    exists (a :: handled), rest. split; [done|]. cbv zeta. rewrite Hcons. cbn [accepted List.filter].
    unfold is_full at 2. cbn [snd]. rewrite Hsnap, Esend, <- app_assoc, !zlen_cons. by rewrite !Z.add_assoc.
  - apply IH with (n := n + 1) (s := s) (f := f + 1) in H as (handled & rest & -> & -> & ->); [|done].
    exists (a :: handled), rest. split; [done|]. cbv zeta. rewrite Hcons. cbn [accepted List.filter].
    unfold is_full at 2. cbn [snd]. rewrite Hsnap, Esend, !zlen_cons. by rewrite !Z.add_assoc.
  - injection H as <- <-. exists [a], arrivals. split; [done|]. cbv zeta. rewrite Hcons. cbn [omap list_omap accepted List.filter].
    unfold is_full. cbn [snd]. rewrite Hsnap, Esend, app_nil_r, zlen_cons, zlen_nil. by rewrite !Z.add_0_r.
Qed.
End stream.

(** A stream that ends has put into the channel, in order and under consecutive trace ids,
    exactly the snapshots of the payloads it was handed that the channel accepted; it
    counts what it received, sent and lost to a full channel, so that nothing is lost
    unseen but the one snapshot that finds the channel closed. *)
Theorem streams_account_for_snapshots {V : Type} {J : Json V} (url_parse : string -> result string Url)
    (connect : string -> result MarketDataError ()) (config : BinanceStreamConfig) (depth_kind : BinanceStreamKind)
    (trace : Z) (arrivals : list Arrival) (stats : MarketStreamStats) (sent : list BinanceNormalizedMarketEvent) :
  stream_binance_ticker_and_partial_depth_snapshots url_parse connect config depth_kind trace arrivals
    = Some (Ok (stats, sent)) ->
  exists handled rest, arrivals = handled ++ rest /\
    let texts := omap text_of handled in
    sent = accepted (normalize_binance_stream_message config) trace texts /\
    st_received_messages stats = wrap U64 (zlen texts) /\ st_sent_snapshots stats = wrap U64 (zlen sent) /\
    st_overflowed_snapshots stats = wrap U64 (zlen (List.filter is_full texts)).
Proof.
  unfold stream_binance_ticker_and_partial_depth_snapshots, connected. destruct (ensure_partial_depth_kind _ _); [|done].
  destruct (url ← _; connect url); [|done]. intros H.
  apply stream_counts with (n := 0) (s := 0) (f := 0) in H as (handled & rest & -> & -> & ->); [|done].
  exists handled, rest. split; [done|]. cbn. split_and!; done.
Qed.

(** ** Samples *)

#[local] Existing Instance one_ticker_json.

Definition sample_url : Url := mkUrl "wss://stream.binance.com:9443" "wss" (Some "stream.binance.com"%string) "" None None None.
Definition sample_arrivals : list Arrival :=
  [mkArrival (PMessage (Ok (WsText "{}"))) (Ok 1200) "" Accepted;
   mkArrival (PMessage (Ok (WsPing "p"))) (Ok 1201) "" Accepted;
   mkArrival (PMessage (Ok (WsText "{}"))) (Ok 1202) "" Full;
   mkArrival PTimeout (Ok 1300) "" Accepted].

Lemma streams_account_for_snapshots_witness : exists sent,
  stream_binance_ticker_and_partial_depth_snapshots (fun _ => Ok sample_url) (fun _ => Ok ()) btc_config
    PartialDepth5 7 sample_arrivals = Some (Ok (mkStreamStats 2 1 1, sent)) /\
  st_sent_snapshots (mkStreamStats 2 1 1) = wrap U64 (zlen sent).
Proof.
  eexists. split; [by vm_compute|].
  edestruct (streams_account_for_snapshots (fun _ => Ok sample_url) (fun _ => Ok ()) btc_config PartialDepth5 7
    sample_arrivals (mkStreamStats 2 1 1)) as (handled & rest & _ & _ & _ & Hs & _); [by vm_compute|exact Hs].
Defined.

Definition sample_turns : list Turn :=
  [mkTurn 10 (PMessage (Ok (WsText "{}"))) (Ok 1200) (Ok ()) 11; mkTurn 20 PTimeout (Ok 1200) (Ok ()) 120;
   mkTurn 130 (PMessage (Ok (WsText "{}"))) (Ok 1201) (Ok ()) 131; mkTurn 140 PEnded (Ok 1201) (Ok ()) 140].

Lemma watches_count_every_payload_witness : exists w,
  watch_binance_ingest_streams_with_depth_sync (fun _ => Ok sample_url) (fun _ => Ok ()) (fun _ => Err MDAborts)
    btc_config 0 1000 [Ticker] 100 7 sample_turns = Ok (w, true, []) /\
  ws_received_messages (wa_stats w) = 2 /\ ws_source_health_status (wa_stats w) = "ended"%string.
Proof.
  eexists. split; [by vm_compute|].
  edestruct (watches_count_every_payload (fun _ => Ok sample_url) (fun _ => Ok ()) (fun _ => Err MDAborts)
    btc_config 0 1000 [Ticker] 100 7 sample_turns []) as (handled & Hh & Hr & _); [right; by vm_compute|].
  rewrite app_nil_r in Hh. subst handled. split; [etransitivity; [exact Hr|by vm_compute]|by vm_compute].
Defined.
