(* ===== verification/Records.v ===== *)
(** * Records: what the L0 layer stores

    The drafts and records of [src/storage/record.rs], [health.rs],
    [symbol_health.rs] and [gap.rs], and the partitions and object keys of
    [src/storage/partition].  SHA-256, the standard hasher and chrono's calendar
    are parameters, gathered in the class [StorageLib]. *)
From S2P Require Import Prelude Text OrderedMap.
Open Scope Z_scope.

(* rust: src/storage/mod.rs StorageError *)
Inductive StorageError :=
| SIo (rendered : string)
| SArrow (rendered : string)
| SParquet (rendered : string)
| SAws (rendered : string)
| SJson (rendered : string)
| SInvalidConfig (m : string)
| SNats (rendered : string).

(* rust: src/storage/mod.rs fmt *)
Definition StorageError_display (e : StorageError) : string :=
  match e with
  | SIo r => "storage io error: " ++ r
  | SArrow r => "storage arrow error: " ++ r
  | SParquet r => "storage parquet error: " ++ r
  | SAws r => "storage aws error: " ++ r
  | SJson r => "storage json error: " ++ r
  | SInvalidConfig m => "storage invalid config: " ++ m
  | SNats r => "storage nats error: " ++ r
  end.

(** What the records use of other libraries: the hex digest of [sha2], the
    [DefaultHasher] of a string, and the UTC date ([%Y-%m-%d]) and hour of a
    millisecond timestamp, when chrono can represent it. *)
Class StorageLib := {
  sha256_hex : string -> string;
  default_hash : string -> Z;
  utc_date_hour : Z -> option (string * Z);
}.

(** ** Drafts and records *)

(* rust: src/storage/record.rs RawMarketEventDraft *)
Record RawMarketEventDraft := mkRawDraft {
  rd_event_type : string;
  rd_venue : string;
  rd_source_role : string;
  rd_market_type : string;
  rd_symbol_native : string;
  rd_symbol_canonical : string;
  rd_base_asset : string;
  rd_quote_asset : string;
  rd_exchange_timestamp_ms : Z;
  rd_ingest_timestamp_ms : Z;
  rd_sequence_id : string;
  rd_sequence_tag : string;
  rd_exchange_sequence : option Z;
  rd_diff_first_update_id : option Z;
  rd_diff_final_update_id : option Z;
  rd_is_snapshot : bool;
  rd_stream_type : string;
  rd_stream_phase : string;
  rd_payload_json : string;
}.

(* rust: src/storage/record.rs RawMarketEventRecord *)
Record RawMarketEventRecord := mkRawRecord {
  rr_event_id : string;
  rr_producer_run_id : string;
  rr_venue : string;
  rr_source_role : string;
  rr_market_type : string;
  rr_event_type : string;
  rr_symbol_native : string;
  rr_symbol_canonical : string;
  rr_base_asset : string;
  rr_quote_asset : string;
  rr_exchange_timestamp_ms : Z;
  rr_ingest_timestamp_ms : Z;
  rr_sequence_id : string;
  rr_sequence_tag : string;
  rr_exchange_sequence : option Z;
  rr_diff_first_update_id : option Z;
  rr_diff_final_update_id : option Z;
  rr_is_snapshot : bool;
  rr_stream_type : string;
  rr_stream_phase : string;
  rr_payload_json : string;
  rr_payload_sha256 : string;
  rr_schema_version : string;
}.

(* rust: src/storage/health.rs SourceHealthDraft *)
Record SourceHealthDraft := mkHealthDraft {
  hd_venue : string;
  hd_source_role : string;
  hd_observed_at_ms : Z;
  hd_connection_status : string;
  hd_heartbeat_delay_ms : Z;
  hd_stream_lag_ms : Z;
  hd_recent_gap_count : Z;
  hd_book_rebuild_count : Z;
  hd_health_level : string;
  hd_payload_json : string;
}.

(* rust: src/storage/health.rs SourceHealthRecord *)
Record SourceHealthRecord := mkHealthRecord {
  hr_health_event_id : string;
  hr_producer_run_id : string;
  hr_venue : string;
  hr_source_role : string;
  hr_observed_at_ms : Z;
  hr_connection_status : string;
  hr_heartbeat_delay_ms : Z;
  hr_stream_lag_ms : Z;
  hr_recent_gap_count : Z;
  hr_book_rebuild_count : Z;
  hr_health_level : string;
  hr_payload_json : string;
  hr_payload_sha256 : string;
  hr_schema_version : string;
}.

(* rust: src/storage/symbol_health.rs SymbolHealthDraft *)
Record SymbolHealthDraft := mkSymHealthDraft {
  sd_venue : string;
  sd_symbol_native : string;
  sd_observed_at_ms : Z;
  sd_last_event_time_ms : Z;
  sd_latency_ms : Z;
  sd_is_tradeable : bool;
  sd_reason_codes : list string;
}.

(* rust: src/storage/symbol_health.rs SymbolHealthRecord *)
Record SymbolHealthRecord := mkSymHealthRecord {
  sr_symbol_health_event_id : string;
  sr_producer_run_id : string;
  sr_venue : string;
  sr_symbol_native : string;
  sr_observed_at_ms : Z;
  sr_last_event_time_ms : Z;
  sr_latency_ms : Z;
  sr_is_tradeable : bool;
  sr_reason_codes : string;
  sr_payload_sha256 : string;
  sr_schema_version : string;
}.

(* rust: src/storage/gap.rs GapAlertDraft *)
Record GapAlertDraft := mkGapDraft {
  gd_venue : string;
  gd_source_role : string;
  gd_symbol_native : string;
  gd_gap_type : string;
  gd_detected_at_ms : Z;
  gd_expected_sequence_id : option Z;
  gd_observed_sequence_id : option Z;
  gd_heal_action : string;
  gd_heal_status : string;
  gd_payload_json : string;
}.

(* rust: src/storage/gap.rs GapAlertRecord *)
Record GapAlertRecord := mkGapRecord {
  gr_gap_id : string;
  gr_producer_run_id : string;
  gr_venue : string;
  gr_source_role : string;
  gr_symbol_native : string;
  gr_gap_type : string;
  gr_detected_at_ms : Z;
  gr_expected_sequence_id : string;
  gr_observed_sequence_id : string;
  gr_heal_action : string;
  gr_heal_status : string;
  gr_payload_json : string;
  gr_payload_sha256 : string;
  gr_schema_version : string;
}.

(* rust: src/storage/gap.rs optional_i64 *)
Definition optional_i64 (v : option Z) : string :=
  match v with Some z => show_Z z | None => "" end.

(** [i64::try_from(x).unwrap_or(i64::MAX)] *)
Definition to_i64_or_max (z : Z) : Z := default (int_max I64) (checked I64 z).

(** ** Partitions *)

(* rust: src/storage/partition/model.rs RawPartitionKey *)
Record RawPartitionKey := mkRawPart {
  rp_venue : string; rp_event_type : string; rp_event_date : string; rp_hour : Z; rp_shard : Z }.

(* rust: src/storage/partition/model.rs HealthPartitionKey *)
Record HealthPartitionKey := mkHealthPart {
  hp_venue : string; hp_event_date : string; hp_hour : Z; hp_shard : Z }.

(* rust: src/storage/partition/model.rs GapPartitionKey *)
Record GapPartitionKey := mkGapPart {
  gp_venue : string; gp_gap_type : string; gp_event_date : string; gp_hour : Z; gp_shard : Z }.

Section with_lib.
Context {L : StorageLib}.

(* rust: src/storage/record.rs RawMarketEventRecord::from_draft *)
Definition raw_from_draft (d : RawMarketEventDraft) (run_id : string) (ordinal : Z)
    : RawMarketEventRecord :=
  let payload_sha256 := sha256_hex (rd_payload_json d) in
  let event_id := ("evt_" ++ rd_venue d ++ "_" ++ rd_event_type d ++ "_"
    ++ show_Z (rd_ingest_timestamp_ms d) ++ "_" ++ show_Z ordinal)%string in
  let sequence_tag := if str_is_empty (rd_sequence_tag d) then rd_sequence_id d
                      else rd_sequence_tag d in
  mkRawRecord
    event_id
    run_id
    (rd_venue d)
    (rd_source_role d)
    (rd_market_type d)
    (rd_event_type d)
    (rd_symbol_native d)
    (rd_symbol_canonical d)
    (rd_base_asset d)
    (rd_quote_asset d)
    (rd_exchange_timestamp_ms d)
    (rd_ingest_timestamp_ms d)
    (rd_sequence_id d)
    sequence_tag
    (rd_exchange_sequence d)
    (rd_diff_first_update_id d)
    (rd_diff_final_update_id d)
    (rd_is_snapshot d)
    (rd_stream_type d)
    (rd_stream_phase d)
    (rd_payload_json d)
    payload_sha256
    "raw_market_event_v2".

(* rust: src/storage/health.rs SourceHealthRecord::from_draft *)
Definition health_from_draft (d : SourceHealthDraft) (run_id : string) (ordinal : Z)
    : SourceHealthRecord :=
  mkHealthRecord
    ("health_" ++ hd_venue d ++ "_" ++ show_Z (hd_observed_at_ms d) ++ "_" ++ show_Z ordinal)
    run_id
    (hd_venue d)
    (hd_source_role d)
    (hd_observed_at_ms d)
    (hd_connection_status d)
    (hd_heartbeat_delay_ms d)
    (hd_stream_lag_ms d)
    (to_i64_or_max (hd_recent_gap_count d))
    (to_i64_or_max (hd_book_rebuild_count d))
    (hd_health_level d)
    (hd_payload_json d)
    (sha256_hex (hd_payload_json d))
    "source_health_v2".

(** The text whose digest a symbol-health record carries. *)
Definition symbol_health_payload (venue symbol : string) (observed : Z) (reason_codes : string)
    : string :=
  (venue ++ ":" ++ symbol ++ ":" ++ show_Z observed ++ ":" ++ reason_codes)%string.

(* rust: src/storage/symbol_health.rs SymbolHealthRecord::from_draft *)
Definition symbol_health_from_draft (d : SymbolHealthDraft) (run_id : string) (ordinal : Z)
    : SymbolHealthRecord :=
  let reason_codes := join ";" (sd_reason_codes d) in
  mkSymHealthRecord
    ("symbol_health_" ++ sd_venue d ++ "_" ++ sd_symbol_native d ++ "_"
      ++ show_Z (sd_observed_at_ms d) ++ "_" ++ show_Z ordinal)
    run_id
    (sd_venue d)
    (sd_symbol_native d)
    (sd_observed_at_ms d)
    (sd_last_event_time_ms d)
    (sd_latency_ms d)
    (sd_is_tradeable d)
    reason_codes
    (sha256_hex (symbol_health_payload (sd_venue d) (sd_symbol_native d)
      (sd_observed_at_ms d) reason_codes))
    "symbol_health_v1".

(* rust: src/storage/gap.rs GapAlertRecord::from_draft *)
Definition gap_from_draft (d : GapAlertDraft) (run_id : string) (ordinal : Z) : GapAlertRecord :=
  mkGapRecord
    ("gap_" ++ gd_venue d ++ "_" ++ gd_gap_type d ++ "_"
      ++ show_Z (gd_detected_at_ms d) ++ "_" ++ show_Z ordinal)
    run_id
    (gd_venue d)
    (gd_source_role d)
    (gd_symbol_native d)
    (gd_gap_type d)
    (gd_detected_at_ms d)
    (optional_i64 (gd_expected_sequence_id d))
    (optional_i64 (gd_observed_sequence_id d))
    (gd_heal_action d)
    (gd_heal_status d)
    (gd_payload_json d)
    (sha256_hex (gd_payload_json d))
    "gap_alert_v1".

(* rust: src/storage/partition/compute.rs time_parts *)
Definition time_parts (timestamp_ms : Z) : string * Z :=
  default ("1970-01-01"%string, 0) (utc_date_hour timestamp_ms).

(** [hash % u64::from(shard_count)] aborts on a zero count, which the configuration
    excludes; [shard_count] is positive here. *)
(* rust: src/storage/partition/compute.rs shard_for *)
Definition shard_for (v : string) (shard_count : Z) : Z :=
  wrap U16 (default_hash v mod shard_count).

(* rust: src/storage/partition/compute.rs raw_partition_for *)
Definition raw_partition_for (r : RawMarketEventRecord) (shard_count : Z) : RawPartitionKey :=
  let parts := time_parts (rr_exchange_timestamp_ms r) in
  mkRawPart (rr_venue r) (rr_event_type r) parts.1 parts.2 (shard_for (rr_symbol_native r) shard_count).

(* rust: src/storage/partition/compute.rs health_partition_for *)
Definition health_partition_for (r : SourceHealthRecord) (shard_count : Z) : HealthPartitionKey :=
  let parts := time_parts (hr_observed_at_ms r) in
  mkHealthPart (hr_venue r) parts.1 parts.2 (shard_for (hr_venue r) shard_count).

(* rust: src/storage/partition/compute.rs symbol_health_partition_for *)
Definition symbol_health_partition_for (r : SymbolHealthRecord) (shard_count : Z)
    : HealthPartitionKey :=
  let parts := time_parts (sr_observed_at_ms r) in
  mkHealthPart (sr_venue r) parts.1 parts.2 (shard_for (sr_symbol_native r) shard_count).

(* rust: src/storage/partition/compute.rs gap_partition_for *)
Definition gap_partition_for (r : GapAlertRecord) (shard_count : Z) : GapPartitionKey :=
  let parts := time_parts (gr_detected_at_ms r) in
  mkGapPart (gr_venue r) (gr_gap_type r) parts.1 parts.2
    (shard_for (gr_symbol_native r) shard_count).
End with_lib.

(** ** Object keys *)

(** [/hour={:02}/shard={:02}/run_id={}-part-{:06}.parquet] *)
Definition key_tail (hour shard : Z) (run_id : string) (part_number : Z) : string :=
  ("/hour=" ++ pad_zero 2 hour ++ "/shard=" ++ pad_zero 2 shard ++ "/run_id=" ++ run_id
    ++ "-part-" ++ pad_zero 6 part_number ++ ".parquet")%string.

(* rust: src/storage/partition/keys.rs raw_object_key *)
Definition raw_object_key (p : RawPartitionKey) (run_id : string) (part_number : Z) : string :=
  ("raw_market_event/venue=" ++ rp_venue p ++ "/event_type=" ++ rp_event_type p
    ++ "/event_date=" ++ rp_event_date p ++ key_tail (rp_hour p) (rp_shard p) run_id part_number).

(* rust: src/storage/partition/keys.rs health_object_key *)
Definition health_object_key (p : HealthPartitionKey) (run_id : string) (part_number : Z) : string :=
  ("source_health/venue=" ++ hp_venue p
    ++ "/event_date=" ++ hp_event_date p ++ key_tail (hp_hour p) (hp_shard p) run_id part_number).

(* rust: src/storage/partition/keys.rs symbol_health_object_key *)
Definition symbol_health_object_key (p : HealthPartitionKey) (run_id : string) (part_number : Z)
    : string :=
  ("symbol_health/venue=" ++ hp_venue p
    ++ "/event_date=" ++ hp_event_date p ++ key_tail (hp_hour p) (hp_shard p) run_id part_number).

(* rust: src/storage/partition/keys.rs gap_object_key *)
Definition gap_object_key (p : GapPartitionKey) (run_id : string) (part_number : Z) : string :=
  ("gap_alert/venue=" ++ gp_venue p ++ "/gap_type=" ++ gp_gap_type p
    ++ "/event_date=" ++ gp_event_date p ++ key_tail (gp_hour p) (gp_shard p) run_id part_number).

(** The number and the map the call leaves behind. *)
(* rust: src/storage/partition/keys.rs next_part_number *)
Definition next_part_number {K} `{KeyCmp K} (part_numbers : btree K Z) (p : K) : Z * btree K Z :=
  let n := incr_u64 (default 0 (bget p part_numbers)) in
  (n, binsert p n part_numbers).

(** ** The derived orders of the partition keys *)

#[export] Instance RawPartitionKey_cmp : KeyCmp RawPartitionKey :=
  via_cmp (fun p => (rp_venue p, (rp_event_type p, (rp_event_date p, (rp_hour p, rp_shard p))))).
#[export] Instance HealthPartitionKey_cmp : KeyCmp HealthPartitionKey :=
  via_cmp (fun p => (hp_venue p, (hp_event_date p, (hp_hour p, hp_shard p)))).
#[export] Instance GapPartitionKey_cmp : KeyCmp GapPartitionKey :=
  via_cmp (fun p => (gp_venue p, (gp_gap_type p, (gp_event_date p, (gp_hour p, gp_shard p))))).

#[export] Instance RawPartitionKey_strict : StrictKey RawPartitionKey.
Proof. apply via_StrictKey. intros [] [] [= -> -> -> -> ->]. done. Qed.
#[export] Instance HealthPartitionKey_strict : StrictKey HealthPartitionKey.
Proof. apply via_StrictKey. intros [] [] [= -> -> -> ->]. done. Qed.
#[export] Instance GapPartitionKey_strict : StrictKey GapPartitionKey.
Proof. apply via_StrictKey. intros [] [] [= -> -> -> -> ->]. done. Qed.

(** ** Object keys determine the partition and the part number *)

Lemma str_app_inj_l p a b : (p ++ a = p ++ b)%string -> a = b.
Proof. induction p as [|x p IH]; cbn; [done|]. intros [= H]. by apply IH. Qed.

Lemma app_sep_inj c a a' r r' : ~ In c (bytes a) -> ~ In c (bytes a') ->
  (a ++ String c r = a' ++ String c r')%string -> a = a' /\ r = r'.
Proof.
  intros Ha Ha' H. pose proof (split_once_app c a r Ha) as E.
  rewrite H, split_once_app in E by done. by injection E as -> ->.
Qed.

Lemma zeros_value k l acc : digits_value acc (repeat "0"%char k ++ l) =
  digits_value (acc * 10 ^ Z.of_nat k) l.
Proof.
  revert acc. induction k as [|k IH]; intros acc; cbn [repeat app digits_value].
  - by rewrite Z.mul_1_r.
  - rewrite IH. f_equal. change (digit_val "0") with 0. rewrite pow10_succ. lia.
Qed.

Lemma pad_zero_digits w z : 0 <= z ->
  all_bytes is_digit (pad_zero w z) = true /\ digits_value 0 (bytes (pad_zero w z)) = z.
Proof.
  intros Hz. unfold pad_zero. destruct (Z.ltb_spec z 0); [lia|]. rewrite Z.abs_eq by done.
  destruct (show_nonneg_digits z Hz) as (Hd & _ & Hv). cbn [String.append].
  unfold all_bytes. rewrite !bytes_app, !bytes_of_bytes. split.
  - rewrite forallb_app, Hd, andb_true_r. apply forallb_forall. intros x Hx.
    apply repeat_spec in Hx as ->. done.
  - rewrite zeros_value. by rewrite Z.mul_0_l.
Qed.

Lemma pad_zero_inj w a b : 0 <= a -> 0 <= b -> pad_zero w a = pad_zero w b -> a = b.
Proof.
  intros Ha Hb H. destruct (pad_zero_digits w a Ha) as [_ <-], (pad_zero_digits w b Hb) as [_ <-].
  by rewrite H.
Qed.

Lemma digits_free c s : is_digit c = false -> all_bytes is_digit s = true -> ~ In c (bytes s).
Proof. unfold all_bytes. rewrite forallb_forall. intros Hc H Hin. apply H in Hin. congruence. Qed.

Lemma key_tail_inj h s run n h' s' n' :
  0 <= h -> 0 <= s -> 0 <= n -> 0 <= h' -> 0 <= s' -> 0 <= n' ->
  key_tail h s run n = key_tail h' s' run n' -> h = h' /\ s = s' /\ n = n'.
Proof.
  intros Hh Hs Hn Hh' Hs' Hn' H. unfold key_tail in H. cbn [String.append] in H.
  assert (Hp : forall w z, 0 <= z -> forall c, is_digit c = false -> ~ In c (bytes (pad_zero w z)))
    by (intros; apply digits_free; [done | by apply pad_zero_digits]).
  injection H as H.
  apply app_sep_inj in H as [E1 H]; [|by apply Hp..].
  injection H as H.
  apply app_sep_inj in H as [E2 H]; [|by apply Hp..].
  injection H as H. apply str_app_inj_l in H. injection H as H.
  apply app_sep_inj in H as [E3 _]; [|by apply Hp..].
  apply pad_zero_inj in E1, E2, E3; done.
Qed.

(** A component of a key path holds no slash. *)
Definition no_slash (s : string) : Prop := ~ In "/"%char (bytes s).

#[export] Instance no_slash_dec s : Decision (no_slash s).
Proof.
  destruct (List.in_dec Ascii.ascii_dec "/"%char (bytes s)) as [H|H]; [right | left]; auto.
Defined.

Definition raw_part_clean (p : RawPartitionKey) : Prop :=
  no_slash (rp_venue p) /\ no_slash (rp_event_type p) /\ no_slash (rp_event_date p) /\
  0 <= rp_hour p /\ 0 <= rp_shard p.
Definition health_part_clean (p : HealthPartitionKey) : Prop :=
  no_slash (hp_venue p) /\ no_slash (hp_event_date p) /\ 0 <= hp_hour p /\ 0 <= hp_shard p.
Definition gap_part_clean (p : GapPartitionKey) : Prop :=
  no_slash (gp_venue p) /\ no_slash (gp_gap_type p) /\ no_slash (gp_event_date p) /\
  0 <= gp_hour p /\ 0 <= gp_shard p.

(** One component of a path and the constant text that follows it. *)
Lemma component_inj a a' c r r' : no_slash a -> no_slash a' ->
  (a ++ String "/" (c ++ r) = a' ++ String "/" (c ++ r'))%string -> a = a' /\ r = r'.
Proof.
  intros Ha Ha' H. apply app_sep_inj in H as [-> H]; [|done..].
  by apply str_app_inj_l in H as ->.
Qed.

(** [key_tail] starts with a slash. *)
Lemma show_Z_no_slash z : no_slash (show_Z z).
Proof.
  unfold show_Z, no_slash. destruct (Z.ltb_spec z 0) as [Hz|Hz].
  - destruct (show_nonneg_digits (- z)) as (Hd & _); [lia|]. cbn. intros [E|Hin]; [done|].
    revert Hin. apply digits_free; [done|]. unfold all_bytes. done.
  - destruct (show_nonneg_digits z Hz) as (Hd & _). apply digits_free; [done|]. done.
Qed.

Lemma component_tail_inj a a' h s run n h' s' n' : no_slash a -> no_slash a' ->
  0 <= h -> 0 <= s -> 0 <= n -> 0 <= h' -> 0 <= s' -> 0 <= n' ->
  (a ++ key_tail h s run n = a' ++ key_tail h' s' run n')%string ->
  a = a' /\ h = h' /\ s = s' /\ n = n'.
Proof.
  intros Ha Ha' ? ? ? ? ? ? H. pose proof H as Hk. unfold key_tail in Hk.
  apply app_sep_inj in Hk as [-> _]; [|done..]. apply str_app_inj_l in H.
  apply key_tail_inj in H; [|done..]. done.
Qed.

Lemma raw_object_key_inj p p' run n n' :
  raw_part_clean p -> raw_part_clean p' -> 0 <= n -> 0 <= n' ->
  raw_object_key p run n = raw_object_key p' run n' -> p = p' /\ n = n'.
Proof.
  intros (Hv & He & Hd & Hh & Hs) (Hv' & He' & Hd' & Hh' & Hs') Hn Hn' H.
  unfold raw_object_key in H. apply str_app_inj_l in H.
  apply (component_inj _ _ "event_type=") in H as [Ev H]; [|done..].
  apply (component_inj _ _ "event_date=") in H as [Ee H]; [|done..].
  apply component_tail_inj in H as (Ed & Eh & Es & ->); [|done..].
  destruct p, p'; cbn in *; by subst.
Qed.

(** The two health families share the shape of their keys. *)
Lemma health_shape_inj pre p p' run n n' :
  health_part_clean p -> health_part_clean p' -> 0 <= n -> 0 <= n' ->
  (pre ++ hp_venue p ++ "/event_date=" ++ hp_event_date p
     ++ key_tail (hp_hour p) (hp_shard p) run n =
   pre ++ hp_venue p' ++ "/event_date=" ++ hp_event_date p'
     ++ key_tail (hp_hour p') (hp_shard p') run n')%string -> p = p' /\ n = n'.
Proof.
  intros (Hv & Hd & Hh & Hs) (Hv' & Hd' & Hh' & Hs') Hn Hn' H.
  apply str_app_inj_l in H. apply (component_inj _ _ "event_date=") in H as [Ev H]; [|done..].
  apply component_tail_inj in H as (Ed & Eh & Es & ->); [|done..].
  destruct p, p'; cbn in *; by subst.
Qed.

Lemma gap_object_key_inj p p' run n n' :
  gap_part_clean p -> gap_part_clean p' -> 0 <= n -> 0 <= n' ->
  gap_object_key p run n = gap_object_key p' run n' -> p = p' /\ n = n'.
Proof.
  intros (Hv & He & Hd & Hh & Hs) (Hv' & He' & Hd' & Hh' & Hs') Hn Hn' H.
  unfold gap_object_key in H. apply str_app_inj_l in H.
  apply (component_inj _ _ "gap_type=") in H as [Ev H]; [|done..].
  apply (component_inj _ _ "event_date=") in H as [Ee H]; [|done..].
  apply component_tail_inj in H as (Ed & Eh & Es & ->); [|done..].
  destruct p, p'; cbn in *; by subst.
Qed.
