(* ===== verification/Columns.v ===== *)
(** * Columns: the Parquet files of the L0 layer

    The schemas and columns the four record families are written with
    ([storage/parquet_file], [storage/health.rs], [symbol_health.rs], [gap.rs]) and the
    access to a column of a batch that was read ([normalize/read/batch_decode/columns.rs]).
    Arrow and Parquet are the class [Arrow]; its documented behaviour is [ArrowLaws]. *)
From S2P Require Import Prelude Text OrderedMap Records.
Open Scope Z_scope.

(** ** Schemas *)

(** The data types in use, and a field of a schema: its name, its type and whether it may
    be null. *)
Inductive DataType :=
  | Utf8 | Int64 | Boolean | Float64
  | ListOf (item : Field)
  | Struct (fields : list Field)
with Field := mkField (name : string) (data_type : DataType) (nullable : bool).

Definition fd_name (f : Field) : string := let 'mkField name _ _ := f in name.
Definition fd_type (f : Field) : DataType := let 'mkField _ data_type _ := f in data_type.
Definition fd_nullable (f : Field) : bool := let 'mkField _ _ nullable := f in nullable.

(* rust: src/storage/parquet_file/schema.rs field *)
Definition field (name : string) (data_type : DataType) : Field := mkField name data_type false.

(* rust: src/storage/parquet_file/schema.rs nullable_field *)
Definition nullable_field (name : string) (data_type : DataType) : Field := mkField name data_type true.

(* rust: src/storage/parquet_file/schema.rs raw_market_event_schema *)
Definition raw_market_event_schema : list Field :=
  [field "event_id" Utf8; field "producer_run_id" Utf8; field "venue" Utf8; field "source_role" Utf8;
   field "market_type" Utf8; field "event_type" Utf8; field "symbol_native" Utf8;
   field "symbol_canonical" Utf8; field "base_asset" Utf8; field "quote_asset" Utf8;
   field "exchange_timestamp_ms" Int64; field "ingest_timestamp_ms" Int64; field "sequence_id" Utf8;
   field "sequence_tag" Utf8; nullable_field "exchange_sequence" Int64;
   nullable_field "diff_first_update_id" Int64; nullable_field "diff_final_update_id" Int64;
   field "is_snapshot" Boolean; field "stream_type" Utf8; field "stream_phase" Utf8;
   field "payload_json" Utf8; field "payload_sha256" Utf8; field "schema_version" Utf8].

(* rust: src/storage/health.rs source_health_schema *)
Definition source_health_schema : list Field :=
  [field "health_event_id" Utf8; field "producer_run_id" Utf8; field "venue" Utf8;
   field "source_role" Utf8; field "observed_at_ms" Int64; field "connection_status" Utf8;
   field "heartbeat_delay_ms" Int64; field "stream_lag_ms" Int64; field "recent_gap_count" Int64;
   field "book_rebuild_count" Int64; field "health_level" Utf8; field "payload_json" Utf8;
   field "payload_sha256" Utf8; field "schema_version" Utf8].

(* rust: src/storage/symbol_health.rs symbol_health_schema *)
Definition symbol_health_schema : list Field :=
  [field "symbol_health_event_id" Utf8; field "producer_run_id" Utf8; field "venue" Utf8;
   field "symbol_native" Utf8; field "observed_at_ms" Int64; field "last_event_time_ms" Int64;
   field "latency_ms" Int64; field "is_tradeable" Boolean; field "reason_codes" Utf8;
   field "payload_sha256" Utf8; field "schema_version" Utf8].

(* rust: src/storage/gap.rs gap_alert_schema *)
Definition gap_alert_schema : list Field :=
  [field "gap_id" Utf8; field "producer_run_id" Utf8; field "venue" Utf8; field "source_role" Utf8;
   field "symbol_native" Utf8; field "gap_type" Utf8; field "detected_at_ms" Int64;
   field "expected_sequence_id" Utf8; field "observed_sequence_id" Utf8; field "heal_action" Utf8;
   field "heal_status" Utf8; field "payload_json" Utf8; field "payload_sha256" Utf8;
   field "schema_version" Utf8].

(** ** Arrow and Parquet *)

(** Arrays from values and options, record batches, and a Parquet file written from one
    batch and read back as batches.  A downcast array is seen as its values, [None] for
    null. *)
Class Arrow (Array Batch File : Type) := {
  arr_strings : list string -> Array;
  arr_int64s : list (option Z) -> Array;
  arr_bools : list (option bool) -> Array;
  as_strings : Array -> option (list (option string));
  as_int64s : Array -> option (list (option Z));
  as_bools : Array -> option (list (option bool));
  rb_try_new : list Field -> list Array -> result string Batch;
  rb_num_rows : Batch -> nat;
  rb_index_of : string -> Batch -> result string nat;
  rb_column : nat -> Batch -> option Array;
  pq_write : list Field -> Batch -> result StorageError File;
  pq_read : File -> result StorageError (list (result StorageError Batch));
}.

Section columns.
Context {Array Batch File : Type} {A : Arrow Array Batch File}.

(* rust: src/storage/parquet_file/columns.rs string_col *)
Definition string_col {R} (records : list R) (value : R -> string) : Array := arr_strings (map value records).

(* rust: src/storage/parquet_file/columns.rs int64_col *)
Definition int64_col {R} (records : list R) (value : R -> Z) : Array :=
  arr_int64s (map (fun record => Some (value record)) records).

(* rust: src/storage/parquet_file/columns.rs int64_opt_col *)
Definition int64_opt_col {R} (records : list R) (value : R -> option Z) : Array :=
  arr_int64s (map value records).

(* rust: src/storage/parquet_file/columns.rs bool_col *)
Definition bool_col {R} (records : list R) (value : R -> bool) : Array :=
  arr_bools (map (fun record => Some (value record)) records).

(** The columns of each family, in the order of its schema. *)
Definition raw_columns_of (records : list RawMarketEventRecord) : list Array :=
  [string_col records rr_event_id; string_col records rr_producer_run_id; string_col records rr_venue;
   string_col records rr_source_role; string_col records rr_market_type;
   string_col records rr_event_type; string_col records rr_symbol_native;
   string_col records rr_symbol_canonical; string_col records rr_base_asset;
   string_col records rr_quote_asset; int64_col records rr_exchange_timestamp_ms;
   int64_col records rr_ingest_timestamp_ms; string_col records rr_sequence_id;
   string_col records rr_sequence_tag; int64_opt_col records rr_exchange_sequence;
   int64_opt_col records rr_diff_first_update_id; int64_opt_col records rr_diff_final_update_id;
   bool_col records rr_is_snapshot; string_col records rr_stream_type;
   string_col records rr_stream_phase; string_col records rr_payload_json;
   string_col records rr_payload_sha256; string_col records rr_schema_version].

(* rust: src/storage/parquet_file/columns.rs raw_market_event_batch *)
Definition raw_market_event_batch (records : list RawMarketEventRecord) : result string Batch :=
  rb_try_new raw_market_event_schema (raw_columns_of records).

(** Creating the file and writing and closing the Parquet writer is [pq_write]. *)
(* rust: src/storage/parquet_file.rs write_raw_market_event_parquet *)
Definition write_raw_market_event_parquet (records : list RawMarketEventRecord) : result StorageError File :=
  batch ← map_err SArrow (raw_market_event_batch records);
  pq_write raw_market_event_schema batch.

Definition health_columns_of (records : list SourceHealthRecord) : list Array :=
  [string_col records hr_health_event_id; string_col records hr_producer_run_id;
   string_col records hr_venue; string_col records hr_source_role;
   int64_col records hr_observed_at_ms; string_col records hr_connection_status;
   int64_col records hr_heartbeat_delay_ms; int64_col records hr_stream_lag_ms;
   int64_col records hr_recent_gap_count; int64_col records hr_book_rebuild_count;
   string_col records hr_health_level; string_col records hr_payload_json;
   string_col records hr_payload_sha256; string_col records hr_schema_version].

(* rust: src/storage/health.rs write_source_health_parquet *)
Definition write_source_health_parquet (records : list SourceHealthRecord) : result StorageError File :=
  batch ← map_err SArrow (rb_try_new source_health_schema (health_columns_of records));
  pq_write source_health_schema batch.

Definition symbol_columns_of (records : list SymbolHealthRecord) : list Array :=
  [string_col records sr_symbol_health_event_id; string_col records sr_producer_run_id;
   string_col records sr_venue; string_col records sr_symbol_native;
   int64_col records sr_observed_at_ms; int64_col records sr_last_event_time_ms;
   int64_col records sr_latency_ms; bool_col records sr_is_tradeable;
   string_col records sr_reason_codes; string_col records sr_payload_sha256;
   string_col records sr_schema_version].

(* rust: src/storage/symbol_health.rs write_symbol_health_parquet *)
Definition write_symbol_health_parquet (records : list SymbolHealthRecord) : result StorageError File :=
  batch ← map_err SArrow (rb_try_new symbol_health_schema (symbol_columns_of records));
  pq_write symbol_health_schema batch.

Definition gap_columns_of (records : list GapAlertRecord) : list Array :=
  [string_col records gr_gap_id; string_col records gr_producer_run_id; string_col records gr_venue;
   string_col records gr_source_role; string_col records gr_symbol_native;
   string_col records gr_gap_type; int64_col records gr_detected_at_ms;
   string_col records gr_expected_sequence_id; string_col records gr_observed_sequence_id;
   string_col records gr_heal_action; string_col records gr_heal_status;
   string_col records gr_payload_json; string_col records gr_payload_sha256;
   string_col records gr_schema_version].

(* rust: src/storage/gap.rs write_gap_alert_parquet *)
Definition write_gap_alert_parquet (records : list GapAlertRecord) : result StorageError File :=
  batch ← map_err SArrow (rb_try_new gap_alert_schema (gap_columns_of records));
  pq_write gap_alert_schema batch.

(** ** Reading a column *)

(** A row of a batch. *)
Definition BatchRow : Type := Batch * nat.

Definition batch_rows (b : Batch) : list BatchRow := map (pair b) (seq 0 (rb_num_rows b)).

(** [downcast] is the downcast to the array type asked for. *)
(* rust: src/normalize/read/batch_decode/columns.rs downcast_column *)
Definition downcast_column {T} (downcast : Array -> option (list (option T))) (name : string) (batch : Batch)
    : result StorageError (list (option T)) :=
  index ← map_err SInvalidConfig (rb_index_of name batch);
  ok_or (array ← rb_column index batch; downcast array)
    (SInvalidConfig ("column " ++ name ++ " has unexpected type")).

(** [is_null] and [value] at a row of the batch. *)
Definition cell {T} (downcast : Array -> option (list (option T))) (name : string) (row : BatchRow)
    : result StorageError (option T) :=
  array ← downcast_column downcast name row.1; Ok (mjoin (array !! row.2)).

Definition col_str : string -> BatchRow -> result StorageError (option string) := cell as_strings.
Definition col_i64 : string -> BatchRow -> result StorageError (option Z) := cell as_int64s.
Definition col_bool : string -> BatchRow -> result StorageError (option bool) := cell as_bools.

(** The rows a reader of the file goes through. *)
Fixpoint rows_of_batches (batches : list (result StorageError Batch)) : result StorageError (list BatchRow) :=
  match batches with
  | [] => Ok []
  | batch :: batches =>
      batch ← batch; rows ← rows_of_batches batches; Ok (batch_rows batch ++ rows)
  end.
Definition file_rows (f : File) : result StorageError (list BatchRow) :=
  batches ← pq_read f; rows_of_batches batches.
End columns.

(** ** The documented behaviour of the libraries *)

(** Two rows hold the same values. *)
Definition same_row {Array Batch File : Type} {A : Arrow Array Batch File} (r r' : BatchRow (Batch := Batch)) : Prop :=
  forall name, col_str name r = col_str name r' /\ col_i64 name r = col_i64 name r' /\
    col_bool name r = col_bool name r'.

(** [RecordBatch::try_new] accepts columns of the types of the schema, of one length,
    without a null where none is allowed; a column is found under the first field of its
    name; a file that was written is read back row by row. *)
Class ArrowLaws (Array Batch File : Type) {A : Arrow Array Batch File} := {
  arr_fits : Field -> nat -> Array -> Prop;
  fits_strings : forall f l, fd_type f = Utf8 -> arr_fits f (Datatypes.length l) (arr_strings l);
  fits_int64s : forall f l, fd_type f = Int64 -> fd_nullable f = true \/ Forall is_Some l ->
    arr_fits f (Datatypes.length l) (arr_int64s l);
  fits_bools : forall f l, fd_type f = Boolean -> fd_nullable f = true \/ Forall is_Some l ->
    arr_fits f (Datatypes.length l) (arr_bools l);
  as_strings_of : forall l, as_strings (arr_strings l) = Some (map Some l);
  as_int64s_of : forall l, as_int64s (arr_int64s l) = Some l;
  as_bools_of : forall l, as_bools (arr_bools l) = Some l;
  rb_new_ok : forall fields columns n, fields <> [] -> Forall2 (fun f a => arr_fits f n a) fields columns ->
    exists b, rb_try_new fields columns = Ok b /\ rb_num_rows b = n /\
      (forall i f, fields !! i = Some f -> (forall j g, (j < i)%nat -> fields !! j = Some g -> fd_name g <> fd_name f) ->
         rb_index_of (fd_name f) b = Ok i) /\
      (forall i, rb_column i b = columns !! i);
  pq_read_back : forall fields b f, pq_write fields b = Ok f ->
    exists rows, file_rows f = Ok rows /\ Forall2 same_row (batch_rows b) rows;
}.

(** ** A written batch holds its records *)

Section written.
Context {Array Batch File : Type} {A : Arrow Array Batch File} {HA : ArrowLaws Array Batch File}.

(** The columns fit the fields, one by one. *)
Definition fits_records {R} (records : list R) : Field -> Array -> Prop :=
  fun f a => arr_fits f (Datatypes.length records) a.

Lemma fits_string {R} (records : list R) name nullable value :
  fits_records records (mkField name Utf8 nullable) (string_col records value).
Proof. unfold fits_records, string_col. rewrite <- (length_map value records). by apply fits_strings. Qed.

Lemma fits_int64 {R} (records : list R) name nullable value :
  fits_records records (mkField name Int64 nullable) (int64_col records value).
Proof.
  unfold fits_records, int64_col. rewrite <- (length_map (fun r => Some (value r)) records).
  apply fits_int64s; [done|]. right. by apply Forall_map, Forall_forall.
Qed.

Lemma fits_int64_opt {R} (records : list R) name value :
  fits_records records (mkField name Int64 true) (int64_opt_col records value).
Proof. unfold fits_records, int64_opt_col. rewrite <- (length_map value records). apply fits_int64s; auto. Qed.

Lemma fits_bool {R} (records : list R) name nullable value :
  fits_records records (mkField name Boolean nullable) (bool_col records value).
Proof.
  unfold fits_records, bool_col. rewrite <- (length_map (fun r => Some (value r)) records).
  apply fits_bools; [done|]. right. by apply Forall_map, Forall_forall.
Qed.

(** A batch of columns that fit, with distinct names. *)
Record batch_of {R} (fields : list Field) (columns : list Array) (records : list R) (b : Batch) : Prop := {
  bo_rows : rb_num_rows b = Datatypes.length records;
  bo_column : forall i f, fields !! i = Some f ->
    downcast_column as_strings (fd_name f) b =
      ok_or (array ← columns !! i; as_strings array)
        (SInvalidConfig ("column " ++ fd_name f ++ " has unexpected type")) /\
    downcast_column as_int64s (fd_name f) b =
      ok_or (array ← columns !! i; as_int64s array)
        (SInvalidConfig ("column " ++ fd_name f ++ " has unexpected type")) /\
    downcast_column as_bools (fd_name f) b =
      ok_or (array ← columns !! i; as_bools array)
        (SInvalidConfig ("column " ++ fd_name f ++ " has unexpected type"));
}.

Lemma batch_built {R} fields columns (records : list R) : fields <> [] -> NoDup (map fd_name fields) ->
  Forall2 (fits_records records) fields columns ->
  exists b, rb_try_new fields columns = Ok b /\ batch_of fields columns records b.
Proof.
  intros Hne Hnd Hfit. destruct (rb_new_ok fields columns _ Hne Hfit) as (b & Hb & Hn & Hidx & Hcol).
  exists b. split; [done|]. split; [done|]. intros i f Hf. unfold downcast_column.
  assert (Hi : rb_index_of (fd_name f) b = Ok i).
  { apply Hidx; [done|]. intros j g Hj Hg Heq. assert (i = j); [|lia].
    apply (NoDup_lookup _ _ _ (fd_name f) Hnd); rewrite list_lookup_fmap; [by rewrite Hf|by rewrite Hg; cbn; f_equal]. }
  rewrite Hi. cbn. by rewrite Hcol.
Qed.

Section cells.
Context {R : Type} (fields : list Field) (columns : list Array) (records : list R) (b : Batch).
Context (Hb : batch_of fields columns records b) (i k : nat) (name : string) (nullable : bool).
Context (r : R) (Hr : records !! k = Some r).

Lemma cell_string value : fields !! i = Some (mkField name Utf8 nullable) ->
  columns !! i = Some (string_col records value) -> col_str name (b, k) = Ok (Some (value r)).
Proof.
  intros Hf Hc. unfold col_str, cell. cbn [fst snd]. destruct (bo_column _ _ _ _ Hb i _ Hf) as (E & _ & _).
  cbn [fd_name] in E. rewrite E, Hc. cbn. unfold string_col. rewrite as_strings_of. cbn. rewrite map_map. change (map ?f ?l) with (f <$> l).
  by rewrite list_lookup_fmap, Hr.
Qed.

Lemma cell_int64 value : fields !! i = Some (mkField name Int64 nullable) ->
  columns !! i = Some (int64_col records value) -> col_i64 name (b, k) = Ok (Some (value r)).
Proof.
  intros Hf Hc. unfold col_i64, cell. cbn [fst snd]. destruct (bo_column _ _ _ _ Hb i _ Hf) as (_ & E & _).
  cbn [fd_name] in E. rewrite E, Hc. cbn. unfold int64_col. rewrite as_int64s_of. cbn. change (map ?f ?l) with (f <$> l).
  by rewrite list_lookup_fmap, Hr.
Qed.

Lemma cell_int64_opt value : fields !! i = Some (mkField name Int64 nullable) ->
  columns !! i = Some (int64_opt_col records value) -> col_i64 name (b, k) = Ok (value r).
Proof.
  intros Hf Hc. unfold col_i64, cell. cbn [fst snd]. destruct (bo_column _ _ _ _ Hb i _ Hf) as (_ & E & _).
  cbn [fd_name] in E. rewrite E, Hc. cbn. unfold int64_opt_col. rewrite as_int64s_of. cbn. change (map ?f ?l) with (f <$> l).
  by rewrite list_lookup_fmap, Hr.
Qed.

Lemma cell_bool value : fields !! i = Some (mkField name Boolean nullable) ->
  columns !! i = Some (bool_col records value) -> col_bool name (b, k) = Ok (Some (value r)).
Proof.
  intros Hf Hc. unfold col_bool, cell. cbn [fst snd]. destruct (bo_column _ _ _ _ Hb i _ Hf) as (_ & _ & E).
  cbn [fd_name] in E. rewrite E, Hc. cbn. unfold bool_col. rewrite as_bools_of. cbn. change (map ?f ?l) with (f <$> l).
  by rewrite list_lookup_fmap, Hr.
Qed.
End cells.

(** What is written is accepted, and read back row for row. *)
Lemma written_rows {R} fields columns (records : list R) : fields <> [] -> NoDup (map fd_name fields) ->
  Forall2 (fits_records records) fields columns ->
  exists b, rb_try_new fields columns = Ok b /\ batch_of fields columns records b /\
    forall f, pq_write fields b = Ok f ->
    exists rows, file_rows f = Ok rows /\
      Forall2 (fun k row => same_row (b, k) row) (seq 0 (Datatypes.length records)) rows.
Proof.
  intros Hne Hnd Hfit. destruct (batch_built fields columns records Hne Hnd Hfit) as (b & Hnew & Hb).
  exists b. split; [done|]. split; [done|]. intros f Hf.
  destruct (pq_read_back fields b f Hf) as (rows & Hrows & Hsame). exists rows. split; [done|].
  unfold batch_rows in Hsame. rewrite (bo_rows _ _ _ _ Hb) in Hsame.
  change (map (pair b) ?l) with (pair b <$> l) in Hsame. by rewrite Forall2_fmap_l in Hsame.
Qed.
End written.

#[export] Hint Resolve fits_string fits_int64 fits_int64_opt fits_bool : ingest.

(** The columns of a schema fit it. *)
Ltac fit_columns := repeat (constructor; [first [apply fits_string|apply fits_int64|apply fits_int64_opt|apply fits_bool]|]); constructor.

(** ** A library that keeps the laws

    Batches in memory: arrays of optional values, and a file that is its batch. *)

Inductive MemArray :=
  MemStrings (l : list (option string)) | MemInt64s (l : list (option Z)) | MemBools (l : list (option bool)).

Definition mem_fits (f : Field) (n : nat) (a : MemArray) : bool :=
  let ok {T} (t : DataType) (l : list (option T)) :=
    match fd_type f, t with Utf8, Utf8 | Int64, Int64 | Boolean, Boolean => true | _, _ => false end
    && Nat.eqb (Datatypes.length l) n
    && (fd_nullable f || forallb (fun v => match v with Some _ => true | None => false end) l) in
  match a with MemStrings l => ok Utf8 l | MemInt64s l => ok Int64 l | MemBools l => ok Boolean l end.

Definition mem_len (a : MemArray) : nat :=
  match a with
  | MemStrings l => Datatypes.length l | MemInt64s l => Datatypes.length l | MemBools l => Datatypes.length l
  end.

Definition MemBatch : Type := list Field * list MemArray.

Fixpoint forallb2 {X Y} (p : X -> Y -> bool) (l : list X) (k : list Y) : bool :=
  match l, k with
  | [], [] => true
  | x :: l, y :: k => p x y && forallb2 p l k
  | _, _ => false
  end.

#[export] Instance mem_arrow : Arrow MemArray MemBatch MemBatch := {|
  arr_strings l := MemStrings (map Some l);
  arr_int64s l := MemInt64s l;
  arr_bools l := MemBools l;
  as_strings a := match a with MemStrings l => Some l | _ => None end;
  as_int64s a := match a with MemInt64s l => Some l | _ => None end;
  as_bools a := match a with MemBools l => Some l | _ => None end;
  rb_try_new fields columns :=
    let n := match columns with a :: _ => mem_len a | [] => O end in
    if forallb2 (fun f a => mem_fits f n a) fields columns then Ok (fields, columns)
    else Err "columns do not match the schema"%string;
  rb_num_rows b := match b.2 with a :: _ => mem_len a | [] => O end;
  rb_index_of name b := ok_or (fst <$> list_find (fun f => fd_name f = name) b.1) ("no field " ++ name)%string;
  rb_column i b := b.2 !! i;
  pq_write _ b := Ok b;
  pq_read b := Ok [Ok b];
|}.

Lemma forallb_is_some {T} (l : list (option T)) :
  forallb (fun v => match v with Some _ => true | None => false end) l = true <-> Forall is_Some l.
Proof.
  rewrite forallb_forall, List.Forall_forall. split; intros H x Hx; specialize (H x Hx); by destruct x.
Qed.

Lemma forallb2_spec {X Y} (p : X -> Y -> bool) l k : forallb2 p l k = true <-> Forall2 (fun x y => p x y = true) l k.
Proof.
  revert k. induction l as [|x l IH]; intros [|y k]; cbn; split; try done; try by inversion 1.
  - intros [Hp Hl]%andb_true_iff. constructor; [done|by apply IH].
  - inversion 1; subst. apply andb_true_iff. split; [done|by apply IH].
Qed.

Lemma mem_fits_len f n a : mem_fits f n a = true -> mem_len a = n.
Proof. destruct a; cbn; rewrite !andb_true_iff, Nat.eqb_eq; tauto. Qed.

#[export] Instance mem_arrow_laws : ArrowLaws MemArray MemBatch MemBatch.
Proof.
  refine {| arr_fits f n a := mem_fits f n a = true |}.
  - intros f l Hf. cbn. rewrite Hf, length_map, Nat.eqb_refl. cbn. apply orb_true_iff. right.
    apply forallb_is_some, List.Forall_map, List.Forall_forall. intros x _. by exists x.
  - intros f l Hf Hn. cbn. rewrite Hf, Nat.eqb_refl. cbn. apply orb_true_iff. destruct Hn; [by left|].
    right. by apply forallb_is_some.
  - intros f l Hf Hn. cbn. rewrite Hf, Nat.eqb_refl. cbn. apply orb_true_iff. destruct Hn; [by left|].
    right. by apply forallb_is_some.
  - done.
  - done.
  - done.
  - intros fields columns n Hne Hfit. exists (fields, columns).
    assert (Hlen : match columns with a :: _ => mem_len a | [] => O end = n).
    { destruct Hfit as [|f a fs cs Hf _]; [done|]. by apply mem_fits_len in Hf. }
    split; [|split; [exact Hlen|]].
    + cbn. rewrite Hlen. by rewrite (proj2 (forallb2_spec _ _ _) Hfit).
    + split; [|done]. intros i f Hf Hfirst. cbn.
      assert (Hfind : list_find (fun g => fd_name g = fd_name f) fields = Some (i, f)).
      { apply list_find_Some. split; [done|]. split; [done|]. intros j g Hg Hj. by apply (Hfirst j g). }
      by rewrite Hfind.
  - intros fields b f [= <-]. exists (batch_rows b ++ [])%list. split; [done|]. rewrite app_nil_r.
    apply Forall2_same_length_lookup. split; [done|]. intros i x y -> [= ->]. by intros name.
Defined.
