(* ===== verification/Sink.v ===== *)
(** * Sink: the L0 storage sink

    [src/storage/sink.rs] and [src/storage/sink]: records are given ordinals,
    buffered per partition, and flushed as Parquet files that are uploaded; the
    sink keeps capped reports of uploaded and failed objects.  Everything outside
    the process (directories, the Parquet writer, S3, the live publisher) answers
    through an [Io] value passed to each operation.

    The four record families differ only in their partition, key and name; the
    class [Family] is that interface, and the flush and append of one family are
    defined and proved once against it. *)
From S2P Require Import Prelude Text OrderedMap Records.
Open Scope Z_scope.

(** ** Configuration *)

(* rust: src/live.rs LiveMarketNatsConfig *)
Record LiveMarketNatsConfig := mkNats {
  nats_url : string;
  nats_stream : string;
  nats_subject_prefix : string;
  nats_required : bool;
}.

(* rust: src/storage/sink/config.rs L0StorageConfig *)
Record L0StorageConfig := mkL0Config {
  cf_bucket : string;
  cf_region : string;
  cf_profile : option string;
  cf_spool_root : string;
  cf_run_id : string;
  cf_flush_records : Z;
  cf_shard_count : Z;
  cf_live_nats : option LiveMarketNatsConfig;
}.

(* rust: src/storage/sink/config.rs validate_config *)
Definition validate_config (c : L0StorageConfig) : result StorageError () :=
  if str_is_empty (cf_bucket c) then Err (SInvalidConfig "l0 storage bucket is required") else
  if cf_flush_records c =? 0 then Err (SInvalidConfig "l0 flush records must be positive") else
  if cf_shard_count c =? 0 then Err (SInvalidConfig "l0 shard count must be positive") else
  match cf_live_nats c with
  | None => Ok ()
  | Some n =>
      if str_is_empty (trim (nats_url n))
      then Err (SInvalidConfig "live NATS URL must not be empty when configured") else
      if str_is_empty (trim (nats_stream n))
      then Err (SInvalidConfig "live NATS stream must not be empty when configured") else
      if str_is_empty (trim (nats_subject_prefix n))
      then Err (SInvalidConfig "live NATS subject prefix must not be empty when configured")
      else Ok ()
  end.

(* rust: src/storage/sink/config.rs live_nats_required *)
Definition live_nats_required (c : L0StorageConfig) : bool :=
  match cf_live_nats c with Some n => nats_required n | None => false end.

(** ** Reports *)

(* rust: src/storage/sink/report.rs MAX_REPORTED_OBJECTS *)
Definition MAX_REPORTED_OBJECTS : Z := 1000.
(* rust: src/storage/sink/report.rs MAX_REPORTED_FAILURES *)
Definition MAX_REPORTED_FAILURES : Z := 200.

(* rust: src/storage/sink/report.rs UploadedObject *)
Record UploadedObject := mkUploaded {
  uo_object_family : string; uo_key : string; uo_local_path : string; uo_record_count : Z }.

(* rust: src/storage/sink/report.rs FailedUploadObject *)
Record FailedUploadObject := mkFailed {
  fo_object_family : string; fo_key : string; fo_discarded_local_path : string;
  fo_record_count : Z; fo_error : string }.

(* rust: src/storage/sink/report.rs push_capped_deque *)
Definition push_capped_deque {A} (values : list A) (v : A) (max_len dropped : Z) : list A * Z :=
  let values := values ++ [v] in
  if max_len <? zlen values then (tail values, wrap Usize (dropped + 1)) else (values, dropped).

(* rust: src/storage/sink/report.rs append_capped *)
Definition append_capped {A} (values : list A) (v : A) (max_len dropped : Z) : list A * Z :=
  let values := values ++ [v] in
  if max_len <? zlen values then (tail values, wrap Usize (dropped + 1)) else (values, dropped).

(* rust: src/storage/sink/report.rs StorageReport *)
Record StorageReport := mkReport {
  rep_bucket : string;
  rep_run_id : string;
  rep_record_count : Z;
  rep_uploaded_object_count : Z;
  rep_uploaded_object_retained_count : Z;
  rep_uploaded_object_dropped_count : Z;
  rep_uploaded_objects : list UploadedObject;
  rep_failed_upload_count : Z;
  rep_failed_upload_retained_count : Z;
  rep_failed_upload_dropped_count : Z;
  rep_failed_uploads : list FailedUploadObject;
  rep_manifest_key : option string;
}.

(** ** State *)

(** The answers of the outside world during one operation. *)
Record Io := mkIo {
  io_mkdir : string -> result StorageError ();
  io_write_parquet : string -> result StorageError ();
  io_upload_file : string -> string -> result StorageError ();
  io_seal : string -> bool;
  io_upload_json : string -> StorageReport -> result StorageError ();
  io_live_publish : RawMarketEventRecord -> result StorageError ();
  io_live_flush : result StorageError ();
}.

(** Uploads, failures and the ordinal: the part of the sink all families share.
    [co_sealed] lists the [.sealed] markers written beside the spool files. *)
Record Core := mkCore {
  co_uploaded_objects : list UploadedObject;
  co_uploaded_object_count : Z;
  co_uploaded_object_dropped_count : Z;
  co_failed_uploads : list FailedUploadObject;
  co_failed_upload_count : Z;
  co_failed_upload_dropped_count : Z;
  co_next_ordinal : Z;
  co_manifest_key : option string;
  co_sealed : list string;
}.

Definition core_new : Core := mkCore [] 0 0 [] 0 0 1 None [].

Definition set_ordinal (o : Z) (c : Core) : Core :=
  mkCore (co_uploaded_objects c) (co_uploaded_object_count c) (co_uploaded_object_dropped_count c)
    (co_failed_uploads c) (co_failed_upload_count c) (co_failed_upload_dropped_count c)
    o (co_manifest_key c) (co_sealed c).
Definition set_manifest_key (k : string) (c : Core) : Core :=
  mkCore (co_uploaded_objects c) (co_uploaded_object_count c) (co_uploaded_object_dropped_count c)
    (co_failed_uploads c) (co_failed_upload_count c) (co_failed_upload_dropped_count c)
    (co_next_ordinal c) (Some k) (co_sealed c).
Definition add_sealed (b : bool) (p : string) (c : Core) : Core :=
  mkCore (co_uploaded_objects c) (co_uploaded_object_count c) (co_uploaded_object_dropped_count c)
    (co_failed_uploads c) (co_failed_upload_count c) (co_failed_upload_dropped_count c)
    (co_next_ordinal c) (co_manifest_key c) (if b then co_sealed c ++ [p] else co_sealed c).

(* rust: src/storage/sink/state.rs take_ordinal *)
Definition take_ordinal (c : Core) : Z * Core :=
  (co_next_ordinal c, set_ordinal (incr_u64 (co_next_ordinal c)) c).

(* rust: src/storage/sink/state.rs record_uploaded_object *)
Definition record_uploaded_object (o : UploadedObject) (c : Core) : Core :=
  let (objects, dropped) := push_capped_deque (co_uploaded_objects c) o MAX_REPORTED_OBJECTS
    (co_uploaded_object_dropped_count c) in
  mkCore objects (wrap Usize (co_uploaded_object_count c + 1)) dropped
    (co_failed_uploads c) (co_failed_upload_count c) (co_failed_upload_dropped_count c)
    (co_next_ordinal c) (co_manifest_key c) (co_sealed c).

(* rust: src/storage/sink/state.rs record_failed_upload *)
Definition record_failed_upload (f : FailedUploadObject) (c : Core) : Core :=
  let (failures, dropped) := push_capped_deque (co_failed_uploads c) f MAX_REPORTED_FAILURES
    (co_failed_upload_dropped_count c) in
  mkCore (co_uploaded_objects c) (co_uploaded_object_count c) (co_uploaded_object_dropped_count c)
    failures (wrap Usize (co_failed_upload_count c + 1)) dropped
    (co_next_ordinal c) (co_manifest_key c) (co_sealed c).

(* rust: src/storage/sink/state.rs L0StorageSink::report *)
Definition report (cfg : L0StorageConfig) (c : Core) : StorageReport :=
  mkReport (cf_bucket cfg) (cf_run_id cfg) (saturate U64 (co_next_ordinal c - 1))
    (co_uploaded_object_count c) (zlen (co_uploaded_objects c))
    (co_uploaded_object_dropped_count c) (co_uploaded_objects c)
    (co_failed_upload_count c) (zlen (co_failed_uploads c))
    (co_failed_upload_dropped_count c) (co_failed_uploads c) (co_manifest_key c).

(* rust: src/storage/eviction.rs sealed_marker_path *)
Definition sealed_marker_path (parquet_path : string) : string := (parquet_path ++ ".sealed")%string.

(* rust: src/storage/sink/state.rs local_path *)
Definition local_path (io : Io) (cfg : L0StorageConfig) (key : string) : result StorageError string :=
  let p := path_join (path_join (cf_spool_root cfg) (cf_run_id cfg)) key in
  _ ← io_mkdir io p; Ok p.

(* rust: src/storage/sink/state.rs upload *)
Definition upload (io : Io) (family key path : string) (record_count : Z) (c : Core) : Core :=
  match io_upload_file io key path with
  | Ok _ =>
      record_uploaded_object (mkUploaded family key path record_count)
        (add_sealed (io_seal io (sealed_marker_path path)) (sealed_marker_path path) c)
  | Err e =>
      record_failed_upload (mkFailed family key path record_count (StorageError_display e)) c
  end.

(* rust: src/storage/sink/state.rs upload_manifest *)
Definition upload_manifest (io : Io) (cfg : L0StorageConfig) (c : Core)
    : result StorageError () * Core :=
  let key := ("runs/run_id=" ++ cf_run_id cfg ++ "/manifest.json")%string in
  let c := set_manifest_key key c in
  let manifest := mkUploaded "manifest" key
    ("s3://" ++ cf_bucket cfg ++ "/" ++ key) 1 in
  let r := report cfg c in
  let (objects, dropped) := append_capped (rep_uploaded_objects r) manifest MAX_REPORTED_OBJECTS
    (rep_uploaded_object_dropped_count r) in
  let r := mkReport (rep_bucket r) (rep_run_id r) (rep_record_count r)
    (wrap Usize (rep_uploaded_object_count r + 1)) (zlen objects) dropped objects
    (rep_failed_upload_count r) (rep_failed_upload_retained_count r)
    (rep_failed_upload_dropped_count r) (rep_failed_uploads r) (rep_manifest_key r) in
  match io_upload_json io key r with
  | Ok _ => (Ok (), record_uploaded_object manifest c)
  | Err e => (Err e, c)
  end.

(** ** One record family *)

(** What the sink needs of a family of records [R] partitioned by [K]. *)
Class Family (K R : Type) := {
  fam_cmp : KeyCmp K;
  fam_name : string;
  fam_key : K -> string -> Z -> string;
  fam_partition : R -> Z -> K;
}.
#[export] Existing Instance fam_cmp.

(** Buffers and part numbers of a family; [fs_spool] lists the Parquet files the
    family has written under the spool, oldest first, with their records. *)
Record FamilyState (K R : Type) := mkFamily {
  fs_buffers : btree K (list R);
  fs_part_numbers : btree K Z;
  fs_spool : list (string * list R);
}.
Arguments mkFamily {K R}.
Arguments fs_buffers {K R}.
Arguments fs_part_numbers {K R}.
Arguments fs_spool {K R}.

Definition family_new {K R} : FamilyState K R := mkFamily [] [] [].

Section family.
Context {K R : Type} {F : Family K R}.

(** The records leave the buffer before the file is written: an error in
    between drops them. *)
Definition flush_partition (io : Io) (cfg : L0StorageConfig) (p : K) (s : FamilyState K R) (c : Core)
    : result StorageError () * FamilyState K R * Core :=
  match bget p (fs_buffers s) with
  | None => (Ok (), s, c)
  | Some records =>
      let s := mkFamily (bremove p (fs_buffers s)) (fs_part_numbers s) (fs_spool s) in
      match records with
      | [] => (Ok (), s, c)
      | _ :: _ =>
          let (part_number, parts) := next_part_number (fs_part_numbers s) p in
          let s := mkFamily (fs_buffers s) parts (fs_spool s) in
          let key := fam_key p (cf_run_id cfg) part_number in
          match local_path io cfg key with
          | Err e => (Err e, s, c)
          | Ok path =>
              match io_write_parquet io path with
              | Err e => (Err e, s, c)
              | Ok _ =>
                  (Ok (), mkFamily (fs_buffers s) (fs_part_numbers s)
                            (fs_spool s ++ [(key, records)]),
                   upload io fam_name key path (zlen records) c)
              end
          end
      end
  end.

Definition append_record (io : Io) (cfg : L0StorageConfig) (r : R) (s : FamilyState K R) (c : Core)
    : result StorageError () * FamilyState K R * Core :=
  let p := fam_partition r (cf_shard_count cfg) in
  let buffer := default [] (bget p (fs_buffers s)) ++ [r] in
  let s := mkFamily (binsert p buffer (fs_buffers s)) (fs_part_numbers s) (fs_spool s) in
  if cf_flush_records cfg <=? zlen buffer then flush_partition io cfg p s c else (Ok (), s, c).

(** One of the four loops of [flush_all], over the keys present at its start. *)
Fixpoint flush_keys (io : Io) (cfg : L0StorageConfig) (keys : list K) (s : FamilyState K R) (c : Core)
    : result StorageError () * FamilyState K R * Core :=
  match keys with
  | [] => (Ok (), s, c)
  | p :: keys' =>
      match flush_partition io cfg p s c with
      | (Ok _, s, c) => flush_keys io cfg keys' s c
      | failed => failed
      end
  end.
End family.

(** ** The four families and the sink *)

Section with_lib.
Context {L : StorageLib}.

#[export] Instance raw_family : Family RawPartitionKey RawMarketEventRecord := {
  fam_cmp := RawPartitionKey_cmp; fam_name := "raw_market_event";
  fam_key := raw_object_key; fam_partition := raw_partition_for }.
#[export] Instance health_family : Family HealthPartitionKey SourceHealthRecord := {
  fam_cmp := HealthPartitionKey_cmp; fam_name := "source_health";
  fam_key := health_object_key; fam_partition := health_partition_for }.
#[export] Instance symbol_health_family : Family HealthPartitionKey SymbolHealthRecord := {
  fam_cmp := HealthPartitionKey_cmp; fam_name := "symbol_health";
  fam_key := symbol_health_object_key; fam_partition := symbol_health_partition_for }.
#[export] Instance gap_family : Family GapPartitionKey GapAlertRecord := {
  fam_cmp := GapPartitionKey_cmp; fam_name := "gap_alert";
  fam_key := gap_object_key; fam_partition := gap_partition_for }.

(* rust: src/storage/sink.rs L0StorageSink *)
Record L0StorageSink := mkSink {
  sk_config : L0StorageConfig;
  sk_raw : FamilyState RawPartitionKey RawMarketEventRecord;
  sk_health : FamilyState HealthPartitionKey SourceHealthRecord;
  sk_symbol_health : FamilyState HealthPartitionKey SymbolHealthRecord;
  sk_gap : FamilyState GapPartitionKey GapAlertRecord;
  sk_core : Core;
}.

(** The connections [new] opens are the [Io] of later operations. *)
(* rust: src/storage/sink.rs L0StorageSink::new *)
Definition sink_new (cfg : L0StorageConfig) : result StorageError L0StorageSink :=
  _ ← validate_config cfg;
  Ok (mkSink cfg family_new family_new family_new family_new core_new).

(* rust: src/storage/sink/flush.rs flush_raw_partition *)
Definition flush_raw_partition (io : Io) (p : RawPartitionKey) (k : L0StorageSink)
    : result StorageError () * L0StorageSink :=
  let '(r, s, c) := flush_partition io (sk_config k) p (sk_raw k) (sk_core k) in
  (r, mkSink (sk_config k) s (sk_health k) (sk_symbol_health k) (sk_gap k) c).

(* rust: src/storage/sink/flush.rs flush_health_partition *)
Definition flush_health_partition (io : Io) (p : HealthPartitionKey) (k : L0StorageSink)
    : result StorageError () * L0StorageSink :=
  let '(r, s, c) := flush_partition io (sk_config k) p (sk_health k) (sk_core k) in
  (r, mkSink (sk_config k) (sk_raw k) s (sk_symbol_health k) (sk_gap k) c).

(* rust: src/storage/sink/flush.rs flush_symbol_health_partition *)
Definition flush_symbol_health_partition (io : Io) (p : HealthPartitionKey) (k : L0StorageSink)
    : result StorageError () * L0StorageSink :=
  let '(r, s, c) := flush_partition io (sk_config k) p (sk_symbol_health k) (sk_core k) in
  (r, mkSink (sk_config k) (sk_raw k) (sk_health k) s (sk_gap k) c).

(* rust: src/storage/sink/flush.rs flush_gap_partition *)
Definition flush_gap_partition (io : Io) (p : GapPartitionKey) (k : L0StorageSink)
    : result StorageError () * L0StorageSink :=
  let '(r, s, c) := flush_partition io (sk_config k) p (sk_gap k) (sk_core k) in
  (r, mkSink (sk_config k) (sk_raw k) (sk_health k) (sk_symbol_health k) s c).

(** The ordinal is spent even when the live publication fails. *)
(* rust: src/storage/sink.rs append_raw_market_event *)
Definition append_raw_market_event (io : Io) (d : RawMarketEventDraft) (k : L0StorageSink)
    : result StorageError () * L0StorageSink :=
  let (ordinal, c) := take_ordinal (sk_core k) in
  let record := raw_from_draft d (cf_run_id (sk_config k)) ordinal in
  match io_live_publish io record with
  | Err e => (Err e, mkSink (sk_config k) (sk_raw k) (sk_health k) (sk_symbol_health k) (sk_gap k) c)
  | Ok _ =>
      let '(r, s, c) := append_record io (sk_config k) record (sk_raw k) c in
      (r, mkSink (sk_config k) s (sk_health k) (sk_symbol_health k) (sk_gap k) c)
  end.

(* rust: src/storage/sink.rs append_source_health *)
Definition append_source_health (io : Io) (d : SourceHealthDraft) (k : L0StorageSink)
    : result StorageError () * L0StorageSink :=
  let (ordinal, c) := take_ordinal (sk_core k) in
  let record := health_from_draft d (cf_run_id (sk_config k)) ordinal in
  let '(r, s, c) := append_record io (sk_config k) record (sk_health k) c in
  (r, mkSink (sk_config k) (sk_raw k) s (sk_symbol_health k) (sk_gap k) c).

(* rust: src/storage/sink.rs append_symbol_health *)
Definition append_symbol_health (io : Io) (d : SymbolHealthDraft) (k : L0StorageSink)
    : result StorageError () * L0StorageSink :=
  let (ordinal, c) := take_ordinal (sk_core k) in
  let record := symbol_health_from_draft d (cf_run_id (sk_config k)) ordinal in
  let '(r, s, c) := append_record io (sk_config k) record (sk_symbol_health k) c in
  (r, mkSink (sk_config k) (sk_raw k) (sk_health k) s (sk_gap k) c).

(* rust: src/storage/sink.rs append_gap_alert *)
Definition append_gap_alert (io : Io) (d : GapAlertDraft) (k : L0StorageSink)
    : result StorageError () * L0StorageSink :=
  let (ordinal, c) := take_ordinal (sk_core k) in
  let record := gap_from_draft d (cf_run_id (sk_config k)) ordinal in
  let '(r, s, c) := append_record io (sk_config k) record (sk_gap k) c in
  (r, mkSink (sk_config k) (sk_raw k) (sk_health k) (sk_symbol_health k) s c).

(* rust: src/storage/sink/flush.rs flush_all *)
Definition flush_all (io : Io) (k : L0StorageSink) : result StorageError () * L0StorageSink :=
  let cfg := sk_config k in
  let '(r1, raw, c) := flush_keys io cfg (bkeys (fs_buffers (sk_raw k))) (sk_raw k) (sk_core k) in
  match r1 with
  | Err e => (Err e, mkSink cfg raw (sk_health k) (sk_symbol_health k) (sk_gap k) c)
  | Ok _ =>
  let '(r2, health, c) := flush_keys io cfg (bkeys (fs_buffers (sk_health k))) (sk_health k) c in
  match r2 with
  | Err e => (Err e, mkSink cfg raw health (sk_symbol_health k) (sk_gap k) c)
  | Ok _ =>
  let '(r3, sym, c) :=
    flush_keys io cfg (bkeys (fs_buffers (sk_symbol_health k))) (sk_symbol_health k) c in
  match r3 with
  | Err e => (Err e, mkSink cfg raw health sym (sk_gap k) c)
  | Ok _ =>
  let '(r4, gap, c) := flush_keys io cfg (bkeys (fs_buffers (sk_gap k))) (sk_gap k) c in
  match r4 with
  | Err e => (Err e, mkSink cfg raw health sym gap c)
  | Ok _ => (io_live_flush io, mkSink cfg raw health sym gap c)
  end end end end.

(** ** Runs of the sink *)

Inductive SinkOp :=
| OpRaw (d : RawMarketEventDraft)
| OpHealth (d : SourceHealthDraft)
| OpSymbolHealth (d : SymbolHealthDraft)
| OpGap (d : GapAlertDraft)
| OpFlushAll
| OpManifest.

Definition sink_step (io : Io) (op : SinkOp) (k : L0StorageSink) : result StorageError () * L0StorageSink :=
  match op with
  | OpRaw d => append_raw_market_event io d k
  | OpHealth d => append_source_health io d k
  | OpSymbolHealth d => append_symbol_health io d k
  | OpGap d => append_gap_alert io d k
  | OpFlushAll => flush_all io k
  | OpManifest =>
      let (r, c) := upload_manifest io (sk_config k) (sk_core k) in
      (r, mkSink (sk_config k) (sk_raw k) (sk_health k) (sk_symbol_health k) (sk_gap k) c)
  end.

(** A run stops at the first error, as the callers do. *)
Fixpoint sink_run (ops : list (Io * SinkOp)) (k : L0StorageSink) : result StorageError () * L0StorageSink :=
  match ops with
  | [] => (Ok (), k)
  | (io, op) :: ops' =>
      match sink_step io op k with
      | (Ok _, k) => sink_run ops' k
      | failed => failed
      end
  end.
End with_lib.

(** ** One family: nothing is lost, doubled or overwritten *)

Definition family_records {K R} (s : FamilyState K R) : list R :=
  List.concat (fs_spool s).*2 ++ List.concat (fs_buffers s).*2.

Section family_proofs.
Context {K R : Type} {F : Family K R} {HK : StrictKey K} (clean : K -> Prop).
Context (key_inj : forall p p' run n n', clean p -> clean p' -> 0 <= n -> 0 <= n' ->
  fam_key p run n = fam_key p' run n' -> p = p' /\ n = n').
Context (cfg : L0StorageConfig).

Definition part_no (s : FamilyState K R) (p : K) : Z := default 0 (bget p (fs_part_numbers s)).

(** A file of the spool: its key comes from a partition and a number already
    given out, and its records belong to that partition. *)
Definition file_ok (s : FamilyState K R) (f : string * list R) : Prop :=
  exists p n, f.1 = fam_key p (cf_run_id cfg) n /\ clean p /\ 1 <= n <= part_no s p /\
    Forall (fun r => fam_partition r (cf_shard_count cfg) = p) f.2 /\
    0 < zlen f.2 <= cf_flush_records cfg.

Definition buffer_ok (b : K * list R) : Prop :=
  clean b.1 /\ Forall (fun r => fam_partition r (cf_shard_count cfg) = b.1) b.2 /\
  0 < zlen b.2 <= cf_flush_records cfg.

Record family_inv (all : list R) (s : FamilyState K R) : Prop := {
  fi_sorted : bmap_ok (fun _ => True) (fs_buffers s);
  fi_parts : bmap_ok (fun _ => True) (fs_part_numbers s);
  fi_part_le : forall p, 0 <= part_no s p <= zlen (fs_spool s);
  fi_buffers : Forall buffer_ok (fs_buffers s);
  fi_spool : Forall (file_ok s) (fs_spool s);
  fi_keys : NoDup (fs_spool s).*1;
  fi_perm : family_records s ≡ₚ all;
}.

Definition buffers_small (s : FamilyState K R) : Prop :=
  Forall (fun b => zlen b.2 < cf_flush_records cfg) (fs_buffers s).

Lemma family_inv_new : family_inv [] family_new.
Proof.
  split; [apply bmap_ok_nil | apply bmap_ok_nil | by intros p | constructor | constructor | constructor | done].
Qed.

Lemma concat_perm {A} (l k : list (list A)) : l ≡ₚ k -> List.concat l ≡ₚ List.concat k.
Proof.
  induction 1 as [|x l k _ IH|x y l|l k m _ IH1 _ IH2]; cbn; [done|by rewrite IH| |by rewrite IH1].
  by rewrite !app_assoc, (Permutation_app_comm y x).
Qed.


(** Taking the buffer of [p] out and writing it as the next file of [p]. *)
Lemma write_file_inv all s p records :
  family_inv all s -> bget p (fs_buffers s) = Some records ->
  zlen (fs_spool s) < int_max U64 ->
  let n := incr_u64 (part_no s p) in
  family_inv all (mkFamily (bremove p (fs_buffers s)) (binsert p n (fs_part_numbers s))
    (fs_spool s ++ [(fam_key p (cf_run_id cfg) n, records)])).
Proof.
  intros [Hs Hp Hle Hb Hf Hk Hperm] Hget Hmax n.
  pose proof (bget_perm p records (fs_buffers s) Hget) as Hpm.
  rewrite Hpm in Hb. apply Forall_cons in Hb as [(Hc & Hrec & Hz) Hb]. cbn [fst snd] in *.
  pose proof (Hle p) as Hpn.
  assert (Hn : n = part_no s p + 1).
  { unfold n, incr_u64. apply wrap_id. unfold in_range. cbn [int_min int_max] in *. lia. }
  set (s' := mkFamily _ _ _).
  assert (Hpart : forall q, part_no s' q = match kcmp q p with Eq => n | _ => part_no s q end).
  { intros q. unfold part_no, s'. cbn [fs_part_numbers].
    rewrite (bget_insert (fun _ => True)) by done. by destruct (kcmp q p). }
  assert (Hmono : forall q, part_no s q <= part_no s' q).
  { intros q. rewrite Hpart. destruct (kcmp q p) eqn:E; try lia. apply sk_eq in E as ->. lia. }
  split; unfold s'; cbn [fs_buffers fs_part_numbers fs_spool]; fold s'.
  - by apply (bremove_ok (fun _ => True)).
  - by apply (binsert_ok (fun _ => True)).
  - intros q. rewrite Hpart. unfold s'. cbn [fs_spool]. rewrite zlen_snoc.
    specialize (Hle q). destruct (kcmp q p); lia.
  - done.
  - apply Forall_app. split.
    + eapply Forall_impl; [exact Hf|]. intros f (q & m & ? & ? & ? & ?). exists q, m.
      split; [done|]. split; [done|]. split; [|done]. specialize (Hmono q). lia.
    + constructor; [|constructor]. exists p, n. split; [done|]. split; [done|]. split; [|done].
      rewrite Hpart, (proj2 (sk_eq p p) eq_refl). lia.
  - rewrite fmap_app. apply NoDup_app. split; [done|]. split; [|by apply NoDup_singleton].
    intros key (f & -> & Hin)%list_elem_of_fmap. rewrite Forall_forall in Hf.
    destruct (Hf f Hin) as (q & m & Heq & Hcq & Hm & _). cbn. rewrite list_elem_of_singleton.
    rewrite Heq. intros E. apply key_inj in E as [-> ->]; [|done|done|lia|lia]. lia.
  - rewrite <- Hperm. unfold family_records, s'. cbn [fs_spool fs_buffers].
    rewrite fmap_app, concat_app. cbn. rewrite app_nil_r, <- app_assoc. f_equiv.
    symmetry. apply (concat_perm _ (records :: (bremove p (fs_buffers s)).*2)).
    by rewrite Hpm at 1.
Qed.

Lemma flush_partition_inv all io p s c s' c' :
  family_inv all s -> zlen (fs_spool s) < int_max U64 ->
  flush_partition io cfg p s c = (Ok (), s', c') ->
  family_inv all s' /\ fs_buffers s' = bremove p (fs_buffers s) /\
  zlen (fs_spool s') <= zlen (fs_spool s) + 1.
Proof.
  intros Hi Hmax H. unfold flush_partition in H.
  destruct (bget p (fs_buffers s)) as [records|] eqn:Eg.
  - pose proof (fi_buffers _ _ Hi) as Hb. rewrite (bget_perm p records _ Eg) in Hb.
    apply Forall_cons in Hb as [(_ & _ & Hz) _]. cbn [snd] in Hz.
    destruct records as [|r records]; [unfold zlen in Hz; cbn in Hz; lia|].
    cbn in H. destruct (local_path io cfg _) as [path|]; [|done].
    destruct (io_write_parquet io path) as [u|]; [|done]. injection H as <- <-.
    split; [by apply (write_file_inv all s p (r :: records))|]. split; [done|].
    cbn. rewrite zlen_snoc. lia.
  - injection H as <- <-. split; [done|]. split; [|lia].
    clear -Eg. induction (fs_buffers s) as [|[k v] m IH]; cbn in *; [done|].
    destruct (kcmp p k); [done|done|]. f_equal. by apply IH.
Qed.

Lemma push_buffer_inv all s r : let p := fam_partition r (cf_shard_count cfg) in
  clean p -> family_inv all s -> buffers_small s -> 0 < cf_flush_records cfg ->
  let buffer := default [] (bget p (fs_buffers s)) ++ [r] in
  let s' := mkFamily (binsert p buffer (fs_buffers s)) (fs_part_numbers s) (fs_spool s) in
  family_inv (r :: all) s' /\ bget p (fs_buffers s') = Some buffer /\
  Forall (fun b => zlen b.2 < cf_flush_records cfg) (bremove p (fs_buffers s')).
Proof.
  intros p Hc [Hs Hp Hle Hb Hf Hk Hperm] Hsm Hpos buffer s'.
  assert (Hget : bget p (binsert p buffer (fs_buffers s)) = Some buffer).
  { rewrite (bget_insert (fun _ => True)) by done. by rewrite (proj2 (sk_eq p p) eq_refl). }
  assert (Hnew : exists old rest, fs_buffers s ≡ₚ old ++ rest /\
    binsert p buffer (fs_buffers s) ≡ₚ (p, buffer) :: rest /\
    List.concat old.*2 = default [] (bget p (fs_buffers s)) /\ buffer_ok (p, buffer)).
  { unfold buffer. destruct (bget p (fs_buffers s)) as [rs|] eqn:Eg; cbn [default from_option id].
    - exists [(p, rs)], (bremove p (fs_buffers s)). split; [by apply bget_perm|].
      split; [by eapply binsert_perm_Some|]. split; [cbn; by rewrite app_nil_r|].
      rewrite (bget_perm p rs _ Eg) in Hb. unfold buffers_small in Hsm.
      rewrite (bget_perm p rs _ Eg) in Hsm. apply Forall_cons in Hb as [(_ & Hr & Hz) _].
      apply Forall_cons in Hsm as [Hz' _]. cbn [fst snd] in *. split; [done|].
      split; [|cbn [snd]; rewrite zlen_snoc; lia]. apply Forall_app. by split; [|constructor].
    - exists [], (fs_buffers s). split; [done|]. split; [by apply binsert_perm_None|].
      split; [done|]. split; [done|]. split; [by repeat constructor|]. change (0 < 1 <= cf_flush_records cfg). lia. }
  destruct Hnew as (old & rest & Hold & Hins & Hcat & Hbok).
  split; [split|]; cbn [fs_buffers fs_part_numbers fs_spool s']; try done.
  - by apply (binsert_ok (fun _ => True)).
  - rewrite Hins. constructor; [done|]. rewrite Hold in Hb. by apply Forall_app in Hb as [_ ?].
  - rewrite <- Hperm. unfold family_records, s'. cbn [fs_spool fs_buffers].
    rewrite (concat_perm _ _ (fmap_Permutation snd _ _ Hins)),
      (concat_perm _ _ (fmap_Permutation snd _ _ Hold)).
    rewrite fmap_app, concat_app, Hcat. cbn [fmap list_fmap List.concat snd]. unfold buffer.
    rewrite <- !app_assoc. cbn. by rewrite <- !Permutation_middle.
  - split; [done|]. pose proof (bget_perm p buffer _ Hget) as E. unfold s'. cbn [fs_buffers].
    rewrite Hins in E at 1. apply Permutation_cons_inv in E. rewrite <- E.
    unfold buffers_small in Hsm. rewrite Hold in Hsm. by apply Forall_app in Hsm as [_ ?].
Qed.

Lemma append_record_inv all io r s c s' c' :
  clean (fam_partition r (cf_shard_count cfg)) ->
  family_inv all s -> buffers_small s -> 0 < cf_flush_records cfg ->
  zlen (fs_spool s) < int_max U64 ->
  append_record io cfg r s c = (Ok (), s', c') ->
  family_inv (r :: all) s' /\ buffers_small s' /\ zlen (fs_spool s') <= zlen (fs_spool s) + 1.
Proof.
  intros Hc Hi Hsm Hpos Hmax H. unfold append_record in H. cbv zeta in H.
  destruct (push_buffer_inv all s r Hc Hi Hsm Hpos) as (Hi1 & Hget & Hrest).
  destruct (Z.leb_spec (cf_flush_records cfg)
    (zlen (default [] (bget (fam_partition r (cf_shard_count cfg)) (fs_buffers s)) ++ [r]))).
  - apply (flush_partition_inv (r :: all)) in H as (Hi2 & Hb2 & Hl); [|done|done].
    split; [done|]. split; [|done]. unfold buffers_small. by rewrite Hb2.
  - injection H as <- <-. split; [done|]. split; [|cbn; lia].
    unfold buffers_small. rewrite (bget_perm _ _ _ Hget). by constructor.
Qed.

Lemma bremove_small s p : buffers_small s ->
  Forall (fun b => zlen b.2 < cf_flush_records cfg) (bremove p (fs_buffers s)).
Proof. apply bremove_Forall. Qed.

Lemma flush_keys_inv all io keys s c s' c' :
  family_inv all s -> buffers_small s ->
  zlen (fs_spool s) + zlen keys < int_max U64 ->
  flush_keys io cfg keys s c = (Ok (), s', c') ->
  family_inv all s' /\ buffers_small s' /\ zlen (fs_spool s') <= zlen (fs_spool s) + zlen keys /\
  (forall p, p ∈ keys -> bget p (fs_buffers s') = None) /\
  (forall p, bget p (fs_buffers s) = None -> bget p (fs_buffers s') = None).
Proof.
  revert s c. induction keys as [|p keys IH]; intros s c Hi Hsm Hmax H; cbn [flush_keys] in H.
  - injection H as <- <-. split; [done|]. split; [done|]. split; [unfold zlen; lia|].
    split; [|done]. intros p Hp. by apply elem_of_nil in Hp.
  - rewrite zlen_cons in *. pose proof (zlen_nonneg keys).
    destruct (flush_partition io cfg p s c) as [[[u|] s1] c1] eqn:E; [|done]. destruct u.
    apply (flush_partition_inv all) in E as (Hi1 & Hb1 & Hl1); [|done|lia].
    assert (Hrem : forall q, bget q (fs_buffers s1) =
      match kcmp q p with Eq => None | _ => bget q (fs_buffers s) end).
    { intros q. rewrite Hb1. by rewrite (bget_remove (fun _ => True)) by (done || apply Hi). }
    destruct (IH s1 c1 Hi1) as (Hi2 & Hs2 & Hl2 & Hg2 & Hn2); [|lia|done|].
    { unfold buffers_small. rewrite Hb1. by apply bremove_small. }
    split; [done|]. split; [done|]. split; [lia|]. split.
    + intros q [->|Hq]%elem_of_cons; [|by apply Hg2]. apply Hn2. rewrite Hrem.
      by rewrite (proj2 (sk_eq p p) eq_refl).
    + intros q Hq. apply Hn2. rewrite Hrem, Hq. by destruct (kcmp q p).
Qed.
End family_proofs.

(** ** The whole sink *)

Section sink_proofs.
Context {L : StorageLib}.

(** chrono writes dates without slashes and hours without sign. *)
Definition calendar_ok : Prop := forall ts date hour,
  utc_date_hour ts = Some (date, hour) -> no_slash date /\ 0 <= hour.

(** Venue, event type and gap type of the drafts hold no slash. *)
Definition op_clean (op : SinkOp) : Prop :=
  match op with
  | OpRaw d => no_slash (rd_venue d) /\ no_slash (rd_event_type d)
  | OpHealth d => no_slash (hd_venue d)
  | OpSymbolHealth d => no_slash (sd_venue d)
  | OpGap d => no_slash (gd_venue d) /\ no_slash (gd_gap_type d)
  | OpFlushAll | OpManifest => True
  end.

#[export] Instance op_clean_dec op : Decision (op_clean op).
Proof. destruct op; cbn; apply _. Defined.

Inductive AnyRecord :=
| ARaw (r : RawMarketEventRecord)
| AHealth (r : SourceHealthRecord)
| ASymbolHealth (r : SymbolHealthRecord)
| AGap (r : GapAlertRecord).

(** The record an operation makes of its draft under an ordinal. *)
Definition op_record (run_id : string) (ordinal : Z) (op : SinkOp) : option AnyRecord :=
  match op with
  | OpRaw d => Some (ARaw (raw_from_draft d run_id ordinal))
  | OpHealth d => Some (AHealth (health_from_draft d run_id ordinal))
  | OpSymbolHealth d => Some (ASymbolHealth (symbol_health_from_draft d run_id ordinal))
  | OpGap d => Some (AGap (gap_from_draft d run_id ordinal))
  | OpFlushAll | OpManifest => None
  end.

(** The records of a run, numbered consecutively. *)
Fixpoint expected_records (run_id : string) (ordinal : Z) (ops : list SinkOp) : list AnyRecord :=
  match ops with
  | [] => []
  | op :: ops' =>
      match op_record run_id ordinal op with
      | Some r => r :: expected_records run_id (ordinal + 1) ops'
      | None => expected_records run_id ordinal ops'
      end
  end.

Definition stored_records (k : L0StorageSink) : list AnyRecord :=
  (ARaw <$> family_records (sk_raw k)) ++ (AHealth <$> family_records (sk_health k)) ++
  (ASymbolHealth <$> family_records (sk_symbol_health k)) ++ (AGap <$> family_records (sk_gap k)).

Definition spool_keys (k : L0StorageSink) : list string :=
  (fs_spool (sk_raw k)).*1 ++ (fs_spool (sk_health k)).*1 ++
  (fs_spool (sk_symbol_health k)).*1 ++ (fs_spool (sk_gap k)).*1.

Definition all_buffers_small (cfg : L0StorageConfig) (k : L0StorageSink) : Prop :=
  buffers_small cfg (sk_raw k) /\ buffers_small cfg (sk_health k) /\
  buffers_small cfg (sk_symbol_health k) /\ buffers_small cfg (sk_gap k).

Lemma files_le_records {K R} {F : Family K R} clean cfg all (s : FamilyState K R) :
  family_inv clean cfg all s -> zlen (fs_spool s) + zlen (fs_buffers s) <= zlen all.
Proof.
  intros [_ _ _ Hb Hf _ Hperm].
  assert (H : forall A (l : list (A * list R)), Forall (fun f => 0 < zlen f.2) l ->
    zlen l <= zlen (List.concat l.*2)).
  { intros A. induction l as [|f l IH]; intros Hl; [done|]. inversion Hl; subst.
    rewrite zlen_cons. cbn [fmap list_fmap List.concat]. rewrite zlen_app.
    specialize (IH ltac:(done)). change (list_fmap _ _ snd l) with (l.*2). lia. }
  assert (Hz : zlen all = zlen (family_records s)) by (unfold zlen; by rewrite Hperm).
  rewrite Hz. unfold family_records. rewrite zlen_app.
  pose proof (H _ (fs_spool s)) as H1. pose proof (H _ (fs_buffers s)) as H2.
  assert (zlen (fs_spool s) <= zlen (List.concat (fs_spool s).*2)).
  { apply H1. eapply Forall_impl; [exact Hf|]. by intros f (? & ? & _ & _ & _ & _ & ? & _). }
  assert (zlen (fs_buffers s) <= zlen (List.concat (fs_buffers s).*2)).
  { apply H2. eapply Forall_impl; [exact Hb|]. by intros f (_ & _ & ? & _). }
  lia.
Qed.

Lemma shard_nonneg v n : 0 <= shard_for v n.
Proof. unfold shard_for. pose proof (wrap_in_range U16 (default_hash v mod n)). unfold in_range in *. cbn in *. lia. Qed.

Lemma time_parts_ok ts : calendar_ok -> no_slash (time_parts ts).1 /\ 0 <= (time_parts ts).2.
Proof.
  intros Hc. unfold time_parts. destruct (utc_date_hour ts) as [[d h]|] eqn:E; cbn.
  - by apply (Hc ts).
  - split; [vm_decide | lia].
Qed.

Lemma raw_key_inj (p p' : RawPartitionKey) run n n' :
  raw_part_clean p -> raw_part_clean p' -> 0 <= n -> 0 <= n' ->
  fam_key p run n = fam_key p' run n' -> p = p' /\ n = n'.
Proof. apply raw_object_key_inj. Qed.

Lemma gap_key_inj (p p' : GapPartitionKey) run n n' :
  gap_part_clean p -> gap_part_clean p' -> 0 <= n -> 0 <= n' ->
  fam_key p run n = fam_key p' run n' -> p = p' /\ n = n'.
Proof. apply gap_object_key_inj. Qed.

Lemma health_key_inj (p p' : HealthPartitionKey) run n n' :
  health_part_clean p -> health_part_clean p' -> 0 <= n -> 0 <= n' ->
  fam_key (Family := health_family) p run n = fam_key (Family := health_family) p' run n' -> p = p' /\ n = n'.
Proof. apply health_shape_inj. Qed.

Lemma symbol_health_key_inj (p p' : HealthPartitionKey) run n n' :
  health_part_clean p -> health_part_clean p' -> 0 <= n -> 0 <= n' ->
  fam_key (Family := symbol_health_family) p run n = fam_key (Family := symbol_health_family) p' run n' -> p = p' /\ n = n'.
Proof. apply health_shape_inj. Qed.

(** The invariant of a run that has seen the records [all] (newest first). *)
Record sink_inv (cfg : L0StorageConfig) (all : list AnyRecord) (k : L0StorageSink) : Prop := {
  si_config : sk_config k = cfg;
  si_ordinal : co_next_ordinal (sk_core k) = zlen all + 1;
  si_small : all_buffers_small cfg k;
  si_families : exists ar ah ash ag,
    family_inv raw_part_clean cfg ar (sk_raw k) /\
    family_inv health_part_clean cfg ah (sk_health k) /\
    family_inv health_part_clean cfg ash (sk_symbol_health k) /\
    family_inv gap_part_clean cfg ag (sk_gap k) /\
    (ARaw <$> ar) ++ (AHealth <$> ah) ++ (ASymbolHealth <$> ash) ++ (AGap <$> ag) ≡ₚ all;
}.

Lemma sink_inv_init cfg : sink_inv cfg [] (mkSink cfg family_new family_new family_new family_new core_new).
Proof.
  split; [done | done | by repeat split; constructor |].
  exists [], [], [], []. repeat (split; [apply family_inv_new|]). done.
Qed.

Lemma upload_ordinal io f key path n c : co_next_ordinal (upload io f key path n c) = co_next_ordinal c.
Proof.
  unfold upload, record_uploaded_object, record_failed_upload.
  destruct (io_upload_file io key path); by repeat case_match.
Qed.

Lemma flush_partition_ordinal {K R} {F : Family K R} io cfg p (s : FamilyState K R) c :
  co_next_ordinal (flush_partition io cfg p s c).2 = co_next_ordinal c.
Proof.
  unfold flush_partition. destruct (bget p (fs_buffers s)) as [[|r rs]|]; [done| |done].
  cbn. destruct (local_path io cfg _); [|done]. destruct (io_write_parquet io a); [|done].
  apply upload_ordinal.
Qed.

Lemma append_record_ordinal {K R} {F : Family K R} io cfg r (s : FamilyState K R) c :
  co_next_ordinal (append_record io cfg r s c).2 = co_next_ordinal c.
Proof. unfold append_record. case_if; [apply flush_partition_ordinal | done]. Qed.

Lemma flush_keys_ordinal {K R} {F : Family K R} io cfg keys (s : FamilyState K R) c :
  co_next_ordinal (flush_keys io cfg keys s c).2 = co_next_ordinal c.
Proof.
  revert s c. induction keys as [|p keys IH]; intros s c; [done|]. cbn [flush_keys].
  pose proof (flush_partition_ordinal io cfg p s c) as Ho.
  destruct (flush_partition io cfg p s c) as [[[u|e] s1] c1]; cbn in Ho |- *; [|done].
  by rewrite IH.
Qed.

Lemma fmap_zlen {A B} (f : A -> B) (l : list A) : zlen (f <$> l) = zlen l.
Proof. unfold zlen. by rewrite length_fmap. Qed.

Lemma perm_zlen {A} (l k : list A) : l ≡ₚ k -> zlen l = zlen k.
Proof. intros H. unfold zlen. by rewrite H. Qed.

(** The sizes of the families add up to the records seen. *)
Lemma family_sizes all ar ah ash ag :
  (ARaw <$> ar) ++ (AHealth <$> ah) ++ (ASymbolHealth <$> ash) ++ (AGap <$> ag) ≡ₚ all ->
  zlen ar + zlen ah + zlen ash + zlen ag = zlen all.
Proof. intros H. apply perm_zlen in H. rewrite !zlen_app, !fmap_zlen in H. lia. Qed.

Lemma next_ordinal n : 0 <= n -> n + 1 < int_max U64 -> incr_u64 (n + 1) = n + 1 + 1.
Proof. intros. unfold incr_u64. apply wrap_id. unfold in_range. cbn [int_min int_max] in *. lia. Qed.

(** Opens [H : (let '(r, s, c) := m in _) = (Ok (), k)] with [m]'s result named. *)
Ltac open_step H E :=
  match type of H with
  | context [append_record ?io ?cfg ?r ?s ?c] =>
      pose proof (append_record_ordinal io cfg r s c) as E;
      destruct (append_record io cfg r s c) as [[[[]|] ?s1] ?c1] eqn:?Ea; [|done];
      cbn in E; injection H as <-
  | context [flush_keys ?io ?cfg ?keys ?s ?c] =>
      pose proof (flush_keys_ordinal io cfg keys s c) as E;
      destruct (flush_keys io cfg keys s c) as [[[[]|] ?s1] ?c1] eqn:?Ea; [|done]; cbn in E
  end.

Section step.
Context (cfg : L0StorageConfig) (Hcal : calendar_ok) (Hpos : 0 < cf_flush_records cfg).
Context (io : Io) (all : list AnyRecord) (k k' : L0StorageSink).
Context (Hinv : sink_inv cfg all k) (Hroom : zlen all + 2 < int_max U64).

Lemma append_raw_inv d : op_clean (OpRaw d) ->
  append_raw_market_event io d k = (Ok (), k') ->
  sink_inv cfg (ARaw (raw_from_draft d (cf_run_id cfg) (zlen all + 1)) :: all) k'.
Proof.
  intros Hcl H. cbn in Hcl. destruct Hinv as [Hc Ho (S1 & S2 & S3 & S4) (ar & ah & ash & ag & I1 & I2 & I3 & I4 & Hp)].
  unfold append_raw_market_event, take_ordinal in H. rewrite Hc, Ho in H.
  destruct (io_live_publish _ _); [|done]. open_step H E.
  pose proof (family_sizes _ _ _ _ _ Hp). pose proof (files_le_records _ _ _ _ I1).
  pose proof (zlen_nonneg (fs_buffers (sk_raw k))). pose proof (zlen_nonneg all).
  pose proof (zlen_nonneg ah). pose proof (zlen_nonneg ash). pose proof (zlen_nonneg ag).
  apply (append_record_inv raw_part_clean raw_key_inj cfg ar) in Ea as (I' & S' & _); try done; [| |lia].
  - split; cbn; [done | rewrite E, zlen_cons, next_ordinal by lia; lia | by repeat split |].
    exists (raw_from_draft d (cf_run_id cfg) (zlen all + 1) :: ar), ah, ash, ag.
    do 4 (split; [done|]). cbn. by rewrite Hp.
  - cbn. destruct (time_parts_ok (rd_exchange_timestamp_ms d) Hcal). destruct_and?. repeat split; try done. apply shard_nonneg.
Qed.

Lemma append_health_inv d : op_clean (OpHealth d) ->
  append_source_health io d k = (Ok (), k') ->
  sink_inv cfg (AHealth (health_from_draft d (cf_run_id cfg) (zlen all + 1)) :: all) k'.
Proof.
  intros Hcl H. cbn in Hcl. destruct Hinv as [Hc Ho (S1 & S2 & S3 & S4) (ar & ah & ash & ag & I1 & I2 & I3 & I4 & Hp)].
  unfold append_source_health, take_ordinal in H. rewrite Hc, Ho in H.
  open_step H E.
  pose proof (family_sizes _ _ _ _ _ Hp). pose proof (files_le_records _ _ _ _ I2).
  pose proof (zlen_nonneg (fs_buffers (sk_health k))). pose proof (zlen_nonneg all).
  pose proof (zlen_nonneg ar). pose proof (zlen_nonneg ash). pose proof (zlen_nonneg ag).
  apply (append_record_inv health_part_clean health_key_inj cfg ah) in Ea as (I' & S' & _); try done; [| |lia].
  - split; cbn; [done | rewrite E, zlen_cons, next_ordinal by lia; lia | by repeat split |].
    exists ar, (health_from_draft d (cf_run_id cfg) (zlen all + 1) :: ah), ash, ag.
    do 4 (split; [done|]). etransitivity; [|exact (perm_skip _ Hp)]. cbn.
    by rewrite <- !Permutation_middle.
  - cbn. destruct (time_parts_ok (hd_observed_at_ms d) Hcal). destruct_and?. repeat split; try done. apply shard_nonneg.
Qed.

Lemma append_symbol_health_inv d : op_clean (OpSymbolHealth d) ->
  append_symbol_health io d k = (Ok (), k') ->
  sink_inv cfg (ASymbolHealth (symbol_health_from_draft d (cf_run_id cfg) (zlen all + 1)) :: all) k'.
Proof.
  intros Hcl H. cbn in Hcl. destruct Hinv as [Hc Ho (S1 & S2 & S3 & S4) (ar & ah & ash & ag & I1 & I2 & I3 & I4 & Hp)].
  unfold append_symbol_health, take_ordinal in H. rewrite Hc, Ho in H.
  open_step H E.
  pose proof (family_sizes _ _ _ _ _ Hp). pose proof (files_le_records _ _ _ _ I3).
  pose proof (zlen_nonneg (fs_buffers (sk_symbol_health k))). pose proof (zlen_nonneg all).
  pose proof (zlen_nonneg ar). pose proof (zlen_nonneg ah). pose proof (zlen_nonneg ag).
  apply (append_record_inv health_part_clean symbol_health_key_inj cfg ash) in Ea as (I' & S' & _); try done; [| |lia].
  - split; cbn; [done | rewrite E, zlen_cons, next_ordinal by lia; lia | by repeat split |].
    exists ar, ah, (symbol_health_from_draft d (cf_run_id cfg) (zlen all + 1) :: ash), ag.
    do 4 (split; [done|]). etransitivity; [|exact (perm_skip _ Hp)]. cbn.
    by rewrite <- !Permutation_middle.
  - cbn. destruct (time_parts_ok (sd_observed_at_ms d) Hcal). destruct_and?. repeat split; try done. apply shard_nonneg.
Qed.

Lemma append_gap_inv d : op_clean (OpGap d) ->
  append_gap_alert io d k = (Ok (), k') ->
  sink_inv cfg (AGap (gap_from_draft d (cf_run_id cfg) (zlen all + 1)) :: all) k'.
Proof.
  intros Hcl H. cbn in Hcl. destruct Hinv as [Hc Ho (S1 & S2 & S3 & S4) (ar & ah & ash & ag & I1 & I2 & I3 & I4 & Hp)].
  unfold append_gap_alert, take_ordinal in H. rewrite Hc, Ho in H.
  open_step H E.
  pose proof (family_sizes _ _ _ _ _ Hp). pose proof (files_le_records _ _ _ _ I4).
  pose proof (zlen_nonneg (fs_buffers (sk_gap k))). pose proof (zlen_nonneg all).
  pose proof (zlen_nonneg ar). pose proof (zlen_nonneg ah). pose proof (zlen_nonneg ash).
  apply (append_record_inv gap_part_clean gap_key_inj cfg ag) in Ea as (I' & S' & _); try done; [| |lia].
  - split; cbn; [done | rewrite E, zlen_cons, next_ordinal by lia; lia | by repeat split |].
    exists ar, ah, ash, (gap_from_draft d (cf_run_id cfg) (zlen all + 1) :: ag).
    do 4 (split; [done|]). etransitivity; [|exact (perm_skip _ Hp)]. cbn.
    by rewrite <- !Permutation_middle.
  - cbn. destruct (time_parts_ok (gd_detected_at_ms d) Hcal). destruct_and?. repeat split; try done. apply shard_nonneg.
Qed.

Definition sink_empty (k : L0StorageSink) : Prop :=
  fs_buffers (sk_raw k) = [] /\ fs_buffers (sk_health k) = [] /\
  fs_buffers (sk_symbol_health k) = [] /\ fs_buffers (sk_gap k) = [].

Lemma all_none_empty {K V} {c : KeyCmp K} {HK : StrictKey K} (m : btree K V) :
  (forall p, bget p m = None) -> m = [].
Proof.
  destruct m as [|[p v] m]; [done|]. intros H. specialize (H p). cbn in H.
  by rewrite (proj2 (sk_eq p p) eq_refl) in H.
Qed.

(** Flushing the keys a map starts with empties it. *)
Lemma flush_keys_empties {K R} {F : Family K R} {HK : StrictKey K} (clean : K -> Prop)
    (inj : forall p p' run n n', clean p -> clean p' -> 0 <= n -> 0 <= n' ->
       fam_key p run n = fam_key p' run n' -> p = p' /\ n = n') al s c s' c' :
  family_inv clean cfg al s -> buffers_small cfg s -> zlen al + 2 < int_max U64 ->
  flush_keys io cfg (bkeys (fs_buffers s)) s c = (Ok (), s', c') ->
  family_inv clean cfg al s' /\ fs_buffers s' = [].
Proof.
  intros Hi Hs Hmax H. pose proof (files_le_records _ _ _ _ Hi) as Hle.
  assert (Hk : zlen (bkeys (fs_buffers s)) = zlen (fs_buffers s)) by apply fmap_zlen.
  apply (flush_keys_inv clean inj cfg al) in H as (Hi' & _ & _ & Hg & Hn); [|done|done|lia].
  split; [done|]. apply all_none_empty. intros p.
  destruct (bget p (fs_buffers s)) as [v|] eqn:E; [|by apply Hn]. apply Hg.
  apply (bget_elem_of (fun _ => True)) in E as (p' & Hin & Heq); [|done|apply Hi].
  apply sk_eq in Heq as ->. apply list_elem_of_fmap. by exists (p', v).
Qed.

Lemma empty_small {K R} (s : FamilyState K R) : fs_buffers s = [] -> buffers_small cfg s.
Proof. unfold buffers_small. intros ->. constructor. Qed.

Lemma flush_all_inv : flush_all io k = (Ok (), k') -> sink_inv cfg all k' /\ sink_empty k'.
Proof.
  intros H. destruct Hinv as [Hc Ho (S1 & S2 & S3 & S4) (ar & ah & ash & ag & I1 & I2 & I3 & I4 & Hp)].
  pose proof (family_sizes _ _ _ _ _ Hp). pose proof (zlen_nonneg ar). pose proof (zlen_nonneg ah).
  pose proof (zlen_nonneg ash). pose proof (zlen_nonneg ag).
  unfold flush_all in H. rewrite Hc in H.
  open_step H E1. open_step H E2. open_step H E3. open_step H E4. injection H as Hl <-.
  apply (flush_keys_empties _ raw_key_inj ar) in Ea as [J1 B1]; [|done|done|lia].
  apply (flush_keys_empties _ health_key_inj ah) in Ea0 as [J2 B2]; [|done|done|lia].
  apply (flush_keys_empties _ symbol_health_key_inj ash) in Ea1 as [J3 B3]; [|done|done|lia].
  apply (flush_keys_empties _ gap_key_inj ag) in Ea2 as [J4 B4]; [|done|done|lia].
  split; [|done]. split; cbn; [done | by rewrite E4, E3, E2, E1 | |].
  - repeat split; by apply empty_small.
  - by exists ar, ah, ash, ag.
Qed.

Lemma upload_manifest_inv : sink_step io OpManifest k = (Ok (), k') -> sink_inv cfg all k'.
Proof.
  intros H. destruct Hinv as [Hc Ho Hs Hf]. cbn in H. unfold upload_manifest in H.
  destruct (append_capped _ _ _ _) as [os d]. destruct (io_upload_json _ _ _); [|done].
  injection H as <-. unfold record_uploaded_object.
  destruct (push_capped_deque _ _ _ _). by split.
Qed.

Lemma sink_step_inv op : op_clean op -> sink_step io op k = (Ok (), k') ->
  sink_inv cfg (match op_record (cf_run_id cfg) (zlen all + 1) op with
                | Some r => r :: all | None => all end) k'.
Proof.
  intros Hcl H. destruct op; cbn [op_record].
  - by apply append_raw_inv.
  - by apply append_health_inv.
  - by apply append_symbol_health_inv.
  - by apply append_gap_inv.
  - by apply flush_all_inv.
  - by apply upload_manifest_inv.
Qed.
End step.

Lemma expected_length run ord ops : zlen (expected_records run ord ops) <= zlen ops.
Proof.
  revert ord. induction ops as [|op ops IH]; intros ord; cbn [expected_records]; [done|].
  rewrite (zlen_cons op). destruct (op_record run ord op); [rewrite zlen_cons|];
    [specialize (IH (ord + 1)) | specialize (IH ord)]; lia.
Qed.

Lemma sink_run_inv cfg ops all k k' :
  calendar_ok -> 0 < cf_flush_records cfg -> Forall op_clean ops.*2 ->
  zlen all + zlen ops + 2 < int_max U64 ->
  sink_inv cfg all k -> sink_run ops k = (Ok (), k') ->
  exists all', sink_inv cfg all' k' /\
    all' ≡ₚ expected_records (cf_run_id cfg) (zlen all + 1) ops.*2 ++ all.
Proof.
  intros Hcal Hpos. revert all k. induction ops as [|[io op] ops IH]; intros all k Hcl Hroom Hi H.
  { injection H as <-. by exists all. }
  cbn [fmap list_fmap snd] in Hcl. apply Forall_cons in Hcl as [Hop Hcl].
  rewrite zlen_cons in Hroom. pose proof (zlen_nonneg ops). cbn [sink_run] in H.
  destruct (sink_step io op k) as [[[]|] k1] eqn:E; [|done].
  apply (sink_step_inv cfg Hcal Hpos io all k k1 Hi ltac:(lia) op Hop) in E.
  cbn [fmap list_fmap snd expected_records].
  destruct (op_record (cf_run_id cfg) (zlen all + 1) op) as [r|].
  - destruct (IH (r :: all) k1 Hcl ltac:(rewrite zlen_cons; lia) E H) as (all' & Hi' & Hp).
    exists all'. split; [done|]. rewrite Hp, zlen_cons.
    replace (1 + zlen all + 1) with (zlen all + 1 + 1) by lia. by rewrite <- Permutation_middle.
  - destruct (IH all k1 Hcl ltac:(lia) E H) as (all' & Hi' & Hp). by exists all'.
Qed.

(** Keys of different families start differently. *)
Lemma spool_keys_nodup cfg all k : sink_inv cfg all k -> NoDup (spool_keys k).
Proof.
  intros [_ _ _ (ar & ah & ash & ag & I1 & I2 & I3 & I4 & _)].
  assert (Hin : forall (K R : Type) (F : Family K R) clean al (s : FamilyState K R) key,
    family_inv clean cfg al s -> key ∈ (fs_spool s).*1 ->
    exists p n, key = fam_key p (cf_run_id cfg) n).
  { intros K R F clean al s key Hi (f & -> & Hf)%list_elem_of_fmap.
    pose proof (fi_spool _ _ _ _ Hi) as Hs. rewrite Forall_forall in Hs.
    destruct (Hs f Hf) as (p & n & -> & _). by exists p, n. }
  unfold spool_keys. apply NoDup_app. split; [apply I1|]. split.
  { intros key H1 H2. destruct (Hin _ _ _ _ _ _ _ I1 H1) as (p & n & E1).
    repeat (apply elem_of_app in H2 as [H2|H2]);
      [apply (Hin _ _ _ _ _ _ _ I2) in H2 | apply (Hin _ _ _ _ _ _ _ I3) in H2
      | apply (Hin _ _ _ _ _ _ _ I4) in H2]; destruct H2 as (q & m & E2);
      rewrite E1 in E2; discriminate E2. }
  apply NoDup_app. split; [apply I2|]. split.
  { intros key H1 H2. destruct (Hin _ _ _ _ _ _ _ I2 H1) as (p & n & E1).
    apply elem_of_app in H2 as [H2|H2];
      [apply (Hin _ _ _ _ _ _ _ I3) in H2 | apply (Hin _ _ _ _ _ _ _ I4) in H2];
      destruct H2 as (q & m & E2); rewrite E1 in E2; discriminate E2. }
  apply NoDup_app. split; [apply I3|]. split; [|apply I4].
  intros key H1 H2. destruct (Hin _ _ _ _ _ _ _ I3 H1) as (p & n & E1).
  destruct (Hin _ _ _ _ _ _ _ I4 H2) as (q & m & E2). rewrite E1 in E2. discriminate E2.
Qed.

Lemma sink_inv_stored cfg all k : sink_inv cfg all k -> stored_records k ≡ₚ all.
Proof.
  intros [_ _ _ (ar & ah & ash & ag & I1 & I2 & I3 & I4 & Hp)]. unfold stored_records.
  by rewrite (fi_perm _ _ _ _ I1), (fi_perm _ _ _ _ I2), (fi_perm _ _ _ _ I3), (fi_perm _ _ _ _ I4).
Qed.

Definition sink_start (cfg : L0StorageConfig) : L0StorageSink :=
  mkSink cfg family_new family_new family_new family_new core_new.

(** C4: after any run of appends, flushes and manifests that returns no error,
    whatever the uploads answer, every record appended is in exactly one place, a
    buffer or one spool file; the records carry the ordinals 1, 2, 3, ... in order;
    every buffer is shorter than [flush_records]; no two spool files share a key;
    and the report counts the records. *)
Theorem sink_conserves_records (cfg : L0StorageConfig) (ops : list (Io * SinkOp)) (k : L0StorageSink) :
  calendar_ok -> 0 < cf_flush_records cfg -> Forall op_clean ops.*2 ->
  zlen ops + 2 < int_max U64 ->
  sink_run ops (sink_start cfg) = (Ok (), k) ->
  let expected := expected_records (cf_run_id cfg) 1 ops.*2 in
  stored_records k ≡ₚ expected /\ all_buffers_small cfg k /\ NoDup (spool_keys k) /\
  rep_record_count (report cfg (sk_core k)) = zlen expected.
Proof.
  intros Hcal Hpos Hcl Hroom H expected.
  destruct (sink_run_inv cfg ops [] _ k Hcal Hpos Hcl Hroom (sink_inv_init cfg) H) as (all & Hi & Hp).
  rewrite app_nil_r in Hp. change (zlen (@nil AnyRecord) + 1) with 1 in Hp. fold expected in Hp.
  split; [by rewrite (sink_inv_stored cfg all k Hi)|]. split; [apply Hi|].
  split; [by eapply spool_keys_nodup|]. cbn. rewrite (si_ordinal _ _ _ Hi), (perm_zlen _ _ Hp).
  pose proof (expected_length (cf_run_id cfg) 1 ops.*2) as He. rewrite fmap_zlen in He. fold expected in He.
  pose proof (zlen_nonneg expected). rewrite saturate_id; [lia|].
  unfold in_range. cbn [int_min int_max] in *. lia.
Qed.

(** when the last step of such a run is a [flush_all], nothing is left in a
    buffer: the spool files alone hold every record. *)
Theorem flush_all_writes_everything (cfg : L0StorageConfig) (ops : list (Io * SinkOp)) (io : Io)
    (k : L0StorageSink) :
  calendar_ok -> 0 < cf_flush_records cfg -> Forall op_clean ops.*2 ->
  zlen ops + 2 < int_max U64 ->
  sink_run ops (sink_start cfg) = (Ok (), k) ->
  forall k', flush_all io k = (Ok (), k') ->
  sink_empty k' /\
  (ARaw <$> List.concat (fs_spool (sk_raw k')).*2) ++
  (AHealth <$> List.concat (fs_spool (sk_health k')).*2) ++
  (ASymbolHealth <$> List.concat (fs_spool (sk_symbol_health k')).*2) ++
  (AGap <$> List.concat (fs_spool (sk_gap k')).*2)
    ≡ₚ expected_records (cf_run_id cfg) 1 ops.*2.
Proof.
  intros Hcal Hpos Hcl Hroom H k' Hf.
  destruct (sink_run_inv cfg ops [] _ k Hcal Hpos Hcl Hroom (sink_inv_init cfg) H) as (all & Hi & Hp).
  rewrite app_nil_r in Hp. change (zlen (@nil AnyRecord) + 1) with 1 in Hp.
  pose proof (expected_length (cf_run_id cfg) 1 ops.*2) as He. rewrite fmap_zlen in He.
  assert (Hall : zlen all + 2 < int_max U64) by (rewrite (perm_zlen _ _ Hp); lia).
  destruct (flush_all_inv cfg io all k k' Hi Hall Hf) as [Hi' Hempty].
  split; [done|]. etransitivity; [|exact Hp].
  etransitivity; [|exact (sink_inv_stored cfg all k' Hi')].
  unfold stored_records, family_records. destruct Hempty as (-> & -> & -> & ->).
  cbn. by rewrite !app_nil_r.
Qed.
End sink_proofs.

(** A calendar that knows one hour, and two runs over it. *)
Definition sample_lib : StorageLib := {|
  sha256_hex s := s;
  default_hash s := Z.of_nat (String.length s);
  utc_date_hour ts := if ts <? 0 then None else Some ("2024-05-01"%string, 7);
|}.
Definition sample_io : Io :=
  mkIo (fun _ => Ok ()) (fun _ => Ok ()) (fun _ _ => Err (SAws "timeout")) (fun _ => true)
    (fun _ _ => Ok ()) (fun _ => Ok ()) (Ok ()).
Definition sample_l0_config : L0StorageConfig :=
  mkL0Config "bucket" "ap-northeast-2" None "/spool" "run-1" 2 4 None.
Definition sample_gap : GapAlertDraft :=
  mkGapDraft "binance" "reference" "BTCUSDT" "sequence_gap" 1000 (Some 5) None "refetch" "pending" "{}".
Definition sample_ops : list (Io * SinkOp) :=
  [(sample_io, OpGap sample_gap); (sample_io, OpGap sample_gap); (sample_io, OpGap sample_gap)].

Lemma sample_calendar_ok : @calendar_ok sample_lib.
Proof.
  intros ts date hour. cbn. destruct (ts <? 0); [done|]. intros [= <- <-]. split; [vm_decide | lia].
Qed.

Lemma sink_conserves_records_witness :
  exists k, sink_run (L := sample_lib) sample_ops (sink_start sample_l0_config) = (Ok (), k) /\
    zlen (fs_spool (sk_gap k)) = 1 /\ NoDup (spool_keys k).
Proof.
  eexists. split; [by vm_compute|]. split; [by vm_compute|].
  apply (sink_conserves_records (L := sample_lib) sample_l0_config sample_ops);
    [apply sample_calendar_ok | done | vm_decide | done | by vm_compute].
Defined.

Lemma flush_all_writes_everything_witness :
  exists k k', sink_run (L := sample_lib) sample_ops (sink_start sample_l0_config) = (Ok (), k) /\
    flush_all (L := sample_lib) sample_io k = (Ok (), k') /\
    zlen (fs_spool (sk_gap k')) = 2 /\ sink_empty k'.
Proof.
  eexists _, _. split; [by vm_compute|]. split; [by vm_compute|]. split; [by vm_compute|].
  eapply (flush_all_writes_everything (L := sample_lib) sample_l0_config sample_ops sample_io);
    [apply sample_calendar_ok | done | vm_decide | done | by vm_compute | by vm_compute].
Defined.
