(* ===== verification/SinkReach.v ===== *)
(** * SinkReach: what every run of the L0 sink keeps, errors included

    [Sink] proves that no record is lost while every operation succeeds.  A watcher goes on
    after a failed append, so this file looks at the sink as a transition system whose steps
    may fail: a step is an append or a [flush_all] with any answers of the outside world.
    Every file written to the spool is uploaded or counted as failed, and the buffers stay
    ordered, which is what makes a successful [flush_all] empty them. *)
From S2P Require Import Prelude OrderedMap Records Sink.
Open Scope Z_scope.

Section reach.
Context {L : StorageLib}.

Definition is_manifest (op : SinkOp) : bool := match op with OpManifest => true | _ => false end.

(** One operation of the watchers, whatever it answers. *)
Inductive sink_next (k : L0StorageSink) : L0StorageSink -> Prop :=
| sink_next_step io op : is_manifest op = false -> sink_next k (sink_step io op k).2.

Definition reaches : L0StorageSink -> L0StorageSink -> Prop := rtc sink_next.

Lemma step_reaches io op k r k' : is_manifest op = false -> sink_step io op k = (r, k') -> reaches k k'.
Proof. intros Hop H. apply rtc_once. replace k' with (sink_step io op k).2 by by rewrite H. by constructor. Qed.

(** ** Files and uploads *)

(** [n] files: some uploaded, the others failed. *)
Definition tally (n : Z) (c : Core) : Prop := exists up failed, 0 <= up /\ 0 <= failed /\ n = up + failed /\
  co_uploaded_object_count c = wrap Usize up /\ co_failed_upload_count c = wrap Usize failed.

Lemma upload_tally io family key path count n c : tally n c -> tally (n + 1) (upload io family key path count c).
Proof.
  intros (up & failed & H1 & H2 & -> & Hu & Hf). unfold upload, record_uploaded_object, record_failed_upload.
  destruct (io_upload_file io key path) as [u|e].
  - exists (up + 1), failed. destruct (push_capped_deque _ _ _ _) as [os d]. cbn. rewrite Hu. split_and!; try lia; try done; apply wrap_succ.
  - exists up, (failed + 1). destruct (push_capped_deque _ _ _ _) as [fs d]. cbn. rewrite Hf.
    split_and!; try lia; try done; apply wrap_succ.
Qed.

Lemma add_sealed_tally b p n c : tally n (add_sealed b p c) <-> tally n c.
Proof. done. Qed.

(** ** One family *)

Section family.
Context {K R : Type} {FA : Family K R} {HK : StrictKey K}.

Definition ordered (s : FamilyState K R) : Prop := bmap_ok (fun _ => True) (fs_buffers s).

(** A flush, successful or not, takes the buffer out, and what it writes it counts. *)
Lemma flush_partition_step io cfg p s c r s' c' n : ordered s -> flush_partition io cfg p s c = (r, s', c') ->
  ordered s' /\ (forall q, bget q (fs_buffers s') = match kcmp q p with Eq => None | _ => bget q (fs_buffers s) end) /\
  (tally n c -> tally (n + (zlen (fs_spool s') - zlen (fs_spool s))) c').
Proof.
  intros Hs H. assert (Hno : bget p (fs_buffers s) = None -> forall q,
    bget q (fs_buffers s) = match kcmp q p with Eq => None | _ => bget q (fs_buffers s) end).
  { intros E q. destruct (kcmp q p) eqn:Eq; [|done|done]. by apply sk_eq in Eq as ->. }
  assert (Hrem : forall q, bget q (bremove p (fs_buffers s)) =
      match kcmp q p with Eq => None | _ => bget q (fs_buffers s) end).
  { intros q. by rewrite (bget_remove (fun _ => True)). }
  assert (Hok : bmap_ok (fun _ => True) (bremove p (fs_buffers s))) by by apply (bremove_ok (fun _ => True)).
  unfold flush_partition in H. destruct (bget p (fs_buffers s)) as [[|x records]|] eqn:Eg.
  - injection H as <- <- <-. split; [done|]. split; [done|]. by rewrite Z.sub_diag, Z.add_0_r.
  - destruct (next_part_number _ _) as [part parts]. cbn [fs_buffers fs_part_numbers fs_spool] in H.
    destruct (local_path io cfg _) as [path|]; [destruct (io_write_parquet io path)|].
    + injection H as <- <- <-. cbn [fs_buffers fs_spool]. split; [done|]. split; [done|]. intros Ht.
      rewrite zlen_snoc. replace (n + _) with (n + 1) by lia. by apply upload_tally.
    + injection H as <- <- <-. split; [done|]. split; [done|]. by rewrite Z.sub_diag, Z.add_0_r.
    + injection H as <- <- <-. split; [done|]. split; [done|]. by rewrite Z.sub_diag, Z.add_0_r.
  - injection H as <- <- <-. split; [done|]. split; [by apply Hno|]. by rewrite Z.sub_diag, Z.add_0_r.
Qed.

Lemma append_record_step io cfg x s c r s' c' n : ordered s -> append_record io cfg x s c = (r, s', c') ->
  ordered s' /\ (tally n c -> tally (n + (zlen (fs_spool s') - zlen (fs_spool s))) c').
Proof.
  intros Hs H. unfold append_record in H. cbv zeta in H.
  set (s1 := mkFamily (binsert _ _ _) _ _) in H.
  assert (H1 : ordered s1) by by apply (binsert_ok (fun _ => True)).
  destruct (_ <=? _).
  - destruct (flush_partition_step _ _ _ _ _ _ _ _ n H1 H) as (Ho & _ & Ht). by split.
  - injection H as <- <- <-. split; [done|]. cbn. by rewrite Z.sub_diag, Z.add_0_r.
Qed.

Lemma flush_keys_step io cfg keys s c r s' c' n : ordered s -> flush_keys io cfg keys s c = (r, s', c') ->
  ordered s' /\ (tally n c -> tally (n + (zlen (fs_spool s') - zlen (fs_spool s))) c') /\
  (r = Ok () -> forall q, q ∈ keys \/ bget q (fs_buffers s) = None -> bget q (fs_buffers s') = None).
Proof.
  revert s c n. induction keys as [|p keys IH]; intros s c n Hs H; cbn [flush_keys] in H.
  { injection H as <- <- <-. split; [done|]. rewrite Z.sub_diag, Z.add_0_r. split; [done|].
    by intros _ q [Hq%elem_of_nil|]. }
  destruct (flush_partition io cfg p s c) as [[r1 s1] c1] eqn:E.
  destruct (flush_partition_step _ _ _ _ _ _ _ _ n Hs E) as (H1 & Hg & Ht).
  destruct r1 as [u|e]; [|injection H as <- <- <-; done].
  destruct (IH s1 c1 (n + (zlen (fs_spool s1) - zlen (fs_spool s))) H1 H) as (H2 & Ht2 & Hg2).
  split; [done|]. split.
  - intros Hn. specialize (Ht2 (Ht Hn)). by replace (n + _) with
      (n + (zlen (fs_spool s1) - zlen (fs_spool s)) + (zlen (fs_spool s') - zlen (fs_spool s1))) by lia.
  - intros Hr q Hq. apply (Hg2 Hr). rewrite Hg. destruct (kcmp q p) eqn:Ec; [by right|..].
    all: destruct Hq as [[->|Hq]%elem_of_cons|Hq]; [|by left|by right].
    all: by rewrite (proj2 (sk_eq p p) eq_refl) in Ec.
Qed.

(** Flushing the keys of a map empties it. *)
Lemma flush_own_keys io cfg s c s' c' : ordered s ->
  flush_keys io cfg (bkeys (fs_buffers s)) s c = (Ok (), s', c') -> fs_buffers s' = [].
Proof.
  intros Hs H. destruct (flush_keys_step _ _ _ _ _ _ _ _ 0 Hs H) as (_ & _ & Hg).
  apply all_none_empty. intros q. apply (Hg eq_refl).
  destruct (bget q (fs_buffers s)) eqn:E; [left|by right]. apply bget_is_Some_keys; [done|]. by rewrite E.
Qed.
End family.

(** ** The sink *)

Record accounted (k : L0StorageSink) : Prop := {
  ad_raw : ordered (sk_raw k);
  ad_health : ordered (sk_health k);
  ad_symbol_health : ordered (sk_symbol_health k);
  ad_gap : ordered (sk_gap k);
  ad_tally : tally (zlen (spool_keys k)) (sk_core k);
}.

Definition files_of {K R} (s : FamilyState K R) : Z := zlen (fs_spool s).

Lemma spool_keys_length k : zlen (spool_keys k) =
  files_of (sk_raw k) + files_of (sk_health k) + files_of (sk_symbol_health k) + files_of (sk_gap k).
Proof. unfold spool_keys, files_of. rewrite !zlen_app, !fmap_zlen. lia. Qed.

(** The four states, the files together and the counters. *)
Definition accounted_parts (raw : FamilyState RawPartitionKey RawMarketEventRecord)
    (health : FamilyState HealthPartitionKey SourceHealthRecord)
    (symbol_health : FamilyState HealthPartitionKey SymbolHealthRecord)
    (gap : FamilyState GapPartitionKey GapAlertRecord) (c : Core) : Prop :=
  ordered raw /\ ordered health /\ ordered symbol_health /\ ordered gap /\
  tally (files_of raw + files_of health + files_of symbol_health + files_of gap) c.

Lemma accounted_iff cfg raw health symbol_health gap c :
  accounted (mkSink cfg raw health symbol_health gap c) <-> accounted_parts raw health symbol_health gap c.
Proof.
  unfold accounted_parts. split.
  - intros [H1 H2 H3 H4 H5]. rewrite spool_keys_length in H5. done.
  - intros (H1 & H2 & H3 & H4 & H5). split; try done. by rewrite spool_keys_length.
Qed.

Lemma accounted_new cfg k : sink_new cfg = Ok k -> accounted k /\ sk_config k = cfg.
Proof.
  unfold sink_new. destruct (validate_config cfg); [|done]. intros [= <-]. split; [|done].
  apply accounted_iff. split_and!; try apply bmap_ok_nil. by exists 0, 0.
Qed.

Lemma spent_ordinal_tally n c : tally n (take_ordinal c).2 <-> tally n c.
Proof. done. Qed.

Lemma flush_all_step io k r k' : accounted k -> flush_all io k = (r, k') ->
  accounted k' /\ sk_config k' = sk_config k /\ (r = Ok () -> sink_empty k').
Proof.
  destruct k as [cfg raw health sym gap c]. intros (H1 & H2 & H3 & H4 & Ht)%accounted_iff H.
  unfold flush_all in H. cbn [sk_config sk_raw sk_health sk_symbol_health sk_gap sk_core] in H.
  set (n := files_of raw + files_of health + files_of sym + files_of gap) in Ht.
  destruct (flush_keys io cfg _ raw c) as [[r1 raw'] c1] eqn:E1.
  destruct (flush_keys_step _ _ _ _ _ _ _ _ n H1 E1) as (H1' & T1 & _). specialize (T1 Ht).
  destruct r1 as [[]|]; [|injection H as <- <-; split; [|done]; apply accounted_iff; split_and!; try done;
    by replace (files_of raw' + _ + _ + _) with (n + (zlen (fs_spool raw') - zlen (fs_spool raw))) by (unfold n, files_of; lia)].
  set (n1 := n + _) in T1.
  destruct (flush_keys io cfg _ health c1) as [[r2 health'] c2] eqn:E2.
  destruct (flush_keys_step _ _ _ _ _ _ _ _ n1 H2 E2) as (H2' & T2 & _). specialize (T2 T1).
  destruct r2 as [[]|]; [|injection H as <- <-; split; [|done]; apply accounted_iff; split_and!; try done;
    by replace (_ + files_of gap) with (n1 + (zlen (fs_spool health') - zlen (fs_spool health))) by (unfold n1, n, files_of; lia)].
  set (n2 := n1 + _) in T2.
  destruct (flush_keys io cfg _ sym c2) as [[r3 sym'] c3] eqn:E3.
  destruct (flush_keys_step _ _ _ _ _ _ _ _ n2 H3 E3) as (H3' & T3 & _). specialize (T3 T2).
  destruct r3 as [[]|]; [|injection H as <- <-; split; [|done]; apply accounted_iff; split_and!; try done;
    by replace (_ + files_of gap) with (n2 + (zlen (fs_spool sym') - zlen (fs_spool sym))) by (unfold n2, n1, n, files_of; lia)].
  set (n3 := n2 + _) in T3.
  destruct (flush_keys io cfg _ gap c3) as [[r4 gap'] c4] eqn:E4.
  destruct (flush_keys_step _ _ _ _ _ _ _ _ n3 H4 E4) as (H4' & T4 & _). specialize (T4 T3).
  assert (Ha : accounted (mkSink cfg raw' health' sym' gap' c4)).
  { apply accounted_iff. split_and!; try done.
    by replace (_ + files_of gap') with (n3 + (zlen (fs_spool gap') - zlen (fs_spool gap)))
      by (unfold n3, n2, n1, n, files_of; lia). }
  destruct r4 as [[]|]; [|by injection H as <- <-]. injection H as Hl <-. split; [done|]. split; [done|].
  intros _. split_and!; [exact (flush_own_keys _ _ _ _ _ _ H1 E1)|exact (flush_own_keys _ _ _ _ _ _ H2 E2)
    |exact (flush_own_keys _ _ _ _ _ _ H3 E3)|exact (flush_own_keys _ _ _ _ _ _ H4 E4)].
Qed.

(** An append to one family. *)
Lemma accounted_append {K R} {FA : Family K R} {HK : StrictKey K} io cfg x s c r s' c' n m :
  append_record io cfg x s c = (r, s', c') -> ordered s -> tally n c -> m = n - files_of s + files_of s' ->
  ordered s' /\ tally m c'.
Proof.
  intros H Hs Ht ->. destruct (append_record_step _ _ _ _ _ _ _ _ n Hs H) as [Ho Hn].
  split; [done|]. specialize (Hn Ht). by replace (n - _ + _) with (n + (zlen (fs_spool s') - zlen (fs_spool s)))
    by (unfold files_of; lia).
Qed.

Ltac appended E := destruct (append_record _ _ _ _ _) as [[r s'] c'] eqn:E; split; [|done]; apply accounted_iff;
  eapply accounted_append in E; [|done|done|reflexivity];
  destruct E as [Ho Hn]; split_and!; try done; revert Hn; match goal with |- tally ?a _ -> tally ?b _ =>
    by replace b with a by lia end.

Lemma accounted_step io op k : is_manifest op = false -> accounted k ->
  accounted (sink_step io op k).2 /\ sk_config (sink_step io op k).2 = sk_config k.
Proof.
  intros Hop Ha. destruct op as [d|d|d|d| |]; [..|done].
  5: { cbn. destruct (flush_all io k) as [r k'] eqn:E. by destruct (flush_all_step _ _ _ _ Ha E) as (? & ? & _). }
  all: destruct k as [cfg raw health sym gap c]; apply accounted_iff in Ha as (H1 & H2 & H3 & H4 & Ht).
  all: cbn [sink_step]; unfold append_raw_market_event, append_source_health, append_symbol_health, append_gap_alert;
    cbn [sk_config sk_raw sk_health sk_symbol_health sk_gap sk_core take_ordinal].
  1: destruct (io_live_publish io _); [|split; [by apply accounted_iff|done]].
  all: appended E.
Qed.

Lemma accounted_reaches k k' : reaches k k' -> accounted k -> accounted k' /\ sk_config k' = sk_config k.
Proof.
  induction 1 as [k|k k1 k2 Hs Hr IH]; intros Ha; [done|]. destruct Hs as [io op Hop].
  destruct (accounted_step io op k Hop Ha) as [H1 H2]. destruct (IH H1) as [H3 H4]. split; [done|congruence].
Qed.

(** ** The end of a run *)

(** The sink after a flush and the manifest: nothing is buffered, and every file is
    uploaded or counted as failed; the manifest is an upload of its own. *)
Record closed (k : L0StorageSink) : Prop := {
  cl_empty : sink_empty k;
  cl_manifest : co_manifest_key (sk_core k) = Some ("runs/run_id=" ++ cf_run_id (sk_config k) ++ "/manifest.json")%string;
  cl_counts : exists up failed, 0 <= up /\ 0 <= failed /\ zlen (spool_keys k) = up + failed /\
    co_uploaded_object_count (sk_core k) = wrap Usize (up + 1) /\
    co_failed_upload_count (sk_core k) = wrap Usize failed;
}.

Lemma manifest_closes io k k' : accounted k -> sink_empty k -> sink_step io OpManifest k = (Ok (), k') -> closed k'.
Proof.
  intros [_ _ _ _ (up & failed & H1 & H2 & H3 & H4 & H5)] He H. cbn in H. unfold upload_manifest in H.
  destruct (append_capped _ _ _ _) as [objects dropped]. destruct (io_upload_json _ _ _); [|done].
  injection H as <-. unfold record_uploaded_object. destruct (push_capped_deque _ _ _ _) as [os d].
  split; [done|done|]. exists up, failed. cbn. rewrite H4. split_and!; try done. apply wrap_succ.
Qed.

Lemma sink_run_app ops ops' k : sink_run (ops ++ ops') k =
  match sink_run ops k with (Ok _, k) => sink_run ops' k | failed => failed end.
Proof.
  revert k. induction ops as [|[io op] ops IH]; intros k; [done|]. cbn [sink_run app].
  destruct (sink_step io op k) as [[u|e] k1]; [apply IH|done].
Qed.

Lemma sink_run_app_ok ops ops' k k1 : sink_run ops k = (Ok (), k1) ->
  sink_run (ops ++ ops') k = sink_run ops' k1.
Proof. intros H. by rewrite sink_run_app, H. Qed.

Lemma sink_run_reaches ops k r k' : Forall (fun o => is_manifest o.2 = false) ops ->
  sink_run ops k = (r, k') -> reaches k k'.
Proof.
  intros Hops. revert k. induction Hops as [|[io op] ops Hop Hops IH]; intros k H; cbn [sink_run] in H.
  { injection H as _ <-. constructor. }
  destruct (sink_step io op k) as [[u|e] k1] eqn:E.
  - etransitivity; [by eapply step_reaches|by apply IH].
  - injection H as _ <-. by eapply step_reaches.
Qed.

(** Appends, a flush and the manifest, all successful, close the sink. *)
Lemma run_closes ops io1 io2 k k' : Forall (fun o => is_manifest o.2 = false) ops -> accounted k ->
  sink_run (ops ++ [(io1, OpFlushAll); (io2, OpManifest)]) k = (Ok (), k') -> closed k' /\ sk_config k' = sk_config k.
Proof.
  intros Hops Ha H. rewrite sink_run_app in H. destruct (sink_run ops k) as [r k1] eqn:E1.
  destruct (accounted_reaches k k1) as [Ha1 Hc1]; [by eapply sink_run_reaches|done|].
  destruct r as [[]|]; [|done]. cbn [sink_run] in H.
  destruct (sink_step io1 OpFlushAll k1) as [[[]|] k2] eqn:E2; [|done].
  destruct (flush_all_step io1 k1 _ k2 Ha1 E2) as (Ha2 & Hc2 & He2).
  destruct (sink_step io2 OpManifest k2) as [[[]|] k3] eqn:E3; [|done]. injection H as <-.
  split; [by eapply manifest_closes; [|by apply He2|]|].
  cbn in E3. unfold upload_manifest in E3. destruct (append_capped _ _ _ _). destruct (io_upload_json _ _ _); [|done].
  injection E3 as <-. cbn. congruence.
Qed.
End reach.
