(* ===== verification/Retention.v ===== *)
(** * Retention: deleting expired objects from S3

    [src/storage/retention]: the configuration and its validation, the decision
    for one object, the bounded plan of deletions and its execution.  The bucket is
    a parameter: [listing] answers the paged listing of a prefix and [delete] one
    deletion. *)
From S2P Require Import Prelude Text Records.
Open Scope Z_scope.

(* rust: src/storage/s3_upload.rs S3ObjectSummary *)
Record S3ObjectSummary := mkObject {
  ob_key : string; ob_last_modified_ms : option Z; ob_size_bytes : Z }.

(* rust: src/storage/retention/config.rs S3RetentionConfig *)
Record S3RetentionConfig := mkRetention {
  rc_bucket : string;
  rc_region : string;
  rc_profile : option string;
  rc_prefixes : list string;
  rc_protected_prefixes : list string;
  rc_retention_secs : Z;
  rc_max_deletes_per_run : Z;
}.

(* rust: src/storage/retention/config.rs S3RetentionStats *)
Record S3RetentionStats := mkRetStats {
  rs_scanned_object_count : Z;
  rs_missing_last_modified_count : Z;
  rs_protected_object_count : Z;
  rs_expired_object_count : Z;
  rs_deleted_object_count : Z;
  rs_failed_delete_count : Z;
  rs_deleted_bytes : Z;
  rs_max_deleted_age_secs : Z;
  rs_stopped_at_delete_limit : bool;
}.

Definition retention_stats_default : S3RetentionStats := mkRetStats 0 0 0 0 0 0 0 0 false.

(* rust: src/storage/retention/config.rs default_l0_retention_prefixes *)
Definition default_l0_retention_prefixes : list string :=
  ["raw_market_event/"; "source_health/"; "symbol_health/"; "gap_alert/"; "runs/"]%string.

(* rust: src/storage/retention/config.rs default_l1_retention_prefixes *)
Definition default_l1_retention_prefixes : list string :=
  ["normalized_market_slice/"; "normalization_report/"; "market_data_quality_summary/";
   "market_feature_delta/"; "market_feature_delta_summary/"; "market_regime_context/";
   "symbol_universe_snapshot/"; "runs/"; "l1_index/"]%string.

(* rust: src/storage/retention/config.rs l0_s3_retention_config *)
Definition l0_s3_retention_config (bucket region : string) (profile : option string)
    (retention_days max_deletes : Z) : S3RetentionConfig :=
  mkRetention bucket region profile default_l0_retention_prefixes []
    (saturate I64 (retention_days * 86400)) max_deletes.

(* rust: src/storage/retention/config.rs l1_s3_retention_config *)
Definition l1_s3_retention_config (bucket region : string) (profile : option string)
    (retention_days max_deletes : Z) : S3RetentionConfig :=
  mkRetention bucket region profile default_l1_retention_prefixes []
    (saturate I64 (retention_days * 86400)) max_deletes.

(* rust: src/storage/retention/config.rs validate_config *)
Definition validate_config (c : S3RetentionConfig) : result StorageError () :=
  if str_is_empty (trim (rc_bucket c)) then Err (SInvalidConfig "s3 retention bucket is required") else
  match rc_prefixes c with
  | [] => Err (SInvalidConfig "s3 retention prefixes are required")
  | _ =>
      if rc_retention_secs c <=? 0
      then Err (SInvalidConfig "s3 retention seconds must be positive") else
      if rc_max_deletes_per_run c =? 0
      then Err (SInvalidConfig "s3 retention max deletes per run must be positive")
      else Ok ()
  end.

(** ** Planning *)

(* rust: src/storage/retention/planner.rs RetentionDecision *)
Inductive RetentionDecision :=
| Keep
| MissingLastModified
| Protected
| Delete (age_secs : Z).

(* rust: src/storage/retention/planner.rs RetentionDeleteCandidate *)
Record RetentionDeleteCandidate := mkCandidate {
  dc_key : string; dc_size_bytes : Z; dc_age_secs : Z }.

(* rust: src/storage/retention/planner.rs is_protected_key *)
Definition is_protected_key (key : string) (protected_prefixes : list string) : bool :=
  existsb (fun p => negb (str_is_empty p) && starts_with p key) protected_prefixes.

(* rust: src/storage/retention/planner.rs retention_decision *)
Definition retention_decision (c : S3RetentionConfig) (now_ms : Z) (o : S3ObjectSummary)
    : RetentionDecision :=
  if is_protected_key (ob_key o) (rc_protected_prefixes c) then Protected else
  match ob_last_modified_ms o with
  | None => MissingLastModified
  | Some last_modified_ms =>
      let age_ms := saturate I64 (now_ms - last_modified_ms) in
      let retention_ms := saturate I64 (rc_retention_secs c * 1000) in
      if age_ms <? retention_ms then Keep else Delete (Z.quot age_ms 1000)
  end.

(** The statistics and the candidates gathered so far. *)
Record PlanState := mkPlan {
  pl_stats : S3RetentionStats; pl_candidates : list RetentionDeleteCandidate }.

Definition bump_scan (missing protected expired : Z) (stop : bool) (s : S3RetentionStats)
    : S3RetentionStats :=
  mkRetStats (wrap Usize (rs_scanned_object_count s + 1))
    (wrap Usize (rs_missing_last_modified_count s + missing))
    (wrap Usize (rs_protected_object_count s + protected))
    (wrap Usize (rs_expired_object_count s + expired))
    (rs_deleted_object_count s) (rs_failed_delete_count s) (rs_deleted_bytes s)
    (rs_max_deleted_age_secs s) (rs_stopped_at_delete_limit s || stop).

(* rust: src/storage/retention/planner.rs observe_retention_object *)
Definition observe_retention_object (c : S3RetentionConfig) (now_ms : Z) (p : PlanState)
    (o : S3ObjectSummary) : PlanState :=
  match retention_decision c now_ms o with
  | Keep => mkPlan (bump_scan 0 0 0 false (pl_stats p)) (pl_candidates p)
  | MissingLastModified => mkPlan (bump_scan 1 0 0 false (pl_stats p)) (pl_candidates p)
  | Protected => mkPlan (bump_scan 0 1 0 false (pl_stats p)) (pl_candidates p)
  | Delete age_secs =>
      if rc_max_deletes_per_run c <=? zlen (pl_candidates p)
      then mkPlan (bump_scan 0 0 1 true (pl_stats p)) (pl_candidates p)
      else mkPlan (bump_scan 0 0 1 false (pl_stats p))
             (pl_candidates p ++ [mkCandidate (ob_key o) (ob_size_bytes o) age_secs])
  end.

(** ** One run *)

Definition record_delete (answer : result StorageError ()) (cand : RetentionDeleteCandidate)
    (s : S3RetentionStats) : S3RetentionStats :=
  match answer with
  | Ok _ =>
      mkRetStats (rs_scanned_object_count s) (rs_missing_last_modified_count s)
        (rs_protected_object_count s) (rs_expired_object_count s)
        (wrap Usize (rs_deleted_object_count s + 1)) (rs_failed_delete_count s)
        (saturate U64 (rs_deleted_bytes s + dc_size_bytes cand))
        (Z.max (rs_max_deleted_age_secs s) (dc_age_secs cand)) (rs_stopped_at_delete_limit s)
  | Err _ =>
      mkRetStats (rs_scanned_object_count s) (rs_missing_last_modified_count s)
        (rs_protected_object_count s) (rs_expired_object_count s)
        (rs_deleted_object_count s) (wrap Usize (rs_failed_delete_count s + 1))
        (rs_deleted_bytes s) (rs_max_deleted_age_secs s) (rs_stopped_at_delete_limit s)
  end.

Section run.
Context (listing : string -> result StorageError (list S3ObjectSummary)).
Context (delete : string -> result StorageError ()).

Definition scan (c : S3RetentionConfig) (now_ms : Z) : result StorageError PlanState :=
  try_fold (fun p prefix =>
    objects ← listing prefix; Ok (fold_left (observe_retention_object c now_ms) objects p))
    (mkPlan retention_stats_default []) (rc_prefixes c).

(** The statistics, and the keys [delete] was called with, in order. *)
(* rust: src/storage/retention/runner.rs run_s3_retention_once_with_uploader *)
Definition run_s3_retention_once_with_uploader (c : S3RetentionConfig) (now_ms : Z)
    : result StorageError (S3RetentionStats * list string) :=
  p ← scan c now_ms;
  Ok (fold_left (fun s cand => record_delete (delete (dc_key cand)) cand s)
        (pl_candidates p) (pl_stats p),
      dc_key <$> pl_candidates p).

(* rust: src/storage/retention/runner.rs run_s3_retention_once *)
Definition run_s3_retention_once (c : S3RetentionConfig) (now_ms : Z)
    : result StorageError (S3RetentionStats * list string) :=
  _ ← validate_config c;
  run_s3_retention_once_with_uploader c now_ms.
End run.

(** ** Lemmas *)

(** An object that may be deleted at [now_ms]. *)
Definition expired (c : S3RetentionConfig) (now_ms : Z) (o : S3ObjectSummary) : Prop :=
  exists t, ob_last_modified_ms o = Some t /\
    saturate I64 (rc_retention_secs c * 1000) <= saturate I64 (now_ms - t) /\
    is_protected_key (ob_key o) (rc_protected_prefixes c) = false.

#[export] Instance expired_dec c now o : Decision (expired c now o).
Proof.
  destruct (ob_last_modified_ms o) as [t|] eqn:E.
  - destruct (decide (saturate I64 (rc_retention_secs c * 1000) <= saturate I64 (now - t) /\
      is_protected_key (ob_key o) (rc_protected_prefixes c) = false)) as [H|H].
    + left. exists t. by destruct H.
    + right. intros (t' & Ht & H'). apply H. congruence.
  - right. intros (t' & Ht & _). congruence.
Defined.

Lemma decision_delete c now o age :
  retention_decision c now o = Delete age <->
  expired c now o /\ exists t, ob_last_modified_ms o = Some t /\
    age = Z.quot (saturate I64 (now - t)) 1000.
Proof.
  unfold retention_decision, expired. destruct (is_protected_key _ _).
  { split; [done|]. by intros [(? & _ & _ & ?) _]. }
  destruct (ob_last_modified_ms o) as [t|].
  2: { split; [done|]. by intros [(? & ? & _) _]. }
  destruct (Z.ltb_spec (saturate I64 (now - t)) (saturate I64 (rc_retention_secs c * 1000))).
  - split; [done|]. intros [(t' & [= <-] & ? & _) _]. lia.
  - split; [intros [= <-]; split; eexists; eauto|]. intros [_ (t' & [= <-] & ->)]. done.
Qed.

(** What a plan over the objects seen so far satisfies. *)
Record plan_inv (c : S3RetentionConfig) (now : Z) (seen : list S3ObjectSummary) (p : PlanState)
    : Prop := {
  pi_limit : zlen (pl_candidates p) <= rc_max_deletes_per_run c;
  pi_sound : Forall (fun d => exists o, o ∈ seen /\ expired c now o /\ dc_key d = ob_key o /\
    dc_size_bytes d = ob_size_bytes o) (pl_candidates p);
  pi_complete : rs_stopped_at_delete_limit (pl_stats p) = false ->
    dc_key <$> pl_candidates p = ob_key <$> filter (expired c now) seen;
  pi_stopped : rs_stopped_at_delete_limit (pl_stats p) = true ->
    zlen (pl_candidates p) = rc_max_deletes_per_run c /\
    zlen (pl_candidates p) < zlen (filter (expired c now) seen);
  pi_prefix : dc_key <$> pl_candidates p `prefix_of` ob_key <$> filter (expired c now) seen;
}.

Lemma zlen_filter_snoc {A} (P : A -> Prop) `{forall x, Decision (P x)} l x :
  filter P (l ++ [x]) = if decide (P x) then filter P l ++ [x] else filter P l.
Proof.
  rewrite filter_app. cbn. destruct (decide (P x)); [done|]. by rewrite app_nil_r.
Qed.

Lemma observe_inv c now seen p o :
  plan_inv c now seen p -> plan_inv c now (seen ++ [o]) (observe_retention_object c now p o).
Proof.
  intros [Hl Hs Hc Ht Hp].
  assert (Hs' : Forall (fun d => exists o', o' ∈ seen ++ [o] /\ expired c now o' /\
    dc_key d = ob_key o' /\ dc_size_bytes d = ob_size_bytes o') (pl_candidates p)).
  { eapply Forall_impl; [exact Hs|]. intros d (o' & ? & ?). exists o'.
    split; [|done]. apply elem_of_app. by left. }
  unfold observe_retention_object.
  destruct (retention_decision c now o) as [| | |age] eqn:E.
  1-3: assert (Hne : ~ expired c now o)
    by (intros (t & Ht1 & Ht2 & Ht3); unfold retention_decision in E; rewrite Ht3, Ht1 in E;
        destruct (Z.ltb_spec (saturate I64 (now - t)) (saturate I64 (rc_retention_secs c * 1000)));
        [lia | done]).
  1-3: split; cbn; rewrite ?orb_false_r, ?zlen_filter_snoc, ?decide_False by done; done.
  apply decision_delete in E as [He (t & Ht1 & _)].
  destruct (Z.leb_spec (rc_max_deletes_per_run c) (zlen (pl_candidates p))) as [Hfull|Hroom].
  - split; cbn; [done | done | by rewrite orb_true_r | |].
    2: { rewrite zlen_filter_snoc, decide_True, fmap_app by done. by apply prefix_app_r. }
    intros _. rewrite zlen_filter_snoc, decide_True, zlen_snoc by done. split; [lia|].
    destruct (rs_stopped_at_delete_limit (pl_stats p)); [destruct (Ht eq_refl); lia|].
    specialize (Hc eq_refl). apply (f_equal zlen) in Hc. unfold zlen in *.
    rewrite !length_fmap in Hc. lia.
  - split; cbn.
    + rewrite zlen_snoc. lia.
    + apply Forall_app. split; [done|]. constructor; [|constructor]. exists o.
      split; [apply elem_of_app; right; by apply list_elem_of_singleton|]. done.
    + rewrite orb_false_r, zlen_filter_snoc, decide_True, !fmap_app by done.
      intros Hst. by rewrite (Hc Hst).
    + rewrite orb_false_r. intros Hst. destruct (Ht Hst). lia.
    + rewrite zlen_filter_snoc, decide_True, !fmap_app by done.
      destruct (rs_stopped_at_delete_limit (pl_stats p)); [destruct (Ht eq_refl); lia|].
      by rewrite (Hc eq_refl).
Qed.

Lemma observe_all_inv c now os seen p :
  plan_inv c now seen p ->
  plan_inv c now (seen ++ os) (fold_left (observe_retention_object c now) os p).
Proof.
  revert seen p. induction os as [|o os IH]; intros seen p Hi; cbn; [by rewrite app_nil_r|].
  replace (seen ++ o :: os) with ((seen ++ [o]) ++ os) by (by rewrite <- app_assoc).
  apply IH. by apply observe_inv.
Qed.

Lemma scan_inv listing c now p :
  0 <= rc_max_deletes_per_run c -> scan listing c now = Ok p ->
  exists listed, try_map listing (rc_prefixes c) = Ok listed /\ plan_inv c now (List.concat listed) p.
Proof.
  intros Hmax. unfold scan.
  assert (H : forall prefixes seen p0, plan_inv c now seen p0 ->
    try_fold (fun p prefix => objects ← listing prefix;
      Ok (fold_left (observe_retention_object c now) objects p)) p0 prefixes = Ok p ->
    exists listed, try_map listing prefixes = Ok listed /\
      plan_inv c now (seen ++ List.concat listed) p).
  { induction prefixes as [|pre prefixes IH]; intros seen p0 Hi H; cbn in H |- *.
    - injection H as <-. exists []. cbn. by rewrite app_nil_r.
    - destruct (listing pre) as [objects|]; [|done]. cbn in H |- *.
      destruct (IH (seen ++ objects) _ (observe_all_inv c now objects seen p0 Hi) H) as (l & -> & Hl).
      cbn. exists (objects :: l). split; [done|]. cbn. by rewrite <- app_assoc in Hl. }
  intros Hp. destruct (H (rc_prefixes c) [] (mkPlan retention_stats_default [])) as (l & Hl & Hi);
    [|done|by exists l].
  by split.
Qed.

(** What a run deletes, for the clients of the run. *)
Lemma run_deletes listing delete c now stats deleted : 0 <= rc_max_deletes_per_run c ->
  run_s3_retention_once listing delete c now = Ok (stats, deleted) ->
  exists listed p, try_map listing (rc_prefixes c) = Ok listed /\ plan_inv c now (List.concat listed) p /\
    deleted = dc_key <$> pl_candidates p /\ 0 < rc_retention_secs c.
Proof.
  intros Hmax H. unfold run_s3_retention_once, run_s3_retention_once_with_uploader in H.
  inv_bind H. inv_bind H. injection H as _ <-.
  destruct (scan_inv listing c now a0 Hmax Em0) as (listed & Hl & Hi). exists listed, a0. split_and!; try done.
  unfold validate_config in Em. destruct (str_is_empty _); [done|]. destruct (rc_prefixes c); [done|].
  by destruct (Z.leb_spec (rc_retention_secs c) 0).
Qed.

(** a retention run that returns deletes only keys of listed objects that
    carry a modification time, match no protected prefix and are at least
    [retention_secs] old; it attempts at most [max_deletes_per_run] deletions; and
    unless it reports stopping at that limit it attempts exactly the expired
    objects, in listing order. *)
Theorem retention_deletes_only_expired listing delete (c : S3RetentionConfig) (now : Z)
    (stats : S3RetentionStats) (deleted : list string) :
  0 <= rc_max_deletes_per_run c ->
  run_s3_retention_once listing delete c now = Ok (stats, deleted) ->
  exists listed, try_map listing (rc_prefixes c) = Ok listed /\
    let objects := List.concat listed in
    (forall key, key ∈ deleted -> exists o, o ∈ objects /\ ob_key o = key /\ expired c now o) /\
    zlen deleted <= rc_max_deletes_per_run c /\
    (rs_stopped_at_delete_limit stats = false ->
       deleted = ob_key <$> filter (expired c now) objects) /\
    (rs_stopped_at_delete_limit stats = true ->
       zlen deleted = rc_max_deletes_per_run c /\
       zlen deleted < zlen (filter (expired c now) objects)).
Proof.
  intros Hmax H. unfold run_s3_retention_once, run_s3_retention_once_with_uploader in H.
  inv_bind H. inv_bind H. injection H as <- <-. rename a0 into p.
  destruct (scan_inv listing c now p Hmax Em0) as (listed & Hl & [Hlim Hs Hc Ht _]).
  exists listed. split; [done|]. cbv zeta.
  assert (Hstop : forall cs s, rs_stopped_at_delete_limit
    (fold_left (fun s cand => record_delete (delete (dc_key cand)) cand s) cs s) =
    rs_stopped_at_delete_limit s).
  { induction cs as [|x cs IH]; intros s; cbn; [done|]. rewrite IH. unfold record_delete.
    by destruct (delete (dc_key x)). }
  rewrite Hstop.
  assert (Hz : zlen (dc_key <$> pl_candidates p) = zlen (pl_candidates p))
    by (unfold zlen; by rewrite length_fmap).
  split; [|rewrite Hz; by split].
  intros key (d & -> & Hd)%list_elem_of_fmap. rewrite Forall_forall in Hs.
  destruct (Hs d Hd) as (o & ? & ? & ? & _). by exists o.
Qed.

Lemma retention_deletes_only_expired_witness :
  let listing prefix := Ok (if String.eqb prefix "runs/"
    then [mkObject "runs/a" (Some 0) 10; mkObject "runs/b" (Some 9000000000) 10;
          mkObject "runs/c" None 10] else []) in
  let c := l0_s3_retention_config "b" "r" None 1 100 in
  exists stats, run_s3_retention_once listing (fun _ => Ok ()) c 9000000001 = Ok (stats, ["runs/a"]%string) /\
    zlen ["runs/a"]%string <= 100.
Proof.
  intros listing c. eexists. split; [by vm_compute|].
  edestruct (retention_deletes_only_expired listing (fun _ => Ok ()) c 9000000001) as (l & _ & _ & H & _);
    [by vm_compute | by vm_compute | exact H].
Defined.
