(* ===== verification/S3Client.v ===== *)
(** * S3Client: requests against the object store

    [src/storage/s3_upload]: uploads with bounded retries and conditional pointer
    writes, existence checks, optional downloads and paged listings.  The SDK is the
    class [ObjectStore]: it answers one request in a world that other clients may
    change as well. *)
From S2P Require Import Prelude Text OrderedMap Records Retention.
From Stdlib Require Import Sorting.Sorted.
Open Scope Z_scope.

(** An error of the SDK: the code and the message of its service error, and its
    rendering. *)
Record ServiceError := mkServiceError {
  se_code : option string; se_message : option string; se_display : string }.

Record PutRequest (B : Type) := mkPut {
  pq_bucket : string; pq_key : string; pq_body : B; pq_content_type : string;
  pq_if_match : option string; pq_if_none_match : option string }.
Arguments mkPut {B}. Arguments pq_bucket {B}. Arguments pq_key {B}. Arguments pq_body {B}.
Arguments pq_content_type {B}. Arguments pq_if_match {B}. Arguments pq_if_none_match {B}.

Record ListRequest := mkList {
  lq_bucket : string; lq_prefix : string; lq_token : option string; lq_max_keys : option Z }.
(** An object of a listing: key, last modification in milliseconds, size. *)
Record ListedObject := mkListed {
  lo_key : option string; lo_last_modified : option Z; lo_size : option Z }.
Record ListOutput := mkListOutput {
  ls_contents : list ListedObject; ls_is_truncated : option bool; ls_next_token : option string }.

Class ObjectStore (W B : Type) := {
  os_put : PutRequest B -> W -> W * result ServiceError ();
  os_head : string -> string -> W -> W * result ServiceError (option string);
  os_get : string -> string -> W -> W * result ServiceError B;
  os_list : ListRequest -> W -> W * result ServiceError ListOutput;
  os_delete : string -> string -> W -> W * result ServiceError ();
  os_sleep : Z -> W -> W;
}.

(** ** Errors and retries *)

(* rust: src/storage/s3_upload/errors.rs MAX_PUT_OBJECT_ATTEMPTS *)
Definition MAX_PUT_OBJECT_ATTEMPTS : Z := 4.
(* rust: src/storage/s3_upload/errors.rs INITIAL_RETRY_DELAY_MS *)
Definition INITIAL_RETRY_DELAY_MS : Z := 250.
(* rust: src/storage/s3_upload/errors.rs MAX_RETRY_DELAY_MS *)
Definition MAX_RETRY_DELAY_MS : Z := 2000.

(* rust: src/storage/s3_upload/errors.rs is_not_found_code *)
Definition is_not_found_code (code : string) : bool :=
  String.eqb code "404" || String.eqb code "NoSuchKey" || String.eqb code "NotFound".

(* rust: src/storage/s3_upload/errors.rs is_not_found_message *)
Definition is_not_found_message (message : string) : bool :=
  contains "NoSuchKey" message || contains "NotFound" message || contains "404" message.

(* rust: src/storage/s3_upload/errors.rs is_not_found_get_error *)
Definition is_not_found_get_error (error : ServiceError) : bool :=
  match se_code error with Some code => is_not_found_code code | None => false end
  || is_not_found_message (se_display error).

(* rust: src/storage/s3_upload/errors.rs is_not_found_head_error *)
Definition is_not_found_head_error (error : ServiceError) : bool :=
  match se_code error with Some code => is_not_found_code code | None => false end
  || is_not_found_message (se_display error).

(** Close the piece read so far, if it is not empty. *)
Definition flush_piece (cur : list ascii) (pieces : list string) : list string :=
  match cur with [] => pieces | _ => of_bytes (rev cur) :: pieces end.

(** [s.split_whitespace()]: [cur] is the piece read so far, backwards. *)
Fixpoint split_whitespace_bytes (cur l : list ascii) : list string :=
  match l with
  | [] => flush_piece cur []
  | a :: l1 =>
      if ws1 a then flush_piece cur (split_whitespace_bytes [] l1) else
      match l1 with
      | b :: l2 =>
          if ws2 a b then flush_piece cur (split_whitespace_bytes [] l2) else
          match l2 with
          | c :: l3 =>
              if ws3 a b c then flush_piece cur (split_whitespace_bytes [] l3)
              else split_whitespace_bytes (a :: cur) l1
          | [] => split_whitespace_bytes (a :: cur) l1
          end
      | [] => split_whitespace_bytes (a :: cur) l1
      end
  end.

(* rust: src/storage/s3_upload/errors.rs compact_error_message *)
Definition compact_error_message (value : string) : string :=
  Text.join " " (split_whitespace_bytes [] (bytes value)).

(* rust: src/storage/s3_upload/errors.rs is_retryable_put_object_code *)
Definition is_retryable_put_object_code (code : string) : bool :=
  existsb (String.eqb code)
    ["unknown"; "InternalError"; "RequestTimeout"; "ServiceUnavailable"; "SlowDown"; "Throttling";
     "ThrottlingException"; "TooManyRequestsException"]%string
  || starts_with "5" code.

(* rust: src/storage/s3_upload/errors.rs PutObjectFailure *)
Record PutObjectFailure := mkPutFailure {
  pf_bucket : string; pf_key : string; pf_code : string; pf_message : string; pf_retryable : bool }.

Definition non_empty (s : string) : option string := if str_is_empty s then None else Some s.

(* rust: src/storage/s3_upload/errors.rs from_sdk_error *)
Definition from_sdk_error (bucket key : string) (error : ServiceError) : PutObjectFailure :=
  let code := default "unknown"%string (c ← se_code error; non_empty c) in
  let message := default (compact_error_message (se_display error))
    (m ← se_message error; non_empty (compact_error_message m)) in
  mkPutFailure bucket key code message (is_retryable_put_object_code code).

Definition quoted (s : string) : string := String (ascii_of_Z 34) (s ++ String (ascii_of_Z 34) "").

(* rust: src/storage/s3_upload/errors.rs render *)
Definition render (f : PutObjectFailure) (attempts : Z) : string :=
  ("put_object bucket=" ++ pf_bucket f ++ " key=" ++ pf_key f ++ " attempts=" ++ show_Z attempts
   ++ " code=" ++ pf_code f ++ " message=" ++ quoted (pf_message f))%string.

(* rust: src/storage/s3_upload/errors.rs stable_jitter_ms *)
Definition stable_jitter_ms (key : string) : Z :=
  Z.rem (fold_left (fun acc value => wrap U64 (acc + byte_val value)) (bytes key) 0) 100.

(** [base.saturating_pow(exponent)] on [u64] *)
Definition saturating_pow_u64 (base exponent : Z) : Z := saturate U64 (base ^ exponent).

(* rust: src/storage/s3_upload/errors.rs retry_delay *)
Definition retry_delay (attempt : Z) (key : string) : Z :=
  let exponent := Z.min (saturate Usize (attempt - 1)) (int_max U32) in
  let backoff_ms :=
    Z.min (saturate U64 (INITIAL_RETRY_DELAY_MS * saturating_pow_u64 2 exponent)) MAX_RETRY_DELAY_MS in
  saturate U64 (backoff_ms + stable_jitter_ms key).

(** ** Requests *)

Section requests.
Context {W B : Type} {OS : ObjectStore W B}.
Context (bucket : string).

Definition request_failed (head : string) (e : ServiceError) : StorageError :=
  SAws (head ++ " error=" ++ quoted (compact_error_message (se_display e)))%string.

(** The request of an upload: guarded by the version it replaces, or by the absence
    of the object when it is a pointer that does not exist yet. *)
Definition put_request (key : string) (body : B) (content_type : string)
    (expected_etag : option string) : PutRequest B :=
  match expected_etag with
  | Some etag => mkPut bucket key body content_type (Some etag) None
  | None =>
      if String.eqb content_type "application/json" && starts_with "l1_index/" key
      then mkPut bucket key body content_type None (Some "*"%string)
      else mkPut bucket key body content_type None None
  end.

Fixpoint put_attempts (n : nat) (attempt : Z) (request : PutRequest B) (w : W)
    : W * result StorageError () :=
  match n with
  | O => (w, Err (SAws ("put_object bucket=" ++ bucket ++ " key=" ++ pq_key request ++ " attempts="
                        ++ show_Z MAX_PUT_OBJECT_ATTEMPTS ++ " code=unknown message="
                        ++ quoted "retry exhausted")))
  | Datatypes.S n =>
      match os_put request w with
      | (w, Ok _) => (w, Ok ())
      | (w, Err error) =>
          let failure := from_sdk_error bucket (pq_key request) error in
          if (MAX_PUT_OBJECT_ATTEMPTS <=? attempt) || negb (pf_retryable failure)
          then (w, Err (SAws (render failure attempt)))
          else put_attempts n (attempt + 1) request (os_sleep (retry_delay attempt (pq_key request)) w)
      end
  end.

(* rust: src/storage/s3_upload/put.rs put_object_with_retry_guarded *)
Definition put_object_with_retry_guarded (key : string) (body : B) (content_type : string)
    (expected_etag : option string) (w : W) : W * result StorageError () :=
  put_attempts (Z.to_nat MAX_PUT_OBJECT_ATTEMPTS) 1
    (put_request key body content_type expected_etag) w.

(* rust: src/storage/s3_upload/put.rs put_object_with_retry *)
Definition put_object_with_retry (key : string) (body : B) (content_type : string) (w : W)
    : W * result StorageError () := put_object_with_retry_guarded key body content_type None w.

(** [read] is the local file: its bytes, or the error of reading it. *)
(* rust: src/storage/s3_upload/put.rs upload_file *)
Definition upload_file (key : string) (read : result StorageError B) (w : W)
    : W * result StorageError () :=
  match read with
  | Ok body => put_object_with_retry key body "application/vnd.apache.parquet" w
  | Err e => (w, Err e)
  end.

(* rust: src/storage/s3_upload/put.rs upload_json *)
Definition upload_json (key : string) (body : B) (w : W) : W * result StorageError () :=
  put_object_with_retry key body "application/json" w.

(* rust: src/storage/s3_upload/put.rs head_etag *)
Definition head_etag (key : string) (w : W) : W * result StorageError (option string) :=
  match os_head bucket key w with
  | (w, Ok e_tag) => (w, Ok e_tag)
  | (w, Err error) =>
      (w, if is_not_found_head_error error then Ok None
          else Err (request_failed ("head_object bucket=" ++ bucket ++ " key=" ++ key) error))
  end.

(* rust: src/storage/s3_upload/put.rs upload_json_if_pointer_current *)
Definition upload_json_if_pointer_current (key : string) (body : B) (w : W)
    : W * result StorageError () :=
  match head_etag key w with
  | (w, Ok etag) => put_object_with_retry_guarded key body "application/json" etag w
  | (w, Err e) => (w, Err e)
  end.

(** [decode] is [serde_json::from_slice] at the type asked for. *)
(* rust: src/storage/s3_upload/download.rs download_json_optional *)
Definition download_json_optional {T} (decode : B -> result StorageError T) (key : string) (w : W)
    : W * result StorageError (option T) :=
  match os_get bucket key w with
  | (w, Ok body) => (w, v ← decode body; Ok (Some v))
  | (w, Err error) =>
      (w, if is_not_found_get_error error then Ok None
          else Err (request_failed ("get_object bucket=" ++ bucket ++ " key=" ++ key) error))
  end.

(** [store] creates the directory of the path and writes the file. *)
(* rust: src/storage/s3_upload/download.rs download_file *)
Definition download_file (store : string -> B -> W -> W * result StorageError ()) (key path : string) (w : W)
    : W * result StorageError () :=
  match os_get bucket key w with
  | (w, Ok body) => store path body w
  | (w, Err error) =>
      (w, Err (request_failed ("get_object bucket=" ++ bucket ++ " key=" ++ key) error))
  end.

(* rust: src/storage/s3_upload/download.rs delete_object *)
Definition delete_object (key : string) (w : W) : W * result StorageError () :=
  match os_delete bucket key w with
  | (w, Ok _) => (w, Ok ())
  | (w, Err error) =>
      (w, Err (request_failed ("delete_object bucket=" ++ bucket ++ " key=" ++ key) error))
  end.

(** ** Listing *)

Definition summary_of (o : ListedObject) : option S3ObjectSummary :=
  key ← lo_key o;
  let size := default 0 (lo_size o) in
  Some (mkObject key (lo_last_modified o) (if size <? 0 then 0 else size)).

Definition page_summaries (out : ListOutput) : list S3ObjectSummary :=
  omap summary_of (ls_contents out).

(** The pages the loop asks for; [None] when [fuel] pages are not enough. *)
(* rust: src/storage/s3_upload/list.rs for_each_object_summary *)
Fixpoint for_each_object_summary (fuel : nat) (prefix : string) (token : option string)
    (visited : list S3ObjectSummary) (w : W)
    : option (W * result StorageError (list S3ObjectSummary)) :=
  match fuel with
  | O => None
  | Datatypes.S fuel =>
      match os_list (mkList bucket prefix token None) w with
      | (w, Err e) =>
          Some (w, Err (request_failed ("list_objects_v2 bucket=" ++ bucket ++ " prefix=" ++ prefix) e))
      | (w, Ok out) =>
          let visited := (visited ++ page_summaries out)%list in
          if default false (ls_is_truncated out) then
            match ls_next_token out with
            | Some next => for_each_object_summary fuel prefix (Some next) visited w
            | None => Some (w, Ok visited)
            end
          else Some (w, Ok visited)
      end
  end.

Definition summary_leb (a b : S3ObjectSummary) : bool := str_leb (ob_key a) (ob_key b).

(* rust: src/storage/s3_upload/list.rs list_object_summaries *)
Definition list_object_summaries (fuel : nat) (prefix : string) (w : W)
    : option (W * result StorageError (list S3ObjectSummary)) :=
  match for_each_object_summary fuel prefix None [] w with
  | Some (w, r) => Some (w, objects ← r; Ok (sort_by summary_leb objects))
  | None => None
  end.

(* rust: src/storage/s3_upload/list.rs list_keys *)
Definition list_keys (fuel : nat) (prefix : string) (w : W)
    : option (W * result StorageError (list string)) :=
  match list_object_summaries fuel prefix w with
  | Some (w, r) => Some (w, objects ← r; Ok (map ob_key objects))
  | None => None
  end.

(* rust: src/storage/s3_upload/list.rs list_keys_page *)
Definition list_keys_page (prefix : string) (max_keys : Z) (w : W)
    : W * result StorageError (list string) :=
  match os_list (mkList bucket prefix None (Some max_keys)) w with
  | (w, Ok out) => (w, Ok (sort_strings (omap lo_key (ls_contents out))))
  | (w, Err e) =>
      (w, Err (request_failed ("list_objects_v2 bucket=" ++ bucket ++ " prefix=" ++ prefix
                               ++ " max_keys=" ++ show_Z max_keys) e))
  end.
End requests.

(** ** Attempts *)

Section attempts.
Context {W B : Type} {OS : ObjectStore W B}.
Context (bucket : string).

(** The world after [n] failed attempts, each followed by its pause. *)
Fixpoint after_attempts (n : nat) (attempt : Z) (request : PutRequest B) (w : W) : W :=
  match n with
  | O => w
  | Datatypes.S n => after_attempts n (attempt + 1) request
      (os_sleep (retry_delay attempt (pq_key request)) (os_put request w).1)
  end.

Definition failure_of (request : PutRequest B) (e : ServiceError) : PutObjectFailure :=
  from_sdk_error bucket (pq_key request) e.

(** The attempts end at the [k]-th one after [k] retryable failures. *)
Definition ends_at (k : nat) (n : nat) (attempt : Z) (request : PutRequest B) (w : W) : Prop :=
  (forall i, (i < k)%nat -> exists e, (os_put request (after_attempts i attempt request w)).2 = Err e
     /\ pf_retryable (failure_of request e) = true) /\
  match os_put request (after_attempts k attempt request w) with
  | (w', Ok _) => put_attempts bucket n attempt request w = (w', Ok ())
  | (w', Err e) =>
      (Datatypes.S k = n \/ pf_retryable (failure_of request e) = false) /\
      put_attempts bucket n attempt request w
      = (w', Err (SAws (render (failure_of request e) (attempt + Z.of_nat k))))
  end.

Lemma put_attempts_run n attempt request w : (0 < n)%nat ->
  attempt + Z.of_nat n = MAX_PUT_OBJECT_ATTEMPTS + 1 ->
  exists k, (k < n)%nat /\ ends_at k n attempt request w.
Proof.
  unfold ends_at. revert attempt w. induction n as [|n IH]; [lia|]. intros attempt w _ Hn.
  cbn [put_attempts]. destruct (os_put request w) as [w1 [u|e]] eqn:Ep.
  - exists 0%nat. cbn [after_attempts]. rewrite Ep. split_and!; [lia|lia|done].
  - fold (failure_of request e). destruct (_ || _) eqn:Es.
    + exists 0%nat. cbn [after_attempts]. rewrite Ep, Z.add_0_r. split_and!; [lia|lia| |done].
      apply orb_true_iff in Es as [Es|Es]; bool_prop; [left; lia|by right].
    + bool_prop. destruct (IH (attempt + 1) (os_sleep (retry_delay attempt (pq_key request)) w1))
        as (k & Hk & Hfail & Hend); [lia..|].
      exists (Datatypes.S k). cbn [after_attempts]. rewrite Ep. cbn [fst].
      split_and!; [lia| |].
      * intros [|i] Hi; cbn [after_attempts]; rewrite Ep; cbn; [eauto|]. apply Hfail. lia.
      * replace (attempt + Z.of_nat (Datatypes.S k)) with (attempt + 1 + Z.of_nat k) by lia.
        revert Hend. destruct (os_put request (after_attempts k _ _ _)) as [w' [u|e']]; [done|]. intros [[->|?] ?]; auto.
Qed.
End attempts.

Lemma fold_wrap_nonneg l z : 0 <= z ->
  0 <= fold_left (fun acc value => wrap U64 (acc + byte_val value)) l z.
Proof.
  revert z. induction l as [|a l IH]; cbn [fold_left]; [done|]. intros z _. apply IH.
  apply (wrap_in_range U64).
Qed.

Lemma retry_delay_bounds attempt key : 1 <= attempt ->
  INITIAL_RETRY_DELAY_MS <= retry_delay attempt key < MAX_RETRY_DELAY_MS + 100.
Proof.
  intros Ha. unfold retry_delay, MAX_RETRY_DELAY_MS, INITIAL_RETRY_DELAY_MS, saturating_pow_u64.
  assert (Hj : 0 <= stable_jitter_ms key < 100).
  { apply Z.rem_bound_pos; [by apply fold_wrap_nonneg|lia]. }
  set (e := Z.min (saturate Usize (attempt - 1)) (int_max U32)).
  assert (He : 0 <= e) by (unfold e, saturate; cbn; lia).
  assert (Hp : 1 <= 2 ^ e) by (apply (Z.pow_le_mono_r 2 0 e); lia).
  unfold saturate; cbn [int_min int_max]. lia.
Qed.

(** an upload sends at most four requests.  It repeats a request only after a failure
    whose code is retryable, waiting between 250 ms and 2100 ms, and ends at the first
    success, the first failure that is not retryable or the fourth failure; the error then
    carries the number of attempts made. *)
Theorem put_retries_bounded {W B : Type} {OS : ObjectStore W B} (bucket key content_type : string)
    (body : B) (expected_etag : option string) (w : W) :
  let request := put_request bucket key body content_type expected_etag in
  (exists k, (k < 4)%nat /\ ends_at bucket k 4 1 request w) /\
  put_object_with_retry_guarded bucket key body content_type expected_etag w
  = put_attempts bucket 4 1 request w /\
  forall attempt, 1 <= attempt -> 250 <= retry_delay attempt key < 2100.
Proof.
  split_and!; [by apply put_attempts_run; [lia|]|done|]. intros attempt Ha.
  apply (retry_delay_bounds attempt key Ha).
Qed.

(** ** Guarded pointer writes *)

(** A write the service applied: the version it replaced, if there was one. *)
Record Write (B : Type) := mkWrite { wr_key : string; wr_body : B; wr_replaced : option string }.
Arguments mkWrite {B}. Arguments wr_key {B}. Arguments wr_body {B}. Arguments wr_replaced {B}.

(** Documented behaviour of the service: a request writes at most once, it writes when it
    is answered with success, and a conditional request writes only over the version it
    names ([If-Match]) or where there is no object ([If-None-Match: *]).  [applied] are the
    writes of this client; other clients may write in between. *)
Record Conditional {W B : Type} {OS : ObjectStore W B} (applied : W -> list (Write B)) : Prop := {
  put_applied : forall r w,
    (applied (os_put r w).1 = applied w /\ forall u, (os_put r w).2 <> Ok u) \/
    exists replaced,
      applied (os_put r w).1 = (applied w ++ [mkWrite (pq_key r) (pq_body r) replaced])%list /\
      (forall e, pq_if_match r = Some e -> replaced = Some e) /\
      (pq_if_none_match r = Some "*"%string -> replaced = None);
  head_applied : forall b k w, applied (os_head b k w).1 = applied w;
  sleep_applied : forall d w, applied (os_sleep d w) = applied w;
}.

Section guarded.
Context {W B : Type} {OS : ObjectStore W B}.
Context (bucket : string) (applied : W -> list (Write B)) (HC : Conditional applied).

(** The request of a pointer writes only over the version [seen]. *)
Lemma guarded_put key body seen w : starts_with "l1_index/" key = true ->
  let r := put_request bucket key body "application/json" seen in
  (applied (os_put r w).1 = applied w /\ forall u, (os_put r w).2 <> Ok u) \/
  applied (os_put r w).1 = (applied w ++ [mkWrite key body seen])%list.
Proof.
  intros Hk r. destruct (put_applied applied HC r w) as [?|(re & Ha & Hm & Hn)]; [by left|right].
  rewrite Ha. subst r. unfold put_request in *. destruct seen as [e|].
  - by rewrite (Hm e eq_refl).
  - rewrite Hk in *. cbn in *. by rewrite (Hn eq_refl).
Qed.

Lemma guarded_attempts n attempt key body seen w w' r : starts_with "l1_index/" key = true ->
  put_attempts bucket n attempt (put_request bucket key body "application/json" seen) w = (w', r) ->
  exists new, applied w' = (applied w ++ new)%list /\ Forall (eq (mkWrite key body seen)) new /\
    (r = Ok () -> new <> []).
Proof.
  intros Hk. revert attempt w. induction n as [|n IH]; cbn [put_attempts]; intros attempt w.
  { intros [= <- <-]. exists []. rewrite List.app_nil_r. by split_and!. }
  pose proof (guarded_put key body seen w Hk) as Hg. cbn zeta in Hg.
  assert (Hstep : exists new1, applied (os_put (put_request bucket key body "application/json" seen) w).1
      = (applied w ++ new1)%list /\ Forall (eq (mkWrite key body seen)) new1 /\
      (forall u, (os_put (put_request bucket key body "application/json" seen) w).2 = Ok u -> new1 <> [])).
  { destruct Hg as [[Ha Hu]|Ha]; rewrite Ha.
    - exists []. rewrite List.app_nil_r. split_and!; [done..|]. intros u E. by apply Hu in E.
    - exists [mkWrite key body seen]. split_and!; [done|by repeat constructor|done]. }
  destruct Hstep as (new1 & Ha & Hf & Hu). destruct (os_put _ w) as [w1 [u|e]]; cbn in *.
  - intros [= <- <-]. exists new1. split_and!; eauto.
  - destruct (_ || _); [intros [= <- <-]; exists new1; by split_and!|].
    intros Hr. apply IH in Hr as (new & Hn & Hfn & Hne).
    rewrite (sleep_applied applied HC), Ha in Hn. exists (new1 ++ new)%list.
    rewrite List.app_assoc. split_and!; [done|by apply Forall_app|].
    intros E [_ En]%List.app_eq_nil. by apply Hne.
Qed.

Lemma guarded_upload key body w w' r : starts_with "l1_index/" key = true ->
  upload_json_if_pointer_current bucket key body w = (w', r) ->
  exists new, applied w' = (applied w ++ new)%list /\ (r = Ok () -> new <> []) /\
    (new <> [] -> exists seen, (head_etag bucket key w).2 = Ok seen /\
                          Forall (eq (mkWrite key body seen)) new).
Proof.
  unfold upload_json_if_pointer_current. intros Hk.
  assert (Hh : applied (head_etag bucket key w).1 = applied w).
  { unfold head_etag. rewrite <- (head_applied applied HC bucket key w).
    by destruct (os_head _ _ _) as [w1 [?|?]]. }
  destruct (head_etag bucket key w) as [w1 [seen|e]]; cbn in *.
  - intros Hr. apply guarded_attempts in Hr as (new & Hn & Hf & Hne); [|done].
    exists new. rewrite Hn, Hh. split_and!; [done..|]. eauto.
  - intros [= <- <-]. exists []. rewrite List.app_nil_r. by split_and!.
Qed.
End guarded.

(** C22: an upload of an index pointer never replaces a version other than the one its
    [head_object] saw: if another client writes the pointer in between, nothing of this
    upload is written and it does not report success.  When it reports success, the
    pointer was written. *)
Theorem pointer_upload_never_clobbers {W B : Type} {OS : ObjectStore W B}
    (applied : W -> list (Write B)) (bucket key : string) (body : B) (w w' : W)
    (r : result StorageError ())
    (HC : Conditional applied)
    (Hkey : starts_with "l1_index/" key = true)
    (Hrun : upload_json_if_pointer_current bucket key body w = (w', r)) :
  exists new, applied w' = (applied w ++ new)%list /\ (r = Ok () -> new <> []) /\
    (new <> [] -> exists seen, (head_etag bucket key w).2 = Ok seen /\
                          Forall (eq (mkWrite key body seen)) new).
Proof. by eapply guarded_upload. Qed.

(** ** Listings *)

(** The service answers the requests for a prefix with [pages], the last of which is not
    truncated. *)
Inductive serves {W B : Type} {OS : ObjectStore W B} (bucket prefix : string)
    : option string -> W -> list ListOutput -> W -> Prop :=
| serves_last token w out w' :
    os_list (mkList bucket prefix token None) w = (w', Ok out) ->
    default false (ls_is_truncated out) = false ->
    serves bucket prefix token w [out] w'
| serves_more token w out next w1 pages w' :
    os_list (mkList bucket prefix token None) w = (w1, Ok out) ->
    ls_is_truncated out = Some true -> ls_next_token out = Some next ->
    serves bucket prefix (Some next) w1 pages w' ->
    serves bucket prefix token w (out :: pages) w'.

Lemma for_each_all {W B : Type} {OS : ObjectStore W B} bucket prefix token w pages w' :
  serves bucket prefix token w pages w' ->
  forall fuel visited, (Datatypes.length pages <= fuel)%nat ->
  for_each_object_summary bucket fuel prefix token visited w
  = Some (w', Ok (visited ++ List.concat (map page_summaries pages))%list).
Proof.
  induction 1 as [token w out w' Hl Ht|token w out next w1 pages w' Hl Ht Hn _ IH];
    intros [|fuel] visited Hf; cbn in Hf; try lia; cbn [for_each_object_summary]; rewrite Hl.
  - rewrite Ht. cbn. by rewrite List.app_nil_r.
  - rewrite Ht, Hn. cbn. rewrite IH by lia. by rewrite <- List.app_assoc.
Qed.

(** whatever the number of pages the service cuts a listing into, the loop ends after
    the last page, and the listing holds each object of each page once, sorted by key. *)
Theorem listing_reads_every_page {W B : Type} {OS : ObjectStore W B} (bucket prefix : string)
    (w w' : W) (pages : list ListOutput) (fuel : nat)
    (Hserve : serves bucket prefix None w pages w')
    (Hfuel : (Datatypes.length pages <= fuel)%nat) :
  exists objects, list_object_summaries bucket fuel prefix w = Some (w', Ok objects) /\
    objects ≡ₚ List.concat (map page_summaries pages) /\
    StronglySorted (fun a b => summary_leb a b = true) objects.
Proof.
  unfold list_object_summaries. rewrite (for_each_all _ _ _ _ _ _ Hserve) by done. cbn.
  eexists. split; [reflexivity|]. split; [apply sort_by_perm|].
  apply sort_by_sorted; [intros a b; apply str_leb_total|intros a b c; apply str_leb_trans].
Qed.

(** ** Witnesses *)

(** A store with one object, [slow] requests it still throttles, and its log. *)
Record SampleStore := mkSample { sw_etag : option string; sw_slow : nat; sw_log : list (Write string) }.

Definition sample_accepts (r : PutRequest string) (etag : option string) : bool :=
  match pq_if_match r with Some e => bool_decide (etag = Some e) | None => true end &&
  match pq_if_none_match r with Some _ => bool_decide (etag = None) | None => true end.

Definition sample_page (token : option string) : ListOutput :=
  match token with
  | None => mkListOutput [mkListed (Some "b"%string) (Some 2) (Some 10); mkListed None None None]
              (Some true) (Some "next"%string)
  | Some _ => mkListOutput [mkListed (Some "a"%string) None (Some (-1))] None None
  end.

#[local] Instance sample_object_store : ObjectStore SampleStore string := {|
  os_put r w := match sw_slow w with
    | Datatypes.S n =>
        (mkSample (sw_etag w) n (sw_log w), Err (mkServiceError (Some "SlowDown"%string) None ""))
    | O => if sample_accepts r (sw_etag w)
           then (mkSample (Some (pq_body r)) 0 (sw_log w ++ [mkWrite (pq_key r) (pq_body r) (sw_etag w)])%list,
                 Ok ())
           else (w, Err (mkServiceError (Some "PreconditionFailed"%string) None ""))
    end;
  os_head _ _ w := (w, Ok (sw_etag w));
  os_get _ _ w := (w, Err (mkServiceError (Some "NoSuchKey"%string) None ""));
  os_list r w := (w, Ok (sample_page (lq_token r)));
  os_delete _ _ w := (w, Ok ());
  os_sleep _ w := w;
|}.

Lemma sample_conditional : Conditional sw_log.
Proof.
  split; [|done..]. intros r w. cbn [os_put sample_object_store].
  destruct (sw_slow w) eqn:Es; [|by left].
  destruct (sample_accepts r (sw_etag w)) eqn:Ea; [right|by left].
  eexists. split; [reflexivity|]. unfold sample_accepts in Ea.
  destruct (pq_if_match r), (pq_if_none_match r); bool_prop; split; intros; congruence.
Qed.

Definition sample_pointer_key : string := "l1_index/window_ms=1000/a.json".

(** Two throttled requests, then the pointer is replaced. *)
Lemma pointer_upload_never_clobbers_witness :
  let w := mkSample (Some "v1"%string) 2 [] in
  exists new, sw_log (upload_json_if_pointer_current "bucket" sample_pointer_key "v2"%string w).1
              = ([] ++ new)%list /\
    (Ok () = Ok (E := StorageError) () -> new <> []) /\
    (new <> [] -> exists seen, (head_etag "bucket" sample_pointer_key w).2 = Ok seen /\
                          Forall (eq (mkWrite sample_pointer_key "v2"%string seen)) new).
Proof.
  intros w.
  apply (pointer_upload_never_clobbers sw_log "bucket" sample_pointer_key "v2"%string w
           (upload_json_if_pointer_current "bucket" sample_pointer_key "v2"%string w).1 (Ok ())
           sample_conditional); vm_compute; reflexivity.
Defined.

Lemma listing_reads_every_page_witness :
  exists objects,
    list_object_summaries "bucket" 2 "" (mkSample None 0 []) = Some (mkSample None 0 [], Ok objects) /\
    objects ≡ₚ List.concat (map page_summaries [sample_page None; sample_page (Some "next"%string)]) /\
    StronglySorted (fun a b => summary_leb a b = true) objects.
Proof.
  apply listing_reads_every_page; [|vm_compute; lia].
  eapply (serves_more _ _ _ _ _ "next"%string); [reflexivity..|].
  apply serves_last; reflexivity.
Defined.

(** A pointer another client has replaced since the [head_object] is left alone. *)
Example stale_pointer_refused :
  put_object_with_retry_guarded "bucket" sample_pointer_key "mine"%string "application/json"
    (Some "v1"%string) (mkSample (Some "v2"%string) 0 [])
  = (mkSample (Some "v2"%string) 0 [],
     Err (SAws (render (from_sdk_error "bucket" sample_pointer_key
            (mkServiceError (Some "PreconditionFailed"%string) None "")) 1))).
Proof. vm_compute. reflexivity. Qed.
