(* ===== verification/Eviction.v ===== *)
(** * Eviction: keeping the spool disk below its high-water mark

    [src/storage/eviction] deletes uploaded (sealed) spool files, oldest first,
    when the disk is fuller than the high-water mark.  The disk is a parameter: the walk
    of the spool, the disk probe and each deletion answer through arguments. *)
From S2P Require Import Prelude Text Records Sink.
From Stdlib Require Import Sorting.Sorted.
Open Scope Z_scope.

(* rust: src/storage/eviction/config.rs EvictionConfig *)
Record EvictionConfig := mkEvConfig {
  ev_spool_root : string; ev_high_water_pct : Z; ev_emergency_pct : Z; ev_safety_floor_secs : Z }.

(* rust: src/storage/eviction/config.rs EvictionStats *)
Record EvictionStats := mkEvStats {
  es_disk_used_pct_before : Z;
  es_disk_used_pct_after : Z;
  es_triggered : bool;
  es_emergency : bool;
  es_evicted_count : Z;
  es_evicted_bytes : Z;
  es_candidate_count : Z;
}.

(* rust: src/storage/eviction/candidate.rs EvictableFile *)
Record EvictableFile := mkEvictable {
  ef_parquet_path : string; ef_sealed_path : string; ef_sealed_at_ms : Z; ef_parquet_size : Z }.

(** A regular file of the spool as the walk meets it. *)
Record DiskFile := mkDiskFile { df_path : string; df_mtime_ms : Z; df_len : Z }.

(* rust: src/storage/eviction.rs TARGET_OFFSET_PCT *)
Definition TARGET_OFFSET_PCT : Z := 5.

(** [path.extension() == "parquet"]: the file name ends in [.parquet] and has a
    stem in front. *)
Definition file_name (path : string) : string := List.last (split_char "/" path) ""%string.
Definition has_parquet_extension (path : string) : bool :=
  match strip_suffix ".parquet" (file_name path) with
  | Some stem => negb (str_is_empty stem)
  | None => false
  end.

(** The files in walk order, of which the Parquet files with a marker count. *)
(* rust: src/storage/eviction/collect.rs collect_files_on_disk *)
Definition collect_files_on_disk (disk : list DiskFile) : list EvictableFile :=
  omap (fun f =>
    if has_parquet_extension (df_path f) then
      let sealed_path := sealed_marker_path (df_path f) in
      match find (fun g => String.eqb (df_path g) sealed_path) disk with
      | Some marker => Some (mkEvictable (df_path f) sealed_path (df_mtime_ms marker) (df_len f))
      | None => None
      end
    else None) disk.

(* rust: src/storage/eviction/plan.rs PROTECTED_MARKERS *)
Definition PROTECTED_MARKERS : list string := ["symbol_health/"; "source_health/"; "gap_alert/"]%string.

(* rust: src/storage/eviction/plan.rs safety_cutoff_ms *)
Definition safety_cutoff_ms (now_ms safety_floor_secs : Z) : Z :=
  saturate I64 (now_ms - saturate I64 (safety_floor_secs * 1000)).

(** [path.strip_prefix(root)] on slash-separated paths. *)
Definition path_strip_prefix (root path : string) : option string :=
  if String.eqb path root then Some ""%string
  else strip_prefix (trim_end_matches "/" root ++ "/") path.

(* rust: src/storage/eviction/plan.rs is_protected_path *)
Definition is_protected_path (path root : string) : bool :=
  match path_strip_prefix root path with
  | None => false
  | Some relative =>
      let normalized := map_str (fun a => if Ascii.eqb a "\" then "/"%char else a) relative in
      existsb (fun m => contains m normalized) PROTECTED_MARKERS
  end.

(* rust: src/storage/eviction/plan.rs rank_evictable *)
Definition rank_evictable (files : list EvictableFile) (cutoff : Z) (root : string)
    : list EvictableFile :=
  sort_by (fun a b => ef_sealed_at_ms a <=? ef_sealed_at_ms b)
    (List.filter (fun f => ef_sealed_at_ms f <=? cutoff)
       (List.filter (fun f => negb (is_protected_path (ef_parquet_path f) root)) files)).

(** The eviction loop.  [probe] answers the disk probes in order; [remove] says
    whether a deletion succeeds.  It returns the counters, the removed files and
    the number of probes made. *)
Section evict.
Context (probe : nat -> result StorageError Z) (remove : string -> bool).

Fixpoint evict_loop (target : Z) (candidates : list EvictableFile) (n : nat)
    (count bytes : Z) (removed : list EvictableFile)
    : result StorageError (Z * Z * list EvictableFile * nat) :=
  match candidates with
  | [] => Ok (count, bytes, removed, n)
  | f :: rest =>
      current ← probe n;
      if current <? target then Ok (count, bytes, removed, S n)
      else if remove (ef_parquet_path f)
      then evict_loop target rest (S n) (wrap Usize (count + 1))
             (wrap U64 (bytes + ef_parquet_size f)) (removed ++ [f])
      else evict_loop target rest (S n) count bytes removed
  end.

(** The statistics, and the files deleted in order. *)
(* rust: src/storage/eviction.rs evict_once *)
Definition evict_once (disk : result StorageError (list DiskFile)) (c : EvictionConfig) (now_ms : Z)
    : result StorageError (EvictionStats * list EvictableFile) :=
  initial ← probe 0;
  if initial <? ev_high_water_pct c
  then Ok (mkEvStats initial initial false false 0 0 0, []) else
  let emergency := ev_emergency_pct c <=? initial in
  files ← disk;
  let on_disk := collect_files_on_disk files in
  let cutoff := safety_cutoff_ms now_ms (ev_safety_floor_secs c) in
  let candidates := rank_evictable on_disk cutoff (ev_spool_root c) in
  let target := saturate U8 (ev_high_water_pct c - TARGET_OFFSET_PCT) in
  out ← evict_loop target candidates 1 0 0 [];
  let '(count, bytes, removed, n) := out in
  after ← probe n;
  Ok (mkEvStats initial after true emergency count bytes (zlen candidates), removed).
End evict.

(** ** Properties *)

Lemma rank_evictable_In f files cutoff root :
  f ∈ rank_evictable files cutoff root <->
  f ∈ files /\ ef_sealed_at_ms f <= cutoff /\ is_protected_path (ef_parquet_path f) root = false.
Proof.
  unfold rank_evictable. rewrite (sort_by_perm _ _). rewrite !list_elem_of_In, !filter_In.
  rewrite Z.leb_le, negb_true_iff. tauto.
Qed.

Lemma rank_evictable_sorted files cutoff root :
  StronglySorted (fun a b => ef_sealed_at_ms a <= ef_sealed_at_ms b) (rank_evictable files cutoff root).
Proof.
  pose proof (sort_by_sorted (fun a b => ef_sealed_at_ms a <=? ef_sealed_at_ms b)) as H.
  specialize (H ltac:(intros; rewrite !Z.leb_le; lia) ltac:(intros *; rewrite !Z.leb_le; lia)
    (List.filter (fun f => ef_sealed_at_ms f <=? cutoff)
       (List.filter (fun f => negb (is_protected_path (ef_parquet_path f) root)) files))).
  unfold rank_evictable. induction H as [|x l Hl IH Hx]; constructor; [done|].
  eapply Forall_impl; [exact Hx|]. cbn. intros y. by rewrite Z.leb_le.
Qed.

(** The loop tries a prefix of the candidates and removes those whose deletion
    succeeds; it leaves candidates untried only after a probe below the target. *)
Lemma evict_loop_prefix probe remove target cands n count bytes removed count' bytes' removed' n' :
  evict_loop probe remove target cands n count bytes removed = Ok (count', bytes', removed', n') ->
  exists tried rest, cands = tried ++ rest /\
    removed' = removed ++ List.filter (fun f => remove (ef_parquet_path f)) tried /\
    (rest = [] \/ exists pct, probe (pred n') = Ok pct /\ pct < target).
Proof.
  revert n count bytes removed. induction cands as [|f cands IH]; intros n count bytes removed H; cbn in H.
  - injection H as <- <- <- <-. exists [], []. cbn. rewrite app_nil_r. auto.
  - destruct (probe n) as [pct|] eqn:Ep; [|done]. cbn in H.
    destruct (Z.ltb_spec pct target).
    + injection H as <- <- <- <-. exists [], (f :: cands). cbn. rewrite app_nil_r.
      split; [done|]. split; [done|]. right. by exists pct.
    + destruct (remove (ef_parquet_path f)) eqn:Er;
        apply IH in H as (tried & rest & -> & -> & Hstop); exists (f :: tried), rest;
        (split; [done|]); (split; [|done]); cbn; rewrite Er; [by rewrite <- app_assoc | done].
Qed.

Lemma safety_cutoff_ms_exact now floor : 0 <= now <= int_max I64 ->
  0 <= floor /\ floor * 1000 <= int_max I64 -> safety_cutoff_ms now floor = now - floor * 1000.
Proof.
  intros Hn Hf. unfold safety_cutoff_ms. rewrite (saturate_id I64 (floor * 1000));
    [apply saturate_id|]; unfold in_range; cbn in *; lia.
Qed.

(** C19: an eviction pass deletes only sealed Parquet files outside the protected
    families whose marker is at least the safety floor old; below the high-water
    mark it deletes nothing; it considers the candidates oldest first, so every
    file it deletes is at least as old as every candidate it has not reached, and
    it stops early only when a probe has fallen below the target. *)
Theorem evict_once_safe probe remove (disk : list DiskFile) (c : EvictionConfig) (now : Z)
    (stats : EvictionStats) (removed : list EvictableFile)
    (Hnow : 0 <= now <= int_max I64)
    (Hfloor : 0 <= ev_safety_floor_secs c /\ ev_safety_floor_secs c * 1000 <= int_max I64) :
  evict_once probe remove (Ok disk) c now = Ok (stats, removed) ->
  (es_triggered stats = false -> removed = [] /\ es_disk_used_pct_before stats < ev_high_water_pct c) /\
  exists tried rest,
    removed = List.filter (fun f => remove (ef_parquet_path f)) tried /\
    (forall f, f ∈ tried ++ rest -> f ∈ collect_files_on_disk disk /\
       ef_sealed_at_ms f + ev_safety_floor_secs c * 1000 <= now /\
       is_protected_path (ef_parquet_path f) (ev_spool_root c) = false) /\
    (forall f g, f ∈ tried -> g ∈ rest -> ef_sealed_at_ms f <= ef_sealed_at_ms g) /\
    (es_triggered stats = true -> rest <> [] -> exists k pct, probe k = Ok pct /\
       pct < saturate U8 (ev_high_water_pct c - TARGET_OFFSET_PCT)).
Proof.
  unfold evict_once. intros H. inv_bind H. rename a into initial.
  destruct (Z.ltb_spec initial (ev_high_water_pct c)).
  { injection H as <- <-. cbn. split; [done|]. exists [], []. split; [done|].
    split; [intros f Hf; by apply elem_of_nil in Hf|]. split; [intros f g Hf; by apply elem_of_nil in Hf|done]. }
  cbn [mbind result_bind] in H. inv_bind H. destruct a as [[[count bytes] removed'] n].
  inv_bind H. injection H as <- <-. cbn [es_triggered].
  split; [done|]. apply evict_loop_prefix in Em0 as (tried & rest & Hc & -> & Hstop).
  exists tried, rest. split; [done|].
  split.
  { intros f Hf. rewrite <- Hc in Hf. apply rank_evictable_In in Hf as (Hin & Hcut & Hp).
    split; [done|]. split; [|done]. rewrite safety_cutoff_ms_exact in Hcut; [lia|done..]. }
  split.
  - intros f g Hf Hg. pose proof (rank_evictable_sorted (collect_files_on_disk disk)
      (safety_cutoff_ms now (ev_safety_floor_secs c)) (ev_spool_root c)) as Hs.
    rewrite Hc in Hs. clear -Hs Hf Hg. induction tried as [|x tried IH]; [by apply elem_of_nil in Hf|].
    apply StronglySorted_inv in Hs as [Hs Hx]. apply elem_of_cons in Hf as [->|Hf]; [|by apply IH].
    rewrite Forall_forall in Hx. apply Hx. apply elem_of_app. by right.
  - intros _ Hr. destruct Hstop as [->|(pct & Hp & Hlt)]; [done|]. by exists (pred n), pct.
Qed.

Definition sample_disk : list DiskFile :=
  [mkDiskFile "/spool/run-1/raw_market_event/a.parquet" 100 10;
   mkDiskFile "/spool/run-1/raw_market_event/a.parquet.sealed" 200 0;
   mkDiskFile "/spool/run-1/gap_alert/g.parquet" 100 10;
   mkDiskFile "/spool/run-1/gap_alert/g.parquet.sealed" 150 0;
   mkDiskFile "/spool/run-1/raw_market_event/b.parquet" 100 10].

Lemma evict_once_safe_witness :
  let c := mkEvConfig "/spool" 80 95 1 in
  exists stats, evict_once (fun _ => Ok 90) (fun _ => true) (Ok sample_disk) c 5000 =
    Ok (stats, [mkEvictable "/spool/run-1/raw_market_event/a.parquet"
                  "/spool/run-1/raw_market_event/a.parquet.sealed" 200 10]) /\
    (es_triggered stats = false -> es_disk_used_pct_before stats < 80).
Proof.
  intros c. eexists. split; [by vm_compute|].
  edestruct (evict_once_safe (fun _ => Ok 90) (fun _ => true) sample_disk c 5000) as [H _];
    [unfold int_max; cbn; lia|unfold int_max; cbn; lia|by vm_compute|]. intros Ht. by apply H.
Defined.
