(* ===== verification/Orphan.v ===== *)
(** * Orphan: files that a crashed watcher left half written

    [storage/orphan.rs] and its files: at the start of a watcher every unsealed Parquet
    file of the spool that is old and has no valid footer is moved to a quarantine
    directory next to the spool.  The disk is the map of its files. *)
From S2P Require Import Prelude Text Records Sink Eviction.
From S2P Require Import Effects.
Open Scope Z_scope.
Open Scope list_scope.

(** A file: its modification time, its length, and whether a Parquet reader accepts it. *)
Record SpoolFile := mkSpoolFile { sf_mtime_ms : Z; sf_len : Z; sf_footer : bool }.
Abbreviation Disk := (gmap string SpoolFile).

(** [path.exists()]: a file, or a directory that holds one. *)
Definition exists_on (disk : Disk) (path : string) : bool :=
  bool_decide (is_Some (disk !! path)) || existsb (starts_with (path ++ "/")) (map_to_list disk).*1.

Definition not_found : StorageError := SIo "No such file or directory (os error 2)".

(** The read of the metadata or the footer of a file. *)
Definition file_of (disk : Disk) (path : string) : result StorageError SpoolFile := ok_or (disk !! path) not_found.

(** ** Where a file goes *)

(** [path.parent()]: what is before the last component. *)
Definition path_parent (path : string) : option string :=
  let path := trim_end_matches "/" path in
  if str_is_empty path then None
  else match rev (split_char "/" path) with
       | _ :: ((_ :: _) as dirs) =>
           let parent := join "/" (rev dirs) in
           Some (if str_is_empty parent && starts_with "/" path then "/"%string else parent)
       | _ => Some ""%string
       end.

(* rust: src/storage/orphan/quarantine.rs quarantine_root *)
Definition quarantine_root (spool_root : string) : string :=
  match path_parent spool_root with
  | Some parent => path_join parent "orphaned-unsealed"
  | None => path_join spool_root "orphaned-unsealed"
  end.

(** [path.with_file_name(format!("{file_name}.{suffix}"))] *)
Definition with_suffix (path : string) (suffix : Z) : string := (path ++ "." ++ show_Z suffix)%string.

(** [nanos_now] reads the clock, whenever it is asked. *)
(* rust: src/storage/orphan/quarantine.rs unique_path *)
Definition unique_path (disk : Disk) (nanos_now : Disk -> string -> Z) (path : string) : string :=
  if negb (exists_on disk path) then path
  else match find (fun candidate => negb (exists_on disk candidate))
               (map (fun index => with_suffix path (Z.of_nat index)) (seq 1 999)) with
       | Some candidate => candidate
       | None => with_suffix path (nanos_now disk path)
       end.

(* rust: src/storage/orphan/quarantine.rs quarantine_destination *)
Definition quarantine_destination (disk : Disk) (nanos_now : Disk -> string -> Z) (spool_root quarantine_root path : string)
    : result StorageError string :=
  relative ← ok_or (path_strip_prefix spool_root path) (SInvalidConfig "prefix not found");
  Ok (unique_path disk nanos_now (path_join quarantine_root relative)).

(** ** The cleanup *)

(* rust: src/storage/orphan.rs UnsealedOrphanConfig *)
Record UnsealedOrphanConfig := mkOrphanConfig { uo_spool_root : string; uo_safety_floor_secs : Z }.

(* rust: src/storage/orphan.rs UnsealedOrphanStats *)
Record UnsealedOrphanStats := mkOrphanStats {
  os_scanned_unsealed_count : Z;
  os_recent_unsealed_count : Z;
  os_valid_unsealed_count : Z;
  os_invalid_unsealed_count : Z;
  os_quarantined_count : Z;
  os_quarantined_bytes : Z;
  os_quarantine_root : option string;
}.

Definition orphan_stats_default : UnsealedOrphanStats := mkOrphanStats 0 0 0 0 0 0 None.

(** [scanned += 1], then one more of the file's kind. *)
Definition count_scanned (s : UnsealedOrphanStats) : UnsealedOrphanStats :=
  mkOrphanStats (wrap Usize (os_scanned_unsealed_count s + 1)) (os_recent_unsealed_count s)
    (os_valid_unsealed_count s) (os_invalid_unsealed_count s) (os_quarantined_count s) (os_quarantined_bytes s)
    (os_quarantine_root s).
Definition count_recent (s : UnsealedOrphanStats) : UnsealedOrphanStats :=
  mkOrphanStats (os_scanned_unsealed_count s) (wrap Usize (os_recent_unsealed_count s + 1))
    (os_valid_unsealed_count s) (os_invalid_unsealed_count s) (os_quarantined_count s) (os_quarantined_bytes s)
    (os_quarantine_root s).
Definition count_valid (s : UnsealedOrphanStats) : UnsealedOrphanStats :=
  mkOrphanStats (os_scanned_unsealed_count s) (os_recent_unsealed_count s)
    (wrap Usize (os_valid_unsealed_count s + 1)) (os_invalid_unsealed_count s) (os_quarantined_count s)
    (os_quarantined_bytes s) (os_quarantine_root s).
Definition count_quarantined (len : Z) (s : UnsealedOrphanStats) : UnsealedOrphanStats :=
  mkOrphanStats (os_scanned_unsealed_count s) (os_recent_unsealed_count s) (os_valid_unsealed_count s)
    (wrap Usize (os_invalid_unsealed_count s + 1)) (wrap Usize (os_quarantined_count s + 1))
    (wrap U64 (os_quarantined_bytes s + len)) (os_quarantine_root s).
Definition set_root (root : option string) (s : UnsealedOrphanStats) : UnsealedOrphanStats :=
  mkOrphanStats (os_scanned_unsealed_count s) (os_recent_unsealed_count s) (os_valid_unsealed_count s)
    (os_invalid_unsealed_count s) (os_quarantined_count s) (os_quarantined_bytes s) root.

Section cleanup.
(** Creating the directory of a destination and renaming a file to it can fail. *)
Context (rename_error : string -> string -> option StorageError).

(** A rename replaces whatever is at the destination. *)
Definition rename (path destination : string) : io Disk StorageError () := fun disk =>
  match rename_error path destination with
  | Some e => (disk, Err e)
  | None =>
      match disk !! path with
      | Some f => (<[destination := f]> (delete path disk), Ok ())
      | None => (disk, Err not_found)
      end
  end.

Definition read_disk {A} (f : Disk -> result StorageError A) : io Disk StorageError A := fun disk => (disk, f disk).

(** One file of the walk. *)
Definition cleanup_file (config : UnsealedOrphanConfig) (nanos_now : Disk -> string -> Z) (safety_cutoff_ms : Z)
    (stats : UnsealedOrphanStats) (path : string) : io Disk StorageError UnsealedOrphanStats :=
  sealed ← read_disk (fun disk => Ok (exists_on disk (sealed_marker_path path)));
  if (sealed : bool) then mret stats else
  let stats := count_scanned stats in
  meta ← read_disk (fun disk => file_of disk path);
  if safety_cutoff_ms <? sf_mtime_ms meta then mret (count_recent stats) else
  valid ← read_disk (fun disk => f ← file_of disk path; Ok (sf_footer f));
  if (valid : bool) then mret (count_valid stats) else
  destination ← read_disk (fun disk =>
    quarantine_destination disk nanos_now (uo_spool_root config) (quarantine_root (uo_spool_root config)) path);
  _ ← rename path destination;
  mret (count_quarantined (sf_len meta) stats).

(** [files] are the Parquet files under the spool root, in the order of the walk;
    [root_exists] says whether there is a spool. *)
(* rust: src/storage/orphan.rs cleanup_invalid_unsealed_once *)
Definition cleanup_invalid_unsealed_once (root_exists : bool) (files : result StorageError (list string))
    (nanos_now : Disk -> string -> Z) (config : UnsealedOrphanConfig) (now_ms : Z) : io Disk StorageError UnsealedOrphanStats :=
  if negb root_exists then mret orphan_stats_default else
  let cutoff := safety_cutoff_ms now_ms (uo_safety_floor_secs config) in
  files ← io_of files;
  stats ← io_fold (cleanup_file config nanos_now cutoff) orphan_stats_default files;
  mret (if 0 <? os_quarantined_count stats
        then set_root (Some (quarantine_root (uo_spool_root config))) stats else stats).

End cleanup.

(** ** No file is lost *)

(** A file the cleanup may move: old, without a footer and unsealed. *)
Definition abandoned (cutoff : Z) (disk : Disk) (path : string) (f : SpoolFile) : Prop :=
  sf_mtime_ms f <= cutoff /\ sf_footer f = false /\ disk !! sealed_marker_path path = None.

(** [disk'] is [disk] with the abandoned files among [moved] renamed: no two files have
    come to share a name. *)
Definition renamed (cutoff : Z) (moved : list string) (disk disk' : Disk) : Prop :=
  exists to : string -> string,
    (forall p q, is_Some (disk !! p) -> is_Some (disk !! q) -> to p = to q -> p = q) /\
    (forall p f, disk !! p = Some f -> disk' !! to p = Some f /\
       (to p = p \/ p ∈ moved /\ abandoned cutoff disk p f)).

Lemma exists_on_false disk path : exists_on disk path = false -> disk !! path = None.
Proof. intros [H _]%orb_false_iff. apply eq_None_not_Some. by apply bool_decide_eq_false in H. Qed.

Lemma unique_path_free disk nanos_now path : (forall d p, d !! with_suffix p (nanos_now d p) = None) ->
  disk !! unique_path disk nanos_now path = None.
Proof.
  intros Hfresh. unfold unique_path. destruct (exists_on disk path) eqn:H; [|by apply exists_on_false]. cbn [negb].
  destruct (find _ _) as [c|] eqn:Ec; [|apply Hfresh].
  apply find_some in Ec as [_ Hc]. apply negb_true_iff in Hc. by apply exists_on_false.
Qed.

Lemma marker_not_listed p : ends_with ".parquet" (sealed_marker_path p) = false.
Proof. unfold ends_with, strip_suffix, sealed_marker_path. by rewrite bytes_app, rev_app_distr. Qed.

Section no_loss.
Context (cutoff : Z) (disk : Disk).

Lemma renamed_start : renamed cutoff [] disk disk.
Proof using Type. exists id. split; [done|]. auto. Qed.

Lemma renamed_more moved moved' d : (forall p, p ∈ moved -> p ∈ moved') ->
  renamed cutoff moved disk d -> renamed cutoff moved' disk d.
Proof using Type. intros Hsub (to & Hinj & Hto). exists to. split; [done|]. naive_solver. Qed.

(** What has not been moved is where it was. *)
Lemma renamed_there moved d p f : renamed cutoff moved disk d -> p ∉ moved -> disk !! p = Some f -> d !! p = Some f.
Proof using Type.
  intros (to & _ & Hto) Hp Hf. destruct (Hto p f Hf) as [Hd [Heq|[Hin _]]]; [by rewrite Heq in Hd|done].
Qed.

Lemma renamed_move moved d p f destination : renamed cutoff moved disk d -> p ∉ moved -> disk !! p = Some f ->
  abandoned cutoff disk p f -> d !! destination = None ->
  renamed cutoff (moved ++ [p]) disk (<[destination := f]> (delete p d)).
Proof using Type.
  intros (to & Hinj & Hto) Hp Hf Ha Hd.
  assert (Hsame : to p = p) by (by destruct (Hto p f Hf) as [_ [?|[]]]).
  exists (fun q => if decide (q = p) then destination else to q). split.
  - intros q r [fq Hq] [fr Hr]. pose proof (proj1 (Hto q fq Hq)). pose proof (proj1 (Hto r fr Hr)).
    do 2 case_decide; [congruence|congruence|congruence|]. intros Heq. by eapply Hinj.
  - intros q g Hq. case_decide as Hne; [subst q|].
    + rewrite lookup_insert_eq. split; [congruence|]. right. split; [|congruence].
      rewrite elem_of_app. right. by left.
    + destruct (Hto q g Hq) as [Hqd Hor]. rewrite lookup_insert_ne by congruence.
      rewrite lookup_delete_ne by (intros He; apply Hne, (Hinj q p); [by exists g|by exists f|congruence]).
      split; [done|]. destruct Hor as [?|[Hin ?]]; [by left|right; split; [|done]].
      rewrite elem_of_app. by left.
Qed.

Context (rename_error : string -> string -> option StorageError) (nanos_now : Disk -> string -> Z).
Context (Hfresh : forall d p, d !! with_suffix p (nanos_now d p) = None).
Context (config : UnsealedOrphanConfig).

(** What cleaning up one file does to the disk. *)
Lemma cleanup_file_renamed moved stats p f : p ∉ moved -> disk !! p = Some f ->
  Forall (fun q => ends_with ".parquet" q = true) moved ->
  triple (renamed cutoff moved disk) (cleanup_file rename_error config nanos_now cutoff stats p)
    (fun _ => renamed cutoff (moved ++ [p]) disk) (renamed cutoff (moved ++ [p]) disk).
Proof using Hfresh.
  intros Hp Hf Hpq d Hd.
  assert (Hmore : renamed cutoff (moved ++ [p]) disk d).
  { eapply renamed_more; [|exact Hd]. intros q Hq. rewrite elem_of_app. by left. }
  pose proof (renamed_there _ _ _ _ Hd Hp Hf) as Hdp.
  unfold cleanup_file, read_disk, mbind, io_bind, file_of.
  destruct (exists_on d (sealed_marker_path p)) eqn:Hs; [done|]. apply exists_on_false in Hs. rewrite Hdp. cbn [ok_or]. destruct (Z.ltb_spec cutoff (sf_mtime_ms f)); [done|].
  rewrite Hdp. cbn [ok_or result_bind]. destruct (sf_footer f) eqn:Ef; [done|].
  destruct (quarantine_destination _ _ _ _ _) as [destination|] eqn:Eq; [|done].
  unfold rename. destruct (rename_error p destination); [done|]. rewrite Hdp. cbn.
  unfold quarantine_destination in Eq. apply bind_ok in Eq as (relative & _ & [= <-]).
  apply renamed_move; [done|done|done| |by apply unique_path_free].
  split_and!; [done|done|]. apply eq_None_not_Some. intros [m Hm].
  enough (d !! sealed_marker_path p = Some m) by congruence. apply (renamed_there _ _ _ _ Hd); [|done]. intros Hin. rewrite Forall_forall in Hpq.
  apply Hpq in Hin. by rewrite marker_not_listed in Hin.
Qed.

Lemma cleanup_files_renamed files stats : NoDup files -> Forall (fun p => is_Some (disk !! p)) files ->
  Forall (fun p => ends_with ".parquet" p = true) files ->
  triple (renamed cutoff [] disk) (io_fold (cleanup_file rename_error config nanos_now cutoff) stats files)
    (fun _ => renamed cutoff files disk) (renamed cutoff files disk).
Proof using Hfresh.
  intros Hnd Hin Hpq. apply (triple_fold _ (fun moved _ => renamed cutoff moved disk)).
  intros moved p s [rest ->]. rewrite <- app_assoc in *. apply NoDup_app in Hnd as (_ & Hd & _).
  rewrite !Forall_app in Hin, Hpq. destruct Hin as (_ & Hin & _), Hpq as [Hpq _].
  apply Forall_singleton in Hin as [f Hf]. eapply triple_weaken.
  - apply (cleanup_file_renamed moved s p f); [|done|done]. intros Hp. by apply (Hd p Hp); left.
  - done.
  - done.
  - intros d. apply renamed_more. intros q Hq. rewrite app_assoc, elem_of_app. by left.
Qed.
End no_loss.

(** C17: The cleanup loses nothing.  Wherever it stops, also at an error, every file of the disk
    is still there with its contents, no two under one name; a file has another name only
    if it is a listed Parquet file older than the safety floor, without a valid footer and
    without a sealed marker.  (A clock reading in nanoseconds names no file yet.) *)
Theorem cleanup_keeps_every_file (rename_error : string -> string -> option StorageError)
    (nanos_now : Disk -> string -> Z) (config : UnsealedOrphanConfig) (now_ms : Z) (files : list string)
    (disk disk' : Disk) (r : result StorageError UnsealedOrphanStats) :
  (forall d p, d !! with_suffix p (nanos_now d p) = None) ->
  NoDup files -> Forall (fun p => is_Some (disk !! p)) files ->
  Forall (fun p => ends_with ".parquet" p = true) files ->
  cleanup_invalid_unsealed_once rename_error true (Ok files) nanos_now config now_ms disk = (disk', r) ->
  renamed (safety_cutoff_ms now_ms (uo_safety_floor_secs config)) files disk disk'.
Proof.
  intros Hfresh Hnd Hin Hpq H. unfold cleanup_invalid_unsealed_once, mbind, io_bind, io_of in H. cbn [negb] in H.
  pose proof (cleanup_files_renamed (safety_cutoff_ms now_ms (uo_safety_floor_secs config)) disk
    rename_error nanos_now Hfresh config files orphan_stats_default Hnd Hin Hpq
    disk (renamed_start _ _)) as Hk.
  destruct (io_fold _ _ files disk) as [d [stats|e]]; injection H as <- _; exact Hk.
Qed.

(** ** A spool with four files *)

(** A stamp that no file of the disk has: more than all of them. *)
Definition taken (d : Disk) (p : string) : list Z :=
  omap (fun k => rest ← strip_prefix (p ++ ".") k; parse_digits (bytes rest)) (map_to_list d).*1.
Definition sample_nanos (d : Disk) (p : string) : Z := 1 + fold_right Z.max 0 (taken d p).

Lemma max_above l z : z ∈ l -> z <= fold_right Z.max 0 l.
Proof. induction 1; cbn; lia. Qed.

Lemma max_nonneg l : 0 <= fold_right Z.max 0 l.
Proof. induction l; cbn; lia. Qed.

Lemma sample_fresh d p : d !! with_suffix p (sample_nanos d p) = None.
Proof.
  apply eq_None_not_Some. intros [f Hf].
  assert (H : sample_nanos d p ∈ taken d p).
  { unfold taken. apply list_elem_of_omap. exists (with_suffix p (sample_nanos d p)). split.
    - apply list_elem_of_fmap. exists (with_suffix p (sample_nanos d p), f). split; [done|]. by apply elem_of_map_to_list.
    - pose proof (max_nonneg (taken d p)) as H. unfold with_suffix, show_Z. unfold sample_nanos at 1.
      destruct (Z.ltb_spec (1 + fold_right Z.max 0 (taken d p)) 0); [lia|].
      rewrite <- Text.str_app_assoc, strip_prefix_app. cbn. by apply parse_digits_show. }
  apply max_above in H. unfold sample_nanos in H. lia.
Qed.

Definition sample_files : list string := ["/spool/l0/a.parquet"; "/spool/l0/b.parquet"; "/spool/l0/c.parquet"]%string.
Definition sample_disk : Disk := list_to_map [
  ("/spool/l0/a.parquet", mkSpoolFile 100 10 false); ("/spool/l0/b.parquet", mkSpoolFile 100 20 true);
  ("/spool/l0/c.parquet", mkSpoolFile 100 30 false); ("/spool/l0/c.parquet.sealed", mkSpoolFile 120 0 false);
  ("/spool/orphaned-unsealed/a.parquet", mkSpoolFile 1 5 false)]%string.
Definition sample_config : UnsealedOrphanConfig := mkOrphanConfig "/spool/l0" 1.

Definition sample_cleanup : Disk * result StorageError UnsealedOrphanStats :=
  cleanup_invalid_unsealed_once (fun _ _ => None) true (Ok sample_files) sample_nanos sample_config 5000 sample_disk.

Lemma cleanup_keeps_every_file_witness :
  sample_cleanup.2 = Ok (mkOrphanStats 2 0 1 1 1 10 (Some "/spool/orphaned-unsealed"%string)) /\
  sample_cleanup.1 !! "/spool/orphaned-unsealed/a.parquet.1"%string = Some (mkSpoolFile 100 10 false) /\
  renamed 4000 sample_files sample_disk sample_cleanup.1.
Proof.
  split; [by vm_compute|]. split; [by vm_compute|].
  apply (cleanup_keeps_every_file (fun _ _ => None) sample_nanos sample_config 5000 sample_files sample_disk
    sample_cleanup.1 sample_cleanup.2).
  - exact sample_fresh.
  - apply (bool_decide_unpack _). by vm_compute.
  - repeat (apply Forall_cons; split; [vm_compute; by eexists|]). apply Forall_nil_2.
  - repeat constructor; by vm_compute.
  - exact (eq_sym (surjective_pairing sample_cleanup)).
Defined.
