(* ===== verification/VenueStats.v ===== *)
(** * VenueStats: what both venue watchers keep about a stream

    The fields that [binance/stats] and [upbit/stats] share, with the operations
    on them: the two capped alert logs, health, timing, reconnects, and the
    health records written when a run ends.  [BinanceVenue] and [UpbitVenue] add
    the fields and the event handling of each exchange. *)
From S2P Require Import Prelude Text OrderedMap Records.
Open Scope Z_scope.

(** ** State *)

(* rust: src/binance/stats/model.rs BinanceL0GapAlert *)
Record GapAlert := mkAlert {
  al_gap_type : string;
  al_symbol : string;
  al_detected_at_ms : Z;
  al_expected_sequence_id : option Z;
  al_observed_sequence_id : option Z;
  al_heal_action : string;
  al_heal_status : string;
}.

(* rust: src/binance/stats.rs MAX_STORED_GAP_ALERTS *)
Definition MAX_STORED_GAP_ALERTS : Z := 1000.
(* rust: src/binance/stats.rs MAX_RECENT_GAP_ALERTS *)
Definition MAX_RECENT_GAP_ALERTS : Z := 20.

Record WatchCore := mkCoreStats {
  wc_stream_url : string;
  wc_planned_stream_count : Z;
  wc_received_messages : Z;
  wc_parsed_messages : Z;
  wc_malformed_messages : Z;
  wc_control_messages : Z;
  wc_pings_received : Z;
  wc_pongs_received : Z;
  wc_close_messages : Z;
  wc_kind_counts : btree string Z;
  wc_symbol_counts : btree string Z;
  wc_ticker_messages : Z;
  wc_trade_messages : Z;
  wc_sequence_anomalies : Z;
  wc_source_health_status : string;
  wc_source_health_events : Z;
  wc_reconnect_count : Z;
  wc_last_reconnect_at_ms : option Z;
  wc_gap_alert_count : Z;
  wc_recent_gap_alerts : list GapAlert;
  wc_gap_alerts : list GapAlert;
  wc_last_exchange_timestamp_ms : option Z;
  wc_last_ingest_timestamp_ms : option Z;
  wc_latest_stream_lag_ms : Z;
  wc_symbol_last_event_time_ms : btree string Z;
  wc_symbol_last_ingest_time_ms : btree string Z;
}.

Definition set_wc_received_messages (v : Z) (s : WatchCore) : WatchCore :=
  mkCoreStats (wc_stream_url s) (wc_planned_stream_count s) v (wc_parsed_messages s)
    (wc_malformed_messages s) (wc_control_messages s) (wc_pings_received s) (wc_pongs_received s)
    (wc_close_messages s) (wc_kind_counts s) (wc_symbol_counts s) (wc_ticker_messages s)
    (wc_trade_messages s) (wc_sequence_anomalies s) (wc_source_health_status s)
    (wc_source_health_events s) (wc_reconnect_count s) (wc_last_reconnect_at_ms s)
    (wc_gap_alert_count s) (wc_recent_gap_alerts s) (wc_gap_alerts s)
    (wc_last_exchange_timestamp_ms s) (wc_last_ingest_timestamp_ms s) (wc_latest_stream_lag_ms s)
    (wc_symbol_last_event_time_ms s) (wc_symbol_last_ingest_time_ms s).
Definition set_wc_parsed_messages (v : Z) (s : WatchCore) : WatchCore :=
  mkCoreStats (wc_stream_url s) (wc_planned_stream_count s) (wc_received_messages s) v
    (wc_malformed_messages s) (wc_control_messages s) (wc_pings_received s) (wc_pongs_received s)
    (wc_close_messages s) (wc_kind_counts s) (wc_symbol_counts s) (wc_ticker_messages s)
    (wc_trade_messages s) (wc_sequence_anomalies s) (wc_source_health_status s)
    (wc_source_health_events s) (wc_reconnect_count s) (wc_last_reconnect_at_ms s)
    (wc_gap_alert_count s) (wc_recent_gap_alerts s) (wc_gap_alerts s)
    (wc_last_exchange_timestamp_ms s) (wc_last_ingest_timestamp_ms s) (wc_latest_stream_lag_ms s)
    (wc_symbol_last_event_time_ms s) (wc_symbol_last_ingest_time_ms s).
Definition set_wc_malformed_messages (v : Z) (s : WatchCore) : WatchCore :=
  mkCoreStats (wc_stream_url s) (wc_planned_stream_count s) (wc_received_messages s)
    (wc_parsed_messages s) v (wc_control_messages s) (wc_pings_received s) (wc_pongs_received s)
    (wc_close_messages s) (wc_kind_counts s) (wc_symbol_counts s) (wc_ticker_messages s)
    (wc_trade_messages s) (wc_sequence_anomalies s) (wc_source_health_status s)
    (wc_source_health_events s) (wc_reconnect_count s) (wc_last_reconnect_at_ms s)
    (wc_gap_alert_count s) (wc_recent_gap_alerts s) (wc_gap_alerts s)
    (wc_last_exchange_timestamp_ms s) (wc_last_ingest_timestamp_ms s) (wc_latest_stream_lag_ms s)
    (wc_symbol_last_event_time_ms s) (wc_symbol_last_ingest_time_ms s).
Definition set_wc_control_messages (v : Z) (s : WatchCore) : WatchCore :=
  mkCoreStats (wc_stream_url s) (wc_planned_stream_count s) (wc_received_messages s)
    (wc_parsed_messages s) (wc_malformed_messages s) v (wc_pings_received s) (wc_pongs_received s)
    (wc_close_messages s) (wc_kind_counts s) (wc_symbol_counts s) (wc_ticker_messages s)
    (wc_trade_messages s) (wc_sequence_anomalies s) (wc_source_health_status s)
    (wc_source_health_events s) (wc_reconnect_count s) (wc_last_reconnect_at_ms s)
    (wc_gap_alert_count s) (wc_recent_gap_alerts s) (wc_gap_alerts s)
    (wc_last_exchange_timestamp_ms s) (wc_last_ingest_timestamp_ms s) (wc_latest_stream_lag_ms s)
    (wc_symbol_last_event_time_ms s) (wc_symbol_last_ingest_time_ms s).
Definition set_wc_pings_received (v : Z) (s : WatchCore) : WatchCore :=
  mkCoreStats (wc_stream_url s) (wc_planned_stream_count s) (wc_received_messages s)
    (wc_parsed_messages s) (wc_malformed_messages s) (wc_control_messages s) v (wc_pongs_received
    s) (wc_close_messages s) (wc_kind_counts s) (wc_symbol_counts s) (wc_ticker_messages s)
    (wc_trade_messages s) (wc_sequence_anomalies s) (wc_source_health_status s)
    (wc_source_health_events s) (wc_reconnect_count s) (wc_last_reconnect_at_ms s)
    (wc_gap_alert_count s) (wc_recent_gap_alerts s) (wc_gap_alerts s)
    (wc_last_exchange_timestamp_ms s) (wc_last_ingest_timestamp_ms s) (wc_latest_stream_lag_ms s)
    (wc_symbol_last_event_time_ms s) (wc_symbol_last_ingest_time_ms s).
Definition set_wc_pongs_received (v : Z) (s : WatchCore) : WatchCore :=
  mkCoreStats (wc_stream_url s) (wc_planned_stream_count s) (wc_received_messages s)
    (wc_parsed_messages s) (wc_malformed_messages s) (wc_control_messages s) (wc_pings_received s)
    v (wc_close_messages s) (wc_kind_counts s) (wc_symbol_counts s) (wc_ticker_messages s)
    (wc_trade_messages s) (wc_sequence_anomalies s) (wc_source_health_status s)
    (wc_source_health_events s) (wc_reconnect_count s) (wc_last_reconnect_at_ms s)
    (wc_gap_alert_count s) (wc_recent_gap_alerts s) (wc_gap_alerts s)
    (wc_last_exchange_timestamp_ms s) (wc_last_ingest_timestamp_ms s) (wc_latest_stream_lag_ms s)
    (wc_symbol_last_event_time_ms s) (wc_symbol_last_ingest_time_ms s).
Definition set_wc_close_messages (v : Z) (s : WatchCore) : WatchCore :=
  mkCoreStats (wc_stream_url s) (wc_planned_stream_count s) (wc_received_messages s)
    (wc_parsed_messages s) (wc_malformed_messages s) (wc_control_messages s) (wc_pings_received s)
    (wc_pongs_received s) v (wc_kind_counts s) (wc_symbol_counts s) (wc_ticker_messages s)
    (wc_trade_messages s) (wc_sequence_anomalies s) (wc_source_health_status s)
    (wc_source_health_events s) (wc_reconnect_count s) (wc_last_reconnect_at_ms s)
    (wc_gap_alert_count s) (wc_recent_gap_alerts s) (wc_gap_alerts s)
    (wc_last_exchange_timestamp_ms s) (wc_last_ingest_timestamp_ms s) (wc_latest_stream_lag_ms s)
    (wc_symbol_last_event_time_ms s) (wc_symbol_last_ingest_time_ms s).
Definition set_wc_kind_counts (v : btree string Z) (s : WatchCore) : WatchCore :=
  mkCoreStats (wc_stream_url s) (wc_planned_stream_count s) (wc_received_messages s)
    (wc_parsed_messages s) (wc_malformed_messages s) (wc_control_messages s) (wc_pings_received s)
    (wc_pongs_received s) (wc_close_messages s) v (wc_symbol_counts s) (wc_ticker_messages s)
    (wc_trade_messages s) (wc_sequence_anomalies s) (wc_source_health_status s)
    (wc_source_health_events s) (wc_reconnect_count s) (wc_last_reconnect_at_ms s)
    (wc_gap_alert_count s) (wc_recent_gap_alerts s) (wc_gap_alerts s)
    (wc_last_exchange_timestamp_ms s) (wc_last_ingest_timestamp_ms s) (wc_latest_stream_lag_ms s)
    (wc_symbol_last_event_time_ms s) (wc_symbol_last_ingest_time_ms s).
Definition set_wc_symbol_counts (v : btree string Z) (s : WatchCore) : WatchCore :=
  mkCoreStats (wc_stream_url s) (wc_planned_stream_count s) (wc_received_messages s)
    (wc_parsed_messages s) (wc_malformed_messages s) (wc_control_messages s) (wc_pings_received s)
    (wc_pongs_received s) (wc_close_messages s) (wc_kind_counts s) v (wc_ticker_messages s)
    (wc_trade_messages s) (wc_sequence_anomalies s) (wc_source_health_status s)
    (wc_source_health_events s) (wc_reconnect_count s) (wc_last_reconnect_at_ms s)
    (wc_gap_alert_count s) (wc_recent_gap_alerts s) (wc_gap_alerts s)
    (wc_last_exchange_timestamp_ms s) (wc_last_ingest_timestamp_ms s) (wc_latest_stream_lag_ms s)
    (wc_symbol_last_event_time_ms s) (wc_symbol_last_ingest_time_ms s).
Definition set_wc_ticker_messages (v : Z) (s : WatchCore) : WatchCore :=
  mkCoreStats (wc_stream_url s) (wc_planned_stream_count s) (wc_received_messages s)
    (wc_parsed_messages s) (wc_malformed_messages s) (wc_control_messages s) (wc_pings_received s)
    (wc_pongs_received s) (wc_close_messages s) (wc_kind_counts s) (wc_symbol_counts s) v
    (wc_trade_messages s) (wc_sequence_anomalies s) (wc_source_health_status s)
    (wc_source_health_events s) (wc_reconnect_count s) (wc_last_reconnect_at_ms s)
    (wc_gap_alert_count s) (wc_recent_gap_alerts s) (wc_gap_alerts s)
    (wc_last_exchange_timestamp_ms s) (wc_last_ingest_timestamp_ms s) (wc_latest_stream_lag_ms s)
    (wc_symbol_last_event_time_ms s) (wc_symbol_last_ingest_time_ms s).
Definition set_wc_trade_messages (v : Z) (s : WatchCore) : WatchCore :=
  mkCoreStats (wc_stream_url s) (wc_planned_stream_count s) (wc_received_messages s)
    (wc_parsed_messages s) (wc_malformed_messages s) (wc_control_messages s) (wc_pings_received s)
    (wc_pongs_received s) (wc_close_messages s) (wc_kind_counts s) (wc_symbol_counts s)
    (wc_ticker_messages s) v (wc_sequence_anomalies s) (wc_source_health_status s)
    (wc_source_health_events s) (wc_reconnect_count s) (wc_last_reconnect_at_ms s)
    (wc_gap_alert_count s) (wc_recent_gap_alerts s) (wc_gap_alerts s)
    (wc_last_exchange_timestamp_ms s) (wc_last_ingest_timestamp_ms s) (wc_latest_stream_lag_ms s)
    (wc_symbol_last_event_time_ms s) (wc_symbol_last_ingest_time_ms s).
Definition set_wc_sequence_anomalies (v : Z) (s : WatchCore) : WatchCore :=
  mkCoreStats (wc_stream_url s) (wc_planned_stream_count s) (wc_received_messages s)
    (wc_parsed_messages s) (wc_malformed_messages s) (wc_control_messages s) (wc_pings_received s)
    (wc_pongs_received s) (wc_close_messages s) (wc_kind_counts s) (wc_symbol_counts s)
    (wc_ticker_messages s) (wc_trade_messages s) v (wc_source_health_status s)
    (wc_source_health_events s) (wc_reconnect_count s) (wc_last_reconnect_at_ms s)
    (wc_gap_alert_count s) (wc_recent_gap_alerts s) (wc_gap_alerts s)
    (wc_last_exchange_timestamp_ms s) (wc_last_ingest_timestamp_ms s) (wc_latest_stream_lag_ms s)
    (wc_symbol_last_event_time_ms s) (wc_symbol_last_ingest_time_ms s).
Definition set_wc_source_health_status (v : string) (s : WatchCore) : WatchCore :=
  mkCoreStats (wc_stream_url s) (wc_planned_stream_count s) (wc_received_messages s)
    (wc_parsed_messages s) (wc_malformed_messages s) (wc_control_messages s) (wc_pings_received s)
    (wc_pongs_received s) (wc_close_messages s) (wc_kind_counts s) (wc_symbol_counts s)
    (wc_ticker_messages s) (wc_trade_messages s) (wc_sequence_anomalies s) v
    (wc_source_health_events s) (wc_reconnect_count s) (wc_last_reconnect_at_ms s)
    (wc_gap_alert_count s) (wc_recent_gap_alerts s) (wc_gap_alerts s)
    (wc_last_exchange_timestamp_ms s) (wc_last_ingest_timestamp_ms s) (wc_latest_stream_lag_ms s)
    (wc_symbol_last_event_time_ms s) (wc_symbol_last_ingest_time_ms s).
Definition set_wc_source_health_events (v : Z) (s : WatchCore) : WatchCore :=
  mkCoreStats (wc_stream_url s) (wc_planned_stream_count s) (wc_received_messages s)
    (wc_parsed_messages s) (wc_malformed_messages s) (wc_control_messages s) (wc_pings_received s)
    (wc_pongs_received s) (wc_close_messages s) (wc_kind_counts s) (wc_symbol_counts s)
    (wc_ticker_messages s) (wc_trade_messages s) (wc_sequence_anomalies s)
    (wc_source_health_status s) v (wc_reconnect_count s) (wc_last_reconnect_at_ms s)
    (wc_gap_alert_count s) (wc_recent_gap_alerts s) (wc_gap_alerts s)
    (wc_last_exchange_timestamp_ms s) (wc_last_ingest_timestamp_ms s) (wc_latest_stream_lag_ms s)
    (wc_symbol_last_event_time_ms s) (wc_symbol_last_ingest_time_ms s).
Definition set_wc_reconnect_count (v : Z) (s : WatchCore) : WatchCore :=
  mkCoreStats (wc_stream_url s) (wc_planned_stream_count s) (wc_received_messages s)
    (wc_parsed_messages s) (wc_malformed_messages s) (wc_control_messages s) (wc_pings_received s)
    (wc_pongs_received s) (wc_close_messages s) (wc_kind_counts s) (wc_symbol_counts s)
    (wc_ticker_messages s) (wc_trade_messages s) (wc_sequence_anomalies s)
    (wc_source_health_status s) (wc_source_health_events s) v (wc_last_reconnect_at_ms s)
    (wc_gap_alert_count s) (wc_recent_gap_alerts s) (wc_gap_alerts s)
    (wc_last_exchange_timestamp_ms s) (wc_last_ingest_timestamp_ms s) (wc_latest_stream_lag_ms s)
    (wc_symbol_last_event_time_ms s) (wc_symbol_last_ingest_time_ms s).
Definition set_wc_last_reconnect_at_ms (v : option Z) (s : WatchCore) : WatchCore :=
  mkCoreStats (wc_stream_url s) (wc_planned_stream_count s) (wc_received_messages s)
    (wc_parsed_messages s) (wc_malformed_messages s) (wc_control_messages s) (wc_pings_received s)
    (wc_pongs_received s) (wc_close_messages s) (wc_kind_counts s) (wc_symbol_counts s)
    (wc_ticker_messages s) (wc_trade_messages s) (wc_sequence_anomalies s)
    (wc_source_health_status s) (wc_source_health_events s) (wc_reconnect_count s) v
    (wc_gap_alert_count s) (wc_recent_gap_alerts s) (wc_gap_alerts s)
    (wc_last_exchange_timestamp_ms s) (wc_last_ingest_timestamp_ms s) (wc_latest_stream_lag_ms s)
    (wc_symbol_last_event_time_ms s) (wc_symbol_last_ingest_time_ms s).
Definition set_wc_symbol_last_event_time_ms (v : btree string Z) (s : WatchCore) : WatchCore :=
  mkCoreStats (wc_stream_url s) (wc_planned_stream_count s) (wc_received_messages s)
    (wc_parsed_messages s) (wc_malformed_messages s) (wc_control_messages s) (wc_pings_received s)
    (wc_pongs_received s) (wc_close_messages s) (wc_kind_counts s) (wc_symbol_counts s)
    (wc_ticker_messages s) (wc_trade_messages s) (wc_sequence_anomalies s)
    (wc_source_health_status s) (wc_source_health_events s) (wc_reconnect_count s)
    (wc_last_reconnect_at_ms s) (wc_gap_alert_count s) (wc_recent_gap_alerts s) (wc_gap_alerts s)
    (wc_last_exchange_timestamp_ms s) (wc_last_ingest_timestamp_ms s) (wc_latest_stream_lag_ms s)
    v (wc_symbol_last_ingest_time_ms s).
Definition set_wc_symbol_last_ingest_time_ms (v : btree string Z) (s : WatchCore) : WatchCore :=
  mkCoreStats (wc_stream_url s) (wc_planned_stream_count s) (wc_received_messages s)
    (wc_parsed_messages s) (wc_malformed_messages s) (wc_control_messages s) (wc_pings_received s)
    (wc_pongs_received s) (wc_close_messages s) (wc_kind_counts s) (wc_symbol_counts s)
    (wc_ticker_messages s) (wc_trade_messages s) (wc_sequence_anomalies s)
    (wc_source_health_status s) (wc_source_health_events s) (wc_reconnect_count s)
    (wc_last_reconnect_at_ms s) (wc_gap_alert_count s) (wc_recent_gap_alerts s) (wc_gap_alerts s)
    (wc_last_exchange_timestamp_ms s) (wc_last_ingest_timestamp_ms s) (wc_latest_stream_lag_ms s)
    (wc_symbol_last_event_time_ms s) v.


Definition set_alert_log (count : Z) (recent stored : list GapAlert) (s : WatchCore) : WatchCore :=
  mkCoreStats (wc_stream_url s) (wc_planned_stream_count s) (wc_received_messages s)
    (wc_parsed_messages s) (wc_malformed_messages s) (wc_control_messages s) (wc_pings_received s)
    (wc_pongs_received s) (wc_close_messages s) (wc_kind_counts s) (wc_symbol_counts s)
    (wc_ticker_messages s) (wc_trade_messages s) (wc_sequence_anomalies s)
    (wc_source_health_status s) (wc_source_health_events s) (wc_reconnect_count s)
    (wc_last_reconnect_at_ms s) count recent stored (wc_last_exchange_timestamp_ms s)
    (wc_last_ingest_timestamp_ms s) (wc_latest_stream_lag_ms s) (wc_symbol_last_event_time_ms s)
    (wc_symbol_last_ingest_time_ms s).

Definition set_timing (exchange ingest lag : Z) (s : WatchCore) : WatchCore :=
  mkCoreStats (wc_stream_url s) (wc_planned_stream_count s) (wc_received_messages s)
    (wc_parsed_messages s) (wc_malformed_messages s) (wc_control_messages s) (wc_pings_received s)
    (wc_pongs_received s) (wc_close_messages s) (wc_kind_counts s) (wc_symbol_counts s)
    (wc_ticker_messages s) (wc_trade_messages s) (wc_sequence_anomalies s)
    (wc_source_health_status s) (wc_source_health_events s) (wc_reconnect_count s)
    (wc_last_reconnect_at_ms s) (wc_gap_alert_count s) (wc_recent_gap_alerts s) (wc_gap_alerts s)
    (Some exchange) (Some ingest) lag (wc_symbol_last_event_time_ms s)
    (wc_symbol_last_ingest_time_ms s).

Definition core_stats_new (url : string) (planned : Z) : WatchCore :=
  mkCoreStats url planned 0 0 0 0 0 0 0 [] [] 0 0 0 "connected" 1 0 None 0 [] [] None None 0 [] [].

Definition bump_core (get : WatchCore -> Z) (set : Z -> WatchCore -> WatchCore) (s : WatchCore)
    : WatchCore := set (incr_u64 (get s)) s.

Definition set_status (status : string) (s : WatchCore) : WatchCore :=
  bump_core wc_source_health_events set_wc_source_health_events
    (set_wc_source_health_status status s).

(** ** Operations *)

(** [push_back], then [pop_front] when the queue is longer than [cap]. *)
Definition push_capped {A} (cap : Z) (l : list A) (a : A) : list A :=
  let l := l ++ [a] in if cap <? zlen l then tail l else l.

(* rust: src/binance/stats/event.rs record_gap_alert *)
Definition record_gap_alert (a : GapAlert) (s : WatchCore) : WatchCore :=
  set_alert_log (incr_u64 (wc_gap_alert_count s))
    (push_capped MAX_RECENT_GAP_ALERTS (wc_recent_gap_alerts s) a)
    (push_capped MAX_STORED_GAP_ALERTS (wc_gap_alerts s) a) s.

(** [a.saturating_sub(b).max(0)] *)
Definition lag_ms (a b : Z) : Z := Z.max (saturate I64 (a - b)) 0.

(* rust: src/binance/stats/health.rs record_timing *)
Definition record_timing (exchange_timestamp_ms ingest_timestamp_ms : Z) (s : WatchCore) : WatchCore :=
  set_timing exchange_timestamp_ms ingest_timestamp_ms
    (lag_ms ingest_timestamp_ms exchange_timestamp_ms) s.

(* rust: src/binance/stats/health.rs update_health *)
Definition update_health (s : WatchCore) : WatchCore :=
  set_status
    (if wc_received_messages s =? 0 then "waiting_for_messages"%string
     else if (0 <? wc_malformed_messages s) || (0 <? wc_gap_alert_count s) then "degraded"%string
     else "connected"%string) s.

(* rust: src/binance/stats/health.rs heartbeat_delay_ms_at *)
Definition heartbeat_delay_ms_at (s : WatchCore) (observed_at_ms : Z) : Z :=
  match wc_last_ingest_timestamp_ms s with
  | Some last => lag_ms observed_at_ms last
  | None => 0
  end.

Definition reconnect_alert (reason : string) (now_ms : Z) : GapAlert :=
  mkAlert "ws_reconnect" "" now_ms None None "reconnect_with_backoff" reason.

(* rust: src/binance/ws/control.rs record_reconnect *)
Definition record_reconnect (reason : string) (now_ms : Z) (s : WatchCore) : WatchCore :=
  let s := set_wc_reconnect_count (incr_u64 (wc_reconnect_count s)) s in
  let s := set_wc_last_reconnect_at_ms (Some now_ms) s in
  record_gap_alert (reconnect_alert reason now_ms) (set_status "reconnecting" s).

(** ** Health records *)

(** The JSON values the code builds; their text is [serde_json]'s. *)
#[warnings="-register-all"]
Inductive jvalue :=
| JNull
| JBool (b : bool)
| JInt (z : Z)
| JStr (s : string)
| JList (l : list jvalue)
| JObj (fields : list (string * jvalue)).

Class JsonText := { json_text : jvalue -> string }.

Definition fld (name : string) (v : jvalue) : string * jvalue := (name, v).

Definition j_opt (o : option Z) : jvalue := match o with Some z => JInt z | None => JNull end.

Definition alert_json (a : GapAlert) : jvalue :=
  JObj [fld "gap_type" (JStr (al_gap_type a)); fld "symbol" (JStr (al_symbol a));
    fld "detected_at_ms" (JInt (al_detected_at_ms a));
    fld "expected_sequence_id" (j_opt (al_expected_sequence_id a));
    fld "observed_sequence_id" (j_opt (al_observed_sequence_id a));
    fld "heal_action" (JStr (al_heal_action a)); fld "heal_status" (JStr (al_heal_status a))].

(* rust: src/binance/storage_output/health.rs health_level *)
Definition health_level (s : WatchCore) : string :=
  if String.eqb (wc_source_health_status s) "connected" && (wc_malformed_messages s =? 0)%Z
       && (wc_gap_alert_count s =? 0)%Z then "healthy"
  else if (wc_received_messages s =? 0)%Z then "critical"
  else "degraded".

(* rust: src/binance/storage_output/health.rs symbol_health_payload *)
Definition symbol_health_payload (s : WatchCore) (observed_at_ms : Z) : list jvalue :=
  map (fun symbol =>
    let event := bget symbol (wc_symbol_last_event_time_ms s) in
    let received := bget symbol (wc_symbol_last_ingest_time_ms s) in
    let latency := match event, received with Some e, Some r => Some (lag_ms r e) | _, _ => None end in
    let stale_ms := match received with Some r => lag_ms observed_at_ms r | None => 0 end in
    JObj [fld "symbol_native" (JStr symbol);
      fld "last_event_time_ms" (j_opt event);
      fld "last_received_time_ms" (j_opt received);
      fld "latency_ms" (j_opt latency);
      fld "stale_ms" (JInt stale_ms);
      fld "is_tradeable" (JBool ((stale_ms <? 60000) && (wc_gap_alert_count s =? 0)));
      fld "reason_codes" (JList (if 60000 <=? stale_ms then [JStr "source_stale"] else []))])
  (bkeys (wc_symbol_counts s)).

Definition symbol_health_draft (venue : string) (s : WatchCore) (observed_at_ms : Z) (symbol : string)
    : SymbolHealthDraft :=
  let event := default observed_at_ms (bget symbol (wc_symbol_last_event_time_ms s)) in
  let received := default observed_at_ms (bget symbol (wc_symbol_last_ingest_time_ms s)) in
  let reasons :=
    (if 60000 <=? lag_ms observed_at_ms received then ["source_stale"] else []) ++
    (if 0 <? wc_gap_alert_count s then ["source_gap_detected"] else []) in
  mkSymHealthDraft venue symbol observed_at_ms event (lag_ms received event)
    (match reasons with [] => true | _ => false end) reasons.

(* rust: src/binance/storage_output/health.rs symbol_health_drafts *)
Definition symbol_health_drafts (venue : string) (s : WatchCore) (observed_at_ms : Z)
    : list SymbolHealthDraft :=
  map (symbol_health_draft venue s observed_at_ms) (bkeys (wc_symbol_counts s)).

(* rust: src/binance/storage_output/gaps.rs gap_alert_draft *)
Definition gap_alert_draft {J : JsonText} (venue source_role : string) (a : GapAlert) : GapAlertDraft :=
  mkGapDraft venue source_role (al_symbol a) (al_gap_type a) (al_detected_at_ms a)
    (al_expected_sequence_id a) (al_observed_sequence_id a) (al_heal_action a) (al_heal_status a)
    (json_text (alert_json a)).

(** [received .. symbols_seen], the fields both venues report first. *)
Definition common_health_fields (s : WatchCore) : list (string * jvalue) :=
  [fld "received_messages" (JInt (wc_received_messages s));
   fld "parsed_messages" (JInt (wc_parsed_messages s));
   fld "malformed_messages" (JInt (wc_malformed_messages s));
   fld "symbols_seen" (JInt (zlen (wc_symbol_counts s)));
   fld "ticker_messages" (JInt (wc_ticker_messages s));
   fld "trade_messages" (JInt (wc_trade_messages s))].

Definition timing_health_fields (s : WatchCore) (observed_at_ms : Z) : list (string * jvalue) :=
  [fld "gap_alert_count" (JInt (wc_gap_alert_count s));
   fld "last_exchange_timestamp_ms" (j_opt (wc_last_exchange_timestamp_ms s));
   fld "last_ingest_timestamp_ms" (j_opt (wc_last_ingest_timestamp_ms s));
   fld "stream_lag_ms" (JInt (wc_latest_stream_lag_ms s));
   fld "symbol_health" (JList (symbol_health_payload s observed_at_ms))].

(** The health draft around the venue's own counters. *)
Definition health_draft {J : JsonText} (venue source_role : string) (counters : list (string * jvalue))
    (s : WatchCore) (observed_at_ms : Z) : SourceHealthDraft :=
  mkHealthDraft venue source_role observed_at_ms (wc_source_health_status s)
    (heartbeat_delay_ms_at s observed_at_ms) (wc_latest_stream_lag_ms s) (wc_gap_alert_count s) 0
    (health_level s)
    (json_text (JObj (common_health_fields s ++ counters ++ timing_health_fields s observed_at_ms))).

(** ** The alert logs hold the latest alerts *)

Definition last_n {A} (n : Z) (l : list A) : list A := drop (Z.to_nat (zlen l - n)) l.

Lemma last_n_length {A} n (l : list A) : 0 <= n -> zlen (last_n n l) = Z.min n (zlen l).
Proof. intros. unfold last_n, zlen. rewrite length_drop. lia. Qed.

Lemma push_capped_last_n {A} cap (l : list A) a :
  0 <= cap -> push_capped cap (last_n cap l) a = last_n cap (l ++ [a]).
Proof.
  intros Hcap. unfold push_capped. rewrite zlen_snoc, last_n_length by done.
  unfold last_n. rewrite zlen_snoc.
  destruct (Z.ltb_spec cap (Z.min cap (zlen l) + 1)) as [Hlt|Hge].
  - replace (Z.to_nat (zlen l + 1 - cap)) with (S (Z.to_nat (zlen l - cap))) by lia.
    rewrite <- drop_app_le by (unfold zlen in *; lia).
    generalize (Z.to_nat (zlen l - cap)) (l ++ [a]). intros n l'. revert n.
    induction l' as [|x l' IH]; intros [|n]; cbn; done || apply IH.
  - replace (Z.to_nat (zlen l - cap)) with 0%nat by lia.
    replace (Z.to_nat (zlen l + 1 - cap)) with 0%nat by lia. done.
Qed.

(** [s] has logged exactly the alerts [all], oldest first. *)
Record logged (all : list GapAlert) (s : WatchCore) : Prop := {
  lg_count : wc_gap_alert_count s = wrap U64 (zlen all);
  lg_recent : wc_recent_gap_alerts s = last_n MAX_RECENT_GAP_ALERTS all;
  lg_stored : wc_gap_alerts s = last_n MAX_STORED_GAP_ALERTS all;
}.

Lemma logged_new url n : logged [] (core_stats_new url n).
Proof. by split. Qed.

Lemma wrap_succ_u64 n : incr_u64 (wrap U64 n) = wrap U64 (n + 1).
Proof.
  unfold incr_u64, wrap. cbn [int_min int_max]. rewrite !Z.sub_0_r, !Z.add_0_r.
  by rewrite Zplus_mod_idemp_l.
Qed.

Lemma record_gap_alert_logged all a s :
  logged all s -> logged (all ++ [a]) (record_gap_alert a s).
Proof.
  intros [Hc Hr Hs]. split; cbn.
  - by rewrite Hc, zlen_snoc, wrap_succ_u64.
  - by rewrite Hr, push_capped_last_n.
  - by rewrite Hs, push_capped_last_n.
Qed.

(** Operations that do not touch the alert logs. *)
Definition same_log (s s' : WatchCore) : Prop :=
  wc_gap_alert_count s' = wc_gap_alert_count s /\
  wc_recent_gap_alerts s' = wc_recent_gap_alerts s /\
  wc_gap_alerts s' = wc_gap_alerts s.

Lemma same_log_logged all s s' : same_log s s' -> logged all s -> logged all s'.
Proof. intros (Hc & Hr & Hs) [? ? ?]. split; congruence. Qed.
