(* ===== verification/BinanceVenue.v ===== *)
(** * BinanceVenue: the Binance stream watcher's events and statistics

    [binance/events], [binance/stats/event.rs] and [binance/ws/message.rs]:
    parsing of combined payloads, the checks on trade order and depth update
    identifiers, and the storage of raw events.  The theorem of this file shows
    that the running checks raise exactly the alerts a look back through the
    whole history would raise. *)
From S2P Require Import Prelude Text OrderedMap BinanceNormalize IngestWatch Records Sink.
From S2P Require Import VenueStats.
Open Scope Z_scope.

(** ** Events *)

(* rust: src/binance/error.rs BinanceIngestError *)
Inductive BinanceIngestError :=
| BEHttp (e : string)
| BEMarketData (e : MarketDataError)
| BEJson (e : string)
| BEWebSocket (e : string)
| BEUtf8 (e : string)
| BEStorage (e : StorageError)
| BEInvalidMessage (e : string).

(* rust: src/binance/config.rs BinanceMarket *)
Record BinanceMarket := mkMarket { bm_raw_symbol : string; bm_base_asset : string; bm_quote_asset : string }.

(* rust: src/binance/events/message.rs BinanceTradeMessage *)
Record BinanceTradeMessage := mkTrade {
  bt_event_time_ms : Z; bt_symbol : string; bt_trade_id : Z; bt_trade_time_ms : Z }.

(* rust: src/binance/events/message.rs BinanceTickerMessage *)
Record BinanceTickerMessage := mkTick {
  bk_event_time_ms : Z; bk_symbol : string; bk_last_trade_id : Z }.

(* rust: src/binance/events/message.rs BinanceBookTickerMessage *)
Record BinanceBookTickerMessage := mkBookTick { bb_update_id : Z; bb_symbol : string }.

(* rust: src/binance/events/message.rs BinanceDiffDepthMessage *)
Record BinanceDiffDepthMessage := mkDepth {
  bd_event_time_ms : Z; bd_symbol : string; bd_first_update_id : Z; bd_final_update_id : Z }.

(* rust: src/binance/events/parsed.rs BinanceParsedEvent *)
Inductive BinanceParsedEvent :=
| PTrade (m : BinanceTradeMessage)
| PTicker (m : BinanceTickerMessage)
| PBookTicker (m : BinanceBookTickerMessage)
| PDiffDepth (m : BinanceDiffDepthMessage).

(* rust: src/binance/events/parsed.rs BinanceParsedEnvelope *)
Record BinanceParsedEnvelope := mkEnvelope {
  en_stream : string; en_event : BinanceParsedEvent; en_payload_json : string }.

(* rust: src/binance/events/parsed.rs kind_name *)
Definition kind_name (e : BinanceParsedEvent) : string :=
  match e with
  | PTrade _ => "trade" | PTicker _ => "ticker"
  | PBookTicker _ => "bookTicker" | PDiffDepth _ => "depth@100ms"
  end.

(* rust: src/binance/events/parsed.rs storage_event_type *)
Definition storage_event_type (e : BinanceParsedEvent) : string :=
  match e with
  | PTrade _ => "trade" | PTicker _ => "ticker"
  | PBookTicker _ => "book_ticker" | PDiffDepth _ => "depth_delta"
  end.

(* rust: src/binance/events/parsed.rs symbol *)
Definition symbol (e : BinanceParsedEvent) : string :=
  match e with
  | PTrade m => bt_symbol m | PTicker m => bk_symbol m
  | PBookTicker m => bb_symbol m | PDiffDepth m => bd_symbol m
  end.

(* rust: src/binance/events/parsed.rs exchange_timestamp_ms *)
Definition exchange_timestamp_ms (e : BinanceParsedEvent) (fallback_ms : Z) : Z :=
  match e with
  | PTrade m => bt_trade_time_ms m | PTicker m => bk_event_time_ms m
  | PBookTicker _ => fallback_ms | PDiffDepth m => bd_event_time_ms m
  end.

(* rust: src/binance/events/parsed.rs sequence_id *)
Definition sequence_id (e : BinanceParsedEvent) : string :=
  match e with
  | PTrade m => "binance:trade:" ++ show_Z (bt_trade_id m)
  | PTicker m => "binance:ticker:" ++ show_Z (bk_last_trade_id m)
  | PBookTicker m => "binance:book_ticker:" ++ show_Z (bb_update_id m)
  | PDiffDepth m => "binance:depth_delta:" ++ show_Z (bd_final_update_id m)
  end.

(* rust: src/binance/events/parsed.rs numeric_sequence *)
Definition numeric_sequence (e : BinanceParsedEvent) : Z :=
  match e with
  | PTrade m => bt_trade_id m | PTicker m => bk_last_trade_id m
  | PBookTicker m => bb_update_id m | PDiffDepth m => bd_final_update_id m
  end.

(* rust: src/binance/events/parsed.rs exchange_sequence *)
Definition exchange_sequence (e : BinanceParsedEvent) : option Z := Some (numeric_sequence e).

(* rust: src/binance/events/parsed.rs diff_first_update_id *)
Definition diff_first_update_id (e : BinanceParsedEvent) : option Z :=
  match e with PDiffDepth m => Some (bd_first_update_id m) | _ => None end.

(* rust: src/binance/events/parsed.rs diff_final_update_id *)
Definition diff_final_update_id (e : BinanceParsedEvent) : option Z :=
  match e with PDiffDepth m => Some (bd_final_update_id m) | _ => None end.

(** ** Parsing; [serde_json] is a parameter *)

Class EventJson (V : Type) := {
  ej_parse : string -> result string V;
  ej_to_string : V -> result string string;
  ej_combined : V -> result string (string * V);
  ej_trade : V -> result string BinanceTradeMessage;
  ej_ticker : V -> result string BinanceTickerMessage;
  ej_book_ticker : V -> result string BinanceBookTickerMessage;
  ej_diff_depth : V -> result string BinanceDiffDepthMessage;
}.

(* rust: src/binance/events/parser.rs stream_kind *)
Definition stream_kind (stream : string) : result BinanceIngestError BinanceStreamKind :=
  match split_once "@" stream with
  | None => Err (BEInvalidMessage ("invalid Binance stream name: " ++ stream))
  | Some (_, sfx) =>
      if String.eqb sfx "trade" then Ok Trade
      else if String.eqb sfx "ticker" then Ok Ticker
      else if String.eqb sfx "bookTicker" then Ok BookTicker
      else if String.eqb sfx "depth@100ms" then Ok DiffDepth100ms
      else if String.eqb sfx "depth5" then Ok PartialDepth5
      else if String.eqb sfx "depth10" then Ok PartialDepth10
      else if String.eqb sfx "depth20" then Ok PartialDepth20
      else Err (BEInvalidMessage ("unsupported Binance stream suffix: " ++ sfx))
  end.

Section parsing.
Context {V : Type} {J : EventJson V}.

(* rust: src/binance/events/parser.rs parse_binance_payload *)
Definition parse_binance_payload (raw_json : string) : result BinanceIngestError BinanceParsedEnvelope :=
  value ← map_err BEJson (ej_parse raw_json);
  payload_json ← map_err BEJson (ej_to_string value);
  combined ← map_err BEJson (ej_combined value);
  kind ← stream_kind combined.1;
  event ← match kind with
    | Trade => m ← map_err BEJson (ej_trade combined.2); Ok (PTrade m)
    | Ticker => m ← map_err BEJson (ej_ticker combined.2); Ok (PTicker m)
    | BookTicker => m ← map_err BEJson (ej_book_ticker combined.2); Ok (PBookTicker m)
    | DiffDepth100ms => m ← map_err BEJson (ej_diff_depth combined.2); Ok (PDiffDepth m)
    | PartialDepth5 | PartialDepth10 | PartialDepth20 =>
        Err (BEInvalidMessage "Binance partial depth WS is disabled; use REST /api/v3/depth snapshots")
    end;
  Ok (mkEnvelope combined.1 event payload_json).
End parsing.

(** ** Statistics *)

(* rust: src/binance/stats/model.rs BinanceL0WatchStats *)
Record BinanceL0WatchStats := mkBStats {
  bs_core : WatchCore;
  bs_book_ticker_messages : Z;
  bs_depth_delta_messages : Z;
  bs_depth_snapshot_messages : Z;
  bs_last_sequence_by_stream : btree string Z;
  bs_last_depth_final_update_by_symbol : btree string Z;
}.

Definition set_bs_core (v : WatchCore) (s : BinanceL0WatchStats) : BinanceL0WatchStats :=
  mkBStats v (bs_book_ticker_messages s) (bs_depth_delta_messages s) (bs_depth_snapshot_messages
    s) (bs_last_sequence_by_stream s) (bs_last_depth_final_update_by_symbol s).
Definition set_bs_book_ticker_messages (v : Z) (s : BinanceL0WatchStats) : BinanceL0WatchStats :=
  mkBStats (bs_core s) v (bs_depth_delta_messages s) (bs_depth_snapshot_messages s)
    (bs_last_sequence_by_stream s) (bs_last_depth_final_update_by_symbol s).
Definition set_bs_depth_delta_messages (v : Z) (s : BinanceL0WatchStats) : BinanceL0WatchStats :=
  mkBStats (bs_core s) (bs_book_ticker_messages s) v (bs_depth_snapshot_messages s)
    (bs_last_sequence_by_stream s) (bs_last_depth_final_update_by_symbol s).
Definition set_bs_depth_snapshot_messages (v : Z) (s : BinanceL0WatchStats) : BinanceL0WatchStats :=
  mkBStats (bs_core s) (bs_book_ticker_messages s) (bs_depth_delta_messages s) v
    (bs_last_sequence_by_stream s) (bs_last_depth_final_update_by_symbol s).
Definition set_bs_last_sequence_by_stream (v : btree string Z) (s : BinanceL0WatchStats) :
    BinanceL0WatchStats :=
  mkBStats (bs_core s) (bs_book_ticker_messages s) (bs_depth_delta_messages s)
    (bs_depth_snapshot_messages s) v (bs_last_depth_final_update_by_symbol s).
Definition set_bs_last_depth_final_update_by_symbol (v : btree string Z) (s : BinanceL0WatchStats)
    : BinanceL0WatchStats :=
  mkBStats (bs_core s) (bs_book_ticker_messages s) (bs_depth_delta_messages s)
    (bs_depth_snapshot_messages s) (bs_last_sequence_by_stream s) v.

(* rust: src/binance/stats/model.rs BinanceL0WatchStats::new *)
Definition stats_new (stream_url : string) (planned_stream_count : Z) : BinanceL0WatchStats :=
  mkBStats (core_stats_new stream_url planned_stream_count) 0 0 0 [] [].

Definition on_core (f : WatchCore -> WatchCore) (s : BinanceL0WatchStats) : BinanceL0WatchStats :=
  set_bs_core (f (bs_core s)) s.

Definition ordering_alert (symbol : string) (previous sequence detected_at_ms : Z) : GapAlert :=
  mkAlert "ordering_violation" symbol detected_at_ms (Some (saturate I64 (previous + 1)))
    (Some sequence) "mark_incomplete_and_continue" "detected".

Definition update_id_alert (symbol : string) (expected first detected_at_ms : Z) : GapAlert :=
  mkAlert "depth_update_id_gap" symbol detected_at_ms (Some expected) (Some first)
    "refetch_snapshot" "detected".

Definition raise_anomaly (a : GapAlert) (s : BinanceL0WatchStats) : BinanceL0WatchStats :=
  on_core (fun c => record_gap_alert a (bump_core wc_sequence_anomalies set_wc_sequence_anomalies c)) s.

(* rust: src/binance/stats/event.rs record_trade_ordering_gap *)
Definition record_trade_ordering_gap (symbol stream : string) (sequence detected_at_ms : Z)
    (s : BinanceL0WatchStats) : BinanceL0WatchStats :=
  let previous_sequence := bget stream (bs_last_sequence_by_stream s) in
  let s := set_bs_last_sequence_by_stream
             (binsert stream sequence (bs_last_sequence_by_stream s)) s in
  match previous_sequence with
  | Some previous =>
      if sequence <? previous
      then raise_anomaly (ordering_alert symbol previous sequence detected_at_ms) s else s
  | None => s
  end.

(* rust: src/binance/stats/event.rs record_depth_update_id_gap *)
Definition record_depth_update_id_gap (symbol : string)
    (first_update_id final_update_id detected_at_ms : Z) (s : BinanceL0WatchStats)
    : BinanceL0WatchStats :=
  let previous := bget symbol (bs_last_depth_final_update_by_symbol s) in
  let s := set_bs_last_depth_final_update_by_symbol
             (binsert symbol final_update_id (bs_last_depth_final_update_by_symbol s)) s in
  match previous with
  | Some previous_final_update_id =>
      let expected := saturate I64 (previous_final_update_id + 1) in
      if negb (first_update_id =? expected)
      then raise_anomaly (update_id_alert symbol expected first_update_id detected_at_ms) s else s
  | None => s
  end.

(** What [record_event] does for every kind before the match. *)
Definition count_event (e : BinanceParsedEvent) (detected_at_ms : Z) (c : WatchCore) : WatchCore :=
  let c := bump_core wc_parsed_messages set_wc_parsed_messages c in
  let symbol := to_ascii_uppercase (symbol e) in
  let exchange := exchange_timestamp_ms e detected_at_ms in
  let c := record_timing exchange detected_at_ms c in
  let c := set_wc_symbol_last_event_time_ms
             (binsert symbol exchange (wc_symbol_last_event_time_ms c)) c in
  let c := set_wc_symbol_last_ingest_time_ms
             (binsert symbol detected_at_ms (wc_symbol_last_ingest_time_ms c)) c in
  let c := set_wc_kind_counts (bupdate (kind_name e) 0 incr_u64 (wc_kind_counts c)) c in
  set_wc_symbol_counts (bupdate symbol 0 incr_u64 (wc_symbol_counts c)) c.

(* rust: src/binance/stats/event.rs record_event *)
Definition record_event (envelope : BinanceParsedEnvelope) (detected_at_ms : Z)
    (s : BinanceL0WatchStats) : BinanceL0WatchStats :=
  let e := en_event envelope in
  let sym := to_ascii_uppercase (symbol e) in
  let s := on_core (count_event e detected_at_ms) s in
  match e with
  | PTrade _ =>
      record_trade_ordering_gap sym (en_stream envelope) (numeric_sequence e) detected_at_ms
        (on_core (bump_core wc_trade_messages set_wc_trade_messages) s)
  | PTicker _ => on_core (bump_core wc_ticker_messages set_wc_ticker_messages) s
  | PBookTicker _ => set_bs_book_ticker_messages (incr_u64 (bs_book_ticker_messages s)) s
  | PDiffDepth m =>
      record_depth_update_id_gap sym (bd_first_update_id m) (bd_final_update_id m) detected_at_ms
        (set_bs_depth_delta_messages (incr_u64 (bs_depth_delta_messages s)) s)
  end.

(** ** Storage of one message *)

Section messages.
Context {L : StorageLib} {V : Type} {J : EventJson V}.

(** The hash map of the markets by upper-case raw symbol. *)
Definition markets_by_raw (markets : list BinanceMarket) : btree string BinanceMarket :=
  bcollect (map (fun m => (to_ascii_uppercase (bm_raw_symbol m), m)) markets).

(* rust: src/binance/ws/message.rs raw_market_event_draft *)
Definition raw_market_event_draft (envelope : BinanceParsedEnvelope)
    (markets_by_raw : btree string BinanceMarket) (ingest_timestamp_ms : Z)
    : option RawMarketEventDraft :=
  let e := en_event envelope in
  market ← bget (to_ascii_uppercase (symbol e)) markets_by_raw;
  Some (mkRawDraft (storage_event_type e) "binance" "reference" "spot" (bm_raw_symbol market)
    (bm_base_asset market) (bm_base_asset market) (bm_quote_asset market)
    (exchange_timestamp_ms e ingest_timestamp_ms) ingest_timestamp_ms (sequence_id e) (sequence_id e)
    (exchange_sequence e) (diff_first_update_id e) (diff_final_update_id e)
    (String.eqb (storage_event_type e) "depth_snapshot") "REALTIME" "realtime"
    (en_payload_json envelope)).

(** [None] is a watcher without storage. *)
Definition append_opt (io : Io) (d : option RawMarketEventDraft) (k : option L0StorageSink)
    : result StorageError () * option L0StorageSink :=
  match k, d with
  | Some k, Some d => let (r, k) := append_raw_market_event io d k in (r, Some k)
  | k, _ => (Ok (), k)
  end.

(* rust: src/binance/ws/message.rs record_text_payload *)
Definition record_text_payload (io : Io) (markets_by_raw : btree string BinanceMarket)
    (raw_json : string) (detected_at_ms : Z) (s : BinanceL0WatchStats) (k : option L0StorageSink)
    : result BinanceIngestError () * BinanceL0WatchStats * option L0StorageSink :=
  let s := on_core (bump_core wc_received_messages set_wc_received_messages) s in
  match parse_binance_payload raw_json with
  | Ok envelope =>
      match append_opt io (raw_market_event_draft envelope markets_by_raw detected_at_ms) k with
      | (Ok _, k) => (Ok (), record_event envelope detected_at_ms s, k)
      | (Err e, k) => (Err (BEStorage e), s, k)
      end
  | Err _ => (Ok (), on_core (bump_core wc_malformed_messages set_wc_malformed_messages) s, k)
  end.

(* rust: src/binance/ws/message.rs handle_message *)
Definition handle_message (io : Io) (markets_by_raw : btree string BinanceMarket)
    (message : WsMessage) (now_ms : Z) (s : BinanceL0WatchStats) (k : option L0StorageSink)
    : result BinanceIngestError () * BinanceL0WatchStats * option L0StorageSink :=
  let control := bump_core wc_control_messages set_wc_control_messages in
  match message with
  | WsText text => record_text_payload io markets_by_raw text now_ms s k
  | WsBinary (Ok text) => record_text_payload io markets_by_raw text now_ms s k
  | WsBinary (Err e) => (Err (BEUtf8 e), s, k)
  | WsPing _ => (Ok (), on_core (fun c => bump_core wc_pings_received set_wc_pings_received (control c)) s, k)
  | WsPong _ => (Ok (), on_core (fun c => bump_core wc_pongs_received set_wc_pongs_received (control c)) s, k)
  | WsClose =>
      (Ok (), on_core (fun c => set_status "closed"
                (bump_core wc_close_messages set_wc_close_messages (control c))) s, k)
  | WsFrame => (Ok (), s, k)
  end.
End messages.

(** ** Health records at the end of a run *)

(* rust: src/binance/storage_output/health.rs source_health_draft *)
Definition source_health_draft {T : JsonText} (s : BinanceL0WatchStats) (observed_at_ms : Z)
    : SourceHealthDraft :=
  health_draft "binance" "reference"
    [fld "book_ticker_messages" (JInt (bs_book_ticker_messages s));
     fld "depth_delta_messages" (JInt (bs_depth_delta_messages s));
     fld "depth_snapshot_messages" (JInt (bs_depth_snapshot_messages s))]
    (bs_core s) observed_at_ms.

(** ** The alerts as a function of the history *)

(** What changes the alert logs: an event recorded at a time, or a reconnect. *)
Inductive WatchOp :=
| WEvent (envelope : BinanceParsedEnvelope) (detected_at_ms : Z)
| WReconnect (reason : string) (now_ms : Z).

Definition watch_op (op : WatchOp) (s : BinanceL0WatchStats) : BinanceL0WatchStats :=
  match op with
  | WEvent envelope t => record_event envelope t s
  | WReconnect reason now => on_core (record_reconnect reason now) s
  end.

Definition watch_ops (ops : list WatchOp) (s : BinanceL0WatchStats) : BinanceL0WatchStats :=
  fold_left (fun s op => watch_op op s) ops s.

(** The trade identifier last seen on a stream; the history is newest first. *)
Fixpoint last_trade_on (stream : string) (history : list WatchOp) : option Z :=
  match history with
  | [] => None
  | WEvent (mkEnvelope st (PTrade m) _) _ :: earlier =>
      if String.eqb stream st then Some (bt_trade_id m) else last_trade_on stream earlier
  | _ :: earlier => last_trade_on stream earlier
  end.

(** The final update identifier of the symbol's last depth delta. *)
Fixpoint last_update_of (sym : string) (history : list WatchOp) : option Z :=
  match history with
  | [] => None
  | WEvent (mkEnvelope _ (PDiffDepth m) _) _ :: earlier =>
      if String.eqb sym (to_ascii_uppercase (bd_symbol m)) then Some (bd_final_update_id m)
      else last_update_of sym earlier
  | _ :: earlier => last_update_of sym earlier
  end.

(** The alert an operation calls for, given what came before. *)
Definition alert_due (earlier : list WatchOp) (op : WatchOp) : list GapAlert :=
  match op with
  | WReconnect reason now => [reconnect_alert reason now]
  | WEvent (mkEnvelope stream (PTrade m) _) t =>
      match last_trade_on stream earlier with
      | Some p => if bt_trade_id m <? p
                  then [ordering_alert (to_ascii_uppercase (bt_symbol m)) p (bt_trade_id m) t] else []
      | None => []
      end
  | WEvent (mkEnvelope _ (PDiffDepth m) _) t =>
      let sym := to_ascii_uppercase (bd_symbol m) in
      match last_update_of sym earlier with
      | Some p => if bd_first_update_id m =? saturate I64 (p + 1) then []
                  else [update_id_alert sym (saturate I64 (p + 1)) (bd_first_update_id m) t]
      | None => []
      end
  | _ => []
  end.

Fixpoint alerts_of (history : list WatchOp) : list GapAlert :=
  match history with
  | [] => []
  | op :: earlier => alerts_of earlier ++ alert_due earlier op
  end.

(** The number of alerts that are sequence anomalies. *)
Fixpoint anomalies_of (history : list WatchOp) : Z :=
  match history with
  | [] => 0
  | WReconnect _ _ :: earlier => anomalies_of earlier
  | op :: earlier => anomalies_of earlier + zlen (alert_due earlier op)
  end.

Record tracks (history : list WatchOp) (s : BinanceL0WatchStats) : Prop := {
  tr_log : logged (alerts_of history) (bs_core s);
  tr_anomalies : wc_sequence_anomalies (bs_core s) = wrap U64 (anomalies_of history);
  tr_trades_ok : bmap_ok (fun _ => True) (bs_last_sequence_by_stream s);
  tr_trades : forall stream, bget stream (bs_last_sequence_by_stream s) = last_trade_on stream history;
  tr_depth_ok : bmap_ok (fun _ => True) (bs_last_depth_final_update_by_symbol s);
  tr_depth : forall sym, bget sym (bs_last_depth_final_update_by_symbol s) = last_update_of sym history;
}.

Definition raise_all (due : list GapAlert) (s : BinanceL0WatchStats) : BinanceL0WatchStats :=
  fold_left (fun s a => raise_anomaly a s) due s.

Lemma raise_all_spec due all n s : logged all (bs_core s) ->
  wc_sequence_anomalies (bs_core s) = wrap U64 n ->
  let s' := raise_all due s in
  logged (all ++ due) (bs_core s') /\
  wc_sequence_anomalies (bs_core s') = wrap U64 (n + zlen due) /\
  bs_last_sequence_by_stream s' = bs_last_sequence_by_stream s /\
  bs_last_depth_final_update_by_symbol s' = bs_last_depth_final_update_by_symbol s.
Proof.
  revert all n s. induction due as [|a due IH]; intros all n s Hl Hn; cbv zeta.
  - cbn. by rewrite app_nil_r, Z.add_0_r.
  - destruct (IH (all ++ [a]) (n + 1) (raise_anomaly a s)) as (H1 & H2 & H3 & H4).
    + apply record_gap_alert_logged. revert Hl. by apply same_log_logged.
    + cbn. by rewrite Hn, wrap_succ_u64.
    + unfold raise_all in *. cbn [fold_left]. rewrite <- app_assoc in H1.
      split; [exact H1|]. split; [|by rewrite H3, H4].
      rewrite H2, zlen_cons. f_equal. lia.
Qed.

(** A step that updates the maps as the history says and then raises what is due. *)
Lemma step_tracks history e t s s' :
  let op := WEvent e t in
  tracks history s -> watch_op op s = raise_all (alert_due history op) s' ->
  same_log (bs_core s) (bs_core s') ->
  wc_sequence_anomalies (bs_core s') = wc_sequence_anomalies (bs_core s) ->
  bmap_ok (fun _ => True) (bs_last_sequence_by_stream s') ->
  (forall stream, bget stream (bs_last_sequence_by_stream s') = last_trade_on stream (op :: history)) ->
  bmap_ok (fun _ => True) (bs_last_depth_final_update_by_symbol s') ->
  (forall sym, bget sym (bs_last_depth_final_update_by_symbol s') = last_update_of sym (op :: history)) ->
  tracks (op :: history) (watch_op op s).
Proof.
  intros op [Hlog Han _ _ _ _] Hop Hsame Han' Hto Ht Hdo Hd.
  apply (same_log_logged _ _ _ Hsame) in Hlog.
  destruct (raise_all_spec (alert_due history op) _ (anomalies_of history) s' Hlog)
    as (H1 & H2 & H3 & H4); [congruence|].
  rewrite Hop. split; cbn [alerts_of]; rewrite ?H3, ?H4; auto.
Qed.

Lemma watch_op_tracks history op s : tracks history s -> tracks (op :: history) (watch_op op s).
Proof.
  intros Htr. pose proof Htr as [Hlog Han Hto Ht Hdo Hd].
  destruct op as [[stream e payload] t|reason now].
  - destruct e as [m|m|m|m].
    + eapply (step_tracks _ _ _ _ (set_bs_last_sequence_by_stream
        (binsert stream (bt_trade_id m) (bs_last_sequence_by_stream s))
        (on_core (bump_core wc_trade_messages set_wc_trade_messages)
           (on_core (count_event (PTrade m) t) s)))); try done.
      * cbn. unfold record_trade_ordering_gap. cbn. rewrite Ht.
        destruct (last_trade_on stream history) as [p|]; [by destruct (bt_trade_id m <? p)|done].
      * by apply (binsert_ok (fun _ => True)).
      * intros st. cbn. rewrite bget_insert_str by done. by rewrite Ht.
    + by eapply (step_tracks _ _ _ _ (watch_op (WEvent (mkEnvelope stream (PTicker m) payload) t) s)).
    + by eapply (step_tracks _ _ _ _ (watch_op (WEvent (mkEnvelope stream (PBookTicker m) payload) t) s)).
    + eapply (step_tracks _ _ _ _ (set_bs_last_depth_final_update_by_symbol
        (binsert (to_ascii_uppercase (bd_symbol m)) (bd_final_update_id m)
           (bs_last_depth_final_update_by_symbol s))
        (set_bs_depth_delta_messages (incr_u64 (bs_depth_delta_messages s))
           (on_core (count_event (PDiffDepth m) t) s)))); try done.
      * cbn. unfold record_depth_update_id_gap. cbn. rewrite Hd.
        destruct (last_update_of _ history) as [p|]; [|done].
        by destruct (bd_first_update_id m =? saturate I64 (p + 1)).
      * by apply (binsert_ok (fun _ => True)).
      * intros st. cbn. rewrite bget_insert_str by done. by rewrite Hd.
  - split; try done. apply record_gap_alert_logged. revert Hlog. by apply same_log_logged.
Qed.

Lemma watch_ops_tracks ops url n : tracks (rev ops) (watch_ops ops (stats_new url n)).
Proof.
  induction ops as [|op ops IH] using rev_ind.
  - split; try done; cbn; try apply bmap_ok_nil.
  - unfold watch_ops in *. rewrite fold_left_app, rev_app_distr. by apply watch_op_tracks.
Qed.

(** C30: after any sequence of recorded events and reconnects the watcher has
    raised exactly the alerts that a look back through the history calls for: one
    for each trade whose identifier is below the last one of its stream, one for
    each depth delta that does not start right after the last delta of its symbol,
    and one for each reconnect, in order.  The look back does not stop at a reconnect:
    unlike what the README says of it, the first trade or delta after one is compared with
    the last before it.  All are counted; the logs hold the
    last 20 and the last 1000 of them; the anomaly counter counts the first two
    sorts. *)
Theorem binance_alerts_match_history (ops : list WatchOp) (url : string) (n : Z) :
  let s := bs_core (watch_ops ops (stats_new url n)) in
  let all := alerts_of (rev ops) in
  wc_gap_alert_count s = wrap U64 (zlen all) /\
  wc_recent_gap_alerts s = last_n 20 all /\
  wc_gap_alerts s = last_n 1000 all /\
  wc_sequence_anomalies s = wrap U64 (anomalies_of (rev ops)).
Proof.
  destruct (watch_ops_tracks ops url n) as [[? ? ?] ? _ _ _ _]. auto.
Qed.
