(* ===== verification/UpbitVenue.v ===== *)
(** * UpbitVenue: the Upbit stream watcher's events and statistics

    [upbit/events], [upbit/stats/event.rs], [upbit/ws/message.rs] and
    [upbit/ws/l0.rs].  Prices and sizes are 64-bit floats that the code only
    copies, so their type is a parameter.  The theorem shows that the alerts and
    the best quotes are the ones a look back through the history gives. *)
From S2P Require Import Prelude Text OrderedMap IngestWatch Records Sink VenueStats.
Open Scope Z_scope.

(* rust: src/upbit/error.rs UpbitIngestError *)
Inductive UpbitIngestError :=
| UEHttp (e : string)
| UEJson (e : string)
| UEWebSocket (e : string)
| UEUtf8 (e : string)
| UEStorage (e : StorageError)
| UEInvalidConfig (e : string)
| UEInvalidMessage (e : string).

Section upbit.
Context {F64 V : Type}.

(** ** Events *)

(* rust: src/upbit/universe.rs UpbitMarket *)
Record UpbitMarket := mkUMarket {
  um_market : string; um_base_asset : string; um_quote_asset : string;
  um_korean_name : string; um_english_name : string; um_acc_trade_price_24h : F64 }.

(* rust: src/upbit/events/message.rs UpbitTickerMessage *)
Record UpbitTickerMessage := mkUTicker {
  uk_event_type : string;
  uk_code : string;
  uk_timestamp : Z;
  uk_trade_timestamp : option Z;
  uk_trade_price : option F64;
  uk_acc_trade_price_24h : option F64;
  uk_acc_trade_volume_24h : option F64;
  uk_stream_type : option string;
}.

(* rust: src/upbit/events/message.rs UpbitTradeMessage *)
Record UpbitTradeMessage := mkUTrade {
  ut_event_type : string;
  ut_code : string;
  ut_timestamp : Z;
  ut_trade_timestamp : Z;
  ut_trade_price : F64;
  ut_trade_volume : F64;
  ut_ask_bid : string;
  ut_sequential_id : Z;
  ut_best_ask_price : option F64;
  ut_best_ask_size : option F64;
  ut_best_bid_price : option F64;
  ut_best_bid_size : option F64;
  ut_stream_type : option string;
}.

(* rust: src/upbit/events/message.rs UpbitOrderbookUnit *)
Record UpbitOrderbookUnit := mkUnit {
  ou_ask_price : F64; ou_bid_price : F64; ou_ask_size : F64; ou_bid_size : F64 }.

(* rust: src/upbit/events/message.rs UpbitOrderbookMessage *)
Record UpbitOrderbookMessage := mkOrderbook {
  uo_event_type : string;
  uo_code : string;
  uo_timestamp : Z;
  uo_total_ask_size : F64;
  uo_total_bid_size : F64;
  uo_orderbook_units : list UpbitOrderbookUnit;
  uo_stream_type : option string;
  uo_level : option F64;
}.

(* rust: src/upbit/events/parsed.rs UpbitParsedEvent *)
Inductive UpbitParsedEvent :=
| UTicker (m : UpbitTickerMessage)
| UTrade (m : UpbitTradeMessage)
| UOrderbook (m : UpbitOrderbookMessage)
| UStatus (status : string)
| UError (name message : string)
| UUnknown (value : V).

(* rust: src/upbit/events/parsed.rs UpbitParsedEnvelope *)
Record UpbitParsedEnvelope := mkUEnvelope { ue_event : UpbitParsedEvent; ue_payload_json : string }.

(* rust: src/upbit/events/parsed.rs kind_name *)
Definition kind_name (e : UpbitParsedEvent) : string :=
  match e with
  | UTicker _ => "ticker" | UTrade _ => "trade" | UOrderbook _ => "orderbook"
  | UStatus _ => "status" | UError _ _ => "error" | UUnknown _ => "unknown"
  end.

(* rust: src/upbit/events/parsed.rs symbol *)
Definition symbol (e : UpbitParsedEvent) : option string :=
  match e with
  | UTicker m => Some (uk_code m) | UTrade m => Some (ut_code m) | UOrderbook m => Some (uo_code m)
  | UStatus _ | UError _ _ | UUnknown _ => None
  end.

(* rust: src/upbit/events/parsed.rs exchange_timestamp_ms *)
Definition exchange_timestamp_ms (e : UpbitParsedEvent) : option Z :=
  match e with
  | UTicker m => Some (uk_timestamp m) | UTrade m => Some (ut_trade_timestamp m)
  | UOrderbook m => Some (uo_timestamp m)
  | UStatus _ | UError _ _ | UUnknown _ => None
  end.

(** ** Parsing; [serde_json] is a parameter *)

(* rust: src/upbit/events/parser.rs UpbitErrorPayload *)
Record UpbitErrorPayload := mkUErrPayload { ep_name : string; ep_message : string }.
(* rust: src/upbit/events/parser.rs UpbitMessageHeader *)
Record UpbitMessageHeader := mkUHeader {
  uh_event_type : option string; uh_status : option string; uh_error : option UpbitErrorPayload }.

(** [uj_array] answers the items of an array value. *)
Class UpbitJson := {
  uj_parse : string -> result string V;
  uj_array : V -> option (list V);
  uj_to_string : V -> result string string;
  uj_header : V -> result string UpbitMessageHeader;
  uj_ticker : V -> result string UpbitTickerMessage;
  uj_trade : V -> result string UpbitTradeMessage;
  uj_orderbook : V -> result string UpbitOrderbookMessage;
}.
Context {J : UpbitJson}.

(* rust: src/upbit/events/parser.rs parse_one_value *)
Definition parse_one_value (value : V) : result UpbitIngestError UpbitParsedEvent :=
  header ← map_err UEJson (uj_header value);
  match uh_status header, uh_error header with
  | Some status, _ => Ok (UStatus status)
  | None, Some error => Ok (UError (ep_name error) (ep_message error))
  | None, None =>
      match uh_event_type header with
      | Some ty =>
          if String.eqb ty "ticker" then m ← map_err UEJson (uj_ticker value); Ok (UTicker m)
          else if String.eqb ty "trade" then m ← map_err UEJson (uj_trade value); Ok (UTrade m)
          else if String.eqb ty "orderbook" then m ← map_err UEJson (uj_orderbook value); Ok (UOrderbook m)
          else Ok (UUnknown value)
      | None => Ok (UUnknown value)
      end
  end.

(* rust: src/upbit/events/parser.rs parse_one_envelope *)
Definition parse_one_envelope (value : V) : result UpbitIngestError UpbitParsedEnvelope :=
  payload_json ← map_err UEJson (uj_to_string value);
  event ← parse_one_value value;
  Ok (mkUEnvelope event payload_json).

(* rust: src/upbit/events/parser.rs parse_upbit_payload *)
Definition parse_upbit_payload (raw_json : string) : result UpbitIngestError (list UpbitParsedEnvelope) :=
  value ← map_err UEJson (uj_parse raw_json);
  match uj_array value with
  | Some items => try_map parse_one_envelope items
  | None => e ← parse_one_envelope value; Ok [e]
  end.

(** ** Statistics *)

(* rust: src/upbit/stats/model.rs UpbitBestQuote *)
Record UpbitBestQuote := mkQuote {
  bq_symbol : string;
  bq_best_bid : F64;
  bq_best_bid_size : F64;
  bq_best_ask : F64;
  bq_best_ask_size : F64;
  bq_exchange_timestamp_ms : Z;
  bq_stream_type : string;
}.

(* rust: src/upbit/stats/model.rs UpbitIngestWatchStats *)
Record UpbitIngestWatchStats := mkUStats {
  us_core : WatchCore;
  us_status_messages : Z;
  us_orderbook_messages : Z;
  us_derived_book_tickers : Z;
  us_last_best_quotes : btree string UpbitBestQuote;
  us_last_trade_sequence_by_symbol : btree string Z;
  us_last_orderbook_timestamp_by_symbol : btree string Z;
}.

Definition set_us_core (v : WatchCore) (s : UpbitIngestWatchStats) : UpbitIngestWatchStats :=
  mkUStats v (us_status_messages s) (us_orderbook_messages s) (us_derived_book_tickers s)
    (us_last_best_quotes s) (us_last_trade_sequence_by_symbol s)
    (us_last_orderbook_timestamp_by_symbol s).
Definition set_us_status_messages (v : Z) (s : UpbitIngestWatchStats) : UpbitIngestWatchStats :=
  mkUStats (us_core s) v (us_orderbook_messages s) (us_derived_book_tickers s)
    (us_last_best_quotes s) (us_last_trade_sequence_by_symbol s)
    (us_last_orderbook_timestamp_by_symbol s).
Definition set_us_orderbook_messages (v : Z) (s : UpbitIngestWatchStats) : UpbitIngestWatchStats :=
  mkUStats (us_core s) (us_status_messages s) v (us_derived_book_tickers s) (us_last_best_quotes
    s) (us_last_trade_sequence_by_symbol s) (us_last_orderbook_timestamp_by_symbol s).
Definition set_us_derived_book_tickers (v : Z) (s : UpbitIngestWatchStats) : UpbitIngestWatchStats
    :=
  mkUStats (us_core s) (us_status_messages s) (us_orderbook_messages s) v (us_last_best_quotes s)
    (us_last_trade_sequence_by_symbol s) (us_last_orderbook_timestamp_by_symbol s).
Definition set_us_last_best_quotes (v : btree string UpbitBestQuote) (s :
    UpbitIngestWatchStats) : UpbitIngestWatchStats :=
  mkUStats (us_core s) (us_status_messages s) (us_orderbook_messages s) (us_derived_book_tickers
    s) v (us_last_trade_sequence_by_symbol s) (us_last_orderbook_timestamp_by_symbol s).
Definition set_us_last_trade_sequence_by_symbol (v : btree string Z) (s : UpbitIngestWatchStats) :
    UpbitIngestWatchStats :=
  mkUStats (us_core s) (us_status_messages s) (us_orderbook_messages s) (us_derived_book_tickers
    s) (us_last_best_quotes s) v (us_last_orderbook_timestamp_by_symbol s).
Definition set_us_last_orderbook_timestamp_by_symbol (v : btree string Z) (s :
    UpbitIngestWatchStats) : UpbitIngestWatchStats :=
  mkUStats (us_core s) (us_status_messages s) (us_orderbook_messages s) (us_derived_book_tickers
    s) (us_last_best_quotes s) (us_last_trade_sequence_by_symbol s) v.

(* rust: src/upbit/stats/model.rs UpbitIngestWatchStats::new *)
Definition stats_new (stream_url : string) (planned_stream_count : Z) : UpbitIngestWatchStats :=
  mkUStats (core_stats_new stream_url planned_stream_count) 0 0 0 [] [] [].

Definition on_core (f : WatchCore -> WatchCore) (s : UpbitIngestWatchStats) : UpbitIngestWatchStats :=
  set_us_core (f (us_core s)) s.

Definition trade_alert (code : string) (last sequential_id detected_at_ms : Z) : GapAlert :=
  mkAlert "ordering_violation" code detected_at_ms (Some last) (Some sequential_id)
    "mark_incomplete_and_continue" "detected".

Definition orderbook_alert (code : string) (last timestamp detected_at_ms : Z) : GapAlert :=
  mkAlert "ordering_violation" code detected_at_ms (Some last) (Some timestamp)
    "refetch_snapshot" "detected".

Definition error_alert (detected_at_ms : Z) : GapAlert :=
  mkAlert "upbit_error" "venue" detected_at_ms None None "inspect_error" "detected".

(* rust: src/upbit/stats/event.rs record_trade *)
Definition record_trade (m : UpbitTradeMessage) (detected_at_ms : Z) (s : UpbitIngestWatchStats)
    : UpbitIngestWatchStats :=
  let s := on_core (bump_core wc_trade_messages set_wc_trade_messages) s in
  let previous := bget (ut_code m) (us_last_trade_sequence_by_symbol s) in
  let s := set_us_last_trade_sequence_by_symbol
             (binsert (ut_code m) (ut_sequential_id m) (us_last_trade_sequence_by_symbol s)) s in
  match previous with
  | Some last_sequence =>
      if ut_sequential_id m <? last_sequence then
        on_core (fun c =>
          record_gap_alert (trade_alert (ut_code m) last_sequence (ut_sequential_id m) detected_at_ms)
            (bump_core wc_sequence_anomalies set_wc_sequence_anomalies c)) s
      else s
  | None => s
  end.

Definition quote_of (m : UpbitOrderbookMessage) (unit : UpbitOrderbookUnit) : UpbitBestQuote :=
  mkQuote (uo_code m) (ou_bid_price unit) (ou_bid_size unit) (ou_ask_price unit) (ou_ask_size unit)
    (uo_timestamp m) (default "UNKNOWN"%string (uo_stream_type m)).

(* rust: src/upbit/stats/event.rs record_orderbook *)
Definition record_orderbook (m : UpbitOrderbookMessage) (detected_at_ms : Z) (s : UpbitIngestWatchStats)
    : UpbitIngestWatchStats :=
  let s := set_us_orderbook_messages (incr_u64 (us_orderbook_messages s)) s in
  let previous := bget (uo_code m) (us_last_orderbook_timestamp_by_symbol s) in
  let s := set_us_last_orderbook_timestamp_by_symbol
             (binsert (uo_code m) (uo_timestamp m) (us_last_orderbook_timestamp_by_symbol s)) s in
  let s :=
    match previous with
    | Some last_timestamp =>
        if uo_timestamp m <? last_timestamp then
          on_core (record_gap_alert
            (orderbook_alert (uo_code m) last_timestamp (uo_timestamp m) detected_at_ms)) s
        else s
    | None => s
    end in
  match uo_orderbook_units m with
  | unit :: _ =>
      let s := set_us_derived_book_tickers (incr_u64 (us_derived_book_tickers s)) s in
      set_us_last_best_quotes (binsert (uo_code m) (quote_of m unit) (us_last_best_quotes s)) s
  | [] => s
  end.

(** What [record_event] does for every event before the match. *)
Definition count_event (e : UpbitParsedEvent) (detected_at_ms : Z) (c : WatchCore) : WatchCore :=
  let c := bump_core wc_parsed_messages set_wc_parsed_messages c in
  let c :=
    match exchange_timestamp_ms e with
    | Some exchange =>
        let c := record_timing exchange detected_at_ms c in
        match symbol e with
        | Some sym =>
            let c := set_wc_symbol_last_event_time_ms
                       (binsert sym exchange (wc_symbol_last_event_time_ms c)) c in
            set_wc_symbol_last_ingest_time_ms
              (binsert sym detected_at_ms (wc_symbol_last_ingest_time_ms c)) c
        | None => c
        end
    | None => c
    end in
  let c := set_wc_kind_counts (bupdate (kind_name e) 0 incr_u64 (wc_kind_counts c)) c in
  match symbol e with
  | Some sym => set_wc_symbol_counts (bupdate sym 0 incr_u64 (wc_symbol_counts c)) c
  | None => c
  end.

(* rust: src/upbit/stats/event.rs record_event *)
Definition record_event (e : UpbitParsedEvent) (detected_at_ms : Z) (s : UpbitIngestWatchStats)
    : UpbitIngestWatchStats :=
  let s := on_core (count_event e detected_at_ms) s in
  match e with
  | UTicker _ => on_core (bump_core wc_ticker_messages set_wc_ticker_messages) s
  | UTrade m => record_trade m detected_at_ms s
  | UOrderbook m => record_orderbook m detected_at_ms s
  | UStatus _ => set_us_status_messages (incr_u64 (us_status_messages s)) s
  | UError _ _ => on_core (record_gap_alert (error_alert detected_at_ms)) s
  | UUnknown _ => on_core (bump_core wc_malformed_messages set_wc_malformed_messages) s
  end.

(** ** Storage of one message *)

Section messages.
Context {L : StorageLib}.

(* rust: src/upbit/ws/l0.rs stream_type *)
Definition stream_type (value : option string) : string := default "UNKNOWN"%string value.

(* rust: src/upbit/ws/l0.rs stream_phase *)
Definition stream_phase (stream_type : string) : string :=
  if String.eqb stream_type "SNAPSHOT" then "snapshot"
  else if String.eqb stream_type "REALTIME" then "realtime"
  else "unknown".

(* rust: src/upbit/ws/l0.rs DraftInput *)
Record DraftInput := mkDraftInput {
  di_event_type : string;
  di_market : UpbitMarket;
  di_exchange_timestamp_ms : Z;
  di_sequence_id : string;
  di_stream_type : string;
  di_exchange_sequence : option Z;
  di_payload_json : string;
  di_ingest_timestamp_ms : Z;
}.

(* rust: src/upbit/ws/l0.rs draft *)
Definition draft (i : DraftInput) : RawMarketEventDraft :=
  let m := di_market i in
  mkRawDraft (di_event_type i) "upbit" "execution" "spot" (um_market m) (um_base_asset m)
    (um_base_asset m) (um_quote_asset m) (di_exchange_timestamp_ms i) (di_ingest_timestamp_ms i)
    (di_sequence_id i) (di_sequence_id i) (di_exchange_sequence i) None None
    (String.eqb (di_event_type i) "depth_snapshot") (di_stream_type i)
    (stream_phase (di_stream_type i)) (di_payload_json i).

(* rust: src/upbit/ws/l0.rs raw_market_event_drafts *)
Definition raw_market_event_drafts (envelope : UpbitParsedEnvelope)
    (markets_by_code : btree string UpbitMarket) (ingest_timestamp_ms : Z)
    : list RawMarketEventDraft :=
  let for_market code f :=
    match bget code markets_by_code with Some market => [draft (f market)] | None => [] end in
  let payload := ue_payload_json envelope in
  match ue_event envelope with
  | UTicker m => for_market (uk_code m) (fun market =>
      mkDraftInput "ticker" market (uk_timestamp m) ("upbit:ticker:ts-" ++ show_Z (uk_timestamp m))
        (stream_type (uk_stream_type m)) None payload ingest_timestamp_ms)
  | UTrade m => for_market (ut_code m) (fun market =>
      mkDraftInput "trade" market (ut_trade_timestamp m) ("upbit:trade:" ++ show_Z (ut_sequential_id m))
        (stream_type (ut_stream_type m)) (Some (ut_sequential_id m)) payload ingest_timestamp_ms)
  | UOrderbook m => for_market (uo_code m) (fun market =>
      mkDraftInput "depth_snapshot" market (uo_timestamp m)
        ("upbit:orderbook:ts-" ++ show_Z (uo_timestamp m))
        (stream_type (uo_stream_type m)) None payload ingest_timestamp_ms)
  | UStatus _ | UError _ _ | UUnknown _ => []
  end.

(** Append in order until one fails; [None] is a watcher without storage. *)
Fixpoint append_drafts (io : Io) (ds : list RawMarketEventDraft) (k : option L0StorageSink)
    : result StorageError () * option L0StorageSink :=
  match ds, k with
  | d :: ds, Some k =>
      match append_raw_market_event io d k with
      | (Ok _, k) => append_drafts io ds (Some k)
      | (Err e, k) => (Err e, Some k)
      end
  | _, k => (Ok (), k)
  end.

(** The loop over the envelopes of one payload: the events before a failing
    append stay recorded. *)
Fixpoint record_envelopes (io : Io) (markets_by_code : btree string UpbitMarket)
    (events : list UpbitParsedEnvelope) (detected_at_ms : Z) (s : UpbitIngestWatchStats)
    (k : option L0StorageSink) : result UpbitIngestError () * UpbitIngestWatchStats * option L0StorageSink :=
  match events with
  | [] => (Ok (), s, k)
  | e :: events =>
      match append_drafts io (raw_market_event_drafts e markets_by_code detected_at_ms) k with
      | (Ok _, k) => record_envelopes io markets_by_code events detected_at_ms
                       (record_event (ue_event e) detected_at_ms s) k
      | (Err err, k) => (Err (UEStorage err), s, k)
      end
  end.

(* rust: src/upbit/ws/message.rs record_text_payload *)
Definition record_text_payload (io : Io) (markets_by_code : btree string UpbitMarket)
    (raw_json : string) (detected_at_ms : Z) (s : UpbitIngestWatchStats) (k : option L0StorageSink)
    : result UpbitIngestError () * UpbitIngestWatchStats * option L0StorageSink :=
  let s := on_core (bump_core wc_received_messages set_wc_received_messages) s in
  match parse_upbit_payload raw_json with
  | Ok events => record_envelopes io markets_by_code events detected_at_ms s k
  | Err _ => (Ok (), on_core (bump_core wc_malformed_messages set_wc_malformed_messages) s, k)
  end.

(* rust: src/upbit/ws/message.rs handle_message *)
Definition handle_message (io : Io) (markets_by_code : btree string UpbitMarket)
    (message : WsMessage) (now_ms : Z) (s : UpbitIngestWatchStats) (k : option L0StorageSink)
    : result UpbitIngestError () * UpbitIngestWatchStats * option L0StorageSink :=
  let control := bump_core wc_control_messages set_wc_control_messages in
  match message with
  | WsText text => record_text_payload io markets_by_code text now_ms s k
  | WsBinary (Ok text) => record_text_payload io markets_by_code text now_ms s k
  | WsBinary (Err e) => (Err (UEUtf8 e), s, k)
  | WsPing _ => (Ok (), on_core (fun c => bump_core wc_pings_received set_wc_pings_received (control c)) s, k)
  | WsPong _ => (Ok (), on_core (fun c => bump_core wc_pongs_received set_wc_pongs_received (control c)) s, k)
  | WsClose => (Ok (), on_core (bump_core wc_close_messages set_wc_close_messages) s, k)
  | WsFrame => (Ok (), s, k)
  end.
End messages.

(** ** Health records at the end of a run *)

(** What both venues do alike is in [VenueStats]; these are its operations on the
    statistics of this one. *)
(* rust: src/upbit/stats/event.rs record_gap_alert *)
Definition upbit_record_gap_alert (a : GapAlert) : UpbitIngestWatchStats -> UpbitIngestWatchStats :=
  on_core (VenueStats.record_gap_alert a).

(* rust: src/upbit/stats/health.rs update_health *)
Definition upbit_update_health : UpbitIngestWatchStats -> UpbitIngestWatchStats := on_core VenueStats.update_health.

(* rust: src/upbit/ws/control.rs record_reconnect *)
Definition upbit_record_reconnect (reason : string) (now_ms : Z) : UpbitIngestWatchStats -> UpbitIngestWatchStats :=
  on_core (VenueStats.record_reconnect reason now_ms).

(* rust: src/upbit/stats/health.rs heartbeat_delay_ms_at *)
Definition upbit_heartbeat_delay_ms_at (s : UpbitIngestWatchStats) (observed_at_ms : Z) : Z :=
  VenueStats.heartbeat_delay_ms_at (us_core s) observed_at_ms.

(* rust: src/upbit/storage_output.rs health_level *)
Definition upbit_health_level (s : UpbitIngestWatchStats) : string := VenueStats.health_level (us_core s).

(* rust: src/upbit/storage_output.rs symbol_health_payload *)
Definition upbit_symbol_health_payload (s : UpbitIngestWatchStats) (observed_at_ms : Z) : list jvalue :=
  VenueStats.symbol_health_payload (us_core s) observed_at_ms.

(** The markets of the subscription; the ticket carries the clock. *)
(* rust: src/upbit/ws/subscription.rs subscription_message *)
Definition subscription_message (now_ms : Z) (markets : list UpbitMarket) (orderbook_unit : Z) : jvalue :=
  let codes := map (fun market => JStr (um_market market)) markets in
  let orderbook_codes := map (fun market => JStr (um_market market ++ "." ++ show_Z orderbook_unit)) markets in
  JList [JObj [fld "ticket" (JStr ("nangman-market-ingest-upbit-" ++ show_Z now_ms))];
    JObj [fld "type" (JStr "ticker"); fld "codes" (JList codes)];
    JObj [fld "type" (JStr "trade"); fld "codes" (JList codes)];
    JObj [fld "type" (JStr "orderbook"); fld "codes" (JList orderbook_codes)];
    JObj [fld "format" (JStr "DEFAULT")]]%string.

(* rust: src/upbit/storage_output.rs source_health_draft *)
Definition source_health_draft {T : JsonText} (s : UpbitIngestWatchStats) (observed_at_ms : Z)
    : SourceHealthDraft :=
  health_draft "upbit" "execution"
    [fld "orderbook_messages" (JInt (us_orderbook_messages s));
     fld "derived_book_tickers" (JInt (us_derived_book_tickers s))]
    (us_core s) observed_at_ms.

(* rust: src/upbit/storage_output.rs symbol_health_drafts *)
Definition symbol_health_drafts (s : UpbitIngestWatchStats) (observed_at_ms : Z) : list SymbolHealthDraft :=
  VenueStats.symbol_health_drafts "upbit" (us_core s) observed_at_ms.

(* rust: src/upbit/storage_output.rs gap_alert_draft *)
Definition gap_alert_draft {T : JsonText} (a : GapAlert) : GapAlertDraft :=
  VenueStats.gap_alert_draft "upbit" "execution" a.

(** ** The alerts and quotes as functions of the history *)

Inductive WatchOp :=
| WEvent (e : UpbitParsedEvent) (detected_at_ms : Z)
| WReconnect (reason : string) (now_ms : Z).

Definition watch_op (op : WatchOp) (s : UpbitIngestWatchStats) : UpbitIngestWatchStats :=
  match op with
  | WEvent e t => record_event e t s
  | WReconnect reason now => on_core (record_reconnect reason now) s
  end.

Definition watch_ops (ops : list WatchOp) (s : UpbitIngestWatchStats) : UpbitIngestWatchStats :=
  fold_left (fun s op => watch_op op s) ops s.

(** Look back, newest first, for what [f] extracts. *)
Fixpoint latest {A} (f : WatchOp -> option A) (history : list WatchOp) : option A :=
  match history with
  | [] => None
  | op :: earlier => match f op with Some a => Some a | None => latest f earlier end
  end.

Definition trade_of (code : string) (op : WatchOp) : option Z :=
  match op with
  | WEvent (UTrade m) _ => if String.eqb code (ut_code m) then Some (ut_sequential_id m) else None
  | _ => None
  end.

Definition book_time_of (code : string) (op : WatchOp) : option Z :=
  match op with
  | WEvent (UOrderbook m) _ => if String.eqb code (uo_code m) then Some (uo_timestamp m) else None
  | _ => None
  end.

Definition best_quote_of (code : string) (op : WatchOp) : option UpbitBestQuote :=
  match op with
  | WEvent (UOrderbook m) _ =>
      if String.eqb code (uo_code m) then quote_of m <$> head (uo_orderbook_units m) else None
  | _ => None
  end.

(** The alert an operation calls for, given what came before. *)
Definition alert_due (earlier : list WatchOp) (op : WatchOp) : list GapAlert :=
  match op with
  | WReconnect reason now => [reconnect_alert reason now]
  | WEvent (UTrade m) t =>
      match latest (trade_of (ut_code m)) earlier with
      | Some p => if ut_sequential_id m <? p
                  then [trade_alert (ut_code m) p (ut_sequential_id m) t] else []
      | None => []
      end
  | WEvent (UOrderbook m) t =>
      match latest (book_time_of (uo_code m)) earlier with
      | Some p => if uo_timestamp m <? p
                  then [orderbook_alert (uo_code m) p (uo_timestamp m) t] else []
      | None => []
      end
  | WEvent (UError _ _) t => [error_alert t]
  | _ => []
  end.

Fixpoint alerts_of (history : list WatchOp) : list GapAlert :=
  match history with
  | [] => []
  | op :: earlier => alerts_of earlier ++ alert_due earlier op
  end.

Record tracks (history : list WatchOp) (s : UpbitIngestWatchStats) : Prop := {
  tr_log : logged (alerts_of history) (us_core s);
  tr_trades_ok : bmap_ok (fun _ => True) (us_last_trade_sequence_by_symbol s);
  tr_trades : forall c, bget c (us_last_trade_sequence_by_symbol s) = latest (trade_of c) history;
  tr_books_ok : bmap_ok (fun _ => True) (us_last_orderbook_timestamp_by_symbol s);
  tr_books : forall c, bget c (us_last_orderbook_timestamp_by_symbol s) = latest (book_time_of c) history;
  tr_quotes_ok : bmap_ok (fun _ => True) (us_last_best_quotes s);
  tr_quotes : forall c, bget c (us_last_best_quotes s) = latest (best_quote_of c) history;
}.

(** Closes the fields of [tracks] after an update: the logs through [same_log],
    the maps through their lookups. *)
Ltac tracks_fields s :=
  try done;
  try (by apply (binsert_ok (fun _ => True)));
  try (try apply record_gap_alert_logged; by apply (same_log_logged _ (us_core s))).

Lemma trade_tracks history m t s : tracks history s ->
  tracks (WEvent (UTrade m) t :: history) (record_event (UTrade m) t s).
Proof.
  intros [Hlog Hto Ht Hbo Hb Hqo Hq]. cbn [record_event]. unfold record_trade. cbn. rewrite Ht.
  destruct (latest (trade_of (ut_code m)) history) as [p|] eqn:E;
    [destruct (ut_sequential_id m <? p) eqn:C|].
  all: split; cbn; rewrite ?E, ?C, ?app_nil_r; tracks_fields s.
  all: intros c; rewrite bget_insert_str, Ht by done; by destruct (String.eqb c (ut_code m)).
Qed.

Lemma orderbook_tracks history m t s : tracks history s ->
  tracks (WEvent (UOrderbook m) t :: history) (record_event (UOrderbook m) t s).
Proof.
  intros [Hlog Hto Ht Hbo Hb Hqo Hq]. cbn [record_event]. unfold record_orderbook. cbn. rewrite Hb.
  destruct (latest (book_time_of (uo_code m)) history) as [p|] eqn:E;
    [destruct (uo_timestamp m <? p) eqn:C|].
  all: destruct (uo_orderbook_units m) as [|unit units] eqn:U.
  all: split; cbn; rewrite ?E, ?C, ?app_nil_r; tracks_fields s.
  all: intros c; rewrite ?bget_insert_str, ?Hb, ?Hq by done;
    destruct (String.eqb c (uo_code m)); by rewrite ?U.
Qed.

Lemma upbit_op_tracks history op s : tracks history s -> tracks (op :: history) (watch_op op s).
Proof.
  intros H. destruct op as [[m|m|m|st|n m|v] t|reason now]; cbn [watch_op].
  2: by apply trade_tracks.
  2: by apply orderbook_tracks.
  all: destruct H as [Hlog Hto Ht Hbo Hb Hqo Hq]; split; cbn; rewrite ?app_nil_r; tracks_fields s.
Qed.

Lemma upbit_ops_tracks ops url n : tracks (rev ops) (watch_ops ops (stats_new url n)).
Proof.
  induction ops as [|op ops IH] using rev_ind.
  - split; try done; cbn; apply bmap_ok_nil.
  - unfold watch_ops in *. rewrite fold_left_app, rev_app_distr. by apply upbit_op_tracks.
Qed.

(** after any sequence of recorded Upbit events and reconnects the watcher has
    raised exactly the alerts the history calls for: one for each trade whose
    sequential id is below the last one of its market, one for each order book
    older than the last one of its market, one for each error message and one for
    each reconnect, in order; the logs hold the last 20 and the last 1000.  The
    best quote of a market comes from its latest order book that has levels. *)
Theorem upbit_alerts_match_history (ops : list WatchOp) (url : string) (n : Z) :
  let s := watch_ops ops (stats_new url n) in
  let all := alerts_of (rev ops) in
  wc_gap_alert_count (us_core s) = wrap U64 (zlen all) /\
  wc_recent_gap_alerts (us_core s) = last_n 20 all /\
  wc_gap_alerts (us_core s) = last_n 1000 all /\
  forall code, bget code (us_last_best_quotes s) = latest (best_quote_of code) (rev ops).
Proof.
  destruct (upbit_ops_tracks ops url n) as [[? ? ?] _ _ _ _ _ ?]. auto.
Qed.
End upbit.
