(* ===== verification/Derivatives.v ===== *)
(** * Derivatives: funding-rate and open-interest snapshots

    [binance/derivatives.rs] and [binance/rest]: the drafts made of the REST
    answers, the symbols the futures venue supports, and one snapshot pass over
    the configured markets.  The HTTP request and [serde_json] are parameters. *)
From S2P Require Import Prelude Text OrderedMap Records Sink SinkReach VenueStats BinanceVenue.
Open Scope Z_scope.

(** A field of the payload objects the code builds. *)
Inductive dfield (V : Type) := DStr (s : string) | DInt (z : Z) | DRaw (v : V).
Arguments DStr {V}.
Arguments DInt {V}.
Arguments DRaw {V}.

Class RestJson (V : Type) := {
  rj_array : V -> option (list V);
  rj_is_object : V -> bool;
  rj_get : string -> V -> option V;
  rj_as_str : V -> option string;
  rj_number_text : V -> option string;
  rj_as_i64 : V -> option Z;
  rj_text : V -> result string string;
  rj_object_text : list (string * dfield V) -> result string string;
}.

(** What the code uses of a parsed URL. *)
Record RestUrl := mkRestUrl {
  ru_text : string; ru_scheme : string; ru_host : option string; ru_username : string;
  ru_password : option string; ru_query : option string; ru_fragment : option string }.

(** ** URLs *)

(* rust: src/binance/rest/url.rs validate_base_url *)
Definition validate_base_url (base : RestUrl) : result BinanceIngestError () :=
  if negb (String.eqb (ru_scheme base) "https")
  then Err (BEInvalidMessage "Binance REST base URL must use https")
  else if negb (bool_decide (is_Some (ru_host base)))
  then Err (BEInvalidMessage "Binance REST base URL must include a host")
  else if negb (str_is_empty (ru_username base)) || bool_decide (is_Some (ru_password base))
  then Err (BEInvalidMessage "Binance REST base URL must not include credentials")
  else if bool_decide (is_Some (ru_query base)) || bool_decide (is_Some (ru_fragment base))
  then Err (BEInvalidMessage "Binance REST base URL must not include query or fragment components")
  else Ok ().

(* rust: src/binance/rest/url.rs validate_endpoint_path *)
Definition validate_endpoint_path (endpoint_path : string) : result BinanceIngestError () :=
  if negb (starts_with "/" endpoint_path)
  then Err (BEInvalidMessage "Binance REST endpoint path must start with /")
  else if contains "?" endpoint_path || contains "#" endpoint_path
  then Err (BEInvalidMessage "Binance REST endpoint path must not contain query or fragment components")
  else Ok ().

(* rust: src/binance/rest/url.rs market_data_url *)
Definition market_data_url (parse : string -> result string RestUrl) (base_url endpoint_path : string)
    : result BinanceIngestError RestUrl :=
  _ ← validate_endpoint_path endpoint_path;
  base ← map_err (fun e => BEInvalidMessage ("invalid Binance REST base URL: " ++ e)) (parse (trim base_url));
  _ ← validate_base_url base;
  map_err (fun e => BEInvalidMessage ("invalid Binance REST endpoint URL: " ++ e))
    (parse (trim_end_matches "/" (ru_text base) ++ endpoint_path)%string).

Section rest.
Context {V : Type} {J : RestJson V} {L : StorageLib}.

(* rust: src/binance/rest/payload.rs string_or_number *)
Definition string_or_number (value : option V) : option string :=
  v ← value;
  match rj_as_str v with Some s => Some s | None => rj_number_text v end.

(* rust: src/binance/rest/derivatives/draft.rs derivative_snapshot_draft *)
Definition derivative_snapshot_draft (event_type : string) (market : BinanceMarket)
    (exchange_timestamp_ms ingest_timestamp_ms : Z) (sequence_tag : string)
    (payload : list (string * dfield V)) : result BinanceIngestError RawMarketEventDraft :=
  payload_json ← map_err BEJson (rj_object_text payload);
  Ok (mkRawDraft event_type "binance" "derivatives" "usdm_perpetual" (bm_raw_symbol market)
    (bm_base_asset market) (bm_base_asset market) (bm_quote_asset market) exchange_timestamp_ms
    ingest_timestamp_ms sequence_tag sequence_tag None None None true "REST_SNAPSHOT" "snapshot"
    payload_json).

(** ** Funding rates *)

(* rust: src/binance/rest/derivatives/funding.rs PREMIUM_INDEX_ENDPOINT *)
Definition PREMIUM_INDEX_ENDPOINT : string := "/fapi/v1/premiumIndex".

(* rust: src/binance/rest/derivatives/types.rs FundingRateSnapshotBatch *)
Record FundingRateSnapshotBatch := mkBatch {
  fb_drafts : list RawMarketEventDraft; fb_supported_symbols : list string }.

(* rust: src/binance/rest/derivatives/funding.rs premium_index_records *)
Definition premium_index_records (value : V) : result BinanceIngestError (list V) :=
  match rj_array value with
  | Some records => Ok records
  | None =>
      if rj_is_object value then Ok [value]
      else Err (BEInvalidMessage "Binance premiumIndex returned non-object response")
  end.

(* rust: src/binance/rest/derivatives/funding.rs funding_snapshot_draft *)
Definition funding_snapshot_draft (record : V) (symbol : string) (market : BinanceMarket)
    (funding_rate : string) (ingest_timestamp_ms : Z) : result BinanceIngestError RawMarketEventDraft :=
  let exchange_timestamp_ms := default ingest_timestamp_ms (v ← rj_get "time" record; rj_as_i64 v) in
  derivative_snapshot_draft "funding_rate_snapshot" market exchange_timestamp_ms ingest_timestamp_ms
    ("binance:funding_rate:" ++ symbol ++ ":" ++ show_Z exchange_timestamp_ms)
    [("provider"%string, DStr "binance_usdm"); ("source_endpoint"%string, DStr PREMIUM_INDEX_ENDPOINT);
     ("symbol"%string, DStr symbol); ("funding_rate"%string, DStr funding_rate);
     ("lastFundingRate"%string, DStr funding_rate); ("unit"%string, DStr "ratio");
     ("event_time_ms"%string, DInt exchange_timestamp_ms); ("raw"%string, DRaw record)].

(** The body of the loop over the records: the drafts so far, and the symbols seen. *)
Definition funding_record (markets_by_symbol : btree string BinanceMarket) (ingest_timestamp_ms : Z)
    (b : FundingRateSnapshotBatch) (record : V) : result BinanceIngestError FundingRateSnapshotBatch :=
  match (v ← rj_get "symbol" record; rj_as_str v) with
  | None => Ok b
  | Some symbol =>
      let b := mkBatch (fb_drafts b) (fb_supported_symbols b ++ [symbol]) in
      match bget symbol markets_by_symbol, string_or_number (rj_get "lastFundingRate" record) with
      | Some market, Some funding_rate =>
          d ← funding_snapshot_draft record symbol market funding_rate ingest_timestamp_ms;
          Ok (mkBatch (fb_drafts b ++ [d]) (fb_supported_symbols b))
      | _, _ => Ok b
      end
  end.

(* rust: src/binance/rest/derivatives/funding.rs funding_snapshot_batch_from_value *)
Definition funding_snapshot_batch_from_value (value : V) (markets : list BinanceMarket)
    (ingest_timestamp_ms : Z) : result BinanceIngestError FundingRateSnapshotBatch :=
  records ← premium_index_records value;
  let markets_by_symbol := bcollect (map (fun m => (bm_raw_symbol m, m)) markets) in
  try_fold (funding_record markets_by_symbol ingest_timestamp_ms) (mkBatch [] []) records.

(** ** Open interest and depth *)

(* rust: src/binance/rest/derivatives/open_interest.rs OPEN_INTEREST_ENDPOINT *)
Definition OPEN_INTEREST_ENDPOINT : string := "/fapi/v1/openInterest".

(* rust: src/binance/rest/derivatives/open_interest.rs open_interest_snapshot_draft_from_value *)
Definition open_interest_snapshot_draft_from_value (value : V) (market : BinanceMarket)
    (ingest_timestamp_ms : Z) : result BinanceIngestError RawMarketEventDraft :=
  open_interest ← ok_or (string_or_number (rj_get "openInterest" value))
    (BEInvalidMessage ("Binance openInterest missing openInterest for " ++ bm_raw_symbol market));
  let exchange_timestamp_ms := default ingest_timestamp_ms (v ← rj_get "time" value; rj_as_i64 v) in
  derivative_snapshot_draft "open_interest_snapshot" market exchange_timestamp_ms ingest_timestamp_ms
    ("binance:open_interest:" ++ bm_raw_symbol market ++ ":" ++ show_Z exchange_timestamp_ms)
    [("provider"%string, DStr "binance_usdm"); ("source_endpoint"%string, DStr OPEN_INTEREST_ENDPOINT);
     ("symbol"%string, DStr (bm_raw_symbol market)); ("open_interest"%string, DStr open_interest);
     ("openInterest"%string, DStr open_interest); ("unit"%string, DStr "contracts");
     ("event_time_ms"%string, DInt exchange_timestamp_ms); ("raw"%string, DRaw value)].

(** The answers of the REST endpoints during one pass: a URL error, a failed
    request or a JSON value. *)
Record Rest := mkRest {
  re_premium_index : result BinanceIngestError V;
  re_open_interest : string -> result BinanceIngestError V;
  re_depth : string -> Z -> result BinanceIngestError V;
}.

(* rust: src/binance/rest/derivatives/funding.rs fetch_funding_rate_snapshot_batch *)
Definition fetch_funding_rate_snapshot_batch (rest : Rest) (markets : list BinanceMarket)
    (ingest_timestamp_ms : Z) : result BinanceIngestError FundingRateSnapshotBatch :=
  value ← re_premium_index rest;
  funding_snapshot_batch_from_value value markets ingest_timestamp_ms.

(* rust: src/binance/rest/derivatives/open_interest.rs fetch_open_interest_snapshot_draft *)
Definition fetch_open_interest_snapshot_draft (rest : Rest) (market : BinanceMarket)
    (ingest_timestamp_ms : Z) : result BinanceIngestError RawMarketEventDraft :=
  value ← re_open_interest rest (bm_raw_symbol market);
  open_interest_snapshot_draft_from_value value market ingest_timestamp_ms.

(* rust: src/binance/rest/spot.rs fetch_depth_snapshot_draft *)
Definition fetch_depth_snapshot_draft (rest : Rest) (market : BinanceMarket) (limit : Z)
    (ingest_timestamp_ms : Z) : result BinanceIngestError RawMarketEventDraft :=
  value ← re_depth rest (bm_raw_symbol market) limit;
  last_update_id ← ok_or (v ← rj_get "lastUpdateId" value; rj_as_i64 v)
    (BEInvalidMessage ("Binance depth snapshot missing lastUpdateId for " ++ bm_raw_symbol market));
  let sequence_tag := ("binance:depth_snapshot:" ++ show_Z last_update_id)%string in
  payload_json ← map_err BEJson (rj_text value);
  Ok (mkRawDraft "depth_snapshot" "binance" "reference" "spot" (bm_raw_symbol market)
    (bm_base_asset market) (bm_base_asset market) (bm_quote_asset market) ingest_timestamp_ms
    ingest_timestamp_ms sequence_tag sequence_tag (Some last_update_id) None None true
    "REST_SNAPSHOT" "snapshot" payload_json).

(** ** Snapshot passes *)

(* rust: src/binance/derivatives.rs BinanceDerivativeSnapshotReport *)
Record BinanceDerivativeSnapshotReport := mkDerivReport {
  dr_funding_rate_snapshot_records : Z;
  dr_open_interest_snapshot_records : Z;
  dr_unsupported_futures_symbol_count : Z;
  dr_failure_count : Z;
}.

(* rust: src/binance/derivatives.rs total_records *)
Definition total_records (r : BinanceDerivativeSnapshotReport) : Z :=
  saturate U64 (dr_funding_rate_snapshot_records r + dr_open_interest_snapshot_records r).

(* rust: src/binance/derivatives.rs should_fetch_open_interest *)
Definition should_fetch_open_interest (supported : option (list string)) (symbol : string) : bool :=
  match supported with
  | None => true
  | Some symbols => bool_decide (symbol ∈ symbols)
  end.

(** Append a draft and count it; a storage error ends the pass. *)
Definition append_counted (io : Io) (count : BinanceDerivativeSnapshotReport -> BinanceDerivativeSnapshotReport)
    (d : RawMarketEventDraft) (r : BinanceDerivativeSnapshotReport) (k : L0StorageSink)
    : result BinanceIngestError BinanceDerivativeSnapshotReport * L0StorageSink :=
  match append_raw_market_event io d k with
  | (Ok _, k) => (Ok (count r), k)
  | (Err e, k) => (Err (BEStorage e), k)
  end.

Definition count_funding (r : BinanceDerivativeSnapshotReport) : BinanceDerivativeSnapshotReport :=
  mkDerivReport (incr_u64 (dr_funding_rate_snapshot_records r)) (dr_open_interest_snapshot_records r)
    (dr_unsupported_futures_symbol_count r) (dr_failure_count r).
Definition count_open_interest (r : BinanceDerivativeSnapshotReport) : BinanceDerivativeSnapshotReport :=
  mkDerivReport (dr_funding_rate_snapshot_records r) (incr_u64 (dr_open_interest_snapshot_records r))
    (dr_unsupported_futures_symbol_count r) (dr_failure_count r).
Definition count_unsupported (r : BinanceDerivativeSnapshotReport) : BinanceDerivativeSnapshotReport :=
  mkDerivReport (dr_funding_rate_snapshot_records r) (dr_open_interest_snapshot_records r)
    (incr_u64 (dr_unsupported_futures_symbol_count r)) (dr_failure_count r).
Definition count_failure (r : BinanceDerivativeSnapshotReport) : BinanceDerivativeSnapshotReport :=
  mkDerivReport (dr_funding_rate_snapshot_records r) (dr_open_interest_snapshot_records r)
    (dr_unsupported_futures_symbol_count r) (incr_u64 (dr_failure_count r)).

Fixpoint append_funding (io : Io) (ds : list RawMarketEventDraft) (r : BinanceDerivativeSnapshotReport)
    (k : L0StorageSink) : result BinanceIngestError BinanceDerivativeSnapshotReport * L0StorageSink :=
  match ds with
  | [] => (Ok r, k)
  | d :: ds =>
      match append_counted io count_funding d r k with
      | (Ok r, k) => append_funding io ds r k
      | failed => failed
      end
  end.

Fixpoint append_open_interest (io : Io) (rest : Rest) (supported : option (list string))
    (markets : list BinanceMarket) (ingest_timestamp_ms : Z) (r : BinanceDerivativeSnapshotReport)
    (k : L0StorageSink) : result BinanceIngestError BinanceDerivativeSnapshotReport * L0StorageSink :=
  match markets with
  | [] => (Ok r, k)
  | market :: markets =>
      let next := append_open_interest io rest supported markets ingest_timestamp_ms in
      if negb (should_fetch_open_interest supported (bm_raw_symbol market))
      then next (count_unsupported r) k
      else match fetch_open_interest_snapshot_draft rest market ingest_timestamp_ms with
           | Ok d =>
               match append_counted io count_open_interest d r k with
               | (Ok r, k) => next r k
               | failed => failed
               end
           | Err _ => next (count_failure r) k
           end
  end.

(** Log lines are taken to be written; their errors are I/O. *)
(* rust: src/binance/derivatives.rs append_derivative_snapshots *)
Definition append_derivative_snapshots (io : Io) (rest : Rest) (markets : list BinanceMarket)
    (ingest_timestamp_ms : Z) (k : L0StorageSink)
    : result BinanceIngestError BinanceDerivativeSnapshotReport * L0StorageSink :=
  let report := mkDerivReport 0 0 0 0 in
  match fetch_funding_rate_snapshot_batch rest markets ingest_timestamp_ms with
  | Ok batch =>
      match append_funding io (fb_drafts batch) report k with
      | (Ok report, k) =>
          append_open_interest io rest (Some (fb_supported_symbols batch)) markets ingest_timestamp_ms report k
      | failed => failed
      end
  | Err _ => append_open_interest io rest None markets ingest_timestamp_ms (count_failure report) k
  end.

(** A failing market ends the pass.  [clock] is the clock when a market's turn comes. *)
(* rust: src/binance/storage_output/snapshots.rs append_depth_snapshots *)
Fixpoint append_depth_snapshots (io : Io) (rest : Rest) (limit : Z) (clock : BinanceMarket -> Z)
    (markets : list BinanceMarket) (appended : Z) (k : L0StorageSink)
    : result BinanceIngestError Z * L0StorageSink :=
  match markets with
  | [] => (Ok appended, k)
  | market :: markets =>
      match fetch_depth_snapshot_draft rest market limit (clock market) with
      | Err e => (Err e, k)
      | Ok d =>
          match append_raw_market_event io d k with
          | (Err e, k) => (Err (BEStorage e), k)
          | (Ok _, k) => append_depth_snapshots io rest limit clock markets (incr_u64 appended) k
          end
      end
  end.

(* rust: src/binance/ws/session/snapshots.rs append_and_flush_derivative_snapshots *)
Definition append_and_flush_derivative_snapshots (io : Io) (rest : Rest) (markets : list BinanceMarket)
    (now_ms : Z) (k : L0StorageSink) : L0StorageSink :=
  match append_derivative_snapshots io rest markets now_ms k with
  | (Ok _, k) => snd (flush_all io k)
  | (Err _, k) => k
  end.

(** ** What a pass appends *)

Definition raw_ops (io : Io) (ds : list RawMarketEventDraft) : list (Io * SinkOp) :=
  map (fun d => (io, OpRaw d)) ds.

(** A derivatives draft of one of the markets. *)
Definition draft_of (markets : list BinanceMarket) (event_type : string) (d : RawMarketEventDraft) : Prop :=
  rd_event_type d = event_type /\ rd_source_role d = "derivatives"%string /\
  rd_is_snapshot d = true /\
  exists m, m ∈ markets /\ rd_symbol_native d = bm_raw_symbol m.

Lemma derivative_draft_of markets ty m e i tag payload d : m ∈ markets ->
  derivative_snapshot_draft ty m e i tag payload = Ok d -> draft_of markets ty d.
Proof.
  intros Hm H. unfold derivative_snapshot_draft in H. destruct (map_err _ _); [|done].
  injection H as <-. repeat (split; [done|]). by exists m.
Qed.

Lemma bcollect_values (markets : list BinanceMarket) :
  Forall (fun kv : string * BinanceMarket => kv.2 ∈ markets)
    (bcollect (map (fun m => (bm_raw_symbol m, m)) markets)).
Proof.
  unfold bcollect.
  assert (H : forall ms acc, (forall x, x ∈ ms -> x ∈ markets) ->
    Forall (fun kv : string * BinanceMarket => kv.2 ∈ markets) acc ->
    Forall (fun kv => kv.2 ∈ markets)
      (fold_left (fun b kv => binsert kv.1 kv.2 b) (map (fun m => (bm_raw_symbol m, m)) ms) acc)).
  { induction ms as [|x ms IH]; intros acc Hms Hacc; cbn; [done|]. apply IH.
    - intros y Hy. apply Hms. by apply list_elem_of_further.
    - apply binsert_Forall; [|done]. intros ?. apply Hms. apply list_elem_of_here. }
  apply H; [done|constructor].
Qed.

Lemma bget_collected markets symbol m :
  bget symbol (bcollect (map (fun m => (bm_raw_symbol m, m)) markets)) = Some m -> m ∈ markets.
Proof.
  pose proof (bcollect_values markets) as H. revert H.
  set (l := bcollect _). clearbody l.
  induction l as [|[k v] l IH]; cbn; intros Hl; [done|]. inversion Hl; subst.
  destruct (kcmp symbol k); [by intros [= <-]|done|]. by apply IH.
Qed.

Lemma funding_batch_drafts value markets t b :
  funding_snapshot_batch_from_value value markets t = Ok b ->
  Forall (draft_of markets "funding_rate_snapshot") (fb_drafts b).
Proof.
  unfold funding_snapshot_batch_from_value. intros H. inv_bind H. revert H.
  apply (try_fold_ind (fun b => Forall (draft_of markets "funding_rate_snapshot") (fb_drafts b)));
    [|constructor].
  intros x record y _ Hx H. unfold funding_record in H.
  destruct (_ ≫= _) as [symbol|]; [|by injection H as <-].
  destruct (bget symbol _) as [m|] eqn:Eg; [|by injection H as <-].
  destruct (string_or_number _) as [rate|]; [|by injection H as <-].
  cbn [fb_drafts fb_supported_symbols] in H. destruct (funding_snapshot_draft _ _ _ _ _) as [d|] eqn:Ed; [|done].
  injection H as <-. cbn. apply Forall_app. split; [done|]. apply Forall_singleton.
  eapply derivative_draft_of; [|exact Ed]. by apply bget_collected in Eg.
Qed.

(** The counters of a report, each modulo 2^64. *)
Definition counts (f o u e : Z) (r : BinanceDerivativeSnapshotReport) : Prop :=
  dr_funding_rate_snapshot_records r = wrap U64 f /\
  dr_open_interest_snapshot_records r = wrap U64 o /\
  dr_unsupported_futures_symbol_count r = wrap U64 u /\ dr_failure_count r = wrap U64 e.

Lemma counts_bump f o u e r : counts f o u e r ->
  counts (f + 1) o u e (count_funding r) /\ counts f (o + 1) u e (count_open_interest r) /\
  counts f o (u + 1) e (count_unsupported r) /\ counts f o u (e + 1) (count_failure r).
Proof.
  intros (A & B & C & D). unfold counts. cbn. rewrite A, B, C, D, !wrap_succ_u64. by split_and!.
Qed.

Lemma append_funding_run io ds r k r' k' f o u e : counts f o u e r ->
  append_funding io ds r k = (Ok r', k') ->
  sink_run (raw_ops io ds) k = (Ok (), k') /\ counts (f + zlen ds) o u e r'.
Proof.
  revert r k f. induction ds as [|d ds IH]; intros r k f Hc H; cbn in H.
  { injection H as <- <-. split; [done|]. by rewrite Z.add_0_r. }
  unfold append_counted in H. cbn [raw_ops map sink_run sink_step].
  destruct (append_raw_market_event io d k) as [[[]|] k1] eqn:E; [|done].
  apply (IH _ _ (f + 1)) in H as [H Hr].
  - split; [exact H|]. rewrite zlen_cons. by replace (f + (1 + zlen ds)) with (f + 1 + zlen ds) by lia.
  - by apply counts_bump.
Qed.

Lemma append_open_interest_run io rest sup markets t r k r' k' f o u e : counts f o u e r ->
  append_open_interest io rest sup markets t r k = (Ok r', k') ->
  exists ds skipped failed,
    sink_run (raw_ops io ds) k = (Ok (), k') /\ counts f (o + zlen ds) (u + skipped) (e + failed) r' /\
    zlen ds + skipped + failed = zlen markets /\
    skipped = zlen (filter (fun m => should_fetch_open_interest sup (bm_raw_symbol m) = false) markets) /\
    Forall (draft_of markets "open_interest_snapshot") ds.
Proof.
  revert r k o u e. induction markets as [|m ms IH]; intros r k o u e Hc H; cbn [append_open_interest] in H.
  { injection H as <- <-. exists [], 0, 0. rewrite !Z.add_0_r. repeat (split; [done|]). constructor. }
  assert (Hsub : forall ds, Forall (draft_of ms "open_interest_snapshot") ds ->
    Forall (draft_of (m :: ms) "open_interest_snapshot") ds).
  { intros ds Hds. eapply Forall_impl; [exact Hds|]. intros d (? & ? & ? & x & Hx & ?).
    repeat (split; [done|]). exists x. split; [by apply list_elem_of_further|done]. }
  rewrite zlen_cons. destruct (should_fetch_open_interest sup (bm_raw_symbol m)) eqn:Es; cbn [negb] in H.
  - rewrite filter_cons_False by congruence.
    destruct (fetch_open_interest_snapshot_draft rest m t) as [d|] eqn:Ed.
    + unfold append_counted in H. destruct (append_raw_market_event io d k) as [[[]|] k1] eqn:E; [|done].
      apply (IH _ _ (o + 1) u e) in H as (ds & sk & fl & Hr & Hcn & Hn & Hs & Hd).
      * exists (d :: ds), sk, fl. rewrite zlen_cons. cbn [raw_ops map sink_run sink_step]. rewrite E.
        split; [exact Hr|]. split; [by replace (o + (1 + zlen ds)) with (o + 1 + zlen ds) by lia|].
        split; [lia|]. split; [done|]. constructor; [|by apply Hsub].
        unfold fetch_open_interest_snapshot_draft, open_interest_snapshot_draft_from_value in Ed.
        inv_bind Ed. inv_bind Ed. eapply derivative_draft_of; [apply list_elem_of_here|exact Ed].
      * by apply counts_bump.
    + apply (IH _ _ o u (e + 1)) in H as (ds & sk & fl & Hr & Hcn & Hn & Hs & Hd).
      * exists ds, sk, (fl + 1). split; [done|].
        split; [by replace (e + (fl + 1)) with (e + 1 + fl) by lia|].
        split; [lia|]. split; [done|]. by apply Hsub.
      * by apply counts_bump.
  - rewrite filter_cons_True by done. rewrite zlen_cons.
    apply (IH _ _ o (u + 1) e) in H as (ds & sk & fl & Hr & Hcn & Hn & Hs & Hd).
    + exists ds, (1 + sk), fl. split; [done|].
      split; [by replace (u + (1 + sk)) with (u + 1 + sk) by lia|].
      split; [lia|]. split; [lia|]. by apply Hsub.
    + by apply counts_bump.
Qed.

(** a derivatives pass that returns has appended to the storage sink, in
    order, funding drafts and then open-interest drafts, each of a configured
    market; its report counts them; and each market was stored, skipped because
    the futures venue does not list it, or counted as a failure, a failed funding
    request adding one failure and disabling the skipping. *)
Theorem derivative_pass_accounts (io : Io) (rest : Rest) (markets : list BinanceMarket) (t : Z)
    (k k' : L0StorageSink) (report : BinanceDerivativeSnapshotReport) :
  append_derivative_snapshots io rest markets t k = (Ok report, k') ->
  exists funding interest skipped failed,
    sink_run (raw_ops io (funding ++ interest)) k = (Ok (), k') /\
    Forall (draft_of markets "funding_rate_snapshot") funding /\
    Forall (draft_of markets "open_interest_snapshot") interest /\
    zlen interest + skipped + failed = zlen markets /\
    match fetch_funding_rate_snapshot_batch rest markets t with
    | Ok batch =>
        funding = fb_drafts batch /\
        skipped = zlen (filter (fun m => bm_raw_symbol m ∉ fb_supported_symbols batch) markets) /\
        counts (zlen funding) (zlen interest) skipped failed report
    | Err _ => funding = [] /\ skipped = 0 /\ counts 0 (zlen interest) 0 (failed + 1) report
    end.
Proof.
  unfold append_derivative_snapshots. intros H.
  destruct (fetch_funding_rate_snapshot_batch rest markets t) as [batch|] eqn:Eb.
  - destruct (append_funding io (fb_drafts batch) _ k) as [[r|] k1] eqn:Ef; [|done].
    apply (append_funding_run _ _ _ _ _ _ 0 0 0 0) in Ef as [Hrun Hc]; [|done].
    apply (append_open_interest_run _ _ _ _ _ _ _ _ _ _ _ _ _ Hc) in H
      as (ds & sk & fl & Hr & Hcn & Hn & Hs & Hd).
    exists (fb_drafts batch), ds, sk, fl. unfold raw_ops in *. rewrite map_app.
    split; [by rewrite (sink_run_app_ok _ _ _ _ Hrun)|].
    unfold fetch_funding_rate_snapshot_batch in Eb. inv_bind Eb.
    split; [by eapply funding_batch_drafts|]. split; [done|]. split; [done|]. split; [done|].
    split; [|exact Hcn]. rewrite Hs. f_equal. apply list_filter_iff. intros m. cbn. by rewrite bool_decide_eq_false.
  - apply (append_open_interest_run _ _ _ _ _ _ _ _ _ 0 0 0 1) in H
      as (ds & sk & fl & Hr & Hcn & Hn & Hs & Hd); [|done].
    assert (sk = 0) as ->.
    { rewrite Hs. clear. induction markets as [|m ms IH]; [done|]. by rewrite filter_cons_False. }
    exists [], ds, 0, fl. split; [exact Hr|]. split; [constructor|]. split; [done|]. split; [done|].
    split; [done|]. split; [done|]. by rewrite (Z.add_comm fl 1).
Qed.
End rest.

(** Values that are strings: [all] is an array of one record. *)
#[local] Instance sample_rest_json : RestJson string := {|
  rj_array v := if String.eqb v "all" then Some ["BTCUSDT"%string] else None;
  rj_is_object _ := true;
  rj_get f v := if String.eqb f "symbol" then Some v
                else if String.eqb f "time" then None else Some "0.0001"%string;
  rj_as_str v := Some v;
  rj_number_text _ := None;
  rj_as_i64 _ := None;
  rj_text v := Ok v;
  rj_object_text _ := Ok "{}"%string;
|}.
Definition sample_rest : Rest :=
  mkRest (Ok "all"%string) (fun _ => Ok "oi"%string) (fun _ _ => Err (BEHttp "down")).
Definition sample_markets : list BinanceMarket :=
  [mkMarket "BTCUSDT" "BTC" "USDT"; mkMarket "USD1USDT" "USD1" "USDT"].

Definition sample_pass :=
  append_derivative_snapshots (L := sample_lib) sample_io sample_rest sample_markets 7
    (sink_start sample_l0_config).

Lemma derivative_pass_accounts_witness :
  exists report k', sample_pass = (Ok report, k') /\
    dr_unsupported_futures_symbol_count report = 1 /\
    exists interest skipped failed, zlen interest + skipped + failed = zlen sample_markets /\
      Forall (draft_of sample_markets "open_interest_snapshot") interest.
Proof.
  assert (H : sample_pass = (Ok (mkDerivReport 1 1 1 0), snd sample_pass)) by by vm_compute.
  exists (mkDerivReport 1 1 1 0), (snd sample_pass). split; [exact H|]. split; [done|].
  destruct (derivative_pass_accounts (L := sample_lib) _ _ _ _ _ _ _ H)
    as (f & i & s & e & _ & _ & H1 & H2 & _).
  by exists i, s, e.
Defined.
