(* ===== verification/VenueWatch.v ===== *)
(** * VenueWatch: sessions, reconnects and the end of a run

    [reconnect.rs], [binance/ws], [upbit/ws] and the finalization of both venues.
    What the socket, the clocks and the REST endpoints answer is a list of turns;
    a run consumes it.  Instants and durations are integers in nanoseconds.  What
    the two venues share is written once against the interface [Venue]. *)
From S2P Require Import Prelude Text OrderedMap IngestWatch Records Sink SinkReach VenueStats.
From S2P Require Import BinanceVenue UpbitVenue Derivatives.
Open Scope Z_scope.

Definition SECOND : Z := 1000000000.
Definition MILLISECOND : Z := 1000000.

(** The largest [Duration]. *)
Definition DURATION_MAX : Z := int_max U64 * SECOND + 999999999.

(** ** Reconnect policy *)

(* rust: src/reconnect.rs DEFAULT_INITIAL_BACKOFF_SECS *)
Definition DEFAULT_INITIAL_BACKOFF_SECS : Z := 1.
(* rust: src/reconnect.rs DEFAULT_MAX_BACKOFF_SECS *)
Definition DEFAULT_MAX_BACKOFF_SECS : Z := 60.
(* rust: src/reconnect.rs DEFAULT_BACKOFF_MULTIPLIER *)
Definition DEFAULT_BACKOFF_MULTIPLIER : Z := 2.
(* rust: src/reconnect.rs DEFAULT_STALE_MESSAGE_TIMEOUT_SECS *)
Definition DEFAULT_STALE_MESSAGE_TIMEOUT_SECS : Z := 30.

(* rust: src/reconnect.rs ReconnectPolicy *)
Record ReconnectPolicy := mkPolicy {
  rp_initial_backoff : Z; rp_max_backoff : Z; rp_multiplier : Z; rp_stale_message_timeout : Z }.

(* rust: src/reconnect.rs default_24x7 *)
Definition default_24x7 : ReconnectPolicy :=
  mkPolicy (DEFAULT_INITIAL_BACKOFF_SECS * SECOND) (DEFAULT_MAX_BACKOFF_SECS * SECOND)
    DEFAULT_BACKOFF_MULTIPLIER (DEFAULT_STALE_MESSAGE_TIMEOUT_SECS * SECOND).

(* rust: src/reconnect.rs next_backoff *)
Definition next_backoff (p : ReconnectPolicy) (current : Z) : Z :=
  let product := current * rp_multiplier p in
  let candidate := if product <=? DURATION_MAX then product else rp_max_backoff p in
  Z.min candidate (rp_max_backoff p).

(* rust: src/reconnect.rs ReconnectState *)
Record ReconnectState := mkReconnect {
  rc_reconnect_count : Z; rc_last_reconnect_at_ms : option Z; rc_consecutive_failures : Z }.

(* rust: src/reconnect.rs ReconnectState::record_reconnect *)
Definition state_record_reconnect (now_ms : Z) (s : ReconnectState) : ReconnectState :=
  mkReconnect (incr_u64 (rc_reconnect_count s)) (Some now_ms)
    (saturate U32 (rc_consecutive_failures s + 1)).

(* rust: src/reconnect.rs reset_after_healthy_run *)
Definition reset_after_healthy_run (s : ReconnectState) : ReconnectState :=
  mkReconnect (rc_reconnect_count s) (rc_last_reconnect_at_ms s) 0.

(** ** One session *)

(* rust: src/binance/ws/types.rs SessionEnd *)
Inductive SessionEnd := ShutdownRequested | DeadlineReached | Disconnected (reason : string).

(* rust: src/binance/ws/types.rs SessionPoll *)
Inductive SessionPoll := PollMessage (m : WsMessage) | PollDisconnected (reason : string) | PollTick.

(** The derivative fields are absent for Upbit. *)
(* rust: src/binance/ws/types.rs SessionTimers *)
Record SessionTimers := mkTimers {
  tm_next_log_at : Z;
  tm_next_ping_at : Z;
  tm_last_message_at : Z;
  tm_log_interval : Z;
  tm_stale_timeout : Z;
  tm_derivative_snapshot_interval : option Z;
  tm_next_derivative_snapshot_at : Z;
}.

Definition set_last_message (at_ : Z) (t : SessionTimers) : SessionTimers :=
  mkTimers (tm_next_log_at t) (tm_next_ping_at t) at_ (tm_log_interval t) (tm_stale_timeout t)
    (tm_derivative_snapshot_interval t) (tm_next_derivative_snapshot_at t).

(** What [timeout_at(next_tick, websocket.next())] answers. *)
Inductive SocketNext := NextMessage (m : WsMessage) | NextError | NextEnded | NextElapsed.

(* rust: src/binance/ws/session/polling.rs poll_session *)
Definition poll_session (answer : SocketNext) : SessionPoll :=
  match answer with
  | NextMessage m => PollMessage m
  | NextError => PollDisconnected "websocket_error"
  | NextEnded => PollDisconnected "ended"
  | NextElapsed => PollTick
  end.

(* rust: src/binance/ws/session/polling.rs next_session_tick *)
Definition next_session_tick (deadline : Z) (t : SessionTimers) (now : Z) : Z :=
  let stale_at := tm_last_message_at t + tm_stale_timeout t in
  let poll_tick := now + 250 * MILLISECOND in
  let snapshot := match tm_derivative_snapshot_interval t with
    | Some _ => [tm_next_derivative_snapshot_at t] | None => [] end in
  default deadline (zmin_list
    ([deadline; tm_next_log_at t; tm_next_ping_at t] ++ snapshot ++ [stale_at; poll_tick])).

(** What a venue brings to the shared loop: access to the shared statistics, the
    handling of a message, whether a failed message counts as malformed, and a
    derivative snapshot pass over the storage. *)
Class Venue (S E R : Type) := {
  vn_core : S -> WatchCore;
  vn_on_core : (WatchCore -> WatchCore) -> S -> S;
  vn_handle : Io -> WsMessage -> Z -> S -> option L0StorageSink ->
    result E () * S * option L0StorageSink;
  vn_counts_message_error : bool;
  vn_snapshots : Io -> R -> Z -> L0StorageSink -> L0StorageSink;
}.

(** The laws the loop's theorems rest on. *)
Class VenueLaws (S E R : Type) {N : Venue S E R} := {
  vn_core_on_core : forall f s, vn_core (vn_on_core f s) = f (vn_core s);
  vn_handle_reconnects : forall io m now s k,
    wc_reconnect_count (vn_core (vn_handle io m now s k).1.2) = wc_reconnect_count (vn_core s);
}.

(** The outside world during one turn of the session loop: the flag and the clock
    at its head, the socket's answer, the monotonic clock after a message, the wall
    clock, the storage's answers, the clock in the housekeeping, whether a ping can
    be sent, the REST answers, and the clock after a snapshot pass. *)
Record Turn (R : Type) := mkTurn {
  tn_shutdown : bool;
  tn_now : Z;
  tn_next : SocketNext;
  tn_message_at : Z;
  tn_clock_ms : Z;
  tn_io : Io;
  tn_house_now : Z;
  tn_ping_ok : bool;
  tn_rest : R;
  tn_after_snapshots : Z;
}.
Arguments mkTurn {R}.
Arguments tn_shutdown {R}.
Arguments tn_now {R}.
Arguments tn_next {R}.
Arguments tn_message_at {R}.
Arguments tn_clock_ms {R}.
Arguments tn_io {R}.
Arguments tn_house_now {R}.
Arguments tn_ping_ok {R}.
Arguments tn_rest {R}.
Arguments tn_after_snapshots {R}.

(** [next += interval; while next <= now { next += interval }] *)
Fixpoint catch_up (fuel : nat) (interval now next : Z) : Z :=
  match fuel with
  | O => next
  | S fuel => if next <=? now then catch_up fuel interval now (next + interval) else next
  end.
Definition catch_up_fuel (interval now next : Z) : nat := S (Z.to_nat ((now - next) / interval)).

Section session.
Context {S E R : Type} {N : Venue S E R}.

(** The statistics, the timers and the storage while a session runs. *)
Definition Live : Type := S * SessionTimers * option L0StorageSink.

(** The snapshot step of the housekeeping. *)
Definition derivative_step (t : Turn R) (timers : SessionTimers) (k : option L0StorageSink)
    : SessionTimers * option L0StorageSink :=
  match tm_derivative_snapshot_interval timers with
  | Some interval =>
      if tm_next_derivative_snapshot_at timers <=? tn_house_now t then
        let k := vn_snapshots (tn_io t) (tn_rest t) (tn_clock_ms t) <$> k in
        let next := tm_next_derivative_snapshot_at timers + interval in
        let next := catch_up (catch_up_fuel interval (tn_after_snapshots t) next) interval
                      (tn_after_snapshots t) next in
        (mkTimers (tm_next_log_at timers) (tm_next_ping_at timers) (tm_last_message_at timers)
           (tm_log_interval timers) (tm_stale_timeout timers) (Some interval) next, k)
      else (timers, k)
  | None => (timers, k)
  end.

(* rust: src/binance/ws/session/housekeeping.rs run_housekeeping *)
Definition run_housekeeping (t : Turn R) (l : Live) : option SessionEnd * Live :=
  let '(s, timers, k) := l in
  let now := tn_house_now t in
  if tm_last_message_at timers + tm_stale_timeout timers <=? now
  then (Some (Disconnected "stale_timeout"), l) else
  let ping_due := tm_next_ping_at timers <=? now in
  if ping_due && negb (tn_ping_ok t) then (Some (Disconnected "ping_failed"), l) else
  let next_ping := if ping_due then tm_next_ping_at timers + 30 * SECOND else tm_next_ping_at timers in
  let log_due := tm_next_log_at timers <=? now in
  let s := if log_due then vn_on_core update_health s else s in
  let next_log := if log_due then tm_next_log_at timers + tm_log_interval timers else tm_next_log_at timers in
  let timers := mkTimers next_log next_ping (tm_last_message_at timers) (tm_log_interval timers)
    (tm_stale_timeout timers) (tm_derivative_snapshot_interval timers)
    (tm_next_derivative_snapshot_at timers) in
  let (timers, k) := derivative_step t timers k in
  (None, (s, timers, k)).

Definition count_malformed : S -> S :=
  vn_on_core (bump_core wc_malformed_messages set_wc_malformed_messages).

(** One turn of the loop. *)
Definition session_turn (deadline : Z) (t : Turn R) (l : Live) : option SessionEnd * Live :=
  let '(s, timers, k) := l in
  if tn_shutdown t then (Some ShutdownRequested, l)
  else if deadline <=? tn_now t then (Some DeadlineReached, l)
  else match poll_session (tn_next t) with
  | PollMessage m =>
      let timers := set_last_message (tn_message_at t) timers in
      match vn_handle (tn_io t) m (tn_clock_ms t) s k with
      | (Ok _, s, k) => run_housekeeping t (s, timers, k)
      | (Err _, s, k) =>
          (Some (Disconnected "message_error"),
           ((if vn_counts_message_error then count_malformed s else s), timers, k))
      end
  | PollDisconnected reason =>
      (Some (Disconnected reason),
       ((if String.eqb reason "websocket_error" then count_malformed s else s), timers, k))
  | PollTick => run_housekeeping t l
  end.

(** [None]: the turns are used up and the session is still running. *)
Fixpoint session_loop (deadline : Z) (turns : list (Turn R)) (l : Live) : option SessionEnd * Live :=
  match turns with
  | [] => (None, l)
  | t :: turns =>
      match session_turn deadline t l with
      | (None, l) => session_loop deadline turns l
      | ended => ended
      end
  end.

Definition session_timers (now log_interval stale_timeout : Z) (derivative : option Z) : SessionTimers :=
  mkTimers (now + log_interval) (now + 30 * SECOND) now log_interval stale_timeout derivative
    (now + default 0 derivative).

(* rust: src/binance/ws/session.rs run_session *)
Definition run_session (deadline log_interval stale_timeout : Z) (derivative : option Z)
    (start : Z) (turns : list (Turn R)) (s : S) (k : option L0StorageSink) : option SessionEnd * Live :=
  session_loop deadline turns (s, session_timers start log_interval stale_timeout derivative, k).

(** ** The reconnect loop *)

(** One pass of the outer loop: the flag and the clock at its head, whether the
    connection and, for Upbit, the subscription succeed, the instant the session
    starts, its turns, and the wall clock when a failure is recorded. *)
Record Attempt := mkAttempt {
  at_shutdown : bool;
  at_now : Z;
  at_connects : bool;
  at_subscribes : bool;
  at_start : Z;
  at_turns : list (Turn R);
  at_clock_ms : Z;
}.

Record WatchConfig := mkWatchConfig {
  wf_deadline : Z; wf_log_interval : Z; wf_derivative : option Z }.

(** Why a pass ends the loop, or the reason it reconnects; [None] while a session
    is still running. *)
Definition attempt_outcome (c : WatchConfig) (p : ReconnectPolicy) (a : Attempt) (s : S)
    (k : option L0StorageSink) : option SessionEnd * S * option L0StorageSink :=
  if at_shutdown a then (Some ShutdownRequested, s, k)
  else if wf_deadline c <=? at_now a then (Some DeadlineReached, s, k)
  else if negb (at_connects a) then (Some (Disconnected "connect_failed"), s, k)
  else if negb (at_subscribes a) then (Some (Disconnected "subscribe_failed"), s, k)
  else
    let '(e, (s, _, k)) := run_session (wf_deadline c) (wf_log_interval c)
      (rp_stale_message_timeout p) (wf_derivative c) (at_start a) (at_turns a) s k in
    (e, s, k).

(** The state of the loop: the statistics, the storage, the next backoff and the
    sleeps so far. *)
Record Loop := mkLoop {
  lp_stats : S; lp_sink : option L0StorageSink; lp_backoff : Z; lp_sleeps : list Z }.

Definition with_stats (f : WatchCore -> WatchCore) (l : Loop) : Loop :=
  mkLoop (vn_on_core f (lp_stats l)) (lp_sink l) (lp_backoff l) (lp_sleeps l).

(** The loop after the connection was set up; it is [true] when it has ended. *)
Fixpoint watch_loop (c : WatchConfig) (p : ReconnectPolicy) (attempts : list Attempt) (l : Loop)
    : bool * Loop :=
  match attempts with
  | [] => (false, l)
  | a :: attempts =>
      let '(e, s, k) := attempt_outcome c p a (lp_stats l) (lp_sink l) in
      let l := mkLoop s k (lp_backoff l) (lp_sleeps l) in
      match e with
      | None => (false, l)
      | Some ShutdownRequested => (true, with_stats (set_status "shutdown") l)
      | Some DeadlineReached => (true, with_stats (set_status "deadline_reached") l)
      | Some (Disconnected reason) =>
          let l := with_stats (record_reconnect reason (at_clock_ms a)) l in
          watch_loop c p attempts
            (mkLoop (lp_stats l) (lp_sink l) (next_backoff p (lp_backoff l))
               (lp_sleeps l ++ [lp_backoff l]))
      end
  end.

(** The watch of a venue from fresh statistics, with its last [update_health]. *)
Definition watch (c : WatchConfig) (attempts : list Attempt) (s : S) (k : option L0StorageSink)
    : bool * Loop :=
  let p := default_24x7 in
  let (ended, l) := watch_loop c p attempts (mkLoop s k (rp_initial_backoff p) []) in
  if ended then (true, with_stats update_health l) else (false, l).
End session.
Arguments Attempt R : clear implicits.
Arguments Loop S : clear implicits.

(** ** The two venues *)

Section venues.
Context {L : StorageLib} {T : JsonText}.

Section binance.
Context {V W : Type} {JE : EventJson V} {JR : RestJson W} (markets : list BinanceMarket).

#[export] Instance binance_venue : Venue BinanceL0WatchStats BinanceIngestError (Rest (V := W)) := {|
  vn_core := bs_core;
  vn_on_core := BinanceVenue.on_core;
  vn_handle io m now s k :=
    BinanceVenue.handle_message io (markets_by_raw markets) m now s k;
  vn_counts_message_error := false;
  vn_snapshots io rest now k := append_and_flush_derivative_snapshots io rest markets now k;
|}.

(** Binance has no subscription message, so an attempt whose connection succeeds
    subscribes. *)
(* rust: src/binance/ws/watch.rs watch_binance_l0_streams *)
Definition watch_binance_l0_streams (url : string) (planned_stream_count : Z)
    (deadline log_interval derivative_snapshot_interval : Z) (attempts : list (Attempt (Rest (V := W))))
    (k : option L0StorageSink) : bool * Loop BinanceL0WatchStats :=
  watch (mkWatchConfig deadline log_interval (Some derivative_snapshot_interval))
    (map (fun a => mkAttempt (at_shutdown a) (at_now a) (at_connects a) true (at_start a) (at_turns a)
                     (at_clock_ms a)) attempts)
    (BinanceVenue.stats_new url planned_stream_count) k.
End binance.

Section upbit.
Context {F64 V : Type} {JU : UpbitJson (F64 := F64) (V := V)}.
Context (markets : list (UpbitMarket (F64 := F64))).

#[export] Instance upbit_venue : Venue (UpbitIngestWatchStats (F64 := F64)) UpbitIngestError () := {|
  vn_core := us_core;
  vn_on_core := UpbitVenue.on_core;
  vn_handle io m now s k :=
    UpbitVenue.handle_message io (bcollect (map (fun m => (um_market m, m)) markets)) m now s k;
  vn_counts_message_error := true;
  vn_snapshots _ _ _ k := k;
|}.

(* rust: src/upbit/ws/session.rs next_session_tick *)
Definition upbit_next_session_tick (deadline : Z) (t : SessionTimers) (now : Z) : Z :=
  default deadline (zmin_list
    [deadline; tm_next_log_at t; tm_next_ping_at t; tm_last_message_at t + tm_stale_timeout t;
     now + 250 * MILLISECOND]).

(* rust: src/upbit/ws/session.rs run_housekeeping *)
Definition upbit_run_housekeeping (t : Turn ()) (l : Live) : option SessionEnd * Live :=
  run_housekeeping t l.

(* rust: src/upbit/ws/session.rs run_session *)
Definition upbit_run_session (deadline log_interval stale_timeout start : Z) (turns : list (Turn ()))
    (s : UpbitIngestWatchStats) (k : option L0StorageSink) : option SessionEnd * Live :=
  run_session deadline log_interval stale_timeout None start turns s k.

(* rust: src/upbit/ws/watch.rs watch_upbit_ingest_streams *)
Definition watch_upbit_ingest_streams (websocket_url : string) (deadline log_interval : Z)
    (attempts : list (Attempt ())) (k : option L0StorageSink)
    : bool * Loop (UpbitIngestWatchStats (F64 := F64)) :=
  watch (mkWatchConfig deadline log_interval None) attempts
    (UpbitVenue.stats_new websocket_url (zlen markets * 3)) k.
End upbit.

(** ** Finalization *)

(** The appends of [finalize_storage]: the health of the source, of each symbol
    seen, the stored alerts, then the flush and the manifest. *)
Definition finalize_ops (health : SourceHealthDraft) (symbols : list SymbolHealthDraft)
    (gaps : list GapAlertDraft) : list SinkOp :=
  OpHealth health :: map OpSymbolHealth symbols ++ map OpGap gaps ++ [OpFlushAll; OpManifest].

(** [ios] answers for each append in turn. *)
Definition with_ios (ios : nat -> Io) (ops : list SinkOp) : list (Io * SinkOp) :=
  imap (fun i op => (ios i, op)) ops.

(* rust: src/binance/storage_output/finalize.rs finalize_storage *)
Definition binance_finalize_storage (ios : nat -> Io) (s : BinanceL0WatchStats) (now_ms : Z)
    (k : L0StorageSink) : result BinanceIngestError () * L0StorageSink :=
  let (r, k) := sink_run (with_ios ios (finalize_ops
    (BinanceVenue.source_health_draft s now_ms)
    (VenueStats.symbol_health_drafts "binance" (bs_core s) now_ms)
    (map (VenueStats.gap_alert_draft "binance" "reference") (wc_gap_alerts (bs_core s))))) k in
  (map_err BEStorage r, k).

(* rust: src/upbit/storage_output.rs finalize_storage *)
Definition upbit_finalize_storage {F64 : Type} (ios : nat -> Io)
    (s : UpbitIngestWatchStats (F64 := F64)) (now_ms : Z)
    (k : L0StorageSink) : result UpbitIngestError () * L0StorageSink :=
  let (r, k) := sink_run (with_ios ios (finalize_ops
    (UpbitVenue.source_health_draft s now_ms) (UpbitVenue.symbol_health_drafts s now_ms)
    (map UpbitVenue.gap_alert_draft (wc_gap_alerts (us_core s))))) k in
  (map_err UEStorage r, k).
End venues.

(** ** Timers *)

Lemma fold_min_le l x : fold_left Z.min l x <= x.
Proof. revert x. induction l as [|y l IH]; intros x; cbn; [lia|]. specialize (IH (Z.min x y)). lia. Qed.

Lemma fold_min_elem l x y : y ∈ l -> fold_left Z.min l x <= y.
Proof.
  revert x. induction l as [|z l IH]; intros x Hy; [by apply elem_of_nil in Hy|]. cbn.
  apply elem_of_cons in Hy as [->|Hy]; [|by apply IH].
  pose proof (fold_min_le l (Z.min x z)). lia.
Qed.

Lemma next_session_tick_le deadline t now :
  next_session_tick deadline t now <= deadline /\
  next_session_tick deadline t now <= tm_last_message_at t + tm_stale_timeout t /\
  next_session_tick deadline t now <= now + 250 * MILLISECOND.
Proof.
  unfold next_session_tick. cbn [app zmin_list default].
  split; [|split]; [apply fold_min_le | apply fold_min_elem ..];
    destruct (tm_derivative_snapshot_interval t); set_solver.
Qed.

Lemma catch_up_spec fuel interval now next :
  0 < interval -> now < next + Z.of_nat fuel * interval ->
  let r := catch_up fuel interval now next in
  now < r /\ (r = next \/ r - interval <= now) /\ exists j, 0 <= j /\ r = next + j * interval.
Proof.
  intros Hi. revert next. induction fuel as [|fuel IH]; intros next Hn; cbn [catch_up]; cbv zeta.
  { split; [lia|]. split; [by left|]. exists 0. lia. }
  destruct (Z.leb_spec next now); [|split; [lia|]; split; [by left|]; exists 0; lia].
  destruct (IH (next + interval)) as (H1 & H2 & j & Hj & Hr); [lia|].
  cbv zeta in *. split; [done|]. split; [right; destruct H2; lia|]. exists (j + 1). lia.
Qed.

Lemma catch_up_fuel_enough interval now next : 0 < interval ->
  now < next + Z.of_nat (catch_up_fuel interval now next) * interval.
Proof.
  intros Hi. unfold catch_up_fuel. pose proof (Z.div_mod (now - next) interval).
  pose proof (Z.mod_pos_bound (now - next) interval). nia.
Qed.

(** ** Sessions *)

Section session_facts.
Context {S E R : Type} {N : Venue S E R} {NL : VenueLaws S E R}.

(** The instant of the last message, [start] when there is none. *)
Definition last_activity (start : Z) (turns : list (Turn R)) : Z :=
  fold_left (fun at_ t => match tn_next t with NextMessage _ => tn_message_at t | _ => at_ end)
    turns start.

Lemma derivative_step_timers t tm k :
  let tm' := (derivative_step t tm k).1 in
  tm_last_message_at tm' = tm_last_message_at tm /\ tm_stale_timeout tm' = tm_stale_timeout tm.
Proof.
  unfold derivative_step. destruct (tm_derivative_snapshot_interval tm); [|done].
  by destruct (_ <=? _).
Qed.

Lemma housekeeping_None t l l' : run_housekeeping t l = (None, l') ->
  tn_house_now t < tm_last_message_at l.1.2 + tm_stale_timeout l.1.2 /\
  tm_last_message_at l'.1.2 = tm_last_message_at l.1.2 /\
  tm_stale_timeout l'.1.2 = tm_stale_timeout l.1.2.
Proof.
  destruct l as [[s tm] k]. cbn. destruct (Z.leb_spec (tm_last_message_at tm + tm_stale_timeout tm) (tn_house_now t)); [done|].
  destruct (_ && _); [done|].
  match goal with |- context [derivative_step t ?tm' k] =>
    pose proof (derivative_step_timers t tm' k) as H'; destruct (derivative_step t tm' k) as [tm2 k2] end.
  intros [= <-]. cbn in *. destruct H'. done.
Qed.

Lemma session_turn_None d t l l' : session_turn d t l = (None, l') ->
  tn_shutdown t = false /\ tn_now t < d /\
  (tn_next t = NextElapsed \/ exists m, tn_next t = NextMessage m) /\
  tm_last_message_at l'.1.2 = last_activity (tm_last_message_at l.1.2) [t] /\
  tn_house_now t < tm_last_message_at l'.1.2 + tm_stale_timeout l.1.2 /\
  tm_stale_timeout l'.1.2 = tm_stale_timeout l.1.2.
Proof.
  destruct l as [[s tm] k]. unfold session_turn, last_activity. cbn [fold_left fst snd].
  destruct (tn_shutdown t); [done|]. destruct (Z.leb_spec d (tn_now t)); [done|].
  destruct (tn_next t) as [m| | |]; cbn [poll_session]; try done.
  - destruct (vn_handle (tn_io t) m (tn_clock_ms t) s k) as [[[u|] s1] k1]; [|done].
    intros (H1 & H2 & H3)%housekeeping_None. cbn [fst snd set_last_message tm_last_message_at tm_stale_timeout] in *.
    rewrite H2, H3. split_and!; try done. right. by exists m.
  - intros (H1 & H2 & H3)%housekeeping_None. cbn [fst snd] in *. rewrite H2, H3.
    split_and!; try done. by left.
Qed.

Lemma session_loop_None d turns l l' : session_loop d turns l = (None, l') ->
  forall pre t post, turns = pre ++ t :: post ->
    tn_shutdown t = false /\ tn_now t < d /\
    (tn_next t = NextElapsed \/ exists m, tn_next t = NextMessage m) /\
    tn_house_now t < last_activity (tm_last_message_at l.1.2) (pre ++ [t]) + tm_stale_timeout l.1.2.
Proof.
  revert l. induction turns as [|t0 turns IH]; intros l H pre t post Heq; [by destruct pre|].
  cbn in H. destruct (session_turn d t0 l) as [[e|] l1] eqn:Et; [done|].
  apply session_turn_None in Et as (A & B & C & D & F & G).
  destruct pre as [|p pre]; injection Heq as <- Heq.
  - rewrite D in F. done.
  - destruct (IH l1 H pre t post Heq) as (A' & B' & C' & D'). split_and!; try done.
    rewrite <- app_comm_cons. rewrite D, G in D'. exact D'.
Qed.

(** A turn that ends with a stale timeout saw no message for that long. *)
Lemma session_turn_stale d t l l' : session_turn d t l = (Some (Disconnected "stale_timeout"), l') ->
  last_activity (tm_last_message_at l.1.2) [t] + tm_stale_timeout l.1.2 <= tn_house_now t.
Proof.
  destruct l as [[s tm] k]. unfold session_turn, last_activity. cbn [fold_left fst snd].
  destruct (tn_shutdown t); [done|]. destruct (d <=? tn_now t); [done|].
  assert (Hh : forall x x', run_housekeeping t x = (Some (Disconnected "stale_timeout"), x') ->
    tm_last_message_at x.1.2 + tm_stale_timeout x.1.2 <= tn_house_now t).
  { intros [[s0 tm0] k0] x'. cbn. destruct (Z.leb_spec (tm_last_message_at tm0 + tm_stale_timeout tm0) (tn_house_now t)); [done|].
    destruct (_ && _); [done|]. by destruct (derivative_step _ _ _). }
  destruct (tn_next t) as [m| | |]; cbn [poll_session]; try done.
  - destruct (vn_handle (tn_io t) m (tn_clock_ms t) s k) as [[[u|] s1] k1]; [|done]. by intros ?%Hh.
  - by intros ?%Hh.
Qed.

Lemma session_loop_stale d turns l l' :
  session_loop d turns l = (Some (Disconnected "stale_timeout"), l') ->
  exists pre t post, turns = pre ++ t :: post /\
    last_activity (tm_last_message_at l.1.2) (pre ++ [t]) + tm_stale_timeout l.1.2 <= tn_house_now t.
Proof.
  revert l. induction turns as [|t0 turns IH]; intros l H; [done|]. cbn in H.
  destruct (session_turn d t0 l) as [[e|] l1] eqn:Et.
  - injection H as -> ->. apply session_turn_stale in Et. by exists [], t0, turns.
  - apply session_turn_None in Et as (_ & _ & _ & D & _ & G).
    destruct (IH l1 H) as (pre & t & post & -> & Hs). exists (t0 :: pre), t, post. split; [done|].
    rewrite D, G in Hs. exact Hs.
Qed.

(** C31: a session that is still running after a turn has seen no shutdown, no
    deadline and no socket failure, and its last message is more recent than the
    stale timeout at that turn's housekeeping; conversely a session that ends with
    [stale_timeout] did so at a turn where the last message, or the start of the
    session, was at least that old. *)
Theorem session_ends_exactly_when_stale (deadline log_interval stale_timeout : Z)
    (derivative : option Z) (start : Z) (turns : list (Turn R)) (s : S) (k : option L0StorageSink)
    (e : option SessionEnd) (l : Live) :
  run_session deadline log_interval stale_timeout derivative start turns s k = (e, l) ->
  (e = None -> forall pre t post, turns = pre ++ t :: post ->
     tn_shutdown t = false /\ tn_now t < deadline /\
     (tn_next t = NextElapsed \/ exists m, tn_next t = NextMessage m) /\
     tn_house_now t < last_activity start (pre ++ [t]) + stale_timeout) /\
  (e = Some (Disconnected "stale_timeout") -> exists pre t post, turns = pre ++ t :: post /\
     last_activity start (pre ++ [t]) + stale_timeout <= tn_house_now t).
Proof.
  intros H. split; intros ->.
  - intros pre t post. by apply (session_loop_None deadline turns _ l H).
  - apply (session_loop_stale deadline turns _ l H).
Qed.

(** ** Reconnect counting *)

Lemma housekeeping_reconnects t l e l' : run_housekeeping t l = (e, l') ->
  wc_reconnect_count (vn_core l'.1.1) = wc_reconnect_count (vn_core l.1.1).
Proof.
  destruct l as [[s tm] k]. cbn. destruct (_ <=? tn_house_now t); [by intros [= <- <-]|].
  destruct (_ && _); [by intros [= <- <-]|]. destruct (derivative_step _ _ _).
  intros [= <- <-]. cbn. destruct (_ <=? tn_house_now t); [|done]. by rewrite vn_core_on_core.
Qed.

Lemma session_turn_reconnects d t l e l' : session_turn d t l = (e, l') ->
  wc_reconnect_count (vn_core l'.1.1) = wc_reconnect_count (vn_core l.1.1).
Proof.
  destruct l as [[s tm] k]. unfold session_turn.
  destruct (tn_shutdown t); [by intros [= <- <-]|].
  destruct (d <=? tn_now t); [by intros [= <- <-]|].
  destruct (poll_session (tn_next t)) as [m|r|].
  - pose proof (vn_handle_reconnects (tn_io t) m (tn_clock_ms t) s k) as Hm.
    destruct (vn_handle (tn_io t) m (tn_clock_ms t) s k) as [[[u|] s1] k1]; cbn in Hm.
    + intros H%housekeeping_reconnects. cbn in *. congruence.
    + intros [= <- <-]. cbn. destruct vn_counts_message_error; [|done].
      unfold count_malformed. by rewrite vn_core_on_core.
  - intros [= <- <-]. cbn. destruct (String.eqb r _); [|done].
    unfold count_malformed. by rewrite vn_core_on_core.
  - apply housekeeping_reconnects.
Qed.

Lemma session_loop_reconnects d turns l e l' : session_loop d turns l = (e, l') ->
  wc_reconnect_count (vn_core l'.1.1) = wc_reconnect_count (vn_core l.1.1).
Proof.
  revert l. induction turns as [|t turns IH]; intros l; cbn; [by intros [= <- <-]|].
  destruct (session_turn d t l) as [e1 l1] eqn:Et. apply session_turn_reconnects in Et.
  destruct e1; [by intros [= <- <-]|]. intros H%IH. congruence.
Qed.

Lemma attempt_reconnects c p a s k e s' k' : attempt_outcome c p a s k = (e, s', k') ->
  wc_reconnect_count (vn_core s') = wc_reconnect_count (vn_core s).
Proof.
  unfold attempt_outcome. destruct (at_shutdown a); [by intros [= <- <- <-]|].
  destruct (_ <=? at_now a); [by intros [= <- <- <-]|].
  destruct (negb (at_connects a)); [by intros [= <- <- <-]|].
  destruct (negb (at_subscribes a)); [by intros [= <- <- <-]|].
  unfold run_session. destruct (session_loop _ _ _) as [e1 [[s1 t1] k1]] eqn:El.
  apply session_loop_reconnects in El. by intros [= <- <- <-].
Qed.

(** ** Backoff *)

Lemma next_backoff_step p b i : 0 <= b -> 1 <= rp_multiplier p -> rp_max_backoff p <= DURATION_MAX ->
  0 <= rp_max_backoff p ->
  next_backoff p (Z.min (b * rp_multiplier p ^ Z.of_nat i) (rp_max_backoff p)) =
  Z.min (b * rp_multiplier p ^ Z.of_nat (Datatypes.S i)) (rp_max_backoff p).
Proof.
  intros Hb Hm Hd H0. rewrite Nat2Z.inj_succ, Z.pow_succ_r by lia. unfold next_backoff.
  set (x := b * rp_multiplier p ^ Z.of_nat i). replace (b * (rp_multiplier p * rp_multiplier p ^ Z.of_nat i))
    with (x * rp_multiplier p) by (unfold x; ring).
  assert (0 <= x) by (unfold x; apply Z.mul_nonneg_nonneg; [done|]; apply Z.pow_nonneg; lia).
  destruct (Z.min_spec x (rp_max_backoff p)) as [[? ->]|[? ->]];
    match goal with |- context [?a <=? DURATION_MAX] => destruct (Z.leb_spec a DURATION_MAX) end; nia.
Qed.

Definition backoffs (p : ReconnectPolicy) (from n : nat) : list Z :=
  map (fun i => Z.min (rp_initial_backoff p * rp_multiplier p ^ Z.of_nat i) (rp_max_backoff p)) (seq from n).

Lemma watch_loop_backoffs c p attempts l b l' i :
  0 <= rp_initial_backoff p <= rp_max_backoff p -> 1 <= rp_multiplier p ->
  rp_max_backoff p <= DURATION_MAX ->
  lp_backoff l = Z.min (rp_initial_backoff p * rp_multiplier p ^ Z.of_nat i) (rp_max_backoff p) ->
  watch_loop c p attempts l = (b, l') ->
  exists n, lp_sleeps l' = lp_sleeps l ++ backoffs p i n /\
    wc_reconnect_count (vn_core (lp_stats l')) mod 2 ^ 64 =
    (wc_reconnect_count (vn_core (lp_stats l)) + Z.of_nat n) mod 2 ^ 64.
Proof.
  intros Hp Hm Hd. revert l i. induction attempts as [|a attempts IH]; intros l i Hb; cbn [watch_loop].
  { intros [= <- <-]. exists 0%nat. by rewrite app_nil_r, Z.add_0_r. }
  destruct (attempt_outcome c p a (lp_stats l) (lp_sink l)) as [[e s] k] eqn:Ea.
  apply attempt_reconnects in Ea.
  assert (Hdone : lp_sleeps l = lp_sleeps l ++ backoffs p i 0) by by rewrite app_nil_r.
  destruct e as [[| |reason]|].
  1,2: intros [= <- <-]; exists 0%nat; split; [done|]; cbn [lp_stats with_stats];
    rewrite vn_core_on_core, Z.add_0_r, <- Ea; reflexivity.
  2: { intros [= <- <-]. exists 0%nat. split; [done|]. cbn [lp_stats]. by rewrite Ea, Z.add_0_r. }
  intros H. apply (IH _ (Datatypes.S i)) in H as (n & Hs & Hc).
  - exists (Datatypes.S n). cbn [lp_sleeps lp_stats with_stats] in Hs, Hc. split.
    { by rewrite Hs, Hb, <- app_assoc. }
    rewrite Hc, vn_core_on_core. cbn [record_reconnect]. rewrite <- Ea.
    change (wc_reconnect_count (record_reconnect reason (at_clock_ms a) (vn_core s)))
      with (incr_u64 (wc_reconnect_count (vn_core s))).
    unfold incr_u64, wrap. cbn [int_min int_max]. rewrite Z.sub_0_r, Z.add_0_r.
    change (18446744073709551615 - 0 + 1) with (2 ^ 64).
    rewrite Zplus_mod_idemp_l. f_equal. lia.
  - cbn. rewrite Hb. apply next_backoff_step; lia.
Qed.

(** a watch sleeps before its reconnects for 1, 2, 4, 8, 16, 32, 60, 60, ...
    seconds, one sleep for each reconnect it counts, whatever its sessions did and
    however long they lived: a healthy session does not shorten the next sleep. *)
Theorem backoff_never_resets (c : WatchConfig) (attempts : list (Attempt R)) (s : S)
    (k : option L0StorageSink) (ended : bool) (l : Loop S) :
  wc_reconnect_count (vn_core s) = 0 ->
  watch c attempts s k = (ended, l) ->
  lp_sleeps l = map (fun i => Z.min (2 ^ Z.of_nat i) 60 * SECOND) (seq 0 (Datatypes.length (lp_sleeps l))) /\
  wc_reconnect_count (vn_core (lp_stats l)) mod 2 ^ 64 = zlen (lp_sleeps l) mod 2 ^ 64.
Proof.
  intros H0 H. unfold watch in H.
  destruct (watch_loop c default_24x7 attempts _) as [b l1] eqn:El.
  apply (watch_loop_backoffs _ _ _ _ _ _ 0) in El as (n & Hs & Hc); [|done..].
  cbn [lp_sleeps lp_stats app] in Hs, Hc. rewrite H0, Z.add_0_l in Hc.
  assert (Hl : lp_sleeps l = lp_sleeps l1 /\
    wc_reconnect_count (vn_core (lp_stats l)) = wc_reconnect_count (vn_core (lp_stats l1))).
  { destruct b; injection H as <- <-; [|done]. cbn. by rewrite vn_core_on_core. }
  destruct Hl as [-> ->]. rewrite Hs.
  assert (Hn : Datatypes.length (backoffs default_24x7 0 n) = n) by (unfold backoffs; by rewrite length_map, length_seq).
  unfold zlen. rewrite Hn. split; [|done]. apply map_ext. intros i. cbn [rp_initial_backoff rp_max_backoff rp_multiplier default_24x7].
  unfold DEFAULT_INITIAL_BACKOFF_SECS, DEFAULT_MAX_BACKOFF_SECS, DEFAULT_BACKOFF_MULTIPLIER, SECOND. lia.
Qed.

(** The status a finished watch leaves is the one of [update_health]; the
    [shutdown] or [deadline_reached] its loop set when it ended never survives. *)
Theorem final_status_overwritten (c : WatchConfig) (attempts : list (Attempt R)) (s : S)
    (k : option L0StorageSink) (l : Loop S) :
  watch c attempts s k = (true, l) ->
  wc_source_health_status (vn_core (lp_stats l)) ∈
    ["waiting_for_messages"; "degraded"; "connected"]%string /\
  (0 < wc_gap_alert_count (vn_core (lp_stats l)) ->
   wc_source_health_status (vn_core (lp_stats l)) <> "connected"%string).
Proof.
  unfold watch. destruct (watch_loop _ _ _ _) as [[|] l1]; [|done]. intros [= <-].
  cbn. rewrite vn_core_on_core. unfold update_health. cbn.
  destruct (_ =? 0); [split; [set_solver|done]|].
  destruct (_ || _) eqn:B; [split; [set_solver|done]|]. split; [set_solver|].
  apply orb_false_iff in B as [_ B]. apply Z.ltb_ge in B. lia.
Qed.
End session_facts.

(** ** The venues keep the laws *)

Section laws.
Context {L : StorageLib}.

#[export] Instance binance_laws {V W : Type} {JE : EventJson V} {JR : RestJson W} markets :
  VenueLaws BinanceL0WatchStats BinanceIngestError (Rest (V := W))
    (N := binance_venue (V := V) (W := W) markets).
Proof.
  split; [done|]. intros io m now s k. cbn.
  assert (Hr : forall e t s, wc_reconnect_count (bs_core (BinanceVenue.record_event e t s)) =
    wc_reconnect_count (bs_core s)).
  { intros [st e p] t s0. destruct e as [m0|m0|m0|m0]; cbn; try done.
    - unfold record_trade_ordering_gap. cbn. destruct (bget _ _) as [q|]; [by destruct (_ <? q)|done].
    - unfold record_depth_update_id_gap. cbn. destruct (bget _ _) as [q|]; [|done].
      by destruct (negb _). }
  assert (Ht : forall text s, wc_reconnect_count (bs_core (BinanceVenue.record_text_payload io
      (markets_by_raw markets) text now s k).1.2) = wc_reconnect_count (bs_core s)).
  { intros text s0. unfold BinanceVenue.record_text_payload.
    destruct (parse_binance_payload text) as [env|]; [|done].
    destruct (append_opt io _ k) as [[u|] k1]; [|done]. cbn. by rewrite Hr. }
  destruct m as [text|[text|u]| | | |]; try done; apply Ht.
Qed.

#[export] Instance upbit_laws {F64 V : Type} {JU : UpbitJson (F64 := F64) (V := V)} markets :
  VenueLaws (UpbitIngestWatchStats (F64 := F64)) UpbitIngestError () (N := upbit_venue (V := V) markets).
Proof.
  split; [done|]. intros io m now s k. cbn.
  assert (Hr : forall (e : UpbitParsedEvent (F64 := F64) (V := V)) t s,
    wc_reconnect_count (us_core (UpbitVenue.record_event e t s)) = wc_reconnect_count (us_core s)).
  { intros [m0|m0|m0|m0|n0 m0|v] t s0; cbn; try done.
    - unfold record_trade. cbn. destruct (bget _ _) as [q|]; [by destruct (_ <? q)|done].
    - unfold record_orderbook. cbn. destruct (bget _ _) as [q|]; [destruct (_ <? q)|];
        by destruct (uo_orderbook_units m0). }
  assert (Hl : forall evs s k, wc_reconnect_count (us_core (record_envelopes (F64 := F64) (V := V) io
      (bcollect (map (fun m => (um_market m, m)) markets)) evs now s k).1.2) =
    wc_reconnect_count (us_core s)).
  { induction evs as [|e evs IH]; intros s0 k0; cbn; [done|].
    destruct (append_drafts io _ k0) as [[u|] k1]; [|done]. by rewrite IH, Hr. }
  assert (Ht : forall text s, wc_reconnect_count (us_core (UpbitVenue.record_text_payload (F64 := F64) (V := V) io
      (bcollect (map (fun m => (um_market m, m)) markets)) text now s k).1.2) =
    wc_reconnect_count (us_core s)).
  { intros text s0. unfold UpbitVenue.record_text_payload.
    destruct (parse_upbit_payload text) as [evs|]; [|done]. by rewrite Hl. }
  destruct m as [text|[text|u]| | | |]; try done; apply Ht.
Qed.
End laws.

(** ** What finalization leaves *)

Section finalize.
Context {L : StorageLib} {T : JsonText}.

Lemma sink_run_split a b k k' : sink_run (a ++ b) k = (Ok (), k') ->
  exists k1, sink_run a k = (Ok (), k1) /\ sink_run b k1 = (Ok (), k').
Proof.
  revert k. induction a as [|[io op] a IH]; intros k H; cbn in *; [by exists k|].
  destruct (sink_step io op k) as [[[]|] k1]; [by apply IH|done].
Qed.

(** A run that ends with a flush and a manifest leaves every record in a spool file. *)
Lemma run_flush_manifest cfg ops io1 io2 k :
  calendar_ok -> 0 < cf_flush_records cfg -> Forall op_clean ops.*2 ->
  zlen ops + 4 < int_max U64 ->
  sink_run (ops ++ [(io1, OpFlushAll); (io2, OpManifest)]) (sink_start cfg) = (Ok (), k) ->
  sink_empty k /\ stored_records k ≡ₚ expected_records (cf_run_id cfg) 1 ops.*2.
Proof.
  intros Hcal Hpos Hcl Hroom H. apply sink_run_split in H as (k1 & H1 & H).
  destruct (sink_run_inv cfg ops [] _ k1 Hcal Hpos Hcl ltac:(unfold zlen in *; cbn [Datatypes.length] in *; lia)
    (sink_inv_init cfg) H1) as (all & Hi & Hp).
  rewrite app_nil_r in Hp. change (zlen (@nil AnyRecord) + 1) with 1 in Hp.
  pose proof (expected_length (cf_run_id cfg) 1 ops.*2) as He. rewrite fmap_zlen in He.
  assert (Hall : zlen all + 2 < int_max U64) by (rewrite (perm_zlen _ _ Hp); lia).
  cbn [sink_run sink_step] in H. destruct (flush_all io1 k1) as [[[]|] k2] eqn:Ef; [|done].
  destruct (flush_all_inv cfg io1 all k1 k2 Hi Hall Ef) as [Hi2 Hempty].
  assert (Hm : sink_step io2 OpManifest k2 = (Ok (), k)).
  { cbn [sink_step]. by destruct (upload_manifest _ _ _) as [[[]|] c]. }
  pose proof (upload_manifest_inv cfg io2 all k2 k Hi2 Hm) as Hi3.
  split; [|by rewrite (sink_inv_stored _ _ _ Hi3)].
  cbn [sink_step] in Hm. destruct (upload_manifest _ _ _) as [r c]. by injection Hm as _ <-.
Qed.

Lemma with_ios_ops (ios : nat -> Io) ops : (with_ios ios ops).*2 = ops.
Proof.
  unfold with_ios. rewrite fmap_imap. apply list_eq. intros i. rewrite list_lookup_imap.
  by destruct (ops !! i).
Qed.

Lemma alert_types_clean (history : list BinanceVenue.WatchOp) :
  Forall (fun a => no_slash (al_gap_type a)) (BinanceVenue.alerts_of history).
Proof.
  induction history as [|op history IH]; cbn; [constructor|]. apply Forall_app. split; [done|].
  destruct op as [[st e p] t|r now]; cbn; [|apply Forall_singleton; vm_decide].
  destruct e as [m|m|m|m]; cbn; try constructor.
  - destruct (BinanceVenue.last_trade_on _ _) as [q|]; [|constructor].
    destruct (_ <? _); [apply Forall_singleton; vm_decide | constructor].
  - destruct (BinanceVenue.last_update_of _ _) as [q|]; [|constructor].
    destruct (_ =? _); [constructor | apply Forall_singleton; vm_decide].
Qed.

(** when the finalization of a Binance run succeeds, whatever its storage
    operations before, every record is in a spool file and no buffer holds any: the
    records stored before, one source-health record, one symbol-health record for
    each symbol seen, and the last 1000 of the alerts raised, in that order of
    ordinals. *)
Theorem finalize_persists_run (cfg : L0StorageConfig) (ops : list (Io * SinkOp))
    (history : list BinanceVenue.WatchOp) (url : string) (n now : Z) (ios : nat -> Io)
    (k k' : L0StorageSink) :
  let s := BinanceVenue.watch_ops history (BinanceVenue.stats_new url n) in
  calendar_ok -> 0 < cf_flush_records cfg -> Forall op_clean ops.*2 ->
  zlen ops + zlen (wc_symbol_counts (bs_core s)) + 1010 < int_max U64 ->
  sink_run ops (sink_start cfg) = (Ok (), k) ->
  binance_finalize_storage ios s now k = (Ok (), k') ->
  sink_empty k' /\
  stored_records k' ≡ₚ expected_records (cf_run_id cfg) 1
    (ops.*2 ++ OpHealth (BinanceVenue.source_health_draft s now) ::
     map OpSymbolHealth (map (symbol_health_draft "binance" (bs_core s) now)
                            (bkeys (wc_symbol_counts (bs_core s)))) ++
     map OpGap (map (VenueStats.gap_alert_draft "binance" "reference")
                  (last_n 1000 (BinanceVenue.alerts_of (rev history))))).
Proof.
  intros s Hcal Hpos Hcl Hroom Hrun Hfin.
  pose proof (lg_stored _ _ (BinanceVenue.tr_log _ _ (BinanceVenue.watch_ops_tracks history url n))) as Hst.
  fold s in Hst. change MAX_STORED_GAP_ALERTS with 1000 in Hst.
  set (body := OpHealth (BinanceVenue.source_health_draft s now) :: _).
  unfold binance_finalize_storage in Hfin.
  assert (Hops : finalize_ops (BinanceVenue.source_health_draft s now)
      (VenueStats.symbol_health_drafts "binance" (bs_core s) now)
      (map (VenueStats.gap_alert_draft "binance" "reference") (wc_gap_alerts (bs_core s)))
    = body ++ [OpFlushAll; OpManifest]).
  { unfold finalize_ops, body, VenueStats.symbol_health_drafts. rewrite Hst. cbn. by rewrite <- app_assoc. }
  rewrite Hops in Hfin. unfold with_ios in Hfin. rewrite imap_app in Hfin. cbn [imap] in Hfin.
  fold (with_ios ios body) in Hfin.
  match type of Hfin with context [sink_run ?o k] => destruct (sink_run o k) as [[[]|] k2] eqn:E end;
    [|done]. injection Hfin as <-.
  rewrite <- (sink_run_app_ok _ _ _ _ Hrun), app_assoc in E.
  apply (run_flush_manifest cfg) in E; try done.
  - by rewrite fmap_app, with_ios_ops in E.
  - rewrite fmap_app, with_ios_ops. apply Forall_app. split; [done|]. unfold body.
    constructor; [vm_decide|]. apply Forall_app. split; rewrite map_map; apply Forall_map, Forall_forall.
    + intros x _. vm_decide.
    + intros a Ha. cbn. split; [vm_decide|].
      pose proof (alert_types_clean (rev history)) as Hc. rewrite Forall_forall in Hc. apply Hc.
      unfold last_n in Ha. by eapply subseteq_drop.
  - rewrite zlen_app. assert (zlen (with_ios ios body) = zlen body) as ->.
    { unfold zlen, with_ios. by rewrite length_imap. }
    unfold body. rewrite zlen_cons, zlen_app. unfold zlen at 2 3. rewrite !length_map.
    pose proof (last_n_length 1000 (BinanceVenue.alerts_of (rev history)) ltac:(lia)) as Hn.
    unfold zlen in *. unfold bkeys. rewrite length_fmap. lia.
Qed.
End finalize.

(** ** Samples *)

#[local] Existing Instance sample_rest_json.
#[local] Instance sample_event_json : EventJson string := {|
  ej_parse v := if String.eqb v "bad" then Err "eof"%string else Ok v;
  ej_to_string v := Ok v;
  ej_combined v := Ok ("btcusdt@trade"%string, v);
  ej_trade _ := Ok (mkTrade 1 "BTCUSDT" 42 2);
  ej_ticker _ := Err "ticker"%string;
  ej_book_ticker _ := Err "book"%string;
  ej_diff_depth _ := Err "depth"%string;
|}.
#[local] Instance sample_json_text : JsonText := {| json_text _ := "{}"%string |}.

Definition sample_turn (at_ : Z) (next : SocketNext) : Turn (Rest (V := string)) :=
  mkTurn false at_ next at_ 1000 sample_io at_ true sample_rest at_.

Definition sample_attempt (at_ : Z) (connects : bool) (turns : list (Turn (Rest (V := string))))
    : Attempt (Rest (V := string)) := mkAttempt false at_ connects true at_ turns 1000.

Definition sample_stats : BinanceL0WatchStats := BinanceVenue.stats_new "wss://stream" 1.

#[local] Instance sample_venue : Venue BinanceL0WatchStats BinanceIngestError (Rest (V := string)) :=
  binance_venue (L := sample_lib) (V := string) (W := string) sample_markets.
#[local] Instance sample_laws :
  VenueLaws BinanceL0WatchStats BinanceIngestError (Rest (V := string)) :=
  binance_laws (L := sample_lib) sample_markets.

Definition sample_turns : list (Turn (Rest (V := string))) :=
  [sample_turn (1 * SECOND) (NextMessage (WsText "{}")); sample_turn (20 * SECOND) NextElapsed;
   sample_turn (31 * SECOND) NextElapsed].

Definition sample_session := run_session (10 ^ 12) SECOND (30 * SECOND) (Some (300 * SECOND)) 0
  sample_turns sample_stats None.

Lemma session_ends_exactly_when_stale_witness :
  exists e l, sample_session = (e, l) /\ e = Some (Disconnected "stale_timeout") /\
  exists pre t post, sample_turns = pre ++ t :: post /\
    last_activity 0 (pre ++ [t]) + 30 * SECOND <= tn_house_now t.
Proof.
  eexists _, _. split; [by vm_compute|]. split; [done|].
  eapply (session_ends_exactly_when_stale (10 ^ 12) SECOND (30 * SECOND) (Some (300 * SECOND)) 0
    sample_turns sample_stats None); by vm_compute.
Defined.

Definition sample_attempts : list (Attempt (Rest (V := string))) :=
  [sample_attempt 0 false []; sample_attempt (2 * SECOND) true sample_turns;
   sample_attempt (40 * SECOND) false []; sample_attempt (10 ^ 12) true []].

Definition sample_watch :=
  watch (mkWatchConfig (10 ^ 12) SECOND (Some (300 * SECOND))) sample_attempts sample_stats None.

Lemma backoff_never_resets_witness :
  exists ended l, sample_watch = (ended, l) /\
    zlen (lp_sleeps l) = 3 /\
    lp_sleeps l = map (fun i => Z.min (2 ^ Z.of_nat i) 60 * SECOND) (seq 0 (Datatypes.length (lp_sleeps l))).
Proof.
  eexists _, _. split; [by vm_compute|]. split; [by vm_compute|].
  eapply (backoff_never_resets (mkWatchConfig (10 ^ 12) SECOND (Some (300 * SECOND))) sample_attempts
    sample_stats None); by vm_compute.
Defined.

Lemma final_status_overwritten_witness :
  exists l, sample_watch = (true, l) /\
  wc_source_health_status (vn_core (lp_stats l)) ∈
    ["waiting_for_messages"; "degraded"; "connected"]%string.
Proof.
  eexists _. split; [by vm_compute|].
  eapply (final_status_overwritten (mkWatchConfig (10 ^ 12) SECOND (Some (300 * SECOND))) sample_attempts
    sample_stats None); by vm_compute.
Defined.

Definition sample_history : list BinanceVenue.WatchOp :=
  [BinanceVenue.WEvent (mkEnvelope "btcusdt@trade" (PTrade (mkTrade 1 "BTCUSDT" 42 2)) "{}") 5;
   BinanceVenue.WReconnect "ended" 6].

Definition sample_finalized (k : L0StorageSink) :=
  binance_finalize_storage (L := sample_lib) (fun _ => sample_io)
    (BinanceVenue.watch_ops sample_history (BinanceVenue.stats_new "wss://stream" 1)) 7 k.

Lemma finalize_persists_run_witness :
  exists k k', sink_run (L := sample_lib) sample_ops (sink_start sample_l0_config) = (Ok (), k) /\
    sample_finalized k = (Ok (), k') /\ sink_empty k'.
Proof.
  eexists _, _. split; [by vm_compute|]. split; [by vm_compute|].
  eapply (finalize_persists_run (L := sample_lib) (T := sample_json_text) sample_l0_config sample_ops
    sample_history "wss://stream" 1 7 (fun _ => sample_io));
    [apply sample_calendar_ok | done | vm_decide | by vm_compute | by vm_compute | by vm_compute].
Defined.
