(* ===== verification/Waiting.v ===== *)
(** * Waiting: sleeps that a shutdown ends, and polling of child processes

    [binance/ws/control.rs] and [upbit/ws/control.rs] (the sleep between two connections),
    [supervisor/scheduler/wait.rs] and the polling of [supervisor/process.rs].  A wait is
    given by what it sees each time it looks: the clock, the flag, the children. *)
From S2P Require Import Prelude Text VenueWatch.
Open Scope Z_scope.
Open Scope list_scope.

(** ** The sleep between two connections *)

(** One turn of the loop: the clock at its head, the flag, and the clock when the remaining
    time is taken. *)
Record Beat := mkBeat { bt_now : Z; bt_shutdown : bool; bt_then : Z }.

(* rust: src/binance/ws/control.rs 29-30 sleep_or_shutdown *)
Definition sleep_step (target : Z) (b : Beat) : Z := Z.min (Z.max (target - bt_then b) 0) (250 * MILLISECOND).

(** The steps slept, or [None] while the sleep still runs after the given turns. *)
(* rust: src/binance/ws/control.rs 25-35 sleep_or_shutdown *)
Fixpoint sleep_loop (target : Z) (beats : list Beat) : option (list Z) :=
  match beats with
  | [] => None
  | b :: beats =>
      if negb (bt_now b <? target) then Some [] else
      if bt_shutdown b then Some [] else
      let step := sleep_step target b in
      if step =? 0 then Some [] else cons step <$> sleep_loop target beats
  end.

(* rust: src/binance/ws/control.rs sleep_or_shutdown *)
Definition binance_sleep_or_shutdown (start duration : Z) (beats : list Beat) : option (list Z) :=
  sleep_loop (start + duration) beats.

(* rust: src/upbit/ws/control.rs sleep_or_shutdown *)
Definition upbit_sleep_or_shutdown (start duration : Z) (beats : list Beat) : option (list Z) :=
  sleep_loop (start + duration) beats.

(** The clock does not go back, and a sleep takes at least as long as asked. *)
Fixpoint steady (target start : Z) (beats : list Beat) : Prop :=
  match beats with
  | [] => True
  | b :: beats => start <= bt_now b <= bt_then b /\ steady target (bt_then b + sleep_step target b) beats
  end.

Lemma sleep_loop_bounds target start beats steps : steady target start beats -> sleep_loop target beats = Some steps ->
  Forall (fun step => 0 < step <= 250 * MILLISECOND) steps /\
  (steps <> [] -> start + foldr Z.add 0 steps <= target) /\
  (Datatypes.length steps < Datatypes.length beats)%nat.
Proof.
  revert start steps. induction beats as [|b beats IH]; intros start steps; [done|]. cbn [steady sleep_loop].
  intros [Hb Hs]. destruct (Z.ltb_spec (bt_now b) target) as [Hlt|]; cbn [negb]; [|intros [= <-]; cbn; split_and!; [done|done|lia]].
  destruct (bt_shutdown b); [intros [= <-]; cbn; split_and!; [done|done|lia]|].
  destruct (Z.eqb_spec (sleep_step target b) 0) as [|Hz]; [intros [= <-]; cbn; split_and!; [done|done|lia]|].
  destruct (sleep_loop target beats) as [rest|] eqn:E; [|done]. cbn. intros [= <-].
  destruct (IH _ rest Hs eq_refl) as (Hf & Hsum & Hlen).
  assert (Hstep : 0 < sleep_step target b <= 250 * MILLISECOND /\ sleep_step target b <= target - bt_then b).
  { unfold sleep_step in *. unfold MILLISECOND in *. lia. }
  split_and!; [constructor; [lia|done]| |cbn; lia]. intros _. cbn. destruct rest as [|s rest]; cbn in *; [lia|].
  specialize (Hsum ltac:(done)). lia.
Qed.

(** What is left of a sleep, in steps. *)
Lemma sleep_loop_ends target start beats : steady target start beats ->
  target - start <= 250 * MILLISECOND * (Z.of_nat (Datatypes.length beats) - 1) -> beats <> [] ->
  is_Some (sleep_loop target beats).
Proof.
  revert start. induction beats as [|b beats IH]; intros start; [done|]. cbn [steady sleep_loop]. intros [Hb Hs] Hlen _.
  destruct (Z.ltb_spec (bt_now b) target) as [Hlt|]; cbn [negb]; [|done]. destruct (bt_shutdown b); [done|].
  destruct (Z.eqb_spec (sleep_step target b) 0) as [|Hz]; [done|]. apply fmap_is_Some. apply (IH (bt_then b + sleep_step target b) Hs).
  - cbn [Datatypes.length] in Hlen. unfold sleep_step, MILLISECOND in *. lia.
  - intros ->. cbn in Hlen. lia.
Qed.

Lemma sleep_loop_shutdown target beats i b steps : sleep_loop target beats = Some steps -> beats !! i = Some b ->
  bt_shutdown b = true -> (Datatypes.length steps <= i)%nat.
Proof.
  revert i steps. induction beats as [|c beats IH]; intros i steps; [done|]. cbn [sleep_loop].
  destruct (negb (bt_now c <? target)); [intros [= <-]; cbn; lia|].
  destruct (bt_shutdown c) eqn:Hc; [intros [= <-]; cbn; lia|].
  destruct (sleep_step target c =? 0); [intros [= <-]; cbn; lia|].
  destruct (sleep_loop target beats) as [rest|] eqn:E; [|done]. cbn. intros [= <-] Hi Hb.
  destruct i as [|i]; [cbn in Hi; congruence|]. cbn in *. specialize (IH i rest eq_refl Hi Hb). lia.
Qed.

(** The sleep before a reconnect ends: once it has looked at the flag more often than the
    duration has quarters of a second it is over.  No step is longer than 250 ms, the steps
    never sum to more than the duration, and after a look that saw the shutdown none is
    slept, so a watcher in its longest backoff still stops within a quarter of a second. *)
Theorem sleeps_end_promptly (start duration : Z) (beats : list Beat) :
  0 <= duration -> steady (start + duration) start beats ->
  (duration <= 250 * MILLISECOND * (zlen beats - 1) -> is_Some (binance_sleep_or_shutdown start duration beats)) /\
  forall steps, binance_sleep_or_shutdown start duration beats = Some steps ->
    Forall (fun step => 0 < step <= 250 * MILLISECOND) steps /\ foldr Z.add 0 steps <= duration /\
    forall i b, beats !! i = Some b -> bt_shutdown b = true -> (Datatypes.length steps <= i)%nat.
Proof.
  intros Hd Hs. unfold binance_sleep_or_shutdown. split.
  - intros Hlen. destruct beats as [|b beats]; [unfold zlen, MILLISECOND in Hlen; cbn [Datatypes.length] in Hlen; lia|].
    apply (sleep_loop_ends _ start); [done| |done]. unfold zlen in Hlen. lia.
  - intros steps Hsteps. destruct (sleep_loop_bounds _ _ _ _ Hs Hsteps) as (Hf & Hsum & _). split; [done|]. split.
    + destruct steps as [|s steps]; [cbn; lia|]. specialize (Hsum ltac:(done)). lia.
    + intros i b Hi Hb. by apply (sleep_loop_shutdown (start + duration) beats i b).
Qed.

(** ** The waits of the scheduler *)

(** The flag at each look; the seconds slept, or [None] while the wait goes on. *)
(* rust: src/supervisor/scheduler/wait.rs wait_until_shutdown *)
Fixpoint wait_until_shutdown (looks : list bool) : option nat :=
  match looks with
  | [] => None
  | true :: _ => Some O
  | false :: looks => S <$> wait_until_shutdown looks
  end.

(** A counted loop: [look] is the flag at each of the seconds. *)
(* rust: src/supervisor/scheduler/wait.rs sleep_or_shutdown *)
Definition scheduler_sleep_or_shutdown (look : nat -> bool) (seconds : nat) : nat :=
  (fix go (i more : nat) : nat :=
     match more with O => O | S more => if look i then O else S (go (S i) more) end) O seconds.

Lemma scheduler_sleep_go (look : nat -> bool) (seconds from : nat) :
  let slept := (fix go (i more : nat) : nat :=
    match more with O => O | S more => if look i then O else S (go (S i) more) end) from seconds in
  (slept <= seconds)%nat /\ (forall i : nat, (i < slept)%nat -> look (from + i)%nat = false) /\
  ((slept < seconds)%nat -> look (from + slept)%nat = true).
Proof.
  revert from. induction seconds as [|seconds IH]; intros from; cbn; [split_and!; [done|lia|lia]|].
  destruct (look from) eqn:Hl; [split_and!; [lia|lia|by rewrite Nat.add_0_r]|].
  destruct (IH (S from)) as (H1 & H2 & H3). split_and!; [lia| |].
  - intros [|i] Hi; [by rewrite Nat.add_0_r|]. rewrite <- Nat.add_succ_comm. apply H2. lia.
  - intros Hlt. rewrite <- Nat.add_succ_comm. apply H3. lia.
Qed.

(** The scheduler sleeps its interval, or up to the first second that sees the flag. *)
Theorem scheduler_sleep_spec (look : nat -> bool) (seconds : nat) :
  let slept := scheduler_sleep_or_shutdown look seconds in
  (slept <= seconds)%nat /\ (forall i : nat, (i < slept)%nat -> look i = false) /\ ((slept < seconds)%nat -> look slept = true).
Proof. exact (scheduler_sleep_go look seconds 0). Qed.

(** ** Children *)

(** What [try_wait] answers for a child: an error, its exit status, or that it still runs. *)
Definition Poll : Type := result string (option string).

(** One pass over the children. *)
Fixpoint poll_children (children : list (string * Poll)) : result string (option (string * string)) :=
  match children with
  | [] => Ok None
  | (venue, poll) :: children =>
      status ← poll;
      match status with Some status => Ok (Some (venue, status)) | None => poll_children children end
  end.

(** [None] while every child has been running in each of the passes, a second apart. *)
(* rust: src/supervisor/process.rs wait_any_realtime_child *)
Fixpoint wait_any_realtime_child (passes : list (list (string * Poll))) : option (result string (string * string)) :=
  match passes with
  | [] => None
  | children :: passes =>
      match poll_children children with
      | Ok (Some exit) => Some (Ok exit)
      | Ok None => wait_any_realtime_child passes
      | Err e => Some (Err e)
      end
  end.

(** Whether a child is sent a kill: not when it is known to have ended. *)
(* rust: src/supervisor/process.rs kill_child *)
Definition kill_child (poll : Poll) : bool :=
  match poll with Ok (Some _) => false | _ => true end.

(* rust: src/supervisor/process.rs kill_realtime_children *)
Definition kill_realtime_children (children : list (string * Poll)) : list string :=
  map fst (List.filter (fun child => kill_child child.2) children).

(* rust: src/supervisor/process.rs kill_optional_child *)
Definition kill_optional_child (child : option Poll) : bool :=
  match child with Some poll => kill_child poll | None => false end.

Definition running : Poll := Ok None.

Lemma poll_children_running children : poll_children children = Ok None <-> Forall (fun c => c.2 = running) children.
Proof.
  induction children as [|[venue [[status|]|e]] children IH]; cbn; [done|..].
  - split; [done|]. inversion 1. done.
  - rewrite IH. split; [by constructor|by inversion 1].
  - split; [done|]. inversion 1. done.
Qed.

Lemma poll_children_exit children venue status : poll_children children = Ok (Some (venue, status)) <->
  exists before after, children = before ++ (venue, Ok (Some status)) :: after /\ Forall (fun c => c.2 = running) before.
Proof.
  split.
  - induction children as [|[v [[s|]|e]] children IH]; cbn; [done| | |done].
    + intros [= <- <-]. by exists [], children.
    + intros H. destruct (IH H) as (before & after & -> & Hb). exists ((v, Ok None) :: before), after.
      split; [done|]. by constructor.
  - intros (before & after & -> & Hb). induction Hb as [|[v p] before Hp _ IH]; cbn in *; [done|]. by subst p.
Qed.

(** The wait reports the first child, in the order of the venues, that has ended in the
    first pass in which one has; the passes before saw all of them running. *)
Theorem first_exit_is_reported (passes : list (list (string * Poll))) (venue status : string) :
  wait_any_realtime_child passes = Some (Ok (venue, status)) <->
  exists earlier children later before after, passes = earlier ++ children :: later /\
    Forall (Forall (fun c => c.2 = running)) earlier /\
    children = before ++ (venue, Ok (Some status)) :: after /\ Forall (fun c => c.2 = running) before.
Proof.
  split.
  - induction passes as [|children passes IH]; cbn; [done|]. destruct (poll_children children) as [[exit|]|e] eqn:E; [| |done].
    + intros [= ->]. apply poll_children_exit in E as (before & after & -> & Hb).
      by exists [], (before ++ (venue, Ok (Some status)) :: after), passes, before, after.
    + intros H. destruct (IH H) as (earlier & c & later & before & after & -> & He & Hc & Hb).
      exists (children :: earlier), c, later, before, after. split_and!; [done| |done|done].
      constructor; [by apply poll_children_running|done].
  - intros (earlier & children & later & before & after & -> & He & -> & Hb).
    induction He as [|c earlier Hc _ IH]; cbn.
    + rewrite (proj2 (poll_children_exit _ venue status)); [done|]. by exists before, after.
    + by rewrite (proj2 (poll_children_running c) Hc).
Qed.

(** ** A backoff of a second, stopped after its second look *)

Definition sample_beats : list Beat :=
  [mkBeat 0 false 1; mkBeat 250000010 false 250000011; mkBeat 500000020 true 500000021; mkBeat 0 false 0].

Lemma sleeps_end_promptly_witness :
  binance_sleep_or_shutdown 0 SECOND (take 3 sample_beats) = Some [250000000; 250000000] /\
  (2 <= 2)%nat /\ 250000000 + (250000000 + 0) <= SECOND.
Proof.
  assert (Hs : steady (0 + SECOND) 0 (take 3 sample_beats)).
  { cbn [steady take sample_beats bt_now bt_then]. unfold sleep_step, MILLISECOND, SECOND. cbn [bt_then]. lia. }
  assert (Hr : binance_sleep_or_shutdown 0 SECOND (take 3 sample_beats) = Some [250000000; 250000000]) by by vm_compute.
  destruct (sleeps_end_promptly 0 SECOND (take 3 sample_beats)) as [_ H]; [done|exact Hs|].
  destruct (H _ Hr) as (_ & Hsum & Hstop). split; [exact Hr|]. split; [|exact Hsum].
  exact (Hstop 2%nat (mkBeat 500000020 true 500000021) eq_refl eq_refl).
Defined.

Lemma first_exit_is_reported_witness :
  wait_any_realtime_child [[("binance", running); ("upbit", running)]; [("binance", running); ("upbit", Ok (Some "exit: 1"))]]%string
    = Some (Ok ("upbit", "exit: 1"))%string.
Proof.
  apply first_exit_is_reported.
  exists [[("binance", running); ("upbit", running)]]%string, [("binance", running); ("upbit", Ok (Some "exit: 1"))]%string, [],
    [("binance", running)]%string, []. split_and!; [reflexivity| |reflexivity|]; repeat constructor.
Defined.
