(* ===== verification/Cli.v ===== *)
(** * Cli: command lines and the environment

    What the argument parsers of the binaries share: the loop over the options, numeric
    values, buckets, live publication settings and the environment.  [step_value] and
    [step_flag] run the loop on one option of a known name. *)
From S2P Require Import Prelude Text.
Open Scope Z_scope.

(** [env::var]: [None] when the variable is not set or not Unicode. *)
Class Environment := { env_var : string -> option string }.

(* rust: src/args/env.rs env_string *)
Definition env_string {V : Environment} (name : string) : option string :=
  value ← env_var name;
  let value := trim value in
  if str_is_empty value then None else Some value.

(* rust: src/args/env.rs env_bool *)
Definition env_bool {V : Environment} (name : string) : bool :=
  match env_var name with
  | Some value => existsb (String.eqb (to_ascii_lowercase (trim value))) ["1"; "true"; "yes"]%string
  | None => false
  end.

(* rust: src/live.rs DEFAULT_MARKET_LIVE_NATS_STREAM *)
Definition DEFAULT_MARKET_LIVE_NATS_STREAM : string := "MARKET_LIVE".
(* rust: src/live.rs DEFAULT_MARKET_LIVE_NATS_SUBJECT_PREFIX *)
Definition DEFAULT_MARKET_LIVE_NATS_SUBJECT_PREFIX : string := "market_live_tick.created".

(** ** Numbers *)

(** The message of a failed [parse::<int>()], digit by digit as the library reads. *)
Fixpoint digits_error (t : int_ty) (neg : bool) (acc : Z) (l : list ascii) : string :=
  match l with
  | [] => ""
  | a :: l =>
      if negb (is_digit a) then "invalid digit found in string" else
      let acc := if neg then acc * 10 - digit_val a else acc * 10 + digit_val a in
      if in_rangeb t acc then digits_error t neg acc l
      else if neg then "number too small to fit in target type"
      else "number too large to fit in target type"
  end.

Definition parse_int_error (t : int_ty) (s : string) : string :=
  match bytes s with
  | [] => "cannot parse integer from empty string"
  | [a] => if is_digit a then "" else "invalid digit found in string"
  | a :: l =>
      if Ascii.eqb a "+" then digits_error t false 0 l
      else if Ascii.eqb a "-" && (int_min t <? 0) then digits_error t true 0 l
      else digits_error t false 0 (a :: l)
  end.

(** [parse_positive_i64], [parse_positive_u64], [parse_positive_usize] and
    [parse_positive_u16] with the name of the option in their messages. *)
(* rust: src/args/parse.rs parse_positive_u64 *)
Definition parse_positive_named (t : int_ty) (value name : string) : result string Z :=
  parsed ← ok_or (parse_int t value) (name ++ " must be a positive integer")%string;
  if parsed <=? 0 then Err (name ++ " must be positive")%string else Ok parsed.

(** ** Live publication and buckets *)

(* rust: src/args/validation.rs validate_nats_url *)
Definition validate_nats_url (name value : string) : result string () :=
  ensure (starts_with "nats://" value) (name ++ " must start with nats://")%string.

(** [value.contains(char::is_whitespace)] *)
Fixpoint has_whitespace (l : list ascii) : bool :=
  match l with
  | [] => false
  | a :: l1 =>
      ws1 a
      || match l1 with
         | b :: l2 => ws2 a b || match l2 with c :: _ => ws3 a b c | [] => false end
         | [] => false
         end
      || has_whitespace l1
  end.

(* rust: src/args/validation.rs validate_non_empty_token *)
Definition validate_non_empty_token (name value : string) : result string () :=
  if str_is_empty (trim value) then Err (name ++ " must not be empty")%string
  else if has_whitespace (bytes value) then Err (name ++ " must not contain whitespace")%string
  else Ok ().

(* rust: src/args/validation.rs validate_subject_prefix *)
Definition validate_subject_prefix (name value : string) : result string () :=
  _ ← validate_non_empty_token name value;
  if ends_with "." value then Err (name ++ " must not end with '.'")%string else Ok ().

(** The three checks of the live settings, when a server is given. *)
Definition validate_live (url : option string) (stream subject_prefix : string) : result string () :=
  match url with
  | Some url =>
      _ ← validate_nats_url "--live-nats-url" url;
      _ ← validate_non_empty_token "--live-nats-stream" stream;
      validate_subject_prefix "--live-nats-subject-prefix" subject_prefix
  | None => Ok ()
  end.

(** [s.split(',').map(trim).filter(non-empty)] *)
Definition split_list (s : string) : list string :=
  List.filter (fun p => negb (str_is_empty p)) (map trim (split_char "," s)).

(** ** The loop over the options *)

Section parser.
Context {P E : Type}.
(** An option without a value, and one with a value: the argument after it, if any. *)
Context (flag : string -> P -> option P) (option_ : string -> option string -> P -> result E P).

(** [None] is a request for help. *)
Fixpoint cli_loop (argv : list string) (p : P) : result E (option P) :=
  match argv with
  | [] => Ok (Some p)
  | name :: rest =>
      if String.eqb name "-h" || String.eqb name "--help" then Ok None else
      match flag name p with
      | Some p => cli_loop rest p
      | None =>
          match rest with
          | [] => p ← option_ name None p; Ok (Some p)
          | value :: rest => p ← option_ name (Some value) p; cli_loop rest p
          end
      end
  end.

Definition known (name : string) : Prop := String.eqb name "-h" || String.eqb name "--help" = false.

Lemma step_value name value rest p p' : known name -> flag name p = None ->
  option_ name (Some value) p = Ok p' -> cli_loop (name :: value :: rest) p = cli_loop rest p'.
Proof. unfold known. intros Hh Hf Ho. cbn [cli_loop]. by rewrite Hh, Hf, Ho. Qed.

Lemma step_flag name rest p p' : known name -> flag name p = Some p' ->
  cli_loop (name :: rest) p = cli_loop rest p'.
Proof. unfold known. intros Hh Hf. cbn [cli_loop]. by rewrite Hh, Hf. Qed.

(** A value the option refuses ends the loop. *)
Lemma step_error name value rest p e : known name -> flag name p = None ->
  option_ name (Some value) p = Err e -> cli_loop (name :: value :: rest) p = Err e.
Proof. unfold known. intros Hh Hf Ho. cbn [cli_loop]. by rewrite Hh, Hf, Ho. Qed.

(** An invariant of the settings. *)
Lemma cli_loop_keeps (I : P -> Prop) argv p q :
  (forall name p p', flag name p = Some p' -> I p -> I p') ->
  (forall name v p p', option_ name v p = Ok p' -> I p -> I p') ->
  I p -> cli_loop argv p = Ok (Some q) -> I q.
Proof.
  intros Hf Ho. revert argv p. fix rec 1. intros [|name rest] p Hp; cbn [cli_loop].
  { intros H. injection H as H. by rewrite <- H. }
  destruct (_ || _); [done|]. destruct (flag name p) as [p'|] eqn:Ef; [apply rec; by eapply Hf|].
  destruct rest as [|value rest].
  - destruct (option_ name None p) as [p'|] eqn:Eo; [|done]. intros H. injection H as H.
    rewrite <- H. by eapply Ho.
  - destruct (option_ name (Some value) p) as [p'|] eqn:Eo; [|done]. apply rec. by eapply Ho.
Qed.
End parser.

Lemma show_positive t z : in_range t z -> 0 < z -> forall name,
  parse_positive_named t (show_Z z) name = Ok z.
Proof.
  intros Hr Hz name. unfold parse_positive_named. rewrite parse_show_Z by done. cbn.
  destruct (Z.leb_spec z 0); [lia|done].
Qed.

(** ** Lists of values *)

(** A value of a comma separated list. *)
Definition item (s : string) : Prop := s <> ""%string /\ trimmed s /\ ~ In ","%char (bytes s).

Lemma split_list_items v : Forall item (split_list v).
Proof.
  unfold split_list. apply Forall_forall. intros s [Hs Hne]%list_elem_of_In%List.filter_In.
  apply List.in_map_iff in Hs as (p & <- & Hp%list_elem_of_In). split_and!.
  - intros He. by rewrite He in Hne.
  - apply trim_trimmed.
  - intros H%trim_bytes. by apply (proj1 (Forall_forall _ _) (split_char_without "," v) p Hp).
Qed.

Lemma item_upper s : item s -> item (to_ascii_uppercase s).
Proof.
  intros (Hne & Ht & Hc). split_and!; [by destruct s|by apply trimmed_upper|].
  unfold to_ascii_uppercase, map_str. rewrite bytes_of_bytes. intros (a & Ha & Hin)%List.in_map_iff.
  apply Hc. replace ","%char with a; [done|]. revert Ha. clear. unfold to_upper.
  destruct (is_ascii_lower a) eqn:E; [|done]. intros Ha. exfalso.
  pose proof (byte_val_upper a) as Hv. unfold to_upper in Hv. rewrite E, Ha in Hv.
  unfold is_ascii_lower in E. change (byte_val ",") with 44 in Hv. lia.
Qed.

(** Items joined by commas are read back. *)
Lemma split_list_join l : l <> [] -> Forall item l -> split_list (Text.join "," l) = l.
Proof.
  intros Hl Hi. unfold split_list. rewrite split_char_join_back; [|done|].
  - rewrite (map_ext_in trim id), List.map_id.
    + apply filter_all. intros s Hs%list_elem_of_In.
      apply (proj1 (Forall_forall _ _) Hi) in Hs as (Hne & _). by destruct s.
    + intros s Hs%list_elem_of_In. apply trimmed_trim. by apply (proj1 (Forall_forall _ _) Hi).
  - eapply Forall_impl; [exact Hi|]. by intros s (_ & _ & Hc).
Qed.
