(* ===== verification/LogStream.v ===== *)
(** * LogStream: the structured log

    [log_stream.rs]: levels, the threshold of [MARKET_INGEST_LOG_LEVEL], the envelope of a
    line and the stream it goes to.  The JSON text is the format of [Wire]. *)
From S2P Require Import Prelude Text Wire Cli.
Open Scope Z_scope.

(* rust: src/log_stream.rs APP_NAME *)
Definition APP_NAME : string := "market-ingest-app".
(* rust: src/log_stream.rs SCHEMA_VERSION *)
Definition SCHEMA_VERSION : string := "market_ingest_log_v1".
(* rust: src/log_stream.rs LOG_LEVEL_ENV *)
Definition LOG_LEVEL_ENV : string := "MARKET_INGEST_LOG_LEVEL".

(* rust: src/log_stream.rs Level *)
Inductive Level := LDebug | LInfo | LWarn | LError.

(** The derived order. *)
Definition severity (l : Level) : Z := match l with LDebug => 0 | LInfo => 1 | LWarn => 2 | LError => 3 end.

(* rust: src/log_stream.rs parse_level *)
Definition parse_level (value : string) : option Level :=
  let v := to_ascii_lowercase (trim value) in
  if String.eqb v "debug" then Some LDebug else if String.eqb v "info" then Some LInfo else
  if String.eqb v "warn" || String.eqb v "warning" then Some LWarn else
  if String.eqb v "error" then Some LError else None.

(* rust: src/log_stream.rs level_name *)
Definition level_name (l : Level) : string :=
  match l with LDebug => "debug" | LInfo => "info" | LWarn => "warn" | LError => "error" end.

(** The two streams of a process. *)
Inductive Stream := Stdout | Stderr.

Section log.
Context {E : Environment} {V : Type} {D : DataFormat V}.

(* rust: src/log_stream.rs configured_min_level *)
Definition configured_min_level : Level := default LInfo (value ← env_var LOG_LEVEL_ENV; parse_level value).

(* rust: src/log_stream.rs should_emit *)
Definition should_emit (l : Level) : bool := severity configured_min_level <=? severity l.

(** A map; the order of its keys is the map's own. *)
(* rust: src/log_stream.rs envelope *)
Definition envelope (now_ms_u64 : Z) (l : Level) (event : string) (fields : V) : V :=
  v_map [("schema_version", v_str SCHEMA_VERSION); ("app", v_str APP_NAME); ("level", v_str (level_name l));
         ("event", v_str event); ("timestamp_ms", v_int now_ms_u64); ("fields", fields)]%string.

(** What is written where; [fields] is the outcome of serializing them. *)
(* rust: src/log_stream.rs emit *)
Definition emit (now_ms_u64 : Z) (l : Level) (event : string) (fields : result string V)
    : result string (option (Stream * V)) :=
  if negb (should_emit l) then Ok None else
  fields ← fields;
  let output := envelope now_ms_u64 l event fields in
  Ok (Some (match l with LWarn | LError => Stderr | LDebug | LInfo => Stdout end, output)).

(* rust: src/log_stream.rs debug *)
Definition debug now event fields := emit now LDebug event fields.
(* rust: src/log_stream.rs info *)
Definition info now event fields := emit now LInfo event fields.
(* rust: src/log_stream.rs warn *)
Definition warn now event fields := emit now LWarn event fields.
(* rust: src/log_stream.rs error *)
Definition error now event fields := emit now LError event fields.

Lemma errors_are_written : should_emit LError = true.
Proof. unfold should_emit. by destruct configured_min_level. Qed.

Lemma level_name_parses (l : Level) : parse_level (level_name l) = Some l.
Proof. by destruct l. Qed.

Context {FL : FormatLaws V}.

(** A line is written exactly when its level reaches the threshold, with its level, event
    and payload; warnings and errors go to stderr.  An error is written whatever the
    environment says, and a line below the threshold does not fail over its payload. *)
Theorem emit_spec (now : Z) (l : Level) (event : string) (fields : V) :
  (should_emit l = false -> forall failing, emit now l event failing = Ok None) /\
  (should_emit l = true -> exists line,
     emit now l event (Ok fields) = Ok (Some (if 2 <=? severity l then Stderr else Stdout, line)) /\
     d_field "level" line = Some (v_str (level_name l)) /\ d_field "event" line = Some (v_str event) /\
     d_field "fields" line = Some fields) /\
  should_emit LError = true.
Proof.
  split_and!.
  - intros H failing. unfold emit. by rewrite H.
  - intros H. unfold emit. rewrite H. cbn [negb mbind result_bind]. eexists. split; [by destruct l|].
    unfold envelope. rewrite !field_back by (cbn; vm_decide). by cbn.
  - apply errors_are_written.
Qed.
End log.

#[local] Instance warn_only : Environment :=
  {| env_var := fun name => if String.eqb name LOG_LEVEL_ENV then Some " Warning "%string else None |}.

Lemma emit_spec_witness :
  emit (V := Tree) 5 LInfo "quiet" (Err "unserializable"%string) = Ok None /\ should_emit LWarn = true.
Proof.
  split; [|by vm_compute]. apply (emit_spec (V := Tree) 5 LInfo "quiet" TNull). by vm_compute.
Defined.
