(* ===== verification/NormalizeArgs.v ===== *)
(** * NormalizeArgs: the arguments of the L1 normalizer

    [normalize/args]: the option parser and its validation.  The theorem gives the
    facts about parsed arguments that the planning theorems of [L1Window] use. *)
From S2P Require Import Prelude Text Cli.
Open Scope Z_scope.

(* rust: src/normalize/args/types.rs InputRange *)
Record InputRange := mkRange { ir_start_ms : Z; ir_end_ms : Z }.

#[export] Instance InputRange_eq_dec : EqDecision InputRange.
Proof. solve_decision. Defined.

(* rust: src/normalize/args/types.rs NormalizeArgs *)
Record NormalizeArgs := mkNArgs {
  na_l0_s3_bucket : string;
  na_l0_local_root : string;
  na_l1_s3_bucket : string;
  na_aws_profile : option string;
  na_aws_region : string;
  na_input_start_ms : option Z;
  na_input_end_ms : option Z;
  na_schedule_interval_ms : Z;
  na_window_ms : Z;
  na_scan_margin_ms : Z;
  na_projection_lookback_ms : Z;
  na_watermark_delay_ms : Z;
  na_clock_skew_margin_ms : Z;
  na_max_latency_ms : Z;
  na_l0_run_key_overlap_ms : Z;
  na_spool_root : string;
  na_catchup_tmp_root : string;
  na_preflight : bool;
  na_audit_l1_index_start_ms : option Z;
  na_audit_l1_index_end_ms : option Z;
  na_max_windows_per_tick : Z;
  na_live_priority : bool;
  na_live_priority_only : bool;
  na_live_priority_lag_threshold_ms : Z;
  na_s3_retention_enabled : bool;
  na_l0_s3_retention_days : Z;
  na_l1_s3_retention_days : Z;
  na_s3_retention_check_interval_secs : Z;
  na_s3_retention_max_deletes_per_run : Z;
  na_l1_index_upload_concurrency : Z;
}.

Definition set_na_l0_s3_bucket (v : string) (s : NormalizeArgs) : NormalizeArgs :=
  mkNArgs v (na_l0_local_root s) (na_l1_s3_bucket s) (na_aws_profile s) (na_aws_region s) (na_input_start_ms s) (na_input_end_ms s) (na_schedule_interval_ms s) (na_window_ms s) (na_scan_margin_ms s) (na_projection_lookback_ms s) (na_watermark_delay_ms s) (na_clock_skew_margin_ms s) (na_max_latency_ms s) (na_l0_run_key_overlap_ms s) (na_spool_root s) (na_catchup_tmp_root s) (na_preflight s) (na_audit_l1_index_start_ms s) (na_audit_l1_index_end_ms s) (na_max_windows_per_tick s) (na_live_priority s) (na_live_priority_only s) (na_live_priority_lag_threshold_ms s) (na_s3_retention_enabled s) (na_l0_s3_retention_days s) (na_l1_s3_retention_days s) (na_s3_retention_check_interval_secs s) (na_s3_retention_max_deletes_per_run s) (na_l1_index_upload_concurrency s).
Definition set_na_l0_local_root (v : string) (s : NormalizeArgs) : NormalizeArgs :=
  mkNArgs (na_l0_s3_bucket s) v (na_l1_s3_bucket s) (na_aws_profile s) (na_aws_region s) (na_input_start_ms s) (na_input_end_ms s) (na_schedule_interval_ms s) (na_window_ms s) (na_scan_margin_ms s) (na_projection_lookback_ms s) (na_watermark_delay_ms s) (na_clock_skew_margin_ms s) (na_max_latency_ms s) (na_l0_run_key_overlap_ms s) (na_spool_root s) (na_catchup_tmp_root s) (na_preflight s) (na_audit_l1_index_start_ms s) (na_audit_l1_index_end_ms s) (na_max_windows_per_tick s) (na_live_priority s) (na_live_priority_only s) (na_live_priority_lag_threshold_ms s) (na_s3_retention_enabled s) (na_l0_s3_retention_days s) (na_l1_s3_retention_days s) (na_s3_retention_check_interval_secs s) (na_s3_retention_max_deletes_per_run s) (na_l1_index_upload_concurrency s).
Definition set_na_l1_s3_bucket (v : string) (s : NormalizeArgs) : NormalizeArgs :=
  mkNArgs (na_l0_s3_bucket s) (na_l0_local_root s) v (na_aws_profile s) (na_aws_region s) (na_input_start_ms s) (na_input_end_ms s) (na_schedule_interval_ms s) (na_window_ms s) (na_scan_margin_ms s) (na_projection_lookback_ms s) (na_watermark_delay_ms s) (na_clock_skew_margin_ms s) (na_max_latency_ms s) (na_l0_run_key_overlap_ms s) (na_spool_root s) (na_catchup_tmp_root s) (na_preflight s) (na_audit_l1_index_start_ms s) (na_audit_l1_index_end_ms s) (na_max_windows_per_tick s) (na_live_priority s) (na_live_priority_only s) (na_live_priority_lag_threshold_ms s) (na_s3_retention_enabled s) (na_l0_s3_retention_days s) (na_l1_s3_retention_days s) (na_s3_retention_check_interval_secs s) (na_s3_retention_max_deletes_per_run s) (na_l1_index_upload_concurrency s).
Definition set_na_aws_profile (v : option string) (s : NormalizeArgs) : NormalizeArgs :=
  mkNArgs (na_l0_s3_bucket s) (na_l0_local_root s) (na_l1_s3_bucket s) v (na_aws_region s) (na_input_start_ms s) (na_input_end_ms s) (na_schedule_interval_ms s) (na_window_ms s) (na_scan_margin_ms s) (na_projection_lookback_ms s) (na_watermark_delay_ms s) (na_clock_skew_margin_ms s) (na_max_latency_ms s) (na_l0_run_key_overlap_ms s) (na_spool_root s) (na_catchup_tmp_root s) (na_preflight s) (na_audit_l1_index_start_ms s) (na_audit_l1_index_end_ms s) (na_max_windows_per_tick s) (na_live_priority s) (na_live_priority_only s) (na_live_priority_lag_threshold_ms s) (na_s3_retention_enabled s) (na_l0_s3_retention_days s) (na_l1_s3_retention_days s) (na_s3_retention_check_interval_secs s) (na_s3_retention_max_deletes_per_run s) (na_l1_index_upload_concurrency s).
Definition set_na_aws_region (v : string) (s : NormalizeArgs) : NormalizeArgs :=
  mkNArgs (na_l0_s3_bucket s) (na_l0_local_root s) (na_l1_s3_bucket s) (na_aws_profile s) v (na_input_start_ms s) (na_input_end_ms s) (na_schedule_interval_ms s) (na_window_ms s) (na_scan_margin_ms s) (na_projection_lookback_ms s) (na_watermark_delay_ms s) (na_clock_skew_margin_ms s) (na_max_latency_ms s) (na_l0_run_key_overlap_ms s) (na_spool_root s) (na_catchup_tmp_root s) (na_preflight s) (na_audit_l1_index_start_ms s) (na_audit_l1_index_end_ms s) (na_max_windows_per_tick s) (na_live_priority s) (na_live_priority_only s) (na_live_priority_lag_threshold_ms s) (na_s3_retention_enabled s) (na_l0_s3_retention_days s) (na_l1_s3_retention_days s) (na_s3_retention_check_interval_secs s) (na_s3_retention_max_deletes_per_run s) (na_l1_index_upload_concurrency s).
Definition set_na_input_start_ms (v : option Z) (s : NormalizeArgs) : NormalizeArgs :=
  mkNArgs (na_l0_s3_bucket s) (na_l0_local_root s) (na_l1_s3_bucket s) (na_aws_profile s) (na_aws_region s) v (na_input_end_ms s) (na_schedule_interval_ms s) (na_window_ms s) (na_scan_margin_ms s) (na_projection_lookback_ms s) (na_watermark_delay_ms s) (na_clock_skew_margin_ms s) (na_max_latency_ms s) (na_l0_run_key_overlap_ms s) (na_spool_root s) (na_catchup_tmp_root s) (na_preflight s) (na_audit_l1_index_start_ms s) (na_audit_l1_index_end_ms s) (na_max_windows_per_tick s) (na_live_priority s) (na_live_priority_only s) (na_live_priority_lag_threshold_ms s) (na_s3_retention_enabled s) (na_l0_s3_retention_days s) (na_l1_s3_retention_days s) (na_s3_retention_check_interval_secs s) (na_s3_retention_max_deletes_per_run s) (na_l1_index_upload_concurrency s).
Definition set_na_input_end_ms (v : option Z) (s : NormalizeArgs) : NormalizeArgs :=
  mkNArgs (na_l0_s3_bucket s) (na_l0_local_root s) (na_l1_s3_bucket s) (na_aws_profile s) (na_aws_region s) (na_input_start_ms s) v (na_schedule_interval_ms s) (na_window_ms s) (na_scan_margin_ms s) (na_projection_lookback_ms s) (na_watermark_delay_ms s) (na_clock_skew_margin_ms s) (na_max_latency_ms s) (na_l0_run_key_overlap_ms s) (na_spool_root s) (na_catchup_tmp_root s) (na_preflight s) (na_audit_l1_index_start_ms s) (na_audit_l1_index_end_ms s) (na_max_windows_per_tick s) (na_live_priority s) (na_live_priority_only s) (na_live_priority_lag_threshold_ms s) (na_s3_retention_enabled s) (na_l0_s3_retention_days s) (na_l1_s3_retention_days s) (na_s3_retention_check_interval_secs s) (na_s3_retention_max_deletes_per_run s) (na_l1_index_upload_concurrency s).
Definition set_na_schedule_interval_ms (v : Z) (s : NormalizeArgs) : NormalizeArgs :=
  mkNArgs (na_l0_s3_bucket s) (na_l0_local_root s) (na_l1_s3_bucket s) (na_aws_profile s) (na_aws_region s) (na_input_start_ms s) (na_input_end_ms s) v (na_window_ms s) (na_scan_margin_ms s) (na_projection_lookback_ms s) (na_watermark_delay_ms s) (na_clock_skew_margin_ms s) (na_max_latency_ms s) (na_l0_run_key_overlap_ms s) (na_spool_root s) (na_catchup_tmp_root s) (na_preflight s) (na_audit_l1_index_start_ms s) (na_audit_l1_index_end_ms s) (na_max_windows_per_tick s) (na_live_priority s) (na_live_priority_only s) (na_live_priority_lag_threshold_ms s) (na_s3_retention_enabled s) (na_l0_s3_retention_days s) (na_l1_s3_retention_days s) (na_s3_retention_check_interval_secs s) (na_s3_retention_max_deletes_per_run s) (na_l1_index_upload_concurrency s).
Definition set_na_window_ms (v : Z) (s : NormalizeArgs) : NormalizeArgs :=
  mkNArgs (na_l0_s3_bucket s) (na_l0_local_root s) (na_l1_s3_bucket s) (na_aws_profile s) (na_aws_region s) (na_input_start_ms s) (na_input_end_ms s) (na_schedule_interval_ms s) v (na_scan_margin_ms s) (na_projection_lookback_ms s) (na_watermark_delay_ms s) (na_clock_skew_margin_ms s) (na_max_latency_ms s) (na_l0_run_key_overlap_ms s) (na_spool_root s) (na_catchup_tmp_root s) (na_preflight s) (na_audit_l1_index_start_ms s) (na_audit_l1_index_end_ms s) (na_max_windows_per_tick s) (na_live_priority s) (na_live_priority_only s) (na_live_priority_lag_threshold_ms s) (na_s3_retention_enabled s) (na_l0_s3_retention_days s) (na_l1_s3_retention_days s) (na_s3_retention_check_interval_secs s) (na_s3_retention_max_deletes_per_run s) (na_l1_index_upload_concurrency s).
Definition set_na_scan_margin_ms (v : Z) (s : NormalizeArgs) : NormalizeArgs :=
  mkNArgs (na_l0_s3_bucket s) (na_l0_local_root s) (na_l1_s3_bucket s) (na_aws_profile s) (na_aws_region s) (na_input_start_ms s) (na_input_end_ms s) (na_schedule_interval_ms s) (na_window_ms s) v (na_projection_lookback_ms s) (na_watermark_delay_ms s) (na_clock_skew_margin_ms s) (na_max_latency_ms s) (na_l0_run_key_overlap_ms s) (na_spool_root s) (na_catchup_tmp_root s) (na_preflight s) (na_audit_l1_index_start_ms s) (na_audit_l1_index_end_ms s) (na_max_windows_per_tick s) (na_live_priority s) (na_live_priority_only s) (na_live_priority_lag_threshold_ms s) (na_s3_retention_enabled s) (na_l0_s3_retention_days s) (na_l1_s3_retention_days s) (na_s3_retention_check_interval_secs s) (na_s3_retention_max_deletes_per_run s) (na_l1_index_upload_concurrency s).
Definition set_na_projection_lookback_ms (v : Z) (s : NormalizeArgs) : NormalizeArgs :=
  mkNArgs (na_l0_s3_bucket s) (na_l0_local_root s) (na_l1_s3_bucket s) (na_aws_profile s) (na_aws_region s) (na_input_start_ms s) (na_input_end_ms s) (na_schedule_interval_ms s) (na_window_ms s) (na_scan_margin_ms s) v (na_watermark_delay_ms s) (na_clock_skew_margin_ms s) (na_max_latency_ms s) (na_l0_run_key_overlap_ms s) (na_spool_root s) (na_catchup_tmp_root s) (na_preflight s) (na_audit_l1_index_start_ms s) (na_audit_l1_index_end_ms s) (na_max_windows_per_tick s) (na_live_priority s) (na_live_priority_only s) (na_live_priority_lag_threshold_ms s) (na_s3_retention_enabled s) (na_l0_s3_retention_days s) (na_l1_s3_retention_days s) (na_s3_retention_check_interval_secs s) (na_s3_retention_max_deletes_per_run s) (na_l1_index_upload_concurrency s).
Definition set_na_watermark_delay_ms (v : Z) (s : NormalizeArgs) : NormalizeArgs :=
  mkNArgs (na_l0_s3_bucket s) (na_l0_local_root s) (na_l1_s3_bucket s) (na_aws_profile s) (na_aws_region s) (na_input_start_ms s) (na_input_end_ms s) (na_schedule_interval_ms s) (na_window_ms s) (na_scan_margin_ms s) (na_projection_lookback_ms s) v (na_clock_skew_margin_ms s) (na_max_latency_ms s) (na_l0_run_key_overlap_ms s) (na_spool_root s) (na_catchup_tmp_root s) (na_preflight s) (na_audit_l1_index_start_ms s) (na_audit_l1_index_end_ms s) (na_max_windows_per_tick s) (na_live_priority s) (na_live_priority_only s) (na_live_priority_lag_threshold_ms s) (na_s3_retention_enabled s) (na_l0_s3_retention_days s) (na_l1_s3_retention_days s) (na_s3_retention_check_interval_secs s) (na_s3_retention_max_deletes_per_run s) (na_l1_index_upload_concurrency s).
Definition set_na_clock_skew_margin_ms (v : Z) (s : NormalizeArgs) : NormalizeArgs :=
  mkNArgs (na_l0_s3_bucket s) (na_l0_local_root s) (na_l1_s3_bucket s) (na_aws_profile s) (na_aws_region s) (na_input_start_ms s) (na_input_end_ms s) (na_schedule_interval_ms s) (na_window_ms s) (na_scan_margin_ms s) (na_projection_lookback_ms s) (na_watermark_delay_ms s) v (na_max_latency_ms s) (na_l0_run_key_overlap_ms s) (na_spool_root s) (na_catchup_tmp_root s) (na_preflight s) (na_audit_l1_index_start_ms s) (na_audit_l1_index_end_ms s) (na_max_windows_per_tick s) (na_live_priority s) (na_live_priority_only s) (na_live_priority_lag_threshold_ms s) (na_s3_retention_enabled s) (na_l0_s3_retention_days s) (na_l1_s3_retention_days s) (na_s3_retention_check_interval_secs s) (na_s3_retention_max_deletes_per_run s) (na_l1_index_upload_concurrency s).
Definition set_na_max_latency_ms (v : Z) (s : NormalizeArgs) : NormalizeArgs :=
  mkNArgs (na_l0_s3_bucket s) (na_l0_local_root s) (na_l1_s3_bucket s) (na_aws_profile s) (na_aws_region s) (na_input_start_ms s) (na_input_end_ms s) (na_schedule_interval_ms s) (na_window_ms s) (na_scan_margin_ms s) (na_projection_lookback_ms s) (na_watermark_delay_ms s) (na_clock_skew_margin_ms s) v (na_l0_run_key_overlap_ms s) (na_spool_root s) (na_catchup_tmp_root s) (na_preflight s) (na_audit_l1_index_start_ms s) (na_audit_l1_index_end_ms s) (na_max_windows_per_tick s) (na_live_priority s) (na_live_priority_only s) (na_live_priority_lag_threshold_ms s) (na_s3_retention_enabled s) (na_l0_s3_retention_days s) (na_l1_s3_retention_days s) (na_s3_retention_check_interval_secs s) (na_s3_retention_max_deletes_per_run s) (na_l1_index_upload_concurrency s).
Definition set_na_l0_run_key_overlap_ms (v : Z) (s : NormalizeArgs) : NormalizeArgs :=
  mkNArgs (na_l0_s3_bucket s) (na_l0_local_root s) (na_l1_s3_bucket s) (na_aws_profile s) (na_aws_region s) (na_input_start_ms s) (na_input_end_ms s) (na_schedule_interval_ms s) (na_window_ms s) (na_scan_margin_ms s) (na_projection_lookback_ms s) (na_watermark_delay_ms s) (na_clock_skew_margin_ms s) (na_max_latency_ms s) v (na_spool_root s) (na_catchup_tmp_root s) (na_preflight s) (na_audit_l1_index_start_ms s) (na_audit_l1_index_end_ms s) (na_max_windows_per_tick s) (na_live_priority s) (na_live_priority_only s) (na_live_priority_lag_threshold_ms s) (na_s3_retention_enabled s) (na_l0_s3_retention_days s) (na_l1_s3_retention_days s) (na_s3_retention_check_interval_secs s) (na_s3_retention_max_deletes_per_run s) (na_l1_index_upload_concurrency s).
Definition set_na_spool_root (v : string) (s : NormalizeArgs) : NormalizeArgs :=
  mkNArgs (na_l0_s3_bucket s) (na_l0_local_root s) (na_l1_s3_bucket s) (na_aws_profile s) (na_aws_region s) (na_input_start_ms s) (na_input_end_ms s) (na_schedule_interval_ms s) (na_window_ms s) (na_scan_margin_ms s) (na_projection_lookback_ms s) (na_watermark_delay_ms s) (na_clock_skew_margin_ms s) (na_max_latency_ms s) (na_l0_run_key_overlap_ms s) v (na_catchup_tmp_root s) (na_preflight s) (na_audit_l1_index_start_ms s) (na_audit_l1_index_end_ms s) (na_max_windows_per_tick s) (na_live_priority s) (na_live_priority_only s) (na_live_priority_lag_threshold_ms s) (na_s3_retention_enabled s) (na_l0_s3_retention_days s) (na_l1_s3_retention_days s) (na_s3_retention_check_interval_secs s) (na_s3_retention_max_deletes_per_run s) (na_l1_index_upload_concurrency s).
Definition set_na_catchup_tmp_root (v : string) (s : NormalizeArgs) : NormalizeArgs :=
  mkNArgs (na_l0_s3_bucket s) (na_l0_local_root s) (na_l1_s3_bucket s) (na_aws_profile s) (na_aws_region s) (na_input_start_ms s) (na_input_end_ms s) (na_schedule_interval_ms s) (na_window_ms s) (na_scan_margin_ms s) (na_projection_lookback_ms s) (na_watermark_delay_ms s) (na_clock_skew_margin_ms s) (na_max_latency_ms s) (na_l0_run_key_overlap_ms s) (na_spool_root s) v (na_preflight s) (na_audit_l1_index_start_ms s) (na_audit_l1_index_end_ms s) (na_max_windows_per_tick s) (na_live_priority s) (na_live_priority_only s) (na_live_priority_lag_threshold_ms s) (na_s3_retention_enabled s) (na_l0_s3_retention_days s) (na_l1_s3_retention_days s) (na_s3_retention_check_interval_secs s) (na_s3_retention_max_deletes_per_run s) (na_l1_index_upload_concurrency s).
Definition set_na_preflight (v : bool) (s : NormalizeArgs) : NormalizeArgs :=
  mkNArgs (na_l0_s3_bucket s) (na_l0_local_root s) (na_l1_s3_bucket s) (na_aws_profile s) (na_aws_region s) (na_input_start_ms s) (na_input_end_ms s) (na_schedule_interval_ms s) (na_window_ms s) (na_scan_margin_ms s) (na_projection_lookback_ms s) (na_watermark_delay_ms s) (na_clock_skew_margin_ms s) (na_max_latency_ms s) (na_l0_run_key_overlap_ms s) (na_spool_root s) (na_catchup_tmp_root s) v (na_audit_l1_index_start_ms s) (na_audit_l1_index_end_ms s) (na_max_windows_per_tick s) (na_live_priority s) (na_live_priority_only s) (na_live_priority_lag_threshold_ms s) (na_s3_retention_enabled s) (na_l0_s3_retention_days s) (na_l1_s3_retention_days s) (na_s3_retention_check_interval_secs s) (na_s3_retention_max_deletes_per_run s) (na_l1_index_upload_concurrency s).
Definition set_na_audit_l1_index_start_ms (v : option Z) (s : NormalizeArgs) : NormalizeArgs :=
  mkNArgs (na_l0_s3_bucket s) (na_l0_local_root s) (na_l1_s3_bucket s) (na_aws_profile s) (na_aws_region s) (na_input_start_ms s) (na_input_end_ms s) (na_schedule_interval_ms s) (na_window_ms s) (na_scan_margin_ms s) (na_projection_lookback_ms s) (na_watermark_delay_ms s) (na_clock_skew_margin_ms s) (na_max_latency_ms s) (na_l0_run_key_overlap_ms s) (na_spool_root s) (na_catchup_tmp_root s) (na_preflight s) v (na_audit_l1_index_end_ms s) (na_max_windows_per_tick s) (na_live_priority s) (na_live_priority_only s) (na_live_priority_lag_threshold_ms s) (na_s3_retention_enabled s) (na_l0_s3_retention_days s) (na_l1_s3_retention_days s) (na_s3_retention_check_interval_secs s) (na_s3_retention_max_deletes_per_run s) (na_l1_index_upload_concurrency s).
Definition set_na_audit_l1_index_end_ms (v : option Z) (s : NormalizeArgs) : NormalizeArgs :=
  mkNArgs (na_l0_s3_bucket s) (na_l0_local_root s) (na_l1_s3_bucket s) (na_aws_profile s) (na_aws_region s) (na_input_start_ms s) (na_input_end_ms s) (na_schedule_interval_ms s) (na_window_ms s) (na_scan_margin_ms s) (na_projection_lookback_ms s) (na_watermark_delay_ms s) (na_clock_skew_margin_ms s) (na_max_latency_ms s) (na_l0_run_key_overlap_ms s) (na_spool_root s) (na_catchup_tmp_root s) (na_preflight s) (na_audit_l1_index_start_ms s) v (na_max_windows_per_tick s) (na_live_priority s) (na_live_priority_only s) (na_live_priority_lag_threshold_ms s) (na_s3_retention_enabled s) (na_l0_s3_retention_days s) (na_l1_s3_retention_days s) (na_s3_retention_check_interval_secs s) (na_s3_retention_max_deletes_per_run s) (na_l1_index_upload_concurrency s).
Definition set_na_max_windows_per_tick (v : Z) (s : NormalizeArgs) : NormalizeArgs :=
  mkNArgs (na_l0_s3_bucket s) (na_l0_local_root s) (na_l1_s3_bucket s) (na_aws_profile s) (na_aws_region s) (na_input_start_ms s) (na_input_end_ms s) (na_schedule_interval_ms s) (na_window_ms s) (na_scan_margin_ms s) (na_projection_lookback_ms s) (na_watermark_delay_ms s) (na_clock_skew_margin_ms s) (na_max_latency_ms s) (na_l0_run_key_overlap_ms s) (na_spool_root s) (na_catchup_tmp_root s) (na_preflight s) (na_audit_l1_index_start_ms s) (na_audit_l1_index_end_ms s) v (na_live_priority s) (na_live_priority_only s) (na_live_priority_lag_threshold_ms s) (na_s3_retention_enabled s) (na_l0_s3_retention_days s) (na_l1_s3_retention_days s) (na_s3_retention_check_interval_secs s) (na_s3_retention_max_deletes_per_run s) (na_l1_index_upload_concurrency s).
Definition set_na_live_priority (v : bool) (s : NormalizeArgs) : NormalizeArgs :=
  mkNArgs (na_l0_s3_bucket s) (na_l0_local_root s) (na_l1_s3_bucket s) (na_aws_profile s) (na_aws_region s) (na_input_start_ms s) (na_input_end_ms s) (na_schedule_interval_ms s) (na_window_ms s) (na_scan_margin_ms s) (na_projection_lookback_ms s) (na_watermark_delay_ms s) (na_clock_skew_margin_ms s) (na_max_latency_ms s) (na_l0_run_key_overlap_ms s) (na_spool_root s) (na_catchup_tmp_root s) (na_preflight s) (na_audit_l1_index_start_ms s) (na_audit_l1_index_end_ms s) (na_max_windows_per_tick s) v (na_live_priority_only s) (na_live_priority_lag_threshold_ms s) (na_s3_retention_enabled s) (na_l0_s3_retention_days s) (na_l1_s3_retention_days s) (na_s3_retention_check_interval_secs s) (na_s3_retention_max_deletes_per_run s) (na_l1_index_upload_concurrency s).
Definition set_na_live_priority_only (v : bool) (s : NormalizeArgs) : NormalizeArgs :=
  mkNArgs (na_l0_s3_bucket s) (na_l0_local_root s) (na_l1_s3_bucket s) (na_aws_profile s) (na_aws_region s) (na_input_start_ms s) (na_input_end_ms s) (na_schedule_interval_ms s) (na_window_ms s) (na_scan_margin_ms s) (na_projection_lookback_ms s) (na_watermark_delay_ms s) (na_clock_skew_margin_ms s) (na_max_latency_ms s) (na_l0_run_key_overlap_ms s) (na_spool_root s) (na_catchup_tmp_root s) (na_preflight s) (na_audit_l1_index_start_ms s) (na_audit_l1_index_end_ms s) (na_max_windows_per_tick s) (na_live_priority s) v (na_live_priority_lag_threshold_ms s) (na_s3_retention_enabled s) (na_l0_s3_retention_days s) (na_l1_s3_retention_days s) (na_s3_retention_check_interval_secs s) (na_s3_retention_max_deletes_per_run s) (na_l1_index_upload_concurrency s).
Definition set_na_live_priority_lag_threshold_ms (v : Z) (s : NormalizeArgs) : NormalizeArgs :=
  mkNArgs (na_l0_s3_bucket s) (na_l0_local_root s) (na_l1_s3_bucket s) (na_aws_profile s) (na_aws_region s) (na_input_start_ms s) (na_input_end_ms s) (na_schedule_interval_ms s) (na_window_ms s) (na_scan_margin_ms s) (na_projection_lookback_ms s) (na_watermark_delay_ms s) (na_clock_skew_margin_ms s) (na_max_latency_ms s) (na_l0_run_key_overlap_ms s) (na_spool_root s) (na_catchup_tmp_root s) (na_preflight s) (na_audit_l1_index_start_ms s) (na_audit_l1_index_end_ms s) (na_max_windows_per_tick s) (na_live_priority s) (na_live_priority_only s) v (na_s3_retention_enabled s) (na_l0_s3_retention_days s) (na_l1_s3_retention_days s) (na_s3_retention_check_interval_secs s) (na_s3_retention_max_deletes_per_run s) (na_l1_index_upload_concurrency s).
Definition set_na_s3_retention_enabled (v : bool) (s : NormalizeArgs) : NormalizeArgs :=
  mkNArgs (na_l0_s3_bucket s) (na_l0_local_root s) (na_l1_s3_bucket s) (na_aws_profile s) (na_aws_region s) (na_input_start_ms s) (na_input_end_ms s) (na_schedule_interval_ms s) (na_window_ms s) (na_scan_margin_ms s) (na_projection_lookback_ms s) (na_watermark_delay_ms s) (na_clock_skew_margin_ms s) (na_max_latency_ms s) (na_l0_run_key_overlap_ms s) (na_spool_root s) (na_catchup_tmp_root s) (na_preflight s) (na_audit_l1_index_start_ms s) (na_audit_l1_index_end_ms s) (na_max_windows_per_tick s) (na_live_priority s) (na_live_priority_only s) (na_live_priority_lag_threshold_ms s) v (na_l0_s3_retention_days s) (na_l1_s3_retention_days s) (na_s3_retention_check_interval_secs s) (na_s3_retention_max_deletes_per_run s) (na_l1_index_upload_concurrency s).
Definition set_na_l0_s3_retention_days (v : Z) (s : NormalizeArgs) : NormalizeArgs :=
  mkNArgs (na_l0_s3_bucket s) (na_l0_local_root s) (na_l1_s3_bucket s) (na_aws_profile s) (na_aws_region s) (na_input_start_ms s) (na_input_end_ms s) (na_schedule_interval_ms s) (na_window_ms s) (na_scan_margin_ms s) (na_projection_lookback_ms s) (na_watermark_delay_ms s) (na_clock_skew_margin_ms s) (na_max_latency_ms s) (na_l0_run_key_overlap_ms s) (na_spool_root s) (na_catchup_tmp_root s) (na_preflight s) (na_audit_l1_index_start_ms s) (na_audit_l1_index_end_ms s) (na_max_windows_per_tick s) (na_live_priority s) (na_live_priority_only s) (na_live_priority_lag_threshold_ms s) (na_s3_retention_enabled s) v (na_l1_s3_retention_days s) (na_s3_retention_check_interval_secs s) (na_s3_retention_max_deletes_per_run s) (na_l1_index_upload_concurrency s).
Definition set_na_l1_s3_retention_days (v : Z) (s : NormalizeArgs) : NormalizeArgs :=
  mkNArgs (na_l0_s3_bucket s) (na_l0_local_root s) (na_l1_s3_bucket s) (na_aws_profile s) (na_aws_region s) (na_input_start_ms s) (na_input_end_ms s) (na_schedule_interval_ms s) (na_window_ms s) (na_scan_margin_ms s) (na_projection_lookback_ms s) (na_watermark_delay_ms s) (na_clock_skew_margin_ms s) (na_max_latency_ms s) (na_l0_run_key_overlap_ms s) (na_spool_root s) (na_catchup_tmp_root s) (na_preflight s) (na_audit_l1_index_start_ms s) (na_audit_l1_index_end_ms s) (na_max_windows_per_tick s) (na_live_priority s) (na_live_priority_only s) (na_live_priority_lag_threshold_ms s) (na_s3_retention_enabled s) (na_l0_s3_retention_days s) v (na_s3_retention_check_interval_secs s) (na_s3_retention_max_deletes_per_run s) (na_l1_index_upload_concurrency s).
Definition set_na_s3_retention_check_interval_secs (v : Z) (s : NormalizeArgs) : NormalizeArgs :=
  mkNArgs (na_l0_s3_bucket s) (na_l0_local_root s) (na_l1_s3_bucket s) (na_aws_profile s) (na_aws_region s) (na_input_start_ms s) (na_input_end_ms s) (na_schedule_interval_ms s) (na_window_ms s) (na_scan_margin_ms s) (na_projection_lookback_ms s) (na_watermark_delay_ms s) (na_clock_skew_margin_ms s) (na_max_latency_ms s) (na_l0_run_key_overlap_ms s) (na_spool_root s) (na_catchup_tmp_root s) (na_preflight s) (na_audit_l1_index_start_ms s) (na_audit_l1_index_end_ms s) (na_max_windows_per_tick s) (na_live_priority s) (na_live_priority_only s) (na_live_priority_lag_threshold_ms s) (na_s3_retention_enabled s) (na_l0_s3_retention_days s) (na_l1_s3_retention_days s) v (na_s3_retention_max_deletes_per_run s) (na_l1_index_upload_concurrency s).
Definition set_na_s3_retention_max_deletes_per_run (v : Z) (s : NormalizeArgs) : NormalizeArgs :=
  mkNArgs (na_l0_s3_bucket s) (na_l0_local_root s) (na_l1_s3_bucket s) (na_aws_profile s) (na_aws_region s) (na_input_start_ms s) (na_input_end_ms s) (na_schedule_interval_ms s) (na_window_ms s) (na_scan_margin_ms s) (na_projection_lookback_ms s) (na_watermark_delay_ms s) (na_clock_skew_margin_ms s) (na_max_latency_ms s) (na_l0_run_key_overlap_ms s) (na_spool_root s) (na_catchup_tmp_root s) (na_preflight s) (na_audit_l1_index_start_ms s) (na_audit_l1_index_end_ms s) (na_max_windows_per_tick s) (na_live_priority s) (na_live_priority_only s) (na_live_priority_lag_threshold_ms s) (na_s3_retention_enabled s) (na_l0_s3_retention_days s) (na_l1_s3_retention_days s) (na_s3_retention_check_interval_secs s) v (na_l1_index_upload_concurrency s).
Definition set_na_l1_index_upload_concurrency (v : Z) (s : NormalizeArgs) : NormalizeArgs :=
  mkNArgs (na_l0_s3_bucket s) (na_l0_local_root s) (na_l1_s3_bucket s) (na_aws_profile s) (na_aws_region s) (na_input_start_ms s) (na_input_end_ms s) (na_schedule_interval_ms s) (na_window_ms s) (na_scan_margin_ms s) (na_projection_lookback_ms s) (na_watermark_delay_ms s) (na_clock_skew_margin_ms s) (na_max_latency_ms s) (na_l0_run_key_overlap_ms s) (na_spool_root s) (na_catchup_tmp_root s) (na_preflight s) (na_audit_l1_index_start_ms s) (na_audit_l1_index_end_ms s) (na_max_windows_per_tick s) (na_live_priority s) (na_live_priority_only s) (na_live_priority_lag_threshold_ms s) (na_s3_retention_enabled s) (na_l0_s3_retention_days s) (na_l1_s3_retention_days s) (na_s3_retention_check_interval_secs s) (na_s3_retention_max_deletes_per_run s) v.


(* rust: src/normalize/args/types.rs with_defaults *)
Definition with_defaults : NormalizeArgs :=
  mkNArgs "" "/opt/nangman-crypto/data/spool/market-ingest/l0" "" None "ap-northeast-2" None None
    900000 1000 300000 3600000 360000 1000 1000 360000 
    "/opt/nangman-crypto/data/spool/market-ingest/l1" "/opt/nangman-crypto/data/spool/market-normalize/catchup" false None None 192 false
    false 900000 true 45 240 21600 1000 1.

(** ** Values *)

(* rust: src/normalize/args/parse.rs parse_i64_arg *)
Definition parse_i64_arg (value : option string) (name : string) : result string Z :=
  v ← ok_or value (name ++ " requires an integer")%string;
  ok_or (parse_int I64 v) (name ++ " must be an integer")%string.

(* rust: src/normalize/args/parse.rs parse_positive_i64 *)
Definition parse_positive_i64 (value : option string) (name : string) : result string Z :=
  parsed ← parse_i64_arg value name;
  if parsed <=? 0 then Err (name ++ " must be positive")%string else Ok parsed.

(** [parse_positive_u64] and [parse_positive_usize]. *)
(* rust: src/normalize/args/parse.rs parse_positive_u64 *)
Definition parse_positive (t : int_ty) (value : option string) (name : string) : result string Z :=
  v ← ok_or value (name ++ " requires a positive integer")%string;
  parsed ← ok_or (parse_int t v) (name ++ " must be a positive integer")%string;
  if parsed =? 0 then Err (name ++ " must be positive")%string else Ok parsed.

(** ** Validation *)

(* rust: src/normalize/args/validation.rs validate_real_bucket *)
Definition validate_real_bucket (name value : string) : result string () :=
  if str_is_empty (trim value) then Err (name ++ " requires a bucket")%string
  else if contains "<" value || contains ">" value
  then Err (name ++ " must be a real bucket name, not a public-doc placeholder")%string
  else Ok ().

Definition given {A} (o : option A) : bool := match o with Some _ => true | None => false end.

(* rust: src/normalize/args/validation.rs validate_parsed_args *)
Definition validate_parsed_args (p : NormalizeArgs) : result string () :=
  if str_is_empty (na_l0_s3_bucket p) then Err "--l0-s3-bucket is required"%string
  else if str_is_empty (na_l1_s3_bucket p) then Err "--l1-s3-bucket is required"%string
  else
    _ ← validate_real_bucket "--l0-s3-bucket" (na_l0_s3_bucket p);
    _ ← validate_real_bucket "--l1-s3-bucket" (na_l1_s3_bucket p);
    if na_watermark_delay_ms p <? na_scan_margin_ms p
    then Err "--watermark-delay-ms must be >= --scan-margin-ms"%string
    else if negb (Bool.eqb (given (na_input_start_ms p)) (given (na_input_end_ms p)))
    then Err "--input-start-ms and --input-end-ms must be provided together"%string
    else if negb (Bool.eqb (given (na_audit_l1_index_start_ms p)) (given (na_audit_l1_index_end_ms p)))
    then Err "--audit-l1-index-start-ms and --audit-l1-index-end-ms must be provided together"%string
    else Ok ().

(** ** The option loop *)

(** An option without a value, or [None]. *)
Definition parse_flag (name : string) (p : NormalizeArgs) : option NormalizeArgs :=
  if String.eqb name "--preflight" then Some (set_na_preflight true p)
  else if String.eqb name "--live-priority" then Some (set_na_live_priority true p)
  else if String.eqb name "--live-priority-only"
  then Some (set_na_live_priority_only true (set_na_live_priority true p))
  else if String.eqb name "--disable-s3-retention" then Some (set_na_s3_retention_enabled false p)
  else None.

(** An option with a value; [value] is the argument after it, if any. *)
Definition parse_option (name : string) (value : option string) (p : NormalizeArgs)
    : result string NormalizeArgs :=
  if String.eqb name "--l0-s3-bucket" then
    v ← ok_or value "--l0-s3-bucket requires a bucket"%string; Ok (set_na_l0_s3_bucket v p) else
  if String.eqb name "--l0-local-root" then
    v ← ok_or value "--l0-local-root requires an absolute directory path"%string; Ok (set_na_l0_local_root v p) else
  if String.eqb name "--l1-s3-bucket" then
    v ← ok_or value "--l1-s3-bucket requires a bucket"%string; Ok (set_na_l1_s3_bucket v p) else
  if String.eqb name "--aws-profile" then
    v ← ok_or value "--aws-profile requires a profile"%string; Ok (set_na_aws_profile (Some v) p) else
  if String.eqb name "--aws-region" then
    v ← ok_or value "--aws-region requires a region"%string; Ok (set_na_aws_region v p) else
  if String.eqb name "--input-start-ms" then
    v ← parse_i64_arg value name; Ok (set_na_input_start_ms (Some v) p) else
  if String.eqb name "--input-end-ms" then
    v ← parse_i64_arg value name; Ok (set_na_input_end_ms (Some v) p) else
  if String.eqb name "--schedule-interval-ms" then
    v ← parse_positive_i64 value name; Ok (set_na_schedule_interval_ms v p) else
  if String.eqb name "--window-ms" then
    v ← parse_positive_i64 value name; Ok (set_na_window_ms v p) else
  if String.eqb name "--scan-margin-ms" then
    v ← parse_positive_i64 value name; Ok (set_na_scan_margin_ms v p) else
  if String.eqb name "--projection-lookback-ms" then
    v ← parse_positive_i64 value name; Ok (set_na_projection_lookback_ms v p) else
  if String.eqb name "--watermark-delay-ms" then
    v ← parse_positive_i64 value name; Ok (set_na_watermark_delay_ms v p) else
  if String.eqb name "--clock-skew-margin-ms" then
    v ← parse_positive_i64 value name; Ok (set_na_clock_skew_margin_ms v p) else
  if String.eqb name "--max-latency-ms" then
    v ← parse_positive_i64 value name; Ok (set_na_max_latency_ms v p) else
  if String.eqb name "--l0-run-key-overlap-ms" then
    v ← parse_positive_i64 value name; Ok (set_na_l0_run_key_overlap_ms v p) else
  if String.eqb name "--spool-root" then
    v ← ok_or value "--spool-root requires an absolute directory path"%string; Ok (set_na_spool_root v p) else
  if String.eqb name "--catchup-tmp-root" then
    v ← ok_or value "--catchup-tmp-root requires an absolute directory path"%string; Ok (set_na_catchup_tmp_root v p) else
  if String.eqb name "--audit-l1-index-start-ms" then
    v ← parse_i64_arg value name; Ok (set_na_audit_l1_index_start_ms (Some v) p) else
  if String.eqb name "--audit-l1-index-end-ms" then
    v ← parse_i64_arg value name; Ok (set_na_audit_l1_index_end_ms (Some v) p) else
  if String.eqb name "--max-windows-per-tick" then
    v ← parse_positive Usize value name; Ok (set_na_max_windows_per_tick v p) else
  if String.eqb name "--max-windows-per-invocation" then
    v ← parse_positive Usize value name; Ok (set_na_max_windows_per_tick v p) else
  if String.eqb name "--live-priority-lag-threshold-ms" then
    v ← parse_positive_i64 value name; Ok (set_na_live_priority_lag_threshold_ms v p) else
  if String.eqb name "--l0-s3-retention-days" then
    v ← parse_positive_i64 value name; Ok (set_na_l0_s3_retention_days v p) else
  if String.eqb name "--l1-s3-retention-days" then
    v ← parse_positive_i64 value name; Ok (set_na_l1_s3_retention_days v p) else
  if String.eqb name "--s3-retention-check-interval-secs" then
    v ← parse_positive U64 value name; Ok (set_na_s3_retention_check_interval_secs v p) else
  if String.eqb name "--s3-retention-max-deletes-per-run" then
    v ← parse_positive Usize value name; Ok (set_na_s3_retention_max_deletes_per_run v p) else
  if String.eqb name "--l1-index-upload-concurrency" then
    v ← parse_positive Usize value name; Ok (set_na_l1_index_upload_concurrency v p) else
  if String.eqb name "--s3-retention-days" then
    d ← parse_positive_i64 value name;
    Ok (set_na_l1_s3_retention_days d (set_na_l0_s3_retention_days d p)) else
  Err ("unknown argument: " ++ name)%string.

(** [None] is a request for help. *)
Definition parse_loop : list string -> NormalizeArgs -> result string (option NormalizeArgs) :=
  cli_loop parse_flag parse_option.

(* rust: src/normalize/args/parse_cli.rs parse_args *)
Definition parse_args (argv : list string) : result string (option NormalizeArgs) :=
  parsed ← parse_loop argv with_defaults;
  match parsed with
  | None => Ok None
  | Some p => _ ← validate_parsed_args p; Ok (Some p)
  end.

(** ** What parsed arguments satisfy *)

(** The fields only positive values can set. *)
Record positive_args (p : NormalizeArgs) : Prop := {
  pa_schedule : 0 < na_schedule_interval_ms p <= int_max I64;
  pa_window : 0 < na_window_ms p <= int_max I64;
  pa_scan : 0 < na_scan_margin_ms p <= int_max I64;
  pa_lookback : 0 < na_projection_lookback_ms p <= int_max I64;
  pa_watermark : 0 < na_watermark_delay_ms p <= int_max I64;
  pa_max_windows : 0 < na_max_windows_per_tick p <= int_max Usize;
  pa_lag : 0 < na_live_priority_lag_threshold_ms p <= int_max I64;
  pa_retention : 0 < na_l0_s3_retention_days p /\ 0 < na_l1_s3_retention_days p;
}.


Lemma parse_int_in_range t s z : parse_int t s = Some z -> in_range t z.
Proof.
  unfold parse_int. destruct (bytes s) as [|a l]; [done|].
  assert (H : forall (o : option Z) (f : Z -> Z), (v ← o; checked t (f v)) = Some z -> in_range t z).
  { intros [v|] f; cbn; [|done]. intros Hc. by apply checked_Some in Hc as [-> ?]. }
  destruct (Ascii.eqb a "+"); [apply (H _ id)|].
  destruct (_ && _); [apply (H _ Z.opp)|]. apply (H _ id).
Qed.

Lemma parse_positive_i64_ok v n z : parse_positive_i64 v n = Ok z -> 0 < z <= int_max I64.
Proof.
  unfold parse_positive_i64, parse_i64_arg. destruct v as [s|]; cbn; [|done].
  destruct (parse_int I64 s) as [w|] eqn:E; cbn; [|done].
  apply parse_int_in_range in E. destruct (Z.leb_spec w 0); [done|]. intros [= <-].
  unfold in_range in E. cbn in *. lia.
Qed.

Lemma parse_positive_ok t v n z : int_min t = 0 -> parse_positive t v n = Ok z -> 0 < z <= int_max t.
Proof.
  intros Ht. unfold parse_positive. destruct v as [s|]; cbn; [|done].
  destruct (parse_int t s) as [w|] eqn:E; cbn; [|done].
  apply parse_int_in_range in E. destruct (Z.eqb_spec w 0); [done|]. intros [= <-].
  unfold in_range in E. rewrite Ht in E. lia.
Qed.

(** One option: the value parsed is stored in one field. *)
Ltac option_case H :=
  match type of H with
  | (if String.eqb ?a ?b then _ else _) = Ok _ =>
      destruct (String.eqb a b);
      [let E := fresh "Ev" in
       match type of H with mbind _ ?m = Ok _ => destruct m eqn:E; [|discriminate H] end;
       cbn [mbind result_bind] in H; injection H as <- | ]
  end.

Lemma parse_option_positive name value p q :
  positive_args p -> parse_option name value p = Ok q -> positive_args q.
Proof.
  intros [P1 P2 P3 P4 P5 P6 P7 [P8 P9]] H. unfold parse_option in H.
  repeat option_case H; try discriminate H.
  all: try (apply parse_positive_i64_ok in Ev); try (apply parse_positive_ok in Ev; [|done]).
  all: split; cbn in *; lia.
Qed.

Lemma parse_loop_positive argv p q :
  positive_args p -> parse_loop argv p = Ok (Some q) -> positive_args q.
Proof.
  apply (cli_loop_keeps _ _ positive_args).
  - intros name s s' Ef [P1 P2 P3 P4 P5 P6 P7 P8]. unfold parse_flag in Ef.
    repeat case_match_hyp Ef; try discriminate Ef; injection Ef as <-; by split.
  - intros name v s s' Ho Hs. by eapply parse_option_positive.
Qed.

Lemma with_defaults_positive : positive_args with_defaults.
Proof. by split. Qed.

(** arguments that parse have both buckets, real ones; a positive window,
    schedule interval, scan margin, lookback, watermark, window limit and
    retention, each in its machine range; a watermark that covers the scan margin;
    and the ends of the input range and of the audit range only together. *)
Theorem parsed_args_valid (argv : list string) (p : NormalizeArgs) :
  parse_args argv = Ok (Some p) ->
  positive_args p /\
  na_l0_s3_bucket p <> ""%string /\ na_l1_s3_bucket p <> ""%string /\
  contains "<" (na_l0_s3_bucket p) = false /\ contains "<" (na_l1_s3_bucket p) = false /\
  na_scan_margin_ms p <= na_watermark_delay_ms p /\
  (is_Some (na_input_start_ms p) <-> is_Some (na_input_end_ms p)) /\
  (is_Some (na_audit_l1_index_start_ms p) <-> is_Some (na_audit_l1_index_end_ms p)).
Proof.
  unfold parse_args. intros H. destruct (parse_loop argv with_defaults) as [[q|]|] eqn:El; try done.
  cbn in H. destruct (validate_parsed_args q) as [u|] eqn:Ev; [|done]. injection H as ->.
  split; [by eapply parse_loop_positive, El; apply with_defaults_positive|].
  assert (He : forall s, str_is_empty s = false -> s <> ""%string) by by intros [].
  assert (Hb : forall n s, validate_real_bucket n s = Ok () -> contains "<" s = false).
  { intros n s. unfold validate_real_bucket. destruct (str_is_empty (trim s)); [done|].
    by destruct (contains "<" s). }
  assert (Hg : forall (a b : option Z), Bool.eqb (given a) (given b) = true -> (is_Some a <-> is_Some b)).
  { intros [x|] [y|]; cbn; try done; intros _; split; intros [? ?]; try done; by eexists. }
  unfold validate_parsed_args in Ev.
  destruct (str_is_empty (na_l0_s3_bucket p)) eqn:E1; [done|].
  destruct (str_is_empty (na_l1_s3_bucket p)) eqn:E2; [done|].
  destruct (validate_real_bucket _ (na_l0_s3_bucket p)) as [[]|] eqn:E3; [|done].
  destruct (validate_real_bucket _ (na_l1_s3_bucket p)) as [[]|] eqn:E4; [|done].
  cbn in Ev. destruct (Z.ltb_spec (na_watermark_delay_ms p) (na_scan_margin_ms p)); [done|].
  destruct (Bool.eqb (given (na_input_start_ms p)) _) eqn:E5; [|done].
  destruct (Bool.eqb (given (na_audit_l1_index_start_ms p)) _) eqn:E6; [|done].
  split_and!; eauto; by apply Hg.
Qed.

Definition sample_argv : list string :=
  ["--l0-s3-bucket"; "l0"; "--l1-s3-bucket"; "l1"; "--live-priority"; "--window-ms"; "2000"]%string.

Lemma parsed_args_valid_witness :
  exists p, parse_args sample_argv = Ok (Some p) /\ na_window_ms p = 2000 /\
    na_scan_margin_ms p <= na_watermark_delay_ms p.
Proof.
  eexists. split; [by vm_compute|]. split; [done|].
  eapply (parsed_args_valid sample_argv). by vm_compute.
Defined.
