(* ===== verification/L1Window.v ===== *)
(** * L1Window: which windows the normalizer processes

    [normalize/mode], [normalize/run] (the worker's drain, the window steps, the
    index audit), [normalize/discovery], the index keys of [normalize/write] and
    [publish/manifest_index/index.rs].  Running a window is a parameter; its
    parts are modelled in [L1Build] and [L1Publish]. *)
From stdpp Require Import sorting.
From Stdlib Require Import Sorting.Sorted.
From S2P Require Import Prelude Text OrderedMap Records NormalizeArgs.
Open Scope Z_scope.

(** ** Modes *)

(* rust: src/normalize/mode/types.rs RunMode *)
Inductive RunMode := Live | CatchUp | Backfill.

#[export] Instance RunMode_eq_dec : EqDecision RunMode.
Proof. solve_decision. Defined.

(* rust: src/normalize/mode/types.rs as_str *)
Definition as_str (m : RunMode) : string :=
  match m with Live => "LIVE" | CatchUp => "CATCH-UP" | Backfill => "BACKFILL" end.

(* rust: src/normalize/mode/types.rs RunDecision *)
Record RunDecision := mkDecision { rd_run_mode : RunMode; rd_input_range : InputRange }.

(* rust: src/normalize/mode/range.rs align_floor *)
Definition align_floor (value interval : Z) : Z :=
  if interval <=? 0 then value else saturate I64 (value - rem_euclid value interval).

(* rust: src/normalize/mode/range.rs validate_range *)
Definition validate_range (start_ms end_ms window_ms schedule_interval_ms : Z) : result string () :=
  if (start_ms <? 0) || (end_ms <=? start_ms)
  then Err "input range must be positive and non-empty"%string
  else if (0 <? window_ms) && (negb (Z.rem start_ms window_ms =? 0) || negb (Z.rem end_ms window_ms =? 0))
  then Err "input range must align to window_ms"%string
  else if (0 <? schedule_interval_ms) &&
          (negb (Z.rem start_ms schedule_interval_ms =? 0) || negb (Z.rem end_ms schedule_interval_ms =? 0))
  then Err "input range must align to schedule_interval_ms"%string
  else Ok ().

(** [(now_ms / interval) * interval]; the argument parser accepts only positive
    intervals. *)
Definition ready_end (now_ms interval : Z) : Z := wrap I64 (Z.quot now_ms interval * interval).

(* rust: src/normalize/mode/decision.rs decide_live_priority_mode *)
Definition decide_live_priority_mode (args : NormalizeArgs) (now_ms : Z)
    (last_l1_success_end_ms : option Z) : result string (option RunDecision) :=
  if negb (na_live_priority args) || given (na_input_start_ms args) then Ok None else
  let interval := na_schedule_interval_ms args in
  let ready_end_ms := ready_end now_ms interval in
  if (ready_end_ms <=? 0) || (now_ms <? saturate I64 (ready_end_ms + na_watermark_delay_ms args))
  then Ok None else
  let caught_up :=
    match last_l1_success_end_ms with
    | Some last =>
        (ready_end_ms <=? last) ||
        (saturate I64 (ready_end_ms - last) <? na_live_priority_lag_threshold_ms args)
    | None => false
    end in
  if caught_up then Ok None else
  let start_ms := saturate I64 (ready_end_ms - interval) in
  _ ← validate_range start_ms ready_end_ms (na_window_ms args) (na_schedule_interval_ms args);
  Ok (Some (mkDecision Live (mkRange start_ms ready_end_ms))).

(* rust: src/normalize/mode/decision.rs decide_mode *)
Definition decide_mode (args : NormalizeArgs) (now_ms : Z)
    (last_l1_success_end_ms oldest_l0_object_ms : option Z) : result string (option RunDecision) :=
  match na_input_start_ms args, na_input_end_ms args with
  | Some start_ms, Some end_ms =>
      _ ← validate_range start_ms end_ms (na_window_ms args) (na_schedule_interval_ms args);
      Ok (Some (mkDecision Backfill (mkRange start_ms end_ms)))
  | _, _ =>
      let interval := na_schedule_interval_ms args in
      let ready_end_ms := ready_end now_ms interval in
      let candidate := match last_l1_success_end_ms with
        | Some value => Some value
        | None => (fun value => align_floor value interval) <$> oldest_l0_object_ms
        end in
      match candidate with
      | None => Ok None
      | Some candidate =>
          let start_ms := align_floor candidate interval in
          let end_ms := saturate I64 (start_ms + interval) in
          if ready_end_ms <? end_ms then Ok None else
          _ ← validate_range start_ms end_ms (na_window_ms args) (na_schedule_interval_ms args);
          let run_mode := if end_ms =? ready_end_ms then Live else CatchUp in
          if bool_decide (run_mode = Live) &&
             (now_ms <? saturate I64 (ready_end_ms + na_watermark_delay_ms args))
          then Ok None
          else Ok (Some (mkDecision run_mode (mkRange start_ms end_ms)))
      end
  end.

(** ** Draining the ready windows *)

(** What the world answers during a tick: the run of a decision at a time, the
    clock after the n-th window, and whether shutdown is requested at the n-th
    query. *)
Record World := mkWorld {
  wd_run : RunDecision -> Z -> result string ();
  wd_clock : nat -> Z;
  wd_shutdown : nat -> bool;
}.

Section drain.
Context (w : World) (args : NormalizeArgs).

(** The completed range and the updated last success. *)
(* rust: src/normalize/run/window.rs run_live_priority_decision *)
Definition run_live_priority_decision (now_ms : Z) (last : option Z)
    : result string (option (RunDecision * option Z)) :=
  decision ← decide_live_priority_mode args now_ms last;
  match decision with
  | None => Ok None
  | Some d =>
      _ ← wd_run w d now_ms;
      let range := rd_input_range d in
      Ok (Some (d, if bool_decide (last = Some (ir_start_ms range))
                   then Some (ir_end_ms range) else last))
  end.

(** The end of the window, and the decision if it was run. *)
(* rust: src/normalize/run/window.rs run_next_ready_decision *)
Definition run_next_ready_decision (now_ms : Z) (last oldest : option Z)
    (live_priority_completed_range : option InputRange)
    : result string (option (Z * option RunDecision)) :=
  decision ← decide_mode args now_ms last oldest;
  match decision with
  | None => Ok None
  | Some d =>
      let completed_end_ms := ir_end_ms (rd_input_range d) in
      if bool_decide (live_priority_completed_range = Some (rd_input_range d))
      then Ok (Some (completed_end_ms, None))
      else _ ← wd_run w d now_ms; Ok (Some (completed_end_ms, Some d))
  end.

(** What a drain did: the decisions it ran in order, the windows it passed, and the
    last success it knows. *)
Record Drained := mkDrained {
  dn_runs : list RunDecision; dn_ends : list Z; dn_last : option Z }.

(** The loop with [budget] windows left; [n] counts the windows so far, and each
    pass asks for shutdown before and after its window. *)
Fixpoint drain_loop (budget n : nat) (now_ms : Z) (oldest : option Z)
    (completed : option InputRange) (d : Drained) : result string Drained :=
  if wd_shutdown w (2 * n) then Ok d else
  match budget with
  | O => Ok d
  | S budget =>
      step ← run_next_ready_decision now_ms (dn_last d) oldest completed;
      match step with
      | None => Ok d
      | Some (end_ms, ran) =>
          let d := mkDrained (dn_runs d ++ option_list ran) (dn_ends d ++ [end_ms]) (Some end_ms) in
          if wd_shutdown w (2 * n + 1) then Ok d
          else drain_loop budget (S n) (wd_clock w n) None completed d
      end
  end.

(** [last] and [oldest] are what the discovery found. *)
(* rust: src/normalize/run/worker/drain.rs drain_ready_windows *)
Definition drain_ready_windows (now_ms : Z) (last oldest : option Z) : result string Drained :=
  priority ← run_live_priority_decision now_ms last;
  let '(runs, last, oldest, completed, now_ms, processed) :=
    match priority with
    | Some (d, last) => ([d], last, None, Some (rd_input_range d), wd_clock w 0, 1)
    | None => ([], last, oldest, None, now_ms, 0)
    end in
  let d := mkDrained runs [] last in
  if na_live_priority_only args then Ok d
  else drain_loop (Z.to_nat (na_max_windows_per_tick args - processed)) (Z.to_nat processed)
         now_ms oldest completed d.
End drain.

(* rust: src/normalize/run/worker/schedule.rs worker_sleep_duration *)
Definition worker_sleep_duration (args : NormalizeArgs) : result string Z :=
  let sleep_ms := if na_live_priority_only args then Z.min (na_schedule_interval_ms args) 60000
                  else na_schedule_interval_ms args in
  ok_or (checked U64 sleep_ms) "out of range integral type conversion attempted"%string.

(** ** Index pointers *)

Section index.
Context {L : StorageLib}.

(** [from_timestamp_millis(t).unwrap_or(UNIX_EPOCH)], its date and hour. *)
(* rust: src/normalize/write/keys.rs time_part *)
Definition time_part (timestamp_ms : Z) : string * Z :=
  default ("1970-01-01"%string, 0) (utc_date_hour timestamp_ms).

Definition hour_dir (timestamp_ms : Z) : string :=
  let (date, hour) := time_part timestamp_ms in
  ("event_date=" ++ date ++ "/hour=" ++ pad_zero 2 hour ++ "/")%string.

(* rust: src/normalize/write/keys.rs index_pointer_key *)
Definition index_pointer_key (window_ms window_start_ms : Z) : string :=
  ("l1_index/window_ms=" ++ show_Z window_ms ++ "/" ++ hour_dir window_start_ms
     ++ "window_start_ms=" ++ show_Z window_start_ms ++ ".json")%string.

(** [while current < end { push; current = current.checked_add(window) }], with
    as much fuel as there are windows. *)
Fixpoint window_starts_loop (fuel : nat) (current end_ms window_ms : Z) : list Z :=
  match fuel with
  | O => []
  | S fuel =>
      if current <? end_ms then
        current :: match checked I64 (current + window_ms) with
                   | Some next => if next <=? current then []
                                  else window_starts_loop fuel next end_ms window_ms
                   | None => []
                   end
      else []
  end.
Definition window_fuel (start_ms end_ms window_ms : Z) : nat :=
  S (Z.to_nat ((end_ms - start_ms) / window_ms)).

(* rust: src/normalize/publish/manifest_index/index.rs index_window_starts *)
Definition index_window_starts (r : InputRange) (window_ms : Z) : list Z :=
  if (window_ms <=? 0) || (ir_end_ms r <=? ir_start_ms r) then []
  else window_starts_loop (window_fuel (ir_start_ms r) (ir_end_ms r) window_ms)
         (ir_start_ms r) (ir_end_ms r) window_ms.

(* rust: src/normalize/run/l1_audit.rs MAX_AUDIT_WINDOWS *)
Definition MAX_AUDIT_WINDOWS : Z := 100000.

(** The loop of [audit_expected_keys]; [fuel] one above the limit. *)
Fixpoint audit_keys_loop (fuel : nat) (keys : list string) (current end_ms window_ms : Z)
    : result string (list string) :=
  match fuel with
  | O => Ok keys
  | S fuel =>
      if current <? end_ms then
        if MAX_AUDIT_WINDOWS <=? zlen keys then Err "audit range exceeds 100000 windows"%string else
        let keys := keys ++ [index_pointer_key window_ms current] in
        match checked I64 (current + window_ms) with
        | None => Err "audit range overflow"%string
        | Some next =>
            if next <=? current then Err "audit range did not advance"%string
            else audit_keys_loop fuel keys next end_ms window_ms
        end
      else Ok keys
  end.

(* rust: src/normalize/run/l1_audit.rs audit_expected_keys *)
Definition audit_expected_keys (r : InputRange) (window_ms : Z) : result string (list string) :=
  if window_ms <=? 0 then Err "window_ms must be positive"%string
  else audit_keys_loop (Z.to_nat (MAX_AUDIT_WINDOWS + 2)) [] (ir_start_ms r) (ir_end_ms r) window_ms.

(* rust: src/normalize/run/l1_audit.rs audit_hour_prefixes *)
Definition audit_hour_prefixes (keys : list string) : list string :=
  bkeys (bcollect (omap (fun key =>
    match rsplit_once "window_start_ms=" key with
    | Some (prefix, _) => Some (prefix, ())
    | None => None
    end) keys)).

(** [list_keys] answers all keys under a prefix. *)
(* rust: src/normalize/run/l1_audit.rs run_l1_index_audit *)
Definition run_l1_index_audit (list_keys : string -> result string (list string))
    (args : NormalizeArgs) (r : InputRange) : result string () :=
  if ir_end_ms r <=? ir_start_ms r then Err "audit range must be positive and non-empty"%string
  else if negb (Z.rem (ir_start_ms r) (na_window_ms args) =? 0)
       || negb (Z.rem (ir_end_ms r) (na_window_ms args) =? 0)
  then Err "audit range must align to window_ms"%string
  else
    expected ← audit_expected_keys r (na_window_ms args);
    existing ← try_map list_keys (audit_hour_prefixes expected);
    let missing := List.filter (fun k => negb (bool_decide (k ∈ List.concat existing))) expected in
    if zlen missing =? 0 then Ok ()
    else Err ("l1 index audit failed: missing " ++ show_Z (zlen missing) ++ "/"
                ++ show_Z (zlen expected) ++ " pointers")%string.
End index.

(** ** Discovery of the last success *)

Class DocJson (V : Type) := {
  dj_get : string -> V -> option V;
  dj_as_str : V -> option string;
  dj_as_i64 : V -> option Z;
}.

Section discovery.
Context {L : StorageLib} {V : Type} {J : DocJson V}.

(* rust: src/normalize/discovery/json_doc.rs json_status_success *)
Definition json_status_success (v : V) : bool :=
  match (f ← dj_get "status" v; dj_as_str f) with
  | Some status => String.eqb status "success"
  | None => false
  end.

(* rust: src/normalize/discovery/json_doc.rs input_time_range_end_ms *)
Definition input_time_range_end_ms (v : V) : option Z :=
  f ← dj_get "input_time_range_end_ms" v; dj_as_i64 f.

(* rust: src/normalize/discovery/json_doc.rs pointer_manifest_key *)
Definition pointer_manifest_key (v : V) : option string :=
  f ← match dj_get "canonical_manifest_key" v with
      | Some f => Some f
      | None => dj_get "manifest_key" v
      end;
  dj_as_str f.

(* rust: src/normalize/discovery/time.rs HOUR_MS *)
Definition HOUR_MS : Z := 3600000.
(* rust: src/normalize/discovery/time.rs floor_hour_ms *)
Definition floor_hour_ms (value : Z) : Z := wrap I64 (div_euclid value HOUR_MS * HOUR_MS).

(* rust: src/normalize/discovery/pointer.rs MAX_L1_POINTER_LOOKBACK_HOURS *)
Definition MAX_L1_POINTER_LOOKBACK_HOURS : Z := 24 * 90.
(* rust: src/normalize/discovery/pointer.rs L1_POINTER_KEYS_PER_HOUR *)
Definition L1_POINTER_KEYS_PER_HOUR : Z := 1000.

(* rust: src/normalize/discovery/pointer.rs l1_pointer_hour_prefix *)
Definition l1_pointer_hour_prefix (window_ms hour_start_ms : Z) : string :=
  ("l1_index/window_ms=" ++ show_Z window_ms ++ "/" ++ hour_dir hour_start_ms)%string.

(* rust: src/normalize/discovery/pointer.rs json_keys_desc *)
Definition json_keys_desc (keys : list string) : list string :=
  sort_by (fun a b => str_leb b a) (List.filter (ends_with ".json") keys).

(** [list_page prefix n] is the first page of at most [n] keys; [download] a JSON
    document. *)
Context (list_page : string -> Z -> result StorageError (list string)).
Context (download : string -> result StorageError V).

(* rust: src/normalize/discovery/pointer.rs success_end_ms_from_pointer *)
Definition success_end_ms_from_pointer (key : string) : result StorageError (option Z) :=
  pointer ← download key;
  if negb (json_status_success pointer) then Ok None else
  match input_time_range_end_ms pointer with
  | Some end_ms => Ok (Some end_ms)
  | None =>
      match pointer_manifest_key pointer with
      | None => Ok None
      | Some manifest_key =>
          manifest ← download manifest_key;
          if negb (json_status_success manifest) then Ok None
          else Ok (input_time_range_end_ms manifest)
      end
  end.

(** The first key that answers a success. *)
Fixpoint first_success (keys : list string) : result StorageError (option Z) :=
  match keys with
  | [] => Ok None
  | key :: keys =>
      found ← success_end_ms_from_pointer key;
      match found with Some end_ms => Ok (Some end_ms) | None => first_success keys end
  end.

(** The hours from the [offset]-th before the newest. *)
Fixpoint search_hours (hours : nat) (offset latest_hour_start_ms window_ms : Z)
    : result StorageError (option Z) :=
  match hours with
  | O => Ok None
  | S hours =>
      let hour_start_ms := saturate I64 (latest_hour_start_ms - saturate I64 (offset * HOUR_MS)) in
      keys ← list_page (l1_pointer_hour_prefix window_ms hour_start_ms) L1_POINTER_KEYS_PER_HOUR;
      found ← first_success (json_keys_desc keys);
      match found with
      | Some end_ms => Ok (Some end_ms)
      | None => search_hours hours (offset + 1) latest_hour_start_ms window_ms
      end
  end.

(* rust: src/normalize/discovery/pointer.rs resolve_last_l1_success_end_ms *)
Definition resolve_last_l1_success_end_ms (args : NormalizeArgs) (now_ms : Z)
    : result StorageError (option Z) :=
  search_hours (Z.to_nat MAX_L1_POINTER_LOOKBACK_HOURS) 0 (floor_hour_ms now_ms) (na_window_ms args).
End discovery.

(** A failed lookup is logged and counts as nothing found. *)
(* rust: src/normalize/run/window.rs resolve_l1_success_end_ms_or_warn *)
Definition resolve_l1_success_end_ms_or_warn (last : result StorageError (option Z)) : option Z :=
  match last with Ok v => v | Err _ => None end.

(* rust: src/normalize/run/window.rs resolve_oldest_l0_object_ms_or_warn *)
Definition resolve_oldest_l0_object_ms_or_warn (oldest : result StorageError (option Z)) : option Z :=
  match oldest with Ok v => v | Err _ => None end.

(* rust: src/normalize/run/window.rs resolve_initial_l0_l1_state *)
Definition resolve_initial_l0_l1_state (last oldest : result StorageError (option Z))
    : option Z * option Z :=
  let last := resolve_l1_success_end_ms_or_warn last in
  (last, match last with Some _ => None | None => resolve_oldest_l0_object_ms_or_warn oldest end).

(** ** Decisions *)

Lemma ready_end_spec now interval : 0 < interval -> 0 <= now <= int_max I64 ->
  ready_end now interval = now / interval * interval /\ 0 <= ready_end now interval <= now.
Proof.
  intros Hi Hn. unfold ready_end. rewrite Z.quot_div_nonneg by lia.
  pose proof (Z.div_pos now interval). pose proof (Z.mul_div_le now interval).
  assert (0 <= now / interval * interval <= now) by nia.
  rewrite wrap_id; [lia|]. unfold in_range. cbn in *. lia.
Qed.

Lemma align_floor_spec v interval : 0 < interval -> 0 <= v <= int_max I64 ->
  align_floor v interval = v / interval * interval /\ 0 <= align_floor v interval <= v.
Proof.
  intros Hi Hv. unfold align_floor. destruct (Z.leb_spec interval 0); [lia|].
  rewrite rem_euclid_pos by done. pose proof (Z.div_mod v interval).
  pose proof (Z.mod_pos_bound v interval). pose proof (Z.div_pos v interval).
  rewrite saturate_id; [nia|]. unfold in_range. cbn in *. nia.
Qed.

Lemma rem_multiple k w : 0 < w -> Z.rem (k * w) w = 0.
Proof. intros. apply Z.rem_mul. lia. Qed.

Lemma validate_range_multiple s interval window :
  0 < interval -> 0 < window -> (window | interval) -> 0 <= s -> (interval | s) ->
  validate_range s (s + interval) window interval = Ok ().
Proof.
  intros Hi Hw [a Ha] Hs [b Hb]. unfold validate_range.
  destruct (Z.ltb_spec s 0); [lia|]. destruct (Z.leb_spec (s + interval) s); [lia|].
  destruct (Z.ltb_spec 0 window); [|lia]. destruct (Z.ltb_spec 0 interval); [|lia].
  replace s with (b * a * window) at 1 by nia.
  replace (s + interval) with ((b * a + a) * window) at 1 by nia.
  replace s with (b * interval) by nia. replace (b * interval + interval) with ((b + 1) * interval) by lia.
  by rewrite !rem_multiple.
Qed.

(** The shared hypotheses of the planning theorems: parsed arguments without an
    explicit range whose windows divide the schedule interval. *)
Record planned (args : NormalizeArgs) : Prop := {
  pl_args : positive_args args;
  pl_divides : (na_window_ms args | na_schedule_interval_ms args);
  pl_no_range : na_input_start_ms args = None;
}.

(** A time from which one more interval stays in range. *)
Definition in_time (args : NormalizeArgs) (t : Z) : Prop :=
  0 <= t <= int_max I64 - na_schedule_interval_ms args.

Lemma decide_mode_eq args now last oldest c : planned args -> in_time args now ->
  in_time args c ->
  match last with Some v => v = c | None => oldest = Some c end ->
  let interval := na_schedule_interval_ms args in
  let start := c / interval * interval in
  let ready := now / interval * interval in
  decide_mode args now last oldest =
    if ready <? start + interval then Ok None
    else if (start + interval =? ready) && (now <? saturate I64 (ready + na_watermark_delay_ms args))
    then Ok None
    else Ok (Some (mkDecision (if start + interval =? ready then Live else CatchUp)
                     (mkRange start (start + interval)))).
Proof.
  intros [Hp Hd Hn] Hnow Hc Hlast interval start ready. unfold decide_mode. rewrite Hn.
  destruct Hp as [Hint Hwin _ _ _ _ _ _]. unfold in_time in *. fold interval in Hint, Hnow, Hc, Hd |- *.
  destruct (ready_end_spec now interval) as [-> Hr]; [lia..|]. fold ready in Hr |- *.
  destruct (align_floor_spec c interval) as [Ha Hab]; [lia..|]. fold start in Ha.
  assert (Hcand : exists c', match last with
      | Some v => Some v
      | None => (fun v => align_floor v interval) <$> oldest end = Some c' /\ align_floor c' interval = start).
  { destruct last as [v|]; subst; [by exists c|]. cbn. exists (align_floor c interval). split; [done|].
    destruct (align_floor_spec (align_floor c interval) interval) as [-> _]; [lia..|].
    rewrite Ha. unfold start. rewrite Z.div_mul by lia. done. }
  destruct Hcand as (c' & -> & ->). cbv zeta.
  assert (Hs : 0 <= start <= c) by lia.
  rewrite saturate_id by (unfold in_range; cbn in *; lia).
  destruct (Z.ltb_spec ready (start + interval)); [done|].
  rewrite validate_range_multiple; [|lia|lia|done|lia|by exists (c / interval)].
  cbn. destruct (start + interval =? ready); cbn; [|done]. by destruct (now <? _).
Qed.

(** with no explicit range and a known starting point [c] (the last success,
    or the oldest raw object when there is none), [decide_mode] never fails; it
    picks exactly the interval that contains [c], in live mode when that interval
    is the latest closed one and the watermark has passed, in catch-up mode when a
    later one has closed, and nothing when it has not closed yet. *)
Theorem decide_mode_picks_next_window (args : NormalizeArgs) (now c : Z) (last oldest : option Z) :
  planned args -> in_time args now -> in_time args c ->
  match last with Some v => v = c | None => oldest = Some c end ->
  let interval := na_schedule_interval_ms args in
  let start := c / interval * interval in
  let ready := now / interval * interval in
  decide_mode args now last oldest =
    if ready <? start + interval then Ok None
    else if (start + interval =? ready) && (now <? saturate I64 (ready + na_watermark_delay_ms args))
    then Ok None
    else Ok (Some (mkDecision (if start + interval =? ready then Live else CatchUp)
                     (mkRange start (start + interval)))).
Proof. apply decide_mode_eq. Qed.

(** ** Drains *)

Definition window_at (s0 interval : Z) (i : nat) : InputRange :=
  mkRange (s0 + Z.of_nat i * interval) (s0 + Z.of_nat (S i) * interval).

Lemma window_at_succ s0 interval i :
  window_at (s0 + interval) interval i = window_at s0 interval (S i).
Proof. unfold window_at. f_equal; lia. Qed.

Lemma windows_cons s0 interval m :
  window_at s0 interval 0 :: map (window_at (s0 + interval) interval) (seq 0 m)
  = map (window_at s0 interval) (seq 0 (S m)).
Proof.
  cbn. f_equal. rewrite <- seq_shift, map_map. apply map_ext, window_at_succ.
Qed.

Section drain_facts.
Context (w : World) (args : NormalizeArgs) (Hpl : planned args).
Context (Hclock : forall i, in_time args (wd_clock w i)).

(** No decision at [c] means that its window has not been closed for the watermark. *)
Lemma decide_none_not_ready t c last oldest : in_time args t -> in_time args c ->
  match last with Some v => v = c | None => oldest = Some c end ->
  decide_mode args t last oldest = Ok None ->
  t < c / na_schedule_interval_ms args * na_schedule_interval_ms args
      + na_schedule_interval_ms args + na_watermark_delay_ms args.
Proof.
  intros Ht Hc Hlast H. rewrite (decide_mode_eq args t last oldest c) in H by done. cbv zeta in H.
  destruct Hpl as [[Hint _ _ _ Hwm _ _ _] _ _].
  set (interval := na_schedule_interval_ms args) in *. unfold in_time in *. fold interval in Ht, Hc.
  pose proof (Z.div_mod t interval). pose proof (Z.mod_pos_bound t interval).
  set (s := c / interval * interval) in *.
  assert (exists a, s = a * interval) as [a Hsa] by by eexists.
  destruct (Z.ltb_spec (t / interval * interval) (s + interval)) as [Hlt|Hge].
  - assert (t / interval < a + 1) by nia. nia.
  - destruct (Z.eqb_spec (s + interval) (t / interval * interval)) as [He|]; [|done].
    destruct (Z.ltb_spec t (saturate I64 (t / interval * interval + na_watermark_delay_ms args)));
      [|done]. unfold saturate in *. cbn in *. lia.
Qed.

(** The loop runs consecutive windows from the one that contains [c]. *)
Lemma drain_loop_windows budget n now oldest d c r :
  let interval := na_schedule_interval_ms args in
  let start := c / interval * interval in
  in_time args now -> in_time args c ->
  match dn_last d with Some v => v = c | None => oldest = Some c end ->
  drain_loop w args budget n now oldest None d = Ok r ->
  exists m, (m <= budget)%nat /\
    rd_input_range <$> dn_runs r
      = (rd_input_range <$> dn_runs d) ++ map (window_at start interval) (seq 0 m) /\
    (m = budget \/ (exists q, wd_shutdown w q = true) \/
     exists t, (t = now \/ exists i, t = wd_clock w i) /\
       t < start + Z.of_nat (S m) * interval + na_watermark_delay_ms args) /\
    (m = 0%nat \/ exists t, (t = now \/ exists i, t = wd_clock w i) /\ start + Z.of_nat m * interval <= t).
Proof.
  intros interval start. subst start. revert n now oldest d c.
  induction budget as [|budget IH]; intros n now oldest d c Hnow Hc Hlast H; cbn [drain_loop] in H.
  { assert (r = d) as -> by (by destruct (wd_shutdown w _); injection H as <-).
    exists 0%nat. rewrite app_nil_r. by split_and!; [| |left|left]. }
  destruct (wd_shutdown w (2 * n)) eqn:Esh.
  { injection H as <-. exists 0%nat. rewrite app_nil_r. split_and!; [lia|done| |by left].
    right; left. by eexists. }
  unfold run_next_ready_decision in H.
  pose proof (decide_mode_eq args now (dn_last d) oldest c Hpl Hnow Hc Hlast) as Hd. cbv zeta in Hd.
  pose proof (decide_none_not_ready now c (dn_last d) oldest Hnow Hc Hlast) as Hnr.
  fold interval in Hd, Hnr.
  destruct (decide_mode args now (dn_last d) oldest) as [[dec|]|] eqn:Ed; cbn [mbind result_bind] in H;
    [| |done].
  2: { injection H as <-. exists 0%nat. rewrite app_nil_r. split_and!; [lia|done| |by left].
       right; right. exists now. split; [by left|]. specialize (Hnr eq_refl). lia. }
  destruct (Z.ltb_spec (now / interval * interval) (c / interval * interval + interval)) as [|Hready];
    [done|].
  destruct ((c / interval * interval + interval =? _) && _); [done|]. injection Hd as ->.
  cbn [rd_input_range ir_end_ms] in H. rewrite bool_decide_eq_false_2 in H by done.
  match type of H with context [wd_run w ?x now] => destruct (wd_run w x now) as [u|]; [|done] end.
  cbn in H. set (s := c / interval * interval) in *.
  assert (Hrange : forall d', mkRange s (s + interval) :: d' = window_at s interval 0 :: d').
  { intros. unfold window_at. do 2 f_equal; lia. }
  destruct Hpl as [[Hint _ _ _ Hwm _ _ _] _ _]. fold interval in Hint.
  assert (Hs' : in_time args (s + interval) /\ (s + interval) / interval * interval = s + interval).
  { subst s. split; [|rewrite <- Z.mul_succ_l, Z.div_mul; lia].
    unfold in_time in *. fold interval in Hnow, Hc |- *.
    pose proof (Z.mul_div_le now interval). pose proof (Z.div_pos c interval). nia. }
  destruct Hs' as [Hs' Hal]. destruct (wd_shutdown w (n + (n + 0) + 1)) eqn:Esh2.
  { injection H as <-. exists 1%nat. cbn. split_and!; [lia| |right; left; by eexists|].
    - by rewrite fmap_app; cbn; rewrite Hrange.
    - right. exists now. split; [by left|]. pose proof (Z.mul_div_le now interval). lia. }
  apply (IH _ _ _ _ (s + interval)) in H as (m & Hm & Hr & Hstop & Hin); [|apply Hclock|done..].
  fold interval in Hr, Hstop, Hin. rewrite Hal in Hr, Hstop, Hin.
  exists (S m). split_and!; [lia| | |].
  { rewrite Hr, <- windows_cons. cbn [dn_runs]. rewrite fmap_app, <- app_assoc. cbn. by rewrite Hrange. }
  - destruct Hstop as [->|[Hq|(t & Ht & Hlt)]]; [by left|by right; left|].
    right; right. exists t. split; [|lia]. right. destruct Ht as [->|?]; [by eexists|done].
  - right. destruct Hin as [->|(t & Ht & Hle)].
    + exists now. split; [by left|]. pose proof (Z.mul_div_le now interval). lia.
    + exists t. split; [right; destruct Ht as [->|?]; [by eexists|done]|lia].
Qed.

(** A live-priority decision starts at or after a window-aligned last success. *)
Lemma live_priority_after now e d : in_time args now -> 0 <= e ->
  (na_schedule_interval_ms args | e) ->
  decide_live_priority_mode args now (Some e) = Ok (Some d) -> e <= ir_start_ms (rd_input_range d).
Proof.
  intros Hnow He [a Ha] H. unfold decide_live_priority_mode in H.
  destruct Hpl as [[Hint _ _ _ _ _ _ _] _ _]. unfold in_time in Hnow.
  destruct (negb _ || _); [done|].
  destruct (ready_end_spec now (na_schedule_interval_ms args)) as [Hr Hb]; [lia..|].
  destruct (_ || _); [done|].
  destruct (Z.leb_spec (ready_end now (na_schedule_interval_ms args)) e); [done|].
  destruct (_ || _); [done|]. destruct (validate_range _ _ _ _); [|done]. injection H as <-. cbn.
  assert (a < now / na_schedule_interval_ms args) by nia.
  unfold saturate. cbn in *. nia.
Qed.

(** Without live priority a tick is its loop. *)
Lemma drain_without_priority now last oldest : na_live_priority args = false -> na_live_priority_only args = false ->
  drain_ready_windows w args now last oldest =
  drain_loop w args (Z.to_nat (na_max_windows_per_tick args)) 0 now oldest None (mkDrained [] [] last).
Proof using Type.
  intros Hlp Hlpo. unfold drain_ready_windows, run_live_priority_decision, decide_live_priority_mode.
  rewrite Hlp, Hlpo. cbn. by rewrite Z.sub_0_r.
Qed.
End drain_facts.

(** without live priority, a tick that knows where to start runs exactly
    [m] consecutive windows from the one that contains the starting point [c],
    [m] at most [max_windows_per_tick]; when it stops before that limit, either
    shutdown was requested or, at one of its clock readings, the next window had not
    been closed for the watermark delay: no window is skipped or run twice. *)
Theorem drain_runs_consecutive_windows (w : World) (args : NormalizeArgs) (now c : Z)
    (last oldest : option Z) (r : Drained) :
  planned args -> na_live_priority args = false -> na_live_priority_only args = false ->
  (forall i, in_time args (wd_clock w i)) -> in_time args now -> in_time args c ->
  match last with Some v => v = c | None => oldest = Some c end ->
  drain_ready_windows w args now last oldest = Ok r ->
  let interval := na_schedule_interval_ms args in
  let start := c / interval * interval in
  exists m, Z.of_nat m <= na_max_windows_per_tick args /\
    rd_input_range <$> dn_runs r = map (window_at start interval) (seq 0 m) /\
    (Z.of_nat m = na_max_windows_per_tick args \/ (exists q, wd_shutdown w q = true) \/
     exists t, (t = now \/ exists i, t = wd_clock w i) /\
       t < start + Z.of_nat (S m) * interval + na_watermark_delay_ms args).
Proof.
  intros Hpl Hlp Hlpo Hclock Hnow Hc Hlast H interval start.
  rewrite drain_without_priority in H by done.
  pose proof (pa_max_windows _ (pl_args _ Hpl)).
  apply (drain_loop_windows w args Hpl Hclock) with (c := c) in H as (m & Hm & Hr & Hs & _); [|done..].
  exists m. split_and!; [lia|done|]. destruct Hs as [->|?]; [left; lia|by right].
Qed.

(** ** The last success found *)

Section tick_order.
Context (w : World) (args : NormalizeArgs) (Hpl : planned args).
Context (Hclock : forall i, in_time args (wd_clock w i)).

Let interval := na_schedule_interval_ms args.

Lemma drain_loop_after budget n now oldest completed d e e' r :
  in_time args now -> dn_last d = Some e' -> e <= e' -> in_time args e' -> (interval | e') ->
  Forall (fun x => e <= ir_start_ms (rd_input_range x)) (dn_runs d) ->
  drain_loop w args budget n now oldest completed d = Ok r ->
  Forall (fun x => e <= ir_start_ms (rd_input_range x)) (dn_runs r).
Proof.
  revert n now oldest d e'.
  induction budget as [|budget IH]; intros n now oldest d e' Hnow Hlast He Ht [b Hb] Hd H;
    cbn [drain_loop] in H.
  { by destruct (wd_shutdown w _); injection H as <-. }
  destruct (wd_shutdown w _); [by injection H as <-|].
  unfold run_next_ready_decision in H. rewrite Hlast in H.
  pose proof (decide_mode_eq args now (Some e') oldest e' Hpl Hnow Ht eq_refl) as Hdm.
  cbv zeta in Hdm. fold interval in Hdm.
  assert (Hint : 0 < interval <= int_max I64) by apply Hpl.
  assert (e' / interval * interval = e') as Hal by (rewrite Hb, Z.div_mul by lia; done).
  rewrite Hal in Hdm.
  destruct (decide_mode args now (Some e') oldest) as [[dec|]|]; cbn [mbind result_bind] in H;
    [|by injection H as <-|done].
  destruct (Z.ltb_spec (now / interval * interval) (e' + interval)) as [|Hr]; [done|].
  destruct ((e' + interval =? _) && _); [done|]. injection Hdm as ->.
  cbn [rd_input_range ir_end_ms] in H.
  match type of H with context [wd_run w ?x now] => set (dec := x) in H end.
  assert (Ht' : in_time args (e' + interval)).
  { unfold in_time in *. fold interval in Hnow, Ht |- *.
    pose proof (Z.mul_div_le now interval). nia. }
  assert (Hgo : forall ran d', (ran = None \/ ran = Some dec) ->
    d' = mkDrained (dn_runs d ++ option_list ran) (dn_ends d ++ [e' + interval]) (Some (e' + interval)) ->
    (if wd_shutdown w (2 * n + 1) then Ok d'
     else drain_loop w args budget (S n) (wd_clock w n) None completed d') = Ok r ->
    Forall (fun x => e <= ir_start_ms (rd_input_range x)) (dn_runs r)).
  { intros ran d' Hran -> Hk.
    assert (Hd' : Forall (fun x => e <= ir_start_ms (rd_input_range x)) (dn_runs d ++ option_list ran)).
    { apply Forall_app. split; [done|]. destruct Hran as [->| ->]; repeat constructor. done. }
    destruct (wd_shutdown w _); [by injection Hk as <-|].
    eapply (IH (S n)); [..|exact Hk]; [done|done|lia|done|exists (b + 1); lia|done]. }
  destruct (bool_decide _); [exact (Hgo None _ (or_introl eq_refl) eq_refl H)|].
  destruct (wd_run w dec now) as [u|]; [|done].
  exact (Hgo (Some dec) _ (or_intror eq_refl) eq_refl H).
Qed.

Lemma tick_after now e r :
  in_time args now -> in_time args e -> (interval | e) ->
  drain_ready_windows w args now (Some e) None = Ok r ->
  Forall (fun x => e <= ir_start_ms (rd_input_range x)) (dn_runs r).
Proof.
  intros Hnow He Hal H. unfold drain_ready_windows, run_live_priority_decision in H.
  destruct (decide_live_priority_mode args now (Some e)) as [[d|]|] eqn:Ed; [| |done]; cbn in H.
  - assert (Hs : e <= ir_start_ms (rd_input_range d)).
    { eapply live_priority_after; [done|exact Hnow|apply He|exact Hal|exact Ed]. }
    destruct (wd_run w d now) as [u|]; [|done]. cbn in H.
    destruct (na_live_priority_only args); [injection H as <-; cbn; by repeat constructor|].
    case_bool_decide as Hd.
    + injection Hd as Hse.
      assert (Hend : ir_end_ms (rd_input_range d) = e + interval /\ in_time args (e + interval)).
      { unfold decide_live_priority_mode in Ed. destruct (negb _ || _); [done|].
        assert (Hint : 0 < interval <= int_max I64) by apply Hpl. unfold in_time in Hnow, He |- *.
        destruct (ready_end_spec now interval) as [Hr Hb]; [lia..|].
        destruct (_ || _); [done|]. fold interval in Ed, Hnow, He |- *.
        set (q := ready_end now interval) in *.
        destruct (Z.leb_spec q e); [done|]. destruct (_ || _); [done|].
        destruct (validate_range _ _ _ _); [|done]. injection Ed as <-. cbn in Hse |- *.
        unfold saturate in Hse. cbn in *. lia. }
      destruct Hend as [Hend Ht]. rewrite Hend in H.
      eapply drain_loop_after; [..|exact H]; cbn; [apply Hclock|done| | |
        |by repeat constructor].
      * assert (0 < interval) by apply Hpl. lia.
      * done.
      * destruct Hal as [a ->]. exists (a + 1). lia.
    + eapply drain_loop_after; [..|exact H]; cbn;
        [apply Hclock|done|lia|done|done|by repeat constructor].
  - destruct (na_live_priority_only args); [by injection H as <-|].
    eapply drain_loop_after; [..|exact H]; cbn; [done|done|lia|done|done|constructor].
Qed.
End tick_order.

(** every window that a tick runs, the live-priority one included, starts at or
    after the last success that the tick discovered.  So once a live-priority window
    has become the newest success, the windows between the sequential position and
    that window are not run by any later tick. *)
Theorem tick_never_goes_back (w : World) (args : NormalizeArgs) (now e : Z) (r : Drained) :
  planned args -> (forall i, in_time args (wd_clock w i)) -> in_time args now -> in_time args e ->
  (na_schedule_interval_ms args | e) ->
  drain_ready_windows w args now (Some e) None = Ok r ->
  Forall (fun x => e <= ir_start_ms (rd_input_range x)) (dn_runs r).
Proof. intros Hpl Hclock. by apply tick_after. Qed.

(** ** The audit *)

Section audit_facts.
Context {L : StorageLib}.

(** The windows of a range. *)
Definition windows (s window_ms : Z) (n : nat) : list Z :=
  map (fun i => s + Z.of_nat i * window_ms) (seq 0 n).

Lemma windows_succ s window_ms n :
  windows s window_ms (S n) = s :: windows (s + window_ms) window_ms n.
Proof.
  unfold windows. cbn [seq map]. rewrite Z.mul_0_l, Z.add_0_r. f_equal.
  rewrite <- seq_shift, map_map. apply map_ext. intros. lia.
Qed.

Lemma window_starts_all fuel s window_ms n : (n <= fuel)%nat -> 0 < window_ms -> 0 <= s ->
  s + Z.of_nat n * window_ms <= int_max I64 ->
  window_starts_loop fuel s (s + Z.of_nat n * window_ms) window_ms = windows s window_ms n.
Proof.
  revert s n. induction fuel as [|fuel IH]; intros s n Hn Hw Hs Hmax.
  { by destruct n; [|lia]. }
  cbn. destruct (Z.ltb_spec s (s + Z.of_nat n * window_ms)) as [Hlt|Hge].
  - destruct n as [|n]; [lia|]. rewrite windows_succ. f_equal.
    rewrite checked_in_range by (unfold in_range; cbn in *; nia).
    destruct (Z.leb_spec (s + window_ms) s); [lia|].
    rewrite <- (IH (s + window_ms) n); [f_equal; lia|lia|lia|lia|lia].
  - assert (n = 0%nat) as -> by nia. done.
Qed.

Lemma audit_keys_all fuel keys s window_ms n : (n < fuel)%nat -> 0 < window_ms -> 0 <= s ->
  s + Z.of_nat n * window_ms <= int_max I64 -> zlen keys + Z.of_nat n <= MAX_AUDIT_WINDOWS ->
  audit_keys_loop fuel keys s (s + Z.of_nat n * window_ms) window_ms
    = Ok (keys ++ map (index_pointer_key window_ms) (windows s window_ms n)).
Proof.
  revert keys s n. induction fuel as [|fuel IH]; intros keys s n Hn Hw Hs Hmax Hcap; [lia|].
  cbn [audit_keys_loop]. destruct (Z.ltb_spec s (s + Z.of_nat n * window_ms)) as [Hlt|Hge].
  - destruct n as [|n]; [lia|]. destruct (Z.leb_spec MAX_AUDIT_WINDOWS (zlen keys)); [lia|].
    rewrite checked_in_range by (unfold in_range; cbn in *; nia).
    destruct (Z.leb_spec (s + window_ms) s); [lia|].
    replace (s + Z.of_nat (S n) * window_ms) with (s + window_ms + Z.of_nat n * window_ms) by lia.
    rewrite IH; [|lia|lia|lia|lia|rewrite zlen_snoc; lia].
    by rewrite windows_succ, <- app_assoc.
  - assert (n = 0%nat) as -> by nia. by rewrite app_nil_r.
Qed.

Lemma audit_keys_too_many fuel keys s window_ms n : 
  0 < window_ms -> 0 <= s -> s + Z.of_nat n * window_ms <= int_max I64 ->
  MAX_AUDIT_WINDOWS < zlen keys + Z.of_nat n -> zlen keys <= MAX_AUDIT_WINDOWS ->
  MAX_AUDIT_WINDOWS - zlen keys < Z.of_nat fuel ->
  audit_keys_loop fuel keys s (s + Z.of_nat n * window_ms) window_ms
    = Err "audit range exceeds 100000 windows"%string.
Proof.
  revert keys s n. induction fuel as [|fuel IH]; intros keys s n Hw Hs Hmax Hn Hcap Hfuel; [lia|].
  cbn [audit_keys_loop]. destruct (Z.ltb_spec s (s + Z.of_nat n * window_ms)) as [Hlt|Hge]; [|nia].
  destruct (Z.leb_spec MAX_AUDIT_WINDOWS (zlen keys)); [done|].
  destruct n as [|n]; [lia|].
  rewrite checked_in_range by (unfold in_range; cbn in *; nia).
  destruct (Z.leb_spec (s + window_ms) s); [lia|].
  replace (s + Z.of_nat (S n) * window_ms) with (s + window_ms + Z.of_nat n * window_ms) by lia.
  apply IH; rewrite ?zlen_snoc; lia.
Qed.
End audit_facts.

Section audit_exact.
Context {L : StorageLib}.

Lemma index_window_starts_all s window_ms n : 0 < window_ms -> 0 <= s ->
  s + Z.of_nat n * window_ms <= int_max I64 ->
  index_window_starts (mkRange s (s + Z.of_nat n * window_ms)) window_ms = windows s window_ms n.
Proof.
  intros Hw Hs Hmax. unfold index_window_starts. cbn [ir_start_ms ir_end_ms].
  destruct (Z.leb_spec window_ms 0); [lia|].
  destruct (Z.leb_spec (s + Z.of_nat n * window_ms) s) as [|Hlt]; cbn [orb].
  - assert (n = 0%nat) as -> by nia. done.
  - rewrite window_starts_all; [done| |done..]. unfold window_fuel.
    replace (s + Z.of_nat n * window_ms - s) with (Z.of_nat n * window_ms) by lia.
    rewrite Z.div_mul by lia. lia.
Qed.

(** Every pointer key is listed under one of the audited hour prefixes. *)
Lemma audited_prefix keys window_ms t : index_pointer_key window_ms t ∈ keys ->
  exists prefix, prefix ∈ audit_hour_prefixes keys /\
    starts_with prefix (index_pointer_key window_ms t) = true.
Proof.
  intros Hin. set (k := index_pointer_key window_ms t) in *.
  assert (exists a b, k = (a ++ "window_start_ms=" ++ b)%string) as (a & b & Hk).
  { exists ("l1_index/window_ms=" ++ show_Z window_ms ++ "/" ++ hour_dir t)%string,
      (show_Z t ++ ".json")%string. unfold k, index_pointer_key. by rewrite !str_app_assoc. }
  destruct (rsplit_once_app "window_start_ms=" a b) as [[p rest] Hr]; [done|]. rewrite <- Hk in Hr.
  exists p. split.
  - unfold audit_hour_prefixes. rewrite bcollect_keys. apply list_elem_of_fmap.
    exists (p, ()). split; [done|]. apply list_elem_of_omap. exists k. by rewrite Hr.
  - apply rsplit_once_Some in Hr as ->. apply starts_with_app.
Qed.

(** What listing a bucket of keys answers. *)
Definition listing {E} (bucket : list string) (prefix : string) : result E (list string) :=
  Ok (List.filter (starts_with prefix) bucket).

Lemma try_map_listing {E} bucket prefixes :
  try_map (listing (E := E) bucket) prefixes = Ok (map (fun p => List.filter (starts_with p) bucket) prefixes).
Proof. induction prefixes as [|p ps IH]; cbn; [done|]. by rewrite IH. Qed.

Lemma audited_listing bucket keys window_ms t : index_pointer_key window_ms t ∈ keys ->
  index_pointer_key window_ms t
    ∈ List.concat (map (fun p => List.filter (starts_with p) bucket) (audit_hour_prefixes keys))
  <-> index_pointer_key window_ms t ∈ bucket.
Proof.
  intros Hin. rewrite (list_elem_of_In bucket), (list_elem_of_In (List.concat _)), in_concat. split.
  - intros (l & Hl & Hk). apply in_map_iff in Hl as (p & <- & _). by apply filter_In in Hk as [? _].
  - intros Hb. destruct (audited_prefix _ _ _ Hin) as (p & Hp & Hs).
    exists (List.filter (starts_with p) bucket). split; [|by apply filter_In].
    apply in_map_iff. exists p. split; [done|]. by apply list_elem_of_In.
Qed.

Lemma audit_all_present bucket (args : NormalizeArgs) s n :
  let w := na_window_ms args in
  0 < w -> 0 <= s -> (w | s) -> 0 < Z.of_nat n <= MAX_AUDIT_WINDOWS ->
  s + Z.of_nat n * w <= int_max I64 ->
  let keys := map (index_pointer_key w) (windows s w n) in
  run_l1_index_audit (listing bucket) args (mkRange s (s + Z.of_nat n * w))
  = let missing := List.filter (fun k => negb (bool_decide (k ∈ bucket))) keys in
    if zlen missing =? 0 then Ok ()
    else Err ("l1 index audit failed: missing " ++ show_Z (zlen missing) ++ "/"
                ++ show_Z (Z.of_nat n) ++ " pointers")%string.
Proof.
  intros w Hw Hs [b Hb] Hn Hmax keys. unfold run_l1_index_audit, audit_expected_keys.
  cbn [ir_start_ms ir_end_ms]. fold w.
  destruct (Z.leb_spec (s + Z.of_nat n * w) s); [nia|]. destruct (Z.leb_spec w 0); [lia|].
  replace (Z.rem s w) with 0 by (rewrite Hb, rem_multiple; done).
  replace (Z.rem (s + Z.of_nat n * w) w) with 0
    by (rewrite Hb, <- Z.mul_add_distr_r, rem_multiple; done).
  cbn [negb orb Z.eqb]. rewrite audit_keys_all; [|lia|done..|rewrite zlen_nil; lia].
  cbn [mbind result_bind]. rewrite try_map_listing. cbn [mbind result_bind app]. fold keys.
  assert (Hf : List.filter (fun k => negb (bool_decide (k ∈ List.concat
      (map (fun p => List.filter (starts_with p) bucket) (audit_hour_prefixes keys))))) keys
    = List.filter (fun k => negb (bool_decide (k ∈ bucket))) keys).
  { apply filter_ext_in. intros k Hk. f_equal. apply bool_decide_ext.
    pose proof Hk as Hk'. apply in_map_iff in Hk as (t & <- & _).
    apply audited_listing. by apply list_elem_of_In. }
  rewrite Hf. replace (zlen keys) with (Z.of_nat n); [done|].
  unfold keys, windows, zlen. by rewrite !length_map, length_seq.
Qed.

Lemma filter_none_iff {A} (p : A -> bool) l :
  zlen (List.filter p l) = 0 <-> forall x, x ∈ l -> p x = false.
Proof.
  unfold zlen. split.
  - intros H x Hx. destruct (p x) eqn:E; [|done].
    assert (Hin : In x (List.filter p l)) by (apply filter_In; split; [by apply list_elem_of_In|done]).
    destruct (List.filter p l); [done|]. cbn in H. lia.
  - intros H. destruct (List.filter p l) as [|x l'] eqn:E; [done|].
    assert (Hin : In x (List.filter p l)) by (rewrite E; by left).
    apply filter_In in Hin as [Hx Hp]. rewrite H in Hp; [done|by apply list_elem_of_In].
Qed.

(** C35: on an aligned range the audit succeeds exactly when the range has at most
    100000 windows and the bucket holds the pointer of every window that publishing
    the range indexes. *)
Theorem audit_checks_every_window (bucket : list string) (args : NormalizeArgs) (s : Z) (n : nat) :
  let w := na_window_ms args in
  let r := mkRange s (s + Z.of_nat n * w) in
  0 < w -> 0 <= s -> (w | s) -> 0 < Z.of_nat n -> s + Z.of_nat n * w <= int_max I64 ->
  run_l1_index_audit (listing bucket) args r = Ok () <->
  zlen (index_window_starts r w) <= MAX_AUDIT_WINDOWS /\
  Forall (fun t => index_pointer_key w t ∈ bucket) (index_window_starts r w).
Proof.
  intros w r Hw Hs Hal Hn Hmax. unfold r. rewrite index_window_starts_all by done.
  replace (zlen (windows s w n)) with (Z.of_nat n)
    by (unfold windows, zlen; by rewrite length_map, length_seq).
  destruct (Z.le_gt_cases (Z.of_nat n) MAX_AUDIT_WINDOWS) as [Hle|Hgt].
  - unfold w. rewrite audit_all_present by (fold w; lia || done). fold w. cbv zeta.
    rewrite Forall_forall.
    destruct (Z.eqb_spec (zlen (List.filter (fun k => negb (bool_decide (k ∈ bucket)))
      (map (index_pointer_key w) (windows s w n)))) 0) as [H0|H0].
    + split; [|done]. intros _. split; [done|]. intros t Ht.
      pose proof (proj1 (filter_none_iff _ _) H0 (index_pointer_key w t)) as H1.
      apply negb_false_iff in H1; [by apply bool_decide_eq_true in H1|].
      by apply list_elem_of_fmap_2.
    + split; [done|]. intros [_ Hall]. destruct H0. apply filter_none_iff. intros k Hk.
      apply list_elem_of_fmap in Hk as (t & -> & Ht). apply negb_false_iff, bool_decide_eq_true.
      by apply Hall.
  - split; [|lia]. unfold run_l1_index_audit, audit_expected_keys. cbn [ir_start_ms ir_end_ms].
    fold w. destruct (_ <=? s); [done|]. destruct (_ || _); [done|].
    destruct (Z.leb_spec w 0); [lia|].
    rewrite audit_keys_too_many; [done|done|done|done|rewrite zlen_nil; lia|rewrite zlen_nil; done|].
    rewrite zlen_nil, Z2Nat.id; unfold MAX_AUDIT_WINDOWS; lia.
Qed.
End audit_exact.

Section discovery_facts.
Context {L : StorageLib} {V : Type} {J : DocJson V}.
Context (list_page : string -> Z -> result StorageError (list string)).
Context (download : string -> result StorageError V).

Abbreviation success := (success_end_ms_from_pointer download).

Lemma first_success_Some l e : first_success download l = Ok (Some e) ->
  exists l1 k l2, l = l1 ++ k :: l2 /\ success k = Ok (Some e) /\
    Forall (fun k' => success k' = Ok None) l1.
Proof.
  induction l as [|k l IH]; cbn; [done|].
  destruct (success k) as [[v|]|] eqn:Ek; cbn; [| |done].
  - intros [= ->]. by exists [], k, l.
  - intros H. destruct (IH H) as (l1 & k' & l2 & -> & Hk & Hl).
    exists (k :: l1), k', l2. by split_and!; [| |constructor].
Qed.

Lemma first_success_None l : first_success download l = Ok None ->
  Forall (fun k' => success k' = Ok None) l.
Proof.
  induction l as [|k l IH]; cbn; [done|].
  destruct (success k) as [[v|]|] eqn:Ek; cbn; [done| |done]. constructor; auto.
Qed.

Lemma json_keys_desc_elem keys k : k ∈ json_keys_desc keys <-> k ∈ keys /\ ends_with ".json" k = true.
Proof.
  unfold json_keys_desc. rewrite sort_by_perm, list_elem_of_In, filter_In. by rewrite list_elem_of_In.
Qed.

Lemma json_keys_desc_sorted keys :
  StronglySorted (fun a b => str_leb b a = true) (json_keys_desc keys).
Proof.
  apply (sort_by_sorted (fun a b => str_leb b a)).
  - intros x y. apply str_leb_total.
  - intros x y z Hxy Hyz. by apply (str_leb_trans z y x).
Qed.

(** [k] answers the search of one hour: it succeeds and no greater key does. *)
Definition newest_in (keys : list string) (k : string) (e : Z) : Prop :=
  k ∈ keys /\ ends_with ".json" k = true /\ success k = Ok (Some e) /\
  forall k', k' ∈ keys -> ends_with ".json" k' = true -> str_cmp k k' = Lt -> success k' = Ok None.

Definition none_in (keys : list string) : Prop :=
  forall k', k' ∈ keys -> ends_with ".json" k' = true -> success k' = Ok None.

Lemma hour_success keys e : first_success download (json_keys_desc keys) = Ok (Some e) ->
  exists k, newest_in keys k e.
Proof.
  intros H. pose proof (json_keys_desc_sorted keys) as Hs.
  apply first_success_Some in H as (l1 & k & l2 & Hl & Hk & Hnone). exists k.
  assert (Hin : k ∈ json_keys_desc keys) by (rewrite Hl; set_solver).
  apply json_keys_desc_elem in Hin as [Hin Hjson]. split_and!; [done..|].
  intros k' Hk' Hj' Hlt. assert (Hin' : k' ∈ json_keys_desc keys) by by apply json_keys_desc_elem.
  rewrite Hl in Hin', Hs. apply elem_of_app in Hin' as [Hin'|Hin'].
  { rewrite Forall_forall in Hnone. by apply Hnone. }
  assert (Hle : str_leb k' k = true).
  { apply elem_of_cons in Hin' as [->|Hin']; [apply str_leb_lt_or_eq; by left|].
    clear Hl Hnone. induction l1 as [|x l1 IH]; cbn in Hs; apply StronglySorted_inv in Hs as [Hs Hx].
    - rewrite Forall_forall in Hx. by apply Hx.
    - by apply IH. }
  apply str_leb_lt_or_eq in Hle as [->|Hle]; [by rewrite str_cmp_refl in Hlt|].
  by rewrite str_cmp_sym, Hlt in Hle.
Qed.

Lemma search_hours_Some hours offset latest window_ms e :
  search_hours list_page download hours offset latest window_ms = Ok (Some e) ->
  let page i := list_page (l1_pointer_hour_prefix window_ms
    (saturate I64 (latest - saturate I64 ((offset + Z.of_nat i) * HOUR_MS)))) L1_POINTER_KEYS_PER_HOUR in
  exists i, (i < hours)%nat /\ (exists keys k, page i = Ok keys /\ newest_in keys k e) /\
    forall j, (j < i)%nat -> exists keys, page j = Ok keys /\ none_in keys.
Proof.
  revert offset. induction hours as [|hours IH]; intros offset; [done|].
  intros H page. cbn [search_hours] in H. pose proof (Z.add_0_r offset) as H0.
  destruct (list_page _ _) as [keys|] eqn:Ep; cbn [mbind result_bind] in H; [|done].
  destruct (first_success download (json_keys_desc keys)) as [[v|]|] eqn:Ef; cbn in H; [| |done].
  - injection H as ->. apply hour_success in Ef as [k Hk]. exists 0%nat. split_and!; [lia| |lia].
    exists keys, k. unfold page. change (Z.of_nat 0) with 0. by rewrite H0.
  - apply IH in H as (i & Hi & (keys' & k & Hp & Hk) & Hj).
    assert (Hshift : forall n : nat, offset + 1 + Z.of_nat n = offset + Z.of_nat (S n)) by lia.
    rewrite Hshift in Hp. exists (S i). split_and!; [lia|by exists keys', k|].
    intros [|j] Hlt.
    + exists keys. unfold page. change (Z.of_nat 0) with 0. rewrite H0. split; [done|]. intros k' Hk' Hj'.
      apply first_success_None in Ef. rewrite Forall_forall in Ef. apply Ef.
      by apply json_keys_desc_elem.
    + destruct (Hj j ltac:(lia)) as (keys'' & Hp' & Hn). rewrite Hshift in Hp'. by exists keys''.
Qed.

(** a last success found by the discovery is that of the greatest pointer key,
    among the listed ones of the newest hour that has a successful pointer; every
    listed pointer of a newer hour, and every greater one of the same hour, was read
    and was not a success. *)
Theorem discovery_finds_newest_success (args : NormalizeArgs) (now e : Z) :
  resolve_last_l1_success_end_ms list_page download args now = Ok (Some e) ->
  let page i := list_page (l1_pointer_hour_prefix (na_window_ms args)
    (saturate I64 (floor_hour_ms now - saturate I64 (Z.of_nat i * HOUR_MS)))) L1_POINTER_KEYS_PER_HOUR in
  exists i, Z.of_nat i < MAX_L1_POINTER_LOOKBACK_HOURS /\
    (exists keys k, page i = Ok keys /\ newest_in keys k e) /\
    forall j, (j < i)%nat -> exists keys, page j = Ok keys /\ none_in keys.
Proof.
  unfold resolve_last_l1_success_end_ms. intros H.
  apply search_hours_Some in H as (i & Hi & Hk & Hj). cbn [Z.add] in Hk, Hj.
  exists i. split; [unfold MAX_L1_POINTER_LOOKBACK_HOURS in *; lia|]. by split.
Qed.

Lemma last_is_head keys k : Sorted (fun a b => str_leb a b = true) (keys ++ [k]) ->
  ends_with ".json" k = true -> exists l, json_keys_desc (keys ++ [k]) = k :: l.
Proof.
  intros Hs Hj. apply Sorted_StronglySorted in Hs; [|intros x y z; apply str_leb_trans].
  assert (Hk : k ∈ json_keys_desc (keys ++ [k])) by (apply json_keys_desc_elem; split; [set_solver|done]).
  pose proof (json_keys_desc_sorted (keys ++ [k])) as Hd.
  destruct (json_keys_desc (keys ++ [k])) as [|x l] eqn:El; [by apply elem_of_nil in Hk|].
  exists l. f_equal. apply str_leb_antisym.
  - assert (Hx : x ∈ keys ++ [k]).
    { apply (json_keys_desc_elem (keys ++ [k]) x). rewrite El. by left. }
    apply elem_of_app in Hx as [Hx|Hx].
    + clear El Hd Hk. induction keys as [|y keys IH]; [by apply elem_of_nil in Hx|].
      apply StronglySorted_inv in Hs as [Hs Hy]. apply elem_of_cons in Hx as [->|Hx]; [|by apply IH].
      rewrite Forall_forall in Hy. apply Hy. set_solver.
    + apply list_elem_of_singleton in Hx as ->. apply str_leb_lt_or_eq. by left.
  - apply StronglySorted_inv in Hd as [_ Hd]. rewrite Forall_forall in Hd.
    apply elem_of_cons in Hk as [->|Hk]; [apply str_leb_lt_or_eq; by left|by apply Hd].
Qed.

(** the listing of an hour is cut after its first 1000 keys in ascending order:
    when the newest hour holds more pointers than that (it holds 3600 with the
    default one-second window), the discovery answers the success of its 1000th
    pointer, whatever the later pointers of the hour say. *)
Theorem discovery_stops_at_page_limit (args : NormalizeArgs) (now e : Z) (hour_keys : list string)
    (k : string) :
  list_page (l1_pointer_hour_prefix (na_window_ms args) (saturate I64 (floor_hour_ms now)))
    L1_POINTER_KEYS_PER_HOUR = Ok (firstn (Z.to_nat L1_POINTER_KEYS_PER_HOUR) hour_keys) ->
  Sorted (fun a b => str_leb a b = true) hour_keys ->
  hour_keys !! Z.to_nat (L1_POINTER_KEYS_PER_HOUR - 1) = Some k ->
  ends_with ".json" k = true -> success k = Ok (Some e) ->
  resolve_last_l1_success_end_ms list_page download args now = Ok (Some e).
Proof.
  intros Hpage Hs Hk Hj He. unfold resolve_last_l1_success_end_ms.
  replace (Z.to_nat L1_POINTER_KEYS_PER_HOUR) with (S (Z.to_nat (L1_POINTER_KEYS_PER_HOUR - 1)))
    in Hpage by done.
  replace (Z.to_nat MAX_L1_POINTER_LOOKBACK_HOURS)
    with (S (Z.to_nat (MAX_L1_POINTER_LOOKBACK_HOURS - 1))) by done.
  generalize (Z.to_nat (MAX_L1_POINTER_LOOKBACK_HOURS - 1)). intros hours.
  generalize dependent (Z.to_nat (L1_POINTER_KEYS_PER_HOUR - 1)). intros n Hpage Hk.
  cbn [search_hours]. replace (saturate I64 (0 * HOUR_MS)) with 0 by done. rewrite Z.sub_0_r, Hpage.
  change (firstn (S n) hour_keys) with (take (S n) hour_keys). rewrite (take_S_r _ _ k) by done.
  cbn [mbind result_bind].
  destruct (last_is_head (take n hour_keys) k) as [l ->]; [|done|].
  - rewrite <- (take_S_r _ _ k) by done. apply StronglySorted_Sorted.
    apply Sorted_StronglySorted in Hs; [|intros x y z; apply str_leb_trans].
    rewrite <- (take_drop (S n) hour_keys) in Hs. by apply StronglySorted_app_1_l in Hs.
  - cbn. by rewrite He.
Qed.
End discovery_facts.

(** ** Concrete runs *)

Lemma sample_planned : planned with_defaults.
Proof.
  constructor; [|by exists 900|done]. constructor; cbn; lia.
Qed.

Definition sample_now : Z := 1700000500000.
Definition sample_world : World := mkWorld (fun _ _ => Ok ()) (fun _ => sample_now) (fun _ => false).

Lemma sample_in_time t : 0 <= t <= 2000000000000 -> in_time with_defaults t.
Proof. unfold in_time. cbn. lia. Qed.

Lemma decide_mode_picks_next_window_witness :
  decide_mode with_defaults sample_now (Some (sample_now - 1800000)) None =
    Ok (Some (mkDecision CatchUp (mkRange 1699998300000 1699999200000))).
Proof.
  etransitivity;
    [apply (decide_mode_picks_next_window with_defaults sample_now (sample_now - 1800000))|].
  - exact sample_planned.
  - apply sample_in_time; vm_decide.
  - apply sample_in_time; vm_decide.
  - done.
  - by vm_compute.
Defined.

Lemma drain_runs_consecutive_windows_witness :
  exists r m, drain_ready_windows sample_world with_defaults sample_now
      (Some (sample_now - 1800000)) None = Ok r /\
    zlen (dn_runs r) = 2 /\
    rd_input_range <$> dn_runs r = map (window_at 1699998300000 900000) (seq 0 m).
Proof.
  eexists. edestruct (drain_runs_consecutive_windows sample_world with_defaults sample_now
    (sample_now - 1800000) (Some (sample_now - 1800000)) None) as (m & _ & Hr & _).
  - exact sample_planned.
  - done.
  - done.
  - intros i. apply sample_in_time; vm_decide.
  - apply sample_in_time; vm_decide.
  - apply sample_in_time; vm_decide.
  - done.
  - by vm_compute.
  - exists m. split; [by vm_compute|]. split; [by vm_compute|]. exact Hr.
Defined.

Lemma tick_never_goes_back_witness :
  exists r, drain_ready_windows sample_world (set_na_live_priority true with_defaults) sample_now
      (Some 1699998300000) None = Ok r /\
    rd_input_range <$> dn_runs r =
      [mkRange 1699999200000 1700000100000; mkRange 1699998300000 1699999200000] /\
    Forall (fun x => 1699998300000 <= ir_start_ms (rd_input_range x)) (dn_runs r).
Proof.
  eexists. split; [by vm_compute|]. split; [done|].
  eapply (tick_never_goes_back sample_world (set_na_live_priority true with_defaults) sample_now).
  - constructor; [|by exists 900|done]. constructor; cbn; lia.
  - intros i. apply sample_in_time; vm_decide.
  - apply sample_in_time; vm_decide.
  - apply sample_in_time; vm_decide.
  - by exists 1888887.
  - by vm_compute.
Defined.

#[local] Instance sample_storage : StorageLib := {|
  sha256_hex := fun s => s;
  default_hash := fun s => Z.of_nat (String.length s);
  utc_date_hour := fun t => Some ("2023-11-14"%string, t / 3600000 mod 24);
|}.

Lemma audit_checks_every_window_witness :
  let bucket := map (index_pointer_key 1000) [0; 1000; 2000] in
  run_l1_index_audit (listing bucket) with_defaults (mkRange 0 3000) = Ok () /\
  run_l1_index_audit (listing bucket) with_defaults (mkRange 0 4000) <> Ok ().
Proof.
  split.
  - apply (audit_checks_every_window (map (index_pointer_key 1000) [0; 1000; 2000]) with_defaults 0 3).
    all: try vm_decide. by exists 0.
  - rewrite (audit_checks_every_window (map (index_pointer_key 1000) [0; 1000; 2000]) with_defaults 0 4).
    all: try vm_decide. by exists 0.
Defined.

(** Documents are key-value lists; pointers end with their window start. *)
#[local] Instance sample_docs : DocJson (list (string * string)) := {|
  dj_get := fun k v => option_map (fun s => [(k, s)]) (bget k v);
  dj_as_str := fun v => match v with [(_, s)] => Some s | _ => None end;
  dj_as_i64 := fun v => match v with [(_, s)] => parse_int I64 s | _ => None end;
|}.

Definition sample_pointer (status end_ms : string) : list (string * string) :=
  [("input_time_range_end_ms", end_ms); ("status", status)]%string.

Definition sample_download (key : string) : result StorageError (list (string * string)) :=
  Ok (if contains "=2000.json" key then sample_pointer "empty" "900000"
      else sample_pointer "success" "900000").

Definition sample_page (prefix : string) (n : Z) : result StorageError (list string) :=
  Ok (if contains "hour=0/" prefix || contains "hour=00/" prefix
      then map (index_pointer_key 1000) [0; 1000; 2000] else []).

(** More pointers in one hour than a page lists. *)
Definition sample_hour_keys : list string :=
  map (fun i => (pad_zero 4 (Z.of_nat i) ++ ".json")%string) (seq 0 1200).

Fixpoint adjacent_sorted (l : list string) : bool :=
  match l with
  | a :: (b :: _) as l' => str_leb a b && adjacent_sorted l'
  | _ => true
  end.

Lemma adjacent_sorted_Sorted l : adjacent_sorted l = true ->
  Sorted (fun a b => str_leb a b = true) l.
Proof.
  induction l as [|a [|b l] IH]; [constructor|by repeat constructor|].
  cbn [adjacent_sorted]. intros [Hab Hl]%andb_true_iff. constructor; [by apply IH|by constructor].
Qed.

Lemma discovery_finds_newest_success_witness :
  exists i, (i < 3)%nat /\ exists keys k, newest_in sample_download keys k 900000 /\
    sample_page (l1_pointer_hour_prefix 1000 (saturate I64 (7200000 - Z.of_nat i * HOUR_MS))) 1000
      = Ok keys.
Proof.
  pose proof (discovery_finds_newest_success sample_page sample_download with_defaults 7200500 900000)
    as H.
  destruct H as (i & Hi & (keys & k & Hp & Hk) & Hj); [by vm_compute|].
  destruct (decide (i < 3)%nat) as [Hlt|Hge].
  - exists i. split; [done|]. exists keys, k. split; [done|]. rewrite <- Hp. f_equal. f_equal.
    destruct i as [|[|[|i]]]; [done..|lia].
  - exists 2%nat. split; [lia|]. destruct (Hj 2%nat ltac:(lia)) as (keys' & Hp' & Hn).
    exfalso. vm_compute in Hp'. injection Hp' as <-. specialize (Hn (index_pointer_key 1000 0)).
    discriminate Hn; [by left|done].
Defined.

Lemma discovery_stops_at_page_limit_witness :
  resolve_last_l1_success_end_ms
    (fun _ n => Ok (firstn (Z.to_nat n) sample_hour_keys))
    (fun key => Ok (sample_pointer "success"
                      (if str_leb key "0999.json" then "1800000" else "3600000")))
    with_defaults 3700000 = Ok (Some 1800000).
Proof.
  apply (discovery_stops_at_page_limit _ _ with_defaults 3700000 1800000 sample_hour_keys "0999.json").
  - done.
  - apply adjacent_sorted_Sorted. by vm_compute.
  - by vm_compute.
  - by vm_compute.
  - by vm_compute.
Defined.
