(* ===== verification/L1Inputs.v ===== *)
(** * L1Inputs: which L0 objects a normalizer run reads

    [normalize/input_keys], the ranges of [normalize/run/decision.rs] and the
    bootstrap of [normalize/discovery].  Listing a bucket, walking the spool and
    parsing an RFC 3339 timestamp are parameters. *)
From Stdlib Require Import Sorting.Sorted.
From S2P Require Import Prelude Text OrderedMap Records NormalizeArgs L1Window.
Open Scope Z_scope.

(* rust: src/normalize/input_keys.rs VENUES *)
Definition VENUES : list string := ["upbit"; "binance"]%string.
(* rust: src/normalize/input_keys.rs RAW_EVENT_TYPES *)
Definition RAW_EVENT_TYPES : list string :=
  ["trade"; "book_ticker"; "depth_delta"; "depth_snapshot"; "ticker"; "funding_rate_snapshot";
   "open_interest_snapshot"]%string.
(* rust: src/normalize/input_keys/s3/prefixes.rs GAP_ALERT_TYPES *)
Definition GAP_ALERT_TYPES : list string :=
  ["depth_update_id_gap"; "ordering_violation"; "upbit_error"]%string.

(** ** The ranges of a run *)

(** The scan range, and the range that is read. *)
(* rust: src/normalize/run/decision.rs 28-54 run_decision_body *)
Definition run_ranges (args : NormalizeArgs) (input_range : InputRange) : InputRange * InputRange :=
  let scan_range := mkRange (saturate I64 (ir_start_ms input_range - na_scan_margin_ms args))
                            (saturate I64 (ir_end_ms input_range + na_scan_margin_ms args)) in
  let projection_lookback_ms :=
    if na_live_priority_only args then na_scan_margin_ms args else na_projection_lookback_ms args in
  (scan_range,
   mkRange (saturate I64 (ir_start_ms input_range
              - Z.max (na_scan_margin_ms args) projection_lookback_ms))
           (ir_end_ms scan_range)).

(** ** Hours and prefixes *)

Section inputs.
Context {L : StorageLib}.

(** An hour: its date and number. *)
(* rust: src/normalize/input_keys/time.rs HourPart *)
Definition HourPart : Type := string * Z.

Fixpoint hourly_parts_loop (fuel : nat) (current end_ms : Z) : list HourPart :=
  match fuel with
  | O => []
  | S fuel =>
      if current <? end_ms then
        time_part current :: hourly_parts_loop fuel (saturate I64 (current + 3600000)) end_ms
      else []
  end.

(** One step per hour. *)
(* rust: src/normalize/input_keys/time.rs hourly_parts *)
Definition hourly_parts (start_ms end_ms : Z) : list HourPart :=
  let first := floor_hour_ms start_ms in
  hourly_parts_loop (Z.to_nat ((end_ms - first) / HOUR_MS + 1)) first end_ms.

Definition part_dir (part : HourPart) : string :=
  ("/event_date=" ++ part.1 ++ "/hour=" ++ pad_zero 2 part.2 ++ "/")%string.

(* rust: src/normalize/input_keys/s3/prefixes.rs input_prefixes_for_part *)
Definition input_prefixes_for_part (part : HourPart) : list string :=
  List.flat_map (fun venue =>
    map (fun event_type => "raw_market_event/venue=" ++ venue ++ "/event_type=" ++ event_type
                             ++ part_dir part)%string RAW_EVENT_TYPES
    ++ [("symbol_health/venue=" ++ venue ++ part_dir part)%string;
        ("source_health/venue=" ++ venue ++ part_dir part)%string]
    ++ map (fun gap_type => "gap_alert/venue=" ++ venue ++ "/gap_type=" ++ gap_type
                              ++ part_dir part)%string GAP_ALERT_TYPES) VENUES.

(** ** The S3 listing *)

(** The number of seconds after the last dash of the run id, in milliseconds. *)
(* rust: src/normalize/input_keys/s3/selection.rs run_start_ms_from_key *)
Definition run_start_ms_from_key (key : string) : option Z :=
  '(_, tail) ← split_once "run_id=" key;
  let run_id := match split_once "/" tail with Some (r, _) => r | None => tail end in
  let run_id := match split_once "-part-" run_id with Some (prefix, _) => prefix | None => run_id end in
  last_piece ← last (split_char "-" run_id);
  seconds ← parse_int I64 last_piece;
  checked I64 (seconds * 1000).

(* rust: src/normalize/input_keys/s3/selection.rs next_run_start_ms *)
Definition next_run_start_ms (run_starts : list Z) (current : Z) : option Z :=
  List.find (fun candidate => current <? candidate) run_starts.

(* rust: src/normalize/input_keys/s3/selection.rs select_s3_keys *)
Definition select_s3_keys (listed_keys : list string) (range : InputRange) (run_mode : RunMode)
    (l0_run_key_overlap_ms : Z) : list string :=
  let parquet_keys := List.filter (ends_with ".parquet") listed_keys in
  if negb (bool_decide (run_mode = Live)) then parquet_keys else
  let run_starts := bkeys (bcollect (map (fun z => (z, ())) (omap run_start_ms_from_key parquet_keys))) in
  let overlap_ms := Z.max l0_run_key_overlap_ms 0 in
  List.filter (fun key =>
    match run_start_ms_from_key key with
    | None => true
    | Some run_start_ms =>
        let run_end_ms := default (int_max I64) (next_run_start_ms run_starts run_start_ms) in
        let range_start_ms := saturate I64 (ir_start_ms range - overlap_ms) in
        (run_start_ms <? ir_end_ms range) && (range_start_ms <? run_end_ms)
    end) parquet_keys.

(* rust: src/normalize/input_keys/s3.rs s3_input_keys *)
Definition s3_input_keys (list_keys : string -> result StorageError (list string))
    (range : InputRange) (run_mode : RunMode) (l0_run_key_overlap_ms : Z)
    : result StorageError (list string) :=
  selected ← try_map (fun prefix =>
      listed ← list_keys prefix;
      Ok (select_s3_keys listed range run_mode l0_run_key_overlap_ms))
    (List.flat_map input_prefixes_for_part (hourly_parts (ir_start_ms range) (ir_end_ms range)));
  Ok (bkeys (bcollect (map (fun k => (k, ())) (List.concat selected)))).

(** ** The local spool *)

Definition family_markers : list string :=
  ["raw_market_event/"; "symbol_health/"; "source_health/"; "gap_alert/"]%string.

(* rust: src/normalize/input_keys/local.rs key_matches_parts *)
Definition key_matches_parts (key : string) (parts : list HourPart) : bool :=
  (starts_with "raw_market_event/" key || starts_with "symbol_health/" key
   || starts_with "source_health/" key || starts_with "gap_alert/" key)
  && existsb (fun part => contains (part_dir part) key) parts.

(** [relative] is the file's path below the root. *)
(* rust: src/normalize/input_keys/local.rs key_from_local_path *)
Definition key_from_local_path (relative : string) : option string :=
  let normalized := of_bytes (map (fun c => if Ascii.eqb c "\" then "/"%char else c) (bytes relative)) in
  head (omap (fun marker => '(_, rest) ← split_once marker normalized; Some (marker ++ rest)%string)
          family_markers).

(* rust: src/normalize/input_keys/entry.rs InputEntrySource *)
Inductive InputEntrySource := Local | S3.

(* rust: src/normalize/input_keys/entry.rs InputEntry *)
Record InputEntry := mkEntry {
  ie_key : string; ie_path : option string; ie_source : InputEntrySource }.

(** [files] are the Parquet files under the root, each with its relative and its
    full path. *)
(* rust: src/normalize/input_keys/local.rs local_input_entries *)
Definition local_input_entries (files : list (string * string)) (range : InputRange)
    : list InputEntry :=
  let parts := hourly_parts (ir_start_ms range) (ir_end_ms range) in
  bvalues (bcollect (omap (fun file : string * string =>
    key ← key_from_local_path file.1;
    if key_matches_parts key parts then Some (key, mkEntry key (Some file.2) Local) else None) files)).

(* rust: src/normalize/input_keys/entry.rs merge_entries *)
Definition merge_entries (local_entries : list InputEntry) (s3_keys : list string)
    : list InputEntry :=
  let entries := bcollect (map (fun entry => (ie_key entry, entry)) local_entries) in
  bvalues (fold_left (fun entries key =>
    bupdate key (mkEntry key None S3) (fun entry => entry) entries) s3_keys entries).

(* rust: src/normalize/input_keys/entry.rs collect_input_entries *)
Definition collect_input_entries (list_keys : string -> result StorageError (list string))
    (files : result StorageError (list (string * string))) (range : InputRange) (run_mode : RunMode)
    (l0_run_key_overlap_ms : Z) : result StorageError (list InputEntry) :=
  local_entries ← (if bool_decide (run_mode = Live)
                   then files ← files; Ok (local_input_entries files range)
                   else Ok []);
  s3_keys ← s3_input_keys list_keys range run_mode l0_run_key_overlap_ms;
  Ok (merge_entries local_entries s3_keys).

(** ** The oldest L0 object *)

(** [key.get(a..a + n)] on what follows a marker. *)
Definition take_exactly (n : nat) (s : string) : option string :=
  if (n <=? String.length s)%nat then Some (String.substring 0 n s) else None.

(* rust: src/normalize/discovery/time.rs parse_event_date_hour_ms *)
Definition parse_event_date_hour_ms (parse_from_rfc3339 : string -> option Z) (key : string)
    : option Z :=
  '(_, after_date) ← split_once "event_date=" key;
  date_str ← take_exactly 10 after_date;
  '(_, after_hour) ← split_once "/hour=" key;
  hour_str ← take_exactly 2 after_hour;
  hour ← parse_int U32 hour_str;
  parse_from_rfc3339 (date_str ++ "T" ++ pad_zero 2 hour ++ ":00:00Z")%string.

(* rust: src/normalize/discovery/bootstrap.rs resolve_oldest_l0_object_ms *)
Definition resolve_oldest_l0_object_ms (parse_from_rfc3339 : string -> option Z)
    (list_page : string -> Z -> result StorageError (list string)) : result StorageError (option Z) :=
  try_fold (fun oldest prefix =>
      keys ← list_page prefix 1;
      Ok (match (key ← List.find (ends_with ".parquet") keys;
                 parse_event_date_hour_ms parse_from_rfc3339 key) with
          | Some candidate =>
              Some (match oldest with Some current => Z.min current candidate | None => candidate end)
          | None => oldest
          end))
    None
    (List.flat_map (fun venue => map (fun event_type =>
       "raw_market_event/venue=" ++ venue ++ "/event_type=" ++ event_type ++ "/")%string
       RAW_EVENT_TYPES) VENUES).
End inputs.

(** ** Listed hours *)

(** The calendar gives every moment of an hour the date and the number of the hour. *)
Class UtcHours {L : StorageLib} : Prop :=
  utc_hours : forall t, 0 <= t -> utc_date_hour t = utc_date_hour (t / HOUR_MS * HOUR_MS).

Section hours.
Context {L : StorageLib} {HL : UtcHours}.

Lemma floor_hour_pos t : 0 <= t <= int_max I64 -> floor_hour_ms t = t / HOUR_MS * HOUR_MS.
Proof.
  intros Ht. unfold floor_hour_ms. rewrite div_euclid_pos by done. apply wrap_id.
  pose proof (Z.mul_div_le t HOUR_MS). pose proof (Z.div_pos t HOUR_MS).
  unfold HOUR_MS, in_range in *. cbn in *. lia.
Qed.

Lemma hourly_loop_elem k fuel current end_ms : (k < fuel)%nat -> 0 <= current ->
  current + Z.of_nat k * HOUR_MS < end_ms -> end_ms <= int_max I64 ->
  time_part (current + Z.of_nat k * HOUR_MS) ∈ hourly_parts_loop fuel current end_ms.
Proof.
  revert fuel current. induction k as [|k IH]; intros [|fuel] current Hk Hc Hlt He; try lia; cbn.
  - destruct (Z.ltb_spec current end_ms); [|lia]. rewrite Z.add_0_r. by left.
  - destruct (Z.ltb_spec current end_ms); [|unfold HOUR_MS in *; lia]. right.
    rewrite saturate_id by (unfold in_range, HOUR_MS in *; cbn in *; lia).
    replace (current + Z.of_nat (S k) * HOUR_MS) with (current + 3600000 + Z.of_nat k * HOUR_MS)
      by (unfold HOUR_MS; lia).
    apply IH; unfold HOUR_MS in *; lia.
Qed.

Lemma hourly_parts_cover start_ms end_ms t : 0 <= start_ms -> start_ms <= t < end_ms ->
  end_ms <= int_max I64 -> time_parts t ∈ hourly_parts start_ms end_ms.
Proof.
  intros Hs Ht He. unfold hourly_parts. rewrite floor_hour_pos by lia.
  unfold time_parts. rewrite utc_hours by lia. fold (time_part (t / HOUR_MS * HOUR_MS)).
  set (first := start_ms / HOUR_MS). set (n := t / HOUR_MS).
  assert (Hle : first <= n) by (apply Z.div_le_mono; [done|lia]).
  pose proof (Z.mul_div_le t HOUR_MS ltac:(done)) as Hn. fold n in Hn.
  assert (Hf : 0 <= first) by (apply Z.div_pos; [lia|done]).
  replace (n * HOUR_MS) with (first * HOUR_MS + Z.of_nat (Z.to_nat (n - first)) * HOUR_MS)
    by (unfold HOUR_MS; lia).
  assert (Hd : n - first <= (end_ms - first * HOUR_MS) / HOUR_MS).
  { apply Z.div_le_lower_bound; [done|]. unfold HOUR_MS in *. lia. }
  apply hourly_loop_elem; unfold HOUR_MS in *; lia.
Qed.
End hours.

(** ** Written objects are inputs *)

Section written.
Context {L : StorageLib} {HL : UtcHours}.

(** The keys of the objects the sink writes for records of the consumed families,
    venues and types whose time lies in a range. *)
Inductive written (range : InputRange) : string -> Prop :=
  | written_raw r shards run part :
      rr_venue r ∈ VENUES -> rr_event_type r ∈ RAW_EVENT_TYPES ->
      ir_start_ms range <= rr_exchange_timestamp_ms r < ir_end_ms range ->
      written range (raw_object_key (raw_partition_for r shards) run part)
  | written_source r shards run part :
      hr_venue r ∈ VENUES -> ir_start_ms range <= hr_observed_at_ms r < ir_end_ms range ->
      written range (health_object_key (health_partition_for r shards) run part)
  | written_symbol r shards run part :
      sr_venue r ∈ VENUES -> ir_start_ms range <= sr_observed_at_ms r < ir_end_ms range ->
      written range (symbol_health_object_key (symbol_health_partition_for r shards) run part)
  | written_gap r shards run part :
      gr_venue r ∈ VENUES -> gr_gap_type r ∈ GAP_ALERT_TYPES ->
      ir_start_ms range <= gr_detected_at_ms r < ir_end_ms range ->
      written range (gap_object_key (gap_partition_for r shards) run part).

(** A key is a family prefix, the directory of its partition and a file name. *)
Lemma partition_dir family date hour shard run part :
  exists file, (family ++ "/event_date=" ++ date ++ key_tail hour shard run part =
   (family ++ part_dir (date, hour)) ++ file ++ ".parquet")%string.
Proof.
  exists ("shard=" ++ pad_zero 2 shard ++ "/run_id=" ++ run ++ "-part-" ++ pad_zero 6 part)%string.
  unfold part_dir, key_tail. cbn [fst snd]. by rewrite !str_app_assoc.
Qed.

Lemma raw_key_family p run part : raw_object_key p run part =
  (("raw_market_event/venue=" ++ rp_venue p ++ "/event_type=" ++ rp_event_type p)
    ++ "/event_date=" ++ rp_event_date p ++ key_tail (rp_hour p) (rp_shard p) run part)%string.
Proof. unfold raw_object_key. by rewrite !str_app_assoc. Qed.

Lemma gap_key_family p run part : gap_object_key p run part =
  (("gap_alert/venue=" ++ gp_venue p ++ "/gap_type=" ++ gp_gap_type p)
    ++ "/event_date=" ++ gp_event_date p ++ key_tail (gp_hour p) (gp_shard p) run part)%string.
Proof. unfold gap_object_key. by rewrite !str_app_assoc. Qed.

Lemma health_key_family p run part : health_object_key p run part =
  (("source_health/venue=" ++ hp_venue p)
    ++ "/event_date=" ++ hp_event_date p ++ key_tail (hp_hour p) (hp_shard p) run part)%string.
Proof. unfold health_object_key. by rewrite !str_app_assoc. Qed.

Lemma symbol_key_family p run part : symbol_health_object_key p run part =
  (("symbol_health/venue=" ++ hp_venue p)
    ++ "/event_date=" ++ hp_event_date p ++ key_tail (hp_hour p) (hp_shard p) run part)%string.
Proof. unfold symbol_health_object_key. by rewrite !str_app_assoc. Qed.

(** The families whose prefixes are listed. *)
Inductive listed_family : string -> Prop :=
  | lf_raw v t : v ∈ VENUES -> t ∈ RAW_EVENT_TYPES ->
      listed_family ("raw_market_event/venue=" ++ v ++ "/event_type=" ++ t)
  | lf_symbol v : v ∈ VENUES -> listed_family ("symbol_health/venue=" ++ v)
  | lf_source v : v ∈ VENUES -> listed_family ("source_health/venue=" ++ v)
  | lf_gap v t : v ∈ VENUES -> t ∈ GAP_ALERT_TYPES ->
      listed_family ("gap_alert/venue=" ++ v ++ "/gap_type=" ++ t).

Lemma input_prefixes_iff prefix part :
  prefix ∈ input_prefixes_for_part part <->
  exists family, listed_family family /\ prefix = (family ++ part_dir part)%string.
Proof.
  unfold input_prefixes_for_part. rewrite list_elem_of_In, in_flat_map. split.
  - intros (v & Hv%list_elem_of_In & Hin). apply list_elem_of_In in Hin.
    rewrite !elem_of_app in Hin. destruct Hin as [Hin|[Hin|Hin]].
    + apply list_elem_of_fmap in Hin as (t & -> & Ht). eexists.
      split; [by apply lf_raw|]. by rewrite !str_app_assoc.
    + apply elem_of_cons in Hin as [->|Hin%list_elem_of_singleton]; [|subst prefix].
      * exists ("symbol_health/venue=" ++ v)%string. split; [by apply lf_symbol|].
        by rewrite !str_app_assoc.
      * exists ("source_health/venue=" ++ v)%string. split; [by apply lf_source|].
        by rewrite !str_app_assoc.
    + apply list_elem_of_fmap in Hin as (t & -> & Ht). eexists.
      split; [by apply lf_gap|]. by rewrite !str_app_assoc.
  - intros (family & Hf & ->). destruct Hf as [v t Hv Ht|v Hv|v Hv|v t Hv Ht]; exists v;
      (split; [by apply list_elem_of_In|]); apply list_elem_of_In; rewrite !elem_of_app.
    + left. apply list_elem_of_fmap. exists t. split; [by rewrite !str_app_assoc|done].
    + right; left. rewrite !str_app_assoc. by left.
    + right; left. rewrite !str_app_assoc. by right; left.
    + right; right. apply list_elem_of_fmap. exists t. split; [by rewrite !str_app_assoc|done].
Qed.

(** Each written key is a listed family, the directory of a listed hour and a Parquet
    file. *)
Lemma written_shape range k : 0 <= ir_start_ms range -> ir_end_ms range <= int_max I64 ->
  written range k -> exists family part file, listed_family family /\
    part ∈ hourly_parts (ir_start_ms range) (ir_end_ms range) /\
    k = ((family ++ part_dir part) ++ file ++ ".parquet")%string.
Proof.
  intros H0 Hmax Hw. destruct Hw as
    [r shards run part Hv Ht Hr|r shards run part Hv Hr|r shards run part Hv Hr|r shards run part Hv Ht Hr];
  pose proof (hourly_parts_cover _ _ _ H0 Hr Hmax) as Hp;
  rewrite ?raw_key_family, ?health_key_family, ?symbol_key_family, ?gap_key_family;
  match goal with |- context [(?f ++ "/event_date=" ++ ?d ++ key_tail ?h ?s ?r ?n)%string] =>
    destruct (partition_dir f d h s r n) as [file ->]; exists f, (d, h), file end;
  (split; [first [apply (lf_raw _ _ Hv Ht)|apply (lf_gap _ _ Hv Ht)|apply (lf_source _ Hv)|apply (lf_symbol _ Hv)]|]); (split; [|done]);
  rewrite (surjective_pairing (time_parts _)) in Hp; exact Hp.
Qed.

(** ** The keys a listing selects *)

Lemma s3_keys_listing bucket range run_mode overlap :
  exists keys, s3_input_keys (listing bucket) range run_mode overlap = Ok keys /\
  forall k, k ∈ keys <-> exists part prefix,
    part ∈ hourly_parts (ir_start_ms range) (ir_end_ms range) /\
    prefix ∈ input_prefixes_for_part part /\
    k ∈ select_s3_keys (List.filter (starts_with prefix) bucket) range run_mode overlap.
Proof.
  unfold s3_input_keys. set (prefixes := List.flat_map _ _).
  assert (H : try_map (fun prefix => listed ← listing bucket prefix;
      Ok (select_s3_keys listed range run_mode overlap)) prefixes =
    Ok (E := StorageError) (map (fun prefix =>
      select_s3_keys (List.filter (starts_with prefix) bucket) range run_mode overlap) prefixes)).
  { clear. induction prefixes as [|p ps IH]; cbn; [done|]. cbn in IH. by rewrite IH. }
  rewrite H. cbn [mbind result_bind]. eexists. split; [done|]. intros k.
  rewrite bcollect_keys, list_elem_of_fmap. setoid_rewrite list_elem_of_In. setoid_rewrite in_map_iff.
  setoid_rewrite in_concat. setoid_rewrite in_map_iff. split.
  - intros ([k' u] & -> & (k0 & [= <- <-] & l & (prefix & <- & Hp) & Hk)). unfold prefixes in Hp.
    apply in_flat_map in Hp as (part & Hpart & Hp). by exists part, prefix.
  - intros (part & prefix & Hpart & Hp & Hk). exists (k, ()). split; [done|]. exists k. split; [done|].
    eexists. split; [|exact Hk]. exists prefix. split; [done|]. apply in_flat_map. by exists part.
Qed.

(** C34: a catch-up or backfill run over a range reads every object of the bucket
    that the sink wrote for a record of the range: whatever the shard, run and part
    number, a raw event of a consumed venue and type, a source or symbol health, or a
    gap alert of a consumed type, stored under its own time, is among the input keys. *)
Theorem catchup_reads_every_written_object (bucket : list string) (range : InputRange)
    (run_mode : RunMode) (overlap : Z) (k : string) :
  run_mode <> Live -> 0 <= ir_start_ms range -> ir_end_ms range <= int_max I64 ->
  written range k -> k ∈ bucket ->
  exists keys, s3_input_keys (listing bucket) range run_mode overlap = Ok keys /\ k ∈ keys.
Proof.
  intros Hm H0 Hmax Hw Hk. destruct (s3_keys_listing bucket range run_mode overlap) as (keys & -> & Hi).
  exists keys. split; [done|]. apply Hi.
  destruct (written_shape range k H0 Hmax Hw) as (family & part & file & Hf & Hp & ->).
  exists part, (family ++ part_dir part)%string. split_and!; [done| |].
  { apply input_prefixes_iff. by exists family. }
  unfold select_s3_keys. rewrite (bool_decide_eq_false_2 _ Hm). cbn [negb].
  apply list_elem_of_In, filter_In. split.
  - apply filter_In. split; [by apply list_elem_of_In|]. apply starts_with_app.
  - rewrite <- str_app_assoc. apply ends_with_app.
Qed.
End written.

(** ** Gap alerts outside the list *)

Section gaps.
Context {L : StorageLib} {HL : UtcHours}.

Lemma venues_no_slash v : v ∈ VENUES -> no_slash v.
Proof.
  unfold VENUES. rewrite elem_of_cons, list_elem_of_singleton. unfold no_slash.
  intros [->| ->]; cbn; intuition congruence.
Qed.

Lemma gap_types_no_slash t : t ∈ GAP_ALERT_TYPES -> no_slash t.
Proof.
  unfold GAP_ALERT_TYPES. rewrite !elem_of_cons, elem_of_nil. unfold no_slash.
  intros [->|[->|[->|[]]]]; cbn; intuition congruence.
Qed.

(** A gap alert key lies under a listed prefix only if its type is listed. *)
Lemma gap_key_prefix p run part family d : no_slash (gp_venue p) -> no_slash (gp_gap_type p) ->
  listed_family family -> starts_with (family ++ part_dir d) (gap_object_key p run part) = true ->
  gp_gap_type p ∈ GAP_ALERT_TYPES.
Proof.
  intros Hv Ht Hf [r Hr]%starts_with_inv. unfold gap_object_key in Hr.
  destruct Hf as [v t Hv' Ht'|v Hv'|v Hv'|v t Hv' Ht']; rewrite ?str_app_assoc in Hr; [done..|].
  apply str_app_inj_l in Hr. unfold part_dir in Hr. rewrite !str_app_assoc in Hr.
  apply (component_inj _ _ "gap_type=") in Hr as [_ Hr]; [|done|by apply venues_no_slash].
  apply (component_inj _ _ "event_date=") in Hr as [-> _]; [done|done|by apply gap_types_no_slash].
Qed.

(** a gap alert that is stored for a time of the range is an input of a catch-up
    run exactly when its type is one of the three listed ones; so the alerts for
    reconnects of the feeds and for empty history, which the watchers and the backfill
    store under other types, never reach the normalizer from S3. *)
Theorem gap_alerts_read_iff_listed (bucket : list string) (range : InputRange) (run_mode : RunMode)
    (overlap : Z) (r : GapAlertRecord) (shards : Z) (run : string) (part : Z) :
  run_mode <> Live -> 0 <= ir_start_ms range -> ir_end_ms range <= int_max I64 ->
  gr_venue r ∈ VENUES -> no_slash (gr_gap_type r) ->
  ir_start_ms range <= gr_detected_at_ms r < ir_end_ms range ->
  let k := gap_object_key (gap_partition_for r shards) run part in
  k ∈ bucket ->
  exists keys, s3_input_keys (listing bucket) range run_mode overlap = Ok keys /\
    (k ∈ keys <-> gr_gap_type r ∈ GAP_ALERT_TYPES).
Proof.
  intros Hm H0 Hmax Hv Ht Hr k Hk.
  destruct (s3_keys_listing bucket range run_mode overlap) as (keys & -> & Hi).
  exists keys. split; [done|]. rewrite Hi. unfold select_s3_keys.
  rewrite (bool_decide_eq_false_2 _ Hm). cbn [negb]. split.
  - intros (d & prefix & _ & Hp & Hs). apply list_elem_of_In, filter_In in Hs as [Hs _].
    apply filter_In in Hs as [_ Hs]. apply input_prefixes_iff in Hp as (family & Hf & ->).
    eapply (gap_key_prefix (gap_partition_for r shards)) in Hs; try done. by apply venues_no_slash.
  - intros Hin. destruct (written_shape range k H0 Hmax) as (family & d & file & Hf & Hp & Ek).
    { by constructor. }
    exists d, (family ++ part_dir d)%string. split_and!; [done| |].
    { apply input_prefixes_iff. by exists family. }
    apply list_elem_of_In, filter_In. split.
    + apply filter_In. split; [by apply list_elem_of_In|]. rewrite Ek. apply starts_with_app.
    + rewrite Ek, <- str_app_assoc. apply ends_with_app.
Qed.
End gaps.

(** ** Live selection *)

Lemma find_first_greater l current : StronglySorted (fun x y => x < y) l ->
  match next_run_start_ms l current with
  | Some n => n ∈ l /\ current < n /\ forall z, z ∈ l -> current < z -> n <= z
  | None => forall z, z ∈ l -> z <= current
  end.
Proof.
  unfold next_run_start_ms. induction 1 as [|x l Hl IH Hx]; cbn.
  { intros z Hz. by apply elem_of_nil in Hz. }
  rewrite Forall_forall in Hx. destruct (Z.ltb_spec current x).
  - split_and!; [by left|done|]. intros z [->|Hz]%elem_of_cons Hlt; [lia|]. specialize (Hx _ Hz). lia.
  - destruct (List.find _ l) as [n|].
    + destruct IH as (Hn & Hc & Hmin). split_and!; [by right|done|].
      intros z [->|Hz]%elem_of_cons Hlt; [lia|by apply Hmin].
    + intros z [->|Hz]%elem_of_cons; [lia|by apply IH].
Qed.

Lemma run_starts_sorted (l : list Z) :
  StronglySorted (fun x y => x < y) (bkeys (bcollect (map (fun z => (z, ())) l))).
Proof.
  destruct (bcollect_ok (map (fun z => (z, ())) l)) as [Hs _]. revert Hs. unfold bkeys, bsorted.
  generalize (bcollect (map (fun z => (z, ())) l)). intros m Hs.
  induction Hs as [|x m Hm IH Hx]; cbn; constructor; [done|]. rewrite Forall_fmap.
  eapply Forall_impl; [exact Hx|]. intros y Hy. cbn. unfold kcmp, Z_KeyCmp in Hy.
  by apply Z.compare_lt_iff in Hy.
Qed.

Lemma run_starts_elem (l : list string) z :
  z ∈ bkeys (bcollect (map (fun z => (z, ())) (omap run_start_ms_from_key l))) <->
  exists k, k ∈ l /\ run_start_ms_from_key k = Some z.
Proof.
  rewrite bcollect_keys. change ((map ?f ?x).*1) with (fst <$> (f <$> x)).
  rewrite list_elem_of_fmap. setoid_rewrite list_elem_of_fmap. setoid_rewrite list_elem_of_omap.
  split.
  - intros ([z' []] & -> & (z2 & [= ->] & k & Hk & Hz)). by exists k.
  - intros (k & Hk & Hz). exists (z, ()). split; [done|]. exists z. split; [done|]. by exists k.
Qed.

Lemma run_start_in_range k z : run_start_ms_from_key k = Some z -> in_range I64 z.
Proof.
  unfold run_start_ms_from_key. intros H.
  destruct (split_once "run_id=" k) as [[a tail]|]; cbn in H; [|done].
  destruct (last _) as [p|]; cbn in H; [|done].
  destruct (parse_int I64 p) as [v|]; cbn in H; [|done]. by apply checked_Some in H as [-> ?].
Qed.

(** in live mode a listed Parquet key is selected exactly when its name gives
    no run start, or its run started before the end of the range and no other listed
    run started after it and no later than the overlap before the range: a run counts
    as alive until the next one starts. *)
Theorem live_selection_exact (listed : list string) (range : InputRange) (overlap : Z) (k : string) :
  0 <= ir_start_ms range < int_max I64 -> overlap <= int_max I64 ->
  k ∈ select_s3_keys listed range Live overlap <->
  k ∈ listed /\ ends_with ".parquet" k = true /\
  forall s, run_start_ms_from_key k = Some s ->
    s < ir_end_ms range /\
    forall k' s', k' ∈ listed -> ends_with ".parquet" k' = true ->
      run_start_ms_from_key k' = Some s' -> s < s' ->
      ir_start_ms range - Z.max overlap 0 < s'.
Proof.
  intros Hs Ho. unfold select_s3_keys. rewrite bool_decide_eq_true_2 by done. cbn [negb].
  rewrite saturate_id by (unfold in_range; cbn in *; lia).
  set (parquet := List.filter _ listed).
  assert (Hpq : forall x, x ∈ parquet <-> x ∈ listed /\ ends_with ".parquet" x = true).
  { intros x. unfold parquet. by rewrite !list_elem_of_In, filter_In. }
  set (starts := bkeys _).
  rewrite list_elem_of_In, filter_In, <- list_elem_of_In, Hpq, Logic.and_assoc.
  apply and_iff_compat_l, and_iff_compat_l. destruct (run_start_ms_from_key k) as [s|] eqn:Es; [|naive_solver].
  pose proof (find_first_greater starts s (run_starts_sorted _)) as Hn.
  rewrite andb_true_iff, !Z.ltb_lt. split.
  - intros [Hend Hnext] ? [= <-]. split; [done|]. intros k' s' Hk' Hj' Es' Hlt.
    assert (Hin : s' ∈ starts) by (apply run_starts_elem; exists k'; by rewrite Hpq).
    destruct (next_run_start_ms starts s) as [n|]; cbn in Hnext.
    + destruct Hn as (_ & _ & Hmin). specialize (Hmin s' Hin Hlt). lia.
    + specialize (Hn s' Hin). lia.
  - intros H. destruct (H s eq_refl) as [Hend Hall]. split; [done|].
    destruct (next_run_start_ms starts s) as [n|]; cbn in Hs |- *; [|lia].
    destruct Hn as (Hin & Hlt & _). apply run_starts_elem in Hin as (k' & Hk' & Es').
    apply Hpq in Hk' as [Hk' Hj']. by apply (Hall k' n).
Qed.

(** ** Merging local files and listed keys *)

Section merge.
Context (local_entries : list InputEntry).
Context (Hnodup : NoDup (ie_key <$> local_entries)).

Let locals := bcollect (map (fun entry => (ie_key entry, entry)) local_entries).

Lemma locals_get q e : bget q locals = Some e <-> e ∈ local_entries /\ ie_key e = q.
Proof.
  split.
  - intros H. apply bget_collect_elem in H. apply list_elem_of_fmap in H as (e' & [= -> ->] & Hin).
    done.
  - intros [Hin <-]. destruct (proj2 (bget_collect_is_Some
      (map (fun entry => (ie_key entry, entry)) local_entries) (ie_key e))) as [e' He'].
    { apply list_elem_of_fmap. exists (ie_key e, e). split; [done|].
      apply list_elem_of_fmap. by exists e. }
    fold locals in He'. rewrite He'. f_equal. apply bget_collect_elem in He'.
    apply list_elem_of_fmap in He' as (e2 & [= Ek ->] & Hin2).
    apply list_elem_of_lookup in Hin as [i Hi]. apply list_elem_of_lookup in Hin2 as [j Hj].
    assert (i = j) as ->.
    { apply (NoDup_lookup (ie_key <$> local_entries) i j (ie_key e)); [done|..];
        rewrite list_lookup_fmap, ?Hi, ?Hj; cbn; [done|by rewrite Ek]. }
    congruence.
Qed.

Definition add_listed (entries : btree string InputEntry) (key : string) :=
  bupdate key (mkEntry key None S3) (fun entry => entry) entries.

Lemma add_listed_get entries key q : bmap_ok (fun _ => True) entries ->
  bget q (add_listed entries key) =
  match bget q entries with
  | Some e => Some e
  | None => if String.eqb q key then Some (mkEntry key None S3) else None
  end.
Proof.
  intros Hm. unfold add_listed, bupdate. destruct (bget key entries) as [e|] eqn:E;
    rewrite bget_insert_str by done; destruct (String.eqb_spec q key) as [->|]; rewrite ?E; try done;
    by destruct (bget q entries).
Qed.

Lemma fold_listed_get ks entries q : bmap_ok (fun _ => True) entries ->
  bmap_ok (fun _ => True) (fold_left add_listed ks entries) /\
  bget q (fold_left add_listed ks entries) =
  match bget q entries with
  | Some e => Some e
  | None => if bool_decide (q ∈ ks) then Some (mkEntry q None S3) else None
  end.
Proof.
  revert entries. induction ks as [|k ks IH]; intros entries Hm; cbn.
  { split; [done|]. rewrite bool_decide_eq_false_2 by apply not_elem_of_nil.
    by destruct (bget q entries). }
  destruct (IH (add_listed entries k)) as [Hok ->]; [by apply (bupdate_ok (fun _ => True))|]. split; [done|].
  rewrite add_listed_get by done. destruct (bget q entries) as [e|]; [done|].
  destruct (String.eqb_spec q k) as [->|Hne].
  - rewrite bool_decide_eq_true_2; [done|by left].
  - rewrite (bool_decide_ext (q ∈ k :: ks) (q ∈ ks)); [done|]. rewrite elem_of_cons. naive_solver.
Qed.

Lemma merged_elem ks e : e ∈ merge_entries local_entries ks <->
  e ∈ local_entries \/
  exists k, k ∈ ks /\ k ∉ (ie_key <$> local_entries) /\ e = mkEntry k None S3.
Proof.
  unfold merge_entries. fold locals. fold add_listed. unfold bvalues. rewrite list_elem_of_fmap.
  assert (Hok : bmap_ok (fun _ => True) locals) by apply bcollect_ok.
  assert (Hnone : forall q, bget q locals = None <-> q ∉ (ie_key <$> local_entries)).
  { intros q. rewrite list_elem_of_fmap. destruct (bget q locals) as [x|] eqn:Ex.
    - apply locals_get in Ex. naive_solver.
    - split; [|done]. intros _ (x & -> & Hx). rewrite (proj2 (locals_get (ie_key x) x)) in Ex; done. }
  split.
  - intros ([q e'] & -> & Hin). destruct (fold_listed_get ks locals q Hok) as [Hok' Hg]. cbn.
    apply (bget_entries q e') in Hin; [|done]. rewrite Hg in Hin.
    destruct (bget q locals) as [x|] eqn:Ex.
    + injection Hin as ->. apply locals_get in Ex as [? _]. by left.
    + destruct (bool_decide (q ∈ ks)) eqn:Eq; [|done]. injection Hin as <-. right. exists q.
      apply bool_decide_eq_true in Eq. split_and!; [done|by apply Hnone|done].
  - intros H. exists (ie_key e, e). split; [done|].
    destruct (fold_listed_get ks locals (ie_key e) Hok) as [Hok' Hg].
    apply bget_entries; [done|]. rewrite Hg. destruct H as [H|(k & Hk & Hn & ->)].
    + by rewrite (proj2 (locals_get (ie_key e) e)).
    + cbn. rewrite (proj2 (Hnone k)) by done. by rewrite bool_decide_eq_true_2.
Qed.

Lemma merged_keys_sorted ks :
  StronglySorted (fun a b => str_cmp a b = Lt) (ie_key <$> merge_entries local_entries ks).
Proof.
  unfold merge_entries. fold locals. fold add_listed.
  assert (Hok : bmap_ok (fun _ => True) locals) by apply bcollect_ok.
  destruct (fold_listed_get ks locals "" Hok) as [[Hs _] _].
  assert (Hk : forall q e, (q, e) ∈ fold_left add_listed ks locals -> ie_key e = q).
  { intros q e Hin. destruct (fold_listed_get ks locals q Hok) as [Hok' Hg].
    apply (bget_entries q e) in Hin; [|done]. rewrite Hg in Hin.
    destruct (bget q locals) as [x|] eqn:Ex.
    - injection Hin as ->. by apply locals_get in Ex as [_ ?].
    - destruct (bool_decide _); [|done]. by injection Hin as <-. }
  revert Hs Hk. generalize (fold_left add_listed ks locals). intros m Hs Hk. unfold bvalues.
  induction Hs as [|[q e] m Hm IH Hx]; cbn; constructor.
  - apply IH. intros q' e' Hin. apply Hk. by right.
  - pose proof (proj1 (Forall_forall _ _) Hx) as Hx2. apply Forall_forall. intros y Hy. rewrite (Hk q e) by by left.
    apply list_elem_of_fmap in Hy as (e' & -> & He'). apply list_elem_of_fmap in He' as ([q' e2] & -> & Hin).
    specialize (Hx2 _ Hin). cbn in Hx2 |- *. rewrite (Hk q' e2) by by right. exact Hx2.
Qed.
End merge.

(** merging the local files (one per key) with the listed keys gives every key
    once, in ascending order, and takes an object from S3 only when no local file has
    its key; nothing is lost and nothing is read twice. *)
Theorem merge_prefers_local (local_entries : list InputEntry) (s3_keys : list string) :
  NoDup (ie_key <$> local_entries) ->
  StronglySorted (fun a b => str_cmp a b = Lt) (ie_key <$> merge_entries local_entries s3_keys) /\
  forall e, e ∈ merge_entries local_entries s3_keys <->
    e ∈ local_entries \/
    exists k, k ∈ s3_keys /\ k ∉ (ie_key <$> local_entries) /\ e = mkEntry k None S3.
Proof.
  intros Hn. split; [by apply merged_keys_sorted|]. intros e. by apply merged_elem.
Qed.

(** ** Concrete inputs *)

#[local] Instance sample_hours : StorageLib := {|
  sha256_hex := fun s => s;
  default_hash := fun s => Z.of_nat (String.length s);
  utc_date_hour := fun t => Some ("2023-11-14"%string, t / HOUR_MS mod 24);
|}.

#[local] Instance sample_hours_ok : UtcHours.
Proof. intros t Ht. cbn -[HOUR_MS Z.div Z.modulo Z.mul]. by rewrite Z.div_mul. Qed.

Definition sample_alert (gap_type : string) : GapAlertRecord :=
  gap_from_draft (mkGapDraft "binance" "reference" "BTCUSDT" gap_type 5400000 (Some 5) None
    "refetch_snapshot" "pending" "{}") "run-1" 1.

Definition sample_range : InputRange := mkRange 3600000 7200000.
Definition sample_gap_key (gap_type : string) : string :=
  gap_object_key (gap_partition_for (sample_alert gap_type) 4) "run-1" 1.

Lemma catchup_reads_every_written_object_witness :
  exists keys, s3_input_keys (listing [sample_gap_key "upbit_error"]) sample_range CatchUp 360000
    = Ok keys /\ sample_gap_key "upbit_error" ∈ keys.
Proof.
  apply (catchup_reads_every_written_object [sample_gap_key "upbit_error"] sample_range CatchUp 360000).
  - done.
  - done.
  - done.
  - apply (written_gap sample_range (sample_alert "upbit_error") 4 "run-1" 1); vm_decide.
  - vm_decide.
Defined.

Lemma gap_alerts_read_iff_listed_witness :
  exists keys, s3_input_keys (listing [sample_gap_key "ws_reconnect"]) sample_range CatchUp 360000
    = Ok keys /\ sample_gap_key "ws_reconnect" ∉ keys.
Proof.
  destruct (gap_alerts_read_iff_listed [sample_gap_key "ws_reconnect"] sample_range CatchUp 360000
    (sample_alert "ws_reconnect") 4 "run-1" 1) as (keys & Hk & Hiff).
  - done.
  - done.
  - done.
  - vm_decide.
  - unfold no_slash. cbn. intuition congruence.
  - vm_decide.
  - vm_decide.
  - exists keys. split; [exact Hk|]. intros Hin. apply Hiff in Hin. revert Hin. vm_decide.
Defined.

Definition sample_run_key (seconds : string) : string :=
  ("raw_market_event/venue=binance/event_type=trade/event_date=1970-01-01/hour=00/shard=00/run_id=market-ingest-binance-"
     ++ seconds ++ "-part-000001.parquet")%string.

(** The run started at 1 s ended when that of 500 s began, before the range. *)
Lemma live_selection_exact_witness :
  sample_run_key "1" ∉ select_s3_keys (map sample_run_key ["1"; "500"; "9999"]%string)
    (mkRange 1000000 1900000) Live 360000 /\
  sample_run_key "500" ∈ select_s3_keys (map sample_run_key ["1"; "500"; "9999"]%string)
    (mkRange 1000000 1900000) Live 360000.
Proof.
  split.
  - rewrite (live_selection_exact (map sample_run_key ["1"; "500"; "9999"]%string)
      (mkRange 1000000 1900000) 360000); [|vm_decide|vm_decide].
    intros (_ & _ & H). destruct (H 1000) as [_ H']; [by vm_compute|].
    specialize (H' (sample_run_key "500") 500000). cbn in H'. 
    assert (1000000 - Z.max 360000 0 < 500000) as Hlt; [|vm_compute in Hlt; done].
    apply H'; vm_decide.
  - vm_decide.
Defined.

Lemma merge_prefers_local_witness :
  let locals := [mkEntry "a" (Some "/spool/a.parquet"%string) Local] in
  merge_entries locals ["a"; "b"]%string = locals ++ [mkEntry "b" None S3] /\
  StronglySorted (fun a b => str_cmp a b = Lt) (ie_key <$> merge_entries locals ["a"; "b"]%string).
Proof.
  split; [done|]. apply merge_prefers_local. cbn. apply NoDup_singleton.
Defined.
