(* ===== verification/SpoolTree.v ===== *)
(** * SpoolTree: the directory walks over the spool

    [storage/eviction/collect.rs], [storage/orphan/files.rs] and
    [normalize/input_keys/local.rs] each walk the spool for Parquet files.  The spool is a
    tree; a symbolic link carries what it resolves to, and a directory ends in the error
    its listing meets, if any. *)
From S2P Require Import Prelude Text Records Sink Eviction L1Window L1Inputs.
Open Scope Z_scope.
Open Scope list_scope.

Inductive Node :=
| RegularFile
| Directory (entries : list (string * Node)) (ending : option StorageError)
| SymLink (target : option Node)
| Special
| Untyped (e : StorageError).

Definition not_a_directory : StorageError := SIo "Not a directory (os error 20)".
Definition no_such_file : StorageError := SIo "No such file or directory (os error 2)".

(** ** The walks *)

(** [for entry in fs::read_dir(path)?]: the entries until one of them, or the listing,
    fails. *)
Definition gather {E A B} (f : A -> result E (list B)) (ending : option E) : list A -> result E (list B) :=
  fix go entries :=
    match entries with
    | [] => match ending with None => Ok [] | Some e => Err e end
    | x :: entries => here ← f x; rest ← go entries; Ok (here ++ rest)
    end.

(** A file that is visited if it is a Parquet file. *)
Definition parquet_only (path : string) : list string := if has_parquet_extension path then [path] else [].

(** By the type of an entry, which follows no link. *)
(* rust: src/storage/eviction/collect.rs walk_parquet *)
Fixpoint walk_parquet (path : string) (n : Node) : result StorageError (list string) :=
  match n with
  | Directory entries ending =>
      gather (fun entry : string * Node => let (name, child) := entry in
        let entry_path := path_join path name in
        match child with
        | Directory _ _ => walk_parquet entry_path child
        | RegularFile => Ok (parquet_only entry_path)
        | SymLink _ | Special => Ok []
        | Untyped e => Err e
        end) ending entries
  | SymLink (Some n) => walk_parquet path n
  | SymLink None => Err no_such_file
  | _ => Err not_a_directory
  end.

(** [path.is_dir()] follows links. *)
Fixpoint is_dir (n : Node) : bool :=
  match n with Directory _ _ => true | SymLink (Some n) => is_dir n | _ => false end.

(* rust: src/storage/orphan/files.rs collect_parquet_files *)
Fixpoint collect_parquet_files (path : string) (n : Node) : result StorageError (list string) :=
  match n with
  | Directory entries ending =>
      gather (fun entry : string * Node => let (name, child) := entry in
        let path := path_join path name in
        if is_dir child then collect_parquet_files path child else Ok (parquet_only path)) ending entries
  | SymLink (Some n) => collect_parquet_files path n
  | SymLink None => Err no_such_file
  | _ => Err not_a_directory
  end.

(** The same function is written again where the normalizer looks for its inputs, behind
    a test that there is a spool. *)
(* rust: src/normalize/input_keys/local.rs parquet_files_under *)
Definition parquet_files_under (root : string) (n : option Node) : result StorageError (list string) :=
  match n with None => Ok [] | Some n => collect_parquet_files root n end.

(** ** What a tree holds *)

Lemma Node_ind_nested (P : Node -> Prop) :
  P RegularFile ->
  (forall entries ending, Forall (fun entry => P entry.2) entries -> P (Directory entries ending)) ->
  (forall n, P n -> P (SymLink (Some n))) -> P (SymLink None) -> P Special -> (forall e, P (Untyped e)) ->
  forall n, P n.
Proof.
  intros Hf Hd Hl Hl0 Hs Hu. fix IH 1. intros [|entries ending|[n|]| |e]; [done| |by apply Hl|done|done|done].
  apply Hd. induction entries as [|[name n] entries IHe]; constructor; [apply IH|exact IHe].
Qed.

(** The node that a path of names leads to. *)
Inductive at_path : Node -> list string -> Node -> Prop :=
| at_here n : at_path n [] n
| at_below name child entries ending names n :
    (name, child) ∈ entries -> at_path child names n -> at_path (Directory entries ending) (name :: names) n.

(** Neither links, special files nor unreadable types anywhere. *)
Inductive plain : Node -> Prop :=
| plain_file : plain RegularFile
| plain_directory entries ending : Forall (fun entry => plain entry.2) entries -> plain (Directory entries ending).

(** A name of a directory entry. *)
Definition is_name (name : string) : Prop := name <> ""%string /\ no_slash name.

(** The names of every directory are names, and different. *)
Inductive named : Node -> Prop :=
| named_directory entries ending : NoDup entries.*1 -> Forall is_name entries.*1 ->
    Forall (fun entry => named entry.2) entries -> named (Directory entries ending)
| named_leaf n : (forall entries ending, n <> Directory entries ending) -> named n.

Definition path_of (root : string) (names : list string) : string := fold_left path_join names root.

(** A directory that cannot be read to its end. *)
Definition broken (n : Node) (e : StorageError) : Prop :=
  exists names entries, at_path n names (Directory entries (Some e)).

(** ** Listings *)

Section gather.
Context {E A B : Type}.

Lemma gather_ext (f g : A -> result E (list B)) ending l : (forall x, x ∈ l -> f x = g x) ->
  gather f ending l = gather g ending l.
Proof.
  intros H. induction l as [|x l IH]; [done|]. cbn. rewrite H by (by left). destruct (g x) as [here|]; [|done].
  cbn. fold (gather f ending) (gather g ending). rewrite IH; [done|]. intros y Hy. apply H. by right.
Qed.

(** A listing without failures is the concatenation; the first failure is the result. *)
Lemma gather_cases (f : A -> result E (list B)) (found : A -> list B) ending l :
  (forall x, x ∈ l -> match f x with Ok r => r = found x | Err e => True end) ->
  match gather f ending l with
  | Ok r => r = flat_map found l /\ ending = None /\ forall x, x ∈ l -> f x = Ok (found x)
  | Err e => (exists x, x ∈ l /\ f x = Err e) \/ ending = Some e
  end.
Proof.
  intros H. induction l as [|x l IH]; cbn.
  - destruct ending; [by right|]. split_and!; [done|done|]. intros x Hx. by apply elem_of_nil in Hx.
  - pose proof (H x ltac:(by left)) as Hx. destruct (f x) as [here|e] eqn:Ef; cbn; [subst here|by left; exists x; split; [left|]].
    specialize (IH ltac:(intros y Hy; apply H; by right)). fold (gather f ending).
    destruct (gather f ending l) as [rest|e]; cbn.
    + destruct IH as ( -> & -> & Hl). split_and!; [done|done|]. intros y [-> |Hy]%elem_of_cons; auto.
    + destruct IH as [(y & Hy & Hf)| ->]; [left|by right]. exists y. split; [by right|done].
Qed.
End gather.

(** ** Paths *)

Definition base (root : string) : string :=
  if str_is_empty root || ends_with "/" root then root else (root ++ "/")%string.

Lemma join_name root name : no_slash name -> path_join root name = (base root ++ name)%string.
Proof.
  intros Hn. unfold path_join, base. destruct (starts_with "/" name) eqn:Hs.
  - apply starts_with_inv in Hs as [r ->]. destruct Hn. cbn. by left.
  - destruct (_ || _); [done|]. by rewrite str_app_assoc.
Qed.

Lemma split_base root name : no_slash name -> exists l, split_char "/" (base root ++ name)%string = l ++ [name].
Proof.
  intros Hn. assert (H : forall p, split_char "/" ((p ++ "/") ++ name)%string = split_char "/" p ++ [name]).
  { intros p. rewrite str_app_assoc. cbn. rewrite split_char_sep. by rewrite (split_char_none _ name). }
  unfold base. destruct (str_is_empty root) eqn:He; cbn.
  - destruct root; [|done]. cbn. rewrite split_char_none by done. by exists [].
  - destruct (ends_with "/" root) eqn:Hs; [|rewrite H; by eexists].
    apply ends_with_inv in Hs as [p ->]. rewrite H. by eexists.
Qed.

Lemma parquet_name root name : no_slash name ->
  has_parquet_extension (base root ++ name) = has_parquet_extension name.
Proof.
  intros Hn. unfold has_parquet_extension, file_name. destruct (split_base root name Hn) as [l ->].
  rewrite (split_char_none _ name) by done. by rewrite last_last.
Qed.

(** A name does not end a path in a slash, so that the next one is put behind a new one. *)
Lemma base_name root name : is_name name -> base (base root ++ name) = (base root ++ name ++ "/")%string.
Proof.
  intros [Hne Hn]. unfold base at 1. replace (str_is_empty _) with false.
  - destruct (ends_with "/" _) eqn:He; cbn; [|by rewrite str_app_assoc].
    apply ends_with_inv in He as [r Hr]. destruct (split_base root name Hn) as [l Hl]. rewrite Hr in Hl.
    change "/"%string with (String "/" "") in Hl. rewrite split_char_sep in Hl.
    apply app_inj_tail in Hl as [_ Hl]. cbn in Hl. by subst name.
  - destruct (base root); [|done]. by destruct name.
Qed.

Lemma path_of_join root names : names <> [] -> Forall is_name names ->
  path_of root names = (base root ++ join "/" names)%string.
Proof.
  intros Hne H. revert root Hne. induction H as [|name names Hname Hnames IH]; intros root Hne; [done|].
  unfold path_of. cbn [fold_left]. rewrite join_name by apply Hname. destruct names as [|n names]; [done|].
  fold (path_of (base root ++ name) (n :: names)). rewrite IH by done. rewrite base_name by done.
  unfold join. cbn [String.concat]. by rewrite !str_app_assoc.
Qed.

Lemma path_of_inj root names names' : names <> [] -> names' <> [] -> Forall is_name names -> Forall is_name names' ->
  path_of root names = path_of root names' -> names = names'.
Proof.
  assert (Hb : forall l, Forall is_name l -> Forall (fun s => ~ In "/"%char (bytes s)) l).
  { intros l Hl. eapply Forall_impl; [exact Hl|]. by intros s [_ Hs]. }
  intros Hne Hne' H H'. rewrite !path_of_join by done. intros He%str_app_inj_l.
  rewrite <- (split_char_join_back "/" names), <- (split_char_join_back "/" names') by auto. by f_equal.
Qed.

(** ** The Parquet files of a tree *)

Fixpoint walk_names (n : Node) : list (list string) :=
  match n with
  | Directory entries _ =>
      flat_map (fun entry : string * Node => let (name, child) := entry in
        match child with
        | Directory _ _ => map (cons name) (walk_names child)
        | RegularFile => if has_parquet_extension name then [[name]] else []
        | _ => []
        end) entries
  | _ => []
  end.

(** A Parquet file below a directory. *)
Definition parquet_at (n : Node) (names : list string) : Prop :=
  exists dirs name, names = dirs ++ [name] /\ at_path n names RegularFile /\ has_parquet_extension name = true.

Lemma parquet_below entries ending names : parquet_at (Directory entries ending) names <->
  exists name child, (name, child) ∈ entries /\
    ((child = RegularFile /\ has_parquet_extension name = true /\ names = [name]) \/
     exists below, names = name :: below /\ parquet_at child below).
Proof.
  split.
  - intros (dirs & last & -> & Hat & Hp). inversion Hat as [n Hn Hl|name child es e below n Hin Hbelow He Hl]; subst.
    exists name, child. split; [done|].
    destruct dirs as [|d dirs]; injection Hl as -> ->.
    + left. by inversion Hbelow; subst.
    + right. eexists. split; [done|]. by exists dirs, last.
  - intros (name & child & Hin & [( -> & Hp & ->)|(below & -> & (dirs & last & -> & Hat & Hp))]).
    + exists [], name. split_and!; [done| |done]. by repeat econstructor.
    + exists (name :: dirs), last. split_and!; [done| |done]. by eapply at_below.
Qed.

Lemma walk_names_spec n names : plain n -> names ∈ walk_names n <-> parquet_at n names.
Proof.
  intros Hpl. revert names. induction n as [|entries ending IH| | | |] using Node_ind_nested; intros names;
    try (split; [by intros ?%elem_of_nil|]; intros (dirs & name & -> & Hat & _); inversion Hat; by destruct dirs).
  inversion Hpl as [|es e Hpls]; subst. rewrite parquet_below. cbn [walk_names]. rewrite list_elem_of_In, in_flat_map.
  rewrite Forall_forall in IH, Hpls. split.
  - intros ([name child] & Hin%list_elem_of_In & Hw). exists name, child. split; [done|].
    specialize (IH _ Hin (Hpls _ Hin)). cbn [snd] in IH. destruct child; cbn in Hw; try done.
    + left. destruct (has_parquet_extension name); [|done]. by destruct Hw as [<-|[]].
    + right. apply in_map_iff in Hw as (below & <- & Hb). exists below. split; [done|]. by apply IH, list_elem_of_In.
  - intros (name & child & Hin & H). exists (name, child). split; [by apply list_elem_of_In|].
    specialize (IH _ Hin (Hpls _ Hin)). cbn [snd] in IH. destruct H as [( -> & -> & ->)|(below & -> & Hb)]; [by left|].
    apply IH, list_elem_of_In in Hb. destruct child; try done. by apply in_map.
Qed.

Lemma names_valid n names m : named n -> at_path n names m -> Forall is_name names.
Proof.
  intros Hn Hat. induction Hat as [|name child entries ending names m Hin _ IH]; [constructor|].
  inversion Hn as [es e _ Hnames Hch|n Hleaf]; subst; [|by destruct (Hleaf entries ending)].
  rewrite Forall_forall in Hnames. rewrite Forall_forall in Hch. constructor; [|by apply IH, (Hch _ Hin)].
  apply Hnames, list_elem_of_fmap. by exists (name, child).
Qed.

Lemma walk_names_NoDup n : plain n -> named n -> NoDup (walk_names n).
Proof.
  induction n as [|entries ending IH| | | |] using Node_ind_nested; intros Hpl Hn; try constructor.
  inversion Hpl as [|es e Hpls]; subst. inversion Hn as [es e Hnd _ Hch|n Hleaf]; subst;
    [|by destruct (Hleaf entries ending)].
  cbn [walk_names]. revert Hpls Hch IH Hnd. clear. induction entries as [|[name child] entries IHe]; [constructor|].
  intros [Hp Hps]%Forall_cons [Hc Hcs]%Forall_cons [Hi His]%Forall_cons [Hne Hnd]%NoDup_cons. cbn [flat_map].
  apply NoDup_app. split_and!; [|clear Hi Hp Hc|by apply IHe].
  - specialize (Hi Hp Hc). cbn [snd] in Hi. destruct child; try constructor; [destruct (has_parquet_extension name)|];
      [apply NoDup_singleton|constructor|]. by apply (NoDup_fmap_2 (cons name)).
  - intros names Hin Hrest. apply list_elem_of_In, in_flat_map in Hrest as ([name' child'] & Hin' & Hrest).
    assert (H : exists rest, names = name :: rest).
    { destruct child; cbn in Hin; try by apply elem_of_nil in Hin.
      - destruct (has_parquet_extension name); [|by apply elem_of_nil in Hin].
        apply list_elem_of_singleton in Hin as ->. by eexists.
      - change (map ?f ?l) with (f <$> l) in Hin. apply list_elem_of_fmap in Hin as (b & -> & _). by eexists. }
    destruct H as [rest ->]. apply Hne, list_elem_of_fmap. exists (name', child'). split; [|by apply list_elem_of_In].
    destruct child'; cbn in Hrest; try done.
    + destruct (has_parquet_extension name'); [|done]. destruct Hrest as [[= <- _]|[]]. done.
    + apply in_map_iff in Hrest as (b & [= -> _] & _). done.
Qed.

(** ** The walks on a plain tree *)

Lemma walks_agree path n : plain n -> walk_parquet path n = collect_parquet_files path n.
Proof.
  revert path. induction n as [|entries ending IH| | | |] using Node_ind_nested; intros path Hpl; try done;
    [|by inversion Hpl].
  inversion Hpl as [|es e Hpls]; subst. rewrite Forall_forall in IH, Hpls. cbn. apply gather_ext.
  intros [name child] Hin. specialize (IH _ Hin (path_join path name) (Hpls _ Hin)). cbn [snd] in IH.
  specialize (Hpls _ Hin). cbn [snd] in Hpls. by destruct child; inversion Hpls.
Qed.

Definition found_below (path : string) (entry : string * Node) : list string :=
  map (path_of path) (walk_names (Directory [entry] None)).

Lemma flat_map_singletons {A B C} (g : B -> C) (h : A -> list B) l :
  flat_map (fun x => map g (flat_map h [x])) l = map g (flat_map h l).
Proof. induction l as [|x l IH]; [done|]. cbn. rewrite app_nil_r, map_app. cbn in IH. by rewrite IH. Qed.

Lemma walk_parquet_cases path entries ending : let n := Directory entries ending in plain n -> named n ->
  match walk_parquet path n with
  | Ok files => files = map (path_of path) (walk_names n) /\ forall e, ~ broken n e
  | Err e => broken n e
  end.
Proof.
  intros n. assert (Hd : exists es e, n = Directory es e) by by eexists _, _. clearbody n. clear entries ending.
  revert path. induction n as [|entries ending IH| | | |] using Node_ind_nested; intros path Hpl Hn;
    try by destruct Hd as (? & ? & ?).
  inversion Hpl as [|es e Hpls]; subst. inversion Hn as [es e _ Hnames Hch|n Hleaf]; subst;
    [|by destruct (Hleaf entries ending)].
  rewrite Forall_forall in IH, Hpls, Hch. rewrite Forall_forall in Hnames. cbn [walk_parquet].
  match goal with |- context [gather ?f ending entries] => pose proof (gather_cases f (found_below path) ending entries) as H end.
  set (f := fun entry : string * Node => _) in *.
  assert (Hf : forall x, x ∈ entries -> match f x with
    | Ok r => r = found_below path x /\ forall e, ~ broken x.2 e | Err e => broken x.2 e end).
  { intros [name child] Hin. unfold f, found_below. cbn [walk_names flat_map]. rewrite app_nil_r.
    assert (Hname : is_name name) by (apply Hnames, list_elem_of_fmap; by exists (name, child)).
    specialize (Hpls _ Hin). specialize (IH _ Hin). specialize (Hch _ Hin). cbn [snd] in *.
    destruct child as [|es e|t| |e]; try by inversion Hpls.
    - unfold parquet_only. rewrite join_name by apply Hname. rewrite parquet_name by apply Hname. split.
      + destruct (has_parquet_extension name); [|done]. cbn. by rewrite join_name by apply Hname.
      + intros e (names & es & Hat). inversion Hat.
    - specialize (IH ltac:(by eexists _, _) (path_join path name) Hpls Hch). destruct (walk_parquet _ _); [|done].
      destruct IH as [-> Hb]. split; [|done]. by rewrite map_map. }
  assert (Hweak : forall x, x ∈ entries -> match f x with Ok r => r = found_below path x | Err _ => True end).
  { intros x Hx. specialize (Hf x Hx). destruct (f x); [apply Hf|done]. }
  specialize (H Hweak). destruct (gather f ending entries) as [files|e].
  - destruct H as (-> & -> & Hall). split.
    + apply flat_map_singletons.
    + intros e (names & es & Hat). inversion Hat as [|name child es' e' below n Hin Hbelow]; subst.
      specialize (Hf _ Hin). rewrite (Hall _ Hin) in Hf. destruct Hf as [_ Hb]. apply (Hb e). by exists below, es.
  - destruct H as [([name child] & Hin & He)| ->].
    + specialize (Hf _ Hin). rewrite He in Hf. destruct Hf as (names & es & Hat). exists (name :: names), es.
      by eapply at_below.
    + exists [], entries. constructor.
Qed.
