(* ===== verification/SpoolInputs.v ===== *)
(** * SpoolInputs: a live run reads what the watcher has spooled

    The path a file has in the spool, the walk that finds it, and the object key the
    normalizer reads off its path, put together. *)
From S2P Require Import Prelude Text OrderedMap Records Sink Eviction NormalizeArgs L1Window L1Inputs SpoolTree.
Open Scope Z_scope.
Open Scope list_scope.

(** ** Markers in paths *)

Definition families : list string := ["raw_market_event"; "symbol_health"; "source_health"; "gap_alert"]%string.

(** A path component. *)
Definition clean (s : string) : Prop := Forall (fun c => c <> "/"%char /\ c <> "\"%char) (bytes s).

(** A component that does not end in the name of a family. *)
Definition quiet (s : string) : Prop := clean s /\ Forall (fun family => ends_with family s = false) families.

#[export] Instance clean_dec s : Decision (clean s). Proof. unfold clean. apply _. Defined.
#[export] Instance quiet_dec s : Decision (quiet s). Proof. unfold quiet. apply _. Defined.

Lemma clean_app a b : clean (a ++ b) <-> clean a /\ clean b.
Proof. unfold clean. by rewrite bytes_app, Forall_app. Qed.

Lemma clean_no_slash s : clean s -> no_slash s.
Proof. unfold clean, no_slash. rewrite Forall_forall. intros H Hin%list_elem_of_In. by destruct (H _ Hin). Qed.

Lemma ends_with_iff p s : ends_with p s = true <-> exists r, s = (r ++ p)%string.
Proof. split; [apply ends_with_inv|]. intros [r ->]. apply ends_with_app. Qed.

Lemma ends_with_refl s : ends_with s s = true.
Proof. apply (ends_with_app s ""). Qed.

Lemma ends_with_bytes p s : ends_with p s = true -> Forall (fun c => In c (bytes s)) (bytes p).
Proof.
  intros [r ->]%ends_with_inv. rewrite bytes_app. apply Forall_forall. intros c Hc%list_elem_of_In.
  apply in_app_iff. by right.
Qed.

(** A letter of every family that is neither a digit nor a sign. *)
Lemma quiet_number s : Forall (fun c => is_digit c = true \/ c = "-"%char) (bytes s) -> quiet s.
Proof.
  intros H. split.
  - eapply Forall_impl; [exact H|]. intros c [Hc| ->]; [|done]. split; by intros ->.
  - apply Forall_forall. intros family Hf. destruct (ends_with family s) eqn:He; [|done].
    apply ends_with_bytes in He. rewrite Forall_forall in H.
    assert (Ht : In "t"%char (bytes family) \/ In "h"%char (bytes family)).
    { unfold families in Hf. rewrite !elem_of_cons, elem_of_nil in Hf. destruct Hf as [->|[->|[->|[->|[]]]]]; cbn; tauto. }
    rewrite Forall_forall in He. destruct Ht as [Hc|Hc]; apply list_elem_of_In, He, list_elem_of_In, H in Hc as [|]; done.
Qed.

Lemma pad_quiet w z : quiet (pad_zero w z).
Proof.
  apply quiet_number. unfold pad_zero. rewrite !bytes_app, bytes_of_bytes, !Forall_app. split_and!.
  - destruct (z <? 0); cbn; [constructor; [by right|constructor]|constructor].
  - apply Forall_forall. intros c Hc%list_elem_of_In%repeat_spec. subst c. by left.
  - destruct (show_nonneg_digits (Z.abs z) (Z.abs_nonneg z)) as [H _]. rewrite forallb_forall in H.
    apply Forall_forall. intros c Hc%list_elem_of_In. left. by apply H.
Qed.

Lemma families_letters family : family ∈ families ->
  ~ In "="%char (bytes family) /\ no_slash family /\ family <> ""%string.
Proof.
  unfold families, no_slash. rewrite !elem_of_cons, elem_of_nil.
  intros [->|[->|[->|[->|[]]]]]; cbn; intuition congruence.
Qed.

Lemma str_app_eq (a b c d : string) : (a ++ b = c ++ d)%string ->
  exists l, (a = c ++ l /\ d = l ++ b)%string \/ (c = a ++ l /\ b = l ++ d)%string.
Proof.
  intros H. apply (f_equal bytes) in H. rewrite !bytes_app in H. apply app_eq_app in H as [l H].
  exists (of_bytes l). destruct H as [[H1 H2]|[H1 H2]]; [left|right]; split; apply bytes_inj;
    by rewrite bytes_app, bytes_of_bytes.
Qed.

(** A family name reaches no further back than the sign of a [name=value]. *)
Lemma quiet_field name s : clean name -> quiet s -> quiet (name ++ "=" ++ s).
Proof.
  intros Hn [Hc Hq]. split; [apply clean_app; split; [done|]; constructor; [done|exact Hc]|].
  rewrite Forall_forall in Hq |- *. intros family Hf. destruct (ends_with family _) eqn:He; [|done].
  apply ends_with_inv in He as [r Hr]. rewrite <- str_app_assoc in Hr.
  apply str_app_eq in Hr as [l [[Hl Hs]|[_ ->]]].
  - destruct (families_letters family Hf) as (Heq & _). subst family. clear -Hl Hq Hf Heq.
    destruct l as [|c l]; [specialize (Hq _ Hf); cbn in Hq; by rewrite ends_with_refl in Hq|]. exfalso. apply Heq.
    rewrite bytes_app. apply in_app_iff. left. apply (f_equal bytes) in Hl. rewrite !bytes_app in Hl.
    destruct (exists_last (l := bytes (String c l)) ltac:(done)) as (l' & x & Hx). rewrite Hx in Hl |- *.
    rewrite app_assoc in Hl. apply app_inj_tail in Hl as [_ <-]. apply in_app_iff. right. by left.
  - exfalso. specialize (Hq family Hf). by rewrite ends_with_app in Hq.
Qed.

(** ** The first marker of a path *)

Lemma split_once_here p s r : strip_prefix p s = Some r -> split_once p s = Some (""%string, r).
Proof. intros H. destruct s; cbn; by rewrite H. Qed.

Lemma strip_slashed x s r r' : no_slash x -> no_slash s -> strip_prefix (x ++ "/") (s ++ "/" ++ r)%string = Some r' -> s = x.
Proof.
  intros Hx Hs H%strip_prefix_Some. rewrite str_app_assoc in H. cbn in H.
  apply (f_equal (split_char "/")) in H. rewrite !split_char_app in H by done. by injection H.
Qed.

(** A component is skipped unless it ends in the marker. *)
Lemma marker_skip x s r : no_slash x -> x <> ""%string -> no_slash s -> ends_with x s = false ->
  split_once (x ++ "/") (s ++ "/" ++ r) =
  ('(a, b) ← split_once (x ++ "/") r; Some ((s ++ "/" ++ a)%string, b)).
Proof.
  intros Hx Hne. induction s as [|c s IH]; intros Hs He.
  - change ("" ++ "/" ++ r)%string with (String "/" r). cbn [split_once]. destruct x as [|d x]; [done|].
    cbn [append strip_prefix]. destruct (Ascii.eqb_spec d "/") as [->|]; [destruct Hx; by left|].
    by destruct (split_once _ r) as [[]|].
  - assert (Hs' : no_slash s) by (intros Hin; apply Hs; by right).
    destruct (strip_prefix (x ++ "/") (String c s ++ "/" ++ r)) as [r'|] eqn:Ep.
    { apply strip_slashed in Ep; [|done..]. rewrite <- Ep in He. by rewrite ends_with_refl in He. }
    change (String c s ++ "/" ++ r)%string with (String c (s ++ "/" ++ r)) in *. cbn [split_once]. rewrite Ep.
    rewrite IH; [by destruct (split_once _ r) as [[]|]|done|]. destruct (ends_with x s) eqn:E; [|done].
    apply ends_with_inv in E as [a ->]. rewrite <- He. symmetry. apply (ends_with_app x (String c a)).
Qed.

Lemma marker_found x s r : no_slash x -> x <> ""%string -> no_slash s -> ends_with x s = false ->
  split_once (x ++ "/") (s ++ "/" ++ x ++ "/" ++ r) = Some ((s ++ "/")%string, r).
Proof.
  intros Hx Hne Hs He. rewrite marker_skip by done. rewrite (split_once_here _ _ r); [done|].
  rewrite <- str_app_assoc. apply strip_prefix_app.
Qed.

Lemma marker_none x dirs last : no_slash x -> x <> ""%string -> Forall (fun s => no_slash s /\ ends_with x s = false) dirs ->
  no_slash last -> split_once (x ++ "/") (join "/" (dirs ++ [last])) = None.
Proof.
  intros Hx Hne H Hl. induction H as [|s dirs [Hs He] _ IH].
  - cbn. clear Hne. induction last as [|c last IH]; cbn.
    + by destruct x.
    + rewrite IH by (intros Hin; apply Hl; by right). destruct (strip_prefix _ _) as [r|] eqn:E; [|done].
      apply strip_prefix_Some in E. destruct Hl. rewrite E, !bytes_app, !in_app_iff. left. right. by left.
  - cbn [app]. assert (Hj : join "/" (s :: dirs ++ [last]) = (s ++ "/" ++ join "/" (dirs ++ [last]))%string).
    { unfold join. by destruct dirs. }
    rewrite Hj, marker_skip, IH by done. done.
Qed.

(** ** The keys of a spool *)

Definition part_file (run : string) (part : Z) : string := ("run_id=" ++ run ++ "-part-" ++ pad_zero 6 part ++ ".parquet")%string.

(** Concatenations nested to the right. *)
Ltac reassoc :=
  repeat (progress (rewrite ?str_app_assoc; cbn -[pad_zero part_file time_parts shard_for])).

Section spool.
Context {L : StorageLib} {HL : UtcHours}.

(** The dates of the calendar are components and name no family. *)
Definition calendar_dates : Prop := forall t, quiet (time_parts t).1.

(** The keys under which a run stores the records of a range, whatever their types. *)
Inductive spooled (run : string) (range : InputRange) : string -> Prop :=
  | spooled_raw r shards part : quiet (rr_venue r) -> quiet (rr_event_type r) ->
      ir_start_ms range <= rr_exchange_timestamp_ms r < ir_end_ms range ->
      spooled run range (raw_object_key (raw_partition_for r shards) run part)
  | spooled_source r shards part : quiet (hr_venue r) ->
      ir_start_ms range <= hr_observed_at_ms r < ir_end_ms range ->
      spooled run range (health_object_key (health_partition_for r shards) run part)
  | spooled_symbol r shards part : quiet (sr_venue r) ->
      ir_start_ms range <= sr_observed_at_ms r < ir_end_ms range ->
      spooled run range (symbol_health_object_key (symbol_health_partition_for r shards) run part)
  | spooled_gap r shards part : quiet (gr_venue r) -> quiet (gr_gap_type r) ->
      ir_start_ms range <= gr_detected_at_ms r < ir_end_ms range ->
      spooled run range (gap_object_key (gap_partition_for r shards) run part).

(** A key: its family, the directories of its partition and the file of its run. *)
Definition dated_dirs (heads : list string) (date : string) (hour shard : Z) : list string :=
  heads ++ ["event_date=" ++ date; "hour=" ++ pad_zero 2 hour; "shard=" ++ pad_zero 2 shard]%string.

Record shaped (run : string) (range : InputRange) (k family : string) (dirs : list string) (file : string) : Prop := {
  sh_family : family ∈ families;
  sh_dirs : Forall quiet dirs;
  sh_file : clean file;
  sh_parquet : has_parquet_extension file = true;
  sh_key : k = join "/" (family :: dirs ++ [file]);
  sh_hour : exists part, part ∈ hourly_parts (ir_start_ms range) (ir_end_ms range) /\ contains (part_dir part) k = true;
}.

Lemma quiet_dated heads date hour shard : Forall quiet heads -> quiet date -> Forall quiet (dated_dirs heads date hour shard).
Proof.
  intros Hh Hd. apply Forall_app. split; [done|]. rewrite !Forall_cons. split_and!; [| | |constructor].
  - apply (quiet_field "event_date"); [vm_decide|done].
  - apply (quiet_field "hour"); [vm_decide|apply pad_quiet].
  - apply (quiet_field "shard"); [vm_decide|apply pad_quiet].
Qed.

Lemma part_file_ok run part : clean run -> clean (part_file run part) /\ has_parquet_extension (part_file run part) = true.
Proof.
  intros Hr. assert (Hc : clean (part_file run part)).
  { unfold part_file. rewrite !clean_app. split_and!; try vm_decide; [done|apply pad_quiet]. }
  split; [done|]. unfold has_parquet_extension, file_name.
  rewrite split_char_none by by apply clean_no_slash. cbn [List.last].
  assert (Hs : ends_with ".parquet" (part_file run part) = true).
  { unfold part_file. rewrite <- !str_app_assoc. apply ends_with_app. }
  unfold ends_with in Hs. destruct (strip_suffix _ _) as [stem|] eqn:E; [|done].
  apply strip_suffix_Some in E. by destruct stem.
Qed.

Lemma dated_contains family date hour shard run part heads :
  contains (part_dir (date, hour)) (join "/" (family :: dated_dirs heads date hour shard ++ [part_file run part])) = true.
Proof.
  assert (H : exists a b, join "/" (family :: dated_dirs heads date hour shard ++ [part_file run part]) =
    (a ++ part_dir (date, hour) ++ b)%string).
  { unfold dated_dirs, part_dir, join. cbn [fst snd]. revert family. induction heads as [|h heads IH]; intros family.
    - exists family, ("shard=" ++ pad_zero 2 shard ++ "/" ++ part_file run part)%string. by reassoc.
    - destruct (IH h) as (a & b & E). exists (family ++ "/" ++ a)%string, b. cbn in E |- *. rewrite E. by reassoc. }
  destruct H as (a & b & ->). apply contains_app.
Qed.

Lemma has_shape run range k k' family dirs file : shaped run range k' family dirs file -> k' = k ->
  exists family dirs file, shaped run range k family dirs file.
Proof. intros H <-. by eexists _, _, _. Qed.

Lemma spooled_shape run range k : calendar_dates -> clean run -> 0 <= ir_start_ms range -> ir_end_ms range <= int_max I64 ->
  spooled run range k -> exists family dirs file, shaped run range k family dirs file.
Proof.
  intros Hcal Hrun H0 Hmax Hk.
  assert (Hshape : forall family heads t shard part, family ∈ families -> Forall quiet heads ->
    ir_start_ms range <= t < ir_end_ms range ->
    shaped run range (join "/" (family :: dated_dirs heads (time_parts t).1 (time_parts t).2 shard ++ [part_file run part]))
      family (dated_dirs heads (time_parts t).1 (time_parts t).2 shard) (part_file run part)).
  { intros family heads t shard part Hf Hh Ht. destruct (part_file_ok run part Hrun) as [Hc Hp]. split; try done.
    - by apply quiet_dated.
    - exists (time_parts t). split; [by apply hourly_parts_cover|]. destruct (time_parts t). apply dated_contains. }
  assert (Hfield : forall name s, clean name -> quiet s -> Forall quiet [name ++ "=" ++ s]%string).
  { intros name s Hn Hs. constructor; [by apply quiet_field|constructor]. }
  destruct Hk as [r shards part Hv Ht Hr|r shards part Hv Hr|r shards part Hv Hr|r shards part Hv Ht Hr];
    unfold raw_object_key, health_object_key, symbol_health_object_key, gap_object_key, key_tail.
  - eapply has_shape; [eapply (Hshape "raw_market_event"%string (["venue" ++ "=" ++ rr_venue r]%string ++ ["event_type" ++ "=" ++ rr_event_type r]%string));
      [vm_decide| |exact Hr]|].
    + apply Forall_app; split; apply Hfield; (done || vm_decide).
    + instantiate (1 := part). unfold dated_dirs, part_file, join. by reassoc.
  - eapply has_shape; [eapply (Hshape "source_health"%string ["venue" ++ "=" ++ hr_venue r]%string); [vm_decide| |exact Hr]|].
    + apply Hfield; (done || vm_decide).
    + instantiate (1 := part). unfold dated_dirs, part_file, join. by reassoc.
  - eapply has_shape; [eapply (Hshape "symbol_health"%string ["venue" ++ "=" ++ sr_venue r]%string); [vm_decide| |exact Hr]|].
    + apply Hfield; (done || vm_decide).
    + instantiate (1 := part). unfold dated_dirs, part_file, join. by reassoc.
  - eapply has_shape; [eapply (Hshape "gap_alert"%string (["venue" ++ "=" ++ gr_venue r]%string ++ ["gap_type" ++ "=" ++ gr_gap_type r]%string));
      [vm_decide| |exact Hr]|].
    + apply Forall_app; split; apply Hfield; (done || vm_decide).
    + instantiate (1 := part). unfold dated_dirs, part_file, join. by reassoc.
Qed.

(** ** From the path back to the key *)

Lemma join_cons a b l : join "/" (a :: b :: l) = (a ++ "/" ++ join "/" (b :: l))%string.
Proof. done. Qed.

Lemma clean_join l : Forall (fun c => c <> "\"%char) (bytes (join "/" l)) <-> Forall (fun s => Forall (fun c => c <> "\"%char) (bytes s)) l.
Proof.
  induction l as [|a l IH]; [done|]. rewrite Forall_cons, <- IH. destruct l as [|b l]; [|rewrite join_cons].
  - cbn. split; [done|by intros [? _]].
  - rewrite !bytes_app, !Forall_app. split; [naive_solver|]. intros [? ?]. split_and!; try done. by repeat constructor.
Qed.

(** Without a backslash the path is already the key's notation. *)
Lemma normalized_back l : Forall clean l ->
  map (fun c => if Ascii.eqb c "\" then "/"%char else c) (bytes (join "/" l)) = bytes (join "/" l).
Proof.
  intros Hl. assert (Hb : Forall (fun c => c <> "\"%char) (bytes (join "/" l))).
  { apply clean_join. eapply Forall_impl; [exact Hl|]. intros s Hs. eapply Forall_impl; [exact Hs|]. by intros c [_ ?]. }
  induction Hb as [|c cs Hc _ IH]; [done|]. cbn. rewrite IH. by destruct (Ascii.eqb_spec c "\").
Qed.

(** The file of a run below the spool is known under its key again. *)
Lemma key_reads_back run range k family dirs file : quiet run -> shaped run range k family dirs file ->
  key_from_local_path (run ++ "/" ++ k) = Some k.
Proof.
  intros Hrun [Hf Hd Hfile _ -> _]. set (k := join "/" (family :: dirs ++ [file])).
  assert (Hk : k = (family ++ "/" ++ join "/" (dirs ++ [file]))%string) by (unfold k; by destruct dirs).
  assert (Hback : map (fun c => if Ascii.eqb c "\" then "/"%char else c) (bytes (run ++ "/" ++ k)) = bytes (run ++ "/" ++ k)).
  { apply (normalized_back (run :: family :: dirs ++ [file])). constructor; [apply Hrun|]. constructor.
    - unfold families in Hf. rewrite !elem_of_cons, elem_of_nil in Hf. destruct Hf as [->|[->|[->|[->|[]]]]]; vm_decide.
    - apply Forall_app. split; [eapply Forall_impl; [exact Hd|by intros ? [? _]]|by constructor]. }
  unfold key_from_local_path. rewrite Hback, of_bytes_bytes.
  assert (Hquiet : forall x, x ∈ families -> Forall (fun s => no_slash s /\ ends_with x s = false) (run :: dirs)).
  { intros x Hx. assert (Hall : Forall quiet (run :: dirs)) by by constructor.
    eapply Forall_impl; [exact Hall|]. intros s [Hc Hq]. split; [by apply clean_no_slash|].
    rewrite Forall_forall in Hq. by apply Hq. }
  assert (Hnone : forall x, x ∈ families -> ends_with x family = false -> split_once (x ++ "/") (run ++ "/" ++ k) = None).
  { intros x Hx Hxf. destruct (families_letters x Hx) as (_ & Hxs & Hxe).
    pose proof (Hquiet x Hx) as [Hr Hds]%Forall_cons.
    change (run ++ "/" ++ k)%string with (join "/" ((run :: family :: dirs) ++ [file])).
    apply marker_none; [done|done| |by apply clean_no_slash]. constructor; [done|]. constructor; [|done].
    split; [|done]. by destruct (families_letters family Hf) as (_ & ? & _). }
  assert (Hfound : split_once (family ++ "/") (run ++ "/" ++ k) = Some ((run ++ "/")%string, join "/" (dirs ++ [file]))).
  { destruct (families_letters family Hf) as (_ & Hxs & Hxe). pose proof (Hquiet family Hf) as [[Hrs Hr] _]%Forall_cons.
    rewrite Hk. by apply marker_found. }
  assert (Hgo : forall l, family ∈ l -> (forall x, x ∈ l -> x ∈ families) ->
    (forall x, x ∈ l -> x <> family -> ends_with x family = false) ->
    head (omap (fun marker => '(_, rest) ← split_once marker (run ++ "/" ++ k); Some (marker ++ rest)%string)
      (map (fun x => x ++ "/")%string l)) = Some k).
  { clear Hf Hback. induction l as [|x l IH]; intros Hin Hl He; [by apply elem_of_nil in Hin|]. cbn [map omap list_omap].
    destruct (decide (x = family)) as [->|Hne].
    - rewrite Hfound. cbn [mbind option_bind head]. by rewrite Hk, str_app_assoc.
    - rewrite Hnone; [|apply Hl; by left|apply He; [by left|done]]. cbn [mbind option_bind]. apply IH.
      + by apply elem_of_cons in Hin as [->|].
      + intros y Hy. apply Hl. by right.
      + intros y Hy. apply He. by right. }
  apply (Hgo families); [done|done|]. intros x Hx Hne. clear -Hf Hx Hne.
  unfold families in Hf, Hx. rewrite !elem_of_cons, elem_of_nil in Hf, Hx.
  destruct Hf as [->|[->|[->|[->|[]]]]], Hx as [->|[->|[->|[->|[]]]]]; done.
Qed.

(** ** What a live run reads *)

(** The Parquet files under the root, each with its path below it. *)
Definition local_files (root : string) (spool : option Node) : result StorageError (list (string * string)) :=
  files ← parquet_files_under root spool;
  Ok (omap (M := list) (fun f => relative ← path_strip_prefix root f; Some (relative, f)) files).

Lemma trim_end_id c s : ends_with (String c "") s = false -> trim_end_matches c s = s.
Proof.
  intros He. unfold trim_end_matches. assert (Hb : bytes s = rev (rev (bytes s))) by by rewrite rev_involutive.
  rewrite <- (of_bytes_bytes s) at 2. f_equal. rewrite Hb at 2. f_equal.
  destruct (rev (bytes s)) as [|x l]; [done|]. cbn [drop_while]. destruct (Ascii.eqb_spec c x) as [<-|Hne]; [|done].
  assert (Hs : s = (of_bytes (rev l) ++ String c "")%string).
  { apply bytes_inj. by rewrite bytes_app, bytes_of_bytes, Hb. }
  rewrite Hs in He. by rewrite ends_with_app in He.
Qed.

Lemma strip_path_of root names : root <> ""%string -> ends_with "/" root = false -> names <> [] -> Forall is_name names ->
  path_strip_prefix root (path_of root names) = Some (join "/" names).
Proof.
  intros Hr He Hne Hn. rewrite path_of_join by done. unfold base. rewrite He, orb_false_r.
  destruct root as [|c root]; [done|]. cbn [str_is_empty]. unfold path_strip_prefix.
  destruct (String.eqb_spec ((String c root ++ "/") ++ join "/" names) (String c root)) as [E|_].
  - rewrite str_app_assoc in E. apply (f_equal (fun s => Datatypes.length (bytes s))) in E.
    rewrite !bytes_app, !length_app in E. cbn in E. lia.
  - rewrite trim_end_id by done. apply strip_prefix_app.
Qed.

Lemma local_entries_keys files range :
  NoDup (ie_key <$> local_input_entries files range) /\
  (forall e, e ∈ local_input_entries files range -> ie_source e = Local /\
    exists relative path, (relative, path) ∈ files /\ key_from_local_path relative = Some (ie_key e) /\ ie_path e = Some path) /\
  forall relative path k, (relative, path) ∈ files -> key_from_local_path relative = Some k ->
    key_matches_parts k (hourly_parts (ir_start_ms range) (ir_end_ms range)) = true ->
    k ∈ ie_key <$> local_input_entries files range.
Proof.
  unfold local_input_entries. set (l := omap _ files).
  assert (Hl : forall q e, (q, e) ∈ l -> ie_key e = q /\ ie_source e = Local /\
    exists relative path, (relative, path) ∈ files /\ key_from_local_path relative = Some q /\ ie_path e = Some path).
  { intros q e Hin. unfold l in Hin. apply list_elem_of_omap in Hin as ([relative path] & Hin & Hk). cbn in Hk.
    destruct (key_from_local_path relative) as [key|] eqn:E; [|done]. cbn in Hk.
    destruct (key_matches_parts _ _); [|done]. injection Hk as <- <-. split_and!; [done|done|]. by exists relative, path. }
  assert (Hm : forall q e, (q, e) ∈ bcollect l -> (q, e) ∈ l).
  { intros q e Hin. apply bget_collect_elem. apply (bget_of_elem (fun _ => True)); [apply bcollect_ok|done]. }
  replace (ie_key <$> bvalues (bcollect l)) with (bkeys (bcollect l)).
  2: { unfold bkeys, bvalues. rewrite <- list_fmap_compose. apply list_fmap_ext.
       intros i [q e] Hi. symmetry. cbn. by apply (Hl q e), Hm, list_elem_of_lookup_2 with i. }
  split_and!.
  - apply bkeys_NoDup, bcollect_ok.
  - intros e He. unfold bvalues in He. apply list_elem_of_fmap in He as ([q e'] & -> & Hin). cbn.
    destruct (Hl q e' (Hm _ _ Hin)) as (-> & ? & ?). done.
  - intros relative path k Hin Hk Hp. apply bcollect_keys, list_elem_of_fmap. exists (k, mkEntry k (Some path) Local).
    split; [done|]. apply list_elem_of_omap. exists (relative, path). split; [done|]. cbn. rewrite Hk. cbn. by rewrite Hp.
Qed.

Lemma shaped_matches run range k family dirs file : shaped run range k family dirs file ->
  key_matches_parts k (hourly_parts (ir_start_ms range) (ir_end_ms range)) = true.
Proof.
  intros [Hf _ _ _ Hk (part & Hin & Hc)]. unfold key_matches_parts. apply andb_true_iff. split.
  - assert (Hs : starts_with (family ++ "/") k = true).
    { rewrite Hk. replace (join "/" _) with ((family ++ "/") ++ join "/" (dirs ++ [file]))%string
        by (rewrite str_app_assoc; by destruct dirs). apply starts_with_app. }
    unfold families in Hf. rewrite !elem_of_cons, elem_of_nil in Hf. cbn in Hs.
    destruct Hf as [->|[->|[->|[->|[]]]]]; cbn in Hs; rewrite Hs; by rewrite ?orb_true_r.
  - apply existsb_exists. exists part. split; [by apply list_elem_of_In|done].
Qed.

(** The files a listing of the spool gives. *)
Lemma local_files_spec root spool names lf : root <> ""%string -> ends_with "/" root = false -> plain spool -> named spool ->
  parquet_at spool names -> local_files root (Some spool) = Ok lf ->
  (join "/" names, path_of root names) ∈ lf /\
  forall relative path, (relative, path) ∈ lf -> exists names, parquet_at spool names /\ path = path_of root names /\
    relative = join "/" names.
Proof.
  intros Hr He Hpl Hn Hat Hlf. unfold local_files, parquet_files_under in Hlf.
  assert (Hdir : exists entries ending, spool = Directory entries ending).
  { destruct Hat as (dirs & name & -> & Hat & _). inversion Hat; subst; [by destruct dirs|by eexists _, _]. }
  destruct Hdir as (entries & ending & ->). rewrite <- walks_agree in Hlf by done.
  pose proof (walk_parquet_cases root entries ending Hpl Hn) as Hw. destruct (walk_parquet root _) as [files|]; [|done].
  destruct Hw as [-> _]. injection Hlf as <-.
  assert (Hstrip : forall names, parquet_at (Directory entries ending) names ->
    path_strip_prefix root (path_of root names) = Some (join "/" names)).
  { intros names' (dirs & name & -> & Hat' & _). apply strip_path_of; [done|done|by destruct dirs|].
    by eapply names_valid. }
  split.
  - apply list_elem_of_omap. exists (path_of root names). rewrite Hstrip by done. split; [|done].
    apply list_elem_of_In, in_map, list_elem_of_In. by apply (proj2 (walk_names_spec _ names Hpl)).
  - intros relative path (f & Hf & Hs)%list_elem_of_omap. apply list_elem_of_In, in_map_iff in Hf as (names' & <- & Hin).
    apply list_elem_of_In, (proj1 (walk_names_spec _ names' Hpl)) in Hin. rewrite Hstrip in Hs by done.
    injection Hs as <- <-. by exists names'.
Qed.

(** The entry of a spooled file. *)
Lemma live_entry (list_keys : string -> result StorageError (list string)) (root : string)
    (spool : Node) (run k : string) (range : InputRange) (overlap : Z) (entries : list InputEntry) :
  calendar_dates -> root <> ""%string -> ends_with "/" root = false -> plain spool -> named spool ->
  0 <= ir_start_ms range -> ir_end_ms range <= int_max I64 ->
  quiet run -> spooled run range k -> at_path spool (run :: split_char "/" k) RegularFile ->
  collect_input_entries list_keys (local_files root (Some spool)) range Live overlap = Ok entries ->
  exists e names, e ∈ entries /\ ie_key e = k /\ ie_source e = Local /\ ie_path e = Some (path_of root names) /\
    parquet_at spool names /\ key_from_local_path (join "/" names) = Some k.
Proof.
  intros Hcal Hr He Hpl Hn H0 Hmax Hrun Hsp Hat Hcol.
  destruct (spooled_shape run range k Hcal (proj1 Hrun) H0 Hmax Hsp) as (family & dirs & file & Hsh).
  assert (Hsplit : split_char "/" k = family :: dirs ++ [file]).
  { rewrite (sh_key _ _ _ _ _ _ Hsh). apply split_char_join_back; [done|]. constructor.
    - by destruct (families_letters family (sh_family _ _ _ _ _ _ Hsh)) as (_ & ? & _).
    - apply Forall_app. split; [|constructor; [apply clean_no_slash, (sh_file _ _ _ _ _ _ Hsh)|constructor]].
      eapply Forall_impl; [exact (sh_dirs _ _ _ _ _ _ Hsh)|]. intros s [Hc _]. by apply clean_no_slash. }
  rewrite Hsplit in Hat. set (names := run :: family :: dirs ++ [file]) in *.
  assert (Hp : parquet_at spool names).
  { exists (run :: family :: dirs), file. split_and!; [done|done|apply (sh_parquet _ _ _ _ _ _ Hsh)]. }
  assert (Hj : join "/" names = (run ++ "/" ++ k)%string) by by rewrite (sh_key _ _ _ _ _ _ Hsh).
  unfold collect_input_entries in Hcol. cbn [bool_decide] in Hcol.
  destruct (local_files root (Some spool)) as [lf|] eqn:Elf; [|done]. cbn [mbind result_bind] in Hcol.
  destruct (s3_input_keys _ _ _ _) as [ks|]; [|done]. injection Hcol as <-.
  destruct (local_files_spec root spool names lf Hr He Hpl Hn Hp Elf) as [Hin Hall].
  destruct (local_entries_keys lf range) as (Hnd & Hent & Hkeys).
  specialize (Hkeys _ _ k Hin ltac:(rewrite Hj; by eapply key_reads_back) (shaped_matches _ _ _ _ _ _ Hsh)).
  apply list_elem_of_fmap in Hkeys as (e & -> & Hel). destruct (Hent e Hel) as (Hsrc & relative & path & Hf & Hk & Hpath).
  destruct (Hall relative path Hf) as (names' & Hat' & -> & ->).
  exists e, names'. split_and!; try done. apply merged_elem; [done|by left].
Qed.

(** C25: A live run reads from the spool what the watchers have put there, whether or not it
    has been uploaded: every file a watcher stored for a record of the range, of any venue
    and of any event or gap type, is found by the walk over the spool, recognised under the
    key it was stored with, and read from disk rather than from the bucket. *)
Theorem live_reads_every_spooled_object (list_keys : string -> result StorageError (list string)) (root : string)
    (spool : Node) (run k : string) (range : InputRange) (overlap : Z) (entries : list InputEntry) :
  calendar_dates -> root <> ""%string -> ends_with "/" root = false -> plain spool -> named spool ->
  0 <= ir_start_ms range -> ir_end_ms range <= int_max I64 ->
  quiet run -> spooled run range k -> at_path spool (run :: split_char "/" k) RegularFile ->
  collect_input_entries list_keys (local_files root (Some spool)) range Live overlap = Ok entries ->
  exists e names, e ∈ entries /\ ie_key e = k /\ ie_source e = Local /\ ie_path e = Some (path_of root names) /\
    parquet_at spool names /\ key_from_local_path (join "/" names) = Some k.
Proof. apply live_entry. Qed.
End spool.

(** ** A spool of one file *)

Definition one_file (names : list string) : Node := fold_right (fun name child => Directory [(name, child)] None) RegularFile names.

Lemma one_file_ok names : Forall is_name names ->
  plain (one_file names) /\ named (one_file names) /\ at_path (one_file names) names RegularFile.
Proof.
  induction 1 as [|name names Hname _ (Hp & Hn & Ha)]; cbn.
  - split_and!; [constructor|by constructor|constructor].
  - split_and!; [by repeat constructor| |eapply at_below; [by left|done]].
    constructor; [apply NoDup_singleton|by constructor|by constructor].
Qed.

#[local] Existing Instance sample_hours.
#[local] Existing Instance sample_hours_ok.

Definition spooled_key : string := sample_gap_key "ws_reconnect".
Definition one_file_spool : Node := one_file ("run-1"%string :: split_char "/" spooled_key).

(** The bucket is empty and the alert is of a type no listing asks for. *)
Lemma live_reads_every_spooled_object_witness : exists entries e,
  collect_input_entries (fun _ => Ok []) (local_files "/spool" (Some one_file_spool)) sample_range Live 0 = Ok entries /\
  e ∈ entries /\ ie_key e = spooled_key /\ ie_source e = Local.
Proof.
  eexists. assert (Hnames : Forall is_name ("run-1"%string :: split_char "/" spooled_key)).
  { unfold is_name. vm_decide. }
  destruct (one_file_ok _ Hnames) as (Hp & Hn & Ha).
  destruct (live_reads_every_spooled_object (fun _ => Ok []) "/spool" one_file_spool "run-1" spooled_key sample_range 0
    (merge_entries (local_input_entries [("run-1/" ++ spooled_key, "/spool/run-1/" ++ spooled_key)]%string sample_range) []))
    as (e & names & He & Hk & Hs & _).
  - intros t. vm_decide.
  - done.
  - done.
  - exact Hp.
  - exact Hn.
  - done.
  - done.
  - vm_decide.
  - apply (spooled_gap "run-1" sample_range (sample_alert "ws_reconnect") 4 1); vm_decide.
  - exact Ha.
  - by vm_compute.
  - exists e. split; [by vm_compute|]. split; [exact He|]. split; [exact Hk|exact Hs].
Defined.
