(* ===== verification/L1Build.v ===== *)
(** * L1Build: from L0 rows to slices

    [normalize/build], [normalize/quality], [normalize/payload], the row decoding of
    [normalize/read] and the data of [normalize/model].  Floats, JSON values, SHA-256
    and the Arrow columns are parameters; a run's files are the rows they hold. *)
From S2P Require Import Prelude Text OrderedMap Records NormalizeArgs L1Window L1Inputs.
Open Scope Z_scope.

(** The operations on [f64] the code uses. *)
Class Float (F : Type) := {
  f_zero : F; f_two : F; f_ten_thousand : F;
  f_add : F -> F -> F; f_sub : F -> F -> F; f_mul : F -> F -> F; f_div : F -> F -> F;
  f_leb : F -> F -> bool; f_ltb : F -> F -> bool; f_is_finite : F -> bool;
  f_parse : string -> option F;
}.

(** JSON values: [pj_number] is [Some] on a number, with its [as_f64]. *)
Class PayloadJson (V F : Type) := {
  pj_parse : string -> option V;
  pj_get : string -> V -> option V;
  pj_as_array : V -> option (list V);
  pj_as_bool : V -> option bool;
  pj_as_str : V -> option string;
  pj_number : V -> option (option F);
}.

(** ** Data *)

(* rust: src/normalize/model/input.rs RawInputEvent *)
Record RawInputEvent := mkRawInput {
  ri_event_id : string;
  ri_producer_run_id : string;
  ri_venue : string;
  ri_source_role : string;
  ri_market_type : string;
  ri_event_type : string;
  ri_symbol_native : string;
  ri_symbol_canonical : string;
  ri_base_asset : string;
  ri_quote_asset : string;
  ri_exchange_timestamp_ms : Z;
  ri_ingest_timestamp_ms : Z;
  ri_exchange_sequence : option Z;
  ri_payload_json : string;
  ri_payload_sha256 : string;
  ri_schema_version : string;
}.

(* rust: src/normalize/model/input.rs SymbolHealthInput *)
Record SymbolHealthInput := mkSymInput {
  yi_venue : string;
  yi_symbol_native : string;
  yi_observed_at_ms : Z;
  yi_last_event_time_ms : Z;
  yi_latency_ms : Z;
  yi_is_tradeable : bool;
  yi_reason_codes : string;
  yi_payload_sha256 : string;
  yi_schema_version : string;
}.

(* rust: src/normalize/model/input.rs SourceHealthInput *)
Record SourceHealthInput := mkSrcInput {
  hi_venue : string;
  hi_observed_at_ms : Z;
  hi_connection_status : string;
  hi_heartbeat_delay_ms : Z;
  hi_stream_lag_ms : Z;
  hi_recent_gap_count : Z;
  hi_book_rebuild_count : Z;
  hi_health_level : string;
  hi_payload_json : string;
  hi_payload_sha256 : string;
  hi_schema_version : string;
}.

(* rust: src/normalize/model/input.rs GapAlertInput *)
Record GapAlertInput := mkGapInput {
  gi_venue : string;
  gi_symbol_native : string;
  gi_gap_type : string;
  gi_detected_at_ms : Z;
  gi_payload_json : string;
  gi_payload_sha256 : string;
  gi_schema_version : string;
}.

(* rust: src/normalize/model/slice.rs CompactEventRef *)
Record CompactEventRef := mkCompact {
  ce_exchange_timestamp_ms : Z;
  ce_ingest_timestamp_ms : Z;
  ce_event_type : string;
  ce_parent_event_id : string;
}.

(* rust: src/normalize/model/slice.rs SymbolHealthSnapshot *)
Record SymbolHealthSnapshot := mkSymSnap {
  ss_observed_at_ms : Z;
  ss_last_event_time_ms : Z;
  ss_last_received_time_ms : Z;
  ss_latency_ms : Z;
  ss_is_tradeable : bool;
  ss_reason_codes : list string;
}.

(* rust: src/normalize/model/slice.rs SourceHealthSnapshot *)
Record SourceHealthSnapshot := mkSrcSnap {
  hs_observed_at_ms : Z;
  hs_connection_status : string;
  hs_health_level : string;
  hs_heartbeat_delay_ms : Z;
  hs_stream_lag_ms : Z;
  hs_recent_gap_count : Z;
  hs_book_rebuild_count : Z;
}.

(* rust: src/normalize/build/result.rs BuildInputMetadata *)
Record BuildInputMetadata := mkMetadata {
  md_run_mode : string;
  md_fallback_alert : bool;
  md_input_local_object_count : Z;
  md_input_s3_object_count : Z;
  md_input_object_keys : list string;
}.

(* rust: src/normalize/build/slices/stats.rs BuildStats *)
Record BuildStats := mkStats {
  st_input_record_count : Z;
  st_duplicate_event_count : Z;
  st_invalid_event_count : Z;
  st_payload_hash_mismatch_count : Z;
}.

Definition set_st_input_record_count (v : Z) (s : BuildStats) : BuildStats :=
  mkStats v (st_duplicate_event_count s) (st_invalid_event_count s)
    (st_payload_hash_mismatch_count s).
Definition set_st_duplicate_event_count (v : Z) (s : BuildStats) : BuildStats :=
  mkStats (st_input_record_count s) v (st_invalid_event_count s) (st_payload_hash_mismatch_count s).
Definition set_st_invalid_event_count (v : Z) (s : BuildStats) : BuildStats :=
  mkStats (st_input_record_count s) (st_duplicate_event_count s) v (st_payload_hash_mismatch_count
    s).
Definition set_st_payload_hash_mismatch_count (v : Z) (s : BuildStats) : BuildStats :=
  mkStats (st_input_record_count s) (st_duplicate_event_count s) (st_invalid_event_count s) v.
(* rust: src/normalize/build/slices/identity.rs Identity *)
Record Identity := mkIdentity {
  id_venue : string;
  id_source_role : string;
  id_symbol_native : string;
  id_symbol_canonical : string;
  id_base_asset : string;
  id_quote_asset : string;
  id_market_type : string;
}.

(** The fields in the derived order. *)
(* rust: src/normalize/build/slices/identity.rs SliceKey *)
Definition SliceKey : Type := string * (string * Z).
(* rust: src/normalize/build/slices/identity.rs IdentityKey *)
Definition IdentityKey : Type := string * string.

Section build.
Context {L : StorageLib} {F V : Type} {FO : Float F} {J : PayloadJson V F}.

(* rust: src/normalize/model/slice.rs TradeNormalized *)
Record TradeNormalized := mkTrade {
  tn_exchange_timestamp_ms : Z;
  tn_ingest_timestamp_ms : Z;
  tn_price : F;
  tn_quantity : F;
  tn_side : string;
  tn_exchange_sequence : option Z;
  tn_parent_event_id : string;
}.

(* rust: src/normalize/model/slice.rs BookTickerNormalized *)
Record BookTickerNormalized := mkBook {
  bn_exchange_timestamp_ms : Z;
  bn_ingest_timestamp_ms : Z;
  bn_best_bid : F;
  bn_best_bid_qty : F;
  bn_best_ask : F;
  bn_best_ask_qty : F;
  bn_exchange_sequence : option Z;
  bn_parent_event_id : string;
}.

(* rust: src/normalize/model/slice.rs DerivativeMetricObservation *)
Record DerivativeMetricObservation := mkMetric {
  dm_venue : string;
  dm_source_role : string;
  dm_market_type : string;
  dm_metric_name : string;
  dm_symbol_native : string;
  dm_symbol_canonical : string;
  dm_base_asset : string;
  dm_quote_asset : string;
  dm_value : F;
  dm_unit : string;
  dm_exchange_timestamp_ms : Z;
  dm_ingest_timestamp_ms : Z;
  dm_parent_event_id : string;
  dm_parent_run_id : string;
}.

(* rust: src/normalize/model/slice.rs SliceRow *)
Record SliceRow := mkSlice {
  sl_slice_id : string;
  sl_venue : string;
  sl_source_role : string;
  sl_symbol_native : string;
  sl_symbol_canonical : string;
  sl_base_asset : string;
  sl_quote_asset : string;
  sl_market_type : string;
  sl_window_ms : Z;
  sl_window_start_ms : Z;
  sl_window_end_ms : Z;
  sl_slice_completeness : string;
  sl_missing_reasons : list string;
  sl_quality_ok : Z;
  sl_quality_delayed : Z;
  sl_quality_stale : Z;
  sl_quality_gap : Z;
  sl_quality_invalid : Z;
  sl_trade_count : Z;
  sl_trade_volume : F;
  sl_last_trade_price : option F;
  sl_last_trade_size : option F;
  sl_best_bid : option F;
  sl_best_ask : option F;
  sl_mid_price : option F;
  sl_spread_bps : option F;
  sl_book_ticker_count : Z;
  sl_depth_event_count : Z;
  sl_depth_book_rebuilt : bool;
  sl_trade_events : list TradeNormalized;
  sl_book_ticker_events : list BookTickerNormalized;
  sl_depth_events : list CompactEventRef;
  sl_ticker_events : list CompactEventRef;
  sl_symbol_health_snapshot : option SymbolHealthSnapshot;
  sl_source_health_snapshot : option SourceHealthSnapshot;
  sl_parent_event_ids : list string;
  sl_parent_run_ids : list string;
}.

Definition set_sl_slice_completeness (v : string) (s : SliceRow) : SliceRow :=
  mkSlice (sl_slice_id s) (sl_venue s) (sl_source_role s) (sl_symbol_native s)
    (sl_symbol_canonical s) (sl_base_asset s) (sl_quote_asset s) (sl_market_type s) (sl_window_ms
    s) (sl_window_start_ms s) (sl_window_end_ms s) v (sl_missing_reasons s) (sl_quality_ok s)
    (sl_quality_delayed s) (sl_quality_stale s) (sl_quality_gap s) (sl_quality_invalid s)
    (sl_trade_count s) (sl_trade_volume s) (sl_last_trade_price s) (sl_last_trade_size s)
    (sl_best_bid s) (sl_best_ask s) (sl_mid_price s) (sl_spread_bps s) (sl_book_ticker_count s)
    (sl_depth_event_count s) (sl_depth_book_rebuilt s) (sl_trade_events s) (sl_book_ticker_events
    s) (sl_depth_events s) (sl_ticker_events s) (sl_symbol_health_snapshot s)
    (sl_source_health_snapshot s) (sl_parent_event_ids s) (sl_parent_run_ids s).
Definition set_sl_missing_reasons (v : list string) (s : SliceRow) : SliceRow :=
  mkSlice (sl_slice_id s) (sl_venue s) (sl_source_role s) (sl_symbol_native s)
    (sl_symbol_canonical s) (sl_base_asset s) (sl_quote_asset s) (sl_market_type s) (sl_window_ms
    s) (sl_window_start_ms s) (sl_window_end_ms s) (sl_slice_completeness s) v (sl_quality_ok s)
    (sl_quality_delayed s) (sl_quality_stale s) (sl_quality_gap s) (sl_quality_invalid s)
    (sl_trade_count s) (sl_trade_volume s) (sl_last_trade_price s) (sl_last_trade_size s)
    (sl_best_bid s) (sl_best_ask s) (sl_mid_price s) (sl_spread_bps s) (sl_book_ticker_count s)
    (sl_depth_event_count s) (sl_depth_book_rebuilt s) (sl_trade_events s) (sl_book_ticker_events
    s) (sl_depth_events s) (sl_ticker_events s) (sl_symbol_health_snapshot s)
    (sl_source_health_snapshot s) (sl_parent_event_ids s) (sl_parent_run_ids s).
Definition set_sl_quality_ok (v : Z) (s : SliceRow) : SliceRow :=
  mkSlice (sl_slice_id s) (sl_venue s) (sl_source_role s) (sl_symbol_native s)
    (sl_symbol_canonical s) (sl_base_asset s) (sl_quote_asset s) (sl_market_type s) (sl_window_ms
    s) (sl_window_start_ms s) (sl_window_end_ms s) (sl_slice_completeness s) (sl_missing_reasons
    s) v (sl_quality_delayed s) (sl_quality_stale s) (sl_quality_gap s) (sl_quality_invalid s)
    (sl_trade_count s) (sl_trade_volume s) (sl_last_trade_price s) (sl_last_trade_size s)
    (sl_best_bid s) (sl_best_ask s) (sl_mid_price s) (sl_spread_bps s) (sl_book_ticker_count s)
    (sl_depth_event_count s) (sl_depth_book_rebuilt s) (sl_trade_events s) (sl_book_ticker_events
    s) (sl_depth_events s) (sl_ticker_events s) (sl_symbol_health_snapshot s)
    (sl_source_health_snapshot s) (sl_parent_event_ids s) (sl_parent_run_ids s).
Definition set_sl_quality_delayed (v : Z) (s : SliceRow) : SliceRow :=
  mkSlice (sl_slice_id s) (sl_venue s) (sl_source_role s) (sl_symbol_native s)
    (sl_symbol_canonical s) (sl_base_asset s) (sl_quote_asset s) (sl_market_type s) (sl_window_ms
    s) (sl_window_start_ms s) (sl_window_end_ms s) (sl_slice_completeness s) (sl_missing_reasons
    s) (sl_quality_ok s) v (sl_quality_stale s) (sl_quality_gap s) (sl_quality_invalid s)
    (sl_trade_count s) (sl_trade_volume s) (sl_last_trade_price s) (sl_last_trade_size s)
    (sl_best_bid s) (sl_best_ask s) (sl_mid_price s) (sl_spread_bps s) (sl_book_ticker_count s)
    (sl_depth_event_count s) (sl_depth_book_rebuilt s) (sl_trade_events s) (sl_book_ticker_events
    s) (sl_depth_events s) (sl_ticker_events s) (sl_symbol_health_snapshot s)
    (sl_source_health_snapshot s) (sl_parent_event_ids s) (sl_parent_run_ids s).
Definition set_sl_quality_stale (v : Z) (s : SliceRow) : SliceRow :=
  mkSlice (sl_slice_id s) (sl_venue s) (sl_source_role s) (sl_symbol_native s)
    (sl_symbol_canonical s) (sl_base_asset s) (sl_quote_asset s) (sl_market_type s) (sl_window_ms
    s) (sl_window_start_ms s) (sl_window_end_ms s) (sl_slice_completeness s) (sl_missing_reasons
    s) (sl_quality_ok s) (sl_quality_delayed s) v (sl_quality_gap s) (sl_quality_invalid s)
    (sl_trade_count s) (sl_trade_volume s) (sl_last_trade_price s) (sl_last_trade_size s)
    (sl_best_bid s) (sl_best_ask s) (sl_mid_price s) (sl_spread_bps s) (sl_book_ticker_count s)
    (sl_depth_event_count s) (sl_depth_book_rebuilt s) (sl_trade_events s) (sl_book_ticker_events
    s) (sl_depth_events s) (sl_ticker_events s) (sl_symbol_health_snapshot s)
    (sl_source_health_snapshot s) (sl_parent_event_ids s) (sl_parent_run_ids s).
Definition set_sl_quality_gap (v : Z) (s : SliceRow) : SliceRow :=
  mkSlice (sl_slice_id s) (sl_venue s) (sl_source_role s) (sl_symbol_native s)
    (sl_symbol_canonical s) (sl_base_asset s) (sl_quote_asset s) (sl_market_type s) (sl_window_ms
    s) (sl_window_start_ms s) (sl_window_end_ms s) (sl_slice_completeness s) (sl_missing_reasons
    s) (sl_quality_ok s) (sl_quality_delayed s) (sl_quality_stale s) v (sl_quality_invalid s)
    (sl_trade_count s) (sl_trade_volume s) (sl_last_trade_price s) (sl_last_trade_size s)
    (sl_best_bid s) (sl_best_ask s) (sl_mid_price s) (sl_spread_bps s) (sl_book_ticker_count s)
    (sl_depth_event_count s) (sl_depth_book_rebuilt s) (sl_trade_events s) (sl_book_ticker_events
    s) (sl_depth_events s) (sl_ticker_events s) (sl_symbol_health_snapshot s)
    (sl_source_health_snapshot s) (sl_parent_event_ids s) (sl_parent_run_ids s).
Definition set_sl_quality_invalid (v : Z) (s : SliceRow) : SliceRow :=
  mkSlice (sl_slice_id s) (sl_venue s) (sl_source_role s) (sl_symbol_native s)
    (sl_symbol_canonical s) (sl_base_asset s) (sl_quote_asset s) (sl_market_type s) (sl_window_ms
    s) (sl_window_start_ms s) (sl_window_end_ms s) (sl_slice_completeness s) (sl_missing_reasons
    s) (sl_quality_ok s) (sl_quality_delayed s) (sl_quality_stale s) (sl_quality_gap s) v
    (sl_trade_count s) (sl_trade_volume s) (sl_last_trade_price s) (sl_last_trade_size s)
    (sl_best_bid s) (sl_best_ask s) (sl_mid_price s) (sl_spread_bps s) (sl_book_ticker_count s)
    (sl_depth_event_count s) (sl_depth_book_rebuilt s) (sl_trade_events s) (sl_book_ticker_events
    s) (sl_depth_events s) (sl_ticker_events s) (sl_symbol_health_snapshot s)
    (sl_source_health_snapshot s) (sl_parent_event_ids s) (sl_parent_run_ids s).
Definition set_sl_trade_count (v : Z) (s : SliceRow) : SliceRow :=
  mkSlice (sl_slice_id s) (sl_venue s) (sl_source_role s) (sl_symbol_native s)
    (sl_symbol_canonical s) (sl_base_asset s) (sl_quote_asset s) (sl_market_type s) (sl_window_ms
    s) (sl_window_start_ms s) (sl_window_end_ms s) (sl_slice_completeness s) (sl_missing_reasons
    s) (sl_quality_ok s) (sl_quality_delayed s) (sl_quality_stale s) (sl_quality_gap s)
    (sl_quality_invalid s) v (sl_trade_volume s) (sl_last_trade_price s) (sl_last_trade_size s)
    (sl_best_bid s) (sl_best_ask s) (sl_mid_price s) (sl_spread_bps s) (sl_book_ticker_count s)
    (sl_depth_event_count s) (sl_depth_book_rebuilt s) (sl_trade_events s) (sl_book_ticker_events
    s) (sl_depth_events s) (sl_ticker_events s) (sl_symbol_health_snapshot s)
    (sl_source_health_snapshot s) (sl_parent_event_ids s) (sl_parent_run_ids s).
Definition set_sl_trade_volume (v : F) (s : SliceRow) : SliceRow :=
  mkSlice (sl_slice_id s) (sl_venue s) (sl_source_role s) (sl_symbol_native s)
    (sl_symbol_canonical s) (sl_base_asset s) (sl_quote_asset s) (sl_market_type s) (sl_window_ms
    s) (sl_window_start_ms s) (sl_window_end_ms s) (sl_slice_completeness s) (sl_missing_reasons
    s) (sl_quality_ok s) (sl_quality_delayed s) (sl_quality_stale s) (sl_quality_gap s)
    (sl_quality_invalid s) (sl_trade_count s) v (sl_last_trade_price s) (sl_last_trade_size s)
    (sl_best_bid s) (sl_best_ask s) (sl_mid_price s) (sl_spread_bps s) (sl_book_ticker_count s)
    (sl_depth_event_count s) (sl_depth_book_rebuilt s) (sl_trade_events s) (sl_book_ticker_events
    s) (sl_depth_events s) (sl_ticker_events s) (sl_symbol_health_snapshot s)
    (sl_source_health_snapshot s) (sl_parent_event_ids s) (sl_parent_run_ids s).
Definition set_sl_last_trade_price (v : option F) (s : SliceRow) : SliceRow :=
  mkSlice (sl_slice_id s) (sl_venue s) (sl_source_role s) (sl_symbol_native s)
    (sl_symbol_canonical s) (sl_base_asset s) (sl_quote_asset s) (sl_market_type s) (sl_window_ms
    s) (sl_window_start_ms s) (sl_window_end_ms s) (sl_slice_completeness s) (sl_missing_reasons
    s) (sl_quality_ok s) (sl_quality_delayed s) (sl_quality_stale s) (sl_quality_gap s)
    (sl_quality_invalid s) (sl_trade_count s) (sl_trade_volume s) v (sl_last_trade_size s)
    (sl_best_bid s) (sl_best_ask s) (sl_mid_price s) (sl_spread_bps s) (sl_book_ticker_count s)
    (sl_depth_event_count s) (sl_depth_book_rebuilt s) (sl_trade_events s) (sl_book_ticker_events
    s) (sl_depth_events s) (sl_ticker_events s) (sl_symbol_health_snapshot s)
    (sl_source_health_snapshot s) (sl_parent_event_ids s) (sl_parent_run_ids s).
Definition set_sl_last_trade_size (v : option F) (s : SliceRow) : SliceRow :=
  mkSlice (sl_slice_id s) (sl_venue s) (sl_source_role s) (sl_symbol_native s)
    (sl_symbol_canonical s) (sl_base_asset s) (sl_quote_asset s) (sl_market_type s) (sl_window_ms
    s) (sl_window_start_ms s) (sl_window_end_ms s) (sl_slice_completeness s) (sl_missing_reasons
    s) (sl_quality_ok s) (sl_quality_delayed s) (sl_quality_stale s) (sl_quality_gap s)
    (sl_quality_invalid s) (sl_trade_count s) (sl_trade_volume s) (sl_last_trade_price s) v
    (sl_best_bid s) (sl_best_ask s) (sl_mid_price s) (sl_spread_bps s) (sl_book_ticker_count s)
    (sl_depth_event_count s) (sl_depth_book_rebuilt s) (sl_trade_events s) (sl_book_ticker_events
    s) (sl_depth_events s) (sl_ticker_events s) (sl_symbol_health_snapshot s)
    (sl_source_health_snapshot s) (sl_parent_event_ids s) (sl_parent_run_ids s).
Definition set_sl_best_bid (v : option F) (s : SliceRow) : SliceRow :=
  mkSlice (sl_slice_id s) (sl_venue s) (sl_source_role s) (sl_symbol_native s)
    (sl_symbol_canonical s) (sl_base_asset s) (sl_quote_asset s) (sl_market_type s) (sl_window_ms
    s) (sl_window_start_ms s) (sl_window_end_ms s) (sl_slice_completeness s) (sl_missing_reasons
    s) (sl_quality_ok s) (sl_quality_delayed s) (sl_quality_stale s) (sl_quality_gap s)
    (sl_quality_invalid s) (sl_trade_count s) (sl_trade_volume s) (sl_last_trade_price s)
    (sl_last_trade_size s) v (sl_best_ask s) (sl_mid_price s) (sl_spread_bps s)
    (sl_book_ticker_count s) (sl_depth_event_count s) (sl_depth_book_rebuilt s) (sl_trade_events
    s) (sl_book_ticker_events s) (sl_depth_events s) (sl_ticker_events s)
    (sl_symbol_health_snapshot s) (sl_source_health_snapshot s) (sl_parent_event_ids s)
    (sl_parent_run_ids s).
Definition set_sl_best_ask (v : option F) (s : SliceRow) : SliceRow :=
  mkSlice (sl_slice_id s) (sl_venue s) (sl_source_role s) (sl_symbol_native s)
    (sl_symbol_canonical s) (sl_base_asset s) (sl_quote_asset s) (sl_market_type s) (sl_window_ms
    s) (sl_window_start_ms s) (sl_window_end_ms s) (sl_slice_completeness s) (sl_missing_reasons
    s) (sl_quality_ok s) (sl_quality_delayed s) (sl_quality_stale s) (sl_quality_gap s)
    (sl_quality_invalid s) (sl_trade_count s) (sl_trade_volume s) (sl_last_trade_price s)
    (sl_last_trade_size s) (sl_best_bid s) v (sl_mid_price s) (sl_spread_bps s)
    (sl_book_ticker_count s) (sl_depth_event_count s) (sl_depth_book_rebuilt s) (sl_trade_events
    s) (sl_book_ticker_events s) (sl_depth_events s) (sl_ticker_events s)
    (sl_symbol_health_snapshot s) (sl_source_health_snapshot s) (sl_parent_event_ids s)
    (sl_parent_run_ids s).
Definition set_sl_mid_price (v : option F) (s : SliceRow) : SliceRow :=
  mkSlice (sl_slice_id s) (sl_venue s) (sl_source_role s) (sl_symbol_native s)
    (sl_symbol_canonical s) (sl_base_asset s) (sl_quote_asset s) (sl_market_type s) (sl_window_ms
    s) (sl_window_start_ms s) (sl_window_end_ms s) (sl_slice_completeness s) (sl_missing_reasons
    s) (sl_quality_ok s) (sl_quality_delayed s) (sl_quality_stale s) (sl_quality_gap s)
    (sl_quality_invalid s) (sl_trade_count s) (sl_trade_volume s) (sl_last_trade_price s)
    (sl_last_trade_size s) (sl_best_bid s) (sl_best_ask s) v (sl_spread_bps s)
    (sl_book_ticker_count s) (sl_depth_event_count s) (sl_depth_book_rebuilt s) (sl_trade_events
    s) (sl_book_ticker_events s) (sl_depth_events s) (sl_ticker_events s)
    (sl_symbol_health_snapshot s) (sl_source_health_snapshot s) (sl_parent_event_ids s)
    (sl_parent_run_ids s).
Definition set_sl_spread_bps (v : option F) (s : SliceRow) : SliceRow :=
  mkSlice (sl_slice_id s) (sl_venue s) (sl_source_role s) (sl_symbol_native s)
    (sl_symbol_canonical s) (sl_base_asset s) (sl_quote_asset s) (sl_market_type s) (sl_window_ms
    s) (sl_window_start_ms s) (sl_window_end_ms s) (sl_slice_completeness s) (sl_missing_reasons
    s) (sl_quality_ok s) (sl_quality_delayed s) (sl_quality_stale s) (sl_quality_gap s)
    (sl_quality_invalid s) (sl_trade_count s) (sl_trade_volume s) (sl_last_trade_price s)
    (sl_last_trade_size s) (sl_best_bid s) (sl_best_ask s) (sl_mid_price s) v
    (sl_book_ticker_count s) (sl_depth_event_count s) (sl_depth_book_rebuilt s) (sl_trade_events
    s) (sl_book_ticker_events s) (sl_depth_events s) (sl_ticker_events s)
    (sl_symbol_health_snapshot s) (sl_source_health_snapshot s) (sl_parent_event_ids s)
    (sl_parent_run_ids s).
Definition set_sl_book_ticker_count (v : Z) (s : SliceRow) : SliceRow :=
  mkSlice (sl_slice_id s) (sl_venue s) (sl_source_role s) (sl_symbol_native s)
    (sl_symbol_canonical s) (sl_base_asset s) (sl_quote_asset s) (sl_market_type s) (sl_window_ms
    s) (sl_window_start_ms s) (sl_window_end_ms s) (sl_slice_completeness s) (sl_missing_reasons
    s) (sl_quality_ok s) (sl_quality_delayed s) (sl_quality_stale s) (sl_quality_gap s)
    (sl_quality_invalid s) (sl_trade_count s) (sl_trade_volume s) (sl_last_trade_price s)
    (sl_last_trade_size s) (sl_best_bid s) (sl_best_ask s) (sl_mid_price s) (sl_spread_bps s) v
    (sl_depth_event_count s) (sl_depth_book_rebuilt s) (sl_trade_events s) (sl_book_ticker_events
    s) (sl_depth_events s) (sl_ticker_events s) (sl_symbol_health_snapshot s)
    (sl_source_health_snapshot s) (sl_parent_event_ids s) (sl_parent_run_ids s).
Definition set_sl_depth_event_count (v : Z) (s : SliceRow) : SliceRow :=
  mkSlice (sl_slice_id s) (sl_venue s) (sl_source_role s) (sl_symbol_native s)
    (sl_symbol_canonical s) (sl_base_asset s) (sl_quote_asset s) (sl_market_type s) (sl_window_ms
    s) (sl_window_start_ms s) (sl_window_end_ms s) (sl_slice_completeness s) (sl_missing_reasons
    s) (sl_quality_ok s) (sl_quality_delayed s) (sl_quality_stale s) (sl_quality_gap s)
    (sl_quality_invalid s) (sl_trade_count s) (sl_trade_volume s) (sl_last_trade_price s)
    (sl_last_trade_size s) (sl_best_bid s) (sl_best_ask s) (sl_mid_price s) (sl_spread_bps s)
    (sl_book_ticker_count s) v (sl_depth_book_rebuilt s) (sl_trade_events s)
    (sl_book_ticker_events s) (sl_depth_events s) (sl_ticker_events s) (sl_symbol_health_snapshot
    s) (sl_source_health_snapshot s) (sl_parent_event_ids s) (sl_parent_run_ids s).
Definition set_sl_trade_events (v : list TradeNormalized) (s : SliceRow) : SliceRow :=
  mkSlice (sl_slice_id s) (sl_venue s) (sl_source_role s) (sl_symbol_native s)
    (sl_symbol_canonical s) (sl_base_asset s) (sl_quote_asset s) (sl_market_type s) (sl_window_ms
    s) (sl_window_start_ms s) (sl_window_end_ms s) (sl_slice_completeness s) (sl_missing_reasons
    s) (sl_quality_ok s) (sl_quality_delayed s) (sl_quality_stale s) (sl_quality_gap s)
    (sl_quality_invalid s) (sl_trade_count s) (sl_trade_volume s) (sl_last_trade_price s)
    (sl_last_trade_size s) (sl_best_bid s) (sl_best_ask s) (sl_mid_price s) (sl_spread_bps s)
    (sl_book_ticker_count s) (sl_depth_event_count s) (sl_depth_book_rebuilt s) v
    (sl_book_ticker_events s) (sl_depth_events s) (sl_ticker_events s) (sl_symbol_health_snapshot
    s) (sl_source_health_snapshot s) (sl_parent_event_ids s) (sl_parent_run_ids s).
Definition set_sl_book_ticker_events (v : list BookTickerNormalized) (s : SliceRow) : SliceRow :=
  mkSlice (sl_slice_id s) (sl_venue s) (sl_source_role s) (sl_symbol_native s)
    (sl_symbol_canonical s) (sl_base_asset s) (sl_quote_asset s) (sl_market_type s) (sl_window_ms
    s) (sl_window_start_ms s) (sl_window_end_ms s) (sl_slice_completeness s) (sl_missing_reasons
    s) (sl_quality_ok s) (sl_quality_delayed s) (sl_quality_stale s) (sl_quality_gap s)
    (sl_quality_invalid s) (sl_trade_count s) (sl_trade_volume s) (sl_last_trade_price s)
    (sl_last_trade_size s) (sl_best_bid s) (sl_best_ask s) (sl_mid_price s) (sl_spread_bps s)
    (sl_book_ticker_count s) (sl_depth_event_count s) (sl_depth_book_rebuilt s) (sl_trade_events
    s) v (sl_depth_events s) (sl_ticker_events s) (sl_symbol_health_snapshot s)
    (sl_source_health_snapshot s) (sl_parent_event_ids s) (sl_parent_run_ids s).
Definition set_sl_depth_events (v : list CompactEventRef) (s : SliceRow) : SliceRow :=
  mkSlice (sl_slice_id s) (sl_venue s) (sl_source_role s) (sl_symbol_native s)
    (sl_symbol_canonical s) (sl_base_asset s) (sl_quote_asset s) (sl_market_type s) (sl_window_ms
    s) (sl_window_start_ms s) (sl_window_end_ms s) (sl_slice_completeness s) (sl_missing_reasons
    s) (sl_quality_ok s) (sl_quality_delayed s) (sl_quality_stale s) (sl_quality_gap s)
    (sl_quality_invalid s) (sl_trade_count s) (sl_trade_volume s) (sl_last_trade_price s)
    (sl_last_trade_size s) (sl_best_bid s) (sl_best_ask s) (sl_mid_price s) (sl_spread_bps s)
    (sl_book_ticker_count s) (sl_depth_event_count s) (sl_depth_book_rebuilt s) (sl_trade_events
    s) (sl_book_ticker_events s) v (sl_ticker_events s) (sl_symbol_health_snapshot s)
    (sl_source_health_snapshot s) (sl_parent_event_ids s) (sl_parent_run_ids s).
Definition set_sl_ticker_events (v : list CompactEventRef) (s : SliceRow) : SliceRow :=
  mkSlice (sl_slice_id s) (sl_venue s) (sl_source_role s) (sl_symbol_native s)
    (sl_symbol_canonical s) (sl_base_asset s) (sl_quote_asset s) (sl_market_type s) (sl_window_ms
    s) (sl_window_start_ms s) (sl_window_end_ms s) (sl_slice_completeness s) (sl_missing_reasons
    s) (sl_quality_ok s) (sl_quality_delayed s) (sl_quality_stale s) (sl_quality_gap s)
    (sl_quality_invalid s) (sl_trade_count s) (sl_trade_volume s) (sl_last_trade_price s)
    (sl_last_trade_size s) (sl_best_bid s) (sl_best_ask s) (sl_mid_price s) (sl_spread_bps s)
    (sl_book_ticker_count s) (sl_depth_event_count s) (sl_depth_book_rebuilt s) (sl_trade_events
    s) (sl_book_ticker_events s) (sl_depth_events s) v (sl_symbol_health_snapshot s)
    (sl_source_health_snapshot s) (sl_parent_event_ids s) (sl_parent_run_ids s).
Definition set_sl_symbol_health_snapshot (v : option SymbolHealthSnapshot) (s : SliceRow) :
    SliceRow :=
  mkSlice (sl_slice_id s) (sl_venue s) (sl_source_role s) (sl_symbol_native s)
    (sl_symbol_canonical s) (sl_base_asset s) (sl_quote_asset s) (sl_market_type s) (sl_window_ms
    s) (sl_window_start_ms s) (sl_window_end_ms s) (sl_slice_completeness s) (sl_missing_reasons
    s) (sl_quality_ok s) (sl_quality_delayed s) (sl_quality_stale s) (sl_quality_gap s)
    (sl_quality_invalid s) (sl_trade_count s) (sl_trade_volume s) (sl_last_trade_price s)
    (sl_last_trade_size s) (sl_best_bid s) (sl_best_ask s) (sl_mid_price s) (sl_spread_bps s)
    (sl_book_ticker_count s) (sl_depth_event_count s) (sl_depth_book_rebuilt s) (sl_trade_events
    s) (sl_book_ticker_events s) (sl_depth_events s) (sl_ticker_events s) v
    (sl_source_health_snapshot s) (sl_parent_event_ids s) (sl_parent_run_ids s).
Definition set_sl_source_health_snapshot (v : option SourceHealthSnapshot) (s : SliceRow) :
    SliceRow :=
  mkSlice (sl_slice_id s) (sl_venue s) (sl_source_role s) (sl_symbol_native s)
    (sl_symbol_canonical s) (sl_base_asset s) (sl_quote_asset s) (sl_market_type s) (sl_window_ms
    s) (sl_window_start_ms s) (sl_window_end_ms s) (sl_slice_completeness s) (sl_missing_reasons
    s) (sl_quality_ok s) (sl_quality_delayed s) (sl_quality_stale s) (sl_quality_gap s)
    (sl_quality_invalid s) (sl_trade_count s) (sl_trade_volume s) (sl_last_trade_price s)
    (sl_last_trade_size s) (sl_best_bid s) (sl_best_ask s) (sl_mid_price s) (sl_spread_bps s)
    (sl_book_ticker_count s) (sl_depth_event_count s) (sl_depth_book_rebuilt s) (sl_trade_events
    s) (sl_book_ticker_events s) (sl_depth_events s) (sl_ticker_events s)
    (sl_symbol_health_snapshot s) v (sl_parent_event_ids s) (sl_parent_run_ids s).
Definition set_sl_parent_event_ids (v : list string) (s : SliceRow) : SliceRow :=
  mkSlice (sl_slice_id s) (sl_venue s) (sl_source_role s) (sl_symbol_native s)
    (sl_symbol_canonical s) (sl_base_asset s) (sl_quote_asset s) (sl_market_type s) (sl_window_ms
    s) (sl_window_start_ms s) (sl_window_end_ms s) (sl_slice_completeness s) (sl_missing_reasons
    s) (sl_quality_ok s) (sl_quality_delayed s) (sl_quality_stale s) (sl_quality_gap s)
    (sl_quality_invalid s) (sl_trade_count s) (sl_trade_volume s) (sl_last_trade_price s)
    (sl_last_trade_size s) (sl_best_bid s) (sl_best_ask s) (sl_mid_price s) (sl_spread_bps s)
    (sl_book_ticker_count s) (sl_depth_event_count s) (sl_depth_book_rebuilt s) (sl_trade_events
    s) (sl_book_ticker_events s) (sl_depth_events s) (sl_ticker_events s)
    (sl_symbol_health_snapshot s) (sl_source_health_snapshot s) v (sl_parent_run_ids s).
Definition set_sl_parent_run_ids (v : list string) (s : SliceRow) : SliceRow :=
  mkSlice (sl_slice_id s) (sl_venue s) (sl_source_role s) (sl_symbol_native s)
    (sl_symbol_canonical s) (sl_base_asset s) (sl_quote_asset s) (sl_market_type s) (sl_window_ms
    s) (sl_window_start_ms s) (sl_window_end_ms s) (sl_slice_completeness s) (sl_missing_reasons
    s) (sl_quality_ok s) (sl_quality_delayed s) (sl_quality_stale s) (sl_quality_gap s)
    (sl_quality_invalid s) (sl_trade_count s) (sl_trade_volume s) (sl_last_trade_price s)
    (sl_last_trade_size s) (sl_best_bid s) (sl_best_ask s) (sl_mid_price s) (sl_spread_bps s)
    (sl_book_ticker_count s) (sl_depth_event_count s) (sl_depth_book_rebuilt s) (sl_trade_events
    s) (sl_book_ticker_events s) (sl_depth_events s) (sl_ticker_events s)
    (sl_symbol_health_snapshot s) (sl_source_health_snapshot s) (sl_parent_event_ids s) v.
(* rust: src/normalize/build/accumulator.rs BuildAccumulator *)
Record BuildAccumulator := mkAcc {
  ac_input_range : InputRange;
  ac_scan_range : InputRange;
  ac_projection_range : InputRange;
  ac_input_identities : btree IdentityKey Identity;
  ac_projection_identities : btree IdentityKey Identity;
  ac_rows : btree SliceKey SliceRow;
  ac_projection_rows : btree SliceKey SliceRow;
  ac_projection_derivative_metrics : list DerivativeMetricObservation;
  ac_symbol_health : list SymbolHealthInput;
  ac_source_health : list SourceHealthInput;
  ac_gap_alerts : list GapAlertInput;
  ac_stats : BuildStats;
  ac_projection_stats : BuildStats;
  ac_schema_versions : btree string ();
  ac_seen_event_ids : btree string ();
  ac_metadata : BuildInputMetadata;
}.

Definition set_ac_input_identities (v : btree IdentityKey Identity) (s : BuildAccumulator) :
    BuildAccumulator :=
  mkAcc (ac_input_range s) (ac_scan_range s) (ac_projection_range s) v (ac_projection_identities
    s) (ac_rows s) (ac_projection_rows s) (ac_projection_derivative_metrics s) (ac_symbol_health
    s) (ac_source_health s) (ac_gap_alerts s) (ac_stats s) (ac_projection_stats s)
    (ac_schema_versions s) (ac_seen_event_ids s) (ac_metadata s).
Definition set_ac_projection_identities (v : btree IdentityKey Identity) (s : BuildAccumulator) :
    BuildAccumulator :=
  mkAcc (ac_input_range s) (ac_scan_range s) (ac_projection_range s) (ac_input_identities s) v
    (ac_rows s) (ac_projection_rows s) (ac_projection_derivative_metrics s) (ac_symbol_health s)
    (ac_source_health s) (ac_gap_alerts s) (ac_stats s) (ac_projection_stats s)
    (ac_schema_versions s) (ac_seen_event_ids s) (ac_metadata s).
Definition set_ac_rows (v : btree SliceKey SliceRow) (s : BuildAccumulator) : BuildAccumulator :=
  mkAcc (ac_input_range s) (ac_scan_range s) (ac_projection_range s) (ac_input_identities s)
    (ac_projection_identities s) v (ac_projection_rows s) (ac_projection_derivative_metrics s)
    (ac_symbol_health s) (ac_source_health s) (ac_gap_alerts s) (ac_stats s) (ac_projection_stats
    s) (ac_schema_versions s) (ac_seen_event_ids s) (ac_metadata s).
Definition set_ac_projection_rows (v : btree SliceKey SliceRow) (s : BuildAccumulator) :
    BuildAccumulator :=
  mkAcc (ac_input_range s) (ac_scan_range s) (ac_projection_range s) (ac_input_identities s)
    (ac_projection_identities s) (ac_rows s) v (ac_projection_derivative_metrics s)
    (ac_symbol_health s) (ac_source_health s) (ac_gap_alerts s) (ac_stats s) (ac_projection_stats
    s) (ac_schema_versions s) (ac_seen_event_ids s) (ac_metadata s).
Definition set_ac_projection_derivative_metrics (v : list DerivativeMetricObservation) (s :
    BuildAccumulator) : BuildAccumulator :=
  mkAcc (ac_input_range s) (ac_scan_range s) (ac_projection_range s) (ac_input_identities s)
    (ac_projection_identities s) (ac_rows s) (ac_projection_rows s) v (ac_symbol_health s)
    (ac_source_health s) (ac_gap_alerts s) (ac_stats s) (ac_projection_stats s)
    (ac_schema_versions s) (ac_seen_event_ids s) (ac_metadata s).
Definition set_ac_symbol_health (v : list SymbolHealthInput) (s : BuildAccumulator) :
    BuildAccumulator :=
  mkAcc (ac_input_range s) (ac_scan_range s) (ac_projection_range s) (ac_input_identities s)
    (ac_projection_identities s) (ac_rows s) (ac_projection_rows s)
    (ac_projection_derivative_metrics s) v (ac_source_health s) (ac_gap_alerts s) (ac_stats s)
    (ac_projection_stats s) (ac_schema_versions s) (ac_seen_event_ids s) (ac_metadata s).
Definition set_ac_source_health (v : list SourceHealthInput) (s : BuildAccumulator) :
    BuildAccumulator :=
  mkAcc (ac_input_range s) (ac_scan_range s) (ac_projection_range s) (ac_input_identities s)
    (ac_projection_identities s) (ac_rows s) (ac_projection_rows s)
    (ac_projection_derivative_metrics s) (ac_symbol_health s) v (ac_gap_alerts s) (ac_stats s)
    (ac_projection_stats s) (ac_schema_versions s) (ac_seen_event_ids s) (ac_metadata s).
Definition set_ac_gap_alerts (v : list GapAlertInput) (s : BuildAccumulator) : BuildAccumulator :=
  mkAcc (ac_input_range s) (ac_scan_range s) (ac_projection_range s) (ac_input_identities s)
    (ac_projection_identities s) (ac_rows s) (ac_projection_rows s)
    (ac_projection_derivative_metrics s) (ac_symbol_health s) (ac_source_health s) v (ac_stats s)
    (ac_projection_stats s) (ac_schema_versions s) (ac_seen_event_ids s) (ac_metadata s).
Definition set_ac_stats (v : BuildStats) (s : BuildAccumulator) : BuildAccumulator :=
  mkAcc (ac_input_range s) (ac_scan_range s) (ac_projection_range s) (ac_input_identities s)
    (ac_projection_identities s) (ac_rows s) (ac_projection_rows s)
    (ac_projection_derivative_metrics s) (ac_symbol_health s) (ac_source_health s) (ac_gap_alerts
    s) v (ac_projection_stats s) (ac_schema_versions s) (ac_seen_event_ids s) (ac_metadata s).
Definition set_ac_projection_stats (v : BuildStats) (s : BuildAccumulator) : BuildAccumulator :=
  mkAcc (ac_input_range s) (ac_scan_range s) (ac_projection_range s) (ac_input_identities s)
    (ac_projection_identities s) (ac_rows s) (ac_projection_rows s)
    (ac_projection_derivative_metrics s) (ac_symbol_health s) (ac_source_health s) (ac_gap_alerts
    s) (ac_stats s) v (ac_schema_versions s) (ac_seen_event_ids s) (ac_metadata s).
Definition set_ac_schema_versions (v : btree string ()) (s : BuildAccumulator) : BuildAccumulator :=
  mkAcc (ac_input_range s) (ac_scan_range s) (ac_projection_range s) (ac_input_identities s)
    (ac_projection_identities s) (ac_rows s) (ac_projection_rows s)
    (ac_projection_derivative_metrics s) (ac_symbol_health s) (ac_source_health s) (ac_gap_alerts
    s) (ac_stats s) (ac_projection_stats s) v (ac_seen_event_ids s) (ac_metadata s).
Definition set_ac_seen_event_ids (v : btree string ()) (s : BuildAccumulator) : BuildAccumulator :=
  mkAcc (ac_input_range s) (ac_scan_range s) (ac_projection_range s) (ac_input_identities s)
    (ac_projection_identities s) (ac_rows s) (ac_projection_rows s)
    (ac_projection_derivative_metrics s) (ac_symbol_health s) (ac_source_health s) (ac_gap_alerts
    s) (ac_stats s) (ac_projection_stats s) (ac_schema_versions s) v (ac_metadata s).
(* rust: src/normalize/build/result.rs BuildResult *)
Record BuildResult := mkBuild {
  br_slices : list SliceRow;
  br_projection_slices : list SliceRow;
  br_projection_derivative_metrics : list DerivativeMetricObservation;
  br_input_object_keys : list string;
  br_run_mode : string;
  br_fallback_alert : bool;
  br_input_local_object_count : Z;
  br_input_s3_object_count : Z;
  br_input_record_count : Z;
  br_duplicate_event_count : Z;
  br_invalid_event_count : Z;
  br_payload_hash_mismatch_count : Z;
  br_input_schema_versions : list string;
  br_status : string;
  br_failure_reason : option string;
}.


(** ** Decoding rows *)

Section rows.
Context {Row : Type}.
(** The column of a batch at a row: absent or of another type, null, or a value. *)
Context (col_str : string -> Row -> result StorageError (option string)).
Context (col_i64 : string -> Row -> result StorageError (option Z)).
Context (col_bool : string -> Row -> result StorageError (option bool)).

(* rust: src/normalize/read/batch_decode/columns.rs string_value *)
Definition string_value (name : string) (row : Row) : result StorageError string :=
  v ← col_str name row; Ok (default ""%string v).

(* rust: src/normalize/read/batch_decode/columns.rs int64_value *)
Definition int64_value (name : string) (row : Row) : result StorageError Z :=
  v ← col_i64 name row; Ok (default 0 v).

(* rust: src/normalize/read/batch_decode/columns.rs int64_optional *)
Definition int64_optional (name : string) (row : Row) : result StorageError (option Z) :=
  col_i64 name row.

(* rust: src/normalize/read/batch_decode/columns.rs bool_value *)
Definition bool_value (name : string) (row : Row) : result StorageError bool :=
  v ← col_bool name row; Ok (default false v).

(* rust: src/normalize/read/batch_decode/row.rs raw_event_from_batch *)
Definition raw_event_from_batch (row : Row) : result StorageError RawInputEvent :=
  event_id ← string_value "event_id" row;
  producer_run_id ← string_value "producer_run_id" row;
  venue ← string_value "venue" row;
  source_role ← string_value "source_role" row;
  market_type ← string_value "market_type" row;
  event_type ← string_value "event_type" row;
  symbol_native ← string_value "symbol_native" row;
  symbol_canonical ← string_value "symbol_canonical" row;
  base_asset ← string_value "base_asset" row;
  quote_asset ← string_value "quote_asset" row;
  exchange_timestamp_ms ← int64_value "exchange_timestamp_ms" row;
  ingest_timestamp_ms ← int64_value "ingest_timestamp_ms" row;
  exchange_sequence ← int64_optional "exchange_sequence" row;
  payload_json ← string_value "payload_json" row;
  payload_sha256 ← string_value "payload_sha256" row;
  schema_version ← string_value "schema_version" row;
  Ok (mkRawInput event_id producer_run_id venue source_role market_type event_type symbol_native
        symbol_canonical base_asset quote_asset exchange_timestamp_ms ingest_timestamp_ms
        exchange_sequence payload_json payload_sha256 schema_version).

(* rust: src/normalize/read/batch_decode/row.rs symbol_health_from_batch *)
Definition symbol_health_from_batch (row : Row) : result StorageError SymbolHealthInput :=
  venue ← string_value "venue" row;
  symbol_native ← string_value "symbol_native" row;
  observed_at_ms ← int64_value "observed_at_ms" row;
  last_event_time_ms ← int64_value "last_event_time_ms" row;
  latency_ms ← int64_value "latency_ms" row;
  is_tradeable ← bool_value "is_tradeable" row;
  reason_codes ← string_value "reason_codes" row;
  payload_sha256 ← string_value "payload_sha256" row;
  schema_version ← string_value "schema_version" row;
  Ok (mkSymInput venue symbol_native observed_at_ms last_event_time_ms latency_ms is_tradeable
        reason_codes payload_sha256 schema_version).

(* rust: src/normalize/read/batch_decode/row.rs source_health_from_batch *)
Definition source_health_from_batch (row : Row) : result StorageError SourceHealthInput :=
  venue ← string_value "venue" row;
  observed_at_ms ← int64_value "observed_at_ms" row;
  connection_status ← string_value "connection_status" row;
  heartbeat_delay_ms ← int64_value "heartbeat_delay_ms" row;
  stream_lag_ms ← int64_value "stream_lag_ms" row;
  recent_gap_count ← int64_value "recent_gap_count" row;
  book_rebuild_count ← int64_value "book_rebuild_count" row;
  health_level ← string_value "health_level" row;
  payload_json ← string_value "payload_json" row;
  payload_sha256 ← string_value "payload_sha256" row;
  schema_version ← string_value "schema_version" row;
  Ok (mkSrcInput venue observed_at_ms connection_status heartbeat_delay_ms stream_lag_ms
        recent_gap_count book_rebuild_count health_level payload_json payload_sha256 schema_version).

(* rust: src/normalize/read/batch_decode/row.rs gap_alert_from_batch *)
Definition gap_alert_from_batch (row : Row) : result StorageError GapAlertInput :=
  venue ← string_value "venue" row;
  symbol_native ← string_value "symbol_native" row;
  gap_type ← string_value "gap_type" row;
  detected_at_ms ← int64_value "detected_at_ms" row;
  payload_json ← string_value "payload_json" row;
  payload_sha256 ← string_value "payload_sha256" row;
  schema_version ← string_value "schema_version" row;
  Ok (mkGapInput venue symbol_native gap_type detected_at_ms payload_json payload_sha256
        schema_version).
End rows.

(** ** Payloads *)

(* rust: src/normalize/payload/common.rs number_from_value *)
Definition number_from_value (value : V) : option F :=
  match pj_number value with
  | Some as_f64 => as_f64
  | None => text ← pj_as_str value; f_parse text
  end.

(** [binance_data(&value).unwrap_or(&value)] *)
(* rust: src/normalize/payload/common.rs binance_data *)
Definition binance_data (value : V) : V := default value (pj_get "data" value).

Definition field_number (name : string) (data : V) : option F :=
  field ← pj_get name data; number_from_value field.

(* rust: src/normalize/payload/trade.rs parse_binance_trade *)
Definition parse_binance_trade (event : RawInputEvent) (data : V) : option TradeNormalized :=
  price ← field_number "p" data;
  quantity ← field_number "q" data;
  if f_leb price f_zero || f_leb quantity f_zero then None else
  let buyer_is_maker := default false (m ← pj_get "m" data; pj_as_bool m) in
  Some (mkTrade (ri_exchange_timestamp_ms event) (ri_ingest_timestamp_ms event) price quantity
          (if buyer_is_maker then "sell" else "buy") (ri_exchange_sequence event) (ri_event_id event)).

(* rust: src/normalize/payload/trade.rs parse_upbit_trade *)
Definition parse_upbit_trade (event : RawInputEvent) (data : V) : option TradeNormalized :=
  price ← field_number "trade_price" data;
  quantity ← field_number "trade_volume" data;
  if f_leb price f_zero || f_leb quantity f_zero then None else
  ask_bid ← (f ← pj_get "ask_bid" data; pj_as_str f);
  side ← (if String.eqb ask_bid "BID" then Some "buy"%string
          else if String.eqb ask_bid "ASK" then Some "sell"%string else None);
  Some (mkTrade (ri_exchange_timestamp_ms event) (ri_ingest_timestamp_ms event) price quantity
          side (ri_exchange_sequence event) (ri_event_id event)).

(* rust: src/normalize/payload/trade.rs parse_trade *)
Definition parse_trade (event : RawInputEvent) : option TradeNormalized :=
  value ← pj_parse (ri_payload_json event);
  let data := binance_data value in
  if String.eqb (ri_venue event) "binance" then parse_binance_trade event data
  else if String.eqb (ri_venue event) "upbit" then parse_upbit_trade event data
  else None.

(* rust: src/normalize/payload/book.rs valid_book *)
Definition valid_book (event : RawInputEvent) (best_bid best_bid_qty best_ask best_ask_qty : F)
    : option BookTickerNormalized :=
  if f_leb best_bid f_zero || f_leb best_ask f_zero || f_ltb best_bid_qty f_zero
     || f_ltb best_ask_qty f_zero then None
  else if f_ltb best_ask best_bid then None
  else Some (mkBook (ri_exchange_timestamp_ms event) (ri_ingest_timestamp_ms event) best_bid
               best_bid_qty best_ask best_ask_qty (ri_exchange_sequence event) (ri_event_id event)).

(* rust: src/normalize/payload/book.rs parse_binance_book_ticker *)
Definition parse_binance_book_ticker (event : RawInputEvent) (data : V)
    : option BookTickerNormalized :=
  best_bid ← field_number "b" data;
  best_bid_qty ← field_number "B" data;
  best_ask ← field_number "a" data;
  best_ask_qty ← field_number "A" data;
  valid_book event best_bid best_bid_qty best_ask best_ask_qty.

(* rust: src/normalize/payload/book.rs parse_upbit_orderbook_top *)
Definition parse_upbit_orderbook_top (event : RawInputEvent) (data : V)
    : option BookTickerNormalized :=
  units ← pj_get "orderbook_units" data;
  units ← pj_as_array units;
  first ← head units;
  best_bid ← field_number "bid_price" first;
  best_bid_qty ← field_number "bid_size" first;
  best_ask ← field_number "ask_price" first;
  best_ask_qty ← field_number "ask_size" first;
  valid_book event best_bid best_bid_qty best_ask best_ask_qty.

(* rust: src/normalize/payload/book.rs parse_book_ticker *)
Definition parse_book_ticker (event : RawInputEvent) : option BookTickerNormalized :=
  value ← pj_parse (ri_payload_json event);
  let data := binance_data value in
  if String.eqb (ri_venue event) "binance" && String.eqb (ri_event_type event) "book_ticker"
  then parse_binance_book_ticker event data
  else if String.eqb (ri_venue event) "upbit" && String.eqb (ri_event_type event) "depth_snapshot"
  then parse_upbit_orderbook_top event data
  else None.

(* rust: src/normalize/payload/derivative.rs parse_derivative_metric *)
Definition parse_derivative_metric (event : RawInputEvent) : option DerivativeMetricObservation :=
  value ← pj_parse (ri_payload_json event);
  let either a b := match pj_get a value with Some f => Some f | None => pj_get b value end in
  '(metric_name, metric_value, unit) ←
    (if String.eqb (ri_venue event) "binance" && String.eqb (ri_event_type event) "funding_rate_snapshot"
     then field ← either "funding_rate" "lastFundingRate";
          number ← number_from_value field; Some ("funding_rate", number, "ratio")
     else if String.eqb (ri_venue event) "binance"
             && String.eqb (ri_event_type event) "open_interest_snapshot"
     then field ← either "open_interest" "openInterest";
          number ← number_from_value field; Some ("open_interest", number, "contracts")
     else None)%string;
  if negb (f_is_finite metric_value) then None
  else Some (mkMetric (ri_venue event) (ri_source_role event) (ri_market_type event) metric_name
               (ri_symbol_native event) (ri_symbol_canonical event) (ri_base_asset event)
               (ri_quote_asset event) metric_value unit (ri_exchange_timestamp_ms event)
               (ri_ingest_timestamp_ms event) (ri_event_id event) (ri_producer_run_id event)).

(* rust: src/normalize/payload/event_ref.rs compact_ref *)
Definition compact_ref (event : RawInputEvent) : CompactEventRef :=
  mkCompact (ri_exchange_timestamp_ms event) (ri_ingest_timestamp_ms event) (ri_event_type event)
    (ri_event_id event).

(** ** Seeding the slices of an identity *)

(* rust: src/normalize/build/slices/identity.rs IdentityKey::from_event *)
Definition identity_key (event : RawInputEvent) : IdentityKey :=
  (ri_venue event, ri_symbol_canonical event).

(* rust: src/normalize/build/slices/identity.rs Identity::from_event *)
Definition identity_from_event (event : RawInputEvent) : Identity :=
  mkIdentity (ri_venue event) (ri_source_role event) (ri_symbol_native event)
    (ri_symbol_canonical event) (ri_base_asset event) (ri_quote_asset event) (ri_market_type event).

(* rust: src/normalize/model/constants.rs SLICE_SCHEMA_VERSION *)
Definition SLICE_SCHEMA_VERSION : string := "normalized_market_slice_v1".

(* rust: src/normalize/build/slices/row.rs empty_slice *)
Definition empty_slice (args : NormalizeArgs) (identity : Identity) (window_start_ms : Z)
    : SliceRow :=
  let slice_key := (id_venue identity ++ "|" ++ id_symbol_canonical identity ++ "|"
    ++ show_Z window_start_ms ++ "|" ++ show_Z (na_window_ms args) ++ "|"
    ++ SLICE_SCHEMA_VERSION)%string in
  mkSlice (sha256_hex slice_key) (id_venue identity) (id_source_role identity)
    (id_symbol_native identity) (id_symbol_canonical identity) (id_base_asset identity)
    (id_quote_asset identity) (id_market_type identity) (na_window_ms args) window_start_ms
    (saturate I64 (window_start_ms + na_window_ms args)) "" []
    0 0 0 0 0 0 f_zero None None None None None None 0 0 false [] [] [] [] None None [] [].

Fixpoint seed_loop (fuel : nat) (args : NormalizeArgs) (end_ms : Z) (identity : Identity)
    (window_start_ms : Z) (rows : btree SliceKey SliceRow) : btree SliceKey SliceRow :=
  match fuel with
  | O => rows
  | S fuel =>
      if window_start_ms <? end_ms then
        let key := (id_venue identity, (id_symbol_canonical identity, window_start_ms)) in
        seed_loop fuel args end_ms identity (saturate I64 (window_start_ms + na_window_ms args))
          (bupdate key (empty_slice args identity window_start_ms) (fun row => row) rows)
      else rows
  end.

(** [window_fuel] steps, one for each window. *)
(* rust: src/normalize/build/slices/row.rs seed_identity_slices *)
Definition seed_identity_slices (args : NormalizeArgs) (input_range : InputRange)
    (identity : Identity) (rows : btree SliceKey SliceRow) : btree SliceKey SliceRow :=
  seed_loop (window_fuel (ir_start_ms input_range) (ir_end_ms input_range) (na_window_ms args))
    args (ir_end_ms input_range) identity (ir_start_ms input_range) rows.

(** ** Applying an event to its slice *)

(* rust: src/normalize/build/slices/event.rs is_derivative_market_event *)
Definition is_derivative_market_event (event : RawInputEvent) : bool :=
  String.eqb (ri_venue event) "binance" &&
  (String.eqb (ri_event_type event) "funding_rate_snapshot"
   || String.eqb (ri_event_type event) "open_interest_snapshot").

(* rust: src/normalize/build/slices/event.rs payload_hash *)
Definition payload_hash (payload : string) : string := sha256_hex payload.

(* rust: src/normalize/build/slices/event.rs push_missing *)
Definition push_missing (reason : string) (row : SliceRow) : SliceRow :=
  set_sl_missing_reasons (sl_missing_reasons row ++ [reason]) row.

(** [x += 1] on an [i64]. *)
Definition incr_i64 (x : Z) : Z := wrap I64 (x + 1).

(* rust: src/normalize/build/slices/event.rs mark_invalid *)
Definition mark_invalid (reason : string) (row : SliceRow) (stats : BuildStats)
    : SliceRow * BuildStats :=
  (push_missing reason (set_sl_quality_invalid (incr_i64 (sl_quality_invalid row)) row),
   set_st_invalid_event_count (incr_u64 (st_invalid_event_count stats)) stats).

(* rust: src/normalize/build/slices/event.rs mark_event_quality *)
Definition mark_event_quality (args : NormalizeArgs) (event : RawInputEvent) (row : SliceRow)
    : SliceRow :=
  if na_max_latency_ms args
     <? saturate I64 (ri_ingest_timestamp_ms event - ri_exchange_timestamp_ms event)
  then set_sl_quality_delayed (incr_i64 (sl_quality_delayed row)) row
  else set_sl_quality_ok (incr_i64 (sl_quality_ok row)) row.

(* rust: src/normalize/build/slices/event.rs push_parent *)
Definition push_parent (event : RawInputEvent) (row : SliceRow) : SliceRow :=
  set_sl_parent_run_ids (sl_parent_run_ids row ++ [ri_producer_run_id event])
    (set_sl_parent_event_ids (sl_parent_event_ids row ++ [ri_event_id event]) row).

(* rust: src/normalize/build/slices/event.rs apply_trade_event *)
Definition apply_trade_event (args : NormalizeArgs) (event : RawInputEvent) (row : SliceRow)
    (stats : BuildStats) : SliceRow * BuildStats :=
  match parse_trade event with
  | Some trade =>
      let row := set_sl_trade_count (incr_i64 (sl_trade_count row)) row in
      let row := set_sl_trade_volume (f_add (sl_trade_volume row) (tn_quantity trade)) row in
      let row := set_sl_last_trade_price (Some (tn_price trade)) row in
      let row := set_sl_last_trade_size (Some (tn_quantity trade)) row in
      let row := set_sl_trade_events (sl_trade_events row ++ [trade]) row in
      (push_parent event (mark_event_quality args event row), stats)
  | None => mark_invalid "parse_trade_failed" row stats
  end.

(* rust: src/normalize/build/slices/event.rs apply_book_event *)
Definition apply_book_event (args : NormalizeArgs) (event : RawInputEvent) (row : SliceRow)
    (stats : BuildStats) : SliceRow * BuildStats :=
  let '(row, stats) :=
    match parse_book_ticker event with
    | Some book =>
        let row := set_sl_book_ticker_count (incr_i64 (sl_book_ticker_count row)) row in
        let row := set_sl_best_bid (Some (bn_best_bid book)) row in
        let row := set_sl_best_ask (Some (bn_best_ask book)) row in
        let row := set_sl_book_ticker_events (sl_book_ticker_events row ++ [book]) row in
        (push_parent event (mark_event_quality args event row), stats)
    | None =>
        if String.eqb (ri_event_type event) "book_ticker"
        then mark_invalid "parse_book_ticker_failed" row stats else (row, stats)
    end in
  if String.eqb (ri_event_type event) "depth_snapshot" then
    let row := set_sl_depth_event_count (incr_i64 (sl_depth_event_count row)) row in
    let row := set_sl_depth_events (sl_depth_events row ++ [compact_ref event]) row in
    (push_parent event row, stats)
  else (row, stats).

(* rust: src/normalize/build/slices/event.rs apply_compact_depth_event *)
Definition apply_compact_depth_event (args : NormalizeArgs) (event : RawInputEvent)
    (row : SliceRow) : SliceRow :=
  let row := set_sl_depth_event_count (incr_i64 (sl_depth_event_count row)) row in
  let row := set_sl_depth_events (sl_depth_events row ++ [compact_ref event]) row in
  push_parent event (mark_event_quality args event row).

(* rust: src/normalize/build/slices/event.rs apply_ticker_event *)
Definition apply_ticker_event (args : NormalizeArgs) (event : RawInputEvent) (row : SliceRow)
    : SliceRow :=
  push_parent event (mark_event_quality args event
    (set_sl_ticker_events (sl_ticker_events row ++ [compact_ref event]) row)).

(** The handler of the event's type. *)
Definition apply_to_row (args : NormalizeArgs) (event : RawInputEvent) (row : SliceRow)
    (stats : BuildStats) : SliceRow * BuildStats :=
  let type := ri_event_type event in
  if String.eqb type "trade" then apply_trade_event args event row stats
  else if String.eqb type "book_ticker" || String.eqb type "depth_snapshot"
  then apply_book_event args event row stats
  else if String.eqb type "depth_delta" then (apply_compact_depth_event args event row, stats)
  else if String.eqb type "ticker" then (apply_ticker_event args event row, stats)
  else mark_invalid "unknown_event_type" row stats.

(** The key of the event's window. *)
Definition event_slice_key (args : NormalizeArgs) (event : RawInputEvent) : SliceKey :=
  (ri_venue event, (ri_symbol_canonical event,
    wrap I64 (div_euclid (ri_exchange_timestamp_ms event) (na_window_ms args) * na_window_ms args))).

(* rust: src/normalize/build/slices/event.rs apply_event *)
Definition apply_event (args : NormalizeArgs) (input_range : InputRange) (event : RawInputEvent)
    (rows : btree SliceKey SliceRow) (stats : BuildStats) : btree SliceKey SliceRow * BuildStats :=
  if (ri_exchange_timestamp_ms event <? ir_start_ms input_range)
     || (ir_end_ms input_range <=? ri_exchange_timestamp_ms event) then (rows, stats) else
  let key := event_slice_key args event in
  match bget key rows with
  | None => (rows, stats)
  | Some row =>
      let '(row, stats) := apply_to_row args event row stats in
      (binsert key row rows, stats)
  end.

(** ** The accumulator *)

(* rust: src/normalize/build/accumulator.rs BuildAccumulator::new *)
Definition accumulator_new (args : NormalizeArgs) (input_range scan_range : InputRange)
    (metadata : BuildInputMetadata) : BuildAccumulator :=
  mkAcc input_range scan_range
    (mkRange (saturate I64 (ir_start_ms input_range - na_projection_lookback_ms args))
             (ir_end_ms input_range))
    [] [] [] [] [] [] [] [] (mkStats 0 0 0 0) (mkStats 0 0 0 0) [] [] metadata.

Definition in_ranged (r : InputRange) (t : Z) : bool := (ir_start_ms r <=? t) && (t <? ir_end_ms r).

(** Counters of the run. *)
Definition on_stats (f : BuildStats -> BuildStats) (a : BuildAccumulator) : BuildAccumulator :=
  set_ac_stats (f (ac_stats a)) a.
Definition count_input (a : BuildAccumulator) : BuildAccumulator :=
  on_stats (fun s => set_st_input_record_count (incr_u64 (st_input_record_count s)) s) a.
Definition count_invalid (a : BuildAccumulator) : BuildAccumulator :=
  on_stats (fun s => set_st_invalid_event_count (incr_u64 (st_invalid_event_count s)) s) a.
Definition count_mismatch (a : BuildAccumulator) : BuildAccumulator :=
  on_stats (fun s => set_st_payload_hash_mismatch_count
                       (incr_u64 (st_payload_hash_mismatch_count s)) s) a.
Definition count_duplicate (a : BuildAccumulator) : BuildAccumulator :=
  on_stats (fun s => set_st_duplicate_event_count (incr_u64 (st_duplicate_event_count s)) s) a.
Definition see_schema (version : string) (a : BuildAccumulator) : BuildAccumulator :=
  set_ac_schema_versions (binsert version () (ac_schema_versions a)) a.

(* rust: src/normalize/build/ingest.rs ensure_input_identity *)
Definition ensure_input_identity (args : NormalizeArgs) (event : RawInputEvent)
    (a : BuildAccumulator) : BuildAccumulator :=
  let key := identity_key event in
  if given (bget key (ac_input_identities a)) then a else
  let identity := identity_from_event event in
  set_ac_rows (seed_identity_slices args (ac_input_range a) identity (ac_rows a))
    (set_ac_input_identities (binsert key identity (ac_input_identities a)) a).

(* rust: src/normalize/build/ingest.rs ensure_projection_identity *)
Definition ensure_projection_identity (args : NormalizeArgs) (event : RawInputEvent)
    (a : BuildAccumulator) : BuildAccumulator :=
  let key := identity_key event in
  if given (bget key (ac_projection_identities a)) then a else
  let identity := identity_from_event event in
  set_ac_projection_rows
    (seed_identity_slices args (ac_projection_range a) identity (ac_projection_rows a))
    (set_ac_projection_identities (binsert key identity (ac_projection_identities a)) a).

(* rust: src/normalize/build/ingest.rs ingest_spot_event *)
Definition ingest_spot_event (args : NormalizeArgs) (event : RawInputEvent) (a : BuildAccumulator)
    : BuildAccumulator :=
  let a := if in_ranged (ac_projection_range a) (ri_exchange_timestamp_ms event) then
      let a := ensure_projection_identity args event a in
      let '(rows, stats) := apply_event args (ac_projection_range a) event (ac_projection_rows a)
                              (ac_projection_stats a) in
      set_ac_projection_stats stats (set_ac_projection_rows rows a)
    else a in
  if in_ranged (ac_input_range a) (ri_exchange_timestamp_ms event) then
    let a := ensure_input_identity args event a in
    let '(rows, stats) := apply_event args (ac_input_range a) event (ac_rows a) (ac_stats a) in
    set_ac_stats stats (set_ac_rows rows a)
  else a.

(* rust: src/normalize/build/ingest.rs ingest_derivative_event *)
Definition ingest_derivative_event (event : RawInputEvent) (a : BuildAccumulator)
    : BuildAccumulator :=
  if negb (in_ranged (ac_projection_range a) (ri_exchange_timestamp_ms event)) then a else
  match parse_derivative_metric event with
  | None => count_invalid a
  | Some observation =>
      set_ac_projection_derivative_metrics (ac_projection_derivative_metrics a ++ [observation]) a
  end.

(* rust: src/normalize/build/ingest.rs ingest_raw_event *)
Definition ingest_raw_event (args : NormalizeArgs) (event : RawInputEvent) (a : BuildAccumulator)
    : BuildAccumulator :=
  let a := see_schema (ri_schema_version event) (count_input a) in
  if negb (String.eqb (ri_schema_version event) "raw_market_event_v2") then count_invalid a
  else if negb (String.eqb (payload_hash (ri_payload_json event)) (ri_payload_sha256 event))
  then count_invalid (count_mismatch a)
  else if (ri_exchange_timestamp_ms event <=? 0)
          || (saturate I64 (ir_end_ms (ac_scan_range a) + na_clock_skew_margin_ms args)
              <=? ri_exchange_timestamp_ms event)
  then count_invalid a
  else if given (bget (ri_event_id event) (ac_seen_event_ids a)) then count_duplicate a
  else
    let a := set_ac_seen_event_ids (binsert (ri_event_id event) () (ac_seen_event_ids a)) a in
    if is_derivative_market_event event then ingest_derivative_event event a
    else ingest_spot_event args event a.

(* rust: src/normalize/build/ingest.rs ingest_symbol_health *)
Definition ingest_symbol_health (row : SymbolHealthInput) (a : BuildAccumulator)
    : BuildAccumulator :=
  let a := see_schema (yi_schema_version row) (count_input a) in
  let payload := (yi_venue row ++ ":" ++ yi_symbol_native row ++ ":" ++ show_Z (yi_observed_at_ms row)
    ++ ":" ++ yi_reason_codes row)%string in
  if negb (String.eqb (yi_schema_version row) "symbol_health_v1") then count_invalid a
  else if negb (String.eqb (payload_hash payload) (yi_payload_sha256 row))
  then count_mismatch (count_invalid a)
  else set_ac_symbol_health (ac_symbol_health a ++ [row]) a.

(* rust: src/normalize/build/ingest.rs ingest_source_health *)
Definition ingest_source_health (row : SourceHealthInput) (a : BuildAccumulator)
    : BuildAccumulator :=
  let a := see_schema (hi_schema_version row) (count_input a) in
  let known := String.eqb (hi_schema_version row) "source_health_v2" in
  if negb known || negb (String.eqb (payload_hash (hi_payload_json row)) (hi_payload_sha256 row)) then
    let a := count_invalid a in
    if known then count_mismatch a else a
  else set_ac_source_health (ac_source_health a ++ [row]) a.

(* rust: src/normalize/build/ingest.rs ingest_gap_alert *)
Definition ingest_gap_alert (row : GapAlertInput) (a : BuildAccumulator) : BuildAccumulator :=
  let a := see_schema (gi_schema_version row) (count_input a) in
  let known := String.eqb (gi_schema_version row) "gap_alert_v1" in
  if negb known || negb (String.eqb (payload_hash (gi_payload_json row)) (gi_payload_sha256 row)) then
    let a := count_invalid a in
    if known then count_mismatch a else a
  else set_ac_gap_alerts (ac_gap_alerts a ++ [row]) a.

(** ** Health and gaps *)

(* rust: src/normalize/quality/health.rs latest_symbol_health *)
Definition latest_symbol_health (rows : list SymbolHealthInput) (slice : SliceRow)
    : option SymbolHealthSnapshot :=
  (fun row => mkSymSnap (yi_observed_at_ms row) (yi_last_event_time_ms row)
     (saturate I64 (yi_last_event_time_ms row + yi_latency_ms row)) (yi_latency_ms row)
     (yi_is_tradeable row)
     (List.filter (fun value => negb (str_is_empty value)) (split_char ";" (yi_reason_codes row))))
  <$> max_by_key yi_observed_at_ms (List.filter (fun row =>
        String.eqb (yi_venue row) (sl_venue slice)
        && String.eqb (yi_symbol_native row) (sl_symbol_native slice)
        && (yi_observed_at_ms row <=? sl_window_end_ms slice)) rows).

(* rust: src/normalize/quality/health.rs latest_source_health *)
Definition latest_source_health (rows : list SourceHealthInput) (slice : SliceRow)
    : option SourceHealthSnapshot :=
  (fun row => mkSrcSnap (hi_observed_at_ms row) (hi_connection_status row) (hi_health_level row)
     (hi_heartbeat_delay_ms row) (hi_stream_lag_ms row) (hi_recent_gap_count row)
     (hi_book_rebuild_count row))
  <$> max_by_key hi_observed_at_ms (List.filter (fun row =>
        String.eqb (hi_venue row) (sl_venue slice)
        && (hi_observed_at_ms row <=? sl_window_end_ms slice)) rows).

(* rust: src/normalize/quality/health.rs is_healthy_level *)
Definition is_healthy_level (value : string) : bool :=
  String.eqb value "ok" || String.eqb value "healthy" || String.eqb value "nominal".

(* rust: src/normalize/quality/apply.rs apply_symbol_health_snapshot *)
Definition apply_symbol_health_snapshot (row : SliceRow) : SliceRow :=
  match sl_symbol_health_snapshot row with
  | None => push_missing "symbol_health_missing" row
  | Some snapshot =>
      let row := if negb (ss_is_tradeable snapshot) then push_missing "venue_unavailable" row else row in
      if ss_last_received_time_ms snapshot <? sl_window_start_ms row
      then push_missing "stale" (set_sl_quality_stale (incr_i64 (sl_quality_stale row)) row)
      else row
  end.

(* rust: src/normalize/quality/apply.rs apply_source_health_snapshot *)
Definition apply_source_health_snapshot (row : SliceRow) : SliceRow :=
  match sl_source_health_snapshot row with
  | None => push_missing "source_health_missing" row
  | Some snapshot =>
      if negb (String.eqb (hs_connection_status snapshot) "connected")
         || negb (is_healthy_level (hs_health_level snapshot))
      then push_missing "source_stale" row else row
  end.

(* rust: src/normalize/quality/apply.rs gap_applies_to_row *)
Definition gap_applies_to_row (row : SliceRow) (input_range : InputRange) (gap : GapAlertInput)
    : bool :=
  String.eqb (gi_venue gap) (sl_venue row)
  && String.eqb (gi_symbol_native gap) (sl_symbol_native row)
  && (sl_window_start_ms row <=? gi_detected_at_ms gap)
  && (gi_detected_at_ms gap <? sl_window_end_ms row)
  && (ir_start_ms input_range <=? gi_detected_at_ms gap)
  && (gi_detected_at_ms gap <? ir_end_ms input_range).

(* rust: src/normalize/quality/apply.rs apply_gap_alerts *)
Definition apply_gap_alerts (gap_alerts : list GapAlertInput) (input_range : InputRange)
    (row : SliceRow) : SliceRow :=
  fold_left (fun row gap =>
      push_missing ("gap_alert." ++ gi_gap_type gap)
        (set_sl_quality_gap (incr_i64 (sl_quality_gap row)) row))
    (List.filter (gap_applies_to_row row input_range) gap_alerts) row.

(* rust: src/normalize/quality/apply.rs apply_health_and_gaps_to_row *)
Definition apply_health_and_gaps_to_row (symbol_health : list SymbolHealthInput)
    (source_health : list SourceHealthInput) (gap_alerts : list GapAlertInput)
    (input_range : InputRange) (row : SliceRow) : SliceRow :=
  let row := set_sl_symbol_health_snapshot (latest_symbol_health symbol_health row) row in
  let row := set_sl_source_health_snapshot (latest_source_health source_health row) row in
  apply_gap_alerts gap_alerts input_range
    (apply_source_health_snapshot (apply_symbol_health_snapshot row)).

(** ** Finalizing *)

(** [v.sort(); v.dedup()] on strings. *)
Fixpoint dedup (l : list string) : list string :=
  match l with
  | a :: (b :: _) as l' => if String.eqb a b then dedup l' else a :: dedup l'
  | l => l
  end.
Definition sort_dedup (l : list string) : list string := dedup (sort_strings l).

Definition key_leb {A K} `{KeyCmp K} (f : A -> K) (x y : A) : bool :=
  match kcmp (f x) (f y) with Gt => false | _ => true end.

Definition sequence_key (ts : Z) (seq : option Z) (ingest : Z) (id : string)
    : Z * (Z * (Z * string)) := (ts, (default (int_max I64) seq, (ingest, id))).
Definition trade_key (t : TradeNormalized) :=
  sequence_key (tn_exchange_timestamp_ms t) (tn_exchange_sequence t) (tn_ingest_timestamp_ms t)
    (tn_parent_event_id t).
Definition book_key (b : BookTickerNormalized) :=
  sequence_key (bn_exchange_timestamp_ms b) (bn_exchange_sequence b) (bn_ingest_timestamp_ms b)
    (bn_parent_event_id b).
Definition ref_key (e : CompactEventRef) : Z * (Z * string) :=
  (ce_exchange_timestamp_ms e, (ce_ingest_timestamp_ms e, ce_parent_event_id e)).

(* rust: src/normalize/quality/finalize.rs normalize_event_order *)
Definition normalize_event_order (row : SliceRow) : SliceRow :=
  let row := set_sl_trade_events (sort_by (key_leb trade_key) (sl_trade_events row)) row in
  let row := match last (sl_trade_events row) with
    | Some last_trade => set_sl_last_trade_size (Some (tn_quantity last_trade))
                           (set_sl_last_trade_price (Some (tn_price last_trade)) row)
    | None => row
    end in
  let row := set_sl_book_ticker_events (sort_by (key_leb book_key) (sl_book_ticker_events row)) row in
  let row := match last (sl_book_ticker_events row) with
    | Some last_book => set_sl_best_ask (Some (bn_best_ask last_book))
                          (set_sl_best_bid (Some (bn_best_bid last_book)) row)
    | None => row
    end in
  let row := set_sl_depth_events (sort_by (key_leb ref_key) (sl_depth_events row)) row in
  set_sl_ticker_events (sort_by (key_leb ref_key) (sl_ticker_events row)) row.

Definition no_events (row : SliceRow) : bool :=
  (sl_trade_count row =? 0) && (sl_book_ticker_count row =? 0) && (sl_depth_event_count row =? 0)
  && is_nil (sl_ticker_events row).

(* rust: src/normalize/quality/finalize.rs completeness *)
Definition completeness (row : SliceRow) : string :=
  if existsb (fun value => String.eqb value "venue_unavailable") (sl_missing_reasons row)
  then "incomplete"
  else if no_events row then "incomplete"
  else if (0 <? sl_quality_invalid row)%Z && (sl_quality_ok row =? 0)%Z then "incomplete"
  else if negb (is_nil (sl_missing_reasons row)) || (0 <? sl_quality_delayed row)%Z
          || (0 <? sl_quality_stale row)%Z || (0 <? sl_quality_gap row)%Z
          || (0 <? sl_quality_invalid row)%Z
  then "partial"
  else if String.eqb (sl_source_role row) "reference" then "reference_only" else "complete".

(** The steps of [finalize_slices] on one row, in order. *)
Definition mark_silence (row : SliceRow) : SliceRow :=
  if no_events row
  then push_missing (if 0 <? sl_quality_invalid row then "all_invalid" else "trade_silence") row
  else row.

Definition mark_depth_top (row : SliceRow) : SliceRow :=
  match sl_best_bid row, sl_best_ask row with
  | None, None => push_missing "depth_top_missing" row
  | _, _ => row
  end.

Definition dedup_lists (row : SliceRow) : SliceRow :=
  let row := set_sl_parent_event_ids (sort_dedup (sl_parent_event_ids row)) row in
  let row := set_sl_parent_run_ids (sort_dedup (sl_parent_run_ids row)) row in
  set_sl_missing_reasons (sort_dedup (sl_missing_reasons row)) row.

Definition set_mid (row : SliceRow) : SliceRow :=
  match sl_best_bid row, sl_best_ask row with
  | Some bid, Some ask =>
      let mid := f_div (f_add bid ask) f_two in
      set_sl_spread_bps (if f_ltb f_zero mid
                         then Some (f_mul (f_div (f_sub ask bid) mid) f_ten_thousand) else None)
        (set_sl_mid_price (Some mid) row)
  | _, _ => row
  end.

Definition set_completeness (row : SliceRow) : SliceRow :=
  set_sl_slice_completeness (completeness row) row.

(* rust: src/normalize/quality/finalize.rs finalize_slices *)
Definition finalize_slice (row : SliceRow) : SliceRow :=
  set_completeness (set_mid (dedup_lists (mark_depth_top (mark_silence (normalize_event_order row))))).

(* rust: src/normalize/build/finish.rs finish *)
Definition finish (a : BuildAccumulator) : BuildResult :=
  let slices := map finalize_slice
    (map (apply_health_and_gaps_to_row (ac_symbol_health a) (ac_source_health a) (ac_gap_alerts a)
            (ac_input_range a)) (bvalues (ac_rows a))) in
  let projection_slices := map finalize_slice
    (map (apply_health_and_gaps_to_row (ac_symbol_health a) (ac_source_health a) (ac_gap_alerts a)
            (ac_projection_range a)) (bvalues (ac_projection_rows a))) in
  let '(status, failure_reason) :=
    if 0 <? st_payload_hash_mismatch_count (ac_stats a)
    then ("blocked", Some "payload_hash_mismatch")%string
    else if is_nil slices then ("empty", Some "no_l1_slices")%string
    else ("success"%string, None) in
  let m := ac_metadata a in
  mkBuild slices projection_slices (ac_projection_derivative_metrics a) (md_input_object_keys m)
    (md_run_mode m) (md_fallback_alert m) (md_input_local_object_count m)
    (md_input_s3_object_count m) (st_input_record_count (ac_stats a))
    (st_duplicate_event_count (ac_stats a)) (st_invalid_event_count (ac_stats a))
    (st_payload_hash_mismatch_count (ac_stats a)) (bkeys (ac_schema_versions a)) status failure_reason.

(** ** A run over decoded rows *)

(** A decoded row of one of the four families. *)
Inductive InputRow :=
  | RawRow (e : RawInputEvent) | SymbolRow (r : SymbolHealthInput)
  | SourceRow (r : SourceHealthInput) | GapRow (r : GapAlertInput).

(* rust: src/normalize/read/batch_decode/family.rs InputObjectFamily *)
Inductive InputObjectFamily := RawMarketEvent | SymbolHealth | SourceHealth | GapAlert.

(* rust: src/normalize/read/batch_decode/family.rs from_key *)
Definition family_from_key (key : string) : option InputObjectFamily :=
  if starts_with "raw_market_event/" key then Some RawMarketEvent
  else if starts_with "symbol_health/" key then Some SymbolHealth
  else if starts_with "source_health/" key then Some SourceHealth
  else if starts_with "gap_alert/" key then Some GapAlert
  else None.

Definition ingest_row (args : NormalizeArgs) (a : BuildAccumulator) (r : InputRow) : BuildAccumulator :=
  match r with
  | RawRow e => ingest_raw_event args e a
  | SymbolRow r => ingest_symbol_health r a
  | SourceRow r => ingest_source_health r a
  | GapRow r => ingest_gap_alert r a
  end.

(* rust: src/normalize/model/input.rs NormalizeInputs *)
Record NormalizeInputs := mkInputs {
  ni_raw_events : list RawInputEvent;
  ni_symbol_health : list SymbolHealthInput;
  ni_source_health : list SourceHealthInput;
  ni_gap_alerts : list GapAlertInput;
  ni_metadata : BuildInputMetadata;
}.

(** All rows, in the order in which they are ingested. *)
Definition build_rows (args : NormalizeArgs) (input_range scan_range : InputRange)
    (metadata : BuildInputMetadata) (rows : list InputRow) : BuildResult :=
  finish (fold_left (ingest_row args) rows (accumulator_new args input_range scan_range metadata)).

(* rust: src/normalize/build.rs build_slices *)
Definition build_slices (args : NormalizeArgs) (input_range scan_range : InputRange)
    (inputs : NormalizeInputs) : BuildResult :=
  build_rows args input_range scan_range (ni_metadata inputs)
    (map RawRow (ni_raw_events inputs) ++ map SymbolRow (ni_symbol_health inputs)
     ++ map SourceRow (ni_source_health inputs) ++ map GapRow (ni_gap_alerts inputs)).

Section decode.
Context {Row : Type}.
Context (col_str : string -> Row -> result StorageError (option string)).
Context (col_i64 : string -> Row -> result StorageError (option Z)).
Context (col_bool : string -> Row -> result StorageError (option bool)).

(** The row of the family, decoded and ingested. *)
(* rust: src/normalize/read/batch_decode/append.rs append_accumulator_row *)
Definition append_accumulator_row (args : NormalizeArgs) (family : InputObjectFamily)
    (a : BuildAccumulator) (row : Row) : result StorageError BuildAccumulator :=
  match family with
  | RawMarketEvent =>
      e ← raw_event_from_batch col_str col_i64 row; Ok (ingest_raw_event args e a)
  | SymbolHealth =>
      r ← symbol_health_from_batch col_str col_i64 col_bool row; Ok (ingest_symbol_health r a)
  | SourceHealth => r ← source_health_from_batch col_str col_i64 row; Ok (ingest_source_health r a)
  | GapAlert => r ← gap_alert_from_batch col_str col_i64 row; Ok (ingest_gap_alert r a)
  end.

(** [rows] is what the Parquet reader yields for the file. *)
(* rust: src/normalize/read/batch_decode.rs append_batches_to_accumulator *)
Definition append_batches_to_accumulator (args : NormalizeArgs) (key : string)
    (rows : result StorageError (list Row)) (a : BuildAccumulator)
    : result StorageError BuildAccumulator :=
  rows ← rows;
  match family_from_key key with
  | None => Ok a
  | Some family => try_fold (append_accumulator_row args family) a rows
  end.

(* rust: src/normalize/read/metadata.rs from_entries *)
Definition metadata_from_entries (entries : list InputEntry) (run_mode : RunMode)
    : BuildInputMetadata :=
  let is_s3 entry := match ie_source entry with S3 => true | Local => false end in
  let input_local_object_count := zlen (List.filter (fun e => negb (is_s3 e)) entries) in
  let input_s3_object_count := zlen (List.filter is_s3 entries) in
  mkMetadata (as_str run_mode) (bool_decide (run_mode = Live) && (0 <? input_s3_object_count))
    input_local_object_count input_s3_object_count (map ie_key entries).

(** [downloaded] are the entries with their rows in the order in which the 16
    concurrent downloads finish. *)
(* rust: src/normalize/read/fold.rs fold_range *)
Definition fold_range (args : NormalizeArgs) (input_range scan_range : InputRange)
    (run_mode : RunMode) (entries : list InputEntry)
    (downloaded : list (InputEntry * result StorageError (list Row)))
    : result StorageError BuildResult :=
  a ← try_fold (fun a (d : InputEntry * _) => append_batches_to_accumulator args (ie_key d.1) d.2 a)
        (accumulator_new args input_range scan_range (metadata_from_entries entries run_mode))
        downloaded;
  Ok (finish a).
End decode.
End build.

(** ** The order of events is total *)

Lemma key_leb_total {A K} `{StrictKey K} (f : A -> K) x y :
  key_leb f x y = true \/ key_leb f y x = true.
Proof. unfold key_leb. rewrite (sk_sym (f x) (f y)). destruct (kcmp (f x) (f y)); auto. Qed.

Lemma key_leb_trans {A K} `{StrictKey K} (f : A -> K) x y z :
  key_leb f x y = true -> key_leb f y z = true -> key_leb f x z = true.
Proof.
  unfold key_leb. intros H1 H2.
  destruct (kcmp (f x) (f y)) eqn:E1; [apply sk_eq in E1 as ->; done| |done].
  destruct (kcmp (f y) (f z)) eqn:E2; [apply sk_eq in E2 as <-; by rewrite E1| |done].
  by rewrite (sk_trans _ _ _ E1 E2).
Qed.
