(* ===== verification/L1BuildFacts.v ===== *)
(** * L1BuildFacts: what the builder guarantees

    The accounting of the ingested rows, the slices of a run and the events in them,
    the acceptance of what the L0 sink wrote, and the meaning of completeness. *)
From Stdlib Require Import Sorting.Sorted.
From S2P Require Import Prelude Text OrderedMap Records NormalizeArgs L1Window L1Inputs L1Build.
Open Scope Z_scope.

#[export] Instance SliceKey_eq_dec : EqDecision SliceKey.
Proof. unfold SliceKey. apply _. Defined.

Section facts.
Context {L : StorageLib} {F V : Type} {FO : Float F} {J : PayloadJson V F}.

Abbreviation Acc := (@BuildAccumulator F).
Abbreviation Rows := (btree SliceKey (@SliceRow F)).
Abbreviation mok := (bmap_ok (fun _ => True)).

(** ** The identity of a slice *)

Definition row_key (row : @SliceRow F) : SliceKey :=
  (sl_venue row, (sl_symbol_canonical row, sl_window_start_ms row)).

(** What no handler changes, and the parents. *)
Definition frame (row : @SliceRow F) := (row_key row, sl_window_end_ms row).

Lemma frame_fields (row : @SliceRow F) k t : frame row = (k, t) ->
  sl_venue row = k.1 /\ sl_symbol_canonical row = k.2.1 /\ sl_window_start_ms row = k.2.2 /\
  sl_window_end_ms row = t.
Proof. unfold frame, row_key. by intros [= <- <-]. Qed.

(** The event leaves its id in its slice. *)
Definition usable (e : RawInputEvent) : bool :=
  let type := ri_event_type e in
  if String.eqb type "trade" then match parse_trade (V := V) e with Some _ => true | None => false end
  else if String.eqb type "book_ticker"
  then match parse_book_ticker (V := V) e with Some _ => true | None => false end
  else String.eqb type "depth_snapshot" || String.eqb type "depth_delta" || String.eqb type "ticker".

Lemma push_parent_ids e (row : @SliceRow F) id :
  id ∈ sl_parent_event_ids (push_parent e row) <-> id ∈ sl_parent_event_ids row \/ id = ri_event_id e.
Proof. cbn. by rewrite elem_of_app, list_elem_of_singleton. Qed.

Lemma mark_event_quality_frame args e (row : @SliceRow F) :
  frame (mark_event_quality args e row) = frame row /\
  sl_parent_event_ids (mark_event_quality args e row) = sl_parent_event_ids row.
Proof. unfold mark_event_quality. by destruct (_ <? _). Qed.

Lemma apply_book_frame args e (row : @SliceRow F) stats :
  frame (apply_book_event (V := V) args e row stats).1 = frame row.
Proof.
  unfold apply_book_event. destruct (parse_book_ticker e) as [b|];
    destruct (String.eqb (ri_event_type e) "book_ticker") eqn:E1;
    destruct (String.eqb (ri_event_type e) "depth_snapshot") eqn:E2; cbn [fst]; try done;
    unfold mark_event_quality; by destruct (_ <? _).
Qed.

Lemma apply_to_row_frame args e (row : @SliceRow F) stats :
  frame (apply_to_row (V := V) args e row stats).1 = frame row.
Proof.
  unfold apply_to_row. destruct (String.eqb (ri_event_type e) "trade").
  { unfold apply_trade_event. destruct (parse_trade e); [|done]. cbn [fst].
    unfold mark_event_quality. by destruct (_ <? _). }
  destruct (_ || _); [apply apply_book_frame|].
  destruct (String.eqb (ri_event_type e) "depth_delta"); cbn [fst].
  { unfold apply_compact_depth_event, mark_event_quality. by destruct (_ <? _). }
  destruct (String.eqb (ri_event_type e) "ticker"); cbn [fst]; [|done].
  unfold apply_ticker_event, mark_event_quality. by destruct (_ <? _).
Qed.

Lemma push_quality_ids args e (row row' : @SliceRow F) id :
  sl_parent_event_ids row' = sl_parent_event_ids row ->
  id ∈ sl_parent_event_ids (push_parent e (mark_event_quality args e row')) <->
  id ∈ sl_parent_event_ids row \/ id = ri_event_id e.
Proof.
  intros H. rewrite push_parent_ids. destruct (mark_event_quality_frame args e row') as [_ ->].
  by rewrite H.
Qed.

Lemma apply_book_ids args e (row : @SliceRow F) stats id :
  ri_event_type e = "book_ticker"%string \/ ri_event_type e = "depth_snapshot"%string ->
  id ∈ sl_parent_event_ids (apply_book_event (V := V) args e row stats).1 <->
  id ∈ sl_parent_event_ids row \/ usable e = true /\ id = ri_event_id e.
Proof.
  intros Ht. unfold apply_book_event, usable. destruct Ht as [-> | ->]; cbn [String.eqb Ascii.eqb Bool.eqb].
  - destruct (parse_book_ticker e) as [b|]; cbn [fst].
    + rewrite (push_quality_ids args e row) by done. intuition.
    + cbn. intuition congruence.
  - destruct (parse_book_ticker e) as [b|]; cbn [fst]; rewrite push_parent_ids.
    + cbn [sl_parent_event_ids set_sl_depth_events set_sl_depth_event_count].
      rewrite (push_quality_ids args e row) by done. intuition.
    + cbn. intuition.
Qed.

Lemma apply_to_row_ids args e (row : @SliceRow F) stats id :
  id ∈ sl_parent_event_ids (apply_to_row (V := V) args e row stats).1 <->
  id ∈ sl_parent_event_ids row \/ usable e = true /\ id = ri_event_id e.
Proof.
  unfold apply_to_row. destruct (String.eqb (ri_event_type e) "trade") eqn:E1.
  { unfold apply_trade_event, usable. rewrite E1. destruct (parse_trade e); cbn [fst].
    - rewrite (push_quality_ids args e row) by done. intuition.
    - cbn. intuition congruence. }
  destruct (_ || _) eqn:E2.
  { apply apply_book_ids. apply orb_true_iff in E2 as [E2|E2]; apply String.eqb_eq in E2; auto. }
  apply orb_false_iff in E2 as [E2 E3]. unfold usable. rewrite E1, E2, E3.
  destruct (String.eqb (ri_event_type e) "depth_delta"); cbn [fst orb].
  { unfold apply_compact_depth_event. rewrite (push_quality_ids args e row) by done. intuition. }
  destruct (String.eqb (ri_event_type e) "ticker"); cbn [fst].
  { unfold apply_ticker_event. rewrite (push_quality_ids args e row) by done. intuition. }
  cbn. intuition congruence.
Qed.

(** ** Seeding *)

Lemma seed_loop_get n fuel args identity s (m : Rows) q : (n <= fuel)%nat ->
  0 < na_window_ms args -> 0 <= s -> s + Z.of_nat n * na_window_ms args <= int_max I64 -> mok m ->
  let m' := seed_loop fuel args (s + Z.of_nat n * na_window_ms args) identity s m in
  mok m' /\
  bget q m' = match bget q m with
    | Some row => Some row
    | None => if bool_decide (q.1 = id_venue identity /\ q.2.1 = id_symbol_canonical identity /\
                              q.2.2 ∈ windows s (na_window_ms args) n)
              then Some (empty_slice args identity q.2.2) else None
    end.
Proof.
  set (w := na_window_ms args). revert fuel s m. induction n as [|n IH]; intros fuel s m Hf Hw Hs Hmax Hm.
  { assert (Hl : seed_loop fuel args (s + Z.of_nat 0 * w) identity s m = m).
    { change (Z.of_nat 0 * w) with 0. rewrite Z.add_0_r. destruct fuel; [done|]. cbn [seed_loop].
      by rewrite Z.ltb_irrefl. }
    rewrite Hl. split; [done|]. destruct (bget q m); [done|]. rewrite bool_decide_eq_false_2; [done|].
    intros (_ & _ & H). by apply elem_of_nil in H. }
  destruct fuel as [|fuel]; [lia|]. cbn [seed_loop].
  destruct (Z.ltb_spec s (s + Z.of_nat (S n) * w)); [|nia]. fold w.
  rewrite saturate_id by (unfold in_range; cbn in *; nia).
  replace (s + Z.of_nat (S n) * w) with (s + w + Z.of_nat n * w) by lia.
  set (k := (id_venue identity, (id_symbol_canonical identity, s))).
  set (m1 := bupdate k (empty_slice args identity s) (fun row => row) m).
  assert (Hm1 : mok m1) by by apply (bupdate_ok (fun _ => True)).
  destruct (IH fuel (s + w) m1) as [Hok ->]; [lia|done|lia|lia|done|]. split; [done|].
  unfold m1. rewrite bget_or_insert by done. destruct (bget q m) as [row|]; [done|].
  fold w. rewrite windows_succ. destruct (kcmp q k) eqn:E.
  1: { apply sk_eq in E as ->. cbn. rewrite bool_decide_eq_true_2; [done|].
       split_and!; [done..|by left]. }
  all: rewrite (bool_decide_ext (_ /\ _ /\ q.2.2 ∈ windows (s + w) w n)
      (q.1 = id_venue identity /\ q.2.1 = id_symbol_canonical identity /\
        q.2.2 ∈ s :: windows (s + w) w n)); [done|].
  all: rewrite elem_of_cons; split; [naive_solver|]; intros (H1 & H2 & [H3|H3]); [|done].
  all: exfalso; assert (q = k) as -> by (destruct q as [? [? ?]]; cbn in *; by subst);
    by rewrite (proj2 (sk_eq k k) eq_refl) in E.
Qed.

(** ** The slices of a run *)

Section run.
Context (args : NormalizeArgs) (input_range scan_range : InputRange).
Context (Hwin : 0 < na_window_ms args) (Hstart : 0 <= ir_start_ms input_range)
  (Halign : (na_window_ms args | ir_start_ms input_range)) (n : nat)
  (Hend : ir_end_ms input_range = ir_start_ms input_range + Z.of_nat n * na_window_ms args)
  (Hmax : ir_end_ms input_range <= int_max I64).

Abbreviation w := (na_window_ms args).
Abbreviation s0 := (ir_start_ms input_range).

(** The checks of [ingest_raw_event] before the duplicate test. *)
Definition acceptable (e : RawInputEvent) : bool :=
  String.eqb (ri_schema_version e) "raw_market_event_v2"
  && String.eqb (payload_hash (ri_payload_json e)) (ri_payload_sha256 e)
  && (0 <? ri_exchange_timestamp_ms e)
  && (ri_exchange_timestamp_ms e
      <? saturate I64 (ir_end_ms scan_range + na_clock_skew_margin_ms args)).

Definition accepted_id (r : InputRow) : option string :=
  match r with RawRow e => if acceptable e then Some (ri_event_id e) else None | _ => None end.

(** An accepted spot event of the input range. *)
Definition in_slices (e : RawInputEvent) : bool :=
  acceptable e && negb (is_derivative_market_event e)
  && in_ranged input_range (ri_exchange_timestamp_ms e).

Definition slice_time (e : RawInputEvent) : Z := ri_exchange_timestamp_ms e / w * w.

Lemma event_key e : in_ranged input_range (ri_exchange_timestamp_ms e) = true ->
  event_slice_key args e = (ri_venue e, (ri_symbol_canonical e, slice_time e)) /\
  slice_time e ∈ windows s0 w n.
Proof.
  unfold in_ranged. rewrite andb_true_iff, Z.leb_le, Z.ltb_lt. intros [Hlo Hhi].
  destruct Halign as [b Hb]. set (t := ri_exchange_timestamp_ms e) in *.
  pose proof (Z.mul_div_le t w ltac:(lia)) as Hle. pose proof (Z.div_pos t w ltac:(lia) Hwin).
  pose proof (Z.mul_succ_div_gt t w ltac:(lia)) as Hgt.
  unfold event_slice_key, slice_time. fold t. split.
  - rewrite div_euclid_pos by done. rewrite wrap_id; [done|]. unfold in_range. cbn in *. lia.
  - unfold windows. apply list_elem_of_fmap. exists (Z.to_nat (t / w - b)).
    assert (b <= t / w) by (apply Z.div_le_lower_bound; lia).
    assert (t / w < b + Z.of_nat n) by nia.
    split; [rewrite Z2Nat.id by lia; lia|]. apply elem_of_seq. lia.
Qed.

Record built (rs : list InputRow) (a : Acc) : Prop := {
  bt_input : ac_input_range a = input_range;
  bt_scan : ac_scan_range a = scan_range;
  bt_seen_ok : mok (ac_seen_event_ids a);
  bt_seen : forall id, is_Some (bget id (ac_seen_event_ids a)) <-> id ∈ omap accepted_id rs;
  bt_ids_ok : mok (ac_input_identities a);
  bt_ids : forall k, is_Some (bget k (ac_input_identities a)) <->
    exists e, RawRow e ∈ rs /\ in_slices e = true /\ identity_key e = k;
  bt_rows_ok : mok (ac_rows a);
  bt_keys : forall v s t, is_Some (bget (K := SliceKey) (v, (s, t)) (ac_rows a)) <->
    is_Some (bget (K := IdentityKey) (v, s) (ac_input_identities a)) /\ t ∈ windows s0 w n;
  bt_rows : forall k row, bget k (ac_rows a) = Some row ->
    frame row = (k, k.2.2 + w) /\
    forall id, id ∈ sl_parent_event_ids row <->
      exists e, RawRow e ∈ rs /\ in_slices e = true /\ event_slice_key args e = k /\
        usable e = true /\ ri_event_id e = id;
}.

(** What the counters, the schemas and the projection leave alone. *)
Definition core (a : Acc) :=
  (ac_input_range a, ac_scan_range a, ac_seen_event_ids a, ac_input_identities a, ac_rows a).

Lemma built_ext rs rs' (a a' : Acc) : core a = core a' -> omap accepted_id rs = omap accepted_id rs' ->
  (forall e, in_slices e = true -> RawRow e ∈ rs <-> RawRow e ∈ rs') ->
  built rs a -> built rs' a'.
Proof.
  unfold core. intros [= E1 E2 E3 E4 E5] Ho Hr [H1 H2 H3 H4 H5 H6 H7 H8 H9].
  assert (Hx : forall (P : RawInputEvent -> Prop),
    (exists e, RawRow e ∈ rs /\ in_slices e = true /\ P e) <->
    (exists e, RawRow e ∈ rs' /\ in_slices e = true /\ P e)).
  { intros P. split; intros (e & He & Hi & HP); exists e; by rewrite (Hr e Hi) in *. }
  constructor; rewrite <- ?E1, <- ?E2, <- ?E3, <- ?E4, <- ?E5; try done.
  - intros id. rewrite H4, Ho. done.
  - intros k. rewrite H6. apply Hx.
  - intros k row Hk. destruct (H9 k row Hk) as [Hf Hp]. split; [done|]. intros id. rewrite Hp. apply Hx.
Qed.

(** Seeding at the first event of an identity. *)
Lemma ensure_rows rs (a : Acc) e : built rs a ->
  let a1 := ensure_input_identity args e a in
  mok (ac_rows a1) /\ mok (ac_input_identities a1) /\
  (forall q, bget q (ac_rows a1) = match bget q (ac_rows a) with
    | Some row => Some row
    | None => if bool_decide (q.1 = ri_venue e /\ q.2.1 = ri_symbol_canonical e /\ q.2.2 ∈ windows s0 w n)
              then Some (empty_slice args (identity_from_event e) q.2.2) else None
    end) /\
  (forall k, is_Some (bget k (ac_input_identities a1)) <->
    is_Some (bget k (ac_input_identities a)) \/ k = identity_key e).
Proof.
  intros Hb a1. subst a1. unfold ensure_input_identity.
  destruct (bget (identity_key e) (ac_input_identities a)) as [i|] eqn:Ei; cbn [given].
  - split_and!; [apply Hb|apply Hb| |].
    + intros [v [s t]]. destruct (bget _ (ac_rows a)) as [row|] eqn:Er; [done|]. cbn.
      rewrite bool_decide_eq_false_2; [done|]. intros (-> & -> & Ht).
      assert (Hk : is_Some (bget (K := SliceKey) (ri_venue e, (ri_symbol_canonical e, t)) (ac_rows a))).
      { apply (bt_keys _ _ Hb). split; [by exists i|done]. }
      rewrite Er in Hk. by destruct Hk.
    + intros k. split; [by left|]. intros [?| ->]; [done|by exists i].
  - assert (Hfuel : (n <= window_fuel s0 (s0 + Z.of_nat n * w) w)%nat).
    { unfold window_fuel. replace (s0 + Z.of_nat n * w - s0) with (Z.of_nat n * w) by lia.
      rewrite Z.div_mul by lia. lia. }
    pose proof Hmax as Hmax'. rewrite Hend in Hmax'.
    pose proof (fun q => seed_loop_get n _ args (identity_from_event e) s0 (ac_rows a) q Hfuel Hwin
      Hstart Hmax' (bt_rows_ok _ _ Hb)) as Hs. cbv zeta in Hs.
    unfold seed_identity_slices. rewrite (bt_input _ _ Hb), Hend.
    split_and!;
      cbn [ac_rows set_ac_rows ac_input_identities set_ac_input_identities].
    + apply (Hs (""%string, (""%string, 0))).
    + apply (binsert_ok (fun _ => True)); [done|apply Hb].
    + intros q. by destruct (Hs q) as [_ ->].
    + intros k. destruct (bget_insert_strict (identity_key e) k (identity_from_event e) _ (bt_ids_ok _ _ Hb))
        as [[-> ->]|[-> Hne]]; [split; [by right|by eexists]|]. split; [by left|]. by intros [?|?].
Qed.

Lemma in_slices_spec e : in_slices e = true ->
  acceptable e = true /\ is_derivative_market_event e = false /\
  in_ranged input_range (ri_exchange_timestamp_ms e) = true.
Proof.
  unfold in_slices. intros [[H1 H2]%andb_true_iff H3]%andb_true_iff.
  by apply negb_true_iff in H2.
Qed.

(** A window without a slice has no event so far. *)
Lemma no_row_no_event rs (a : Acc) k e : built rs a -> bget k (ac_rows a) = None ->
  k.2.2 ∈ windows s0 w n -> RawRow e ∈ rs -> in_slices e = true -> event_slice_key args e <> k.
Proof.
  intros Hb Hk Hkt He Hi <-. destruct (in_slices_spec e Hi) as (_ & _ & Hr).
  destruct (event_key e Hr) as [Ek _]. rewrite Ek in Hk, Hkt.
  assert (Hs : is_Some (bget (K := SliceKey) (ri_venue e, (ri_symbol_canonical e, slice_time e)) (ac_rows a))).
  { apply (bt_keys _ _ Hb). split; [|done]. apply (bt_ids _ _ Hb). by exists e. }
  rewrite Hk in Hs. by destruct Hs.
Qed.

(** Seeding keeps what is known of the slices. *)
Lemma ensure_row_parents rs (a : Acc) e k row : built rs a ->
  bget k (ac_rows (ensure_input_identity args e a)) = Some row ->
  frame row = (k, k.2.2 + w) /\
  forall id, id ∈ sl_parent_event_ids row <-> exists e', RawRow e' ∈ rs /\ in_slices e' = true /\
    event_slice_key args e' = k /\ usable e' = true /\ ri_event_id e' = id.
Proof.
  intros Hb Hk. destruct (ensure_rows rs a e Hb) as (_ & _ & Hget & _). rewrite Hget in Hk.
  destruct (bget k (ac_rows a)) as [old|] eqn:Eold.
  { injection Hk as <-. by apply (bt_rows _ _ Hb). }
  case_bool_decide as Hd; [|done]. injection Hk as <-. destruct Hd as (E1 & E2 & E3). split.
  - unfold frame, row_key. cbn. rewrite saturate_id.
    + destruct k as [v [s t]]. cbn in *. by subst.
    + apply list_elem_of_fmap in E3 as (i & -> & Hi%elem_of_seq). unfold in_range. cbn in *. nia.
  - intros id. cbn. rewrite elem_of_nil. split; [done|]. intros (e' & He' & Hi' & Ek & _).
    by apply (no_row_no_event rs a k e').
Qed.

Lemma ensure_has_row rs (a : Acc) e : built rs a ->
  in_ranged input_range (ri_exchange_timestamp_ms e) = true ->
  exists row, bget (event_slice_key args e) (ac_rows (ensure_input_identity args e a)) = Some row.
Proof.
  intros Hb Hr. destruct (event_key e Hr) as [Hkey Ht].
  destruct (ensure_rows rs a e Hb) as (_ & _ & Hget & _). rewrite Hget, Hkey.
  destruct (bget _ (ac_rows a)) as [row|]; [by exists row|]. cbn.
  rewrite bool_decide_eq_true_2 by done. by eexists.
Qed.

Lemma apply_event_row e (rows : Rows) stats row :
  in_ranged input_range (ri_exchange_timestamp_ms e) = true ->
  bget (event_slice_key args e) rows = Some row ->
  apply_event (V := V) args input_range e rows stats =
    (binsert (event_slice_key args e) (apply_to_row (V := V) args e row stats).1 rows,
     (apply_to_row (V := V) args e row stats).2).
Proof.
  unfold in_ranged, apply_event. intros [H1%Z.leb_le H2%Z.ltb_lt]%andb_true_iff Hrow.
  destruct (Z.ltb_spec (ri_exchange_timestamp_ms e) s0); [lia|].
  destruct (Z.leb_spec (ir_end_ms input_range) (ri_exchange_timestamp_ms e)); [lia|]. cbn [orb].
  rewrite Hrow. by destruct (apply_to_row _ _ _ _).
Qed.

Lemma exists_snoc rs e (B : RawInputEvent -> Prop) :
  (exists e', RawRow e' ∈ rs ++ [RawRow e] /\ B e') <-> (exists e', RawRow e' ∈ rs /\ B e') \/ B e.
Proof.
  split.
  - intros (e' & [He'|[= ->]%list_elem_of_singleton]%elem_of_app & HB); [left; by exists e'|by right].
  - intros [(e' & He' & HB)|HB]; [exists e'|exists e]; rewrite elem_of_app, list_elem_of_singleton; auto.
Qed.

(** The keys after seeding. *)
Lemma ensure_keys rs (a : Acc) e v s t : built rs a ->
  is_Some (bget (K := SliceKey) (v, (s, t)) (ac_rows (ensure_input_identity args e a))) <->
  (is_Some (bget (K := IdentityKey) (v, s) (ac_input_identities a)) \/ (v, s) = identity_key e) /\
  t ∈ windows s0 w n.
Proof.
  intros Hb. destruct (ensure_rows rs a e Hb) as (_ & _ & Hget & _). rewrite Hget.
  pose proof (bt_keys _ _ Hb v s t) as Hold.
  destruct (bget (K := SliceKey) (v, (s, t)) (ac_rows a)) as [old|].
  - split; [|by eexists]. intros _. destruct (proj1 Hold) as [H1 H2]; [by eexists|].
    split; [by left|done].
  - cbn. case_bool_decide as Hd.
    + destruct Hd as (-> & -> & Hd). split; [|by eexists]. intros _. split; [by right|done].
    + split; [by intros []|]. intros [[H1|[= -> ->]] H2]; exfalso.
      * assert (Hk : is_Some (@None (@SliceRow F))) by by apply Hold. by destruct Hk.
      * by apply Hd.
Qed.

(** An accepted spot event of the range reaches its slice. *)
Lemma spot_step rs (a : Acc) e seen stats : built rs a -> in_slices e = true ->
  seen = binsert (ri_event_id e) () (ac_seen_event_ids a) ->
  forall a' : Acc, let a1 := ensure_input_identity args e a in
  core a' = (input_range, scan_range, seen, ac_input_identities a1,
             (apply_event (V := V) args input_range e (ac_rows a1) stats).1) ->
  built (rs ++ [RawRow e]) a'.
Proof.
  intros Hb Hin -> a' a1 Hcore. destruct (in_slices_spec e Hin) as (Hacc & _ & Hrange).
  destruct (event_key e Hrange) as [Hkey Ht].
  destruct (ensure_rows rs a e Hb) as (Hok & Hiok & _ & Hids). fold a1 in Hok, Hiok, Hids.
  destruct (ensure_has_row rs a e Hb Hrange) as [row Hrow]. fold a1 in Hrow.
  rewrite (apply_event_row e _ stats row) in Hcore by done. cbn [fst] in Hcore.
  set (row' := (apply_to_row _ _ _ _).1) in Hcore. injection Hcore as E1 E2 E3 E4 E5.
  constructor; rewrite ?E1, ?E2, ?E3, ?E4, ?E5; try done.
  - apply (binsert_ok (fun _ => True)); [done|apply Hb].
  - intros id. rewrite omap_app. cbn. rewrite Hacc, elem_of_app, list_elem_of_singleton.
    destruct (bget_insert_strict (ri_event_id e) id () _ (bt_seen_ok _ _ Hb)) as [[-> ->]|[-> Hne]].
    + split; [by right|by eexists].
    + rewrite (bt_seen _ _ Hb). naive_solver.
  - intros k. rewrite Hids, (bt_ids _ _ Hb), (exists_snoc rs e (fun e' => in_slices e' = true /\ identity_key e' = k)).
    intuition.
  - by apply (binsert_ok (fun _ => True)).
  - intros v s t. rewrite Hids.
    destruct (bget_insert_strict (event_slice_key args e) (v, (s, t)) row' _ Hok) as [[-> Ek]|[-> Hne]].
    + rewrite Hkey in Ek. injection Ek as -> -> ->. split; [|by eexists]. intros _. split; [by right|done].
    + by apply (ensure_keys rs).
  - intros k rk Hk.
    destruct (bget_insert_strict (event_slice_key args e) k row' _ Hok) as [[E ->]|[E Hne]];
      rewrite E in Hk.
    + injection Hk as <-. destruct (ensure_row_parents rs a e _ _ Hb Hrow) as [Hf Hp].
      split; [unfold row'; by rewrite apply_to_row_frame|]. intros id. unfold row'.
      rewrite apply_to_row_ids, Hp. rewrite (exists_snoc rs e (fun e' => in_slices e' = true /\
        event_slice_key args e' = event_slice_key args e /\ usable e' = true /\ ri_event_id e' = id)).
      intuition.
    + destruct (ensure_row_parents rs a e _ _ Hb Hk) as [Hf Hp]. split; [done|]. intros id. rewrite Hp.
      rewrite (exists_snoc rs e (fun e' => in_slices e' = true /\ event_slice_key args e' = k /\
        usable e' = true /\ ri_event_id e' = id)). intuition congruence.
Qed.

(** A row that changes nothing in the slices. *)
Lemma skip_row rs (a a' : Acc) r : core a = core a' -> accepted_id r = None ->
  built rs a -> built (rs ++ [r]) a'.
Proof.
  intros Hc Hr. apply built_ext; [done|by rewrite omap_app; cbn; rewrite Hr, app_nil_r|].
  intros e Hi. rewrite elem_of_app, list_elem_of_singleton. split; [by left|].
  intros [?|<-]; [done|]. cbn in Hr. destruct (in_slices_spec e Hi) as (Ha & _). by rewrite Ha in Hr.
Qed.

(** An accepted row outside the slices leaves only its id. *)
Lemma seen_row rs (a a' : Acc) e : built rs a -> acceptable e = true -> in_slices e = false ->
  core a' = (input_range, scan_range, binsert (ri_event_id e) () (ac_seen_event_ids a),
             ac_input_identities a, ac_rows a) ->
  built (rs ++ [RawRow e]) a'.
Proof.
  intros Hb Hacc Hi [= E1 E2 E3 E4 E5].
  assert (Hx : forall B : RawInputEvent -> Prop,
    (exists e', RawRow e' ∈ rs ++ [RawRow e] /\ in_slices e' = true /\ B e') <->
    (exists e', RawRow e' ∈ rs /\ in_slices e' = true /\ B e')).
  { intros B. rewrite (exists_snoc rs e (fun e' => in_slices e' = true /\ B e')). intuition congruence. }
  constructor; rewrite ?E1, ?E2, ?E3, ?E4, ?E5; try done.
  - apply (binsert_ok (fun _ => True)); [done|apply Hb].
  - intros id. rewrite omap_app. cbn. rewrite Hacc, elem_of_app, list_elem_of_singleton.
    destruct (bget_insert_strict (ri_event_id e) id () _ (bt_seen_ok _ _ Hb)) as [[-> ->]|[-> Hne]].
    + split; [by right|by eexists].
    + rewrite (bt_seen _ _ Hb). naive_solver.
  - apply Hb.
  - intros k. rewrite (bt_ids _ _ Hb), Hx. done.
  - apply Hb.
  - apply (bt_keys _ _ Hb).
  - intros k row Hk. destruct (bt_rows _ _ Hb k row Hk) as [Hf Hp]. split; [done|].
    intros id. by rewrite Hp, Hx.
Qed.

Lemma derivative_core e (a : Acc) : core (ingest_derivative_event (V := V) e a) = core a.
Proof.
  unfold ingest_derivative_event. destruct (negb _); [done|]. by destruct (parse_derivative_metric e).
Qed.

(** The projection half of [ingest_spot_event]. *)
Definition project (e : RawInputEvent) (a : Acc) : Acc :=
  if in_ranged (ac_projection_range a) (ri_exchange_timestamp_ms e) then
    let a := ensure_projection_identity args e a in
    let '(rows, stats) := apply_event (V := V) args (ac_projection_range a) e (ac_projection_rows a)
                            (ac_projection_stats a) in
    set_ac_projection_stats stats (set_ac_projection_rows rows a)
  else a.

Lemma project_core e (a : Acc) : core (project e a) = core a.
Proof.
  unfold project. destruct (in_ranged _ _); [|done]. destruct (apply_event _ _ _ _ _) as [rows stats].
  unfold ensure_projection_identity. by destruct (given _).
Qed.

Lemma core_fields (a b : Acc) : core a = core b ->
  ac_input_range a = ac_input_range b /\ ac_scan_range a = ac_scan_range b /\
  ac_seen_event_ids a = ac_seen_event_ids b /\ ac_input_identities a = ac_input_identities b /\
  ac_rows a = ac_rows b.
Proof. by intros [= ? ? ? ? ?]. Qed.

Lemma ensure_core e (a b : Acc) : core a = core b ->
  core (ensure_input_identity args e a) = core (ensure_input_identity args e b).
Proof.
  intros H. destruct (core_fields a b H) as (E1 & E2 & E3 & E4 & E5).
  unfold ensure_input_identity. rewrite E4. destruct (given _); [done|]. unfold core. cbn.
  by rewrite ?E1, ?E2, ?E3, ?E4, ?E5.
Qed.

Lemma spot_core e (a : Acc) : in_ranged (ac_input_range a) (ri_exchange_timestamp_ms e) = true ->
  exists stats, core (ingest_spot_event (V := V) args e a) =
    (ac_input_range a, ac_scan_range a, ac_seen_event_ids a,
     ac_input_identities (ensure_input_identity args e a),
     (apply_event (V := V) args (ac_input_range a) e (ac_rows (ensure_input_identity args e a)) stats).1).
Proof.
  intros Hr. unfold ingest_spot_event. fold (project e a).
  pose proof (project_core e a) as Hp. destruct (core_fields _ _ Hp) as (E1 & E2 & E3 & _ & _).
  pose proof (ensure_core e _ _ Hp) as He. destruct (core_fields _ _ He) as (_ & _ & _ & F4 & F5).
  assert (G : ac_input_range (ensure_input_identity args e (project e a)) = ac_input_range a /\
    ac_scan_range (ensure_input_identity args e (project e a)) = ac_scan_range a /\
    ac_seen_event_ids (ensure_input_identity args e (project e a)) = ac_seen_event_ids a).
  { unfold ensure_input_identity. rewrite <- E1, <- E2, <- E3. by destruct (given _). }
  destruct G as (G1 & G2 & G3). exists (ac_stats (ensure_input_identity args e (project e a))).
  rewrite E1, Hr. cbv zeta. rewrite G1, F5. destruct (apply_event _ _ _ _ _) as [rows stats] eqn:Ea.
  unfold core. cbn. by rewrite G1, G2, G3, F4.
Qed.

(** The schema is known and the digest is not that of the payload. *)
Definition mismatched (r : InputRow) : bool :=
  match r with
  | RawRow e => String.eqb (ri_schema_version e) "raw_market_event_v2"
      && negb (String.eqb (payload_hash (ri_payload_json e)) (ri_payload_sha256 e))
  | SymbolRow y => String.eqb (yi_schema_version y) "symbol_health_v1"
      && negb (String.eqb (payload_hash (symbol_health_payload (yi_venue y) (yi_symbol_native y)
                 (yi_observed_at_ms y) (yi_reason_codes y))) (yi_payload_sha256 y))
  | SourceRow h => String.eqb (hi_schema_version h) "source_health_v2"
      && negb (String.eqb (payload_hash (hi_payload_json h)) (hi_payload_sha256 h))
  | GapRow g => String.eqb (gi_schema_version g) "gap_alert_v1"
      && negb (String.eqb (payload_hash (gi_payload_json g)) (gi_payload_sha256 g))
  end.

(** The branches of [ingest_raw_event], by the verdict on the event. *)
Lemma ingest_raw_cases e (a : Acc) : ac_scan_range a = scan_range ->
  ingest_raw_event (V := V) args e a =
  let a0 := see_schema (ri_schema_version e) (count_input a) in
  if acceptable e then
    if given (bget (ri_event_id e) (ac_seen_event_ids a)) then count_duplicate a0 else
    let a1 := set_ac_seen_event_ids (binsert (ri_event_id e) () (ac_seen_event_ids a)) a0 in
    if is_derivative_market_event e then ingest_derivative_event (V := V) e a1
    else ingest_spot_event (V := V) args e a1
  else if mismatched (RawRow e) then count_invalid (count_mismatch a0) else count_invalid a0.
Proof.
  intros Hscan. unfold ingest_raw_event, acceptable, mismatched. cbv zeta.
  destruct (String.eqb (ri_schema_version e) "raw_market_event_v2"); cbn [negb andb]; [|done].
  destruct (String.eqb (payload_hash _) _); cbn [negb andb]; [|done].
  assert (Es : ac_scan_range (see_schema (ri_schema_version e) (count_input a)) = scan_range) by done.
  rewrite Es, !Z.leb_antisym.
  by destruct (0 <? ri_exchange_timestamp_ms e), (ri_exchange_timestamp_ms e <? saturate _ _).
Qed.

Lemma ingest_row_built rs (a : Acc) r : built rs a ->
  (forall id, accepted_id r = Some id -> id ∉ omap accepted_id rs) ->
  built (rs ++ [r]) (ingest_row (V := V) args a r).
Proof.
  intros Hb Hfresh. destruct r as [e|y|h|g]; cbn [ingest_row].
  2-4: unfold ingest_symbol_health, ingest_source_health, ingest_gap_alert; repeat case_if;
    by apply (skip_row rs a).
  rewrite ingest_raw_cases by apply Hb. cbv zeta. cbn in Hfresh.
  destruct (acceptable e) eqn:Hacc;
    [|destruct (mismatched (RawRow e)); (apply (skip_row rs a); [done|cbn; by rewrite Hacc|done])].
  assert (Hnew : ri_event_id e ∉ omap accepted_id rs) by by apply Hfresh.
  destruct (bget (ri_event_id e) (ac_seen_event_ids a)) as [u|] eqn:Eg; cbn [given].
  { exfalso. apply Hnew, (bt_seen _ _ Hb). rewrite Eg. by eexists. }
  set (a0 := set_ac_seen_event_ids _ _).
  assert (C1 : ac_input_range a0 = input_range) by exact (bt_input _ _ Hb).
  assert (C2 : ac_scan_range a0 = scan_range) by exact (bt_scan _ _ Hb).
  assert (C3 : ac_seen_event_ids a0 = binsert (ri_event_id e) () (ac_seen_event_ids a)) by done.
  assert (Hc0 : core a0 = (input_range, scan_range, binsert (ri_event_id e) () (ac_seen_event_ids a),
                           ac_input_identities a, ac_rows a)).
  { unfold core. by rewrite C1, C2, C3. }
  destruct (is_derivative_market_event e) eqn:Ed.
  { apply (seen_row rs a); [done|done| |by rewrite derivative_core].
    unfold in_slices. by rewrite Hacc, Ed. }
  destruct (in_ranged input_range (ri_exchange_timestamp_ms e)) eqn:Er.
  - assert (Hin : in_slices e = true) by (unfold in_slices; by rewrite Hacc, Ed, Er).
    destruct (spot_core e a0) as [stats Hcs]; [by rewrite C1|].
    assert (Hea : ac_input_identities (ensure_input_identity args e a0)
        = ac_input_identities (ensure_input_identity args e a) /\
      ac_rows (ensure_input_identity args e a0) = ac_rows (ensure_input_identity args e a)).
    { unfold ensure_input_identity.
      change (ac_input_identities a0) with (ac_input_identities a).
      destruct (given (bget (identity_key e) (ac_input_identities a))); split; reflexivity. }
    destruct Hea as [Ei Erw]. rewrite Ei, Erw, C1, C2, C3 in Hcs.
    by apply (spot_step rs a e _ stats Hb Hin eq_refl).
  - apply (seen_row rs a); [done|done|unfold in_slices; by rewrite Hacc, Ed, Er|].
    unfold ingest_spot_event. fold (project e a0). pose proof (project_core e a0) as Hp.
    destruct (core_fields _ _ Hp) as (E1 & _). rewrite E1, C1, Er, Hp. exact Hc0.
Qed.

Lemma built_new md : built [] (accumulator_new args input_range scan_range md).
Proof.
  constructor; cbn; try done; try apply bmap_ok_nil.
  - intros id. rewrite elem_of_nil. split; [by intros []|done].
  - intros k. split; [by intros []|]. intros (e & He & _). by apply elem_of_nil in He.
  - intros v s t. split; [by intros []|]. intros [[] _]. done.
Qed.

(** The rows without the raw events whose id was accepted before. *)
Fixpoint first_seen (seen : list string) (rows : list InputRow) : list InputRow :=
  match rows with
  | [] => []
  | r :: rows =>
      match accepted_id r with
      | Some id => if bool_decide (id ∈ seen) then first_seen seen rows
                   else r :: first_seen (id :: seen) rows
      | None => r :: first_seen seen rows
      end
  end.

Lemma first_seen_ids seen rows id :
  id ∈ omap accepted_id (first_seen seen rows) \/ id ∈ seen <-> id ∈ omap accepted_id rows \/ id ∈ seen.
Proof.
  revert seen. induction rows as [|r rows IH]; intros seen; cbn [first_seen]; [done|].
  destruct (accepted_id r) as [i|] eqn:Ei.
  - case_bool_decide as Hi; cbn [omap list_omap]; rewrite ?Ei, ?elem_of_cons.
    + rewrite IH. naive_solver.
    + specialize (IH (i :: seen)). rewrite elem_of_cons in IH. naive_solver.
  - cbn [omap list_omap]. rewrite Ei. apply IH.
Qed.

(** The row repeats an id accepted among the rows or seen before. *)
Definition repeats (seen : list string) (rows : list InputRow) (r : InputRow) : bool :=
  match accepted_id r with
  | Some id => bool_decide (id ∈ omap accepted_id rows \/ id ∈ seen)
  | None => false
  end.

Lemma repeats_ext seen seen' rows rows' r :
  (forall id, id ∈ omap accepted_id rows \/ id ∈ seen <-> id ∈ omap accepted_id rows' \/ id ∈ seen') ->
  repeats seen rows r = repeats seen' rows' r.
Proof. intros H. unfold repeats. destruct (accepted_id r); [|done]. apply bool_decide_ext, H. Qed.

Lemma first_seen_snoc seen rows r : first_seen seen (rows ++ [r]) =
  first_seen seen rows ++ (if repeats seen rows r then [] else [r]).
Proof using Type.
  revert seen. induction rows as [|x rows IH]; intros seen; cbn [first_seen app].
  - unfold repeats. destruct (accepted_id r) as [i|]; [|done]. cbn [omap list_omap].
    rewrite (bool_decide_ext (i ∈ [] \/ i ∈ seen) (i ∈ seen)) by (rewrite elem_of_nil; tauto). by case_bool_decide.
  - destruct (accepted_id x) as [i|] eqn:Ei; [case_bool_decide as Hi|]; cbn [app]; rewrite IH.
    + by rewrite (repeats_ext seen seen rows (x :: rows))
        by (intros id; cbn [omap list_omap]; rewrite Ei, elem_of_cons; naive_solver).
    + by rewrite (repeats_ext (i :: seen) seen rows (x :: rows))
        by (intros id; cbn [omap list_omap]; rewrite Ei, !elem_of_cons; naive_solver).
    + by rewrite (repeats_ext seen seen rows (x :: rows)) by (intros id; cbn [omap list_omap]; by rewrite Ei).
Qed.

Lemma repeats_spec rows (a : Acc) r : built (first_seen [] rows) a ->
  repeats [] rows r = true <->
  exists id, accepted_id r = Some id /\ is_Some (bget id (ac_seen_event_ids a)).
Proof.
  intros Hb. unfold repeats. pose proof (first_seen_ids [] rows) as Hf.
  destruct (accepted_id r) as [id|]; [|naive_solver].
  rewrite bool_decide_eq_true, <- Hf, <- (bt_seen _ _ Hb), elem_of_nil. naive_solver.
Qed.

Lemma ingest_all_built rows md : built (first_seen [] rows)
  (fold_left (ingest_row (V := V) args) rows (accumulator_new args input_range scan_range md)).
Proof.
  induction rows as [|r rows IH] using rev_ind; [apply built_new|].
  rewrite fold_left_app, first_seen_snoc. cbn [fold_left].
  set (a := fold_left _ rows _) in *. pose proof (repeats_spec rows a r IH) as Hr.
  destruct (repeats [] rows r).
  - rewrite app_nil_r. destruct (proj1 Hr eq_refl) as (id & Hid & Hs).
    destruct r as [e| | |]; try done. cbn in Hid. destruct (acceptable e) eqn:Ea; [|done].
    injection Hid as <-. cbn [ingest_row]. rewrite ingest_raw_cases by apply IH. cbv zeta.
    rewrite Ea. destruct Hs as [u ->]. cbn [given]. by apply (built_ext (first_seen [] rows) _ a).
  - apply ingest_row_built; [done|]. intros id Hid Hin.
    apply (bt_seen _ _ IH) in Hin. assert (false = true) by (apply Hr; by exists id). done.
Qed.

(** ** The counters *)

Definition projection_range : InputRange :=
  mkRange (saturate I64 (s0 - na_projection_lookback_ms args)) (ir_end_ms input_range).

(** The row of a first-seen event that adds to [invalid_event_count]. *)
Definition invalid_row (r : InputRow) : bool :=
  match r with
  | RawRow e => negb (acceptable e)
      || (if is_derivative_market_event e
          then in_ranged projection_range (ri_exchange_timestamp_ms e)
               && match parse_derivative_metric (V := V) e with Some _ => false | None => true end
          else in_slices e && negb (usable e))
  | SymbolRow y => negb (String.eqb (yi_schema_version y) "symbol_health_v1") || mismatched r
  | SourceRow h => negb (String.eqb (hi_schema_version h) "source_health_v2") || mismatched r
  | GapRow g => negb (String.eqb (gi_schema_version g) "gap_alert_v1") || mismatched r
  end.

Definition tick (b : bool) (x : Z) : Z := if b then incr_u64 x else x.

(** The counters after a row. *)
Definition counted (dup invalid mismatch : bool) (s : BuildStats) : BuildStats :=
  mkStats (incr_u64 (st_input_record_count s)) (tick dup (st_duplicate_event_count s))
    (tick invalid (st_invalid_event_count s)) (tick mismatch (st_payload_hash_mismatch_count s)).

Lemma apply_to_row_stats e (row : @SliceRow F) stats :
  (apply_to_row (V := V) args e row stats).2 =
  set_st_invalid_event_count (tick (negb (usable e)) (st_invalid_event_count stats)) stats.
Proof.
  unfold apply_to_row, usable. destruct stats as [i d v m].
  destruct (String.eqb (ri_event_type e) "trade") eqn:E1.
  { unfold apply_trade_event. by destruct (parse_trade e). }
  destruct (String.eqb (ri_event_type e) "book_ticker") eqn:E2; cbn [orb].
  { unfold apply_book_event. apply String.eqb_eq in E2. rewrite E2. by destruct (parse_book_ticker e). }
  destruct (String.eqb (ri_event_type e) "depth_snapshot") eqn:E3; cbn [orb].
  { unfold apply_book_event. rewrite E2, E3. by destruct (parse_book_ticker e). }
  destruct (String.eqb (ri_event_type e) "depth_delta"); cbn [orb]; [done|].
  by destruct (String.eqb (ri_event_type e) "ticker").
Qed.

Lemma symbol_stats y (a : Acc) : ac_stats (ingest_symbol_health y a)
  = counted false (invalid_row (SymbolRow y)) (mismatched (SymbolRow y)) (ac_stats a).
Proof.
  unfold ingest_symbol_health, invalid_row, mismatched, symbol_health_payload.
  destruct (String.eqb (yi_schema_version y) "symbol_health_v1"); cbn [negb orb andb]; [|done].
  by destruct (String.eqb _ (yi_payload_sha256 y)).
Qed.

Lemma source_stats h (a : Acc) : ac_stats (ingest_source_health h a)
  = counted false (invalid_row (SourceRow h)) (mismatched (SourceRow h)) (ac_stats a).
Proof.
  unfold ingest_source_health, invalid_row, mismatched.
  destruct (String.eqb (hi_schema_version h) "source_health_v2"); cbn [negb orb andb]; [|done].
  by destruct (String.eqb _ (hi_payload_sha256 h)).
Qed.

Lemma gap_stats g (a : Acc) : ac_stats (ingest_gap_alert g a)
  = counted false (invalid_row (GapRow g)) (mismatched (GapRow g)) (ac_stats a).
Proof.
  unfold ingest_gap_alert, invalid_row, mismatched.
  destruct (String.eqb (gi_schema_version g) "gap_alert_v1"); cbn [negb orb andb]; [|done].
  by destruct (String.eqb _ (gi_payload_sha256 g)).
Qed.

(** Whether a row adds to [invalid_event_count] depends on the range the projection
    covers, which no handler changes. *)
Lemma ingest_projection (a : Acc) r :
  ac_projection_range (ingest_row (V := V) args a r) = ac_projection_range a.
Proof.
  destruct r as [e|y|h|g]; cbn [ingest_row].
  2-4: unfold ingest_symbol_health, ingest_source_health, ingest_gap_alert; by repeat case_if.
  unfold ingest_raw_event. cbv zeta. do 2 (destruct (negb _); [done|]). destruct (_ || _); [done|].
  destruct (given _); [done|]. destruct (is_derivative_market_event e).
  - unfold ingest_derivative_event. destruct (negb _); [done|]. by destruct (parse_derivative_metric e).
  - assert (He : forall b, ac_projection_range (ensure_input_identity args e b) = ac_projection_range b).
    { intros b. unfold ensure_input_identity. by destruct (given _). }
    assert (Hp : forall b, ac_projection_range (project e b) = ac_projection_range b).
    { intros b. unfold project. destruct (in_ranged _ _); [|done].
      destruct (apply_event _ _ _ _ _) as [rows stats].
      change (ac_projection_range (ensure_projection_identity args e b) = ac_projection_range b).
      unfold ensure_projection_identity. by destruct (given _). }
    unfold ingest_spot_event. match goal with |- context [set_ac_seen_event_ids ?x ?b] =>
      set (a1 := set_ac_seen_event_ids x b); fold (project e a1) end.
    destruct (in_ranged _ _); [|by rewrite Hp].
    destruct (apply_event _ _ _ _ _) as [rows stats]. cbn. by rewrite He, Hp.
Qed.

Lemma spot_stats rs (a : Acc) e : built rs a -> acceptable e = true ->
  is_derivative_market_event e = false ->
  forall a1 : Acc, ac_input_range a1 = input_range -> ac_input_identities a1 = ac_input_identities a ->
  ac_rows a1 = ac_rows a ->
  ac_stats (ingest_spot_event (V := V) args e a1) =
  set_st_invalid_event_count (tick (in_slices e && negb (usable e)) (st_invalid_event_count (ac_stats a1)))
    (ac_stats a1).
Proof.
  intros Hb Hacc Hd a1 E1 E2 E3. unfold ingest_spot_event. fold (project e a1).
  assert (Hps : ac_stats (project e a1) = ac_stats a1).
  { unfold project. destruct (in_ranged _ _); [|done]. destruct (apply_event _ _ _ _ _) as [rows stats].
    unfold ensure_projection_identity. by destruct (given _). }
  pose proof (project_core e a1) as Hp. destruct (core_fields _ _ Hp) as (F1 & _ & _ & F4 & F5).
  rewrite F1, E1. unfold in_slices. rewrite Hacc, Hd. cbn [negb andb].
  destruct (in_ranged input_range (ri_exchange_timestamp_ms e)) eqn:Hr;
    [|by rewrite Hps; destruct (ac_stats a1)]. cbn [andb].
  destruct (ensure_has_row rs a e Hb Hr) as [row Hrow].
  assert (Hen : ac_input_range (ensure_input_identity args e (project e a1)) = input_range /\
    ac_stats (ensure_input_identity args e (project e a1)) = ac_stats a1 /\
    ac_rows (ensure_input_identity args e (project e a1)) = ac_rows (ensure_input_identity args e a)).
  { unfold ensure_input_identity. rewrite F4, E2.
    destruct (given (bget (identity_key e) (ac_input_identities a))).
    - by rewrite F1, F5, Hps.
    - cbn [ac_input_range ac_stats ac_rows set_ac_rows set_ac_input_identities].
      by rewrite F1, F5, Hps, E1, E3, (bt_input _ _ Hb). }
  destruct Hen as (G1 & G2 & G3). cbv zeta. rewrite G1, G3, (apply_event_row e _ _ row Hr Hrow).
  cbn [ac_stats set_ac_stats]. by rewrite apply_to_row_stats, G2.
Qed.

Lemma raw_stats rs (a : Acc) e : built rs a -> ac_projection_range a = projection_range ->
  let dup := acceptable e && given (bget (ri_event_id e) (ac_seen_event_ids a)) in
  ac_stats (ingest_raw_event (V := V) args e a)
  = counted dup (negb dup && invalid_row (RawRow e)) (mismatched (RawRow e)) (ac_stats a).
Proof.
  intros Hb Hproj dup. subst dup. rewrite ingest_raw_cases by apply Hb. cbv zeta. unfold invalid_row.
  destruct (acceptable e) eqn:Hacc; cbn [andb negb orb].
  - assert (Hm : mismatched (RawRow e) = false).
    { unfold acceptable in Hacc. unfold mismatched.
      destruct (String.eqb (ri_schema_version e) _); [|done]. by destruct (String.eqb (payload_hash _) _). }
    rewrite Hm. destruct (given (bget (ri_event_id e) (ac_seen_event_ids a))); [done|]. cbn [negb andb].
    set (a1 := set_ac_seen_event_ids _ _).
    destruct (is_derivative_market_event e) eqn:Hd.
    + unfold ingest_derivative_event.
      assert (Hp1 : ac_projection_range a1 = projection_range) by exact Hproj. rewrite Hp1.
      destruct (in_ranged projection_range _); cbn [negb andb]; [|done].
      by destruct (parse_derivative_metric e).
    + rewrite (spot_stats rs a e Hb Hacc Hd a1); [done|exact (bt_input _ _ Hb)|done|done].
  - by destruct (mismatched (RawRow e)).
Qed.

Definition count (p : InputRow -> bool) (rows : list InputRow) : Z := zlen (List.filter p rows).

Lemma count_snoc p rows r : count p (rows ++ [r]) = count p rows + Z.b2z (p r).
Proof. unfold count. rewrite List.filter_app. cbn. destruct (p r); rewrite zlen_app; done. Qed.

Lemma tick_wrap b z : tick b (wrap U64 z) = wrap U64 (z + Z.b2z b).
Proof. destruct b; cbn [tick Z.b2z]; [apply wrap_succ|by rewrite Z.add_0_r]. Qed.

(** The counters of a run over any rows. *)
Lemma run_stats rows md :
  let a := fold_left (ingest_row (V := V) args) rows (accumulator_new args input_range scan_range md) in
  ac_projection_range a = projection_range /\
  ac_stats a = mkStats (wrap U64 (zlen rows)) (wrap U64 (zlen rows - zlen (first_seen [] rows)))
    (wrap U64 (count invalid_row (first_seen [] rows))) (wrap U64 (count mismatched rows)).
Proof.
  induction rows as [|r rows [IHp IHs]] using rev_ind; [done|]. cbv zeta in *.
  rewrite fold_left_app. cbn [fold_left]. rewrite ingest_projection, IHp. split; [done|].
  pose proof (ingest_all_built rows md) as Hb. set (a := fold_left _ rows _) in *.
  pose proof (repeats_spec rows a r Hb) as Hrep. rewrite first_seen_snoc, count_snoc, zlen_snoc, zlen_app.
  assert (Hstep : ac_stats (ingest_row (V := V) args a r)
    = counted (repeats [] rows r) (negb (repeats [] rows r) && invalid_row r) (mismatched r) (ac_stats a)).
  { destruct r as [e|y|h|g]; cbn [ingest_row]; [|apply symbol_stats|apply source_stats|apply gap_stats].
    rewrite (raw_stats _ a e Hb IHp).
    assert (Er : repeats [] rows (RawRow e) = acceptable e && given (bget (ri_event_id e) (ac_seen_event_ids a))).
    { apply eq_true_iff_eq. rewrite Hrep. cbn [accepted_id]. destruct (acceptable e); cbn [andb]; [|naive_solver].
      split; [by intros (id & [= <-] & [u ->])|]. intros Hg. exists (ri_event_id e).
      split; [done|]. destruct (bget _ _); [by eexists|done]. }
    by rewrite Er. }
  rewrite Hstep, IHs. unfold counted. cbn [st_input_record_count st_duplicate_event_count
    st_invalid_event_count st_payload_hash_mismatch_count]. unfold incr_u64. rewrite wrap_succ, !tick_wrap.
  destruct (repeats [] rows r); cbn [negb andb Z.b2z app].
  - assert (Ec : count invalid_row (first_seen [] rows ++ []) = count invalid_row (first_seen [] rows))
      by (f_equal; apply List.app_nil_r).
    rewrite Ec. change (zlen (@nil InputRow)) with 0. f_equal; f_equal; lia.
  - rewrite (count_snoc invalid_row (first_seen [] rows) r).
    change (zlen [r]) with 1. f_equal; f_equal; lia.
Qed.
End run.

(** ** Finishing keeps the events *)

Lemma dedup_elem l x : x ∈ dedup l <-> x ∈ l.
Proof.
  induction l as [|a [|b l] IH]; [done|done|]. cbn [dedup]. destruct (String.eqb_spec a b) as [->|Hne].
  - rewrite IH, !elem_of_cons. naive_solver.
  - rewrite !elem_of_cons in *. rewrite IH. done.
Qed.

Lemma sort_dedup_elem l x : x ∈ sort_dedup l <-> x ∈ l.
Proof. unfold sort_dedup, sort_strings. by rewrite dedup_elem, sort_by_perm. Qed.

Lemma push_missing_frame r (row : @SliceRow F) :
  frame (push_missing r row) = frame row /\ sl_parent_event_ids (push_missing r row) = sl_parent_event_ids row.
Proof. done. Qed.

Lemma gap_alerts_frame gaps range (row : @SliceRow F) :
  frame (apply_gap_alerts gaps range row) = frame row /\
  sl_parent_event_ids (apply_gap_alerts gaps range row) = sl_parent_event_ids row.
Proof.
  unfold apply_gap_alerts. generalize (List.filter (gap_applies_to_row row range) gaps). intros l.
  revert row. induction l as [|g l IH]; intros row; cbn [fold_left]; [done|].
  match goal with |- context [fold_left ?f l ?r] => destruct (IH r) as [-> ->] end. done.
Qed.

Lemma health_frame sym src gaps range (row : @SliceRow F) :
  frame (apply_health_and_gaps_to_row sym src gaps range row) = frame row /\
  sl_parent_event_ids (apply_health_and_gaps_to_row sym src gaps range row) = sl_parent_event_ids row.
Proof.
  unfold apply_health_and_gaps_to_row.
  match goal with |- context [apply_gap_alerts gaps range ?r] =>
    destruct (gap_alerts_frame gaps range r) as [-> ->] end.
  unfold apply_source_health_snapshot, apply_symbol_health_snapshot.
  repeat first [case_match | case_if]; done.
Qed.

Lemma order_frame (row : @SliceRow F) :
  frame (normalize_event_order row) = frame row /\
  sl_parent_event_ids (normalize_event_order row) = sl_parent_event_ids row.
Proof.
  unfold normalize_event_order. cbv zeta. cbn [sl_trade_events set_sl_trade_events].
  destruct (last (sort_by (key_leb trade_key) _));
    cbn [sl_book_ticker_events set_sl_book_ticker_events set_sl_trade_events set_sl_last_trade_size
      set_sl_last_trade_price];
    destruct (last (sort_by (key_leb book_key) _)); split; reflexivity.
Qed.

(** The steps of the finalization on what identifies a slice and on its parents. *)
Lemma finalize_frame (row : @SliceRow F) :
  frame (finalize_slice row) = frame row /\
  sl_parent_event_ids (finalize_slice row) = sort_dedup (sl_parent_event_ids row).
Proof.
  assert (H1 : forall r : @SliceRow F, frame (mark_silence r) = frame r /\
    sl_parent_event_ids (mark_silence r) = sl_parent_event_ids r).
  { intros r. unfold mark_silence. by destruct (no_events r). }
  assert (H2 : forall r : @SliceRow F, frame (mark_depth_top r) = frame r /\
    sl_parent_event_ids (mark_depth_top r) = sl_parent_event_ids r).
  { intros r. unfold mark_depth_top. by destruct (sl_best_bid r), (sl_best_ask r). }
  assert (H3 : forall r : @SliceRow F, frame (set_mid r) = frame r /\
    sl_parent_event_ids (set_mid r) = sl_parent_event_ids r).
  { intros r. unfold set_mid. by destruct (sl_best_bid r), (sl_best_ask r). }
  assert (H4 : forall r : @SliceRow F, frame (set_completeness r) = frame r /\
    sl_parent_event_ids (set_completeness r) = sl_parent_event_ids r) by (intros r; split; reflexivity).
  assert (H5 : forall r : @SliceRow F, frame (dedup_lists r) = frame r /\
    sl_parent_event_ids (dedup_lists r) = sort_dedup (sl_parent_event_ids r))
    by (intros r; split; reflexivity).
  unfold finalize_slice.
  match goal with |- context [set_completeness ?r] => destruct (H4 r) as [-> ->] end.
  match goal with |- context [set_mid ?r] => destruct (H3 r) as [-> ->] end.
  match goal with |- context [dedup_lists ?r] => destruct (H5 r) as [-> ->] end.
  match goal with |- context [mark_depth_top ?r] => destruct (H2 r) as [-> ->] end.
  match goal with |- context [mark_silence ?r] => destruct (H1 r) as [-> ->] end.
  by destruct (order_frame row) as [-> ->].
Qed.

(** The event belongs to the slice's venue, symbol and window. *)
Definition slice_of (e : RawInputEvent) (s : @SliceRow F) : Prop :=
  sl_venue s = ri_venue e /\ sl_symbol_canonical s = ri_symbol_canonical e /\
  sl_window_start_ms s <= ri_exchange_timestamp_ms e < sl_window_end_ms s.

Definition run_accumulator (args : NormalizeArgs) (input_range scan_range : InputRange)
    (md : BuildInputMetadata) (rows : list InputRow) : Acc :=
  fold_left (ingest_row (V := V) args) rows (accumulator_new args input_range scan_range md).

(** The finished row of an accumulated one. *)
Definition finished (a : Acc) (row : @SliceRow F) : @SliceRow F :=
  finalize_slice (apply_health_and_gaps_to_row (ac_symbol_health a) (ac_source_health a)
    (ac_gap_alerts a) (ac_input_range a) row).

Lemma finished_frame a row : frame (finished a row) = frame row /\
  forall id, id ∈ sl_parent_event_ids (finished a row) <-> id ∈ sl_parent_event_ids row.
Proof.
  unfold finished.
  match goal with |- context [finalize_slice ?r] => destruct (finalize_frame r) as [-> ->] end.
  match goal with |- context [apply_health_and_gaps_to_row ?a ?b ?c ?d ?r] =>
    destruct (health_frame a b c d r) as [-> ->] end.
  split; [done|]. intros id. apply sort_dedup_elem.
Qed.

Lemma finish_slices (a : Acc) : br_slices (finish a) = map (finished a) (bvalues (ac_rows a)).
Proof.
  unfold finish, finished. rewrite map_map. destruct (_ <? _); [done|]. by destruct (is_nil _).
Qed.

(** The slices of the result are the finished rows of the map. *)
Lemma finished_elem (a : Acc) s : mok (ac_rows a) -> s ∈ br_slices (finish a) <->
  exists k row, bget k (ac_rows a) = Some row /\ s = finished a row.
Proof.
  intros Hok. rewrite finish_slices. change (map ?f ?l) with (f <$> l). unfold bvalues.
  rewrite list_elem_of_fmap. setoid_rewrite list_elem_of_fmap. split.
  - intros (row & -> & ([k row'] & -> & Hin)). exists k, row'. split; [by apply bget_entries|done].
  - intros (k & row & Hk & ->). exists row. split; [done|]. exists (k, row). split; [done|].
    by apply bget_entries.
Qed.

Section slices.
Context (args : NormalizeArgs) (input_range scan_range : InputRange) (n : nat)
  (md : BuildInputMetadata) (rows : list InputRow).
Context (Hwin : 0 < na_window_ms args) (Hstart : 0 <= ir_start_ms input_range)
  (Halign : (na_window_ms args | ir_start_ms input_range))
  (Hend : ir_end_ms input_range = ir_start_ms input_range + Z.of_nat n * na_window_ms args)
  (Hmax : ir_end_ms input_range <= int_max I64).

Let a := run_accumulator args input_range scan_range md rows.
Lemma run_built : built args input_range scan_range n (first_seen args scan_range [] rows) a.
Proof. by apply ingest_all_built. Qed.
Let Hbuilt := run_built.

Lemma slice_of_key k (row s : @SliceRow F) e : bget k (ac_rows a) = Some row -> s = finished a row ->
  in_slices args input_range scan_range e = true ->
  slice_of e s <-> event_slice_key args e = k.
Proof.
  intros Hk -> Hi. destruct (in_slices_spec _ _ _ e Hi) as (_ & _ & Hr).
  destruct (event_key args input_range Hwin Hstart Halign n Hend Hmax e Hr) as [-> _].
  destruct (bt_rows _ _ _ _ _ _ Hbuilt k row Hk) as [Hf _].
  destruct (finished_frame a row) as [Hff _]. rewrite Hf in Hff.
  apply frame_fields in Hff as (E1 & E2 & E3 & E4).
  assert (Hks : k.2.2 ∈ windows (ir_start_ms input_range) (na_window_ms args) n).
  { destruct k as [v [y t]]. apply (bt_keys _ _ _ _ _ _ Hbuilt v y t). by exists row. }
  destruct k as [v [y t]]. cbn [fst snd] in *. unfold slice_of.
  rewrite E1, E2, E3, E4. unfold slice_time. apply list_elem_of_fmap in Hks as (i & -> & _).
  pose proof Halign as [b Hb]. rewrite Hb. set (w := na_window_ms args) in *. set (ts := ri_exchange_timestamp_ms e).
  pose proof (Z.mul_div_le ts w Hwin). pose proof (Z.mul_succ_div_gt ts w Hwin). split.
  - intros (-> & -> & Ht). do 3 f_equal.
    assert (ts / w = b + Z.of_nat i); [|nia]. symmetry. apply Z.div_unique_pos with (ts - (b + Z.of_nat i) * w); lia.
  - intros [= -> -> Ht]. split_and!; [done|done|lia|lia].
Qed.

Lemma slices_account :
  (forall e, RawRow e ∈ first_seen args scan_range [] rows -> in_slices args input_range scan_range e = true ->
     exists s, s ∈ br_slices (finish a) /\ slice_of e s) /\
  (forall s id, s ∈ br_slices (finish a) ->
     id ∈ sl_parent_event_ids s <->
     exists e, RawRow e ∈ first_seen args scan_range [] rows /\ in_slices args input_range scan_range e = true /\ slice_of e s /\
       usable e = true /\ ri_event_id e = id).
Proof.
  pose proof (bt_rows_ok _ _ _ _ _ _ Hbuilt) as Hok. split.
  - intros e He Hi. destruct (in_slices_spec _ _ _ e Hi) as (_ & _ & Hr).
    destruct (event_key args input_range Hwin Hstart Halign n Hend Hmax e Hr) as [Ek Ht].
    assert (Hk : is_Some (bget (K := SliceKey) (ri_venue e, (ri_symbol_canonical e, slice_time args e)) (ac_rows a))).
    { apply (bt_keys _ _ _ _ _ _ Hbuilt). split; [|done]. apply (bt_ids _ _ _ _ _ _ Hbuilt). by exists e. }
    destruct Hk as [row Hk]. exists (finished a row). split; [apply finished_elem; eauto|].
    by apply (slice_of_key _ row _ e Hk eq_refl Hi).
  - intros s id Hs. apply finished_elem in Hs as (k & row & Hk & ->); [|done].
    destruct (finished_frame a row) as [_ Hp]. rewrite Hp.
    destruct (bt_rows _ _ _ _ _ _ Hbuilt k row Hk) as [_ Hids]. rewrite Hids.
    split; intros (e & He & Hi & H1 & H2 & H3); exists e; split_and!; try done;
      by apply (slice_of_key k row _ e Hk eq_refl Hi).
Qed.

Lemma finish_status (b : Acc) : br_status (finish b) =
  (if (0 <? st_payload_hash_mismatch_count (ac_stats b))%Z then "blocked"
   else if is_nil (br_slices (finish b)) then "empty" else "success")%string.
Proof.
  rewrite finish_slices. unfold finish, finished. rewrite map_map.
  destruct (0 <? _); [done|]. by destruct (is_nil _).
Qed.

Definition slice_row (r : InputRow) : bool :=
  match r with RawRow e => in_slices args input_range scan_range e | _ => false end.

Lemma no_slices_iff : is_nil (br_slices (finish a)) =
  negb (existsb slice_row (first_seen args scan_range [] rows)).
Proof.
  pose proof (bt_rows_ok _ _ _ _ _ _ Hbuilt) as Hok.
  destruct (existsb slice_row _) eqn:Ex; cbn [negb].
  - apply existsb_exists in Ex as (r & Hr & Hs). destruct r as [e| | |]; try done.
    destruct (proj1 slices_account e) as (s & Hin & _); [by apply list_elem_of_In|done|].
    destruct (br_slices (finish a)); [by apply elem_of_nil in Hin|done].
  - destruct (br_slices (finish a)) as [|s l] eqn:El; [done|]. exfalso.
    assert (Hs : s ∈ br_slices (finish a)) by (rewrite El; by left).
    apply finished_elem in Hs as ([v [y t]] & row & Hk & _); [|done].
    destruct (proj1 (bt_keys _ _ _ _ _ _ Hbuilt v y t)) as [Hi _]; [by exists row|].
    apply (bt_ids _ _ _ _ _ _ Hbuilt) in Hi as (e & He & Hin & _).
    assert (existsb slice_row (first_seen args scan_range [] rows) = true); [|congruence].
    apply existsb_exists. exists (RawRow e). split; [by apply list_elem_of_In|done].
Qed.
End slices.

(** The shared hypotheses of the run theorems: a range that starts on a window and
    holds [n] of them. *)
Record windowed (args : NormalizeArgs) (r : InputRange) (n : nat) : Prop := {
  wd_positive : 0 < na_window_ms args;
  wd_start : 0 <= ir_start_ms r;
  wd_aligned : (na_window_ms args | ir_start_ms r);
  wd_end : ir_end_ms r = ir_start_ms r + Z.of_nat n * na_window_ms args;
  wd_max : ir_end_ms r <= int_max I64;
}.

(** C2: every accepted spot event of the input range that is not a repetition has a
    slice of its venue, symbol and window, and the parents of each slice are exactly
    the ids of the usable ones among its events: the builder loses no event, keeps
    none twice and never puts one into the wrong slice. *)
Theorem slices_account_for_events (args : NormalizeArgs) (input_range scan_range : InputRange)
    (n : nat) (md : BuildInputMetadata) (rows : list InputRow) :
  windowed args input_range n ->
  let slices := br_slices (build_rows (V := V) args input_range scan_range md rows) in
  let events e := RawRow e ∈ first_seen args scan_range [] rows /\
                  in_slices args input_range scan_range e = true in
  (forall e, events e -> exists s, s ∈ slices /\ slice_of e s) /\
  (forall s id, s ∈ slices -> id ∈ sl_parent_event_ids s <->
     exists e, events e /\ slice_of e s /\ usable e = true /\ ri_event_id e = id).
Proof.
  intros [H1 H2 H3 H4 H5] slices events.
  destruct (slices_account args input_range scan_range n md rows H1 H2 H3 H4 H5) as [Ha Hb].
  split; [intros e [He Hi]; by apply Ha|]. intros s id Hs. rewrite (Hb s id Hs). unfold events.
  split; [intros (e & ? & ? & ? & ? & ?)|intros (e & [? ?] & ? & ? & ?)]; by exists e.
Qed.

(** the counters of a run: every row is an input record; a raw event is a
    duplicate exactly when its id was accepted before; the invalid ones are the rows
    that are rejected (schema, digest, time) and the first-seen ones that do not parse
    or have an unknown type; the mismatches are the rows of a known schema whose digest
    is wrong. *)
Theorem run_counts_rows (args : NormalizeArgs) (input_range scan_range : InputRange)
    (n : nat) (md : BuildInputMetadata) (rows : list InputRow) :
  windowed args input_range n ->
  let b := build_rows (V := V) args input_range scan_range md rows in
  let firsts := first_seen args scan_range [] rows in
  br_input_record_count b = wrap U64 (zlen rows) /\
  br_duplicate_event_count b = wrap U64 (zlen rows - zlen firsts) /\
  br_invalid_event_count b
    = wrap U64 (count (invalid_row args input_range scan_range) firsts) /\
  br_payload_hash_mismatch_count b = wrap U64 (count mismatched rows).
Proof.
  intros [H1 H2 H3 H4 H5] b firsts.
  destruct (run_stats args input_range scan_range H1 H2 H3 n H4 H5 rows md) as [_ Hs].
  unfold b, build_rows, finish. set (a := fold_left _ rows _) in *.
  destruct (0 <? _); [|destruct (is_nil _)]; cbn -[wrap ingest_row]; by rewrite Hs.
Qed.

(** the status of a run: blocked when some row's digest is wrong, else success
    when some first-seen event lies in the range, else empty. *)
Theorem run_status_decided (args : NormalizeArgs) (input_range scan_range : InputRange)
    (n : nat) (md : BuildInputMetadata) (rows : list InputRow) :
  windowed args input_range n -> zlen rows <= int_max U64 ->
  br_status (build_rows (V := V) args input_range scan_range md rows) =
  (if (0 <? count mismatched rows)%Z then "blocked"
   else if existsb (slice_row args input_range scan_range) (first_seen args scan_range [] rows)
   then "success" else "empty")%string.
Proof.
  intros [H1 H2 H3 H4 H5] Hlen. unfold build_rows.
  destruct (run_stats args input_range scan_range H1 H2 H3 n H4 H5 rows md) as [_ Hs].
  pose proof (no_slices_iff args input_range scan_range n md rows H1 H2 H3 H4 H5) as Hn.
  unfold run_accumulator in Hn. set (a := fold_left _ rows _) in *.
  rewrite finish_status, Hs, Hn. cbn [st_payload_hash_mismatch_count].
  rewrite wrap_id.
  - destruct (0 <? _); [done|]. by destruct (existsb _ _).
  - unfold in_range, count, zlen in *. cbn [int_min].
    pose proof (List.filter_length_le mismatched rows). lia.
Qed.

(** ** What a complete slice says *)

(** The reasons a row has only grow. *)
Definition keeps (row row' : @SliceRow F) : Prop :=
  frame row' = frame row /\ sl_missing_reasons row ⊆ sl_missing_reasons row'.

Lemma keeps_refl row : keeps row row.
Proof. split; [done|set_solver]. Qed.

Lemma keeps_trans r1 r2 r3 : keeps r1 r2 -> keeps r2 r3 -> keeps r1 r3.
Proof. intros [E1 H1] [E2 H2]. split; [by rewrite E2|set_solver]. Qed.

Lemma push_missing_keeps r (row : @SliceRow F) :
  keeps row (push_missing r row) /\ r ∈ sl_missing_reasons (push_missing r row).
Proof. unfold keeps. cbn. set_solver. Qed.

Lemma gaps_keep gaps range (row : @SliceRow F) : keeps row (apply_gap_alerts gaps range row).
Proof.
  unfold apply_gap_alerts. generalize (List.filter (gap_applies_to_row row range) gaps). intros l.
  revert row. induction l as [|g l IH]; intros row; cbn [fold_left]; [apply keeps_refl|].
  eapply keeps_trans; [|apply IH]. unfold keeps. cbn. set_solver.
Qed.

Lemma keeps_nil (row row' : @SliceRow F) : keeps row row' -> sl_missing_reasons row' = [] ->
  sl_missing_reasons row = [].
Proof.
  intros [_ H] E. rewrite E in H. destruct (sl_missing_reasons row) as [|x l]; [done|].
  specialize (H x ltac:(by left)). by apply elem_of_nil in H.
Qed.

(** The health a row without reasons has seen. *)
Definition healthy_symbol (row : @SliceRow F) : Prop :=
  exists snap, sl_symbol_health_snapshot row = Some snap /\ ss_is_tradeable snap = true /\
    sl_window_start_ms row <= ss_last_received_time_ms snap.
Definition healthy_source (row : @SliceRow F) : Prop :=
  exists snap, sl_source_health_snapshot row = Some snap /\
    hs_connection_status snap = "connected"%string /\ is_healthy_level (hs_health_level snap) = true.

Lemma symbol_keeps (row : @SliceRow F) :
  keeps row (apply_symbol_health_snapshot row) /\
  (sl_missing_reasons (apply_symbol_health_snapshot row) = [] -> healthy_symbol row).
Proof.
  unfold apply_symbol_health_snapshot, healthy_symbol.
  destruct (sl_symbol_health_snapshot row) as [snap|].
  2: { split; [apply push_missing_keeps|]. cbn. by intros [_ ?]%app_nil. }
  destruct (ss_is_tradeable snap) eqn:Et; cbn [negb].
  - destruct (Z.ltb_spec (ss_last_received_time_ms snap) (sl_window_start_ms row)).
    + split; [unfold keeps; cbn; set_solver|]. cbn. by intros [_ ?]%app_nil.
    + split; [apply keeps_refl|]. intros _. by exists snap.
  - destruct (_ <? _); (split; [unfold keeps; cbn; set_solver|]); cbn.
    + by intros [_ ?]%app_nil.
    + by intros [_ ?]%app_nil.
Qed.

Lemma source_keeps (row : @SliceRow F) :
  keeps row (apply_source_health_snapshot row) /\
  (sl_missing_reasons (apply_source_health_snapshot row) = [] -> healthy_source row).
Proof.
  unfold apply_source_health_snapshot, healthy_source.
  destruct (sl_source_health_snapshot row) as [snap|].
  2: { split; [apply push_missing_keeps|]. cbn. by intros [_ ?]%app_nil. }
  destruct (String.eqb_spec (hs_connection_status snap) "connected") as [Ec|Ec]; cbn [negb orb].
  - destruct (is_healthy_level _) eqn:Eh; cbn [negb].
    + split; [apply keeps_refl|]. intros _. by exists snap.
    + split; [unfold keeps; cbn; set_solver|]. cbn. by intros [_ ?]%app_nil.
  - split; [unfold keeps; cbn; set_solver|]. cbn. by intros [_ ?]%app_nil.
Qed.

Lemma symbol_snapshots (row : @SliceRow F) :
  sl_symbol_health_snapshot (apply_symbol_health_snapshot row) = sl_symbol_health_snapshot row /\
  sl_source_health_snapshot (apply_symbol_health_snapshot row) = sl_source_health_snapshot row.
Proof.
  unfold apply_symbol_health_snapshot. destruct (sl_symbol_health_snapshot row) as [snap|] eqn:E; [|done].
  destruct (negb _), (_ <? _); by rewrite <- E.
Qed.

(** The snapshots of a row. *)
Definition snapshots (row : @SliceRow F) := (sl_symbol_health_snapshot row, sl_source_health_snapshot row).

Lemma source_snapshots (row : @SliceRow F) :
  snapshots (apply_source_health_snapshot row) = snapshots row.
Proof.
  unfold apply_source_health_snapshot. destruct (sl_source_health_snapshot row) as [snap|] eqn:E; [|done].
  by destruct (_ || _).
Qed.

Lemma gap_snapshots gaps range (row : @SliceRow F) :
  snapshots (apply_gap_alerts gaps range row) = snapshots row.
Proof.
  unfold apply_gap_alerts. generalize (List.filter (gap_applies_to_row row range) gaps). intros l.
  revert row. induction l as [|g l IH]; intros row; cbn [fold_left]; [done|]. by rewrite IH.
Qed.

Lemma order_keeps (row : @SliceRow F) :
  snapshots (normalize_event_order row) = snapshots row /\
  sl_missing_reasons (normalize_event_order row) = sl_missing_reasons row /\
  sl_source_role (normalize_event_order row) = sl_source_role row.
Proof.
  unfold normalize_event_order. cbv zeta. cbn [sl_trade_events set_sl_trade_events].
  destruct (last (sort_by (key_leb trade_key) _));
    cbn [sl_book_ticker_events set_sl_book_ticker_events set_sl_trade_events set_sl_last_trade_size
      set_sl_last_trade_price];
    destruct (last (sort_by (key_leb book_key) _)); split_and!; reflexivity.
Qed.

(** What the completeness reads. *)
Definition clean (row : @SliceRow F) : Prop :=
  sl_missing_reasons row = [] /\ no_events row = false /\
  sl_source_role row <> "reference"%string /\
  sl_quality_delayed row <= 0 /\ sl_quality_stale row <= 0 /\ sl_quality_gap row <= 0 /\
  sl_quality_invalid row <= 0.

Lemma completeness_clean (row : @SliceRow F) : completeness row = "complete"%string -> clean row.
Proof.
  unfold completeness, clean. destruct (existsb _ _); [done|]. destruct (no_events row); [done|].
  destruct (_ && _); [done|]. destruct (sl_missing_reasons row); [|done]. cbn [is_nil negb orb].
  destruct (Z.ltb_spec 0 (sl_quality_delayed row)); [done|].
  destruct (Z.ltb_spec 0 (sl_quality_stale row)); [done|].
  destruct (Z.ltb_spec 0 (sl_quality_gap row)); [done|].
  destruct (Z.ltb_spec 0 (sl_quality_invalid row)); [done|]. cbn [orb].
  by destruct (String.eqb_spec (sl_source_role row) "reference").
Qed.

Definition quotes (row : @SliceRow F) := (sl_best_bid row, sl_best_ask row).

Lemma set_completeness_step (row : @SliceRow F) :
  (clean row -> clean (set_completeness row)) /\ snapshots (set_completeness row) = snapshots row /\
  quotes (set_completeness row) = quotes row /\
  sl_slice_completeness (set_completeness row) = completeness row.
Proof. split_and!; [exact id|reflexivity..]. Qed.

Lemma set_mid_step (row : @SliceRow F) :
  sl_missing_reasons (set_mid row) = sl_missing_reasons row /\ snapshots (set_mid row) = snapshots row /\
  quotes (set_mid row) = quotes row.
Proof.
  unfold set_mid, quotes. destruct (sl_best_bid row) eqn:E1, (sl_best_ask row) eqn:E2;
    rewrite <- ?E1, <- ?E2; split_and!; reflexivity.
Qed.

Lemma dedup_lists_step (row : @SliceRow F) :
  (sl_missing_reasons (dedup_lists row) = [] -> sl_missing_reasons row = []) /\
  snapshots (dedup_lists row) = snapshots row /\ quotes (dedup_lists row) = quotes row.
Proof.
  split_and!; [|reflexivity..]. change (sort_dedup (sl_missing_reasons row) = [] -> sl_missing_reasons row = []).
  intros H. destruct (sl_missing_reasons row) as [|x l]; [done|]. exfalso.
  assert (Hx : x ∈ sort_dedup (x :: l)) by (apply sort_dedup_elem; by left).
  rewrite H in Hx. by apply elem_of_nil in Hx.
Qed.

Lemma mark_depth_top_step (row : @SliceRow F) : sl_missing_reasons (mark_depth_top row) = [] ->
  sl_missing_reasons row = [] /\ snapshots (mark_depth_top row) = snapshots row /\
  quotes (mark_depth_top row) <> (None, None).
Proof.
  unfold mark_depth_top, quotes. destruct (sl_best_bid row) eqn:E1, (sl_best_ask row) eqn:E2;
    rewrite ?E1, ?E2; try done. cbn. by intros [_ ?]%app_nil.
Qed.

Lemma mark_silence_step (row : @SliceRow F) : sl_missing_reasons (mark_silence row) = [] ->
  sl_missing_reasons row = [] /\ snapshots (mark_silence row) = snapshots row.
Proof. unfold mark_silence. destruct (no_events row); [|done]. cbn. by intros [_ ?]%app_nil. Qed.

(** A complete row is clean, quoted, and had no reason before. *)
Lemma finalize_complete (row : @SliceRow F) :
  sl_slice_completeness (finalize_slice row) = "complete"%string ->
  clean (finalize_slice row) /\ sl_missing_reasons row = [] /\
  snapshots (finalize_slice row) = snapshots row /\ quotes (finalize_slice row) <> (None, None).
Proof.
  unfold finalize_slice. destruct (order_keeps row) as (O1 & O2 & _). rewrite <- O1, <- O2.
  generalize (normalize_event_order row). intros r0.
  match goal with |- context [set_completeness ?r] =>
    destruct (set_completeness_step r) as (C1 & -> & -> & ->) end.
  intros Hc%completeness_clean. split; [by apply C1|]. destruct Hc as (Hm & _).
  match type of Hm with context [set_mid ?r] => destruct (set_mid_step r) as (M1 & -> & ->) end.
  rewrite M1 in Hm.
  match type of Hm with context [dedup_lists ?r] => destruct (dedup_lists_step r) as (D1 & -> & ->) end.
  apply D1 in Hm. apply mark_depth_top_step in Hm as (Hm & -> & Hq).
  apply mark_silence_step in Hm as (Hm & ->). done.
Qed.

Lemma healthy_source_ext (r s : @SliceRow F) :
  snapshots s = snapshots r -> healthy_source r -> healthy_source s.
Proof. unfold snapshots, healthy_source. intros [= _ E]. by rewrite E. Qed.

Lemma healthy_symbol_ext (r s : @SliceRow F) :
  frame s = frame r -> snapshots s = snapshots r -> healthy_symbol r -> healthy_symbol s.
Proof.
  unfold snapshots, healthy_symbol. intros Hf [= E1 E2] (snap & H1 & H2 & H3). exists snap.
  rewrite E1. split_and!; [done..|].
  destruct (frame_fields s (row_key r) (sl_window_end_ms r) Hf) as (_ & _ & -> & _). exact H3.
Qed.

Lemma finished_complete (a : Acc) row : sl_slice_completeness (finished a row) = "complete"%string ->
  clean (finished a row) /\ quotes (finished a row) <> (None, None) /\
  healthy_symbol (finished a row) /\ healthy_source (finished a row).
Proof.
  unfold finished, apply_health_and_gaps_to_row.
  set (r0 := set_sl_source_health_snapshot _ _). set (r1 := apply_symbol_health_snapshot r0).
  set (r2 := apply_source_health_snapshot r1). set (r3 := apply_gap_alerts _ _ r2).
  intros Hc. destruct (finalize_complete r3 Hc) as (Hclean & Hm3 & Hs & Hq). clear Hc.
  split; [done|]. split; [done|].
  assert (Hk3 : keeps r2 r3) by apply gaps_keep. pose proof (keeps_nil _ _ Hk3 Hm3) as Hm2.
  destruct (source_keeps r1) as [Hk2 Hsrc]. fold r2 in Hk2, Hsrc.
  pose proof (keeps_nil _ _ Hk2 Hm2) as Hm1. destruct (symbol_keeps r0) as [Hk1 Hsym].
  fold r1 in Hk1, Hsym. specialize (Hsym Hm1). specialize (Hsrc Hm2).
  assert (S3 : snapshots r3 = snapshots r1).
  { unfold r3. rewrite gap_snapshots. apply source_snapshots. }
  assert (S1 : snapshots r1 = snapshots r0).
  { unfold snapshots, r1. by destruct (symbol_snapshots r0) as [-> ->]. }
  assert (Hf : frame (finalize_slice r3) = frame r0).
  { destruct (finalize_frame r3) as [-> _]. destruct Hk3 as [-> _], Hk2 as [-> _]. apply Hk1. }
  split; [apply (healthy_symbol_ext r0); [done|by rewrite Hs, S3|done]|].
  apply (healthy_source_ext r1); [by rewrite Hs, S3|done].
Qed.

(** C33: a slice marked complete has no missing reason, at least one event, a quote,
    no delayed, stale, gap or invalid count, a role other than reference, the snapshot
    of a tradeable symbol that was alive since the window's start and that of a
    connected source at a healthy level. *)
Theorem complete_slices_are_clean (args : NormalizeArgs) (input_range scan_range : InputRange)
    (md : BuildInputMetadata) (rows : list InputRow) (s : @SliceRow F) :
  s ∈ br_slices (build_rows (V := V) args input_range scan_range md rows) ->
  sl_slice_completeness s = "complete"%string ->
  clean s /\ quotes s <> (None, None) /\ healthy_symbol s /\ healthy_source s.
Proof.
  unfold build_rows. rewrite finish_slices. intros (row & -> & _)%list_elem_of_fmap.
  apply finished_complete.
Qed.

(** ** What the sink wrote is accepted *)

Section written_rows.
Context {Row : Type}.
Context (col_str : string -> Row -> result StorageError (option string)).
Context (col_i64 : string -> Row -> result StorageError (option Z)).
Context (col_bool : string -> Row -> result StorageError (option bool)).

(** The columns of a row hold the fields of a record. *)
Record raw_columns (row : Row) (r : RawMarketEventRecord) : Prop := {
  wc_event_id : col_str "event_id" row = Ok (Some (rr_event_id r));
  wc_producer_run_id : col_str "producer_run_id" row = Ok (Some (rr_producer_run_id r));
  wc_venue : col_str "venue" row = Ok (Some (rr_venue r));
  wc_source_role : col_str "source_role" row = Ok (Some (rr_source_role r));
  wc_market_type : col_str "market_type" row = Ok (Some (rr_market_type r));
  wc_event_type : col_str "event_type" row = Ok (Some (rr_event_type r));
  wc_symbol_native : col_str "symbol_native" row = Ok (Some (rr_symbol_native r));
  wc_symbol_canonical : col_str "symbol_canonical" row = Ok (Some (rr_symbol_canonical r));
  wc_base_asset : col_str "base_asset" row = Ok (Some (rr_base_asset r));
  wc_quote_asset : col_str "quote_asset" row = Ok (Some (rr_quote_asset r));
  wc_payload_json : col_str "payload_json" row = Ok (Some (rr_payload_json r));
  wc_payload_sha256 : col_str "payload_sha256" row = Ok (Some (rr_payload_sha256 r));
  wc_schema_version : col_str "schema_version" row = Ok (Some (rr_schema_version r));
  wc_exchange_timestamp_ms : col_i64 "exchange_timestamp_ms" row = Ok (Some (rr_exchange_timestamp_ms r));
  wc_ingest_timestamp_ms : col_i64 "ingest_timestamp_ms" row = Ok (Some (rr_ingest_timestamp_ms r));
  wc_exchange_sequence : col_i64 "exchange_sequence" row = Ok (rr_exchange_sequence r);
}.
Record symbol_columns (row : Row) (r : SymbolHealthRecord) : Prop := {
  yc_venue : col_str "venue" row = Ok (Some (sr_venue r));
  yc_symbol_native : col_str "symbol_native" row = Ok (Some (sr_symbol_native r));
  yc_reason_codes : col_str "reason_codes" row = Ok (Some (sr_reason_codes r));
  yc_payload_sha256 : col_str "payload_sha256" row = Ok (Some (sr_payload_sha256 r));
  yc_schema_version : col_str "schema_version" row = Ok (Some (sr_schema_version r));
  yc_observed_at_ms : col_i64 "observed_at_ms" row = Ok (Some (sr_observed_at_ms r));
  yc_last_event_time_ms : col_i64 "last_event_time_ms" row = Ok (Some (sr_last_event_time_ms r));
  yc_latency_ms : col_i64 "latency_ms" row = Ok (Some (sr_latency_ms r));
  yc_is_tradeable : col_bool "is_tradeable" row = Ok (Some (sr_is_tradeable r));
}.
Record source_columns (row : Row) (r : SourceHealthRecord) : Prop := {
  hc_venue : col_str "venue" row = Ok (Some (hr_venue r));
  hc_connection_status : col_str "connection_status" row = Ok (Some (hr_connection_status r));
  hc_health_level : col_str "health_level" row = Ok (Some (hr_health_level r));
  hc_payload_json : col_str "payload_json" row = Ok (Some (hr_payload_json r));
  hc_payload_sha256 : col_str "payload_sha256" row = Ok (Some (hr_payload_sha256 r));
  hc_schema_version : col_str "schema_version" row = Ok (Some (hr_schema_version r));
  hc_observed_at_ms : col_i64 "observed_at_ms" row = Ok (Some (hr_observed_at_ms r));
  hc_heartbeat_delay_ms : col_i64 "heartbeat_delay_ms" row = Ok (Some (hr_heartbeat_delay_ms r));
  hc_stream_lag_ms : col_i64 "stream_lag_ms" row = Ok (Some (hr_stream_lag_ms r));
  hc_recent_gap_count : col_i64 "recent_gap_count" row = Ok (Some (hr_recent_gap_count r));
  hc_book_rebuild_count : col_i64 "book_rebuild_count" row = Ok (Some (hr_book_rebuild_count r));
}.
Record gap_columns (row : Row) (r : GapAlertRecord) : Prop := {
  gc_venue : col_str "venue" row = Ok (Some (gr_venue r));
  gc_symbol_native : col_str "symbol_native" row = Ok (Some (gr_symbol_native r));
  gc_gap_type : col_str "gap_type" row = Ok (Some (gr_gap_type r));
  gc_payload_json : col_str "payload_json" row = Ok (Some (gr_payload_json r));
  gc_payload_sha256 : col_str "payload_sha256" row = Ok (Some (gr_payload_sha256 r));
  gc_schema_version : col_str "schema_version" row = Ok (Some (gr_schema_version r));
  gc_detected_at_ms : col_i64 "detected_at_ms" row = Ok (Some (gr_detected_at_ms r));
}.

(** A row of a family that holds a record the sink built from a draft. *)
Inductive sink_row : InputObjectFamily -> Row -> Prop :=
  | sr_raw row d run i : raw_columns row (raw_from_draft d run i) -> sink_row RawMarketEvent row
  | sr_symbol row d run i : symbol_columns row (symbol_health_from_draft d run i) -> sink_row SymbolHealth row
  | sr_source row d run i : source_columns row (health_from_draft d run i) -> sink_row SourceHealth row
  | sr_gap row d run i : gap_columns row (gap_from_draft d run i) -> sink_row GapAlert row.

Lemma sink_row_ingested args family (a : Acc) row : sink_row family row ->
  exists r, append_accumulator_row (V := V) col_str col_i64 col_bool args family a row
    = Ok (ingest_row (V := V) args a r) /\ mismatched r = false.
Proof.
  destruct 1 as [row d run i [] |row d run i []|row d run i []|row d run i []];
    unfold append_accumulator_row, raw_event_from_batch, symbol_health_from_batch,
      source_health_from_batch, gap_alert_from_batch, string_value, int64_value, int64_optional, bool_value;
    repeat match goal with H : _ = Ok _ |- _ => rewrite H; clear H end;
    cbn [mbind result_bind default from_option id].
  - eexists (RawRow _). split; [reflexivity|]. cbn. by rewrite String.eqb_refl.
  - eexists (SymbolRow _). split; [reflexivity|]. cbn. by rewrite String.eqb_refl.
  - eexists (SourceRow _). split; [reflexivity|]. cbn. by rewrite String.eqb_refl.
  - eexists (GapRow _). split; [reflexivity|]. cbn. by rewrite String.eqb_refl.
Qed.

(** A file of the sink: the key names the family of its rows. *)
Definition sink_file (d : InputEntry * result StorageError (list Row)) : Prop :=
  exists family l, family_from_key (ie_key d.1) = Some family /\ d.2 = Ok l /\ Forall (sink_row family) l.

Lemma sink_rows_ingested args family l (a : Acc) : Forall (sink_row family) l ->
  exists rows, try_fold (append_accumulator_row (V := V) col_str col_i64 col_bool args family) a l
    = Ok (fold_left (ingest_row (V := V) args) rows a) /\ Forall (fun r => mismatched r = false) rows.
Proof.
  intros Hl. revert a. induction Hl as [|row l Hrow Hl IH]; intros a; cbn [try_fold].
  - by exists [].
  - destruct (sink_row_ingested args family a row Hrow) as (r & -> & Hr). cbn [mbind result_bind].
    destruct (IH (ingest_row (V := V) args a r)) as (rows & -> & Hrows).
    exists (r :: rows). split; [done|by constructor].
Qed.

Lemma sink_files_ingested args files (a : Acc) : Forall sink_file files ->
  exists rows, try_fold (fun a (d : InputEntry * _) =>
      append_batches_to_accumulator (V := V) col_str col_i64 col_bool args (ie_key d.1) d.2 a) a files
    = Ok (fold_left (ingest_row (V := V) args) rows a) /\ Forall (fun r => mismatched r = false) rows.
Proof.
  intros Hl. revert a. induction Hl as [|d files (family & l & Hf & Hd & Hrows) Hl IH]; intros a;
    cbn [try_fold].
  { by exists []. }
  assert (E : append_batches_to_accumulator (V := V) col_str col_i64 col_bool args (ie_key d.1) d.2 a
    = try_fold (append_accumulator_row (V := V) col_str col_i64 col_bool args family) a l).
  { unfold append_batches_to_accumulator. rewrite Hd. cbn [mbind result_bind]. by rewrite Hf. }
  rewrite E. destruct (sink_rows_ingested args family l a Hrows) as (r1 & -> & H1). cbn [mbind result_bind].
  destruct (IH (fold_left (ingest_row (V := V) args) r1 a)) as (r2 & -> & H2).
  exists (r1 ++ r2). rewrite fold_left_app. split; [done|]. by apply Forall_app.
Qed.

(** reading files whose rows are records of the L0 sink never fails and never
    blocks the run: no row's digest is found wrong, whatever the order of the
    downloads, so the status is success or empty. *)
Theorem sink_files_never_block (args : NormalizeArgs) (input_range scan_range : InputRange) (n : nat)
    (run_mode : RunMode) (entries : list InputEntry)
    (downloaded : list (InputEntry * result StorageError (list Row))) :
  windowed args input_range n -> Forall sink_file downloaded ->
  exists b, fold_range (V := V) col_str col_i64 col_bool args input_range scan_range run_mode entries
      downloaded = Ok b /\
    br_payload_hash_mismatch_count b = 0 /\ (br_status b = "success" \/ br_status b = "empty")%string.
Proof.
  intros [H1 H2 H3 H4 H5] Hfiles. unfold fold_range.
  destruct (sink_files_ingested args downloaded
    (accumulator_new args input_range scan_range (metadata_from_entries entries run_mode)) Hfiles)
    as (rows & -> & Hrows). cbn [mbind result_bind]. eexists. split; [done|].
  destruct (run_stats args input_range scan_range H1 H2 H3 n H4 H5 rows
    (metadata_from_entries entries run_mode)) as [_ Hs].
  assert (Hm : count mismatched rows = 0).
  { unfold count. clear -Hrows. induction Hrows as [|r rows Hr _ IH]; [done|]. cbn. by rewrite Hr. }
  set (a := fold_left _ rows _) in *. rewrite Hm in Hs. rewrite finish_status, Hs. split.
  - unfold finish. rewrite Hs. cbn [st_payload_hash_mismatch_count]. destruct (0 <? _); [done|].
    by destruct (is_nil _).
  - cbn [st_payload_hash_mismatch_count]. change (0 <? wrap U64 0) with false.
    destruct (is_nil _); [by right|by left].
Qed.
End written_rows.
End facts.

(** ** Concrete runs *)

#[local] Instance sample_lib : StorageLib := {|
  sha256_hex := fun s => s;
  default_hash := fun s => Z.of_nat (String.length s);
  utc_date_hour := fun t => Some ("2023-11-14"%string, t / HOUR_MS mod 24);
|}.

(** Prices are integers. *)
#[local] Instance sample_float : Float Z := {|
  f_zero := 0; f_two := 2; f_ten_thousand := 10000;
  f_add := Z.add; f_sub := Z.sub; f_mul := Z.mul; f_div := Z.div;
  f_leb := Z.leb; f_ltb := Z.ltb; f_is_finite := fun _ => true; f_parse := parse_int I64;
|}.

(** A payload is a list of assignments. *)
#[local] Instance sample_json : PayloadJson (list (string * string)) Z := {|
  pj_parse := fun s => Some (omap (split_once "=") (split_char ";" s));
  pj_get := fun k v => option_map (fun x => [(""%string, x)]) (bget k (bcollect v));
  pj_as_array := fun _ => None;
  pj_as_bool := fun _ => None;
  pj_as_str := fun v => match v with [(_, s)] => Some s | _ => None end;
  pj_number := fun _ => None;
|}.

Definition sample_draft (event_type : string) (at_ms : Z) (payload : string) : RawMarketEventDraft :=
  mkRawDraft event_type "binance" "execution" "spot" "BTCUSDT" "BTC/USDT" "BTC" "USDT" at_ms (at_ms + 5)
    "1" "" (Some 1) None None false "REALTIME" "realtime" payload.

Definition sample_event (i : Z) (event_type : string) (at_ms : Z) (payload : string) : RawInputEvent :=
  let r := raw_from_draft (sample_draft event_type at_ms payload) "run-1" i in
  mkRawInput (rr_event_id r) (rr_producer_run_id r) (rr_venue r) (rr_source_role r) (rr_market_type r)
    (rr_event_type r) (rr_symbol_native r) (rr_symbol_canonical r) (rr_base_asset r) (rr_quote_asset r)
    (rr_exchange_timestamp_ms r) (rr_ingest_timestamp_ms r) (rr_exchange_sequence r)
    (rr_payload_json r) (rr_payload_sha256 r) (rr_schema_version r).

Definition sample_trade : RawInputEvent := sample_event 1 "trade" 1200 "p=50000;q=2".
Definition sample_book : RawInputEvent := sample_event 2 "book_ticker" 1300 "b=49999;B=1;a=50001;A=3".
Definition bad_trade : RawInputEvent := sample_event 3 "trade" 700 "p=0;q=2".
Definition sample_symbol : SymbolHealthInput :=
  mkSymInput "binance" "BTCUSDT" 1500 1400 20 true "" "binance:BTCUSDT:1500:" "symbol_health_v1".
Definition sample_source : SourceHealthInput :=
  mkSrcInput "binance" 1500 "connected" 5 5 0 0 "ok" "{}" "{}" "source_health_v2".
Definition sample_rows : list InputRow :=
  [RawRow sample_trade; RawRow sample_book; RawRow sample_trade; RawRow bad_trade;
   SymbolRow sample_symbol; SourceRow sample_source].
Definition sample_args : NormalizeArgs := set_na_projection_lookback_ms 2000 with_defaults.
Definition sample_input : InputRange := mkRange 0 2000.
Definition sample_scan : InputRange := mkRange 0 302000.
Definition sample_metadata : BuildInputMetadata := mkMetadata "LIVE" false 1 0 [].

Abbreviation sample_result :=
  (build_rows (V := list (string * string)) (F := Z) sample_args sample_input sample_scan
     sample_metadata sample_rows).

Lemma sample_windowed : windowed sample_args sample_input 2.
Proof. constructor; cbn; try lia. by exists 0. Qed.

Lemma slices_account_for_events_witness :
  exists s, s ∈ br_slices sample_result /\ slice_of sample_book s /\
    ri_event_id sample_book ∈ sl_parent_event_ids s.
Proof.
  destruct (slices_account_for_events (V := list (string * string)) (F := Z) sample_args sample_input
    sample_scan 2 sample_metadata sample_rows sample_windowed) as [Ha Hb].
  destruct (Ha sample_book) as (s & Hs & Hof).
  - split; [right; left|by vm_compute].
  - exists s. split; [exact Hs|]. split; [exact Hof|]. apply (Hb s); [exact Hs|].
    exists sample_book. split; [split; [right; left|by vm_compute]|]. split; [exact Hof|].
    by split; vm_compute.
Defined.

Lemma run_counts_rows_witness :
  br_input_record_count sample_result = 6 /\ br_duplicate_event_count sample_result = 1 /\
  br_invalid_event_count sample_result = 1 /\ br_payload_hash_mismatch_count sample_result = 0.
Proof.
  destruct (run_counts_rows (V := list (string * string)) (F := Z) sample_args sample_input
    sample_scan 2 sample_metadata sample_rows sample_windowed) as (-> & -> & -> & ->).
  by vm_compute.
Defined.

Lemma run_status_decided_witness : br_status sample_result = "success"%string.
Proof.
  rewrite (run_status_decided (V := list (string * string)) (F := Z) sample_args sample_input
    sample_scan 2 sample_metadata sample_rows sample_windowed); [|by vm_compute].
  by vm_compute.
Defined.

Lemma sample_last_complete :
  sl_slice_completeness <$> last (br_slices sample_result) = Some "complete"%string.
Proof. by vm_compute. Qed.

Lemma last_fmap_inv {A B} (f : A -> B) l y : f <$> last l = Some y ->
  exists x, last l = Some x /\ x ∈ l /\ f x = y.
Proof.
  destruct (last l) as [x|] eqn:El; [|done]. intros [= <-]. exists x.
  split_and!; [done|by apply last_Some_elem_of|done].
Qed.

Lemma complete_slices_are_clean_witness :
  exists s, last (br_slices sample_result) = Some s /\ clean s /\ healthy_source s.
Proof.
  destruct (last_fmap_inv _ _ _ sample_last_complete) as (s & Hl & Hs & Hc). exists s.
  destruct (complete_slices_are_clean (V := list (string * string)) (F := Z) sample_args sample_input
    sample_scan sample_metadata sample_rows s Hs Hc) as (H1 & _ & _ & H2).
  exact (conj Hl (conj H1 H2)).
Defined.

(** A row of an Arrow batch is the list of its columns. *)
Inductive sample_cell := CStr (s : string) | CInt (z : Z) | CBool (b : bool).
Abbreviation sample_batch_row := (list (string * sample_cell)).
Definition cell_str (name : string) (row : sample_batch_row) : result StorageError (option string) :=
  match bget name row with
  | Some (CStr s) => Ok (Some s) | None => Ok None | _ => Err (SInvalidConfig "column type") end.
Definition cell_i64 (name : string) (row : sample_batch_row) : result StorageError (option Z) :=
  match bget name row with
  | Some (CInt z) => Ok (Some z) | None => Ok None | _ => Err (SInvalidConfig "column type") end.
Definition cell_bool (name : string) (row : sample_batch_row) : result StorageError (option bool) :=
  match bget name row with
  | Some (CBool b) => Ok (Some b) | None => Ok None | _ => Err (SInvalidConfig "column type") end.

Definition sample_gap_draft : GapAlertDraft :=
  mkGapDraft "binance" "reference" "BTCUSDT" "upbit_error" 1500 (Some 5) None "refetch" "pending" "{}".
Definition sample_gap_row : sample_batch_row :=
  let r := gap_from_draft sample_gap_draft "run-1" 1 in
  bcollect [("venue", CStr (gr_venue r)); ("symbol_native", CStr (gr_symbol_native r));
    ("gap_type", CStr (gr_gap_type r)); ("detected_at_ms", CInt (gr_detected_at_ms r));
    ("payload_json", CStr (gr_payload_json r)); ("payload_sha256", CStr (gr_payload_sha256 r));
    ("schema_version", CStr (gr_schema_version r))]%string.

Lemma sink_files_never_block_witness :
  exists b, fold_range (V := list (string * string)) (F := Z) cell_str cell_i64 cell_bool sample_args
      sample_input sample_scan Live [mkEntry "gap_alert/a.parquet" None S3]
      [(mkEntry "gap_alert/a.parquet" None S3, Ok [sample_gap_row])] = Ok b /\
    br_payload_hash_mismatch_count b = 0 /\ (br_status b = "success" \/ br_status b = "empty")%string.
Proof.
  apply (sink_files_never_block (V := list (string * string)) (F := Z) cell_str cell_i64 cell_bool
    sample_args sample_input sample_scan 2).
  - exact sample_windowed.
  - constructor; [|constructor]. exists GapAlert, [sample_gap_row]. split_and!; [done..|].
    constructor; [|constructor]. apply (sr_gap _ _ _ _ sample_gap_draft "run-1" 1).
    by constructor.
Defined.
