(* ===== verification/L1Order.v ===== *)
(** * L1Order: the order of the downloads does not matter

    The inputs of a run are downloaded sixteen at a time and folded in the order in which
    the downloads finish ([normalize/read/fold.rs]).  What an event adds to its slice is a
    [Delta]; deltas add up, and the finished slice does not see in which order. *)
From Stdlib Require Import Sorting.Sorted.
From S2P Require Import Prelude Text OrderedMap Records NormalizeArgs L1Window L1Inputs L1Build L1BuildFacts.
Open Scope Z_scope.
Open Scope list_scope.

Section order.
Context {L : StorageLib} {F V : Type} {FO : Float F} {J : PayloadJson V F}.

Abbreviation Slice := (@SliceRow F).
Abbreviation Acc := (@BuildAccumulator F).
Abbreviation mok := (bmap_ok (fun _ => True)).
Abbreviation length := Datatypes.length.

(** ** What an event adds *)

Record Delta := mkDelta {
  d_missing : list string;
  d_ok : nat;
  d_delayed : nat;
  d_invalid : nat;
  d_trades : list (@TradeNormalized F);
  d_books : list (@BookTickerNormalized F);
  d_depth : list CompactEventRef;
  d_tickers : list CompactEventRef;
  d_parents : list (string * string);
}.

Definition no_delta : Delta := mkDelta [] 0 0 0 [] [] [] [] [].
Definition delta_app (a b : Delta) : Delta :=
  mkDelta (d_missing a ++ d_missing b) (d_ok a + d_ok b) (d_delayed a + d_delayed b)
    (d_invalid a + d_invalid b) (d_trades a ++ d_trades b) (d_books a ++ d_books b)
    (d_depth a ++ d_depth b) (d_tickers a ++ d_tickers b) (d_parents a ++ d_parents b).

(** The last element's [f], or what was there. *)
Definition last_or {A B} (f : A -> B) (l : list A) (o : option B) : option B :=
  match last l with Some a => Some (f a) | None => o end.

Definition add_delta (d : Delta) (r : Slice) : Slice :=
  mkSlice (sl_slice_id r) (sl_venue r) (sl_source_role r) (sl_symbol_native r) (sl_symbol_canonical r)
    (sl_base_asset r) (sl_quote_asset r) (sl_market_type r) (sl_window_ms r) (sl_window_start_ms r)
    (sl_window_end_ms r) (sl_slice_completeness r) (sl_missing_reasons r ++ d_missing d)
    (Nat.iter (d_ok d) incr_i64 (sl_quality_ok r))
    (Nat.iter (d_delayed d) incr_i64 (sl_quality_delayed r)) (sl_quality_stale r) (sl_quality_gap r)
    (Nat.iter (d_invalid d) incr_i64 (sl_quality_invalid r))
    (Nat.iter (length (d_trades d)) incr_i64 (sl_trade_count r))
    (fold_left f_add (map tn_quantity (d_trades d)) (sl_trade_volume r))
    (last_or tn_price (d_trades d) (sl_last_trade_price r))
    (last_or tn_quantity (d_trades d) (sl_last_trade_size r))
    (last_or bn_best_bid (d_books d) (sl_best_bid r)) (last_or bn_best_ask (d_books d) (sl_best_ask r))
    (sl_mid_price r) (sl_spread_bps r) (Nat.iter (length (d_books d)) incr_i64 (sl_book_ticker_count r))
    (Nat.iter (length (d_depth d)) incr_i64 (sl_depth_event_count r)) (sl_depth_book_rebuilt r)
    (sl_trade_events r ++ d_trades d) (sl_book_ticker_events r ++ d_books d)
    (sl_depth_events r ++ d_depth d) (sl_ticker_events r ++ d_tickers d) (sl_symbol_health_snapshot r)
    (sl_source_health_snapshot r) (sl_parent_event_ids r ++ map fst (d_parents d))
    (sl_parent_run_ids r ++ map snd (d_parents d)).

(** Late or in time. *)
Definition timely (args : NormalizeArgs) (e : RawInputEvent) (d : Delta) : Delta :=
  if na_max_latency_ms args <? saturate I64 (ri_ingest_timestamp_ms e - ri_exchange_timestamp_ms e)
  then mkDelta (d_missing d) (d_ok d) 1 (d_invalid d) (d_trades d) (d_books d) (d_depth d) (d_tickers d) (d_parents d)
  else mkDelta (d_missing d) 1 (d_delayed d) (d_invalid d) (d_trades d) (d_books d) (d_depth d) (d_tickers d) (d_parents d).

Definition parent (e : RawInputEvent) : string * string := (ri_event_id e, ri_producer_run_id e).
Definition invalid_delta (reason : string) : Delta := mkDelta [reason] 0 0 1 [] [] [] [] [].

Definition book_delta (args : NormalizeArgs) (e : RawInputEvent) : Delta :=
  delta_app
    (match parse_book_ticker (V := V) e with
     | Some book => timely args e (mkDelta [] 0 0 0 [] [book] [] [] [parent e])
     | None => if String.eqb (ri_event_type e) "book_ticker" then invalid_delta "parse_book_ticker_failed"
               else no_delta
     end)
    (if String.eqb (ri_event_type e) "depth_snapshot"
     then mkDelta [] 0 0 0 [] [] [compact_ref e] [] [parent e] else no_delta).

Definition delta_of (args : NormalizeArgs) (e : RawInputEvent) : Delta :=
  let type := ri_event_type e in
  if String.eqb type "trade" then
    match parse_trade (V := V) e with
    | Some trade => timely args e (mkDelta [] 0 0 0 [trade] [] [] [] [parent e])
    | None => invalid_delta "parse_trade_failed"
    end
  else if String.eqb type "book_ticker" || String.eqb type "depth_snapshot" then book_delta args e
  else if String.eqb type "depth_delta" then timely args e (mkDelta [] 0 0 0 [] [] [compact_ref e] [] [parent e])
  else if String.eqb type "ticker" then timely args e (mkDelta [] 0 0 0 [] [] [] [compact_ref e] [parent e])
  else invalid_delta "unknown_event_type".

Lemma add_no_delta r : add_delta no_delta r = r.
Proof. destruct r. unfold add_delta. cbn. by rewrite !app_nil_r. Qed.

Lemma iter_add {A} (f : A -> A) n m x : Nat.iter m f (Nat.iter n f x) = Nat.iter (n + m) f x.
Proof. induction m as [|m IH]; [by rewrite Nat.add_0_r|]. rewrite Nat.add_succ_r. cbn. by f_equal. Qed.

Lemma last_or_app {A B} (f : A -> B) l k o : last_or f k (last_or f l o) = last_or f (l ++ k) o.
Proof. unfold last_or. rewrite last_app. by destruct (last k). Qed.

Lemma add_delta_app a b r : add_delta b (add_delta a r) = add_delta (delta_app a b) r.
Proof.
  unfold add_delta, delta_app. cbn.
  by rewrite !iter_add, !last_or_app, !length_app, !map_app, !fold_left_app, <- !app_assoc.
Qed.

(** An event is applied by adding its delta. *)
Lemma apply_to_row_delta args e (r : Slice) stats :
  (apply_to_row (V := V) args e r stats).1 = add_delta (delta_of args e) r.
Proof.
  unfold apply_to_row, delta_of, timely. destruct (String.eqb (ri_event_type e) "trade").
  { unfold apply_trade_event, mark_event_quality. destruct (parse_trade e) as [t|]; [|].
    all: destruct r; try destruct (_ <? _); unfold add_delta; cbn; by rewrite ?app_nil_r. }
  destruct (String.eqb (ri_event_type e) "book_ticker" || String.eqb (ri_event_type e) "depth_snapshot").
  { unfold apply_book_event, book_delta, mark_event_quality, timely.
    destruct (parse_book_ticker e) as [t|], (String.eqb (ri_event_type e) "book_ticker"),
      (String.eqb (ri_event_type e) "depth_snapshot"); try destruct (_ <? _);
      destruct r; unfold add_delta; cbn; rewrite ?app_nil_r;
      repeat match goal with |- context [?l ++ [?a; ?b]] =>
        change (l ++ [a; b]) with (l ++ ([a] ++ [b])); rewrite (app_assoc l [a] [b]) end; done. }
  unfold apply_compact_depth_event, apply_ticker_event, mark_event_quality.
  destruct (String.eqb (ri_event_type e) "depth_delta"), (String.eqb (ri_event_type e) "ticker"); try destruct (_ <? _);
    destruct r; unfold add_delta; cbn; by rewrite ?app_nil_r.
Qed.

(** The events of a slice, one after the other. *)
Definition deltas (args : NormalizeArgs) (es : list RawInputEvent) : Delta :=
  fold_right (fun e d => delta_app (delta_of args e) d) no_delta es.

Definition apply_row (args : NormalizeArgs) (r : Slice) (e : RawInputEvent) : Slice :=
  (apply_to_row (V := V) args e r (mkStats 0 0 0 0)).1.

Lemma apply_rows_delta args es (r : Slice) : fold_left (apply_row args) es r = add_delta (deltas args es) r.
Proof.
  revert r. induction es as [|e es IH]; intros r; cbn; [by rewrite add_no_delta|].
  rewrite IH. unfold apply_row. by rewrite apply_to_row_delta, add_delta_app.
Qed.

(** ** Deltas in another order *)

Record delta_perm (a b : Delta) : Prop := {
  dp_missing : d_missing a ≡ₚ d_missing b;
  dp_ok : d_ok a = d_ok b;
  dp_delayed : d_delayed a = d_delayed b;
  dp_invalid : d_invalid a = d_invalid b;
  dp_trades : d_trades a ≡ₚ d_trades b;
  dp_books : d_books a ≡ₚ d_books b;
  dp_depth : d_depth a ≡ₚ d_depth b;
  dp_tickers : d_tickers a ≡ₚ d_tickers b;
  dp_parents : d_parents a ≡ₚ d_parents b;
}.

#[export] Instance delta_perm_equivalence : Equivalence delta_perm.
Proof.
  split.
  - by split.
  - intros a b []. by split.
  - intros a b c [] []. split; by etransitivity.
Qed.

#[export] Instance delta_app_proper : Proper (delta_perm ==> delta_perm ==> delta_perm) delta_app.
Proof. intros a a' [] b b' []. split; cbn; try (by f_equiv); by apply Permutation_app. Qed.

Lemma delta_app_comm a b : delta_perm (delta_app a b) (delta_app b a).
Proof. split; cbn; first [apply Permutation_app_comm|apply Nat.add_comm]. Qed.

Lemma delta_app_assoc a b c : delta_app a (delta_app b c) = delta_app (delta_app a b) c.
Proof. unfold delta_app. cbn. by rewrite !app_assoc, !Nat.add_assoc. Qed.

Lemma deltas_perm args es es' : es ≡ₚ es' -> delta_perm (deltas args es) (deltas args es').
Proof.
  induction 1 as [|e es es' _ IH|e e' es|es es' es'' _ IH _ IH']; cbn.
  - done.
  - by apply delta_app_proper.
  - rewrite !delta_app_assoc. apply delta_app_proper; [apply delta_app_comm|done].
  - by etransitivity.
Qed.

(** ** Rows that differ in the order of what they collected *)

(** The row without what depends on the order until the end: the reasons, the parents
    and the volume, whose floating-point sum is taken in the order of arrival. *)
Definition fixed (r : Slice) : Slice :=
  mkSlice (sl_slice_id r) (sl_venue r) (sl_source_role r) (sl_symbol_native r) (sl_symbol_canonical r)
    (sl_base_asset r) (sl_quote_asset r) (sl_market_type r) (sl_window_ms r) (sl_window_start_ms r)
    (sl_window_end_ms r) (sl_slice_completeness r) [] (sl_quality_ok r) (sl_quality_delayed r)
    (sl_quality_stale r) (sl_quality_gap r) (sl_quality_invalid r) (sl_trade_count r) f_zero
    (sl_last_trade_price r) (sl_last_trade_size r) (sl_best_bid r) (sl_best_ask r) (sl_mid_price r)
    (sl_spread_bps r) (sl_book_ticker_count r) (sl_depth_event_count r) (sl_depth_book_rebuilt r)
    (sl_trade_events r) (sl_book_ticker_events r) (sl_depth_events r) (sl_ticker_events r)
    (sl_symbol_health_snapshot r) (sl_source_health_snapshot r) [] [].

(** The row also without the events and the quotes taken from the last of them. *)
Definition bare (r : Slice) : Slice :=
  mkSlice (sl_slice_id r) (sl_venue r) (sl_source_role r) (sl_symbol_native r) (sl_symbol_canonical r)
    (sl_base_asset r) (sl_quote_asset r) (sl_market_type r) (sl_window_ms r) (sl_window_start_ms r)
    (sl_window_end_ms r) (sl_slice_completeness r) [] (sl_quality_ok r) (sl_quality_delayed r)
    (sl_quality_stale r) (sl_quality_gap r) (sl_quality_invalid r) (sl_trade_count r) f_zero None None
    None None (sl_mid_price r) (sl_spread_bps r) (sl_book_ticker_count r) (sl_depth_event_count r)
    (sl_depth_book_rebuilt r) [] [] [] [] (sl_symbol_health_snapshot r) (sl_source_health_snapshot r) []
    [].

(** Up to the volume. *)
Definition settled (r : Slice) : Slice := set_sl_trade_volume f_zero r.

Record collected (r r' : Slice) : Prop := {
  co_missing : sl_missing_reasons r ≡ₚ sl_missing_reasons r';
  co_ids : sl_parent_event_ids r ≡ₚ sl_parent_event_ids r';
  co_runs : sl_parent_run_ids r ≡ₚ sl_parent_run_ids r';
}.

(** Before the events are sorted. *)
Record same_row (r r' : Slice) : Prop := {
  sr_bare : bare r = bare r';
  sr_collected : collected r r';
  sr_trades : sl_trade_events r ≡ₚ sl_trade_events r';
  sr_books : sl_book_ticker_events r ≡ₚ sl_book_ticker_events r';
  sr_depth : sl_depth_events r ≡ₚ sl_depth_events r';
  sr_tickers : sl_ticker_events r ≡ₚ sl_ticker_events r';
  sr_prices : sl_trade_events r = [] ->
    sl_last_trade_price r = sl_last_trade_price r' /\ sl_last_trade_size r = sl_last_trade_size r';
  sr_quotes : sl_book_ticker_events r = [] ->
    sl_best_bid r = sl_best_bid r' /\ sl_best_ask r = sl_best_ask r';
}.

(** After. *)
Record same_sorted (r r' : Slice) : Prop := {
  ss_fixed : fixed r = fixed r';
  ss_collected : collected r r';
}.

Lemma last_or_nil {A B} (f : A -> B) o : last_or f [] o = o.
Proof. done. Qed.

(** Adding the same events in another order. *)
Lemma add_delta_same a b (r : Slice) : delta_perm a b -> sl_trade_events r = [] -> sl_book_ticker_events r = [] ->
  same_row (add_delta a r) (add_delta b r).
Proof.
  intros [] Ht Hb. split; cbn.
  - unfold bare, fixed. cbn. rewrite dp_ok0, dp_delayed0, dp_invalid0, (Permutation_length dp_trades0),
      (Permutation_length dp_books0), (Permutation_length dp_depth0). done.
  - split; cbn; [by rewrite dp_missing0|by rewrite dp_parents0|by rewrite dp_parents0].
  - by rewrite dp_trades0.
  - by rewrite dp_books0.
  - by rewrite dp_depth0.
  - by rewrite dp_tickers0.
  - rewrite Ht. cbn. intros Hn. rewrite Hn in dp_trades0 |- *. by apply Permutation_nil_l in dp_trades0 as <-.
  - rewrite Hb. cbn. intros Hn. rewrite Hn in dp_books0 |- *. by apply Permutation_nil_l in dp_books0 as <-.
Qed.

(** ** Health and gaps *)

(** What the health and gap steps look at and change. *)
Lemma push_missing_same reason r r' : same_row r r' -> same_row (push_missing reason r) (push_missing reason r').
Proof.
  intros [H1 [C1 C2 C3] H3 H4 H5 H6 H7 H8]. split; [exact H1| |exact H3|exact H4|exact H5|exact H6|exact H7|exact H8].
  split; [|exact C2|exact C3]. cbn. by rewrite C1.
Qed.

Lemma bare_fields r r' : bare r = bare r' ->
  sl_venue r = sl_venue r' /\ sl_symbol_native r = sl_symbol_native r' /\
  sl_window_start_ms r = sl_window_start_ms r' /\ sl_window_end_ms r = sl_window_end_ms r' /\
  sl_quality_stale r = sl_quality_stale r' /\ sl_quality_gap r = sl_quality_gap r' /\
  sl_symbol_health_snapshot r = sl_symbol_health_snapshot r' /\
  sl_source_health_snapshot r = sl_source_health_snapshot r'.
Proof.
  intros H. pose proof (f_equal sl_venue H). pose proof (f_equal sl_symbol_native H).
  pose proof (f_equal sl_window_start_ms H). pose proof (f_equal sl_window_end_ms H).
  pose proof (f_equal sl_quality_stale H). pose proof (f_equal sl_quality_gap H).
  pose proof (f_equal sl_symbol_health_snapshot H). pose proof (f_equal sl_source_health_snapshot H).
  done.
Qed.

(** A setter of a field that stays in the bare row. *)
Lemma on_bare (f : Slice -> Slice) r r' : same_row r r' ->
  (forall r r', bare r = bare r' -> bare (f r) = bare (f r')) ->
  (forall r, (sl_missing_reasons (f r), sl_parent_event_ids (f r), sl_parent_run_ids (f r), sl_trade_events (f r),
     sl_book_ticker_events (f r), sl_depth_events (f r), sl_ticker_events (f r), sl_last_trade_price (f r),
     sl_last_trade_size (f r), sl_best_bid (f r), sl_best_ask (f r)) =
    (sl_missing_reasons r, sl_parent_event_ids r, sl_parent_run_ids r, sl_trade_events r,
     sl_book_ticker_events r, sl_depth_events r, sl_ticker_events r, sl_last_trade_price r,
     sl_last_trade_size r, sl_best_bid r, sl_best_ask r)) -> same_row (f r) (f r').
Proof.
  intros [H1 [C1 C2 C3] H3 H4 H5 H6 H7 H8] Hbare Hf.
  injection (Hf r) as E1 E2 E3 E4 E5 E6 E7 E8 E9 E10 E11.
  injection (Hf r') as G1 G2 G3 G4 G5 G6 G7 G8 G9 G10 G11.
  split; [by apply Hbare|split| | | | | |]; by rewrite ?E1, ?E2, ?E3, ?E4, ?E5, ?E6, ?E7, ?E8, ?E9, ?E10, ?E11,
    ?G1, ?G2, ?G3, ?G4, ?G5, ?G6, ?G7, ?G8, ?G9, ?G10, ?G11.
Qed.

(** [bare] of a row with another field is the bare row with that field. *)
Ltac keep_bare := let r := fresh in let r' := fresh in let H := fresh in
  intros r r' H; destruct r, r'; unfold bare in H |- *; cbn in H |- *; injection H; intros; subst; done.
Ltac set_bare := apply on_bare; [done|keep_bare|done].

Lemma incr_stale_same r r' : same_row r r' ->
  same_row (set_sl_quality_stale (incr_i64 (sl_quality_stale r)) r)
    (set_sl_quality_stale (incr_i64 (sl_quality_stale r')) r').
Proof. intros H. apply (on_bare (fun r => set_sl_quality_stale (incr_i64 (sl_quality_stale r)) r)); [done|keep_bare|done]. Qed.

Lemma incr_gap_same r r' : same_row r r' ->
  same_row (set_sl_quality_gap (incr_i64 (sl_quality_gap r)) r)
    (set_sl_quality_gap (incr_i64 (sl_quality_gap r')) r').
Proof. intros H. apply (on_bare (fun r => set_sl_quality_gap (incr_i64 (sl_quality_gap r)) r)); [done|keep_bare|done]. Qed.

Lemma snapshots_same sym src r r' : same_row r r' ->
  same_row (set_sl_source_health_snapshot src (set_sl_symbol_health_snapshot sym r))
    (set_sl_source_health_snapshot src (set_sl_symbol_health_snapshot sym r')).
Proof.
  intros H. apply (on_bare (fun r => set_sl_source_health_snapshot src (set_sl_symbol_health_snapshot sym r)));
    [done|keep_bare|done].
Qed.

Lemma symbol_snapshot_same r r' : same_row r r' ->
  same_row (apply_symbol_health_snapshot r) (apply_symbol_health_snapshot r').
Proof.
  intros H. destruct (bare_fields r r' (sr_bare _ _ H)) as (_ & _ & Es & _ & _ & _ & Eh & _).
  unfold apply_symbol_health_snapshot. rewrite <- Eh. destruct (sl_symbol_health_snapshot r) as [snap|];
    [|by apply push_missing_same].
  assert (H1 : same_row (if negb (ss_is_tradeable snap) then push_missing "venue_unavailable" r else r)
    (if negb (ss_is_tradeable snap) then push_missing "venue_unavailable" r' else r')).
  { destruct (negb _); [by apply push_missing_same|done]. }
  set (q := if negb _ then _ else r) in *. set (q' := if negb _ then _ else r') in *.
  destruct (bare_fields q q' (sr_bare _ _ H1)) as (_ & _ & -> & _).
  destruct (_ <? _); [|done]. apply push_missing_same, incr_stale_same, H1.
Qed.

Lemma source_snapshot_same r r' : same_row r r' ->
  same_row (apply_source_health_snapshot r) (apply_source_health_snapshot r').
Proof.
  intros H. destruct (bare_fields r r' (sr_bare _ _ H)) as (_ & _ & _ & _ & _ & _ & _ & Eh).
  unfold apply_source_health_snapshot. rewrite <- Eh. destruct (sl_source_health_snapshot r) as [snap|];
    [|by apply push_missing_same].
  destruct (_ || _); [by apply push_missing_same|done].
Qed.

#[export] Instance same_row_equivalence : Equivalence same_row.
Proof.
  split.
  - intros r. by split.
  - intros r r' [H1 [] H3 H4 H5 H6 H7 H8]. split; try done.
    + intros Hn. rewrite Hn in H3. symmetry in H3. apply Permutation_nil_l in H3.
      by destruct (H7 ltac:(by apply Permutation_nil_r; rewrite H3)) as [-> ->].
    + intros Hn. rewrite Hn in H4. symmetry in H4. apply Permutation_nil_l in H4.
      by destruct (H8 ltac:(by apply Permutation_nil_r; rewrite H4)) as [-> ->].
  - intros a b c [H1 [] H3 H4 H5 H6 H7 H8] [G1 [] G3 G4 G5 G6 G7 G8]. split; try (by etransitivity).
    + split; by etransitivity.
    + intros Hn. destruct (H7 Hn) as [-> ->]. apply G7. rewrite Hn in H3. by apply Permutation_nil_l in H3.
    + intros Hn. destruct (H8 Hn) as [-> ->]. apply G8. rewrite Hn in H4. by apply Permutation_nil_l in H4.
Qed.

Definition gap_step (r : Slice) (g : GapAlertInput) : Slice :=
  push_missing ("gap_alert." ++ gi_gap_type g) (set_sl_quality_gap (incr_i64 (sl_quality_gap r)) r).

Lemma gap_step_same r r' g : same_row r r' -> same_row (gap_step r g) (gap_step r' g).
Proof. intros H. apply push_missing_same, incr_gap_same, H. Qed.

Lemma gap_fold_same gs gs' r r' : gs ≡ₚ gs' -> same_row r r' ->
  same_row (fold_left gap_step gs r) (fold_left gap_step gs' r').
Proof.
  intros Hp. revert r r'. induction Hp as [|g gs gs' _ IH|g g' gs|gs gs' gs'' _ IH _ IH']; intros r r' H; cbn [fold_left].
  - done.
  - apply IH, gap_step_same, H.
  - assert (Hcong : forall gs r r', same_row r r' -> same_row (fold_left gap_step gs r) (fold_left gap_step gs r')).
    { clear. induction gs as [|g gs IH]; intros r r' H; [done|]. cbn. apply IH, gap_step_same, H. }
    apply Hcong. rewrite (gap_step_same _ _ g (gap_step_same _ _ g' H)).
    split; [done|split|done..]; cbn; [|done..]. rewrite <- !app_assoc. apply Permutation_app_head. constructor.
  - etransitivity; [apply (IH r r'), H|]. by apply IH'.
Qed.

Lemma gap_alerts_same gaps gaps' range r r' : gaps ≡ₚ gaps' -> same_row r r' ->
  same_row (apply_gap_alerts gaps range r) (apply_gap_alerts gaps' range r').
Proof.
  intros Hp H. change (apply_gap_alerts gaps range r) with (fold_left gap_step (List.filter (gap_applies_to_row r range) gaps) r).
  change (apply_gap_alerts gaps' range r') with (fold_left gap_step (List.filter (gap_applies_to_row r' range) gaps') r').
  apply gap_fold_same; [|done]. destruct (bare_fields r r' (sr_bare _ _ H)) as (Ev & En & Es & Ee & _).
  rewrite (List.filter_ext (gap_applies_to_row r range) (gap_applies_to_row r' range)).
  - by apply Permutation_filter_bool.
  - intros g. unfold gap_applies_to_row. by rewrite Ev, En, Es, Ee.
Qed.

(** ** Finalizing *)

(** Events that sort equal are equal. *)
Definition keyed {A K} `{KeyCmp K} (key : A -> K) (l : list A) : Prop :=
  forall x y, x ∈ l -> y ∈ l -> key x = key y -> x = y.

Lemma keyed_sort {A K} `{StrictKey K} (key : A -> K) l l' : keyed key l -> l ≡ₚ l' ->
  sort_by (key_leb key) l = sort_by (key_leb key) l'.
Proof.
  intros Hk. apply sort_by_unique; [apply key_leb_total|apply key_leb_trans|].
  intros x y Hx Hy Hxy Hyx. apply Hk; [done..|]. unfold key_leb in *. rewrite (sk_sym (key x) (key y)) in Hyx.
  destruct (kcmp (key x) (key y)) eqn:E; [by apply sk_eq|done|done].
Qed.

Record distinct_events (r : Slice) : Prop := {
  de_trades : keyed trade_key (sl_trade_events r);
  de_books : keyed book_key (sl_book_ticker_events r);
  de_depth : keyed ref_key (sl_depth_events r);
  de_tickers : keyed ref_key (sl_ticker_events r);
}.

(** The row with its events sorted: a function of the bare row, the sorted events and the
    prices when there is no event. *)
Definition with_sorted (b : Slice) (trades : list TradeNormalized) (books : list BookTickerNormalized)
    (depth tickers : list CompactEventRef) (price size bid ask : option F) : Slice :=
  set_sl_trade_events trades (set_sl_book_ticker_events books (set_sl_depth_events depth
    (set_sl_ticker_events tickers (set_sl_last_trade_price price (set_sl_last_trade_size size
    (set_sl_best_bid bid (set_sl_best_ask ask b))))))).

Lemma order_fixed r :
  let trades := sort_by (key_leb trade_key) (sl_trade_events r) in
  let books := sort_by (key_leb book_key) (sl_book_ticker_events r) in
  fixed (normalize_event_order r) = with_sorted (bare r) trades books
    (sort_by (key_leb ref_key) (sl_depth_events r)) (sort_by (key_leb ref_key) (sl_ticker_events r))
    (last_or tn_price trades (sl_last_trade_price r)) (last_or tn_quantity trades (sl_last_trade_size r))
    (last_or bn_best_bid books (sl_best_bid r)) (last_or bn_best_ask books (sl_best_ask r)).
Proof.
  unfold normalize_event_order, last_or. cbv zeta. cbn [sl_trade_events set_sl_trade_events].
  destruct (last (sort_by (key_leb trade_key) _)); cbn [sl_book_ticker_events set_sl_book_ticker_events
    set_sl_trade_events set_sl_last_trade_size set_sl_last_trade_price];
  destruct (last (sort_by (key_leb book_key) _)); done.
Qed.

Lemma order_collected r : collected (normalize_event_order r) r.
Proof.
  unfold normalize_event_order. cbv zeta. cbn [sl_trade_events set_sl_trade_events].
  destruct (last (sort_by (key_leb trade_key) _)); cbn [sl_book_ticker_events set_sl_book_ticker_events
    set_sl_trade_events set_sl_last_trade_size set_sl_last_trade_price];
  destruct (last (sort_by (key_leb book_key) _)); by split.
Qed.

Lemma collected_sym r r' : collected r r' -> collected r' r.
Proof. by intros []. Qed.

Lemma collected_trans a b c : collected a b -> collected b c -> collected a c.
Proof. intros [] []. split; by etransitivity. Qed.

Lemma order_same r r' : same_row r r' -> distinct_events r ->
  same_sorted (normalize_event_order r) (normalize_event_order r').
Proof.
  intros [H1 H2 H3 H4 H5 H6 H7 H8] [K1 K2 K3 K4]. split.
  - rewrite !order_fixed, H1, (keyed_sort _ _ _ K1 H3), (keyed_sort _ _ _ K2 H4), (keyed_sort _ _ _ K3 H5),
      (keyed_sort _ _ _ K4 H6).
    assert (Hl : forall {A B C} `{StrictKey C} (key : A -> C) (f : A -> B) l l' o o', l ≡ₚ l' -> (l = [] -> o = o') ->
      last_or f (sort_by (key_leb key) l') o = last_or f (sort_by (key_leb key) l') o').
    { intros A B C cmp SK key f l l' o o' Hp Ho. unfold last_or.
      destruct (last (sort_by (key_leb key) l')) eqn:E; [done|]. apply Ho, Permutation_nil_r.
      apply last_None in E. by rewrite Hp, <- (sort_by_perm (key_leb key) l'), E. }
    f_equal; first [apply (Hl _ _ _ _ _ _ _ _ _ _ _ H3); intros Hn; by destruct (H7 Hn)
      |apply (Hl _ _ _ _ _ _ _ _ _ _ _ H4); intros Hn; by destruct (H8 Hn)].
  - eapply collected_trans; [apply order_collected|]. eapply collected_trans; [exact H2|].
    apply collected_sym, order_collected.
Qed.

Lemma push_missing_sorted reason r r' : same_sorted r r' -> same_sorted (push_missing reason r) (push_missing reason r').
Proof. intros [H1 []]. split; [exact H1|split; cbn; [by f_equiv|done|done]]. Qed.

Lemma fixed_fields r r' : fixed r = fixed r' ->
  no_events r = no_events r' /\ sl_quality_invalid r = sl_quality_invalid r' /\
  sl_best_bid r = sl_best_bid r' /\ sl_best_ask r = sl_best_ask r'.
Proof.
  intros H. split; [exact (f_equal no_events H)|]. split; [exact (f_equal sl_quality_invalid H)|].
  split; [exact (f_equal sl_best_bid H)|exact (f_equal sl_best_ask H)].
Qed.

Lemma silence_sorted r r' : same_sorted r r' -> same_sorted (mark_silence r) (mark_silence r').
Proof.
  intros H. destruct (fixed_fields r r' (ss_fixed _ _ H)) as (En & Ei & _). unfold mark_silence.
  rewrite En, Ei. destruct (no_events r'); [by apply push_missing_sorted|done].
Qed.

Lemma depth_top_sorted r r' : same_sorted r r' -> same_sorted (mark_depth_top r) (mark_depth_top r').
Proof.
  intros H. destruct (fixed_fields r r' (ss_fixed _ _ H)) as (_ & _ & Eb & Ea). unfold mark_depth_top.
  rewrite Eb, Ea. destruct (sl_best_bid r'), (sl_best_ask r'); try done. by apply push_missing_sorted.
Qed.

Lemma sort_dedup_perm l l' : l ≡ₚ l' -> sort_dedup l = sort_dedup l'.
Proof.
  intros H. unfold sort_dedup, sort_strings. f_equal.
  apply sort_by_unique; [apply str_leb_total|apply str_leb_trans|intros *; intros _ _; apply str_leb_antisym|done].
Qed.

Lemma dedup_settled r r' : same_sorted r r' -> settled (dedup_lists r) = settled (dedup_lists r').
Proof.
  intros [H [H1 H2 H3]].
  assert (E : forall r, settled (dedup_lists r) = set_sl_missing_reasons (sort_dedup (sl_missing_reasons r))
    (set_sl_parent_run_ids (sort_dedup (sl_parent_run_ids r))
      (set_sl_parent_event_ids (sort_dedup (sl_parent_event_ids r)) (fixed r)))) by done.
  by rewrite !E, H, (sort_dedup_perm _ _ H1), (sort_dedup_perm _ _ H2), (sort_dedup_perm _ _ H3).
Qed.

Lemma mid_settled r : settled (set_mid r) = set_mid (settled r).
Proof. unfold set_mid. by destruct (sl_best_bid r) as [b|] eqn:E1, (sl_best_ask r) as [a|] eqn:E2; cbn; rewrite E1, ?E2. Qed.

Lemma finalize_settled r r' : same_row r r' -> distinct_events r ->
  settled (finalize_slice r) = settled (finalize_slice r').
Proof.
  intros H Hd. unfold finalize_slice.
  assert (Hc : forall r, settled (set_completeness r) = set_completeness (settled r)) by done.
  rewrite !Hc, !mid_settled. do 2 f_equal.
  apply dedup_settled, depth_top_sorted, silence_sorted, order_same; done.
Qed.

(** ** A finished row *)

Definition symbol_keyed (rows : list SymbolHealthInput) : Prop := forall x y, x ∈ rows -> y ∈ rows ->
  yi_venue x = yi_venue y -> yi_symbol_native x = yi_symbol_native y ->
  yi_observed_at_ms x = yi_observed_at_ms y -> x = y.
Definition source_keyed (rows : list SourceHealthInput) : Prop := forall x y, x ∈ rows -> y ∈ rows ->
  hi_venue x = hi_venue y -> hi_observed_at_ms x = hi_observed_at_ms y -> x = y.

Lemma latest_symbol_same rows rows' r r' : rows ≡ₚ rows' -> symbol_keyed rows -> bare r = bare r' ->
  latest_symbol_health rows r = latest_symbol_health rows' r'.
Proof.
  intros Hp Hk H. destruct (bare_fields r r' H) as (Ev & En & _ & Ee & _).
  unfold latest_symbol_health. rewrite Ev, En, Ee. f_equal. apply max_by_key_perm; [|by apply Permutation_filter_bool].
  intros x y [Hx [[Vx%String.eqb_eq Nx%String.eqb_eq]%andb_true_iff _]%andb_true_iff]%list_elem_of_In%filter_In.
  intros [Hy [[Vy%String.eqb_eq Ny%String.eqb_eq]%andb_true_iff _]%andb_true_iff]%list_elem_of_In%filter_In.
  apply Hk; [by apply list_elem_of_In|by apply list_elem_of_In|congruence|congruence].
Qed.

Lemma latest_source_same rows rows' r r' : rows ≡ₚ rows' -> source_keyed rows -> bare r = bare r' ->
  latest_source_health rows r = latest_source_health rows' r'.
Proof.
  intros Hp Hk H. destruct (bare_fields r r' H) as (Ev & _ & _ & Ee & _).
  unfold latest_source_health. rewrite Ev, Ee. f_equal. apply max_by_key_perm; [|by apply Permutation_filter_bool].
  intros x y [Hx [Vx%String.eqb_eq _]%andb_true_iff]%list_elem_of_In%filter_In.
  intros [Hy [Vy%String.eqb_eq _]%andb_true_iff]%list_elem_of_In%filter_In.
  apply Hk; [by apply list_elem_of_In|by apply list_elem_of_In|congruence].
Qed.

(** The lists of events, which the health steps leave alone. *)
Definition event_lists (r : Slice) :=
  (sl_trade_events r, sl_book_ticker_events r, sl_depth_events r, sl_ticker_events r).

Lemma distinct_lists r r' : event_lists r = event_lists r' -> distinct_events r -> distinct_events r'.
Proof. intros [= E1 E2 E3 E4] []. split; by rewrite <- ?E1, <- ?E2, <- ?E3, <- ?E4. Qed.

Lemma health_lists sym src gaps range (r : Slice) :
  event_lists (apply_health_and_gaps_to_row sym src gaps range r) = event_lists r.
Proof.
  unfold apply_health_and_gaps_to_row, apply_gap_alerts.
  assert (H : forall gs r, event_lists (fold_left gap_step gs r) = event_lists r).
  { induction gs as [|g gs IH]; intros q; [done|]. cbn. by rewrite IH. }
  etransitivity; [apply H|].
  unfold apply_source_health_snapshot, apply_symbol_health_snapshot. by repeat case_match.
Qed.

Lemma snapshot_bare s (r r' : Slice) : bare r = bare r' ->
  bare (set_sl_symbol_health_snapshot s r) = bare (set_sl_symbol_health_snapshot s r').
Proof. intros H. change (set_sl_symbol_health_snapshot s (bare r) = set_sl_symbol_health_snapshot s (bare r')). by f_equal. Qed.

Lemma health_same sym sym' src src' gaps gaps' range r r' :
  sym ≡ₚ sym' -> src ≡ₚ src' -> gaps ≡ₚ gaps' -> symbol_keyed sym -> source_keyed src -> same_row r r' ->
  same_row (apply_health_and_gaps_to_row sym src gaps range r)
    (apply_health_and_gaps_to_row sym' src' gaps' range r').
Proof.
  intros Hsym Hsrc Hgaps Ksym Ksrc H. unfold apply_health_and_gaps_to_row.
  rewrite (latest_symbol_same sym sym' r r' Hsym Ksym (sr_bare _ _ H)).
  set (s := latest_symbol_health sym' r').
  rewrite (latest_source_same src src' (set_sl_symbol_health_snapshot s r) (set_sl_symbol_health_snapshot s r')); [|done|done|].
  2: { by apply snapshot_bare, sr_bare. }
  apply gap_alerts_same; [done|]. apply source_snapshot_same, symbol_snapshot_same, snapshots_same, H.
Qed.

Lemma finished_settled (a a' : Acc) r r' : ac_input_range a = ac_input_range a' ->
  ac_symbol_health a ≡ₚ ac_symbol_health a' -> ac_source_health a ≡ₚ ac_source_health a' ->
  ac_gap_alerts a ≡ₚ ac_gap_alerts a' -> symbol_keyed (ac_symbol_health a) ->
  source_keyed (ac_source_health a) -> same_row r r' -> distinct_events r ->
  settled (finished a r) = settled (finished a' r').
Proof.
  intros Hr H1 H2 H3 K1 K2 Hrow Hd. unfold finished. rewrite <- Hr. apply finalize_settled.
  - by apply health_same.
  - by eapply distinct_lists, Hd; rewrite health_lists.
Qed.

(** ** The events of a row are told apart by their event's id *)

Ltac parsed_parent :=
  repeat first [intros (? & _ & Hopt)%bind_Some; revert Hopt|case_match; try done]; by intros [= <-].

Lemma parse_trade_parent e t : parse_trade (V := V) e = Some t -> tn_parent_event_id t = ri_event_id e.
Proof.
  unfold parse_trade, parse_binance_trade, parse_upbit_trade. parsed_parent.
Qed.

Lemma parse_book_parent e b : parse_book_ticker (V := V) e = Some b -> bn_parent_event_id b = ri_event_id e.
Proof.
  unfold parse_book_ticker, parse_binance_book_ticker, parse_upbit_orderbook_top, valid_book.
  parsed_parent.
Qed.

(** What the delta of an event holds is taken from the event. *)
Ltac by_type := unfold delta_of, book_delta, timely; repeat case_match; cbn;
  rewrite ?app_nil_r, ?elem_of_nil, ?list_elem_of_singleton; try done; intros ->; by eauto using parse_trade_parent, parse_book_parent.

Lemma delta_trades args e t : t ∈ d_trades (delta_of args e) -> parse_trade (V := V) e = Some t.
Proof. by_type. Qed.
Lemma delta_books args e b : b ∈ d_books (delta_of args e) -> parse_book_ticker (V := V) e = Some b.
Proof. by_type. Qed.
Lemma delta_depth args e c : c ∈ d_depth (delta_of args e) -> c = compact_ref e.
Proof. by_type. Qed.
Lemma delta_tickers args e c : c ∈ d_tickers (delta_of args e) -> c = compact_ref e.
Proof. by_type. Qed.

(** The events of a list that share an id are one event. *)
Definition one_per_event (es : list RawInputEvent) : Prop :=
  forall e e', e ∈ es -> e' ∈ es -> ri_event_id e = ri_event_id e' -> e = e'.

Lemma deltas_elem {A} (f : Delta -> list A) args es x : f no_delta = [] ->
  (forall a b, f (delta_app a b) = f a ++ f b) -> x ∈ f (deltas args es) ->
  exists e, e ∈ es /\ x ∈ f (delta_of args e).
Proof.
  intros Hn Ha. induction es as [|e es IH]; cbn; [by rewrite Hn, elem_of_nil|].
  rewrite Ha, elem_of_app. intros [Hx|(e' & He' & Hx)%IH]; [by exists e; split; [left|]|].
  exists e'. split; [by right|done].
Qed.

Lemma keyed_deltas {A K} `{KeyCmp K} (f : Delta -> list A) (key : A -> K) (id : A -> string) args es :
  f no_delta = [] -> (forall a b, f (delta_app a b) = f a ++ f b) ->
  (forall x y, key x = key y -> id x = id y) ->
  (forall e x, x ∈ f (delta_of args e) -> id x = ri_event_id e) ->
  (forall e x y, x ∈ f (delta_of args e) -> y ∈ f (delta_of args e) -> x = y) ->
  one_per_event es -> keyed key (f (deltas args es)).
Proof.
  intros Hn Ha Hkey Hid Hone Hes x y (e & He & Hx)%(deltas_elem f) (e' & He' & Hy)%(deltas_elem f) Hk; try done.
  assert (e = e') as <-; [|by eapply Hone]. apply Hes; [done|done|].
  rewrite <- (Hid e x Hx), <- (Hid e' y Hy). by apply Hkey.
Qed.

Lemma seeded_distinct args es id t : one_per_event es ->
  distinct_events (add_delta (deltas args es) (empty_slice args id t)).
Proof.
  intros Hes. split; cbn.
  - apply (keyed_deltas d_trades trade_key tn_parent_event_id); try done.
    + by intros x y [= _ _ _ ->].
    + intros e x Hx. by eapply parse_trade_parent, delta_trades.
    + intros e x y Hx%delta_trades Hy%delta_trades. congruence.
  - apply (keyed_deltas d_books book_key bn_parent_event_id); try done.
    + by intros x y [= _ _ _ ->].
    + intros e x Hx. by eapply parse_book_parent, delta_books.
    + intros e x y Hx%delta_books Hy%delta_books. congruence.
  - apply (keyed_deltas d_depth ref_key ce_parent_event_id); try done.
    + by intros x y [= _ _ ->].
    + by intros e x ->%delta_depth.
    + by intros e x y ->%delta_depth ->%delta_depth.
  - apply (keyed_deltas d_tickers ref_key ce_parent_event_id); try done.
    + by intros x y [= _ _ ->].
    + by intros e x ->%delta_tickers.
    + by intros e x y ->%delta_tickers ->%delta_tickers.
Qed.

(** ** The rows of a run *)

Section run.
Context (args : NormalizeArgs) (input_range scan_range : InputRange) (n : nat)
  (md : BuildInputMetadata).
Context (Hwin : 0 < na_window_ms args) (Hstart : 0 <= ir_start_ms input_range)
  (Halign : (na_window_ms args | ir_start_ms input_range))
  (Hend : ir_end_ms input_range = ir_start_ms input_range + Z.of_nat n * na_window_ms args)
  (Hmax : ir_end_ms input_range <= int_max I64).

Abbreviation built := (built args input_range scan_range n).
Abbreviation acceptable := (acceptable args scan_range).
Abbreviation accepted_id := (accepted_id args scan_range).
Abbreviation in_slices := (in_slices args input_range scan_range).
Abbreviation first_seen := (first_seen args scan_range).
Abbreviation step := (ingest_row (V := V) args).

(** The event of the row that goes into a slice. *)
Definition spot_of (r : InputRow) : option RawInputEvent :=
  match r with RawRow e => if in_slices e then Some e else None | _ => None end.

Definition slice_events (k : SliceKey) (rs : list InputRow) : list RawInputEvent :=
  List.filter (fun e => key_eqb (event_slice_key args e) k) (omap spot_of rs).

Lemma slice_events_perm k rs rs' : rs ≡ₚ rs' -> slice_events k rs ≡ₚ slice_events k rs'.
Proof. intros H. unfold slice_events. apply Permutation_filter_bool. by rewrite H. Qed.

Lemma slice_events_snoc k rs r : slice_events k (rs ++ [r]) =
  slice_events k rs ++ match spot_of r with
    | Some e => if key_eqb (event_slice_key args e) k then [e] else [] | None => [] end.
Proof.
  unfold slice_events. rewrite omap_app, List.filter_app. f_equal. cbn.
  destruct (spot_of r) as [e|]; [|done]. cbn. by destruct (key_eqb _ _).
Qed.

Lemma slice_events_elem k rs e : e ∈ slice_events k rs <->
  RawRow e ∈ rs /\ in_slices e = true /\ event_slice_key args e = k.
Proof.
  unfold slice_events. rewrite list_elem_of_In, filter_In, <- list_elem_of_In, list_elem_of_omap.
  split.
  - intros [(r & Hr & He) Hk]. destruct (key_eqb_spec (event_slice_key args e) k); [|done].
    destruct r as [e'| | |]; try done. cbn in He. destruct (in_slices e') eqn:Ei; [|done].
    injection He as ->. done.
  - intros (Hr & Hi & <-). split; [|by apply key_eqb_refl]. exists (RawRow e). split; [done|]. cbn. by rewrite Hi.
Qed.

(** Every row is the empty slice of an identity with the events of its key, in order. *)
Definition rowed (rs : list InputRow) (a : Acc) : Prop := forall k row, bget k (ac_rows a) = Some row ->
  exists e, RawRow e ∈ rs /\ in_slices e = true /\ identity_key e = (k.1, k.2.1) /\
    row = fold_left (apply_row args) (slice_events k rs) (empty_slice args (identity_from_event e) k.2.2).

(** The rows after an accepted spot event of the range, and after anything else. *)
Lemma rows_step rs (a : Acc) r : built rs a ->
  (forall id, accepted_id r = Some id -> id ∉ omap accepted_id rs) ->
  match spot_of r with
  | Some e => exists row, bget (event_slice_key args e) (ac_rows (ensure_input_identity args e a)) = Some row /\
      ac_rows (step a r) = binsert (event_slice_key args e) (apply_row args row e)
        (ac_rows (ensure_input_identity args e a))
  | None => ac_rows (step a r) = ac_rows a
  end.
Proof.
  intros Hb Hfresh. destruct r as [e|y|h|g]; cbn [spot_of].
  2-4: unfold ingest_row, ingest_symbol_health, ingest_source_health, ingest_gap_alert; by repeat case_if.
  cbn [ingest_row]. rewrite (ingest_raw_cases args scan_range) by apply Hb. cbv zeta. cbn in Hfresh.
  unfold L1BuildFacts.in_slices. destruct (acceptable e) eqn:Hacc; cbn [andb]; [|by destruct (mismatched _)].
  destruct (bget (ri_event_id e) (ac_seen_event_ids a)) as [u|] eqn:Eg; cbn [given].
  { exfalso. apply (Hfresh _ eq_refl), (bt_seen _ _ _ _ _ _ Hb). rewrite Eg. by eexists. }
  set (a0 := set_ac_seen_event_ids _ _).
  assert (C1 : ac_input_range a0 = input_range) by exact (bt_input _ _ _ _ _ _ Hb).
  destruct (is_derivative_market_event e); cbn [negb andb].
  { by destruct (core_fields _ _ (derivative_core e a0)) as (_ & _ & _ & _ & ->). }
  destruct (in_ranged input_range (ri_exchange_timestamp_ms e)) eqn:Er.
  - destruct (ensure_has_row args input_range scan_range Hwin Hstart Halign n Hend Hmax rs a e Hb Er) as [row Hrow].
    exists row. split; [done|]. destruct (spot_core args e a0) as [stats Hc]; [by rewrite C1|].
    injection Hc as _ _ _ _ Hrows. rewrite Hrows.
    assert (Hea : ac_rows (ensure_input_identity args e a0) = ac_rows (ensure_input_identity args e a)).
    { unfold ensure_input_identity. change (ac_input_identities a0) with (ac_input_identities a).
      by destruct (given (bget (identity_key e) (ac_input_identities a))). }
    rewrite (bt_input _ _ _ _ _ _ Hb), Hea, (apply_event_row args input_range n e _ stats row Er Hrow). cbn [fst]. f_equal.
    unfold apply_row. by rewrite !apply_to_row_delta.
  - unfold ingest_spot_event. fold (project (V := V) args e a0).
    destruct (core_fields _ _ (project_core args e a0)) as (E1 & _ & _ & _ & E5).
    by rewrite E1, C1, Er, E5.
Qed.

Lemma rowed_new : rowed [] (accumulator_new args input_range scan_range md).
Proof. by intros k row. Qed.

(** No event of a slice that is not there yet. *)
Lemma no_row_nil rs (a : Acc) k : built rs a -> bget k (ac_rows a) = None ->
  k.2.2 ∈ windows (ir_start_ms input_range) (na_window_ms args) n -> slice_events k rs = [].
Proof.
  intros Hb Hk Hw. destruct (slice_events k rs) as [|e es] eqn:E; [done|].
  assert (He : e ∈ slice_events k rs) by (rewrite E; by left). apply slice_events_elem in He as (Hr & Hi & He).
  by destruct (no_row_no_event args input_range scan_range Hwin Hstart Halign n Hend Hmax rs a k e).
Qed.

Lemma rowed_ensure rs (a : Acc) e : built rs a -> rowed rs a -> in_slices e = true ->
  forall k row, bget k (ac_rows (ensure_input_identity args e a)) = Some row ->
  exists e', RawRow e' ∈ rs ++ [RawRow e] /\ in_slices e' = true /\ identity_key e' = (k.1, k.2.1) /\
    row = fold_left (apply_row args) (slice_events k rs) (empty_slice args (identity_from_event e') k.2.2).
Proof.
  intros Hb Hr Hi k row Hk.
  destruct (ensure_rows args input_range scan_range Hwin Hstart n Hend Hmax rs a e Hb) as (_ & _ & Hget & _).
  rewrite Hget in Hk. destruct (bget k (ac_rows a)) as [old|] eqn:Eold.
  - injection Hk as <-. destruct (Hr k old Eold) as (e' & He' & H). exists e'. split; [|done].
    apply elem_of_app. by left.
  - case_bool_decide as Hd; [|done]. injection Hk as <-. destruct Hd as (H1 & H2 & H3). exists e.
    split_and!; [apply elem_of_app; right; by left|done|unfold identity_key; by rewrite H1, H2|].
    by rewrite (no_row_nil rs a k Hb Eold H3).
Qed.

Lemma rowed_step rs (a : Acc) r : built rs a -> rowed rs a ->
  (forall id, accepted_id r = Some id -> id ∉ omap accepted_id rs) -> rowed (rs ++ [r]) (step a r).
Proof.
  intros Hb Hr Hfresh k row Hk. pose proof (rows_step rs a r Hb Hfresh) as Hs. rewrite slice_events_snoc.
  destruct (spot_of r) as [e|] eqn:Es.
  - assert (r = RawRow e /\ in_slices e = true) as [-> Hi].
    { destruct r as [e'| | |]; try done. cbn in Es. destruct (in_slices e') eqn:Ei; [|done]. by injection Es as ->. }
    destruct Hs as (row0 & Hrow0 & Hrows). rewrite Hrows in Hk.
    destruct (ensure_rows args input_range scan_range Hwin Hstart n Hend Hmax rs a e Hb) as (Hok & _ & _ & _).
    destruct (key_eqb_spec (event_slice_key args e) k) as [<-|Hne].
    + rewrite bget_insert_eq in Hk by done. injection Hk as <-.
      destruct (rowed_ensure rs a e Hb Hr Hi _ _ Hrow0) as (e' & H1 & H2 & H3 & ->). exists e'.
      by rewrite fold_left_app.
    + rewrite bget_insert_ne in Hk by congruence. rewrite app_nil_r. by apply (rowed_ensure rs a e Hb Hr Hi).
  - rewrite Hs in Hk. destruct (Hr k row Hk) as (e & H1 & H2 & H3 & H4). exists e. rewrite app_nil_r.
    split_and!; [apply elem_of_app; by left|done..].
Qed.

Lemma run_rowed rows : rowed (first_seen [] rows) (run_accumulator (V := V) args input_range scan_range md rows).
Proof.
  unfold run_accumulator. induction rows as [|r rows IH] using rev_ind; [apply rowed_new|].
  pose proof (ingest_all_built args input_range scan_range Hwin Hstart Halign n Hend Hmax rows md) as Hb.
  rewrite fold_left_app, first_seen_snoc. cbn [fold_left].
  set (a := fold_left _ rows _) in *.
  pose proof (repeats_spec args input_range scan_range n rows a r Hb) as Hr.
  destruct (repeats args scan_range [] rows r).
  - rewrite app_nil_r. destruct (proj1 Hr eq_refl) as (id & Hid & Hs).
    destruct r as [e| | |]; try done. cbn in Hid. destruct (acceptable e) eqn:Ea; [|done].
    injection Hid as <-. cbn [ingest_row]. rewrite (ingest_raw_cases args scan_range) by apply Hb. cbv zeta.
    rewrite Ea. destruct Hs as [u ->]. cbn [given]. exact IH.
  - apply rowed_step; [done|done|]. intros id Hid Hin.
    apply (bt_seen _ _ _ _ _ _ Hb) in Hin. assert (false = true) by (apply Hr; by exists id). done.
Qed.

(** *** The first-seen rows in another order *)

Definition one_per_id (rows : list InputRow) : Prop := forall r r' id, r ∈ rows -> r' ∈ rows ->
  accepted_id r = Some id -> accepted_id r' = Some id -> r = r'.

Lemma first_seen_ext seen seen' rows : (forall id, id ∈ seen <-> id ∈ seen') ->
  first_seen seen rows = first_seen seen' rows.
Proof.
  revert seen seen'. induction rows as [|r rows IH]; intros seen seen' H; [done|]. cbn [L1BuildFacts.first_seen].
  destruct (accepted_id r) as [id|]; [|by f_equal; apply IH].
  rewrite (bool_decide_ext (id ∈ seen) (id ∈ seen')) by apply H. case_bool_decide; [by apply IH|].
  f_equal. apply IH. intros x. by rewrite !elem_of_cons, H.
Qed.

Lemma first_seen_swap seen x y rows : (accepted_id x = accepted_id y -> is_Some (accepted_id x) -> x = y) ->
  first_seen seen (y :: x :: rows) ≡ₚ first_seen seen (x :: y :: rows).
Proof.
  intros H. destruct (decide (accepted_id x = accepted_id y /\ is_Some (accepted_id x))) as [[E Hs]|Hne].
  { by rewrite (H E Hs). }
  cbn [L1BuildFacts.first_seen].
  destruct (accepted_id x) as [i|], (accepted_id y) as [j|]; [|by case_bool_decide; [|constructor]..|constructor].
  assert (Hij : i <> j) by (intros ->; by apply Hne).
  rewrite (bool_decide_ext (j ∈ i :: seen) (j ∈ seen)), (bool_decide_ext (i ∈ j :: seen) (i ∈ seen))
    by (rewrite elem_of_cons; naive_solver).
  repeat case_bool_decide; try done. rewrite (first_seen_ext (i :: j :: seen) (j :: i :: seen)); [constructor|].
  intros id. rewrite !elem_of_cons. tauto.
Qed.

Lemma first_seen_perm seen rows rows' : rows ≡ₚ rows' -> one_per_id rows ->
  first_seen seen rows ≡ₚ first_seen seen rows'.
Proof.
  intros H. revert seen. induction H as [|x rows rows' Hp IH|x y rows|r1 r2 r3 H1 IH1 H2 IH2]; intros seen Ho.
  - done.
  - assert (Ho' : one_per_id rows) by (intros r r' id Hr Hr'; apply Ho; by right).
    cbn [L1BuildFacts.first_seen]. destruct (accepted_id x) as [id|]; [case_bool_decide; [by apply IH|]|];
      by constructor; apply IH.
  - apply first_seen_swap. intros E [id Hid]. apply (Ho x y id); [right; by left|by left|done|congruence].
  - rewrite (IH1 seen Ho). apply IH2. intros r r' id. rewrite <- H1. apply Ho.
Qed.

(** *** The health rows, gaps and schemas *)

Definition symbol_of (r : InputRow) : option SymbolHealthInput :=
  match r with
  | SymbolRow y => if String.eqb (yi_schema_version y) "symbol_health_v1"
      && String.eqb (payload_hash (symbol_health_payload (yi_venue y) (yi_symbol_native y)
          (yi_observed_at_ms y) (yi_reason_codes y))) (yi_payload_sha256 y) then Some y else None
  | _ => None end.
Definition source_of (r : InputRow) : option SourceHealthInput :=
  match r with
  | SourceRow h => if String.eqb (hi_schema_version h) "source_health_v2"
      && String.eqb (payload_hash (hi_payload_json h)) (hi_payload_sha256 h) then Some h else None
  | _ => None end.
Definition gap_of (r : InputRow) : option GapAlertInput :=
  match r with
  | GapRow g => if String.eqb (gi_schema_version g) "gap_alert_v1"
      && String.eqb (payload_hash (gi_payload_json g)) (gi_payload_sha256 g) then Some g else None
  | _ => None end.
Definition schema_of (r : InputRow) : string :=
  match r with
  | RawRow e => ri_schema_version e | SymbolRow y => yi_schema_version y
  | SourceRow h => hi_schema_version h | GapRow g => gi_schema_version g end.

Definition sides (a : Acc) :=
  (ac_symbol_health a, ac_source_health a, ac_gap_alerts a, ac_schema_versions a, ac_metadata a).

Lemma spot_sides e (a : Acc) : sides (ingest_spot_event (V := V) args e a) = sides a.
Proof.
  unfold ingest_spot_event. fold (project (V := V) args e a). trans (sides (project (V := V) args e a)).
  - destruct (in_ranged _ _); [|done]. cbv zeta. destruct (apply_event _ _ _ _ _) as [rows stats].
    unfold ensure_input_identity. by destruct (given _).
  - unfold project. destruct (in_ranged _ _); [|done]. destruct (apply_event _ _ _ _ _) as [rows stats].
    unfold ensure_projection_identity. by destruct (given _).
Qed.

Lemma raw_sides e (a : Acc) : sides (ingest_raw_event (V := V) args e a) = sides (see_schema (ri_schema_version e) a).
Proof.
  unfold ingest_raw_event. do 4 (case_match; [done|]).
  case_match.
  - unfold ingest_derivative_event. by repeat case_match.
  - by rewrite spot_sides.
Qed.

Lemma step_sides (a : Acc) r : sides (step a r) =
  (ac_symbol_health a ++ omap symbol_of [r], ac_source_health a ++ omap source_of [r],
   ac_gap_alerts a ++ omap gap_of [r], binsert (schema_of r) () (ac_schema_versions a), ac_metadata a).
Proof.
  destruct r as [e|y|h|g]; cbn; rewrite ?app_nil_r; [apply raw_sides|..].
  - unfold ingest_symbol_health, symbol_health_payload. repeat destruct (String.eqb _ _); cbn; by rewrite ?app_nil_r.
  - unfold ingest_source_health. repeat destruct (String.eqb _ _); cbn; by rewrite ?app_nil_r.
  - unfold ingest_gap_alert. repeat destruct (String.eqb _ _); cbn; by rewrite ?app_nil_r.
Qed.

Lemma schemas_ok rows m : mok m -> mok (fold_left (fun m r => binsert (schema_of r) () m) rows m).
Proof. revert m. induction rows as [|r rows IH]; intros m Hm; [done|]. by apply IH, (binsert_ok (fun _ => True)). Qed.

Lemma schemas_seen rows m id : mok m ->
  bget id (fold_left (fun m r => binsert (schema_of r) () m) rows m) = Some () <->
  id ∈ map schema_of rows \/ bget id m = Some ().
Proof.
  revert m. induction rows as [|r rows IH]; intros m Hm; cbn [fold_left map].
  { rewrite elem_of_nil. tauto. }
  rewrite IH by by apply (binsert_ok (fun _ => True)). rewrite elem_of_cons.
  destruct (bget_insert_strict (schema_of r) id () m Hm) as [[-> ->]|[-> Hne]]; naive_solver.
Qed.

Lemma schemas_perm rows rows' : rows ≡ₚ rows' ->
  fold_left (fun m r => binsert (schema_of r) () m) rows [] =
  fold_left (fun m r => binsert (schema_of r) () m) rows' [].
Proof.
  intros H. apply bget_ext; [by apply schemas_ok, bmap_ok_nil..|]. intros q.
  pose proof (schemas_seen rows [] q (bmap_ok_nil _)) as E1.
  pose proof (schemas_seen rows' [] q (bmap_ok_nil _)) as E2.
  assert (Hm : q ∈ map schema_of rows <-> q ∈ map schema_of rows').
  { by rewrite (Permutation_map schema_of H). }
  rewrite Hm, <- E2 in E1.
  destruct (bget q (fold_left _ rows _)) as [[]|], (bget q (fold_left _ rows' _)) as [[]|]; naive_solver.
Qed.

Lemma run_sides rows : sides (run_accumulator (V := V) args input_range scan_range md rows) =
  (omap symbol_of rows, omap source_of rows, omap gap_of rows,
   fold_left (fun m r => binsert (schema_of r) () m) rows [], md).
Proof.
  unfold run_accumulator. induction rows as [|r rows IH] using rev_ind; [done|].
  rewrite !fold_left_app, !omap_app. cbn [fold_left]. rewrite step_sides.
  unfold sides in IH. by injection IH as -> -> -> -> ->.
Qed.

(** *** Two orders of the same rows *)

(** What rows that come from one source agree on: an event id names one event, the events
    of a venue and symbol describe it alike, and a health reading is named by its subject
    and time. *)
Record consistent (rows : list InputRow) : Prop := {
  cs_ids : one_per_id rows;
  cs_identity : forall e e', RawRow e ∈ rows -> RawRow e' ∈ rows -> in_slices e = true -> in_slices e' = true ->
    identity_key e = identity_key e' -> identity_from_event e = identity_from_event e';
  cs_symbol : symbol_keyed (omap symbol_of rows);
  cs_source : source_keyed (omap source_of rows);
}.

Lemma first_seen_sub seen rows r : r ∈ first_seen seen rows -> r ∈ rows.
Proof.
  revert seen. induction rows as [|x rows IH]; intros seen; [done|]. cbn [L1BuildFacts.first_seen].
  destruct (accepted_id x) as [id|]; [case_bool_decide|]; rewrite ?elem_of_cons; naive_solver.
Qed.

Section two.
Context (rows rows' : list InputRow) (Hperm : rows ≡ₚ rows') (Hcons : consistent rows).
Let a := run_accumulator (V := V) args input_range scan_range md rows.
Let a' := run_accumulator (V := V) args input_range scan_range md rows'.
Let fs := first_seen [] rows.
Let fs' := first_seen [] rows'.

Lemma two_first_seen : fs ≡ₚ fs'.
Proof. apply first_seen_perm; [done|apply Hcons]. Qed.
Let Hfs := two_first_seen.

Lemma two_one_per_event k : one_per_event (slice_events k fs).
Proof.
  intros e e' (H1 & I1 & _)%slice_events_elem (H2 & I2 & _)%slice_events_elem Hid.
  destruct (in_slices_spec args input_range scan_range e I1) as (A1 & _).
  destruct (in_slices_spec args input_range scan_range e' I2) as (A2 & _).
  assert (RawRow e = RawRow e') as [= ->]; [|done].
  apply (cs_ids _ Hcons) with (ri_event_id e); [by eapply first_seen_sub..| |]; cbn; by rewrite ?A1, ?A2, ?Hid.
Qed.

Lemma two_built : built fs a /\ built fs' a'.
Proof. split; by apply ingest_all_built. Qed.

Lemma two_ids k : is_Some (bget k (ac_input_identities a)) <-> is_Some (bget k (ac_input_identities a')).
Proof.
  destruct two_built as [Hb Hb']. rewrite (bt_ids _ _ _ _ _ _ Hb), (bt_ids _ _ _ _ _ _ Hb').
  split; intros (e & He & H); exists e; split; try done; [by rewrite <- Hfs|by rewrite Hfs].
Qed.

Lemma two_keys k : is_Some (bget k (ac_rows a)) <-> is_Some (bget k (ac_rows a')).
Proof.
  destruct two_built as [Hb Hb']. destruct k as [v [s t]].
  by rewrite (bt_keys _ _ _ _ _ _ Hb), (bt_keys _ _ _ _ _ _ Hb'), two_ids.
Qed.

Lemma two_rows k row row' : bget k (ac_rows a) = Some row -> bget k (ac_rows a') = Some row' ->
  same_row row row' /\ distinct_events row.
Proof.
  intros Hr Hr'. destruct (run_rowed rows k row Hr) as (e & H1 & H2 & H3 & ->).
  destruct (run_rowed rows' k row' Hr') as (e' & H1' & H2' & H3' & ->).
  assert (identity_from_event e' = identity_from_event e) as ->.
  { apply (cs_identity _ Hcons); [|by eapply first_seen_sub|done|done|congruence].
    rewrite Hperm. by eapply first_seen_sub. }
  rewrite !apply_rows_delta. split.
  - apply add_delta_same; [|done|done]. by apply deltas_perm, slice_events_perm.
  - apply seeded_distinct, two_one_per_event.
Qed.

Lemma two_slices : map settled (br_slices (finish a)) = map settled (br_slices (finish a')).
Proof.
  rewrite !finish_slices, !map_map. destruct two_built as [Hb Hb'].
  pose proof (run_sides rows) as Hs. pose proof (run_sides rows') as Hs'. fold a in Hs. fold a' in Hs'.
  injection Hs as S1 S2 S3 _ _. injection Hs' as S1' S2' S3' _ _.
  apply (bvalues_same (fun r => settled (finished a r)) (fun r => settled (finished a' r)));
    [apply Hb|apply Hb'|].
  intros q. pose proof (two_keys q) as Hq. pose proof (two_rows q) as Hr.
  destruct (bget q (ac_rows a)) as [row|], (bget q (ac_rows a')) as [row'|]; cbn.
  - destruct (Hr row row' eq_refl eq_refl) as [Hsame Hd]. f_equal.
    apply finished_settled; try done.
    + by rewrite (bt_input _ _ _ _ _ _ Hb), (bt_input _ _ _ _ _ _ Hb').
    + rewrite S1, S1'. by rewrite Hperm.
    + rewrite S2, S2'. by rewrite Hperm.
    + rewrite S3, S3'. by rewrite Hperm.
    + rewrite S1. apply Hcons.
    + rewrite S2. apply Hcons.
  - by destruct (proj1 Hq (ex_intro _ row eq_refl)).
  - by destruct (proj2 Hq (ex_intro _ row' eq_refl)).
  - done.
Qed.

Lemma two_stats : ac_stats a = ac_stats a'.
Proof.
  pose proof (run_stats args input_range scan_range Hwin Hstart Halign n Hend Hmax rows md) as [_ Hs].
  pose proof (run_stats args input_range scan_range Hwin Hstart Halign n Hend Hmax rows' md) as [_ Hs'].
  unfold a, a', run_accumulator. rewrite Hs, Hs'. fold fs fs'. unfold count, zlen.
  rewrite (Permutation_length Hfs), (Permutation_length Hperm), (Permutation_length (Permutation_filter_bool _ _ _ Hfs)),
    (Permutation_length (Permutation_filter_bool _ _ _ Hperm)). done.
Qed.

Lemma two_sides : ac_metadata a = ac_metadata a' /\ ac_schema_versions a = ac_schema_versions a'.
Proof.
  pose proof (run_sides rows) as Hs. pose proof (run_sides rows') as Hs'. fold a in Hs. fold a' in Hs'.
  injection Hs as _ _ _ S4 S5. injection Hs' as _ _ _ S4' S5'.
  rewrite S4, S5, S4', S5'. split; [done|]. by apply schemas_perm.
Qed.
End two.
End run.

(** The parts of a result that do not depend on the order of the rows: everything but the
    traded volume of a slice, the projections and the metrics. *)
Definition outcome (b : @BuildResult F) :=
  (map settled (br_slices b), br_status b, br_failure_reason b, br_input_object_keys b,
   (br_input_record_count b, br_duplicate_event_count b, br_invalid_event_count b,
    br_payload_hash_mismatch_count b), br_input_schema_versions b).

Lemma finish_outcome (a a' : Acc) : map settled (br_slices (finish a)) = map settled (br_slices (finish a')) ->
  ac_stats a = ac_stats a' -> ac_metadata a = ac_metadata a' -> ac_schema_versions a = ac_schema_versions a' ->
  outcome (finish a) = outcome (finish a').
Proof.
  intros Hs Hst Hm Hv.
  assert (Hn : is_nil (br_slices (finish a)) = is_nil (br_slices (finish a'))).
  { destruct (br_slices (finish a)), (br_slices (finish a')); done. }
  rewrite !finish_slices in Hs, Hn. unfold finished in Hs, Hn. unfold outcome, finish.
  rewrite !map_map, Hst, Hm, Hv. revert Hs Hn.
  destruct (_ <? _), (bvalues (ac_rows a)), (bvalues (ac_rows a')); intros Hs Hn; try done;
    do 5 (apply (f_equal2 pair); [|done]); exact Hs.
Qed.

(** Two orders of the same rows. *)
Lemma same_outcome args input_range scan_range n md rows rows' : windowed args input_range n ->
  rows ≡ₚ rows' -> consistent args input_range scan_range rows ->
  outcome (finish (run_accumulator (V := V) args input_range scan_range md rows)) =
  outcome (finish (run_accumulator (V := V) args input_range scan_range md rows')).
Proof.
  intros [H1 H2 H3 H4 H5] Hp Hc.
  destruct (two_sides args input_range scan_range md rows rows' Hp) as [Hm Hv].
  apply finish_outcome; [|by eapply two_stats|done|done]. by eapply two_slices.
Qed.

(** ** The order of the downloads *)

Section downloads.
Context {Row : Type}.
Context (col_str : string -> Row -> result StorageError (option string)).
Context (col_i64 : string -> Row -> result StorageError (option Z)).
Context (col_bool : string -> Row -> result StorageError (option bool)).

Abbreviation Download := (InputEntry * result StorageError (list Row))%type.

(** The row of a file, decoded. *)
Definition decode_row (family : InputObjectFamily) (row : Row) : result StorageError InputRow :=
  match family with
  | RawMarketEvent => e ← raw_event_from_batch col_str col_i64 row; Ok (RawRow e)
  | SymbolHealth => r ← symbol_health_from_batch col_str col_i64 col_bool row; Ok (SymbolRow r)
  | SourceHealth => r ← source_health_from_batch col_str col_i64 row; Ok (SourceRow r)
  | GapAlert => r ← gap_alert_from_batch col_str col_i64 row; Ok (GapRow r)
  end.

Definition decode_file (d : Download) : result StorageError (list InputRow) :=
  rows ← d.2;
  match family_from_key (ie_key d.1) with
  | None => Ok []
  | Some family => try_map (decode_row family) rows
  end.

(** The rows of the files that can be read. *)
Definition decoded (downloaded : list Download) : list InputRow :=
  List.concat (map (fun d => match decode_file d with Ok rows => rows | Err _ => [] end) downloaded).

Lemma append_decoded args family (a : Acc) row :
  append_accumulator_row (V := V) col_str col_i64 col_bool args family a row =
  r ← decode_row family row; Ok (ingest_row (V := V) args a r).
Proof.
  unfold append_accumulator_row, decode_row. destruct family.
  - by destruct (raw_event_from_batch _ _ _).
  - by destruct (symbol_health_from_batch _ _ _ _).
  - by destruct (source_health_from_batch _ _ _).
  - by destruct (gap_alert_from_batch _ _ _).
Qed.

Lemma file_decoded args d (a : Acc) :
  append_batches_to_accumulator (V := V) col_str col_i64 col_bool args (ie_key d.1) d.2 a =
  rows ← decode_file d; Ok (fold_left (ingest_row (V := V) args) rows a).
Proof.
  unfold append_batches_to_accumulator, decode_file. destruct d.2 as [rows|]; [|done]. cbn [mbind result_bind].
  destruct (family_from_key (ie_key d.1)) as [family|]; [|done].
  rewrite <- try_fold_map. revert a. induction rows as [|row rows IH]; intros a; [done|]. cbn [try_fold].
  rewrite append_decoded. destruct (decode_row family row) as [r|]; [|done]. cbn. apply IH.
Qed.

(** The fold is the run over the decoded rows. *)
Lemma fold_range_decoded args input_range scan_range run_mode entries downloaded :
  fold_range (V := V) col_str col_i64 col_bool args input_range scan_range run_mode entries downloaded =
  files ← try_map decode_file downloaded;
  Ok (finish (run_accumulator (V := V) args input_range scan_range
    (metadata_from_entries entries run_mode) (List.concat files))).
Proof.
  unfold fold_range, run_accumulator. generalize (accumulator_new (F := F) args input_range scan_range
    (metadata_from_entries entries run_mode)) as a. intros a.
  assert (H : try_fold (fun a (d : Download) => append_batches_to_accumulator (V := V) col_str col_i64 col_bool args
      (ie_key d.1) d.2 a) a downloaded =
    files ← try_map decode_file downloaded; Ok (fold_left (ingest_row (V := V) args) (List.concat files) a)).
  { revert a. induction downloaded as [|d ds IH]; intros a; [done|]. cbn [try_fold try_map].
    rewrite file_decoded. destruct (decode_file d) as [rows|]; [|done]. cbn [mbind result_bind]. rewrite IH.
    destruct (try_map decode_file ds); [|done]. cbn. by rewrite fold_left_app. }
  rewrite H. by destruct (try_map decode_file downloaded).
Qed.

Lemma decoded_files downloaded files : try_map decode_file downloaded = Ok files ->
  decoded downloaded = List.concat files.
Proof.
  intros H%try_map_ok_Forall2. unfold decoded. induction H as [|d rows ds files Hd _ IH]; [done|].
  cbn. by rewrite Hd, IH.
Qed.

Lemma concat_perm_files {A} (l l' : list (list A)) : l ≡ₚ l' -> List.concat l ≡ₚ List.concat l'.
Proof.
  induction 1 as [|x l l' _ IH|x y l|]; cbn; [done|by rewrite IH| |by etransitivity].
  by rewrite !app_assoc, (Permutation_app_comm y x).
Qed.

(** The order in which the concurrent downloads finish decides neither whether the fold
    succeeds nor, on input that names things consistently, what it makes of the rows: the
    slices agree in everything but the traded volume, a floating-point sum taken in the
    order of arrival, and so do the status and the counters. *)
Theorem download_order_irrelevant (args : NormalizeArgs) (input_range scan_range : InputRange) (n : nat)
    (run_mode : RunMode) (entries : list InputEntry) (downloaded downloaded' : list Download) b :
  windowed args input_range n -> downloaded ≡ₚ downloaded' ->
  consistent args input_range scan_range (decoded downloaded) ->
  fold_range (V := V) col_str col_i64 col_bool args input_range scan_range run_mode entries downloaded = Ok b ->
  exists b', fold_range (V := V) col_str col_i64 col_bool args input_range scan_range run_mode entries downloaded'
    = Ok b' /\ outcome b = outcome b'.
Proof.
  intros Hw Hp Hc. rewrite !fold_range_decoded.
  destruct (try_map decode_file downloaded) as [files|] eqn:E; [|done]. intros [= <-].
  destruct (try_map_perm _ _ _ _ Hp E) as (files' & -> & Hf). eexists. split; [done|].
  rewrite (decoded_files _ _ E) in Hc. apply (same_outcome _ _ _ n); [done| |done].
  by apply concat_perm_files.
Qed.
End downloads.
End order.

(** ** Two files, in either order *)

#[local] Existing Instance L1BuildFacts.sample_lib.
#[local] Existing Instance L1BuildFacts.sample_float.
#[local] Existing Instance L1BuildFacts.sample_json.

Definition sample_raw_row (e : RawInputEvent) : list (string * sample_cell) :=
  bcollect [("event_id", CStr (ri_event_id e)); ("producer_run_id", CStr (ri_producer_run_id e));
    ("venue", CStr (ri_venue e)); ("source_role", CStr (ri_source_role e));
    ("market_type", CStr (ri_market_type e)); ("event_type", CStr (ri_event_type e));
    ("symbol_native", CStr (ri_symbol_native e)); ("symbol_canonical", CStr (ri_symbol_canonical e));
    ("base_asset", CStr (ri_base_asset e)); ("quote_asset", CStr (ri_quote_asset e));
    ("exchange_timestamp_ms", CInt (ri_exchange_timestamp_ms e));
    ("ingest_timestamp_ms", CInt (ri_ingest_timestamp_ms e));
    ("exchange_sequence", CInt (default 0 (ri_exchange_sequence e)));
    ("payload_json", CStr (ri_payload_json e)); ("payload_sha256", CStr (ri_payload_sha256 e));
    ("schema_version", CStr (ri_schema_version e))]%string.

Definition sample_download (key : string) (events : list RawInputEvent) :
    InputEntry * result StorageError (list (list (string * sample_cell))) :=
  (mkEntry key None S3, Ok (map sample_raw_row events)).
Definition first_file := sample_download "raw_market_event/a.parquet" [sample_trade; sample_book].
Definition second_file := sample_download "raw_market_event/b.parquet"
  [sample_event 4 "trade" 1250 "p=50001;q=1"; sample_trade].
Definition sample_fold downloaded := fold_range (V := list (string * string)) (F := Z) cell_str cell_i64
  L1BuildFacts.cell_bool sample_args sample_input sample_scan Live (map fst downloaded) downloaded.

Lemma sample_consistent_rows : consistent sample_args sample_input sample_scan
  [RawRow sample_trade; RawRow sample_book; RawRow (sample_event 4 "trade" 1250 "p=50001;q=1"); RawRow sample_trade].
Proof.
  split; [| |by intros x y Hx%elem_of_nil|by intros x y Hx%elem_of_nil].
  - intros r r' id Hr Hr'. repeat setoid_rewrite elem_of_cons in Hr. repeat setoid_rewrite elem_of_cons in Hr'.
    rewrite elem_of_nil in Hr, Hr'.
    destruct Hr as [->|[->|[->|[->|[]]]]], Hr' as [->|[->|[->|[->|[]]]]]; try done; vm_compute; congruence.
  - intros e e' Hr Hr' _ _ _. repeat setoid_rewrite elem_of_cons in Hr. repeat setoid_rewrite elem_of_cons in Hr'.
    rewrite elem_of_nil in Hr, Hr'.
    destruct Hr as [[= ->]|[[= ->]|[[= ->]|[[= ->]|[]]]]], Hr' as [[= ->]|[[= ->]|[[= ->]|[[= ->]|[]]]]]; done.
Qed.

Lemma sample_consistent : consistent sample_args sample_input sample_scan
  (decoded cell_str cell_i64 L1BuildFacts.cell_bool [first_file; second_file]).
Proof.
  assert (E : decoded cell_str cell_i64 L1BuildFacts.cell_bool [first_file; second_file] =
    [RawRow sample_trade; RawRow sample_book; RawRow (sample_event 4 "trade" 1250 "p=50001;q=1");
     RawRow sample_trade]) by by vm_compute.
  rewrite E. exact sample_consistent_rows.
Qed.

Lemma download_order_irrelevant_witness : exists b b', sample_fold [first_file; second_file] = Ok b /\
  fold_range (V := list (string * string)) (F := Z) cell_str cell_i64 L1BuildFacts.cell_bool sample_args
    sample_input sample_scan Live (map fst [first_file; second_file]) [second_file; first_file] = Ok b' /\
  outcome b = outcome b' /\ br_status b = "success"%string /\ br_duplicate_event_count b = 1.
Proof.
  destruct (sample_fold [first_file; second_file]) as [b|] eqn:E; [|by vm_compute in E].
  destruct (download_order_irrelevant (V := list (string * string)) cell_str cell_i64 L1BuildFacts.cell_bool sample_args
    sample_input sample_scan 2 Live (map fst [first_file; second_file]) [first_file; second_file]
    [second_file; first_file] b sample_windowed (Permutation_swap _ _ _) sample_consistent E) as (b' & E' & Ho).
  exists b, b'. split_and!; [done|done|done| |].
  - assert (H : br_status <$> (match sample_fold [first_file; second_file] with Ok b => Some b | _ => None end) = Some "success"%string)
      by by vm_compute. rewrite E in H. by injection H.
  - assert (H : br_duplicate_event_count <$> (match sample_fold [first_file; second_file] with Ok b => Some b | _ => None end) = Some 1)
      by by vm_compute. rewrite E in H. by injection H.
Defined.
