(* ===== verification/L1Read.v ===== *)
(** * L1Read: the reader of L0 objects

    [normalize/read.rs] and [read/]: the entries of a range are collected, each is
    materialized as a local file (sixteen downloads at a time, in whatever order they
    finish), and the rows of the files are decoded.  The program folds rows as files
    arrive; [read_range] collects them first, and [build_slices] builds from the
    collection: the two agree. *)
From S2P Require Import Prelude Text OrderedMap Records NormalizeArgs L1Window L1Inputs L1Build L1BuildFacts L1Order.
From S2P Require Import Effects.
Open Scope Z_scope.
Open Scope list_scope.

(** ** Materialized entries *)

(* rust: src/normalize/read/materialize.rs MaterializedInputEntry *)
Record MaterializedInputEntry := mkMaterialized {
  me_entry : InputEntry; me_local_path : string; me_remove_after_read : bool; me_downloaded_bytes : Z }.

(* rust: src/normalize/read.rs L0InputReader *)
Record L0InputReader := mkReader {
  lr_l0_local_root : string; lr_catchup_session_root : string; lr_run_mode : RunMode;
  lr_l0_run_key_overlap_ms : Z }.

(** The client of the bucket is built along; it is the parameter [download_file]. *)
(* rust: src/normalize/read.rs new *)
Definition reader_new (args : NormalizeArgs) (run_mode : RunMode) (session_id : string) : L0InputReader :=
  mkReader (na_l0_local_root args) (path_join (na_catchup_tmp_root args) session_id) run_mode
    (na_l0_run_key_overlap_ms args).

(** ** How far the downloads are *)

(** Instants are milliseconds of a monotonic clock. *)
(* rust: src/normalize/read/downloads.rs DownloadProgress *)
Record DownloadProgress := mkProgress {
  dp_input_s3_object_count : Z; dp_downloaded_s3_object_count : Z; dp_downloaded_s3_bytes : Z;
  dp_next_download_progress_at : Z }.

(* rust: src/normalize/read/downloads.rs should_log *)
Definition should_log (now : Z) (p : DownloadProgress) : bool :=
  (dp_downloaded_s3_object_count p =? dp_input_s3_object_count p)
  || (dp_downloaded_s3_object_count p mod 10 =? 0) || (dp_next_download_progress_at p <=? now).

(** The progress and whether a line is logged. *)
(* rust: src/normalize/read/downloads.rs record *)
Definition record (now : Z) (materialized : MaterializedInputEntry) (p : DownloadProgress) : DownloadProgress * bool :=
  if negb (me_remove_after_read materialized) then (p, false)
  else
    let p := mkProgress (dp_input_s3_object_count p) (wrap U64 (dp_downloaded_s3_object_count p + 1))
      (saturate U64 (dp_downloaded_s3_bytes p + me_downloaded_bytes materialized)) (dp_next_download_progress_at p) in
    if should_log now p
    then (mkProgress (dp_input_s3_object_count p) (dp_downloaded_s3_object_count p) (dp_downloaded_s3_bytes p)
            (now + 10000), true)
    else (p, false).

Section reader.
Context {L : StorageLib} {F V : Type} {FO : Float F} {J : PayloadJson V F}.
Context {Row : Type}.
Context (col_str : string -> Row -> result StorageError (option string)).
Context (col_i64 : string -> Row -> result StorageError (option Z)).
Context (col_bool : string -> Row -> result StorageError (option bool)).
(** A download stores the object of a key under a path; then the file has a size, if it
    can be asked, and rows, if it can be read. *)
Context (download_file : string -> string -> result StorageError ()).
Context (file_size : string -> option Z) (file_rows : string -> result StorageError (list Row)).

(* rust: src/normalize/read/materialize.rs materialize_entry *)
Definition materialize_entry (catchup_session_root : string) (index : nat) (entry : InputEntry)
    : result StorageError (nat * MaterializedInputEntry) :=
  match ie_path entry with
  | Some path => Ok (index, mkMaterialized entry path false 0)
  | None =>
      let spool_path := path_join catchup_session_root (ie_key entry) in
      _ ← download_file (ie_key entry) spool_path;
      Ok (index, mkMaterialized entry spool_path true (default 0 (file_size spool_path)))
  end.

(** The entries with their indices, in the order in which their downloads finish. *)
Definition tasks (finish_order : list nat -> list nat) (entries : list InputEntry) : list (nat * InputEntry) :=
  omap (fun index => pair index <$> entries !! index) (finish_order (seq 0 (Datatypes.length entries))).

(** A result takes the place of its entry. *)
(* rust: src/normalize/read/downloads.rs materialize_entries *)
Definition materialize_entries (finish_order : list nat -> list nat) (catchup_session_root : string)
    (entries : list InputEntry) : result StorageError (list MaterializedInputEntry) :=
  materialized_entries ← try_fold (fun (slots : list (option MaterializedInputEntry)) (task : nat * InputEntry) =>
      finished ← materialize_entry catchup_session_root task.1 task.2;
      Ok (<[finished.1 := Some finished.2]> slots))
    (replicate (Datatypes.length entries) None) (tasks finish_order entries);
  try_map (fun entry : nat * option MaterializedInputEntry =>
      ok_or entry.2 (SInvalidConfig ("normalize reader materialization missing entry at index "
                                     ++ show_Z (Z.of_nat entry.1))))
    (imap pair materialized_entries).

(** ** Rows into lists *)

Definition push_raw_events (l : list RawInputEvent) (i : NormalizeInputs) : NormalizeInputs :=
  mkInputs (ni_raw_events i ++ l) (ni_symbol_health i) (ni_source_health i) (ni_gap_alerts i) (ni_metadata i).
Definition push_symbol_health (l : list SymbolHealthInput) (i : NormalizeInputs) : NormalizeInputs :=
  mkInputs (ni_raw_events i) (ni_symbol_health i ++ l) (ni_source_health i) (ni_gap_alerts i) (ni_metadata i).
Definition push_source_health (l : list SourceHealthInput) (i : NormalizeInputs) : NormalizeInputs :=
  mkInputs (ni_raw_events i) (ni_symbol_health i) (ni_source_health i ++ l) (ni_gap_alerts i) (ni_metadata i).
Definition push_gap_alerts (l : list GapAlertInput) (i : NormalizeInputs) : NormalizeInputs :=
  mkInputs (ni_raw_events i) (ni_symbol_health i) (ni_source_health i) (ni_gap_alerts i ++ l) (ni_metadata i).

(* rust: src/normalize/read/batch_decode/append.rs append_raw_events *)
Definition append_raw_events (batch : list Row) (i : NormalizeInputs) : result StorageError NormalizeInputs :=
  l ← try_map (raw_event_from_batch col_str col_i64) batch; Ok (push_raw_events l i).

(* rust: src/normalize/read/batch_decode/append.rs append_symbol_health *)
Definition append_symbol_health (batch : list Row) (i : NormalizeInputs) : result StorageError NormalizeInputs :=
  l ← try_map (symbol_health_from_batch col_str col_i64 col_bool) batch; Ok (push_symbol_health l i).

(* rust: src/normalize/read/batch_decode/append.rs append_source_health *)
Definition append_source_health (batch : list Row) (i : NormalizeInputs) : result StorageError NormalizeInputs :=
  l ← try_map (source_health_from_batch col_str col_i64) batch; Ok (push_source_health l i).

(* rust: src/normalize/read/batch_decode/append.rs append_gap_alerts *)
Definition append_gap_alerts (batch : list Row) (i : NormalizeInputs) : result StorageError NormalizeInputs :=
  l ← try_map (gap_alert_from_batch col_str col_i64) batch; Ok (push_gap_alerts l i).

(* rust: src/normalize/read/batch_decode/append.rs append_batch_to_inputs *)
Definition append_batch_to_inputs (family : InputObjectFamily) (batch : list Row) (inputs : NormalizeInputs)
    : result StorageError NormalizeInputs :=
  match family with
  | RawMarketEvent => append_raw_events batch inputs
  | SymbolHealth => append_symbol_health batch inputs
  | SourceHealth => append_source_health batch inputs
  | GapAlert => append_gap_alerts batch inputs
  end.

(** [rows] are those of all batches of the file. *)
(* rust: src/normalize/read/batch_decode.rs append_batches *)
Definition append_batches (key : string) (rows : result StorageError (list Row)) (inputs : NormalizeInputs)
    : result StorageError NormalizeInputs :=
  rows ← rows;
  match family_from_key key with
  | None => Ok inputs
  | Some family => append_batch_to_inputs family rows inputs
  end.

(** ** The two readers *)

Context (list_keys : string -> result StorageError (list string)).
Context (local_files : result StorageError (list (string * string))).

(* rust: src/normalize/read.rs input_entries *)
Definition input_entries (reader : L0InputReader) (range : InputRange) : result StorageError (list InputEntry) :=
  collect_input_entries list_keys local_files range (lr_run_mode reader) (lr_l0_run_key_overlap_ms reader).

(* rust: src/normalize/read/metadata.rs into_normalize_inputs *)
Definition into_normalize_inputs (metadata : BuildInputMetadata) : NormalizeInputs := mkInputs [] [] [] [] metadata.

(** The inputs, and the paths of the files that are removed after reading. *)
(* rust: src/normalize/read/range.rs read_range *)
Definition read_range (finish_order : list nat -> list nat) (reader : L0InputReader) (range : InputRange)
    : result StorageError (NormalizeInputs * list string) :=
  entries ← input_entries reader range;
  let inputs := into_normalize_inputs (metadata_from_entries entries (lr_run_mode reader)) in
  materialized_entries ← materialize_entries finish_order (lr_catchup_session_root reader) entries;
  try_fold (fun (state : NormalizeInputs * list string) materialized =>
      inputs ← append_batches (ie_key (me_entry materialized)) (file_rows (me_local_path materialized)) state.1;
      Ok (inputs, state.2 ++ (if me_remove_after_read materialized then [me_local_path materialized] else [])))
    (inputs, []) materialized_entries.

(* rust: src/normalize/read.rs read_inputs *)
Definition read_inputs (finish_order : list nat -> list nat) (args : NormalizeArgs) (range : InputRange)
    (run_mode : RunMode) (session_id : string) : result StorageError NormalizeInputs :=
  fst <$> read_range finish_order (reader_new args run_mode session_id) range.

(** What folding gets of a task: its entry, and the rows of its file unless downloading or
    reading it fails. *)
Definition downloaded (catchup_session_root : string) (task : nat * InputEntry)
    : InputEntry * result StorageError (list Row) :=
  (task.2, materialized ← materialize_entry catchup_session_root task.1 task.2;
           file_rows (me_local_path materialized.2)).

(* rust: src/normalize/read.rs read_and_build_slices *)
Definition read_and_build_slices (finish_order : list nat -> list nat) (args : NormalizeArgs)
    (input_range scan_range range : InputRange) (run_mode : RunMode) (session_id : string)
    : result StorageError (@BuildResult F) :=
  let reader := reader_new args run_mode session_id in
  entries ← input_entries reader range;
  fold_range (V := V) col_str col_i64 col_bool args input_range scan_range (lr_run_mode reader) entries
    (map (downloaded (lr_catchup_session_root reader)) (tasks finish_order entries)).

(** ** Every entry in its place *)

Lemma tasks_perm finish_order entries : (forall l, finish_order l ≡ₚ l) ->
  tasks finish_order entries ≡ₚ imap pair entries.
Proof.
  intros Hp. unfold tasks. rewrite Hp. clear Hp.
  assert (H : forall k, omap (fun i => pair i <$> entries !! (i - k)%nat) (seq k (Datatypes.length entries))
    = imap (fun i e => ((k + i)%nat, e)) entries).
  { induction entries as [|e entries IH]; intros k; [done|]. cbn [Datatypes.length seq imap omap list_omap].
    rewrite Nat.sub_diag. cbn [lookup list_lookup fmap option_fmap option_map].
    rewrite Nat.add_0_r. f_equal. etransitivity; [|etransitivity; [apply (IH (S k))|]].
    - apply list_omap_ext, Forall2_same_length_lookup_2; [done|].
      intros j a b Ha Hb. rewrite Ha in Hb. injection Hb as <-.
      apply lookup_seq in Ha as [-> _]. by replace (S k + j - k)%nat with (S (S k + j - S k)) by lia.
    - apply imap_ext. intros j x _. cbn. f_equal. lia. }
  specialize (H 0%nat). cbn [Nat.add] in H. change (imap pair entries) with (imap (fun i (e : InputEntry) => (i, e)) entries).
  rewrite <- H. erewrite list_omap_ext; [done|].
  apply Forall2_same_length_lookup_2; [done|]. intros j a b -> [= <-]. by rewrite Nat.sub_0_r.
Qed.

(** The file of an entry, wherever it is. *)
Definition materialized (root : string) (index : nat) (e : InputEntry) (m : MaterializedInputEntry) : Prop :=
  materialize_entry root index e = Ok (index, m) /\ me_entry m = e.

Lemma materialize_own root i e r : materialize_entry root i e = Ok r -> exists m, r = (i, m) /\ materialized root i e m.
Proof.
  unfold materialized, materialize_entry. destruct (ie_path e).
  - intros [= <-]. eauto.
  - destruct (download_file _ _); [|done]. intros [= <-]. eauto.
Qed.

(** Each task that finishes fills its own slot. *)
Lemma slots_filled root ts slots slots' : NoDup ts.*1 -> (forall i, i ∈ ts.*1 -> (i < Datatypes.length slots)%nat) ->
  try_fold (fun (slots : list (option MaterializedInputEntry)) (task : nat * InputEntry) =>
    finished ← materialize_entry root task.1 task.2; Ok (<[finished.1 := Some finished.2]> slots)) slots ts = Ok slots' ->
  Datatypes.length slots' = Datatypes.length slots /\
  (forall t, t ∈ ts -> exists m, materialized root t.1 t.2 m /\ slots' !! t.1 = Some (Some m)) /\
  (forall i, i ∉ ts.*1 -> slots' !! i = slots !! i).
Proof.
  revert slots. induction ts as [|[i e] ts IH]; intros slots Hnd Hlt H; cbn [try_fold] in H.
  { injection H as ->. split_and!; [done|by intros ? ?%elem_of_nil|done]. }
  destruct (materialize_entry root _ _) as [r|] eqn:Em; [|done]. cbn [mbind result_bind] in H.
  destruct (materialize_own _ _ _ _ Em) as (m & -> & Hm). cbn in Hnd, Hlt, H.
  apply NoDup_cons in Hnd as [Hi Hnd]. apply IH in H as (Hl & Hin & Hout); [|done|].
  2: { intros j Hj. rewrite length_insert. apply Hlt. by right. }
  rewrite length_insert in Hl. assert (i < Datatypes.length slots)%nat by (apply Hlt; by left).
  split_and!; [done| |].
  - intros t [->|Ht]%elem_of_cons; [|by apply Hin]. exists m. split; [done|]. cbn.
    rewrite Hout by done. by rewrite list_lookup_insert_eq.
  - intros j. cbn. rewrite not_elem_of_cons. intros [Hne Hj]. rewrite Hout by done. by rewrite list_lookup_insert_ne.
Qed.

Lemma materialize_entries_spec finish_order root entries ms : (forall l, finish_order l ≡ₚ l) ->
  materialize_entries finish_order root entries = Ok ms ->
  Forall2 (fun t m => materialized root t.1 t.2 m) (imap pair entries) ms.
Proof.
  intros Hp H. unfold materialize_entries in H. apply bind_ok in H as (slots & Hs & Hm).
  pose proof (tasks_perm _ entries Hp) as Ht.
  assert (Hidx : (tasks finish_order entries).*1 ≡ₚ seq 0 (Datatypes.length entries)).
  { rewrite Ht, fmap_imap. transitivity (imap (fun i (_ : InputEntry) => id i) entries); [done|].
    by rewrite imap_seq_0, list_fmap_id. }
  apply slots_filled in Hs as (Hl & Hin & _).
  - rewrite length_replicate in Hl. apply try_map_ok_Forall2 in Hm.
    apply Forall2_same_length_lookup_2.
    { rewrite length_imap, <- (Forall2_length _ _ _ Hm), length_imap. by symmetry. }
    intros i t m Hti Hmi. rewrite list_lookup_imap in Hti. apply fmap_Some in Hti as (e & He & ->).
    destruct (Hin (i, e)) as (m' & Hmat & Hslot).
    { rewrite Ht. apply elem_of_lookup_imap. eauto. }
    cbn in *. destruct (Forall2_lookup_r _ _ _ _ _ Hm Hmi) as ([j o] & Hj & Ho).
    rewrite list_lookup_imap, Hslot in Hj. injection Hj as <- <-. cbn in Ho. injection Ho as <-. done.
  - rewrite Hidx. apply NoDup_seq.
  - intros i. rewrite Hidx, elem_of_seq, length_replicate. lia.
Qed.

(** ** Collecting the rows *)

(** The rows of the inputs, in the order in which [build_slices] ingests them. *)
Definition input_rows (i : NormalizeInputs) : list InputRow :=
  map RawRow (ni_raw_events i) ++ map SymbolRow (ni_symbol_health i)
  ++ map SourceRow (ni_source_health i) ++ map GapRow (ni_gap_alerts i).

(** Decoding the rows of a family one by one is decoding them as its type. *)
Lemma try_map_wrapped {A} (f : Row -> result StorageError A) (wrap : A -> InputRow) rows l :
  try_map f rows = Ok l -> try_map (fun row => a ← f row; Ok (wrap a)) rows = Ok (map wrap l).
Proof.
  intros H%try_map_ok_Forall2. apply try_map_ok_Forall2. rewrite Forall2_fmap_r.
  eapply Forall2_impl; [exact H|]. intros row a Ha. cbn in *. by rewrite Ha.
Qed.

Lemma append_batches_rows (d : InputEntry * result StorageError (list Row)) i i' :
  append_batches (ie_key d.1) d.2 i = Ok i' ->
  exists l, decode_file col_str col_i64 col_bool d = Ok l /\
    input_rows i' ≡ₚ input_rows i ++ l /\ ni_metadata i' = ni_metadata i.
Proof.
  unfold append_batches, decode_file. destruct d.2 as [rows|]; [|done]. cbn [mbind result_bind].
  destruct (family_from_key (ie_key d.1)) as [family|].
  2: { intros [= <-]. exists []. by rewrite app_nil_r. }
  unfold append_batch_to_inputs, append_raw_events, append_symbol_health, append_source_health, append_gap_alerts.
  destruct family; intros (l & Hl & [= <-])%bind_ok; eexists;
    (split; [apply try_map_wrapped, Hl|split; [|done]]);
    unfold input_rows; cbn; rewrite map_app, <- !app_assoc.
  - apply Permutation_app_head. rewrite (Permutation_app_comm (map RawRow l)). by rewrite <- !app_assoc.
  - do 2 apply Permutation_app_head. rewrite (Permutation_app_comm (map SymbolRow l)). by rewrite <- !app_assoc.
  - do 3 apply Permutation_app_head. apply Permutation_app_comm.
  - done.
Qed.

Lemma fold_batches_rows root ts ms i removed i' removed' :
  Forall2 (fun (t : nat * InputEntry) m => materialized root t.1 t.2 m) ts ms ->
  try_fold (fun (state : NormalizeInputs * list string) materialized =>
      inputs ← append_batches (ie_key (me_entry materialized)) (file_rows (me_local_path materialized)) state.1;
      Ok (inputs, state.2 ++ (if me_remove_after_read materialized then [me_local_path materialized] else [])))
    (i, removed) ms = Ok (i', removed') ->
  exists files, try_map (decode_file col_str col_i64 col_bool) (map (downloaded root) ts) = Ok files /\
    input_rows i' ≡ₚ input_rows i ++ List.concat files /\ ni_metadata i' = ni_metadata i.
Proof.
  intros Hts. revert i removed. induction Hts as [|t m ts ms Hm _ IH]; intros i removed H; cbn [try_fold] in H.
  { injection H as <- <-. exists []. cbn. by rewrite app_nil_r. }
  destruct Hm as [Hm He]. apply bind_ok in H as ([i1 r1] & H1 & H). apply bind_ok in H1 as (i2 & Hb & [= <- <-]).
  assert (Hd : downloaded root t = (t.2, file_rows (me_local_path m))).
  { unfold downloaded. by rewrite Hm. }
  rewrite He in Hb. cbn [fst] in Hb. apply (append_batches_rows (t.2, _)) in Hb as (l & Hl & Hp & Hmd).
  apply IH in H as (files & Hf & Hp' & Hmd'). exists (l :: files). cbn [map try_map]. rewrite Hd, Hl.
  cbn [mbind result_bind]. rewrite Hf. split; [done|]. cbn [List.concat].
  split; [|by rewrite Hmd', Hmd]. by rewrite Hp', Hp, <- app_assoc.
Qed.

(** C7: What the program builds while the files arrive, in whatever order, is what building
    from the collected inputs gives: if the inputs of the range can be read, folding them
    succeeds, and on input that names things consistently the slices (but for the traded
    volume, a floating-point sum), the status, the keys and the counters are the same. *)
Theorem streamed_build_is_batch_build (finish_order finish_order' : list nat -> list nat)
    (args : NormalizeArgs) (input_range scan_range range : InputRange) (n : nat) (run_mode : RunMode)
    (session_id : string) (inputs : NormalizeInputs) :
  (forall l, finish_order l ≡ₚ l) -> (forall l, finish_order' l ≡ₚ l) ->
  windowed args input_range n ->
  read_inputs finish_order args range run_mode session_id = Ok inputs ->
  consistent args input_range scan_range (input_rows inputs) ->
  exists b, read_and_build_slices finish_order' args input_range scan_range range run_mode session_id = Ok b /\
    outcome b = outcome (build_slices (V := V) args input_range scan_range inputs).
Proof.
  intros Ho Ho' Hw Hread Hc. unfold read_inputs in Hread.
  destruct (read_range _ _ _) as [[i removed]|] eqn:Hr; [|done]. injection Hread as ->.
  unfold read_range in Hr. apply bind_ok in Hr as (entries & He & Hr). cbv zeta in Hr.
  apply bind_ok in Hr as (ms & Hms & Hr). apply materialize_entries_spec in Hms; [|done].
  eapply fold_batches_rows in Hr as (files & Hf & Hp & Hmd); [|exact Hms]. cbn in Hp.
  assert (Ht : map (downloaded (lr_catchup_session_root (reader_new args run_mode session_id)))
      (imap pair entries) ≡ₚ
    map (downloaded (lr_catchup_session_root (reader_new args run_mode session_id))) (tasks finish_order' entries)).
  { apply Permutation_map. symmetry. by apply tasks_perm. }
  destruct (try_map_perm _ _ _ _ Ht Hf) as (files' & Hf' & Hff).
  unfold read_and_build_slices. rewrite He. cbn [mbind result_bind]. rewrite fold_range_decoded, Hf'.
  eexists. split; [done|]. unfold build_slices, build_rows. rewrite Hmd. cbn [ni_metadata into_normalize_inputs].
  assert (Hp' : List.concat files' ≡ₚ input_rows inputs) by (rewrite Hp; symmetry; by apply concat_perm_files).
  symmetry. apply (same_outcome (V := V) args input_range scan_range n); [done|by symmetry|done].
Qed.
End reader.

(** ** Two objects, read and folded *)

#[local] Existing Instance L1BuildFacts.sample_lib.
#[local] Existing Instance L1BuildFacts.sample_float.
#[local] Existing Instance L1BuildFacts.sample_json.

Definition first_key : string := "raw_market_event/venue=binance/event_type=trade/a.parquet".
Definition second_key : string := "raw_market_event/venue=binance/event_type=trade/b.parquet".
Definition sample_bucket (prefix : string) : result StorageError (list string) :=
  Ok (if starts_with "raw_market_event/venue=binance/event_type=trade/" prefix then [first_key; second_key] else []).
Definition sample_rows_at (path : string) : result StorageError (list (list (string * sample_cell))) :=
  if ends_with "a.parquet" path then first_file.2 else second_file.2.

Definition sample_inputs : result StorageError NormalizeInputs :=
  read_inputs cell_str cell_i64 L1BuildFacts.cell_bool (fun _ _ => Ok ()) (fun _ => None) sample_rows_at
    sample_bucket (Ok []) (fun l => l) sample_args sample_input CatchUp "s".

Lemma sample_inputs_rows : input_rows <$> sample_inputs =
  Ok [RawRow sample_trade; RawRow sample_book; RawRow (sample_event 4 "trade" 1250 "p=50001;q=1"); RawRow sample_trade].
Proof. by vm_compute. Qed.

Lemma streamed_build_is_batch_build_witness : exists inputs b, sample_inputs = Ok inputs /\
  read_and_build_slices (V := list (string * string)) (F := Z) cell_str cell_i64 L1BuildFacts.cell_bool
    (fun _ _ => Ok ()) (fun _ => None) sample_rows_at sample_bucket (Ok []) (@rev nat) sample_args
    sample_input sample_scan sample_input CatchUp "s" = Ok b /\
  outcome b = outcome (build_slices (V := list (string * string)) (F := Z) sample_args sample_input sample_scan inputs).
Proof.
  pose proof sample_inputs_rows as Hr. destruct sample_inputs as [inputs|] eqn:E; [|done]. injection Hr as Hr.
  destruct (streamed_build_is_batch_build (V := list (string * string)) (F := Z) cell_str cell_i64
    L1BuildFacts.cell_bool (fun _ _ => Ok ()) (fun _ => None) sample_rows_at sample_bucket (Ok [])
    (fun l => l) (@rev nat) sample_args sample_input sample_scan sample_input 2 CatchUp "s" inputs) as (b & Hb & Ho).
  - done.
  - intros l. symmetry. apply Permutation_rev.
  - exact sample_windowed.
  - exact E.
  - rewrite Hr. exact sample_consistent_rows.
  - exists inputs, b. split; [exact eq_refl|]. split; [exact Hb|exact Ho].
Defined.
