(* ===== verification/SliceColumns.v ===== *)
(** * SliceColumns: the Parquet files of the L1 layer

    The schema of a normalized slice and the columns it is written with
    ([normalize/write_schema.rs], [normalize/write]).  The nested columns go through Arrow's
    struct and list builders, which are the class [Builders]; their documented behaviour is
    [BuilderLaws]. *)
From S2P Require Import Prelude Text OrderedMap Records Columns L1Build.
Open Scope Z_scope.

(** ** The schema *)

(* rust: src/normalize/write_schema.rs field *)
Definition field (name : string) (data_type : DataType) : Field := mkField name data_type false.

(* rust: src/normalize/write_schema.rs nullable_field *)
Definition nullable_field (name : string) (data_type : DataType) : Field := mkField name data_type true.

(* rust: src/normalize/write_schema.rs string_list_type *)
Definition string_list_type : DataType := ListOf (mkField "item" Utf8 true).

(* rust: src/normalize/write_schema.rs list_struct_type *)
Definition list_struct_type (fields : list Field) : DataType := ListOf (mkField "item" (Struct fields) true).

(* rust: src/normalize/write_schema.rs trade_fields *)
Definition trade_fields : list Field :=
  [field "exchange_timestamp_ms" Int64; field "ingest_timestamp_ms" Int64; field "price" Float64;
   field "quantity" Float64; field "side" Utf8; nullable_field "exchange_sequence" Int64;
   field "parent_event_id" Utf8].

(* rust: src/normalize/write_schema.rs book_fields *)
Definition book_fields : list Field :=
  [field "exchange_timestamp_ms" Int64; field "ingest_timestamp_ms" Int64; field "best_bid" Float64;
   field "best_bid_qty" Float64; field "best_ask" Float64; field "best_ask_qty" Float64;
   nullable_field "exchange_sequence" Int64; field "parent_event_id" Utf8].

(* rust: src/normalize/write_schema.rs compact_fields *)
Definition compact_fields : list Field :=
  [field "exchange_timestamp_ms" Int64; field "ingest_timestamp_ms" Int64; field "event_type" Utf8;
   field "parent_event_id" Utf8].

(* rust: src/normalize/write_schema.rs symbol_health_fields *)
Definition symbol_health_fields : list Field :=
  [field "observed_at_ms" Int64; field "last_event_time_ms" Int64; field "last_received_time_ms" Int64;
   field "latency_ms" Int64; field "is_tradeable" Boolean; field "reason_codes" string_list_type].

(* rust: src/normalize/write_schema.rs source_health_fields *)
Definition source_health_fields : list Field :=
  [field "observed_at_ms" Int64; field "connection_status" Utf8; field "health_level" Utf8;
   field "heartbeat_delay_ms" Int64; field "stream_lag_ms" Int64; field "recent_gap_count" Int64;
   field "book_rebuild_count" Int64].

(* rust: src/normalize/write_schema.rs slice_schema *)
Definition slice_schema : list Field :=
  [field "schema_version" Utf8; field "slice_id" Utf8; field "venue" Utf8; field "source_role" Utf8;
   field "symbol_native" Utf8; field "symbol_canonical" Utf8; field "base_asset" Utf8;
   field "quote_asset" Utf8; field "market_type" Utf8; field "window_ms" Int64;
   field "window_start_ms" Int64; field "window_end_ms" Int64; field "slice_completeness" Utf8;
   field "missing_reasons" string_list_type; field "quality_ok" Int64; field "quality_delayed" Int64;
   field "quality_stale" Int64; field "quality_gap" Int64; field "quality_invalid" Int64;
   field "trade_count" Int64; field "trade_volume" Float64; nullable_field "last_trade_price" Float64;
   nullable_field "last_trade_size" Float64; nullable_field "best_bid" Float64;
   nullable_field "best_ask" Float64; nullable_field "mid_price" Float64;
   nullable_field "spread_bps" Float64; field "book_ticker_count" Int64;
   field "depth_event_count" Int64; field "depth_book_rebuilt" Boolean;
   field "trade_events" (list_struct_type trade_fields);
   field "book_ticker_events" (list_struct_type book_fields);
   field "depth_events" (list_struct_type compact_fields);
   field "ticker_events" (list_struct_type compact_fields);
   nullable_field "symbol_health_snapshot" (Struct symbol_health_fields);
   nullable_field "source_health_snapshot" (Struct source_health_fields);
   field "parent_event_ids" string_list_type; field "parent_run_ids" string_list_type].

(** ** Builders *)

(** The builders a struct builder may hold. *)
Inductive BuilderKind := KInt64 | KFloat64 | KBoolean | KString | KStrings.
#[export] Instance BuilderKind_eq_dec : EqDecision BuilderKind.
Proof. solve_decision. Defined.

(** Arrow's builders.  [child k] is the builder of a kind; an append of a value or of null is
    one operation; [c_item] appends to the open list of a list builder and [c_close] ends
    that list.  [sb_field_builder] and [sl_values] borrow a builder inside another, and
    [sb_write_back] and [sl_set_values] are what the borrow does when it ends.
    [None] of a [finish] is a panic. *)
Class Builders (F Array : Type) := {
  arr_floats : list (option F) -> Array;
  child : BuilderKind -> Type;
  c_int64 : option Z -> child KInt64 -> child KInt64;
  c_float64 : F -> child KFloat64 -> child KFloat64;
  c_boolean : option bool -> child KBoolean -> child KBoolean;
  c_string : option string -> child KString -> child KString;
  c_item : string -> child KStrings -> child KStrings;
  c_close : bool -> child KStrings -> child KStrings;
  strings_new : child KStrings;
  strings_finish : child KStrings -> option Array;
  StructBuilder : Type;
  sb_new : list Field -> list BuilderKind -> StructBuilder;
  sb_from_fields : list Field -> nat -> StructBuilder;
  sb_field_builder : forall k, nat -> StructBuilder -> option (child k);
  sb_write_back : forall k, nat -> child k -> StructBuilder -> StructBuilder;
  sb_append : bool -> StructBuilder -> StructBuilder;
  sb_finish : StructBuilder -> option Array;
  StructList : Type;
  sl_new : StructBuilder -> StructList;
  sl_values : StructList -> StructBuilder;
  sl_set_values : StructBuilder -> StructList -> StructList;
  sl_append : bool -> StructList -> StructList;
  sl_finish : StructList -> option Array;
}.

(** How writing a slice can end other than well. *)
Inductive WriteFailure := Failed (e : StorageError) | Panicked.

Section columns.
Context {F Array Batch File : Type} {A : Arrow Array Batch File} {B : Builders F Array}.
Abbreviation SliceRow := (SliceRow (F := F)).

(* rust: src/normalize/write/primitive.rs string_const_col *)
Definition string_const_col (len : nat) (value : string) : Array := arr_strings (map (fun _ => value) (seq 0 len)).

(* rust: src/normalize/write/primitive.rs string_col *)
Definition string_col (rows : list SliceRow) (value : SliceRow -> string) : Array := arr_strings (map value rows).

(* rust: src/normalize/write/primitive.rs int64_col *)
Definition int64_col (rows : list SliceRow) (value : SliceRow -> Z) : Array :=
  arr_int64s (map (fun row => Some (value row)) rows).

(* rust: src/normalize/write/primitive.rs float64_col *)
Definition float64_col (rows : list SliceRow) (value : SliceRow -> option F) : Array :=
  arr_floats (map value rows).

(* rust: src/normalize/write/primitive.rs bool_col *)
Definition bool_col (rows : list SliceRow) (value : SliceRow -> bool) : Array :=
  arr_bools (map (fun row => Some (value row)) rows).

(** [builder.finish()] *)
Definition finished (a : option Array) : result WriteFailure Array := ok_or a Panicked.

(* rust: src/normalize/write/primitive.rs string_list_col *)
Definition string_list_col (rows : list SliceRow) (value : SliceRow -> list string) : result WriteFailure Array :=
  finished (strings_finish (fold_left (fun builder row =>
    c_close true (fold_left (fun builder item => c_item item builder) (value row) builder)) rows strings_new)).

(** The borrowed builder, and what writing through the borrow does. *)
(* rust: src/normalize/write/primitive.rs struct_field_mut *)
Definition struct_field_mut (k : BuilderKind) (builder : StructBuilder) (field_index : nat) (field_name : string)
    : result StorageError (child k * (child k -> StructBuilder)) :=
  ok_or ((fun c => (c, fun c => sb_write_back k field_index c builder)) <$> sb_field_builder k field_index builder)
    (SInvalidConfig ("normalize writer schema mismatch: field `" ++ field_name ++ "` at index " ++
       show_Z (Z.of_nat field_index) ++ " has unexpected builder type")).

(** A field is appended to through its borrow. *)
Definition with_field (k : BuilderKind) (field_index : nat) (field_name : string) (append : child k -> child k)
    (builder : StructBuilder) : result StorageError StructBuilder :=
  borrowed ← struct_field_mut k builder field_index field_name;
  Ok (borrowed.2 (append borrowed.1)).

(* rust: src/normalize/write/primitive.rs append_i64_optional *)
Definition append_i64_optional (builder : StructBuilder) (field_index : nat) (field_name : string)
    (value : option Z) : result StorageError StructBuilder :=
  with_field KInt64 field_index field_name
    (match value with Some value => c_int64 (Some value) | None => c_int64 None end) builder.

(* rust: src/normalize/write/primitive.rs append_struct_string_list *)
Definition append_struct_string_list (builder : StructBuilder) (field_index : nat) (field_name : string)
    (values : list string) : result StorageError StructBuilder :=
  with_field KStrings field_index field_name
    (fun list => c_close true (fold_left (fun list value => c_item value list) values list)) builder.

(** ** Columns of events *)

(* rust: src/normalize/write/events.rs 15-26 trade_events_col *)
Definition append_trade (values : StructBuilder) (trade : TradeNormalized (F := F)) : result StorageError StructBuilder :=
  values ← with_field KInt64 0 "exchange_timestamp_ms" (c_int64 (Some (tn_exchange_timestamp_ms trade))) values;
  values ← with_field KInt64 1 "ingest_timestamp_ms" (c_int64 (Some (tn_ingest_timestamp_ms trade))) values;
  values ← with_field KFloat64 2 "price" (c_float64 (tn_price trade)) values;
  values ← with_field KFloat64 3 "quantity" (c_float64 (tn_quantity trade)) values;
  values ← with_field KString 4 "side" (c_string (Some (tn_side trade))) values;
  values ← append_i64_optional values 5 "exchange_sequence" (tn_exchange_sequence trade);
  values ← with_field KString 6 "parent_event_id" (c_string (Some (tn_parent_event_id trade))) values;
  Ok (sb_append true values).

(* rust: src/normalize/write/events.rs 37-51 book_ticker_events_col *)
Definition append_book (values : StructBuilder) (book : BookTickerNormalized (F := F)) : result StorageError StructBuilder :=
  values ← with_field KInt64 0 "exchange_timestamp_ms" (c_int64 (Some (bn_exchange_timestamp_ms book))) values;
  values ← with_field KInt64 1 "ingest_timestamp_ms" (c_int64 (Some (bn_ingest_timestamp_ms book))) values;
  values ← with_field KFloat64 2 "best_bid" (c_float64 (bn_best_bid book)) values;
  values ← with_field KFloat64 3 "best_bid_qty" (c_float64 (bn_best_bid_qty book)) values;
  values ← with_field KFloat64 4 "best_ask" (c_float64 (bn_best_ask book)) values;
  values ← with_field KFloat64 5 "best_ask_qty" (c_float64 (bn_best_ask_qty book)) values;
  values ← append_i64_optional values 6 "exchange_sequence" (bn_exchange_sequence book);
  values ← with_field KString 7 "parent_event_id" (c_string (Some (bn_parent_event_id book))) values;
  Ok (sb_append true values).

(* rust: src/normalize/write/events.rs 65-74 compact_events_col *)
Definition append_compact (values : StructBuilder) (event : CompactEventRef) : result StorageError StructBuilder :=
  values ← with_field KInt64 0 "exchange_timestamp_ms" (c_int64 (Some (ce_exchange_timestamp_ms event))) values;
  values ← with_field KInt64 1 "ingest_timestamp_ms" (c_int64 (Some (ce_ingest_timestamp_ms event))) values;
  values ← with_field KString 2 "event_type" (c_string (Some (ce_event_type event))) values;
  values ← with_field KString 3 "parent_event_id" (c_string (Some (ce_parent_event_id event))) values;
  Ok (sb_append true values).

(** The loops the three columns share: the events of a row are appended to the values of
    the list builder, and the row ends its list. *)
Definition struct_list_col {E} (fields : list Field) (append : StructBuilder -> E -> result StorageError StructBuilder)
    (rows : list SliceRow) (events : SliceRow -> list E) : result WriteFailure Array :=
  builder ← map_err Failed (try_fold (fun builder row =>
    builder ← try_fold (fun builder event =>
      values ← append (sl_values builder) event; Ok (sl_set_values values builder)) builder (events row);
    Ok (sl_append true builder)) (sl_new (sb_from_fields fields 0)) rows);
  finished (sl_finish builder).

(* rust: src/normalize/write/events.rs trade_events_col *)
Definition trade_events_col (rows : list SliceRow) : result WriteFailure Array :=
  struct_list_col trade_fields append_trade rows sl_trade_events.

(* rust: src/normalize/write/events.rs book_ticker_events_col *)
Definition book_ticker_events_col (rows : list SliceRow) : result WriteFailure Array :=
  struct_list_col book_fields append_book rows sl_book_ticker_events.

(* rust: src/normalize/write/events.rs compact_events_col *)
Definition compact_events_col (rows : list SliceRow) (value : SliceRow -> list CompactEventRef)
    : result WriteFailure Array := struct_list_col compact_fields append_compact rows value.

(** ** Columns of health snapshots *)

(* rust: src/normalize/write/health.rs symbol_health_builder *)
Definition symbol_health_builder : StructBuilder :=
  sb_new symbol_health_fields [KInt64; KInt64; KInt64; KInt64; KBoolean; KStrings].

(* rust: src/normalize/write/health.rs source_health_builder *)
Definition source_health_builder : StructBuilder :=
  sb_new source_health_fields [KInt64; KString; KString; KInt64; KInt64; KInt64; KInt64].

(* rust: src/normalize/write/health.rs append_null_symbol_health *)
Definition append_null_symbol_health (builder : StructBuilder) : result StorageError StructBuilder :=
  builder ← with_field KInt64 0 "observed_at_ms" (c_int64 None) builder;
  builder ← with_field KInt64 1 "last_event_time_ms" (c_int64 None) builder;
  builder ← with_field KInt64 2 "last_received_time_ms" (c_int64 None) builder;
  builder ← with_field KInt64 3 "latency_ms" (c_int64 None) builder;
  builder ← with_field KBoolean 4 "is_tradeable" (c_boolean None) builder;
  builder ← with_field KStrings 5 "reason_codes" (c_close false) builder;
  Ok (sb_append false builder).

(* rust: src/normalize/write/health.rs append_null_source_health *)
Definition append_null_source_health (builder : StructBuilder) : result StorageError StructBuilder :=
  builder ← with_field KInt64 0 "observed_at_ms" (c_int64 None) builder;
  builder ← with_field KString 1 "connection_status" (c_string None) builder;
  builder ← with_field KString 2 "health_level" (c_string None) builder;
  builder ← with_field KInt64 3 "heartbeat_delay_ms" (c_int64 None) builder;
  builder ← with_field KInt64 4 "stream_lag_ms" (c_int64 None) builder;
  builder ← with_field KInt64 5 "recent_gap_count" (c_int64 None) builder;
  builder ← with_field KInt64 6 "book_rebuild_count" (c_int64 None) builder;
  Ok (sb_append false builder).

(* rust: src/normalize/write/health.rs 14-29 symbol_health_col *)
Definition append_symbol_health (builder : StructBuilder) (snapshot : option SymbolHealthSnapshot)
    : result StorageError StructBuilder :=
  match snapshot with
  | Some snapshot =>
      builder ← with_field KInt64 0 "observed_at_ms" (c_int64 (Some (ss_observed_at_ms snapshot))) builder;
      builder ← with_field KInt64 1 "last_event_time_ms" (c_int64 (Some (ss_last_event_time_ms snapshot))) builder;
      builder ← with_field KInt64 2 "last_received_time_ms" (c_int64 (Some (ss_last_received_time_ms snapshot))) builder;
      builder ← with_field KInt64 3 "latency_ms" (c_int64 (Some (ss_latency_ms snapshot))) builder;
      builder ← with_field KBoolean 4 "is_tradeable" (c_boolean (Some (ss_is_tradeable snapshot))) builder;
      builder ← append_struct_string_list builder 5 "reason_codes" (ss_reason_codes snapshot);
      Ok (sb_append true builder)
  | None => append_null_symbol_health builder
  end.

(* rust: src/normalize/write/health.rs 37-55 source_health_col *)
Definition append_source_health (builder : StructBuilder) (snapshot : option SourceHealthSnapshot)
    : result StorageError StructBuilder :=
  match snapshot with
  | Some snapshot =>
      builder ← with_field KInt64 0 "observed_at_ms" (c_int64 (Some (hs_observed_at_ms snapshot))) builder;
      builder ← with_field KString 1 "connection_status" (c_string (Some (hs_connection_status snapshot))) builder;
      builder ← with_field KString 2 "health_level" (c_string (Some (hs_health_level snapshot))) builder;
      builder ← with_field KInt64 3 "heartbeat_delay_ms" (c_int64 (Some (hs_heartbeat_delay_ms snapshot))) builder;
      builder ← with_field KInt64 4 "stream_lag_ms" (c_int64 (Some (hs_stream_lag_ms snapshot))) builder;
      builder ← with_field KInt64 5 "recent_gap_count" (c_int64 (Some (hs_recent_gap_count snapshot))) builder;
      builder ← with_field KInt64 6 "book_rebuild_count" (c_int64 (Some (hs_book_rebuild_count snapshot))) builder;
      Ok (sb_append true builder)
  | None => append_null_source_health builder
  end.

(** The loop of both columns. *)
Definition struct_col {E} (builder : StructBuilder) (append : StructBuilder -> E -> result StorageError StructBuilder)
    (rows : list SliceRow) (snapshot : SliceRow -> E) : result WriteFailure Array :=
  builder ← map_err Failed (try_fold (fun builder row => append builder (snapshot row)) builder rows);
  finished (sb_finish builder).

(* rust: src/normalize/write/health.rs symbol_health_col *)
Definition symbol_health_col (rows : list SliceRow) : result WriteFailure Array :=
  struct_col symbol_health_builder append_symbol_health rows sl_symbol_health_snapshot.

(* rust: src/normalize/write/health.rs source_health_col *)
Definition source_health_col (rows : list SliceRow) : result WriteFailure Array :=
  struct_col source_health_builder append_source_health rows sl_source_health_snapshot.

(** ** The file *)

(* rust: src/normalize/write/slice.rs 27-66 write_slice_parquet_refs *)
Definition slice_columns (rows : list SliceRow) : result WriteFailure (list Array) :=
  missing_reasons ← string_list_col rows sl_missing_reasons;
  trade_events ← trade_events_col rows;
  book_ticker_events ← book_ticker_events_col rows;
  depth_events ← compact_events_col rows sl_depth_events;
  ticker_events ← compact_events_col rows sl_ticker_events;
  symbol_health ← symbol_health_col rows;
  source_health ← source_health_col rows;
  parent_event_ids ← string_list_col rows sl_parent_event_ids;
  parent_run_ids ← string_list_col rows sl_parent_run_ids;
  Ok [string_const_col (Datatypes.length rows) "normalized_market_slice_v1";
      string_col rows sl_slice_id; string_col rows sl_venue; string_col rows sl_source_role;
      string_col rows sl_symbol_native; string_col rows sl_symbol_canonical;
      string_col rows sl_base_asset; string_col rows sl_quote_asset; string_col rows sl_market_type;
      int64_col rows sl_window_ms; int64_col rows sl_window_start_ms; int64_col rows sl_window_end_ms;
      string_col rows sl_slice_completeness; missing_reasons;
      int64_col rows sl_quality_ok; int64_col rows sl_quality_delayed;
      int64_col rows sl_quality_stale; int64_col rows sl_quality_gap;
      int64_col rows sl_quality_invalid; int64_col rows sl_trade_count;
      float64_col rows (fun row => Some (sl_trade_volume row));
      float64_col rows sl_last_trade_price; float64_col rows sl_last_trade_size;
      float64_col rows sl_best_bid; float64_col rows sl_best_ask; float64_col rows sl_mid_price;
      float64_col rows sl_spread_bps; int64_col rows sl_book_ticker_count;
      int64_col rows sl_depth_event_count; bool_col rows sl_depth_book_rebuilt;
      trade_events; book_ticker_events; depth_events; ticker_events; symbol_health; source_health;
      parent_event_ids; parent_run_ids].

(** [create_parent] is the creation of the directory; creating the file and writing and
    closing the Parquet writer is [pq_write]. *)
(* rust: src/normalize/write/slice.rs write_slice_parquet_refs *)
Definition write_slice_parquet_refs (create_parent : result StorageError ()) (rows : list SliceRow)
    : result WriteFailure File :=
  _ ← map_err Failed create_parent;
  columns ← slice_columns rows;
  batch ← map_err (fun e => Failed (SArrow e)) (rb_try_new slice_schema columns);
  map_err Failed (pq_write slice_schema batch).

(* rust: src/normalize/write/slice.rs write_slice_parquet *)
Definition write_slice_parquet (create_parent : result StorageError ()) (rows : list SliceRow)
    : result WriteFailure File := write_slice_parquet_refs create_parent rows.
End columns.
