(* ===== verification/SliceRoundTrip.v ===== *)
(** * SliceRoundTrip: a slice file holds its slices

    The documented behaviour of Arrow's builders, a library that keeps it, and what follows
    for [SliceColumns]: the columns are built without a mismatch or a panic, they fit the
    schema, and reading them by the names of the schema gives every slice back. *)
From S2P Require Import Prelude Text OrderedMap Records Columns L1Build SliceColumns.
Open Scope Z_scope.
Open Scope list_scope.

(** ** Values *)

(** What a place of an array holds. *)
Inductive Value (F : Type) :=
  VNull | VInt (z : Z) | VFloat (f : F) | VBool (b : bool) | VStr (s : string)
  | VList (l : list (Value F)) | VStruct (l : list (Value F)).
Arguments VNull {F}.
Arguments VInt {F}.
Arguments VFloat {F}.
Arguments VBool {F}.
Arguments VStr {F}.
Arguments VList {F}.
Arguments VStruct {F}.

Definition is_null {F} (v : Value F) : bool := match v with VNull => true | _ => false end.

Definition nullable_value {F A} (mk : A -> Value F) (o : option A) : Value F :=
  match o with Some a => mk a | None => VNull end.

Definition string_values {F} (l : list string) : list (Value F) := map VStr l.

(** ** Equality of types *)

Fixpoint type_eqb (a b : DataType) : bool :=
  match a, b with
  | Utf8, Utf8 | Int64, Int64 | Boolean, Boolean | Float64, Float64 => true
  | ListOf f, ListOf g => field_eqb f g
  | Struct fs, Struct gs =>
      (fix go (fs gs : list Field) : bool :=
         match fs, gs with
         | [], [] => true
         | f :: fs, g :: gs => field_eqb f g && go fs gs
         | _, _ => false
         end) fs gs
  | _, _ => false
  end
with field_eqb (f g : Field) : bool :=
  match f, g with
  | mkField n t u, mkField m s v => String.eqb n m && type_eqb t s && Bool.eqb u v
  end.

Fixpoint type_eqb_refl (a : DataType) : type_eqb a a = true
with field_eqb_refl (f : Field) : field_eqb f f = true.
Proof.
  - destruct a as [| | | |f|fs]; cbn; [done..|apply field_eqb_refl|].
    induction fs as [|f fs IH]; [done|]. rewrite field_eqb_refl. exact IH.
  - destruct f as [n t u]. cbn. by rewrite String.eqb_refl, type_eqb_refl, Bool.eqb_reflx.
Qed.

(** ** What a builder holds *)

(** A builder inside a struct: its finished places and the items of its open list. *)
Record ChildView (F : Type) := mkView {
  cv_kind : BuilderKind; cv_places : list (Value F); cv_open : list (Value F) }.
Arguments mkView {F}.
Arguments cv_kind {F}.
Arguments cv_places {F}.
Arguments cv_open {F}.

(** A struct builder: its fields, its children, and which rows are not null. *)
Record StructView (F : Type) := mkStruct {
  sv_fields : list Field; sv_children : list (ChildView F); sv_rows : list bool }.
Arguments mkStruct {F}.
Arguments sv_fields {F}.
Arguments sv_children {F}.
Arguments sv_rows {F}.

Definition append_place {F} (v : Value F) (c : ChildView F) : ChildView F :=
  mkView (cv_kind c) (cv_places c ++ [v]) (cv_open c).
Definition append_item {F} (v : Value F) (c : ChildView F) : ChildView F :=
  mkView (cv_kind c) (cv_places c) (cv_open c ++ [v]).
Definition close_list {F} (valid : bool) (c : ChildView F) : ChildView F :=
  mkView (cv_kind c) (cv_places c ++ [if valid then VList (cv_open c) else VNull]) [].

Definition empty_child {F} (k : BuilderKind) : ChildView F := mkView k [] [].

Definition kind_type (k : BuilderKind) : DataType :=
  match k with
  | KInt64 => Int64 | KFloat64 => Float64 | KBoolean => Boolean | KString => Utf8
  | KStrings => string_list_type
  end.

(** [from_fields] makes the primitive builders of the types of the fields. *)
Definition scalar_kind (t : DataType) : option BuilderKind :=
  match t with
  | Int64 => Some KInt64 | Float64 => Some KFloat64 | Boolean => Some KBoolean | Utf8 => Some KString
  | _ => None
  end.

(** The rows of a struct builder. *)
Definition struct_values {F} (v : StructView F) : list (Value F) :=
  imap (fun i (valid : bool) =>
    if valid then VStruct (map (fun c => nth i (cv_places c) VNull) (sv_children v)) else VNull) (sv_rows v).

(** What [finish] of a struct builder asks for: as many places in every child as rows, of
    the type of the field, and no null in a row that is not null where the field allows none. *)
Definition coherent {F} (v : StructView F) : bool :=
  forallb2 (fun f c =>
    type_eqb (fd_type f) (kind_type (cv_kind c)) && is_nil (cv_open c)
    && Nat.eqb (Datatypes.length (cv_places c)) (Datatypes.length (sv_rows v))
    && (fd_nullable f || forallb2 (fun place (valid : bool) => negb (is_null place && valid)) (cv_places c) (sv_rows v)))
  (sv_fields v) (sv_children v).

(** The lists that end at the given lengths of the values. *)
Fixpoint cut {V} (start : nat) (ends : list nat) (values : list V) : list (list V) :=
  match ends with
  | [] => []
  | e :: ends => take (e - start) (drop start values) :: cut e ends values
  end.

(** The documented behaviour of the builders. *)
Class BuilderLaws (F Array Batch File : Type) {A : Arrow Array Batch File} {HA : ArrowLaws Array Batch File}
    {B : Builders F Array} := {
  contents : Array -> list (Value F);
  contents_strings : forall l, contents (arr_strings l) = map VStr l;
  contents_int64s : forall l, contents (arr_int64s l) = map (nullable_value VInt) l;
  contents_bools : forall l, contents (arr_bools l) = map (nullable_value VBool) l;
  contents_floats : forall l, contents (arr_floats l) = map (nullable_value VFloat) l;
  fits_floats : forall f l, fd_type f = Float64 -> fd_nullable f = true \/ Forall is_Some l ->
    arr_fits f (Datatypes.length l) (arr_floats l);
  child_view : forall k, child k -> ChildView F;
  struct_view : StructBuilder -> StructView F;
  list_ends : StructList -> list nat;
  view_kind : forall k (c : child k), cv_kind (child_view k c) = k;
  view_int64 : forall v c, child_view _ (c_int64 v c) = append_place (nullable_value VInt v) (child_view _ c);
  view_float64 : forall v c, child_view _ (c_float64 v c) = append_place (VFloat v) (child_view _ c);
  view_boolean : forall v c, child_view _ (c_boolean v c) = append_place (nullable_value VBool v) (child_view _ c);
  view_string : forall v c, child_view _ (c_string v c) = append_place (nullable_value VStr v) (child_view _ c);
  view_item : forall v c, child_view _ (c_item v c) = append_item (VStr v) (child_view _ c);
  view_close : forall valid c, child_view _ (c_close valid c) = close_list valid (child_view _ c);
  view_strings_new : child_view _ strings_new = empty_child KStrings;
  strings_finish_ok : forall c, cv_open (child_view _ c) = [] ->
    exists a, strings_finish c = Some a /\ contents a = cv_places (child_view _ c) /\
      forall f, fd_type f = string_list_type ->
        fd_nullable f = true \/ Forall (fun v => is_null v = false) (cv_places (child_view _ c)) ->
        arr_fits f (Datatypes.length (cv_places (child_view _ c))) a;
  view_new : forall fields kinds, map fd_type fields = map kind_type kinds ->
    struct_view (sb_new fields kinds) = mkStruct fields (map empty_child kinds) [];
  view_from_fields : forall fields capacity kinds, map (fun f => scalar_kind (fd_type f)) fields = map Some kinds ->
    struct_view (sb_from_fields fields capacity) = mkStruct fields (map empty_child kinds) [];
  view_field : forall b i v, sv_children (struct_view b) !! i = Some v ->
    exists c, sb_field_builder (cv_kind v) i b = Some c /\ child_view _ c = v;
  view_write_back : forall b k i c, struct_view (sb_write_back k i c b) =
    mkStruct (sv_fields (struct_view b)) (<[i := child_view k c]> (sv_children (struct_view b))) (sv_rows (struct_view b));
  view_append : forall b valid, struct_view (sb_append valid b) =
    mkStruct (sv_fields (struct_view b)) (sv_children (struct_view b)) (sv_rows (struct_view b) ++ [valid]);
  sb_finish_ok : forall b, coherent (struct_view b) = true ->
    exists a, sb_finish b = Some a /\ contents a = struct_values (struct_view b) /\
      forall f, fd_type f = Struct (sv_fields (struct_view b)) -> fd_nullable f = true ->
        arr_fits f (Datatypes.length (sv_rows (struct_view b))) a;
  list_new : forall b, sl_values (sl_new b) = b /\ list_ends (sl_new b) = [];
  list_set : forall b l, sl_values (sl_set_values b l) = b /\ list_ends (sl_set_values b l) = list_ends l;
  list_append : forall l, sl_values (sl_append true l) = sl_values l /\
    list_ends (sl_append true l) = list_ends l ++ [Datatypes.length (sv_rows (struct_view (sl_values l)))];
  sl_finish_ok : forall l, coherent (struct_view (sl_values l)) = true ->
    exists a, sl_finish l = Some a /\
      contents a = map VList (cut 0 (list_ends l) (struct_values (struct_view (sl_values l)))) /\
      forall f, fd_type f = list_struct_type (sv_fields (struct_view (sl_values l))) ->
        arr_fits f (Datatypes.length (list_ends l)) a;
}.

(** ** Struct rows in a builder *)

(** The value of a row at a child: a null row leaves a null in every child. *)
Definition cell_at {F} (i : nat) (row : option (list (Value F))) : Value F :=
  match row with Some values => nth i values VNull | None => VNull end.

Definition rows_children {F} (kinds : list BuilderKind) (rows : list (option (list (Value F)))) : list (ChildView F) :=
  imap (fun i k => mkView k (map (cell_at i) rows) []) kinds.

Definition is_some {X} (o : option X) : bool := match o with Some _ => true | None => false end.

(** A struct builder of the fields and kinds that holds the rows. *)
Definition rows_view {F} (fields : list Field) (kinds : list BuilderKind) (rows : list (option (list (Value F))))
    : StructView F := mkStruct fields (rows_children kinds rows) (map is_some rows).

(** A row of values the fields accept. *)
Definition row_ok {F} (fields : list Field) (row : option (list (Value F))) : bool :=
  match row with
  | Some values => forallb2 (fun f v => fd_nullable f || negb (is_null v)) fields values
  | None => true
  end.

Lemma rows_view_new {F} fields kinds : rows_view (F := F) fields kinds [] = mkStruct fields (map empty_child kinds) [].
Proof.
  unfold rows_view, rows_children. cbn [map]. f_equal. change (map empty_child kinds) with (@empty_child F <$> kinds).
  by rewrite <- imap_const.
Qed.

Lemma forallb2_lookup {X Y} (p : X -> Y -> bool) l k : forallb2 p l k = true <->
  Datatypes.length l = Datatypes.length k /\ forall i x y, l !! i = Some x -> k !! i = Some y -> p x y = true.
Proof. by rewrite forallb2_spec, Forall2_same_length_lookup. Qed.

Lemma nth_cell {F} i (values : list (Value F)) x : values !! i = Some x -> nth i values VNull = x.
Proof. intros H. by apply nth_lookup_Some with (d := VNull) in H. Qed.

Lemma rows_coherent {F} fields kinds (rows : list (option (list (Value F)))) :
  map fd_type fields = map kind_type kinds -> forallb (row_ok fields) rows = true ->
  coherent (rows_view fields kinds rows) = true.
Proof.
  intros Htypes Hrows. unfold coherent. cbn. apply forallb2_lookup. split.
  { unfold rows_children. rewrite length_imap. apply (f_equal Datatypes.length) in Htypes. by rewrite !length_map in Htypes. }
  intros i f c Hf Hc. unfold rows_children in Hc. rewrite list_lookup_imap in Hc.
  destruct (kinds !! i) as [k|] eqn:Hk; [|done]. injection Hc as <-. cbn.
  assert (Ht : fd_type f = kind_type k).
  { apply (f_equal (fun l => l !! i)) in Htypes. change (map fd_type fields) with (fd_type <$> fields) in Htypes.
    change (map kind_type kinds) with (kind_type <$> kinds) in Htypes. rewrite !list_lookup_fmap, Hf, Hk in Htypes. by injection Htypes. }
  rewrite Ht, type_eqb_refl, !length_map, Nat.eqb_refl. cbn. destruct (fd_nullable f) eqn:Hn; [done|]. cbn.
  apply forallb2_lookup. split; [by rewrite !length_map|]. intros j v b Hv Hb.
  change (map ?g rows) with (g <$> rows) in Hv. change (map ?g rows) with (g <$> rows) in Hb.
  rewrite list_lookup_fmap in Hv. rewrite list_lookup_fmap in Hb.
  destruct (rows !! j) as [row|] eqn:Hrow; [|done]. cbn in Hv, Hb. injection Hv as <-. injection Hb as <-.
  destruct row as [values|]; cbn; [|done]. rewrite andb_true_r.
  rewrite forallb_forall in Hrows. specialize (Hrows (Some values)). cbn in Hrows.
  apply list_elem_of_lookup_2, list_elem_of_In in Hrow. apply Hrows, forallb2_lookup in Hrow as [Hlen Hall].
  destruct (values !! i) as [x|] eqn:Hx.
  - rewrite (nth_cell _ _ _ Hx). specialize (Hall i f x Hf Hx). by rewrite Hn in Hall.
  - apply lookup_ge_None in Hx. apply lookup_lt_Some in Hf. lia.
Qed.

Lemma rows_struct_values {F} fields kinds (rows : list (option (list (Value F)))) :
  Forall (fun row => forall values, row = Some values -> Datatypes.length values = Datatypes.length kinds) rows ->
  struct_values (rows_view fields kinds rows) = map (nullable_value VStruct) rows.
Proof.
  intros Hlen. unfold struct_values. cbn. apply list_eq. intros i. rewrite list_lookup_imap.
  change (map ?g rows) with (g <$> rows). rewrite !list_lookup_fmap.
  destruct (rows !! i) as [row|] eqn:Hrow; [|done]. cbn. destruct row as [values|]; [|done]. cbn. do 2 f_equal.
  rewrite Forall_lookup in Hlen. specialize (Hlen i _ Hrow values eq_refl).
  apply list_eq. intros j. change (map ?g (rows_children kinds rows)) with (g <$> rows_children kinds rows).
  rewrite list_lookup_fmap. unfold rows_children. rewrite list_lookup_imap.
  destruct (kinds !! j) as [k|] eqn:Hk; cbn.
  - destruct (lookup_lt_is_Some_2 values j) as [x Hx]; [apply lookup_lt_Some in Hk; lia|]. rewrite Hx. f_equal.
    rewrite nth_lookup. change (map ?g rows) with (g <$> rows). rewrite list_lookup_fmap, Hrow. cbn. by apply nth_cell.
  - apply lookup_ge_None in Hk. symmetry. apply lookup_ge_None. lia.
Qed.

(** ** Lists of a list builder *)

Fixpoint ends_from {V} (start : nat) (groups : list (list V)) : list nat :=
  match groups with
  | [] => []
  | g :: groups => (start + Datatypes.length g)%nat :: ends_from (start + Datatypes.length g) groups
  end.

Lemma ends_from_snoc {V} (groups : list (list V)) g start : ends_from start (groups ++ [g]) =
  ends_from start groups ++ [(start + Datatypes.length (List.concat (groups ++ [g])))%nat].
Proof.
  revert start. induction groups as [|h groups IH]; intros start; cbn; [by rewrite length_app, Nat.add_0_r|].
  rewrite IH. cbn. rewrite length_app. by rewrite Nat.add_assoc.
Qed.

Lemma length_ends_from {V} (groups : list (list V)) start : Datatypes.length (ends_from start groups) = Datatypes.length groups.
Proof. revert start. induction groups as [|g groups IH]; intros start; cbn; [done|by rewrite IH]. Qed.

Lemma ends_from_map {V W} (h : V -> W) (groups : list (list V)) start :
  ends_from start (map (map h) groups) = ends_from start groups.
Proof. revert start. induction groups as [|g groups IH]; intros start; cbn; [done|by rewrite length_map, IH]. Qed.

Lemma cut_ends {V} (before : list V) groups :
  cut (Datatypes.length before) (ends_from (Datatypes.length before) groups) (before ++ List.concat groups) = groups.
Proof.
  revert before. induction groups as [|g groups IH]; intros before; cbn; [done|]. f_equal.
  - rewrite drop_app_length. replace (_ + _ - _)%nat with (Datatypes.length g) by lia. by rewrite take_app_length.
  - rewrite <- length_app, (app_assoc before). apply IH.
Qed.

Lemma cut_all {V} (groups : list (list V)) : cut 0 (ends_from 0 groups) (List.concat groups) = groups.
Proof. apply (cut_ends []). Qed.

(** ** The values of events and snapshots *)

Definition trade_values {F} (t : TradeNormalized (F := F)) : list (Value F) :=
  [VInt (tn_exchange_timestamp_ms t); VInt (tn_ingest_timestamp_ms t); VFloat (tn_price t); VFloat (tn_quantity t);
   VStr (tn_side t); nullable_value VInt (tn_exchange_sequence t); VStr (tn_parent_event_id t)].

Definition book_values {F} (b : BookTickerNormalized (F := F)) : list (Value F) :=
  [VInt (bn_exchange_timestamp_ms b); VInt (bn_ingest_timestamp_ms b); VFloat (bn_best_bid b);
   VFloat (bn_best_bid_qty b); VFloat (bn_best_ask b); VFloat (bn_best_ask_qty b);
   nullable_value VInt (bn_exchange_sequence b); VStr (bn_parent_event_id b)].

Definition compact_values {F} (e : CompactEventRef) : list (Value F) :=
  [VInt (ce_exchange_timestamp_ms e); VInt (ce_ingest_timestamp_ms e); VStr (ce_event_type e);
   VStr (ce_parent_event_id e)].

Definition symbol_health_values {F} (h : SymbolHealthSnapshot) : list (Value F) :=
  [VInt (ss_observed_at_ms h); VInt (ss_last_event_time_ms h); VInt (ss_last_received_time_ms h);
   VInt (ss_latency_ms h); VBool (ss_is_tradeable h); VList (string_values (ss_reason_codes h))].

Definition source_health_values {F} (h : SourceHealthSnapshot) : list (Value F) :=
  [VInt (hs_observed_at_ms h); VStr (hs_connection_status h); VStr (hs_health_level h);
   VInt (hs_heartbeat_delay_ms h); VInt (hs_stream_lag_ms h); VInt (hs_recent_gap_count h);
   VInt (hs_book_rebuild_count h)].

Definition trade_kinds : list BuilderKind := [KInt64; KInt64; KFloat64; KFloat64; KString; KInt64; KString].
Definition book_kinds : list BuilderKind := [KInt64; KInt64; KFloat64; KFloat64; KFloat64; KFloat64; KInt64; KString].
Definition compact_kinds : list BuilderKind := [KInt64; KInt64; KString; KString].
Definition symbol_health_kinds : list BuilderKind := [KInt64; KInt64; KInt64; KInt64; KBoolean; KStrings].
Definition source_health_kinds : list BuilderKind := [KInt64; KString; KString; KInt64; KInt64; KInt64; KInt64].

Section laws.
Context {F Array Batch File : Type} {A : Arrow Array Batch File} {HA : ArrowLaws Array Batch File}.
Context {B : Builders F Array} {HB : BuilderLaws F Array Batch File}.
Abbreviation SliceRow := (SliceRow (F := F)).

(** ** Appending a row *)

Lemma with_field_ok (k : BuilderKind) i name append b fields children rows (v v' : ChildView F) :
  struct_view b = mkStruct fields children rows -> children !! i = Some v -> cv_kind v = k ->
  (forall c : child k, child_view k c = v -> child_view k (append c) = v') ->
  exists b', with_field k i name append b = Ok b' /\ struct_view b' = mkStruct fields (<[i := v']> children) rows.
Proof.
  intros Hb Hv <- Happend. destruct (view_field b i v) as (c & Hc & Hview); [by rewrite Hb|].
  unfold with_field, struct_field_mut. rewrite Hc. cbn. eexists. split; [reflexivity|].
  rewrite view_write_back, Hb. cbn. by rewrite (Happend c Hview).
Qed.

Lemma items_appended (items : list string) (c : child KStrings) :
  child_view _ (fold_left (fun list value => c_item value list) items c) =
  mkView KStrings (cv_places (child_view _ c)) (cv_open (child_view _ c) ++ string_values items).
Proof.
  revert c. induction items as [|x items IH]; intros c; cbn.
  - rewrite app_nil_r. pose proof (view_kind KStrings c) as Hk. destruct (child_view _ c) as [k places items']. cbn in *. by subst.
  - rewrite IH, view_item. cbn. by rewrite <- app_assoc.
Qed.

Lemma list_appended (items : list string) (c : child KStrings) : cv_open (child_view _ c) = [] ->
  child_view _ (c_close true (fold_left (fun list value => c_item value list) items c)) =
  append_place (VList (string_values items)) (child_view _ c).
Proof.
  intros Hopen. rewrite view_close, items_appended, Hopen. unfold close_list, append_place. cbn.
  by rewrite Hopen, view_kind.
Qed.

Lemma null_list_appended (c : child KStrings) : cv_open (child_view _ c) = [] ->
  child_view _ (c_close false c) = append_place VNull (child_view _ c).
Proof. intros Hopen. rewrite view_close. unfold close_list, append_place. by rewrite Hopen. Qed.

Lemma append_i64_optional_eq b i name value : append_i64_optional b i name value = with_field KInt64 i name (c_int64 value) b.
Proof. by destruct value. Qed.

(** Append to the next field of a struct builder whose view is known. *)
Ltac append_view :=
  let c := fresh "c" in let Hc := fresh "Hc" in intros c Hc; cbv beta;
  first [ rewrite view_int64 | rewrite view_float64 | rewrite view_boolean | rewrite view_string
        | rewrite list_appended by (rewrite Hc; reflexivity)
        | rewrite null_list_appended by (rewrite Hc; reflexivity) ];
  rewrite Hc; reflexivity.
Ltac append_field :=
  rewrite ?append_i64_optional_eq;
  lazymatch goal with
  | H : struct_view ?b = _ |- context [with_field ?k ?i ?name ?f ?b] =>
      let b' := fresh "b" in let E := fresh "E" in let H' := fresh "H" in
      edestruct (with_field_ok k i name f b) as (b' & E & H'); [exact H|reflexivity..|append_view|];
      rewrite E; cbn [mbind result_bind]; clear H E; cbn in H'
  end.
Ltac append_row :=
  repeat append_field; eexists; split; [reflexivity|]; rewrite view_append;
  match goal with H : struct_view _ = _ |- _ => rewrite H end;
  unfold rows_view, rows_children; cbn; rewrite !map_app; reflexivity.

Lemma trade_appended b rows t : struct_view b = rows_view trade_fields trade_kinds rows ->
  exists b', append_trade b t = Ok b' /\ struct_view b' = rows_view trade_fields trade_kinds (rows ++ [Some (trade_values t)]).
Proof. intros H. unfold append_trade.  append_row. Qed.

Lemma book_appended b rows k : struct_view b = rows_view book_fields book_kinds rows ->
  exists b', append_book b k = Ok b' /\ struct_view b' = rows_view book_fields book_kinds (rows ++ [Some (book_values k)]).
Proof. intros H. unfold append_book.  append_row. Qed.

Lemma compact_appended b rows e : struct_view b = rows_view compact_fields compact_kinds rows ->
  exists b', append_compact b e = Ok b' /\ struct_view b' = rows_view compact_fields compact_kinds (rows ++ [Some (compact_values e)]).
Proof. intros H. unfold append_compact. append_row. Qed.

Lemma symbol_health_appended b rows h : struct_view b = rows_view symbol_health_fields symbol_health_kinds rows ->
  exists b', append_symbol_health b h = Ok b' /\
    struct_view b' = rows_view symbol_health_fields symbol_health_kinds (rows ++ [symbol_health_values <$> h]).
Proof.
  intros H. destruct h as [h|]; unfold append_symbol_health, append_struct_string_list, append_null_symbol_health; append_row.
Qed.

Lemma source_health_appended b rows h : struct_view b = rows_view source_health_fields source_health_kinds rows ->
  exists b', append_source_health b h = Ok b' /\
    struct_view b' = rows_view source_health_fields source_health_kinds (rows ++ [source_health_values <$> h]).
Proof. intros H. destruct h as [h|]; unfold append_source_health, append_null_source_health; append_row. Qed.

(** ** Columns of structs *)

(** A column that was built: it fits its field, and holds the values of the rows. *)
Definition column_holds (rows : list SliceRow) (f : Field) (value : SliceRow -> Value F) (a : Array) : Prop :=
  arr_fits f (Datatypes.length rows) a /\ contents a = map value rows.

Section appender.
Context {E : Type} (fields : list Field) (kinds : list BuilderKind) (values : E -> option (list (Value F))).
Context (append : StructBuilder -> E -> result StorageError StructBuilder).
Hypothesis append_ok : forall b rows e, struct_view b = rows_view fields kinds rows ->
  exists b', append b e = Ok b' /\ struct_view b' = rows_view fields kinds (rows ++ [values e]).
Hypothesis types_ok : map fd_type fields = map kind_type kinds.
Hypothesis values_ok : forall e, row_ok fields (values e) = true.

Lemma values_length e l : values e = Some l -> Datatypes.length l = Datatypes.length kinds.
Proof.
  intros H. pose proof (values_ok e) as Hok. rewrite H in Hok. cbn in Hok. apply forallb2_lookup in Hok as [Hlen _].
  apply (f_equal Datatypes.length) in types_ok. rewrite !length_map in types_ok. by rewrite <- Hlen.
Qed.

Lemma rows_built (es : list E) : coherent (rows_view fields kinds (map values es)) = true /\
  struct_values (rows_view fields kinds (map values es)) = map (fun e => nullable_value VStruct (values e)) es.
Proof.
  split.
  - apply rows_coherent; [done|]. apply forallb_forall. intros row [e [<- _]]%in_map_iff. apply values_ok.
  - rewrite rows_struct_values, map_map; [done|]. apply Forall_forall. intros row Hrow l ->.
    apply list_elem_of_fmap in Hrow as (e & He & _). by apply (values_length e).
Qed.

Lemma fold_appended (es : list E) b done : struct_view b = rows_view fields kinds (map values done) ->
  exists b', try_fold append b es = Ok b' /\ struct_view b' = rows_view fields kinds (map values (done ++ es)).
Proof.
  revert b done. induction es as [|e es IH]; intros b done Hb; cbn [try_fold].
  - exists b. by rewrite app_nil_r.
  - destruct (append_ok b _ e Hb) as (b1 & -> & H1). cbn [mbind result_bind].
    destruct (IH b1 (done ++ [e])) as (b2 & -> & H2); [by rewrite map_app|].
    exists b2. split; [reflexivity|]. by rewrite <- app_assoc in H2.
Qed.

Lemma struct_col_holds (start : StructBuilder) rows (snapshot : SliceRow -> E) f :
  struct_view start = mkStruct fields (map empty_child kinds) [] ->
  fd_type f = Struct fields -> fd_nullable f = true ->
  exists a, struct_col start append rows snapshot = Ok a /\
    column_holds rows f (fun row => nullable_value VStruct (values (snapshot row))) a.
Proof.
  intros Hstart Hf Hn. unfold struct_col.
  assert (Hfold : exists b, try_fold (fun builder row => append builder (snapshot row)) start rows = Ok b /\
    struct_view b = rows_view fields kinds (map values (map snapshot rows))).
  { destruct (fold_appended (map snapshot rows) start []) as (b & Hb & Hv); [by rewrite Hstart, <- rows_view_new|].
    exists b. split; [|done]. rewrite <- Hb. generalize start. clear. induction rows as [|row rows IH]; intros start; [done|].
    cbn. destruct (append start (snapshot row)); [apply IH|done]. }
  destruct Hfold as (b & -> & Hv). cbn. destruct (rows_built (map snapshot rows)) as [Hco Hvals].
  rewrite <- Hv in Hco. destruct (sb_finish_ok b Hco) as (a & -> & Hc & Hfit). exists a. split; [done|]. split.
  - rewrite Hv in Hfit. specialize (Hfit f Hf Hn). cbn in Hfit. by rewrite !length_map in Hfit.
  - rewrite Hc, Hv, Hvals. by rewrite map_map.
Qed.

(** The lists of the rows done so far, in a list builder. *)
Definition lists_view (l : StructList) (groups : list (list E)) : Prop :=
  struct_view (sl_values l) = rows_view fields kinds (map values (List.concat groups)) /\ list_ends l = ends_from 0 groups.

Lemma group_appended (g : list E) l done ends : struct_view (sl_values l) = rows_view fields kinds (map values done) ->
  list_ends l = ends ->
  exists l', try_fold (fun builder event => values ← append (sl_values builder) event; Ok (sl_set_values values builder)) l g = Ok l' /\
    struct_view (sl_values l') = rows_view fields kinds (map values (done ++ g)) /\ list_ends l' = ends.
Proof.
  revert l done. induction g as [|e g IH]; intros l done Hl Hends; cbn [try_fold].
  - exists l. by rewrite app_nil_r.
  - destruct (append_ok _ _ e Hl) as (b & -> & Hb). cbn [mbind result_bind]. destruct (list_set b l) as [Hs He].
    destruct (IH (sl_set_values b l) (done ++ [e])) as (l' & -> & H' & E'); [by rewrite Hs, map_app|by rewrite He|].
    exists l'. split; [reflexivity|]. by rewrite <- app_assoc in H'.
Qed.

Lemma row_list_appended (g : list E) l groups : lists_view l groups ->
  exists l', (builder ← try_fold (fun builder event => values ← append (sl_values builder) event; Ok (sl_set_values values builder)) l g;
    Ok (sl_append true builder)) = Ok l' /\ lists_view l' (groups ++ [g]).
Proof.
  intros [Hv He]. destruct (group_appended g l _ _ Hv He) as (l1 & -> & H1 & E1). cbn. eexists. split; [reflexivity|].
  destruct (list_append l1) as [Ha Ea]. split.
  - rewrite Ha, H1. by rewrite concat_app, concat_cons, concat_nil, app_nil_r.
  - rewrite Ea, E1, H1, ends_from_snoc. cbn. by rewrite !length_map, concat_app, concat_cons, concat_nil, app_nil_r.
Qed.

Lemma lists_appended rows (events : SliceRow -> list E) l groups : lists_view l groups ->
  exists l', try_fold (fun builder row =>
    builder ← try_fold (fun builder event => values ← append (sl_values builder) event; Ok (sl_set_values values builder)) builder (events row);
    Ok (sl_append true builder)) l rows = Ok l' /\ lists_view l' (groups ++ map events rows).
Proof.
  revert l groups. induction rows as [|row rows IH]; intros l groups Hl; cbn [try_fold map].
  - exists l. by rewrite app_nil_r.
  - destruct (row_list_appended (events row) l groups Hl) as (l1 & -> & H1). cbn [mbind result_bind].
    destruct (IH l1 _ H1) as (l2 & -> & H2). exists l2. split; [done|]. by rewrite <- app_assoc in H2.
Qed.

Lemma struct_list_col_holds rows (events : SliceRow -> list E) f :
  map (fun f => scalar_kind (fd_type f)) fields = map Some kinds -> fd_type f = list_struct_type fields ->
  exists a, struct_list_col fields append rows events = Ok a /\
    column_holds rows f (fun row => VList (map (fun e => nullable_value VStruct (values e)) (events row))) a.
Proof.
  intros Hkinds Hf. unfold struct_list_col. destruct (list_new (sb_from_fields fields 0)) as [Hn He].
  destruct (lists_appended rows events (sl_new (sb_from_fields fields 0)) []) as (l & -> & Hv & Hends).
  { split; [|done]. change (map values (List.concat [])) with (@nil (option (list (Value F)))).
    by rewrite Hn, (view_from_fields _ _ kinds), rows_view_new. }
  cbn. cbn in Hends, Hv. destruct (rows_built (List.concat (map events rows))) as [Hco Hvals].
  rewrite <- Hv in Hco. destruct (sl_finish_ok l Hco) as (a & -> & Hc & Hfit). exists a. split; [done|]. split.
  - rewrite Hv, Hends in Hfit. specialize (Hfit f Hf). by rewrite length_ends_from, length_map in Hfit.
  - rewrite Hc, Hv, Hvals, Hends, concat_map, <- (ends_from_map (fun e => nullable_value VStruct (values e))), cut_all.
    by rewrite !map_map.
Qed.
End appender.

(** ** The other columns *)

Lemma values_in_rows_ok : (forall t, row_ok trade_fields (Some (trade_values (F := F) t)) = true) /\
  (forall k, row_ok book_fields (Some (book_values (F := F) k)) = true) /\
  (forall e, row_ok compact_fields (Some (compact_values (F := F) e)) = true) /\
  (forall h, row_ok symbol_health_fields (symbol_health_values (F := F) <$> h) = true) /\
  (forall h, row_ok source_health_fields (source_health_values (F := F) <$> h) = true).
Proof. split_and!; [done..| |]; by intros [h|]. Qed.

Lemma trade_column rows f : fd_type f = list_struct_type trade_fields -> exists a, trade_events_col rows = Ok a /\
  column_holds rows f (fun row => VList (map (fun t => VStruct (trade_values t)) (sl_trade_events row))) a.
Proof.
  apply (struct_list_col_holds trade_fields trade_kinds (fun t => Some (trade_values t)));
    [apply trade_appended|done|apply values_in_rows_ok|done].
Qed.

Lemma book_column rows f : fd_type f = list_struct_type book_fields -> exists a, book_ticker_events_col rows = Ok a /\
  column_holds rows f (fun row => VList (map (fun k => VStruct (book_values k)) (sl_book_ticker_events row))) a.
Proof.
  apply (struct_list_col_holds book_fields book_kinds (fun k => Some (book_values k)));
    [apply book_appended|done|apply values_in_rows_ok|done].
Qed.

Lemma compact_column rows value f : fd_type f = list_struct_type compact_fields -> exists a, compact_events_col rows value = Ok a /\
  column_holds rows f (fun row => VList (map (fun e => VStruct (compact_values e)) (value row))) a.
Proof.
  apply (struct_list_col_holds compact_fields compact_kinds (fun e => Some (compact_values e)));
    [apply compact_appended|done|apply values_in_rows_ok|done].
Qed.

Lemma symbol_health_column rows f : fd_type f = Struct symbol_health_fields -> fd_nullable f = true ->
  exists a, symbol_health_col rows = Ok a /\
    column_holds rows f (fun row => nullable_value VStruct (symbol_health_values <$> sl_symbol_health_snapshot row)) a.
Proof.
  apply (struct_col_holds symbol_health_fields symbol_health_kinds (fmap symbol_health_values));
    [apply symbol_health_appended|done|apply values_in_rows_ok|by apply view_new].
Qed.

Lemma source_health_column rows f : fd_type f = Struct source_health_fields -> fd_nullable f = true ->
  exists a, source_health_col rows = Ok a /\
    column_holds rows f (fun row => nullable_value VStruct (source_health_values <$> sl_source_health_snapshot row)) a.
Proof.
  apply (struct_col_holds source_health_fields source_health_kinds (fmap source_health_values));
    [apply source_health_appended|done|apply values_in_rows_ok|by apply view_new].
Qed.

Lemma string_lists rows (value : SliceRow -> list string) (c : child KStrings) places :
  child_view _ c = mkView KStrings places [] ->
  child_view _ (fold_left (fun builder row => c_close true (fold_left (fun builder item => c_item item builder) (value row) builder)) rows c) =
  mkView KStrings (places ++ map (fun row => VList (string_values (value row))) rows) [].
Proof.
  revert c places. induction rows as [|row rows IH]; intros c places Hc; cbn [fold_left map]; [by rewrite app_nil_r|].
  rewrite (IH _ (places ++ [VList (string_values (value row))])); [by rewrite <- app_assoc|].
  rewrite (list_appended (value row) c) by by rewrite Hc. by rewrite Hc.
Qed.

Lemma string_list_column rows value f : fd_type f = string_list_type -> exists a, string_list_col rows value = Ok a /\
  column_holds rows f (fun row => VList (string_values (value row))) a.
Proof.
  intros Hf. unfold string_list_col. set (c := fold_left _ rows strings_new).
  assert (Hc : child_view _ c = mkView KStrings (map (fun row => VList (string_values (value row))) rows) []).
  { apply (string_lists rows value strings_new []), view_strings_new. }
  destruct (strings_finish_ok c) as (a & -> & Ha & Hfit); [by rewrite Hc|]. exists a. split; [done|].
  rewrite Hc in Ha, Hfit. cbn in Ha, Hfit. split; [|done]. specialize (Hfit f Hf). rewrite length_map in Hfit.
  apply Hfit. right. apply Forall_forall. by intros v (row & -> & _)%list_elem_of_fmap.
Qed.

Lemma string_column rows value name : column_holds rows (field name Utf8) (fun row => VStr (value row)) (string_col rows value).
Proof.
  unfold column_holds, string_col. split; [|by rewrite contents_strings, map_map].
  rewrite <- (length_map value rows). by apply fits_strings.
Qed.

Lemma const_column rows value name :
  column_holds rows (field name Utf8) (fun _ => VStr value) (string_const_col (Datatypes.length rows) value).
Proof.
  unfold column_holds, string_const_col. split.
  - rewrite <- (length_seq (Datatypes.length rows) 0) at 1. rewrite <- (length_map (fun _ => value)). by apply fits_strings.
  - rewrite contents_strings, map_map. generalize 0%nat. induction rows as [|row rows IH]; intros n; [done|].
    cbn. f_equal. apply IH.
Qed.

Lemma int64_column rows value name : column_holds rows (field name Int64) (fun row => VInt (value row)) (int64_col rows value).
Proof.
  unfold column_holds, int64_col. split; [|by rewrite contents_int64s, map_map].
  rewrite <- (length_map (fun row => Some (value row)) rows). apply fits_int64s; [done|]. right. by apply Forall_map, Forall_forall.
Qed.

Lemma bool_column rows value name : column_holds rows (field name Boolean) (fun row => VBool (value row)) (bool_col rows value).
Proof.
  unfold column_holds, bool_col. split; [|by rewrite contents_bools, map_map].
  rewrite <- (length_map (fun row => Some (value row)) rows). apply fits_bools; [done|]. right. by apply Forall_map, Forall_forall.
Qed.

Lemma float_column rows value name :
  column_holds rows (field name Float64) (fun row => VFloat (value row)) (float64_col rows (fun row => Some (value row))).
Proof.
  unfold column_holds, float64_col. split; [|by rewrite contents_floats, map_map].
  rewrite <- (length_map (fun row => Some (value row)) rows). apply fits_floats; [done|]. right. by apply Forall_map, Forall_forall.
Qed.

Lemma nullable_float_column rows value name :
  column_holds rows (nullable_field name Float64) (fun row => nullable_value VFloat (value row)) (float64_col rows value).
Proof.
  unfold column_holds, float64_col. split; [|by rewrite contents_floats, map_map].
  rewrite <- (length_map value rows). apply fits_floats; [done|by left].
Qed.

(** ** A slice as the values of its columns, and back *)

Definition slice_values : list (SliceRow -> Value F) :=
  [fun _ => VStr "normalized_market_slice_v1"; fun r => VStr (sl_slice_id r); fun r => VStr (sl_venue r);
   fun r => VStr (sl_source_role r); fun r => VStr (sl_symbol_native r); fun r => VStr (sl_symbol_canonical r);
   fun r => VStr (sl_base_asset r); fun r => VStr (sl_quote_asset r); fun r => VStr (sl_market_type r);
   fun r => VInt (sl_window_ms r); fun r => VInt (sl_window_start_ms r); fun r => VInt (sl_window_end_ms r);
   fun r => VStr (sl_slice_completeness r); fun r => VList (string_values (sl_missing_reasons r));
   fun r => VInt (sl_quality_ok r); fun r => VInt (sl_quality_delayed r); fun r => VInt (sl_quality_stale r);
   fun r => VInt (sl_quality_gap r); fun r => VInt (sl_quality_invalid r); fun r => VInt (sl_trade_count r);
   fun r => VFloat (sl_trade_volume r); fun r => nullable_value VFloat (sl_last_trade_price r);
   fun r => nullable_value VFloat (sl_last_trade_size r); fun r => nullable_value VFloat (sl_best_bid r);
   fun r => nullable_value VFloat (sl_best_ask r); fun r => nullable_value VFloat (sl_mid_price r);
   fun r => nullable_value VFloat (sl_spread_bps r); fun r => VInt (sl_book_ticker_count r);
   fun r => VInt (sl_depth_event_count r); fun r => VBool (sl_depth_book_rebuilt r);
   fun r => VList (map (fun t => VStruct (trade_values t)) (sl_trade_events r));
   fun r => VList (map (fun k => VStruct (book_values k)) (sl_book_ticker_events r));
   fun r => VList (map (fun e => VStruct (compact_values e)) (sl_depth_events r));
   fun r => VList (map (fun e => VStruct (compact_values e)) (sl_ticker_events r));
   fun r => nullable_value VStruct (symbol_health_values <$> sl_symbol_health_snapshot r);
   fun r => nullable_value VStruct (source_health_values <$> sl_source_health_snapshot r);
   fun r => VList (string_values (sl_parent_event_ids r)); fun r => VList (string_values (sl_parent_run_ids r))].

Lemma columns_hold rows : exists columns, slice_columns rows = Ok columns /\
  Forall2 (fun fv a => column_holds rows fv.1 fv.2 a) (zip slice_schema slice_values) columns.
Proof.
  unfold slice_columns, slice_schema, slice_values.
  destruct (string_list_column rows sl_missing_reasons (field "missing_reasons" string_list_type) eq_refl) as (c1 & -> & H1).
  destruct (trade_column rows (field "trade_events" (list_struct_type trade_fields)) eq_refl) as (c2 & -> & H2).
  destruct (book_column rows (field "book_ticker_events" (list_struct_type book_fields)) eq_refl) as (c3 & -> & H3).
  destruct (compact_column rows sl_depth_events (field "depth_events" (list_struct_type compact_fields)) eq_refl) as (c4 & -> & H4).
  destruct (compact_column rows sl_ticker_events (field "ticker_events" (list_struct_type compact_fields)) eq_refl) as (c5 & -> & H5).
  destruct (symbol_health_column rows (nullable_field "symbol_health_snapshot" (Struct symbol_health_fields)) eq_refl eq_refl) as (c6 & -> & H6).
  destruct (source_health_column rows (nullable_field "source_health_snapshot" (Struct source_health_fields)) eq_refl eq_refl) as (c7 & -> & H7).
  destruct (string_list_column rows sl_parent_event_ids (field "parent_event_ids" string_list_type) eq_refl) as (c8 & -> & H8).
  destruct (string_list_column rows sl_parent_run_ids (field "parent_run_ids" string_list_type) eq_refl) as (c9 & -> & H9).
  cbn [mbind result_bind]. eexists. split; [reflexivity|]. cbn [zip zip_with].
  repeat (apply Forall2_cons; split;
    [first [assumption|apply const_column|apply string_column|apply int64_column|apply bool_column|apply float_column
           |apply nullable_float_column]|]); by apply Forall2_nil.
Qed.
End laws.

(** ** Reading a slice by the names of its columns *)

Section decode.
Context {F : Type}.
Abbreviation SliceRow := (SliceRow (F := F)).

Definition as_str (v : Value F) : option string := match v with VStr s => Some s | _ => None end.
Definition as_int (v : Value F) : option Z := match v with VInt z => Some z | _ => None end.
Definition as_float (v : Value F) : option F := match v with VFloat f => Some f | _ => None end.
Definition as_bool (v : Value F) : option bool := match v with VBool b => Some b | _ => None end.
Definition as_list {X} (item : Value F -> option X) (v : Value F) : option (list X) :=
  match v with VList l => mapM item l | _ => None end.
Definition as_nullable {X} (read : Value F -> option X) (v : Value F) : option (option X) :=
  match v with VNull => Some None | _ => Some <$> read v end.
Definition as_struct {X} (read : list (Value F) -> option X) (v : Value F) : option X :=
  match v with VStruct l => read l | _ => None end.

Definition read_trade (l : list (Value F)) : option (TradeNormalized (F := F)) :=
  match l with
  | [exchange; ingest; price; quantity; side; sequence; id] =>
      exchange ← as_int exchange; ingest ← as_int ingest; price ← as_float price; quantity ← as_float quantity;
      side ← as_str side; sequence ← as_nullable as_int sequence; id ← as_str id;
      Some (mkTrade exchange ingest price quantity side sequence id)
  | _ => None
  end.

Definition read_book (l : list (Value F)) : option (BookTickerNormalized (F := F)) :=
  match l with
  | [exchange; ingest; bid; bid_qty; ask; ask_qty; sequence; id] =>
      exchange ← as_int exchange; ingest ← as_int ingest; bid ← as_float bid; bid_qty ← as_float bid_qty;
      ask ← as_float ask; ask_qty ← as_float ask_qty; sequence ← as_nullable as_int sequence; id ← as_str id;
      Some (mkBook exchange ingest bid bid_qty ask ask_qty sequence id)
  | _ => None
  end.

Definition read_compact (l : list (Value F)) : option CompactEventRef :=
  match l with
  | [exchange; ingest; type; id] =>
      exchange ← as_int exchange; ingest ← as_int ingest; type ← as_str type; id ← as_str id;
      Some (mkCompact exchange ingest type id)
  | _ => None
  end.

Definition read_symbol_health (l : list (Value F)) : option SymbolHealthSnapshot :=
  match l with
  | [observed; event; received; latency; tradeable; reasons] =>
      observed ← as_int observed; event ← as_int event; received ← as_int received; latency ← as_int latency;
      tradeable ← as_bool tradeable; reasons ← as_list as_str reasons;
      Some (mkSymSnap observed event received latency tradeable reasons)
  | _ => None
  end.

Definition read_source_health (l : list (Value F)) : option SourceHealthSnapshot :=
  match l with
  | [observed; status; level; heartbeat; lag; gaps; rebuilds] =>
      observed ← as_int observed; status ← as_str status; level ← as_str level; heartbeat ← as_int heartbeat;
      lag ← as_int lag; gaps ← as_int gaps; rebuilds ← as_int rebuilds;
      Some (mkSrcSnap observed status level heartbeat lag gaps rebuilds)
  | _ => None
  end.

(** [get] is the value of the column of a name. *)
Definition read_slice (get : string -> option (Value F)) : option SliceRow :=
  let str name := v ← get name; as_str v in let int name := v ← get name; as_int v in
  let float name := v ← get name; as_nullable as_float v in
  let strings name := v ← get name; as_list as_str v in
  slice_id ← str "slice_id"%string; venue ← str "venue"%string; source_role ← str "source_role"%string;
  symbol_native ← str "symbol_native"%string; symbol_canonical ← str "symbol_canonical"%string;
  base_asset ← str "base_asset"%string; quote_asset ← str "quote_asset"%string; market_type ← str "market_type"%string;
  window_ms ← int "window_ms"%string; window_start_ms ← int "window_start_ms"%string;
  window_end_ms ← int "window_end_ms"%string; slice_completeness ← str "slice_completeness"%string;
  missing_reasons ← strings "missing_reasons"%string; quality_ok ← int "quality_ok"%string;
  quality_delayed ← int "quality_delayed"%string; quality_stale ← int "quality_stale"%string;
  quality_gap ← int "quality_gap"%string; quality_invalid ← int "quality_invalid"%string;
  trade_count ← int "trade_count"%string; trade_volume ← (v ← get "trade_volume"%string; as_float v);
  last_trade_price ← float "last_trade_price"%string; last_trade_size ← float "last_trade_size"%string;
  best_bid ← float "best_bid"%string; best_ask ← float "best_ask"%string; mid_price ← float "mid_price"%string;
  spread_bps ← float "spread_bps"%string; book_ticker_count ← int "book_ticker_count"%string;
  depth_event_count ← int "depth_event_count"%string;
  depth_book_rebuilt ← (v ← get "depth_book_rebuilt"%string; as_bool v);
  trade_events ← (v ← get "trade_events"%string; as_list (as_struct read_trade) v);
  book_ticker_events ← (v ← get "book_ticker_events"%string; as_list (as_struct read_book) v);
  depth_events ← (v ← get "depth_events"%string; as_list (as_struct read_compact) v);
  ticker_events ← (v ← get "ticker_events"%string; as_list (as_struct read_compact) v);
  symbol_health ← (v ← get "symbol_health_snapshot"%string; as_nullable (as_struct read_symbol_health) v);
  source_health ← (v ← get "source_health_snapshot"%string; as_nullable (as_struct read_source_health) v);
  parent_event_ids ← strings "parent_event_ids"%string; parent_run_ids ← strings "parent_run_ids"%string;
  Some (mkSlice slice_id venue source_role symbol_native symbol_canonical base_asset quote_asset market_type
    window_ms window_start_ms window_end_ms slice_completeness missing_reasons quality_ok quality_delayed
    quality_stale quality_gap quality_invalid trade_count trade_volume last_trade_price last_trade_size
    best_bid best_ask mid_price spread_bps book_ticker_count depth_event_count depth_book_rebuilt trade_events
    book_ticker_events depth_events ticker_events symbol_health source_health parent_event_ids parent_run_ids).

Lemma mapM_map {X Y Z} (read : Y -> option Z) (write : X -> Y) (back : X -> Z) (l : list X) :
  (forall x, read (write x) = Some (back x)) -> mapM read (map write l) = Some (map back l).
Proof. intros H. induction l as [|x l IH]; [done|]. cbn. by rewrite H, IH. Qed.

Lemma read_strings l : as_list as_str (VList (string_values l)) = Some l.
Proof. unfold as_list, string_values. rewrite (mapM_map _ _ id); [|done]. by rewrite map_id. Qed.

Lemma read_nullable {X} (mk : X -> Value F) read o : (forall x, read (mk x) = Some x) -> (forall x, is_null (mk x) = false) ->
  as_nullable read (nullable_value mk o) = Some o.
Proof.
  intros Hr Hn. destruct o as [x|]; [|done]. cbn. specialize (Hr x). specialize (Hn x). unfold as_nullable.
  destruct (mk x); [done|..]; by rewrite Hr.
Qed.

Lemma read_structs {X} (values : X -> list (Value F)) read l : (forall x, read (values x) = Some x) ->
  as_list (as_struct read) (VList (map (fun x => VStruct (values x)) l)) = Some l.
Proof. intros H. unfold as_list. rewrite (mapM_map _ _ id); [|done]. by rewrite map_id. Qed.

Lemma read_trade_values t : read_trade (trade_values t) = Some t.
Proof. destruct t as [e i p q s sq id]. by destruct sq. Qed.
Lemma read_book_values k : read_book (book_values k) = Some k.
Proof. destruct k as [e i b bq a aq sq id]. by destruct sq. Qed.
Lemma read_compact_values e : read_compact (compact_values e) = Some e.
Proof. by destruct e. Qed.
Lemma read_symbol_health_values h : read_symbol_health (symbol_health_values h) = Some h.
Proof. destruct h. unfold read_symbol_health, symbol_health_values. cbn -[as_list string_values]. by rewrite read_strings. Qed.
Lemma read_source_health_values h : read_source_health (source_health_values h) = Some h.
Proof. by destruct h. Qed.

Lemma read_snapshot {X} (values : X -> list (Value F)) read o : (forall x, read (values x) = Some x) ->
  as_nullable (as_struct read) (nullable_value VStruct (values <$> o)) = Some o.
Proof. intros H. destruct o as [x|]; [|done]. cbn. by rewrite H. Qed.

(** The value of a slice in the column of a name. *)
Definition slice_value (row : SliceRow) (name : string) : option (Value F) :=
  '(i, _) ← list_find (fun f => fd_name f = name) slice_schema; v ← slice_values !! i; Some (v row).

Lemma slice_value_at (row : SliceRow) name i f v :
  list_find (fun f => fd_name f = name) slice_schema = Some (i, f) -> slice_values !! i = Some v ->
  slice_value row name = Some (v row).
Proof. intros Hf Hv. unfold slice_value. rewrite Hf. cbn. by rewrite Hv. Qed.

Lemma slice_values_read (get : string -> option (Value F)) (row : SliceRow) :
  (forall name, is_Some (list_find (fun f => fd_name f = name) slice_schema) -> get name = slice_value row name) ->
  read_slice get = Some row.
Proof.
  intros Hget. unfold read_slice.
  repeat match goal with |- context [get ?name] =>
    rewrite (Hget name ltac:(eexists; vm_compute; reflexivity));
    erewrite (slice_value_at row name) by reflexivity; cbn [mbind option_bind as_str as_int as_float as_bool]
  end.
  rewrite !read_strings; cbn [mbind option_bind].
  rewrite !(read_nullable VFloat as_float) by done; cbn [mbind option_bind].
  rewrite (read_structs trade_values) by apply read_trade_values; cbn [mbind option_bind].
  rewrite (read_structs book_values) by apply read_book_values; cbn [mbind option_bind].
  rewrite !(read_structs compact_values) by apply read_compact_values; cbn [mbind option_bind].
  rewrite (read_snapshot symbol_health_values) by apply read_symbol_health_values; cbn [mbind option_bind].
  rewrite (read_snapshot source_health_values) by apply read_source_health_values; cbn [mbind option_bind].
  by destruct row.
Qed.
End decode.

(** ** The file of a slice object *)

Section written.
Context {F Array Batch File : Type} {A : Arrow Array Batch File} {HA : ArrowLaws Array Batch File}.
Context {B : Builders F Array} {HB : BuilderLaws F Array Batch File}.
Abbreviation SliceRow := (SliceRow (F := F)).

(** The value of a batch at a row, in the column of a name. *)
Definition batch_value (b : Batch) (k : nat) (name : string) : option (Value F) :=
  i ← ok_opt (rb_index_of name b); a ← rb_column i b; contents a !! k.

Lemma slice_batch (rows : list SliceRow) columns :
  Forall2 (fun fv a => column_holds rows fv.1 fv.2 a) (zip slice_schema slice_values) columns ->
  exists b, rb_try_new slice_schema columns = Ok b /\ rb_num_rows b = Datatypes.length rows /\
    forall k row name, rows !! k = Some row -> is_Some (list_find (fun f => fd_name f = name) slice_schema) ->
      batch_value b k name = slice_value row name.
Proof.
  intros Hcols. assert (Hfst : (zip (@slice_schema) (slice_values (F := F))).*1 = slice_schema) by reflexivity.
  destruct (rb_new_ok slice_schema columns (Datatypes.length rows)) as (b & Hb & Hn & Hidx & Hcol); [done| |].
  { rewrite <- Hfst, Forall2_fmap_l. eapply Forall2_impl; [exact Hcols|]. by intros fv a [Hfit _]. }
  exists b. split; [done|]. split; [done|]. intros k row name Hrow [[i f] Hfind].
  pose proof Hfind as (Hf & <- & Hfirst)%list_find_Some.
  unfold batch_value, slice_value. rewrite Hfind. cbn [mbind option_bind].
  rewrite (Hidx i f Hf) by (intros j g Hj Hg Heq; by apply (Hfirst j g)). cbn. rewrite Hcol.
  destruct (lookup_lt_is_Some_2 (slice_values (F := F)) i) as [v Hv]; [apply lookup_lt_Some in Hf; exact Hf|].
  assert (Hzip : zip slice_schema slice_values !! i = Some (f, v)) by (apply lookup_zip_Some; done).
  destruct (Forall2_lookup_l _ _ _ _ _ Hcols Hzip) as (a & Ha & _ & Hcontents). cbn in Hcontents.
  rewrite Ha, Hv. cbn. rewrite Hcontents. change (map v rows) with (v <$> rows). by rewrite list_lookup_fmap, Hrow.
Qed.

(** C10: The file of a slice object is written unless creating, encoding or storing it fails:
    the nested builders are never asked for a field of another type, never panic, and the
    columns always fit the schema.  A row of its batch, read by the names of the schema,
    is the slice, with its lists of events and its optional health snapshots. *)
Theorem written_slices_read_back (create_parent : result StorageError ()) (rows : list SliceRow) :
  exists b : Batch,
    write_slice_parquet_refs create_parent rows =
      map_err Failed (_ ← create_parent; pq_write slice_schema b) /\
    rb_num_rows b = Datatypes.length rows /\
    forall k row, rows !! k = Some row -> read_slice (batch_value b k) = Some row.
Proof.
  destruct (columns_hold rows) as (columns & Hcols & Hhold).
  destruct (slice_batch rows columns Hhold) as (b & Hb & Hn & Hvalues). exists b. split_and!; [|done|].
  - unfold write_slice_parquet_refs. rewrite Hcols. destruct create_parent; [|done]. cbn. by rewrite Hb.
  - intros k row Hrow. apply slice_values_read. intros name Hname. by apply Hvalues.
Qed.
End written.

(** ** A library that keeps the laws

    Arrays that are a type and values; builders that are their views. *)

Section memory.
Context {F : Type}.

Definition MemColumn : Type := DataType * list (Value F).

Definition column_fits (f : Field) (n : nat) (a : MemColumn) : bool :=
  type_eqb (fd_type f) a.1 && Nat.eqb (Datatypes.length a.2) n && (fd_nullable f || forallb (fun v => negb (is_null v)) a.2).

Definition read_places {X} (t : DataType) (read : Value F -> option X) (a : MemColumn) : option (list (option X)) :=
  if type_eqb t a.1 then Some (map read a.2) else None.

Definition columns_len (columns : list MemColumn) : nat :=
  match columns with a :: _ => Datatypes.length a.2 | [] => O end.

#[export] Instance mem_columns : Arrow MemColumn (list Field * list MemColumn) (list Field * list MemColumn) := {|
  arr_strings l := (Utf8, map VStr l);
  arr_int64s l := (Int64, map (nullable_value VInt) l);
  arr_bools l := (Boolean, map (nullable_value VBool) l);
  as_strings := read_places Utf8 as_str;
  as_int64s := read_places Int64 as_int;
  as_bools := read_places Boolean as_bool;
  rb_try_new fields columns :=
    if forallb2 (fun f a => column_fits f (columns_len columns) a) fields columns then Ok (fields, columns)
    else Err "columns do not match the schema"%string;
  rb_num_rows b := columns_len b.2;
  rb_index_of name b := ok_or (fst <$> list_find (fun f => fd_name f = name) b.1) ("no field " ++ name)%string;
  rb_column i b := b.2 !! i;
  pq_write _ b := Ok b;
  pq_read b := Ok [Ok b];
|}.

Lemma fits_values {X} (f : Field) (t : DataType) (mk : X -> Value F) (l : list X) : fd_type f = t ->
  fd_nullable f = true \/ Forall (fun x => is_null (mk x) = false) l ->
  column_fits f (Datatypes.length l) (t, map mk l) = true.
Proof.
  intros <- H. unfold column_fits. cbn. rewrite type_eqb_refl, length_map, Nat.eqb_refl. cbn.
  destruct H as [->|H]; [done|]. apply orb_true_iff. right. apply forallb_forall. intros v [x [<- Hx]]%in_map_iff.
  rewrite List.Forall_forall in H. by rewrite H.
Qed.

Lemma some_not_null {X} (mk : X -> Value F) (l : list (option X)) : (forall x, is_null (mk x) = false) ->
  Forall is_Some l -> Forall (fun o => is_null (nullable_value mk o) = false) l.
Proof. intros H Hl. eapply Forall_impl; [exact Hl|]. intros o [x ->]. apply H. Qed.

#[export] Instance mem_column_laws : ArrowLaws MemColumn (list Field * list MemColumn) (list Field * list MemColumn).
Proof.
  refine {| arr_fits f n a := column_fits f n a = true |}.
  - intros f l Hf. apply (fits_values f Utf8 VStr l Hf). right. by apply Forall_forall.
  - intros f l Hf Hn. apply (fits_values f Int64 (nullable_value VInt) l Hf). destruct Hn; [by left|right; by apply some_not_null].
  - intros f l Hf Hn. apply (fits_values f Boolean (nullable_value VBool) l Hf). destruct Hn; [by left|right; by apply some_not_null].
  - intros l. cbn. unfold read_places. cbn. by rewrite map_map.
  - intros l. cbn. unfold read_places. cbn. f_equal. rewrite map_map. rewrite <- (map_id l) at 2. apply map_ext. by intros [].
  - intros l. cbn. unfold read_places. cbn. f_equal. rewrite map_map. rewrite <- (map_id l) at 2. apply map_ext. by intros [].
  - intros fields columns n Hne Hfit. exists (fields, columns).
    assert (Hlen : columns_len columns = n).
    { destruct Hfit as [|f a fs cs Hf _]; [done|]. unfold column_fits in Hf. cbn. rewrite !andb_true_iff, Nat.eqb_eq in Hf. tauto. }
    split; [|split; [exact Hlen|]].
    + cbn. rewrite Hlen. by rewrite (proj2 (forallb2_spec _ _ _) Hfit).
    + split; [|done]. intros i f Hf Hfirst. cbn.
      assert (Hfind : list_find (fun g => fd_name g = fd_name f) fields = Some (i, f)).
      { apply list_find_Some. split; [done|]. split; [done|]. intros j g Hg Hj. by apply (Hfirst j g). }
      by rewrite Hfind.
  - intros fields b f [= <-]. exists (batch_rows b ++ []). split; [done|]. rewrite app_nil_r.
    apply Forall2_same_length_lookup. split; [done|]. intros i x y -> [= ->]. by intros name.
Defined.

#[export] Instance mem_builders : Builders F MemColumn := {|
  arr_floats l := (Float64, map (nullable_value VFloat) l);
  child k := { c : ChildView F | cv_kind c = k };
  c_int64 v c := append_place (nullable_value VInt v) (proj1_sig c) ↾ proj2_sig c;
  c_float64 v c := append_place (VFloat v) (proj1_sig c) ↾ proj2_sig c;
  c_boolean v c := append_place (nullable_value VBool v) (proj1_sig c) ↾ proj2_sig c;
  c_string v c := append_place (nullable_value VStr v) (proj1_sig c) ↾ proj2_sig c;
  c_item v c := append_item (VStr v) (proj1_sig c) ↾ proj2_sig c;
  c_close valid c := close_list valid (proj1_sig c) ↾ proj2_sig c;
  strings_new := empty_child KStrings ↾ eq_refl;
  strings_finish c := if is_nil (cv_open (proj1_sig c)) then Some (string_list_type, cv_places (proj1_sig c)) else None;
  StructBuilder := StructView F;
  sb_new fields kinds := mkStruct fields (map empty_child kinds) [];
  sb_from_fields fields _ := mkStruct fields (map empty_child (omap (M := list) (fun f => scalar_kind (fd_type f)) fields)) [];
  sb_field_builder k i b :=
    match sv_children b !! i with
    | Some c => match decide (cv_kind c = k) with left H => Some (c ↾ H) | right _ => None end
    | None => None
    end;
  sb_write_back k i c b := mkStruct (sv_fields b) (<[i := proj1_sig c]> (sv_children b)) (sv_rows b);
  sb_append valid b := mkStruct (sv_fields b) (sv_children b) (sv_rows b ++ [valid]);
  sb_finish b := if coherent b then Some (Struct (sv_fields b), struct_values b) else None;
  StructList := StructView F * list nat;
  sl_new b := (b, []);
  sl_values l := l.1;
  sl_set_values b l := (b, l.2);
  sl_append valid l := (l.1, l.2 ++ [Datatypes.length (sv_rows l.1)]);
  sl_finish l := if coherent l.1 then Some (list_struct_type (sv_fields l.1), map VList (cut 0 l.2 (struct_values l.1))) else None;
|}.

Lemma length_cut {X} start ends (values : list X) : Datatypes.length (cut start ends values) = Datatypes.length ends.
Proof. revert start. induction ends as [|e ends IH]; intros start; cbn; [done|by rewrite IH]. Qed.

Lemma omap_map {X Y} (g : X -> option Y) l k : map g l = map Some k -> omap (M := list) g l = k.
Proof. revert k. induction l as [|x l IH]; intros [|y k]; cbn; [done..|]. intros [= -> H]. f_equal. by apply IH. Qed.

#[export] Instance mem_builder_laws : BuilderLaws F MemColumn (list Field * list MemColumn) (list Field * list MemColumn).
Proof.
  refine {| contents a := a.2; child_view k c := proj1_sig c; struct_view b := b; list_ends l := l.2 |}; try done.
  - intros f l Hf Hn. apply (fits_values f Float64 (nullable_value VFloat) l Hf). destruct Hn; [by left|right; by apply some_not_null].
  - intros k c. exact (proj2_sig c).
  - intros c Hc. cbn. rewrite Hc. cbn. eexists. split; [done|]. split; [done|]. intros f Hf Hn.
    pose proof (fits_values f string_list_type id (cv_places (proj1_sig c)) Hf Hn) as H. by rewrite map_id in H.
  - intros fields capacity kinds H. cbn. by rewrite (omap_map _ _ _ H).
  - intros b i v Hv. cbn. rewrite Hv. cbn. destruct (decide (cv_kind v = cv_kind v)); [by eexists|done].
  - intros b Hb. cbn. rewrite Hb. eexists. split; [done|]. split; [done|]. intros f Hf Hn.
    pose proof (fits_values f _ id (struct_values b) Hf (or_introl Hn)) as H.
    rewrite map_id in H. cbn in *. revert H. unfold struct_values at 1. by rewrite length_imap.
  - intros l Hl. cbn in *. rewrite Hl. eexists. split; [done|]. split; [done|]. intros f Hf.
    pose proof (fits_values f _ VList (cut 0 l.2 (struct_values l.1)) Hf) as H. rewrite length_cut in H. apply H.
    right. by apply Forall_forall.
Defined.
End memory.

(** ** Two slices in a file *)

Definition sample_slice (id : string) (trades : list (TradeNormalized (F := Z))) (health : option SymbolHealthSnapshot) : SliceRow :=
  mkSlice id "binance" "execution" "BTCUSDT" "BTC-USDT" "BTC" "USDT" "spot" 1000 0 1000 "complete" ["late"%string]
    2 0 0 0 0 (zlen trades) 3 (Some 50000) (Some 2) None (Some 50001) None None 0 1 true trades [] [mkCompact 5 6 "diff_depth" "e-3"]
    [] health None ["e-1"; "e-2"]%string [].

Definition sample_slices : list SliceRow :=
  [sample_slice "s-1" [mkTrade 1 2 50000 2 "buy" (Some 7) "e-1"; mkTrade 3 4 50000 1 "sell" None "e-2"]
     (Some (mkSymSnap 1 2 3 4 true ["a"; "b"]%string));
   sample_slice "s-2" [] None].

Lemma written_slices_read_back_witness : exists b : list Field * list (MemColumn (F := Z)),
  write_slice_parquet (Ok ()) sample_slices = Ok b /\ rb_num_rows b = 2%nat /\
  read_slice (batch_value b 0) = sample_slices !! 0%nat /\ read_slice (batch_value b 1) = sample_slices !! 1%nat.
Proof.
  destruct (written_slices_read_back (F := Z) (Array := MemColumn) (Ok ()) sample_slices) as (b & Hw & Hn & Hr).
  exists b. split; [exact Hw|]. split; [exact Hn|]. split; apply Hr; reflexivity.
Defined.
