(* ===== verification/L0RoundTrip.v ===== *)
(** * L0RoundTrip: what the sink writes, the normalizer reads

    The Parquet files of [Columns], decoded by the row readers of [L1Build]: every row
    comes back as the input of its record, in order. *)
From S2P Require Import Prelude Text OrderedMap Records Columns Sink NormalizeArgs L1Window L1Inputs L1Build L1BuildFacts.
Open Scope Z_scope.

(** ** The input of a record *)

Definition raw_input (r : RawMarketEventRecord) : RawInputEvent :=
  mkRawInput (rr_event_id r) (rr_producer_run_id r) (rr_venue r) (rr_source_role r) (rr_market_type r)
    (rr_event_type r) (rr_symbol_native r) (rr_symbol_canonical r) (rr_base_asset r) (rr_quote_asset r)
    (rr_exchange_timestamp_ms r) (rr_ingest_timestamp_ms r) (rr_exchange_sequence r)
    (rr_payload_json r) (rr_payload_sha256 r) (rr_schema_version r).

Definition symbol_input (r : SymbolHealthRecord) : SymbolHealthInput :=
  mkSymInput (sr_venue r) (sr_symbol_native r) (sr_observed_at_ms r) (sr_last_event_time_ms r)
    (sr_latency_ms r) (sr_is_tradeable r) (sr_reason_codes r) (sr_payload_sha256 r) (sr_schema_version r).

Definition source_input (r : SourceHealthRecord) : SourceHealthInput :=
  mkSrcInput (hr_venue r) (hr_observed_at_ms r) (hr_connection_status r) (hr_heartbeat_delay_ms r)
    (hr_stream_lag_ms r) (hr_recent_gap_count r) (hr_book_rebuild_count r) (hr_health_level r)
    (hr_payload_json r) (hr_payload_sha256 r) (hr_schema_version r).

Definition gap_input (r : GapAlertRecord) : GapAlertInput :=
  mkGapInput (gr_venue r) (gr_symbol_native r) (gr_gap_type r) (gr_detected_at_ms r) (gr_payload_json r)
    (gr_payload_sha256 r) (gr_schema_version r).

Section decode.
Context {Row : Type} (col_str : string -> Row -> result StorageError (option string))
  (col_i64 : string -> Row -> result StorageError (option Z))
  (col_bool : string -> Row -> result StorageError (option bool)) (row : Row).

(** A reader applied to a row whose columns are known. *)
Ltac read_columns Hcols :=
  destruct Hcols;
  repeat match goal with H : _ = Ok _ |- _ => rewrite H; clear H end; reflexivity.

Lemma decode_raw r : raw_columns col_str col_i64 row r ->
  raw_event_from_batch col_str col_i64 row = Ok (raw_input r).
Proof. intros H. unfold raw_event_from_batch, string_value, int64_value, int64_optional. read_columns H. Qed.

Lemma decode_symbol r : symbol_columns col_str col_i64 col_bool row r ->
  symbol_health_from_batch col_str col_i64 col_bool row = Ok (symbol_input r).
Proof. intros H. unfold symbol_health_from_batch, string_value, int64_value, bool_value. read_columns H. Qed.

Lemma decode_source r : source_columns col_str col_i64 row r ->
  source_health_from_batch col_str col_i64 row = Ok (source_input r).
Proof. intros H. unfold source_health_from_batch, string_value, int64_value. read_columns H. Qed.

Lemma decode_gap r : gap_columns col_str col_i64 row r ->
  gap_alert_from_batch col_str col_i64 row = Ok (gap_input r).
Proof. intros H. unfold gap_alert_from_batch, string_value, int64_value. read_columns H. Qed.
End decode.

(** ** The columns of a written row *)

Section written.
Context {Array Batch File : Type} {A : Arrow Array Batch File} {HA : ArrowLaws Array Batch File}.

Ltac cell_at Hb Hr n :=
  first [ eapply (Columns.cell_string _ _ _ _ Hb n); [exact Hr|reflexivity..]
        | eapply (Columns.cell_int64 _ _ _ _ Hb n); [exact Hr|reflexivity..]
        | eapply (Columns.cell_int64_opt _ _ _ _ Hb n); [exact Hr|reflexivity..]
        | eapply (Columns.cell_bool _ _ _ _ Hb n); [exact Hr|reflexivity..]
        | lazymatch n with 30%nat => fail | _ => let m := eval cbv in (S n) in cell_at Hb Hr m end ].
(** The columns of a row that is the [k]-th of a written batch. *)
Ltac written_columns Hb Hr Hsame :=
  split; match goal with |- ?f ?name ?row = _ =>
    destruct (Hsame name) as (E1 & E2 & E3); first [rewrite <- E1|rewrite <- E2|rewrite <- E3]; clear E1 E2 E3
  end; cell_at Hb Hr constr:(0%nat).

Context (b : Batch) (k : nat) (row : BatchRow (Batch := Batch)) (Hsame : same_row (b, k) row).

Lemma raw_row_columns records r : batch_of raw_market_event_schema (raw_columns_of records) records b ->
  records !! k = Some r -> raw_columns col_str col_i64 row r.
Proof. intros Hb Hr. written_columns Hb Hr Hsame. Qed.

Lemma symbol_row_columns records r : batch_of symbol_health_schema (symbol_columns_of records) records b ->
  records !! k = Some r -> symbol_columns col_str col_i64 col_bool row r.
Proof. intros Hb Hr. written_columns Hb Hr Hsame. Qed.

Lemma source_row_columns records r : batch_of source_health_schema (health_columns_of records) records b ->
  records !! k = Some r -> source_columns col_str col_i64 row r.
Proof. intros Hb Hr. written_columns Hb Hr Hsame. Qed.

Lemma gap_row_columns records r : batch_of gap_alert_schema (gap_columns_of records) records b ->
  records !! k = Some r -> gap_columns col_str col_i64 row r.
Proof. intros Hb Hr. written_columns Hb Hr Hsame. Qed.
End written.

(** ** Whole files *)

(** A file of one of the four families: the partition it is stored under and its records. *)
Inductive L0File :=
  | RawFile (p : RawPartitionKey) (records : list RawMarketEventRecord)
  | SymbolFile (p : HealthPartitionKey) (records : list SymbolHealthRecord)
  | SourceFile (p : HealthPartitionKey) (records : list SourceHealthRecord)
  | GapFile (p : GapPartitionKey) (records : list GapAlertRecord).

Definition file_key {L : StorageLib} (run_id : string) (part_number : Z) (f : L0File) : string :=
  match f with
  | RawFile p _ => raw_object_key p run_id part_number
  | SymbolFile p _ => symbol_health_object_key p run_id part_number
  | SourceFile p _ => health_object_key p run_id part_number
  | GapFile p _ => gap_object_key p run_id part_number
  end.

Definition file_inputs (f : L0File) : list InputRow :=
  match f with
  | RawFile _ records => map (fun r => RawRow (raw_input r)) records
  | SymbolFile _ records => map (fun r => SymbolRow (symbol_input r)) records
  | SourceFile _ records => map (fun r => SourceRow (source_input r)) records
  | GapFile _ records => map (fun r => GapRow (gap_input r)) records
  end.

Section files.
Context {L : StorageLib} {F V : Type} {FO : Float F} {J : PayloadJson V F}.
Context {Array Batch File : Type} {A : Arrow Array Batch File} {HA : ArrowLaws Array Batch File}.

Definition write_file (f : L0File) : result StorageError File :=
  match f with
  | RawFile _ records => write_raw_market_event_parquet records
  | SymbolFile _ records => write_symbol_health_parquet records
  | SourceFile _ records => write_source_health_parquet records
  | GapFile _ records => write_gap_alert_parquet records
  end.

Abbreviation append_row args family :=
  (append_accumulator_row (F := F) (V := V) col_str col_i64 col_bool args family).

(** Rows that are decoded one by one are folded into the accumulator. *)
Lemma append_rows {R} args family (input : R -> InputRow) (records : list R) (rows : list (BatchRow (Batch := Batch))) a :
  Forall2 (fun r row => forall a, append_row args family a row = Ok (ingest_row (V := V) args a (input r))) records rows ->
  try_fold (append_row args family) a rows = Ok (fold_left (ingest_row (V := V) args) (map input records) a).
Proof.
  intros H. revert a. induction H as [|r row records rows Hrow _ IH]; intros a; [done|].
  cbn [try_fold map fold_left]. rewrite Hrow. cbn. apply IH.
Qed.

Lemma indexed_rows {R} (records : list R) (P : R -> BatchRow -> Prop) (b : Batch) rows :
  Forall2 (fun k row => same_row (b, k) row) (seq 0 (Datatypes.length records)) rows ->
  (forall k r row, records !! k = Some r -> same_row (b, k) row -> P r row) -> Forall2 P records rows.
Proof.
  intros Hrows Hp. apply Forall2_same_length_lookup. split.
  - apply Forall2_length in Hrows. by rewrite length_seq in Hrows.
  - intros i r row Hr Hrow. assert (Hi : seq 0 (Datatypes.length records) !! i = Some i).
    { apply lookup_seq. split; [done|]. by eapply lookup_lt_Some. }
    apply (Hp i); [done|]. by apply (Forall2_lookup_lr _ _ _ _ _ _ Hrows Hi).
Qed.

(** One family: its schema and columns, and the reader of a row. *)
Lemma family_reads_back {R} args key family fields columns (records : list R) (input : R -> InputRow) f :
  family_from_key key = Some family -> fields <> [] -> NoDup (map fd_name fields) ->
  Forall2 (fits_records records) fields columns ->
  (forall b k r row, batch_of fields columns records b -> records !! k = Some r -> same_row (b, k) row ->
   forall a, append_row args family a row = Ok (ingest_row (V := V) args a (input r))) ->
  (batch ← map_err SArrow (rb_try_new fields columns); pq_write fields batch) = Ok f ->
  forall a, append_batches_to_accumulator (V := V) col_str col_i64 col_bool args key (file_rows f) a =
    Ok (fold_left (ingest_row (V := V) args) (map input records) a).
Proof.
  intros Hkey Hne Hnd Hfit Hread Hw a.
  destruct (written_rows fields columns records Hne Hnd Hfit) as (b & Hnew & Hb & Hback).
  rewrite Hnew in Hw. cbn in Hw. destruct (Hback f Hw) as (rows & Hrows & Hsame).
  unfold append_batches_to_accumulator. rewrite Hrows. cbn. rewrite Hkey. apply append_rows.
  apply (indexed_rows _ _ b); [done|]. intros k r row Hr Hs. by apply (Hread b k).
Qed.

(** Writing a file only fails where its batch is encoded and stored: the columns always
    fit the schema. *)
Lemma family_accepted {R} fields columns (records : list R) :
  fields <> [] -> NoDup (map fd_name fields) -> Forall2 (fits_records records) fields columns ->
  exists b : Batch, (batch ← map_err SArrow (rb_try_new fields columns); pq_write fields batch) = pq_write fields b.
Proof.
  intros Hne Hnd Hfit. destruct (batch_built fields columns records Hne Hnd Hfit) as (b & Hnew & _).
  exists b. by rewrite Hnew.
Qed.

(** The readers of the families. *)
Lemma raw_appended args b k r records row : batch_of raw_market_event_schema (raw_columns_of records) records b ->
  records !! k = Some r -> same_row (b, k) row ->
  forall a, append_row args RawMarketEvent a row = Ok (ingest_row (V := V) args a (RawRow (raw_input r))).
Proof.
  intros Hb Hr Hs a. cbn [append_accumulator_row].
  by rewrite (decode_raw _ _ _ r (raw_row_columns b k row Hs records r Hb Hr)).
Qed.

Lemma symbol_appended args b k r records row : batch_of symbol_health_schema (symbol_columns_of records) records b ->
  records !! k = Some r -> same_row (b, k) row ->
  forall a, append_row args SymbolHealth a row = Ok (ingest_row (V := V) args a (SymbolRow (symbol_input r))).
Proof.
  intros Hb Hr Hs a. cbn [append_accumulator_row].
  by rewrite (decode_symbol _ _ _ _ r (symbol_row_columns b k row Hs records r Hb Hr)).
Qed.

Lemma source_appended args b k r records row : batch_of source_health_schema (health_columns_of records) records b ->
  records !! k = Some r -> same_row (b, k) row ->
  forall a, append_row args SourceHealth a row = Ok (ingest_row (V := V) args a (SourceRow (source_input r))).
Proof.
  intros Hb Hr Hs a. cbn [append_accumulator_row].
  by rewrite (decode_source _ _ _ r (source_row_columns b k row Hs records r Hb Hr)).
Qed.

Lemma gap_appended args b k r records row : batch_of gap_alert_schema (gap_columns_of records) records b ->
  records !! k = Some r -> same_row (b, k) row ->
  forall a, append_row args GapAlert a row = Ok (ingest_row (V := V) args a (GapRow (gap_input r))).
Proof.
  intros Hb Hr Hs a. cbn [append_accumulator_row].
  by rewrite (decode_gap _ _ _ r (gap_row_columns b k row Hs records r Hb Hr)).
Qed.

Ltac fits_schema := first [done|vm_decide|fit_columns].

(** C9: A file of the sink, of any family, is written unless encoding or storing it fails,
    and read back under the key it is stored under gives the input of every record, in
    order: nothing is lost between the two halves of the system. *)
Theorem written_files_read_back (args : NormalizeArgs) (run_id : string) (part_number : Z) (f : L0File) :
  (exists fields (b : Batch), write_file f = pq_write fields b) /\
  forall file, write_file f = Ok file ->
  forall a, append_batches_to_accumulator (V := V) col_str col_i64 col_bool args
      (file_key run_id part_number f) (file_rows file) a =
    Ok (fold_left (ingest_row (V := V) args) (file_inputs f) a).
Proof.
  split.
  - destruct f as [p rs|p rs|p rs|p rs]; eexists; eapply (family_accepted _ _ rs); fits_schema.
  - intros file Hw. destruct f as [p rs|p rs|p rs|p rs]; cbn [write_file file_key file_inputs] in *.
    + eapply (family_reads_back args _ _ raw_market_event_schema (raw_columns_of rs));
        [reflexivity|fits_schema|fits_schema|fits_schema|intros; by eapply raw_appended|exact Hw].
    + eapply (family_reads_back args _ _ symbol_health_schema (symbol_columns_of rs));
        [reflexivity|fits_schema|fits_schema|fits_schema|intros; by eapply symbol_appended|exact Hw].
    + eapply (family_reads_back args _ _ source_health_schema (health_columns_of rs));
        [reflexivity|fits_schema|fits_schema|fits_schema|intros; by eapply source_appended|exact Hw].
    + eapply (family_reads_back args _ _ gap_alert_schema (gap_columns_of rs));
        [reflexivity|fits_schema|fits_schema|fits_schema|intros; by eapply gap_appended|exact Hw].
Qed.
End files.

(** ** A file on disk *)

#[local] Existing Instance L1BuildFacts.sample_lib.
#[local] Existing Instance L1BuildFacts.sample_float.
#[local] Existing Instance L1BuildFacts.sample_json.

Definition sample_file : L0File :=
  RawFile (mkRawPart "binance" "trade" "2023-11-14" 22 0)
    [raw_from_draft (sample_draft "trade" 1200 "p=50000;q=2") "run-1" 1;
     raw_from_draft (sample_draft "book_ticker" 1300 "b=49999;B=1;a=50001;A=3") "run-1" 2].

Lemma written_files_read_back_witness :
  exists file, write_file sample_file = Ok file /\
    append_batches_to_accumulator (F := Z) (V := list (string * string)) col_str col_i64 col_bool sample_args
      (file_key "run-1" 1 sample_file) (file_rows file)
      (accumulator_new sample_args sample_input sample_scan sample_metadata) =
    Ok (fold_left (ingest_row (V := list (string * string)) sample_args)
          [RawRow sample_trade; RawRow sample_book]
          (accumulator_new sample_args sample_input sample_scan sample_metadata)).
Proof.
  eexists. split; [by vm_compute|].
  apply (written_files_read_back (F := Z) (V := list (string * string)) sample_args "run-1" 1 sample_file).
  by vm_compute.
Defined.
