(* ===== verification/Live.v ===== *)
(** * Live: ticks on the live stream

    [live] and the publication step of the sink ([storage/sink/live.rs],
    [storage/sink/config.rs]).  A record becomes a tick, a tick with a mark price is
    published under a subject of its venue and symbol.  The NATS client is a function
    that answers a publication; JSON and floats are those of the L1 builder. *)
From S2P Require Import Prelude Text OrderedMap Records Sink L1Window L1Build L1BuildFacts L0RoundTrip.
Open Scope Z_scope.

(* rust: src/live.rs MARKET_LIVE_TICK_SCHEMA_VERSION *)
Definition MARKET_LIVE_TICK_SCHEMA_VERSION : string := "market_live_tick_v1".

(** ** Quotes *)

(* rust: src/live/quote.rs QuoteFields *)
Record QuoteFields (F : Type) := mkQuoteFields {
  qf_price_source : string;
  qf_last_price : option F;
  qf_best_bid_price : option F;
  qf_best_ask_price : option F;
  qf_trade_volume : option F;
}.
Arguments mkQuoteFields {F}.
Arguments qf_price_source {F}.
Arguments qf_last_price {F}.
Arguments qf_best_bid_price {F}.
Arguments qf_best_ask_price {F}.
Arguments qf_trade_volume {F}.

(** [QuoteFields::default()] *)
Definition no_quote {F : Type} : QuoteFields F := mkQuoteFields "" None None None None.

(* rust: src/live/tick.rs MarketLiveTick *)
Record MarketLiveTick (F : Type) := mkLiveTick {
  lt_schema_version : string;
  lt_event_id : string;
  lt_producer_run_id : string;
  lt_venue : string;
  lt_source_role : string;
  lt_market_type : string;
  lt_event_type : string;
  lt_symbol_native : string;
  lt_symbol_canonical : string;
  lt_base_asset : string;
  lt_quote_asset : string;
  lt_exchange_timestamp_ms : Z;
  lt_ingest_timestamp_ms : Z;
  lt_latency_ms : Z;
  lt_sequence_id : string;
  lt_sequence_tag : string;
  lt_price_source : string;
  lt_last_price : option F;
  lt_best_bid_price : option F;
  lt_best_ask_price : option F;
  lt_mark_price : option F;
  lt_trade_volume : option F;
  lt_payload_sha256 : string;
}.
Arguments mkLiveTick {F}.
Arguments lt_schema_version {F}.
Arguments lt_event_id {F}.
Arguments lt_venue {F}.
Arguments lt_symbol_canonical {F}.
Arguments lt_exchange_timestamp_ms {F}.
Arguments lt_ingest_timestamp_ms {F}.
Arguments lt_latency_ms {F}.
Arguments lt_last_price {F}.
Arguments lt_best_bid_price {F}.
Arguments lt_best_ask_price {F}.
Arguments lt_mark_price {F}.
Arguments lt_trade_volume {F}.
Arguments lt_price_source {F}.

Section live.
Context {F V : Type} {FO : Float F} {J : PayloadJson V F}.

(** The filter of every number: finite and above zero. *)
Definition positive (v : F) : bool := f_is_finite v && f_ltb f_zero v.

(* rust: src/live/quote.rs parse_number_value *)
Definition parse_number_value (value : V) : option F :=
  v ← (match pj_number value with
       | Some as_f64 => as_f64
       | None => text ← pj_as_str value; f_parse text
       end);
  if positive v then Some v else None.

(* rust: src/live/quote.rs numeric_field *)
Definition numeric_field (field : string) (value : V) : option F :=
  v ← pj_get field value; parse_number_value v.

(** The match on the first level: an array or an object; [get] answers nothing on
    any other value. *)
(* rust: src/live/quote.rs first_level_price *)
Definition first_level_price (field : string) (value : V) : option F :=
  levels ← pj_get field value;
  levels ← pj_as_array levels;
  first ← head levels;
  match pj_as_array first with
  | Some items => item ← head items; parse_number_value item
  | None => numeric_field "price" first
  end.

(* rust: src/live/quote.rs midpoint *)
Definition midpoint (bid ask : option F) : option F :=
  match bid, ask with
  | Some bid, Some ask => if f_leb bid ask then Some (f_div (f_add bid ask) f_two) else None
  | Some bid, None => Some bid
  | None, Some ask => Some ask
  | None, None => None
  end.

Definition or_else {A} (a b : option A) : option A := match a with Some _ => a | None => b end.

(* rust: src/live/quote.rs quote_from_binance_payload *)
Definition quote_from_binance_payload (event_type : string) (payload : V) : option (QuoteFields F) :=
  let data := default payload (pj_get "data" payload) in
  if String.eqb event_type "trade"
  then Some (mkQuoteFields "trade" (numeric_field "p" data) None None (numeric_field "q" data))
  else if String.eqb event_type "ticker"
  then Some (mkQuoteFields "ticker_last" (numeric_field "c" data) None None (numeric_field "v" data))
  else if String.eqb event_type "book_ticker"
  then Some (mkQuoteFields "book_ticker_mid" None (numeric_field "b" data) (numeric_field "a" data) None)
  else if String.eqb event_type "depth_delta" || String.eqb event_type "depth_snapshot"
  then Some (mkQuoteFields "depth_top_mid" None
               (or_else (first_level_price "b" data) (first_level_price "bids" data))
               (or_else (first_level_price "a" data) (first_level_price "asks" data)) None)
  else None.

(* rust: src/live/quote.rs quote_from_upbit_payload *)
Definition quote_from_upbit_payload (event_type : string) (payload : V) : option (QuoteFields F) :=
  if String.eqb event_type "trade"
  then Some (mkQuoteFields "trade" (numeric_field "trade_price" payload)
               (numeric_field "best_bid_price" payload) (numeric_field "best_ask_price" payload)
               (numeric_field "trade_volume" payload))
  else if String.eqb event_type "ticker"
  then Some (mkQuoteFields "ticker_trade_price" (numeric_field "trade_price" payload) None None
               (numeric_field "acc_trade_volume_24h" payload))
  else if String.eqb event_type "depth_snapshot"
  then
    let top := units ← pj_get "orderbook_units" payload; units ← pj_as_array units; head units in
    Some (mkQuoteFields "orderbook_top_mid" None
            (top ← top; numeric_field "bid_price" top) (top ← top; numeric_field "ask_price" top) None)
  else None.

(* rust: src/live/quote.rs quote_from_payload *)
Definition quote_from_payload (record : RawMarketEventRecord) (payload : V) : option (QuoteFields F) :=
  if String.eqb (rr_venue record) "binance" then quote_from_binance_payload (rr_event_type record) payload
  else if String.eqb (rr_venue record) "upbit" then quote_from_upbit_payload (rr_event_type record) payload
  else None.

(** ** Ticks *)

Definition quote_of (record : RawMarketEventRecord) : QuoteFields F :=
  default no_quote (payload ← pj_parse (rr_payload_json record); quote_from_payload record payload).

(* rust: src/live/tick.rs from_raw_market_event *)
Definition from_raw_market_event (record : RawMarketEventRecord) : MarketLiveTick F :=
  let quote := quote_of record in
  let mark_price := or_else (qf_last_price quote)
                      (midpoint (qf_best_bid_price quote) (qf_best_ask_price quote)) in
  mkLiveTick MARKET_LIVE_TICK_SCHEMA_VERSION (rr_event_id record) (rr_producer_run_id record)
    (rr_venue record) (rr_source_role record) (rr_market_type record) (rr_event_type record)
    (rr_symbol_native record) (rr_symbol_canonical record) (rr_base_asset record)
    (rr_quote_asset record) (rr_exchange_timestamp_ms record) (rr_ingest_timestamp_ms record)
    (saturate I64 (rr_ingest_timestamp_ms record - rr_exchange_timestamp_ms record))
    (rr_sequence_id record) (rr_sequence_tag record) (qf_price_source quote) (qf_last_price quote)
    (qf_best_bid_price quote) (qf_best_ask_price quote) mark_price (qf_trade_volume quote)
    (rr_payload_sha256 record).

(* rust: src/live/tick.rs has_mark_price *)
Definition has_mark_price (t : MarketLiveTick F) : bool :=
  match lt_mark_price t with Some v => positive v | None => false end.

(** ** Publication *)

(** [subject_token] maps characters: of the bytes of one, the first decides and the
    continuation bytes are dropped. *)
Definition subject_char (c : ascii) : string :=
  let n := N_of_ascii c in
  if (128 <=? n)%N && (n <? 192)%N then ""
  else if is_alphanumeric c || Ascii.eqb c "-" || Ascii.eqb c "_" then to_ascii_lowercase (String c "")
  else "_".

(* rust: src/live/publisher.rs subject_token *)
Fixpoint subject_token (value : string) : string :=
  match value with
  | EmptyString => ""
  | String c value => (subject_char c ++ subject_token value)%string
  end.

(** A message to the stream: the stream expected to take it, its identity for
    deduplication, its subject and the tick. *)
Record LiveMessage := mkLiveMessage {
  lm_expected_stream : string; lm_message_id : string; lm_subject : string; lm_tick : MarketLiveTick F }.

Definition live_subject (config : LiveMarketNatsConfig) (t : MarketLiveTick F) : string :=
  (nats_subject_prefix config ++ "." ++ subject_token (lt_venue t) ++ "."
   ++ subject_token (lt_symbol_canonical t))%string.

(** [send] encodes and publishes a message and answers the stream of its acknowledgement. *)
(* rust: src/live/publisher.rs publish_tick *)
Definition publish_tick (config : LiveMarketNatsConfig) (send : LiveMessage -> result string string)
    (t : MarketLiveTick F) : result string () :=
  if negb (has_mark_price t) then Ok () else
  stream ← send (mkLiveMessage (nats_stream config) (lt_event_id t) (live_subject config t) t);
  if negb (String.eqb stream (nats_stream config))
  then Err ("NATS JetStream ack stream mismatch: expected " ++ nats_stream config ++ ", got " ++ stream)%string
  else Ok ().

(** The sink's publisher: its configuration and the client. *)
Record LiveMarketPublisher := mkPublisher {
  lp_config : LiveMarketNatsConfig;
  lp_send : LiveMessage -> result string string;
  lp_flush : result string ();
}.

(** [connect] is the answer of the server. *)
(* rust: src/storage/sink/config.rs connect_live_publisher *)
Definition connect_live_publisher
    (connect : LiveMarketNatsConfig -> result string LiveMarketPublisher) (cfg : L0StorageConfig)
    : result StorageError (option LiveMarketPublisher) :=
  match cf_live_nats cfg with
  | None => Ok None
  | Some nats =>
      match connect nats with
      | Ok publisher => Ok (Some publisher)
      | Err error =>
          if nats_required nats
          then Err (SNats ("connect market live publisher " ++ nats_url nats ++ ": " ++ error))
          else Ok None
      end
  end.

(* rust: src/storage/sink/live.rs publish_live_tick *)
Definition publish_live_tick (cfg : L0StorageConfig) (publisher : option LiveMarketPublisher)
    (record : RawMarketEventRecord) : result StorageError () :=
  match publisher with
  | None => Ok ()
  | Some publisher =>
      let tick := from_raw_market_event record in
      if negb (has_mark_price tick) then Ok () else
      match publish_tick (lp_config publisher) (lp_send publisher) tick with
      | Ok _ => Ok ()
      | Err error =>
          if live_nats_required cfg
          then Err (SNats ("publish market live tick " ++ lt_event_id tick ++ ": " ++ error))
          else Ok ()
      end
  end.

(** The end of [flush_all]. *)
Definition flush_live (publisher : option LiveMarketPublisher) : result StorageError () :=
  match publisher with
  | None => Ok ()
  | Some publisher =>
      map_err (fun error => SNats ("flush market live publisher: " ++ error)) (lp_flush publisher)
  end.

(** The sink's world with this publisher: its publications and its flush. *)
Definition with_publisher (cfg : L0StorageConfig) (publisher : option LiveMarketPublisher) (i : Io) : Io :=
  mkIo (io_mkdir i) (io_write_parquet i) (io_upload_file i) (io_seal i) (io_upload_json i)
    (publish_live_tick cfg publisher) (flush_live publisher).
End live.

(** ** A tick and the slice of its event agree *)

(** The law of IEEE comparison on numbers that are not NaN. *)
Definition total_on_finite (F : Type) {FO : Float F} : Prop :=
  forall a b : F, f_is_finite a = true -> f_is_finite b = true -> f_leb a b = negb (f_ltb b a).

Section agreement.
Context {F V : Type} {FO : Float F} {J : PayloadJson V F}.
Context (Hord : total_on_finite F) (Hzero : f_is_finite (f_zero (F := F)) = true).

Lemma parse_number_filter (value : V) (v : F) :
  number_from_value value = Some v -> f_is_finite v = true -> f_leb v f_zero = false ->
  parse_number_value value = Some v.
Proof.
  intros Hn Hf Hle. unfold parse_number_value. unfold number_from_value in Hn. rewrite Hn. cbn.
  unfold positive. rewrite Hf. cbn. rewrite (Hord v f_zero Hf Hzero) in Hle.
  by apply negb_false_iff in Hle as ->.
Qed.

Lemma field_filter field (data : V) (v : F) :
  field_number field data = Some v -> f_is_finite v = true -> f_leb v f_zero = false ->
  numeric_field field data = Some v.
Proof.
  unfold field_number, numeric_field. destruct (pj_get field data) as [value|]; cbn; [|done].
  apply parse_number_filter.
Qed.

Lemma positive_leb (v : F) : f_is_finite v = true -> f_leb v f_zero = false -> positive v = true.
Proof.
  intros Hf Hle. unfold positive. rewrite Hf. cbn. rewrite (Hord v f_zero Hf Hzero) in Hle.
  by apply negb_false_iff in Hle.
Qed.

(** Both prices of a trade are its price. *)
Definition tick_of_trade (t : MarketLiveTick F) (price quantity : F) : Prop :=
  lt_last_price t = Some price /\ lt_mark_price t = Some price /\
  lt_trade_volume t = Some quantity /\ has_mark_price t = true.

Definition tick_of_book (t : MarketLiveTick F) (bid ask : F) : Prop :=
  lt_last_price t = None /\ lt_best_bid_price t = Some bid /\ lt_best_ask_price t = Some ask /\
  lt_mark_price t = Some (f_div (f_add bid ask) f_two).

(** The data of a payload the two readers look into: an Upbit message has no
    ["data"] member, which only the L1 reader would unwrap. *)
Definition plain_payload (r : RawMarketEventRecord) : Prop :=
  rr_venue r = "upbit"%string -> forall value, pj_parse (F := F) (V := V) (rr_payload_json r) = Some value ->
  pj_get (F := F) "data" value = None.

Definition same_event (r : RawMarketEventRecord) (e : RawInputEvent) : Prop :=
  ri_venue e = rr_venue r /\ ri_event_type e = rr_event_type r /\
  ri_payload_json e = rr_payload_json r.

Lemma trade_agrees r e (t : TradeNormalized (F := F)) :
  same_event r e -> plain_payload r -> rr_event_type r = "trade"%string ->
  parse_trade (V := V) e = Some t -> f_is_finite (tn_price t) = true ->
  f_is_finite (tn_quantity t) = true ->
  tick_of_trade (from_raw_market_event (V := V) r) (tn_price t) (tn_quantity t).
Proof.
  intros (Hv & Ht & Hp) Hplain Htype H Hf Hq. unfold parse_trade in H. rewrite Hp in H.
  unfold tick_of_trade, has_mark_price, from_raw_market_event, quote_of.
  destruct (pj_parse (rr_payload_json r)) as [value|] eqn:Ep; [|done]. cbn [mbind option_bind] in H |- *.
  unfold quote_from_payload. rewrite <- Hv, Htype.
  destruct (String.eqb (ri_venue e) "binance") eqn:Eb; [|destruct (String.eqb (ri_venue e) "upbit") eqn:Eu; [|done]].
  - unfold parse_binance_trade in H. fold (binance_data (F := F) value).
    destruct (field_number "p" _) as [p|] eqn:E1; cbn in H; [|done].
    destruct (field_number "q" _) as [q|] eqn:E2; cbn in H; [|done].
    destruct (f_leb p f_zero) eqn:L1, (f_leb q f_zero) eqn:L2; cbn in H; try done. injection H as <-.
    cbn in Hf, Hq. unfold quote_from_binance_payload. cbn.
    change (default value _) with (binance_data (F := F) value).
    rewrite (field_filter _ _ _ E1 Hf L1), (field_filter _ _ _ E2 Hq L2). cbn.
    by rewrite (positive_leb p).
  - apply String.eqb_eq in Eu. unfold binance_data in H. rewrite (Hplain (eq_trans (eq_sym Hv) Eu) _ Ep) in H.
    cbn in H. unfold parse_upbit_trade in H.
    destruct (field_number "trade_price" _) as [p|] eqn:E1; cbn in H; [|done].
    destruct (field_number "trade_volume" _) as [q|] eqn:E2; cbn in H; [|done].
    destruct (f_leb p f_zero) eqn:L1, (f_leb q f_zero) eqn:L2; cbn in H; try done.
    assert (Hpq : tn_price t = p /\ tn_quantity t = q).
    { destruct (f ← pj_get "ask_bid" value; pj_as_str f) as [s|]; cbn in H; [|done].
      destruct (String.eqb s "BID"); cbn in H; [by injection H as <-|].
      destruct (String.eqb s "ASK"); cbn in H; [by injection H as <-|done]. }
    destruct Hpq as [Ep1 Eq1]. rewrite Ep1 in Hf |- *. rewrite Eq1 in Hq |- *.
    unfold quote_from_upbit_payload. cbn.
    rewrite (field_filter _ _ _ E1 Hf L1), (field_filter _ _ _ E2 Hq L2). cbn.
    by rewrite (positive_leb p).
Qed.

(** What [valid_book] and the quantities leave of a quote. *)
Lemma valid_book_prices e bid bq ask aq (b : BookTickerNormalized (F := F)) :
  valid_book e bid bq ask aq = Some b -> f_is_finite (bn_best_bid b) = true ->
  f_is_finite (bn_best_ask b) = true ->
  bn_best_bid b = bid /\ bn_best_ask b = ask /\ f_leb bid f_zero = false /\
  f_leb ask f_zero = false /\ f_leb bid ask = true.
Proof.
  unfold valid_book. destruct (f_leb bid f_zero) eqn:L1, (f_leb ask f_zero) eqn:L2; cbn; try done.
  destruct (_ || _); [done|]. destruct (f_ltb ask bid) eqn:L3; [done|]. intros [= <-] Hb Ha.
  cbn in *. by rewrite Hord, L3.
Qed.

Lemma mark_of_book (bid ask : F) : f_leb bid ask = true ->
  midpoint (Some bid) (Some ask) = Some (f_div (f_add bid ask) f_two).
Proof. cbn. by intros ->. Qed.

Lemma book_agrees r e (b : BookTickerNormalized (F := F)) :
  same_event r e -> plain_payload r ->
  parse_book_ticker (V := V) e = Some b -> f_is_finite (bn_best_bid b) = true ->
  f_is_finite (bn_best_ask b) = true ->
  tick_of_book (from_raw_market_event (V := V) r) (bn_best_bid b) (bn_best_ask b).
Proof.
  intros (Hv & Ht & Hp) Hplain H Hb Ha. unfold parse_book_ticker in H. rewrite Hp in H.
  unfold tick_of_book, from_raw_market_event, quote_of.
  destruct (pj_parse (rr_payload_json r)) as [value|] eqn:Ep; [|done]. cbn [mbind option_bind] in H |- *.
  unfold quote_from_payload. rewrite <- Hv, <- Ht.
  destruct (String.eqb (ri_venue e) "binance" && String.eqb (ri_event_type e) "book_ticker") eqn:E1;
    [|destruct (String.eqb (ri_venue e) "upbit" && String.eqb (ri_event_type e) "depth_snapshot") eqn:E2; [|done]].
  - apply andb_true_iff in E1 as [->%String.eqb_eq ->%String.eqb_eq]. unfold parse_binance_book_ticker in H.
    destruct (field_number "b" _) as [bid|] eqn:F1; cbn in H; [|done].
    destruct (field_number "B" _) as [bq|]; cbn in H; [|done].
    destruct (field_number "a" _) as [ask|] eqn:F2; cbn in H; [|done].
    destruct (field_number "A" _) as [aq|]; cbn in H; [|done].
    apply valid_book_prices in H as (<- & <- & L1 & L2 & L3); [|done|done].
    cbn. unfold quote_from_binance_payload. cbn. change (default value _) with (binance_data (F := F) value).
    rewrite (field_filter _ _ _ F1 Hb L1), (field_filter _ _ _ F2 Ha L2). by rewrite mark_of_book.
  - apply andb_true_iff in E2 as [Eu ->%String.eqb_eq]. apply String.eqb_eq in Eu.
    unfold binance_data in H. rewrite (Hplain (eq_trans (eq_sym Hv) Eu) _ Ep) in H. rewrite Eu. cbn in H |- *.
    unfold parse_upbit_orderbook_top in H.
    destruct (pj_get "orderbook_units" value) as [units|] eqn:U1; cbn in H; [|done].
    destruct (pj_as_array units) as [us|] eqn:U2; cbn in H; [|done].
    destruct (head us) as [first|] eqn:U3; cbn in H; [|done].
    destruct (field_number "bid_price" _) as [bid|] eqn:F1; cbn in H; [|done].
    destruct (field_number "bid_size" _) as [bq|]; cbn in H; [|done].
    destruct (field_number "ask_price" _) as [ask|] eqn:F2; cbn in H; [|done].
    destruct (field_number "ask_size" _) as [aq|]; cbn in H; [|done].
    apply valid_book_prices in H as (<- & <- & L1 & L2 & L3); [|done|done].
    unfold quote_from_upbit_payload. cbn. rewrite U2. cbn. rewrite U3. cbn.
    rewrite (field_filter _ _ _ F1 Hb L1), (field_filter _ _ _ F2 Ha L2). by rewrite mark_of_book.
Qed.
End agreement.

Lemma input_same_event r : same_event r (raw_input r).
Proof. done. Qed.

(** C29: When the normalizer reads a trade in the stored row of a record, the live tick of
    the record is marked with the price the slice of the trade holds and carries its
    quantity, and it is published; when it reads a quote, the tick has its bid and ask,
    and is marked with the mid price the slice gets.  Numbers are finite, and an Upbit
    message has no ["data"] member, which the normalizer alone would look into. *)
Theorem live_ticks_agree_with_slices {F V : Type} {FO : Float F} {J : PayloadJson V F}
    (r : RawMarketEventRecord) :
  total_on_finite F -> f_is_finite (f_zero (F := F)) = true -> plain_payload (F := F) (V := V) r ->
  let tick := from_raw_market_event (F := F) (V := V) r in
  (forall t : TradeNormalized (F := F), rr_event_type r = "trade"%string ->
   parse_trade (V := V) (raw_input r) = Some t ->
   f_is_finite (tn_price t) = true -> f_is_finite (tn_quantity t) = true ->
   tick_of_trade tick (tn_price t) (tn_quantity t)) /\
  (forall (b : BookTickerNormalized (F := F)) (s : SliceRow (F := F)),
   parse_book_ticker (V := V) (raw_input r) = Some b ->
   f_is_finite (bn_best_bid b) = true -> f_is_finite (bn_best_ask b) = true ->
   tick_of_book tick (bn_best_bid b) (bn_best_ask b) /\
   sl_mid_price (set_mid (set_sl_best_ask (Some (bn_best_ask b)) (set_sl_best_bid (Some (bn_best_bid b)) s)))
     = lt_mark_price tick).
Proof.
  intros Hord Hzero Hplain tick. pose proof (input_same_event r) as Hs. split.
  - intros t Ht Hp. by apply (trade_agrees Hord Hzero r (raw_input r)).
  - intros b s Hb Hbid Hask.
    pose proof (book_agrees Hord Hzero r (raw_input r) b Hs Hplain Hb Hbid Hask) as Htick. split; [done|].
    destruct Htick as (_ & _ & _ & Hmark). unfold tick. rewrite Hmark. by unfold set_mid.
Qed.

(** ** Subjects *)

Definition token_char (c : ascii) : bool :=
  is_digit c || is_ascii_lower c || Ascii.eqb c "-" || Ascii.eqb c "_".

Lemma subject_char_tokens c : Forall (fun a => token_char a = true) (bytes (subject_char c)).
Proof. destruct c as [[] [] [] [] [] [] [] []]; cbn; repeat constructor. Qed.

Lemma subject_token_tokens v : Forall (fun a => token_char a = true) (bytes (subject_token v)).
Proof.
  induction v as [|c v IH]; cbn [subject_token]; [constructor|]. rewrite bytes_app. apply Forall_app.
  split; [apply subject_char_tokens|done].
Qed.

Lemma token_no_dot v : ~ In "."%char (bytes (subject_token v)).
Proof.
  intros H. pose proof (subject_token_tokens v) as Ht. rewrite Forall_forall in Ht.
  apply list_elem_of_In in H. by apply Ht in H.
Qed.

(** The subject of a tick is the configured prefix and exactly two more tokens, of the
    venue and the symbol, of lower-case letters, digits, [-] and [_]: no separator or
    wildcard of either gets into it, whatever the exchange calls them. *)
Theorem subject_has_two_tokens {F : Type} (config : LiveMarketNatsConfig) (t : MarketLiveTick F) :
  split_char "." (live_subject config t) =
    (split_char "." (nats_subject_prefix config)
     ++ [subject_token (lt_venue t); subject_token (lt_symbol_canonical t)])%list /\
  Forall (fun a => token_char a = true)
    (bytes (subject_token (lt_venue t)) ++ bytes (subject_token (lt_symbol_canonical t)))%list.
Proof.
  split; [|apply Forall_app; split; apply subject_token_tokens].
  unfold live_subject. cbn [append]. rewrite split_char_sep.
  rewrite split_char_app by apply token_no_dot.
  by rewrite (split_char_none "." (subject_token (lt_symbol_canonical t))) by apply token_no_dot.
Qed.

(** ** An optional stream *)

Section optional.
Context {L : StorageLib} {F V : Type} {FO : Float F} {J : PayloadJson V F}.

Lemma publish_optional cfg (p : option (LiveMarketPublisher (F := F))) r :
  live_nats_required cfg = false -> publish_live_tick (V := V) cfg p r = Ok ().
Proof.
  intros Hreq. unfold publish_live_tick. destruct p as [p|]; [|done].
  destruct (negb (has_mark_price _)); [done|]. destruct (publish_tick _ _ _); [done|by rewrite Hreq].
Qed.

Lemma flush_partition_live {K R} {FA : Family K R} (i : Io) cfg (p : option (LiveMarketPublisher (F := F)))
    (k : K) (s : FamilyState K R) c :
  flush_partition (with_publisher (V := V) cfg p i) cfg k s c = flush_partition i cfg k s c.
Proof. done. Qed.

Lemma flush_keys_live {K R} {FA : Family K R} (i : Io) cfg (p : option (LiveMarketPublisher (F := F)))
    keys (s : FamilyState K R) c :
  flush_keys (with_publisher (V := V) cfg p i) cfg keys s c = flush_keys i cfg keys s c.
Proof.
  revert s c. induction keys as [|k keys IH]; intros s c; [done|]. cbn [flush_keys].
  rewrite flush_partition_live. destruct (flush_partition i cfg k s c) as [[[u|e] s1] c1]; [apply IH|done].
Qed.

(** C39: When the stream is not required, the appends of the sink do what they do without a
    publisher, whatever the stream answers; but a flush of the client that fails still
    fails [flush_all], after every buffer was written. *)
Theorem optional_live_fails_only_flush (cfg : L0StorageConfig) (p : LiveMarketPublisher (F := F))
    (i : Io) (d : RawMarketEventDraft) (k : L0StorageSink) :
  sk_config k = cfg -> live_nats_required cfg = false ->
  append_raw_market_event (with_publisher (V := V) cfg (Some p) i) d k =
    append_raw_market_event (with_publisher (F := F) (V := V) cfg None i) d k /\
  flush_all (with_publisher (V := V) cfg (Some p) i) k =
    (let (r, k') := flush_all (with_publisher (F := F) (V := V) cfg None i) k in
     (_ ← r; flush_live (Some p), k')).
Proof.
  intros Hcfg Hreq. split.
  - unfold append_raw_market_event. destruct (take_ordinal _) as [n c].
    cbn [io_live_publish with_publisher]. by rewrite !publish_optional.
  - unfold flush_all. rewrite Hcfg, !flush_keys_live.
    destruct (flush_keys i cfg _ (sk_raw k) _) as [[[u|e] s1] c1]; [|done]. rewrite !flush_keys_live.
    destruct (flush_keys i cfg _ (sk_health k) _) as [[[u1|e] s2] c2]; [|done]. rewrite !flush_keys_live.
    destruct (flush_keys i cfg _ (sk_symbol_health k) _) as [[[u2|e] s3] c3]; [|done]. rewrite !flush_keys_live.
    by destruct (flush_keys i cfg _ (sk_gap k) _) as [[[u3|e] s4] c4].
Qed.
End optional.

(** ** Ticks of two records *)

#[local] Existing Instance L1BuildFacts.sample_lib.
#[local] Existing Instance L1BuildFacts.sample_float.
#[local] Existing Instance L1BuildFacts.sample_json.

Definition sample_record (event_type payload : string) : RawMarketEventRecord :=
  raw_from_draft (sample_draft event_type 1200 payload) "run-1" 1.

Lemma sample_order : total_on_finite Z.
Proof. intros a b _ _. cbn. rewrite Z.leb_antisym. done. Qed.

Lemma live_ticks_agree_with_slices_witness :
  tick_of_trade (from_raw_market_event (V := list (string * string)) (sample_record "trade" "p=50000;q=2")) 50000 2 /\
  tick_of_book (from_raw_market_event (V := list (string * string))
    (sample_record "book_ticker" "b=49999;B=1;a=50001;A=3")) 49999 50001.
Proof.
  split.
  - eapply (proj1 (live_ticks_agree_with_slices (F := Z) (V := list (string * string))
      (sample_record "trade" "p=50000;q=2") sample_order eq_refl ltac:(done)) (mkTrade _ _ 50000 2 _ _ _));
      by vm_compute.
  - eapply (proj2 (live_ticks_agree_with_slices (F := Z) (V := list (string * string))
      (sample_record "book_ticker" "b=49999;B=1;a=50001;A=3") sample_order eq_refl ltac:(done))
      (mkBook _ _ 49999 1 50001 3 _ _) (empty_slice sample_args (identity_from_event sample_book) 0));
      by vm_compute.
Defined.

Definition optional_nats : LiveMarketNatsConfig := mkNats "nats://stream" "MARKET_LIVE" "market_live_tick.created" false.
Definition optional_config : L0StorageConfig :=
  mkL0Config "bucket" "ap-northeast-2" None "/spool" "run-1" 2 4 (Some optional_nats).
(** A client that loses every message and cannot flush. *)
Definition lost_publisher : LiveMarketPublisher (F := Z) :=
  mkPublisher optional_nats (fun _ => Err "no stream"%string) (Err "connection closed"%string).

Lemma optional_live_fails_only_flush_witness :
  flush_all (with_publisher (V := list (string * string)) optional_config (Some lost_publisher) Sink.sample_io)
    (sink_start optional_config) =
  (Err (SNats "flush market live publisher: connection closed"), sink_start optional_config).
Proof.
  assert (H : flush_all (with_publisher (V := list (string * string)) optional_config (Some lost_publisher) Sink.sample_io)
    (sink_start optional_config) =
    (let (r, k') := flush_all (with_publisher (F := Z) (V := list (string * string)) optional_config None Sink.sample_io)
       (sink_start optional_config) in (_ ← r; flush_live (Some lost_publisher), k'))).
  { apply (optional_live_fails_only_flush optional_config lost_publisher Sink.sample_io
      (sample_draft "trade" 1200 "p=50000;q=2") (sink_start optional_config)); reflexivity. }
  rewrite H. by vm_compute.
Defined.
