(* ===== verification/Projection.v ===== *)
(** * Projection: market context computed from the slices of a run

    [normalize/projection] (its common helpers, the data quality summary, the feature
    deltas and their summary, the regime contexts) and
    [normalize/derivative_projection].  The floats are the class [Float] of [L1Build]
    with the further operations of [FloatMath]; borrowed rows are the rows. *)
From S2P Require Import Prelude Text OrderedMap Records NormalizeArgs L1Window L1Build.
Open Scope Z_scope.

(** Further operations on [f64]; [f_sum_zero] is the start of [Iterator::sum]. *)
Class FloatMath (F : Type) := {
  f_sum_zero : F; f_one : F; f_half : F; f_hundred : F; f_epsilon : F;
  f_max_spread_bps : F; f_max_gap_rate : F;
  f_of_Z : Z -> F; f_abs : F -> F; f_sqrt : F -> F; f_square : F -> F;
  f_partial_cmp : F -> F -> option comparison;
}.

(* rust: src/normalize/projection/common/constants.rs FIFTEEN_MINUTES_MS *)
Definition FIFTEEN_MINUTES_MS : Z := 900000.
(* rust: src/normalize/projection/common/constants.rs ONE_HOUR_MS *)
Definition ONE_HOUR_MS : Z := 3600000.

(** ** Grouping *)

(** [entry(key).or_default().push(x)] for each element, then each group sorted by time. *)
Definition group_by {A K} `{KeyCmp K} (key : A -> K) (l : list A) : btree K (list A) :=
  fold_left (fun m x => bupdate (key x) [] (fun g => g ++ [x])%list m) l [].
Definition sorted_groups {A K} `{KeyCmp K} (key : A -> K) (time : A -> Z) (l : list A)
    : btree K (list A) :=
  map (fun kg => (kg.1, sort_by (fun a b => time a <=? time b) kg.2)) (group_by key l).

(** [slice.partition_point(p)] of a slice where [p] holds of a prefix. *)
Fixpoint partition_point {A} (p : A -> bool) (l : list A) : nat :=
  match l with [] => O | x :: l => if p x then Datatypes.S (partition_point p l) else O end.

(** [iter.rev().find(p)] *)
Definition rfind {A} (p : A -> bool) (l : list A) : option A := List.find p (rev l).

(** [opt.filter(p)] *)
Definition option_filter {A} (p : A -> bool) (o : option A) : option A :=
  match o with Some a => if p a then Some a else None | None => None end.

Definition is_none {A} (o : option A) : bool := match o with None => true | Some _ => false end.

Section projection.
Context {L : StorageLib} {F : Type} {FO : Float F} {FM : FloatMath F}.
Abbreviation SliceRow := (SliceRow (F := F)).
Abbreviation Metric := (DerivativeMetricObservation (F := F)).

(** [f64::EPSILON], [mean], [sum] *)
Definition f_sum (l : list F) : F := fold_left f_add l f_sum_zero.
Definition f_len (l : list F) : F := f_of_Z (zlen l).

(* rust: src/normalize/projection/common/stats.rs percent_change *)
Definition percent_change (now previous : option F) : option F :=
  now ← now;
  previous ← previous;
  if negb (f_is_finite now) || negb (f_is_finite previous) || f_leb (f_abs previous) f_epsilon
  then None else Some (f_mul (f_div (f_sub now previous) previous) f_hundred).

(* rust: src/normalize/projection/common/stats.rs mean *)
Definition mean (values : list F) : option F :=
  let '(count, sum) := fold_left (fun '(count, sum) value =>
      if f_is_finite value then (count + 1, f_add sum value) else (count, sum)) values (0, f_zero) in
  if 0 <? count then Some (f_div sum (f_of_Z count)) else None.

(* rust: src/normalize/projection/common/stats.rs population_stddev *)
Definition population_stddev (values : list F) : option F :=
  let values := List.filter f_is_finite values in
  if zlen values <? 2 then None else
  let mean := f_div (f_sum values) (f_len values) in
  let variance := f_div (f_sum (map (fun value => f_square (f_sub value mean)) values)) (f_len values) in
  Some (f_sqrt variance).

(* rust: src/normalize/projection/common/stats.rs correlation *)
Definition correlation (left right : list F) : option F :=
  if negb (zlen left =? zlen right) || (zlen left <? 3) then None else
  let left_mean := f_div (f_sum left) (f_len left) in
  let right_mean := f_div (f_sum right) (f_len right) in
  let '(numerator, left_denominator, right_denominator) :=
    fold_left (fun '(n, ld, rd) '(left_value, right_value) =>
      let left_delta := f_sub left_value left_mean in
      let right_delta := f_sub right_value right_mean in
      (f_add n (f_mul left_delta right_delta), f_add ld (f_square left_delta),
       f_add rd (f_square right_delta)))
      (List.combine left right) (f_zero, f_zero, f_zero) in
  if f_leb left_denominator f_epsilon || f_leb right_denominator f_epsilon then None
  else Some (f_div numerator (f_mul (f_sqrt left_denominator) (f_sqrt right_denominator))).

(** [partial_cmp(..).unwrap_or(Equal)], not greater. *)
Definition f_cmp_leb (a b : F) : bool :=
  match default Eq (f_partial_cmp a b) with Gt => false | _ => true end.

(* rust: src/normalize/projection/common/stats.rs median *)
Definition median (values : list F) : option F :=
  let values := sort_by f_cmp_leb (List.filter f_is_finite values) in
  let middle := (Datatypes.length values / 2)%nat in
  match values with
  | [] => None
  | _ =>
      if Nat.even (Datatypes.length values)
      then a ← values !! (middle - 1)%nat; b ← values !! middle; Some (f_div (f_add a b) f_two)
      else values !! middle
  end.

(* rust: src/normalize/projection/common/grouping.rs SymbolWindowKey *)
Definition SymbolWindowKey : Type := string * (string * (string * string)).

Definition symbol_window_key (row : SliceRow) : SymbolWindowKey :=
  (sl_venue row, (sl_symbol_native row, (sl_symbol_canonical row, sl_market_type row))).

(* rust: src/normalize/projection/common/grouping.rs group_slices_by_symbol *)
Definition group_slices_by_symbol (slices : list SliceRow) : btree SymbolWindowKey (list SliceRow) :=
  sorted_groups symbol_window_key sl_window_start_ms slices.

(* rust: src/normalize/projection/common/grouping.rs price *)
Definition price (row : SliceRow) : option F :=
  option_filter (fun value => f_is_finite value && f_ltb f_zero value)
    (match sl_mid_price row with Some m => Some m | None => sl_last_trade_price row end).

(* rust: src/normalize/projection/common/grouping.rs volume *)
Definition volume (row : SliceRow) : option F :=
  option_filter (fun value => f_is_finite value && f_leb f_zero value) (Some (sl_trade_volume row)).

(* rust: src/normalize/projection/common/grouping.rs value_at_or_before *)
Definition value_at_or_before (rows : list SliceRow) (target_window_start_ms : Z)
    (value : SliceRow -> option F) : option F :=
  match partition_point (fun row => sl_window_start_ms row <=? target_window_start_ms) rows with
  | O => None
  | Datatypes.S i => row ← rows !! i; value row
  end.

(* rust: src/normalize/projection/common/identity.rs stable_id *)
Definition stable_id (parts : list string) : string := sha256_hex (String.concat "|" parts).

(** ** The data quality summary *)

(* rust: src/normalize/model/report.rs MarketDataQualitySummary *)
Record MarketDataQualitySummary := mkQuality {
  qs_schema_version : string;
  qs_quality_summary_id : string;
  qs_l1_run_id : string;
  qs_coverage_ratio : F;
  qs_gap_count : Z;
  qs_stale_sources : list string;
  qs_delayed_sources : list string;
  qs_missing_venues : list string;
  qs_source_health_status : string;
  qs_symbol_health_status : string;
  qs_quality_window_start_ms : Z;
  qs_quality_window_end_ms : Z;
  qs_known_as_of_ms : Z;
}.

(* rust: src/normalize/model/constants.rs MARKET_DATA_QUALITY_SUMMARY_SCHEMA_VERSION *)
Definition MARKET_DATA_QUALITY_SUMMARY_SCHEMA_VERSION : string := "market_data_quality_summary_v1".

(** [iter.collect::<BTreeSet<_>>()] in order. *)
Definition string_set (l : list string) : list string := bkeys (bcollect (map (fun s => (s, ())) l)).

(* rust: src/normalize/projection/data_quality.rs sources_by_quality *)
Definition sources_by_quality (slices : list SliceRow) (is_flagged : SliceRow -> bool) : list string :=
  string_set (map sl_venue (List.filter is_flagged slices)).

(* rust: src/normalize/projection/data_quality.rs missing_venues *)
Definition missing_venues (slices : list SliceRow) : list string :=
  string_set (map sl_venue (List.filter (fun row =>
    String.eqb (sl_slice_completeness row) "incomplete"
    || existsb (fun reason => contains "missing" reason || contains "gap" reason
                              || contains "stale" reason) (sl_missing_reasons row)) slices)).

(** The loops over the slices stop at the first one that is degraded. *)
Definition health_status {A} (snapshot : SliceRow -> option A) (degraded : SliceRow -> A -> bool)
    (slices : list SliceRow) : string :=
  (fix go has_unknown slices := match slices with
   | [] => if has_unknown : bool then "unknown" else "healthy"
   | row :: slices => match snapshot row with
     | None => go true slices
     | Some s => if degraded row s then "degraded" else go has_unknown slices
     end
   end%string) false slices.

(* rust: src/normalize/projection/data_quality.rs source_health_status *)
Definition source_health_status : list SliceRow -> string :=
  health_status sl_source_health_snapshot (fun _ snapshot =>
    negb (String.eqb (hs_health_level snapshot) "healthy")
    && negb (String.eqb (hs_health_level snapshot) "ok")).

(* rust: src/normalize/projection/data_quality.rs symbol_health_status *)
Definition symbol_health_status : list SliceRow -> string :=
  health_status sl_symbol_health_snapshot (fun row snapshot =>
    negb (ss_is_tradeable snapshot) || (0 <? sl_quality_gap row) || (0 <? sl_quality_stale row)).

(* rust: src/normalize/projection/data_quality.rs build_market_data_quality_summary *)
Definition build_market_data_quality_summary (l1_run_id : string) (input_range : InputRange)
    (known_as_of_ms : Z) (slices : list SliceRow) : MarketDataQualitySummary :=
  let covered := zlen (List.filter (fun row =>
    existsb (String.eqb (sl_slice_completeness row)) ["complete"; "partial"; "reference_only"]%string)
    slices) in
  mkQuality MARKET_DATA_QUALITY_SUMMARY_SCHEMA_VERSION
    (stable_id [l1_run_id; show_Z (ir_start_ms input_range); show_Z (ir_end_ms input_range);
                MARKET_DATA_QUALITY_SUMMARY_SCHEMA_VERSION])
    l1_run_id
    (if is_nil slices then f_zero else f_div (f_of_Z covered) (f_of_Z (zlen slices)))
    (fold_left (fun acc row => wrap I64 (acc + sl_quality_gap row)) slices 0)
    (sources_by_quality slices (fun row => 0 <? sl_quality_stale row))
    (sources_by_quality slices (fun row => 0 <? sl_quality_delayed row))
    (missing_venues slices) (source_health_status slices) (symbol_health_status slices)
    (ir_start_ms input_range) (ir_end_ms input_range) known_as_of_ms.

(** ** Feature deltas *)

(* rust: src/normalize/model/market.rs MarketFeatureDelta *)
Record MarketFeatureDelta := mkDelta {
  fd_schema_version : string;
  fd_feature_delta_id : string;
  fd_l1_run_id : string;
  fd_metric_name : string;
  fd_venue : string;
  fd_symbol_native : string;
  fd_symbol_canonical : string;
  fd_market_type : string;
  fd_value_now : F;
  fd_value_15m_ago : option F;
  fd_value_1h_ago : option F;
  fd_change_pct_15m : option F;
  fd_change_pct_1h : option F;
  fd_price_change_same_window : option F;
  fd_volume_change_same_window : option F;
  fd_oi_price_divergence : option F;
  fd_window_start_ms : Z;
  fd_window_end_ms : Z;
  fd_known_as_of_ms : Z;
  fd_quality_status : string;
  fd_missing_reasons : list string;
}.

(* rust: src/normalize/projection/feature_delta/types.rs MarketFeatureDeltaValues *)
Record MarketFeatureDeltaValues := mkDeltaValues {
  dv_value_now : F;
  dv_value_15m_ago : option F;
  dv_value_1h_ago : option F;
  dv_change_pct_15m : option F;
  dv_change_pct_1h : option F;
  dv_price_change_same_window : option F;
  dv_volume_change_same_window : option F;
  dv_oi_price_divergence : option F;
  dv_known_as_of_ms : Z;
}.

(* rust: src/normalize/model/constants.rs MARKET_FEATURE_DELTA_SCHEMA_VERSION *)
Definition MARKET_FEATURE_DELTA_SCHEMA_VERSION : string := "market_feature_delta_v1".

Definition missing_if {A} (o : option A) (reason : string) : list string :=
  if is_none o then [reason] else [].

Definition delta_quality (missing_reasons : list string) (change_pct_15m change_pct_1h : option F)
    : string :=
  if is_nil missing_reasons then "complete"
  else if negb (is_none change_pct_15m) || negb (is_none change_pct_1h) then "partial"
  else "insufficient".

(* rust: src/normalize/projection/feature_delta/detail.rs market_feature_delta *)
Definition market_feature_delta (l1_run_id metric_name : string) (row : SliceRow)
    (values : MarketFeatureDeltaValues) : MarketFeatureDelta :=
  let missing_reasons := (missing_if (dv_value_15m_ago values) "value_15m_ago_missing"
    ++ missing_if (dv_value_1h_ago values) "value_1h_ago_missing"
    ++ missing_if (dv_price_change_same_window values) "price_change_same_window_missing"
    ++ missing_if (dv_volume_change_same_window values) "volume_change_same_window_missing")%list in
  mkDelta MARKET_FEATURE_DELTA_SCHEMA_VERSION
    (stable_id [l1_run_id; metric_name; sl_venue row; sl_symbol_native row;
                show_Z (sl_window_start_ms row); MARKET_FEATURE_DELTA_SCHEMA_VERSION])
    l1_run_id metric_name (sl_venue row) (sl_symbol_native row) (sl_symbol_canonical row)
    (sl_market_type row) (dv_value_now values) (dv_value_15m_ago values) (dv_value_1h_ago values)
    (dv_change_pct_15m values) (dv_change_pct_1h values) (dv_price_change_same_window values)
    (dv_volume_change_same_window values) (dv_oi_price_divergence values) (sl_window_start_ms row)
    (sl_window_end_ms row) (dv_known_as_of_ms values)
    (delta_quality missing_reasons (dv_change_pct_15m values) (dv_change_pct_1h values))
    missing_reasons.

(** The body of the loop over the rows of a group. *)
Definition row_deltas (l1_run_id : string) (known_as_of_ms : Z) (rows : list SliceRow)
    (row : SliceRow) : list MarketFeatureDelta :=
  let ago d value := value_at_or_before rows (wrap I64 (sl_window_start_ms row - d)) value in
  let price_now := price row in
  let volume_now := Some (sl_trade_volume row) in
  let price_15m := ago FIFTEEN_MINUTES_MS price in
  let price_1h := ago ONE_HOUR_MS price in
  let volume_15m := ago FIFTEEN_MINUTES_MS volume in
  let volume_1h := ago ONE_HOUR_MS volume in
  let price_change_1h := percent_change price_now price_1h in
  let volume_change_1h := percent_change volume_now volume_1h in
  (match price_now with
   | Some value_now =>
       [market_feature_delta l1_run_id "price" row
          (mkDeltaValues value_now price_15m price_1h (percent_change price_now price_15m)
             price_change_1h price_change_1h volume_change_1h None known_as_of_ms)]
   | None => []
   end
   ++ [market_feature_delta l1_run_id "trade_volume" row
         (mkDeltaValues (sl_trade_volume row) volume_15m volume_1h
            (percent_change volume_now volume_15m) volume_change_1h price_change_1h
            volume_change_1h None known_as_of_ms)])%list.

(** *** Derivative metrics *)

(* rust: src/normalize/derivative_projection.rs DerivativeMetricKey *)
Definition DerivativeMetricKey : Type := string * (string * (string * (string * string))).

Definition derivative_metric_key (m : Metric) : DerivativeMetricKey :=
  (dm_venue m, (dm_symbol_native m, (dm_symbol_canonical m, (dm_market_type m, dm_metric_name m)))).

(* rust: src/normalize/derivative_projection.rs group_derivative_metrics *)
Definition group_derivative_metrics (metrics : list Metric) : btree DerivativeMetricKey (list Metric) :=
  sorted_groups derivative_metric_key dm_exchange_timestamp_ms metrics.

(* rust: src/normalize/derivative_projection.rs DerivativeFeatureDeltaValues *)
Record DerivativeFeatureDeltaValues := mkDerivativeValues {
  rv_value_now : F;
  rv_value_15m_ago : option F;
  rv_value_1h_ago : option F;
  rv_change_pct_15m : option F;
  rv_change_pct_1h : option F;
}.

(* rust: src/normalize/derivative_projection.rs derivative_value_at_or_before *)
Definition derivative_value_at_or_before (rows : list Metric) (target_exchange_timestamp_ms : Z)
    : option F :=
  option_filter f_is_finite
    (dm_value <$> rfind (fun row => dm_exchange_timestamp_ms row <=? target_exchange_timestamp_ms) rows).

(** The file's own copy of the arithmetic. *)
(* rust: src/normalize/derivative_projection.rs percent_change *)
Definition derivative_percent_change (now previous : option F) : option F :=
  now ← now;
  previous ← previous;
  if negb (f_is_finite now) || negb (f_is_finite previous) || f_leb (f_abs previous) f_epsilon
  then None else Some (f_mul (f_div (f_sub now previous) previous) f_hundred).

(* rust: src/normalize/derivative_projection.rs derivative_feature_delta *)
Definition derivative_feature_delta (l1_run_id : string) (row : Metric)
    (values : DerivativeFeatureDeltaValues) : MarketFeatureDelta :=
  let missing_reasons := (missing_if (rv_value_15m_ago values) "value_15m_ago_missing"
    ++ missing_if (rv_value_1h_ago values) "value_1h_ago_missing")%list in
  mkDelta MARKET_FEATURE_DELTA_SCHEMA_VERSION
    (stable_id [l1_run_id; dm_metric_name row; dm_venue row; dm_symbol_native row;
                show_Z (dm_exchange_timestamp_ms row); MARKET_FEATURE_DELTA_SCHEMA_VERSION])
    l1_run_id (dm_metric_name row) (dm_venue row) (dm_symbol_native row) (dm_symbol_canonical row)
    (dm_market_type row) (rv_value_now values) (rv_value_15m_ago values) (rv_value_1h_ago values)
    (rv_change_pct_15m values) (rv_change_pct_1h values) None None None
    (dm_exchange_timestamp_ms row) (saturate I64 (dm_exchange_timestamp_ms row + 1000))
    (dm_ingest_timestamp_ms row)
    (delta_quality missing_reasons (rv_change_pct_15m values) (rv_change_pct_1h values))
    missing_reasons.

Definition metric_deltas (l1_run_id : string) (rows : list Metric) (row : Metric)
    : list MarketFeatureDelta :=
  let ago d := derivative_value_at_or_before rows (wrap I64 (dm_exchange_timestamp_ms row - d)) in
  let value_15m := ago FIFTEEN_MINUTES_MS in
  let value_1h := ago ONE_HOUR_MS in
  [derivative_feature_delta l1_run_id row
     (mkDerivativeValues (dm_value row) value_15m value_1h
        (derivative_percent_change (Some (dm_value row)) value_15m)
        (derivative_percent_change (Some (dm_value row)) value_1h))].

(** For each group, the deltas of its rows from [start_ms] on. *)
Definition deltas_of_groups {A K} (time : A -> Z) (deltas : list A -> A -> list MarketFeatureDelta)
    (start_ms : Z) (groups : btree K (list A)) : list MarketFeatureDelta :=
  List.concat (map (fun rows => List.concat (map (deltas rows)
    (List.filter (fun row => start_ms <=? time row) rows))) (bvalues groups)).

(* rust: src/normalize/derivative_projection.rs build_derivative_feature_deltas *)
Definition build_derivative_feature_deltas (l1_run_id : string) (input_range : InputRange)
    (metrics : list Metric) : list MarketFeatureDelta :=
  deltas_of_groups dm_exchange_timestamp_ms (metric_deltas l1_run_id) (ir_start_ms input_range)
    (group_derivative_metrics metrics).

Definition delta_order (d : MarketFeatureDelta) : Z * (string * (string * string)) :=
  (fd_window_start_ms d, (fd_venue d, (fd_symbol_canonical d, fd_metric_name d))).

(* rust: src/normalize/projection/feature_delta/detail.rs build_market_feature_deltas *)
Definition build_market_feature_deltas (l1_run_id : string) (input_range : InputRange)
    (known_as_of_ms : Z) (projection_slices : list SliceRow) (projection_metrics : list Metric)
    : list MarketFeatureDelta :=
  sort_by (key_leb delta_order)
    (deltas_of_groups sl_window_start_ms (row_deltas l1_run_id known_as_of_ms)
       (ir_start_ms input_range) (group_slices_by_symbol projection_slices)
     ++ build_derivative_feature_deltas l1_run_id input_range projection_metrics).

(** *** Their summary *)

(* rust: src/normalize/model/market.rs MarketFeatureDeltaSummaryMetric *)
Record MarketFeatureDeltaSummaryMetric := mkSummaryMetric {
  sm_metric_name : string;
  sm_value_now : F;
  sm_value_15m_ago : option F;
  sm_value_1h_ago : option F;
  sm_change_pct_15m : option F;
  sm_change_pct_1h : option F;
  sm_price_change_same_window : option F;
  sm_volume_change_same_window : option F;
  sm_oi_price_divergence : option F;
  sm_window_start_ms : Z;
  sm_window_end_ms : Z;
  sm_quality_status : string;
}.

(* rust: src/normalize/model/market.rs MarketFeatureDeltaSummaryRow *)
Record MarketFeatureDeltaSummaryRow := mkSummaryRow {
  sw_venue : string;
  sw_symbol_native : string;
  sw_symbol_canonical : string;
  sw_market_type : string;
  sw_window_start_ms : Z;
  sw_window_end_ms : Z;
  sw_known_as_of_ms : Z;
  sw_quality_status : string;
  sw_missing_reasons : list string;
  sw_metrics : list MarketFeatureDeltaSummaryMetric;
}.

(* rust: src/normalize/model/market.rs MarketFeatureDeltaSummary *)
Record MarketFeatureDeltaSummary := mkSummary {
  su_schema_version : string;
  su_feature_delta_summary_id : string;
  su_l1_run_id : string;
  su_detail_feature_delta_key : string;
  su_window_start_ms : Z;
  su_window_end_ms : Z;
  su_known_as_of_ms : Z;
  su_detail_record_count : Z;
  su_summary_row_count : Z;
  su_rows : list MarketFeatureDeltaSummaryRow;
}.

(* rust: src/normalize/model/constants.rs MARKET_FEATURE_DELTA_SUMMARY_SCHEMA_VERSION *)
Definition MARKET_FEATURE_DELTA_SUMMARY_SCHEMA_VERSION : string := "market_feature_delta_summary_v1".

(* rust: src/normalize/projection/feature_delta/summary/key.rs MarketFeatureDeltaSummaryKey *)
Definition MarketFeatureDeltaSummaryKey : Type := string * (string * (string * string)).

(* rust: src/normalize/projection/feature_delta/summary/key.rs from_delta *)
Definition from_delta (delta : MarketFeatureDelta) : MarketFeatureDeltaSummaryKey :=
  (fd_venue delta, (fd_symbol_native delta, (fd_symbol_canonical delta, fd_market_type delta))).

Definition delta_age (d : MarketFeatureDelta) : Z * (Z * Z) :=
  (fd_window_end_ms d, (fd_window_start_ms d, fd_known_as_of_ms d)).

(* rust: src/normalize/projection/feature_delta/summary/newer.rs is_newer_delta *)
Definition is_newer_delta (candidate existing : MarketFeatureDelta) : bool :=
  match kcmp (delta_age candidate) (delta_age existing) with Gt => true | _ => false end.

Definition keep_newest (delta : MarketFeatureDelta) (metrics : btree string MarketFeatureDelta)
    : btree string MarketFeatureDelta :=
  match bget (fd_metric_name delta) metrics with
  | Some existing =>
      if negb (is_newer_delta delta existing) then metrics
      else binsert (fd_metric_name delta) delta metrics
  | None => binsert (fd_metric_name delta) delta metrics
  end.

(* rust: src/normalize/projection/feature_delta/summary/grouping.rs latest_metrics_by_summary_key *)
Definition latest_metrics_by_summary_key (deltas : list MarketFeatureDelta)
    : btree MarketFeatureDeltaSummaryKey (btree string MarketFeatureDelta) :=
  fold_left (fun grouped delta => bupdate (from_delta delta) [] (keep_newest delta) grouped) deltas [].

(* rust: src/normalize/projection/feature_delta/summary/accumulator.rs MarketFeatureDeltaSummaryAccumulator *)
Record MarketFeatureDeltaSummaryAccumulator := mkSummaryAcc {
  sa_input_range : InputRange;
  sa_fallback_known_as_of_ms : Z;
  sa_window_start_ms : Z;
  sa_window_end_ms : Z;
  sa_row_known_as_of_ms : Z;
  sa_missing_reasons : btree string ();
  sa_has_complete : bool;
  sa_has_partial : bool;
}.

(* rust: src/normalize/projection/feature_delta/summary/accumulator.rs new *)
Definition summary_accumulator_new (input_range : InputRange) (fallback_known_as_of_ms : Z)
    : MarketFeatureDeltaSummaryAccumulator :=
  mkSummaryAcc input_range fallback_known_as_of_ms (int_max I64) (int_min I64) (int_min I64) []
    false false.

Definition summary_metric (delta : MarketFeatureDelta) : MarketFeatureDeltaSummaryMetric :=
  mkSummaryMetric (fd_metric_name delta) (fd_value_now delta) (fd_value_15m_ago delta)
    (fd_value_1h_ago delta) (fd_change_pct_15m delta) (fd_change_pct_1h delta)
    (fd_price_change_same_window delta) (fd_volume_change_same_window delta)
    (fd_oi_price_divergence delta) (fd_window_start_ms delta) (fd_window_end_ms delta)
    (fd_quality_status delta).

(* rust: src/normalize/projection/feature_delta/summary/accumulator.rs observe *)
Definition summary_observe (a : MarketFeatureDeltaSummaryAccumulator) (delta : MarketFeatureDelta)
    : MarketFeatureDeltaSummaryAccumulator * MarketFeatureDeltaSummaryMetric :=
  (mkSummaryAcc (sa_input_range a) (sa_fallback_known_as_of_ms a)
     (Z.min (sa_window_start_ms a) (fd_window_start_ms delta))
     (Z.max (sa_window_end_ms a) (fd_window_end_ms delta))
     (Z.max (sa_row_known_as_of_ms a) (fd_known_as_of_ms delta))
     (fold_left (fun s r => binsert r () s) (fd_missing_reasons delta) (sa_missing_reasons a))
     (sa_has_complete a || String.eqb (fd_quality_status delta) "complete")
     (sa_has_partial a || String.eqb (fd_quality_status delta) "partial"),
   summary_metric delta).

(* rust: src/normalize/projection/feature_delta/summary/accumulator.rs summary_window_start_ms *)
Definition summary_window_start_ms (a : MarketFeatureDeltaSummaryAccumulator) : Z :=
  if sa_window_start_ms a =? int_max I64 then ir_start_ms (sa_input_range a) else sa_window_start_ms a.

(* rust: src/normalize/projection/feature_delta/summary/accumulator.rs summary_window_end_ms *)
Definition summary_window_end_ms (a : MarketFeatureDeltaSummaryAccumulator) : Z :=
  if sa_window_end_ms a =? int_min I64 then ir_end_ms (sa_input_range a) else sa_window_end_ms a.

(* rust: src/normalize/projection/feature_delta/summary/accumulator.rs summary_known_as_of_ms *)
Definition summary_known_as_of_ms (a : MarketFeatureDeltaSummaryAccumulator) : Z :=
  if sa_row_known_as_of_ms a =? int_min I64 then sa_fallback_known_as_of_ms a
  else sa_row_known_as_of_ms a.

(* rust: src/normalize/projection/feature_delta/summary/accumulator.rs quality_status *)
Definition summary_quality_status (a : MarketFeatureDeltaSummaryAccumulator) : string :=
  if sa_has_complete a then "complete" else if sa_has_partial a then "partial" else "insufficient".

(* rust: src/normalize/projection/feature_delta/summary/accumulator.rs into_row *)
Definition into_row (a : MarketFeatureDeltaSummaryAccumulator) (key : MarketFeatureDeltaSummaryKey)
    (metrics : list MarketFeatureDeltaSummaryMetric) : MarketFeatureDeltaSummaryRow :=
  let '(venue, (symbol_native, (symbol_canonical, market_type))) := key in
  mkSummaryRow venue symbol_native symbol_canonical market_type (summary_window_start_ms a)
    (summary_window_end_ms a) (summary_known_as_of_ms a) (summary_quality_status a)
    (bkeys (sa_missing_reasons a)) metrics.

Definition summary_row (input_range : InputRange) (known_as_of_ms : Z)
    (entry : MarketFeatureDeltaSummaryKey * btree string MarketFeatureDelta)
    : MarketFeatureDeltaSummaryRow :=
  let '(a, metrics) := fold_left (fun '(a, metrics) delta =>
      let '(a, m) := summary_observe a delta in (a, metrics ++ [m])%list)
    (bvalues entry.2) (summary_accumulator_new input_range known_as_of_ms, []) in
  into_row a entry.1 metrics.

(* rust: src/normalize/projection/feature_delta/summary.rs build_market_feature_delta_summary *)
Definition build_market_feature_delta_summary (l1_run_id : string) (input_range : InputRange)
    (known_as_of_ms : Z) (detail_feature_delta_key : string) (deltas : list MarketFeatureDelta)
    : MarketFeatureDeltaSummary :=
  let rows := map (summary_row input_range known_as_of_ms) (latest_metrics_by_summary_key deltas) in
  mkSummary MARKET_FEATURE_DELTA_SUMMARY_SCHEMA_VERSION
    (stable_id [l1_run_id; show_Z (ir_start_ms input_range); show_Z (ir_end_ms input_range);
                detail_feature_delta_key; MARKET_FEATURE_DELTA_SUMMARY_SCHEMA_VERSION])
    l1_run_id detail_feature_delta_key (ir_start_ms input_range) (ir_end_ms input_range)
    known_as_of_ms (zlen deltas) (zlen rows) rows.
End projection.
