(* ===== verification/Regime.v ===== *)
(** * Regime: market-wide context per window

    [normalize/projection/regime_context]: hourly returns of every symbol, their
    mean, spread and correlation to BTC, for each window of the run. *)
From S2P Require Import Prelude Text OrderedMap Records NormalizeArgs L1Window L1Build.
From S2P Require Import Projection.
Open Scope Z_scope.

Section regime.
Context {L : StorageLib} {F : Type} {FO : Float F} {FM : FloatMath F}.
Abbreviation SliceRow := (SliceRow (F := F)).

(* rust: src/normalize/model/market.rs MarketRegimeContext *)
Record MarketRegimeContext := mkRegime {
  rg_schema_version : string;
  rg_regime_context_id : string;
  rg_l1_run_id : string;
  rg_scope : string;
  rg_window_start_ms : Z;
  rg_window_end_ms : Z;
  rg_btc_return_same_window : option F;
  rg_eth_return_same_window : option F;
  rg_sector_return_same_window : option F;
  rg_volatility_regime : string;
  rg_correlation_to_btc : option F;
  rg_known_as_of_ms : Z;
  rg_quality_status : string;
  rg_missing_reasons : list string;
}.

(* rust: src/normalize/projection/regime_context/returns.rs ReturnSample *)
Record ReturnSample := mkReturn {
  rt_symbol_canonical : string;
  rt_window_end_ms : Z;
  rt_return_pct : F;
  rt_lookback_ms : Z;
}.

(* rust: src/normalize/model/constants.rs MARKET_REGIME_CONTEXT_SCHEMA_VERSION *)
Definition MARKET_REGIME_CONTEXT_SCHEMA_VERSION : string := "market_regime_context_v1".

(* rust: src/normalize/projection/regime_context/returns.rs return_for_symbol *)
Definition return_for_symbol (samples : list ReturnSample) (symbol : string) : option F :=
  rt_return_pct <$> List.find (fun sample => String.eqb (rt_symbol_canonical sample) symbol) samples.

Definition price_with_window (row : SliceRow) : option (F * Z) :=
  (fun value => (value, sl_window_start_ms row)) <$> price row.

(* rust: src/normalize/projection/regime_context/returns.rs price_with_window_at_or_before *)
Definition price_with_window_at_or_before (rows : list SliceRow) (target_ms : Z) : option (F * Z) :=
  row ← rfind (fun row => sl_window_start_ms row <=? target_ms) rows; price_with_window row.

(* rust: src/normalize/projection/regime_context/returns.rs nearest_prior_price_with_window *)
Definition nearest_prior_price_with_window (rows : list SliceRow) (current_window_start_ms : Z)
    : option (F * Z) :=
  row ← rfind (fun row => sl_window_start_ms row <? current_window_start_ms) rows;
  price_with_window row.

(* rust: src/normalize/projection/regime_context/returns.rs return_sample_for_row *)
Definition return_sample_for_row (rows : list SliceRow) (row : SliceRow) : option (F * Z) :=
  current_price ← price row;
  let target_start_ms := saturate I64 (sl_window_start_ms row - ONE_HOUR_MS) in
  historical_price ← match price_with_window_at_or_before rows target_start_ms with
    | Some p => Some p
    | None => nearest_prior_price_with_window rows (sl_window_start_ms row)
    end;
  return_pct ← percent_change (Some current_price) (Some historical_price.1);
  Some (return_pct, saturate I64 (sl_window_start_ms row - historical_price.2)).

Definition row_return (rows : list SliceRow) (row : SliceRow) : option (Z * ReturnSample) :=
  s ← return_sample_for_row rows row;
  Some (sl_window_start_ms row,
        mkReturn (sl_symbol_canonical row) (sl_window_end_ms row) s.1 s.2).

(** The samples in the order of the two loops, with the window of each. *)
Definition all_returns (slices : list SliceRow) : list (Z * ReturnSample) :=
  List.concat (map (fun rows => omap (row_return rows) rows) (bvalues (group_slices_by_symbol slices))).

(* rust: src/normalize/projection/regime_context/returns.rs return_samples_by_window *)
Definition return_samples_by_window (slices : list SliceRow) : btree Z (list ReturnSample) :=
  fold_left (fun by_window s => bupdate s.1 [] (fun g => g ++ [s.2])%list by_window)
    (all_returns slices) [].

(** [map.range(a..=b)] *)
Definition brange {V} (a b : Z) (m : btree Z V) : btree Z V :=
  List.filter (fun kv => (a <=? kv.1) && (kv.1 <=? b)) m.

Definition btc_and_sector (samples : list ReturnSample) : option (F * F) :=
  btc ← return_for_symbol samples "BTC";
  sector ← mean (map rt_return_pct samples);
  Some (btc, sector).

(* rust: src/normalize/projection/regime_context/returns.rs rolling_correlation_to_btc *)
Definition rolling_correlation_to_btc (returns_by_window : btree Z (list ReturnSample))
    (current_window_start_ms : Z) : option F :=
  let start_ms := saturate I64 (current_window_start_ms - ONE_HOUR_MS) in
  pairs ← mapM btc_and_sector (bvalues (brange start_ms current_window_start_ms returns_by_window));
  correlation (map fst pairs) (map snd pairs).

(* rust: src/normalize/projection/regime_context/quality.rs push_missing_if_none *)
Definition push_missing_if_none {T} (missing_reasons : list string) (value : option T) (reason : string)
    : list string := if is_none value then (missing_reasons ++ [reason])%list else missing_reasons.

(* rust: src/normalize/projection/regime_context/quality.rs regime_missing_reasons *)
Definition regime_missing_reasons (btc_return eth_return sector_return correlation_to_btc : option F)
    : list string :=
  let m := push_missing_if_none [] btc_return "btc_return_missing" in
  let m := push_missing_if_none m eth_return "eth_return_missing" in
  let m := push_missing_if_none m sector_return "sector_return_missing" in
  push_missing_if_none m correlation_to_btc "correlation_to_btc_insufficient_samples".

(* rust: src/normalize/projection/regime_context/quality.rs regime_quality_status *)
Definition regime_quality_status (missing_reasons : list string) (sector_return : option F) : string :=
  if is_nil missing_reasons then "complete"
  else if negb (is_none sector_return) then "partial" else "insufficient".

(* rust: src/normalize/projection/regime_context/quality.rs volatility_regime *)
Definition volatility_regime (volatility : option F) : string :=
  match volatility with
  | Some value => if f_ltb value f_half then "low" else if f_ltb value f_two then "medium" else "high"
  | None => "unknown"
  end.

(* rust: src/normalize/projection/regime_context.rs regime_context_for_window *)
Definition regime_context_for_window (l1_run_id : string) (known_as_of_ms : Z)
    (returns_by_window : btree Z (list ReturnSample)) (window_start_ms : Z)
    (samples : list ReturnSample) : MarketRegimeContext :=
  let btc_return := return_for_symbol samples "BTC" in
  let eth_return := return_for_symbol samples "ETH" in
  let sector_return := mean (map rt_return_pct samples) in
  let volatility := population_stddev (map rt_return_pct samples) in
  let correlation_to_btc := rolling_correlation_to_btc returns_by_window window_start_ms in
  let missing_reasons :=
    regime_missing_reasons btc_return eth_return sector_return correlation_to_btc in
  let missing_reasons :=
    if existsb (fun sample => rt_lookback_ms sample <? ONE_HOUR_MS) samples
    then (missing_reasons ++ ["return_lookback_degraded"%string])%list else missing_reasons in
  mkRegime MARKET_REGIME_CONTEXT_SCHEMA_VERSION
    (stable_id [l1_run_id; show_Z window_start_ms; "market_all_symbols"%string;
                MARKET_REGIME_CONTEXT_SCHEMA_VERSION])
    l1_run_id "market_all_symbols" window_start_ms
    (match samples with
     | sample :: _ => rt_window_end_ms sample
     | [] => saturate I64 (window_start_ms + 1000)
     end)
    btc_return eth_return sector_return (volatility_regime volatility) correlation_to_btc
    known_as_of_ms (regime_quality_status missing_reasons sector_return) missing_reasons.

(* rust: src/normalize/projection/regime_context.rs build_market_regime_contexts *)
Definition build_market_regime_contexts (l1_run_id : string) (input_range : InputRange)
    (known_as_of_ms : Z) (projection_slices : list SliceRow) : list MarketRegimeContext :=
  let returns_by_window := return_samples_by_window projection_slices in
  map (fun w => regime_context_for_window l1_run_id known_as_of_ms returns_by_window w.1 w.2)
    (List.filter (fun w => ir_start_ms input_range <=? w.1) returns_by_window).
End regime.
