(* ===== verification/ProjectionFacts.v ===== *)
(** * ProjectionFacts: the projections read only the past

    Grouping by key commutes with dropping the rows after a time, so the feature
    deltas and the regime contexts up to a time are those of the rows up to it.  The
    summary of the deltas keeps the newest of each metric. *)
From S2P Require Import Prelude Text OrderedMap Records NormalizeArgs L1Window L1Build.
From S2P Require Import L1BuildFacts Projection Regime.
From Stdlib Require Import Sorting.Sorted.
Open Scope Z_scope.

(** ** Groups *)

Section values.
Context {K V : Type} {c : KeyCmp K} {HK : StrictKey K}.
Abbreviation ok := (bmap_ok (fun _ : K => True)).

Definition map_values {V'} (f : V -> V') (m : btree K V) : btree K V' :=
  map (fun kv => (kv.1, f kv.2)) m.

Lemma map_values_ok {V'} (f : V -> V') m : ok m -> ok (map_values f m).
Proof.
  induction m as [|[k v] m IH]; intros Hm; [apply bmap_ok_nil|].
  apply (bmap_ok_cons (fun _ => True)) in Hm as (_ & Hm & Hlt).
  apply (bmap_ok_cons (fun _ => True)). split_and!; [done|by apply IH|].
  apply List.Forall_forall. intros [x w] Hin. unfold map_values in Hin.
  apply in_map_iff in Hin as ([x' v'] & [= <- <-] & Hin).
  rewrite List.Forall_forall in Hlt. apply (Hlt _ Hin).
Qed.

Lemma bget_map_values {V'} (f : V -> V') m q : bget q (map_values f m) = f <$> bget q m.
Proof. induction m as [|[k v] m IH]; cbn; [done|]. by destruct (kcmp q k). Qed.

Lemma filter_entries_ok (p : K * V -> bool) m : ok m -> ok (List.filter p m).
Proof.
  induction m as [|[k v] m IH]; intros Hm; [apply bmap_ok_nil|]. cbn.
  apply (bmap_ok_cons (fun _ => True)) in Hm as (_ & Hm & Hlt). specialize (IH Hm).
  destruct (p (k, v)); [|done]. apply (bmap_ok_cons (fun _ => True)). split_and!; [done..|].
  apply List.Forall_forall. intros x [Hin _]%filter_In. rewrite List.Forall_forall in Hlt. auto.
Qed.

Lemma bget_filter_entries (p : K * V -> bool) m q : ok m ->
  bget q (List.filter p m) = option_filter (fun v => p (q, v)) (bget q m).
Proof.
  induction m as [|[k v] m IH]; intros Hm; [done|]. cbn [List.filter bget].
  pose proof Hm as Hm0. apply (bmap_ok_cons (fun _ => True)) in Hm as (_ & Hm & Hlt).
  destruct (kcmp q k) eqn:E.
  - apply sk_eq in E as ->. cbn. destruct (p (k, v)) eqn:Ep; cbn.
    + by rewrite (proj2 (sk_eq k k) eq_refl).
    + rewrite IH by done. rewrite (bget_below k k v m Hm0); [done|].
      by rewrite (proj2 (sk_eq k k) eq_refl).
  - cbn. destruct (p (k, v)); cbn; [by rewrite E|]. rewrite IH by done.
    by rewrite (bget_below k q v m Hm0) by (rewrite E; done).
  - cbn. destruct (p (k, v)); cbn; rewrite ?E; by apply IH.
Qed.
End values.

Definition some_list {A} (l : list A) : option (list A) := if is_nil l then None else Some l.

Lemma some_list_snoc {A} (l : list A) x : some_list (l ++ [x])%list = Some (l ++ [x])%list.
Proof. by destruct l. Qed.

Section groups.
Context {A B K : Type} {c : KeyCmp K} {HK : StrictKey K}.
Context (key : A -> K) (val : A -> B).

(** [entry(key x).or_default().push(val x)] over a list. *)
Definition push_all (l : list A) : btree K (list B) :=
  fold_left (fun m x => bupdate (key x) [] (fun g => g ++ [val x])%list m) l [].

Lemma push_all_snoc l x :
  push_all (l ++ [x]) = bupdate (key x) [] (fun g => g ++ [val x])%list (push_all l).
Proof. unfold push_all. by rewrite fold_left_app. Qed.

Lemma push_all_ok l : bmap_ok (fun _ => True) (push_all l).
Proof.
  induction l as [|x l IH] using rev_ind; [apply bmap_ok_nil|].
  rewrite push_all_snoc. by apply (bupdate_ok (fun _ => True)).
Qed.

Lemma bget_push_all l q :
  bget q (push_all l) = some_list (map val (List.filter (fun x => key_eqb q (key x)) l)).
Proof.
  induction l as [|x l IH] using rev_ind; [done|].
  rewrite push_all_snoc, bget_update_strict by apply push_all_ok.
  rewrite List.filter_app, map_app. cbn [List.filter]. destruct (key_eqb_spec q (key x)) as [->|Hne].
  - cbn [map]. rewrite some_list_snoc, IH. do 2 f_equal. unfold some_list.
    by destruct (map val _).
  - rewrite List.app_nil_r. apply IH.
Qed.

(** Keeping the keys that satisfy [p] keeps the elements with such keys. *)
Lemma push_all_filter_keys (p : K -> bool) l :
  List.filter (fun kv => p kv.1) (push_all l) = push_all (List.filter (fun x => p (key x)) l).
Proof.
  apply bget_ext; [apply filter_entries_ok, push_all_ok|apply push_all_ok|]. intros q.
  rewrite bget_filter_entries by apply push_all_ok. rewrite !bget_push_all. cbn [fst].
  replace (List.filter (fun x => key_eqb q (key x)) (List.filter (fun x => p (key x)) l))
    with (if p q then List.filter (fun x => key_eqb q (key x)) l else []).
  { destruct (p q); [by destruct (some_list _)|]. by destruct (some_list _). }
  induction l as [|x l IH]; cbn; [by destruct (p q)|].
  destruct (key_eqb_spec q (key x)) as [->|Hne].
  - destruct (p (key x)); cbn; [|done]. rewrite <- IH.
    by destruct (key_eqb_spec (key x) (key x)).
  - rewrite IH. destruct (p (key x)); cbn; [|done]. by destruct (key_eqb_spec q (key x)).
Qed.
End groups.

Section timed.
Context {A K : Type} {c : KeyCmp K} {HK : StrictKey K}.
Context (key : A -> K) (time : A -> Z) (T : Z).

Definition upto (l : list A) : list A := List.filter (fun x => time x <=? T) l.
Definition by_time (l : list A) : Prop := StronglySorted (fun a b => (time a <=? time b) = true) l.

Lemma sort_by_time l : by_time (sort_by (fun a b => time a <=? time b) l).
Proof.
  apply sort_by_sorted; [intros x y|intros x y z]; rewrite ?Z.leb_le; intros; lia.
Qed.

Lemma sorted_groups_eq l : sorted_groups key time l
  = map_values (sort_by (fun a b => time a <=? time b)) (push_all key (fun x => x) l).
Proof. done. Qed.

Lemma sorted_groups_ok l : bmap_ok (fun _ => True) (sorted_groups key time l).
Proof. rewrite sorted_groups_eq. apply map_values_ok, push_all_ok. Qed.

Lemma bget_sorted_groups l q : bget q (sorted_groups key time l)
  = some_list (sort_by (fun a b => time a <=? time b) (List.filter (fun x => key_eqb q (key x)) l)).
Proof.
  rewrite sorted_groups_eq, bget_map_values, bget_push_all, map_id. unfold some_list.
  destruct (List.filter _ l) as [|x g] eqn:E; [done|]. cbn [is_nil fmap option_fmap option_map].
  destruct (sort_by _ (x :: g)) as [|y h] eqn:Es; [|done].
  pose proof (sort_by_perm (fun a b => time a <=? time b) (x :: g)) as Hp.
  rewrite Es in Hp. by apply Permutation_nil in Hp.
Qed.

(** The groups of the rows up to [T]. *)
Lemma sorted_groups_upto l : sorted_groups key time (upto l)
  = List.filter (fun kg => negb (is_nil kg.2)) (map_values upto (sorted_groups key time l)).
Proof.
  assert (Hok : bmap_ok (fun _ => True) (map_values upto (sorted_groups key time l)))
    by apply map_values_ok, sorted_groups_ok.
  apply bget_ext; [apply sorted_groups_ok|by apply filter_entries_ok|]. intros q.
  rewrite bget_filter_entries by done. rewrite bget_map_values, !bget_sorted_groups. cbn [snd].
  unfold upto. rewrite filter_swap.
  rewrite <- sort_by_filter.
  - unfold some_list. destruct (sort_by _ _) as [|x g]; cbn [is_nil fmap option_fmap option_map option_filter];
      [done|]. by destruct (List.filter _ (x :: g)).
  - intros x y. rewrite !Z.leb_le. lia.
  - intros x y z. rewrite !Z.leb_le. lia.
Qed.

(** A function of the groups that yields nothing on an empty group sees only the rows. *)
Lemma concat_groups_upto {B} (g : list A -> list B) l : g [] = [] ->
  List.concat (map g (bvalues (sorted_groups key time (upto l))))
  = List.concat (map (fun rows => g (upto rows)) (bvalues (sorted_groups key time l))).
Proof.
  intros Hg. rewrite sorted_groups_upto. unfold bvalues, map_values.
  induction (sorted_groups key time l) as [|[k rows] m IH]; [done|].
  cbn [map List.filter snd fmap list_fmap]. destruct (upto rows) eqn:E; cbn [is_nil negb].
  - cbn [map List.concat fmap list_fmap]. by rewrite IH, Hg.
  - cbn [map List.concat fmap list_fmap snd]. by rewrite IH.
Qed.

Lemma groups_by_time l : Forall by_time (bvalues (sorted_groups key time l)).
Proof.
  unfold bvalues, sorted_groups. apply List.Forall_forall. intros rows Hin.
  apply in_map_iff in Hin as ([k g] & <- & Hin). apply in_map_iff in Hin as ([k' g'] & [= <- <-] & _).
  apply sort_by_time.
Qed.

Lemma groups_Forall (P : A -> Prop) l : Forall P l ->
  Forall (Forall P) (bvalues (sorted_groups key time l)).
Proof.
  intros HP. apply List.Forall_forall. intros rows Hin. unfold bvalues in Hin.
  apply in_map_iff in Hin as ([k g] & <- & Hin). cbn.
  apply list_elem_of_In, (bget_of_elem (fun _ => True)) in Hin; [|apply sorted_groups_ok].
  rewrite bget_sorted_groups in Hin. unfold some_list in Hin.
  destruct (sort_by _ _) eqn:E; cbn in Hin; [done|]. injection Hin as <-. rewrite <- E.
  rewrite sort_by_perm. apply List.Forall_forall. intros x [Hx _]%filter_In.
  rewrite List.Forall_forall in HP. auto.
Qed.

(** Rows in time order are those up to [T], then the rest. *)
Lemma upto_prefix rows : by_time rows ->
  exists rest, rows = (upto rows ++ rest)%list /\ Forall (fun x => T < time x) rest.
Proof.
  induction rows as [|x rows IH]; intros Hs; [by exists []|].
  apply StronglySorted_inv in Hs as [Hs Hx]. cbn. destruct (Z.leb_spec (time x) T).
  - destruct (IH Hs) as (rest & -> & Hr). exists rest. split; [|done].
    unfold upto. rewrite List.filter_app. cbn. f_equal.
    enough (List.filter (fun x => time x <=? T) rest = []) as ->.
    { rewrite List.app_nil_r. fold (upto rows). f_equal.
      unfold upto. clear. induction rows as [|y l IH]; cbn; [done|].
      destruct (time y <=? T) eqn:E; cbn; rewrite ?E; by rewrite <- ?IH. }
    clear -Hr. induction Hr as [|y l Hy _ IH]; cbn; [done|]. by rewrite (proj2 (Z.leb_gt _ _) Hy).
  - exists (x :: rows). unfold upto. cbn. replace (List.filter _ rows) with (@nil A).
    { split; [done|]. constructor; [done|]. eapply Forall_impl; [exact Hx|]. cbn.
      intros y. rewrite Z.leb_le. lia. }
    clear -Hx H. induction Hx as [|y l Hy _ IH]; cbn; [done|].
    apply Z.leb_le in Hy. by rewrite (proj2 (Z.leb_gt (time y) T)) by lia.
Qed.
End timed.

(** ** No look-ahead *)

(** What [f] yields on the elements up to [T] is what it yields on those up to [T], when
    [p] keeps all of it there and nothing elsewhere. *)
Lemma concat_map_upto {A B} (time : A -> Z) T (p : B -> bool) (f g : A -> list B) l :
  (forall x, In x l -> List.filter p (f x) = if time x <=? T then g x else []) ->
  List.filter p (List.concat (map f l)) = List.concat (map g (upto time T l)).
Proof.
  intros Hf. rewrite filter_concat_map. induction l as [|x l IH]; [done|].
  cbn [map List.concat upto List.filter]. rewrite Hf by (by left).
  fold (upto time T l). destruct (time x <=? T); cbn [map List.concat]; rewrite IH; auto;
    intros; apply Hf; by right.
Qed.

(** A time far enough from the ends of [i64]. *)
Definition clock_ok (t : Z) : Prop := int_min I64 + ONE_HOUR_MS <= t <= int_max I64.

Lemma clock_back t d : clock_ok t -> 0 <= d <= ONE_HOUR_MS -> wrap I64 (t - d) = t - d.
Proof. intros Ht Hd. apply wrap_id. unfold clock_ok, ONE_HOUR_MS, in_range in *. cbn in *. lia. Qed.

Section past.
Context {F : Type}.
Abbreviation Delta := (MarketFeatureDelta (F := F)).
Context {A K : Type} {c : KeyCmp K} {HK : StrictKey K}.
Context (key : A -> K) (time : A -> Z) (D : list A -> A -> list Delta) (T : Z).
Context (D_time : forall rows row d, In d (D rows row) -> fd_window_start_ms d = time row).
Context (D_past : forall rows row, by_time time rows -> clock_ok (time row) -> time row <= T ->
  D rows row = D (upto time T rows) row).

Lemma deltas_upto start_ms l : Forall (fun x => clock_ok (time x)) l ->
  List.filter (fun d => fd_window_start_ms d <=? T)
    (deltas_of_groups time D start_ms (sorted_groups key time l))
  = deltas_of_groups time D start_ms (sorted_groups key time (upto time T l)).
Proof.
  intros Hok. unfold deltas_of_groups.
  rewrite (concat_groups_upto key time T
    (fun rows => List.concat (map (D rows) (List.filter (fun row => start_ms <=? time row) rows))))
    by done.
  rewrite filter_concat_map. f_equal. apply map_ext_in. intros rows Hin.
  pose proof (groups_by_time key time l) as Hs. pose proof (groups_Forall key time _ l Hok) as Hf.
  rewrite List.Forall_forall in Hs, Hf. specialize (Hs rows Hin). specialize (Hf rows Hin).
  unfold upto at 2. rewrite filter_swap.
  apply concat_map_upto. intros row [Hrow _]%filter_In. rewrite List.Forall_forall in Hf.
  destruct (Z.leb_spec (time row) T) as [Hle|Hgt].
  - rewrite <- D_past by auto. apply filter_all. intros d Hd. apply Z.leb_le.
    by rewrite (D_time _ _ _ Hd).
  - apply filter_none. intros d Hd. apply Z.leb_gt. by rewrite (D_time _ _ _ Hd).
Qed.
End past.

Section point_in_time.
Context {L : StorageLib} {F : Type} {FO : Float F} {FM : FloatMath F}.
Abbreviation SliceRow := (SliceRow (F := F)).
Abbreviation Metric := (DerivativeMetricObservation (F := F)).

Lemma partition_point_app {A} (p : A -> bool) l rest : Forall (fun x => p x = false) rest ->
  partition_point p (l ++ rest) = partition_point p l.
Proof.
  intros Hr. induction l as [|x l IH]; cbn; [|by destruct (p x); [rewrite IH|]].
  destruct Hr as [|y rest Hy _]; cbn; [done|]. by rewrite Hy.
Qed.

Lemma partition_point_le {A} (p : A -> bool) l : (partition_point p l <= Datatypes.length l)%nat.
Proof. induction l as [|x l IH]; cbn; [done|]. destruct (p x); lia. Qed.

Lemma value_before_app (l rest : list SliceRow) t value :
  Forall (fun x => t < sl_window_start_ms x) rest ->
  value_at_or_before (l ++ rest) t value = value_at_or_before l t value.
Proof.
  intros Hf. unfold value_at_or_before. rewrite partition_point_app.
  - pose proof (partition_point_le (fun row => sl_window_start_ms row <=? t) l) as Hle.
    destruct (partition_point _ _) as [|i]; [done|]. by rewrite lookup_app_l by lia.
  - eapply Forall_impl; [exact Hf|]. cbn. intros x Hx. apply Z.leb_gt. lia.
Qed.

Lemma value_before_upto (rows : list SliceRow) T t value : by_time sl_window_start_ms rows -> t <= T ->
  value_at_or_before rows t value = value_at_or_before (upto sl_window_start_ms T rows) t value.
Proof.
  intros Hs Ht. destruct (upto_prefix sl_window_start_ms T rows Hs) as (rest & Hr & Hf).
  rewrite Hr at 1. apply value_before_app. eapply Forall_impl; [exact Hf|]. cbn. intros; lia.
Qed.

Lemma row_deltas_past id known T (rows : list SliceRow) row : by_time sl_window_start_ms rows ->
  clock_ok (sl_window_start_ms row) -> sl_window_start_ms row <= T ->
  row_deltas id known rows row = row_deltas id known (upto sl_window_start_ms T rows) row.
Proof.
  intros Hs Hc HT. unfold row_deltas.
  assert (Hb : forall d, 0 <= d <= ONE_HOUR_MS -> wrap I64 (sl_window_start_ms row - d) <= T)
    by (intros d Hd; rewrite clock_back by done; lia).
  by rewrite <- !(value_before_upto rows T) by (done || (apply Hb; unfold ONE_HOUR_MS, FIFTEEN_MINUTES_MS; lia)).
Qed.

Lemma row_deltas_time id known (rows : list SliceRow) row d :
  In d (row_deltas id known rows row) -> fd_window_start_ms d = sl_window_start_ms row.
Proof.
  unfold row_deltas. intros Hin. apply in_app_iff in Hin as [Hin|[<-|[]]]; [|done].
  destruct (price row); [|done]. destruct Hin as [<-|[]]. done.
Qed.

Lemma rfind_app {A} (p : A -> bool) l rest : Forall (fun x => p x = false) rest ->
  rfind p (l ++ rest) = rfind p l.
Proof.
  unfold rfind. intros Hr. rewrite rev_app_distr.
  assert (Hr' : Forall (fun x => p x = false) (rev rest)) by (by apply Forall_rev).
  induction Hr' as [|x l' Hx _ IH]; cbn; [done|]. by rewrite Hx.
Qed.

Lemma rfind_upto {A} (time : A -> Z) (p : A -> bool) T rows : by_time time rows ->
  (forall x, T < time x -> p x = false) -> rfind p rows = rfind p (upto time T rows).
Proof.
  intros Hs Hp. destruct (upto_prefix time T rows Hs) as (rest & Hr & Hf).
  rewrite Hr at 1. apply rfind_app. eapply Forall_impl; [exact Hf|]. cbn. auto.
Qed.

Lemma metric_deltas_past id T (rows : list Metric) row : by_time dm_exchange_timestamp_ms rows ->
  clock_ok (dm_exchange_timestamp_ms row) -> dm_exchange_timestamp_ms row <= T ->
  metric_deltas id rows row = metric_deltas id (upto dm_exchange_timestamp_ms T rows) row.
Proof.
  intros Hs Hc HT. unfold metric_deltas, derivative_value_at_or_before.
  assert (Hb : forall d, 0 <= d <= ONE_HOUR_MS ->
    forall x : Metric, T < dm_exchange_timestamp_ms x ->
    (dm_exchange_timestamp_ms x <=? wrap I64 (dm_exchange_timestamp_ms row - d)) = false).
  { intros d Hd x Hx. rewrite clock_back by done. apply Z.leb_gt. lia. }
  by rewrite <- !(rfind_upto dm_exchange_timestamp_ms _ T)
    by (done || (apply Hb; unfold ONE_HOUR_MS, FIFTEEN_MINUTES_MS; lia)).
Qed.

Lemma deltas_point_in_time id r known (slices : list SliceRow) (metrics : list Metric) T :
  Forall (fun row => clock_ok (sl_window_start_ms row)) slices ->
  Forall (fun m => clock_ok (dm_exchange_timestamp_ms m)) metrics ->
  List.filter (fun d => fd_window_start_ms d <=? T) (build_market_feature_deltas id r known slices metrics)
  = build_market_feature_deltas id r known (upto sl_window_start_ms T slices)
      (upto dm_exchange_timestamp_ms T metrics).
Proof.
  intros Hs Hm. unfold build_market_feature_deltas, build_derivative_feature_deltas.
  rewrite sort_by_filter by (intros *; first [apply key_leb_total|apply key_leb_trans]).
  rewrite List.filter_app. f_equal. f_equal.
  - apply deltas_upto; [apply row_deltas_time|intros; by apply row_deltas_past|done].
  - apply deltas_upto; [|intros; by apply metric_deltas_past|done].
    by intros rows row d [<-|[]].
Qed.

(** *** Regime contexts *)

Lemma omap_upto {A B} (time : A -> Z) T (p : B -> bool) (f g : A -> option B) l :
  (forall x, In x l -> option_filter p (f x) = if time x <=? T then g x else None) ->
  List.filter p (omap f l) = omap g (upto time T l).
Proof.
  intros Hf. induction l as [|x l IH]; [done|]. cbn [upto List.filter omap list_omap].
  assert (Hx := Hf x (or_introl eq_refl)). fold (upto time T l).
  destruct (time x <=? T) eqn:E; cbn [omap list_omap]; rewrite <- IH by (intros; apply Hf; by right);
    [rewrite <- Hx|]; destruct (f x) as [b|]; cbn in *; try done; by destruct (p b).
Qed.

Lemma row_return_window (rows : list SliceRow) row s :
  row_return rows row = Some s -> s.1 = sl_window_start_ms row.
Proof. unfold row_return. destruct (return_sample_for_row rows row); cbn; [by intros [= <-]|done]. Qed.

Lemma row_return_past T (rows : list SliceRow) row : by_time sl_window_start_ms rows ->
  clock_ok (sl_window_start_ms row) -> sl_window_start_ms row <= T ->
  row_return rows row = row_return (upto sl_window_start_ms T rows) row.
Proof.
  intros Hs Hc HT. unfold row_return, return_sample_for_row, price_with_window_at_or_before,
    nearest_prior_price_with_window.
  assert (Hb : saturate I64 (sl_window_start_ms row - ONE_HOUR_MS) <= T).
  { rewrite saturate_id; unfold clock_ok, ONE_HOUR_MS, in_range in *; cbn in *; lia. }
  rewrite (rfind_upto sl_window_start_ms (fun r => sl_window_start_ms r <=? _) T rows Hs)
    by (intros x Hx; apply Z.leb_gt; lia).
  by rewrite (rfind_upto sl_window_start_ms (fun r => sl_window_start_ms r <? _) T rows Hs)
    by (intros x Hx; apply Z.ltb_ge; lia).
Qed.

Lemma all_returns_upto T (slices : list SliceRow) :
  Forall (fun row => clock_ok (sl_window_start_ms row)) slices ->
  List.filter (fun s => s.1 <=? T) (all_returns slices)
  = all_returns (upto sl_window_start_ms T slices).
Proof.
  intros Hok. unfold all_returns, group_slices_by_symbol.
  rewrite (concat_groups_upto symbol_window_key sl_window_start_ms T
             (fun rows => omap (row_return rows) rows)) by done.
  rewrite filter_concat_map. f_equal. apply map_ext_in. intros rows Hin.
  pose proof (groups_by_time symbol_window_key sl_window_start_ms slices) as Hs.
  pose proof (groups_Forall symbol_window_key sl_window_start_ms _ slices Hok) as Hf.
  rewrite List.Forall_forall in Hs, Hf. specialize (Hs rows Hin). specialize (Hf rows Hin).
  apply omap_upto. intros row Hrow. rewrite List.Forall_forall in Hf.
  destruct (Z.leb_spec (sl_window_start_ms row) T).
  - rewrite <- row_return_past by auto. destruct (row_return rows row) as [s|] eqn:E; [|done].
    cbn. by rewrite (row_return_window _ _ _ E), (proj2 (Z.leb_le _ _)).
  - destruct (row_return rows row) as [s|] eqn:E; [|done].
    cbn. by rewrite (row_return_window _ _ _ E), (proj2 (Z.leb_gt _ _)).
Qed.

Lemma samples_upto T (slices : list SliceRow) :
  Forall (fun row => clock_ok (sl_window_start_ms row)) slices ->
  List.filter (fun w => w.1 <=? T) (return_samples_by_window slices)
  = return_samples_by_window (upto sl_window_start_ms T slices).
Proof.
  intros Hok. unfold return_samples_by_window.
  rewrite <- all_returns_upto by done.
  apply (push_all_filter_keys (fun s : Z * ReturnSample => s.1) snd (fun t => t <=? T)).
Qed.

Lemma regime_window_upto id known T w samples (m : btree Z (list (ReturnSample (F := F)))) : w <= T ->
  regime_context_for_window id known m w samples
  = regime_context_for_window id known (List.filter (fun w => w.1 <=? T) m) w samples.
Proof.
  intros Hw. unfold regime_context_for_window, rolling_correlation_to_btc.
  replace (brange (saturate I64 (w - ONE_HOUR_MS)) w (List.filter (fun w => w.1 <=? T) m))
    with (brange (saturate I64 (w - ONE_HOUR_MS)) w m); [done|].
  unfold brange. rewrite filter_swap. symmetry. apply filter_all.
  intros x [_ Hx]%filter_In. bool_prop. apply Z.leb_le. lia.
Qed.

Lemma regimes_point_in_time id r known (slices : list SliceRow) T :
  Forall (fun row => clock_ok (sl_window_start_ms row)) slices ->
  List.filter (fun c => rg_window_start_ms c <=? T) (build_market_regime_contexts id r known slices)
  = build_market_regime_contexts id r known (upto sl_window_start_ms T slices).
Proof.
  intros Hok. unfold build_market_regime_contexts. rewrite <- samples_upto by done.
  generalize (return_samples_by_window slices) as m. intros m.
  rewrite filter_map, filter_swap.
  apply map_ext_in. intros w [Hw _]%filter_In. apply filter_In in Hw as [_ Hw].
  apply regime_window_upto. by apply Z.leb_le.
Qed.
End point_in_time.

(** C23: the feature deltas of the windows up to a time [T] are those computed from the slices
    and the derivative observations up to [T]: no value of a delta looks past its window. *)
Theorem feature_deltas_never_look_ahead {L : StorageLib} {F : Type} {FO : Float F} {FM : FloatMath F}
    (l1_run_id : string) (r : InputRange) (known_as_of_ms T : Z) (slices : list (SliceRow (F := F)))
    (metrics : list (DerivativeMetricObservation (F := F)))
    (Hslices : Forall (fun row => clock_ok (sl_window_start_ms row)) slices)
    (Hmetrics : Forall (fun m => clock_ok (dm_exchange_timestamp_ms m)) metrics) :
  List.filter (fun d => fd_window_start_ms d <=? T)
    (build_market_feature_deltas l1_run_id r known_as_of_ms slices metrics)
  = build_market_feature_deltas l1_run_id r known_as_of_ms
      (List.filter (fun row => sl_window_start_ms row <=? T) slices)
      (List.filter (fun m => dm_exchange_timestamp_ms m <=? T) metrics).
Proof. by apply deltas_point_in_time. Qed.

(** the regime contexts of the windows up to a time [T], their rolling correlation to BTC
    included, are those computed from the slices up to [T]. *)
Theorem regimes_never_look_ahead {L : StorageLib} {F : Type} {FO : Float F} {FM : FloatMath F}
    (l1_run_id : string) (r : InputRange) (known_as_of_ms T : Z) (slices : list (SliceRow (F := F)))
    (Hslices : Forall (fun row => clock_ok (sl_window_start_ms row)) slices) :
  List.filter (fun c => rg_window_start_ms c <=? T)
    (build_market_regime_contexts l1_run_id r known_as_of_ms slices)
  = build_market_regime_contexts l1_run_id r known_as_of_ms
      (List.filter (fun row => sl_window_start_ms row <=? T) slices).
Proof. by apply regimes_point_in_time. Qed.

(** ** The summary *)

Section summary.
Context {L : StorageLib} {F : Type} {FO : Float F} {FM : FloatMath F}.
Abbreviation Delta := (MarketFeatureDelta (F := F)).

(** [d] is a newest delta of its metric among [g]. *)
Definition newest (g : list Delta) (d : Delta) : Prop :=
  In d g /\ forall d', In d' g -> fd_metric_name d' = fd_metric_name d -> is_newer_delta d' d = false.

Lemma not_newer_trans (d d1 d2 : Delta) :
  is_newer_delta d d1 = false -> is_newer_delta d2 d1 = true -> is_newer_delta d d2 = false.
Proof.
  unfold is_newer_delta. intros H1 H2.
  destruct (kcmp (delta_age d2) (delta_age d1)) eqn:E2; try done.
  destruct (kcmp (delta_age d) (delta_age d2)) eqn:E; try done.
  assert (E2' : kcmp (delta_age d1) (delta_age d2) = Lt) by (by rewrite sk_sym, E2).
  assert (E' : kcmp (delta_age d2) (delta_age d) = Lt) by (by rewrite sk_sym, E).
  pose proof (sk_trans _ _ _ E2' E') as Ht. by rewrite sk_sym, Ht in H1.
Qed.

Definition metrics_of (g : list Delta) : btree string Delta :=
  fold_left (fun m d => keep_newest d m) g [].

Lemma metrics_of_spec g :
  bmap_ok (fun _ => True) (metrics_of g) /\
  forall n, match bget n (metrics_of g) with
            | Some d => newest g d /\ fd_metric_name d = n
            | None => forall d, In d g -> fd_metric_name d <> n
            end.
Proof.
  induction g as [|x g [Hok IH]] using rev_ind; [split; [apply bmap_ok_nil|by intros n d []]|].
  unfold metrics_of. rewrite fold_left_app. cbn [fold_left]. fold (metrics_of g).
  assert (Hins : bmap_ok (fun _ => True) (binsert (fd_metric_name x) x (metrics_of g)))
    by (by apply (binsert_ok (fun _ => True))).
  pose proof (IH (fd_metric_name x)) as Hx. unfold keep_newest.
  destruct (bget (fd_metric_name x) (metrics_of g)) as [old|] eqn:Eo.
  - destruct Hx as [[Hold Hnew] Hname]. destruct (is_newer_delta x old) eqn:En; cbn [negb].
    + split; [done|]. intros n. rewrite bget_insert_str by done.
      destruct (String.eqb_spec n (fd_metric_name x)) as [->|Hne].
      * split; [|done]. split; [apply in_app_iff; right; by left|].
        intros d' [Hd'|[<-|[]]]%in_app_iff He.
        { eapply not_newer_trans; [|exact En]. apply Hnew; congruence. }
        unfold is_newer_delta. by rewrite (proj2 (sk_eq _ _) eq_refl).
      * specialize (IH n). destruct (bget n (metrics_of g)) as [d|] eqn:Ed.
        { destruct IH as [[Hd Hall] Hn]. split; [|done]. split; [apply in_app_iff; by left|].
          intros d' [Hd'|[<-|[]]]%in_app_iff He; [by apply Hall|congruence]. }
        intros d [Hd|[<-|[]]]%in_app_iff; [by apply IH|congruence].
    + split; [done|]. intros n. specialize (IH n).
      destruct (bget n (metrics_of g)) as [d|] eqn:Ed.
      * destruct IH as [[Hd Hall] Hn]. split; [|done]. split; [apply in_app_iff; by left|].
        intros d' [Hd'|[<-|[]]]%in_app_iff He; [by apply Hall|].
        assert (d = old) as -> by congruence. done.
      * intros d [Hd|[<-|[]]]%in_app_iff; [by apply IH|]. intros <-. congruence.
  - split; [done|]. intros n. rewrite bget_insert_str by done.
    destruct (String.eqb_spec n (fd_metric_name x)) as [->|Hne].
    + split; [|done]. split; [apply in_app_iff; right; by left|].
      intros d' [Hd'|[<-|[]]]%in_app_iff He; [by apply Hx in Hd'|].
      unfold is_newer_delta. by rewrite (proj2 (sk_eq _ _) eq_refl).
    + specialize (IH n). destruct (bget n (metrics_of g)) as [d|] eqn:Ed.
      * destruct IH as [[Hd Hall] Hn]. split; [|done]. split; [apply in_app_iff; by left|].
        intros d' [Hd'|[<-|[]]]%in_app_iff He; [by apply Hall|congruence].
      * intros d [Hd|[<-|[]]]%in_app_iff; [by apply IH|congruence].
Qed.

Lemma latest_get (deltas : list Delta) q : bget q (latest_metrics_by_summary_key deltas)
  = match with_key from_delta q deltas with [] => None | g => Some (metrics_of g) end.
Proof.
  change (latest_metrics_by_summary_key deltas)
    with (bfold from_delta (fun _ => []) keep_newest deltas).
  rewrite (bget_bfold (K := MarketFeatureDeltaSummaryKey)).
  unfold metrics_of. by destruct (with_key from_delta q deltas).
Qed.

Lemma latest_ok (deltas : list Delta) : bmap_ok (fun _ => True) (latest_metrics_by_summary_key deltas).
Proof. apply (bfold_ok from_delta (fun _ => []) keep_newest). Qed.

Definition row_key (row : MarketFeatureDeltaSummaryRow (F := F)) : MarketFeatureDeltaSummaryKey :=
  (sw_venue row, (sw_symbol_native row, (sw_symbol_canonical row, sw_market_type row))).

Lemma summary_row_spec r known (entry : MarketFeatureDeltaSummaryKey * btree string Delta) :
  row_key (summary_row r known entry) = entry.1 /\
  sw_metrics (summary_row r known entry) = map summary_metric (bvalues entry.2).
Proof.
  unfold summary_row.
  assert (H : forall ds a ms, (fold_left (fun '(a, metrics) delta =>
     let '(a, m) := summary_observe a delta in (a, metrics ++ [m])%list) ds (a, ms)).2
     = (ms ++ map (summary_metric (F := F)) ds)%list).
  { induction ds as [|d ds IH]; intros a ms; cbn [fold_left map]; [by rewrite List.app_nil_r|].
    cbn [summary_observe]. rewrite IH. by rewrite <- List.app_assoc. }
  specialize (H (bvalues entry.2) (summary_accumulator_new r known) []).
  destruct (fold_left _ _ _) as [a ms]. cbn in H. subst ms.
  destruct entry as [(v & n & s & m) metrics]. done.
Qed.
End summary.

(** the summary has one row for each venue, symbol and market type among the deltas.  A row
    has one metric for each metric name among its deltas, and it is taken from a newest
    delta of that name: none ends later, or starts later, or is known later. *)
Theorem summary_keeps_newest_metrics {L : StorageLib} {F : Type} {FO : Float F} {FM : FloatMath F}
    (l1_run_id detail_key : string) (r : InputRange) (known_as_of_ms : Z)
    (deltas : list (MarketFeatureDelta (F := F))) :
  let s := build_market_feature_delta_summary l1_run_id r known_as_of_ms detail_key deltas in
  su_detail_record_count s = zlen deltas /\ su_summary_row_count s = zlen (su_rows s) /\
  List.NoDup (map row_key (su_rows s)) /\
  (forall d, In d deltas -> exists row m, In row (su_rows s) /\ row_key row = from_delta d /\
     In m (sw_metrics row) /\ sm_metric_name m = fd_metric_name d) /\
  (forall row, In row (su_rows s) ->
     List.NoDup (map sm_metric_name (sw_metrics row)) /\
     forall m, In m (sw_metrics row) -> exists d, m = summary_metric d /\
       newest (with_key from_delta (row_key row) deltas) d).
Proof.
  cbn zeta. pose proof (latest_ok deltas) as Hok.
  assert (Hrows : su_rows (build_market_feature_delta_summary l1_run_id r known_as_of_ms detail_key deltas)
    = map (summary_row r known_as_of_ms) (latest_metrics_by_summary_key deltas)) by done.
  split_and!; [done|done| | |].
  - rewrite Hrows, map_map. erewrite map_ext; [|intros e; apply summary_row_spec].
    by apply NoDup_ListNoDup, bkeys_NoDup.
  - intros d Hd. pose proof (latest_get deltas (from_delta d)) as Hg.
    assert (Hin : In d (with_key from_delta (from_delta d) deltas)) by (by apply with_key_In).
    destruct (with_key _ _ _) as [|x g] eqn:Ew; [done|].
    destruct (metrics_of_spec (x :: g)) as [Hmok Hspec]. specialize (Hspec (fd_metric_name d)).
    destruct (bget (fd_metric_name d) (metrics_of (x :: g))) as [d'|] eqn:Ed; [|by apply Hspec in Hin].
    destruct (summary_row_spec r known_as_of_ms (from_delta d, metrics_of (x :: g))) as [Hk Hm].
    exists (summary_row r known_as_of_ms (from_delta d, metrics_of (x :: g))), (summary_metric d').
    split_and!; [|done| |by destruct Hspec].
    + rewrite Hrows. apply in_map, list_elem_of_In. by apply bget_entries.
    + rewrite Hm. apply in_map. apply bget_entries in Ed; [|done]. apply list_elem_of_In in Ed.
      by apply (in_map snd) in Ed.
  - intros row. rewrite Hrows. intros ([k metrics] & <- & Hin)%in_map_iff.
    destruct (summary_row_spec r known_as_of_ms (k, metrics)) as [-> ->]. cbn [fst snd].
    apply list_elem_of_In, bget_entries in Hin; [|done]. rewrite latest_get in Hin.
    destruct (with_key from_delta k deltas) as [|x g] eqn:Ew; [done|]. injection Hin as <-.
    destruct (metrics_of_spec (x :: g)) as [Hmok Hspec].
    assert (Hent : forall n d, In (n, d) (metrics_of (x :: g)) -> newest (x :: g) d /\ fd_metric_name d = n).
    { intros n d Hin. apply list_elem_of_In, bget_entries in Hin; [|done].
      specialize (Hspec n). by rewrite Hin in Hspec. }
    split.
    + change (bvalues (metrics_of (x :: g))) with (map snd (metrics_of (x :: g))).
      rewrite !map_map.
      rewrite (map_ext_in _ fst).
      * by apply NoDup_ListNoDup, bkeys_NoDup.
      * intros [n d] Hd. by apply Hent.
    + intros m (d & <- & Hd)%in_map_iff. unfold bvalues in Hd.
      apply in_map_iff in Hd as ([n d'] & <- & Hd). exists d'. split; [done|]. by eapply Hent.
Qed.

(** ** Witnesses *)

#[local] Existing Instance sample_lib.
#[local] Existing Instance sample_float.

(** Integers with a scale of one. *)
#[local] Instance sample_math : FloatMath Z := {|
  f_sum_zero := 0; f_one := 1; f_half := 0; f_hundred := 100; f_epsilon := 0;
  f_max_spread_bps := 50; f_max_gap_rate := 0;
  f_of_Z := fun z => z; f_abs := Z.abs; f_sqrt := Z.sqrt; f_square := fun z => z * z;
  f_partial_cmp := fun a b => Some (a ?= b);
|}.

Definition sample_slice (venue native canonical : string) (start price_ volume_ : Z) : SliceRow (F := Z) :=
  set_sl_trade_volume volume_ (set_sl_mid_price (Some price_)
    (empty_slice with_defaults (mkIdentity venue "reference" native canonical "BTC" "USDT" "spot") start)).

Definition sample_history : list (SliceRow (F := Z)) :=
  [sample_slice "binance" "BTCUSDT" "BTC" 0 100 5; sample_slice "binance" "BTCUSDT" "BTC" 3600000 110 6;
   sample_slice "binance" "ETHUSDT" "ETH" 3600000 40 9; sample_slice "binance" "BTCUSDT" "BTC" 3601000 120 7].

Definition sample_metrics : list (DerivativeMetricObservation (F := Z)) :=
  [mkMetric "binance" "reference" "perp" "funding_rate" "BTCUSDT" "BTC" "BTC" "USDT" 3 "rate" 3600500 3600600
     "e" "r"].

Lemma sample_clocks : Forall (fun row => clock_ok (sl_window_start_ms row)) sample_history /\
  Forall (fun m => clock_ok (dm_exchange_timestamp_ms m)) sample_metrics.
Proof. split; repeat constructor; cbn; unfold clock_ok, ONE_HOUR_MS; cbn; lia. Qed.

Lemma feature_deltas_never_look_ahead_witness :
  zlen (List.filter (fun d => fd_window_start_ms d <=? 3600500)
    (build_market_feature_deltas "run" (mkRange 3600000 3602000) 9 sample_history sample_metrics)) = 5 /\
  List.filter (fun d => fd_window_start_ms d <=? 3600500)
    (build_market_feature_deltas "run" (mkRange 3600000 3602000) 9 sample_history sample_metrics)
  = build_market_feature_deltas "run" (mkRange 3600000 3602000) 9
      (List.filter (fun row => sl_window_start_ms row <=? 3600500) sample_history)
      (List.filter (fun m => dm_exchange_timestamp_ms m <=? 3600500) sample_metrics).
Proof.
  split; [by vm_compute|].
  apply feature_deltas_never_look_ahead; apply sample_clocks.
Defined.

Lemma regimes_never_look_ahead_witness :
  zlen (List.filter (fun c => rg_window_start_ms c <=? 3600500)
    (build_market_regime_contexts "run" (mkRange 3600000 3602000) 9 sample_history)) = 1 /\
  List.filter (fun c => rg_window_start_ms c <=? 3600500)
    (build_market_regime_contexts "run" (mkRange 3600000 3602000) 9 sample_history)
  = build_market_regime_contexts "run" (mkRange 3600000 3602000) 9
      (List.filter (fun row => sl_window_start_ms row <=? 3600500) sample_history).
Proof.
  split; [by vm_compute|].
  apply regimes_never_look_ahead; apply sample_clocks.
Defined.
