(* ===== verification/Universe.v ===== *)
(** * Universe: the traded symbols and their thirty-day record

    [normalize/projection/symbol_universe] with the calendar helpers of
    [projection/common/time]: the daily rollups of a run, their merge into the
    stored ones, the statistics of a symbol and the admission policy. *)
From S2P Require Import Prelude Text OrderedMap Records NormalizeArgs L1Window L1Build.
From S2P Require Import Projection.
Open Scope Z_scope.

(* rust: src/normalize/projection/common/constants.rs ONE_DAY_MS *)
Definition ONE_DAY_MS : Z := 86400000.
(* rust: src/normalize/projection/common/constants.rs MIN_BOOTSTRAP_DAYS *)
Definition MIN_BOOTSTRAP_DAYS : Z := 30.
(* rust: src/normalize/projection/common/constants.rs BOOTSTRAP_ROLLUP_DAYS *)
Definition BOOTSTRAP_ROLLUP_DAYS : Z := 30.
(* rust: src/normalize/projection/common/constants.rs MAX_APPROVED_RANK *)
Definition MAX_APPROVED_RANK : Z := 50.
(* rust: src/normalize/projection/common/constants.rs MIN_REFERENCE_WARMUP_BOOTSTRAP_DAYS *)
Definition MIN_REFERENCE_WARMUP_BOOTSTRAP_DAYS : Z := 1.
(* rust: src/normalize/projection/common/constants.rs SELECTION_POLICY_VERSION *)
Definition SELECTION_POLICY_VERSION : string := "observed_liquidity_rank_p0_v1".
(* rust: src/normalize/projection/common/constants.rs VENUE_TRUTH_POLICY_VERSION *)
Definition VENUE_TRUTH_POLICY_VERSION : string := "execution_reference_split_p0_v1".
(* rust: src/normalize/projection/common/constants.rs DATA_QUALITY_CUTOFF_VERSION *)
Definition DATA_QUALITY_CUTOFF_VERSION : string := "requires_30d_bootstrap_p0_v1".
(* rust: src/normalize/model/constants.rs SYMBOL_UNIVERSE_BOOTSTRAP_ROLLUP_SCHEMA_VERSION *)
Definition ROLLUP_SCHEMA_VERSION : string := "symbol_universe_bootstrap_rollup_v1".
(* rust: src/normalize/model/constants.rs SYMBOL_UNIVERSE_SNAPSHOT_SCHEMA_VERSION *)
Definition SNAPSHOT_SCHEMA_VERSION : string := "symbol_universe_snapshot_v1".

(* rust: src/normalize/projection/common/time.rs day_start_ms *)
Definition day_start_ms (timestamp_ms : Z) : Z :=
  wrap I64 (div_euclid timestamp_ms ONE_DAY_MS * ONE_DAY_MS).

(** The thirty days up to the last one of the range, oldest first. *)
(* rust: src/normalize/projection/common/time.rs bootstrap_rollup_day_starts *)
Definition bootstrap_rollup_day_starts (input_range : InputRange) : list Z :=
  let end_day_start_ms := day_start_ms (saturate I64 (ir_end_ms input_range - 1)) in
  map (fun offset => saturate I64 (end_day_start_ms - offset * ONE_DAY_MS))
    (rev (map Z.of_nat (seq 0 (Z.to_nat BOOTSTRAP_ROLLUP_DAYS)))).

Section universe.
Context {L : StorageLib} {F : Type} {FO : Float F} {FM : FloatMath F}.
Abbreviation SliceRow := (SliceRow (F := F)).

(* rust: src/normalize/projection/common/time.rs event_date *)
Definition event_date (day_start : Z) : string := (time_part day_start).1.

(** ** Data *)

(* rust: src/normalize/model/universe.rs SymbolUniverseMember *)
Record SymbolUniverseMember := mkMember {
  um_symbol_canonical : string;
  um_execution_symbol_native : option string;
  um_reference_symbol_native : option string;
  um_liquidity_rank_at_that_time : option Z;
  um_approved_universe_symbol : bool;
  um_bootstrap_days_available : Z;
  um_median_spread_bps_30d : option F;
  um_median_traded_notional_30d : option F;
  um_gap_rate_30d : option F;
  um_mapping_confidence : string;
  um_status_reason : string;
}.

(* rust: src/normalize/model/universe.rs SymbolLiquidityRank *)
Record SymbolLiquidityRank := mkRank {
  lr_symbol_canonical : string;
  lr_liquidity_rank_at_that_time : Z;
  lr_observed_traded_notional : F;
}.

(* rust: src/normalize/model/universe.rs SymbolUniverseSnapshot *)
Record SymbolUniverseSnapshot := mkSnapshot {
  us_schema_version : string;
  us_symbol_universe_snapshot_id : string;
  us_universe_as_of_ms : Z;
  us_included_symbols : list SymbolUniverseMember;
  us_excluded_symbols : list SymbolUniverseMember;
  us_liquidity_rank_at_that_time : list SymbolLiquidityRank;
  us_selection_policy_version : string;
  us_venue_truth_policy_version : string;
  us_data_quality_cutoff_version : string;
  us_generated_at_ms : Z;
}.

(* rust: src/normalize/model/universe.rs SymbolUniverseBootstrapSymbolStats *)
Record SymbolUniverseBootstrapSymbolStats := mkRollupSymbol {
  bs_symbol_canonical : string;
  bs_execution_symbol_native : option string;
  bs_reference_symbol_native : option string;
  bs_traded_notional_sum : F;
  bs_spread_bps_median_samples : list F;
  bs_gap_count : Z;
  bs_window_count : Z;
  bs_mapping_confidence : string;
}.

(* rust: src/normalize/model/universe.rs SymbolUniverseBootstrapSourceWindow *)
Record SymbolUniverseBootstrapSourceWindow := mkSourceWindow {
  bw_l1_run_id : string;
  bw_source_window_start_ms : Z;
  bw_source_window_end_ms : Z;
}.

(* rust: src/normalize/model/universe.rs SymbolUniverseBootstrapRollup *)
Record SymbolUniverseBootstrapRollup := mkRollup {
  bo_schema_version : string;
  bo_rollup_id : string;
  bo_event_date : string;
  bo_day_start_ms : Z;
  bo_generated_at_ms : Z;
  bo_updated_by_l1_run_id : string;
  bo_source_windows : list SymbolUniverseBootstrapSourceWindow;
  bo_symbols : list SymbolUniverseBootstrapSymbolStats;
}.

(* rust: src/normalize/projection/symbol_universe/stats/types.rs SymbolStats *)
Record SymbolStats := mkSymbolStats {
  st_symbol_canonical : string;
  st_execution_symbol_native : option string;
  st_reference_symbol_native : option string;
  st_bootstrap_days_available : Z;
  st_median_spread_bps : option F;
  st_median_traded_notional : option F;
  st_gap_rate : option F;
  st_mapping_confidence : string;
  st_observed_traded_notional : F;
}.

(** ** Native symbols *)

(* rust: src/normalize/projection/symbol_universe/stats/native.rs assign_native_symbols *)
Definition assign_native_symbols (row : SliceRow) (execution reference : option string)
    : option string * option string :=
  let execution := if String.eqb (sl_venue row) "upbit" && is_none execution
                   then Some (sl_symbol_native row) else execution in
  let reference := if String.eqb (sl_venue row) "binance" && is_none reference
                   then Some (sl_symbol_native row) else reference in
  (Some (default (sl_symbol_native row) execution), Some (default (sl_symbol_native row) reference)).

(** ** The rollups of a run *)

(* rust: src/normalize/projection/symbol_universe/stats/run_accumulator.rs BootstrapRunSymbolAccumulator *)
Record BootstrapRunSymbolAccumulator := mkRunSymbol {
  ra_symbol_canonical : string;
  ra_execution_symbol_native : option string;
  ra_reference_symbol_native : option string;
  ra_traded_notional_sum : F;
  ra_spread_samples : list F;
  ra_gap_count : Z;
  ra_window_count : Z;
  ra_mapping_confidence : string;
}.

Definition run_symbol_new (symbol : string) : BootstrapRunSymbolAccumulator :=
  mkRunSymbol symbol None None f_zero [] 0 0 "moderate".

(* rust: src/normalize/projection/symbol_universe/stats/run_accumulator.rs observe_slice *)
Definition observe_slice (row : SliceRow) (a : BootstrapRunSymbolAccumulator)
    : BootstrapRunSymbolAccumulator :=
  let '(execution, reference) :=
    assign_native_symbols row (ra_execution_symbol_native a) (ra_reference_symbol_native a) in
  let traded_notional := f_mul (default f_zero (price row)) (sl_trade_volume row) in
  mkRunSymbol (ra_symbol_canonical a) execution reference
    (if f_is_finite traded_notional && f_ltb f_zero traded_notional
     then f_add (ra_traded_notional_sum a) traded_notional else ra_traded_notional_sum a)
    (match option_filter f_is_finite (sl_spread_bps row) with
     | Some spread_bps => (ra_spread_samples a ++ [spread_bps])%list
     | None => ra_spread_samples a
     end)
    (wrap I64 (ra_gap_count a + sl_quality_gap row)) (wrap I64 (ra_window_count a + 1))
    (ra_mapping_confidence a).

(* rust: src/normalize/projection/symbol_universe/stats/run_accumulator.rs into_symbol_stats *)
Definition into_symbol_stats (a : BootstrapRunSymbolAccumulator) : SymbolUniverseBootstrapSymbolStats :=
  mkRollupSymbol (ra_symbol_canonical a) (ra_execution_symbol_native a) (ra_reference_symbol_native a)
    (ra_traded_notional_sum a)
    (match median (ra_spread_samples a) with Some m => [m] | None => [] end)
    (ra_gap_count a) (ra_window_count a) (ra_mapping_confidence a).

Definition symbol_stats_leb (a b : SymbolUniverseBootstrapSymbolStats) : bool :=
  str_leb (bs_symbol_canonical a) (bs_symbol_canonical b).

Definition day_symbol (row : SliceRow) : Z * string :=
  (day_start_ms (sl_window_start_ms row), sl_symbol_canonical row).

Definition by_day_symbol (slices : list SliceRow) : btree (Z * string) BootstrapRunSymbolAccumulator :=
  fold_left (fun m row => bupdate (day_symbol row) (run_symbol_new (sl_symbol_canonical row))
                            (observe_slice row) m) slices [].

(* rust: src/normalize/projection/symbol_universe/bootstrap.rs build_symbol_universe_bootstrap_rollups *)
Definition build_symbol_universe_bootstrap_rollups (l1_run_id : string) (input_range : InputRange)
    (generated_at_ms : Z) (slices : list SliceRow) : list SymbolUniverseBootstrapRollup :=
  let by_day := fold_left (fun m entry =>
      bupdate (fst entry.1) [] (fun g => g ++ [into_symbol_stats entry.2])%list m)
    (by_day_symbol slices) [] in
  map (fun '(day_start, symbols) =>
    mkRollup ROLLUP_SCHEMA_VERSION
      (stable_id [l1_run_id; show_Z (ir_start_ms input_range); show_Z (ir_end_ms input_range);
                  show_Z day_start; ROLLUP_SCHEMA_VERSION])
      (event_date day_start) day_start generated_at_ms l1_run_id
      [mkSourceWindow l1_run_id (ir_start_ms input_range) (ir_end_ms input_range)]
      (sort_by symbol_stats_leb symbols)) by_day.

(** ** Merging a rollup into the stored one *)

(* rust: src/normalize/projection/symbol_universe/stats/merge.rs merge_symbol_rollup *)
Definition merge_symbol_rollup (current existing : SymbolUniverseBootstrapSymbolStats)
    : SymbolUniverseBootstrapSymbolStats :=
  mkRollupSymbol (bs_symbol_canonical existing)
    (if is_none (bs_execution_symbol_native existing) then bs_execution_symbol_native current
     else bs_execution_symbol_native existing)
    (if is_none (bs_reference_symbol_native existing) then bs_reference_symbol_native current
     else bs_reference_symbol_native existing)
    (f_add (bs_traded_notional_sum existing) (bs_traded_notional_sum current))
    (bs_spread_bps_median_samples existing ++ bs_spread_bps_median_samples current)%list
    (wrap I64 (bs_gap_count existing + bs_gap_count current))
    (wrap I64 (bs_window_count existing + bs_window_count current))
    (if String.eqb (bs_mapping_confidence existing) "unknown" then bs_mapping_confidence current
     else bs_mapping_confidence existing).

Definition same_window (a b : SymbolUniverseBootstrapSourceWindow) : bool :=
  (bw_source_window_start_ms a =? bw_source_window_start_ms b)
  && (bw_source_window_end_ms a =? bw_source_window_end_ms b).

(** [v.dedup_by(same)]: an element equal to the last one kept is dropped. *)
Fixpoint dedup_from {A} (same : A -> A -> bool) (kept : A) (l : list A) : list A :=
  match l with
  | [] => []
  | x :: l => if same x kept then dedup_from same kept l else x :: dedup_from same x l
  end.
Definition dedup_by {A} (same : A -> A -> bool) (l : list A) : list A :=
  match l with [] => [] | x :: l => x :: dedup_from same x l end.

Definition window_order (w : SymbolUniverseBootstrapSourceWindow) : string * (Z * Z) :=
  (bw_l1_run_id w, (bw_source_window_start_ms w, bw_source_window_end_ms w)).

Definition merge_symbols (existing current : list SymbolUniverseBootstrapSymbolStats)
    : list SymbolUniverseBootstrapSymbolStats :=
  let by_symbol := bcollect (map (fun symbol => (bs_symbol_canonical symbol, symbol)) existing) in
  let by_symbol := fold_left (fun m symbol =>
      match bget (bs_symbol_canonical symbol) m with
      | Some existing_symbol =>
          binsert (bs_symbol_canonical symbol) (merge_symbol_rollup symbol existing_symbol) m
      | None => binsert (bs_symbol_canonical symbol) symbol m
      end) current by_symbol in
  sort_by symbol_stats_leb (bvalues by_symbol).

(* rust: src/normalize/projection/symbol_universe/merge.rs merge_symbol_universe_bootstrap_rollup *)
Definition merge_symbol_universe_bootstrap_rollup (existing : option SymbolUniverseBootstrapRollup)
    (current : SymbolUniverseBootstrapRollup) : SymbolUniverseBootstrapRollup :=
  match existing with
  | None => current
  | Some existing =>
      if negb (bo_day_start_ms existing =? bo_day_start_ms current)
         || negb (String.eqb (bo_schema_version existing) ROLLUP_SCHEMA_VERSION)
      then current
      else if existsb (fun window => existsb (fun seen => same_window seen window)
                                       (bo_source_windows existing)) (bo_source_windows current)
      then existing
      else
        mkRollup (bo_schema_version existing)
          (stable_id [bo_event_date existing; show_Z (bo_day_start_ms existing);
                      show_Z (bo_generated_at_ms current); ROLLUP_SCHEMA_VERSION])
          (bo_event_date existing) (bo_day_start_ms existing) (bo_generated_at_ms current)
          (bo_updated_by_l1_run_id current)
          (dedup_by same_window (sort_by (key_leb window_order)
             (bo_source_windows existing ++ bo_source_windows current)))
          (merge_symbols (bo_symbols existing) (bo_symbols current))
  end.

(** ** Statistics of a symbol *)

(* rust: src/normalize/projection/symbol_universe/stats/types.rs from_slice *)
Definition stats_from_slice (row : SliceRow) : SymbolStats :=
  mkSymbolStats (sl_symbol_canonical row) None None 0 None None None "moderate" f_zero.

(* rust: src/normalize/projection/symbol_universe/stats/types.rs from_bootstrap *)
Definition stats_from_bootstrap (symbol : SymbolUniverseBootstrapSymbolStats) : SymbolStats :=
  mkSymbolStats (bs_symbol_canonical symbol) (bs_execution_symbol_native symbol)
    (bs_reference_symbol_native symbol) 0 None None None (bs_mapping_confidence symbol) f_zero.

Definition set_natives (execution reference : option string) (s : SymbolStats) : SymbolStats :=
  mkSymbolStats (st_symbol_canonical s) execution reference (st_bootstrap_days_available s)
    (st_median_spread_bps s) (st_median_traded_notional s) (st_gap_rate s) (st_mapping_confidence s)
    (st_observed_traded_notional s).

(* rust: src/normalize/projection/symbol_universe/stats/types.rs observe_native_symbol *)
Definition observe_native_symbol (row : SliceRow) (s : SymbolStats) : SymbolStats :=
  let '(execution, reference) :=
    assign_native_symbols row (st_execution_symbol_native s) (st_reference_symbol_native s) in
  set_natives execution reference s.

Definition traded_notional (row : SliceRow) : F :=
  f_mul (sl_trade_volume row) (default f_zero (price row)).

Definition add_observed (x : F) (s : SymbolStats) : SymbolStats :=
  mkSymbolStats (st_symbol_canonical s) (st_execution_symbol_native s) (st_reference_symbol_native s)
    (st_bootstrap_days_available s) (st_median_spread_bps s) (st_median_traded_notional s)
    (st_gap_rate s) (st_mapping_confidence s) (f_add (st_observed_traded_notional s) x).

(* rust: src/normalize/projection/symbol_universe/stats/current.rs record_daily_symbol_stats *)
Definition record_daily_symbol_stats (row : SliceRow) (daily : btree string (btree Z F))
    : btree string (btree Z F) :=
  bupdate (sl_symbol_canonical row) []
    (bupdate (div_euclid (sl_window_start_ms row) ONE_DAY_MS) f_zero
       (fun day => f_add day (traded_notional row))) daily.

(* rust: src/normalize/projection/symbol_universe/stats/current.rs record_symbol_spread *)
Definition record_symbol_spread (row : SliceRow) (spreads : btree string (list F))
    : btree string (list F) :=
  match option_filter f_is_finite (sl_spread_bps row) with
  | Some spread_bps => bupdate (sl_symbol_canonical row) [] (fun l => l ++ [spread_bps])%list spreads
  | None => spreads
  end.

(** [entry.0 += gaps; entry.1 += windows] *)
Definition add_gaps (symbol : string) (gaps windows : Z) (gap_counts : btree string (Z * Z))
    : btree string (Z * Z) :=
  bupdate symbol (0, 0) (fun e => (wrap I64 (e.1 + gaps), wrap I64 (e.2 + windows))) gap_counts.

(* rust: src/normalize/projection/symbol_universe/stats/current.rs record_symbol_gap *)
Definition record_symbol_gap (row : SliceRow) (gap_counts : btree string (Z * Z))
    : btree string (Z * Z) :=
  add_gaps (sl_symbol_canonical row) (sl_quality_gap row) 1 gap_counts.

(** The loop at the end of both statistics. *)
Definition settle_stats (daily : btree string (btree Z F)) (spreads : btree string (list F))
    (gap_counts : btree string (Z * Z)) (no_windows : Z -> bool) (symbol : string) (s : SymbolStats)
    : SymbolStats :=
  let days := default [] (bvalues <$> bget symbol daily) in
  mkSymbolStats (st_symbol_canonical s) (st_execution_symbol_native s) (st_reference_symbol_native s)
    (Z.min (zlen days) (int_max I64))
    (spread ← bget symbol spreads; median spread) (median days)
    ((fun '(gap_count, window_count) =>
        if no_windows window_count then f_one
        else f_div (f_of_Z gap_count) (f_of_Z window_count)) <$> bget symbol gap_counts)
    (st_mapping_confidence s) (st_observed_traded_notional s).

Definition settle_all (daily : btree string (btree Z F)) (spreads : btree string (list F))
    (gap_counts : btree string (Z * Z)) (no_windows : Z -> bool) (stats : btree string SymbolStats)
    : btree string SymbolStats :=
  map (fun kv => (kv.1, settle_stats daily spreads gap_counts no_windows kv.1 kv.2)) stats.

(** The statistics of the current slices and the three maps they come from. *)
(* rust: src/normalize/projection/symbol_universe/stats/current.rs symbol_stats *)
Definition symbol_stats (slices : list SliceRow) : btree string SymbolStats :=
  let stats := fold_left (fun stats row =>
      bupdate (sl_symbol_canonical row) (stats_from_slice row)
        (fun s => add_observed (traded_notional row) (observe_native_symbol row s)) stats) slices [] in
  let daily := fold_left (fun m row => record_daily_symbol_stats row m) slices [] in
  let spreads := fold_left (fun m row => record_symbol_spread row m) slices [] in
  let gap_counts := fold_left (fun m row => record_symbol_gap row m) slices [] in
  settle_all daily spreads gap_counts (fun n => n =? 0) stats.

(* rust: src/normalize/projection/symbol_universe/stats/bootstrap.rs ensure_bootstrap_symbol_stats *)
Definition ensure_bootstrap_symbol_stats (symbol : SymbolUniverseBootstrapSymbolStats)
    (stats : btree string SymbolStats) : btree string SymbolStats :=
  bupdate (bs_symbol_canonical symbol) (stats_from_bootstrap symbol)
    (fun s => set_natives
       (if is_none (st_execution_symbol_native s) then bs_execution_symbol_native symbol
        else st_execution_symbol_native s)
       (if is_none (st_reference_symbol_native s) then bs_reference_symbol_native symbol
        else st_reference_symbol_native s) s) stats.

Record Bootstrapped := mkBootstrapped {
  bd_stats : btree string SymbolStats;
  bd_daily_notional : btree string (btree Z F);
  bd_spread_samples : btree string (list F);
  bd_gap_counts : btree string (Z * Z);
}.

(** [entry(day).and_modify(|v| *v += x).or_insert(x)] *)
Definition add_or_insert (day : Z) (x : F) (m : btree Z F) : btree Z F :=
  match bget day m with Some v => binsert day (f_add v x) m | None => binsert day x m end.

(** One symbol of a rollup. *)
Definition record_symbol (day_start : Z) (b : Bootstrapped)
    (symbol : SymbolUniverseBootstrapSymbolStats) : Bootstrapped :=
  mkBootstrapped (ensure_bootstrap_symbol_stats symbol (bd_stats b))
    (bupdate (bs_symbol_canonical symbol) []
       (add_or_insert day_start (bs_traded_notional_sum symbol)) (bd_daily_notional b))
    (bupdate (bs_symbol_canonical symbol) []
       (fun l => l ++ List.filter f_is_finite (bs_spread_bps_median_samples symbol))%list
       (bd_spread_samples b))
    (add_gaps (bs_symbol_canonical symbol) (bs_gap_count symbol) (bs_window_count symbol)
       (bd_gap_counts b)).

(* rust: src/normalize/projection/symbol_universe/stats/bootstrap.rs record_bootstrap_rollup *)
Definition record_bootstrap_rollup (b : Bootstrapped) (rollup : SymbolUniverseBootstrapRollup)
    : Bootstrapped :=
  fold_left (record_symbol (bo_day_start_ms rollup)) (bo_symbols rollup) b.

(* rust: src/normalize/projection/symbol_universe/stats/bootstrap.rs finalize_bootstrap_stats *)
Definition finalize_bootstrap_stats (b : Bootstrapped) : btree string SymbolStats :=
  settle_all (bd_daily_notional b) (bd_spread_samples b) (bd_gap_counts b) (fun n => n <=? 0)
    (bd_stats b).

(* rust: src/normalize/projection/symbol_universe/stats/bootstrap.rs symbol_stats_from_bootstrap *)
Definition symbol_stats_from_bootstrap (input_range : InputRange) (current_slices : list SliceRow)
    (bootstrap_rollups : list SymbolUniverseBootstrapRollup) : btree string SymbolStats :=
  let last_ms := saturate I64 (ir_end_ms input_range - 1) in
  let bootstrap_start_day_ms :=
    day_start_ms (saturate I64 (last_ms - (BOOTSTRAP_ROLLUP_DAYS - 1) * ONE_DAY_MS)) in
  let bootstrap_end_day_ms := day_start_ms last_ms in
  finalize_bootstrap_stats
    (fold_left record_bootstrap_rollup
       (List.filter (fun rollup =>
          String.eqb (bo_schema_version rollup) ROLLUP_SCHEMA_VERSION
          && (bootstrap_start_day_ms <=? bo_day_start_ms rollup)
          && (bo_day_start_ms rollup <=? bootstrap_end_day_ms)) bootstrap_rollups)
       (mkBootstrapped (symbol_stats current_slices) [] [] [])).

(** ** Ranking and admission *)

Definition some_and {A} (p : A -> bool) (o : option A) : bool :=
  match o with Some a => p a | None => false end.

(* rust: src/normalize/projection/symbol_universe/policy.rs is_reference_warmup_symbol *)
Definition is_reference_warmup_symbol (stat : SymbolStats) : bool :=
  some_and (fun symbol => ends_with "USDT" symbol && negb (starts_with "KRW-" symbol))
    (st_reference_symbol_native stat).

(* rust: src/normalize/projection/symbol_universe/policy.rs is_liquidity_rank_eligible *)
Definition is_liquidity_rank_eligible (stat : SymbolStats) (notional : F) : bool :=
  if negb (f_is_finite notional) || f_leb notional f_zero then false
  else if MIN_BOOTSTRAP_DAYS <=? st_bootstrap_days_available stat then true
  else (MIN_REFERENCE_WARMUP_BOOTSTRAP_DAYS <=? st_bootstrap_days_available stat)
       && (st_bootstrap_days_available stat <? MIN_BOOTSTRAP_DAYS)
       && is_reference_warmup_symbol stat.

(** The larger notional first, then by name. *)
Definition rank_leb (left right : string * F) : bool :=
  match default Eq (f_partial_cmp right.2 left.2) with
  | Lt => true
  | Gt => false
  | Eq => str_leb left.1 right.1
  end.

Definition ranked (stats : btree string SymbolStats) : list (string * F) :=
  sort_by rank_leb (omap (fun stat =>
    notional ← st_median_traded_notional stat;
    if negb (is_liquidity_rank_eligible stat notional) then None
    else Some (st_symbol_canonical stat, notional)) (bvalues stats)).

(* rust: src/normalize/projection/symbol_universe/policy.rs liquidity_ranks *)
Definition liquidity_ranks (stats : btree string SymbolStats) : list SymbolLiquidityRank :=
  imap (fun index row => mkRank row.1 (Z.min (Z.of_nat index + 1) (int_max I64)) row.2) (ranked stats).

(* rust: src/normalize/projection/symbol_universe/policy.rs passes_universe_quality *)
Definition passes_universe_quality (stat : SymbolStats) : bool :=
  some_and (fun notional => f_ltb f_zero notional) (st_median_traded_notional stat)
  && some_and (fun spread => f_leb spread f_max_spread_bps) (st_median_spread_bps stat)
  && some_and (fun gap_rate => f_leb gap_rate f_max_gap_rate) (st_gap_rate stat).

(* rust: src/normalize/projection/symbol_universe/policy.rs is_fully_bootstrapped_universe_symbol *)
Definition is_fully_bootstrapped_universe_symbol (stat : SymbolStats) (liquidity_rank : option Z) : bool :=
  (MIN_BOOTSTRAP_DAYS <=? st_bootstrap_days_available stat)
  && some_and (fun rank => rank <=? MAX_APPROVED_RANK) liquidity_rank
  && passes_universe_quality stat.

(* rust: src/normalize/projection/symbol_universe/policy.rs is_approved_universe_symbol *)
Definition is_approved_universe_symbol (stat : SymbolStats) (liquidity_rank : option Z) : bool :=
  is_fully_bootstrapped_universe_symbol stat liquidity_rank.

(* rust: src/normalize/projection/symbol_universe/policy.rs universe_status_reason *)
Definition universe_status_reason (stat : SymbolStats) (liquidity_rank : option Z) (approved : bool)
    : string :=
  if approved then "approved"
  else if st_bootstrap_days_available stat <? MIN_BOOTSTRAP_DAYS then "insufficient_30d_bootstrap"
  else if negb (some_and (fun rank => negb (MAX_APPROVED_RANK <? rank)) liquidity_rank)
  then "outside_top_50_liquidity_rank"
  else if negb (some_and (fun notional => f_ltb f_zero notional) (st_median_traded_notional stat))
  then "missing_30d_traded_notional"
  else match st_median_spread_bps stat with
  | None => "missing_30d_spread"
  | Some median_spread_bps =>
      if f_ltb f_max_spread_bps median_spread_bps then "spread_too_wide_30d"
      else if negb (some_and (fun gap_rate => f_leb gap_rate f_max_gap_rate) (st_gap_rate stat))
      then "gap_rate_too_high_30d" else "not_admitted"
  end.

Definition member_order (m : SymbolUniverseMember) : Z * string :=
  (default (int_max I64) (um_liquidity_rank_at_that_time m), um_symbol_canonical m).

(* rust: src/normalize/projection/symbol_universe/policy.rs symbol_member_sort *)
Definition symbol_member_sort (left right : SymbolUniverseMember) : comparison :=
  kcmp (member_order left) (member_order right).

Definition member_leb (left right : SymbolUniverseMember) : bool :=
  match symbol_member_sort left right with Gt => false | _ => true end.

Definition member_of (rank_by_symbol : btree string Z) (stat : SymbolStats) : SymbolUniverseMember :=
  let liquidity_rank := bget (st_symbol_canonical stat) rank_by_symbol in
  let approved := is_approved_universe_symbol stat liquidity_rank in
  mkMember (st_symbol_canonical stat) (st_execution_symbol_native stat) (st_reference_symbol_native stat)
    liquidity_rank approved (st_bootstrap_days_available stat) (st_median_spread_bps stat)
    (st_median_traded_notional stat) (st_gap_rate stat) (st_mapping_confidence stat)
    (universe_status_reason stat liquidity_rank approved).

(* rust: src/normalize/projection/symbol_universe/snapshot.rs build_symbol_universe_snapshot_from_bootstrap *)
Definition build_symbol_universe_snapshot_from_bootstrap (l1_run_id : string)
    (input_range : InputRange) (generated_at_ms : Z) (current_slices : list SliceRow)
    (bootstrap_rollups : list SymbolUniverseBootstrapRollup) : SymbolUniverseSnapshot :=
  let stats := symbol_stats_from_bootstrap input_range current_slices bootstrap_rollups in
  let ranks := liquidity_ranks stats in
  let rank_by_symbol := bcollect (map (fun rank =>
    (lr_symbol_canonical rank, lr_liquidity_rank_at_that_time rank)) ranks) in
  let members := map (member_of rank_by_symbol) (bvalues stats) in
  mkSnapshot SNAPSHOT_SCHEMA_VERSION
    (stable_id [l1_run_id; show_Z (ir_start_ms input_range); show_Z (ir_end_ms input_range);
                SNAPSHOT_SCHEMA_VERSION])
    (ir_end_ms input_range)
    (sort_by member_leb (List.filter um_approved_universe_symbol members))
    (sort_by member_leb (List.filter (fun m => negb (um_approved_universe_symbol m)) members))
    ranks SELECTION_POLICY_VERSION VENUE_TRUTH_POLICY_VERSION DATA_QUALITY_CUTOFF_VERSION
    generated_at_ms.

(* rust: src/normalize/projection/symbol_universe/snapshot.rs build_symbol_universe_snapshot *)
Definition build_symbol_universe_snapshot (l1_run_id : string) (input_range : InputRange)
    (generated_at_ms : Z) (slices : list SliceRow) : SymbolUniverseSnapshot :=
  build_symbol_universe_snapshot_from_bootstrap l1_run_id input_range generated_at_ms slices
    (build_symbol_universe_bootstrap_rollups l1_run_id input_range generated_at_ms slices).
End universe.
