(* ===== verification/UniverseFacts.v ===== *)
(** * UniverseFacts: rollups, native symbols and admission

    A run's rollups are well formed and merging them counts each source window once;
    both native symbols of a symbol come from the first slice seen; the snapshot splits
    the known symbols into the admitted and the others. *)
From S2P Require Import Prelude Text OrderedMap Records NormalizeArgs L1Window L1Build.
From S2P Require Import L1BuildFacts Projection Regime ProjectionFacts Universe.
From Stdlib Require Import Sorting.Sorted.
Open Scope Z_scope.

Section natives.
Context {L : StorageLib} {F : Type} {FO : Float F} {FM : FloatMath F}.
Abbreviation SliceRow := (SliceRow (F := F)).

(** The first slice fixes both symbols. *)
Lemma assign_first (row : SliceRow) :
  assign_native_symbols row None None = (Some (sl_symbol_native row), Some (sl_symbol_native row)).
Proof.
  unfold assign_native_symbols. cbn [is_none]. rewrite !andb_true_r.
  by destruct (String.eqb (sl_venue row) "upbit"), (String.eqb (sl_venue row) "binance").
Qed.

Lemma assign_later (row : SliceRow) a b :
  assign_native_symbols row (Some a) (Some b) = (Some a, Some b).
Proof. unfold assign_native_symbols. cbn [is_none]. by rewrite !andb_false_r. Qed.

Lemma observe_natives (row : SliceRow) a n :
  ra_execution_symbol_native a = Some n -> ra_reference_symbol_native a = Some n ->
  ra_execution_symbol_native (observe_slice row a) = Some n /\
  ra_reference_symbol_native (observe_slice row a) = Some n.
Proof. intros He Hr. unfold observe_slice. by rewrite He, Hr, assign_later. Qed.

Lemma observed_natives (row : SliceRow) g s :
  let a := fold_left (fun v y => observe_slice y v) (row :: g) (run_symbol_new s) in
  ra_execution_symbol_native a = Some (sl_symbol_native row) /\
  ra_reference_symbol_native a = Some (sl_symbol_native row).
Proof.
  cbn [fold_left]. assert (H0 : ra_execution_symbol_native (observe_slice row (run_symbol_new s))
      = Some (sl_symbol_native row) /\
    ra_reference_symbol_native (observe_slice row (run_symbol_new s)) = Some (sl_symbol_native row)).
  { unfold observe_slice, run_symbol_new. cbn [ra_execution_symbol_native ra_reference_symbol_native].
    by rewrite assign_first. }
  revert H0. generalize (observe_slice row (run_symbol_new s)) as a.
  induction g as [|y g IH]; cbn [fold_left]; intros a [He Hr]; [done|].
  apply IH. by apply observe_natives.
Qed.

Lemma observed_symbol g s (a : BootstrapRunSymbolAccumulator (F := F)) :
  ra_symbol_canonical a = s ->
  ra_symbol_canonical (fold_left (fun v y => observe_slice y v) g a) = s.
Proof.
  revert a. induction g as [|y g IH]; cbn [fold_left]; intros a Ha; [done|]. apply IH.
  unfold observe_slice. by destruct (assign_native_symbols _ _ _).
Qed.

Lemma by_day_symbol_ok (slices : list SliceRow) : bmap_ok (fun _ => True) (by_day_symbol slices).
Proof. apply (bfold_ok day_symbol (fun row => run_symbol_new (sl_symbol_canonical row)) observe_slice). Qed.

Lemma by_day_symbol_get (slices : list SliceRow) q a : bget q (by_day_symbol slices) = Some a ->
  exists row g, with_key day_symbol q slices = row :: g /\ ra_symbol_canonical a = q.2 /\
    ra_execution_symbol_native a = Some (sl_symbol_native row) /\
    ra_reference_symbol_native a = Some (sl_symbol_native row).
Proof.
  change (by_day_symbol slices)
    with (bfold day_symbol (fun row => run_symbol_new (sl_symbol_canonical row)) observe_slice slices).
  rewrite bget_bfold. destruct (with_key day_symbol q slices) as [|row g] eqn:E; [done|].
  intros [= <-]. exists row, g. split; [done|].
  assert (Hq : day_symbol row = q).
  { apply (with_key_In day_symbol q slices row). rewrite E. by left. }
  split; [|apply observed_natives].
  assert (H := observed_symbol (row :: g) (sl_symbol_canonical row)
                 (run_symbol_new (sl_symbol_canonical row)) eq_refl).
  cbn [fold_left] in *. rewrite H. by rewrite <- Hq.
Qed.

(** *** The rollups *)

Definition by_day (slices : list SliceRow) : btree Z (list (SymbolUniverseBootstrapSymbolStats (F := F))) :=
  push_all (fun e => fst e.1) (fun e => into_symbol_stats e.2) (by_day_symbol slices).

Lemma rollup_in id r at_ms (slices : list SliceRow) o :
  In o (build_symbol_universe_bootstrap_rollups id r at_ms slices) ->
  bo_schema_version o = ROLLUP_SCHEMA_VERSION /\
  bo_source_windows o = [mkSourceWindow id (ir_start_ms r) (ir_end_ms r)] /\
  exists symbols, bget (bo_day_start_ms o) (by_day slices) = Some symbols /\
    bo_symbols o = sort_by symbol_stats_leb symbols.
Proof.
  unfold build_symbol_universe_bootstrap_rollups. intros ([day symbols] & <- & Hin)%in_map_iff.
  split_and!; [done..|]. exists symbols. split; [|done].
  apply (bget_of_elem (fun _ => True)); [apply push_all_ok|]. by apply list_elem_of_In.
Qed.

Lemma day_symbols (slices : list SliceRow) day symbols :
  bget day (by_day slices) = Some symbols ->
  symbols = map (fun e => into_symbol_stats e.2)
    (List.filter (fun e => key_eqb day (fst e.1)) (by_day_symbol slices)).
Proof.
  unfold by_day. rewrite bget_push_all. unfold some_list.
  destruct (map _ _) eqn:E; cbn; [done|]. by intros [= <-].
Qed.

Lemma day_symbol_entry (slices : list SliceRow) day symbols s :
  bget day (by_day slices) = Some symbols -> In s symbols ->
  exists a, bget (day, bs_symbol_canonical s) (by_day_symbol slices) = Some a /\ s = into_symbol_stats a.
Proof.
  intros Hg Hs. rewrite (day_symbols _ _ _ Hg) in Hs.
  apply in_map_iff in Hs as ([[d q] a] & <- & [Hin Hd]%filter_In). cbn [fst snd] in *.
  destruct (key_eqb_spec day d) as [<-|]; [|done].
  apply list_elem_of_In, bget_entries in Hin; [|apply by_day_symbol_ok].
  destruct (by_day_symbol_get _ _ _ Hin) as (row & g & _ & Hc & _). cbn in Hc.
  exists a. split; [|done]. cbn. by rewrite Hc.
Qed.

Lemma find_with_key {K} `{StrictKey K} {A} (key : A -> K) q l x g :
  with_key key q l = x :: g -> List.find (fun y => key_eqb q (key y)) l = Some x.
Proof.
  unfold with_key. induction l as [|y l IH]; cbn; [done|].
  destruct (key_eqb q (key y)); [by intros [= -> _]|done].
Qed.
End natives.

(** ** A run's rollups *)

Section rollups.
Context {L : StorageLib} {F : Type} {FO : Float F} {FM : FloatMath F}.
Abbreviation SliceRow := (SliceRow (F := F)).
Abbreviation Rollup := (SymbolUniverseBootstrapRollup (F := F)).
Abbreviation Stats := (SymbolUniverseBootstrapSymbolStats (F := F)).

(** The rollup of one run for [day]: it covers the run's window only and has one entry for
    a symbol. *)
Record run_rollup (day : Z) (o : Rollup) : Prop := {
  run_day : bo_day_start_ms o = day;
  run_schema : bo_schema_version o = ROLLUP_SCHEMA_VERSION;
  run_window : exists w, bo_source_windows o = [w];
  run_symbols : List.NoDup (map bs_symbol_canonical (bo_symbols o));
}.

Lemma NoDup_map_pair {A B} (p : Z) (l : list ((Z * B) * A)) :
  List.NoDup (map fst l) ->
  List.NoDup (map (fun e => snd e.1) (List.filter (fun e => key_eqb p (fst e.1)) l)).
Proof.
  induction l as [|[[d b] a] l IH]; cbn; intros Hnd; [constructor|].
  inversion Hnd as [|? ? Hni Hnd']; subst. destruct (key_eqb_spec p d) as [<-|]; [|by apply IH].
  cbn. constructor; [|by apply IH]. intros ([[d' b'] a'] & Hb & [Hin Hd]%filter_In)%in_map_iff.
  cbn in *. subst b'. destruct (key_eqb_spec p d') as [<-|]; [|done].
  apply Hni. apply in_map_iff. by exists ((p, b), a').
Qed.

Lemma built_rollup id r at_ms (slices : list SliceRow) o :
  In o (build_symbol_universe_bootstrap_rollups id r at_ms slices) ->
  run_rollup (bo_day_start_ms o) o.
Proof.
  intros Hin. destruct (rollup_in _ _ _ _ _ Hin) as (Hs & Hw & symbols & Hg & Ho).
  split; [done..|eauto|]. rewrite Ho.
  eapply Permutation_NoDup; [apply Permutation_map; symmetry; apply sort_by_perm|].
  rewrite (day_symbols _ _ _ Hg), map_map.
  rewrite (map_ext_in _ (fun e => snd e.1)).
  - apply NoDup_map_pair. apply NoDup_ListNoDup, bkeys_NoDup, by_day_symbol_ok.
  - intros [[d q] a] [He _]%filter_In. apply list_elem_of_In, bget_entries in He;
      [|apply by_day_symbol_ok].
    by destruct (by_day_symbol_get _ _ _ He) as (row & g & _ & Hc & _).
Qed.

(** ** Merging *)

Definition total (f : Stats -> Z) (symbol : string) (l : list Stats) : Z :=
  fold_right (fun s acc => (if String.eqb (bs_symbol_canonical s) symbol then f s else 0) + acc) 0 l.

Lemma total_app f symbol l l' : total f symbol (l ++ l') = total f symbol l + total f symbol l'.
Proof. unfold total. induction l; cbn; lia. Qed.

Lemma total_cons f symbol s l : total f symbol (s :: l)
  = (if String.eqb (bs_symbol_canonical s) symbol then f s else 0) + total f symbol l.
Proof. done. Qed.

Lemma total_perm f symbol l l' : l ≡ₚ l' -> total f symbol l = total f symbol l'.
Proof. unfold total. induction 1; cbn; lia. Qed.

Lemma total_absent f symbol l : ~ In symbol (map bs_symbol_canonical l) -> total f symbol l = 0.
Proof.
  unfold total. induction l as [|s l IH]; cbn; intros Hn; [done|].
  destruct (String.eqb_spec (bs_symbol_canonical s) symbol); [tauto|]. apply IH. tauto.
Qed.

(** Entries stored under their own symbol. *)
Definition self_keyed (m : btree string Stats) : Prop :=
  bmap_ok (fun _ => True) m /\ forall k s, bget k m = Some s -> bs_symbol_canonical s = k.

Definition count_in (f : Stats -> Z) (symbol : string) (m : btree string Stats) : Z :=
  match bget symbol m with Some s => f s | None => 0 end.

Lemma self_keyed_values m : self_keyed m -> map bs_symbol_canonical (bvalues m) = bkeys m.
Proof.
  intros [Hok Hk]. change (bvalues m) with (map snd m). rewrite map_map.
  apply map_ext_in. intros [k s] Hin. apply list_elem_of_In, bget_entries in Hin; [|done].
  by apply Hk.
Qed.

Lemma total_values f symbol m : self_keyed m -> total f symbol (bvalues m) = count_in f symbol m.
Proof.
  intros Hm. pose proof (self_keyed_values m Hm) as Hv. destruct Hm as [Hok Hk].
  unfold count_in. destruct (bget symbol m) as [s|] eqn:E.
  - pose proof (bget_perm _ _ _ E) as Hp. unfold bvalues. rewrite (total_perm _ _ _ _ (fmap_Permutation snd _ _ Hp)).
    rewrite fmap_cons, total_cons. cbn [snd]. rewrite (Hk _ _ E), String.eqb_refl.
    rewrite total_absent; [lia|].
    pose proof (bkeys_NoDup m Hok) as Hnd. unfold bkeys in Hnd.
    rewrite (fmap_Permutation fst _ _ Hp) in Hnd. cbn in Hnd. apply NoDup_cons in Hnd as [Hni _].
    intros Hin. apply Hni.
    apply in_map_iff in Hin as (s' & Hs' & Hin). apply in_map_iff in Hin as ([k s2] & Hs2 & Hin).
    cbn in Hs2. subst s2. assert (Hin2 : In (k, s') m).
    { apply list_elem_of_In. rewrite Hp. right. by apply list_elem_of_In. }
    apply list_elem_of_In, bget_entries in Hin2; [|done]. apply Hk in Hin2.
    apply list_elem_of_In, in_map_iff. exists (k, s'). split; [cbn; congruence|done].
  - apply total_absent. rewrite Hv. intros Hin. apply list_elem_of_In, bget_is_Some_keys in Hin; [|done].
    destruct Hin as [? Hin]. congruence.
Qed.

(** A count that [merge_symbol_rollup] adds up. *)
Definition additive (f : Stats -> Z) : Prop :=
  forall s e, f (merge_symbol_rollup s e) = wrap I64 (f e + f s).

Definition merge_step (m : btree string Stats) (symbol : Stats) : btree string Stats :=
  match bget (bs_symbol_canonical symbol) m with
  | Some existing => binsert (bs_symbol_canonical symbol) (merge_symbol_rollup symbol existing) m
  | None => binsert (bs_symbol_canonical symbol) symbol m
  end.

Lemma insert_self_keyed m s k : self_keyed m -> bs_symbol_canonical s = k -> self_keyed (binsert k s m).
Proof.
  intros [Hok Hk] <-. split; [by apply (binsert_ok (fun _ => True))|]. intros q s'.
  destruct (bget_insert_strict (bs_symbol_canonical s) q s m Hok) as [[-> ->]|[-> _]];
    [by intros [= <-]|apply Hk].
Qed.

Lemma merge_step_self m s : self_keyed m -> self_keyed (merge_step m s).
Proof.
  intros Hm. unfold merge_step. destruct (bget _ m) as [e|] eqn:E; apply insert_self_keyed; try done.
  destruct Hm as [_ Hk]. apply (Hk _ _ E).
Qed.

Lemma merge_steps_self l m : self_keyed m -> self_keyed (fold_left merge_step l m).
Proof. revert m. induction l; cbn; intros; [done|]. by apply IHl, merge_step_self. Qed.

Lemma wrap_add a b c : wrap I64 a = wrap I64 b -> wrap I64 (a + c) = wrap I64 (b + c).
Proof. unfold wrap. cbn. intros H. Z.div_mod_to_equations. nia. Qed.

Lemma wrap_add_l a b : wrap I64 (wrap I64 a + b) = wrap I64 (a + b).
Proof. apply wrap_add. apply wrap_id, wrap_in_range. Qed.

Lemma merge_step_count f symbol m s : additive f -> self_keyed m ->
  wrap I64 (count_in f symbol (merge_step m s))
  = wrap I64 (count_in f symbol m + if String.eqb (bs_symbol_canonical s) symbol then f s else 0).
Proof.
  intros Hf [Hok _]. unfold count_in, merge_step.
  destruct (String.eqb_spec (bs_symbol_canonical s) symbol) as [<-|Hne].
  - destruct (bget (bs_symbol_canonical s) m) as [e|]; rewrite bget_insert_eq by done; [|done].
    rewrite Hf. apply wrap_id, wrap_in_range.
  - rewrite Z.add_0_r.
    destruct (bget (bs_symbol_canonical s) m) as [e|]; by rewrite bget_insert_ne by done.
Qed.

Lemma merge_steps_count f symbol l m : additive f -> self_keyed m ->
  wrap I64 (count_in f symbol (fold_left merge_step l m))
  = wrap I64 (count_in f symbol m + total f symbol l).
Proof.
  intros Hf. revert m. induction l as [|s l IH]; intros m Hm; cbn [fold_left].
  - f_equal. cbn. lia.
  - rewrite IH by by apply merge_step_self.
    rewrite (wrap_add _ _ _ (merge_step_count f symbol m s Hf Hm)). rewrite total_cons. f_equal. lia.
Qed.

Lemma collect_steps l m : self_keyed m -> List.NoDup (map bs_symbol_canonical l) ->
  (forall s, In s l -> bget (bs_symbol_canonical s) m = None) ->
  fold_left (fun m kv => binsert kv.1 kv.2 m) (map (fun s => (bs_symbol_canonical s, s)) l) m
  = fold_left merge_step l m.
Proof.
  revert m. induction l as [|s l IH]; intros m Hm Hnd Hnone; [done|]. cbn [map fold_left fst snd].
  inversion Hnd as [|? ? Hni Hnd']; subst. unfold merge_step at 2. rewrite Hnone by (by left).
  apply IH; [by apply insert_self_keyed|done|]. intros s' Hs'. rewrite bget_insert_ne.
  - apply Hnone. by right.
  - by destruct Hm.
  - intros E. apply Hni. rewrite <- E. by apply in_map.
Qed.

Lemma self_keyed_nil : self_keyed [].
Proof. split; [apply bmap_ok_nil|done]. Qed.

Lemma merge_symbols_spec existing current : List.NoDup (map bs_symbol_canonical existing) ->
  List.NoDup (map bs_symbol_canonical (merge_symbols existing current)) /\
  forall f symbol, additive f -> wrap I64 (total f symbol (merge_symbols existing current))
    = wrap I64 (total f symbol existing + total f symbol current).
Proof.
  intros Hnd. unfold merge_symbols, bcollect.
  rewrite collect_steps by (done || apply self_keyed_nil).
  fold merge_step. set (m := fold_left merge_step existing []).
  assert (Hm : self_keyed m) by apply merge_steps_self, self_keyed_nil.
  assert (Hm' : self_keyed (fold_left merge_step current m)) by by apply merge_steps_self.
  split.
  - eapply Permutation_NoDup; [apply Permutation_map; symmetry; apply sort_by_perm|].
    rewrite self_keyed_values by done. apply NoDup_ListNoDup, bkeys_NoDup, Hm'.
  - intros f symbol Hf. rewrite (total_perm _ _ _ _ (sort_by_perm _ _)).
    rewrite total_values by done. rewrite merge_steps_count by done.
    apply wrap_add. unfold m. rewrite merge_steps_count by (done || apply self_keyed_nil). done.
Qed.

(** *** Source windows *)

Definition range_of (w : SymbolUniverseBootstrapSourceWindow) : Z * Z :=
  (bw_source_window_start_ms w, bw_source_window_end_ms w).
Definition windows_of (o : Rollup) : list (Z * Z) := map range_of (bo_source_windows o).

Lemma same_window_spec a b : reflect (range_of a = range_of b) (same_window a b).
Proof.
  unfold same_window, range_of.
  destruct (Z.eqb_spec (bw_source_window_start_ms a) (bw_source_window_start_ms b)) as [E1|N1];
  destruct (Z.eqb_spec (bw_source_window_end_ms a) (bw_source_window_end_ms b)) as [E2|N2];
    constructor; congruence.
Qed.

Lemma dedup_distinct l : List.NoDup (map range_of l) -> dedup_by same_window l = l.
Proof.
  destruct l as [|x l]; [done|]. intros Hnd. cbn. f_equal. revert x Hnd.
  induction l as [|y l IH]; intros x Hnd; [done|]. cbn.
  inversion Hnd as [|? ? Hni Hnd']; subst. destruct (same_window_spec y x) as [E|_].
  - exfalso. apply Hni. rewrite <- E. by left.
  - f_equal. by apply IH.
Qed.

(** The rollups none of whose windows is in an earlier one. *)
Fixpoint first_runs (seen : list (Z * Z)) (l : list Rollup) : list Rollup :=
  match l with
  | [] => []
  | o :: l =>
      if existsb (fun w => bool_decide (w ∈ seen)) (windows_of o) then first_runs seen l
      else o :: first_runs (seen ++ windows_of o) l
  end.

Definition merge_all (l : list Rollup) : option Rollup :=
  fold_left (fun acc o => Some (merge_symbol_universe_bootstrap_rollup acc o)) l None.

Definition sum_total (f : Stats -> Z) (symbol : string) (l : list Rollup) : Z :=
  fold_right (fun o acc => total f symbol (bo_symbols o) + acc) 0 l.

(** [e] is the merge of the rollups [runs]. *)
Record merged (day : Z) (e : Rollup) (runs : list Rollup) : Prop := {
  merged_day : bo_day_start_ms e = day;
  merged_schema : bo_schema_version e = ROLLUP_SCHEMA_VERSION;
  merged_windows : windows_of e ≡ₚ List.concat (map windows_of runs);
  merged_distinct : List.NoDup (windows_of e);
  merged_symbols : List.NoDup (map bs_symbol_canonical (bo_symbols e));
  merged_counts : forall f symbol, additive f ->
    wrap I64 (total f symbol (bo_symbols e)) = wrap I64 (sum_total f symbol runs);
}.

Lemma merged_first day o : run_rollup day o -> merged day o [o].
Proof.
  intros [Hd Hs [w Hw] Hn]. split; try done.
  - cbn. by rewrite List.app_nil_r.
  - unfold windows_of. rewrite Hw. cbn. repeat constructor; auto.
  - intros f symbol _. cbn. by rewrite Z.add_0_r.
Qed.

Lemma seen_spec (e o : Rollup) seen : windows_of e ≡ₚ seen ->
  existsb (fun window => existsb (fun seen => same_window seen window) (bo_source_windows e))
    (bo_source_windows o)
  = existsb (fun w => bool_decide (w ∈ seen)) (windows_of o).
Proof.
  intros Hp. unfold windows_of at 1. induction (bo_source_windows o) as [|w l IH]; cbn; [done|].
  rewrite IH. f_equal. apply eq_true_iff_eq. rewrite bool_decide_eq_true, <- Hp, existsb_exists.
  unfold windows_of. rewrite list_elem_of_In, in_map_iff.
  split; intros (x & Hx & Hs); exists x.
  - destruct (same_window_spec x w); done.
  - split; [done|]. by destruct (same_window_spec x w).
Qed.

Lemma sum_total_app f symbol l l' :
  sum_total f symbol (l ++ l') = sum_total f symbol l + sum_total f symbol l'.
Proof. unfold sum_total. induction l; cbn; lia. Qed.

Lemma merged_step day e runs o : merged day e runs -> run_rollup day o ->
  merged day (merge_symbol_universe_bootstrap_rollup (Some e) o)
    (if existsb (fun w => bool_decide (w ∈ List.concat (map windows_of runs))) (windows_of o)
     then runs else runs ++ [o]).
Proof.
  intros He Ho. destruct He as [Hd Hs Hw Hn Hnd Hc]. destruct Ho as [Hd' Hs' [w Ew] Hn'].
  unfold merge_symbol_universe_bootstrap_rollup.
  rewrite Hd, Hd', Hs, Z.eqb_refl, String.eqb_refl. cbn [negb orb].
  rewrite (seen_spec e o _ Hw). destruct (existsb _ _) eqn:Eseen; [by split|].
  destruct (merge_symbols_spec (bo_symbols e) (bo_symbols o) Hnd) as [Hnd2 Hc2].
  assert (Hp : map range_of (sort_by (key_leb window_order) (bo_source_windows e ++ bo_source_windows o))
    ≡ₚ (windows_of e ++ windows_of o)%list).
  { rewrite (Permutation_map range_of (sort_by_perm _ _)). by rewrite map_app. }
  assert (Hfresh : List.NoDup (windows_of e ++ windows_of o)).
  { apply NoDup_ListNoDup, NoDup_app. split_and!; [by apply NoDup_ListNoDup| |].
    - intros x Hx Hxo. rewrite Hw in Hx. apply not_true_iff_false in Eseen. apply Eseen.
      apply existsb_exists. exists x. split; [by apply list_elem_of_In|by apply bool_decide_eq_true].
    - unfold windows_of. rewrite Ew. apply NoDup_singleton. }
  assert (Hdd : dedup_by same_window (sort_by (key_leb window_order)
      (bo_source_windows e ++ bo_source_windows o))
    = sort_by (key_leb window_order) (bo_source_windows e ++ bo_source_windows o)).
  { apply dedup_distinct. eapply Permutation_NoDup; [symmetry; exact Hp|done]. }
  rewrite Hdd. split; cbn [bo_day_start_ms bo_schema_version bo_symbols]; try done.
  - unfold windows_of at 1. cbn [bo_source_windows]. rewrite Hp, Hw, map_app, List.concat_app. cbn.
    by rewrite List.app_nil_r.
  - unfold windows_of at 1. cbn [bo_source_windows]. eapply Permutation_NoDup; [symmetry; exact Hp|done].
  - intros f symbol Hf. rewrite (Hc2 f symbol Hf), sum_total_app. cbn [sum_total fold_right].
    rewrite (wrap_add _ _ _ (Hc f symbol Hf)). f_equal. lia.
Qed.

Lemma merged_all day l e runs : merged day e runs -> Forall (run_rollup day) l ->
  exists e', fold_left (fun acc o => Some (merge_symbol_universe_bootstrap_rollup acc o)) l (Some e)
    = Some e' /\ merged day e' (runs ++ first_runs (List.concat (map windows_of runs)) l).
Proof.
  revert e runs. induction l as [|o l IH]; intros e runs He Hl; cbn [fold_left first_runs].
  { exists e. by rewrite List.app_nil_r. }
  inversion Hl as [|? ? Ho Hl']; subst. pose proof (merged_step day e runs o He Ho) as Hstep.
  destruct (existsb _ _).
  - by apply IH.
  - destruct (IH _ _ Hstep Hl') as (e' & Hf & Hm). exists e'. split; [done|].
    rewrite map_app, List.concat_app in Hm. cbn in Hm. rewrite List.app_nil_r in Hm.
    by rewrite <- List.app_assoc in Hm.
Qed.
End rollups.

(** C36: storing the rollups of successive runs of one day counts each source window once,
    whatever runs are repeated.  The stored rollup covers exactly the windows of the runs, no
    window twice, has one entry for a symbol, and its gap and window counts are the sums over
    the first run of each window. *)
Theorem rollup_merges_count_each_window_once {L : StorageLib} {F : Type} {FO : Float F}
    {FM : FloatMath F} (day : Z) (o : SymbolUniverseBootstrapRollup (F := F))
    (l : list (SymbolUniverseBootstrapRollup (F := F)))
    (Hruns : Forall (run_rollup day) (o :: l)) :
  exists e, merge_all (o :: l) = Some e /\
    let runs := o :: first_runs (windows_of o) l in
    windows_of e ≡ₚ List.concat (map windows_of runs) /\ List.NoDup (windows_of e) /\
    List.NoDup (map bs_symbol_canonical (bo_symbols e)) /\
    forall symbol,
      wrap I64 (total bs_gap_count symbol (bo_symbols e)) = wrap I64 (sum_total bs_gap_count symbol runs) /\
      wrap I64 (total bs_window_count symbol (bo_symbols e))
      = wrap I64 (sum_total bs_window_count symbol runs).
Proof.
  inversion Hruns as [|? ? Ho Hl]; subst.
  destruct (merged_all day l o [o] (merged_first day o Ho) Hl) as (e & He & Hm).
  exists e. split; [exact He|]. cbn [map List.concat app] in Hm. rewrite List.app_nil_r in Hm.
  destruct Hm as [_ _ Hw Hn Hs Hc]. split_and!; [done..|].
  intros symbol. split; apply Hc; by intros s e'.
Qed.

(** C37: the rollups a run builds have distinct days, one source window (the run's), and one
    entry for each symbol that has a slice on that day, in the order of the symbols. *)
Theorem built_rollups_well_formed {L : StorageLib} {F : Type} {FO : Float F} {FM : FloatMath F}
    (l1_run_id : string) (r : InputRange) (generated_at_ms : Z) (slices : list (SliceRow (F := F))) :
  let rollups := build_symbol_universe_bootstrap_rollups l1_run_id r generated_at_ms slices in
  List.NoDup (map bo_day_start_ms rollups) /\
  (forall o, In o rollups -> run_rollup (bo_day_start_ms o) o /\
     windows_of o = [(ir_start_ms r, ir_end_ms r)] /\
     StronglySorted (fun a b => symbol_stats_leb a b = true) (bo_symbols o)) /\
  (forall day symbol,
     (exists o s, In o rollups /\ bo_day_start_ms o = day /\ In s (bo_symbols o) /\
        bs_symbol_canonical s = symbol)
     <-> exists row, In row slices /\ day_symbol row = (day, symbol)).
Proof.
  cbn zeta. split_and!.
  - unfold build_symbol_universe_bootstrap_rollups. rewrite map_map.
    erewrite map_ext; [apply NoDup_ListNoDup, (bkeys_NoDup (by_day slices)), push_all_ok|].
    by intros [d symbols].
  - intros o Ho. split; [by eapply built_rollup|].
    destruct (rollup_in _ _ _ _ _ Ho) as (_ & Hw & symbols & _ & Hs). split.
    + unfold windows_of. by rewrite Hw.
    + rewrite Hs. apply sort_by_sorted; [intros a b; apply str_leb_total|intros a b c; apply str_leb_trans].
  - intros day symbol. split.
    + intros (o & s & Ho & <- & Hs & <-).
      destruct (rollup_in _ _ _ _ _ Ho) as (_ & _ & symbols & Hg & Hsy). rewrite Hsy in Hs.
      apply list_elem_of_In in Hs. rewrite sort_by_perm in Hs. apply list_elem_of_In in Hs.
      destruct (day_symbol_entry _ _ _ _ Hg Hs) as (a & Ha & _).
      destruct (by_day_symbol_get _ _ _ Ha) as (row & g & Hw & _). exists row.
      apply with_key_In. rewrite Hw. by left.
    + intros (row & Hin & Hq).
      destruct (bget (day, symbol) (by_day_symbol slices)) as [a|] eqn:Ha.
      * destruct (by_day_symbol_get _ _ _ Ha) as (_ & _ & _ & Hc & _).
        apply bget_entries in Ha; [|apply by_day_symbol_ok]. apply list_elem_of_In in Ha.
        destruct (bget day (by_day slices)) as [symbols|] eqn:Hd.
        -- pose proof (day_symbols _ _ _ Hd) as Hsy.
           apply bget_entries in Hd; [|apply push_all_ok]. apply list_elem_of_In in Hd.
           eexists _, (into_symbol_stats a). split; [apply in_map_iff; by exists (day, symbols)|].
           split_and!; [done| |done]. cbn [bo_symbols]. apply list_elem_of_In. rewrite sort_by_perm.
           apply list_elem_of_In. rewrite Hsy. apply in_map_iff. exists ((day, symbol), a).
           split; [done|]. apply filter_In. split; [done|]. apply key_eqb_refl.
        -- exfalso. unfold by_day in Hd. rewrite bget_push_all in Hd. unfold some_list in Hd.
           assert (Hin2 : In (into_symbol_stats a) (map (fun e => into_symbol_stats e.2)
             (List.filter (fun e => key_eqb day (fst e.1)) (by_day_symbol slices)))).
           { apply in_map_iff. exists ((day, symbol), a). split; [done|]. apply filter_In.
             split; [done|]. apply key_eqb_refl. }
           by destruct (map _ _).
      * exfalso. change (by_day_symbol slices)
          with (bfold day_symbol (fun row => run_symbol_new (sl_symbol_canonical row)) observe_slice slices) in Ha.
        rewrite bget_bfold in Ha. assert (Hw : In row (with_key day_symbol (day, symbol) slices))
          by (by apply with_key_In). by destruct (with_key _ _ _).
Qed.

(** ** Native symbols in the snapshot *)

Section snapshot_natives.
Context {L : StorageLib} {F : Type} {FO : Float F} {FM : FloatMath F}.
Abbreviation SliceRow := (SliceRow (F := F)).
Abbreviation Stats := (SymbolStats (F := F)).

(** Both symbols of [s] are [n]. *)
Definition natives (n : string) (s : Stats) : Prop :=
  st_execution_symbol_native s = Some n /\ st_reference_symbol_native s = Some n.

Definition stats_step (row : SliceRow) (s : Stats) : Stats :=
  add_observed (traded_notional row) (observe_native_symbol row s).

Lemma find_eqb {A} (f : A -> string) q l :
  List.find (fun y => key_eqb q (f y)) l = List.find (fun y => String.eqb q (f y)) l.
Proof.
  induction l as [|y l IH]; cbn [List.find]; [done|]. rewrite IH.
  destruct (key_eqb_spec q (f y)), (String.eqb_spec q (f y)); done.
Qed.

Lemma stats_step_natives row n s : natives n s -> natives n (stats_step row s).
Proof.
  intros [He Hr]. unfold natives, stats_step, observe_native_symbol. by rewrite He, Hr, assign_later.
Qed.

Lemma stats_first_natives row : natives (sl_symbol_native row) (stats_step row (stats_from_slice row)).
Proof. unfold natives, stats_step, observe_native_symbol, stats_from_slice.
  cbn [st_execution_symbol_native st_reference_symbol_native]. by rewrite assign_first. Qed.

Lemma settle_get daily spreads gaps p (stats : btree string Stats) q :
  bget q (settle_all daily spreads gaps p stats)
  = settle_stats daily spreads gaps p q <$> bget q stats.
Proof.
  unfold settle_all. induction stats as [|[k s] m IH]; cbn; [done|].
  destruct (kcmp q k) eqn:E; [apply sk_eq in E as ->; done|done|done].
Qed.

Lemma settle_ok daily spreads gaps p (stats : btree string Stats) :
  bmap_ok (fun _ => True) stats -> bmap_ok (fun _ => True) (settle_all daily spreads gaps p stats).
Proof.
  unfold settle_all. induction stats as [|[k s] m IH]; intros Hm; [apply bmap_ok_nil|].
  apply (bmap_ok_cons (fun _ => True)) in Hm as (_ & Hm & Hlt).
  apply (bmap_ok_cons (fun _ => True)). split_and!; [done|by apply IH|].
  apply List.Forall_forall. intros [x w] Hin. apply in_map_iff in Hin as ([x' v'] & [= <- <-] & Hin).
  rewrite List.Forall_forall in Hlt. apply (Hlt _ Hin).
Qed.

Definition slice_stats (slices : list SliceRow) : btree string Stats :=
  bfold sl_symbol_canonical stats_from_slice stats_step slices.

Lemma symbol_stats_settled (slices : list SliceRow) : exists daily spreads gaps p,
  symbol_stats slices = settle_all daily spreads gaps p (slice_stats slices).
Proof. do 4 eexists. reflexivity. Qed.

Lemma symbol_stats_natives (slices : list SliceRow) row q :
  List.find (fun y => key_eqb q (sl_symbol_canonical y)) slices = Some row ->
  exists s, bget q (symbol_stats slices) = Some s /\ natives (sl_symbol_native row) s.
Proof.
  intros Hf. destruct (symbol_stats_settled slices) as (d & sp & gp & p & ->).
  rewrite settle_get. unfold slice_stats. rewrite bget_bfold. unfold with_key.
  assert (Hw : exists g, List.filter (fun y => key_eqb q (sl_symbol_canonical y)) slices = row :: g).
  { revert Hf. induction slices as [|y l IH]; cbn; [done|].
    destruct (key_eqb q (sl_symbol_canonical y)); [|done]. intros [= ->]. eauto. }
  destruct Hw as [g ->]. cbn [fold_left]. eexists. split; [reflexivity|].
  pose proof (stats_first_natives row) as Hn. revert Hn.
  generalize (stats_step row (stats_from_slice row)) as s. clear.
  induction g as [|y g IH]; cbn [fold_left]; intros s Hn; [done|].
  apply IH. by apply stats_step_natives.
Qed.

(** A snapshot keeps the symbols of a statistic that already has both. *)
Definition keeps_natives (stats stats' : btree string Stats) : Prop :=
  bmap_ok (fun _ => True) stats' /\
  forall q n s, bget q stats = Some s -> natives n s ->
    exists s', bget q stats' = Some s' /\ natives n s'.

Lemma ensure_keeps symbol (stats : btree string Stats) : bmap_ok (fun _ => True) stats ->
  keeps_natives stats (ensure_bootstrap_symbol_stats symbol stats).
Proof.
  intros Hok. unfold ensure_bootstrap_symbol_stats.
  split; [by apply (bupdate_ok (fun _ => True))|]. intros q n s Hq Hn.
  rewrite bget_update_strict by done. destruct (key_eqb_spec q (bs_symbol_canonical symbol)) as [->|_];
    [|eauto]. rewrite Hq. eexists. split; [reflexivity|]. destruct Hn as [He Hr]. cbn. by rewrite He, Hr.
Qed.

Lemma keeps_natives_trans a b d : keeps_natives a b -> keeps_natives b d -> keeps_natives a d.
Proof.
  intros [_ Hab] [Hd Hbd]. split; [done|]. intros q n s Hq Hn.
  destruct (Hab q n s Hq Hn) as (s' & Hq' & Hn'). eauto.
Qed.

Lemma record_keeps (b : Bootstrapped (F := F)) rollup : bmap_ok (fun _ => True) (bd_stats b) ->
  keeps_natives (bd_stats b) (bd_stats (record_bootstrap_rollup b rollup)).
Proof.
  unfold record_bootstrap_rollup. revert b. induction (bo_symbols rollup) as [|s l IH]; intros b Hok.
  { split; [done|eauto]. }
  cbn [fold_left]. pose proof (ensure_keeps s (bd_stats b) Hok) as Hk.
  eapply keeps_natives_trans; [exact Hk|]. by apply (IH (record_symbol (bo_day_start_ms rollup) b s)), Hk.
Qed.

Lemma records_keep rollups (b : Bootstrapped (F := F)) : bmap_ok (fun _ => True) (bd_stats b) ->
  keeps_natives (bd_stats b) (bd_stats (fold_left record_bootstrap_rollup rollups b)).
Proof.
  revert b. induction rollups as [|o l IH]; intros b Hok; [split; [done|eauto]|].
  cbn [fold_left]. pose proof (record_keeps b o Hok) as Hk.
  eapply keeps_natives_trans; [exact Hk|]. by apply IH, Hk.
Qed.

Lemma symbol_stats_ok (slices : list SliceRow) : bmap_ok (fun _ => True) (symbol_stats slices).
Proof.
  destruct (symbol_stats_settled slices) as (d & sp & gp & p & ->).
  apply settle_ok. apply (bfold_ok sl_symbol_canonical stats_from_slice stats_step).
Qed.

Lemma bootstrap_stats_ok r (slices : list SliceRow) rollups :
  bmap_ok (fun _ => True) (symbol_stats_from_bootstrap r slices rollups).
Proof. unfold symbol_stats_from_bootstrap. apply settle_ok, records_keep, symbol_stats_ok. Qed.

Lemma bootstrap_natives r (slices : list SliceRow) rollups row q :
  List.find (fun y => key_eqb q (sl_symbol_canonical y)) slices = Some row ->
  exists s, bget q (symbol_stats_from_bootstrap r slices rollups) = Some s /\
    natives (sl_symbol_native row) s.
Proof.
  intros Hf. destruct (symbol_stats_natives _ _ _ Hf) as (s & Hs & Hn).
  unfold symbol_stats_from_bootstrap, finalize_bootstrap_stats. rewrite settle_get.
  destruct (records_keep (List.filter (fun rollup =>
     String.eqb (bo_schema_version rollup) ROLLUP_SCHEMA_VERSION
     && (day_start_ms (saturate I64 (saturate I64 (ir_end_ms r - 1)
           - (BOOTSTRAP_ROLLUP_DAYS - 1) * ONE_DAY_MS)) <=? bo_day_start_ms rollup)
     && (bo_day_start_ms rollup <=? day_start_ms (saturate I64 (ir_end_ms r - 1)))) rollups)
     (mkBootstrapped (symbol_stats slices) [] [] []) (symbol_stats_ok slices)) as [_ Hk].
  destruct (Hk q _ s Hs Hn) as (s' & Hs' & Hn'). rewrite Hs'. eexists. split; [reflexivity|done].
Qed.

(** *** The symbols of the statistics *)

Definition stats_keyed (m : btree string Stats) : Prop :=
  bmap_ok (fun _ => True) m /\ forall q s, bget q m = Some s -> st_symbol_canonical s = q.

Lemma settle_keyed daily spreads gaps p m : stats_keyed m -> stats_keyed (settle_all daily spreads gaps p m).
Proof.
  intros [Hok Hk]. split; [by apply settle_ok|]. intros q s. rewrite settle_get.
  destruct (bget q m) as [s'|] eqn:E; [|done]. intros [= <-]. cbn. by apply Hk.
Qed.

Lemma slice_stats_keyed (slices : list SliceRow) : stats_keyed (slice_stats slices).
Proof.
  split; [apply bfold_ok|]. intros q s. unfold slice_stats. rewrite bget_bfold.
  destruct (with_key _ _ _) as [|x g] eqn:E; [done|]. intros [= <-].
  assert (Hx : sl_symbol_canonical x = q).
  { apply (with_key_In sl_symbol_canonical q slices x). rewrite E. by left. }
  assert (Hg : forall l (s : Stats), st_symbol_canonical s = q ->
    st_symbol_canonical (fold_left (fun v y => stats_step y v) l s) = q).
  { induction l as [|y l IH]; cbn [fold_left]; intros s Hs; [done|]. apply IH.
    unfold stats_step, observe_native_symbol. by destruct (assign_native_symbols _ _ _). }
  by apply (Hg (x :: g)).
Qed.

Lemma ensure_keyed symbol m : stats_keyed m -> stats_keyed (ensure_bootstrap_symbol_stats symbol m).
Proof.
  intros [Hok Hk]. unfold ensure_bootstrap_symbol_stats. split; [by apply (bupdate_ok (fun _ => True))|].
  intros q s. rewrite bget_update_strict by done.
  destruct (key_eqb_spec q (bs_symbol_canonical symbol)) as [->|_]; [|apply Hk].
  intros [= <-]. cbn. destruct (bget _ m) as [s|] eqn:E; [by apply Hk|done].
Qed.

Lemma ensure_stats_keys symbol m q : stats_keyed m ->
  is_Some (bget q (ensure_bootstrap_symbol_stats symbol m))
  <-> is_Some (bget q m) \/ q = bs_symbol_canonical symbol.
Proof.
  intros [Hok _]. unfold ensure_bootstrap_symbol_stats. rewrite bget_update_strict by done.
  destruct (key_eqb_spec q (bs_symbol_canonical symbol)) as [->|Hne]; [|tauto].
  split; [by right|by eexists].
Qed.

Lemma record_keyed (b : Bootstrapped (F := F)) o : stats_keyed (bd_stats b) ->
  stats_keyed (bd_stats (record_bootstrap_rollup b o)) /\
  forall q, is_Some (bget q (bd_stats (record_bootstrap_rollup b o)))
    <-> is_Some (bget q (bd_stats b)) \/ In q (map bs_symbol_canonical (bo_symbols o)).
Proof.
  unfold record_bootstrap_rollup. revert b.
  induction (bo_symbols o) as [|s l IH]; cbn [fold_left map In]; intros b Hk; [split; [done|tauto]|].
  pose proof (ensure_keyed s _ Hk) as Hk'.
  destruct (IH (record_symbol (bo_day_start_ms o) b s) Hk') as [Hkf Hq]. split; [done|]. intros q.
  rewrite Hq. cbn [record_symbol bd_stats]. rewrite (ensure_stats_keys s _ q Hk). naive_solver.
Qed.

Lemma records_keyed l (b : Bootstrapped (F := F)) : stats_keyed (bd_stats b) ->
  stats_keyed (bd_stats (fold_left record_bootstrap_rollup l b)) /\
  forall q, is_Some (bget q (bd_stats (fold_left record_bootstrap_rollup l b)))
    <-> is_Some (bget q (bd_stats b)) \/
        exists o, In o l /\ In q (map bs_symbol_canonical (bo_symbols o)).
Proof.
  revert b. induction l as [|o l IH]; intros b Hk; cbn [fold_left]; [split; [done|naive_solver]|].
  destruct (record_keyed b o Hk) as [Hk1 Hq1]. destruct (IH _ Hk1) as [Hk2 Hq2]. split; [done|].
  intros q. rewrite Hq2, Hq1. naive_solver.
Qed.

(** The rollups of the thirty days up to the end of the range. *)
Definition counted_rollup (r : InputRange) (o : SymbolUniverseBootstrapRollup (F := F)) : bool :=
  String.eqb (bo_schema_version o) ROLLUP_SCHEMA_VERSION
  && (day_start_ms (saturate I64 (saturate I64 (ir_end_ms r - 1)
        - (BOOTSTRAP_ROLLUP_DAYS - 1) * ONE_DAY_MS)) <=? bo_day_start_ms o)
  && (bo_day_start_ms o <=? day_start_ms (saturate I64 (ir_end_ms r - 1))).

(** A symbol with a slice in the run or an entry in a counted rollup. *)
Definition known_symbol (r : InputRange) (slices : list SliceRow)
    (rollups : list (SymbolUniverseBootstrapRollup (F := F))) (q : string) : Prop :=
  In q (map sl_symbol_canonical slices) \/
  exists o, In o rollups /\ counted_rollup r o = true /\
    In q (map bs_symbol_canonical (bo_symbols o)).

Lemma slice_stats_keys (slices : list SliceRow) q :
  is_Some (bget q (slice_stats slices)) <-> In q (map sl_symbol_canonical slices).
Proof.
  unfold slice_stats. rewrite bget_bfold, in_map_iff.
  destruct (with_key _ _ _) as [|x g] eqn:E.
  - split; [by intros [? ?]|]. intros (y & Hy & Hin).
    assert (Hw : In y (with_key sl_symbol_canonical q slices)) by by apply with_key_In.
    by rewrite E in Hw.
  - split; [|by eexists]. intros _. exists x.
    destruct (proj1 (with_key_In sl_symbol_canonical q slices x)); [rewrite E; by left|done].
Qed.

Lemma bootstrap_stats_spec r (slices : list SliceRow) rollups :
  stats_keyed (symbol_stats_from_bootstrap r slices rollups) /\
  forall q, is_Some (bget q (symbol_stats_from_bootstrap r slices rollups))
    <-> known_symbol r slices rollups q.
Proof.
  unfold symbol_stats_from_bootstrap, finalize_bootstrap_stats.
  fold (counted_rollup r). destruct (symbol_stats_settled slices) as (d & sp & gp & p & Es).
  assert (Hk : stats_keyed (symbol_stats slices)) by (rewrite Es; apply settle_keyed, slice_stats_keyed).
  destruct (records_keyed (List.filter (counted_rollup r) rollups)
    (mkBootstrapped (symbol_stats slices) [] [] []) Hk) as [Hk' Hq].
  split; [by apply settle_keyed|]. intros q. rewrite settle_get, fmap_is_Some, Hq. cbn [bd_stats].
  rewrite Es, settle_get, fmap_is_Some, slice_stats_keys. unfold known_symbol.
  split; intros [?|(o & Ho & Hs)]; auto; right; exists o.
  - apply filter_In in Ho as [? ?]. auto.
  - destruct Hs as [? ?]. split; [|done]. by apply filter_In.
Qed.

(** ** Ranks and admission *)

Lemma ranked_symbols (m : btree string Stats) : stats_keyed m -> NoDup (map fst (ranked m)).
Proof.
  intros [Hok Hk]. unfold ranked. rewrite (Permutation_map fst (sort_by_perm _ _)).
  assert (Hnd : NoDup (map st_symbol_canonical (bvalues m))).
  { change (bvalues m) with (map snd m). rewrite map_map. rewrite (map_ext_in _ fst).
    - by apply (bkeys_NoDup m).
    - intros [q s] Hin. apply list_elem_of_In, bget_entries in Hin; [|done]. by apply Hk. }
  induction (bvalues m) as [|s l IH]; [constructor|].
  cbn [map] in Hnd. apply NoDup_cons in Hnd as [Hni Hnd]. specialize (IH Hnd).
  cbn [omap list_omap]. destruct (st_median_traded_notional s) as [n|]; [|done]. cbn.
  destruct (negb _); [done|]. cbn [map]. apply NoDup_cons. split; [|done]. cbn.
  intros Hin. apply Hni. apply list_elem_of_In, in_map_iff in Hin as ([q x] & <- & Hin).
  apply list_elem_of_In, list_elem_of_omap in Hin as (s' & Hs' & E).
  apply list_elem_of_In, in_map_iff. exists s'. split; [|by apply list_elem_of_In].
  destruct (st_median_traded_notional s'); [|done]. cbn in E. destruct (negb _); [done|].
  by injection E.
Qed.

Definition rank_map (m : btree string Stats) : btree string Z :=
  bcollect (map (fun rank => (lr_symbol_canonical rank, lr_liquidity_rank_at_that_time rank))
              (liquidity_ranks m)).

Lemma rank_map_get (m : btree string Stats) q n : bget q (rank_map m) = Some n ->
  exists i x, ranked m !! i = Some (q, x) /\ n = Z.min (Z.of_nat i + 1) (int_max I64).
Proof.
  intros Hg. apply bget_collect_elem in Hg. apply list_elem_of_In, in_map_iff in Hg as (rk & [= <- <-] & Hin).
  unfold liquidity_ranks in Hin. apply list_elem_of_In, elem_of_lookup_imap in Hin as (i & [s x] & -> & Hl).
  exists i, x. done.
Qed.

Lemma status_approved (s : Stats) rank approved :
  universe_status_reason s rank approved = "approved"%string <-> approved = true.
Proof.
  unfold universe_status_reason. destruct approved; [done|]. split; [|done].
  destruct (_ <? _); [done|]. destruct (negb _); [done|]. destruct (negb _); [done|].
  destruct (st_median_spread_bps s); [|done]. destruct (f_ltb _ _); [done|]. by destruct (negb _).
Qed.

Lemma filter_partition {A} (p : A -> bool) l :
  (List.filter p l ++ List.filter (fun x => negb (p x)) l)%list ≡ₚ l.
Proof.
  induction l as [|x l IH]; cbn; [done|]. destruct (p x); cbn; [by rewrite IH|].
  rewrite <- Permutation_middle. by rewrite IH.
Qed.

Section snapshot.
Context (l1_run_id : string) (r : InputRange) (at_ms : Z) (slices : list SliceRow).
Context (rollups : list (SymbolUniverseBootstrapRollup (F := F))).

Abbreviation stats := (symbol_stats_from_bootstrap r slices rollups).
Abbreviation snapshot :=
  (build_symbol_universe_snapshot_from_bootstrap l1_run_id r at_ms slices rollups).

Lemma snapshot_members :
  (us_included_symbols snapshot ++ us_excluded_symbols snapshot)%list
  ≡ₚ map (member_of (rank_map stats)) (bvalues stats).
Proof.
  unfold build_symbol_universe_snapshot_from_bootstrap. cbn [us_included_symbols us_excluded_symbols].
  rewrite !sort_by_perm. apply filter_partition.
Qed.

Lemma member_stats m :
  In m (us_included_symbols snapshot ++ us_excluded_symbols snapshot) ->
  exists s, bget (um_symbol_canonical m) stats = Some s /\ m = member_of (rank_map stats) s.
Proof.
  intros Hm. apply list_elem_of_In in Hm. rewrite snapshot_members in Hm.
  apply list_elem_of_In, in_map_iff in Hm as (s & <- & Hs).
  destruct (bootstrap_stats_spec r slices rollups) as [[Hok Hk] _].
  apply in_map_iff in Hs as ([q s'] & <- & Hin). apply list_elem_of_In, bget_entries in Hin; [|done].
  exists s'. split; [|done]. cbn. by rewrite (Hk _ _ Hin).
Qed.

Lemma snapshot_symbols :
  map um_symbol_canonical (us_included_symbols snapshot ++ us_excluded_symbols snapshot)
  ≡ₚ bkeys stats.
Proof.
  rewrite (Permutation_map um_symbol_canonical snapshot_members), map_map.
  destruct (bootstrap_stats_spec r slices rollups) as [[Hok Hk] _].
  change (bvalues stats) with (map snd stats). rewrite map_map.
  rewrite (map_ext_in _ fst); [done|]. intros [q s] Hin.
  apply list_elem_of_In, bget_entries in Hin; [|done]. by apply Hk.
Qed.

Lemma snapshot_approved m :
  In m (us_included_symbols snapshot ++ us_excluded_symbols snapshot) ->
  (In m (us_included_symbols snapshot) <-> um_approved_universe_symbol m = true) /\
  (In m (us_excluded_symbols snapshot) <-> um_approved_universe_symbol m = false).
Proof.
  intros Hm. apply list_elem_of_In in Hm. rewrite snapshot_members in Hm. apply list_elem_of_In in Hm.
  unfold build_symbol_universe_snapshot_from_bootstrap. cbn [us_included_symbols us_excluded_symbols].
  rewrite <- !list_elem_of_In, !sort_by_perm,
    !list_elem_of_In, !filter_In, negb_true_iff.
  split; (split; [by intros [_ ?]|]); intros Ha; (split; [exact Hm|exact Ha]).
Qed.

(** An admitted symbol has one of the first fifty ranks. *)
Lemma included_ranked m : In m (us_included_symbols snapshot) ->
  exists s i x, bget (um_symbol_canonical m) stats = Some s /\ m = member_of (rank_map stats) s /\
    (i < 50)%nat /\ ranked stats !! i = Some (um_symbol_canonical m, x) /\
    um_liquidity_rank_at_that_time m = Some (Z.of_nat i + 1) /\
    MIN_BOOTSTRAP_DAYS <= um_bootstrap_days_available m /\
    some_and (fun n => f_ltb f_zero n) (um_median_traded_notional_30d m) = true /\
    some_and (fun n => f_leb n f_max_spread_bps) (um_median_spread_bps_30d m) = true /\
    some_and (fun n => f_leb n f_max_gap_rate) (um_gap_rate_30d m) = true.
Proof.
  intros Hm. assert (Hall : In m (us_included_symbols snapshot ++ us_excluded_symbols snapshot))
    by (apply in_app_iff; by left).
  destruct (member_stats m Hall) as (s & Hs & Em).
  apply (snapshot_approved m Hall) in Hm. pose proof Hm as Ha. rewrite Em in Ha.
  cbn [member_of um_approved_universe_symbol] in Ha. unfold is_approved_universe_symbol,
    is_fully_bootstrapped_universe_symbol, passes_universe_quality in Ha.
  apply andb_true_iff in Ha as [[Hd Hr]%andb_true_iff [[Hn Hsp]%andb_true_iff Hg]%andb_true_iff].
  destruct (bget (st_symbol_canonical s) (rank_map stats)) as [n|] eqn:Er; [|done].
  destruct (rank_map_get _ _ _ Er) as (i & x & Hl & ->). cbn [some_and] in Hr.
  apply Z.leb_le in Hr, Hd. unfold MAX_APPROVED_RANK, int_max in *.
  assert (Z.of_nat i + 1 <= 50) by lia.
  exists s, i, x. rewrite Em. cbn. rewrite Em in Hs. cbn in Hs. rewrite Er.
  split_and!; try done; [lia|]. f_equal. unfold int_max. lia.
Qed.

Lemma included_at_most_fifty : List.NoDup (map um_symbol_canonical (us_included_symbols snapshot)
    ++ map um_symbol_canonical (us_excluded_symbols snapshot)) ->
  zlen (us_included_symbols snapshot) <= MAX_APPROVED_RANK.
Proof.
  intros Hnd. assert (Hnd1 : List.NoDup (map um_symbol_canonical (us_included_symbols snapshot)))
    by (by eapply List.NoDup_app_remove_r).
  assert (Hle : (Datatypes.length (map um_symbol_canonical (us_included_symbols snapshot))
    <= Datatypes.length (take 50 (map fst (ranked stats))))%nat).
  { apply NoDup_incl_length; [done|]. intros q (m & <- & Hm)%in_map_iff.
    destruct (included_ranked m Hm) as (s & i & x & _ & _ & Hi & Hl & _).
    apply list_elem_of_In, list_elem_of_lookup. exists i. rewrite lookup_take_lt by done.
    by rewrite list_lookup_fmap, Hl. }
  rewrite length_map, length_take in Hle. unfold zlen, MAX_APPROVED_RANK. lia.
Qed.
End snapshot.
End snapshot_natives.

Definition members_of {F : Type} (s : SymbolUniverseSnapshot (F := F)) : list (SymbolUniverseMember (F := F)) :=
  (us_included_symbols s ++ us_excluded_symbols s)%list.

(** C38: for every symbol with a slice in the run, the snapshot reports the native symbol of
    its first slice both as the execution symbol and as the reference symbol, whatever the
    venues of its other slices.  The slices of a run are in the order of their venues, so
    a symbol traded on both venues is reported with its Binance symbol twice. *)
Theorem snapshot_natives_never_split {L : StorageLib} {F : Type} {FO : Float F} {FM : FloatMath F}
    (l1_run_id symbol : string) (r : InputRange) (at_ms : Z) (slices : list (SliceRow (F := F)))
    (rollups : list (SymbolUniverseBootstrapRollup (F := F))) (row : SliceRow (F := F))
    (member : SymbolUniverseMember (F := F))
    (Hfirst : List.find (fun y => String.eqb symbol (sl_symbol_canonical y)) slices = Some row)
    (Hmember : In member (members_of
       (build_symbol_universe_snapshot_from_bootstrap l1_run_id r at_ms slices rollups)))
    (Hsymbol : um_symbol_canonical member = symbol) :
  um_execution_symbol_native member = Some (sl_symbol_native row) /\
  um_reference_symbol_native member = Some (sl_symbol_native row).
Proof.
  destruct (member_stats l1_run_id r at_ms slices rollups member Hmember) as (s & Hs & Em).
  rewrite Hsymbol in Hs.
  destruct (bootstrap_natives r slices rollups row symbol) as (s' & Hs' & Hn).
  - rewrite <- Hfirst. apply find_eqb.
  - rewrite Hs in Hs'. injection Hs' as <-. rewrite Em. apply Hn.
Qed.

(** the snapshot holds each known symbol exactly once: those with a slice in the run and
    those with an entry in a rollup of the last thirty days.  The admitted ones are at most
    fifty; each has one of the first fifty ranks by traded notional, thirty days of data,
    a positive notional, and a spread and a gap rate within the limits.  The reason
    [approved] is given to the admitted ones and to no other. *)
Theorem universe_admits_by_policy {L : StorageLib} {F : Type} {FO : Float F} {FM : FloatMath F}
    (l1_run_id : string) (r : InputRange) (at_ms : Z) (slices : list (SliceRow (F := F)))
    (rollups : list (SymbolUniverseBootstrapRollup (F := F))) :
  let s := build_symbol_universe_snapshot_from_bootstrap l1_run_id r at_ms slices rollups in
  let members := (us_included_symbols s ++ us_excluded_symbols s)%list in
  List.NoDup (map um_symbol_canonical members) /\
  (forall q, In q (map um_symbol_canonical members) <-> known_symbol r slices rollups q) /\
  zlen (us_included_symbols s) <= MAX_APPROVED_RANK /\
  (forall m, In m (us_included_symbols s) ->
     exists i rank, us_liquidity_rank_at_that_time s !! i = Some rank /\
       Z.of_nat i + 1 <= MAX_APPROVED_RANK /\
       lr_symbol_canonical rank = um_symbol_canonical m /\
       um_liquidity_rank_at_that_time m = Some (Z.of_nat i + 1) /\
       MIN_BOOTSTRAP_DAYS <= um_bootstrap_days_available m /\
       some_and (fun n => f_ltb f_zero n) (um_median_traded_notional_30d m) = true /\
       some_and (fun n => f_leb n f_max_spread_bps) (um_median_spread_bps_30d m) = true /\
       some_and (fun n => f_leb n f_max_gap_rate) (um_gap_rate_30d m) = true) /\
  (forall m, In m members ->
     (um_status_reason m = "approved"%string <-> In m (us_included_symbols s))).
Proof.
  cbn zeta. pose proof (snapshot_symbols l1_run_id r at_ms slices rollups) as Hsym.
  destruct (bootstrap_stats_spec r slices rollups) as [Hkeyed Hknown].
  assert (Hnd : List.NoDup (map um_symbol_canonical
     (us_included_symbols (build_symbol_universe_snapshot_from_bootstrap l1_run_id r at_ms slices rollups) ++
      us_excluded_symbols (build_symbol_universe_snapshot_from_bootstrap l1_run_id r at_ms slices rollups)))).
  { eapply Permutation_NoDup; [symmetry; exact Hsym|]. apply NoDup_ListNoDup, bkeys_NoDup, Hkeyed. }
  split_and!; [done| | | |].
  - intros q. rewrite <- Hknown, bget_is_Some_keys by apply Hkeyed.
    by rewrite <- list_elem_of_In, Hsym.
  - apply included_at_most_fifty. by rewrite map_app in Hnd.
  - intros m Hm. destruct (included_ranked _ _ _ _ _ m Hm) as
      (s & i & x & Hs & Em & Hi & Hl & Hr & Hd & Hn & Hsp & Hg).
    exists i, (mkRank (um_symbol_canonical m) (Z.min (Z.of_nat i + 1) (int_max I64)) x).
    split_and!; try done; [|unfold MAX_APPROVED_RANK; lia].
    unfold build_symbol_universe_snapshot_from_bootstrap. cbn [us_liquidity_rank_at_that_time].
    unfold liquidity_ranks. by rewrite list_lookup_imap, Hl.
  - intros m Hm. destruct (member_stats _ _ _ _ _ m Hm) as (s & _ & Em).
    rewrite (proj1 (snapshot_approved _ _ _ _ _ m Hm)). rewrite Em at 1. cbn [member_of um_status_reason].
    rewrite status_approved. by rewrite Em.
Qed.

(** ** Witnesses *)

#[local] Existing Instance sample_lib.
#[local] Existing Instance sample_float.
#[local] Existing Instance sample_math.

(** A symbol on both venues, in the order of the slices of a run. *)
Definition two_venues : list (SliceRow (F := Z)) :=
  [sample_slice "binance" "BTCUSDT" "BTC" 3600000 100 5; sample_slice "upbit" "KRW-BTC" "BTC" 3600000 101 2].

Definition sample_rollup (run : string) (start : Z) : SymbolUniverseBootstrapRollup (F := Z) :=
  match build_symbol_universe_bootstrap_rollups run (mkRange start (start + 1000)) 9 two_venues with
  | o :: _ => o
  | [] => mkRollup "" "" "" 0 0 "" [] []
  end.

Definition sample_member : SymbolUniverseMember (F := Z) :=
  match us_excluded_symbols (build_symbol_universe_snapshot_from_bootstrap "run" (mkRange 3600000 3601000) 9
          two_venues [sample_rollup "run" 3600000]) with
  | m :: _ => m
  | [] => mkMember "" None None None false 0 None None None "" ""
  end.

Lemma snapshot_natives_never_split_witness :
  um_execution_symbol_native sample_member = Some "BTCUSDT"%string /\
  um_reference_symbol_native sample_member = Some "BTCUSDT"%string.
Proof.
  apply (snapshot_natives_never_split "run" "BTC" (mkRange 3600000 3601000) 9 two_venues
    [sample_rollup "run" 3600000] (sample_slice "binance" "BTCUSDT" "BTC" 3600000 100 5) sample_member).
  - reflexivity.
  - vm_compute. by left.
  - by vm_compute.
Defined.

(** The second run repeats the first one's window. *)
Lemma rollup_merges_count_each_window_once_witness :
  exists e, merge_all [sample_rollup "a" 0; sample_rollup "b" 0; sample_rollup "c" 1000] = Some e /\
    let runs := sample_rollup "a" 0 :: first_runs (windows_of (sample_rollup "a" 0))
                  [sample_rollup "b" 0; sample_rollup "c" 1000] in
    windows_of e ≡ₚ List.concat (map windows_of runs) /\ List.NoDup (windows_of e) /\
    List.NoDup (map bs_symbol_canonical (bo_symbols e)) /\
    forall symbol,
      wrap I64 (total bs_gap_count symbol (bo_symbols e)) = wrap I64 (sum_total bs_gap_count symbol runs) /\
      wrap I64 (total bs_window_count symbol (bo_symbols e))
      = wrap I64 (sum_total bs_window_count symbol runs).
Proof.
  apply (rollup_merges_count_each_window_once 0).
  repeat constructor; try (by vm_compute); try (by eexists; vm_compute); vm_compute; tauto.
Defined.

(** Two slices in each of the two distinct windows. *)
Example merged_windows_counted :
  (fun e => map bs_window_count (bo_symbols e)) <$>
    merge_all [sample_rollup "a" 0; sample_rollup "b" 0; sample_rollup "c" 1000] = Some [4].
Proof. vm_compute. reflexivity. Qed.
