(* ===== verification/Admissible.v ===== *)
(** * Admissible: what a reader of L1 accepts

    [normalize/admissibility], [normalize/l1_reader] and the report types of
    [normalize/model/report]: the index pointer, the manifest and the report of a run,
    and the checks a reader makes before it uses a run's objects. *)
From S2P Require Import Prelude Effects Text Records NormalizeArgs L1Window L1Build S3Client.
Open Scope Z_scope.

(* rust: src/normalize/model/constants.rs REPORT_SCHEMA_VERSION *)
Definition REPORT_SCHEMA_VERSION : string := "normalization_report_v1".
(* rust: src/normalize/model/constants.rs MANIFEST_SCHEMA_VERSION *)
Definition MANIFEST_SCHEMA_VERSION : string := "l1_manifest_v1".
(* rust: src/normalize/admissibility/types.rs POINTER_SCHEMA_VERSION *)
Definition POINTER_SCHEMA_VERSION : string := "l1_index_pointer_v1".

(** The keys of the projections of a run, in the manifest and in the report alike. *)
Record ProjectionKeys := mkProjectionKeys {
  pk_market_data_quality_summary_key : option string;
  pk_market_feature_delta_key : option string;
  pk_market_feature_delta_summary_key : option string;
  pk_market_regime_context_key : option string;
  pk_symbol_universe_snapshot_key : option string;
  pk_symbol_universe_bootstrap_rollup_key : option string;
}.

#[export] Instance ProjectionKeys_eq_dec : EqDecision ProjectionKeys.
Proof. solve_decision. Defined.

(* rust: src/normalize/model/report.rs L1Manifest *)
Record L1Manifest := mkManifest {
  mf_schema_version : string;
  mf_l1_run_id : string;
  mf_status : string;
  mf_input_time_range_start_ms : Z;
  mf_input_time_range_end_ms : Z;
  mf_schema_version_emitted : string;
  mf_report_key : string;
  mf_output_object_keys : list string;
  mf_projections : ProjectionKeys;
  mf_output_record_count : Z;
  mf_slice_count_total : Z;
  mf_finished_at_ms : Z;
}.

(* rust: src/normalize/model/report.rs NormalizationReport *)
Record NormalizationReport := mkReport {
  rp_schema_version : string;
  rp_l1_run_id : string;
  rp_input_time_range_start_ms : Z;
  rp_input_time_range_end_ms : Z;
  rp_run_mode : string;
  rp_fallback_alert : bool;
  rp_input_schema_versions : list string;
  rp_input_local_object_count : Z;
  rp_input_s3_object_count : Z;
  rp_input_object_keys : list string;
  rp_input_record_count : Z;
  rp_duplicate_event_count : Z;
  rp_invalid_event_count : Z;
  rp_payload_hash_mismatch_count : Z;
  rp_slice_count_total : Z;
  rp_slice_count_complete : Z;
  rp_slice_count_partial : Z;
  rp_slice_count_incomplete : Z;
  rp_slice_count_reference_only : Z;
  rp_output_object_keys : list string;
  rp_projections : ProjectionKeys;
  rp_status : string;
  rp_failure_reason : option string;
  rp_manifest_key : string;
  rp_started_at_ms : Z;
  rp_finished_at_ms : Z;
  rp_runner_git_sha : string;
  rp_runner_git_dirty : bool;
  rp_runner_build_profile : string;
  rp_schema_version_emitted : string;
}.

(* rust: src/normalize/admissibility/types.rs L1IndexPointer *)
Record L1IndexPointer := mkPointer {
  ip_schema_version : string;
  ip_canonical_manifest_key : string;
  ip_l1_run_id : string;
  ip_status : string;
  ip_finished_at_ms : Z;
  ip_input_time_range_start_ms : Z;
  ip_input_time_range_end_ms : Z;
  ip_indexed_window_start_ms : option Z;
  ip_indexed_window_end_ms : option Z;
  ip_schema_version_emitted : string;
}.

(* rust: src/normalize/admissibility/types.rs L1ReadRequest *)
Record L1ReadRequest := mkRequest {
  rq_input_range : InputRange; rq_schema_version_emitted : string }.

(* rust: src/normalize/admissibility/types.rs L1ReadRequest::normalized_market_slice *)
Definition normalized_market_slice (input_range : InputRange) : L1ReadRequest :=
  mkRequest input_range SLICE_SCHEMA_VERSION.

(* rust: src/normalize/admissibility/types.rs L1ReadPlan *)
Record L1ReadPlan := mkReadPlan {
  pl_l1_run_id : string;
  pl_manifest_key : string;
  pl_report_key : string;
  pl_output_object_keys : list string;
  pl_market_data_quality_summary_key : option string;
  pl_market_feature_delta_key : option string;
  pl_market_feature_delta_summary_key : option string;
  pl_market_regime_context_key : option string;
  pl_symbol_universe_snapshot_key : option string;
}.

(** ** Errors *)

(* rust: src/normalize/admissibility/error.rs L1AdmissibilityError *)
Inductive L1AdmissibilityError :=
| PointerSchemaMismatch (actual : string)
| PointerNotSuccess (status : string)
| PointerSchemaEmittedMismatch (actual expected : string)
| PointerTimeRangeMismatch (actual_start_ms actual_end_ms expected_start_ms expected_end_ms : Z)
| ManifestSchemaMismatch (actual : string)
| ManifestRunIdMismatch (pointer_run_id manifest_run_id : string)
| ManifestNotSuccess (status : string)
| ManifestSchemaEmittedMismatch (actual expected : string)
| ManifestTimeRangeMismatch (actual_start_ms actual_end_ms expected_start_ms expected_end_ms : Z)
| ManifestHasNoOutputObjects
| ManifestRecordCountMismatch (output_record_count slice_count_total : Z)
| ReportSchemaMismatch (actual : string)
| ReportRunIdMismatch (report_run_id manifest_run_id : string)
| ReportStatusMismatch (report_status manifest_status : string)
| ReportTimeRangeMismatch (report_start_ms report_end_ms manifest_start_ms manifest_end_ms : Z)
| ReportSchemaEmittedMismatch (report_schema manifest_schema : string)
| ReportManifestKeyMismatch (report_manifest_key manifest_key : string)
| ReportOutputObjectsMismatch
| ReportProjectionObjectsMismatch.

Definition half_open (a b : Z) : string := ("[" ++ show_Z a ++ "," ++ show_Z b ++ ")")%string.

(* rust: src/normalize/admissibility/error/display.rs format_admissibility_error *)
Definition format_admissibility_error (error : L1AdmissibilityError) : string :=
  match error with
  | PointerSchemaMismatch actual => "l1 pointer schema mismatch: " ++ actual
  | PointerNotSuccess status => "l1 pointer is not success: " ++ status
  | PointerSchemaEmittedMismatch actual expected =>
      "l1 pointer emitted schema mismatch: actual=" ++ actual ++ " expected=" ++ expected
  | PointerTimeRangeMismatch a b c d =>
      "l1 pointer time range mismatch: actual=" ++ half_open a b ++ " expected=" ++ half_open c d
  | ManifestSchemaMismatch actual => "l1 manifest schema mismatch: " ++ actual
  | ManifestRunIdMismatch pointer_run_id manifest_run_id =>
      "l1 manifest run id mismatch: pointer=" ++ pointer_run_id ++ " manifest=" ++ manifest_run_id
  | ManifestNotSuccess status => "l1 manifest is not success: " ++ status
  | ManifestSchemaEmittedMismatch actual expected =>
      "l1 manifest emitted schema mismatch: actual=" ++ actual ++ " expected=" ++ expected
  | ManifestTimeRangeMismatch a b c d =>
      "l1 manifest time range mismatch: actual=" ++ half_open a b ++ " expected=" ++ half_open c d
  | ManifestHasNoOutputObjects => "l1 manifest has no output object keys"
  | ManifestRecordCountMismatch output_record_count slice_count_total =>
      "l1 manifest count mismatch: output_record_count=" ++ show_Z output_record_count
        ++ " slice_count_total=" ++ show_Z slice_count_total
  | ReportSchemaMismatch actual => "l1 report schema mismatch: " ++ actual
  | ReportRunIdMismatch report_run_id manifest_run_id =>
      "l1 report run id mismatch: report=" ++ report_run_id ++ " manifest=" ++ manifest_run_id
  | ReportStatusMismatch report_status manifest_status =>
      "l1 report status mismatch: report=" ++ report_status ++ " manifest=" ++ manifest_status
  | ReportTimeRangeMismatch a b c d =>
      "l1 report time range mismatch: report=" ++ half_open a b ++ " manifest=" ++ half_open c d
  | ReportSchemaEmittedMismatch report_schema manifest_schema =>
      "l1 report emitted schema mismatch: report=" ++ report_schema ++ " manifest=" ++ manifest_schema
  | ReportManifestKeyMismatch report_manifest_key manifest_key =>
      "l1 report manifest key mismatch: report=" ++ report_manifest_key ++ " manifest=" ++ manifest_key
  | ReportOutputObjectsMismatch => "l1 report output objects differ from manifest"
  | ReportProjectionObjectsMismatch => "l1 report projection object keys differ from manifest"
  end%string.

(** ** Validation *)

(* rust: src/normalize/admissibility/validate/time_range.rs validate_time_range *)
Definition validate_time_range (actual_start_ms actual_end_ms : Z) (expected : InputRange)
    : result (Z * Z * Z * Z) () :=
  if (actual_start_ms <=? ir_start_ms expected) && (ir_end_ms expected <=? actual_end_ms) then Ok ()
  else Err (actual_start_ms, actual_end_ms, ir_start_ms expected, ir_end_ms expected).

(* rust: src/normalize/admissibility/validate/pointer.rs validate_pointer *)
Definition validate_pointer (pointer : L1IndexPointer) (request : L1ReadRequest)
    : result L1AdmissibilityError () :=
  _ ← ensure (String.eqb (ip_schema_version pointer) POINTER_SCHEMA_VERSION)
        (PointerSchemaMismatch (ip_schema_version pointer));
  _ ← ensure (String.eqb (ip_status pointer) "success") (PointerNotSuccess (ip_status pointer));
  _ ← ensure (String.eqb (ip_schema_version_emitted pointer) (rq_schema_version_emitted request))
        (PointerSchemaEmittedMismatch (ip_schema_version_emitted pointer)
           (rq_schema_version_emitted request));
  map_err (fun '(a, b, c, d) => PointerTimeRangeMismatch a b c d)
    (validate_time_range (ip_input_time_range_start_ms pointer) (ip_input_time_range_end_ms pointer)
       (rq_input_range request)).

(* rust: src/normalize/admissibility/validate/manifest.rs validate_manifest *)
Definition validate_manifest (pointer : L1IndexPointer) (manifest : L1Manifest)
    (request : L1ReadRequest) : result L1AdmissibilityError () :=
  _ ← ensure (String.eqb (mf_schema_version manifest) MANIFEST_SCHEMA_VERSION)
        (ManifestSchemaMismatch (mf_schema_version manifest));
  _ ← ensure (String.eqb (mf_l1_run_id manifest) (ip_l1_run_id pointer))
        (ManifestRunIdMismatch (ip_l1_run_id pointer) (mf_l1_run_id manifest));
  _ ← ensure (String.eqb (mf_status manifest) "success") (ManifestNotSuccess (mf_status manifest));
  _ ← ensure (String.eqb (mf_schema_version_emitted manifest) (rq_schema_version_emitted request))
        (ManifestSchemaEmittedMismatch (mf_schema_version_emitted manifest)
           (rq_schema_version_emitted request));
  _ ← map_err (fun '(a, b, c, d) => ManifestTimeRangeMismatch a b c d)
        (validate_time_range (mf_input_time_range_start_ms manifest)
           (mf_input_time_range_end_ms manifest) (rq_input_range request));
  _ ← ensure (negb (is_nil (mf_output_object_keys manifest))) ManifestHasNoOutputObjects;
  ensure (mf_output_record_count manifest =? mf_slice_count_total manifest)
    (ManifestRecordCountMismatch (mf_output_record_count manifest) (mf_slice_count_total manifest)).

(* rust: src/normalize/admissibility/validate/report.rs validate_report *)
Definition validate_report (report : NormalizationReport) (manifest : L1Manifest)
    (manifest_key : string) : result L1AdmissibilityError () :=
  _ ← ensure (String.eqb (rp_schema_version report) REPORT_SCHEMA_VERSION)
        (ReportSchemaMismatch (rp_schema_version report));
  _ ← ensure (String.eqb (rp_l1_run_id report) (mf_l1_run_id manifest))
        (ReportRunIdMismatch (rp_l1_run_id report) (mf_l1_run_id manifest));
  _ ← ensure (String.eqb (rp_status report) (mf_status manifest))
        (ReportStatusMismatch (rp_status report) (mf_status manifest));
  _ ← ensure ((rp_input_time_range_start_ms report =? mf_input_time_range_start_ms manifest)
              && (rp_input_time_range_end_ms report =? mf_input_time_range_end_ms manifest))
        (ReportTimeRangeMismatch (rp_input_time_range_start_ms report)
           (rp_input_time_range_end_ms report) (mf_input_time_range_start_ms manifest)
           (mf_input_time_range_end_ms manifest));
  _ ← ensure (String.eqb (rp_schema_version_emitted report) (mf_schema_version_emitted manifest))
        (ReportSchemaEmittedMismatch (rp_schema_version_emitted report)
           (mf_schema_version_emitted manifest));
  _ ← ensure (String.eqb (rp_manifest_key report) manifest_key)
        (ReportManifestKeyMismatch (rp_manifest_key report) manifest_key);
  _ ← ensure (bool_decide (rp_output_object_keys report = mf_output_object_keys manifest))
        ReportOutputObjectsMismatch;
  ensure (bool_decide (rp_projections report = mf_projections manifest)) ReportProjectionObjectsMismatch.

(* rust: src/normalize/admissibility/validate/plan.rs build_read_plan *)
Definition build_read_plan (pointer : L1IndexPointer) (manifest : L1Manifest)
    (report : NormalizationReport) (manifest_key : string) (request : L1ReadRequest)
    : result L1AdmissibilityError L1ReadPlan :=
  _ ← validate_pointer pointer request;
  _ ← validate_manifest pointer manifest request;
  _ ← validate_report report manifest manifest_key;
  let k := mf_projections manifest in
  Ok (mkReadPlan (mf_l1_run_id manifest) manifest_key (mf_report_key manifest)
        (mf_output_object_keys manifest) (pk_market_data_quality_summary_key k)
        (pk_market_feature_delta_key k) (pk_market_feature_delta_summary_key k)
        (pk_market_regime_context_key k) (pk_symbol_universe_snapshot_key k)).

(** ** The reader *)

(* rust: src/normalize/l1_reader.rs L1ReaderError *)
Inductive L1ReaderError :=
| ReaderStorage (e : StorageError)
| ReaderIo (rendered : string)
| ReaderJson (rendered : string)
| ReaderAdmissibility (e : L1AdmissibilityError).

(* rust: src/normalize/l1_reader.rs fmt *)
Definition L1ReaderError_display (e : L1ReaderError) : string :=
  match e with
  | ReaderStorage error => StorageError_display error
  | ReaderIo error => "l1 reader io error: " ++ error
  | ReaderJson error => "l1 reader json error: " ++ error
  | ReaderAdmissibility error => format_admissibility_error error
  end%string.

(** The three documents a reader decodes; [None] is a JSON error. *)
Class L1Docs (B : Type) := {
  doc_pointer : B -> option L1IndexPointer;
  doc_manifest : B -> option L1Manifest;
  doc_report : B -> option NormalizationReport;
}.

Section reader.
Context {L : StorageLib} {W B : Type} {OS : ObjectStore W B} {D : L1Docs B}.
(** The bucket, and writing a download to the reader's directory and reading it back. *)
Context (bucket : string) (through_file : string -> B -> io W L1ReaderError B).

Definition get_object (key : string) : io W L1ReaderError B := fun w =>
  match os_get bucket key w with
  | (w, Ok body) => (w, Ok body)
  | (w, Err error) =>
      (w, Err (ReaderStorage (request_failed ("get_object bucket=" ++ bucket ++ " key=" ++ key) error)))
  end.

(* rust: src/normalize/l1_reader.rs download_json *)
Definition download_json {T} (decode : B -> option T) (key : string) : io W L1ReaderError T :=
  body ← get_object key;
  bytes ← through_file key body;
  io_of (ok_or (decode bytes) (ReaderJson key)).

(* rust: src/normalize/l1_reader.rs read_plan *)
Definition read_plan (window_ms : Z) (input_range : InputRange) : io W L1ReaderError L1ReadPlan :=
  let request := normalized_market_slice input_range in
  let pointer_key := index_pointer_key window_ms (ir_start_ms input_range) in
  pointer ← download_json doc_pointer pointer_key;
  manifest ← download_json doc_manifest (ip_canonical_manifest_key pointer);
  report ← download_json doc_report (mf_report_key manifest);
  io_of (map_err ReaderAdmissibility
    (build_read_plan pointer manifest report (ip_canonical_manifest_key pointer) request)).
End reader.
