(* ===== verification/NormalizeRun.v ===== *)
(** * NormalizeRun: the normalizer from its command to its end

    [normalize/run.rs] and [run/]: the choice between the preflight, the audit, one
    backfill and the worker; the preflight of the two buckets; and the worker, which
    drains what is ready, sleeps and starts again until a signal arrives.  A worker runs
    in a list of [Tick]s, what the world answers in each of its turns. *)
From S2P Require Import Prelude Text Records Retention S3Client NormalizeArgs L1Window Effects.
Open Scope Z_scope.
Open Scope list_scope.

(** ** The preflight *)

(* rust: src/normalize/run.rs PREFLIGHT_ENV *)
Definition PREFLIGHT_ENV : string := "MARKET_NORMALIZE_PREFLIGHT".

(* rust: src/normalize/run/env.rs env_flag *)
Definition env_flag (env : string -> option string) (name : string) : bool :=
  match env name with
  | Some value => existsb (String.eqb value) ["1"; "true"; "TRUE"; "yes"; "YES"]%string
  | None => false
  end.

Section preflight.
Context {W B : Type} {OS : ObjectStore W B}.
(** Writing and removing local files, the encoder of the document, the process id, and the
    turns allowed to a listing. *)
Context (store_file : string -> B -> W -> W * result StorageError ()) (remove_file : string -> W -> W).
Context (document : list (string * string) -> B) (process_id : Z) (fuel : nat).

Abbreviation preflight_io := (io W (option StorageError)).
(** A listing that may not end within its fuel: the error [None]. *)
Definition within {A} (m : W -> option (W * result StorageError A)) : preflight_io A := fun w =>
  match m w with Some (w, r) => (w, map_err Some r) | None => (w, Err None) end.

Definition preflight_prefix : string := "_preflight/market-ingest-app/".
Definition preflight_key (label : string) (now_ms : Z) : string :=
  (preflight_prefix ++ label ++ "-" ++ show_Z now_ms ++ "-" ++ show_Z process_id ++ ".json")%string.

(* rust: src/normalize/run/preflight.rs preflight_bucket *)
Definition preflight_bucket (args : NormalizeArgs) (label bucket : string) (now_ms : Z) : preflight_io () :=
  listed ← within (list_keys bucket fuel preflight_prefix);
  let key := preflight_key label now_ms in
  let bytes := document [("schema_version", "market_normalize_s3_preflight_v1"); ("label", label);
                         ("bucket", bucket); ("timestamp_ms", show_Z now_ms)]%string in
  _ ← io_map_err Some (upload_json bucket key bytes);
  let tmp_path := path_join (path_join (na_catchup_tmp_root args) "_preflight")
                    (label ++ "-" ++ show_Z now_ms ++ ".json") in
  download_result ← io_try (download_file bucket store_file key tmp_path);
  delete_result ← io_try (delete_object bucket key);
  _ ← ((fun w => (remove_file tmp_path w, Ok ())) : preflight_io ());
  _ ← io_of (map_err Some download_result);
  io_of (map_err Some delete_result).

(* rust: src/normalize/run/preflight.rs run_preflight *)
Definition run_preflight (args : NormalizeArgs) (now_ms : Z) : preflight_io () :=
  _ ← preflight_bucket args "l0" (na_l0_s3_bucket args) now_ms;
  preflight_bucket args "l1" (na_l1_s3_bucket args) now_ms.
End preflight.

(** ** The worker *)

(** Set by the task that waits for the signal, whose handle is [sh_waiter]. *)
(* rust: src/normalize/run/worker/shutdown.rs ShutdownHandle *)
Record ShutdownHandle := mkShutdown { sh_requested : bool; sh_waiter : bool }.

(** [signals]: whether the handlers of the signals can be installed. *)
(* rust: src/normalize/run/worker/shutdown.rs install *)
Definition install (signals : result string ()) : result string ShutdownHandle :=
  _ ← signals; Ok (mkShutdown false true).

(* rust: src/normalize/run/worker/shutdown.rs is_requested *)
Definition is_requested (h : ShutdownHandle) : bool := sh_requested h.

(** [signalled]: the waiter ends before the sleep does. *)
(* rust: src/normalize/run/worker/shutdown.rs sleep_or_requested *)
Definition sleep_or_requested (signalled : bool) (h : ShutdownHandle) : ShutdownHandle * bool :=
  if is_requested h then (h, true)
  else if negb (sh_waiter h) then (h, is_requested h)
  else if signalled then (mkShutdown true false, true)
  else (h, is_requested h).

(** What the world answers in one turn of the worker: what the discovery finds, the
    world of the drain, whether a signal arrives during the drain and during the sleep,
    and the clock after it. *)
Record Tick := mkTick {
  tk_last : result StorageError (option Z); tk_oldest : result StorageError (option Z);
  tk_world : World; tk_drain_signal : bool; tk_sleep_signal : bool; tk_now : Z }.

Inductive WorkerEnd := Stopped | StillRunning.

(** The waiter of the handle stores the signal as soon as it arrives. *)
Definition signal (arrived : bool) (h : ShutdownHandle) : ShutdownHandle :=
  if arrived then mkShutdown true (sh_waiter h) else h.

Fixpoint worker_loop (args : NormalizeArgs) (ticks : list Tick) (shutdown : ShutdownHandle) (now_ms : Z)
    (ran : list RunDecision) : result string (WorkerEnd * list RunDecision) :=
  match ticks with
  | [] => Ok (StillRunning, ran)
  | t :: ticks =>
      let '(last, oldest) := resolve_initial_l0_l1_state (tk_last t) (tk_oldest t) in
      d ← drain_ready_windows (tk_world t) args now_ms last oldest;
      let ran := ran ++ dn_runs d in
      let shutdown := signal (tk_drain_signal t) shutdown in
      if is_requested shutdown then Ok (Stopped, ran)
      else
        let (shutdown, requested) := sleep_or_requested (tk_sleep_signal t) shutdown in
        if requested then Ok (Stopped, ran) else worker_loop args ticks shutdown (tk_now t) ran
  end.

(** How it ends, and the decisions it ran in order. *)
(* rust: src/normalize/run/worker.rs run_normalize_worker *)
Definition run_normalize_worker (signals : result string ()) (args : NormalizeArgs) (initial_now_ms : Z)
    (ticks : list Tick) : result string (WorkerEnd * list RunDecision) :=
  shutdown ← install signals;
  sleep_duration ← worker_sleep_duration args;
  worker_loop args ticks shutdown initial_now_ms [].

(** ** The commands *)

(* rust: src/normalize/run.rs run_backfill_once *)
Definition run_backfill_once (run_decision : RunDecision -> Z -> result string ()) (args : NormalizeArgs)
    (now_ms : Z) : result string () :=
  decision ← decide_mode args now_ms None None;
  match decision with
  | None => Ok ()
  | Some decision => run_decision decision now_ms
  end.

(* rust: src/normalize/run.rs run_normalize *)
Definition run_normalize {L : StorageLib} (env : string -> option string) (preflight : result string ())
    (list_keys : string -> result string (list string)) (run_decision : RunDecision -> Z -> result string ())
    (signals : result string ()) (ticks : list Tick) (args : NormalizeArgs) (now_ms : Z)
    : result string (WorkerEnd * list RunDecision) :=
  if na_preflight args || env_flag env PREFLIGHT_ENV then
    _ ← preflight; Ok (Stopped, [])
  else match na_audit_l1_index_start_ms args, na_audit_l1_index_end_ms args with
  | Some start_ms, Some end_ms =>
      _ ← run_l1_index_audit list_keys args (mkRange start_ms end_ms); Ok (Stopped, [])
  | _, _ =>
      match na_input_start_ms args with
      | Some _ => _ ← run_backfill_once run_decision args now_ms; Ok (Stopped, [])
      | None => run_normalize_worker signals args now_ms ticks
      end
  end.

(** ** What a preflight leaves behind *)

Section left_behind.
Context {W B : Type} {OS : ObjectStore W B}.
Context (store_file : string -> B -> W -> W * result StorageError ()) (remove_file : string -> W -> W).
Context (document : list (string * string) -> B) (process_id : Z) (fuel : nat).

Abbreviation preflight_bucket := (preflight_bucket store_file remove_file document process_id fuel).
Abbreviation key := (preflight_key process_id).

(** What the requests of a preflight on one object keep. *)
Record stable (inv : W -> Prop) (bucket object : string) : Prop := {
  st_put : forall r w, pq_bucket r = bucket -> pq_key r = object -> inv w -> inv (os_put r w).1;
  st_delete : forall w, inv w -> inv (os_delete bucket object w).1;
  st_get : forall b k w, inv w -> inv (os_get b k w).1;
  st_list : forall r w, inv w -> inv (os_list r w).1;
  st_sleep : forall t w, inv w -> inv (os_sleep t w);
  st_store : forall p b w, inv w -> inv (store_file p b w).1;
  st_remove : forall p w, inv w -> inv (remove_file p w);
}.

Lemma put_keeps inv bucket object n attempt r : stable inv bucket object -> pq_bucket r = bucket -> pq_key r = object ->
  keeps inv (put_attempts bucket n attempt r).
Proof using Type.
  intros Hst Hb Hk. revert attempt. induction n as [|n IH]; intros attempt w Hw; [done|]. cbn [put_attempts].
  pose proof (st_put _ _ _ Hst r w Hb Hk Hw) as Hp. destruct (os_put r w) as [w' [[]|error]]; [done|]. cbn in Hp.
  destruct (_ || _); [done|]. apply IH. by apply (st_sleep _ _ _ Hst).
Qed.

Lemma listing_keeps inv bucket object b prefix : stable inv bucket object ->
  keeps inv (within (list_keys b fuel prefix)).
Proof using Type.
  intros Hst w Hw. unfold within, list_keys, list_object_summaries.
  assert (H : forall token visited w, inv w -> match for_each_object_summary b fuel prefix token visited w with
    | Some (w', _) => inv w' | None => True end).
  { clear w Hw. induction fuel as [|n IH]; intros token visited w Hw; [done|]. cbn [for_each_object_summary].
    pose proof (st_list _ _ _ Hst (mkList b prefix token None) w Hw) as Hl.
    destruct (os_list _ w) as [w' [out|error]]; cbn in Hl; [|done].
    destruct (default false _); [|done]. destruct (ls_next_token out); [by apply IH|done]. }
  specialize (H None [] w Hw). destruct (for_each_object_summary _ _ _ _ _ w) as [[w' r]|]; [|done].
  by destruct r.
Qed.

Lemma preflight_keeps inv args label bucket now : stable inv bucket (key label now) ->
  keeps inv (preflight_bucket args label bucket now).
Proof using Type.
  intros Hst. unfold NormalizeRun.preflight_bucket.
  apply keeps_bind; [by eapply listing_keeps|]. intros _.
  apply keeps_bind; [apply keeps_map_err; by eapply put_keeps|]. intros _.
  apply keeps_bind.
  { intros w Hw. unfold io_try, download_file. pose proof (st_get _ _ _ Hst bucket (key label now) w Hw) as Hg.
    destruct (os_get _ _ w) as [w' [body|error]]; cbn in Hg; [|done].
    pose proof (st_store _ _ _ Hst (path_join (path_join (na_catchup_tmp_root args) "_preflight")
      (label ++ "-" ++ show_Z now ++ ".json")) body w' Hg) as Hs. by destruct (store_file _ _ _). }
  intros downloaded. apply keeps_bind.
  { intros w Hw. unfold io_try, delete_object. pose proof (st_delete _ _ _ Hst w Hw) as Hd.
    by destruct (os_delete _ _ w) as [w' [[]|error]]. }
  intros deleted. apply keeps_bind; [intros w Hw; by apply (st_remove _ _ _ Hst)|]. intros _.
  apply keeps_bind; [by intros w Hw; destruct downloaded|]. intros _ w Hw. by destruct deleted.
Qed.

(** [has w b k]: the object [k] is in the bucket [b].  The store answers truly, and has no
    other client meanwhile. *)
Context (has : W -> string -> string -> Prop).
Record truthful : Prop := {
  tr_put : forall r w b k, (b, k) <> (pq_bucket r, pq_key r) -> has (os_put r w).1 b k <-> has w b k;
  tr_delete : forall b k w b' k', (b', k') <> (b, k) -> has (os_delete b k w).1 b' k' <-> has w b' k';
  tr_deleted : forall b k w w', os_delete b k w = (w', Ok ()) -> ~ has w' b k;
  tr_get : forall q k w b' k', has (os_get q k w).1 b' k' <-> has w b' k';
  tr_list : forall r w b k, has (os_list r w).1 b k <-> has w b k;
  tr_sleep : forall t w b k, has (os_sleep t w) b k <-> has w b k;
  tr_store : forall p c w b k, has (store_file p c w).1 b k <-> has w b k;
  tr_remove : forall p w b k, has (remove_file p w) b k <-> has w b k;
}.

(** Whether an object is there is stable under a preflight of another one. *)
Lemma other_stable (P : Prop) bucket object b k : truthful -> (b, k) <> (bucket, object) ->
  stable (fun w => has w b k <-> P) bucket object.
Proof using Type.
  intros Ht Hne. split; intros *.
  - intros Hb Hk Hp. rewrite <- Hp. apply (tr_put Ht). by rewrite Hb, Hk.
  - intros Hp. rewrite <- Hp. by apply (tr_delete Ht).
  - intros Hp. rewrite <- Hp. apply (tr_get Ht).
  - intros Hp. rewrite <- Hp. apply (tr_list Ht).
  - intros Hp. rewrite <- Hp. apply (tr_sleep Ht).
  - intros Hp. rewrite <- Hp. apply (tr_store Ht).
  - intros Hp. rewrite <- Hp. apply (tr_remove Ht).
Qed.

Lemma preflight_deletes args label bucket now w w' : truthful ->
  preflight_bucket args label bucket now w = (w', Ok ()) -> ~ has w' bucket (key label now).
Proof using Type.
  intros Ht. unfold NormalizeRun.preflight_bucket, mbind, io_bind.
  destruct (within _ w) as [w1 [listed|]]; [|done]. destruct (io_map_err _ _ w1) as [w2 [[]|]]; [|done].
  destruct (io_try _ w2) as [w3 [downloaded|]]; [|done]. unfold io_try, delete_object.
  destruct (os_delete bucket (key label now) w3) as [w4 [[]|error]] eqn:Ed; cbn;
    destruct (map_err Some downloaded); try done.
  intros [= <-]. rewrite (tr_remove Ht). by apply (tr_deleted Ht _ _ w3).
Qed.

(** Whatever it finds, a preflight creates and removes nothing but its two objects; and
    when it answers [Ok] neither of them is left in its bucket. *)
Theorem preflight_leaves_buckets_alone (args : NormalizeArgs) (now : Z) (w w' : W) (r : result (option StorageError) ()) :
  truthful -> run_preflight store_file remove_file document process_id fuel args now w = (w', r) ->
  (forall b k, (b, k) <> (na_l0_s3_bucket args, key "l0" now) -> (b, k) <> (na_l1_s3_bucket args, key "l1" now) ->
     has w' b k <-> has w b k) /\
  (r = Ok () -> ~ has w' (na_l0_s3_bucket args) (key "l0" now) /\ ~ has w' (na_l1_s3_bucket args) (key "l1" now)).
Proof using Type.
  intros Ht H. split.
  - intros b k H0 H1.
    assert (Hk : keeps (fun v => has v b k <-> has w b k)
        (run_preflight store_file remove_file document process_id fuel args now)).
    { apply keeps_bind; [|intros _]; apply preflight_keeps, other_stable; done. }
    apply (keeps_run _ _ w) in Hk; [|done]. by rewrite H in Hk.
  - intros ->. unfold run_preflight, mbind, io_bind in H.
    destruct (preflight_bucket args "l0" _ now w) as [w1 [[]|]] eqn:E0; [|done].
    split; [|by eapply preflight_deletes].
    apply preflight_deletes in E0; [|done].
    assert (Hk : keeps (fun v => has v (na_l0_s3_bucket args) (key "l0" now) <-> False)
        (preflight_bucket args "l1" (na_l1_s3_bucket args) now)).
    { apply preflight_keeps, other_stable; [done|]. by intros [= _ ?]. }
    assert (Hw1 : has w1 (na_l0_s3_bucket args) (key "l0" now) <-> False) by (split; [apply E0|done]).
    specialize (Hk w1 Hw1). rewrite H in Hk. exact (proj1 Hk).
Qed.
End left_behind.

(** A store that is the list of its objects. *)
#[local] Instance sample_objects : ObjectStore (list (string * string)) () := {|
  os_put := fun r w => ((pq_bucket r, pq_key r) :: w, Ok ());
  os_head := fun _ _ w => (w, Ok None);
  os_get := fun _ _ w => (w, Ok tt);
  os_list := fun _ w => (w, Ok (mkListOutput [] None None));
  os_delete := fun b k w => (List.filter (fun o => negb (bool_decide (o = (b, k)))) w, Ok ());
  os_sleep := fun _ w => w;
|}.

Lemma preflight_leaves_buckets_alone_witness :
  let run := run_preflight (fun _ _ w => (w, Ok ())) (fun _ w => w) (fun _ => tt) 7 1 with_defaults 1000
    [("", "kept")]%string in
  run.2 = Ok () /\ (("", "kept")%string ∈ run.1) /\ (("", preflight_key 7 "l0" 1000)%string ∉ run.1).
Proof.
  intros run. destruct (preflight_leaves_buckets_alone (fun _ _ w => (w, Ok ())) (fun _ w => w) (fun _ => tt) 7 1
    (fun w b k => (b, k) ∈ w) with_defaults 1000 [("", "kept")]%string run.1 (Ok ())) as [Hother Hgone].
  - split; intros *; try done.
    + intros Hne. cbn. rewrite elem_of_cons. naive_solver.
    + intros Hne. cbn. rewrite !list_elem_of_In, filter_In. rewrite bool_decide_eq_false_2 by done. cbn. tauto.
    + intros [= <-]. rewrite list_elem_of_In, filter_In. rewrite bool_decide_eq_true_2 by done. by intros [_ ?].
  - by vm_compute.
  - split; [by vm_compute|]. split; [|by apply Hgone].
    apply Hother; [by intros [= ?]|by intros [= ?]|by left].
Defined.
