(* ===== verification/L1Publish.v ===== *)
(** * L1Publish: publishing a run

    [normalize/publish] and [normalize/run/decision]: the slices and the projections of
    a successful run, then its report and manifest, then the index pointers.  The bucket
    holds documents, [Doc]: encoding one and decoding it as its type gives it back. *)
From S2P Require Import Prelude Effects Text OrderedMap Records NormalizeArgs L1Window L1Build.
From S2P Require Import Projection Regime Universe S3Client Admissible.
Open Scope Z_scope.

Inductive PublishError := PStorage (e : StorageError) | POther (rendered : string).

(* rust: src/normalize/publish.rs PublishedOutputKeys *)
Record PublishedOutputKeys := mkPublished {
  po_slice_output_keys : list string; po_projections : ProjectionKeys }.

Definition no_projections : ProjectionKeys := mkProjectionKeys None None None None None None.

(* rust: src/normalize/publish.rs RunTiming *)
Record RunTiming := mkTiming { rt_started_at_ms : Z; rt_finished_at_ms : Z }.

(** What the compiler fixed: the two git variables and the profile. *)
Class BuildEnv := {
  be_git_sha : option string; be_git_dirty : option string; be_debug_assertions : bool }.

(** ** Keys *)

Section keys.
Context {L : StorageLib}.

(* rust: src/normalize/write/keys.rs slice_object_key *)
Definition slice_object_key (venue : string) (window_start_ms window_ms : Z) (run_id : string) : string :=
  ("normalized_market_slice/venue=" ++ venue ++ "/" ++ hour_dir window_start_ms ++ "window_ms="
   ++ show_Z window_ms ++ "/shard=00/run_id=" ++ run_id ++ "-part-000001.parquet")%string.

(* rust: src/normalize/write/keys.rs report_object_key *)
Definition report_object_key (run_id : string) : string :=
  ("normalization_report/run_id=" ++ run_id ++ "/report.json")%string.

(* rust: src/normalize/write/keys.rs manifest_object_key *)
Definition manifest_object_key (run_id : string) : string :=
  ("runs/run_id=" ++ run_id ++ "/manifest.json")%string.

(* rust: src/normalize/write/keys.rs market_data_quality_summary_object_key *)
Definition market_data_quality_summary_object_key (run_id : string) : string :=
  ("market_data_quality_summary/run_id=" ++ run_id ++ "/summary.json")%string.

(* rust: src/normalize/write/keys.rs market_feature_delta_object_key *)
Definition market_feature_delta_object_key (run_id : string) : string :=
  ("market_feature_delta/run_id=" ++ run_id ++ "/delta.json")%string.

(* rust: src/normalize/write/keys.rs market_feature_delta_summary_object_key *)
Definition market_feature_delta_summary_object_key (run_id : string) : string :=
  ("market_feature_delta_summary/run_id=" ++ run_id ++ "/summary.json")%string.

(* rust: src/normalize/write/keys.rs market_regime_context_object_key *)
Definition market_regime_context_object_key (run_id : string) : string :=
  ("market_regime_context/run_id=" ++ run_id ++ "/context.json")%string.

(* rust: src/normalize/write/keys.rs symbol_universe_snapshot_object_key *)
Definition symbol_universe_snapshot_object_key (run_id : string) : string :=
  ("symbol_universe_snapshot/run_id=" ++ run_id ++ "/snapshot.json")%string.

(* rust: src/normalize/write/keys.rs symbol_universe_bootstrap_rollup_object_key *)
Definition symbol_universe_bootstrap_rollup_object_key (day_start : Z) : string :=
  ("symbol_universe_snapshot/bootstrap_rollup/event_date=" ++ (time_part day_start).1
   ++ "/latest.json")%string.

(** A path is its text; [join] adds a separator. *)
(* rust: src/normalize/write/keys.rs local_output_path *)
Definition local_output_path (spool_root run_id key : string) : string :=
  (spool_root ++ "/output/" ++ run_id ++ "/" ++ key)%string.

(** [path.with_extension(ext)]: the extension of the file name is replaced. *)
Definition with_extension (path ext : string) : string :=
  let (dir, name) := match rsplit_once "/" path with
                     | Some (dir, name) => ((dir ++ "/")%string, name) | None => (""%string, path) end in
  let stem := match rsplit_once "." name with
              | Some (stem, _) => if str_is_empty stem then name else stem | None => name end in
  (dir ++ stem ++ "." ++ ext)%string.

(* rust: src/normalize/publish/manifest_index/index.rs index_pointer_json *)
Definition index_pointer_json (manifest_key l1_run_id status : string) (finished_at_ms : Z)
    (input_range : InputRange) (indexed_window_start_ms window_ms : Z) : L1IndexPointer :=
  mkPointer POINTER_SCHEMA_VERSION manifest_key l1_run_id status finished_at_ms
    (ir_start_ms input_range) (ir_end_ms input_range) (Some indexed_window_start_ms)
    (Some (saturate I64 (indexed_window_start_ms + window_ms))) SLICE_SCHEMA_VERSION.

(* rust: src/normalize/publish/manifest_index/index.rs should_publish_index_pointers *)
Definition should_publish_index_pointers (status : string) : bool :=
  String.eqb status "success" || String.eqb status "empty".

Section documents.
Context {F : Type} {FO : Float F} {FM : FloatMath F} {BE : BuildEnv}.
Abbreviation SliceRow := (SliceRow (F := F)).
Abbreviation BuildResult := (BuildResult (F := F)).

(** The objects of the L1 bucket. *)
Inductive Doc :=
| SliceDoc (rows : list SliceRow)
| QualityDoc (d : MarketDataQualitySummary (F := F))
| DeltaDoc (d : list (MarketFeatureDelta (F := F)))
| DeltaSummaryDoc (d : MarketFeatureDeltaSummary (F := F))
| RegimeDoc (d : list (MarketRegimeContext (F := F)))
| RollupDoc (d : SymbolUniverseBootstrapRollup (F := F))
| UniverseDoc (d : SymbolUniverseSnapshot (F := F))
| ReportDoc (d : NormalizationReport)
| ManifestDoc (d : L1Manifest)
| PointerDoc (d : L1IndexPointer)
| OtherDoc (bytes : string).

#[export] Instance Doc_L1Docs : L1Docs Doc := {|
  doc_pointer d := match d with PointerDoc p => Some p | _ => None end;
  doc_manifest d := match d with ManifestDoc m => Some m | _ => None end;
  doc_report d := match d with ReportDoc r => Some r | _ => None end;
|}.

Definition doc_rollup (d : Doc) : result StorageError (SymbolUniverseBootstrapRollup (F := F)) :=
  match d with RollupDoc o => Ok o | _ => Err (SJson "not a rollup") end.

(** ** The report and the manifest *)

Definition count_completeness (value : string) (slices : list SliceRow) : Z :=
  zlen (List.filter (fun slice => String.eqb (sl_slice_completeness slice) value) slices).

(* rust: src/normalize/publish/manifest_index/records.rs report *)
Definition report (build : BuildResult) (l1_run_id : string) (input_range : InputRange)
    (timing : RunTiming) (manifest_key : string) (published_keys : PublishedOutputKeys)
    : NormalizationReport :=
  let '(complete, partial, incomplete, reference_only) :=
    fold_left (fun '(c, p, i, r) slice =>
      let value := sl_slice_completeness slice in
      if String.eqb value "complete" then (c + 1, p, i, r)
      else if String.eqb value "partial" then (c, p + 1, i, r)
      else if String.eqb value "reference_only" then (c, p, i, r + 1)
      else (c, p, i + 1, r)) (br_slices build) (0, 0, 0, 0) in
  mkReport REPORT_SCHEMA_VERSION l1_run_id (ir_start_ms input_range) (ir_end_ms input_range)
    (br_run_mode build) (br_fallback_alert build) (br_input_schema_versions build)
    (br_input_local_object_count build) (br_input_s3_object_count build) (br_input_object_keys build)
    (br_input_record_count build) (br_duplicate_event_count build) (br_invalid_event_count build)
    (br_payload_hash_mismatch_count build) (zlen (br_slices build)) complete partial incomplete
    reference_only (po_slice_output_keys published_keys) (po_projections published_keys)
    (br_status build) (br_failure_reason build) manifest_key (rt_started_at_ms timing)
    (rt_finished_at_ms timing) (default "unknown"%string be_git_sha)
    (match be_git_dirty with Some value => String.eqb value "true" | None => false end)
    (if be_debug_assertions then "debug" else "release") SLICE_SCHEMA_VERSION.

(* rust: src/normalize/publish/manifest_index/records.rs manifest *)
Definition manifest (rep : NormalizationReport) (l1_run_id : string) (input_range : InputRange)
    (report_key : string) (published_keys : PublishedOutputKeys) (timing : RunTiming) : L1Manifest :=
  mkManifest MANIFEST_SCHEMA_VERSION l1_run_id (rp_status rep) (ir_start_ms input_range)
    (ir_end_ms input_range) SLICE_SCHEMA_VERSION report_key (po_slice_output_keys published_keys)
    (po_projections published_keys) (rp_slice_count_total rep) (rp_slice_count_total rep)
    (rt_finished_at_ms timing).

(** ** Publishing *)

(** The rows of a group as a local Parquet file, written and read back, and the log. *)
Class PublishEnv (W : Type) := {
  pe_parquet : string -> list SliceRow -> io W PublishError Doc;
  pe_verify_file : string -> Doc -> io W StorageError Doc;
  pe_log : string -> io W PublishError ();
}.

Context {W : Type} {OS : ObjectStore W Doc} {PE : PublishEnv W}.
Context (bucket : string).

Definition storage {A} (m : io W StorageError A) : io W PublishError A := io_map_err PStorage m.

(* rust: src/normalize/publish.rs group_slices *)
Definition group_slices (run_id : string) (window_ms : Z) (slices : list SliceRow)
    : btree string (list nat) :=
  fold_left (fun grouped '(index, slice) =>
    bupdate (slice_object_key (sl_venue slice) (sl_window_start_ms slice) window_ms run_id) []
      (fun l => l ++ [index])%list grouped)
    (imap (fun i s => (i, s)) slices) [].

(** The rows at the given indices; each index is one of the list. *)
Definition rows_at (slices : list SliceRow) (indices : list nat) : list SliceRow :=
  omap (fun i => slices !! i) indices.

(* rust: src/normalize/publish/artifacts/slices.rs publish_slice_parquets *)
Definition publish_slice_parquets (args : NormalizeArgs) (l1_run_id : string) (slices : list SliceRow)
    : io W PublishError (list string) :=
  output_keys ← io_fold (fun output_keys '(key, row_indices) =>
      let rows := rows_at slices row_indices in
      let path := local_output_path (na_spool_root args) l1_run_id key in
      file ← pe_parquet path rows;
      _ ← pe_log "market_normalize_publishing";
      _ ← storage (upload_file bucket key (Ok file));
      mret (output_keys ++ [key])%list)
    [] (group_slices l1_run_id (na_window_ms args) slices);
  mret (sort_strings output_keys).

Definition set_pk_quality (k : string) (p : ProjectionKeys) : ProjectionKeys :=
  mkProjectionKeys (Some k) (pk_market_feature_delta_key p) (pk_market_feature_delta_summary_key p)
    (pk_market_regime_context_key p) (pk_symbol_universe_snapshot_key p)
    (pk_symbol_universe_bootstrap_rollup_key p).
Definition set_pk_deltas (summary delta : string) (p : ProjectionKeys) : ProjectionKeys :=
  mkProjectionKeys (pk_market_data_quality_summary_key p) (Some delta) (Some summary)
    (pk_market_regime_context_key p) (pk_symbol_universe_snapshot_key p)
    (pk_symbol_universe_bootstrap_rollup_key p).
Definition set_pk_regime (k : string) (p : ProjectionKeys) : ProjectionKeys :=
  mkProjectionKeys (pk_market_data_quality_summary_key p) (pk_market_feature_delta_key p)
    (pk_market_feature_delta_summary_key p) (Some k) (pk_symbol_universe_snapshot_key p)
    (pk_symbol_universe_bootstrap_rollup_key p).
Definition set_pk_universe (rollup : option string) (k : string) (p : ProjectionKeys) : ProjectionKeys :=
  mkProjectionKeys (pk_market_data_quality_summary_key p) (pk_market_feature_delta_key p)
    (pk_market_feature_delta_summary_key p) (pk_market_regime_context_key p) (Some k) rollup.

(* rust: src/normalize/publish/artifacts/slices.rs publish_quality_summary *)
Definition publish_quality_summary (l1_run_id : string) (input_range : InputRange)
    (finished_at_ms : Z) (slices : list SliceRow) (keys : ProjectionKeys)
    : io W PublishError ProjectionKeys :=
  let quality_key := market_data_quality_summary_object_key l1_run_id in
  _ ← storage (upload_json bucket quality_key
        (QualityDoc (build_market_data_quality_summary l1_run_id input_range finished_at_ms slices)));
  mret (set_pk_quality quality_key keys).

(* rust: src/normalize/publish/artifacts/features.rs publish_feature_deltas *)
Definition publish_feature_deltas (l1_run_id : string) (input_range : InputRange)
    (finished_at_ms : Z) (build : BuildResult) (keys : ProjectionKeys)
    : io W PublishError ProjectionKeys :=
  let feature_delta_key := market_feature_delta_object_key l1_run_id in
  let feature_delta_summary_key := market_feature_delta_summary_object_key l1_run_id in
  let feature_deltas := build_market_feature_deltas l1_run_id input_range finished_at_ms
    (br_projection_slices build) (br_projection_derivative_metrics build) in
  let summary := build_market_feature_delta_summary l1_run_id input_range finished_at_ms
    feature_delta_key feature_deltas in
  _ ← pe_log "market_normalize_publishing";
  _ ← storage (upload_json bucket feature_delta_summary_key (DeltaSummaryDoc summary));
  _ ← pe_log "market_normalize_publishing";
  _ ← storage (upload_json bucket feature_delta_key (DeltaDoc feature_deltas));
  mret (set_pk_deltas feature_delta_summary_key feature_delta_key keys).

(** Its projection inputs are cleared in [build] afterwards. *)
(* rust: src/normalize/publish/artifacts/features.rs publish_regime_contexts *)
Definition publish_regime_contexts (l1_run_id : string) (input_range : InputRange)
    (finished_at_ms : Z) (build : BuildResult) (keys : ProjectionKeys)
    : io W PublishError (BuildResult * ProjectionKeys) :=
  let regime_context_key := market_regime_context_object_key l1_run_id in
  let regime_contexts := build_market_regime_contexts l1_run_id input_range finished_at_ms
    (br_projection_slices build) in
  _ ← pe_log "market_normalize_publishing";
  _ ← storage (upload_json bucket regime_context_key (RegimeDoc regime_contexts));
  mret (mkBuild (br_slices build) [] [] (br_input_object_keys build) (br_run_mode build)
          (br_fallback_alert build) (br_input_local_object_count build)
          (br_input_s3_object_count build) (br_input_record_count build)
          (br_duplicate_event_count build) (br_invalid_event_count build)
          (br_payload_hash_mismatch_count build) (br_input_schema_versions build) (br_status build)
          (br_failure_reason build),
        set_pk_regime regime_context_key keys).

(** *** Rollups and the universe *)

Abbreviation Rollup := (SymbolUniverseBootstrapRollup (F := F)).

(* rust: src/normalize/publish/artifacts/bootstrap/types.rs BootstrapRollupReadResult *)
Record BootstrapRollupReadResult := mkRollupRead {
  rr_rollups : list Rollup; rr_missing_count : Z; rr_invalid_count : Z }.

Definition rollup_day_leb (a b : Rollup) : bool := bo_day_start_ms a <=? bo_day_start_ms b.

(** The log of an invalid rollup is written best effort. *)
(* rust: src/normalize/publish/artifacts/bootstrap/read.rs read_recent_symbol_universe_bootstrap_rollups *)
Definition read_recent_symbol_universe_bootstrap_rollups (input_range : InputRange)
    : io W StorageError BootstrapRollupReadResult :=
  read ← io_fold (fun read day =>
      let key := symbol_universe_bootstrap_rollup_object_key day in
      r ← io_try (download_json_optional bucket doc_rollup key);
      match r with
      | Ok (Some rollup) =>
          mret (mkRollupRead (rr_rollups read ++ [rollup]) (rr_missing_count read) (rr_invalid_count read))
      | Ok None =>
          mret (mkRollupRead (rr_rollups read) (rr_missing_count read + 1) (rr_invalid_count read))
      | Err (SJson _) =>
          _ ← io_try (pe_log "market_normalize_bootstrap_rollup");
          mret (mkRollupRead (rr_rollups read) (rr_missing_count read) (rr_invalid_count read + 1))
      | Err error => io_fail error
      end) (mkRollupRead [] 0 0) (bootstrap_rollup_day_starts input_range);
  mret (mkRollupRead (sort_by rollup_day_leb (rr_rollups read)) (rr_missing_count read)
          (rr_invalid_count read)).

(** Remove the first rollup of the day. *)
(* rust: src/normalize/publish/artifacts/bootstrap/publish_current.rs take_existing_rollup *)
Fixpoint take_existing_rollup (rollups : list Rollup) (day_start : Z) : option Rollup * list Rollup :=
  match rollups with
  | [] => (None, [])
  | o :: l =>
      if bo_day_start_ms o =? day_start then (Some o, l)
      else let '(found, rest) := take_existing_rollup l day_start in (found, o :: rest)
  end.

(* rust: src/normalize/publish/artifacts/bootstrap/publish_current.rs publish_current_rollups *)
Definition publish_current_rollups (read : list Rollup) (current_rollups : list Rollup)
    : io W PublishError (list Rollup * list string) :=
  _ ← (if is_nil current_rollups then pe_log "market_normalize_bootstrap_rollup" else mret ());
  r ← io_fold (fun '(read, published) current_rollup =>
      let key := symbol_universe_bootstrap_rollup_object_key (bo_day_start_ms current_rollup) in
      let '(existing, rest) := take_existing_rollup read (bo_day_start_ms current_rollup) in
      let merged := merge_symbol_universe_bootstrap_rollup existing current_rollup in
      _ ← pe_log "market_normalize_bootstrap_rollup";
      _ ← storage (upload_json bucket key (RollupDoc merged));
      mret (rest ++ [merged], published ++ [key])%list) (read, []) current_rollups;
  mret (r.1, sort_strings r.2).

(* rust: src/normalize/publish/artifacts/bootstrap/snapshot.rs publish_universe_snapshot *)
Definition publish_universe_snapshot (l1_run_id : string) (input_range : InputRange)
    (finished_at_ms : Z) (build : BuildResult) (rollups : list Rollup) (rollup_key : option string)
    (keys : ProjectionKeys) : io W PublishError ProjectionKeys :=
  let universe_key := symbol_universe_snapshot_object_key l1_run_id in
  let snapshot := build_symbol_universe_snapshot_from_bootstrap l1_run_id input_range finished_at_ms
    (br_slices build) rollups in
  _ ← pe_log "market_normalize_publishing";
  _ ← storage (upload_json bucket universe_key (UniverseDoc snapshot));
  mret (set_pk_universe rollup_key universe_key keys).

(* rust: src/normalize/publish/artifacts/bootstrap.rs publish_bootstrap_rollup_and_universe *)
Definition publish_bootstrap_rollup_and_universe (l1_run_id : string) (input_range : InputRange)
    (finished_at_ms : Z) (build : BuildResult) (keys : ProjectionKeys)
    : io W PublishError ProjectionKeys :=
  _ ← pe_log "market_normalize_bootstrap_rollup";
  read ← storage (read_recent_symbol_universe_bootstrap_rollups input_range);
  _ ← pe_log "market_normalize_bootstrap_rollup";
  let current := build_symbol_universe_bootstrap_rollups l1_run_id input_range finished_at_ms
    (br_slices build) in
  r ← publish_current_rollups (rr_rollups read) current;
  _ ← pe_log "market_normalize_bootstrap_rollup";
  publish_universe_snapshot l1_run_id input_range finished_at_ms build r.1 (head r.2) keys.

(** *** The manifest and the index *)

(* rust: src/normalize/publish/manifest_index/verify.rs verify_manifest *)
Definition verify_manifest (spool_root l1_run_id manifest_key : string) : io W StorageError () :=
  let path := with_extension (local_output_path spool_root l1_run_id manifest_key) "verify.json" in
  body ← (fun w => match os_get bucket manifest_key w with
    | (w, Ok body) => (w, Ok body)
    | (w, Err error) =>
        (w, Err (request_failed ("get_object bucket=" ++ bucket ++ " key=" ++ manifest_key) error))
    end);
  bytes ← pe_verify_file path body;
  m ← io_of (ok_or (doc_manifest bytes) (SJson "manifest"));
  io_of (ensure (String.eqb (mf_schema_version m) MANIFEST_SCHEMA_VERSION)
           (SInvalidConfig "manifest verification failed")).

(** Every pointer is uploaded, whatever became of the others; [order] is the order in
    which the uploads complete, and the first error in it is the result. *)
(* rust: src/normalize/publish/manifest_index/index.rs publish_index_pointers *)
Definition publish_index_pointers (order : list Z -> list Z) (args : NormalizeArgs)
    (manifest_key l1_run_id status : string) (finished_at_ms : Z) (input_range : InputRange)
    : io W PublishError Z :=
  let window_starts := index_window_starts input_range (na_window_ms args) in
  results ← io_fold (fun results window_start_ms =>
      let pointer_key := index_pointer_key (na_window_ms args) window_start_ms in
      let pointer := index_pointer_json manifest_key l1_run_id status finished_at_ms input_range
        window_start_ms (na_window_ms args) in
      r ← io_try (storage (upload_json_if_pointer_current bucket pointer_key (PointerDoc pointer)));
      mret (results ++ [r])%list) [] (order window_starts);
  io_of (_ ← try_map (fun r => r) results; Ok (zlen window_starts)).

(* rust: src/normalize/publish/manifest_index.rs publish_manifest_and_index *)
Definition publish_manifest_and_index (order : list Z -> list Z) (args : NormalizeArgs)
    (l1_run_id : string) (input_range : InputRange) (build : BuildResult) (timing : RunTiming)
    (published_keys : PublishedOutputKeys) : io W PublishError () :=
  let report_key := report_object_key l1_run_id in
  let manifest_key := manifest_object_key l1_run_id in
  let rep := report build l1_run_id input_range timing manifest_key published_keys in
  _ ← storage (upload_json bucket report_key (ReportDoc rep));
  let m := manifest rep l1_run_id input_range report_key published_keys timing in
  _ ← storage (upload_json bucket manifest_key (ManifestDoc m));
  _ ← storage (verify_manifest (na_spool_root args) l1_run_id manifest_key);
  _ ← (if should_publish_index_pointers (rp_status rep)
       then publish_index_pointers order args manifest_key l1_run_id (rp_status rep)
              (rt_finished_at_ms timing) input_range
       else mret 0);
  _ ← pe_log "market_normalize_index_published";
  pe_log "market_normalize_finished".

(** The artifacts of a successful run. *)
Definition publish_artifacts (args : NormalizeArgs) (l1_run_id : string) (input_range : InputRange)
    (build : BuildResult) (finished_at_ms : Z) : io W PublishError (BuildResult * PublishedOutputKeys) :=
  slice_output_keys ← publish_slice_parquets args l1_run_id (br_slices build);
  keys ← publish_quality_summary l1_run_id input_range finished_at_ms (br_slices build) no_projections;
  keys ← publish_feature_deltas l1_run_id input_range finished_at_ms build keys;
  r ← publish_regime_contexts l1_run_id input_range finished_at_ms build keys;
  keys ← publish_bootstrap_rollup_and_universe l1_run_id input_range finished_at_ms r.1 r.2;
  mret (r.1, mkPublished slice_output_keys keys).

(* rust: src/normalize/publish.rs publish_outputs *)
Definition publish_outputs (order : list Z -> list Z) (args : NormalizeArgs) (l1_run_id : string)
    (input_range : InputRange) (build : BuildResult) (started_at_ms finished_at_ms : Z)
    : io W PublishError () :=
  r ← (if String.eqb (br_status build) "success"
       then publish_artifacts args l1_run_id input_range build finished_at_ms
       else mret (build, mkPublished [] no_projections));
  publish_manifest_and_index order args l1_run_id input_range r.1
    (mkTiming started_at_ms finished_at_ms) r.2.

(** ** One decision *)

(** The ranges of a decision: the scan, and what is read. *)
(* rust: src/normalize/run/decision.rs 33-36 run_decision_body *)
Definition scan_range_of (args : NormalizeArgs) (input_range : InputRange) : InputRange :=
  mkRange (saturate I64 (ir_start_ms input_range - na_scan_margin_ms args))
    (saturate I64 (ir_end_ms input_range + na_scan_margin_ms args)).

(* rust: src/normalize/run/decision.rs 37-47 run_decision_body *)
Definition read_range_of (args : NormalizeArgs) (input_range : InputRange) : InputRange :=
  let lookback := if na_live_priority_only args then na_scan_margin_ms args
                  else na_projection_lookback_ms args in
  mkRange (saturate I64 (ir_start_ms input_range - Z.max (na_scan_margin_ms args) lookback))
    (ir_end_ms (scan_range_of args input_range)).

(** Reading the inputs and building the slices of a run, and clearing its directory. *)
Context (read_and_build : InputRange -> InputRange -> InputRange -> RunMode -> string ->
  io W PublishError BuildResult).
Context (cleanup_session_tmp : string -> W -> W).

(* rust: src/normalize/run/decision.rs run_decision_body *)
Definition run_decision_body (order : list Z -> list Z) (args : NormalizeArgs) (decision : RunDecision)
    (l1_run_id : string) (started_at_ms now_ms : Z) : io W PublishError () :=
  let input_range := rd_input_range decision in
  let scan_range := scan_range_of args input_range in
  let read_range := read_range_of args input_range in
  _ ← pe_log "market_normalize_started";
  build ← read_and_build input_range scan_range read_range (rd_run_mode decision) l1_run_id;
  _ ← (if br_fallback_alert build then pe_log "market_normalize_fallback_alert" else mret ());
  _ ← pe_log "market_normalize_building";
  publish_outputs order args l1_run_id input_range build started_at_ms now_ms.

Definition run_id_of (input_range : InputRange) (started_at_ms : Z) : string :=
  ("l1_" ++ show_Z (ir_start_ms input_range) ++ "_" ++ show_Z (ir_end_ms input_range) ++ "_"
   ++ show_Z started_at_ms)%string.

(* rust: src/normalize/run/decision.rs run_decision *)
Definition run_decision (order : list Z -> list Z) (args : NormalizeArgs) (decision : RunDecision)
    (now_ms : Z) : io W PublishError () := fun w =>
  let l1_run_id := run_id_of (rd_input_range decision) now_ms in
  let (w, r) := run_decision_body order args decision l1_run_id now_ms now_ms w in
  (cleanup_session_tmp l1_run_id w, r).
End documents.
End keys.
