(* ===== verification/Pipeline.v ===== *)
(** * Pipeline: from the watcher's socket to the slice

    What one process writes and another reads, put together: the records of [Sink], the
    files of [Columns], the walk of [SpoolTree], the inputs of [L1Inputs], the reader of
    [L1Read] and the builder of [L1Build]. *)
From S2P Require Import Prelude Text OrderedMap Records Columns Sink Eviction NormalizeArgs L1Window L1Inputs.
From S2P Require Import SpoolTree SpoolInputs L1Build L1BuildFacts L1Order L1Read L0RoundTrip L1Publish Effects.
Open Scope Z_scope.
Open Scope list_scope.

(** ** What a flushed sink has spooled *)

Section spooled.
Context {L : StorageLib} {HL : UtcHours}.

(** Every raw record of a run that ended in a flush is in a file under its own key. *)
Lemma flushed_record (cfg : L0StorageConfig) (ops : list (Io * SinkOp)) (io : Io) (k : L0StorageSink) r :
  calendar_ok -> 0 < cf_flush_records cfg -> Forall op_clean ops.*2 -> zlen ops + 3 < int_max U64 ->
  sink_run (ops ++ [(io, OpFlushAll)]) (sink_start cfg) = (Ok (), k) ->
  ARaw r ∈ expected_records (cf_run_id cfg) 1 ops.*2 ->
  exists part records, r ∈ records /\
    (raw_object_key (raw_partition_for r (cf_shard_count cfg)) (cf_run_id cfg) part, records) ∈ fs_spool (sk_raw k).
Proof.
  intros Hcal Hpos Hcl Hroom H Hr.
  assert (Hops : forall k0, sink_run (ops ++ [(io, OpFlushAll)]) k0 =
    match sink_run ops k0 with (Ok _, k1) => match flush_all io k1 with (Ok _, k2) => (Ok (), k2) | failed => failed end | failed => failed end).
  { clear. induction ops as [|[i o] ops IH]; intros k0; cbn.
    - destruct (flush_all io k0) as [[[]|] ?]; done.
    - destruct (sink_step i o k0) as [[]]; [apply IH|done]. }
  pose proof H as Hrun. rewrite Hops in H. destruct (sink_run ops (sink_start cfg)) as [[[]|] k1] eqn:E1; [|done].
  destruct (flush_all io k1) as [[[]|] k2] eqn:E2; [|done]. injection H as ->.
  destruct (flush_all_writes_everything cfg ops io k1 Hcal Hpos Hcl ltac:(lia) E1 k E2) as [_ Hp].
  rewrite <- Hp, !elem_of_app in Hr.
  assert (Hin : r ∈ List.concat (fs_spool (sk_raw k)).*2).
  { destruct Hr as [Hr|[Hr|[Hr|Hr]]]; apply list_elem_of_fmap in Hr as (x & [=] & Hx). by subst. }
  apply list_elem_of_In, in_concat in Hin as (records & Hf & Hin). apply list_elem_of_In in Hf.
  apply list_elem_of_fmap in Hf as ([key rs] & -> & Hf). apply list_elem_of_In in Hin. cbn [snd] in Hin.
  assert (Hcl' : Forall op_clean (ops ++ [(io, OpFlushAll)]).*2).
  { rewrite fmap_app. apply Forall_app. split; [done|]. by repeat constructor. }
  destruct (sink_run_inv cfg _ [] _ k Hcal Hpos Hcl' ltac:(rewrite zlen_app; change (zlen [(io, OpFlushAll)]) with 1; change (zlen (@nil AnyRecord)) with 0; lia)
    (sink_inv_init cfg) Hrun) as (all & Hi & _).
  destruct (si_families _ _ _ Hi) as (ar & ah & ash & ag & I1 & _).
  pose proof (fi_spool _ _ _ _ I1) as Hs. rewrite Forall_forall in Hs. destruct (Hs _ Hf) as (p & n & Hk & _ & _ & Hpart & _).
  cbn in Hk, Hpart. rewrite Forall_forall in Hpart. specialize (Hpart _ Hin). subst p key. by exists n, rs.
Qed.
End spooled.

(** The path the sink gives a file, and the one the walk finds it under. *)
Lemma sink_path_found root run key : is_name run -> Forall is_name (split_char "/" key) ->
  path_of root (run :: split_char "/" key) = path_join (path_join root run) key.
Proof.
  intros Hrun Hkey. rewrite path_of_join by (done || by constructor).
  pose proof (split_char_join "/" key) as Hj. destruct (split_char "/" key) as [|a l] eqn:E; [by destruct (split_char_nonempty "/" key)|].
  rewrite join_cons, Hj. rewrite (join_name root run) by apply Hrun. unfold path_join.
  apply Forall_cons in Hkey as [[Ha Hs] _].
  assert (Hstart : starts_with "/" key = false).
  { destruct (starts_with "/" key) eqn:Es; [|done]. apply starts_with_inv in Es as [r ->]. cbn in E. by injection E as <- _. }
  rewrite Hstart. pose proof (base_name root run Hrun) as Hb. unfold base at 1 in Hb.
  destruct (_ || _); [|by rewrite str_app_assoc].
  apply (f_equal String.length) in Hb. rewrite <- !length_bytes, !bytes_app, !length_app in Hb. cbn in Hb. lia.
Qed.

(** ** What the builder reads *)

Section pipeline.
Context {L : StorageLib} {HL : UtcHours} {F V : Type} {FO : Float F} {J : PayloadJson V F}.
Context {Array Batch File : Type} {A : Arrow Array Batch File} {HA : ArrowLaws Array Batch File}.

Abbreviation Row := (BatchRow (Batch := Batch)).

Lemma raw_file_decodes records file key : write_raw_market_event_parquet records = Ok file ->
  family_from_key (ie_key key) = Some RawMarketEvent ->
  exists l, decode_file col_str col_i64 col_bool (key, file_rows file) = Ok l /\
    forall r, r ∈ records -> RawRow (raw_input r) ∈ l.
Proof.
  intros Hw Hkey. unfold write_raw_market_event_parquet in Hw.
  destruct (written_rows raw_market_event_schema (raw_columns_of records) records) as (b & Hnew & Hb & Hback);
    [done|vm_decide|fit_columns|].
  unfold raw_market_event_batch in Hw.
  rewrite Hnew in Hw. cbn in Hw. destruct (Hback file Hw) as (rows & Hrows & Hsame).
  assert (Hall : Forall2 (fun r row => decode_row col_str col_i64 col_bool RawMarketEvent row = Ok (RawRow (raw_input r))) records rows).
  { apply (indexed_rows _ _ b); [done|]. intros i r row Hr Hs. unfold decode_row.
    by rewrite (decode_raw _ _ _ r (raw_row_columns b i row Hs records r Hb Hr)). }
  exists (map (fun r => RawRow (raw_input r)) records). split.
  - unfold decode_file. cbn [fst snd]. rewrite Hrows. cbn [mbind result_bind]. rewrite Hkey.
    apply try_map_ok_Forall2. clear -Hall. induction Hall; cbn; constructor; done.
  - intros r Hr. apply list_elem_of_In, in_map_iff. exists r. split; [done|by apply list_elem_of_In].
Qed.

(** The spool as the sink has left it: a plain directory tree that holds every raw file of
    the sink under its run, with what the encoder wrote for its records; no second file is
    known under the key of one of them. *)
Record spooled_disk (root run : string) (spool : Node) (rows_at : string -> result StorageError (list Row))
    (k : L0StorageSink) : Prop := {
  sd_plain : plain spool;
  sd_named : named spool;
  sd_at : forall key records, (key, records) ∈ fs_spool (sk_raw k) ->
    at_path spool (run :: split_char "/" key) RegularFile /\
    exists file, write_raw_market_event_parquet records = Ok file /\
      rows_at (path_join (path_join root run) key) = file_rows file;
  sd_own : forall key records names, (key, records) ∈ fs_spool (sk_raw k) -> parquet_at spool names ->
    key_from_local_path (join "/" names) = Some key -> names = run :: split_char "/" key;
}.

Context (download_file : string -> string -> result StorageError ()) (file_size : string -> option Z).
Context (rows_at : string -> result StorageError (list Row)) (list_keys : string -> result StorageError (list string)).

Abbreviation build_live root spool finish_order args input_range session :=
  (read_and_build_slices (V := V) (F := F) col_str col_i64 col_bool download_file file_size rows_at list_keys
     (local_files root (Some spool)) finish_order args input_range (scan_range_of args input_range)
     (read_range_of args input_range) Live session).

(** Every row that a build took in was decoded from a file it read. *)
Lemma built_rows root spool finish_order args input_range session b :
  (forall l, finish_order l ≡ₚ l) ->
  build_live root spool finish_order args input_range session = Ok b ->
  exists entries rows,
    collect_input_entries list_keys (local_files root (Some spool)) (read_range_of args input_range) Live
      (na_l0_run_key_overlap_ms args) = Ok entries /\
    b = finish (run_accumulator (V := V) args input_range (scan_range_of args input_range)
          (metadata_from_entries entries Live) rows) /\
    (forall e path l, e ∈ entries -> ie_path e = Some path ->
       decode_file col_str col_i64 col_bool (e, rows_at path) = Ok l -> forall row, row ∈ l -> row ∈ rows) /\
    (forall e, RawRow e ∈ rows -> exists path read row, rows_at path = Ok read /\ row ∈ read /\
       raw_event_from_batch col_str col_i64 row = Ok e).
Proof.
  intros Ho Hb. unfold read_and_build_slices in Hb. cbv zeta in Hb. apply bind_ok in Hb as (entries & He & Hb).
  rewrite fold_range_decoded in Hb. apply bind_ok in Hb as (files & Hf & [= <-]).
  exists entries, (List.concat files). split; [exact He|]. split; [done|].
  apply try_map_ok_Forall2 in Hf. rewrite Forall2_fmap_l in Hf. split.
  - intros e path l Hin Hpath Hl row Hrow. apply list_elem_of_lookup in Hin as [i Hi].
    assert (Ht : (i, e) ∈ tasks finish_order entries).
    { rewrite (tasks_perm _ _ Ho). apply elem_of_lookup_imap. eauto. }
    apply list_elem_of_lookup in Ht as [j Hj]. destruct (Forall2_lookup_l _ _ _ _ _ Hf Hj) as (l' & Hl' & Hd).
    unfold compose, downloaded, materialize_entry in Hd. cbn [fst snd] in Hd. rewrite Hpath in Hd.
    cbn [mbind result_bind me_local_path fst snd] in Hd.
    assert (l' = l) as -> by congruence.
    apply list_elem_of_In, in_concat. exists l. split; [|by apply list_elem_of_In].
    apply list_elem_of_In, list_elem_of_lookup. eauto.
  - intros e Hrow. apply list_elem_of_In, in_concat in Hrow as (l & Hl & Hrow). apply list_elem_of_In in Hl, Hrow.
    apply list_elem_of_lookup in Hl as [i Hi]. destruct (Forall2_lookup_r _ _ _ _ _ Hf Hi) as (t & _ & Hd).
    unfold compose, downloaded, decode_file in Hd. cbn [fst snd] in Hd.
    destruct (materialize_entry _ _ _ _ _) as [m|]; [|done]. cbn [mbind result_bind] in Hd.
    destruct (rows_at _) as [read|] eqn:Hread; [|done]. cbn [mbind result_bind] in Hd.
    destruct (family_from_key _) as [family|]; [|injection Hd as <-; by apply elem_of_nil in Hrow].
    apply try_map_ok_Forall2 in Hd. apply list_elem_of_lookup in Hrow as [j Hj].
    destruct (Forall2_lookup_r _ _ _ _ _ Hd Hj) as (row & Hat & Hdec).
    exists (me_local_path m.2), read, row. split_and!; [done|by eapply list_elem_of_lookup_2|].
    unfold decode_row in Hdec. destruct family; apply bind_ok in Hdec as (x & Hx & [=]). by subst.
Qed.

(** ** The two runs *)

(** A run of the sink that ends in a flush, without an error. *)
Record flushed_run (cfg : L0StorageConfig) (ops : list (Io * SinkOp)) (k : L0StorageSink) : Prop := {
  fr_calendar : calendar_ok;
  fr_flush : 0 < cf_flush_records cfg;
  fr_clean : Forall op_clean ops.*2;
  fr_room : zlen ops + 3 < int_max U64;
  fr_run : exists io, sink_run (ops ++ [(io, OpFlushAll)]) (sink_start cfg) = (Ok (), k);
}.

(** The settings of a live run over whole windows, and of the spool it looks at. *)
Record live_settings (args : NormalizeArgs) (input_range : InputRange) (n : nat) (root run : string) : Prop := {
  ls_windows : windowed args input_range n;
  ls_margins : 0 <= na_scan_margin_ms args /\ 0 <= na_clock_skew_margin_ms args;
  ls_start : 0 <= ir_start_ms (read_range_of args input_range);
  ls_root : root <> ""%string /\ ends_with "/" root = false;
  ls_run : quiet run;
  ls_dates : calendar_dates;
}.

(** A spot record of the range whose components can stand in a key. *)
Record watched_record (cfg : L0StorageConfig) (ops : list (Io * SinkOp)) (input_range : InputRange)
    (r : RawMarketEventRecord) : Prop := {
  wr_stored : ARaw r ∈ expected_records (cf_run_id cfg) 1 ops.*2;
  wr_quiet : quiet (rr_venue r) /\ quiet (rr_event_type r);
  wr_spot : is_derivative_market_event (raw_input r) = false;
  wr_positive : 0 < rr_exchange_timestamp_ms r;
  wr_time : ir_start_ms input_range <= rr_exchange_timestamp_ms r < ir_end_ms input_range;
}.

Lemma expected_raw run ordinal ops r : ARaw r ∈ expected_records run ordinal ops ->
  exists d o, r = raw_from_draft d run o.
Proof.
  revert ordinal. induction ops as [|op ops IH]; intros ordinal H; [by apply elem_of_nil in H|].
  cbn [expected_records] in H. destruct op; cbn [op_record] in H; rewrite ?elem_of_cons in H; naive_solver.
Qed.

(** What the sink wrote is acceptable to the builder. *)
Lemma record_in_slices cfg ops args input_range n root run r : live_settings args input_range n root run ->
  watched_record cfg ops input_range r -> in_slices args input_range (scan_range_of args input_range) (raw_input r) = true.
Proof.
  intros [[_ H0 _ _ Hmax] [Hm Hc] _ _ _ _] [Hst _ Hspot Hpos Ht].
  apply expected_raw in Hst as (d & o & ->). unfold in_slices. rewrite Hspot. unfold in_ranged, acceptable, payload_hash.
  cbn in Hpos, Ht |- *. rewrite String.eqb_refl. cbn [andb].
  repeat (apply andb_true_iff; split); rewrite ?Z.ltb_lt, ?Z.leb_le; try lia; try done.
  unfold saturate, scan_range_of in *. cbn in *. lia.
Qed.

Lemma record_spooled cfg ops args input_range n root run r part : live_settings args input_range n root run ->
  watched_record cfg ops input_range r ->
  spooled run (read_range_of args input_range) (raw_object_key (raw_partition_for r (cf_shard_count cfg)) run part).
Proof.
  intros [[_ H0 _ _ Hmax] [Hm _] _ _ _ _] [_ [Hv He] _ Hpos Ht]. apply spooled_raw; [done|done|].
  unfold read_range_of, scan_range_of, saturate. cbn in *. split; [|lia]. destruct (na_live_priority_only args); lia.
Qed.

(** The row of a watched record is among those a live build takes in. *)
Lemma record_is_read cfg ops k root spool finish_order args input_range n session b r :
  (forall l, finish_order l ≡ₚ l) -> flushed_run cfg ops k -> spooled_disk root (cf_run_id cfg) spool rows_at k ->
  live_settings args input_range n root (cf_run_id cfg) -> watched_record cfg ops input_range r ->
  build_live root spool finish_order args input_range session = Ok b ->
  exists md rows, b = finish (run_accumulator (V := V) args input_range (scan_range_of args input_range) md rows) /\
    RawRow (raw_input r) ∈ rows /\
    (forall e, RawRow e ∈ rows -> exists path read row, rows_at path = Ok read /\ row ∈ read /\
       raw_event_from_batch col_str col_i64 row = Ok e).
Proof.
  intros Ho [Hcal Hpos Hcl Hroom [io Hrun]] Hdisk Hset Hr Hb.
  destruct (flushed_record cfg ops io k r Hcal Hpos Hcl Hroom Hrun (wr_stored _ _ _ _ Hr)) as (part & records & Hin & Hfile).
  set (key := raw_object_key _ _ _) in *.
  destruct (sd_at _ _ _ _ _ Hdisk key records Hfile) as (Hat & file & Hw & Hrows).
  destruct (built_rows root spool finish_order args input_range session b Ho Hb) as (entries & rows & He & -> & Hread & Hback).
  destruct (live_entry list_keys root spool (cf_run_id cfg) key (read_range_of args input_range)
    (na_l0_run_key_overlap_ms args) entries) as (e & names & Hent & Hk & _ & Hpath & Hpar & Hown).
  - apply (ls_dates _ _ _ _ _ Hset).
  - apply (ls_root _ _ _ _ _ Hset).
  - apply (ls_root _ _ _ _ _ Hset).
  - apply (sd_plain _ _ _ _ _ Hdisk).
  - apply (sd_named _ _ _ _ _ Hdisk).
  - apply (ls_start _ _ _ _ _ Hset).
  - unfold read_range_of, scan_range_of, saturate. cbn. lia.
  - apply (ls_run _ _ _ _ _ Hset).
  - by eapply record_spooled.
  - exact Hat.
  - exact He.
  - rewrite (sd_own _ _ _ _ _ Hdisk key records names Hfile Hpar Hown) in Hpath.
    pose proof (names_valid _ _ _ (sd_named _ _ _ _ _ Hdisk) Hat) as [Hrn Hkn]%Forall_cons.
    rewrite sink_path_found in Hpath by done.
    destruct (raw_file_decodes records file e Hw) as (l & Hl & Hall); [by rewrite Hk|].
    rewrite <- Hrows in Hl. eexists _, rows. split; [done|]. split; [|exact Hback].
    by apply (Hread e _ l Hent Hpath Hl), Hall.
Qed.

(** C3: From the socket to the slice: when a watcher's run of the sink ends in a flush without
    an error, a live run of the normalizer over that spool that succeeds has a slice for
    every spot event the watcher appended within the range, of its venue, symbol and
    window; and the slice names the event among its parents if its payload can be used.
    Nothing is lost between the two processes, whatever the order in which files are read,
    as long as no other event goes by the same id. *)
Theorem watched_events_reach_their_slices (cfg : L0StorageConfig) (ops : list (Io * SinkOp)) (k : L0StorageSink)
    (root : string) (spool : Node) (finish_order : list nat -> list nat) (args : NormalizeArgs) (input_range : InputRange)
    (n : nat) (session : string) (b : @BuildResult F) (r : RawMarketEventRecord) :
  (forall l, finish_order l ≡ₚ l) ->
  flushed_run cfg ops k -> spooled_disk root (cf_run_id cfg) spool rows_at k ->
  live_settings args input_range n root (cf_run_id cfg) -> watched_record cfg ops input_range r ->
  (forall path read row e, rows_at path = Ok read -> row ∈ read -> raw_event_from_batch col_str col_i64 row = Ok e ->
     ri_event_id e = rr_event_id r -> e = raw_input r) ->
  build_live root spool finish_order args input_range session = Ok b ->
  exists s, s ∈ br_slices b /\ slice_of (raw_input r) s /\
    (usable (V := V) (raw_input r) = true -> rr_event_id r ∈ sl_parent_event_ids s).
Proof.
  intros Ho Hrun Hdisk Hset Hr Hids Hb.
  destruct (record_is_read cfg ops k root spool finish_order args input_range n session b r Ho Hrun Hdisk Hset Hr Hb)
    as (md & rows & -> & Hin & Hback).
  pose proof (record_in_slices cfg ops args input_range n root _ r Hset Hr) as Hsl.
  assert (Hacc : accepted_id args (scan_range_of args input_range) (RawRow (raw_input r)) = Some (rr_event_id r)).
  { unfold in_slices in Hsl. cbn [accepted_id]. by destruct (acceptable _ _ _). }
  assert (Hfirst : RawRow (raw_input r) ∈ first_seen args (scan_range_of args input_range) [] rows).
  { pose proof (first_seen_ids args (scan_range_of args input_range) [] rows (rr_event_id r)) as Hi.
    assert (Hid : rr_event_id r ∈ omap (accepted_id args (scan_range_of args input_range)) rows).
    { apply list_elem_of_omap. by exists (RawRow (raw_input r)). }
    destruct (proj2 Hi (or_introl Hid)) as [Hf|Hf]; [|by apply elem_of_nil in Hf].
    apply list_elem_of_omap in Hf as (x & Hx & Hid'). destruct x as [e| | |]; try done.
    cbn in Hid'. destruct (acceptable _ _ e); [|done]. injection Hid' as Hid'.
    destruct (Hback e) as (path & read & row & Hp & Hrow & Hdec); [by eapply first_seen_sub|].
    by rewrite <- (Hids path read row e Hp Hrow Hdec Hid'). }
  destruct (ls_windows _ _ _ _ _ Hset) as [H1 H2 H3 H4 H5].
  destruct (slices_account args input_range (scan_range_of args input_range) n md rows H1 H2 H3 H4 H5) as [Ha Hpar].
  destruct (Ha _ Hfirst Hsl) as (s & Hs & Hof). exists s. split; [done|]. split; [done|].
  intros Hu. apply (Hpar s _ Hs). by exists (raw_input r).
Qed.
End pipeline.

(** ** One trade, from the sink to its slice *)

#[local] Existing Instance L1BuildFacts.sample_lib.
#[local] Existing Instance L1BuildFacts.sample_float.
#[local] Existing Instance L1BuildFacts.sample_json.
#[local] Instance pipeline_hours : UtcHours (L := L1BuildFacts.sample_lib) := sample_hours_ok.

Definition pipeline_cfg : L0StorageConfig :=
  mkL0Config "bucket" "ap-northeast-2" None "/spool" "run-1" 2 4 None.
Definition pipeline_draft : RawMarketEventDraft := sample_draft "trade" 3600200 "p=50000;q=2".
(** Every upload times out. *)
Definition pipeline_ops : list (Io * SinkOp) := [(Sink.sample_io, OpRaw pipeline_draft)].
Definition pipeline_sink : L0StorageSink :=
  (sink_run (pipeline_ops ++ [(Sink.sample_io, OpFlushAll)]) (sink_start pipeline_cfg)).2.
Definition pipeline_record : RawMarketEventRecord := raw_from_draft pipeline_draft "run-1" 1.
Definition pipeline_key : string := raw_object_key (raw_partition_for pipeline_record 4) "run-1" 1.
Definition pipeline_names : list string := "run-1"%string :: split_char "/" pipeline_key.
Definition pipeline_range : InputRange := mkRange 3600000 3602000.

Definition pipeline_rows (path : string) : result StorageError (list (BatchRow (Batch := MemBatch))) :=
  if String.eqb path (path_join (path_join "/spool" "run-1") pipeline_key)
  then file ← write_raw_market_event_parquet [pipeline_record]; file_rows file
  else Err no_such_file.

Lemma one_file_only names below : at_path (one_file names) below RegularFile -> below = names.
Proof.
  revert below. induction names as [|name names IH]; intros below H; cbn in H.
  - by inversion H.
  - inversion H as [|name' child es e below' n Hin Hbelow]; subst. apply list_elem_of_singleton in Hin as [= -> ->].
    by rewrite (IH below').
Qed.

Lemma pipeline_disk : spooled_disk "/spool" "run-1" (one_file pipeline_names) pipeline_rows pipeline_sink.
Proof.
  destruct (one_file_ok pipeline_names) as (Hp & Hn & Ha); [unfold is_name; vm_decide|].
  assert (Hspool : fs_spool (sk_raw pipeline_sink) = [(pipeline_key, [pipeline_record])]) by by vm_compute.
  split; [done|done| |].
  - intros key records Hin. rewrite Hspool in Hin. apply list_elem_of_singleton in Hin as [= -> ->]. split; [exact Ha|].
    unfold pipeline_rows. rewrite String.eqb_refl.
    destruct (write_raw_market_event_parquet [pipeline_record]) as [file|] eqn:E; [by exists file|by vm_compute in E].
  - intros key records names Hin (dirs & name & -> & Hat & _) _. rewrite Hspool in Hin.
    apply list_elem_of_singleton in Hin as [= -> ->]. by apply one_file_only.
Qed.

(** A live run over that spool, with an empty bucket. *)
Definition pipeline_build : result StorageError (@BuildResult Z) :=
  read_and_build_slices (V := list (string * string)) (F := Z) col_str col_i64 col_bool (fun _ _ => Ok ())
    (fun _ => None) pipeline_rows (fun _ => Ok []) (local_files "/spool" (Some (one_file pipeline_names))) (fun l => l)
    sample_args pipeline_range (scan_range_of sample_args pipeline_range) (read_range_of sample_args pipeline_range)
    Live "s".

Lemma pipeline_flushed : flushed_run pipeline_cfg pipeline_ops pipeline_sink.
Proof.
  split; [|done|vm_decide|done|].
  - intros t date hour. cbn -[HOUR_MS Z.div Z.modulo]. intros [= <- <-]. split; [vm_decide|].
    by apply Z.mod_pos_bound.
  - exists Sink.sample_io. by vm_compute.
Qed.

Lemma pipeline_settings : live_settings sample_args pipeline_range 2 "/spool" "run-1".
Proof.
  split; [|done|done|done|vm_decide|intros t; vm_decide].
  constructor; cbn; try lia. by exists 3600.
Qed.

Lemma pipeline_watched : watched_record pipeline_cfg pipeline_ops pipeline_range pipeline_record.
Proof. split; [by left|split; vm_decide|done..]. Qed.

Lemma pipeline_own path read row e : pipeline_rows path = Ok read -> row ∈ read ->
  raw_event_from_batch col_str col_i64 row = Ok e -> e = raw_input pipeline_record.
Proof.
  unfold pipeline_rows. destruct (String.eqb _ _); [|done]. intros Hread Hrow He.
  assert (Hall : match (file ← write_raw_market_event_parquet [pipeline_record]; file_rows file) with
    | Ok read => Forall (fun row => raw_event_from_batch col_str col_i64 row = Ok (raw_input pipeline_record)) read
    | Err _ => True end) by (vm_compute; repeat constructor).
  rewrite Hread in Hall. rewrite Forall_forall in Hall. specialize (Hall row Hrow). congruence.
Qed.

Lemma watched_events_reach_their_slices_witness :
  exists b s, pipeline_build = Ok b /\ s ∈ br_slices b /\ slice_of (raw_input pipeline_record) s /\
    "evt_binance_trade_3600205_1"%string ∈ sl_parent_event_ids s.
Proof.
  destruct pipeline_build as [b|] eqn:Hb; [|by vm_compute in Hb].
  destruct (watched_events_reach_their_slices (V := list (string * string)) (F := Z) (fun _ _ => Ok ()) (fun _ => None)
    pipeline_rows (fun _ => Ok []) pipeline_cfg pipeline_ops pipeline_sink "/spool" (one_file pipeline_names) (fun l => l)
    sample_args pipeline_range 2 "s" b pipeline_record) as (s & Hs & Hof & Hid).
  - done.
  - exact pipeline_flushed.
  - exact pipeline_disk.
  - exact pipeline_settings.
  - exact pipeline_watched.
  - intros path read row e Hp Hrow Hdec _. by apply (pipeline_own path read row e).
  - exact Hb.
  - exists b, s. split; [reflexivity|]. split; [exact Hs|]. split; [exact Hof|].
    apply Hid. by vm_compute.
Defined.
