(* ===== verification/PublishFacts.v ===== *)
(** * PublishFacts: published runs can be read, and stay readable

    The keys of different runs and families differ, so a run disturbs no other; the
    pointers come last, so whatever upload fails no pointer dangles; and what a reader
    finds through the pointers of a successful run are the slices of the run. *)
From S2P Require Import Prelude Text OrderedMap Records NormalizeArgs L1Window L1Build.
From S2P Require Import L1BuildFacts Projection Regime ProjectionFacts Universe S3Client.
From S2P Require Import Admissible L1Publish Effects.
Open Scope Z_scope.

(** ** Keys *)

Definition rev_str (s : string) : string := of_bytes (rev (bytes s)).

Lemma bytes_rev_str s : bytes (rev_str s) = rev (bytes s).
Proof. unfold rev_str. by rewrite bytes_of_bytes. Qed.

Lemma rev_str_app a b : rev_str (a ++ b) = (rev_str b ++ rev_str a)%string.
Proof. unfold rev_str. by rewrite bytes_app, rev_app_distr, of_bytes_app. Qed.

Lemma rev_str_inj a b : rev_str a = rev_str b -> a = b.
Proof.
  intros H. apply bytes_inj. apply (f_equal bytes) in H. rewrite !bytes_rev_str in H.
  rewrite <- (rev_involutive (bytes a)), H. apply rev_involutive.
Qed.

Lemma str_app_inj_r a b s : (a ++ s = b ++ s)%string -> a = b.
Proof.
  intros H. apply (f_equal rev_str) in H. rewrite !rev_str_app in H.
  apply str_app_inj_l in H. by apply rev_str_inj.
Qed.

Lemma last_slash_inj a b r r' : no_slash r -> no_slash r' ->
  (a ++ String "/" r = b ++ String "/" r')%string -> r = r'.
Proof.
  intros Hr Hr' H. apply (f_equal rev_str) in H.
  change (String "/" r) with ("/" ++ r)%string in H. change (String "/" r') with ("/" ++ r')%string in H.
  rewrite !rev_str_app, !str_app_assoc in H. change (rev_str "/") with "/"%string in H.
  cbn [String.append] in H. apply app_sep_inj in H as [H _].
  - by apply rev_str_inj.
  - rewrite bytes_rev_str, <- in_rev. done.
  - rewrite bytes_rev_str, <- in_rev. done.
Qed.

Lemma no_slash_app a b : no_slash a -> no_slash b -> no_slash (a ++ b).
Proof. unfold no_slash. rewrite bytes_app, in_app_iff. tauto. Qed.

Ltac unfold_keys :=
  unfold manifest_object_key, report_object_key, market_data_quality_summary_object_key,
    market_feature_delta_object_key, market_feature_delta_summary_object_key,
    market_regime_context_object_key, symbol_universe_snapshot_object_key,
    symbol_universe_bootstrap_rollup_object_key, index_pointer_key in *.

Section keys.
Context {L : StorageLib}.

(** The objects of a run that its pointers lead to, and those it writes besides. *)
Inductive kept_key (id : string) : string -> Prop :=
| kept_manifest : kept_key id (manifest_object_key id)
| kept_report : kept_key id (report_object_key id)
| kept_slice venue start window : kept_key id (slice_object_key venue start window id).

Inductive run_key (id : string) : string -> Prop :=
| run_kept k : kept_key id k -> run_key id k
| run_quality : run_key id (market_data_quality_summary_object_key id)
| run_delta : run_key id (market_feature_delta_object_key id)
| run_delta_summary : run_key id (market_feature_delta_summary_object_key id)
| run_regime : run_key id (market_regime_context_object_key id)
| run_universe : run_key id (symbol_universe_snapshot_object_key id).

Lemma slice_key_tail venue start window id : exists a,
  slice_object_key venue start window id
  = (a ++ String "/" ("run_id=" ++ id ++ "-part-000001.parquet"))%string.
Proof.
  exists ("normalized_market_slice/venue=" ++ venue ++ "/" ++ hour_dir start ++ "window_ms="
          ++ show_Z window ++ "/shard=00")%string.
  unfold slice_object_key. by rewrite !str_app_assoc.
Qed.

Lemma slice_key_run v s w v' s' w' id id' : no_slash id -> no_slash id' ->
  slice_object_key v s w id = slice_object_key v' s' w' id' -> id = id'.
Proof.
  intros Hi Hi' H. destruct (slice_key_tail v s w id) as [a Ha], (slice_key_tail v' s' w' id') as [b Hb].
  rewrite Ha, Hb in H. apply last_slash_inj in H.
  - apply str_app_inj_l in H. by apply str_app_inj_r in H.
  - repeat apply no_slash_app; try done; by vm_decide.
  - repeat apply no_slash_app; try done; by vm_decide.
Qed.

Lemma framed_run p q id id' : (p ++ id ++ q = p ++ id' ++ q)%string -> id = id'.
Proof. intros H. apply str_app_inj_l in H. by apply str_app_inj_r in H. Qed.

Lemma kept_key_run id id' k : no_slash id -> no_slash id' -> kept_key id k -> run_key id' k -> id = id'.
Proof.
  intros Hi Hi' Hk Hr. revert Hk. remember k as k0 eqn:E in Hr. intros Hk.
  destruct Hr as [k0 Hk0| | | | |]; [destruct Hk0 as [| |v' s' w']|..]; destruct Hk as [| |v s w];
    unfold_keys; try discriminate; try (unfold slice_object_key in *; discriminate);
    try (symmetry; by eapply framed_run).
  symmetry. by eapply slice_key_run.
Qed.

Definition pointer_key (k : string) : Prop := exists window start, k = index_pointer_key window start.
Definition rollup_key (k : string) : Prop :=
  exists day, k = symbol_universe_bootstrap_rollup_object_key day.

Lemma kept_family id k : kept_key id k ->
  starts_with "runs/" k || starts_with "normalization_report/" k
  || starts_with "normalized_market_slice/" k = true.
Proof. by intros []. Qed.

Lemma kept_not_pointer id k : kept_key id k -> ~ pointer_key k.
Proof. intros Hk%kept_family (w & s & ->). discriminate. Qed.

Lemma kept_not_rollup id k : kept_key id k -> ~ rollup_key k.
Proof. intros Hk%kept_family (d & ->). discriminate. Qed.

Lemma run_not_pointer id k : run_key id k -> ~ pointer_key k.
Proof.
  intros [k' Hk| | | | |]; [by apply (kept_not_pointer id)|..]; intros (w & s & E); unfold_keys; discriminate.
Qed.

Lemma rollup_not_pointer k : rollup_key k -> ~ pointer_key k.
Proof. intros (d & ->) (w & s & E). unfold_keys. discriminate. Qed.

(** The last component of the key of a pointer names its window. *)
Lemma index_pointer_key_inj w s s' : index_pointer_key w s = index_pointer_key w s' -> s = s'.
Proof.
  unfold index_pointer_key, hour_dir. destruct (time_part s) as [d h], (time_part s') as [d' h'].
  intros H. assert (Hx : forall d h s, ("l1_index/window_ms=" ++ show_Z w ++ "/" ++
      ("event_date=" ++ d ++ "/hour=" ++ pad_zero 2 h ++ "/") ++ "window_start_ms=" ++ show_Z s ++ ".json"
    = ("l1_index/window_ms=" ++ show_Z w ++ "/event_date=" ++ d ++ "/hour=" ++ pad_zero 2 h)
      ++ String "/" ("window_start_ms=" ++ show_Z s ++ ".json"))%string).
  { intros. by rewrite !str_app_assoc. }
  rewrite !Hx in H. apply last_slash_inj in H.
  - apply str_app_inj_l in H. apply str_app_inj_r in H. by apply show_Z_inj.
  - repeat apply no_slash_app; try apply show_Z_no_slash; by vm_decide.
  - repeat apply no_slash_app; try apply show_Z_no_slash; by vm_decide.
Qed.

End keys.

(** ** Groups of slices *)

Section push_perm.
Context {A B K : Type} {c : KeyCmp K} {HK : StrictKey K}.
Context (key : A -> K) (val : A -> B).

Lemma bupdate_snoc_perm k (x : B) (m : btree K (list B)) : bmap_ok (fun _ => True) m ->
  List.concat (bvalues (bupdate k [] (fun g => g ++ [x])%list m)) ≡ₚ x :: List.concat (bvalues m).
Proof.
  intros Hm. unfold bupdate, bvalues. destruct (bget k m) as [g|] eqn:E.
  - rewrite (Permutation_map snd (binsert_perm_Some k g _ m E)).
    rewrite (Permutation_map snd (bget_perm k g m E)). cbn.
    rewrite <- List.app_assoc. cbn. symmetry. apply Permutation_middle.
  - rewrite (Permutation_map snd (binsert_perm_None k _ m E Hm)). done.
Qed.

(** Every element is in one group. *)
Lemma push_all_perm l : List.concat (bvalues (push_all key val l)) ≡ₚ map val l.
Proof.
  induction l as [|x l IH] using rev_ind; [done|].
  rewrite push_all_snoc, bupdate_snoc_perm by apply push_all_ok.
  rewrite IH, map_app. apply Permutation_cons_append.
Qed.
End push_perm.

Section grouped.
Context {L : StorageLib} {F : Type} {FO : Float F} {FM : FloatMath F}.
Abbreviation SliceRow := (SliceRow (F := F)).

Definition slice_key (run_id : string) (window_ms : Z) (s : SliceRow) : string :=
  slice_object_key (sl_venue s) (sl_window_start_ms s) window_ms run_id.

Lemma group_slices_push run_id window_ms (slices : list SliceRow) :
  group_slices run_id window_ms slices
  = push_all (fun x => slice_key run_id window_ms x.2) fst (imap (fun i s => (i, s)) slices).
Proof.
  unfold group_slices, push_all. generalize (imap (fun i s => (i, s)) slices) as l.
  assert (H : forall (l : list (nat * SliceRow)) (m : btree string (list nat)),
    fold_left (fun grouped '(index, slice) =>
      bupdate (slice_object_key (sl_venue slice) (sl_window_start_ms slice) window_ms run_id) []
        (fun l => l ++ [index])%list grouped) l m
    = fold_left (fun m x => bupdate (slice_key run_id window_ms x.2) [] (fun g => g ++ [x.1])%list m) l m);
    [|by intros]. induction l as [|[i s] l IH]; [done|]. intros m. cbn [fold_left]. apply IH.
Qed.

Lemma group_slices_ok run_id window_ms (slices : list SliceRow) :
  bmap_ok (fun _ => True) (group_slices run_id window_ms slices).
Proof. rewrite group_slices_push. apply push_all_ok. Qed.

Lemma group_slices_key run_id window_ms (slices : list SliceRow) k :
  k ∈ bkeys (group_slices run_id window_ms slices) <->
  exists s, s ∈ slices /\ k = slice_key run_id window_ms s.
Proof.
  rewrite <- bget_is_Some_keys by apply group_slices_ok. rewrite group_slices_push, bget_push_all.
  set (l := imap (fun i s => (i, s)) slices). set (p := fun x : nat * SliceRow => _).
  assert (Hs : is_Some (some_list (map fst (List.filter p l))) <-> exists x, x ∈ l /\ p x = true).
  { unfold some_list. destruct (List.filter p l) as [|x r] eqn:E; cbn.
    - split; [by intros [? ?]|]. intros (x & Hx & Hp).
      assert (Hin : In x (List.filter p l)) by (apply filter_In; by rewrite <- list_elem_of_In).
      rewrite E in Hin. done.
    - split; [|by eauto]. intros _. exists x.
      assert (Hin : In x (List.filter p l)) by (rewrite E; by left).
      apply filter_In in Hin as [Hin Hp]. by rewrite list_elem_of_In. }
  rewrite Hs. split.
  - intros ([i s] & Hx & Hp). exists s. split.
    + apply elem_of_lookup_imap in Hx as (j & y & E & Hj). cbn in E. simplify_eq. by apply list_elem_of_lookup_2 in Hj.
    + subst p. eapply reflect_iff in Hp; [exact Hp|apply key_eqb_spec].
  - intros (s & Hin & ->). apply list_elem_of_lookup_1 in Hin as [j Hj]. exists (j, s). split.
    + apply elem_of_lookup_imap. eauto.
    + subst p. cbn. apply key_eqb_refl.
Qed.

(** The rows of the groups are the rows of the run. *)
Lemma group_slices_rows run_id window_ms (slices : list SliceRow) :
  List.concat (map (rows_at slices) (bvalues (group_slices run_id window_ms slices))) ≡ₚ slices.
Proof.
  assert (H : forall ll : list (list nat), List.concat (map (rows_at slices) ll) = rows_at slices (List.concat ll)).
  { induction ll as [|l ll IH]; [done|]. cbn. rewrite IH. unfold rows_at. by rewrite omap_app. }
  rewrite H. unfold rows_at. rewrite group_slices_push.
  rewrite (push_all_perm (fun x => slice_key run_id window_ms x.2) fst).
  change (map fst) with (fmap (M := list) (A := nat * SliceRow) fst). rewrite fmap_imap.
  assert (Hg : forall l d : list SliceRow,
    omap (fun i => (d ++ l)%list !! i) (imap (fun i _ => (Datatypes.length d + i)%nat) l) = l).
  { induction l as [|s l IH]; [done|]. intros d. cbn. rewrite Nat.add_0_r, list_lookup_middle by done.
    f_equal. rewrite <- (IH (d ++ [s])%list) at 2. rewrite <- List.app_assoc. cbn. f_equal.
    apply imap_ext. intros i x _. rewrite List.length_app. cbn. lia. }
  match goal with |- ?a ≡ₚ _ => replace a with slices; [done|] end. symmetry. apply (Hg slices []).
Qed.
End grouped.

(** ** The bucket *)

Section bucket.
Context {L : StorageLib} {F : Type} {FO : Float F} {FM : FloatMath F} {BE : BuildEnv}.
Abbreviation SliceRow := (SliceRow (F := F)).
Abbreviation BuildResult := (BuildResult (F := F)).
Abbreviation Doc := (Doc (F := F)).
Context {W : Type} {OS : ObjectStore W Doc} {PE : PublishEnv (F := F) W}.
Context (bucket : string).

(** Documented behaviour of the service and of the files, for one writer: a write either
    happens or not, and it happened when it is answered with success; what a read returns
    is stored; the Parquet file of a group holds its rows. *)
Record StoreLaws (stored : W -> gmap string Doc) : Prop := {
  st_put : forall r w, pq_bucket r = bucket ->
    (stored (os_put r w).1 = stored w /\ forall u, (os_put r w).2 <> Ok u) \/
    stored (os_put r w).1 = <[pq_key r := pq_body r]> (stored w);
  st_head : forall k w, stored (os_head bucket k w).1 = stored w;
  st_get : forall k w, stored (os_get bucket k w).1 = stored w;
  st_get_ok : forall k w d, (os_get bucket k w).2 = Ok d -> stored w !! k = Some d;
  st_sleep : forall d w, stored (os_sleep d w) = stored w;
  st_log : forall m w, stored (pe_log m w).1 = stored w;
  st_verify : forall p d w, stored (pe_verify_file p d w).1 = stored w;
  st_parquet : forall p rows w, stored (pe_parquet p rows w).1 = stored w /\
    forall d, (pe_parquet p rows w).2 = Ok d -> d = SliceDoc rows;
}.

Context (stored : W -> gmap string Doc) (HS : StoreLaws stored).

(** *** What a computation may write *)

Definition wrote (K : string -> Prop) (s s' : gmap string Doc) : Prop :=
  forall k, ~ K k -> s' !! k = s !! k.

Lemma wrote_refl K s : wrote K s s.
Proof. done. Qed.
Lemma wrote_trans K s1 s2 s3 : wrote K s1 s2 -> wrote K s2 s3 -> wrote K s1 s3.
Proof. intros H1 H2 k Hk. by rewrite H2, H1. Qed.

Definition writes {E A} (K : string -> Prop) (m : io W E A) : Prop :=
  forall s, keeps (fun w => wrote K s (stored w)) m.

Lemma writes_run {E A} K (m : io W E A) w : writes K m -> wrote K (stored w) (stored (m w).1).
Proof. intros Hm. apply (keeps_run (fun w' => wrote K (stored w) (stored w')) m w (Hm _)), wrote_refl. Qed.

Lemma writes_silent {E A} K (m : io W E A) : (forall w, stored (m w).1 = stored w) -> writes K m.
Proof. intros Hm s w Hw. specialize (Hm w). destruct (m w) as [w' [a|e]]; cbn in *; by rewrite Hm. Qed.

Lemma writes_weaken {E A} (K K' : string -> Prop) (m : io W E A) :
  (forall k, K k -> K' k) -> writes K m -> writes K' m.
Proof.
  intros HK Hm s w Hw. pose proof (writes_run K m w Hm) as Hr.
  assert (Hx : wrote K' s (stored (m w).1)).
  { intros k Hk. rewrite Hr by auto. by apply Hw. }
  destruct (m w) as [w' [a|e]]; done.
Qed.

Lemma writes_ret {E A} K (a : A) : writes K (mret a : io W E A).
Proof. intros s. apply keeps_ret. Qed.
Lemma writes_of {E A} K (r : result E A) : writes K (io_of r : io W E A).
Proof. by apply writes_silent. Qed.
Lemma writes_bind {E A B} K (m : io W E A) (k : A -> io W E B) :
  writes K m -> (forall a, writes K (k a)) -> writes K (m ≫= k).
Proof. intros Hm Hk s. apply keeps_bind; [apply Hm|intros a; apply Hk]. Qed.
Lemma writes_fold {E A S'} K (f : S' -> A -> io W E S') s0 l :
  (forall s a, a ∈ l -> writes K (f s a)) -> writes K (io_fold f s0 l).
Proof. intros Hf s. apply keeps_fold. intros; by apply Hf. Qed.
Lemma writes_map_err {E E' A} K (f : E -> E') (m : io W E A) : writes K m -> writes K (io_map_err f m).
Proof. intros Hm s. apply keeps_map_err, Hm. Qed.
Lemma writes_try {E E' A} K (m : io W E A) : writes K m -> writes K (io_try (E' := E') m).
Proof.
  intros Hm s w Hw. specialize (Hm s w Hw). unfold io_try. by destruct (m w) as [w' [a|e]].
Qed.
Lemma writes_log K m : writes K (pe_log m).
Proof. apply writes_silent. intros w. apply (st_log _ HS). Qed.

(** *** Uploads *)

Lemma put_attempts_stored n attempt r w : pq_bucket r = bucket ->
  let '(w', res) := put_attempts bucket n attempt r w in
  (stored w' = stored w \/ stored w' = <[pq_key r := pq_body r]> (stored w)) /\
  (res = Ok () -> stored w' = <[pq_key r := pq_body r]> (stored w)).
Proof.
  intros Hb. revert attempt w. induction n as [|n IH]; intros attempt w; cbn [put_attempts]; [by split; [left|]|].
  pose proof (st_put _ HS r w Hb) as Hp. destruct (os_put r w) as [w1 [[]|e]]; cbn in Hp.
  - destruct Hp as [[_ Hp]|Hp]; [by destruct (Hp ())|]. by split; [right|].
  - assert (Hp' : stored w1 = stored w \/ stored w1 = <[pq_key r := pq_body r]> (stored w)) by tauto.
    destruct (_ || _); [by split|].
    specialize (IH (attempt + 1) (os_sleep (retry_delay attempt (pq_key r)) w1)).
    rewrite (st_sleep _ HS) in IH. destruct (put_attempts _ _ _ _ _) as [w' res].
    destruct IH as [H1 H2], Hp' as [Hq|Hq]; rewrite Hq in *; [done|].
    rewrite insert_insert_eq in *. split; [right; by destruct H1|done].
Qed.

Lemma put_request_key key body ct etag : pq_bucket (put_request bucket key body ct etag) = bucket /\
  pq_key (put_request bucket key body ct etag) = key /\
  pq_body (B := Doc) (put_request bucket key body ct etag) = body.
Proof. unfold put_request. destruct etag; [done|]. by destruct (_ && _). Qed.

(** An upload changes its key only, and a successful one has stored its body. *)
Definition uploads {E} (m : io W E ()) (key : string) (body : Doc) : Prop := forall w,
  let '(w', res) := m w in
  (stored w' = stored w \/ stored w' = <[key := body]> (stored w)) /\
  (res = Ok () -> stored w' = <[key := body]> (stored w)).

Lemma uploads_put key body ct etag :
  uploads (put_object_with_retry_guarded bucket key body ct etag) key body.
Proof.
  intros w. unfold put_object_with_retry_guarded.
  destruct (put_request_key key body ct etag) as (Hb & Hk & Hd).
  pose proof (put_attempts_stored (Z.to_nat MAX_PUT_OBJECT_ATTEMPTS) 1 _ w Hb) as H.
  by rewrite Hk, Hd in H.
Qed.

Lemma uploads_map_err {E E'} (f : E -> E') (m : io W E ()) key body :
  uploads m key body -> uploads (io_map_err f m) key body.
Proof.
  intros Hm w. specialize (Hm w). unfold io_map_err. destruct (m w) as [w' [[]|e]]; cbn.
  - split; [tauto|]. intros _. by apply Hm.
  - split; [tauto|done].
Qed.

Lemma uploads_json key body : uploads (storage (upload_json bucket key body)) key body.
Proof. apply uploads_map_err, uploads_put. Qed.

Lemma uploads_file key body : uploads (storage (upload_file bucket key (Ok body))) key body.
Proof. apply uploads_map_err, uploads_put. Qed.

Lemma uploads_pointer key body :
  uploads (storage (upload_json_if_pointer_current bucket key body)) key body.
Proof.
  apply uploads_map_err. intros w. unfold upload_json_if_pointer_current, head_etag.
  pose proof (st_head _ HS key w) as Hh. destruct (os_head bucket key w) as [w1 [etag|e]]; cbn in Hh.
  - pose proof (uploads_put key body "application/json" etag w1) as H. by rewrite Hh in H.
  - destruct (is_not_found_head_error e); [|by split; [left|]].
    pose proof (uploads_put key body "application/json" None w1) as H. by rewrite Hh in H.
Qed.

Lemma writes_uploads {E} (K : string -> Prop) (m : io W E ()) key body :
  uploads m key body -> K key -> writes K m.
Proof.
  intros Hm Hk s w Hw. specialize (Hm w).
  assert (Hx : wrote K s (stored (m w).1)).
  { destruct (m w) as [w' res]. cbn. destruct Hm as [[->| ->] _]; [done|].
    intros k Hn. rewrite lookup_insert_ne by congruence. by apply Hw. }
  destruct (m w) as [w' [a|e]]; done.
Qed.

(** A property of the bucket that an upload establishes. *)
Lemma triple_uploads {E} (m : io W E ()) key body (P Q : gmap string Doc -> Prop) :
  uploads m key body -> (forall s, P s -> Q (<[key := body]> s)) ->
  triple (fun w => P (stored w)) m (fun _ w => Q (stored w)) (fun w => P (stored w) \/ Q (stored w)).
Proof.
  intros Hm HQ w Hw. specialize (Hm w). destruct (m w) as [w' [[]|e]]; cbn in *.
  - rewrite (proj2 Hm) by done. auto.
  - destruct Hm as [[->| ->] _]; auto.
Qed.

(** *** The artifacts *)

Definition aux_key (id : string) (k : string) : Prop := (run_key id k /\ ~ kept_key id k) \/ rollup_key k.
Definition artifact_key (id : string) (k : string) : Prop := run_key id k \/ rollup_key k.

(** The groups of a run are stored. *)
Definition holds (id : string) (window_ms : Z) (slices : list SliceRow) (groups : list (string * list nat))
    (s : gmap string Doc) : Prop :=
  forall k rows, (k, rows) ∈ groups -> s !! k = Some (SliceDoc (rows_at slices rows)).

Lemma publish_slices_stored args id (slices : list SliceRow) :
  let groups := group_slices id (na_window_ms args) slices in
  triple (fun _ => True) (publish_slice_parquets bucket args id slices)
    (fun keys w => keys ≡ₚ bkeys groups /\ holds id (na_window_ms args) slices groups (stored w))
    (fun _ => True).
Proof.
  intros groups. unfold publish_slice_parquets. fold groups.
  assert (Hnd : NoDup (bkeys groups)) by (apply bkeys_NoDup, group_slices_ok).
  eapply triple_bind with (mid := fun keys w => keys = bkeys groups /\
    holds id (na_window_ms args) slices groups (stored w)).
  - eapply triple_weaken.
    + apply (triple_fold _ (fun d keys w => keys = bkeys d /\
        holds id (na_window_ms args) slices d (stored w)) (fun _ => True)).
      intros d [key rows] keys [rest Hpre].
      assert (Hfresh : key ∉ bkeys d).
      { unfold bkeys in Hnd. rewrite Hpre, !fmap_app, <- List.app_assoc in Hnd.
        apply NoDup_app in Hnd as (_ & Hn & _). intros Hin. apply (Hn _ Hin). cbn. by left. }
      intros w [-> Hh]. cbn. unfold mbind, io_bind.
      destruct (st_parquet _ HS (local_output_path (na_spool_root args) id key) (rows_at slices rows) w)
        as [Hp Hd]. destruct (pe_parquet _ _ w) as [w1 [file|e]]; [|done]. cbn in Hp, Hd.
      rewrite (Hd file eq_refl).
      pose proof (st_log _ HS "market_normalize_publishing" w1) as Hl.
      destruct (pe_log _ w1) as [w2 [[]|e]]; [|done]. cbn in Hl.
      pose proof (uploads_file key (SliceDoc (rows_at slices rows)) w2) as Hu.
      destruct (storage _ w2) as [w3 [[]|e]]; [|done]. destruct Hu as [_ Hu]. cbn.
      rewrite Hu, Hl, Hp by done. split.
      { unfold bkeys. by rewrite fmap_app. }
      intros k rs [Hin|Hin]%elem_of_app.
      * rewrite lookup_insert_ne; [by apply Hh|]. intros <-. apply Hfresh.
        apply list_elem_of_fmap. by exists (key, rs).
      * apply list_elem_of_singleton in Hin as [= -> ->]. apply lookup_insert_eq.
    + intros w _. split; [done|]. by intros k rs Hin%not_elem_of_nil.
    + done.
    + done.
  - intros keys. apply triple_ret. intros w [-> Hh]. split; [apply sort_by_perm|done].
Qed.

Lemma writes_slices args id (slices : list SliceRow) :
  writes (kept_key id) (publish_slice_parquets bucket args id slices).
Proof.
  apply writes_bind; [|intros; apply writes_ret]. apply writes_fold. intros s [key rows] Hin.
  assert (Hk : kept_key id key).
  { assert (Hx : key ∈ bkeys (group_slices id (na_window_ms args) slices)).
    { apply list_elem_of_fmap. by exists (key, rows). }
    apply group_slices_key in Hx as (row & _ & ->). constructor. }
  apply writes_bind; [apply writes_silent; intros w; apply (st_parquet _ HS)|]. intros file.
  apply writes_bind; [apply writes_log|]. intros _.
  apply writes_bind; [|intros; apply writes_ret].
  eapply writes_uploads; [apply uploads_file|done].
Qed.


Lemma aux_not_kept id id' k : aux_key id k -> no_slash id -> no_slash id' -> ~ kept_key id' k.
Proof.
  intros [[Hr Hn]|Hr] Hi Hi' Hk; [|by apply (kept_not_rollup id' k)].
  by pose proof (kept_key_run id' id k Hi' Hi Hk Hr) as ->.
Qed.

Ltac aux H := left; split; [apply H|intros Hk%kept_family; vm_compute in Hk; discriminate].

Lemma aux_quality id : aux_key id (market_data_quality_summary_object_key id).
Proof. aux run_quality. Qed.
Lemma aux_delta id : aux_key id (market_feature_delta_object_key id).
Proof. aux run_delta. Qed.
Lemma aux_delta_summary id : aux_key id (market_feature_delta_summary_object_key id).
Proof. aux run_delta_summary. Qed.
Lemma aux_regime id : aux_key id (market_regime_context_object_key id).
Proof. aux run_regime. Qed.
Lemma aux_universe id : aux_key id (symbol_universe_snapshot_object_key id).
Proof. aux run_universe. Qed.
Lemma aux_rollup id day : aux_key id (symbol_universe_bootstrap_rollup_object_key day).
Proof. right. by exists day. Qed.

Ltac writes_steps := repeat first
  [ apply writes_ret | apply writes_log | apply writes_of
  | apply writes_bind; [|intros ?]
  | eapply writes_uploads; [apply uploads_json|]; first
      [apply aux_quality|apply aux_delta|apply aux_delta_summary|apply aux_regime|apply aux_universe
      |apply aux_rollup] ].

Lemma writes_projections id r finished (build : BuildResult) (slices : list SliceRow) keys :
  writes (aux_key id) (publish_quality_summary bucket id r finished slices keys) /\
  writes (aux_key id) (publish_feature_deltas bucket id r finished build keys) /\
  writes (aux_key id) (publish_regime_contexts bucket id r finished build keys).
Proof.
  unfold publish_quality_summary, publish_feature_deltas, publish_regime_contexts.
  split_and!; writes_steps.
Qed.

Lemma writes_download_rollup K key :
  writes K (download_json_optional bucket (doc_rollup (F := F)) key).
Proof.
  apply writes_silent. intros w. unfold download_json_optional. pose proof (st_get _ HS key w) as H.
  by destruct (os_get bucket key w) as [w1 [d|e]].
Qed.

Lemma writes_read_rollups K r :
  writes K (read_recent_symbol_universe_bootstrap_rollups (F := F) bucket r).
Proof.
  apply writes_bind; [|intros; apply writes_ret]. apply writes_fold. intros s day _.
  apply writes_bind; [apply writes_try, writes_download_rollup|].
  intros [[rollup|]|[]]; try apply writes_ret; try (by apply writes_silent).
  all: apply writes_bind; [apply writes_try, writes_log|intros; apply writes_ret].
Qed.

Lemma writes_current_rollups id read current :
  writes (aux_key id) (publish_current_rollups (F := F) bucket read current).
Proof.
  unfold publish_current_rollups. apply writes_bind.
  { destruct (is_nil current); [apply writes_log|apply writes_ret]. }
  intros _. apply writes_bind; [|intros; apply writes_ret]. apply writes_fold. intros [r published] cur _.
  destruct (take_existing_rollup _ _) as [existing rest]. writes_steps.
Qed.

Lemma writes_bootstrap id r finished (build : BuildResult) keys :
  writes (aux_key id) (publish_bootstrap_rollup_and_universe bucket id r finished build keys).
Proof.
  unfold publish_bootstrap_rollup_and_universe.
  apply writes_bind; [apply writes_log|intros _].
  apply writes_bind; [apply writes_map_err, writes_read_rollups|intros read].
  apply writes_bind; [apply writes_log|intros _].
  apply writes_bind; [apply writes_current_rollups|intros rollups].
  apply writes_bind; [apply writes_log|intros _]. unfold publish_universe_snapshot. writes_steps.
Qed.

(** What the artifacts of a run are when it gets to its manifest. *)
Lemma publish_artifacts_stored args id r (build : BuildResult) finished : no_slash id ->
  let groups := group_slices id (na_window_ms args) (br_slices build) in
  triple (fun _ => True) (publish_artifacts bucket args id r build finished)
    (fun '(build', keys) w => br_slices build' = br_slices build /\ br_status build' = br_status build /\
       po_slice_output_keys keys ≡ₚ bkeys groups /\
       holds id (na_window_ms args) (br_slices build) groups (stored w))
    (fun _ => True).
Proof.
  intros Hid groups. unfold publish_artifacts.
  eapply triple_bind; [apply publish_slices_stored|]. intros outs.
  set (pre := fun w : W => outs ≡ₚ bkeys groups /\
    holds id (na_window_ms args) (br_slices build) groups (stored w)).
  assert (Hk : forall A (m : io W PublishError A), writes (aux_key id) m -> keeps pre m).
  { intros A m Hm w [Ho Hh]. pose proof (writes_run _ m w Hm) as Hr.
    assert (Hx : pre (m w).1).
    { split; [done|]. intros k rows Hin. rewrite Hr; [by apply Hh|]. intros Ha.
      apply (aux_not_kept id id k Ha Hid Hid).
      assert (Hx : k ∈ bkeys groups) by (apply list_elem_of_fmap; by exists (k, rows)).
      apply group_slices_key in Hx as (row & _ & ->). constructor. }
    by destruct (m w) as [w' [a|e]]. }
  destruct (writes_projections id r finished build (br_slices build) no_projections) as (H1 & _).
  eapply triple_bind; [eapply triple_weaken; [apply Hk, H1|done|intros ?? H; exact H|done]|].
  intros keys1. destruct (writes_projections id r finished build (br_slices build) keys1) as (_ & H2 & _).
  eapply triple_bind; [eapply triple_weaken; [apply Hk, H2|done|intros ?? H; exact H|done]|].
  intros keys2. destruct (writes_projections id r finished build (br_slices build) keys2) as (_ & _ & H3).
  eapply triple_bind with (mid := fun b w => pre w /\ br_slices b.1 = br_slices build /\
    br_status b.1 = br_status build).
  { intros w Hw. pose proof (Hk _ _ H3 w Hw) as Hp. revert Hp. unfold publish_regime_contexts.
    unfold mbind, io_bind. destruct (pe_log _ w) as [w1 [[]|e]]; [|done].
    destruct (storage _ w1) as [w2 [[]|e]]; [|done]. done. }
  intros [build' keys3]. cbn [fst snd].
  eapply triple_bind with (mid := fun _ w => pre w /\ br_slices build' = br_slices build /\
    br_status build' = br_status build).
  { intros w [Hw Hb]. pose proof (Hk _ _ (writes_bootstrap id r finished build' keys3) w Hw) as Hp.
    destruct (publish_bootstrap_rollup_and_universe _ _ _ _ _ _ w) as [w' [a|e]]; done. }
  intros keys4. apply triple_ret. intros w [[Ho Hh] [E1 E2]]. done.
Qed.

Lemma writes_artifacts args id r (build : BuildResult) finished :
  writes (artifact_key id) (publish_artifacts bucket args id r build finished).
Proof.
  assert (Ha : forall k, aux_key id k -> artifact_key id k) by (intros k [[]|]; [by left|by right]).
  assert (Hs : forall k, kept_key id k -> artifact_key id k) by (intros; left; by constructor).
  unfold publish_artifacts.
  apply writes_bind; [eapply writes_weaken, writes_slices; done|intros outs].
  apply writes_bind; [eapply writes_weaken, (writes_projections id); done|intros k1].
  apply writes_bind; [eapply writes_weaken, (writes_projections id); [done|exact []]|intros k2].
  apply writes_bind; [eapply writes_weaken, (writes_projections id); [done|exact []]|intros k3].
  apply writes_bind; [eapply writes_weaken, writes_bootstrap; done|intros k4]. apply writes_ret.
Qed.

(** *** Pointers and what they lead to *)

Definition backed (s : gmap string Doc) (p : L1IndexPointer) : Prop :=
  no_slash (ip_l1_run_id p) /\ ip_canonical_manifest_key p = manifest_object_key (ip_l1_run_id p) /\
  exists m r, s !! ip_canonical_manifest_key p = Some (ManifestDoc m) /\
    mf_report_key m = report_object_key (ip_l1_run_id p) /\ s !! mf_report_key m = Some (ReportDoc r) /\
    (forall k, k ∈ mf_output_object_keys m ->
       kept_key (ip_l1_run_id p) k /\ exists rows, s !! k = Some (SliceDoc rows)) /\
    (ip_status p = "success"%string -> forall a b,
       ip_indexed_window_start_ms p = Some a -> ip_indexed_window_end_ms p = Some b ->
       exists plan, build_read_plan p m r (ip_canonical_manifest_key p)
                      (normalized_market_slice (mkRange a b)) = Ok plan).

Definition all_backed (s : gmap string Doc) : Prop :=
  forall k p, pointer_key k -> s !! k = Some (PointerDoc p) -> backed s p.

(** No pointer names the run. *)
Definition fresh (id : string) (s : gmap string Doc) : Prop :=
  forall k p, pointer_key k -> s !! k = Some (PointerDoc p) -> ip_l1_run_id p <> id.

Lemma backed_kept s s' p : (forall k, kept_key (ip_l1_run_id p) k -> s' !! k = s !! k) ->
  backed s p -> backed s' p.
Proof.
  intros Hk (Hn & Hc & m & r & Hm & Hr & Hrd & Ho & Hp). split_and!; [done..|].
  exists m, r. rewrite Hc in *. rewrite Hr in *. rewrite !Hk by constructor. split_and!; [done..| |done].
  intros k Hin. destruct (Ho k Hin) as [Hkk Hs]. split; [done|]. by rewrite Hk.
Qed.

(** The keys of a run, its report and its manifest do not touch what other pointers lead to. *)
Lemma wrote_all_backed id s s' : no_slash id -> fresh id s -> wrote (artifact_key id) s s' ->
  all_backed s -> all_backed s' /\ fresh id s'.
Proof.
  intros Hid Hf Hw Ha.
  assert (Hp : forall k, pointer_key k -> s' !! k = s !! k).
  { intros k Hk. apply Hw. intros [Hr|Hr]; [by apply (run_not_pointer id k)|by apply (rollup_not_pointer k)]. }
  split; intros k p Hk; rewrite Hp by done; intros Hs; [|by apply (Hf k)].
  apply (backed_kept s); [|by apply (Ha k)]. intros k' Hk'. apply Hw.
  destruct (Ha k p Hk Hs) as [Hn _]. intros [Hr|Hr]; [|by apply (kept_not_rollup _ k' Hk')].
  apply (Hf k p Hk Hs). by apply (kept_key_run _ _ k').
Qed.

(** *** The report, the manifest and their pointers *)

Section documents_of_run.
Context (args : NormalizeArgs) (id : string) (rng : InputRange) (build : BuildResult)
  (timing : RunTiming) (keys : PublishedOutputKeys).

Definition run_report : NormalizationReport :=
  report build id rng timing (manifest_object_key id) keys.
Definition run_manifest : L1Manifest :=
  manifest run_report id rng (report_object_key id) keys timing.
Definition run_pointer (t : Z) : L1IndexPointer :=
  index_pointer_json (manifest_object_key id) id (rp_status run_report) (rt_finished_at_ms timing)
    rng t (na_window_ms args).

Lemma run_report_fields :
  rp_schema_version run_report = REPORT_SCHEMA_VERSION /\ rp_l1_run_id run_report = id /\
  rp_status run_report = br_status build /\ rp_input_time_range_start_ms run_report = ir_start_ms rng /\
  rp_input_time_range_end_ms run_report = ir_end_ms rng /\
  rp_schema_version_emitted run_report = SLICE_SCHEMA_VERSION /\
  rp_manifest_key run_report = manifest_object_key id /\
  rp_output_object_keys run_report = po_slice_output_keys keys /\
  rp_projections run_report = po_projections keys /\
  rp_slice_count_total run_report = zlen (br_slices build).
Proof.
  unfold run_report, report. destruct (fold_left _ _ _) as [[[c p] i] r]. by split_and!.
Qed.

Definition run_plan : L1ReadPlan :=
  let k := po_projections keys in
  mkReadPlan id (manifest_object_key id) (report_object_key id) (po_slice_output_keys keys)
    (pk_market_data_quality_summary_key k) (pk_market_feature_delta_key k)
    (pk_market_feature_delta_summary_key k) (pk_market_regime_context_key k)
    (pk_symbol_universe_snapshot_key k).

Lemma run_plan_ok t b : br_status build = "success"%string -> po_slice_output_keys keys <> [] ->
  ir_start_ms rng <= t -> b <= ir_end_ms rng ->
  build_read_plan (run_pointer t) run_manifest run_report (manifest_object_key id)
    (normalized_market_slice (mkRange t b)) = Ok run_plan.
Proof.
  intros Hs Ho Ht Hb. destruct run_report_fields as (E1 & E2 & E3 & E4 & E5 & E6 & E7 & E8 & E9 & E10).
  assert (Hr : forall f, map_err f (validate_time_range (ir_start_ms rng) (ir_end_ms rng)
      (mkRange t b)) = Ok () :> result L1AdmissibilityError ()).
  { intros f. unfold validate_time_range. cbn [ir_start_ms ir_end_ms].
    rewrite (proj2 (Z.leb_le _ _) Ht), (proj2 (Z.leb_le _ _) Hb). done. }
  unfold build_read_plan.
  assert (validate_pointer (run_pointer t) (normalized_market_slice (mkRange t b)) = Ok ()) as ->.
  { unfold validate_pointer, run_pointer, index_pointer_json, normalized_market_slice.
    cbn [ip_schema_version ip_status ip_schema_version_emitted rq_schema_version_emitted
      rq_input_range ip_input_time_range_start_ms ip_input_time_range_end_ms].
    rewrite E3, Hs, Hr. done. }
  assert (validate_manifest (run_pointer t) run_manifest (normalized_market_slice (mkRange t b)) = Ok ()) as ->.
  { unfold validate_manifest, run_manifest, manifest, run_pointer, index_pointer_json,
      normalized_market_slice.
    cbn [mf_schema_version mf_l1_run_id ip_l1_run_id mf_status mf_schema_version_emitted
      rq_schema_version_emitted mf_input_time_range_start_ms mf_input_time_range_end_ms rq_input_range
      mf_output_object_keys mf_output_record_count mf_slice_count_total].
    rewrite E3, Hs, Hr, !String.eqb_refl, Z.eqb_refl. by destruct (po_slice_output_keys keys). }
  assert (validate_report run_report run_manifest (manifest_object_key id) = Ok ()) as ->.
  { unfold validate_report. rewrite E1, E2, E3, E4, E5, E6, E7, E8, E9. unfold run_manifest, manifest.
    cbn [mf_l1_run_id mf_status mf_schema_version_emitted mf_input_time_range_start_ms
      mf_input_time_range_end_ms mf_output_object_keys mf_projections].
    rewrite E3, !String.eqb_refl, !Z.eqb_refl, !bool_decide_true by done. done. }
  done.
Qed.

(** The documents of the run are in the bucket. *)
Definition run_stored (s : gmap string Doc) : Prop :=
  s !! report_object_key id = Some (ReportDoc run_report) /\
  s !! manifest_object_key id = Some (ManifestDoc run_manifest) /\
  forall k, k ∈ po_slice_output_keys keys -> kept_key id k /\ exists rows, s !! k = Some (SliceDoc rows).

Lemma run_pointer_backed s t : no_slash id -> run_stored s ->
  (br_status build = "success"%string -> po_slice_output_keys keys <> []) ->
  ir_start_ms rng <= t -> t + na_window_ms args <= ir_end_ms rng ->
  0 <= t -> 0 < na_window_ms args -> ir_end_ms rng <= int_max I64 ->
  backed s (run_pointer t).
Proof.
  intros Hid (Hr & Hm & Ho) Hne Ht Hb H0 Hw Hmax. split_and!; [done..|].
  exists run_manifest, run_report. split_and!; [done..|].
  intros Hs a b [= <-] [= <-]. exists run_plan. cbn [run_pointer index_pointer_json ip_canonical_manifest_key].
  destruct run_report_fields as (_ & _ & E3 & _). cbn in Hs. rewrite E3 in Hs.
  apply run_plan_ok; [done|by apply Hne|done|]. rewrite saturate_id; [done|].
  unfold in_range. cbn in *. lia.
Qed.
End documents_of_run.

Lemma wrote_run_stored id rng build timing keys K s s' :
  (forall k, K k -> ~ kept_key id k) -> wrote K s s' ->
  run_stored id rng build timing keys s -> run_stored id rng build timing keys s'.
Proof.
  intros HK Hw (Hr & Hm & Ho).
  assert (Hk : forall k, kept_key id k -> s' !! k = s !! k) by (intros k Hk; apply Hw; intros H; by apply (HK k)).
  split_and!; [rewrite Hk by constructor; done..|]. intros k Hin. destruct (Ho k Hin) as [Hkk Hs].
  by rewrite Hk.
Qed.

Section index.
Context (args : NormalizeArgs) (id : string) (s0 : Z) (n : nat) (build : BuildResult)
  (timing : RunTiming) (keys : PublishedOutputKeys).
Let rng : InputRange := mkRange s0 (s0 + Z.of_nat n * na_window_ms args).
Context (Hid : no_slash id) (Hw : 0 < na_window_ms args) (Hs0 : 0 <= s0)
  (Hmax : s0 + Z.of_nat n * na_window_ms args <= int_max I64)
  (Hne : br_status build = "success"%string -> po_slice_output_keys keys <> []).
Let pkey (t : Z) : string := index_pointer_key (na_window_ms args) t.
Let ptr (t : Z) : L1IndexPointer := run_pointer args id rng build timing keys t.
Let ready (s : gmap string Doc) : Prop := run_stored id rng build timing keys s.

Lemma windows_in_range t : t ∈ windows s0 (na_window_ms args) n ->
  s0 <= t /\ t + na_window_ms args <= s0 + Z.of_nat n * na_window_ms args.
Proof.
  unfold windows. intros (i & -> & Hi)%list_elem_of_fmap. apply elem_of_seq in Hi. nia.
Qed.

Lemma pointer_upload_keeps_backed s t : t ∈ windows s0 (na_window_ms args) n ->
  ready s -> all_backed s -> all_backed (<[pkey t := PointerDoc (ptr t)]> s).
Proof.
  intros Ht Hr Ha. apply windows_in_range in Ht.
  assert (Hp : pointer_key (pkey t)) by (eexists _, _; reflexivity).
  assert (Hwr : wrote pointer_key s (<[pkey t := PointerDoc (ptr t)]> s)).
  { intros k Hk. apply lookup_insert_ne. by intros <-. }
  assert (Hr' : ready (<[pkey t := PointerDoc (ptr t)]> s)).
  { revert Hr. apply (wrote_run_stored _ _ _ _ _ pointer_key); [|done].
    intros k Hk Hkk. by apply (kept_not_pointer id k). }
  intros k p Hk. destruct (decide (k = pkey t)) as [->|Hn].
  - rewrite lookup_insert_eq. intros [= <-]. apply run_pointer_backed; cbn; (lia || done).
  - rewrite lookup_insert_ne by done. intros Hs. apply (backed_kept s); [|by apply (Ha k)].
    intros k' Hk'. apply Hwr. intros Hpk. by apply (kept_not_pointer _ k' Hk').
Qed.

Lemma publish_index_stored order s : (forall l, order l ≡ₚ l) -> ready s ->
  let starts := windows s0 (na_window_ms args) n in
  triple (fun w => wrote pointer_key s (stored w) /\ all_backed (stored w))
    (publish_index_pointers bucket order args (manifest_object_key id) id
       (rp_status (run_report id rng build timing keys)) (rt_finished_at_ms timing) rng)
    (fun _ w => wrote pointer_key s (stored w) /\ all_backed (stored w) /\
       forall t, t ∈ starts -> stored w !! pkey t = Some (PointerDoc (ptr t)))
    (fun w => all_backed (stored w)).
Proof.
  intros Hord Hr starts. unfold publish_index_pointers.
  assert (Hst : index_window_starts rng (na_window_ms args) = starts) by by apply index_window_starts_all.
  rewrite Hst.
  eapply triple_bind with (mid := fun results w => wrote pointer_key s (stored w) /\
    all_backed (stored w) /\ (Forall (eq (Ok ())) results -> forall t, t ∈ starts ->
      stored w !! pkey t = Some (PointerDoc (ptr t)))).
  - eapply triple_weaken.
    + apply (triple_fold _ (fun d results w => wrote pointer_key s (stored w) /\ all_backed (stored w) /\
        (Forall (eq (Ok ())) results -> forall t, t ∈ d -> stored w !! pkey t = Some (PointerDoc (ptr t))))
        (fun _ => False)).
      intros d t results [rest Hpre] w (Hwr & Ha & Hall). unfold mbind, io_bind, io_try.
      change (index_pointer_json _ _ _ _ _ t _) with (ptr t).
      assert (Ht : t ∈ starts).
      { rewrite <- (Hord starts), Hpre, <- List.app_assoc. apply elem_of_app. right. by left. }
      assert (Hrd : ready (stored w)).
      { revert Hr. apply (wrote_run_stored _ _ _ _ _ pointer_key); [|done].
        intros k Hk Hkk. by apply (kept_not_pointer id k). }
      pose proof (uploads_pointer (pkey t) (PointerDoc (ptr t)) w) as Hu. fold (pkey t).
      destruct (storage _ w) as [w' res]. cbn. destruct Hu as [Hu Hok].
      assert (Hins : wrote pointer_key s (<[pkey t := PointerDoc (ptr t)]> (stored w))).
      { intros k Hk. rewrite lookup_insert_ne; [by apply Hwr|]. intros <-. apply Hk. by eexists _, _. }
      pose proof (pointer_upload_keeps_backed _ _ Ht Hrd Ha) as Hback.
      split_and!; [destruct Hu as [->| ->]; done..|].
      intros [Hres Hlast]%Forall_app t' Hin. inversion Hlast as [|? ? Hl _]; subst.
      rewrite Hok by done. destruct (decide (t' = t)) as [->|Hn]; [by rewrite lookup_insert_eq|].
      rewrite lookup_insert_ne; [|intros E; apply Hn; by apply index_pointer_key_inj in E].
      apply Hall; [done|]. apply elem_of_app in Hin as [Hin|Hin]; [done|]. by apply list_elem_of_singleton in Hin.
    + intros w [Hwr Ha]. split_and!; [done..|]. by intros _ t ?%not_elem_of_nil.
    + intros results w (Hwr & Ha & Hall). split_and!; [done..|]. intros Hf t Ht. apply Hall; [done|].
      by rewrite Hord.
    + done.
  - intros results w (Hwr & Ha & Hall). cbn. unfold io_of.
    destruct (try_map (fun r => r) results) as [us|e] eqn:E; [|done]. cbn.
    split_and!; [done..|]. apply Hall. apply try_map_ok_Forall2 in E. clear -E.
    induction E as [|r [] results us Hr]; constructor; done.
Qed.

Lemma writes_verify K p key : writes K (storage (verify_manifest (F := F) bucket p id key)).
Proof.
  apply writes_map_err. apply writes_bind.
  { apply writes_silent. intros w. pose proof (st_get _ HS key w) as Hg.
    by destruct (os_get bucket key w) as [w1 [d|e]]. }
  intros body. apply writes_bind; [apply writes_silent; intros w; apply (st_verify _ HS)|].
  intros d. apply writes_bind; [apply writes_of|]. intros m. apply writes_of.
Qed.

Lemma keeps_writes {E A} K (m : io W E A) (P : gmap string Doc -> Prop) exit :
  writes K m -> (forall s s', wrote K s s' -> P s -> P s') -> (forall s, P s -> exit s) ->
  triple (fun w => P (stored w)) m (fun _ w => P (stored w)) (fun w => exit (stored w)).
Proof.
  intros Hm HP He w Hw'. pose proof (writes_run K m w Hm) as Hr.
  assert (Hx : P (stored (m w).1)) by by eapply HP. destruct (m w) as [w' [a|e]]; auto.
Qed.

(** The documents of the run are written after its slices and before its pointers. *)
Lemma publish_manifest_stored order s : (forall l, order l ≡ₚ l) ->
  all_backed s -> fresh id s ->
  (forall k, k ∈ po_slice_output_keys keys ->
     (exists v t window, k = slice_object_key v t window id) /\ exists rows, s !! k = Some (SliceDoc rows)) ->
  triple (fun w => stored w = s)
    (publish_manifest_and_index bucket order args id rng build timing keys)
    (fun _ w => all_backed (stored w) /\
       wrote (fun k => k = report_object_key id \/ k = manifest_object_key id \/ pointer_key k) s (stored w) /\
       (should_publish_index_pointers (br_status build) = true -> ready (stored w) /\
          forall t, t ∈ windows s0 (na_window_ms args) n -> stored w !! pkey t = Some (PointerDoc (ptr t))))
    (fun w => all_backed (stored w)).
Proof.
  intros Hord Hback Hfresh Hout. unfold publish_manifest_and_index.
  set (own := fun k => k = report_object_key id \/ k = manifest_object_key id).
  assert (Hown : forall s', wrote own s s' -> all_backed s').
  { intros s' Hs'. apply (wrote_all_backed id s); [done..| |done]. intros k Hk. apply Hs'.
    intros [->| ->]; apply Hk; left; repeat constructor. }
  assert (Hslices : forall s', wrote own s s' -> forall k, k ∈ po_slice_output_keys keys ->
      kept_key id k /\ exists rows, s' !! k = Some (SliceDoc rows)).
  { intros s' Hs' k Hin. destruct (Hout k Hin) as [(v & t & window & ->) [rows Hr]].
    split; [constructor|]. exists rows. rewrite Hs'; [done|].
    intros [E|E]; unfold_keys; unfold slice_object_key in *; discriminate. }
  set (P1 := fun s' : gmap string Doc => wrote own s s' /\
    s' !! report_object_key id = Some (ReportDoc (run_report id rng build timing keys))).
  set (P2 := fun s' : gmap string Doc => P1 s' /\ ready s').
  assert (H1 : forall s', P1 s' -> all_backed s') by (intros s' []; auto).
  assert (H2 : forall s', P2 s' -> all_backed s') by (intros s' []; auto).
  eapply triple_bind with (mid := fun _ w => P1 (stored w)).
  { eapply triple_weaken; [eapply (triple_uploads _ _ _ (fun s' => s' = s) P1); [apply uploads_json|]| | |].
    - intros s' ->. split; [|apply lookup_insert_eq]. intros k Hk. apply lookup_insert_ne.
      intros <-. apply Hk. by left.
    - done.
    - done.
    - intros w [-> |?]; auto. }
  intros _. eapply triple_bind with (mid := fun _ w => P2 (stored w)).
  { eapply triple_weaken; [eapply (triple_uploads _ _ _ P1 P2); [apply uploads_json|]| | |].
    - intros s' [Hw1 Hr].
      assert (Hw' : wrote own s (<[manifest_object_key id := ManifestDoc (run_manifest id rng build timing keys)]> s')).
      { intros k Hk. rewrite lookup_insert_ne; [by apply Hw1|]. intros <-. apply Hk. by right. }
      assert (Hr' : <[manifest_object_key id := ManifestDoc (run_manifest id rng build timing keys)]> s'
          !! report_object_key id = Some (ReportDoc (run_report id rng build timing keys))).
      { rewrite lookup_insert_ne; [done|]. unfold_keys. discriminate. }
      split; [split; [exact Hw'|exact Hr']|]. split; [exact Hr'|]. split; [apply lookup_insert_eq|by apply Hslices].
    - done.
    - done.
    - intros w [?|?]; auto. }
  intros _. eapply triple_bind with (mid := fun _ w => P2 (stored w)).
  { apply (keeps_writes (fun _ => False)); [apply writes_verify| |auto]. intros s1 s2 Hw12 [[Ha Hb] Hc].
    assert (E : forall k, s2 !! k = s1 !! k) by (intros k; apply Hw12; tauto).
    split; [split; [intros k Hk; rewrite E; by apply Ha|by rewrite E]|].
    revert Hc. by apply (wrote_run_stored _ _ _ _ _ (fun _ => False)). }
  intros _. set (post := fun w : W => all_backed (stored w) /\
    wrote (fun k => k = report_object_key id \/ k = manifest_object_key id \/ pointer_key k) s (stored w) /\
    (should_publish_index_pointers (br_status build) = true -> ready (stored w) /\
       forall t, t ∈ windows s0 (na_window_ms args) n -> stored w !! pkey t = Some (PointerDoc (ptr t)))).
  assert (Hlog : forall m, triple post (pe_log m) (fun _ => post) (fun w => all_backed (stored w))).
  { intros m w Hp. pose proof (st_log _ HS m w) as Hl.
    destruct (pe_log m w) as [w' [[]|e]]; cbn in Hl; unfold post in *; rewrite Hl; tauto. }
  eapply triple_bind with (mid := fun _ => post).
  2:{ intros ?. eapply triple_bind; [apply Hlog|]. intros ?. apply Hlog. }
  destruct (should_publish_index_pointers
    (rp_status (report build id rng timing (manifest_object_key id) keys))) eqn:Ep.
  - intros w HP2. assert (Hrd := proj2 HP2).
    assert (Hin : wrote pointer_key (stored w) (stored w) /\ all_backed (stored w)) by (split; [apply wrote_refl|by apply H2]).
    pose proof (publish_index_stored order (stored w) Hord Hrd w Hin) as Hx.
    unfold run_report in Hx. destruct (publish_index_pointers _ _ _ _ _ _ _ _ w) as [w' [z|e]]; [|exact Hx].
    destruct Hx as (Hwr & Hb & Hall). split_and!; [done| |].
    + intros k Hk. rewrite Hwr by tauto. apply HP2. intros [?|?]; tauto.
    + intros _. split; [|done]. revert Hrd. apply (wrote_run_stored _ _ _ _ _ pointer_key); [|done].
      intros k Hk Hkk. by apply (kept_not_pointer id k).
  - apply triple_ret. intros w HP2. split_and!; [auto| |].
    + intros k Hk. apply HP2. intros [?|?]; tauto.
    + intros Hs. exfalso. destruct (run_report_fields id rng build timing keys) as (_ & _ & E3 & _).
      unfold run_report in E3. by rewrite E3, Hs in Ep.
Qed.
End index.

(** *** A whole run *)

Lemma list_nonempty_elem {A} (l : list A) : l <> [] -> exists x, x ∈ l.
Proof. destruct l as [|x l]; [done|]. exists x. by left. Qed.

Lemma group_slice_key id window (slices : list SliceRow) k :
  k ∈ bkeys (group_slices id window slices) -> exists v t w, k = slice_object_key v t w id.
Proof. intros (s & _ & ->)%group_slices_key. by eexists _, _, _. Qed.

Lemma publish_outputs_stored order args id s0 n (build : BuildResult) started finished w :
  no_slash id -> 0 < na_window_ms args -> 0 <= s0 ->
  s0 + Z.of_nat n * na_window_ms args <= int_max I64 -> (forall l, order l ≡ₚ l) ->
  (br_status build = "success"%string -> br_slices build <> []) ->
  all_backed (stored w) -> fresh id (stored w) ->
  let rng := mkRange s0 (s0 + Z.of_nat n * na_window_ms args) in
  let groups := group_slices id (na_window_ms args) (br_slices build) in
  let timing := mkTiming started finished in
  let '(w', res) := publish_outputs bucket order args id rng build started finished w in
  all_backed (stored w') /\
  (res = Ok () -> should_publish_index_pointers (br_status build) = true -> exists build' keys,
     br_status build' = br_status build /\
     (br_status build = "success"%string -> po_slice_output_keys keys ≡ₚ bkeys groups /\
        holds id (na_window_ms args) (br_slices build) groups (stored w')) /\
     run_stored id rng build' timing keys (stored w') /\
     forall t, t ∈ windows s0 (na_window_ms args) n ->
       stored w' !! index_pointer_key (na_window_ms args) t
       = Some (PointerDoc (run_pointer args id rng build' timing keys t))).
Proof.
  intros Hid Hw Hs0 Hmax Hord Hne Hback Hfresh rng groups timing. unfold publish_outputs.
  unfold mbind, io_bind. destruct (String.eqb_spec (br_status build) "success") as [Hs|Hs].
  - pose proof (publish_artifacts_stored args id rng build finished Hid w I) as Ha.
    pose proof (writes_run _ _ w (writes_artifacts args id rng build finished)) as Hwr.
    destruct (publish_artifacts _ _ _ _ _ _ w) as [w1 [[build' keys]|e]]; cbn in Hwr.
    2:{ split; [|done]. by apply (wrote_all_backed id (stored w)). }
    destruct (wrote_all_backed id (stored w) (stored w1)) as [Hb1 Hf1]; [done..|].
    destruct Ha as (E1 & E2 & Hk & Hh). cbn [fst snd].
    assert (Hnil : po_slice_output_keys keys <> []).
    { intros E. rewrite E in Hk. apply Permutation_nil in Hk. apply Hne in Hs.
      destruct (list_nonempty_elem _ Hs) as [row Hrow].
      assert (Hx : slice_key id (na_window_ms args) row
        ∈ bkeys (group_slices id (na_window_ms args) (br_slices build))) by (apply group_slices_key; eauto).
      rewrite Hk in Hx. by apply not_elem_of_nil in Hx. }
    assert (Hout : forall k, k ∈ po_slice_output_keys keys ->
       (exists v t window, k = slice_object_key v t window id) /\
       exists rows, stored w1 !! k = Some (SliceDoc rows)).
    { intros k Hin. rewrite Hk in Hin. split; [by eapply group_slice_key|].
      apply list_elem_of_fmap in Hin as ([k' rows] & -> & Hin). eauto. }
    pose proof (publish_manifest_stored args id s0 n build' timing keys Hid Hw Hs0 Hmax (fun _ => Hnil)
      order (stored w1) Hord Hb1 Hf1 Hout w1 eq_refl) as Hm.
    destruct (publish_manifest_and_index _ _ _ _ _ _ _ _ w1) as [w' [[]|e]]; [|by split].
    destruct Hm as (Hb & Hwm & Hsucc). split; [done|]. intros _ Hpub. exists build', keys.
    rewrite E2 in Hsucc. destruct (Hsucc Hpub) as [Hrd Hp]. split_and!; [done| |done|done].
    intros _. split; [done|]. intros k rows Hin. rewrite Hwm; [by apply Hh|].
    assert (Hx : k ∈ bkeys groups) by (apply list_elem_of_fmap; by exists (k, rows)).
    apply group_slice_key in Hx as (v & t & wd & ->).
    intros [E|[E|E]]; [unfold_keys; unfold slice_object_key in *; discriminate..|].
    by apply (kept_not_pointer id _ (kept_slice id v t wd)).
  - cbn [mret io_ret fst snd].
    assert (Hout : forall k, k ∈ po_slice_output_keys (mkPublished [] no_projections) ->
       (exists v t window, k = slice_object_key v t window id) /\
       exists rows, stored w !! k = Some (SliceDoc rows)) by (by intros k Hk%not_elem_of_nil).
    pose proof (publish_manifest_stored args id s0 n build timing (mkPublished [] no_projections)
      Hid Hw Hs0 Hmax (fun E => False_ind _ (Hs E)) order (stored w) Hord Hback Hfresh Hout w eq_refl) as Hm.
    unfold mret, io_ret. cbn [fst snd].
    destruct (publish_manifest_and_index _ _ _ _ _ _ _ _ w) as [w' [[]|e]]; [|by split].
    split; [tauto|]. intros _ Hpub. destruct Hm as (_ & _ & Hsucc).
    exists build, (mkPublished [] no_projections). destruct (Hsucc Hpub) as [Hrd Hp].
    by split_and!.
Qed.

(** *** Reading it back *)

Context (through_file : string -> Doc -> io W L1ReaderError Doc).

(** Reads succeed: stored objects are returned, and a file holds what was written. *)
Record Readable : Prop := {
  rd_get : forall k w d, stored w !! k = Some d -> (os_get bucket k w).2 = Ok d;
  rd_file : forall k d w, stored (through_file k d w).1 = stored w /\ (through_file k d w).2 = Ok d;
}.
Context (HR : Readable).

Lemma download_stored {T} (decode : Doc -> option T) key d v w :
  stored w !! key = Some d -> decode d = Some v ->
  exists w', download_json bucket through_file decode key w = (w', Ok v) /\ stored w' = stored w.
Proof.
  intros Hs Hd. unfold download_json, get_object, mbind, io_bind.
  pose proof (rd_get HR key w d Hs) as Hg. pose proof (st_get _ HS key w) as Hw.
  destruct (os_get bucket key w) as [w1 r]. cbn in Hg, Hw. subst r.
  destruct (rd_file HR key d w1) as [Hf1 Hf2]. destruct (through_file key d w1) as [w2 r]. cbn in *. subst r.
  exists w2. unfold io_of. rewrite Hd. split; [done|congruence].
Qed.

Lemma read_plan_stored window rng p m r plan w :
  stored w !! index_pointer_key window (ir_start_ms rng) = Some (PointerDoc p) ->
  stored w !! ip_canonical_manifest_key p = Some (ManifestDoc m) ->
  stored w !! mf_report_key m = Some (ReportDoc r) ->
  build_read_plan p m r (ip_canonical_manifest_key p) (normalized_market_slice rng) = plan ->
  exists w', read_plan bucket through_file window rng w = (w', map_err ReaderAdmissibility plan) /\
    stored w' = stored w.
Proof.
  intros Hp Hm Hr Hplan. unfold read_plan, mbind, io_bind.
  destruct (download_stored (doc_pointer (L1Docs := Doc_L1Docs)) _ _ p w Hp eq_refl) as (w1 & -> & E1).
  rewrite <- E1 in Hm, Hr.
  destruct (download_stored (doc_manifest (L1Docs := Doc_L1Docs)) _ _ m w1 Hm eq_refl) as (w2 & -> & E2).
  rewrite <- E2 in Hr.
  destruct (download_stored (doc_report (L1Docs := Doc_L1Docs)) _ _ r w2 Hr eq_refl) as (w3 & -> & E3).
  exists w3. unfold io_of. rewrite Hplan. split; [done|congruence].
Qed.

(** The rows a bucket holds under a list of keys. *)
Definition slices_at (s : gmap string Doc) (keys : list string) : list SliceRow :=
  List.concat (map (fun k => match s !! k with Some (SliceDoc rows) => rows | _ => [] end) keys).

Lemma slices_at_groups id window (slices : list SliceRow) keys s :
  let groups := group_slices id window slices in
  keys ≡ₚ bkeys groups -> holds id window slices groups s -> slices_at s keys ≡ₚ slices.
Proof.
  intros groups Hk Hh. unfold slices_at. rewrite Hk. unfold bkeys.
  transitivity (List.concat (map (rows_at slices) (bvalues groups))); [|apply group_slices_rows].
  assert (E : forall l : list (string * list nat), (forall k rows, (k, rows) ∈ l ->
      s !! k = Some (SliceDoc (rows_at slices rows))) ->
    map (fun k => match s !! k with Some (SliceDoc rows) => rows | _ => [] end) l.*1
    = map (rows_at slices) l.*2).
  { induction l as [|[k rows] l IH]; intros Hl; [done|]. cbn [fmap list_fmap map fst snd].
    rewrite (Hl k rows) by by left. f_equal. apply IH. intros; apply Hl; by right. }
  unfold bvalues. by rewrite (E groups Hh).
Qed.
End bucket.

(** ** What publishing promises *)

(** What a published run assumes: an identifier without a separator, whole windows of
    milliseconds after the epoch, and slices when it succeeded. *)
Record PublishedRun {F : Type} {FO : Float F} (args : NormalizeArgs) (id : string) (s0 : Z) (n : nat)
    (order : list Z -> list Z) (build : BuildResult (F := F)) : Prop := {
  pr_id : no_slash id;
  pr_window : 0 < na_window_ms args;
  pr_start : 0 <= s0;
  pr_end : s0 + Z.of_nat n * na_window_ms args <= int_max I64;
  pr_order : forall l, order l ≡ₚ l;
  pr_slices : br_status build = "success"%string -> br_slices build <> [];
}.

Section promises.
Context {L : StorageLib} {F : Type} {FO : Float F} {FM : FloatMath F} {BE : BuildEnv}.
Abbreviation Doc := (Doc (F := F)).
Context {W : Type} {OS : ObjectStore W Doc} {PE : PublishEnv (F := F) W}.

(** C5: whatever upload of a run fails, and in whatever order its pointers are written, every
    index pointer of the bucket leads to a manifest, a report and slices that are stored,
    and a reader of a window whose pointer says success gets a plan: pointers come last,
    and a run touches no object another run's pointers lead to. *)
Theorem published_pointers_stay_readable (bucket : string) (stored : W -> gmap string Doc)
    (args : NormalizeArgs) (id : string) (s0 : Z) (n : nat) (order : list Z -> list Z)
    (build : BuildResult (F := F)) (started finished : Z) (w : W)
    (HS : StoreLaws bucket stored)
    (Hrun : PublishedRun args id s0 n order build)
    (Hfresh : fresh id (stored w))
    (Hback : all_backed (stored w)) :
  let rng := mkRange s0 (s0 + Z.of_nat n * na_window_ms args) in
  all_backed (stored (publish_outputs bucket order args id rng build started finished w).1).
Proof.
  intros rng. destruct Hrun.
  pose proof (publish_outputs_stored bucket stored HS order args id s0 n build started finished w) as H.
  cbn zeta in H. fold rng in H.
  destruct (publish_outputs bucket order args id rng build started finished w) as [w' res]. by apply H.
Qed.

(** C6: when a successful run reports success, a reader of any of its windows finds the plan of
    this run, and the slice objects of the plan hold exactly the slices the builder made. *)
Theorem successful_run_reads_back (bucket : string) (stored : W -> gmap string Doc)
    (through_file : string -> Doc -> io W L1ReaderError Doc)
    (args : NormalizeArgs) (id : string) (s0 : Z) (n : nat) (order : list Z -> list Z)
    (build : BuildResult (F := F)) (started finished t : Z) (w w' : W)
    (HS : StoreLaws bucket stored) (HR : Readable bucket stored through_file)
    (Hrun : PublishedRun args id s0 n order build)
    (Hfresh : fresh id (stored w)) (Hback : all_backed (stored w))
    (Hsuccess : br_status build = "success"%string)
    (Hpub : publish_outputs bucket order args id
              (mkRange s0 (s0 + Z.of_nat n * na_window_ms args)) build started finished w = (w', Ok ()))
    (Ht : t ∈ windows s0 (na_window_ms args) n) :
  exists w'' plan,
    read_plan bucket through_file (na_window_ms args) (mkRange t (t + na_window_ms args)) w' = (w'', Ok plan) /\
    pl_l1_run_id plan = id /\
    slices_at (stored w') (pl_output_object_keys plan) ≡ₚ br_slices build.
Proof.
  destruct Hrun.
  pose proof (publish_outputs_stored bucket stored HS order args id s0 n build started finished w) as H.
  cbn zeta in H. rewrite Hpub in H.
  destruct H as (_ & build' & keys & E & Hk & Hst & Hp); [done..|by rewrite Hsuccess|].
  destruct (Hk Hsuccess) as [Hkeys Hholds]. pose proof (windows_in_range args s0 n pr_window0 t Ht) as Hin.
  assert (Hne : po_slice_output_keys keys <> []).
  { intros E0. pose proof (slices_at_groups _ _ _ _ _ Hkeys Hholds) as Hsl. rewrite E0 in Hsl.
    apply Permutation_nil in Hsl. by apply pr_slices0. }
  assert (Hplan := run_plan_ok args id (mkRange s0 (s0 + Z.of_nat n * na_window_ms args)) build'
    (mkTiming started finished) keys t (t + na_window_ms args) (eq_trans E Hsuccess) Hne
    ltac:(cbn; lia) ltac:(cbn; lia)).
  destruct Hst as (Hr & Hm & Ho).
  edestruct (read_plan_stored bucket stored HS through_file HR (na_window_ms args)
    (mkRange t (t + na_window_ms args))) as (w'' & Hread & _); [exact (Hp t Ht)|exact Hm|exact Hr|exact Hplan|].
  exists w'', (run_plan id keys). split_and!; [exact Hread|done|]. by eapply slices_at_groups.
Qed.

(** C40: a run that found nothing publishes pointers too: it replaces whatever the index held
    for its windows, and a reader of any of them is refused with the status "empty". *)
Theorem empty_run_takes_over_its_windows (bucket : string) (stored : W -> gmap string Doc)
    (through_file : string -> Doc -> io W L1ReaderError Doc)
    (args : NormalizeArgs) (id : string) (s0 : Z) (n : nat) (order : list Z -> list Z)
    (build : BuildResult (F := F)) (started finished t : Z) (w w' : W)
    (HS : StoreLaws bucket stored) (HR : Readable bucket stored through_file)
    (Hrun : PublishedRun args id s0 n order build)
    (Hfresh : fresh id (stored w)) (Hback : all_backed (stored w))
    (Hempty : br_status build = "empty"%string)
    (Hpub : publish_outputs bucket order args id
              (mkRange s0 (s0 + Z.of_nat n * na_window_ms args)) build started finished w = (w', Ok ()))
    (Ht : t ∈ windows s0 (na_window_ms args) n) :
  exists w'',
    read_plan bucket through_file (na_window_ms args) (mkRange t (t + na_window_ms args)) w'
    = (w'', Err (ReaderAdmissibility (PointerNotSuccess "empty"))).
Proof.
  destruct Hrun.
  pose proof (publish_outputs_stored bucket stored HS order args id s0 n build started finished w) as H.
  cbn zeta in H. rewrite Hpub in H.
  destruct H as (_ & build' & keys & E & _ & Hst & Hp); [done..|by rewrite Hempty|].
  destruct Hst as (Hr & Hm & Ho).
  edestruct (read_plan_stored bucket stored HS through_file HR (na_window_ms args)
    (mkRange t (t + na_window_ms args))) as (w'' & Hread & _);
    [exact (Hp t Ht)|exact Hm|exact Hr|reflexivity|]. exists w''. rewrite Hread.
  unfold build_read_plan, validate_pointer, run_pointer, index_pointer_json.
  destruct (run_report_fields id (mkRange s0 (s0 + Z.of_nat n * na_window_ms args)) build'
    (mkTiming started finished) keys) as (_ & _ & E4 & _).
  cbn [ip_schema_version ip_status]. rewrite E4, E, Hempty. done.
Qed.
End promises.

(** ** Witnesses *)

#[local] Existing Instance sample_lib.
#[local] Existing Instance sample_float.
#[local] Existing Instance sample_math.
#[local] Instance sample_build_env : BuildEnv :=
  {| be_git_sha := None; be_git_dirty := None; be_debug_assertions := true |}.

(** A bucket that accepts [fst] more writes. *)
Definition SampleBucket : Type := nat * gmap string (Doc (F := Z)).

#[local] Instance sample_bucket_store : ObjectStore SampleBucket (Doc (F := Z)) := {|
  os_put r w := match w with
    | (Datatypes.S n, s) => ((n, <[pq_key r := pq_body r]> s), Ok ())
    | (O, s) => (w, Err (mkServiceError (Some "AccessDenied"%string) None ""))
    end;
  os_head _ _ w := (w, Ok None);
  os_get _ k w := (w, ok_or (w.2 !! k) (mkServiceError (Some "NoSuchKey"%string) None ""));
  os_list _ w := (w, Ok (mkListOutput [] None None));
  os_delete _ _ w := (w, Ok ());
  os_sleep _ w := w;
|}.

#[local] Instance sample_publish_env : PublishEnv (F := Z) SampleBucket := {|
  pe_parquet _ rows w := (w, Ok (SliceDoc rows));
  pe_verify_file _ d w := (w, Ok d);
  pe_log _ w := (w, Ok ());
|}.

Lemma sample_store_laws : StoreLaws (F := Z) "bucket" (snd (A := nat)).
Proof.
  split; try done.
  - intros r [[|n] s] _; [left|by right]. by split.
  - intros k w d. cbn. by destruct (w.2 !! k); [intros [= ->]|].
  - intros p rows w. split; [done|]. by intros d [= <-].
Qed.

Lemma sample_readable : Readable (F := Z) "bucket" (snd (A := nat)) (fun _ d w => (w, Ok d)).
Proof. split; [|done]. intros k w d E. cbn. by rewrite E. Qed.

Definition sample_build (status : string) (slices : list (SliceRow (F := Z))) : BuildResult (F := Z) :=
  mkBuild slices slices [] [] "live" false 1 0 2 0 0 0 [] status None.

Definition sample_rows : list (SliceRow (F := Z)) :=
  [sample_slice "binance" "BTCUSDT" "BTC" 3600000 100 5; sample_slice "upbit" "KRW-BTC" "BTC" 3600000 101 2;
   sample_slice "binance" "ETHUSDT" "ETH" 3600000 40 9; sample_slice "binance" "BTCUSDT" "BTC" 3601000 120 7].

#[local] Abbreviation sample_run status slices w :=
  (publish_outputs "bucket" (fun l => l) sample_args "run"
    (mkRange 3600000 (3600000 + Z.of_nat 2 * na_window_ms sample_args)) (sample_build status slices) 5 9 w).

Lemma sample_published status slices : (status = "success"%string -> slices <> []) ->
  PublishedRun sample_args "run" 3600000 2 (fun l => l) (sample_build status slices).
Proof. intros Hs. by split; [unfold no_slash; vm_decide|..]. Qed.

Lemma sample_empty_bucket (n : nat) : fresh (F := Z) "run" (((n, ∅) : SampleBucket).2) /\
  all_backed (F := Z) (((n, ∅) : SampleBucket).2).
Proof. by split; intros k p _ Hk. Qed.

Lemma pair_of_snd {A B} (p : A * B) b : p.2 = b -> p = (p.1, b).
Proof. by intros <-; destruct p. Qed.

(** The seventh upload is refused. *)
Lemma published_pointers_stay_readable_witness :
  (sample_run "success" sample_rows (6%nat, ∅)).2 <> Ok () /\
  all_backed (F := Z) (sample_run "success" sample_rows (6%nat, ∅)).1.2.
Proof.
  split; [by vm_compute|].
  apply (published_pointers_stay_readable "bucket" (snd (A := nat)) sample_args "run" 3600000 2 (fun l => l)
    (sample_build "success" sample_rows) 5 9 (6%nat, ∅) sample_store_laws
    (sample_published "success" sample_rows ltac:(done)));
    apply sample_empty_bucket.
Defined.

Lemma successful_run_reads_back_witness : exists w'' plan,
  read_plan "bucket" (fun _ d w => (w, Ok d)) (na_window_ms sample_args)
    (mkRange 3601000 (3601000 + na_window_ms sample_args)) (sample_run "success" sample_rows (99%nat, ∅)).1
  = (w'', Ok plan) /\ pl_l1_run_id plan = "run"%string /\
  slices_at (F := Z) (sample_run "success" sample_rows (99%nat, ∅)).1.2 (pl_output_object_keys plan)
  ≡ₚ sample_rows.
Proof.
  apply (successful_run_reads_back "bucket" (snd (A := nat)) (fun _ d w => (w, Ok d)) sample_args "run"
    3600000 2 (fun l => l) (sample_build "success" sample_rows) 5 9 3601000 (99%nat, ∅)
    (sample_run "success" sample_rows (99%nat, ∅)).1 sample_store_laws sample_readable
    (sample_published "success" sample_rows ltac:(done)));
    [apply sample_empty_bucket..|reflexivity|apply pair_of_snd; vm_compute; reflexivity|vm_compute; right; left].
Defined.

Lemma empty_run_takes_over_its_windows_witness : exists w'',
  read_plan "bucket" (fun _ d w => (w, Ok d)) (na_window_ms sample_args)
    (mkRange 3600000 (3600000 + na_window_ms sample_args)) (sample_run "empty" [] (99%nat, ∅)).1
  = (w'', Err (ReaderAdmissibility (PointerNotSuccess "empty"))).
Proof.
  apply (empty_run_takes_over_its_windows "bucket" (snd (A := nat)) (fun _ d w => (w, Ok d)) sample_args "run"
    3600000 2 (fun l => l) (sample_build "empty" []) 5 9 3600000 (99%nat, ∅)
    (sample_run "empty" [] (99%nat, ∅)).1 sample_store_laws sample_readable
    (sample_published "empty" [] ltac:(done)));
    [apply sample_empty_bucket..|reflexivity|apply pair_of_snd; vm_compute; reflexivity|vm_compute; left].
Defined.
