(* ===== verification/IndexSearch.v ===== *)
(** * IndexSearch: the discovery finds the newest success

    The keys of index pointers are text, and [normalize/discovery/pointer.rs] takes the
    greatest key of the newest hour for the newest window.  For windows of 3.6 seconds and
    more, whose pointers of an hour fit one page, and times of thirteen digits, that is
    right: the search answers the end of the newest success of the index, however many
    pointers without success follow it. *)
From stdpp Require Import sorting.
From Stdlib Require Import Sorting.Sorted.
From S2P Require Import Prelude Text OrderedMap Records NormalizeArgs L1Window L1Inputs L1Build.
From S2P Require Import Admissible L1Publish PublishFacts.
Open Scope Z_scope.
Open Scope list_scope.

(** ** Numbers of the same length are ordered as texts *)

Lemma digits_value_acc acc l : digits_value acc l = acc * 10 ^ zlen l + digits_value 0 l.
Proof.
  revert acc. induction l as [|x l IH]; intros acc; cbn [digits_value].
  { change (zlen (@nil ascii)) with 0. lia. }
  rewrite (IH (10 * acc + _)), (IH (10 * 0 + _)). unfold zlen. cbn [Datatypes.length].
  rewrite Nat2Z.inj_succ, Z.pow_succ_r by lia. lia.
Qed.

Lemma digit_val_bound x : is_digit x = true -> 0 <= digit_val x < 10.
Proof. unfold is_digit, digit_val. intros H. bool_prop. lia. Qed.

Lemma digits_value_bound l : forallb is_digit l = true -> 0 <= digits_value 0 l < 10 ^ zlen l.
Proof.
  induction l as [|x l IH]; cbn [forallb digits_value]; [done|]. intros H. bool_prop.
  specialize (IH ltac:(done)). pose proof (digit_val_bound x ltac:(done)). rewrite digits_value_acc.
  unfold zlen in *. cbn [Datatypes.length]. rewrite Nat2Z.inj_succ, Z.pow_succ_r by lia. nia.
Qed.

Lemma str_cmp_cons x y a b : str_cmp (String x a) (String y b) =
  match N.compare (N_of_ascii x) (N_of_ascii y) with Eq => str_cmp a b | c => c end.
Proof. done. Qed.

Lemma str_cmp_prefix p a b : str_cmp (p ++ a) (p ++ b) = str_cmp a b.
Proof.
  induction p as [|x p IH]; [done|]. change (String x p ++ ?s)%string with (String x (p ++ s)).
  by rewrite str_cmp_cons, N.compare_refl.
Qed.

Lemma digits_order l l' t t' : Datatypes.length l = Datatypes.length l' ->
  forallb is_digit l = true -> forallb is_digit l' = true -> digits_value 0 l < digits_value 0 l' ->
  str_cmp (of_bytes l ++ t) (of_bytes l' ++ t') = Lt.
Proof.
  revert l'. induction l as [|x l IH]; intros [|y l'] Hlen Hd Hd'; try done; cbn [digits_value].
  cbn in Hlen, Hd, Hd'. bool_prop. injection Hlen as Hlen. rewrite (digits_value_acc _ l), (digits_value_acc _ l').
  pose proof (digits_value_bound l ltac:(done)). pose proof (digits_value_bound l' ltac:(done)).
  assert (zlen l = zlen l') as E by (unfold zlen; by rewrite Hlen). rewrite E in *. intros Hlt.
  change (of_bytes (?x :: ?l) ++ ?s)%string with (String x (of_bytes l ++ s)). rewrite str_cmp_cons.
  assert (Hxy : digit_val x <= digit_val y) by nia. unfold digit_val, byte_val in *.
  destruct (N.compare_spec (N_of_ascii x) (N_of_ascii y)) as [Exy| |]; [|done|lia].
  apply IH; try done. rewrite Exy in Hlt. lia.
Qed.

Lemma show_digits_length fuel k n acc : (k < fuel)%nat ->
  10 ^ Z.of_nat k <= n < 10 ^ Z.of_nat (Datatypes.S k) ->
  Datatypes.length (show_digits fuel n acc) = (Datatypes.S k + Datatypes.length acc)%nat.
Proof.
  revert k n acc. induction fuel as [|fuel IH]; intros k n acc Hk Hn; [lia|]. cbn [show_digits].
  destruct k as [|k].
  - change (10 ^ Z.of_nat 1) with 10 in Hn. by destruct (Z.ltb_spec n 10); [|lia].
  - rewrite !Nat2Z.inj_succ, !Z.pow_succ_r in Hn by lia.
    assert (1 <= 10 ^ Z.of_nat k) by (apply (Z.pow_le_mono_r 10 0); lia).
    destruct (Z.ltb_spec n 10); [lia|]. rewrite (IH k); [cbn; lia|lia|].
    rewrite Nat2Z.inj_succ, Z.pow_succ_r by lia. pose proof (Z.div_mod n 10). pose proof (Z.mod_pos_bound n 10). lia.
Qed.

Lemma show_fuel_above k n : 10 ^ Z.of_nat k <= n -> (k < show_fuel n)%nat.
Proof.
  intros Hn. assert (0 < 10 ^ Z.of_nat k) by lia. pose proof (show_fuel_enough n ltac:(lia)).
  assert (Z.of_nat k < Z.of_nat (show_fuel n)); [|lia]. apply (Z.pow_lt_mono_r_iff 10); lia.
Qed.

Lemma show_Z_order k a b t t' : 10 ^ Z.of_nat k <= a < b -> b < 10 ^ Z.of_nat (Datatypes.S k) ->
  str_cmp (show_Z a ++ t) (show_Z b ++ t') = Lt.
Proof.
  intros Ha Hb. assert (0 < 10 ^ Z.of_nat k) by lia. unfold show_Z.
  destruct (Z.ltb_spec a 0); [lia|]. destruct (Z.ltb_spec b 0); [lia|].
  destruct (show_nonneg_digits a ltac:(lia)) as (Hda & _ & Hva).
  destruct (show_nonneg_digits b ltac:(lia)) as (Hdb & _ & Hvb). unfold show_nonneg in *.
  rewrite bytes_of_bytes in *. apply digits_order; try done; [|lia].
  rewrite !(show_digits_length _ k); [done|apply show_fuel_above|..|apply show_fuel_above|]; lia.
Qed.

(** ** Pointers of an hour *)

(** Times in milliseconds of thirteen digits: from September 2001 to November 2286. *)
Definition dated (t : Z) : Prop := 1000000000000 <= t < 10000000000000.

(** The calendar, until 2286: every moment has a date and an hour, those of its hour, and
    two hours never have the same. *)
Class Calendar {L : StorageLib} : Prop := {
  cal_hours :: UtcHours;
  cal_known : forall t, 0 <= t < 10000000000000 ->
    exists date hour, utc_date_hour t = Some (date, hour) /\ no_slash date /\ 0 <= hour;
  cal_differ : forall t u, 0 <= t < 10000000000000 -> 0 <= u < 10000000000000 ->
    utc_date_hour t = utc_date_hour u -> t / HOUR_MS = u / HOUR_MS;
}.

Section hours.
Context {L : StorageLib} {HC : Calendar}.

Definition index_root (window_ms : Z) : string := ("l1_index/window_ms=" ++ show_Z window_ms ++ "/")%string.

Lemma pad_zero_no_slash w z : 0 <= z -> no_slash (pad_zero w z).
Proof using Type. intros Hz. apply digits_free; [done|]. by apply pad_zero_digits. Qed.

(** The keys under the prefix of an hour are those of its windows. *)
Lemma hour_prefix_iff window t h : 0 <= t < 10000000000000 -> 0 <= h < 10000000000000 ->
  starts_with (l1_pointer_hour_prefix window h) (index_pointer_key window t) = true <-> t / HOUR_MS = h / HOUR_MS.
Proof.
  intros Ht Hh. unfold l1_pointer_hour_prefix, index_pointer_key, hour_dir, time_part. split.
  - destruct (cal_known t Ht) as (d & x & Et & Hd & Hx), (cal_known h Hh) as (d' & x' & Eh & Hd' & Hx').
    rewrite Et, Eh. cbn [default from_option id]. intros H. apply starts_with_inv in H as [r H].
    rewrite !str_app_assoc in H. do 3 apply str_app_inj_l in H. apply str_app_inj_l in H.
    change ("/hour=" ++ ?s)%string with (String "/" ("hour=" ++ s)) in H.
    apply component_inj in H as [-> H]; [|done..].
    change ("/" ++ ?s)%string with (String "/" s) in H.
    apply app_sep_inj in H as [E _]; [|by apply pad_zero_no_slash..]. apply pad_zero_inj in E; [|done..]. subst.
    apply cal_differ; [done..|]. congruence.
  - intros E. rewrite (utc_hours t), (utc_hours h) by lia. rewrite E. destruct (default _ _) as [d x].
    rewrite <- !str_app_assoc. rewrite !str_app_assoc. 
    match goal with |- starts_with ?p ?k = true => enough (exists r, k = (p ++ r)%string) as [r ->]
      by apply starts_with_app end.
    exists ("window_start_ms=" ++ show_Z t ++ ".json")%string. by rewrite !str_app_assoc.
Qed.

Lemma pointer_key_json window t : ends_with ".json" (index_pointer_key window t) = true.
Proof using Type. unfold index_pointer_key. rewrite <- !str_app_assoc. apply ends_with_app. Qed.

Lemma hour_prefix_root window h k : starts_with (l1_pointer_hour_prefix window h) k = true ->
  starts_with (index_root window) k = true.
Proof using Type.
  intros [r ->]%starts_with_inv. unfold l1_pointer_hour_prefix, index_root.
  match goal with |- starts_with ?p ?k = true => enough (exists r, k = (p ++ r)%string) as [r' ->]
    by apply starts_with_app end.
  eexists. by rewrite !str_app_assoc.
Qed.

(** Within an hour, the keys are ordered as their windows. *)
Lemma pointer_key_order window t u : dated t -> dated u -> t / HOUR_MS = u / HOUR_MS ->
  str_cmp (index_pointer_key window t) (index_pointer_key window u) = Lt -> t < u.
Proof.
  intros Ht Hu E. unfold index_pointer_key, hour_dir, time_part, dated in *.
  rewrite (utc_hours t), (utc_hours u), E by lia. destruct (default _ _) as [d x].
  rewrite !str_app_assoc, !str_cmp_prefix. intros H.
  destruct (Z.lt_trichotomy t u) as [|[->|Hlt]]; [done|by rewrite str_cmp_refl in H|].
  assert (Hx : forall a b, str_cmp (show_Z u ++ a) (show_Z t ++ b) = Lt).
  { intros. apply (show_Z_order 12); cbn; lia. }
  rewrite str_cmp_sym, Hx in H. done.
Qed.

(** The windows of an hour that start at multiples of the window. *)
Definition hour_windows (window h : Z) : list Z :=
  map (fun i => ((h * HOUR_MS + window - 1) / window + Z.of_nat i) * window) (seq 0 1000).

Lemma hour_windows_elem window t : 0 < window -> HOUR_MS <= 1000 * window -> (window | t) ->
  t ∈ hour_windows window (t / HOUR_MS).
Proof using Type.
  intros Hw H [k ->]. unfold hour_windows. set (h := _ / HOUR_MS).
  pose proof (Z.div_mod (k * window) HOUR_MS). pose proof (Z.mod_pos_bound (k * window) HOUR_MS ltac:(done)).
  fold h in H0. set (c := (h * HOUR_MS + window - 1) / window).
  assert (Hc : c <= k) by (apply Z.lt_succ_r, Z.div_lt_upper_bound; [done|]; unfold HOUR_MS in *; lia).
  assert (h * HOUR_MS <= c * window).
  { pose proof (Z.div_mod (h * HOUR_MS + window - 1) window). pose proof (Z.mod_pos_bound (h * HOUR_MS + window - 1) window).
    fold c in H2. lia. }
  apply list_elem_of_fmap. exists (Z.to_nat (k - c)). split; [f_equal; lia|].
  apply elem_of_seq.
  assert (k - c < 1000); [|lia]. unfold HOUR_MS in *. nia.
Qed.

(** An hour's pointers fit a page. *)
Lemma hour_keys_fit window h keys : 0 < window -> HOUR_MS <= 1000 * window -> NoDup keys ->
  (forall k, k ∈ keys -> exists t, k = index_pointer_key window t /\ (window | t) /\ t / HOUR_MS = h) ->
  (Datatypes.length keys <= 1000)%nat.
Proof using Type.
  intros Hw H Hnd Hk. replace 1000%nat with (Datatypes.length (map (index_pointer_key window) (hour_windows window h))).
  - apply NoDup_incl_length; [by apply NoDup_ListNoDup|]. intros k Hin%list_elem_of_In.
    destruct (Hk k Hin) as (t & -> & Hd & <-). apply in_map, list_elem_of_In. by apply hour_windows_elem.
  - unfold hour_windows. by rewrite !length_map, length_seq.
Qed.
End hours.

(** ** The search *)

Section search.
Context {L : StorageLib} {HC : Calendar} {F : Type}.
Abbreviation Doc := (Doc (F := F)).
Context {V : Type} {J : DocJson V} (doc_json : Doc -> V).

(** The JSON of a pointer has its status and the end of the range of its run. *)
Record PointerJson : Prop := {
  pj_status : forall p, exists f, dj_get "status" (doc_json (PointerDoc p)) = Some f /\ dj_as_str f = Some (ip_status p);
  pj_end : forall p, exists f, dj_get "input_time_range_end_ms" (doc_json (PointerDoc p)) = Some f /\
    dj_as_i64 f = Some (ip_input_time_range_end_ms p);
}.

Context (HJ : PointerJson) (window : Z) (Hw : 0 < window) (Hfit : HOUR_MS <= 1000 * window).

(** Below the root of the index are pointers of windows and nothing else. *)
Definition indexed (s : gmap string Doc) : Prop := forall k d, s !! k = Some d ->
  starts_with (index_root window) k = true ->
  exists t p, k = index_pointer_key window t /\ d = PointerDoc p /\ dated t /\ (window | t).

Definition pointer_of (s : gmap string Doc) (t : Z) (p : L1IndexPointer) : Prop :=
  s !! index_pointer_key window t = Some (PointerDoc p).

(** The last window of the newest success ends at [c]. *)
Record newest (s : gmap string Doc) (c : Z) : Prop := {
  nw_dated : dated (c - window);
  nw_here : exists p, pointer_of s (c - window) p /\ ip_status p = "success"%string /\
    ip_input_time_range_end_ms p = c;
  nw_later : forall t p, c - window < t -> pointer_of s t p -> ip_status p <> "success"%string;
}.

Definition no_success (s : gmap string Doc) : Prop :=
  forall t p, pointer_of s t p -> ip_status p <> "success"%string.

(** What listing a bucket and reading one of its documents answer. *)
Definition page_of (s : gmap string Doc) (prefix : string) (n : Z) : list string :=
  take (Z.to_nat n) (sort_strings (List.filter (starts_with prefix) (map_to_list s).*1)).

Lemma page_sorted s prefix n : sort_strings (page_of s prefix n) = page_of s prefix n.
Proof using Type.
  assert (Hid : forall l, StronglySorted (fun a b => str_leb a b = true) l -> sort_strings l = l).
  { intros l Hl. unfold sort_strings. induction Hl as [|x l _ IH Hx]; [done|]. cbn [sort_by foldr].
    change (foldr (insert_by str_leb) [] l) with (sort_by str_leb l). rewrite IH. by apply insert_by_head. }
  apply Hid. unfold page_of. set (all := sort_strings _).
  assert (Hall : StronglySorted (fun a b => str_leb a b = true) all).
  { apply sort_by_sorted; [apply str_leb_total|apply str_leb_trans]. }
  rewrite <- (take_drop (Z.to_nat n) all) in Hall. by apply StronglySorted_app_1_l in Hall.
Qed.

Context (s : gmap string Doc) (Hs : indexed s).
Context (list_page : string -> Z -> result StorageError (list string)) (download : string -> result StorageError V).
Context (Hpage : forall prefix n, list_page prefix n = Ok (page_of s prefix n)).
Context (Hget : forall k d, s !! k = Some d -> download k = Ok (doc_json d)).

Lemma pointer_success t p : pointer_of s t p ->
  success_end_ms_from_pointer download (index_pointer_key window t) =
  Ok (if String.eqb (ip_status p) "success" then Some (ip_input_time_range_end_ms p) else None).
Proof using HJ Hget.
  intros Hp. unfold success_end_ms_from_pointer. rewrite (Hget _ _ Hp). cbn [mbind result_bind].
  unfold json_status_success, input_time_range_end_ms.
  destruct (pj_status HJ p) as (f & -> & Hf), (pj_end HJ p) as (g & -> & Hg).
  unfold mbind, option_bind. rewrite Hf, Hg. by destruct (String.eqb _ _).
Qed.

(** Whatever the size of the pages, what the discovery answers is a success of the index. *)
Lemma discovery_sound args now e : na_window_ms args = window ->
  resolve_last_l1_success_end_ms list_page download args now = Ok (Some e) ->
  exists t p, pointer_of s t p /\ ip_status p = "success"%string /\ ip_input_time_range_end_ms p = e.
Proof using HJ Hs Hpage Hget.
  intros Hargs H. unfold resolve_last_l1_success_end_ms in H. rewrite Hargs in H.
  apply search_hours_Some in H as (i & _ & (keys & k & Hp & Hin & _ & Hk & _) & _). rewrite Hpage in Hp. injection Hp as <-.
  apply elem_of_take in Hin as (j & Hin%list_elem_of_lookup_2 & _). unfold sort_strings in Hin.
  rewrite sort_by_perm in Hin. apply list_elem_of_In, filter_In in Hin as [Hin Hpre].
  apply list_elem_of_In, list_elem_of_fmap in Hin as ([k' d] & -> & Hin). apply elem_of_map_to_list in Hin.
  cbn [fst] in Hpre, Hk. destruct (Hs k' d Hin) as (t & p & -> & -> & _); [exact (hour_prefix_root window _ _ Hpre)|].
  exists t, p. rewrite (pointer_success t p Hin) in Hk. destruct (String.eqb_spec (ip_status p) "success") as [E|E]; [|done].
  by injection Hk as ->.
Qed.

(** The page of an hour is the pointers of its windows. *)
Definition of_hour (h : Z) (k : string) : Prop :=
  exists t p, k = index_pointer_key window t /\ pointer_of s t p /\ dated t /\ t / HOUR_MS = h / HOUR_MS.

Lemma hour_page h : 0 <= h < 10000000000000 -> exists keys,
  list_page (l1_pointer_hour_prefix window h) L1_POINTER_KEYS_PER_HOUR = Ok keys /\ forall k, k ∈ keys <-> of_hour h k.
Proof using HC Hw Hfit Hs Hpage.
  intros Hh. set (prefix := l1_pointer_hour_prefix window h).
  set (all := sort_strings (List.filter (starts_with prefix) (map_to_list s).*1)).
  assert (Hall : forall k, k ∈ all -> exists t p, k = index_pointer_key window t /\ pointer_of s t p /\ dated t /\
      (window | t) /\ t / HOUR_MS = h / HOUR_MS).
  { intros k Hin. unfold all, sort_strings in Hin. rewrite sort_by_perm in Hin.
    apply list_elem_of_In, filter_In in Hin as [Hin Hpre]. apply list_elem_of_In, list_elem_of_fmap in Hin as ([k' d] & -> & Hin).
    apply elem_of_map_to_list in Hin. cbn [fst] in Hpre |- *.
    destruct (Hs k' d Hin) as (t & p & -> & -> & Hd & Hdiv); [exact (hour_prefix_root window h _ Hpre)|].
    exists t, p. split_and!; try done. apply hour_prefix_iff in Hpre; [done| |done]. unfold dated in Hd. lia. }
  assert (Hlen : (Datatypes.length all <= 1000)%nat).
  { apply (hour_keys_fit window (h / HOUR_MS)); [done..| |].
    - unfold all, sort_strings. rewrite sort_by_perm. apply NoDup_ListNoDup, List.NoDup_filter, NoDup_ListNoDup.
      apply NoDup_fst_map_to_list.
    - intros k Hin. destruct (Hall k Hin) as (t & p & -> & _ & _ & Hdiv & E). by exists t. }
  exists all. rewrite Hpage. unfold page_of. fold prefix all. rewrite take_ge by exact Hlen. split; [done|].
  intros k. split.
  - intros Hin. destruct (Hall k Hin) as (t & p & ? & ? & ? & _ & ?). by exists t, p.
  - intros (t & p & -> & Hp & Hd & E). unfold all, sort_strings. rewrite sort_by_perm.
    apply list_elem_of_In, filter_In. split.
    + apply list_elem_of_In, list_elem_of_fmap. exists (index_pointer_key window t, PointerDoc p).
      split; [done|]. by apply elem_of_map_to_list.
    + unfold dated in Hd. unfold prefix. cbn [fst]. apply (hour_prefix_iff window t h); [lia|exact Hh|exact E].
Qed.

Abbreviation hour_answer keys := (first_success download (json_keys_desc keys)).

Lemma first_success_none l : (forall k, k ∈ l -> success_end_ms_from_pointer download k = Ok None) ->
  first_success download l = Ok None.
Proof using Type.
  induction l as [|k l IH]; intros H; [done|]. cbn. rewrite (H k) by by left. cbn. apply IH. intros k' Hk. apply H. by right.
Qed.

Lemma first_success_greatest l k e : StronglySorted (fun a b => str_leb b a = true) l -> k ∈ l ->
  success_end_ms_from_pointer download k = Ok (Some e) ->
  (forall k', k' ∈ l -> str_cmp k k' = Lt -> success_end_ms_from_pointer download k' = Ok None) ->
  first_success download l = Ok (Some e).
Proof using Type.
  intros Hsort Hin Hk Hlater. induction Hsort as [|x l _ IH Hx]; [by apply elem_of_nil in Hin|]. cbn [first_success].
  destruct (decide (k = x)) as [<-|Hne]; [by rewrite Hk|]. apply elem_of_cons in Hin as [?|Hin]; [done|].
  rewrite Forall_forall in Hx. specialize (Hx k Hin). apply str_leb_lt_or_eq in Hx as [?|Hx]; [done|].
  rewrite (Hlater x) by (by left || done). cbn. apply IH; [done|]. intros k' Hk'. apply Hlater. by right.
Qed.

Lemma hour_without h keys : (forall k, k ∈ keys <-> of_hour h k) ->
  (forall t p, pointer_of s t p -> t / HOUR_MS = h / HOUR_MS -> ip_status p <> "success"%string) ->
  hour_answer keys = Ok None.
Proof using HJ Hget.
  intros Hk Hno. apply first_success_none. intros k [Hin _]%json_keys_desc_elem.
  apply Hk in Hin as (t & p & -> & Hp & _ & E). rewrite (pointer_success t p Hp).
  by rewrite (proj2 (String.eqb_neq _ _) (Hno t p Hp E)).
Qed.

Lemma hour_with h keys c : (forall k, k ∈ keys <-> of_hour h k) -> newest s c ->
  (c - window) / HOUR_MS = h / HOUR_MS -> hour_answer keys = Ok (Some c).
Proof using HJ HC Hget.
  intros Hk [Hd (p & Hp & Hst & Hend) Hlater] E.
  apply (first_success_greatest _ (index_pointer_key window (c - window))).
  - apply json_keys_desc_sorted.
  - apply json_keys_desc_elem. split; [|apply pointer_key_json]. apply Hk. by exists (c - window), p.
  - rewrite (pointer_success _ p Hp), Hst. by rewrite <- Hend.
  - intros k' [Hin _]%json_keys_desc_elem Hlt. apply Hk in Hin as (t & p' & -> & Hp' & Hd' & E').
    apply pointer_key_order in Hlt; [|done|done|by rewrite E, E']. rewrite (pointer_success t p' Hp').
    by rewrite (proj2 (String.eqb_neq _ _) (Hlater t p' Hlt Hp')).
Qed.

(** *** The hours, newest first *)

Lemma search_reaches n hours offset latest :
  (forall i, (i < n)%nat -> exists keys,
     list_page (l1_pointer_hour_prefix window (saturate I64 (latest - saturate I64 ((offset + Z.of_nat i) * HOUR_MS))))
       L1_POINTER_KEYS_PER_HOUR = Ok keys /\ hour_answer keys = Ok None) ->
  search_hours list_page download (n + hours) offset latest window =
  search_hours list_page download hours (offset + Z.of_nat n) latest window.
Proof using Type.
  revert offset. induction n as [|n IH]; intros offset H; [cbn [Nat.add]; f_equal; lia|]. cbn [Nat.add search_hours].
  destruct (H 0%nat ltac:(lia)) as (keys & Hp & Hn). rewrite Z.add_0_r in Hp. rewrite Hp.
  cbn [mbind result_bind]. rewrite Hn. cbn [mbind result_bind]. rewrite IH.
  - f_equal. lia.
  - intros i Hi. destruct (H (Datatypes.S i) ltac:(lia)) as (keys' & Hp' & Hn'). exists keys'.
    by replace (offset + 1 + Z.of_nat i) with (offset + Z.of_nat (Datatypes.S i)) by lia.
Qed.

Lemma hour_back now n : dated now -> 0 <= n < 2160 ->
  saturate I64 (floor_hour_ms now - saturate I64 (n * HOUR_MS)) = (now / HOUR_MS - n) * HOUR_MS /\
  0 <= (now / HOUR_MS - n) * HOUR_MS < 10000000000000.
Proof using Type.
  intros Hnow Hn. unfold dated in Hnow. rewrite floor_hour_pos by (cbn; lia).
  pose proof (Z.div_mod now HOUR_MS). pose proof (Z.mod_pos_bound now HOUR_MS ltac:(done)). unfold HOUR_MS in *.
  rewrite (saturate_id I64 (n * 3600000)) by (unfold in_range; cbn; lia).
  rewrite saturate_id by (unfold in_range; cbn; lia). lia.
Qed.

(** One hour of the search. *)
Lemma back_without now n : dated now -> 0 <= n < 2160 ->
  (forall t p, pointer_of s t p -> t / HOUR_MS = now / HOUR_MS - n -> ip_status p <> "success"%string) ->
  exists keys, list_page (l1_pointer_hour_prefix window
      (saturate I64 (floor_hour_ms now - saturate I64 (n * HOUR_MS)))) L1_POINTER_KEYS_PER_HOUR = Ok keys /\
    hour_answer keys = Ok None.
Proof using HJ HC Hw Hfit Hs Hpage Hget.
  intros Hnow Hn Hno. destruct (hour_back now n Hnow Hn) as [-> Hh].
  destruct (hour_page _ Hh) as (keys & Hp & Hk). exists keys. split; [exact Hp|].
  apply (hour_without _ _ Hk). intros t p Ht E. rewrite Z.div_mul in E by done. by apply (Hno t p).
Qed.

Context (args : NormalizeArgs) (Hargs : na_window_ms args = window).

(** Without a success the discovery finds none. *)
Lemma discovery_none now : dated now -> no_success s ->
  resolve_last_l1_success_end_ms list_page download args now = Ok None.
Proof using HJ HC Hw Hfit Hs Hpage Hget Hargs.
  intros Hnow Hno. unfold resolve_last_l1_success_end_ms. rewrite Hargs.
  rewrite <- (Nat.add_0_r (Z.to_nat _)), search_reaches; [done|]. intros i Hi. cbn [Z.add].
  apply back_without; [done|unfold MAX_L1_POINTER_LOOKBACK_HOURS in Hi; lia|]. intros t p Hp _. by apply (Hno t p).
Qed.

(** The newest success is found when it began less than 2159 hours ago. *)
Lemma discovery_newest now c : dated now -> newest s c -> c - window <= now ->
  now - (c - window) < (MAX_L1_POINTER_LOOKBACK_HOURS - 1) * HOUR_MS ->
  resolve_last_l1_success_end_ms list_page download args now = Ok (Some c).
Proof using HJ HC Hw Hfit Hs Hpage Hget Hargs.
  intros Hnow Hc Hle Hlag. unfold resolve_last_l1_success_end_ms. rewrite Hargs.
  set (n := Z.to_nat (now / HOUR_MS - (c - window) / HOUR_MS)).
  pose proof (Z.div_le_mono _ _ HOUR_MS ltac:(done) Hle) as Hdiv.
  assert (Hn : now / HOUR_MS - (c - window) / HOUR_MS < 2160).
  { pose proof (Z.div_mod now HOUR_MS). pose proof (Z.mod_pos_bound now HOUR_MS ltac:(done)).
    pose proof (Z.div_mod (c - window) HOUR_MS). pose proof (Z.mod_pos_bound (c - window) HOUR_MS ltac:(done)).
    unfold MAX_L1_POINTER_LOOKBACK_HOURS, HOUR_MS in *. lia. }
  assert (exists m, Z.to_nat MAX_L1_POINTER_LOOKBACK_HOURS = (n + Datatypes.S m)%nat) as [m ->].
  { exists (Z.to_nat MAX_L1_POINTER_LOOKBACK_HOURS - n - 1)%nat. unfold MAX_L1_POINTER_LOOKBACK_HOURS, n. lia. }
  rewrite search_reaches.
  - cbn [search_hours]. rewrite Z.add_0_l. destruct (hour_back now (Z.of_nat n) Hnow ltac:(lia)) as [-> Hh].
    destruct (hour_page _ Hh) as (keys & -> & Hk). cbn [mbind result_bind].
    rewrite (hour_with _ _ c Hk Hc); [done|]. rewrite Z.div_mul by done. unfold n. lia.
  - intros i Hi. cbn [Z.add]. apply back_without; [done|lia|]. intros t p Hp E.
    apply (nw_later _ _ Hc t p); [|done]. destruct (Z.lt_ge_cases (c - window) t) as [|Hge]; [done|].
    apply (Z.div_le_mono _ _ HOUR_MS ltac:(done)) in Hge. lia.
Qed.
End search.
