(* ===== verification/WorkerLife.v ===== *)
(** * WorkerLife: the turns of a normalizer between two signals

    A worker forgets everything between two turns: each of them asks the index of the L1
    bucket where to go on.  Here the runs of a turn are those of [L1Publish], which write
    index pointers with their slices, and the discovery of the next turn searches the very
    bucket they left behind ([IndexSearch]). *)
From stdpp Require Import sorting.
From S2P Require Import Prelude Text OrderedMap Records NormalizeArgs L1Window L1Inputs NormalizeRun L1Build.
From S2P Require Import Projection Regime ProjectionFacts Universe S3Client Admissible L1Publish PublishFacts IndexSearch Effects.
Open Scope Z_scope.
Open Scope list_scope.

(** ** What a run leaves in the index *)

Section published.
Context {L : StorageLib} {F : Type} {FO : Float F} {FM : FloatMath F} {BE : BuildEnv}.
Abbreviation Doc := (Doc (F := F)).
Abbreviation BuildResult := (BuildResult (F := F)).
Context {W : Type} {OS : ObjectStore W Doc} {PE : PublishEnv (F := F) W}.
Context (bucket : string) (stored : W -> gmap string Doc) (HS : StoreLaws bucket stored).
Context (args : NormalizeArgs) (order : list Z -> list Z) (Horder : forall l, order l ≡ₚ l).
Abbreviation window := (na_window_ms args).

Definition window_key (rng : InputRange) (k : string) : Prop :=
  exists t, t ∈ index_window_starts rng window /\ k = index_pointer_key window t.

(** A run with this status replaces the pointers of its windows, when it publishes any, and
    touches no other part of the index. *)
Record published (status : string) (rng : InputRange) (s s' : gmap string Doc) : Prop := {
  pb_windows : should_publish_index_pointers status = true -> forall t, t ∈ index_window_starts rng window ->
    exists p, pointer_of window s' t p /\ ip_status p = status /\ ip_input_time_range_end_ms p = ir_end_ms rng;
  pb_others : forall k, starts_with (index_root window) k = true ->
    (should_publish_index_pointers status = true -> ~ window_key rng k) -> s' !! k = s !! k;
}.

Lemma own_not_indexed id k : artifact_key id k \/ k = report_object_key id \/ k = manifest_object_key id ->
  starts_with (index_root window) k = true -> False.
Proof using Type.
  intros Hk [r ->]%starts_with_inv. unfold index_root in Hk. rewrite str_app_assoc in Hk.
  assert (Hrun : forall k', run_key id k' -> k' <> ("l1_index/window_ms=" ++ r)%string -> True) by done.
  destruct Hk as [[Hk|[day Hk]]|[Hk|Hk]]; [|unfold_keys; discriminate..].
  inversion Hk as [k' Hkk|E|E|E|E|E]; subst; [|unfold_keys; discriminate..].
  apply kept_family in Hkk. vm_compute in Hkk. discriminate.
Qed.

Lemma writes_index id status finished rng :
  writes stored (window_key rng) (publish_index_pointers bucket order args (manifest_object_key id) id status finished rng).
Proof using HS Horder.
  apply writes_bind; [|intros; apply writes_of]. apply writes_fold. intros results t Ht.
  apply writes_bind; [|intros; apply writes_ret]. apply writes_try.
  eapply writes_uploads; [apply (uploads_pointer bucket stored HS)|]. exists t. split; [|done]. by rewrite <- (Horder _).
Qed.

Lemma writes_manifest id rng build timing keys (K : string -> Prop) :
  K (report_object_key id) -> K (manifest_object_key id) ->
  (should_publish_index_pointers (br_status build) = true -> forall k, window_key rng k -> K k) ->
  writes stored K (publish_manifest_and_index bucket order args id rng build timing keys).
Proof using HS Horder.
  intros Hr Hm Hi. unfold publish_manifest_and_index.
  apply writes_bind; [by eapply writes_uploads; [apply (uploads_json bucket stored HS)|]|]. intros _.
  apply writes_bind; [by eapply writes_uploads; [apply (uploads_json bucket stored HS)|]|]. intros _.
  apply writes_bind; [apply (writes_verify bucket stored HS)|]. intros _.
  apply writes_bind; [|intros ?; apply writes_bind; intros; apply (writes_log bucket stored HS)].
  destruct (run_report_fields id rng build timing keys) as (_ & _ & E & _). unfold run_report in E. rewrite E.
  destruct (should_publish_index_pointers _); [|apply writes_ret].
  eapply writes_weaken; [by apply Hi|apply writes_index].
Qed.

(** What a run may write. *)
Definition run_writes (status id : string) (rng : InputRange) (k : string) : Prop :=
  (artifact_key id k \/ k = report_object_key id \/ k = manifest_object_key id) \/
  (should_publish_index_pointers status = true /\ window_key rng k).

Lemma publish_outputs_writes id rng build started finished :
  writes stored (run_writes (br_status build) id rng) (publish_outputs bucket order args id rng build started finished).
Proof using HS Horder.
  unfold publish_outputs, run_writes. destruct (String.eqb_spec (br_status build) "success") as [Hs|Hs].
  - rewrite Hs. apply writes_bind.
    + eapply writes_weaken; [|apply (writes_artifacts bucket stored HS)]. tauto.
    + intros r. apply writes_manifest; [tauto|tauto|]. by right.
  - intros s w Hw. apply (writes_manifest id rng build); [tauto|tauto|by right|done].
Qed.

Lemma outputs_keep_others id rng build started finished w :
  forall k, starts_with (index_root window) k = true ->
  (should_publish_index_pointers (br_status build) = true -> ~ window_key rng k) ->
  stored (publish_outputs bucket order args id rng build started finished w).1 !! k = stored w !! k.
Proof using HS Horder.
  intros k Hk Hn. apply (writes_run stored _ _ w (publish_outputs_writes id rng build started finished)).
  intros [Hown|[Hp Hin]]; [by apply (own_not_indexed id k)|by apply Hn].
Qed.

(** The pointers a run uploads are all there when every upload succeeded. *)
Lemma index_written id status finished rng :
  triple (fun _ => True) (publish_index_pointers bucket order args (manifest_object_key id) id status finished rng)
    (fun _ w => forall t, t ∈ index_window_starts rng window -> pointer_of window (stored w) t
       (index_pointer_json (manifest_object_key id) id status finished rng t window)) (fun _ => True).
Proof using HS Horder.
  set (ptr := fun t => index_pointer_json (manifest_object_key id) id status finished rng t window).
  set (done_with := fun (d : list Z) (results : list (result PublishError ())) w => Forall (eq (Ok ())) results ->
    forall t, t ∈ d -> pointer_of window (stored w) t (ptr t)).
  unfold publish_index_pointers.
  eapply triple_bind with (mid := done_with (order (index_window_starts rng window))).
  - eapply triple_weaken; [apply (triple_fold _ done_with (fun _ => True))|by intros w _ _ t ?%not_elem_of_nil|done|done].
    intros d t results _ w Hall. unfold mbind, io_bind, io_try.
    pose proof (uploads_pointer bucket stored HS (index_pointer_key window t) (PointerDoc (ptr t)) w) as Hu.
    unfold ptr in Hu at 1 2 3. destruct (storage _ w) as [w' res]. cbn. destruct Hu as [_ Hok].
    intros [Hres Hlast]%Forall_app t' Hin. inversion Hlast as [|? ? Hl _]; subst. unfold pointer_of.
    rewrite Hok by done. destruct (decide (t' = t)) as [->|Hn]; [by rewrite lookup_insert_eq|].
    rewrite lookup_insert_ne; [|intros E; apply Hn; by apply index_pointer_key_inj in E].
    apply Hall; [done|]. by apply elem_of_app in Hin as [Hin|Hin%list_elem_of_singleton].
  - intros results w Hall. cbn. unfold io_of. destruct (try_map (fun r => r) results) as [us|e] eqn:E; [|done].
    cbn. intros t Ht. apply Hall; [|by rewrite (Horder _)]. apply try_map_ok_Forall2 in E. clear -E.
    induction E as [|r [] results us Hr]; constructor; done.
Qed.

Definition has_pointers (status : string) (rng : InputRange) (s : gmap string Doc) : Prop :=
  should_publish_index_pointers status = true -> forall t, t ∈ index_window_starts rng window ->
  exists p, pointer_of window s t p /\ ip_status p = status /\ ip_input_time_range_end_ms p = ir_end_ms rng.

Lemma manifest_written id rng build timing keys :
  triple (fun _ => True) (publish_manifest_and_index bucket order args id rng build timing keys)
    (fun _ w => has_pointers (br_status build) rng (stored w)) (fun _ => True).
Proof using HS Horder.
  assert (Hany : forall A (m : io W PublishError A), triple (fun _ => True) m (fun _ _ => True) (fun _ => True)).
  { intros A m w _. by destruct (m w) as [w' [a|e]]. }
  assert (Hlog : forall m, triple (fun w => has_pointers (br_status build) rng (stored w)) (pe_log m)
      (fun _ w => has_pointers (br_status build) rng (stored w)) (fun _ => True)).
  { intros m w Hp. pose proof (st_log _ _ HS m w) as Hl. destruct (pe_log m w) as [w' [[]|e]]; [|done].
    cbn in Hl. by rewrite Hl. }
  unfold publish_manifest_and_index. do 3 (eapply triple_bind; [apply Hany|]; intros ?).
  eapply triple_bind with (mid := fun _ w => has_pointers (br_status build) rng (stored w)).
  - destruct (run_report_fields id rng build timing keys) as (_ & _ & E & _). unfold run_report in E. rewrite E.
    unfold has_pointers. destruct (should_publish_index_pointers _).
    + eapply triple_weaken; [apply index_written|done| |done]. intros n w Hw _ t Ht.
      eexists. split; [by apply Hw|]. by split.
    + by apply triple_ret.
  - intros ?. eapply triple_bind; [apply Hlog|]. intros ?. apply Hlog.
Qed.

Lemma publish_outputs_published id rng build started finished w w' : no_slash id ->
  publish_outputs bucket order args id rng build started finished w = (w', Ok ()) ->
  published (br_status build) rng (stored w) (stored w').
Proof using HS Horder.
  intros Hid H. split.
  - change (has_pointers (br_status build) rng (stored w')). unfold publish_outputs, mbind, io_bind in H.
    destruct (String.eqb _ _).
    + pose proof (publish_artifacts_stored bucket stored HS args id rng build finished Hid w I) as Ha.
      destruct (publish_artifacts _ _ _ _ _ _ w) as [w1 [[build' keys]|e]]; [|done].
      destruct Ha as (_ & <- & _).
      pose proof (manifest_written id rng build' (mkTiming started finished) keys w1 I) as Hm.
      cbn [fst snd] in H. by rewrite H in Hm.
    + pose proof (manifest_written id rng build (mkTiming started finished) (mkPublished [] no_projections) w I) as Hm.
      unfold mret, io_ret in H. cbn [fst snd] in H. by rewrite H in Hm.
  - intros k Hk Hn. pose proof (outputs_keep_others id rng build started finished w k Hk Hn) as Ho. by rewrite H in Ho.
Qed.

(** Reading inputs and clearing temporary files leave the L1 bucket as it is. *)
Context (read_and_build : InputRange -> InputRange -> InputRange -> RunMode -> string -> io W PublishError BuildResult).
Context (cleanup_session_tmp : string -> W -> W).
Context (Hread : forall input scan read mode id w, stored (read_and_build input scan read mode id w).1 = stored w).
Context (Hclean : forall id w, stored (cleanup_session_tmp id w) = stored w).

Definition run (d : RunDecision) (now_ms : Z) : io W PublishError () :=
  run_decision bucket read_and_build cleanup_session_tmp order args d now_ms.

(** The status of a run is that of what it built. *)
Definition builds (status : string) : Prop :=
  exists input scan read mode id w w' build,
    read_and_build input scan read mode id w = (w', Ok build) /\ br_status build = status.

Lemma run_id_no_slash rng t : no_slash (run_id_of rng t).
Proof using Type.
  unfold run_id_of. repeat apply no_slash_app; try apply show_Z_no_slash; by vm_decide.
Qed.

Lemma run_published d now_ms w w' : run d now_ms w = (w', Ok ()) ->
  exists status, builds status /\ published status (rd_input_range d) (stored w) (stored w').
Proof using HS Horder Hread Hclean.
  unfold run, run_decision, run_decision_body, mbind, io_bind. set (id := run_id_of _ _).
  pose proof (st_log _ _ HS "market_normalize_started" w) as E1.
  destruct (pe_log _ w) as [w1 [[]|e]]; [|done]. cbn in E1.
  set (scan := scan_range_of _ _). set (rd := read_range_of _ _).
  pose proof (Hread (rd_input_range d) scan rd (rd_run_mode d) id w1) as E2.
  destruct (read_and_build _ _ _ _ _ w1) as [w2 [build|e]] eqn:Eb; [|done]. cbn in E2.
  assert (exists w3 r, (if br_fallback_alert build then pe_log "market_normalize_fallback_alert" else mret ()) w2
      = (w3, r) /\ stored w3 = stored w2) as (w3 & r3 & -> & E3).
  { destruct (br_fallback_alert build); [|by eexists _, _].
    pose proof (st_log _ _ HS "market_normalize_fallback_alert" w2) as El.
    destruct (pe_log _ w2) as [w3 r]. by eexists _, _. }
  destruct r3 as [[]|e]; [|done].
  pose proof (st_log _ _ HS "market_normalize_building" w3) as E4.
  destruct (pe_log _ w3) as [w4 [[]|e]]; [|done]. cbn in E4.
  destruct (publish_outputs _ _ _ _ _ _ _ _ w4) as [w5 [[]|e]] eqn:Ep; [|done]. intros [= <-].
  apply publish_outputs_published in Ep; [|apply run_id_no_slash].
  exists (br_status build). split; [by eexists _, _, _, _, _, _, _, _|].
  by rewrite Hclean, <- E1, <- E2, <- E3, <- E4.
Qed.
End published.

(** ** Where the index stands *)

Section stands.
Context {L : StorageLib} {F : Type} {FO : Float F} {FM : FloatMath F} {BE : BuildEnv}.
Abbreviation Doc := (Doc (F := F)).
Context (args : NormalizeArgs) (Hpl : planned args).
Abbreviation window := (na_window_ms args).
Abbreviation interval := (na_schedule_interval_ms args).

(** The index has its newest success at [c], a boundary of the schedule not after [a], or has
    no success yet. *)
Definition stands (s : gmap string Doc) (c a : Z) : Prop :=
  indexed window s /\ ((newest window s c /\ (interval | c) /\ c <= a) \/ no_success window s).

Lemma root_of_key t : starts_with (index_root window) (index_pointer_key window t) = true.
Proof using Type.
  unfold index_pointer_key. match goal with |- starts_with ?p ?k = true =>
    enough (exists r, k = (p ++ r)%string) as [r ->] by apply starts_with_app end.
  eexists. unfold index_root. by rewrite !str_app_assoc.
Qed.

Lemma interval_windows a : (interval | a) -> dated a -> dated (a + interval) -> forall t,
  t ∈ index_window_starts (mkRange a (a + interval)) window <-> (window | t) /\ a <= t <= a + interval - window.
Proof using Hpl.
  intros [x ->] Ha Hb t. destruct Hpl as [[Hi Hw _ _ _ _ _ _] [n En] _].
  set (w := window) in *. unfold dated in *.
  assert (0 < n) by nia. replace n with (Z.of_nat (Z.to_nat n)) in En by lia. rewrite En.
  rewrite index_window_starts_all; [|lia|lia|cbn; lia]. unfold windows. split.
  - intros (i & -> & Hin%elem_of_seq)%list_elem_of_fmap. split; [|nia].
    exists (x * Z.of_nat (Z.to_nat n) + Z.of_nat i). lia.
  - intros [[y ->] Hy]. apply list_elem_of_fmap. exists (Z.to_nat (y - x * Z.of_nat (Z.to_nat n))).
    assert (x * Z.of_nat (Z.to_nat n) <= y) by nia. split; [nia|]. apply elem_of_seq. nia.
Qed.

Lemma newest_success (s : gmap string Doc) c : newest window s c -> ~ no_success window s.
Proof using Type. intros [_ (p & Hp & Hs & _) _] Hno. by apply (Hno _ _ Hp). Qed.

Lemma newest_unique (s : gmap string Doc) c c' : newest window s c -> newest window s c' -> c = c'.
Proof using Type.
  intros [_ (p & Hp & Hs & _) Hl] [_ (p' & Hp' & Hs' & _) Hl'].
  destruct (Z.lt_trichotomy c c') as [Hlt|[?|Hlt]]; [|done|].
  - by destruct (Hl (c' - window) p' ltac:(lia) Hp').
  - by destruct (Hl' (c - window) p ltac:(lia) Hp).
Qed.

Section run.
Context (status : string) (a : Z) (s s' : gmap string Doc).
Context (Ha : (interval | a)) (Hd : dated a) (Hd' : dated (a + interval)).
Context (Hp : published args status (mkRange a (a + interval)) s s').

Lemma pointer_after t p : pointer_of window s' t p ->
  (((window | t) /\ a <= t <= a + interval - window) /\ ip_status p = status /\ ip_input_time_range_end_ms p = a + interval)
  \/ pointer_of window s t p.
Proof using Hpl Ha Hd Hd' Hp.
  intros Ht. destruct (should_publish_index_pointers status) eqn:Es.
  - destruct (decide (t ∈ index_window_starts (mkRange a (a + interval)) window)) as [Hin|Hn].
    + left. destruct (pb_windows _ _ _ _ _ Hp Es t Hin) as (p' & Hp' & E1 & E2). unfold pointer_of in *.
      rewrite Hp' in Ht. injection Ht as <-. split; [by apply interval_windows|]. by split.
    + right. unfold pointer_of in *. rewrite <- Ht. symmetry. apply (pb_others _ _ _ _ _ Hp); [apply root_of_key|].
      intros _ (t' & Hin & E). apply index_pointer_key_inj in E as ->. done.
  - right. unfold pointer_of in *. rewrite <- Ht. symmetry. apply (pb_others _ _ _ _ _ Hp); [apply root_of_key|]. by rewrite Es.
Qed.

Lemma pointer_outside t : (should_publish_index_pointers status = true -> ~ (a <= t <= a + interval - window)) ->
  s' !! index_pointer_key window t = s !! index_pointer_key window t.
Proof using Hpl Ha Hd Hd' Hp.
  intros Hn. apply (pb_others _ _ _ _ _ Hp); [apply root_of_key|]. intros Es (t' & Hin & E).
  apply index_pointer_key_inj in E as ->. apply interval_windows in Hin as [_ Hin]; [|done..]. by apply (Hn Es).
Qed.

Lemma indexed_after : indexed window s -> indexed window s'.
Proof using Hpl Ha Hd Hd' Hp.
  intros Hs k d Hk Hroot. set (starts := index_window_starts (mkRange a (a + interval)) window).
  destruct (decide (should_publish_index_pointers status = true /\ k ∈ index_pointer_key window <$> starts))
    as [[Es (t & -> & Hin)%list_elem_of_fmap_1]|Hn].
  - destruct (pb_windows _ _ _ _ _ Hp Es t Hin) as (p & Hpt & _). unfold pointer_of in Hpt. rewrite Hpt in Hk.
    injection Hk as <-. apply interval_windows in Hin as [Hw Hin]; [|done..]. exists t, p. split_and!; try done.
    destruct Hpl as [[_ Hwin _ _ _ _ _ _] _ _]. unfold dated in *. lia.
  - apply (Hs k d); [|done]. rewrite <- Hk. symmetry. apply (pb_others _ _ _ _ _ Hp); [done|]. intros Es (t & Hin & ->).
    apply Hn. split; [done|]. by apply list_elem_of_fmap_2.
Qed.

Lemma stands_success c : status = "success"%string -> stands s c a ->
  newest window s' (a + interval) /\ stands s' (a + interval) (a + interval).
Proof using Hpl Ha Hd Hd' Hp.
  intros Es [Hs Hc]. assert (Hpub : should_publish_index_pointers status = true) by by rewrite Es.
  pose proof (pa_schedule _ (pl_args _ Hpl)) as Hi. pose proof (pa_window _ (pl_args _ Hpl)) as Hw.
  assert (Hwi : window <= interval) by (apply Z.divide_pos_le; [lia|apply Hpl]).
  assert (Hwa : (window | a + interval - window)).
  { apply Z.divide_sub_r; [apply Z.divide_add_r|apply Z.divide_refl]; [|apply Hpl].
    apply (Z.divide_trans _ (na_schedule_interval_ms args)); [apply Hpl|done]. }
  assert (Hnew : newest window s' (a + interval)).
  { split.
    - unfold dated in *. lia.
    - destruct (pb_windows _ _ _ _ _ Hp Hpub (a + interval - window)) as (p & Hpt & E1 & E2).
      { apply interval_windows; [done..|]. split; [done|lia]. }
      exists p. by rewrite E1.
    - intros t p Ht Hpt. apply pointer_after in Hpt as [[[_ Hin] _]|Hpt]; [lia|].
      destruct Hc as [(Hc & _ & Hle)|Hno]; [|by apply (Hno t p)]. apply (nw_later _ _ _ Hc t p); [lia|done]. }
  split; [done|]. split; [by apply indexed_after|]. left. split_and!; [done| |lia].
  apply Z.divide_add_r; [done|apply Z.divide_refl].
Qed.

Lemma stands_other c : status <> "success"%string -> stands s c a ->
  stands s' c a /\ (no_success window s' -> no_success window s).
Proof using Hpl Ha Hd Hd' Hp.
  intros Es [Hs Hc]. pose proof (indexed_after Hs) as Hs'. pose proof (pa_window _ (pl_args _ Hpl)) as Hw.
  assert (Hother : forall t p, pointer_of window s' t p -> (pointer_of window s t p -> ip_status p <> "success"%string) ->
      ip_status p <> "success"%string).
  { intros t p Ht Hold. apply pointer_after in Ht as [(_ & -> & _)|Ht]; auto. }
  destruct Hc as [([Hdc (p & Hpt & E1 & E2) Hlater] & Hdiv & Hle)|Hno].
  - assert (Hnew : newest window s' c).
    { split; [done| |].
      + exists p. split_and!; try done. unfold pointer_of in *. rewrite pointer_outside; [done|]. lia.
      + intros t p' Ht Hp'. by apply (Hother t p' Hp'), Hlater. }
    split; [by split; [|left]|]. intros Hno. by apply newest_success in Hnew.
  - split; [|done]. split; [done|]. right. intros t p Ht. apply (Hother t p Ht), Hno.
Qed.
End run.
End stands.

(** ** The life of a worker *)

(** The windows from the one that contains [c] on. *)
Definition windows_from (interval c : Z) (m : nat) : list InputRange :=
  map (window_at (c / interval * interval) interval) (seq 0 m).

(** The windows a worker ran, from [c]: a first part of those that follow [c], none left out,
    and when every run succeeds each of them once and in order. *)
Definition covers (interval c : Z) (n : nat) (always : Prop) (ranges : list InputRange) : Prop :=
  (forall r, r ∈ ranges <-> r ∈ windows_from interval c n) /\ (always -> ranges = windows_from interval c n).

Lemma window_at_elem r a interval m :
  r ∈ map (window_at a interval) (seq 0 m) <-> exists i, (i < m)%nat /\ r = window_at a interval i.
Proof.
  rewrite list_elem_of_fmap. setoid_rewrite elem_of_seq. split.
  - intros (i & -> & Hi). exists i. split; [lia|done].
  - intros (i & Hi & ->). exists i. split; [done|lia].
Qed.

(** A turn of [m] windows whose first [j] are done with, and what follows it. *)
Lemma covers_turn interval c m j n always ranges : 0 < interval -> (j <= m)%nat -> (always -> j = m) ->
  covers interval (if (j =? 0)%nat then c else c / interval * interval + Z.of_nat j * interval) n always ranges ->
  covers interval c (Nat.max m (j + n)) always (windows_from interval c m ++ ranges).
Proof.
  intros Hi Hj Hall [Hin Hord]. unfold covers, windows_from in *. set (a := c / interval * interval) in *.
  assert (Ha : (if (j =? 0)%nat then c else a + Z.of_nat j * interval) / interval * interval = a + Z.of_nat j * interval).
  { destruct (Nat.eqb_spec j 0) as [->|]; [unfold a; lia|]. unfold a. rewrite <- Z.mul_add_distr_r, Z.div_mul; lia. }
  rewrite Ha in Hin, Hord.
  assert (Hat : forall i, window_at (a + Z.of_nat j * interval) interval i = window_at a interval (j + i)).
  { intros i. unfold window_at. f_equal; lia. }
  split.
  - intros r. rewrite elem_of_app, Hin, !window_at_elem. split.
    + intros [(i & Hi' & ->)|(i & Hi' & ->)]; [exists i|exists (j + i)%nat; rewrite Hat]; split; try done; lia.
    + intros (i & Hi' & ->). destruct (decide (i < m)%nat); [left; by exists i|]. right. exists (i - j)%nat.
      rewrite Hat. split; [lia|f_equal; lia].
  - intros Ht. rewrite (Hord Ht). specialize (Hall Ht). subst j. rewrite Nat.max_r by lia. rewrite seq_app, map_app. f_equal.
    replace (0 + m)%nat with (m + 0)%nat by lia. rewrite <- fmap_add_seq. change (map ?f (?g <$> ?l)) with (f <$> (g <$> l)).
    rewrite <- list_fmap_compose. apply map_ext. intros i. apply Hat.
Qed.

Section life.
Context {L : StorageLib} {HC : Calendar} {F : Type} {FO : Float F} {FM : FloatMath F} {BE : BuildEnv}.
Abbreviation Doc := (Doc (F := F)).
Abbreviation BuildResult := (BuildResult (F := F)).
Context {W : Type} {OS : ObjectStore W Doc} {PE : PublishEnv (F := F) W}.
Context {V : Type} {J : DocJson V} (doc_json : Doc -> V).
Context (bucket : string) (stored : W -> gmap string Doc).
Context (args : NormalizeArgs) (order : list Z -> list Z).
Context (read_and_build : InputRange -> InputRange -> InputRange -> RunMode -> string -> io W PublishError BuildResult).
Context (cleanup_session_tmp : string -> W -> W).
Abbreviation window := (na_window_ms args).
Abbreviation interval := (na_schedule_interval_ms args).
Abbreviation run := (run bucket args order read_and_build cleanup_session_tmp).
Abbreviation builds := (builds read_and_build).

(** Documented behaviour of the service: a page of a listing is the first keys in the order of
    their bytes, and a stored object is returned. *)
Record SearchLaws : Prop := {
  sl_list : forall prefix n w, exists out, (os_list (mkList bucket prefix None (Some n)) w).2 = Ok out /\
    omap lo_key (ls_contents out) = page_of (stored w) prefix n;
  sl_get : forall k w d, stored w !! k = Some d -> (os_get bucket k w).2 = Ok d;
}.

(** A document of the bucket, parsed; the temporary file it goes through is left out. *)
Definition download_json_value (w : W) (key : string) : result StorageError V :=
  match (os_get bucket key w).2 with
  | Ok d => Ok (doc_json d)
  | Err error => Err (request_failed ("get_object bucket=" ++ bucket ++ " key=" ++ key) error)
  end.

(** The discovery of a turn, in the world [w] at the time [seen]. *)
Definition discovery (w : W) (seen : Z) : result StorageError (option Z) :=
  resolve_last_l1_success_end_ms (fun prefix n => (list_keys_page bucket prefix n w).2) (download_json_value w) args seen.

(** The runs of a drain in the world: each of them ended with success. *)
Inductive performs : W -> list RunDecision -> W -> Prop :=
| performs_none w w' : stored w' = stored w -> performs w [] w'
| performs_one w d now_ms ds w1 w2 w' : stored w1 = stored w -> run d now_ms w1 = (w2, Ok ()) ->
    performs w2 ds w' -> performs w (d :: ds) w'.

(** The drain of a turn. *)
Definition drain_of (t : Tick) (now_ms : Z) : result string Drained :=
  let '(last, oldest) := resolve_initial_l0_l1_state (tk_last t) (tk_oldest t) in
  drain_ready_windows (tk_world t) args now_ms last oldest.

(** A clock in time, of thirteen digits. *)
Definition clock_ok (t : Z) : Prop := in_time args t /\ dated t.

(** A turn: what it meets, and the bucket its discovery searches and when. *)
Record Turn := mkTurn { tn_tick : Tick; tn_bucket : W; tn_seen : Z }.

(** The turns of a worker that starts at [c] as they happen in a bucket: the discovery of each
    is the code's, over what the turns before it have left; when it finds nothing, the oldest
    object of L0 is not after [c]; the runs of its drain are the code's. *)
Fixpoint lives (c now_ms : Z) (w : W) (turns : list Turn) : Prop :=
  match turns with
  | [] => True
  | t :: turns =>
      let tick := tn_tick t in
      (stored (tn_bucket t) = stored w /\ dated (tn_seen t) /\ tk_last tick = discovery (tn_bucket t) (tn_seen t)) /\
      (forall o, resolve_initial_l0_l1_state (tk_last tick) (tk_oldest tick) = (None, Some o) ->
         o <= c /\ dated (o / interval * interval)) /\
      (clock_ok (tk_now tick) /\ forall i, clock_ok (wd_clock (tk_world tick) i)) /\
      forall d, drain_of tick now_ms = Ok d ->
        exists w', performs w (dn_runs d) w' /\ lives c (tk_now tick) w' turns
  end.

(** Before a turn the newest success is neither in the future nor 90 days old, and while
    there is none the oldest object is at [c]. *)
Definition in_reach (c : Z) (t : Turn) : Prop :=
  (forall c', newest window (stored (tn_bucket t)) c' ->
     c' - window <= tn_seen t < c' - window + (MAX_L1_POINTER_LOOKBACK_HOURS - 1) * HOUR_MS) /\
  (no_success window (stored (tn_bucket t)) -> tk_oldest (tn_tick t) = Ok (Some c)).

Context (HS : StoreLaws bucket stored) (HL : SearchLaws) (HJ : PointerJson doc_json).
Context (Horder : forall l, order l ≡ₚ l).
Context (Hread : forall input scan read mode id w, stored (read_and_build input scan read mode id w).1 = stored w).
Context (Hclean : forall id w, stored (cleanup_session_tmp id w) = stored w).
Context (Hpl : planned args).
Context (Hlp : na_live_priority args = false) (Hlpo : na_live_priority_only args = false).

Lemma discovery_page w prefix n : (list_keys_page bucket prefix n w).2 = Ok (page_of (stored w) prefix n).
Proof using HL.
  unfold list_keys_page. destruct (sl_list HL prefix n w) as (out & Ho & Hk).
  destruct (os_list _ w) as [w1 r]. cbn in Ho. subst r. cbn [snd]. by rewrite Hk, page_sorted.
Qed.

Lemma discovery_document w k d : stored w !! k = Some d -> download_json_value w k = Ok (doc_json d).
Proof using HL. intros Hk. unfold download_json_value. by rewrite (sl_get HL k w d Hk). Qed.

(** *** No window is left out *)

(** Every success of the index ends at a boundary of the schedule, not after [f]. *)
Record settled (w : W) (f : Z) : Prop := {
  se_indexed : indexed window (stored w);
  se_ends : forall t p, pointer_of window (stored w) t p -> ip_status p = "success"%string ->
    (interval | ip_input_time_range_end_ms p) /\ 1000000000000 <= ip_input_time_range_end_ms p <= f;
}.

Lemma performs_settles w ds w' : performs w ds w' -> forall a m f, settled w f ->
  (interval | a) -> dated a -> a + Z.of_nat m * interval < 10000000000000 ->
  rd_input_range <$> ds = map (window_at a interval) (seq 0 m) ->
  settled w' (Z.max f (a + Z.of_nat m * interval)).
Proof using HS Horder Hread Hclean Hpl.
  pose proof (pa_schedule _ (pl_args _ Hpl)) as [Hi _].
  induction 1 as [w w' Ew|w d now_ms ds w1 w2 w' Ew Hrun _ IH]; intros a m f [Hix Hends] Ha Hd Hmax Hds.
  { split; rewrite Ew; [done|]. intros t p Hp Hs. destruct (Hends t p Hp Hs). split; [done|lia]. }
  destruct m as [|m]; [done|]. rewrite <- windows_cons in Hds. injection Hds as Er Hds.
  assert (Hd' : dated (a + interval)) by (unfold dated in *; nia).
  apply (run_published bucket stored HS args order Horder _ _ Hread Hclean) in Hrun as (status & _ & Hp).
  rewrite Er, Ew in Hp. unfold window_at in Hp.
  replace (a + Z.of_nat 0 * interval) with a in Hp by lia.
  replace (a + Z.of_nat 1 * interval) with (a + interval) in Hp by lia.
  assert (Ha' : (interval | a + interval)) by (apply Z.divide_add_r; [done|apply Z.divide_refl]).
  assert (H2 : settled w2 (Z.max f (a + interval))).
  { split; [by apply (indexed_after args Hpl status a _ _ Ha Hd Hd' Hp)|]. intros t p Hpt Hs.
    apply (pointer_after args Hpl status a _ _ Ha Hd Hd' Hp) in Hpt as [(_ & _ & ->)|Hpt].
    - split; [done|]. unfold dated in *. lia.
    - destruct (Hends t p Hpt Hs). split; [done|lia]. }
  apply (IH (a + interval) m _ H2 Ha' Hd') in Hds; [|lia].
  replace (Z.max f (a + Z.of_nat (Datatypes.S m) * interval))
    with (Z.max (Z.max f (a + interval)) (a + interval + Z.of_nat m * interval)) by lia. exact Hds.
Qed.

(** A turn starts at a boundary, not after the last window that was run. *)
Lemma turn_starts tick now_ms w w0 seen c f d : settled w f -> (interval | f) -> clock_ok f -> c / interval * interval <= f ->
  in_time args c -> stored w0 = stored w -> tk_last tick = discovery w0 seen ->
  (forall o, resolve_initial_l0_l1_state (tk_last tick) (tk_oldest tick) = (None, Some o) ->
     o <= c /\ dated (o / interval * interval)) ->
  clock_ok now_ms -> (forall i, clock_ok (wd_clock (tk_world tick) i)) -> drain_of tick now_ms = Ok d ->
  exists a m, (interval | a) /\ dated a /\ a <= f /\
    rd_input_range <$> dn_runs d = map (window_at a interval) (seq 0 m) /\
    (m = 0%nat \/ exists t', clock_ok t' /\ a + Z.of_nat m * interval <= t').
Proof using HL HJ Hpl Hlp Hlpo.
  intros [Hix Hends] Hf Hfd Hcf Hc Ew Hlast Hold Hnow Hclock H. pose proof (pa_schedule _ (pl_args _ Hpl)) as [Hi _].
  unfold drain_of in H. destruct (resolve_initial_l0_l1_state _ _) as [last o] eqn:Er.
  rewrite (drain_without_priority _ args _ _ _ Hlp Hlpo) in H.
  assert (Hgo : forall x, in_time args x -> match last with Some v => v = x | None => o = Some x end ->
      dated (x / interval * interval) -> x / interval * interval <= f ->
      exists a m, (interval | a) /\ dated a /\ a <= f /\
        rd_input_range <$> dn_runs d = map (window_at a interval) (seq 0 m) /\
        (m = 0%nat \/ exists t', clock_ok t' /\ a + Z.of_nat m * interval <= t')).
  { intros x Hx Hl Hd Hxf.
    apply (drain_loop_windows _ args Hpl (fun i => proj1 (Hclock i))) with (c := x) in H as (m & _ & Hr & _ & Hin);
      [|apply Hnow|done|done]. exists (x / interval * interval), m. split; [apply Z.divide_factor_r|].
    split; [done|]. split; [done|]. split; [exact Hr|]. destruct Hin as [|(t' & Ht' & Hle)]; [by left|right].
    exists t'. split; [|done]. by destruct Ht' as [->|[i ->]]. }
  unfold clock_ok, in_time, dated in *. destruct last as [e|]; [|destruct o as [o|]].
  - assert (E : discovery w0 seen = Ok (Some e)).
    { rewrite Hlast in Er. unfold resolve_initial_l0_l1_state in Er. destruct (discovery w0 seen) as [[v|]|]; try done.
      injection Er as ->. done. }
    rewrite <- Ew in Hix. destruct (discovery_sound doc_json HJ window (stored w0) Hix _ _ (discovery_page w0)
      (discovery_document w0) args seen e eq_refl E) as (t & p & Hp & Hs & He).
    rewrite Ew in Hp. destruct (Hends t p Hp Hs) as [[x Hx] Hb]. rewrite He in *.
    assert (e / interval * interval = e) as Ee by (rewrite Hx, Z.div_mul; lia).
    apply (Hgo e); rewrite ?Ee; try done; lia.
  - destruct (Hold o eq_refl) as [Ho Hod]. pose proof (Z.div_le_mono o c interval Hi Ho).
    pose proof (Z.mul_div_le o interval Hi). apply (Hgo o); try done; nia.
  - exists f, 0%nat. split; [done|]. split; [lia|]. split; [lia|]. split; [|by left].
    revert H. generalize (Z.to_nat (na_max_windows_per_tick args)). intros [|n] H; cbn [drain_loop] in H.
    + by destruct (wd_shutdown _ _); injection H as <-.
    + destruct (wd_shutdown _ _); [by injection H as <-|]. unfold run_next_ready_decision, decide_mode in H.
      rewrite (pl_no_range _ Hpl) in H. cbn in H. by injection H as <-.
Qed.

(** Every window from [c] on that ends by [f] was run, and no other ends later. *)
Definition filled (c f : Z) (ranges : list InputRange) : Prop :=
  (forall i, c / interval * interval + Z.of_nat (Datatypes.S i) * interval <= f ->
     window_at (c / interval * interval) interval i ∈ ranges) /\
  forall r, r ∈ ranges -> ir_end_ms r <= f.

Lemma filled_more c f a m ranges : 0 < interval -> (interval | f) -> (interval | a) -> a <= f -> filled c f ranges ->
  filled c (Z.max f (a + Z.of_nat m * interval)) (ranges ++ map (window_at a interval) (seq 0 m)).
Proof using Type.
  intros Hi [y ->] [x ->] Haf [Hall Hend]. set (start := c / interval) in *. split.
  - intros i Hle. rewrite elem_of_app. destruct (Z.le_gt_cases (start * interval + Z.of_nat (Datatypes.S i) * interval) (y * interval))
      as [Hold|Hnew]; [left; by apply Hall|right]. apply window_at_elem.
    assert (y <= start + Z.of_nat i) by nia. assert (x <= y) by nia.
    exists (Z.to_nat (start + Z.of_nat i - x)). split; [nia|]. unfold window_at. f_equal; nia.
  - intros r [Hr|Hr]%elem_of_app; [specialize (Hend r Hr); lia|].
    apply window_at_elem in Hr as (i & Hi' & ->). unfold window_at. cbn [ir_end_ms]. nia.
Qed.

Lemma loop_leaves_none turns shutdown now_ms w c f ran e ran' : clock_ok now_ms -> in_time args c ->
  lives c now_ms w turns -> settled w f -> (interval | f) -> clock_ok f -> c / interval * interval <= f ->
  filled c f (rd_input_range <$> ran) ->
  worker_loop args (tn_tick <$> turns) shutdown now_ms ran = Ok (e, ran') ->
  exists f', filled c f' (rd_input_range <$> ran').
Proof using HS HL HJ Horder Hread Hclean Hpl Hlp Hlpo.
  pose proof (pa_schedule _ (pl_args _ Hpl)) as [Hi _].
  revert shutdown now_ms w f ran. induction turns as [|t turns IH]; intros shutdown now_ms w f ran Hnow Hc Hlive Hset Hf Hfd Hcf Hfill H.
  { injection H as <- <-. by exists f. }
  cbn [lives] in Hlive. destruct Hlive as ((Ew & Hseen & Hlast) & Hold & [Ht Hclock] & Hgo).
  pose proof (turn_starts (tn_tick t) now_ms w (tn_bucket t) (tn_seen t) c f) as Hturn.
  cbn [fmap list_fmap worker_loop] in H. unfold drain_of in Hturn, Hgo.
  destruct (resolve_initial_l0_l1_state _ _) as [last o].
  apply bind_ok in H as (d & Hd & H). destruct (Hgo d Hd) as (w' & Hperf & Hlive').
  destruct (Hturn d) as (a & m & Ha & Had & Haf & Hm & Hin); try done.
  assert (Hmax : clock_ok (Z.max f (a + Z.of_nat m * interval))).
  { destruct Hin as [->|(t' & Ht' & Hle)]; [by replace (Z.max _ _) with f by lia|].
    unfold clock_ok, in_time, dated in *. lia. }
  pose proof (performs_settles w _ w' Hperf a m f Hset Ha Had ltac:(unfold clock_ok, dated in Hmax; lia) Hm) as Hset'.
  pose proof (filled_more c f a m _ Hi Hf Ha Haf Hfill) as Hfill'. rewrite <- Hm, <- fmap_app in Hfill'.
  assert (Hf' : (interval | Z.max f (a + Z.of_nat m * interval))).
  { destruct (Z.max_spec f (a + Z.of_nat m * interval)) as [[_ ->]|[_ ->]]; [|done].
    apply Z.divide_add_r; [done|apply Z.divide_factor_r]. }
  destruct (is_requested _); [injection H as <- <-; by eexists|]. destruct (sleep_or_requested _ _) as [h b].
  destruct b; [injection H as <- <-; by eexists|].
  eapply (IH h (tk_now (tn_tick t)) w'); try done. lia.
Qed.

(** *** Each window once *)

Context (Hfit : HOUR_MS <= L1_POINTER_KEYS_PER_HOUR * window).

(** What the discovery answers. *)
Lemma discovery_answers w seen c a : stands args (stored w) c a -> dated seen ->
  (forall c, newest window (stored w) c ->
     c - window <= seen < c - window + (MAX_L1_POINTER_LOOKBACK_HOURS - 1) * HOUR_MS) ->
  (newest window (stored w) c /\ discovery w seen = Ok (Some c)) \/
  (no_success window (stored w) /\ discovery w seen = Ok None).
Proof using HC HL HJ Hpl Hfit.
  intros [Hs Hc] Hseen Hrecent. pose proof (pa_window _ (pl_args _ Hpl)) as [Hw _].
  destruct Hc as [(Hc & _ & _)|Hno]; [left|right]; split; try done; unfold discovery.
  - destruct (Hrecent c Hc). eapply (discovery_newest doc_json HJ window Hw Hfit (stored w) Hs _ _ (discovery_page w) (discovery_document w)); try done. lia.
  - by eapply (discovery_none doc_json HJ window Hw Hfit (stored w) Hs _ _ (discovery_page w) (discovery_document w)).
Qed.


(** A run of consecutive windows moves the newest success to the end of one of them. *)
Lemma performs_stands w ds w' : performs w ds w' -> forall a m c, stands args (stored w) c a ->
  (interval | a) -> dated a -> a + Z.of_nat m * interval < 10000000000000 ->
  rd_input_range <$> ds = map (window_at a interval) (seq 0 m) ->
  exists j, (j <= m)%nat /\ ((forall status, builds status -> status = "success"%string) -> j = m) /\
    stands args (stored w') (if (j =? 0)%nat then c else a + Z.of_nat j * interval) (a + Z.of_nat m * interval) /\
    (no_success window (stored w') -> j = 0%nat /\ no_success window (stored w)).
Proof using HS Horder Hread Hclean Hpl.
  pose proof (pa_schedule _ (pl_args _ Hpl)) as [Hi _].
  induction 1 as [w w' Ew|w d now_ms ds w1 w2 w' Ew Hrun _ IH]; intros a m c Hst Ha Hd Hmax Hds.
  { destruct m; [|done]. exists 0%nat. rewrite Ew. split_and!; [lia|done| |done]. cbn [Nat.eqb].
    by replace (a + Z.of_nat 0 * interval) with a by lia. }
  destruct m as [|m]; [done|]. rewrite <- windows_cons in Hds. injection Hds as Er Hds.
  assert (Hd' : dated (a + interval)) by (unfold dated in *; nia).
  apply (run_published bucket stored HS args order Horder _ _ Hread Hclean) in Hrun as (status & Hb & Hp).
  rewrite Er, Ew in Hp. unfold window_at in Hp.
  replace (a + Z.of_nat 0 * interval) with a in Hp by lia.
  replace (a + Z.of_nat 1 * interval) with (a + interval) in Hp by lia.
  assert (Ha' : (interval | a + interval)) by (apply Z.divide_add_r; [done|apply Z.divide_refl]).
  assert (Hend : forall k, a + interval + Z.of_nat k * interval = a + Z.of_nat (Datatypes.S k) * interval) by lia.
  destruct (decide (status = "success"%string)) as [Es|Es].
  - destruct (stands_success args Hpl status a _ _ Ha Hd Hd' Hp c Es Hst) as [Hn Hst'].
    destruct (IH (a + interval) m (a + interval) Hst' Ha' Hd' ltac:(lia) Hds) as (j & Hj & Hall & Hs & Hnew).
    exists (Datatypes.S j). rewrite !Hend in Hs.
    split; [lia|]. split; [intros Hb'; by rewrite Hall|]. split.
    + cbn [Nat.eqb]. destruct (Nat.eqb_spec j 0) as [->|]; [|exact Hs].
      by replace (a + Z.of_nat 1 * interval) with (a + interval) by lia.
    + intros Hno. destruct (Hnew Hno) as [_ Hno2]. by apply newest_success in Hn.
  - destruct (stands_other args Hpl status a _ _ Ha Hd Hd' Hp c Es Hst) as [Hst' Hold].
    assert (Hst2 : stands args (stored w2) c (a + interval)).
    { destruct Hst' as [Hix [(Hc & Hdiv & Hle)|Hno]]; split; try done; [left|by right]. split_and!; [done|done|lia]. }
    destruct (IH (a + interval) m c Hst2 Ha' Hd' ltac:(lia) Hds) as (j & Hj & Hall & Hs & Hnew).
    exists (if (j =? 0)%nat then 0%nat else Datatypes.S j). rewrite !Hend in Hs.
    split; [destruct (j =? 0)%nat; lia|]. split; [intros Hb'; by apply Hb' in Hb|]. split.
    + destruct (Nat.eqb_spec j 0) as [->|]; exact Hs.
    + intros Hno. destruct (Hnew Hno) as [-> Hno2]. split; [done|]. by apply Hold.
Qed.

(** Where the next turn goes on. *)
Record resumes (oldest : Z) (w : W) (c : Z) : Prop := {
  rs_stands : stands args (stored w) c (c / interval * interval);
  rs_time : in_time args c;
  rs_dated : dated (c / interval * interval);
  rs_oldest : no_success window (stored w) -> c = oldest;
}.

Lemma turn_windows oldest t now_ms w w0 seen c d : resumes oldest w c -> stored w0 = stored w -> dated seen ->
  tk_last t = discovery w0 seen ->
  (forall c, newest window (stored w) c ->
     c - window <= seen < c - window + (MAX_L1_POINTER_LOOKBACK_HOURS - 1) * HOUR_MS) ->
  (no_success window (stored w) -> tk_oldest t = Ok (Some oldest)) ->
  clock_ok now_ms -> (forall i, clock_ok (wd_clock (tk_world t) i)) -> drain_of t now_ms = Ok d ->
  exists m, rd_input_range <$> dn_runs d = windows_from interval c m /\
    (m = 0%nat \/ exists t', clock_ok t' /\ c / interval * interval + Z.of_nat m * interval <= t').
Proof using HC HL HJ Hpl Hfit Hlp Hlpo.
  intros [Hst Hc _ Ho] Ew Hseen Hlast Hrecent Hold Hnow Hclock H. unfold drain_of in H.
  rewrite <- Ew in Hst, Hrecent, Hold, Ho.
  destruct (discovery_answers w0 seen c _ Hst Hseen Hrecent) as [[_ E]|[Hno E]]; rewrite Hlast, E in H.
  all: cbn [resolve_initial_l0_l1_state resolve_l1_success_end_ms_or_warn] in H;
    rewrite (drain_without_priority _ args _ _ _ Hlp Hlpo) in H.
  2: rewrite (Hold Hno), <- (Ho Hno) in H.
  all: apply (drain_loop_windows _ args Hpl (fun i => proj1 (Hclock i))) with (c := c) in H as (m & _ & Hr & _ & Hin);
    [|apply Hnow|done|done]; exists m; split; [exact Hr|];
    destruct Hin as [|(t' & Ht' & Hle)]; [by left|right]; exists t'; split; [|done];
    by destruct Ht' as [->|[i ->]].
Qed.

Lemma turn_resumes oldest w w' ds c m : resumes oldest w c -> performs w ds w' ->
  rd_input_range <$> ds = windows_from interval c m ->
  (m = 0%nat \/ exists t', clock_ok t' /\ c / interval * interval + Z.of_nat m * interval <= t') ->
  exists j, (j <= m)%nat /\ ((forall status, builds status -> status = "success"%string) -> j = m) /\
    resumes oldest w' (if (j =? 0)%nat then c else c / interval * interval + Z.of_nat j * interval).
Proof using HS Horder Hread Hclean Hpl.
  intros [Hst Hc Hd Ho] Hperf Hr Hin. pose proof (pa_schedule _ (pl_args _ Hpl)) as [Hi _].
  set (a := c / interval * interval) in *.
  assert (Hmax : a + Z.of_nat m * interval < 10000000000000).
  { destruct Hin as [->|(t' & [_ Ht'] & Hle)]; unfold dated in *; lia. }
  destruct (performs_stands w ds w' Hperf a m c Hst (Z.divide_factor_r _ _) Hd Hmax Hr) as (j & Hj & Hall & Hs & Hno).
  exists j. split; [done|]. split; [done|]. set (c' := if (j =? 0)%nat then c else a + Z.of_nat j * interval) in *.
  assert (Hc' : c' = c \/ (c' = a + Z.of_nat j * interval /\ (0 < j)%nat)) by (unfold c'; destruct (Nat.eqb_spec j 0); lia).
  assert (Ha' : (a + Z.of_nat j * interval) / interval * interval = a + Z.of_nat j * interval).
  { unfold a. rewrite <- Z.mul_add_distr_r, Z.div_mul; lia. }
  split.
  - destruct Hs as [Hix [(Hn & [x Hx] & _)|Hn]]; split; try done; [left|by right]. split; [done|].
    split; [by exists x|]. rewrite Hx, Z.div_mul; lia.
  - destruct Hc' as [->|[-> Hj0]]; [done|]. destruct Hin as [->|(t' & [[Ht' Ht''] _] & Hle)]; [lia|].
    unfold in_time, dated in *. nia.
  - destruct Hc' as [->|[-> Hj0]]; [done|]. rewrite Ha'. unfold dated in *. nia.
  - intros Hn. destruct (Hno Hn) as [-> Hn0]. by apply Ho.
Qed.

Lemma loop_windows c0 turns shutdown now_ms w c ran e ran' : clock_ok now_ms -> lives c0 now_ms w turns ->
  Forall (in_reach c0) turns -> resumes c0 w c ->
  worker_loop args (tn_tick <$> turns) shutdown now_ms ran = Ok (e, ran') ->
  exists ranges n, rd_input_range <$> ran' = (rd_input_range <$> ran) ++ ranges /\
    covers interval c n (forall status, builds status -> status = "success"%string) ranges.
Proof using HS HC HL HJ Horder Hread Hclean Hpl Hfit Hlp Hlpo.
  intros Hnow Hlive Hreach. revert shutdown now_ms w c ran Hnow Hlive.
  induction Hreach as [|t turns [Hrec Hold] _ IH]; intros shutdown now_ms w c ran Hnow Hlive Hres H.
  { injection H as <- <-. exists [], 0%nat. rewrite app_nil_r. split; [done|]. by split. }
  cbn [lives] in Hlive. destruct Hlive as ((Ew & Hseen & Hlast) & _ & [Ht Hclock] & Hgo). rewrite Ew in Hrec, Hold.
  pose proof (turn_windows c0 (tn_tick t) now_ms w (tn_bucket t) (tn_seen t) c) as Hturn.
  cbn [fmap list_fmap worker_loop] in H. unfold drain_of in Hturn, Hgo.
  destruct (resolve_initial_l0_l1_state _ _) as [last o].
  apply bind_ok in H as (d & Hd & H). destruct (Hgo d Hd) as (w' & Hperf & Hlive').
  destruct (Hturn d) as (m & Hm & Hin); try done.
  destruct (turn_resumes c0 w w' (dn_runs d) c m Hres Hperf Hm Hin) as (j & Hj & Hall & Hres').
  assert (Hdone : Ok (Stopped, ran ++ dn_runs d) = @Ok string _ (e, ran') ->
    exists ranges n, rd_input_range <$> ran' = (rd_input_range <$> ran) ++ ranges /\
      covers interval c n (forall status, builds status -> status = "success"%string) ranges).
  { intros [= <- <-]. exists (windows_from interval c m), m. rewrite fmap_app, Hm. split; [done|]. by split. }
  destruct (is_requested _); [by apply Hdone|]. destruct (sleep_or_requested _ _) as [h b].
  destruct b; [by apply Hdone|].
  destruct (IH h (tk_now (tn_tick t)) w' _ (ran ++ dn_runs d) Ht Hlive' Hres' H) as (ranges & n & Hr & Hcov).
  exists (windows_from interval c m ++ ranges), (Nat.max m (j + n)). split.
  - by rewrite Hr, fmap_app, Hm, <- app_assoc.
  - apply (covers_turn _ _ m j n); try done. by destruct (pa_schedule _ (pl_args _ Hpl)).
Qed.
End life.

(** A worker that follows the schedule: no explicit range, no live priority. *)
Record plain_worker (args : NormalizeArgs) : Prop := {
  pw_planned : planned args;
  pw_live_priority : na_live_priority args = false;
  pw_live_priority_only : na_live_priority_only args = false;
}.

(** A worker starts at [c]: no success of the index ends after the window that contains it. *)
Record starts_at {L : StorageLib} {F W : Type} (args : NormalizeArgs) (stored : W -> gmap string (Doc (F := F))) (c : Z) (w : W)
    : Prop := {
  sa_settled : settled stored args w (c / na_schedule_interval_ms args * na_schedule_interval_ms args);
  sa_time : in_time args c;
  sa_dated : dated (c / na_schedule_interval_ms args * na_schedule_interval_ms args);
}.

(** ** Two turns of two windows each *)

#[local] Existing Instance L1BuildFacts.sample_float.
#[local] Existing Instance ProjectionFacts.sample_math.
#[local] Instance life_build_env : BuildEnv :=
  {| be_git_sha := None; be_git_dirty := None; be_debug_assertions := true |}.

(** The day is written as its number. *)
#[local] Instance life_lib : StorageLib := {|
  sha256_hex := fun s => s;
  default_hash := fun s => Z.of_nat (String.length s);
  utc_date_hour := fun t => Some (show_Z (t / HOUR_MS / 24), t / HOUR_MS mod 24);
|}.

#[local] Instance life_calendar : Calendar.
Proof.
  assert (Hm : forall t, 0 <= t / HOUR_MS mod 24) by (intros; by apply Z.mod_pos_bound).
  split.
  - intros t Ht. cbn -[HOUR_MS Z.div Z.modulo Z.mul]. by rewrite Z.div_mul.
  - intros t Ht. eexists _, _. split; [reflexivity|]. split; [apply show_Z_no_slash|apply Hm].
  - intros t u Ht Hu [= Ed Eh]. apply show_Z_inj in Ed. rewrite (Z.div_mod (t / HOUR_MS) 24), Ed, Eh by done.
    symmetry. by apply Z.div_mod.
Qed.

#[local] Abbreviation LifeBucket := (gmap string (Doc (F := Z))).

#[local] Instance life_store : ObjectStore LifeBucket (Doc (F := Z)) := {|
  os_put r w := (<[pq_key r := pq_body r]> w, Ok ());
  os_head _ _ w := (w, Ok None);
  os_get _ k w := (w, ok_or (w !! k) (mkServiceError (Some "NoSuchKey"%string) None ""));
  os_list r w := (w, Ok (mkListOutput (map (fun k => mkListed (Some k) None None)
    (page_of w (lq_prefix r) (default 1000 (lq_max_keys r)))) None None));
  os_delete _ _ w := (w, Ok ());
  os_sleep _ w := w;
|}.

#[local] Instance life_publish_env : PublishEnv (F := Z) LifeBucket := {|
  pe_parquet _ rows w := (w, Ok (SliceDoc rows));
  pe_verify_file _ d w := (w, Ok d);
  pe_log _ w := (w, Ok ());
|}.

(** The JSON of a pointer: its two fields; a field is a text or a number. *)
Inductive LifeJson := JText (s : string) | JNumber (z : Z) | JPointer (p : L1IndexPointer) | JNull.

#[local] Instance life_json : DocJson LifeJson := {|
  dj_get k v := match v with
    | JPointer p =>
        if String.eqb k "status" then Some (JText (ip_status p))
        else if String.eqb k "input_time_range_end_ms" then Some (JNumber (ip_input_time_range_end_ms p)) else None
    | _ => None
    end;
  dj_as_str v := match v with JText s => Some s | _ => None end;
  dj_as_i64 v := match v with JNumber z => Some z | _ => None end;
|}.
Definition life_doc (d : Doc (F := Z)) : LifeJson := match d with PointerDoc p => JPointer p | _ => JNull end.

Lemma life_pointer_json : PointerJson life_doc.
Proof. split; intros p; by eexists. Qed.

Lemma life_store_laws : StoreLaws (F := Z) "bucket" (fun w : LifeBucket => w).
Proof.
  split; try done.
  - intros r w _. by right.
  - intros k w d H. cbn [os_get life_store snd] in H. destruct (w !! k) as [d'|]; cbn in H; [by injection H as ->|done].
  - intros p rows w. split; [done|]. by intros d [= <-].
Qed.

Lemma life_search_laws : SearchLaws (F := Z) "bucket" (fun w : LifeBucket => w).
Proof.
  split.
  - intros prefix n w. eexists. split; [reflexivity|]. cbn. induction (page_of w prefix n) as [|k l IH]; [done|].
    cbn. by rewrite IH.
  - intros k w d E. cbn [os_get life_store snd]. by rewrite E.
Qed.

Ltac in_bounds := vm_compute; split_and!; try reflexivity; intros ?; discriminate.

(** Windows of five minutes. *)
Definition life_args : NormalizeArgs := set_na_window_ms 300000 with_defaults.

Lemma life_worker : plain_worker life_args.
Proof.
  split; [|done|done]. constructor; [|by exists 3|done]. constructor; in_bounds.
Qed.

Definition life_read (_ _ _ : InputRange) (_ : RunMode) (_ : string) : io LifeBucket PublishError (BuildResult (F := Z)) :=
  fun w => (w, Ok (sample_build "success" sample_rows)).

Abbreviation life_run := (run "bucket" life_args (fun l => l) life_read (fun _ w => w)).
Definition life_runs (ds : list RunDecision) (now_ms : Z) (w : LifeBucket) : LifeBucket :=
  fold_left (fun w d => (life_run d now_ms w).1) ds w.

Definition life_start : Z := 1699998700000.
Definition first_runs : list RunDecision :=
  [mkDecision CatchUp (mkRange 1699998300000 1699999200000); mkDecision Live (mkRange 1699999200000 1700000100000)].
Definition second_runs : list RunDecision :=
  [mkDecision CatchUp (mkRange 1700000100000 1700001000000); mkDecision Live (mkRange 1700001000000 1700001900000)].

Definition life_tick (w : LifeBucket) (now_ms : Z) (signalled : bool) : Tick :=
  mkTick (discovery life_doc "bucket" life_args w now_ms) (Ok (Some life_start))
    (mkWorld (fun _ _ => Ok ()) (fun _ => now_ms) (fun _ => false)) false signalled (now_ms + 1800000).
Definition after_first : LifeBucket := life_runs first_runs sample_now ∅.
Definition life_turns : list (Turn (W := LifeBucket)) :=
  [mkTurn (life_tick ∅ sample_now false) ∅ sample_now;
   mkTurn (life_tick after_first (sample_now + 1800000) true) after_first (sample_now + 1800000)].

Abbreviation life_performs := (performs "bucket" (fun w : LifeBucket => w) life_args (fun l => l) life_read (fun _ w => w)).

Lemma life_performs_one d now_ms ds w w' : (life_run d now_ms w).2 = Ok () ->
  life_performs (life_run d now_ms w).1 ds w' -> life_performs w (d :: ds) w'.
Proof. intros H. by apply performs_one with (now_ms := now_ms) (w1 := w), pair_of_snd. Qed.

Ltac perform_runs now := do 2 (apply (life_performs_one _ now); [vm_compute; reflexivity|]);
  apply performs_none; reflexivity.

Lemma first_performed : life_performs ∅ first_runs after_first.
Proof. perform_runs sample_now. Qed.

Lemma second_performed : life_performs after_first second_runs (life_runs second_runs (sample_now + 1800000) after_first).
Proof. perform_runs (sample_now + 1800000). Qed.

Lemma life_builds status : builds life_read status -> status = "success"%string.
Proof. intros (? & ? & ? & ? & ? & ? & ? & build & [= _ <-] & <-). done. Qed.

Lemma life_stands : stands life_args (∅ : LifeBucket) life_start 1699998300000.
Proof.
  split; [|right].
  - intros k d Hk. by rewrite lookup_empty in Hk.
  - intros t p Hp. unfold pointer_of in Hp. by rewrite lookup_empty in Hp.
Qed.

Lemma life_starts : starts_at life_args (fun w : LifeBucket => w) life_start ∅.
Proof.
  split; [|in_bounds..]. split; [apply life_stands|].
  intros t p Hp. unfold pointer_of in Hp. by rewrite lookup_empty in Hp.
Qed.

Lemma first_newest : newest (na_window_ms life_args) after_first 1700000100000.
Proof.
  destruct (performs_stands "bucket" (fun w : LifeBucket => w) life_args (fun l => l) life_read (fun _ w => w)
    life_store_laws ltac:(done) ltac:(done) ltac:(done) (pw_planned _ life_worker) _ _ _ first_performed
    1699998300000 2%nat life_start life_stands) as (j & _ & Hj & [_ [(Hn & _)|Hno]] & Hnone).
  - by exists 1888887.
  - in_bounds.
  - done.
  - done.
  - by rewrite (Hj life_builds) in Hn.
  - destruct (Hnone Hno) as [-> _]. by specialize (Hj life_builds).
Qed.

Lemma oldest_answered last x o : resolve_initial_l0_l1_state last (Ok (Some x)) = (None, Some o) -> x = o.
Proof. unfold resolve_initial_l0_l1_state. destruct (resolve_l1_success_end_ms_or_warn last); by intros [=]. Qed.

Lemma life_lives : lives life_doc "bucket" (fun w : LifeBucket => w) life_args (fun l => l) life_read (fun _ w => w)
  life_start sample_now ∅ life_turns.
Proof.
  assert (Hold : forall o, life_start = o -> o <= life_start /\ dated (o / na_schedule_interval_ms life_args
      * na_schedule_interval_ms life_args)) by (intros o <-; in_bounds).
  cbn [lives life_turns tn_tick tn_bucket tn_seen]. split; [split_and!; [done|in_bounds|done]|].
  split; [intros o Ho; apply Hold; exact (oldest_answered _ _ _ Ho)|].
  split; [split; [|intros ?]; in_bounds|]. intros d Hd. vm_compute in Hd. injection Hd as <-.
  exists after_first. split; [exact first_performed|].
  split; [split_and!; [done|in_bounds|done]|].
  split; [intros o Ho; apply Hold; exact (oldest_answered _ _ _ Ho)|].
  split; [split; [|intros ?]; in_bounds|]. intros d Hd. vm_compute in Hd. injection Hd as <-.
  eexists. split; [exact second_performed|done].
Qed.

Lemma life_in_reach : Forall (in_reach (fun w : LifeBucket => w) life_args life_start) life_turns.
Proof.
  constructor; [|constructor; [|constructor]]; (split; [|done]); cbn [tn_tick tn_bucket tn_seen]; intros c Hc.
  - destruct Hc as [_ (p & Hp & _) _]. unfold pointer_of in Hp. by rewrite lookup_empty in Hp.
  - rewrite <- (newest_unique life_args _ _ _ first_newest Hc). in_bounds.
Qed.

