(* ===== verification/TempFiles.v ===== *)
(** * TempFiles: documents that are downloaded through a file

    [normalize/discovery/json_doc.rs] and the download of [normalize/l1_reader.rs]: an
    object is stored in a temporary file, read back and decoded.  The world is the bucket's
    beside the files of the disk, whose operations may fail; [Admissible] and [L1Window]
    leave the file out, which the theorems here justify. *)
From S2P Require Import Prelude Text Records NormalizeArgs L1Window L1Build S3Client Admissible PublishFacts Orphan Effects.
Open Scope Z_scope.

(** ** Files *)

Section files.
Context {W B : Type} {OS : ObjectStore W B}.

Abbreviation Files := (gmap string B).

(** What the disk answers to an operation on a path: an error, and for a write that fails
    the part that it left behind; [fd_nanos] is the clock. *)
Class Disk := {
  fd_mkdir : string -> result StorageError ();
  fd_write : string -> B -> result (StorageError * option B) ();
  fd_read : string -> result StorageError ();
  fd_remove : string -> bool;
  fd_nanos : W -> Z;
}.

#[export] Instance beside_files : ObjectStore (W * Files) B := {
  os_put request w := let (s, r) := os_put request w.1 in ((s, w.2), r);
  os_head bucket key w := let (s, r) := os_head bucket key w.1 in ((s, w.2), r);
  os_get bucket key w := let (s, r) := os_get bucket key w.1 in ((s, w.2), r);
  os_list request w := let (s, r) := os_list request w.1 in ((s, w.2), r);
  os_delete bucket key w := let (s, r) := os_delete bucket key w.1 in ((s, w.2), r);
  os_sleep delay w := (os_sleep delay w.1, w.2);
}.

Context {D : Disk}.

(** [create_dir_all] on the parent, then the write. *)
Definition store_file (path : string) (body : B) (w : W * Files) : (W * Files) * result StorageError () :=
  match fd_mkdir (default ""%string (path_parent path)) with
  | Err e => (w, Err e)
  | Ok _ =>
      match fd_write path body with
      | Ok _ => ((w.1, <[path := body]> w.2), Ok ())
      | Err (e, Some part) => ((w.1, <[path := part]> w.2), Err e)
      | Err (e, None) => (w, Err e)
      end
  end.

Definition read_file (path : string) : io (W * Files) StorageError B := fun w =>
  (w, _ ← fd_read path; ok_or (w.2 !! path) not_found).

(* rust: src/normalize/l1_reader.rs remove_file_best_effort *)
Definition remove_file_best_effort {E} (path : string) : io (W * Files) E () := fun w =>
  ((w.1, if fd_remove path then delete path w.2 else w.2), Ok ()).

(** ** The two downloads *)

(* rust: src/normalize/discovery/json_doc.rs temporary_json_path *)
Definition temporary_json_path (tmp_root label : string) (process_id nanos : Z) : string :=
  path_join (path_join tmp_root "_l1_pointer_lookup")
    ("market-normalize-" ++ label ++ "-" ++ show_Z process_id ++ "-" ++ show_Z nanos)%string.

(* rust: src/normalize/l1_reader.rs temp_json_path *)
Definition temp_json_path (spool_root key : string) (process_id nanos : Z) : string :=
  let sanitized := map_str (fun c => if Ascii.eqb c "/" || Ascii.eqb c "=" then "_"%char else c) key in
  path_join (path_join spool_root "reader-tmp")
    (show_Z process_id ++ "-" ++ show_Z nanos ++ "-" ++ sanitized ++ ".json")%string.

Context (bucket : string) (process_id : Z).

(** The directory of the file is created before the download, and by it. *)
(* rust: src/normalize/discovery/json_doc.rs download_json_value *)
Definition download_json_value {T} (decode : B -> option T) (tmp_root key label : string)
    : io (W * Files) StorageError T := fun w =>
  let tmp_path := temporary_json_path tmp_root label process_id (fd_nanos w.1) in
  (_ ← io_of (fd_mkdir (default ""%string (path_parent tmp_path)));
   _ ← download_file bucket store_file key tmp_path;
   bytes ← io_try (read_file tmp_path);
   _ ← remove_file_best_effort tmp_path;
   bytes ← io_of bytes;
   io_of (ok_or (decode bytes) (SJson key))) w.

(** What the reader of L1 does with a downloaded body. *)
Definition through_temp_file (spool_root key : string) (body : B) : io (W * Files) L1ReaderError B := fun w =>
  let path := temp_json_path spool_root key process_id (fd_nanos w.1) in
  (_ ← io_map_err ReaderStorage (store_file path body);
   bytes ← io_map_err (fun e => ReaderIo (StorageError_display e)) (read_file path);
   _ ← remove_file_best_effort path;
   mret bytes) w.

(** ** A file that cannot be read back

    The reader of L1 returns before it removes the file, discovery after. *)

Lemma unread_file_stays root key body e (w : W * Files) :
  let path := temp_json_path root key process_id (fd_nanos w.1) in
  (forall p, fd_mkdir p = Ok ()) -> (forall p b, fd_write p b = Ok ()) -> fd_read path = Err e ->
  through_temp_file root key body w
  = ((w.1, <[path := body]> w.2), Err (ReaderIo (StorageError_display e))).
Proof.
  intros path Hm Hw Hr. unfold through_temp_file, mbind, io_bind, io_map_err, store_file, read_file.
  cbv zeta. fold path. rewrite Hm, Hw. cbn [fst snd]. by rewrite Hr.
Qed.

Lemma unread_value_is_removed {T} (decode : B -> option T) root key label e (w : W * Files) :
  let path := temporary_json_path root label process_id (fd_nanos w.1) in
  (forall p, fd_mkdir p = Ok ()) -> (forall p b, fd_write p b = Ok ()) -> (forall p, fd_remove p = true) ->
  fd_read path = Err e -> w.2 !! path = None ->
  (download_json_value decode root key label w).1.2 = w.2.
Proof.
  intros path Hm Hw Hrm Hr Hf. unfold download_json_value, mbind, io_bind, io_of, io_try, download_file.
  cbv zeta. fold path. rewrite Hm. cbn [os_get beside_files fst].
  destruct (os_get bucket key w.1) as [w' [body|e']]; [|done].
  unfold store_file, read_file, remove_file_best_effort. rewrite Hm, Hw, Hr, Hrm. cbn [fst snd].
  by rewrite delete_insert_eq, delete_id.
Qed.

(** ** What a working disk makes of them *)

Record Works : Prop := {
  wk_mkdir : forall p, fd_mkdir p = Ok ();
  wk_write : forall p b, fd_write p b = Ok ();
  wk_read : forall p, fd_read p = Ok ();
  wk_remove : forall p, fd_remove p = true;
}.

Context (HD : Works).

Lemma store_file_works path body w : store_file path body w = ((w.1, <[path := body]> w.2), Ok ()).
Proof. unfold store_file. by rewrite (wk_mkdir HD), (wk_write HD). Qed.

Lemma read_back_works path body (w : W * Files) :
  read_file path (w.1, <[path := body]> w.2) = ((w.1, <[path := body]> w.2), Ok body).
Proof. unfold read_file. cbn [snd]. by rewrite (wk_read HD), lookup_insert_eq. Qed.

Lemma remove_works {E} path body (w : W * Files) :
  remove_file_best_effort (E := E) path (w.1, <[path := body]> w.2) = ((w.1, delete path w.2), Ok ()).
Proof. unfold remove_file_best_effort. cbn [fst snd]. by rewrite (wk_remove HD), delete_insert_eq. Qed.

Lemma through_temp_file_works root key body w :
  through_temp_file root key body w
  = ((w.1, delete (temp_json_path root key process_id (fd_nanos w.1)) w.2), Ok body).
Proof.
  unfold through_temp_file, mbind, io_bind, io_map_err.
  by rewrite store_file_works, read_back_works, remove_works.
Qed.

(** A bucket that can be read, can be read through files: the theorems on reading back what
    a run published hold of the reader with its temporary files. *)
Lemma readable_through_files (stored : W -> gmap string B) root :
  (forall k w d, stored w !! k = Some d -> (os_get bucket k w).2 = Ok d) ->
  (forall k (w : W * Files) d, stored w.1 !! k = Some d -> (os_get bucket k w).2 = Ok d) /\
  (forall k d w, stored (through_temp_file root k d w).1.1 = stored w.1 /\
     (through_temp_file root k d w).2 = Ok d).
Proof.
  intros HG. split.
  - intros k w d Hd. specialize (HG k w.1 d Hd). cbn. by destruct (os_get bucket k w.1).
  - intros k d w. by rewrite through_temp_file_works.
Qed.

(** ** Reading through files is reading the bucket *)

(** The run of [m] beside files that it leaves as they were. *)
Definition beside {E A} (fs : Files) (m' : io (W * Files) E A) (m : io W E A) : Prop :=
  forall w, m' (w, fs) = let (w', r) := m w in ((w', fs), r).

Lemma beside_bind {E A C} fs (m' : io (W * Files) E A) m (k' : A -> io (W * Files) E C) k :
  beside fs m' m -> (forall a, beside fs (k' a) (k a)) -> beside fs (m' ≫= k') (m ≫= k).
Proof.
  intros Hm Hk w. unfold mbind, io_bind. rewrite Hm. destruct (m w) as [w' [a|e]]; [apply Hk|done].
Qed.

Lemma beside_of {E A} fs (r : result E A) : beside fs (io_of r) (io_of r).
Proof. done. Qed.

Lemma beside_get fs key : beside fs (get_object bucket key) (get_object bucket key).
Proof. intros w. unfold get_object. cbn. by destruct (os_get bucket key w) as [w' [b|e]]. Qed.

Lemma beside_file fs root key body :
  (forall n, fs !! temp_json_path root key process_id n = None) ->
  beside fs (through_temp_file root key body) (mret body).
Proof. intros Hf w. rewrite through_temp_file_works. cbn [fst snd]. by rewrite delete_id. Qed.

Lemma beside_download {T} fs root (decode : B -> option T) key :
  (forall k n, fs !! temp_json_path root k process_id n = None) ->
  beside fs (download_json bucket (through_temp_file root) decode key)
    (download_json bucket (fun _ => mret) decode key).
Proof.
  intros Hf. apply beside_bind; [apply beside_get|]. intros b.
  apply beside_bind; [by apply beside_file|]. intros b'. apply beside_of.
Qed.

(** Discovery's download, for a name no file has: the object, decoded, and the disk as it was. *)
Lemma download_value_works {T} fs (decode : B -> option T) root key label w :
  (forall n, fs !! temporary_json_path root label process_id n = None) ->
  download_json_value decode root key label (w, fs)
  = let (w', r) := os_get bucket key w in
    ((w', fs),
     body ← map_err (request_failed ("get_object bucket=" ++ bucket ++ " key=" ++ key)) r;
     ok_or (decode body) (SJson key)).
Proof.
  intros Hf. unfold download_json_value, mbind, io_bind, io_of at 1, download_file.
  rewrite (wk_mkdir HD). cbn [fst os_get beside_files].
  destruct (os_get bucket key w) as [w' [body|e]]; [|done].
  set (path := temporary_json_path root label process_id (fd_nanos w)).
  rewrite store_file_works. unfold io_try. rewrite read_back_works, remove_works.
  cbn [fst snd]. rewrite delete_id by apply Hf. unfold io_of. cbn. by destruct (decode body).
Qed.
End files.

(** On a disk that works, with no file under the temporary names, the reader of L1 that
    stores each document and reads it back finds the plan that the bucket alone gives, or
    the same error, makes the same requests, and leaves no file behind. *)
Theorem reading_through_files_refines {L : StorageLib} {W B : Type} {OS : ObjectStore W B}
    {J : L1Docs B} {D : Disk (W := W) (B := B)} (bucket root : string) (process_id window_ms : Z)
    (rng : InputRange) (w : W) (fs : gmap string B)
    (Hdisk : Works)
    (Hfresh : forall key n, fs !! temp_json_path root key process_id n = None) :
  read_plan bucket (through_temp_file process_id root) window_ms rng (w, fs)
  = let (w', r) := read_plan bucket (fun _ => mret) window_ms rng w in ((w', fs), r).
Proof.
  revert w. change (beside fs (read_plan bucket (through_temp_file process_id root) window_ms rng)
    (read_plan bucket (fun _ => mret) window_ms rng)).
  unfold read_plan. repeat (apply beside_bind; [by apply beside_download|intros ?]). apply beside_of.
Qed.

(** A disk that works. *)
Definition working_disk {W B : Type} (clock : W -> Z) : Disk (W := W) (B := B) := {|
  fd_mkdir _ := Ok ();
  fd_write _ _ := Ok ();
  fd_read _ := Ok ();
  fd_remove _ := true;
  fd_nanos := clock;
|}.

Lemma working_disk_works {W B : Type} (clock : W -> Z) : Works (D := working_disk (B := B) clock).
Proof. by split. Qed.
