(* ===== verification/IngestArgs.v ===== *)
(** * IngestArgs: the command line of the realtime watcher

    [src/args]: the options of [market-ingest-app], their defaults and validation. *)
From S2P Require Import Prelude Text Cli NormalizeArgs.
Open Scope Z_scope.

(* rust: src/args.rs Venue *)
Inductive Venue := Binance | Upbit.

(* rust: src/args.rs Args *)
Record Args := mkArgs {
  ar_venue : Venue;
  ar_config_dir : string;
  ar_duration_seconds : Z;
  ar_log_interval_seconds : Z;
  ar_depth_snapshot_limit : Z;
  ar_expect_symbol_count : Z;
  ar_allow_partial_symbol_coverage : bool;
  ar_binance_futures_rest_base_url : string;
  ar_binance_derivatives_snapshot_interval_seconds : Z;
  ar_upbit_rest_base_url : option string;
  ar_upbit_websocket_url : option string;
  ar_upbit_quote_currency : string;
  ar_upbit_orderbook_unit : Z;
  ar_l0_s3_bucket : option string;
  ar_aws_profile : option string;
  ar_aws_region : string;
  ar_l0_spool_root : string;
  ar_l0_flush_records : Z;
  ar_l0_shard_count : Z;
  ar_local_disk_high_water_pct : Z;
  ar_local_disk_emergency_pct : Z;
  ar_safety_floor_hours : Z;
  ar_eviction_check_interval_secs : Z;
  ar_s3_retention_enabled : bool;
  ar_s3_retention_days : Z;
  ar_s3_retention_check_interval_secs : Z;
  ar_s3_retention_max_deletes_per_run : Z;
  ar_live_nats_url : option string;
  ar_live_nats_stream : string;
  ar_live_nats_subject_prefix : string;
  ar_live_nats_required : bool;
}.

Definition set_ar_venue (v : Venue) (s : Args) : Args :=
  mkArgs v (ar_config_dir s) (ar_duration_seconds s) (ar_log_interval_seconds s) (ar_depth_snapshot_limit s) (ar_expect_symbol_count s) (ar_allow_partial_symbol_coverage s) (ar_binance_futures_rest_base_url s) (ar_binance_derivatives_snapshot_interval_seconds s) (ar_upbit_rest_base_url s) (ar_upbit_websocket_url s) (ar_upbit_quote_currency s) (ar_upbit_orderbook_unit s) (ar_l0_s3_bucket s) (ar_aws_profile s) (ar_aws_region s) (ar_l0_spool_root s) (ar_l0_flush_records s) (ar_l0_shard_count s) (ar_local_disk_high_water_pct s) (ar_local_disk_emergency_pct s) (ar_safety_floor_hours s) (ar_eviction_check_interval_secs s) (ar_s3_retention_enabled s) (ar_s3_retention_days s) (ar_s3_retention_check_interval_secs s) (ar_s3_retention_max_deletes_per_run s) (ar_live_nats_url s) (ar_live_nats_stream s) (ar_live_nats_subject_prefix s) (ar_live_nats_required s).
Definition set_ar_config_dir (v : string) (s : Args) : Args :=
  mkArgs (ar_venue s) v (ar_duration_seconds s) (ar_log_interval_seconds s) (ar_depth_snapshot_limit s) (ar_expect_symbol_count s) (ar_allow_partial_symbol_coverage s) (ar_binance_futures_rest_base_url s) (ar_binance_derivatives_snapshot_interval_seconds s) (ar_upbit_rest_base_url s) (ar_upbit_websocket_url s) (ar_upbit_quote_currency s) (ar_upbit_orderbook_unit s) (ar_l0_s3_bucket s) (ar_aws_profile s) (ar_aws_region s) (ar_l0_spool_root s) (ar_l0_flush_records s) (ar_l0_shard_count s) (ar_local_disk_high_water_pct s) (ar_local_disk_emergency_pct s) (ar_safety_floor_hours s) (ar_eviction_check_interval_secs s) (ar_s3_retention_enabled s) (ar_s3_retention_days s) (ar_s3_retention_check_interval_secs s) (ar_s3_retention_max_deletes_per_run s) (ar_live_nats_url s) (ar_live_nats_stream s) (ar_live_nats_subject_prefix s) (ar_live_nats_required s).
Definition set_ar_duration_seconds (v : Z) (s : Args) : Args :=
  mkArgs (ar_venue s) (ar_config_dir s) v (ar_log_interval_seconds s) (ar_depth_snapshot_limit s) (ar_expect_symbol_count s) (ar_allow_partial_symbol_coverage s) (ar_binance_futures_rest_base_url s) (ar_binance_derivatives_snapshot_interval_seconds s) (ar_upbit_rest_base_url s) (ar_upbit_websocket_url s) (ar_upbit_quote_currency s) (ar_upbit_orderbook_unit s) (ar_l0_s3_bucket s) (ar_aws_profile s) (ar_aws_region s) (ar_l0_spool_root s) (ar_l0_flush_records s) (ar_l0_shard_count s) (ar_local_disk_high_water_pct s) (ar_local_disk_emergency_pct s) (ar_safety_floor_hours s) (ar_eviction_check_interval_secs s) (ar_s3_retention_enabled s) (ar_s3_retention_days s) (ar_s3_retention_check_interval_secs s) (ar_s3_retention_max_deletes_per_run s) (ar_live_nats_url s) (ar_live_nats_stream s) (ar_live_nats_subject_prefix s) (ar_live_nats_required s).
Definition set_ar_log_interval_seconds (v : Z) (s : Args) : Args :=
  mkArgs (ar_venue s) (ar_config_dir s) (ar_duration_seconds s) v (ar_depth_snapshot_limit s) (ar_expect_symbol_count s) (ar_allow_partial_symbol_coverage s) (ar_binance_futures_rest_base_url s) (ar_binance_derivatives_snapshot_interval_seconds s) (ar_upbit_rest_base_url s) (ar_upbit_websocket_url s) (ar_upbit_quote_currency s) (ar_upbit_orderbook_unit s) (ar_l0_s3_bucket s) (ar_aws_profile s) (ar_aws_region s) (ar_l0_spool_root s) (ar_l0_flush_records s) (ar_l0_shard_count s) (ar_local_disk_high_water_pct s) (ar_local_disk_emergency_pct s) (ar_safety_floor_hours s) (ar_eviction_check_interval_secs s) (ar_s3_retention_enabled s) (ar_s3_retention_days s) (ar_s3_retention_check_interval_secs s) (ar_s3_retention_max_deletes_per_run s) (ar_live_nats_url s) (ar_live_nats_stream s) (ar_live_nats_subject_prefix s) (ar_live_nats_required s).
Definition set_ar_depth_snapshot_limit (v : Z) (s : Args) : Args :=
  mkArgs (ar_venue s) (ar_config_dir s) (ar_duration_seconds s) (ar_log_interval_seconds s) v (ar_expect_symbol_count s) (ar_allow_partial_symbol_coverage s) (ar_binance_futures_rest_base_url s) (ar_binance_derivatives_snapshot_interval_seconds s) (ar_upbit_rest_base_url s) (ar_upbit_websocket_url s) (ar_upbit_quote_currency s) (ar_upbit_orderbook_unit s) (ar_l0_s3_bucket s) (ar_aws_profile s) (ar_aws_region s) (ar_l0_spool_root s) (ar_l0_flush_records s) (ar_l0_shard_count s) (ar_local_disk_high_water_pct s) (ar_local_disk_emergency_pct s) (ar_safety_floor_hours s) (ar_eviction_check_interval_secs s) (ar_s3_retention_enabled s) (ar_s3_retention_days s) (ar_s3_retention_check_interval_secs s) (ar_s3_retention_max_deletes_per_run s) (ar_live_nats_url s) (ar_live_nats_stream s) (ar_live_nats_subject_prefix s) (ar_live_nats_required s).
Definition set_ar_expect_symbol_count (v : Z) (s : Args) : Args :=
  mkArgs (ar_venue s) (ar_config_dir s) (ar_duration_seconds s) (ar_log_interval_seconds s) (ar_depth_snapshot_limit s) v (ar_allow_partial_symbol_coverage s) (ar_binance_futures_rest_base_url s) (ar_binance_derivatives_snapshot_interval_seconds s) (ar_upbit_rest_base_url s) (ar_upbit_websocket_url s) (ar_upbit_quote_currency s) (ar_upbit_orderbook_unit s) (ar_l0_s3_bucket s) (ar_aws_profile s) (ar_aws_region s) (ar_l0_spool_root s) (ar_l0_flush_records s) (ar_l0_shard_count s) (ar_local_disk_high_water_pct s) (ar_local_disk_emergency_pct s) (ar_safety_floor_hours s) (ar_eviction_check_interval_secs s) (ar_s3_retention_enabled s) (ar_s3_retention_days s) (ar_s3_retention_check_interval_secs s) (ar_s3_retention_max_deletes_per_run s) (ar_live_nats_url s) (ar_live_nats_stream s) (ar_live_nats_subject_prefix s) (ar_live_nats_required s).
Definition set_ar_allow_partial_symbol_coverage (v : bool) (s : Args) : Args :=
  mkArgs (ar_venue s) (ar_config_dir s) (ar_duration_seconds s) (ar_log_interval_seconds s) (ar_depth_snapshot_limit s) (ar_expect_symbol_count s) v (ar_binance_futures_rest_base_url s) (ar_binance_derivatives_snapshot_interval_seconds s) (ar_upbit_rest_base_url s) (ar_upbit_websocket_url s) (ar_upbit_quote_currency s) (ar_upbit_orderbook_unit s) (ar_l0_s3_bucket s) (ar_aws_profile s) (ar_aws_region s) (ar_l0_spool_root s) (ar_l0_flush_records s) (ar_l0_shard_count s) (ar_local_disk_high_water_pct s) (ar_local_disk_emergency_pct s) (ar_safety_floor_hours s) (ar_eviction_check_interval_secs s) (ar_s3_retention_enabled s) (ar_s3_retention_days s) (ar_s3_retention_check_interval_secs s) (ar_s3_retention_max_deletes_per_run s) (ar_live_nats_url s) (ar_live_nats_stream s) (ar_live_nats_subject_prefix s) (ar_live_nats_required s).
Definition set_ar_binance_futures_rest_base_url (v : string) (s : Args) : Args :=
  mkArgs (ar_venue s) (ar_config_dir s) (ar_duration_seconds s) (ar_log_interval_seconds s) (ar_depth_snapshot_limit s) (ar_expect_symbol_count s) (ar_allow_partial_symbol_coverage s) v (ar_binance_derivatives_snapshot_interval_seconds s) (ar_upbit_rest_base_url s) (ar_upbit_websocket_url s) (ar_upbit_quote_currency s) (ar_upbit_orderbook_unit s) (ar_l0_s3_bucket s) (ar_aws_profile s) (ar_aws_region s) (ar_l0_spool_root s) (ar_l0_flush_records s) (ar_l0_shard_count s) (ar_local_disk_high_water_pct s) (ar_local_disk_emergency_pct s) (ar_safety_floor_hours s) (ar_eviction_check_interval_secs s) (ar_s3_retention_enabled s) (ar_s3_retention_days s) (ar_s3_retention_check_interval_secs s) (ar_s3_retention_max_deletes_per_run s) (ar_live_nats_url s) (ar_live_nats_stream s) (ar_live_nats_subject_prefix s) (ar_live_nats_required s).
Definition set_ar_binance_derivatives_snapshot_interval_seconds (v : Z) (s : Args) : Args :=
  mkArgs (ar_venue s) (ar_config_dir s) (ar_duration_seconds s) (ar_log_interval_seconds s) (ar_depth_snapshot_limit s) (ar_expect_symbol_count s) (ar_allow_partial_symbol_coverage s) (ar_binance_futures_rest_base_url s) v (ar_upbit_rest_base_url s) (ar_upbit_websocket_url s) (ar_upbit_quote_currency s) (ar_upbit_orderbook_unit s) (ar_l0_s3_bucket s) (ar_aws_profile s) (ar_aws_region s) (ar_l0_spool_root s) (ar_l0_flush_records s) (ar_l0_shard_count s) (ar_local_disk_high_water_pct s) (ar_local_disk_emergency_pct s) (ar_safety_floor_hours s) (ar_eviction_check_interval_secs s) (ar_s3_retention_enabled s) (ar_s3_retention_days s) (ar_s3_retention_check_interval_secs s) (ar_s3_retention_max_deletes_per_run s) (ar_live_nats_url s) (ar_live_nats_stream s) (ar_live_nats_subject_prefix s) (ar_live_nats_required s).
Definition set_ar_upbit_rest_base_url (v : option string) (s : Args) : Args :=
  mkArgs (ar_venue s) (ar_config_dir s) (ar_duration_seconds s) (ar_log_interval_seconds s) (ar_depth_snapshot_limit s) (ar_expect_symbol_count s) (ar_allow_partial_symbol_coverage s) (ar_binance_futures_rest_base_url s) (ar_binance_derivatives_snapshot_interval_seconds s) v (ar_upbit_websocket_url s) (ar_upbit_quote_currency s) (ar_upbit_orderbook_unit s) (ar_l0_s3_bucket s) (ar_aws_profile s) (ar_aws_region s) (ar_l0_spool_root s) (ar_l0_flush_records s) (ar_l0_shard_count s) (ar_local_disk_high_water_pct s) (ar_local_disk_emergency_pct s) (ar_safety_floor_hours s) (ar_eviction_check_interval_secs s) (ar_s3_retention_enabled s) (ar_s3_retention_days s) (ar_s3_retention_check_interval_secs s) (ar_s3_retention_max_deletes_per_run s) (ar_live_nats_url s) (ar_live_nats_stream s) (ar_live_nats_subject_prefix s) (ar_live_nats_required s).
Definition set_ar_upbit_websocket_url (v : option string) (s : Args) : Args :=
  mkArgs (ar_venue s) (ar_config_dir s) (ar_duration_seconds s) (ar_log_interval_seconds s) (ar_depth_snapshot_limit s) (ar_expect_symbol_count s) (ar_allow_partial_symbol_coverage s) (ar_binance_futures_rest_base_url s) (ar_binance_derivatives_snapshot_interval_seconds s) (ar_upbit_rest_base_url s) v (ar_upbit_quote_currency s) (ar_upbit_orderbook_unit s) (ar_l0_s3_bucket s) (ar_aws_profile s) (ar_aws_region s) (ar_l0_spool_root s) (ar_l0_flush_records s) (ar_l0_shard_count s) (ar_local_disk_high_water_pct s) (ar_local_disk_emergency_pct s) (ar_safety_floor_hours s) (ar_eviction_check_interval_secs s) (ar_s3_retention_enabled s) (ar_s3_retention_days s) (ar_s3_retention_check_interval_secs s) (ar_s3_retention_max_deletes_per_run s) (ar_live_nats_url s) (ar_live_nats_stream s) (ar_live_nats_subject_prefix s) (ar_live_nats_required s).
Definition set_ar_upbit_quote_currency (v : string) (s : Args) : Args :=
  mkArgs (ar_venue s) (ar_config_dir s) (ar_duration_seconds s) (ar_log_interval_seconds s) (ar_depth_snapshot_limit s) (ar_expect_symbol_count s) (ar_allow_partial_symbol_coverage s) (ar_binance_futures_rest_base_url s) (ar_binance_derivatives_snapshot_interval_seconds s) (ar_upbit_rest_base_url s) (ar_upbit_websocket_url s) v (ar_upbit_orderbook_unit s) (ar_l0_s3_bucket s) (ar_aws_profile s) (ar_aws_region s) (ar_l0_spool_root s) (ar_l0_flush_records s) (ar_l0_shard_count s) (ar_local_disk_high_water_pct s) (ar_local_disk_emergency_pct s) (ar_safety_floor_hours s) (ar_eviction_check_interval_secs s) (ar_s3_retention_enabled s) (ar_s3_retention_days s) (ar_s3_retention_check_interval_secs s) (ar_s3_retention_max_deletes_per_run s) (ar_live_nats_url s) (ar_live_nats_stream s) (ar_live_nats_subject_prefix s) (ar_live_nats_required s).
Definition set_ar_upbit_orderbook_unit (v : Z) (s : Args) : Args :=
  mkArgs (ar_venue s) (ar_config_dir s) (ar_duration_seconds s) (ar_log_interval_seconds s) (ar_depth_snapshot_limit s) (ar_expect_symbol_count s) (ar_allow_partial_symbol_coverage s) (ar_binance_futures_rest_base_url s) (ar_binance_derivatives_snapshot_interval_seconds s) (ar_upbit_rest_base_url s) (ar_upbit_websocket_url s) (ar_upbit_quote_currency s) v (ar_l0_s3_bucket s) (ar_aws_profile s) (ar_aws_region s) (ar_l0_spool_root s) (ar_l0_flush_records s) (ar_l0_shard_count s) (ar_local_disk_high_water_pct s) (ar_local_disk_emergency_pct s) (ar_safety_floor_hours s) (ar_eviction_check_interval_secs s) (ar_s3_retention_enabled s) (ar_s3_retention_days s) (ar_s3_retention_check_interval_secs s) (ar_s3_retention_max_deletes_per_run s) (ar_live_nats_url s) (ar_live_nats_stream s) (ar_live_nats_subject_prefix s) (ar_live_nats_required s).
Definition set_ar_l0_s3_bucket (v : option string) (s : Args) : Args :=
  mkArgs (ar_venue s) (ar_config_dir s) (ar_duration_seconds s) (ar_log_interval_seconds s) (ar_depth_snapshot_limit s) (ar_expect_symbol_count s) (ar_allow_partial_symbol_coverage s) (ar_binance_futures_rest_base_url s) (ar_binance_derivatives_snapshot_interval_seconds s) (ar_upbit_rest_base_url s) (ar_upbit_websocket_url s) (ar_upbit_quote_currency s) (ar_upbit_orderbook_unit s) v (ar_aws_profile s) (ar_aws_region s) (ar_l0_spool_root s) (ar_l0_flush_records s) (ar_l0_shard_count s) (ar_local_disk_high_water_pct s) (ar_local_disk_emergency_pct s) (ar_safety_floor_hours s) (ar_eviction_check_interval_secs s) (ar_s3_retention_enabled s) (ar_s3_retention_days s) (ar_s3_retention_check_interval_secs s) (ar_s3_retention_max_deletes_per_run s) (ar_live_nats_url s) (ar_live_nats_stream s) (ar_live_nats_subject_prefix s) (ar_live_nats_required s).
Definition set_ar_aws_profile (v : option string) (s : Args) : Args :=
  mkArgs (ar_venue s) (ar_config_dir s) (ar_duration_seconds s) (ar_log_interval_seconds s) (ar_depth_snapshot_limit s) (ar_expect_symbol_count s) (ar_allow_partial_symbol_coverage s) (ar_binance_futures_rest_base_url s) (ar_binance_derivatives_snapshot_interval_seconds s) (ar_upbit_rest_base_url s) (ar_upbit_websocket_url s) (ar_upbit_quote_currency s) (ar_upbit_orderbook_unit s) (ar_l0_s3_bucket s) v (ar_aws_region s) (ar_l0_spool_root s) (ar_l0_flush_records s) (ar_l0_shard_count s) (ar_local_disk_high_water_pct s) (ar_local_disk_emergency_pct s) (ar_safety_floor_hours s) (ar_eviction_check_interval_secs s) (ar_s3_retention_enabled s) (ar_s3_retention_days s) (ar_s3_retention_check_interval_secs s) (ar_s3_retention_max_deletes_per_run s) (ar_live_nats_url s) (ar_live_nats_stream s) (ar_live_nats_subject_prefix s) (ar_live_nats_required s).
Definition set_ar_aws_region (v : string) (s : Args) : Args :=
  mkArgs (ar_venue s) (ar_config_dir s) (ar_duration_seconds s) (ar_log_interval_seconds s) (ar_depth_snapshot_limit s) (ar_expect_symbol_count s) (ar_allow_partial_symbol_coverage s) (ar_binance_futures_rest_base_url s) (ar_binance_derivatives_snapshot_interval_seconds s) (ar_upbit_rest_base_url s) (ar_upbit_websocket_url s) (ar_upbit_quote_currency s) (ar_upbit_orderbook_unit s) (ar_l0_s3_bucket s) (ar_aws_profile s) v (ar_l0_spool_root s) (ar_l0_flush_records s) (ar_l0_shard_count s) (ar_local_disk_high_water_pct s) (ar_local_disk_emergency_pct s) (ar_safety_floor_hours s) (ar_eviction_check_interval_secs s) (ar_s3_retention_enabled s) (ar_s3_retention_days s) (ar_s3_retention_check_interval_secs s) (ar_s3_retention_max_deletes_per_run s) (ar_live_nats_url s) (ar_live_nats_stream s) (ar_live_nats_subject_prefix s) (ar_live_nats_required s).
Definition set_ar_l0_spool_root (v : string) (s : Args) : Args :=
  mkArgs (ar_venue s) (ar_config_dir s) (ar_duration_seconds s) (ar_log_interval_seconds s) (ar_depth_snapshot_limit s) (ar_expect_symbol_count s) (ar_allow_partial_symbol_coverage s) (ar_binance_futures_rest_base_url s) (ar_binance_derivatives_snapshot_interval_seconds s) (ar_upbit_rest_base_url s) (ar_upbit_websocket_url s) (ar_upbit_quote_currency s) (ar_upbit_orderbook_unit s) (ar_l0_s3_bucket s) (ar_aws_profile s) (ar_aws_region s) v (ar_l0_flush_records s) (ar_l0_shard_count s) (ar_local_disk_high_water_pct s) (ar_local_disk_emergency_pct s) (ar_safety_floor_hours s) (ar_eviction_check_interval_secs s) (ar_s3_retention_enabled s) (ar_s3_retention_days s) (ar_s3_retention_check_interval_secs s) (ar_s3_retention_max_deletes_per_run s) (ar_live_nats_url s) (ar_live_nats_stream s) (ar_live_nats_subject_prefix s) (ar_live_nats_required s).
Definition set_ar_l0_flush_records (v : Z) (s : Args) : Args :=
  mkArgs (ar_venue s) (ar_config_dir s) (ar_duration_seconds s) (ar_log_interval_seconds s) (ar_depth_snapshot_limit s) (ar_expect_symbol_count s) (ar_allow_partial_symbol_coverage s) (ar_binance_futures_rest_base_url s) (ar_binance_derivatives_snapshot_interval_seconds s) (ar_upbit_rest_base_url s) (ar_upbit_websocket_url s) (ar_upbit_quote_currency s) (ar_upbit_orderbook_unit s) (ar_l0_s3_bucket s) (ar_aws_profile s) (ar_aws_region s) (ar_l0_spool_root s) v (ar_l0_shard_count s) (ar_local_disk_high_water_pct s) (ar_local_disk_emergency_pct s) (ar_safety_floor_hours s) (ar_eviction_check_interval_secs s) (ar_s3_retention_enabled s) (ar_s3_retention_days s) (ar_s3_retention_check_interval_secs s) (ar_s3_retention_max_deletes_per_run s) (ar_live_nats_url s) (ar_live_nats_stream s) (ar_live_nats_subject_prefix s) (ar_live_nats_required s).
Definition set_ar_l0_shard_count (v : Z) (s : Args) : Args :=
  mkArgs (ar_venue s) (ar_config_dir s) (ar_duration_seconds s) (ar_log_interval_seconds s) (ar_depth_snapshot_limit s) (ar_expect_symbol_count s) (ar_allow_partial_symbol_coverage s) (ar_binance_futures_rest_base_url s) (ar_binance_derivatives_snapshot_interval_seconds s) (ar_upbit_rest_base_url s) (ar_upbit_websocket_url s) (ar_upbit_quote_currency s) (ar_upbit_orderbook_unit s) (ar_l0_s3_bucket s) (ar_aws_profile s) (ar_aws_region s) (ar_l0_spool_root s) (ar_l0_flush_records s) v (ar_local_disk_high_water_pct s) (ar_local_disk_emergency_pct s) (ar_safety_floor_hours s) (ar_eviction_check_interval_secs s) (ar_s3_retention_enabled s) (ar_s3_retention_days s) (ar_s3_retention_check_interval_secs s) (ar_s3_retention_max_deletes_per_run s) (ar_live_nats_url s) (ar_live_nats_stream s) (ar_live_nats_subject_prefix s) (ar_live_nats_required s).
Definition set_ar_local_disk_high_water_pct (v : Z) (s : Args) : Args :=
  mkArgs (ar_venue s) (ar_config_dir s) (ar_duration_seconds s) (ar_log_interval_seconds s) (ar_depth_snapshot_limit s) (ar_expect_symbol_count s) (ar_allow_partial_symbol_coverage s) (ar_binance_futures_rest_base_url s) (ar_binance_derivatives_snapshot_interval_seconds s) (ar_upbit_rest_base_url s) (ar_upbit_websocket_url s) (ar_upbit_quote_currency s) (ar_upbit_orderbook_unit s) (ar_l0_s3_bucket s) (ar_aws_profile s) (ar_aws_region s) (ar_l0_spool_root s) (ar_l0_flush_records s) (ar_l0_shard_count s) v (ar_local_disk_emergency_pct s) (ar_safety_floor_hours s) (ar_eviction_check_interval_secs s) (ar_s3_retention_enabled s) (ar_s3_retention_days s) (ar_s3_retention_check_interval_secs s) (ar_s3_retention_max_deletes_per_run s) (ar_live_nats_url s) (ar_live_nats_stream s) (ar_live_nats_subject_prefix s) (ar_live_nats_required s).
Definition set_ar_local_disk_emergency_pct (v : Z) (s : Args) : Args :=
  mkArgs (ar_venue s) (ar_config_dir s) (ar_duration_seconds s) (ar_log_interval_seconds s) (ar_depth_snapshot_limit s) (ar_expect_symbol_count s) (ar_allow_partial_symbol_coverage s) (ar_binance_futures_rest_base_url s) (ar_binance_derivatives_snapshot_interval_seconds s) (ar_upbit_rest_base_url s) (ar_upbit_websocket_url s) (ar_upbit_quote_currency s) (ar_upbit_orderbook_unit s) (ar_l0_s3_bucket s) (ar_aws_profile s) (ar_aws_region s) (ar_l0_spool_root s) (ar_l0_flush_records s) (ar_l0_shard_count s) (ar_local_disk_high_water_pct s) v (ar_safety_floor_hours s) (ar_eviction_check_interval_secs s) (ar_s3_retention_enabled s) (ar_s3_retention_days s) (ar_s3_retention_check_interval_secs s) (ar_s3_retention_max_deletes_per_run s) (ar_live_nats_url s) (ar_live_nats_stream s) (ar_live_nats_subject_prefix s) (ar_live_nats_required s).
Definition set_ar_safety_floor_hours (v : Z) (s : Args) : Args :=
  mkArgs (ar_venue s) (ar_config_dir s) (ar_duration_seconds s) (ar_log_interval_seconds s) (ar_depth_snapshot_limit s) (ar_expect_symbol_count s) (ar_allow_partial_symbol_coverage s) (ar_binance_futures_rest_base_url s) (ar_binance_derivatives_snapshot_interval_seconds s) (ar_upbit_rest_base_url s) (ar_upbit_websocket_url s) (ar_upbit_quote_currency s) (ar_upbit_orderbook_unit s) (ar_l0_s3_bucket s) (ar_aws_profile s) (ar_aws_region s) (ar_l0_spool_root s) (ar_l0_flush_records s) (ar_l0_shard_count s) (ar_local_disk_high_water_pct s) (ar_local_disk_emergency_pct s) v (ar_eviction_check_interval_secs s) (ar_s3_retention_enabled s) (ar_s3_retention_days s) (ar_s3_retention_check_interval_secs s) (ar_s3_retention_max_deletes_per_run s) (ar_live_nats_url s) (ar_live_nats_stream s) (ar_live_nats_subject_prefix s) (ar_live_nats_required s).
Definition set_ar_eviction_check_interval_secs (v : Z) (s : Args) : Args :=
  mkArgs (ar_venue s) (ar_config_dir s) (ar_duration_seconds s) (ar_log_interval_seconds s) (ar_depth_snapshot_limit s) (ar_expect_symbol_count s) (ar_allow_partial_symbol_coverage s) (ar_binance_futures_rest_base_url s) (ar_binance_derivatives_snapshot_interval_seconds s) (ar_upbit_rest_base_url s) (ar_upbit_websocket_url s) (ar_upbit_quote_currency s) (ar_upbit_orderbook_unit s) (ar_l0_s3_bucket s) (ar_aws_profile s) (ar_aws_region s) (ar_l0_spool_root s) (ar_l0_flush_records s) (ar_l0_shard_count s) (ar_local_disk_high_water_pct s) (ar_local_disk_emergency_pct s) (ar_safety_floor_hours s) v (ar_s3_retention_enabled s) (ar_s3_retention_days s) (ar_s3_retention_check_interval_secs s) (ar_s3_retention_max_deletes_per_run s) (ar_live_nats_url s) (ar_live_nats_stream s) (ar_live_nats_subject_prefix s) (ar_live_nats_required s).
Definition set_ar_s3_retention_enabled (v : bool) (s : Args) : Args :=
  mkArgs (ar_venue s) (ar_config_dir s) (ar_duration_seconds s) (ar_log_interval_seconds s) (ar_depth_snapshot_limit s) (ar_expect_symbol_count s) (ar_allow_partial_symbol_coverage s) (ar_binance_futures_rest_base_url s) (ar_binance_derivatives_snapshot_interval_seconds s) (ar_upbit_rest_base_url s) (ar_upbit_websocket_url s) (ar_upbit_quote_currency s) (ar_upbit_orderbook_unit s) (ar_l0_s3_bucket s) (ar_aws_profile s) (ar_aws_region s) (ar_l0_spool_root s) (ar_l0_flush_records s) (ar_l0_shard_count s) (ar_local_disk_high_water_pct s) (ar_local_disk_emergency_pct s) (ar_safety_floor_hours s) (ar_eviction_check_interval_secs s) v (ar_s3_retention_days s) (ar_s3_retention_check_interval_secs s) (ar_s3_retention_max_deletes_per_run s) (ar_live_nats_url s) (ar_live_nats_stream s) (ar_live_nats_subject_prefix s) (ar_live_nats_required s).
Definition set_ar_s3_retention_days (v : Z) (s : Args) : Args :=
  mkArgs (ar_venue s) (ar_config_dir s) (ar_duration_seconds s) (ar_log_interval_seconds s) (ar_depth_snapshot_limit s) (ar_expect_symbol_count s) (ar_allow_partial_symbol_coverage s) (ar_binance_futures_rest_base_url s) (ar_binance_derivatives_snapshot_interval_seconds s) (ar_upbit_rest_base_url s) (ar_upbit_websocket_url s) (ar_upbit_quote_currency s) (ar_upbit_orderbook_unit s) (ar_l0_s3_bucket s) (ar_aws_profile s) (ar_aws_region s) (ar_l0_spool_root s) (ar_l0_flush_records s) (ar_l0_shard_count s) (ar_local_disk_high_water_pct s) (ar_local_disk_emergency_pct s) (ar_safety_floor_hours s) (ar_eviction_check_interval_secs s) (ar_s3_retention_enabled s) v (ar_s3_retention_check_interval_secs s) (ar_s3_retention_max_deletes_per_run s) (ar_live_nats_url s) (ar_live_nats_stream s) (ar_live_nats_subject_prefix s) (ar_live_nats_required s).
Definition set_ar_s3_retention_check_interval_secs (v : Z) (s : Args) : Args :=
  mkArgs (ar_venue s) (ar_config_dir s) (ar_duration_seconds s) (ar_log_interval_seconds s) (ar_depth_snapshot_limit s) (ar_expect_symbol_count s) (ar_allow_partial_symbol_coverage s) (ar_binance_futures_rest_base_url s) (ar_binance_derivatives_snapshot_interval_seconds s) (ar_upbit_rest_base_url s) (ar_upbit_websocket_url s) (ar_upbit_quote_currency s) (ar_upbit_orderbook_unit s) (ar_l0_s3_bucket s) (ar_aws_profile s) (ar_aws_region s) (ar_l0_spool_root s) (ar_l0_flush_records s) (ar_l0_shard_count s) (ar_local_disk_high_water_pct s) (ar_local_disk_emergency_pct s) (ar_safety_floor_hours s) (ar_eviction_check_interval_secs s) (ar_s3_retention_enabled s) (ar_s3_retention_days s) v (ar_s3_retention_max_deletes_per_run s) (ar_live_nats_url s) (ar_live_nats_stream s) (ar_live_nats_subject_prefix s) (ar_live_nats_required s).
Definition set_ar_s3_retention_max_deletes_per_run (v : Z) (s : Args) : Args :=
  mkArgs (ar_venue s) (ar_config_dir s) (ar_duration_seconds s) (ar_log_interval_seconds s) (ar_depth_snapshot_limit s) (ar_expect_symbol_count s) (ar_allow_partial_symbol_coverage s) (ar_binance_futures_rest_base_url s) (ar_binance_derivatives_snapshot_interval_seconds s) (ar_upbit_rest_base_url s) (ar_upbit_websocket_url s) (ar_upbit_quote_currency s) (ar_upbit_orderbook_unit s) (ar_l0_s3_bucket s) (ar_aws_profile s) (ar_aws_region s) (ar_l0_spool_root s) (ar_l0_flush_records s) (ar_l0_shard_count s) (ar_local_disk_high_water_pct s) (ar_local_disk_emergency_pct s) (ar_safety_floor_hours s) (ar_eviction_check_interval_secs s) (ar_s3_retention_enabled s) (ar_s3_retention_days s) (ar_s3_retention_check_interval_secs s) v (ar_live_nats_url s) (ar_live_nats_stream s) (ar_live_nats_subject_prefix s) (ar_live_nats_required s).
Definition set_ar_live_nats_url (v : option string) (s : Args) : Args :=
  mkArgs (ar_venue s) (ar_config_dir s) (ar_duration_seconds s) (ar_log_interval_seconds s) (ar_depth_snapshot_limit s) (ar_expect_symbol_count s) (ar_allow_partial_symbol_coverage s) (ar_binance_futures_rest_base_url s) (ar_binance_derivatives_snapshot_interval_seconds s) (ar_upbit_rest_base_url s) (ar_upbit_websocket_url s) (ar_upbit_quote_currency s) (ar_upbit_orderbook_unit s) (ar_l0_s3_bucket s) (ar_aws_profile s) (ar_aws_region s) (ar_l0_spool_root s) (ar_l0_flush_records s) (ar_l0_shard_count s) (ar_local_disk_high_water_pct s) (ar_local_disk_emergency_pct s) (ar_safety_floor_hours s) (ar_eviction_check_interval_secs s) (ar_s3_retention_enabled s) (ar_s3_retention_days s) (ar_s3_retention_check_interval_secs s) (ar_s3_retention_max_deletes_per_run s) v (ar_live_nats_stream s) (ar_live_nats_subject_prefix s) (ar_live_nats_required s).
Definition set_ar_live_nats_stream (v : string) (s : Args) : Args :=
  mkArgs (ar_venue s) (ar_config_dir s) (ar_duration_seconds s) (ar_log_interval_seconds s) (ar_depth_snapshot_limit s) (ar_expect_symbol_count s) (ar_allow_partial_symbol_coverage s) (ar_binance_futures_rest_base_url s) (ar_binance_derivatives_snapshot_interval_seconds s) (ar_upbit_rest_base_url s) (ar_upbit_websocket_url s) (ar_upbit_quote_currency s) (ar_upbit_orderbook_unit s) (ar_l0_s3_bucket s) (ar_aws_profile s) (ar_aws_region s) (ar_l0_spool_root s) (ar_l0_flush_records s) (ar_l0_shard_count s) (ar_local_disk_high_water_pct s) (ar_local_disk_emergency_pct s) (ar_safety_floor_hours s) (ar_eviction_check_interval_secs s) (ar_s3_retention_enabled s) (ar_s3_retention_days s) (ar_s3_retention_check_interval_secs s) (ar_s3_retention_max_deletes_per_run s) (ar_live_nats_url s) v (ar_live_nats_subject_prefix s) (ar_live_nats_required s).
Definition set_ar_live_nats_subject_prefix (v : string) (s : Args) : Args :=
  mkArgs (ar_venue s) (ar_config_dir s) (ar_duration_seconds s) (ar_log_interval_seconds s) (ar_depth_snapshot_limit s) (ar_expect_symbol_count s) (ar_allow_partial_symbol_coverage s) (ar_binance_futures_rest_base_url s) (ar_binance_derivatives_snapshot_interval_seconds s) (ar_upbit_rest_base_url s) (ar_upbit_websocket_url s) (ar_upbit_quote_currency s) (ar_upbit_orderbook_unit s) (ar_l0_s3_bucket s) (ar_aws_profile s) (ar_aws_region s) (ar_l0_spool_root s) (ar_l0_flush_records s) (ar_l0_shard_count s) (ar_local_disk_high_water_pct s) (ar_local_disk_emergency_pct s) (ar_safety_floor_hours s) (ar_eviction_check_interval_secs s) (ar_s3_retention_enabled s) (ar_s3_retention_days s) (ar_s3_retention_check_interval_secs s) (ar_s3_retention_max_deletes_per_run s) (ar_live_nats_url s) (ar_live_nats_stream s) v (ar_live_nats_required s).
Definition set_ar_live_nats_required (v : bool) (s : Args) : Args :=
  mkArgs (ar_venue s) (ar_config_dir s) (ar_duration_seconds s) (ar_log_interval_seconds s) (ar_depth_snapshot_limit s) (ar_expect_symbol_count s) (ar_allow_partial_symbol_coverage s) (ar_binance_futures_rest_base_url s) (ar_binance_derivatives_snapshot_interval_seconds s) (ar_upbit_rest_base_url s) (ar_upbit_websocket_url s) (ar_upbit_quote_currency s) (ar_upbit_orderbook_unit s) (ar_l0_s3_bucket s) (ar_aws_profile s) (ar_aws_region s) (ar_l0_spool_root s) (ar_l0_flush_records s) (ar_l0_shard_count s) (ar_local_disk_high_water_pct s) (ar_local_disk_emergency_pct s) (ar_safety_floor_hours s) (ar_eviction_check_interval_secs s) (ar_s3_retention_enabled s) (ar_s3_retention_days s) (ar_s3_retention_check_interval_secs s) (ar_s3_retention_max_deletes_per_run s) (ar_live_nats_url s) (ar_live_nats_stream s) (ar_live_nats_subject_prefix s) v.

Section args.
Context {V : Environment}.

(* rust: src/args/parse_cli/defaults.rs default_args *)
Definition default_args : Args :=
  mkArgs Binance "/opt/nangman-crypto/strategies/crypto/rust-engine/config" 15 5 100 50 false
    "https://fapi.binance.com" 300 None None "KRW" 5 None None "ap-northeast-2"
    "/opt/nangman-crypto/data/spool/market-ingest/l0" 1000 1 70 90 2 600 true 45 21600 1000
    (env_string "MARKET_LIVE_NATS_URL")
    (default DEFAULT_MARKET_LIVE_NATS_STREAM (env_string "MARKET_LIVE_NATS_STREAM"))
    (default DEFAULT_MARKET_LIVE_NATS_SUBJECT_PREFIX (env_string "MARKET_LIVE_NATS_SUBJECT_PREFIX"))
    (env_bool "MARKET_LIVE_NATS_REQUIRED").

(** ** Values *)

(* rust: src/args/parse.rs parse_venue *)
Definition parse_venue (value : string) : result string Venue :=
  if String.eqb value "binance" then Ok Binance
  else if String.eqb value "upbit" then Ok Upbit
  else Err "--venue must be binance or upbit"%string.

Definition one_of (z : Z) (l : list Z) : bool := existsb (Z.eqb z) l.

(* rust: src/args/parse.rs parse_depth_snapshot_limit *)
Definition parse_depth_snapshot_limit (value : option string) : result string Z :=
  v ← ok_or value "--depth-snapshot-limit requires 5, 10, 20, 50, 100, 500, 1000, or 5000"%string;
  parsed ← ok_or (parse_int U16 v) "--depth-snapshot-limit must be an integer"%string;
  if one_of parsed [5; 10; 20; 50; 100; 500; 1000; 5000] then Ok parsed
  else Err "--depth-snapshot-limit must be 5, 10, 20, 50, 100, 500, 1000, or 5000"%string.

(* rust: src/args/parse.rs parse_upbit_orderbook_unit *)
Definition parse_upbit_orderbook_unit (value : option string) : result string Z :=
  v ← ok_or value "--upbit-orderbook-unit requires 1, 5, 15, or 30"%string;
  parsed ← ok_or (parse_int U8 v) "--upbit-orderbook-unit must be an integer"%string;
  if one_of parsed [1; 5; 15; 30] then Ok parsed
  else Err "--upbit-orderbook-unit must be 1, 5, 15, or 30"%string.

(* rust: src/args/parse.rs parse_pct *)
Definition parse_pct (value name : string) : result string Z :=
  parsed ← ok_or (parse_int U8 value) (name ++ " must be 1..100")%string;
  if (parsed =? 0) || (100 <? parsed) then Err (name ++ " must be 1..100")%string else Ok parsed.

(** ** Options *)

Definition args_flag (name : string) (p : Args) : option Args :=
  if String.eqb name "--allow-partial-symbol-coverage" then Some (set_ar_allow_partial_symbol_coverage true p)
  else if String.eqb name "--disable-s3-retention" then Some (set_ar_s3_retention_enabled false p)
  else if String.eqb name "--live-nats-required" then Some (set_ar_live_nats_required true p)
  else None.

(* rust: src/args/parse_cli.rs required_arg *)
Definition required_arg (value : option string) (message : string) : result string string :=
  ok_or value message.

(** A required positive number. *)
Definition positive_arg (t : int_ty) (value : option string) (name : string) : result string Z :=
  v ← required_arg value (name ++ " requires a positive integer")%string;
  parse_positive_named t v name.

(* rust: src/args/parse_cli/options/runtime.rs apply_option *)
Definition apply_runtime_option (name : string) (value : option string) (p : Args)
    : option (result string Args) :=
  if String.eqb name "--venue" then Some (
    v ← required_arg value "--venue requires binance or upbit"%string;
    venue ← parse_venue v; Ok (set_ar_venue venue p)) else
  if String.eqb name "--config" then Some (
    v ← required_arg value "--config requires an absolute config directory path"%string;
    Ok (set_ar_config_dir v p)) else
  if String.eqb name "--duration-seconds" then Some (
    v ← positive_arg U64 value name; Ok (set_ar_duration_seconds v p)) else
  if String.eqb name "--log-interval-seconds" then Some (
    v ← positive_arg U64 value name; Ok (set_ar_log_interval_seconds v p)) else
  if String.eqb name "--depth-snapshot-limit" then Some (
    v ← parse_depth_snapshot_limit value; Ok (set_ar_depth_snapshot_limit v p)) else
  if String.eqb name "--expect-symbol-count" then Some (
    v ← positive_arg Usize value name; Ok (set_ar_expect_symbol_count v p)) else
  None.

(* rust: src/args/parse_cli/options/exchange.rs apply_option *)
Definition apply_exchange_option (name : string) (value : option string) (p : Args)
    : option (result string Args) :=
  if String.eqb name "--binance-futures-rest-base-url" then Some (
    v ← required_arg value "--binance-futures-rest-base-url requires an absolute HTTPS URL"%string;
    Ok (set_ar_binance_futures_rest_base_url v p)) else
  if String.eqb name "--binance-derivatives-snapshot-interval-seconds" then Some (
    v ← positive_arg U64 value name; Ok (set_ar_binance_derivatives_snapshot_interval_seconds v p)) else
  if String.eqb name "--upbit-rest-base-url" then Some (
    v ← required_arg value "--upbit-rest-base-url requires an absolute HTTPS URL"%string;
    Ok (set_ar_upbit_rest_base_url (Some v) p)) else
  if String.eqb name "--upbit-websocket-url" then Some (
    v ← required_arg value "--upbit-websocket-url requires an absolute WSS URL"%string;
    Ok (set_ar_upbit_websocket_url (Some v) p)) else
  if String.eqb name "--upbit-quote-currency" then Some (
    v ← required_arg value "--upbit-quote-currency requires a quote currency"%string;
    Ok (set_ar_upbit_quote_currency v p)) else
  if String.eqb name "--upbit-orderbook-unit" then Some (
    v ← parse_upbit_orderbook_unit value; Ok (set_ar_upbit_orderbook_unit v p)) else
  None.

(* rust: src/args/parse_cli/options/storage.rs apply_option *)
Definition apply_storage_option (name : string) (value : option string) (p : Args)
    : option (result string Args) :=
  if String.eqb name "--l0-s3-bucket" then Some (
    v ← required_arg value "--l0-s3-bucket requires a bucket"%string;
    Ok (set_ar_l0_s3_bucket (Some v) p)) else
  if String.eqb name "--aws-profile" then Some (
    v ← required_arg value "--aws-profile requires a profile"%string;
    Ok (set_ar_aws_profile (Some v) p)) else
  if String.eqb name "--aws-region" then Some (
    v ← required_arg value "--aws-region requires a region"%string; Ok (set_ar_aws_region v p)) else
  if String.eqb name "--l0-spool-root" then Some (
    v ← required_arg value "--l0-spool-root requires an absolute directory path"%string;
    Ok (set_ar_l0_spool_root v p)) else
  if String.eqb name "--l0-flush-records" then Some (
    v ← positive_arg Usize value name; Ok (set_ar_l0_flush_records v p)) else
  if String.eqb name "--l0-shard-count" then Some (
    v ← positive_arg U16 value name; Ok (set_ar_l0_shard_count v p)) else
  if String.eqb name "--local-disk-high-water-pct" then Some (
    v ← required_arg value "--local-disk-high-water-pct requires 1..100"%string;
    z ← parse_pct v name; Ok (set_ar_local_disk_high_water_pct z p)) else
  if String.eqb name "--local-disk-emergency-pct" then Some (
    v ← required_arg value "--local-disk-emergency-pct requires 1..100"%string;
    z ← parse_pct v name; Ok (set_ar_local_disk_emergency_pct z p)) else
  if String.eqb name "--safety-floor-hours" then Some (
    v ← positive_arg I64 value name; Ok (set_ar_safety_floor_hours v p)) else
  if String.eqb name "--eviction-check-interval-secs" then Some (
    v ← positive_arg U64 value name; Ok (set_ar_eviction_check_interval_secs v p)) else
  None.

(* rust: src/args/parse_cli/options/retention.rs apply_option *)
Definition apply_retention_option (name : string) (value : option string) (p : Args)
    : option (result string Args) :=
  if String.eqb name "--s3-retention-days" then Some (
    v ← positive_arg I64 value name; Ok (set_ar_s3_retention_days v p)) else
  if String.eqb name "--s3-retention-check-interval-secs" then Some (
    v ← positive_arg U64 value name; Ok (set_ar_s3_retention_check_interval_secs v p)) else
  if String.eqb name "--s3-retention-max-deletes-per-run" then Some (
    v ← positive_arg Usize value name; Ok (set_ar_s3_retention_max_deletes_per_run v p)) else
  None.

(* rust: src/args/parse_cli/options/live.rs apply_option *)
Definition apply_live_option (name : string) (value : option string) (p : Args)
    : option (result string Args) :=
  if String.eqb name "--live-nats-url" then Some (
    v ← required_arg value "--live-nats-url requires a nats:// URL"%string;
    Ok (set_ar_live_nats_url (Some v) p)) else
  if String.eqb name "--live-nats-stream" then Some (
    v ← required_arg value "--live-nats-stream requires a stream name"%string;
    Ok (set_ar_live_nats_stream v p)) else
  if String.eqb name "--live-nats-subject-prefix" then Some (
    v ← required_arg value "--live-nats-subject-prefix requires a subject prefix"%string;
    Ok (set_ar_live_nats_subject_prefix v p)) else
  None.

(** The options without a value are [args_flag]. *)
(* rust: src/args/parse_cli/options.rs apply_option *)
Definition apply_option (name : string) (value : option string) (p : Args) : result string Args :=
  match apply_runtime_option name value p with Some r => r | None =>
  match apply_exchange_option name value p with Some r => r | None =>
  match apply_storage_option name value p with Some r => r | None =>
  match apply_retention_option name value p with Some r => r | None =>
  match apply_live_option name value p with Some r => r | None =>
  Err ("unknown argument: " ++ name)%string end end end end end.

(* rust: src/args/validation.rs validate_and_normalize *)
Definition validate_and_normalize (p : Args) : result string Args :=
  if ar_local_disk_emergency_pct p <? ar_local_disk_high_water_pct p
  then Err "--local-disk-emergency-pct must be >= --local-disk-high-water-pct"%string else
  _ ← match ar_l0_s3_bucket p with
      | Some bucket => validate_real_bucket "--l0-s3-bucket" bucket | None => Ok () end;
  _ ← validate_live (ar_live_nats_url p) (ar_live_nats_stream p) (ar_live_nats_subject_prefix p);
  Ok (if ar_duration_seconds p <? ar_log_interval_seconds p
      then set_ar_log_interval_seconds (ar_duration_seconds p) p else p).

(* rust: src/args/parse_cli.rs parse_args *)
Definition parse_ingest_args (argv : list string) : result string (option Args) :=
  parsed ← cli_loop args_flag apply_option argv default_args;
  match parsed with
  | None => Ok None
  | Some p => p ← validate_and_normalize p; Ok (Some p)
  end.
End args.
