(* ===== verification/Config.v ===== *)
(** * Config: the configuration files and what the watchers make of them

    [src/config] and [src/venue_runner.rs]: exchanges and symbols read from TOML, their
    validation, and the configuration each watcher runs with.  Reading a TOML file and
    parsing a URL are parameters. *)
From S2P Require Import Prelude Text Decimal Domain BinanceNormalize Records Sink VenueStats.
From S2P Require Import BinanceVenue UpbitVenue Derivatives IngestArgs.
Open Scope Z_scope.

(* rust: crypto-domain/src/error.rs fmt *)
Definition DomainError_display (e : DomainError) : string :=
  match e with
  | EmptyDecimal => "decimal value is empty"
  | InvalidDecimal value => "invalid decimal value: " ++ value
  | NegativeUnsignedDecimal value => "unsigned decimal cannot be negative: " ++ value
  | ScaleOverflow => "decimal scale overflow"
  | DivideByZero => "cannot divide by zero"
  | InvalidSymbol value => "invalid symbol: " ++ value
  | InvalidMarketValue value => "invalid market value: " ++ value
  end%string.

(** ** Files *)

(* rust: src/config/types.rs ExchangeSettings *)
Record ExchangeSettings := mkExchange {
  ex_id : string; ex_enabled : bool; ex_rest_base_url : string; ex_websocket_url : string }.

(* rust: src/config/types.rs SymbolConfig *)
Record SymbolConfig := mkSymbolConfig {
  sc_exchange : string; sc_base : string; sc_quote : string; sc_raw : string;
  sc_normalized : string; sc_enabled : bool }.

(* rust: src/config/types.rs MarketIngestFileConfig *)
Record MarketIngestFileConfig := mkFileConfig {
  fc_max_latency_ms : Z; fc_exchanges : list ExchangeSettings; fc_symbols : list SymbolConfig }.

(** The three files, read and decoded, and URL parsing. *)
Class ConfigFiles := {
  cf_universe : string -> result string (list SymbolConfig);
  cf_cost : string -> result string Z;
  cf_exchanges : string -> result string (list ExchangeSettings);
  cf_parse_url : string -> result string RestUrl;
  (** [url.set_path(p)] and [url.path()] *)
  cf_set_path : string -> RestUrl -> RestUrl;
  cf_path : RestUrl -> string;
}.

(** ** URLs *)

(** The four checks of a base URL, with their messages. *)
Definition check_url {E} (err : string -> E) (scheme no_scheme no_host credentials query : string)
    (u : RestUrl) : result E () :=
  if negb (String.eqb (ru_scheme u) scheme) then Err (err no_scheme)
  else if negb (bool_decide (is_Some (ru_host u))) then Err (err no_host)
  else if negb (str_is_empty (ru_username u)) || bool_decide (is_Some (ru_password u))
  then Err (err credentials)
  else if bool_decide (is_Some (ru_query u)) || bool_decide (is_Some (ru_fragment u)) then Err (err query)
  else Ok ().

Section config.
Context {C : ConfigFiles}.

(* rust: src/config/validation.rs validate_endpoint_url *)
Definition validate_endpoint_url (exchange_id field_name value expected_scheme : string)
    : result string () :=
  let head := ("exchange " ++ exchange_id ++ " " ++ field_name)%string in
  url ← map_err (fun e => head ++ " must be a valid URL: " ++ e)%string (cf_parse_url (trim value));
  check_url (fun m => head ++ m)%string expected_scheme (" must use " ++ expected_scheme)
    " must include a host" " must not include credentials"
    " must not include query or fragment components" url.

(* rust: src/config/validation.rs validate_max_latency *)
Definition validate_max_latency (max_latency_ms : Z) : result string () :=
  if max_latency_ms <=? 0 then Err "cost.paper.toml max_latency_ms must be positive"%string else Ok ().

(* rust: src/config/validation.rs validate_exchanges *)
Definition validate_exchanges (exchanges : list ExchangeSettings) : result string () :=
  _ ← try_map (fun exchange =>
    if ex_enabled exchange then
      _ ← validate_endpoint_url (ex_id exchange) "rest_base_url" (ex_rest_base_url exchange) "https";
      validate_endpoint_url (ex_id exchange) "websocket_url" (ex_websocket_url exchange) "wss"
    else Ok ()) exchanges;
  Ok ().

(* rust: src/config/loader.rs load_market_ingest_config *)
Definition load_market_ingest_config (config_dir : string) : result string MarketIngestFileConfig :=
  universe ← cf_universe (path_join config_dir "universe.major-50.toml");
  cost ← cf_cost (path_join config_dir "cost.paper.toml");
  exchanges ← cf_exchanges (path_join config_dir "exchanges.toml");
  _ ← validate_max_latency cost;
  _ ← validate_exchanges exchanges;
  Ok (mkFileConfig cost exchanges universe).

(* rust: src/config/types.rs to_symbol *)
Definition to_symbol (s : SymbolConfig) : result string Symbol :=
  symbol ← map_err DomainError_display (symbol_new (sc_exchange s) (sc_base s) (sc_quote s) (sc_raw s));
  if negb (String.eqb (sym_normalized symbol) (sc_normalized s))
  then Err ("symbol normalized mismatch: expected " ++ sc_normalized s ++ ", got "
            ++ sym_normalized symbol)%string
  else Ok symbol.

(* rust: src/config/lookup.rs enabled_symbols_for_exchange *)
Definition enabled_symbols_for_exchange (c : MarketIngestFileConfig) (exchange : string)
    : result string (list Symbol) :=
  try_map to_symbol
    (List.filter (fun s => sc_enabled s && String.eqb (sc_exchange s) exchange) (fc_symbols c)).

(* rust: src/config/lookup.rs enabled_exchange *)
Definition enabled_exchange (c : MarketIngestFileConfig) (exchange_id : string)
    : result string ExchangeSettings :=
  ok_or (List.find (fun e => ex_enabled e && String.eqb (ex_id e) exchange_id) (fc_exchanges c))
    ("enabled " ++ exchange_id ++ " exchange config is required")%string.

(** ** The watchers *)

(* rust: src/binance/config.rs BinanceRunConfig *)
Record BinanceRunConfig := mkBinanceRun {
  br_config_dir : string; br_rest_base_url : string; br_futures_rest_base_url : string;
  br_derivative_snapshot_interval_seconds : Z; br_stream_config : BinanceStreamConfig;
  br_markets : list BinanceMarket; br_duration_seconds : Z; br_log_interval_seconds : Z;
  br_depth_snapshot_limit : Z; br_expect_symbol_count : Z; br_allow_partial_symbol_coverage : bool;
  br_stream_kinds : list BinanceStreamKind; br_l0_storage : option L0StorageConfig }.

(* rust: src/upbit/config.rs UpbitRunConfig *)
Record UpbitRunConfig := mkUpbitRun {
  ur_rest_base_url : string; ur_websocket_url : string; ur_quote_currency : string;
  ur_duration_seconds : Z; ur_log_interval_seconds : Z; ur_expect_symbol_count : Z;
  ur_allow_partial_symbol_coverage : bool; ur_orderbook_unit : Z;
  ur_l0_storage : option L0StorageConfig }.

(* rust: src/upbit/config.rs validate_config *)
Definition validate_upbit_config (c : UpbitRunConfig) : result UpbitIngestError () :=
  if negb (String.eqb (ur_quote_currency c) "KRW")
  then Err (UEInvalidConfig "initial Upbit L0 ingest only supports KRW quote markets")
  else if negb (one_of (ur_orderbook_unit c) [1; 5; 15; 30])
  then Err (UEInvalidConfig "upbit orderbook unit must be one of 1, 5, 15, or 30")
  else Ok ().

(* rust: src/venue_runner.rs validate_binance_websocket_url *)
Definition validate_binance_websocket_url (url : RestUrl) : result string () :=
  check_url (fun m => m) "wss" "Binance websocket URL must use wss"
    "Binance websocket URL must include a host" "Binance websocket URL must not include credentials"
    "Binance websocket URL must not include query or fragment components" url.

(* rust: src/venue_runner.rs binance_websocket_base_url *)
Definition binance_websocket_base_url (websocket_url : string) : result string string :=
  url ← map_err (fun e => "invalid Binance websocket URL: " ++ e)%string (cf_parse_url (trim websocket_url));
  _ ← validate_binance_websocket_url url;
  let trimmed_path := trim_end_matches "/" (cf_path url) in
  let url := match strip_suffix "/ws" trimmed_path with
             | Some base_path => cf_set_path base_path url
             | None => url
             end in
  Ok (trim_end_matches "/" (ru_text url)).

(* rust: src/venue_runner.rs l0_storage_config *)
Definition l0_storage_config (args : Args) (venue : string) (now_secs : Z) : option L0StorageConfig :=
  bucket ← ar_l0_s3_bucket args;
  Some (mkL0Config bucket (ar_aws_region args) (ar_aws_profile args) (ar_l0_spool_root args)
    ("market-ingest-" ++ venue ++ "-" ++ show_Z now_secs)%string
    (ar_l0_flush_records args) (ar_l0_shard_count args)
    (url ← ar_live_nats_url args;
     Some (mkNats url (ar_live_nats_stream args) (ar_live_nats_subject_prefix args)
             (ar_live_nats_required args)))).

Definition market_of_symbol (s : Symbol) : BinanceMarket :=
  mkMarket (sym_raw s) (sym_base s) (sym_quote s).

(** What [run_binance] hands to the watcher. *)
(* rust: src/venue_runner.rs run_binance *)
Definition binance_run_config (args : Args) (now_secs : Z) : result string BinanceRunConfig :=
  config ← load_market_ingest_config (ar_config_dir args);
  symbols ← enabled_symbols_for_exchange config "binance";
  if negb (zlen symbols =? ar_expect_symbol_count args)
  then Err ("expected " ++ show_Z (ar_expect_symbol_count args) ++ " enabled Binance symbols, found "
            ++ show_Z (zlen symbols) ++ " in " ++ ar_config_dir args)%string
  else
    exchange ← enabled_exchange config "binance";
    websocket_base_url ← binance_websocket_base_url (ex_websocket_url exchange);
    Ok (mkBinanceRun (ar_config_dir args) (ex_rest_base_url exchange)
          (ar_binance_futures_rest_base_url args) (ar_binance_derivatives_snapshot_interval_seconds args)
          (stream_config_new websocket_base_url (fc_max_latency_ms config) symbols)
          (map market_of_symbol symbols) (ar_duration_seconds args) (ar_log_interval_seconds args)
          (ar_depth_snapshot_limit args) (ar_expect_symbol_count args)
          (ar_allow_partial_symbol_coverage args) [Trade; BookTicker; Ticker; DiffDepth100ms]
          (l0_storage_config args "binance" now_secs)).

(** What [run_upbit] hands to the watcher. *)
(* rust: src/venue_runner.rs run_upbit *)
Definition upbit_run_config (args : Args) (now_secs : Z) : result string UpbitRunConfig :=
  config ← load_market_ingest_config (ar_config_dir args);
  exchange ← enabled_exchange config "upbit";
  Ok (mkUpbitRun (default (ex_rest_base_url exchange) (ar_upbit_rest_base_url args))
        (default (ex_websocket_url exchange) (ar_upbit_websocket_url args))
        (ar_upbit_quote_currency args) (ar_duration_seconds args) (ar_log_interval_seconds args)
        (ar_expect_symbol_count args) (ar_allow_partial_symbol_coverage args)
        (ar_upbit_orderbook_unit args) (l0_storage_config args "upbit" now_secs)).

(** ** The REST snapshot of a book *)

(* rust: depth_sync/types.rs BinanceDepthSyncSettings *)
Record BinanceDepthSyncSettings := mkDepthSync { dy_rest_base_url : string; dy_snapshot_limit : Z }.

(* rust: depth_sync/sync/snapshot.rs validate_binance_depth_rest_base_url *)
Definition validate_binance_depth_rest_base_url (base : RestUrl) : result MarketDataError () :=
  check_url MDInvalidMessage "https" "Binance depth REST base URL must use https"
    "Binance depth REST base URL must include a host" "Binance depth REST base URL must not include credentials"
    "Binance depth REST base URL must not include query or fragment components" base.

(** The URL with the pairs appended to its query. *)
(* rust: depth_sync/sync/snapshot.rs binance_depth_snapshot_url *)
Definition binance_depth_snapshot_url (depth_sync : BinanceDepthSyncSettings) (raw_symbol : string)
    : result MarketDataError (RestUrl * list (string * string)) :=
  base ← map_err (fun e => MDInvalidMessage ("invalid Binance depth REST base URL: " ++ e))
           (cf_parse_url (trim (dy_rest_base_url depth_sync)));
  _ ← validate_binance_depth_rest_base_url base;
  url ← map_err (fun e => MDInvalidMessage ("invalid Binance depth REST URL: " ++ e))
          (cf_parse_url (trim_end_matches "/" (ru_text base) ++ "/api/v3/depth")%string);
  Ok (url, [("symbol", raw_symbol); ("limit", show_Z (dy_snapshot_limit depth_sync))]%string).

(** [request] sends the request, checks its status and decodes the body. *)
(* rust: depth_sync/sync/snapshot.rs fetch_binance_depth_snapshot *)
Definition fetch_binance_depth_snapshot {Snapshot}
    (request : RestUrl * list (string * string) -> result MarketDataError Snapshot)
    (depth_sync : BinanceDepthSyncSettings) (raw_symbol : string) : result MarketDataError Snapshot :=
  url ← binance_depth_snapshot_url depth_sync raw_symbol; request url.

(** ** The Upbit universe *)

Section markets.
Context {F64 : Type} (partial_cmp : F64 -> F64 -> option comparison).

(* rust: src/upbit/universe.rs MarketAllEntry *)
Record MarketAllEntry := mkMarketAll {
  ma_market : string; ma_korean_name : string; ma_english_name : string;
  (** the warning of the market's event, when both are given *)
  ma_warning : option bool }.

(* rust: src/upbit/url.rs validate_base_url *)
Definition upbit_validate_base_url (base : RestUrl) : result UpbitIngestError () :=
  check_url UEInvalidConfig "https" "Upbit REST base URL must use https"
    "Upbit REST base URL must include a host" "Upbit REST base URL must not include credentials"
    "Upbit REST base URL must not include query or fragment components" base.

(* rust: src/upbit/url.rs validate_endpoint_path *)
Definition upbit_validate_endpoint_path (endpoint_path : string) : result UpbitIngestError () :=
  if negb (starts_with "/" endpoint_path)
  then Err (UEInvalidConfig "Upbit REST endpoint path must start with /")
  else if contains "?" endpoint_path || contains "#" endpoint_path
  then Err (UEInvalidConfig "Upbit REST endpoint path must not contain query or fragment components")
  else Ok ().

(* rust: src/upbit/url.rs upbit_market_data_url *)
Definition upbit_market_data_url (base_url endpoint_path : string) : result UpbitIngestError RestUrl :=
  _ ← upbit_validate_endpoint_path endpoint_path;
  base ← map_err (fun e => UEInvalidConfig ("invalid Upbit REST base URL: " ++ e))
           (cf_parse_url (trim base_url));
  _ ← upbit_validate_base_url base;
  map_err (fun e => UEInvalidConfig ("invalid Upbit REST endpoint URL: " ++ e))
    (cf_parse_url (trim_end_matches "/" (ru_text base) ++ endpoint_path)%string).

(** A URL and its query. *)
Definition RequestUrl : Type := RestUrl * list (string * string).

(* rust: src/upbit/universe.rs market_all_url *)
Definition market_all_url (rest_base_url : string) : result UpbitIngestError RequestUrl :=
  url ← upbit_market_data_url rest_base_url "/v1/market/all"; Ok (url, [("is_details", "true")]%string).

(* rust: src/upbit/universe.rs ticker_all_url *)
Definition ticker_all_url (rest_base_url quote_currency : string) : result UpbitIngestError RequestUrl :=
  url ← upbit_market_data_url rest_base_url "/v1/ticker/all";
  Ok (url, [("quote_currencies"%string, quote_currency)]).

(** The first entry of each market. *)
Fixpoint first_markets (seen : list string) (l : list MarketAllEntry) : list MarketAllEntry :=
  match l with
  | [] => []
  | m :: l => if existsb (String.eqb (ma_market m)) seen then first_markets seen l
              else m :: first_markets (ma_market m :: seen) l
  end.

(* rust: src/upbit/universe.rs active_quote_markets *)
Definition active_quote_markets (markets : list MarketAllEntry) (quote_currency : string)
    : list MarketAllEntry :=
  let prefix := (quote_currency ++ "-")%string in
  first_markets [] (List.filter (fun m => negb (default false (ma_warning m)))
    (List.filter (fun m => starts_with prefix (ma_market m)) markets)).

(* rust: src/upbit/universe.rs base_asset *)
Definition base_asset (market quote_currency : string) : string :=
  default market (strip_prefix (quote_currency ++ "-")%string market).

(** [collect] into a [HashMap]: the last value of a key. *)
Definition last_price (tickers : list (string * F64)) (market : string) : option F64 :=
  snd <$> List.find (fun t => String.eqb (fst t) market) (rev tickers).

Definition by_price_desc (a b : UpbitMarket (F64 := F64)) : bool :=
  match partial_cmp (um_acc_trade_price_24h b) (um_acc_trade_price_24h a) with
  | Some Gt => false | _ => true end.

(** [fetch] answers a request to a URL with its query. *)
Context (fetch_markets : RestUrl -> list (string * string) -> result UpbitIngestError (list MarketAllEntry)).
Context (fetch_tickers : RestUrl -> list (string * string) -> result UpbitIngestError (list (string * F64))).

(* rust: src/upbit/universe.rs fetch_top_krw_markets *)
Definition fetch_top_krw_markets (rest_base_url quote_currency : string) (limit : Z)
    : result UpbitIngestError (list (UpbitMarket (F64 := F64))) :=
  market_url ← market_all_url rest_base_url;
  ticker_url ← ticker_all_url rest_base_url quote_currency;
  markets ← fetch_markets market_url.1 market_url.2;
  tickers ← fetch_tickers ticker_url.1 ticker_url.2;
  let ranked := sort_by by_price_desc (omap (fun m =>
    price ← last_price tickers (ma_market m);
    Some (mkUMarket (ma_market m) (base_asset (ma_market m) quote_currency) quote_currency
            (ma_korean_name m) (ma_english_name m) price))
    (active_quote_markets markets quote_currency)) in
  if zlen ranked <? limit
  then Err (UEInvalidMessage ("Upbit returned only " ++ show_Z (zlen ranked) ++ " active " ++ quote_currency
              ++ " markets, expected at least " ++ show_Z limit))
  else Ok (firstn (Z.to_nat limit) ranked).
End markets.
End config.
