(* ===== verification/UpbitUniverse.v ===== *)
(** * UpbitUniverse: which markets the Upbit watcher follows

    What [fetch_top_krw_markets] of [Config] answers: the busiest active markets of a quote
    currency, each once. *)
From Stdlib Require Import Sorting.Sorted.
From S2P Require Import Prelude Text Records VenueStats BinanceVenue UpbitVenue Derivatives Config.
Open Scope Z_scope.
Open Scope list_scope.

Section universe.
Context {C : ConfigFiles} {F64 : Type} (partial_cmp : F64 -> F64 -> option comparison).
Abbreviation UpbitMarket := (UpbitMarket (F64 := F64)).

(** The order of the numbers of a JSON document, none of which is a NaN. *)
Class NumberOrder := {
  cmp_defined : forall a b, is_Some (partial_cmp a b);
  cmp_total : forall a b, partial_cmp a b <> Some Gt \/ partial_cmp b a <> Some Gt;
  cmp_trans : forall a b c, partial_cmp a b <> Some Gt -> partial_cmp b c <> Some Gt -> partial_cmp a c <> Some Gt;
}.
Context {N : NumberOrder}.

(** [b] is traded at least as much as [a]. *)
Definition at_most (a b : F64) : Prop := partial_cmp a b <> Some Gt.

Lemma by_price_desc_spec (a b : UpbitMarket) : by_price_desc partial_cmp a b = true <->
  at_most (um_acc_trade_price_24h b) (um_acc_trade_price_24h a).
Proof. unfold by_price_desc, at_most. destruct (partial_cmp _ _) as [[]|]; split; congruence. Qed.

Lemma by_price_sorted (l : list UpbitMarket) :
  StronglySorted (fun a b => by_price_desc partial_cmp a b = true) (sort_by (by_price_desc partial_cmp) l).
Proof using N.
  apply sort_by_sorted.
  - intros x y. rewrite !by_price_desc_spec. destruct (cmp_total (um_acc_trade_price_24h x) (um_acc_trade_price_24h y)); auto.
  - intros x y z. rewrite !by_price_desc_spec. intros Hxy Hyz. by eapply cmp_trans.
Qed.

(** ** The active markets *)

Lemma first_markets_spec seen l m : m ∈ first_markets seen l -> m ∈ l /\ ma_market m ∉ seen.
Proof.
  revert seen. induction l as [|x l IH]; intros seen; cbn; [by intros ?%elem_of_nil|].
  destruct (existsb (String.eqb (ma_market x)) seen) eqn:E.
  - intros [Hm Hs]%IH. split; [by constructor|done].
  - intros [->|Hm]%elem_of_cons.
    + split; [constructor|]. intros Hin%list_elem_of_In. apply not_true_iff_false in E. apply E, existsb_exists.
      exists (ma_market x). by rewrite String.eqb_refl.
    + apply IH in Hm as [Hm Hs]. apply not_elem_of_cons in Hs as [_ Hs]. split; [by constructor|done].
Qed.

Lemma first_markets_nodup seen l : NoDup (map ma_market (first_markets seen l)).
Proof.
  revert seen. induction l as [|x l IH]; intros seen; cbn; [constructor|].
  destruct (existsb _ seen); [apply IH|]. cbn. constructor; [|apply IH].
  intros (m & Hm & Hin)%list_elem_of_fmap. apply first_markets_spec in Hin as [_ Hs]. apply Hs. rewrite Hm. by left.
Qed.

Lemma first_markets_complete seen l m : m ∈ l -> ma_market m ∉ seen -> ma_market m ∈ map ma_market (first_markets seen l).
Proof.
  revert seen. induction l as [|x l IH]; intros seen; [by intros ?%elem_of_nil|]. cbn. intros Hm Hs.
  destruct (existsb (String.eqb (ma_market x)) seen) eqn:E.
  - apply elem_of_cons in Hm as [->|Hm]; [|by apply IH]. apply existsb_exists in E as (y & Hy & Heq).
    apply String.eqb_eq in Heq as <-. by apply list_elem_of_In in Hy.
  - cbn. destruct (decide (ma_market m = ma_market x)) as [->|Hne]; [constructor|]. constructor.
    apply elem_of_cons in Hm as [->|Hm]; [done|]. apply IH; [done|]. by apply not_elem_of_cons.
Qed.

(** A market of the quote currency that carries no warning. *)
Definition active (quote_currency : string) (m : MarketAllEntry) : Prop :=
  starts_with (quote_currency ++ "-") (ma_market m) = true /\ default false (ma_warning m) = false.

Lemma active_quote_markets_spec markets quote m : m ∈ active_quote_markets markets quote -> m ∈ markets /\ active quote m.
Proof.
  intros [Hm _]%first_markets_spec. apply list_elem_of_In in Hm. rewrite !filter_In in Hm. destruct Hm as [[Hm Hp] Hw].
  split; [by apply list_elem_of_In|]. split; [done|]. by apply negb_true_iff in Hw.
Qed.

Lemma active_quote_markets_complete markets quote m : m ∈ markets -> active quote m ->
  ma_market m ∈ map ma_market (active_quote_markets markets quote).
Proof.
  intros Hm [Hp Hw]. apply first_markets_complete; [|by intros ?%elem_of_nil].
  apply list_elem_of_In. rewrite !filter_In. split; [split; [by apply list_elem_of_In|done]|]. by rewrite Hw.
Qed.

(** ** Ranking *)

(** A market as it is ranked. *)
Definition ranked_market (quote : string) (tickers : list (string * F64)) (m : MarketAllEntry) : option UpbitMarket :=
  price ← last_price tickers (ma_market m);
  Some (mkUMarket (ma_market m) (base_asset (ma_market m) quote) quote (ma_korean_name m) (ma_english_name m) price).

Lemma ranked_names quote tickers l : NoDup (map ma_market l) -> NoDup (map um_market (omap (M := list) (ranked_market quote tickers) l)).
Proof.
  induction l as [|m l IH]; cbn; [constructor|]. intros [Hn Hd]%NoDup_cons. unfold ranked_market at 1.
  destruct (last_price tickers (ma_market m)) as [price|]; cbn; [|by apply IH]. constructor; [|by apply IH].
  intros (x & Hx & Hin)%list_elem_of_fmap. cbn in Hx. apply list_elem_of_omap in Hin as (y & Hy & Hr).
  unfold ranked_market in Hr. destruct (last_price tickers (ma_market y)); [|done]. injection Hr as <-. cbn in Hx.
  apply Hn. rewrite Hx. by apply list_elem_of_fmap_2.
Qed.

Lemma sorted_prefix_bounds {X} (R : X -> X -> Prop) n l x y : StronglySorted R l -> x ∈ firstn n l -> y ∈ skipn n l -> R x y.
Proof.
  intros Hs Hx Hy. rewrite <- (firstn_skipn n l) in Hs. revert Hs Hx. induction (firstn n l) as [|z k IH]; [by intros _ ?%elem_of_nil|].
  cbn. intros [Hs Hz]%StronglySorted_inv [->|Hx]%elem_of_cons; [|by apply IH].
  rewrite Forall_forall in Hz. apply Hz. apply elem_of_app. by right.
Qed.

Lemma sorted_firstn {X} (R : X -> X -> Prop) n l : StronglySorted R l -> StronglySorted R (firstn n l).
Proof.
  intros Hs. revert n. induction Hs as [|x l Hs IH Hx]; intros [|n]; cbn; constructor; [apply IH|].
  rewrite Forall_forall in Hx |- *. intros y Hy. apply Hx. rewrite <- (firstn_skipn n l). apply elem_of_app. by left.
Qed.

Lemma StronglySorted_impl {X} (R R' : X -> X -> Prop) l : (forall a b, R a b -> R' a b) -> StronglySorted R l -> StronglySorted R' l.
Proof. intros H. induction 1 as [|x l _ IH Hx]; constructor; [done|]. eapply Forall_impl; [exact Hx|]. cbn. auto. Qed.

Context (fetch_markets : RestUrl -> list (string * string) -> result UpbitIngestError (list MarketAllEntry)).
Context (fetch_tickers : RestUrl -> list (string * string) -> result UpbitIngestError (list (string * F64))).

(** C18: When the universe is answered it has exactly the asked number of markets, each once, in
    falling order of their traded price; each is a listed market of the quote currency
    without a warning, with the price of its ticker; and no active market that has a ticker
    and was left out trades more than one that was taken. *)
Theorem universe_is_the_busiest (rest_base_url quote : string) (limit : Z) (universe : list UpbitMarket) :
  0 <= limit ->
  fetch_top_krw_markets partial_cmp fetch_markets fetch_tickers rest_base_url quote limit = Ok universe ->
  exists market_url ticker_url markets tickers,
    fetch_markets market_url [("is_details", "true")]%string = Ok markets /\
    fetch_tickers ticker_url [("quote_currencies"%string, quote)] = Ok tickers /\
    zlen universe = limit /\ NoDup (map um_market universe) /\
    StronglySorted (fun a b => at_most (um_acc_trade_price_24h b) (um_acc_trade_price_24h a)) universe /\
    Forall (fun u => um_quote_asset u = quote /\ last_price tickers (um_market u) = Some (um_acc_trade_price_24h u) /\
      exists m, m ∈ markets /\ active quote m /\ ma_market m = um_market u) universe /\
    forall m price, m ∈ markets -> active quote m -> last_price tickers (ma_market m) = Some price ->
      ma_market m ∉ map um_market universe -> Forall (fun u => at_most price (um_acc_trade_price_24h u)) universe.
Proof using N.
  intros Hlimit H. unfold fetch_top_krw_markets in H.
  apply bind_ok in H as ([market_url q1] & Hu1 & H). apply bind_ok in H as ([ticker_url q2] & Hu2 & H).
  apply bind_ok in Hu1 as (u1 & _ & [= -> <-]). apply bind_ok in Hu2 as (u2 & _ & [= -> <-]). cbn [fst snd] in H.
  apply bind_ok in H as (markets & Hm & H). apply bind_ok in H as (tickers & Ht & H).
  exists market_url, ticker_url, markets, tickers. split; [done|]. split; [done|].
  change (omap _ (active_quote_markets markets quote)) with (omap (M := list) (ranked_market quote tickers) (active_quote_markets markets quote)) in H.
  set (ranked := omap (M := list) (ranked_market quote tickers) (active_quote_markets markets quote)) in H.
  set (sorted := sort_by (by_price_desc partial_cmp) ranked) in H.
  destruct (Z.ltb_spec (zlen sorted) limit) as [|Hlen]; [done|]. injection H as <-.
  assert (Hperm : sorted ≡ₚ ranked) by apply sort_by_perm.
  assert (Hsorted := by_price_sorted ranked). fold sorted in Hsorted.
  assert (Hin : forall u, u ∈ firstn (Z.to_nat limit) sorted -> u ∈ ranked).
  { intros u Hu. rewrite <- Hperm. rewrite <- (firstn_skipn (Z.to_nat limit) sorted). apply elem_of_app. by left. }
  split_and!.
  - unfold zlen in *. rewrite firstn_length_le; lia.
  - assert (Hnd : NoDup (map um_market sorted)).
    { change (map um_market sorted) with (um_market <$> sorted). rewrite Hperm. apply ranked_names, first_markets_nodup. }
    rewrite <- (firstn_skipn (Z.to_nat limit) sorted), map_app in Hnd. by apply NoDup_app in Hnd as [? _].
  - apply (sorted_firstn _ (Z.to_nat limit)) in Hsorted. eapply StronglySorted_impl; [|exact Hsorted].
    intros a b. by rewrite by_price_desc_spec.
  - apply Forall_forall. intros u Hu. apply Hin, list_elem_of_omap in Hu as (m & Hmm & Hr).
    apply active_quote_markets_spec in Hmm as [Hmm Hact]. unfold ranked_market in Hr.
    destruct (last_price tickers (ma_market m)) as [price|] eqn:Hp; [|done]. injection Hr as <-. cbn. split_and!; [done|done|].
    by exists m.
  - intros m price Hmm Hact Hprice Hout. apply Forall_forall. intros u Hu.
    apply (active_quote_markets_complete _ _ _ Hmm), list_elem_of_fmap in Hact as (m' & Heq & Hm').
    set (r := mkUMarket (F64 := F64) (ma_market m') (base_asset (ma_market m') quote) quote (ma_korean_name m') (ma_english_name m') price).
    assert (Hr : r ∈ sorted).
    { rewrite Hperm. apply list_elem_of_omap. exists m'. split; [done|]. unfold ranked_market. rewrite Heq in Hprice. by rewrite Hprice. }
    rewrite <- (firstn_skipn (Z.to_nat limit) sorted) in Hr. apply elem_of_app in Hr as [Hr|Hr].
    + exfalso. apply Hout. rewrite Heq. by apply (list_elem_of_fmap_2 um_market _ r).
    + pose proof (sorted_prefix_bounds _ _ _ _ _ Hsorted Hu Hr) as Hle. apply by_price_desc_spec in Hle. exact Hle.
Qed.
End universe.

(** ** Three markets, of which two are followed *)

#[local] Instance sample_urls : ConfigFiles := {|
  cf_universe _ := Ok []; cf_cost _ := Ok 0; cf_exchanges _ := Ok [];
  cf_parse_url s := Ok (mkRestUrl s "https" (Some "api.upbit.com"%string) "" None None None);
  cf_set_path _ u := u; cf_path _ := ""%string |}.

Definition sample_cmp (a b : Z) : option comparison := Some (Z.compare a b).
#[local] Instance sample_order : NumberOrder sample_cmp.
Proof.
  split; unfold sample_cmp.
  - intros a b. by eexists.
  - intros a b. destruct (Z.compare_spec a b), (Z.compare_spec b a); auto; lia.
  - intros a b c. destruct (Z.compare_spec a b), (Z.compare_spec b c), (Z.compare_spec a c); try congruence; lia.
Qed.

Definition sample_listing : list MarketAllEntry :=
  [mkMarketAll "KRW-BTC" "a" "Bitcoin" None; mkMarketAll "BTC-ETH" "b" "Ethereum" None;
   mkMarketAll "KRW-XRP" "c" "Ripple" (Some true); mkMarketAll "KRW-ETH" "d" "Ethereum" (Some false);
   mkMarketAll "KRW-SOL" "e" "Solana" None].
Definition sample_tickers : list (string * Z) :=
  [("KRW-BTC", 500); ("KRW-XRP", 900); ("KRW-ETH", 700); ("KRW-SOL", 100)]%string.

Lemma universe_is_the_busiest_witness : exists universe,
  fetch_top_krw_markets sample_cmp (fun _ _ => Ok sample_listing) (fun _ _ => Ok sample_tickers) "https://api.upbit.com" "KRW" 2
    = Ok universe /\
  map um_market universe = ["KRW-ETH"; "KRW-BTC"]%string /\ NoDup (map um_market universe).
Proof.
  eexists. split; [by vm_compute|]. split; [by vm_compute|].
  destruct (universe_is_the_busiest sample_cmp (fun _ _ => Ok sample_listing) (fun _ _ => Ok sample_tickers)
    "https://api.upbit.com" "KRW" 2 [mkUMarket "KRW-ETH" "ETH" "KRW" "d" "Ethereum" 700; mkUMarket "KRW-BTC" "BTC" "KRW" "a" "Bitcoin" 500])
    as (u1 & u2 & ms & ts & _ & _ & _ & Hnd & _); [done|by vm_compute|exact Hnd].
Defined.
