(* ===== verification/VenueRun.v ===== *)
(** * VenueRun: one run of a venue watcher, from its start to its report

    [binance/mod.rs], [upbit/mod.rs], the two [report.rs] and [storage/smoke_validation.rs]:
    the sink is opened, snapshots are taken, the stream is watched, the sink is closed and
    the report decides whether the run succeeded.  A run threads the optional sink; a
    watch that has not ended stops the model with [Running]. *)
From S2P Require Import Prelude Text OrderedMap BinanceNormalize Records Sink SinkReach VenueStats.
From S2P Require Import BinanceVenue UpbitVenue Derivatives VenueWatch IngestArgs Config Effects.
Open Scope Z_scope.

(** ** What a report requires of the storage *)

(* rust: src/storage/smoke_validation.rs storage_has_family *)
Definition storage_has_family (storage : StorageReport) (object_family : string) : bool :=
  existsb (fun object => String.eqb (uo_object_family object) object_family) (rep_uploaded_objects storage).

(* rust: src/storage/smoke_validation.rs require_storage_family *)
Definition require_storage_family (storage : StorageReport) (venue object_family : string) : result string () :=
  if storage_has_family storage object_family then Ok ()
  else Err (venue ++ " L0 storage did not upload " ++ object_family)%string.

(* rust: src/storage/smoke_validation.rs validate_common_storage_report *)
Definition validate_common_storage_report (storage : StorageReport) (venue : string) : result string () :=
  if 0 <? rep_failed_upload_count storage
  then Err (venue ++ " L0 storage exhausted retries for " ++ show_Z (rep_failed_upload_count storage)
            ++ " uploads")%string
  else if (rep_record_count storage =? 0) || (rep_uploaded_object_count storage =? 0)
  then Err (venue ++ " L0 storage produced no objects")%string
  else match rep_manifest_key storage with
  | None => Err (venue ++ " L0 storage did not upload manifest.json")%string
  | Some _ =>
      _ ← require_storage_family storage venue "source_health";
      require_storage_family storage venue "symbol_health"
  end.

(** ** Runs *)

(** Why a run has no result: an error, or a watch that is still running. *)
Inductive Stop (E : Type) := Failed (e : E) | Running.
Arguments Failed {E}. Arguments Running {E}.

Definition run (E A : Type) : Type := io (option L0StorageSink) (Stop E) A.

Section run.
Context {L : StorageLib} {E : Type}.

Definition fallible {A} (r : result E A) : run E A := io_of (map_err Failed r).

(** [L0StorageSink::new] when the run stores; [connect] answers for the connections it
    opens after the configuration is checked. *)
Definition open_sink (err : StorageError -> E) (connect : result StorageError ()) (c : option L0StorageConfig)
    : run E () := fun k =>
  match c with
  | None => (None, Ok ())
  | Some cfg =>
      match (k ← sink_new cfg; _ ← connect; Ok k) with
      | Ok k => (Some k, Ok ())
      | Err e => (None, Err (Failed (err e)))
      end
  end.

(** [if let Some(sink) = storage_sink.as_mut()], and the value without one. *)
Definition with_sink {A} (absent : A) (f : L0StorageSink -> result E A * L0StorageSink) : run E A := fun k =>
  match k with
  | None => (None, Ok absent)
  | Some k => let (r, k) := f k in (Some k, map_err Failed r)
  end.

Definition watched {S} (w : option L0StorageSink -> bool * Loop S) : run E S := fun k =>
  let (ended, l) := w k in (lp_sink l, if ended then Ok (lp_stats l) else Err Running).

Definition stored_report : run E (option StorageReport) := fun k =>
  (k, Ok ((fun k => report (sk_config k) (sk_core k)) <$> k)).
End run.

(** ** Binance *)

Section binance.
Context {L : StorageLib} {T : JsonText} {V W : Type} {JE : EventJson V} {JR : RestJson W}.

Abbreviation Rest := (Derivatives.Rest (V := W)).

(* rust: crypto-market-data/src/stream_config.rs name *)
Definition kind_name (k : BinanceStreamKind) : string := suffix k.

(* rust: src/binance/report.rs BinanceL0SmokeReport *)
Record BinanceL0SmokeReport := mkBinanceReport {
  bp_venue : string;
  bp_source_role : string;
  bp_config_dir : string;
  bp_duration_seconds : Z;
  bp_log_interval_seconds : Z;
  bp_depth_snapshot_limit : Z;
  bp_rest_depth_snapshot_records : Z;
  bp_funding_rate_snapshot_records : Z;
  bp_open_interest_snapshot_records : Z;
  bp_derivative_snapshot_records : Z;
  bp_derivative_snapshot_unsupported_symbol_count : Z;
  bp_derivative_snapshot_failure_count : Z;
  bp_symbol_count : Z;
  bp_expected_symbol_count : Z;
  bp_planned_stream_count : Z;
  bp_stream_kinds : list string;
  bp_symbols_seen_count : Z;
  bp_missing_symbols : list string;
  bp_coverage_ok : bool;
  bp_received_messages : Z;
  bp_parsed_messages : Z;
  bp_malformed_messages : Z;
  bp_source_health_status : string;
  bp_ticker_messages : Z;
  bp_trade_messages : Z;
  bp_book_ticker_messages : Z;
  bp_depth_delta_messages : Z;
  bp_depth_snapshot_messages : Z;
  bp_gap_alert_count : Z;
  bp_close_messages : Z;
  bp_storage : option StorageReport;
  bp_stats : BinanceL0WatchStats;
}.

(* rust: src/binance/report.rs BinanceReportInput *)
Record BinanceReportInput := mkBinanceInput {
  bi_config : BinanceRunConfig;
  bi_planned_stream_count : Z;
  bi_rest_depth_snapshot_records : Z;
  bi_derivative_snapshot_report : BinanceDerivativeSnapshotReport;
  bi_storage : option StorageReport;
  bi_stats : BinanceL0WatchStats;
}.

(** The expected symbols that no event named. *)
Definition unseen (expected : list string) (c : WatchCore) : list string :=
  List.filter (fun symbol => negb (bool_decide (is_Some (bget symbol (wc_symbol_counts c))))) expected.

(* rust: src/binance/report.rs build_report *)
Definition build_report (input : BinanceReportInput) : BinanceL0SmokeReport :=
  let config := bi_config input in
  let d := bi_derivative_snapshot_report input in
  let stats := bi_stats input in
  let c := bs_core stats in
  let expected_symbols := map (fun market => to_ascii_uppercase (bm_raw_symbol market)) (br_markets config) in
  let missing_symbols := unseen expected_symbols c in
  mkBinanceReport "binance" "reference" (br_config_dir config) (br_duration_seconds config)
    (br_log_interval_seconds config) (br_depth_snapshot_limit config) (bi_rest_depth_snapshot_records input)
    (dr_funding_rate_snapshot_records d) (dr_open_interest_snapshot_records d) (total_records d)
    (dr_unsupported_futures_symbol_count d) (dr_failure_count d) (zlen (br_markets config))
    (br_expect_symbol_count config) (bi_planned_stream_count input) (map kind_name (br_stream_kinds config))
    (zlen (wc_symbol_counts c)) missing_symbols (is_nil missing_symbols) (wc_received_messages c)
    (wc_parsed_messages c) (wc_malformed_messages c) (wc_source_health_status c) (wc_ticker_messages c)
    (wc_trade_messages c) (bs_book_ticker_messages stats) (bs_depth_delta_messages stats)
    (bs_depth_snapshot_messages stats) (wc_gap_alert_count c) (wc_close_messages c) (bi_storage input) stats.

(* rust: src/binance/report.rs validate_message_report *)
Definition validate_message_report (report : BinanceL0SmokeReport) (allow_partial_symbol_coverage : bool)
    : result BinanceIngestError () :=
  if bp_received_messages report =? 0
  then Err (BEInvalidMessage "Binance ingest smoke received zero messages")
  else if negb (bp_coverage_ok report) && negb allow_partial_symbol_coverage
  then Err (BEInvalidMessage ("Binance symbol coverage incomplete: "
              ++ show_Z (zlen (bp_missing_symbols report)) ++ " missing symbols"))
  else if 0 <? bp_malformed_messages report
  then Err (BEInvalidMessage "Binance ingest smoke observed malformed messages")
  else Ok ().

(* rust: src/binance/report.rs validate_storage_report *)
Definition validate_storage_report (report : BinanceL0SmokeReport) (storage : StorageReport)
    : result BinanceIngestError () :=
  _ ← map_err BEInvalidMessage (validate_common_storage_report storage "Binance");
  if (0 <? bp_gap_alert_count report) && negb (storage_has_family storage "gap_alert")
  then Err (BEInvalidMessage "Binance L0 storage observed gaps but uploaded no gap_alert")
  else if bp_depth_snapshot_messages report =? 0
  then Err (BEInvalidMessage "Binance L0 storage did not record REST depth_snapshot events")
  else Ok ().

(* rust: src/binance/report.rs validate_report *)
Definition validate_report (report : BinanceL0SmokeReport) (allow_partial_symbol_coverage : bool)
    : result BinanceIngestError () :=
  _ ← validate_message_report report allow_partial_symbol_coverage;
  match bp_storage report with
  | Some storage => validate_storage_report report storage
  | None => Ok ()
  end.

(** The outside world of a run, in the order of its use: the log, the connections of the
    sink, the answers and clocks of the snapshots, the flush after them, URL parsing and
    signal handlers, the monotonic clock and the attempts of the watch, the storage and the
    clock at the end, and the log of the report. *)
Record BinanceWorld := mkBinanceWorld {
  bw_log_start : result BinanceIngestError ();
  bw_connect : result StorageError ();
  bw_io : Io;
  bw_rest : Rest;
  bw_clock : BinanceMarket -> Z;
  bw_now_ms : Z;
  bw_flush_io : Io;
  bw_url_parse : string -> result string Url;
  bw_signals : result BinanceIngestError ();
  bw_start : Z;
  bw_attempts : list (Attempt Rest);
  bw_final_ios : nat -> Io;
  bw_final_now_ms : Z;
  bw_log_report : result BinanceIngestError ();
}.

(** The snapshots before the watch, written out before it starts. *)
Definition derivative_snapshots (markets : list BinanceMarket) (w : BinanceWorld) (k : L0StorageSink)
    : result BinanceIngestError BinanceDerivativeSnapshotReport * L0StorageSink :=
  match append_derivative_snapshots (bw_io w) (bw_rest w) markets (bw_now_ms w) k with
  | (Ok report, k) =>
      match flush_all (bw_flush_io w) k with
      | (Ok _, k) => (Ok report, k)
      | (Err e, k) => (Err (BEStorage e), k)
      end
  | failed => failed
  end.

Definition add_depth_snapshots (n : Z) (s : BinanceL0WatchStats) : BinanceL0WatchStats :=
  mkBStats (bs_core s) (bs_book_ticker_messages s) (bs_depth_delta_messages s)
    (wrap U64 (bs_depth_snapshot_messages s + n)) (bs_last_sequence_by_stream s)
    (bs_last_depth_final_update_by_symbol s).

(** [spawn_shutdown_flag] and the URL come before the loop of the watch. *)
Definition watch_stage (config : BinanceRunConfig) (w : BinanceWorld) (planned_stream_count : Z)
    : run BinanceIngestError BinanceL0WatchStats :=
  url ← fallible (map_err BEMarketData
    (streams ← combined_stream_names_for_kinds (br_stream_config config) (br_stream_kinds config);
     binance_combined_stream_url (bw_url_parse w) (base_url (br_stream_config config)) streams));
  _ ← fallible (bw_signals w);
  watched (watch_binance_l0_streams (br_markets config) url planned_stream_count
    (bw_start w + br_duration_seconds config * SECOND) (br_log_interval_seconds config * SECOND)
    (br_derivative_snapshot_interval_seconds config * SECOND) (bw_attempts w)).

(** The run up to its report. *)
Definition binance_l0_report (config : BinanceRunConfig) (w : BinanceWorld)
    : run BinanceIngestError BinanceL0SmokeReport :=
  streams ← fallible (map_err BEMarketData
    (combined_stream_names_for_kinds (br_stream_config config) (br_stream_kinds config)));
  let planned_stream_count := zlen streams in
  _ ← fallible (bw_log_start w);
  _ ← open_sink BEStorage (bw_connect w) (br_l0_storage config);
  rest_depth_snapshot_records ← with_sink 0 (append_depth_snapshots (bw_io w) (bw_rest w)
    (br_depth_snapshot_limit config) (bw_clock w) (br_markets config) 0);
  derivative_snapshot_report ← with_sink (mkDerivReport 0 0 0 0) (derivative_snapshots (br_markets config) w);
  stats ← watch_stage config w planned_stream_count;
  let stats := add_depth_snapshots rest_depth_snapshot_records stats in
  _ ← with_sink () (binance_finalize_storage (bw_final_ios w) stats (bw_final_now_ms w));
  storage ← stored_report;
  mret (build_report (mkBinanceInput config planned_stream_count rest_depth_snapshot_records
    derivative_snapshot_report storage stats)).

(* rust: src/binance/mod.rs run_binance_l0_smoke *)
Definition run_binance_l0_smoke (config : BinanceRunConfig) (w : BinanceWorld) : run BinanceIngestError () :=
  report ← binance_l0_report config w;
  _ ← fallible (bw_log_report w);
  fallible (validate_report report (br_allow_partial_symbol_coverage config)).
End binance.

(** ** Upbit *)

Section upbit.
Context {L : StorageLib} {T : JsonText} {C : ConfigFiles} {F64 V : Type} {JU : UpbitJson (F64 := F64) (V := V)}.

(* rust: src/upbit/report.rs UpbitL0SmokeReport *)
Record UpbitL0SmokeReport := mkUpbitReport {
  up_venue : string;
  up_source_role : string;
  up_rest_base_url : string;
  up_websocket_url : string;
  up_quote_currency : string;
  up_duration_seconds : Z;
  up_log_interval_seconds : Z;
  up_orderbook_unit : Z;
  up_symbol_count : Z;
  up_expected_symbol_count : Z;
  up_planned_stream_count : Z;
  up_stream_kinds : list string;
  up_symbols_seen_count : Z;
  up_missing_symbols : list string;
  up_coverage_ok : bool;
  up_received_messages : Z;
  up_parsed_messages : Z;
  up_malformed_messages : Z;
  up_source_health_status : string;
  up_ticker_messages : Z;
  up_trade_messages : Z;
  up_orderbook_messages : Z;
  up_derived_book_tickers : Z;
  up_gap_alert_count : Z;
  up_close_messages : Z;
  up_storage : option StorageReport;
  up_stats : UpbitIngestWatchStats (F64 := F64);
}.

(* rust: src/upbit/report.rs UpbitReportInput *)
Record UpbitReportInput := mkUpbitInput {
  ui_config : UpbitRunConfig;
  ui_markets : list (UpbitMarket (F64 := F64));
  ui_planned_stream_count : Z;
  ui_storage : option StorageReport;
  ui_stats : UpbitIngestWatchStats (F64 := F64);
}.

(* rust: src/upbit/report.rs build_report *)
Definition upbit_build_report (input : UpbitReportInput) : UpbitL0SmokeReport :=
  let config := ui_config input in
  let stats := ui_stats input in
  let c := us_core stats in
  let expected_symbols := map um_market (ui_markets input) in
  let missing_symbols := unseen expected_symbols c in
  mkUpbitReport "upbit" "execution" (ur_rest_base_url config) (ur_websocket_url config)
    (ur_quote_currency config) (ur_duration_seconds config) (ur_log_interval_seconds config)
    (ur_orderbook_unit config) (zlen (ui_markets input)) (zlen (remove_dups expected_symbols))
    (ui_planned_stream_count input) ["ticker"; "trade"; "orderbook"]%string (zlen (wc_symbol_counts c))
    missing_symbols (is_nil missing_symbols) (wc_received_messages c) (wc_parsed_messages c)
    (wc_malformed_messages c) (wc_source_health_status c) (wc_ticker_messages c) (wc_trade_messages c)
    (us_orderbook_messages stats) (us_derived_book_tickers stats) (wc_gap_alert_count c)
    (wc_close_messages c) (ui_storage input) stats.

(* rust: src/upbit/report.rs validate_message_report *)
Definition upbit_validate_message_report (report : UpbitL0SmokeReport) (allow_partial_symbol_coverage : bool)
    : result UpbitIngestError () :=
  if up_received_messages report =? 0
  then Err (UEInvalidMessage "Upbit ingest smoke received zero messages")
  else if negb (up_coverage_ok report) && negb allow_partial_symbol_coverage
  then Err (UEInvalidMessage ("Upbit symbol coverage incomplete: "
              ++ show_Z (zlen (up_missing_symbols report)) ++ " missing symbols"))
  else if 0 <? up_malformed_messages report
  then Err (UEInvalidMessage "Upbit ingest smoke observed malformed messages")
  else if (0 <? up_orderbook_messages report) && (up_derived_book_tickers report =? 0)
  then Err (UEInvalidMessage "Upbit ingest smoke derived zero book_ticker events")
  else Ok ().

(* rust: src/upbit/report.rs validate_storage_report *)
Definition upbit_validate_storage_report (report : UpbitL0SmokeReport) (storage : StorageReport)
    : result UpbitIngestError () :=
  _ ← map_err UEInvalidMessage (validate_common_storage_report storage "Upbit");
  if (0 <? up_gap_alert_count report) && negb (storage_has_family storage "gap_alert")
  then Err (UEInvalidMessage "Upbit L0 storage observed gaps but uploaded no gap_alert")
  else Ok ().

(* rust: src/upbit/report.rs validate_report *)
Definition upbit_validate_report (report : UpbitL0SmokeReport) (allow_partial_symbol_coverage : bool)
    : result UpbitIngestError () :=
  _ ← upbit_validate_message_report report allow_partial_symbol_coverage;
  match up_storage report with
  | Some storage => upbit_validate_storage_report report storage
  | None => Ok ()
  end.

(** As for Binance, with the answers of the market list in place of the snapshots. *)
Record UpbitWorld := mkUpbitWorld {
  uw_partial_cmp : F64 -> F64 -> option comparison;
  uw_fetch_markets : RestUrl -> list (string * string) -> result UpbitIngestError (list MarketAllEntry);
  uw_fetch_tickers : RestUrl -> list (string * string) -> result UpbitIngestError (list (string * F64));
  uw_log_start : result UpbitIngestError ();
  uw_connect : result StorageError ();
  uw_signals : result UpbitIngestError ();
  uw_start : Z;
  uw_attempts : list (Attempt ());
  uw_final_ios : nat -> Io;
  uw_final_now_ms : Z;
  uw_log_report : result UpbitIngestError ();
}.

Definition upbit_watch_stage (config : UpbitRunConfig) (w : UpbitWorld) (markets : list UpbitMarket)
    : run UpbitIngestError UpbitIngestWatchStats :=
  _ ← fallible (uw_signals w);
  watched (watch_upbit_ingest_streams markets (ur_websocket_url config)
    (uw_start w + ur_duration_seconds config * SECOND) (ur_log_interval_seconds config * SECOND)
    (uw_attempts w)).

(** The run up to its report. *)
Definition upbit_l0_report (config : UpbitRunConfig) (w : UpbitWorld)
    : run UpbitIngestError UpbitL0SmokeReport :=
  _ ← fallible (validate_upbit_config config);
  markets ← fallible (fetch_top_krw_markets (uw_partial_cmp w) (uw_fetch_markets w) (uw_fetch_tickers w)
    (ur_rest_base_url config) (ur_quote_currency config) (ur_expect_symbol_count config));
  let planned_stream_count := zlen markets * 3 in
  _ ← fallible (uw_log_start w);
  _ ← open_sink UEStorage (uw_connect w) (ur_l0_storage config);
  stats ← upbit_watch_stage config w markets;
  _ ← with_sink () (upbit_finalize_storage (uw_final_ios w) stats (uw_final_now_ms w));
  storage ← stored_report;
  mret (upbit_build_report (mkUpbitInput config markets planned_stream_count storage stats)).

(* rust: src/upbit/mod.rs run_upbit_l0_smoke *)
Definition run_upbit_l0_smoke (config : UpbitRunConfig) (w : UpbitWorld) : run UpbitIngestError () :=
  report ← upbit_l0_report config w;
  _ ← fallible (uw_log_report w);
  fallible (upbit_validate_report report (ur_allow_partial_symbol_coverage config)).
End upbit.
