(* ===== verification/VenueRunFacts.v ===== *)
(** * VenueRunFacts: a run that succeeds has stored what it received

    The watchers change the sink only by appends and flushes, whatever these answer, so the
    accounting of [SinkReach] holds through a whole run; the report's checks then say that
    every file of the spool was uploaded. *)
From S2P Require Import Prelude Text OrderedMap BinanceNormalize Records Sink SinkReach VenueStats.
From S2P Require Import BinanceVenue UpbitVenue Derivatives IngestArgs Config VenueWatch Effects VenueRun.
Open Scope Z_scope.

Section reach.
Context {L : StorageLib}.

Definition sink_reaches : option L0StorageSink -> option L0StorageSink -> Prop := option_Forall2 reaches.

#[export] Instance reaches_preorder : PreOrder reaches.
Proof. unfold reaches. apply _. Qed.
#[export] Instance sink_reaches_preorder : PreOrder sink_reaches.
Proof.
  split.
  - intros [k|]; constructor. reflexivity.
  - intros k1 k2 k3 H12 H23. destruct H12 as [k1 k2 H12|]; inversion_clear H23; constructor. by etransitivity.
Qed.

(** A venue whose handler and snapshots feed the sink and do nothing else to it. *)
Class VenueReach (S E R : Type) {N : Venue S E R} := {
  vn_handle_reaches : forall io m now s k, sink_reaches k (vn_handle io m now s k).2;
  vn_snapshots_reaches : forall io r now k, reaches k (vn_snapshots io r now k);
}.

Section session.
Context {S E R : Type} {N : Venue S E R} {NR : VenueReach S E R}.

Lemma derivative_step_reaches t tm k : sink_reaches k (derivative_step (S := S) (E := E) (R := R) t tm k).2.
Proof.
  unfold derivative_step. destruct (tm_derivative_snapshot_interval tm); [|done]. destruct (_ <=? _); [|done].
  cbn. destruct k; constructor. apply vn_snapshots_reaches.
Qed.

Lemma housekeeping_reaches (t : Turn R) (l : Live (S := S)) : sink_reaches l.2 (run_housekeeping t l).2.2.
Proof.
  destruct l as [[s tm] k]. unfold run_housekeeping. destruct (_ <=? _); [done|]. destruct (_ && _); [done|].
  match goal with |- context [derivative_step t ?tm ?k] => pose proof (derivative_step_reaches t tm k) as H;
    destruct (derivative_step t tm k) end. exact H.
Qed.

Lemma turn_reaches d (t : Turn R) (l : Live (S := S)) : sink_reaches l.2 (session_turn d t l).2.2.
Proof.
  destruct l as [[s tm] k]. unfold session_turn. destruct (tn_shutdown t); [done|]. destruct (_ <=? _); [done|].
  destruct (poll_session _) as [m|reason|]; [|done|apply housekeeping_reaches].
  pose proof (vn_handle_reaches (tn_io t) m (tn_clock_ms t) s k) as H.
  destruct (vn_handle _ _ _ _ _) as [[[u|e] s'] k']; [|exact H]. etransitivity; [exact H|].
  apply (housekeeping_reaches t (s', _, k')).
Qed.

Lemma loop_reaches d (turns : list (Turn R)) (l : Live (S := S)) : sink_reaches l.2 (session_loop d turns l).2.2.
Proof.
  revert l. induction turns as [|t turns IH]; intros l; cbn [session_loop]; [done|].
  pose proof (turn_reaches d t l) as H. destruct (session_turn d t l) as [[e|] l']; [exact H|].
  etransitivity; [exact H|apply IH].
Qed.

Lemma attempt_reaches c p (a : Attempt R) s k : sink_reaches k (attempt_outcome (S := S) c p a s k).2.
Proof.
  unfold attempt_outcome, run_session. repeat (case_match; [done|]).
  match goal with |- context [session_loop ?d ?ts ?l] => pose proof (loop_reaches d ts l) as Hl;
    destruct (session_loop d ts l) as [e [[s' tm] k']] end.
  exact Hl.
Qed.

Lemma watch_loop_reaches c p (attempts : list (Attempt R)) (l : Loop S) :
  sink_reaches (lp_sink l) (lp_sink (watch_loop c p attempts l).2).
Proof.
  revert l. induction attempts as [|a attempts IH]; intros l; cbn [watch_loop]; [done|].
  pose proof (attempt_reaches c p a (lp_stats l) (lp_sink l)) as H.
  destruct (attempt_outcome _ _ _ _ _) as [[[[| |reason]|] s] k]; try exact H.
  etransitivity; [exact H|]. etransitivity; [|apply IH]. done.
Qed.

Lemma watch_reaches c (attempts : list (Attempt R)) (s : S) k : sink_reaches k (lp_sink (watch c attempts s k).2).
Proof.
  unfold watch. pose proof (watch_loop_reaches c default_24x7 attempts
    (mkLoop s k (rp_initial_backoff default_24x7) [])) as H.
  by destruct (watch_loop _ _ _ _) as [[|] l].
Qed.
End session.

(** ** The two venues *)

Lemma append_raw_reaches io d k r k' : append_raw_market_event io d k = (r, k') -> reaches k k'.
Proof. apply (step_reaches io (OpRaw d)). done. Qed.

Lemma flush_reaches io k r k' : flush_all io k = (r, k') -> reaches k k'.
Proof. apply (step_reaches io OpFlushAll). done. Qed.

Section binance.
Context {V W : Type} {JE : EventJson V} {JR : RestJson W} {T : JsonText}.

Lemma append_opt_reaches io d k : sink_reaches k (append_opt io d k).2.
Proof.
  destruct k as [k|], d as [d|]; try done. unfold append_opt. destruct (append_raw_market_event io d k) as [r k'] eqn:H.
  constructor. by eapply append_raw_reaches.
Qed.

Lemma binance_handle_reaches io m msg now s k :
  sink_reaches k (BinanceVenue.handle_message io m msg now s k).2.
Proof.
  assert (H : forall text, sink_reaches k (BinanceVenue.record_text_payload io m text now s k).2).
  { intros text. unfold BinanceVenue.record_text_payload. destruct (parse_binance_payload text) as [env|]; [|done].
    pose proof (append_opt_reaches io (raw_market_event_draft env m now) k) as H.
    by destruct (append_opt _ _ _) as [[]]. }
  unfold BinanceVenue.handle_message. destruct msg as [text|[text|]| | | |]; try done; apply H.
Qed.

Lemma counted_reaches io count d r k a k' : append_counted io count d r k = (a, k') -> reaches k k'.
Proof.
  unfold append_counted. destruct (append_raw_market_event io d k) as [[]] eqn:H; intros [= _ <-];
    by eapply append_raw_reaches.
Qed.

Lemma append_funding_reaches io ds r k : reaches k (append_funding io ds r k).2.
Proof.
  revert r k. induction ds as [|d ds IH]; intros r k; cbn [append_funding]; [done|].
  destruct (append_counted _ _ _ _ _) as [[r'|e] k'] eqn:H; apply counted_reaches in H; [|done].
  etransitivity; [exact H|apply IH].
Qed.

Lemma append_open_interest_reaches io (rest : Derivatives.Rest (V := W)) supported markets now r k :
  reaches k (append_open_interest io rest supported markets now r k).2.
Proof.
  revert r k. induction markets as [|m ms IH]; intros r k; cbn [append_open_interest]; [done|].
  destruct (negb _); [apply IH|]. destruct (fetch_open_interest_snapshot_draft _ _ _) as [d|]; [|apply IH].
  destruct (append_counted _ _ _ _ _) as [[r'|e] k'] eqn:H; apply counted_reaches in H; [|done].
  etransitivity; [exact H|apply IH].
Qed.

Lemma append_derivatives_reaches io (rest : Derivatives.Rest (V := W)) markets now k :
  reaches k (append_derivative_snapshots io rest markets now k).2.
Proof.
  unfold append_derivative_snapshots. destruct (fetch_funding_rate_snapshot_batch _ _ _) as [b|];
    [|apply append_open_interest_reaches].
  pose proof (append_funding_reaches io (fb_drafts b) (mkDerivReport 0 0 0 0) k) as H.
  destruct (append_funding _ _ _ _) as [[r|e] k']; [|exact H].
  etransitivity; [exact H|apply append_open_interest_reaches].
Qed.

Lemma append_depth_reaches io (rest : Derivatives.Rest (V := W)) limit clock markets n k :
  reaches k (append_depth_snapshots io rest limit clock markets n k).2.
Proof.
  revert n k. induction markets as [|m ms IH]; intros n k; cbn [append_depth_snapshots]; [done|].
  destruct (fetch_depth_snapshot_draft _ _ _ _) as [d|]; [|done].
  destruct (append_raw_market_event io d k) as [[u|e] k'] eqn:H; apply append_raw_reaches in H; [|done].
  etransitivity; [exact H|apply IH].
Qed.

#[export] Instance binance_reach (markets : list BinanceMarket) :
  VenueReach (N := binance_venue (V := V) (W := W) markets) BinanceL0WatchStats BinanceIngestError (Derivatives.Rest (V := W)).
Proof.
  split; intros; cbn; [apply binance_handle_reaches|]. unfold append_and_flush_derivative_snapshots.
  pose proof (append_derivatives_reaches io r markets now k) as H.
  destruct (append_derivative_snapshots _ _ _ _ _) as [[d|e] k']; [|exact H].
  etransitivity; [exact H|]. destruct (flush_all io k') as [x k2] eqn:E. by eapply flush_reaches.
Qed.
End binance.

Section upbit.
Context {F64 V : Type} {JU : UpbitJson (F64 := F64) (V := V)}.

Lemma append_drafts_reaches io ds k : sink_reaches k (append_drafts io ds k).2.
Proof.
  revert k. induction ds as [|d ds IH]; intros [k|]; cbn [append_drafts]; try done.
  destruct (append_raw_market_event io d k) as [[u|e] k'] eqn:H; apply append_raw_reaches in H; [|by constructor].
  etransitivity; [by constructor|apply IH].
Qed.

Lemma record_envelopes_reaches io m es now s k : sink_reaches k (record_envelopes (F64 := F64) (V := V) io m es now s k).2.
Proof.
  revert s k. induction es as [|e es IH]; intros s k; cbn [record_envelopes]; [done|].
  pose proof (append_drafts_reaches io (raw_market_event_drafts e m now) k) as H.
  destruct (append_drafts _ _ _) as [[u|x] k']; [|exact H]. etransitivity; [exact H|apply IH].
Qed.

#[export] Instance upbit_reach (markets : list (UpbitMarket (F64 := F64))) :
  VenueReach (N := upbit_venue markets) (UpbitIngestWatchStats (F64 := F64)) UpbitIngestError ().
Proof.
  split; intros; cbn; [|done].
  assert (H : forall text, sink_reaches k (UpbitVenue.record_text_payload io
    (bcollect (map (fun m => (um_market m, m)) markets)) text now s k).2).
  { intros text. unfold UpbitVenue.record_text_payload. destruct (parse_upbit_payload text); [|done].
    apply record_envelopes_reaches. }
  unfold UpbitVenue.handle_message. destruct m as [text|[text|]| | | |]; try done; apply H.
Qed.
End upbit.

(** ** The stages of a run *)

(** The sink of a run that stores under [c]. *)
Definition storing (c : option L0StorageConfig) (k : option L0StorageSink) : Prop :=
  match c, k with
  | None, None => True
  | Some cfg, Some k => accounted k /\ sk_config k = cfg
  | _, _ => False
  end.

(** The sink of a run that has closed it. *)
Definition stored (c : option L0StorageConfig) (k : option L0StorageSink) : Prop :=
  match c, k with
  | None, None => True
  | Some cfg, Some k => closed k /\ sk_config k = cfg
  | _, _ => False
  end.

Lemma storing_reaches c k k' : sink_reaches k k' -> storing c k -> storing c k'.
Proof.
  destruct c as [cfg|]; destruct 1 as [k k' H|]; try done. cbn. intros [Ha Hc].
  destruct (accounted_reaches k k' H Ha) as [Ha' Hc']. split; [done|congruence].
Qed.

Section stages.
Context {E : Type}.

Lemma fallible_stage {A} (r : result E A) P : triple P (fallible r) (fun a k => P k /\ r = Ok a) (fun _ => True).
Proof. intros k Hk. unfold fallible, io_of. by destruct r. Qed.

Lemma open_stage (err : StorageError -> E) connect c :
  triple (fun k => k = None) (open_sink err connect c) (fun _ => storing c) (fun _ => True).
Proof.
  intros k _. unfold open_sink. destruct c as [cfg|]; [|done].
  destruct (sink_new cfg) as [k0|] eqn:H; [|done]. cbn. destruct connect; [|done]. by apply accounted_new.
Qed.

Lemma sink_stage {A} absent (f : L0StorageSink -> result E A * L0StorageSink) c :
  (forall k, reaches k (f k).2) -> triple (storing c) (with_sink absent f) (fun _ => storing c) (fun _ => True).
Proof.
  intros Hf k Hk. unfold with_sink. destruct k as [k|]; [|done]. specialize (Hf k).
  destruct (f k) as [[a|e] k']; [|done]. cbn [map_err]. eapply storing_reaches; [|exact Hk]. by constructor.
Qed.

Lemma watch_stage_keeps {S} (w : option L0StorageSink -> bool * Loop S) c :
  (forall k, sink_reaches k (lp_sink (w k).2)) ->
  triple (storing c) (watched (E := E) w) (fun _ => storing c) (fun _ => True).
Proof.
  intros Hw k Hk. unfold watched. specialize (Hw k). destruct (w k) as [[|] l]; [|done].
  by eapply storing_reaches.
Qed.

(** A finalization that answers [Ok] has run its appends, the flush and the manifest. *)
Lemma close_stage (f : L0StorageSink -> result E () * L0StorageSink) ops io1 io2 c :
  Forall (fun o => is_manifest o.2 = false) ops ->
  (forall k k', f k = (Ok (), k') -> sink_run (ops ++ [(io1, OpFlushAll); (io2, OpManifest)]) k = (Ok (), k')) ->
  triple (storing c) (with_sink () f) (fun _ => stored c) (fun _ => True).
Proof.
  intros Hops Hf k Hk. unfold with_sink. destruct k as [k|]; [|by destruct c].
  destruct c as [cfg|]; [|done]. destruct Hk as [Ha Hc]. destruct (f k) as [[[]|e] k'] eqn:Ef; [|done].
  destruct (run_closes ops io1 io2 k k' Hops Ha (Hf k k' Ef)) as [Hcl Hcfg]. split; [done|congruence].
Qed.

Lemma report_stage P : triple P (stored_report (E := E))
  (fun r k => P k /\ r = (fun k => report (sk_config k) (sk_core k)) <$> k) (fun _ => True).
Proof. intros k Hk. done. Qed.
End stages.

(** The operations of a finalization end in the flush and the manifest. *)
Lemma finalize_split (ios : nat -> Io) health symbols gaps : exists ops io1 io2,
  with_ios ios (finalize_ops health symbols gaps) = ops ++ [(io1, OpFlushAll); (io2, OpManifest)] /\
  Forall (fun o => is_manifest o.2 = false) ops.
Proof.
  set (feeds := OpHealth health :: map OpSymbolHealth symbols ++ map OpGap gaps).
  exists (imap (fun i op => (ios i, op)) feeds), (ios (Datatypes.length feeds)), (ios (Datatypes.S (Datatypes.length feeds))).
  assert (E : finalize_ops health symbols gaps = feeds ++ [OpFlushAll; OpManifest]).
  { unfold finalize_ops, feeds. cbn [app]. by rewrite app_assoc. }
  split.
  - unfold with_ios. rewrite E, imap_app. cbn. by rewrite Nat.add_0_r, Nat.add_1_r.
  - apply Forall_forall. intros [i op] (n & op' & [= -> ->] & Hin%list_elem_of_lookup_2)%elem_of_lookup_imap.
    unfold feeds in Hin. rewrite elem_of_cons, elem_of_app in Hin. change (map ?f ?l) with (f <$> l) in Hin.
    rewrite !list_elem_of_fmap in Hin. by destruct Hin as [->|[(? & -> & _)|(? & -> & _)]].
Qed.

(** ** What success means *)

(** The sink of a successful run: nothing is left in a buffer, and as long as the files can
    be counted every one of them was uploaded, the manifest after them, with the health of
    the source and of at least one symbol among the uploads. *)
Record complete (cfg : L0StorageConfig) (k : L0StorageSink) : Prop := {
  cm_config : sk_config k = cfg;
  cm_empty : sink_empty k;
  cm_uploaded : zlen (spool_keys k) < int_max Usize ->
    co_uploaded_object_count (sk_core k) = zlen (spool_keys k) + 1 /\ co_failed_upload_count (sk_core k) = 0;
  cm_manifest : co_manifest_key (sk_core k) = Some ("runs/run_id=" ++ cf_run_id cfg ++ "/manifest.json")%string;
  cm_source_health : exists o, o ∈ co_uploaded_objects (sk_core k) /\ uo_object_family o = "source_health"%string;
  cm_symbol_health : exists o, o ∈ co_uploaded_objects (sk_core k) /\ uo_object_family o = "symbol_health"%string;
}.

Lemma has_family_spec storage family : storage_has_family storage family = true <->
  exists o, o ∈ rep_uploaded_objects storage /\ uo_object_family o = family.
Proof.
  unfold storage_has_family. rewrite existsb_exists. setoid_rewrite String.eqb_eq.
  split; intros (o & Ho & Hf); exists o; split; try done; by apply list_elem_of_In.
Qed.

Lemma require_family_ok storage venue family : require_storage_family storage venue family = Ok () ->
  storage_has_family storage family = true.
Proof. unfold require_storage_family. by destruct (storage_has_family _ _). Qed.

Lemma common_report_ok storage venue : validate_common_storage_report storage venue = Ok () ->
  rep_failed_upload_count storage <= 0 /\
  storage_has_family storage "source_health" = true /\ storage_has_family storage "symbol_health" = true.
Proof.
  unfold validate_common_storage_report. destruct (Z.ltb_spec 0 (rep_failed_upload_count storage)); [done|].
  destruct (_ || _); [done|]. destruct (rep_manifest_key storage); [|done].
  destruct (require_storage_family storage venue "source_health") as [[]|] eqn:E1; [|done]. cbn.
  intros E2. split; [done|]. split; by eapply require_family_ok.
Qed.

(** Gaps that were counted are among the uploaded files of the sink, when there is one. *)
Definition gaps_uploaded (c : WatchCore) (k : option L0StorageSink) : Prop :=
  forall sink, k = Some sink -> 0 < wc_gap_alert_count c ->
    exists o, o ∈ co_uploaded_objects (sk_core sink) /\ uo_object_family o = "gap_alert"%string.

Lemma gaps_uploaded_when c k :
  (forall storage, (fun k => report (sk_config k) (sk_core k)) <$> k = Some storage ->
     (0 <? wc_gap_alert_count c) && negb (storage_has_family storage "gap_alert") = false) -> gaps_uploaded c k.
Proof.
  intros H sink -> Hg. specialize (H _ eq_refl). rewrite (proj2 (Z.ltb_lt _ _) Hg) in H.
  apply negb_false_iff, has_family_spec in H. exact H.
Qed.

Lemma closed_complete cfg k venue : closed k -> sk_config k = cfg ->
  validate_common_storage_report (report (sk_config k) (sk_core k)) venue = Ok () -> complete cfg k.
Proof.
  intros [He Hm (up & failed & H1 & H2 & H3 & H4 & H5)] Hc (Hf & Hs & Hy)%common_report_ok.
  cbn in Hf. split; [done|done| |by rewrite <- Hc|by apply has_family_spec in Hs|by apply has_family_spec in Hy].
  intros Hmax. rewrite H4, H5 in *. assert (Hw : wrap Usize failed = failed).
  { apply wrap_id. unfold in_range. cbn [int_min]. lia. }
  rewrite Hw in *. rewrite wrap_id by (unfold in_range; cbn [int_min] in *; lia). lia.
Qed.

(** A watcher's run that stores what it received, with the counts its report gives. *)
Definition run_complete (storage : option L0StorageConfig) (k : option L0StorageSink) : Prop :=
  match storage, k with
  | None, None => True
  | Some cfg, Some k => complete cfg k
  | _, _ => False
  end.

Lemma run_of_stage {E A} (m : run E A) (post : A -> option L0StorageSink -> Prop) k a :
  triple (fun k => k = None) m post (fun _ => True) -> m None = (k, Ok a) -> post a k.
Proof. intros Hm E1. specialize (Hm None eq_refl). by rewrite E1 in Hm. Qed.

Lemma in_unseen expected c : unseen expected c = [] -> forall symbol, symbol ∈ expected ->
  is_Some (bget symbol (wc_symbol_counts c)).
Proof.
  intros H symbol Hin. destruct (decide (is_Some (bget symbol (wc_symbol_counts c)))) as [Hd|Hd]; [done|].
  assert (symbol ∈ unseen expected c); [|rewrite H in *; by apply elem_of_nil in H0].
  unfold unseen. apply list_elem_of_In, filter_In. split; [by apply list_elem_of_In|].
  by rewrite bool_decide_eq_false_2.
Qed.

Lemma fallible_keeps {E A} (r : result E A) P : triple P (fallible r) (fun _ => P) (fun _ => True).
Proof. eapply triple_weaken; [apply fallible_stage|done| |done]. by intros a k [H _]. Qed.

(** Binds a stage that keeps what is known of the sink. *)
Ltac stage H := eapply triple_bind; [eapply H|intros ?; cbv beta].

Section binance.
Context {T : JsonText} {V W : Type} {JE : EventJson V} {JR : RestJson W}.

Lemma finalize_binance ios (s : BinanceL0WatchStats) now c :
  triple (storing c) (with_sink () (binance_finalize_storage ios s now)) (fun _ => stored c) (fun _ => True).
Proof.
  destruct (finalize_split ios (BinanceVenue.source_health_draft s now)
    (VenueStats.symbol_health_drafts "binance" (bs_core s) now)
    (map (VenueStats.gap_alert_draft "binance" "reference") (wc_gap_alerts (bs_core s)))) as (ops & io1 & io2 & Ho & Hm).
  apply (close_stage _ ops io1 io2); [done|]. intros k k'. unfold binance_finalize_storage. rewrite Ho.
  destruct (sink_run _ k) as [[[]|] k1]; [|done]. by intros [= <-].
Qed.

Lemma watch_binance_stage (config : BinanceRunConfig) (w : BinanceWorld (W := W)) planned c :
  triple (storing c) (watch_stage config w planned) (fun _ => storing c) (fun _ => True).
Proof.
  unfold watch_stage. do 2 stage @fallible_keeps. apply watch_stage_keeps. intros k.
  unfold watch_binance_l0_streams. apply watch_reaches.
Qed.

Lemma binance_report_stage (config : BinanceRunConfig) (w : BinanceWorld (W := W)) :
  triple (fun k => k = None) (binance_l0_report config w) (fun r k =>
    stored (br_l0_storage config) k /\ exists input, r = build_report input /\ bi_config input = config /\
      bi_storage input = (fun k => report (sk_config k) (sk_core k)) <$> k) (fun _ => True).
Proof.
  unfold binance_l0_report. do 2 stage @fallible_keeps. stage @open_stage.
  eapply triple_bind; [apply sink_stage; intros k; apply append_depth_reaches|intros depth].
  eapply triple_bind; [apply sink_stage|intros derivatives].
  { intros k. unfold derivative_snapshots.
    pose proof (append_derivatives_reaches (bw_io w) (bw_rest w) (br_markets config) (bw_now_ms w) k) as H.
    destruct (append_derivative_snapshots _ _ _ _ _) as [[r|e] k1]; [|exact H].
    etransitivity; [exact H|]. destruct (flush_all _ k1) as [[u|e] k2] eqn:E; by eapply flush_reaches. }
  stage watch_binance_stage. stage finalize_binance. stage @report_stage. apply triple_ret.
  intros k [Hk ->]. split; [done|]. eexists. split; [reflexivity|]. split; reflexivity.
Qed.

Lemma binance_storage_ok r storage : validate_storage_report r storage = Ok () ->
  (0 <? bp_gap_alert_count r) && negb (storage_has_family storage "gap_alert") = false /\
  bp_depth_snapshot_messages r <> 0.
Proof.
  unfold validate_storage_report. destruct (validate_common_storage_report _ _) as [[]|]; [|done]. cbn.
  destruct (_ && _); [done|]. by destruct (Z.eqb_spec (bp_depth_snapshot_messages r) 0).
Qed.

(** A Binance run that answers [Ok] has stored what it received: when it stores, the sink
    ends with empty buffers and every spool file uploaded, depth snapshots were recorded,
    and when gaps were observed a file of gap alerts was uploaded; messages came in, none of
    them malformed; unless partial coverage is allowed every configured market was seen. *)
Theorem binance_success_is_complete (config : BinanceRunConfig) (w : BinanceWorld (W := W)) (k : option L0StorageSink) :
  run_binance_l0_smoke config w None = (k, Ok ()) ->
  run_complete (br_l0_storage config) k /\
  exists r, binance_l0_report config w None = (k, Ok r) /\
    let c := bs_core (bp_stats r) in
    wc_received_messages c <> 0 /\ wc_malformed_messages c <= 0 /\
    (br_allow_partial_symbol_coverage config = false -> forall m, m ∈ br_markets config ->
       is_Some (bget (to_ascii_uppercase (bm_raw_symbol m)) (wc_symbol_counts c))) /\
    gaps_uploaded c k /\ (is_Some k -> bs_depth_snapshot_messages (bp_stats r) <> 0).
Proof.
  unfold run_binance_l0_smoke, mbind, io_bind. destruct (binance_l0_report config w None) as [k1 [r|]] eqn:Er; [|done].
  pose proof (run_of_stage _ _ _ _ (binance_report_stage config w) Er) as (Hst & input & Hr & Hi & Hs).
  unfold fallible, io_of. destruct (bw_log_report w); [|done]. cbn [map_err].
  destruct (validate_report r _) as [[]|] eqn:Ev; [|done]. intros [= <-].
  apply bind_ok in Ev as ([] & Em & Ev).
  assert (Hrep : bp_storage r = bi_storage input) by by rewrite Hr. rewrite Hrep, Hs in Ev.
  assert (Hstored : forall storage, (fun k => report (sk_config k) (sk_core k)) <$> k1 = Some storage ->
    validate_storage_report r storage = Ok ()) by (intros storage Hso; by rewrite Hso in Ev).
  split.
  - destruct (br_l0_storage config) as [cfg|], k1 as [k1|]; try done. destruct Hst as [Hcl Hc].
    specialize (Hstored _ eq_refl). unfold validate_storage_report in Hstored.
    destruct (validate_common_storage_report _ "Binance") as [[]|] eqn:Ec; [|done]. by eapply closed_complete.
  - exists r. split; [done|]. unfold validate_message_report in Em.
    destruct (Z.eqb_spec (bp_received_messages r) 0); [done|].
    destruct (negb (bp_coverage_ok r) && _) eqn:Hcov; [done|].
    destruct (Z.ltb_spec 0 (bp_malformed_messages r)); [done|]. subst r. split_and!; [done|done| | |].
    + intros Hp m Hm. rewrite Hp, andb_true_r in Hcov. apply negb_false_iff in Hcov.
      apply (in_unseen (map (fun m => to_ascii_uppercase (bm_raw_symbol m)) (br_markets (bi_config input)))).
      * cbn in Hcov. by destruct (unseen _ _).
      * rewrite Hi. apply list_elem_of_fmap. by exists m.
    + apply gaps_uploaded_when. intros storage Hso. by destruct (binance_storage_ok _ _ (Hstored _ Hso)).
    + intros [sink ->]. by destruct (binance_storage_ok _ _ (Hstored _ eq_refl)).
Qed.
End binance.

Section upbit.
Context {T : JsonText} {C : ConfigFiles} {F64 V : Type} {JU : UpbitJson (F64 := F64) (V := V)}.

Lemma finalize_upbit ios (s : UpbitIngestWatchStats (F64 := F64)) now c :
  triple (storing c) (with_sink () (upbit_finalize_storage ios s now)) (fun _ => stored c) (fun _ => True).
Proof.
  destruct (finalize_split ios (UpbitVenue.source_health_draft s now) (UpbitVenue.symbol_health_drafts s now)
    (map UpbitVenue.gap_alert_draft (wc_gap_alerts (us_core s)))) as (ops & io1 & io2 & Ho & Hm).
  apply (close_stage _ ops io1 io2); [done|]. intros k k'. unfold upbit_finalize_storage. rewrite Ho.
  destruct (sink_run _ k) as [[[]|] k1]; [|done]. by intros [= <-].
Qed.

Lemma watch_upbit_stage (config : UpbitRunConfig) (w : UpbitWorld (F64 := F64)) markets c :
  triple (storing c) (upbit_watch_stage config w markets) (fun _ => storing c) (fun _ => True).
Proof.
  unfold upbit_watch_stage. stage @fallible_keeps. apply watch_stage_keeps. intros k.
  unfold watch_upbit_ingest_streams. apply watch_reaches.
Qed.

(** The markets a run follows. *)
Definition followed_markets (config : UpbitRunConfig) (w : UpbitWorld (F64 := F64)) :
    result UpbitIngestError (list UpbitMarket) :=
  fetch_top_krw_markets (uw_partial_cmp w) (uw_fetch_markets w) (uw_fetch_tickers w)
    (ur_rest_base_url config) (ur_quote_currency config) (ur_expect_symbol_count config).

Lemma upbit_report_stage (config : UpbitRunConfig) (w : UpbitWorld (F64 := F64)) :
  triple (fun k => k = None) (upbit_l0_report config w) (fun r k =>
    stored (ur_l0_storage config) k /\ exists input, r = upbit_build_report input /\
      followed_markets config w = Ok (ui_markets input) /\
      ui_storage input = (fun k => report (sk_config k) (sk_core k)) <$> k) (fun _ => True).
Proof.
  unfold upbit_l0_report. stage @fallible_keeps. fold (followed_markets config w).
  destruct (followed_markets config w) as [markets|]; [|by intros ? _].
  eapply triple_bind with (mid := fun m k => m = markets /\ k = None); [by intros k ->|intros m].
  intros k [-> Hk]. revert k Hk. match goal with |- forall k, k = None -> match ?m k with _ => _ end =>
    apply (triple_weaken m (fun k => k = None) (fun k => k = None) (fun r k =>
      stored (ur_l0_storage config) k /\ exists input, r = upbit_build_report input /\ ui_markets input = markets /\
        ui_storage input = (fun k => report (sk_config k) (sk_core k)) <$> k) _ (fun _ => True)) end;
    [|done| |done]; [|intros r k (? & input & ? & <- & ?); split; [done|]; by exists input].
  stage @fallible_keeps. stage @open_stage.
  stage watch_upbit_stage. stage finalize_upbit. stage @report_stage. apply triple_ret.
  intros k [Hk ->]. split; [done|]. eexists. split; [reflexivity|]. by split.
Qed.

Lemma upbit_storage_ok (r : UpbitL0SmokeReport (F64 := F64)) storage : upbit_validate_storage_report r storage = Ok () ->
  (0 <? up_gap_alert_count r) && negb (storage_has_family storage "gap_alert") = false.
Proof.
  unfold upbit_validate_storage_report. destruct (validate_common_storage_report _ _) as [[]|]; [|done]. cbn.
  by destruct (_ && _).
Qed.

(** The same of an Upbit run, which also must derive a book ticker when it saw an
    orderbook; its markets are those it fetched at its start. *)
Theorem upbit_success_is_complete (config : UpbitRunConfig) (w : UpbitWorld (F64 := F64)) (k : option L0StorageSink) :
  run_upbit_l0_smoke config w None = (k, Ok ()) ->
  run_complete (ur_l0_storage config) k /\
  exists r markets, upbit_l0_report config w None = (k, Ok r) /\ followed_markets config w = Ok markets /\
    let c := us_core (up_stats r) in
    wc_received_messages c <> 0 /\ wc_malformed_messages c <= 0 /\
    (ur_allow_partial_symbol_coverage config = false -> forall m, m ∈ markets ->
       is_Some (bget (um_market m) (wc_symbol_counts c))) /\
    gaps_uploaded c k /\
    (0 < us_orderbook_messages (up_stats r) -> us_derived_book_tickers (up_stats r) <> 0).
Proof.
  unfold run_upbit_l0_smoke, mbind, io_bind. destruct (upbit_l0_report config w None) as [k1 [r|]] eqn:Er; [|done].
  pose proof (run_of_stage _ _ _ _ (upbit_report_stage config w) Er) as (Hst & input & Hr & Hmk & Hs).
  unfold fallible, io_of. destruct (uw_log_report w); [|done]. cbn [map_err].
  destruct (upbit_validate_report r _) as [[]|] eqn:Ev; [|done]. intros [= <-].
  apply bind_ok in Ev as ([] & Em & Ev).
  assert (Hrep : up_storage r = ui_storage input) by by rewrite Hr. rewrite Hrep, Hs in Ev.
  assert (Hstored : forall storage, (fun k => report (sk_config k) (sk_core k)) <$> k1 = Some storage ->
    upbit_validate_storage_report r storage = Ok ()) by (intros storage Hso; by rewrite Hso in Ev).
  split.
  - destruct (ur_l0_storage config) as [cfg|], k1 as [k1|]; try done. destruct Hst as [Hcl Hc].
    specialize (Hstored _ eq_refl). unfold upbit_validate_storage_report in Hstored.
    destruct (validate_common_storage_report _ "Upbit") as [[]|] eqn:Ec; [|done]. by eapply closed_complete.
  - exists r, (ui_markets input). split; [done|]. split; [done|]. unfold upbit_validate_message_report in Em.
    destruct (Z.eqb_spec (up_received_messages r) 0); [done|].
    destruct (negb (up_coverage_ok r) && _) eqn:Hcov; [done|].
    destruct (Z.ltb_spec 0 (up_malformed_messages r)); [done|].
    destruct ((0 <? up_orderbook_messages r) && _) eqn:Hbook; [done|]. subst r. split_and!; [done|done| | |].
    + intros Hp m Hm. rewrite Hp, andb_true_r in Hcov. apply negb_false_iff in Hcov.
      apply (in_unseen (map um_market (ui_markets input))); [cbn in Hcov; by destruct (unseen _ _)|].
      apply list_elem_of_fmap. by exists m.
    + apply gaps_uploaded_when. intros storage Hso. by apply (upbit_storage_ok _ _ (Hstored _ Hso)).
    + intros Ho He. cbn in Ho, He, Hbook. rewrite He in Hbook.
      destruct (Z.ltb_spec 0 (us_orderbook_messages (ui_stats input))); [done|lia].
Qed.
End upbit.
End reach.

(** ** A run of an hour's first minute *)

#[local] Existing Instance sample_lib.
#[local] Instance run_json_text : JsonText := {| json_text _ := "{}"%string |}.
#[local] Instance run_event_json : EventJson string := {|
  ej_parse v := Ok v;
  ej_to_string v := Ok v;
  ej_combined v := Ok ("btcusdt@trade"%string, v);
  ej_trade _ := Ok (mkTrade 1 "BTCUSDT" 42 2);
  ej_ticker _ := Err "ticker"%string;
  ej_book_ticker _ := Err "book"%string;
  ej_diff_depth _ := Err "depth"%string;
|}.
#[local] Instance run_rest_json : RestJson string := {|
  rj_array _ := None;
  rj_is_object _ := true;
  rj_get _ v := Some v;
  rj_as_str v := Some v;
  rj_number_text _ := None;
  rj_as_i64 _ := Some 7;
  rj_text v := Ok v;
  rj_object_text _ := Ok "{}"%string;
|}.

Definition run_io : Io :=
  mkIo (fun _ => Ok ()) (fun _ => Ok ()) (fun _ _ => Ok ()) (fun _ => true) (fun _ _ => Ok ()) (fun _ => Ok ()) (Ok ()).
Definition run_rest : Derivatives.Rest (V := string) :=
  mkRest (Ok "BTCUSDT"%string) (fun _ => Ok "7"%string) (fun _ _ => Ok "{}"%string).
Definition run_turn (at_ : Z) (next : SocketNext) : Turn (Derivatives.Rest (V := string)) :=
  VenueWatch.mkTurn false at_ next at_ 1000 run_io at_ true run_rest at_.

Definition run_config : BinanceRunConfig :=
  mkBinanceRun "config" "https://rest" "https://fapi" 300
    (stream_config_new "wss://stream" 500 [Domain.mkSymbol "binance" "BTC" "USDT" "BTC/USDT" "BTCUSDT"])
    [mkMarket "BTCUSDT" "BTC" "USDT"] 60 10 5 1 false [Trade] (Some sample_l0_config).
Definition run_world : BinanceWorld (W := string) :=
  mkBinanceWorld (Ok ()) (Ok ()) run_io run_rest (fun _ => 1000) 1000 run_io
    (fun s => Ok (mkUrl s "wss" (Some "stream"%string) "" None None None)) (Ok ()) 0
    [VenueWatch.mkAttempt false 0 true true 0
       [run_turn SECOND (NextMessage (IngestWatch.WsText "trade")); run_turn (61 * SECOND) NextElapsed] 1000]
    (fun _ => run_io) 61000 (Ok ()).

Lemma binance_success_is_complete_witness : exists k,
  run_binance_l0_smoke run_config run_world None = (Some k, Ok ()) /\ complete sample_l0_config k /\
  zlen (spool_keys k) = 6 /\ co_uploaded_object_count (sk_core k) = 7.
Proof.
  assert (Hr : (run_binance_l0_smoke run_config run_world None).2 = Ok ()) by by vm_compute.
  assert (Hk : match (run_binance_l0_smoke run_config run_world None).1 with
    | Some k => zlen (spool_keys k) = 6 /\ co_uploaded_object_count (sk_core k) = 7 | None => False end)
    by (vm_compute; split; reflexivity).
  destruct (run_binance_l0_smoke run_config run_world None) as [[k|] r] eqn:E; [|destruct Hk].
  cbn [snd] in Hr. subst r. exists k. split; [reflexivity|].
  destruct (binance_success_is_complete run_config run_world (Some k) E) as [Hc _]. exact (conj Hc Hk).
Defined.

(** The same on Upbit: one market, one trade. *)

#[local] Instance run_files : ConfigFiles := {|
  cf_universe _ := Ok [];
  cf_cost _ := Ok 500;
  cf_exchanges _ := Ok [];
  cf_parse_url s := Ok (mkRestUrl s "https" (Some "api"%string) "" None None None);
  cf_set_path _ u := u;
  cf_path _ := ""%string;
|}.
#[local] Instance run_upbit_json : UpbitJson (F64 := Z) (V := string) := {|
  uj_parse v := Ok v;
  uj_array _ := None;
  uj_to_string v := Ok v;
  uj_header _ := Ok (mkUHeader None (Some "UP"%string) None);
  uj_ticker _ := Err "ticker"%string;
  uj_trade _ := Err "trade"%string;
  uj_orderbook _ := Err "book"%string;
|}.

Definition run_upbit_turn (at_ : Z) (next : SocketNext) : Turn () :=
  VenueWatch.mkTurn false at_ next at_ 1000 run_io at_ true () at_.
Definition run_upbit_config : UpbitRunConfig :=
  mkUpbitRun "https://api" "wss://api" "KRW" 60 10 1 true 5 None.
Definition run_upbit_world : UpbitWorld (F64 := Z) :=
  mkUpbitWorld (fun a b => Some (a ?= b)) (fun _ _ => Ok [mkMarketAll "KRW-BTC" "" "" None])
    (fun _ _ => Ok [("KRW-BTC"%string, 5)]) (Ok ()) (Ok ()) (Ok ()) 0
    [VenueWatch.mkAttempt false 0 true true 0
       [run_upbit_turn SECOND (NextMessage (IngestWatch.WsText "status")); run_upbit_turn (61 * SECOND) NextElapsed] 1000]
    (fun _ => run_io) 61000 (Ok ()).

Lemma upbit_success_is_complete_witness :
  run_upbit_l0_smoke run_upbit_config run_upbit_world None = (None, Ok ()) /\
  exists r, upbit_l0_report run_upbit_config run_upbit_world None = (None, Ok r) /\
    wc_received_messages (us_core (up_stats r)) <> 0.
Proof.
  assert (H : run_upbit_l0_smoke run_upbit_config run_upbit_world None = (None, Ok ())) by by vm_compute.
  split; [exact H|]. destruct (upbit_success_is_complete run_upbit_config run_upbit_world None H) as [_ (r & _ & Hr & _ & Hc & _)].
  exists r. split; [exact Hr|exact Hc].
Defined.
