(* ===== verification/BackfillArgs.v ===== *)
(** * BackfillArgs: the command line of the historical backfill

    [src/backfill/args]: the options of [market-backfill] and their validation.  Unlike
    the realtime watcher it accepts absolute paths only. *)
From S2P Require Import Prelude Text Cli NormalizeArgs BinanceVenue Derivatives IngestArgs Config.
Open Scope Z_scope.

(* rust: src/backfill/error.rs BackfillError *)
Inductive BackfillError :=
| BfHttp (e : string)
| BfJson (e : string)
| BfStorage (e : string)
| BfInvalidArgs (e : string)
| BfInvalidConfig (e : string).

(* rust: src/backfill/error.rs fmt *)
Definition BackfillError_display (e : BackfillError) : string :=
  match e with
  | BfHttp error => "market backfill http error: " ++ error
  | BfJson error => "market backfill json error: " ++ error
  | BfStorage error => "market backfill storage error: " ++ error
  | BfInvalidArgs error => "market backfill invalid args: " ++ error
  | BfInvalidConfig error => "market backfill invalid config: " ++ error
  end%string.

(* rust: src/backfill/args/types.rs as_str *)
Definition venue_str (v : Venue) : string :=
  match v with Binance => "binance" | Upbit => "upbit" end.

(* rust: src/backfill/args/types.rs BackfillArgs *)
Record BackfillArgs := mkBArgs {
  ba_venue : Venue;
  ba_config_dir : string;
  ba_rest_base_url : option string;
  ba_input_start_ms : Z;
  ba_input_end_ms : Z;
  ba_expect_symbol_count : Z;
  ba_symbols : option (list string);
  ba_upbit_quote_currency : string;
  ba_l0_s3_bucket : string;
  ba_aws_profile : option string;
  ba_aws_region : string;
  ba_l0_spool_root : string;
  ba_l0_flush_records : Z;
  ba_l0_shard_count : Z;
  ba_s3_retention_enabled : bool;
  ba_s3_retention_days : Z;
  ba_s3_retention_max_deletes_per_run : Z;
}.

Definition set_ba_venue (v : Venue) (s : BackfillArgs) : BackfillArgs :=
  mkBArgs v (ba_config_dir s) (ba_rest_base_url s) (ba_input_start_ms s) (ba_input_end_ms s) (ba_expect_symbol_count s) (ba_symbols s) (ba_upbit_quote_currency s) (ba_l0_s3_bucket s) (ba_aws_profile s) (ba_aws_region s) (ba_l0_spool_root s) (ba_l0_flush_records s) (ba_l0_shard_count s) (ba_s3_retention_enabled s) (ba_s3_retention_days s) (ba_s3_retention_max_deletes_per_run s).
Definition set_ba_config_dir (v : string) (s : BackfillArgs) : BackfillArgs :=
  mkBArgs (ba_venue s) v (ba_rest_base_url s) (ba_input_start_ms s) (ba_input_end_ms s) (ba_expect_symbol_count s) (ba_symbols s) (ba_upbit_quote_currency s) (ba_l0_s3_bucket s) (ba_aws_profile s) (ba_aws_region s) (ba_l0_spool_root s) (ba_l0_flush_records s) (ba_l0_shard_count s) (ba_s3_retention_enabled s) (ba_s3_retention_days s) (ba_s3_retention_max_deletes_per_run s).
Definition set_ba_rest_base_url (v : option string) (s : BackfillArgs) : BackfillArgs :=
  mkBArgs (ba_venue s) (ba_config_dir s) v (ba_input_start_ms s) (ba_input_end_ms s) (ba_expect_symbol_count s) (ba_symbols s) (ba_upbit_quote_currency s) (ba_l0_s3_bucket s) (ba_aws_profile s) (ba_aws_region s) (ba_l0_spool_root s) (ba_l0_flush_records s) (ba_l0_shard_count s) (ba_s3_retention_enabled s) (ba_s3_retention_days s) (ba_s3_retention_max_deletes_per_run s).
Definition set_ba_input_start_ms (v : Z) (s : BackfillArgs) : BackfillArgs :=
  mkBArgs (ba_venue s) (ba_config_dir s) (ba_rest_base_url s) v (ba_input_end_ms s) (ba_expect_symbol_count s) (ba_symbols s) (ba_upbit_quote_currency s) (ba_l0_s3_bucket s) (ba_aws_profile s) (ba_aws_region s) (ba_l0_spool_root s) (ba_l0_flush_records s) (ba_l0_shard_count s) (ba_s3_retention_enabled s) (ba_s3_retention_days s) (ba_s3_retention_max_deletes_per_run s).
Definition set_ba_input_end_ms (v : Z) (s : BackfillArgs) : BackfillArgs :=
  mkBArgs (ba_venue s) (ba_config_dir s) (ba_rest_base_url s) (ba_input_start_ms s) v (ba_expect_symbol_count s) (ba_symbols s) (ba_upbit_quote_currency s) (ba_l0_s3_bucket s) (ba_aws_profile s) (ba_aws_region s) (ba_l0_spool_root s) (ba_l0_flush_records s) (ba_l0_shard_count s) (ba_s3_retention_enabled s) (ba_s3_retention_days s) (ba_s3_retention_max_deletes_per_run s).
Definition set_ba_expect_symbol_count (v : Z) (s : BackfillArgs) : BackfillArgs :=
  mkBArgs (ba_venue s) (ba_config_dir s) (ba_rest_base_url s) (ba_input_start_ms s) (ba_input_end_ms s) v (ba_symbols s) (ba_upbit_quote_currency s) (ba_l0_s3_bucket s) (ba_aws_profile s) (ba_aws_region s) (ba_l0_spool_root s) (ba_l0_flush_records s) (ba_l0_shard_count s) (ba_s3_retention_enabled s) (ba_s3_retention_days s) (ba_s3_retention_max_deletes_per_run s).
Definition set_ba_symbols (v : option (list string)) (s : BackfillArgs) : BackfillArgs :=
  mkBArgs (ba_venue s) (ba_config_dir s) (ba_rest_base_url s) (ba_input_start_ms s) (ba_input_end_ms s) (ba_expect_symbol_count s) v (ba_upbit_quote_currency s) (ba_l0_s3_bucket s) (ba_aws_profile s) (ba_aws_region s) (ba_l0_spool_root s) (ba_l0_flush_records s) (ba_l0_shard_count s) (ba_s3_retention_enabled s) (ba_s3_retention_days s) (ba_s3_retention_max_deletes_per_run s).
Definition set_ba_upbit_quote_currency (v : string) (s : BackfillArgs) : BackfillArgs :=
  mkBArgs (ba_venue s) (ba_config_dir s) (ba_rest_base_url s) (ba_input_start_ms s) (ba_input_end_ms s) (ba_expect_symbol_count s) (ba_symbols s) v (ba_l0_s3_bucket s) (ba_aws_profile s) (ba_aws_region s) (ba_l0_spool_root s) (ba_l0_flush_records s) (ba_l0_shard_count s) (ba_s3_retention_enabled s) (ba_s3_retention_days s) (ba_s3_retention_max_deletes_per_run s).
Definition set_ba_l0_s3_bucket (v : string) (s : BackfillArgs) : BackfillArgs :=
  mkBArgs (ba_venue s) (ba_config_dir s) (ba_rest_base_url s) (ba_input_start_ms s) (ba_input_end_ms s) (ba_expect_symbol_count s) (ba_symbols s) (ba_upbit_quote_currency s) v (ba_aws_profile s) (ba_aws_region s) (ba_l0_spool_root s) (ba_l0_flush_records s) (ba_l0_shard_count s) (ba_s3_retention_enabled s) (ba_s3_retention_days s) (ba_s3_retention_max_deletes_per_run s).
Definition set_ba_aws_profile (v : option string) (s : BackfillArgs) : BackfillArgs :=
  mkBArgs (ba_venue s) (ba_config_dir s) (ba_rest_base_url s) (ba_input_start_ms s) (ba_input_end_ms s) (ba_expect_symbol_count s) (ba_symbols s) (ba_upbit_quote_currency s) (ba_l0_s3_bucket s) v (ba_aws_region s) (ba_l0_spool_root s) (ba_l0_flush_records s) (ba_l0_shard_count s) (ba_s3_retention_enabled s) (ba_s3_retention_days s) (ba_s3_retention_max_deletes_per_run s).
Definition set_ba_aws_region (v : string) (s : BackfillArgs) : BackfillArgs :=
  mkBArgs (ba_venue s) (ba_config_dir s) (ba_rest_base_url s) (ba_input_start_ms s) (ba_input_end_ms s) (ba_expect_symbol_count s) (ba_symbols s) (ba_upbit_quote_currency s) (ba_l0_s3_bucket s) (ba_aws_profile s) v (ba_l0_spool_root s) (ba_l0_flush_records s) (ba_l0_shard_count s) (ba_s3_retention_enabled s) (ba_s3_retention_days s) (ba_s3_retention_max_deletes_per_run s).
Definition set_ba_l0_spool_root (v : string) (s : BackfillArgs) : BackfillArgs :=
  mkBArgs (ba_venue s) (ba_config_dir s) (ba_rest_base_url s) (ba_input_start_ms s) (ba_input_end_ms s) (ba_expect_symbol_count s) (ba_symbols s) (ba_upbit_quote_currency s) (ba_l0_s3_bucket s) (ba_aws_profile s) (ba_aws_region s) v (ba_l0_flush_records s) (ba_l0_shard_count s) (ba_s3_retention_enabled s) (ba_s3_retention_days s) (ba_s3_retention_max_deletes_per_run s).
Definition set_ba_l0_flush_records (v : Z) (s : BackfillArgs) : BackfillArgs :=
  mkBArgs (ba_venue s) (ba_config_dir s) (ba_rest_base_url s) (ba_input_start_ms s) (ba_input_end_ms s) (ba_expect_symbol_count s) (ba_symbols s) (ba_upbit_quote_currency s) (ba_l0_s3_bucket s) (ba_aws_profile s) (ba_aws_region s) (ba_l0_spool_root s) v (ba_l0_shard_count s) (ba_s3_retention_enabled s) (ba_s3_retention_days s) (ba_s3_retention_max_deletes_per_run s).
Definition set_ba_l0_shard_count (v : Z) (s : BackfillArgs) : BackfillArgs :=
  mkBArgs (ba_venue s) (ba_config_dir s) (ba_rest_base_url s) (ba_input_start_ms s) (ba_input_end_ms s) (ba_expect_symbol_count s) (ba_symbols s) (ba_upbit_quote_currency s) (ba_l0_s3_bucket s) (ba_aws_profile s) (ba_aws_region s) (ba_l0_spool_root s) (ba_l0_flush_records s) v (ba_s3_retention_enabled s) (ba_s3_retention_days s) (ba_s3_retention_max_deletes_per_run s).
Definition set_ba_s3_retention_enabled (v : bool) (s : BackfillArgs) : BackfillArgs :=
  mkBArgs (ba_venue s) (ba_config_dir s) (ba_rest_base_url s) (ba_input_start_ms s) (ba_input_end_ms s) (ba_expect_symbol_count s) (ba_symbols s) (ba_upbit_quote_currency s) (ba_l0_s3_bucket s) (ba_aws_profile s) (ba_aws_region s) (ba_l0_spool_root s) (ba_l0_flush_records s) (ba_l0_shard_count s) v (ba_s3_retention_days s) (ba_s3_retention_max_deletes_per_run s).
Definition set_ba_s3_retention_days (v : Z) (s : BackfillArgs) : BackfillArgs :=
  mkBArgs (ba_venue s) (ba_config_dir s) (ba_rest_base_url s) (ba_input_start_ms s) (ba_input_end_ms s) (ba_expect_symbol_count s) (ba_symbols s) (ba_upbit_quote_currency s) (ba_l0_s3_bucket s) (ba_aws_profile s) (ba_aws_region s) (ba_l0_spool_root s) (ba_l0_flush_records s) (ba_l0_shard_count s) (ba_s3_retention_enabled s) v (ba_s3_retention_max_deletes_per_run s).
Definition set_ba_s3_retention_max_deletes_per_run (v : Z) (s : BackfillArgs) : BackfillArgs :=
  mkBArgs (ba_venue s) (ba_config_dir s) (ba_rest_base_url s) (ba_input_start_ms s) (ba_input_end_ms s) (ba_expect_symbol_count s) (ba_symbols s) (ba_upbit_quote_currency s) (ba_l0_s3_bucket s) (ba_aws_profile s) (ba_aws_region s) (ba_l0_spool_root s) (ba_l0_flush_records s) (ba_l0_shard_count s) (ba_s3_retention_enabled s) (ba_s3_retention_days s) v.

(* rust: src/backfill/args/types.rs with_defaults *)
Definition backfill_defaults : BackfillArgs :=
  mkBArgs Binance "/opt/nangman-crypto/strategies/crypto/rust-engine/config" None 0 0 50 None "KRW" ""
    None "ap-northeast-2" "/opt/nangman-crypto/data/spool/market-ingest/l0" 1000 1 true 45 1000.

(** ** Values *)

(* rust: src/backfill/args/parse/values.rs next_required_arg *)
Definition next_required_arg (value : option string) (message : string) : result BackfillError string :=
  ok_or value (BfInvalidArgs message).

(* rust: src/backfill/args/parse/values.rs parse_absolute_path *)
Definition parse_absolute_path (value message : string) : result BackfillError string :=
  if starts_with "/" value then Ok value else Err (BfInvalidArgs message).

(* rust: src/backfill/args/parse/values.rs parse_venue *)
Definition parse_backfill_venue (value : string) : result BackfillError Venue :=
  if String.eqb value "binance" then Ok Binance
  else if String.eqb value "upbit" then Ok Upbit
  else Err (BfInvalidArgs "--venue must be binance or upbit").

(* rust: src/backfill/args/parse/values.rs parse_symbols *)
Definition parse_backfill_symbols (raw : string) : result BackfillError (list string) :=
  let parsed := map to_ascii_uppercase (split_list raw) in
  if is_nil parsed then Err (BfInvalidArgs "--symbols requires at least one symbol") else Ok parsed.

(** [parse_positive_i64], [parse_positive_usize] and [parse_positive_u16]. *)
(* rust: src/backfill/args/validation.rs parse_positive_i64 *)
Definition backfill_positive (t : int_ty) (value name : string) : result BackfillError Z :=
  map_err BfInvalidArgs (parse_positive_named t value name).

Definition backfill_positive_arg (t : int_ty) (value : option string) (name : string)
    : result BackfillError Z :=
  v ← next_required_arg value (name ++ " requires a positive integer")%string;
  backfill_positive t v name.

(** ** Options *)

Definition backfill_flag (name : string) (p : BackfillArgs) : option BackfillArgs :=
  if String.eqb name "--disable-s3-retention" then Some (set_ba_s3_retention_enabled false p) else None.

(* rust: src/backfill/args/parse/options.rs apply_arg *)
Definition apply_arg (name : string) (value : option string) (p : BackfillArgs)
    : result BackfillError BackfillArgs :=
  if String.eqb name "--venue" then
    v ← next_required_arg value "--venue requires a value";
    venue ← parse_backfill_venue v; Ok (set_ba_venue venue p) else
  if String.eqb name "--config" then
    v ← next_required_arg value "--config requires an absolute config directory path";
    path ← parse_absolute_path v "--config requires an absolute config directory path";
    Ok (set_ba_config_dir path p) else
  if String.eqb name "--rest-base-url" then
    v ← next_required_arg value "--rest-base-url requires an HTTPS URL";
    Ok (set_ba_rest_base_url (Some v) p) else
  if String.eqb name "--input-start-ms" then
    v ← backfill_positive_arg I64 value name; Ok (set_ba_input_start_ms v p) else
  if String.eqb name "--input-end-ms" then
    v ← backfill_positive_arg I64 value name; Ok (set_ba_input_end_ms v p) else
  if String.eqb name "--expect-symbol-count" then
    v ← backfill_positive_arg Usize value name; Ok (set_ba_expect_symbol_count v p) else
  if String.eqb name "--symbols" then
    raw ← next_required_arg value "--symbols requires comma-separated symbols";
    symbols ← parse_backfill_symbols raw; Ok (set_ba_symbols (Some symbols) p) else
  if String.eqb name "--upbit-quote-currency" then
    v ← next_required_arg value "--upbit-quote-currency requires a quote currency";
    Ok (set_ba_upbit_quote_currency v p) else
  if String.eqb name "--l0-s3-bucket" then
    v ← next_required_arg value "--l0-s3-bucket requires a bucket"; Ok (set_ba_l0_s3_bucket v p) else
  if String.eqb name "--aws-profile" then
    v ← next_required_arg value "--aws-profile requires a profile"; Ok (set_ba_aws_profile (Some v) p) else
  if String.eqb name "--aws-region" then
    v ← next_required_arg value "--aws-region requires a region"; Ok (set_ba_aws_region v p) else
  if String.eqb name "--l0-spool-root" then
    v ← next_required_arg value "--l0-spool-root requires an absolute directory path";
    path ← parse_absolute_path v "--l0-spool-root requires an absolute directory path";
    Ok (set_ba_l0_spool_root path p) else
  if String.eqb name "--l0-flush-records" then
    v ← backfill_positive_arg Usize value name; Ok (set_ba_l0_flush_records v p) else
  if String.eqb name "--l0-shard-count" then
    v ← backfill_positive_arg U16 value name; Ok (set_ba_l0_shard_count v p) else
  if String.eqb name "--s3-retention-days" then
    v ← backfill_positive_arg I64 value name; Ok (set_ba_s3_retention_days v p) else
  if String.eqb name "--s3-retention-max-deletes-per-run" then
    v ← backfill_positive_arg Usize value name; Ok (set_ba_s3_retention_max_deletes_per_run v p) else
  Err (BfInvalidArgs ("unknown argument: " ++ name)).

(** ** Validation *)

Section validation.
Context {C : ConfigFiles}.

(* rust: src/backfill/args/validation.rs validate_https_url *)
Definition validate_https_url (name value : string) : result BackfillError () :=
  url ← map_err (fun e => BfInvalidArgs (name ++ " must be a URL: " ++ e)%string) (cf_parse_url (trim value));
  check_url (fun m => BfInvalidArgs (name ++ m)%string) "https" " must use https://"
    " must include a host" " must not include credentials"
    " must not include query or fragment components" url.

(* rust: src/backfill/args/validation.rs validate_completed_args *)
Definition validate_completed_args (p : BackfillArgs) : result BackfillError () :=
  if ba_input_start_ms p =? 0 then Err (BfInvalidArgs "--input-start-ms is required")
  else if ba_input_end_ms p =? 0 then Err (BfInvalidArgs "--input-end-ms is required")
  else if ba_input_end_ms p <=? ba_input_start_ms p
  then Err (BfInvalidArgs "--input-end-ms must be greater than --input-start-ms")
  else if str_is_empty (ba_l0_s3_bucket p) then Err (BfInvalidArgs "--l0-s3-bucket is required")
  else
    _ ← map_err BfInvalidArgs (validate_real_bucket "--l0-s3-bucket" (ba_l0_s3_bucket p));
    match ba_rest_base_url p with
    | Some url => validate_https_url "--rest-base-url" url
    | None => Ok ()
    end.

(* rust: src/backfill/args/parse.rs parse_args *)
Definition parse_backfill_args (argv : list string) : result BackfillError (option BackfillArgs) :=
  parsed ← cli_loop backfill_flag apply_arg argv backfill_defaults;
  match parsed with
  | None => Ok None
  | Some p => _ ← validate_completed_args p; Ok (Some p)
  end.
End validation.
