(* ===== verification/Backfill.v ===== *)
(** * Backfill: historical trades into the L0 bucket

    [src/backfill]: the markets of a run, the pages of the two exchanges, the drafts of
    the trades, health records and the report.  The exchange is given by the pages it
    answers with; the sink is the one of the realtime watchers.  The clock read for a
    trade or an alert is an argument. *)
From S2P Require Import Prelude Text OrderedMap Cli Decimal Domain Records Sink Retention VenueStats.
From S2P Require Import BinanceVenue UpbitVenue Derivatives NormalizeArgs IngestArgs Config.
From S2P Require Import BackfillArgs Effects.
Open Scope Z_scope.

(** The JSON of the payloads; floating-point values are copied only. *)
Inductive bjson (F : Type) :=
| BjInt (z : Z) | BjStr (s : string) | BjBool (b : bool) | BjFloat (f : F)
| BjObj (fields : list (string * bjson F)).
Arguments BjInt {F}. Arguments BjStr {F}. Arguments BjBool {F}. Arguments BjFloat {F}.
Arguments BjObj {F}.

(** [serde_json::to_string] *)
Class BackfillJson (F : Type) := { bj_text : bjson F -> result string string }.

(** ** Reports *)

(* rust: src/backfill/report.rs SymbolBackfillReport *)
Record SymbolBackfillReport := mkSymReport {
  sy_symbol_native : string; sy_symbol_canonical : string; sy_record_count : Z;
  sy_first_event_time_ms : option Z; sy_last_event_time_ms : option Z; sy_gap_alert_count : Z;
  sy_status : string }.

(* rust: src/backfill/report.rs empty *)
Definition empty_report (symbol_native symbol_canonical : string) : SymbolBackfillReport :=
  mkSymReport symbol_native symbol_canonical 0 None None 0 "empty".

(* rust: src/backfill/report.rs observe *)
Definition observe_trade (exchange_timestamp_ms : Z) (r : SymbolBackfillReport) : SymbolBackfillReport :=
  let keep f o := Some (match o with
    | Some current => f current exchange_timestamp_ms | None => exchange_timestamp_ms end) in
  mkSymReport (sy_symbol_native r) (sy_symbol_canonical r) (incr_u64 (sy_record_count r))
    (keep Z.min (sy_first_event_time_ms r)) (keep Z.max (sy_last_event_time_ms r))
    (sy_gap_alert_count r) "ok".

(* rust: src/backfill/report.rs note_gap *)
Definition note_gap (r : SymbolBackfillReport) : SymbolBackfillReport :=
  mkSymReport (sy_symbol_native r) (sy_symbol_canonical r) (sy_record_count r)
    (sy_first_event_time_ms r) (sy_last_event_time_ms r) (incr_u64 (sy_gap_alert_count r))
    (if 0 <? sy_record_count r then "partial" else sy_status r).

(* rust: src/backfill/report.rs BackfillRunReport *)
Record BackfillRunReport := mkBackfillReport {
  bk_venue : string; bk_source_role : string; bk_input_start_ms : Z; bk_input_end_ms : Z;
  bk_requested_symbol_count : Z; bk_processed_symbol_count : Z; bk_total_record_count : Z;
  bk_total_gap_alert_count : Z; bk_symbols : list SymbolBackfillReport; bk_storage : StorageReport }.

(* rust: src/backfill/report.rs empty_storage_report *)
Definition empty_storage_report : StorageReport := mkReport "" "" 0 0 0 0 [] 0 0 0 [] None.

(** ** Trades *)

(* rust: src/backfill/binance/types.rs AggTrade *)
Record AggTrade := mkAgg {
  ag_aggregate_trade_id : Z; ag_price : string; ag_quantity : string; ag_first_trade_id : Z;
  ag_last_trade_id : Z; ag_trade_timestamp_ms : Z; ag_is_buyer_maker : bool; ag_is_best_match : bool }.

(* rust: src/backfill/binance/types.rs BINANCE_PAGE_LIMIT *)
Definition BINANCE_PAGE_LIMIT : Z := 1000.
(* rust: src/backfill/upbit/fetch.rs UPBIT_PAGE_LIMIT *)
Definition UPBIT_PAGE_LIMIT : Z := 200.
(* rust: src/backfill/upbit/cursor.rs UPBIT_RECENT_WINDOW_DAYS *)
Definition UPBIT_RECENT_WINDOW_DAYS : Z := 7.

(* rust: src/backfill/binance/types.rs ResolvedBinanceBackfill *)
Record ResolvedBinanceBackfill := mkResolved {
  rb_rest_base_url : string; rb_markets : list BinanceMarket }.

(* rust: src/backfill/upbit/types.rs UpbitBackfillMarket *)
Record UpbitBackfillMarket := mkUBMarket {
  ub_market : string; ub_base_asset : string; ub_quote_asset : string }.

(* rust: src/backfill/upbit/types.rs UpbitInitialCursor *)
Record UpbitInitialCursor := mkCursor { uc_to : string; uc_days_ago : option Z }.

Section backfill.
Context {L : StorageLib} {F : Type} {J : BackfillJson F}.

(* rust: src/backfill/upbit/types.rs UpbitTrade *)
Record UpbitTrade := mkUpTrade {
  up_market : string; up_timestamp : Z; up_trade_price : F; up_trade_volume : F; up_ask_bid : string;
  up_sequential_id : Z }.

Definition json_or {A} (r : result string A) : result BackfillError A := map_err BfJson r.

(** The draft both venues make of a trade. *)
Definition historical_draft (venue source_role symbol base quote tag : string) (ts now_ms id : Z)
    (payload : string) : RawMarketEventDraft :=
  mkRawDraft "trade" venue source_role "spot" symbol base base quote ts now_ms tag tag (Some id)
    None None false "HISTORICAL_REST" "backfill" payload.

(* rust: src/backfill/binance/trade.rs raw_trade_draft *)
Definition agg_trade_draft (market : BinanceMarket) (trade : AggTrade) (now_ms : Z)
    : result BackfillError RawMarketEventDraft :=
  let payload := BjObj [("data"%string, BjObj [
    ("e", BjStr "trade"); ("E", BjInt (ag_trade_timestamp_ms trade)); ("s", BjStr (bm_raw_symbol market));
    ("a", BjInt (ag_aggregate_trade_id trade)); ("f", BjInt (ag_first_trade_id trade));
    ("l", BjInt (ag_last_trade_id trade)); ("T", BjInt (ag_trade_timestamp_ms trade));
    ("p", BjStr (ag_price trade)); ("q", BjStr (ag_quantity trade));
    ("m", BjBool (ag_is_buyer_maker trade)); ("M", BjBool (ag_is_best_match trade));
    ("source", BjStr "aggTrades")]%string)] in
  let sequence_tag := ("binance:trade:" ++ show_Z (ag_aggregate_trade_id trade))%string in
  text ← json_or (bj_text payload);
  Ok (historical_draft "binance" "reference" (bm_raw_symbol market) (bm_base_asset market)
        (bm_quote_asset market) sequence_tag (ag_trade_timestamp_ms trade) now_ms
        (ag_aggregate_trade_id trade) text).

(* rust: src/backfill/upbit/trade.rs raw_trade_draft *)
Definition upbit_trade_draft (market : UpbitBackfillMarket) (trade : UpbitTrade) (now_ms : Z)
    : result BackfillError RawMarketEventDraft :=
  let payload := BjObj [
    ("type", BjStr "trade"); ("code", BjStr (up_market trade)); ("timestamp", BjInt (up_timestamp trade));
    ("trade_timestamp", BjInt (up_timestamp trade)); ("trade_price", BjFloat (up_trade_price trade));
    ("trade_volume", BjFloat (up_trade_volume trade)); ("ask_bid", BjStr (up_ask_bid trade));
    ("sequential_id", BjInt (up_sequential_id trade)); ("stream_type", BjStr "BACKFILL")]%string in
  let sequence_tag := ("upbit:trade:" ++ show_Z (up_sequential_id trade))%string in
  text ← json_or (bj_text payload);
  Ok (historical_draft "upbit" "execution" (ub_market market) (ub_base_asset market)
        (ub_quote_asset market) sequence_tag (up_timestamp trade) now_ms (up_sequential_id trade) text).

(** ** The sink *)

(** [storage] are the answers of the disk and the bucket, [clock] the clock as a trade or
    an alert reads it. *)
Context (storage : Io) (clock : Z -> Z).

Definition sink_op (op : SinkOp) : io L0StorageSink BackfillError () := fun k =>
  match sink_step storage op k with
  | (Ok _, k) => (k, Ok ())
  | (Err e, k) => (k, Err (BfStorage (StorageError_display e)))
  end.

(* rust: src/backfill/health.rs append_empty_gap_alert *)
Definition append_empty_gap_alert (venue source_role symbol_native : string)
    (input_start_ms input_end_ms : Z) (reason : string) : io L0StorageSink BackfillError () :=
  text ← io_of (json_or (bj_text (F := F) (BjObj [("input_start_ms", BjInt input_start_ms);
    ("input_end_ms", BjInt input_end_ms); ("reason", BjStr reason)]%string)));
  sink_op (OpGap (mkGapDraft venue source_role symbol_native "historical_range_empty"
    (clock input_end_ms) None None "review_range_or_source" "open" text)).

(* rust: src/backfill/health.rs append_symbol_health_for *)
Definition append_symbol_health_for (venue : string) (symbols : list SymbolBackfillReport)
    (observed_at_ms : Z) : io L0StorageSink BackfillError () :=
  io_fold (fun _ symbol =>
    let last_event_time_ms := default 0 (sy_last_event_time_ms symbol) in
    sink_op (OpSymbolHealth (mkSymHealthDraft venue (sy_symbol_native symbol) observed_at_ms
      last_event_time_ms (Z.max (saturate I64 (observed_at_ms - last_event_time_ms)) 0)
      (0 <? sy_record_count symbol)
      (if 0 <? sy_record_count symbol then [] else ["no_historical_trades"%string])))) () symbols.

(** The summary of a run, for its source health record. *)
(* rust: src/backfill/health.rs SourceHealthSummary *)
Record SourceHealthSummary := mkSummary {
  hs_venue : string; hs_source_role : string; hs_mode : string; hs_observed_at_ms : Z;
  hs_args : BackfillArgs; hs_symbol_count : Z; hs_total_record_count : Z;
  hs_total_gap_alert_count : Z }.

(* rust: src/backfill/health.rs append_source_health_for *)
Definition append_source_health_for (s : SourceHealthSummary) : io L0StorageSink BackfillError () :=
  text ← io_of (json_or (bj_text (F := F) (BjObj [("mode", BjStr (hs_mode s));
    ("symbol_count", BjInt (hs_symbol_count s)); ("input_start_ms", BjInt (ba_input_start_ms (hs_args s)));
    ("input_end_ms", BjInt (ba_input_end_ms (hs_args s)));
    ("record_count", BjInt (hs_total_record_count s));
    ("gap_alert_count", BjInt (hs_total_gap_alert_count s))]%string)));
  sink_op (OpHealth (mkHealthDraft (hs_venue s) (hs_source_role s) (hs_observed_at_ms s)
    "historical_backfill_completed" 0
    (Z.max (saturate I64 (hs_observed_at_ms s - ba_input_end_ms (hs_args s))) 0)
    (hs_total_gap_alert_count s) 0 (if hs_total_gap_alert_count s =? 0 then "ok" else "warn") text)).

Definition total (f : SymbolBackfillReport -> Z) (symbols : list SymbolBackfillReport) : Z :=
  fold_left (fun acc s => wrap U64 (acc + f s)) symbols 0.

(** Health records and the report of a run, the same for both venues. *)
(* rust: src/backfill/binance/runner/reporting.rs write_health_and_report *)
Definition write_health_and_report (venue source_role mode : string) (args : BackfillArgs)
    (market_count observed_at_ms : Z) (symbols : list SymbolBackfillReport)
    : io L0StorageSink BackfillError BackfillRunReport :=
  let total_record_count := total sy_record_count symbols in
  let total_gap_alert_count := total sy_gap_alert_count symbols in
  _ ← append_symbol_health_for venue symbols observed_at_ms;
  _ ← append_source_health_for (mkSummary venue source_role mode observed_at_ms args market_count
        total_record_count total_gap_alert_count);
  mret (mkBackfillReport venue source_role (ba_input_start_ms args) (ba_input_end_ms args)
    (match ba_symbols args with Some symbols => zlen symbols | None => ba_expect_symbol_count args end)
    (zlen symbols) total_record_count total_gap_alert_count symbols empty_storage_report).

(** ** Binance *)

Context {C : ConfigFiles}.
Context (now_ns : Z).

(** [GET] with a query, its status checked and its body decoded. *)
Context (get_agg : RestUrl -> list (string * string) -> result BackfillError (list AggTrade)).
Context (get_ticks : RestUrl -> list (string * string) -> result BackfillError (list UpbitTrade)).

Section urls.
Context (label : string).
(* rust: src/backfill/binance/url.rs validate_base_url *)
Definition validate_rest_base_url (base : RestUrl) : result BackfillError () :=
  check_url (fun m => BfInvalidConfig (label ++ m)%string) "https" " REST base URL must use https"
    " REST base URL must include a host" " REST base URL must not include credentials"
    " REST base URL must not include query or fragment components" base.

(* rust: src/backfill/binance/url.rs validate_endpoint_path *)
Definition validate_rest_endpoint_path (endpoint_path : string) : result BackfillError () :=
  if negb (starts_with "/" endpoint_path)
  then Err (BfInvalidConfig (label ++ " REST endpoint path must start with /"))
  else if contains "?" endpoint_path || contains "#" endpoint_path
  then Err (BfInvalidConfig (label ++ " REST endpoint path must not contain query or fragment components"))
  else Ok ().

Definition rest_url (base_url endpoint_path : string) : result BackfillError RestUrl :=
  _ ← validate_rest_endpoint_path endpoint_path;
  base ← map_err (fun e => BfInvalidConfig ("invalid " ++ label ++ " REST base URL: " ++ e))
           (cf_parse_url (trim base_url));
  _ ← validate_rest_base_url base;
  map_err (fun e => BfInvalidConfig ("invalid " ++ label ++ " REST endpoint URL: " ++ e))
    (cf_parse_url (trim_end_matches "/" (ru_text base) ++ endpoint_path)%string).
End urls.

(* rust: src/backfill/binance/url.rs spot_market_data_url *)
Definition spot_market_data_url : string -> string -> result BackfillError RestUrl := rest_url "Binance".
(* rust: src/backfill/upbit/url.rs upbit_market_data_url *)
Definition upbit_trades_url : string -> string -> result BackfillError RestUrl := rest_url "Upbit".

(* rust: src/backfill/binance/fetch.rs fetch_agg_trades_by_time *)
Definition fetch_agg_trades_by_time (rest_base_url symbol : string) (input_start_ms input_end_ms : Z)
    : result BackfillError (list AggTrade) :=
  url ← spot_market_data_url rest_base_url "/api/v3/aggTrades";
  get_agg url [("symbol", symbol); ("startTime", show_Z input_start_ms);
               ("endTime", show_Z input_end_ms); ("limit", show_Z BINANCE_PAGE_LIMIT)]%string.

(* rust: src/backfill/binance/fetch.rs fetch_agg_trades_from_id *)
Definition fetch_agg_trades_from_id (rest_base_url symbol : string) (from_id : Z)
    : result BackfillError (list AggTrade) :=
  url ← spot_market_data_url rest_base_url "/api/v3/aggTrades";
  get_agg url [("symbol", symbol); ("fromId", show_Z from_id); ("limit", show_Z BINANCE_PAGE_LIMIT)]%string.

Section binance_symbol.
Context (rest_base_url : string) (market : BinanceMarket) (input_start_ms input_end_ms : Z).

(** The first trade after the range ends the page, and the loop. *)
(* rust: src/backfill/binance/runner/symbol.rs append_page *)
Fixpoint append_page (page : list AggTrade) (report : SymbolBackfillReport)
    : io L0StorageSink BackfillError (bool * SymbolBackfillReport) :=
  match page with
  | [] => mret (false, report)
  | trade :: page =>
      if input_end_ms <? ag_trade_timestamp_ms trade then mret (true, report)
      else if ag_trade_timestamp_ms trade <? input_start_ms then append_page page report
      else
        draft ← io_of (agg_trade_draft market trade (clock (ag_trade_timestamp_ms trade)));
        _ ← sink_op (OpRaw draft);
        append_page page (observe_trade (ag_trade_timestamp_ms trade) report)
  end.

Definition next_id (page : list AggTrade) (none : Z) : Z :=
  match last page with Some trade => wrap I64 (ag_aggregate_trade_id trade + 1) | None => none end.

(** [while !stop && last_page_was_full]; [None] when [fuel] pages are not enough. *)
Fixpoint agg_pages (fuel : nat) (stop full : bool) (next_from_id : Z) (report : SymbolBackfillReport)
    : io L0StorageSink BackfillError (option SymbolBackfillReport) :=
  if stop || negb full then mret (Some report) else
  match fuel with
  | O => mret None
  | Datatypes.S fuel =>
      page ← io_of (fetch_agg_trades_from_id rest_base_url (bm_raw_symbol market) next_from_id);
      if is_nil page then mret (Some report) else
      r ← append_page page report;
      let next_candidate := next_id page next_from_id in
      if next_candidate <=? next_from_id
      then io_fail (BfInvalidConfig ("Binance aggTrades cursor did not advance for " ++ bm_raw_symbol market))
      else agg_pages fuel r.1 (zlen page =? BINANCE_PAGE_LIMIT) next_candidate r.2
  end.

(* rust: src/backfill/binance/runner/symbol.rs append_no_trade_gap *)
Definition append_no_trade_gap (report : SymbolBackfillReport)
    : io L0StorageSink BackfillError SymbolBackfillReport :=
  _ ← append_empty_gap_alert "binance" "reference" (bm_raw_symbol market) input_start_ms input_end_ms
        "no_trade_records_returned";
  mret (note_gap report).

(* rust: src/backfill/binance/runner/symbol.rs backfill_symbol *)
Definition backfill_binance_symbol (fuel : nat)
    : io L0StorageSink BackfillError (option SymbolBackfillReport) :=
  let report := empty_report (bm_raw_symbol market) (bm_base_asset market) in
  first_page ← io_of (fetch_agg_trades_by_time rest_base_url (bm_raw_symbol market)
                        input_start_ms input_end_ms);
  if is_nil first_page then report ← append_no_trade_gap report; mret (Some report) else
  r ← append_page first_page report;
  done ← agg_pages fuel r.1 (zlen first_page =? BINANCE_PAGE_LIMIT) (next_id first_page 0) r.2;
  match done with
  | None => mret None
  | Some report =>
      if sy_record_count report =? 0 then report ← append_no_trade_gap report; mret (Some report)
      else mret (Some report)
  end.
End binance_symbol.

Definition config_error {A} (r : result string A) : result BackfillError A := map_err BfInvalidConfig r.

Fixpoint take_symbols (by_raw : btree string BinanceMarket) (symbols : list string)
    : result BackfillError (list BinanceMarket) :=
  match symbols with
  | [] => Ok []
  | symbol :: symbols =>
      match bget symbol by_raw with
      | None => Err (BfInvalidArgs ("unknown Binance symbol in --symbols: " ++ symbol))
      | Some market => rest ← take_symbols (bremove symbol by_raw) symbols; Ok (market :: rest)
      end
  end.

(* rust: src/backfill/binance/markets.rs resolve_markets *)
Definition resolve_binance_markets (args : BackfillArgs) : result BackfillError ResolvedBinanceBackfill :=
  config ← config_error (load_market_ingest_config (ba_config_dir args));
  exchange ← config_error (enabled_exchange config "binance");
  symbols ← config_error (enabled_symbols_for_exchange config "binance");
  let markets := map market_of_symbol symbols in
  markets ← match ba_symbols args with
    | Some symbols => take_symbols (bcollect (map (fun m => (bm_raw_symbol m, m)) markets)) symbols
    | None =>
        if negb (zlen markets =? ba_expect_symbol_count args)
        then Err (BfInvalidConfig ("expected " ++ show_Z (ba_expect_symbol_count args)
               ++ " enabled Binance symbols, found " ++ show_Z (zlen markets)))
        else Ok markets
    end;
  Ok (mkResolved (default (ex_rest_base_url exchange) (ba_rest_base_url args)) markets).

(** One symbol after the other; [None] when the fuel of one was not enough. *)
Fixpoint backfill_all {A} (one : A -> io L0StorageSink BackfillError (option SymbolBackfillReport))
    (markets : list A) : io L0StorageSink BackfillError (option (list SymbolBackfillReport)) :=
  match markets with
  | [] => mret (Some [])
  | market :: markets =>
      r ← one market;
      match r with
      | None => mret None
      | Some report =>
          rest ← backfill_all one markets;
          mret (reports ← rest; Some (report :: reports))
      end
  end.

(* rust: src/backfill/binance/runner.rs run *)
Definition run_binance_backfill (fuel : nat) (args : BackfillArgs) (observed_at_ms : Z)
    : io L0StorageSink BackfillError (option BackfillRunReport) :=
  resolved ← io_of (resolve_binance_markets args);
  symbols ← backfill_all (fun market => backfill_binance_symbol (rb_rest_base_url resolved) market
      (ba_input_start_ms args) (ba_input_end_ms args) fuel) (rb_markets resolved);
  match symbols with
  | None => mret None
  | Some symbols =>
      report ← write_health_and_report "binance" "reference" "historical_trade_backfill" args
        (zlen (rb_markets resolved)) observed_at_ms symbols;
      mret (Some report)
  end.

(** ** Upbit *)

Definition DAY_MS : Z := 86400000.
Definition DAY_NS : Z := 86400000000000.

(* rust: src/backfill/upbit/cursor.rs datetime_from_ms *)
Definition datetime_from_ms (value : Z) : result BackfillError Z :=
  if bool_decide (is_Some (utc_date_hour value)) then Ok value
  else Err (BfInvalidArgs ("timestamp " ++ show_Z value ++ " is outside supported range")).

(** [end.format("%H:%M:%S")] *)
Definition time_of_day (ms : Z) : string :=
  let s := (ms mod DAY_MS) / 1000 in
  (pad_zero 2 (s / 3600) ++ ":" ++ pad_zero 2 (s / 60 mod 60) ++ ":" ++ pad_zero 2 (s mod 60))%string.

(* rust: src/backfill/upbit/cursor.rs initial_cursor *)
Definition initial_cursor (input_end_ms : Z) : result BackfillError UpbitInitialCursor :=
  end_ms ← datetime_from_ms input_end_ms;
  let days_ago := now_ns / DAY_NS - end_ms / DAY_MS in
  if negb ((0 <=? days_ago) && (days_ago <=? UPBIT_RECENT_WINDOW_DAYS))
  then Err (BfInvalidArgs ("Upbit end range must be within the most recent "
              ++ show_Z UPBIT_RECENT_WINDOW_DAYS ++ " UTC days"))
  else Ok (mkCursor (time_of_day end_ms) (if days_ago =? 0 then None else Some days_ago)).

(* rust: src/backfill/upbit/cursor.rs validate_recent_window *)
Definition validate_recent_window (input_start_ms input_end_ms : Z) : result BackfillError () :=
  start_ms ← datetime_from_ms input_start_ms;
  end_ms ← datetime_from_ms input_end_ms;
  if now_ns <? end_ms * 1000000
  then Err (BfInvalidArgs "Upbit end range must not be in the future")
  else if start_ms * 1000000 <? now_ns - UPBIT_RECENT_WINDOW_DAYS * DAY_NS
  then Err (BfInvalidArgs ("Upbit recent trade backfill only supports the most recent "
              ++ show_Z UPBIT_RECENT_WINDOW_DAYS ++ " days"))
  else if end_ms <=? start_ms
  then Err (BfInvalidArgs "Upbit start range must be earlier than end range")
  else Ok ().

(* rust: src/backfill/upbit/cursor.rs advance_cursor *)
Definition advance_cursor (page : list UpbitTrade) (current_cursor : option Z) (market : string)
    : result BackfillError (option Z) :=
  match last page with
  | None => Ok current_cursor
  | Some last_trade =>
      let next_cursor := up_sequential_id last_trade in
      if bool_decide (current_cursor = Some next_cursor)
      then Err (BfInvalidConfig ("Upbit cursor did not advance for " ++ market))
      else Ok (Some next_cursor)
  end.

(* rust: src/backfill/upbit/fetch.rs fetch_trade_page *)
Definition fetch_trade_page (rest_base_url market : string) (initial : UpbitInitialCursor)
    (cursor : option Z) (first_page : bool) : result BackfillError (list UpbitTrade) :=
  url ← upbit_trades_url rest_base_url "/v1/trades/ticks";
  get_ticks url
    ([("market"%string, market); ("count"%string, show_Z UPBIT_PAGE_LIMIT)]
     ++ (if first_page
         then ("to"%string, uc_to initial)
              :: match uc_days_ago initial with
                 | Some days_ago => [("days_ago"%string, show_Z days_ago)] | None => [] end
         else [])
     ++ match cursor with Some cursor => [("cursor"%string, show_Z cursor)] | None => [] end)%list.

Section upbit_symbol.
Context (rest_base_url : string) (market : UpbitBackfillMarket) (input_start_ms input_end_ms : Z).

(** The whole page is read even when it has reached the start of the range. *)
(* rust: src/backfill/upbit/trade.rs append_page_trades *)
Fixpoint append_page_trades (page : list UpbitTrade) (reached_start : bool)
    (report : SymbolBackfillReport) : io L0StorageSink BackfillError (bool * SymbolBackfillReport) :=
  match page with
  | [] => mret (reached_start, report)
  | trade :: page =>
      if input_end_ms <? up_timestamp trade then append_page_trades page reached_start report
      else if up_timestamp trade <? input_start_ms then append_page_trades page true report
      else
        draft ← io_of (upbit_trade_draft market trade (clock (up_timestamp trade)));
        _ ← sink_op (OpRaw draft);
        append_page_trades page reached_start (observe_trade (up_timestamp trade) report)
  end.

Fixpoint upbit_pages (fuel : nat) (initial : UpbitInitialCursor) (next_cursor : option Z)
    (first_page : bool) (report : SymbolBackfillReport)
    : io L0StorageSink BackfillError (option SymbolBackfillReport) :=
  match fuel with
  | O => mret None
  | Datatypes.S fuel =>
      page ← io_of (fetch_trade_page rest_base_url (ub_market market) initial next_cursor first_page);
      if is_nil page then mret (Some report) else
      r ← append_page_trades page false report;
      if (r.1 : bool) then mret (Some r.2) else
      next ← io_of (advance_cursor page next_cursor (ub_market market));
      if zlen page <? UPBIT_PAGE_LIMIT then mret (Some r.2)
      else upbit_pages fuel initial next false r.2
  end.

(* rust: src/backfill/upbit/runner.rs backfill_symbol *)
Definition backfill_upbit_symbol (fuel : nat)
    : io L0StorageSink BackfillError (option SymbolBackfillReport) :=
  let report := empty_report (ub_market market) (ub_base_asset market) in
  initial ← io_of (initial_cursor input_end_ms);
  done ← upbit_pages fuel initial None true report;
  match done with
  | None => mret None
  | Some report =>
      if sy_record_count report =? 0 then
        _ ← append_empty_gap_alert "upbit" "execution" (ub_market market) input_start_ms input_end_ms
              "no_trade_records_returned";
        mret (Some (note_gap report))
      else mret (Some report)
  end.
End upbit_symbol.

(* rust: src/backfill/upbit/markets.rs resolve_rest_base_url *)
Definition resolve_rest_base_url (args : BackfillArgs) : result BackfillError string :=
  match ba_rest_base_url args with
  | Some url => Ok url
  | None =>
      config ← config_error (load_market_ingest_config (ba_config_dir args));
      exchange ← config_error (enabled_exchange config "upbit");
      Ok (ex_rest_base_url exchange)
  end.

(* rust: src/backfill/upbit/markets.rs parse_explicit_market *)
Definition parse_explicit_market (value expected_quote : string)
    : result BackfillError UpbitBackfillMarket :=
  match split_once "-" value with
  | None => Err (BfInvalidArgs ("Upbit symbol must look like KRW-BTC, got " ++ value))
  | Some (quote, base) =>
      if negb (String.eqb quote expected_quote)
      then Err (BfInvalidArgs ("Upbit symbol " ++ value ++ " must use " ++ expected_quote ++ " quote"))
      else Ok (mkUBMarket value base quote)
  end.

(** The requests of [fetch_top_krw_markets], and the rendering of its error. *)
Context (partial_cmp : F -> F -> option comparison).
Context (fetch_markets : RestUrl -> list (string * string) -> result UpbitIngestError (list MarketAllEntry)).
Context (fetch_tickers : RestUrl -> list (string * string) -> result UpbitIngestError (list (string * F))).
Context (upbit_error : UpbitIngestError -> string).

(* rust: src/backfill/upbit/markets.rs resolve_markets *)
Definition resolve_upbit_markets (args : BackfillArgs) : result BackfillError (list UpbitBackfillMarket) :=
  if negb (String.eqb (ba_upbit_quote_currency args) "KRW")
  then Err (BfInvalidArgs "Upbit historical backfill only supports KRW quote markets") else
  match ba_symbols args with
  | Some symbols =>
      try_map (fun symbol => parse_explicit_market symbol (ba_upbit_quote_currency args)) symbols
  | None =>
      rest_base_url ← resolve_rest_base_url args;
      markets ← map_err (fun e => BfInvalidConfig (upbit_error e))
        (fetch_top_krw_markets partial_cmp fetch_markets fetch_tickers rest_base_url
           (ba_upbit_quote_currency args) (ba_expect_symbol_count args));
      Ok (map (fun m => mkUBMarket (um_market m) (um_base_asset m) (um_quote_asset m)) markets)
  end.

(* rust: src/backfill/upbit/runner.rs run *)
Definition run_upbit_backfill (fuel : nat) (args : BackfillArgs) (observed_at_ms : Z)
    : io L0StorageSink BackfillError (option BackfillRunReport) :=
  _ ← io_of (validate_recent_window (ba_input_start_ms args) (ba_input_end_ms args));
  resolved ← io_of (resolve_upbit_markets args);
  rest_base_url ← io_of (resolve_rest_base_url args);
  symbols ← backfill_all (fun market => backfill_upbit_symbol rest_base_url market
      (ba_input_start_ms args) (ba_input_end_ms args) fuel) resolved;
  match symbols with
  | None => mret None
  | Some symbols =>
      report ← write_health_and_report "upbit" "execution" "recent_trade_repair" args
        (zlen resolved) observed_at_ms symbols;
      mret (Some report)
  end.

(** ** A run *)

(* rust: src/backfill/run.rs storage_config *)
Definition storage_config (args : BackfillArgs) (now_secs : Z) : L0StorageConfig :=
  mkL0Config (ba_l0_s3_bucket args) (ba_aws_region args) (ba_aws_profile args) (ba_l0_spool_root args)
    ("market-backfill-" ++ venue_str (ba_venue args) ++ "-" ++ show_Z now_secs)%string
    (ba_l0_flush_records args) (ba_l0_shard_count args) None.

(** The listing and the deletes of the retention pass. *)
Context (listing : string -> result StorageError (list S3ObjectSummary)).
Context (delete : string -> result StorageError ()).

(** The pass is logged whatever it answers. *)
(* rust: src/backfill/run.rs log_l0_retention_cleanup *)
Definition l0_retention_cleanup (args : BackfillArgs) (now_ms : Z)
    : option (result StorageError (S3RetentionStats * list string)) :=
  if negb (ba_s3_retention_enabled args) then None else
  Some (run_s3_retention_once listing delete
    (mkRetention (ba_l0_s3_bucket args) (ba_aws_region args) (ba_aws_profile args)
       default_l0_retention_prefixes [] (saturate I64 (ba_s3_retention_days args * 86400))
       (ba_s3_retention_max_deletes_per_run args)) now_ms).

Definition set_storage (r : BackfillRunReport) (s : StorageReport) : BackfillRunReport :=
  mkBackfillReport (bk_venue r) (bk_source_role r) (bk_input_start_ms r) (bk_input_end_ms r)
    (bk_requested_symbol_count r) (bk_processed_symbol_count r) (bk_total_record_count r)
    (bk_total_gap_alert_count r) (bk_symbols r) s.

Definition sink_report : io L0StorageSink BackfillError StorageReport :=
  fun k => (k, Ok (Sink.report (sk_config k) (sk_core k))).

(** What a run does with its sink. *)
Definition fill_sink (fuel : nat) (args : BackfillArgs) (observed_at_ms : Z)
    : io L0StorageSink BackfillError (option BackfillRunReport) :=
  report ← match ba_venue args with
    | Binance => run_binance_backfill fuel args observed_at_ms
    | Upbit => run_upbit_backfill fuel args observed_at_ms
    end;
  match report with
  | None => mret None
  | Some report =>
      _ ← sink_op OpFlushAll;
      _ ← sink_op OpManifest;
      final ← sink_report;
      mret (Some (set_storage report final))
  end.

(** The report and the retention pass of a run; log lines are taken to be written. *)
(* rust: src/backfill/run.rs run_backfill *)
Definition run_backfill (fuel : nat) (args : BackfillArgs) (now_secs observed_at_ms now_ms : Z)
    : result BackfillError (option (BackfillRunReport
        * option (result StorageError (S3RetentionStats * list string)))) :=
  sink ← map_err (fun e => BfStorage (StorageError_display e)) (sink_new (storage_config args now_secs));
  report ← snd (fill_sink fuel args observed_at_ms sink);
  Ok (report ← report; Some (report, l0_retention_cleanup args now_ms)).
End backfill.
