(* ===== verification/BackfillFacts.v ===== *)
(** * BackfillFacts: a backfill stores the trades of its range, each once

    An exchange that keeps its history sorted and answers pages of it is enough for the
    loops of [Backfill] to end, and for their runs to be those of a loop over the trades of
    the range: same drafts, same order, same errors. *)
From S2P Require Import Prelude Text OrderedMap Decimal Domain Records Sink VenueStats BinanceVenue.
From S2P Require Import Derivatives Config BackfillArgs Backfill Effects.
From Stdlib Require Import Sorting.Sorted.
Open Scope Z_scope.

(** ** Pages of a sorted history *)

Section pages.
Context {A : Type} (R : A -> A -> Prop).

Lemma sorted_app (l l' : list A) : StronglySorted R (l ++ l') ->
  StronglySorted R l /\ StronglySorted R l' /\ (forall x y, x ∈ l -> y ∈ l' -> R x y).
Proof.
  induction l as [|a l IH]; cbn; intros H.
  - repeat split; [constructor|done|]. intros x y Hx. by apply not_elem_of_nil in Hx.
  - apply StronglySorted_inv in H as [H Ha]. apply IH in H as (H1 & H2 & H3).
    apply Forall_app in Ha as [Ha Ha']. repeat split; [by constructor|done|].
    intros x y [->|Hx]%elem_of_cons Hy; [|by apply H3].
    by apply (proj1 (Forall_forall _ _) Ha').
Qed.

Lemma sorted_filter (p : A -> bool) l : StronglySorted R l -> StronglySorted R (List.filter p l).
Proof.
  induction l as [|a l IH]; cbn; intros H; [done|]. apply StronglySorted_inv in H as [H Ha].
  destruct (p a); [|by apply IH]. constructor; [by apply IH|].
  apply Forall_forall. intros x Hx. apply (proj1 (Forall_forall _ _) Ha).
  apply list_elem_of_In, List.filter_In in Hx as [Hx _]. by apply list_elem_of_In.
Qed.

(** The next page starts behind the last element of the page before. *)
Lemma filter_behind_page (p : A -> bool) n l x : StronglySorted R l -> last (take n l) = Some x ->
  p x = false -> (forall y, R y x -> p y = false) -> (forall y, R x y -> p y = true) ->
  List.filter p l = drop n l.
Proof.
  intros Hs Hx Hpx Hbefore Hafter. rewrite <- (take_drop n l) at 1. rewrite List.filter_app.
  rewrite <- (take_drop n l) in Hs. apply sorted_app in Hs as (Hs & _ & Hlt).
  apply last_Some in Hx as [l' Hl']. rewrite Hl' in Hs, Hlt |- *.
  apply sorted_app in Hs as (_ & _ & Hl). rewrite (filter_none p (l' ++ [x])).
  - cbn. apply filter_all. intros y Hy. apply Hafter, Hlt; [set_solver|by apply list_elem_of_In].
  - intros y Hy. apply list_elem_of_In, elem_of_app in Hy as [Hy|Hy]; [apply Hbefore, Hl; set_solver|].
    by apply list_elem_of_singleton in Hy as ->.
Qed.

Lemma sorted_total l x y : StronglySorted R l -> x ∈ l -> y ∈ l -> x = y \/ R x y \/ R y x.
Proof.
  induction l as [|a l IH]; intros Hs Hx Hy; [by apply not_elem_of_nil in Hx|].
  apply StronglySorted_inv in Hs as [Hs Ha]. pose proof (proj1 (Forall_forall _ _) Ha) as Hall.
  apply elem_of_cons in Hx as [->|Hx], Hy as [->|Hy]; auto.
Qed.

(** A page is cut in two by the limit, and the last one is not full. *)
Lemma short_page (limit : Z) (l : list A) : 0 <= limit -> zlen (take (Z.to_nat limit) l) <> limit ->
  drop (Z.to_nat limit) l = [].
Proof.
  unfold zlen. rewrite length_take. intros Hl Hn. apply drop_ge. lia.
Qed.

Lemma page_shrinks (limit : Z) (l : list A) : 0 < limit -> take (Z.to_nat limit) l <> [] ->
  (Datatypes.length (drop (Z.to_nat limit) l) < Datatypes.length l)%nat.
Proof.
  intros Hl Hn. rewrite length_drop. destruct l; [by rewrite take_nil in Hn|cbn; lia].
Qed.

Lemma page_nil (limit : Z) (l : list A) : 0 < limit -> take (Z.to_nat limit) l = [] -> l = [].
Proof. intros Hl [|]%take_nil_inv; [lia|done]. Qed.

Lemma last_page l : l <> [] -> exists x : A, last l = Some x /\ x ∈ l.
Proof.
  intros Hl. destruct (last l) as [x|] eqn:E; [|by apply last_None in E].
  exists x. split; [done|]. by apply last_Some_elem_of.
Qed.
End pages.

(** ** Reports *)

(** The report of a symbol after its trades, given by their times. *)
Definition report_of (times : list Z) (r : SymbolBackfillReport) : SymbolBackfillReport :=
  fold_left (fun r t => observe_trade t r) times r.

Lemma report_of_count times r : 0 <= sy_record_count r -> sy_record_count r + zlen times < 2 ^ 64 ->
  sy_record_count (report_of times r) = sy_record_count r + zlen times.
Proof.
  revert r. induction times as [|t times IH]; intros r Hr Hn; cbn [report_of fold_left].
  - rewrite zlen_nil. lia.
  - rewrite zlen_cons in *. fold (report_of times (observe_trade t r)).
    assert (Hc : sy_record_count (observe_trade t r) = sy_record_count r + 1).
    { cbn. unfold incr_u64. pose proof (zlen_nonneg times). apply wrap_id. unfold in_range. cbn. lia. }
    rewrite IH; rewrite Hc; lia.
Qed.

Lemma report_of_snoc times t r : report_of (times ++ [t]) r = observe_trade t (report_of times r).
Proof. unfold report_of. by rewrite fold_left_app. Qed.

(** A report tells how many trades there were, the times of the first and the last, and
    alerts of a gap when there were none. *)
Record reports_trades (times : list Z) (r : SymbolBackfillReport) : Prop := {
  rt_count : sy_record_count r = zlen times;
  rt_gap : sy_gap_alert_count r = if is_nil times then 1 else 0;
  rt_first : match sy_first_event_time_ms r with
    | None => times = [] | Some a => a ∈ times /\ forall t, t ∈ times -> a <= t end;
  rt_last : match sy_last_event_time_ms r with
    | None => times = [] | Some b => b ∈ times /\ forall t, t ∈ times -> t <= b end }.

Lemma report_of_trades native canonical times : zlen times < 2 ^ 64 ->
  let r := report_of times (empty_report native canonical) in
  reports_trades times (if is_nil times then note_gap r else r).
Proof.
  intros Hn r. assert (Hc : sy_record_count r = zlen times).
  { unfold r. rewrite report_of_count; cbn; lia. }
  assert (Hg : sy_gap_alert_count r = 0).
  { unfold r. clear. induction times using rev_ind; [done|]. by rewrite report_of_snoc. }
  destruct (list_eq_nil_dec times) as [->|Hne]; [by split|].
  replace (is_nil times) with false by by destruct times.
  split; [done|by destruct times| |]; subst r; clear Hc Hg Hn;
    (induction times as [|t times IH] using rev_ind; [done|]);
    rewrite report_of_snoc; cbn [observe_trade sy_first_event_time_ms sy_last_event_time_ms];
    (destruct (list_eq_nil_dec times) as [->|Hne']; [cbn; split; [set_solver|set_solver by lia]|]);
    specialize (IH Hne').
  - destruct (sy_first_event_time_ms _) as [a|]; [|done]. destruct IH as [Ha Hle]. split.
    + destruct (Z.min_spec a t) as [[_ ->]|[_ ->]]; set_solver.
    + intros u [Hu|Hu%list_elem_of_singleton]%elem_of_app; [apply Hle in Hu|]; lia.
  - destruct (sy_last_event_time_ms _) as [b|]; [|done]. destruct IH as [Hb Hle]. split.
    + destruct (Z.max_spec b t) as [[_ ->]|[_ ->]]; set_solver.
    + intros u [Hu|Hu%list_elem_of_singleton]%elem_of_app; [apply Hle in Hu|]; lia.
Qed.

(** ** Binance *)

Section binance.
Context {L : StorageLib} {F : Type} {J : BackfillJson F} {C : ConfigFiles}.
Context (storage : Io) (clock : Z -> Z).
Context (get_agg : RestUrl -> list (string * string) -> result BackfillError (list AggTrade)).
Context (rest_base_url : string) (market : BinanceMarket) (input_start_ms input_end_ms : Z).

Definition by_id (t u : AggTrade) : Prop := ag_aggregate_trade_id t < ag_aggregate_trade_id u.
Definition by_time (t u : AggTrade) : Prop := ag_trade_timestamp_ms t <= ag_trade_timestamp_ms u.

Definition agg_in_range (t : AggTrade) : bool :=
  (input_start_ms <=? ag_trade_timestamp_ms t) && (ag_trade_timestamp_ms t <=? input_end_ms).

Definition store_agg (r : SymbolBackfillReport) (t : AggTrade)
    : io L0StorageSink BackfillError SymbolBackfillReport :=
  draft ← io_of (agg_trade_draft market t (clock (ag_trade_timestamp_ms t)));
  _ ← sink_op storage (OpRaw draft);
  mret (observe_trade (ag_trade_timestamp_ms t) r).

Lemma append_page_stores page report : StronglySorted by_time page ->
  append_page storage clock market input_start_ms input_end_ms page report ≅
  (r ← io_fold store_agg report (List.filter agg_in_range page);
   mret (existsb (fun t => input_end_ms <? ag_trade_timestamp_ms t) page, r)).
Proof.
  revert report. induction page as [|t page IH]; intros report Hs; cbn [append_page]; [done|].
  apply StronglySorted_inv in Hs as [Hs Ht]. cbn [List.filter existsb]. unfold agg_in_range at 1.
  destruct (Z.ltb_spec input_end_ms (ag_trade_timestamp_ms t)) as [Hlt|Hge].
  - rewrite (proj2 (Z.leb_gt (ag_trade_timestamp_ms t) input_end_ms)) by lia.
    rewrite andb_false_r, filter_none; [done|]. intros u Hu%list_elem_of_In.
    apply (proj1 (Forall_forall _ _) Ht) in Hu. unfold by_time in Hu. unfold agg_in_range.
    rewrite (proj2 (Z.leb_gt (ag_trade_timestamp_ms u) input_end_ms)) by lia. apply andb_false_r.
  - rewrite (proj2 (Z.leb_le (ag_trade_timestamp_ms t) input_end_ms)) by lia.
    rewrite andb_true_r, Z.leb_antisym. destruct (_ <? input_start_ms); cbn [negb].
    + by apply IH.
    + cbn [io_fold]. rewrite io_bind_assoc. unfold store_agg at 2. rewrite io_bind_assoc.
      apply io_bind_proper; [|done]. intros draft. rewrite io_bind_assoc.
      apply io_bind_proper; [|done]. intros []. by apply IH.
Qed.

(** The exchange keeps the trades [history], in the order of their ids and times, and
    answers at most a thousand of those asked for. *)
Record agg_history (history : list AggTrade) : Prop := {
  gh_ids : StronglySorted by_id history;
  gh_times : StronglySorted by_time history;
  gh_width : forall t, t ∈ history -> 0 <= ag_aggregate_trade_id t < int_max I64;
  gh_count : zlen history < 2 ^ 64;
  gh_from : forall id, 0 <= id <= int_max I64 ->
    fetch_agg_trades_from_id get_agg rest_base_url (bm_raw_symbol market) id
    = Ok (take (Z.to_nat BINANCE_PAGE_LIMIT) (List.filter (fun t => id <=? ag_aggregate_trade_id t) history));
  gh_range : fetch_agg_trades_by_time get_agg rest_base_url (bm_raw_symbol market)
      input_start_ms input_end_ms
    = Ok (take (Z.to_nat BINANCE_PAGE_LIMIT) (List.filter agg_in_range history)) }.

Context (history : list AggTrade) (HH : agg_history history).

Lemma next_page l (n : nat) x : StronglySorted by_id l -> last (take n l) = Some x ->
  List.filter (fun t => ag_aggregate_trade_id x + 1 <=? ag_aggregate_trade_id t) l = drop n l.
Proof.
  intros Hs Hx. apply (filter_behind_page by_id _ _ _ x); [done|done| | |]; unfold by_id; intros; lia.
Qed.

Lemma from_behind id id' : id <= id' ->
  List.filter (fun t => id' <=? ag_aggregate_trade_id t)
    (List.filter (fun t => id <=? ag_aggregate_trade_id t) history)
  = List.filter (fun t => id' <=? ag_aggregate_trade_id t) history.
Proof.
  intros Hid. rewrite filter_swap. apply filter_all. intros t [_ Ht]%List.filter_In. lia.
Qed.

Abbreviation pages := (agg_pages storage clock get_agg rest_base_url market input_start_ms input_end_ms).

Lemma pages_done fuel stop full id report : stop || negb full = true ->
  pages fuel stop full id report ≅ mret (Some report).
Proof. intros H. destruct fuel; cbn [agg_pages]; by rewrite H. Qed.

(** What is stored of a page and of the trades behind it. *)
Lemma after_end l l' (t : AggTrade) : StronglySorted by_time (l ++ l') -> t ∈ l ->
  input_end_ms < ag_trade_timestamp_ms t -> List.filter agg_in_range l' = [].
Proof.
  intros (_ & _ & Hlt)%sorted_app Ht Hend. apply filter_none. intros u Hu%list_elem_of_In.
  pose proof (Hlt t u Ht Hu) as Htu. unfold by_time in Htu. unfold agg_in_range.
  rewrite (proj2 (Z.leb_gt (ag_trade_timestamp_ms u) input_end_ms)) by lia. apply andb_false_r.
Qed.

Lemma agg_pages_store fuel id report :
  let behind := List.filter (fun t => id <=? ag_aggregate_trade_id t) history in
  0 <= id <= int_max I64 -> (Datatypes.length behind < fuel)%nat ->
  pages fuel false true id report ≅
  (r ← io_fold store_agg report (List.filter agg_in_range behind); mret (Some r)).
Proof.
  revert id report. induction fuel as [|fuel IH]; intros id report behind Hid Hfuel; [lia|].
  assert (Hids : StronglySorted by_id behind) by apply sorted_filter, HH.
  assert (Htimes : StronglySorted by_time behind) by apply sorted_filter, HH.
  cbn [agg_pages orb negb]. rewrite (gh_from _ HH) by done. fold behind. rewrite io_bind_of_ok.
  set (page := take _ behind). set (rest := drop (Z.to_nat BINANCE_PAGE_LIMIT) behind).
  assert (Hcut : behind = page ++ rest) by (symmetry; apply take_drop).
  rewrite Hcut in Htimes. destruct (decide (page = [])) as [Hnil|Hnil].
  { apply page_nil in Hnil as Hb; [|done]. rewrite Hnil, Hb. done. }
  destruct (last_page page Hnil) as (x & Hx & Hin).
  replace (is_nil page) with false by by destruct page.
  assert (Hidx : id <= ag_aggregate_trade_id x /\ x ∈ history).
  { assert (Hb : x ∈ behind) by (rewrite Hcut; set_solver).
    apply list_elem_of_In, List.filter_In in Hb as [? ?]. split; [lia|by apply list_elem_of_In]. }
  pose proof (gh_width _ HH x ltac:(apply Hidx)) as Hw.
  assert (Hnext : next_id page id = ag_aggregate_trade_id x + 1).
  { unfold next_id. rewrite Hx. apply wrap_id. unfold in_range. cbn in *. lia. }
  rewrite append_page_stores by by apply sorted_app in Htimes as (? & _).
  rewrite Hcut, List.filter_app, io_fold_app, !io_bind_assoc.
  apply io_bind_proper; [|done]. intros r. rewrite io_bind_ret_l. cbn [fst snd].
  rewrite Hnext, (proj2 (Z.leb_gt _ id)) by lia.
  destruct (existsb _ page) eqn:Estop.
  - apply existsb_exists in Estop as (u & Hu%list_elem_of_In & Hend%Z.ltb_lt).
    rewrite pages_done, (after_end _ _ _ Htimes Hu Hend) by done. done.
  - destruct (Z.eqb_spec (zlen page) BINANCE_PAGE_LIMIT) as [Hfull|Hshort].
    + assert (Hrest : List.filter (fun t => ag_aggregate_trade_id x + 1 <=? ag_aggregate_trade_id t)
        history = rest).
      { rewrite <- (from_behind id) by lia. by apply next_page. }
      rewrite IH; rewrite ?Hrest; [done|lia|].
      assert (Datatypes.length rest < Datatypes.length behind)%nat by by apply page_shrinks. lia.
    + rewrite pages_done by done. unfold rest. rewrite short_page by done. done.
Qed.

(** What a backfill of the symbol is for: the trades of the range, in their order, or an
    alert that there are none. *)
Definition store_agg_range (trades : list AggTrade) : io L0StorageSink BackfillError SymbolBackfillReport :=
  r ← io_fold store_agg (empty_report (bm_raw_symbol market) (bm_base_asset market)) trades;
  if is_nil trades then append_no_trade_gap storage clock market input_start_ms input_end_ms r
  else mret r.

Lemma store_agg_report l r k k' r' : io_fold store_agg r l k = (k', Ok r') ->
  r' = report_of (map ag_trade_timestamp_ms l) r.
Proof.
  intros H. apply (io_fold_answer _ (fun r t => observe_trade (ag_trade_timestamp_ms t) r)) in H as ->.
  - unfold report_of. by rewrite fold_left_map.
  - clear. intros r t k k' r'. unfold store_agg, mbind, io_bind, io_of.
    destruct (agg_trade_draft _ _ _); [|done]. destruct (sink_op _ _ _) as [? [[]|]]; [|done].
    by intros [= _ <-].
Qed.
Abbreviation trades := (List.filter agg_in_range history).
Abbreviation backfill := (backfill_binance_symbol storage clock get_agg rest_base_url market
  input_start_ms input_end_ms).

Lemma trades_times : StronglySorted by_time trades.
Proof. apply sorted_filter, HH. Qed.

Lemma trades_count : zlen (map ag_trade_timestamp_ms trades) < 2 ^ 64.
Proof.
  pose proof (gh_count _ HH) as Hn. unfold zlen in *. rewrite length_map.
  pose proof (List.filter_length_le agg_in_range history). lia.
Qed.

Lemma store_agg_range_reports k k' r : store_agg_range trades k = (k', Ok r) ->
  reports_trades (map ag_trade_timestamp_ms trades) r.
Proof.
  unfold store_agg_range, mbind, io_bind. intros H.
  destruct (io_fold store_agg _ trades k) as [k1 [r1|]] eqn:E; [|done].
  apply store_agg_report in E.
  pose proof (report_of_trades (bm_raw_symbol market) (bm_base_asset market) _ trades_count) as Hr.
  cbn zeta in Hr. rewrite <- E in Hr. destruct trades as [|t l]; [|by injection H as _ <-].
  unfold append_no_trade_gap, mbind, io_bind in H. cbn [is_nil] in H.
  destruct (append_empty_gap_alert _ _ _ _ _ _ _ _ k1) as [? [?|]]; [|done]. by injection H as _ <-.
Qed.

(** Behind the first page the loop sees the rest of the range. *)
Lemma first_page_then fuel report : (Datatypes.length history < fuel)%nat ->
  let page := take (Z.to_nat BINANCE_PAGE_LIMIT) trades in page <> [] ->
  (r ← append_page storage clock market input_start_ms input_end_ms page report;
   pages fuel r.1 (zlen page =? BINANCE_PAGE_LIMIT) (next_id page 0) r.2) ≅
  (r ← io_fold store_agg report trades; mret (Some r)).
Proof.
  intros Hfuel page Hnil. assert (Hcut : trades = page ++ drop (Z.to_nat BINANCE_PAGE_LIMIT) trades)
    by (symmetry; apply take_drop).
  assert (Hin : forall t, In t page -> agg_in_range t = true /\ In t history).
  { intros t Ht. apply and_comm, List.filter_In. rewrite Hcut. apply in_or_app. by left. }
  pose proof trades_times as Htimes. rewrite Hcut in Htimes.
  rewrite append_page_stores by by apply sorted_app in Htimes as (? & _).
  rewrite (filter_all _ page) by (intros; by apply Hin).
  assert (Hruns : io_fold store_agg report trades ≅ (r ← io_fold store_agg report page;
      io_fold store_agg r (drop (Z.to_nat BINANCE_PAGE_LIMIT) trades)))
    by (rewrite <- io_fold_app, <- Hcut; done).
  rewrite Hruns, !io_bind_assoc. apply io_bind_proper; [|done].
  intros r. rewrite io_bind_ret_l. cbn [fst snd].
  assert (Hstop : existsb (fun t => input_end_ms <? ag_trade_timestamp_ms t) page = false).
  { apply not_true_is_false. intros (u & [Hu _]%Hin & Hend)%existsb_exists.
    unfold agg_in_range in Hu. lia. }
  rewrite Hstop. destruct (last_page page Hnil) as (x & Hx & Hxin%list_elem_of_In%Hin).
  destruct (Z.eqb_spec (zlen page) BINANCE_PAGE_LIMIT) as [Hfull|Hshort].
  - pose proof (gh_width _ HH x) as Hw. rewrite list_elem_of_In in Hw. specialize (Hw (proj2 Hxin)).
    unfold next_id. rewrite Hx, wrap_id by (unfold in_range; cbn in *; lia).
    rewrite agg_pages_store; [|lia|].
    + rewrite filter_swap. erewrite next_page; [done|apply sorted_filter, HH|done].
    + eapply Nat.le_lt_trans; [apply List.filter_length_le|done].
  - rewrite pages_done by done. rewrite short_page by done. done.
Qed.

Lemma backfill_stores fuel : (Datatypes.length history < fuel)%nat ->
  backfill fuel ≅ (r ← store_agg_range trades; mret (Some r)).
Proof.
  intros Hfuel. unfold backfill_binance_symbol. cbn zeta. rewrite (gh_range _ HH), io_bind_of_ok.
  destruct (decide (take (Z.to_nat BINANCE_PAGE_LIMIT) trades = [])) as [Hnil|Hnil].
  { rewrite Hnil. apply page_nil in Hnil as ->; done. }
  replace (is_nil _) with false by by destruct (take _ _).
  etransitivity; [symmetry; apply io_bind_assoc|].
  pose proof (first_page_then fuel (empty_report (bm_raw_symbol market) (bm_base_asset market))
    Hfuel Hnil) as Hrun. cbn zeta in Hrun. rewrite Hrun.
  unfold store_agg_range. replace (is_nil trades) with false by by destruct trades.
  rewrite !io_bind_assoc. split. intros k. unfold mbind, io_bind.
  destruct (io_fold store_agg _ trades k) as [k' [r|]] eqn:E; [|done]. cbn [mret io_ret].
  apply store_agg_report in E as ->. rewrite (proj2 (Z.eqb_neq _ 0)); [done|].
  pose proof trades_count. rewrite report_of_count by (cbn; lia). unfold zlen.
  destruct trades; [by rewrite take_nil in Hnil|]. cbn. lia.
Qed.
End binance.

(** ** Upbit *)

Section upbit.
Context {L : StorageLib} {F : Type} {J : BackfillJson F} {C : ConfigFiles}.
Context (storage : Io) (clock : Z -> Z) (now_ns : Z).
Context (get_ticks : RestUrl -> list (string * string) -> result BackfillError (list (UpbitTrade (F := F)))).
Context (rest_base_url : string) (market : UpbitBackfillMarket) (input_start_ms input_end_ms : Z).

Definition newer (t u : UpbitTrade (F := F)) : Prop :=
  up_sequential_id u < up_sequential_id t /\ up_timestamp u <= up_timestamp t.

Definition tick_in_range (t : UpbitTrade (F := F)) : bool :=
  (input_start_ms <=? up_timestamp t) && (up_timestamp t <=? input_end_ms).

Definition store_tick (r : SymbolBackfillReport) (t : UpbitTrade (F := F))
    : io L0StorageSink BackfillError SymbolBackfillReport :=
  draft ← io_of (upbit_trade_draft market t (clock (up_timestamp t)));
  _ ← sink_op storage (OpRaw draft);
  mret (observe_trade (up_timestamp t) r).

Lemma append_page_trades_stores page reached report :
  append_page_trades storage clock market input_start_ms input_end_ms page reached report ≅
  (r ← io_fold store_tick report (List.filter tick_in_range page);
   mret (reached || existsb (fun t => (up_timestamp t <=? input_end_ms)
     && (up_timestamp t <? input_start_ms)) page, r)).
Proof.
  revert reached report. induction page as [|t page IH]; intros reached report;
    cbn [append_page_trades List.filter existsb]; [by rewrite orb_false_r|].
  unfold tick_in_range at 1. rewrite (Z.leb_antisym input_end_ms).
  destruct (input_end_ms <? up_timestamp t); cbn [negb andb orb].
  - rewrite andb_false_r. apply IH.
  - rewrite andb_true_r, Z.leb_antisym.
    destruct (_ <? input_start_ms); cbn [negb orb].
    + rewrite orb_true_r, IH. done.
    + cbn [io_fold]. rewrite io_bind_assoc. unfold store_tick at 2. rewrite io_bind_assoc.
      apply io_bind_proper; [|done]. intros draft. rewrite io_bind_assoc.
      apply io_bind_proper; [|done]. intros []. by apply IH.
Qed.

(** The seconds of a text "HH:MM:SS". *)
Definition parse_time (text : string) : option Z :=
  match split_char ":" text with
  | [h; m; s] => h ← parse_int U32 h; m ← parse_int U32 m; s ← parse_int U32 s; Some (h * 3600 + m * 60 + s)
  | _ => None
  end.

(** A parameter of a query. *)
Definition query_get (name : string) (query : list (string * string)) : option string :=
  snd <$> List.find (fun p => String.eqb p.1 name) query.

Definition day_of (t : UpbitTrade (F := F)) : Z := up_timestamp t / DAY_MS.

(** [GET /v1/trades/ticks] as Upbit documents it: the trades of one UTC day, the newest
    first.  Without [days_ago] it is the day of the newest trade, with it so many days
    before; [to] asks for the trades up to a time of the day, [cursor] for those with a
    smaller identifier, [count] limits them.  [upto secs ms]: whether a trade that many
    milliseconds into the day is up to a time of so many seconds. *)
Definition ticks_answer (upto : Z -> Z -> bool) (history : list (UpbitTrade (F := F)))
    (query : list (string * string)) : list (UpbitTrade (F := F)) :=
  let number name := v ← query_get name query; parse_int I64 v in
  let newest := from_option day_of 0 (head history) in
  let shown t :=
    (day_of t =? newest - default 0 (number "days_ago"%string))
    && match v ← query_get "to" query; parse_time v with
       | Some secs => upto secs (up_timestamp t mod DAY_MS) | None => true end
    && match number "cursor"%string with
       | Some cursor => up_sequential_id t <? cursor | None => true end in
  take (Z.to_nat (default 1 (number "count"%string))) (List.filter shown history).

(** The exchange keeps the trades [history] of the market, the newest first and of today,
    and answers as documented; a trade before another of its day is up to every time that
    the other is up to. *)
Record tick_history (upto : Z -> Z -> bool) (history : list (UpbitTrade (F := F))) : Prop := {
  th_sorted : StronglySorted newer history;
  th_count : zlen history < 2 ^ 64;
  th_today : forall t, head history = Some t -> day_of t = now_ns / DAY_NS;
  th_ids : forall t, t ∈ history -> in_range I64 (up_sequential_id t);
  th_upto : forall secs ms ms', upto secs ms = true -> ms' <= ms -> upto secs ms' = true;
  th_url : exists url, upbit_trades_url rest_base_url "/v1/trades/ticks" = Ok url /\
    forall query, query_get "market" query = Some (ub_market market) ->
      get_ticks url query = Ok (ticks_answer upto history query) }.

Context (upto : Z -> Z -> bool) (history : list (UpbitTrade (F := F))).
Context (HH : tick_history upto history).
Let today := now_ns / DAY_NS.

(** What a page is taken of: the trades of a day up to a time, and those of today behind a
    cursor. *)
Definition ticks_upto (day secs : Z) : list (UpbitTrade (F := F)) :=
  List.filter (fun t => (day_of t =? day) && upto secs (up_timestamp t mod DAY_MS)) history.
Abbreviation behind cursor :=
  (List.filter (fun t => (day_of t =? today) && (up_sequential_id t <? cursor)) history).

(** *** The texts of a request *)

Lemma pad_two_back z : 0 <= z < 100 -> parse_int U32 (pad_zero 2 z) = Some z /\ ~ In ":"%char (bytes (pad_zero 2 z)).
Proof.
  intros Hz. assert (Hall : forallb (fun n => let z := Z.of_nat n in
    bool_decide (parse_int U32 (pad_zero 2 z) = Some z)
    && negb (existsb (Ascii.eqb ":") (bytes (pad_zero 2 z)))) (seq 0 100) = true) by by vm_compute.
  rewrite forallb_forall in Hall. specialize (Hall (Z.to_nat z)).
  rewrite Z2Nat.id in Hall by lia. destruct (andb_prop _ _ (Hall ltac:(apply in_seq; lia))) as [Hp Hc].
  split; [by apply bool_decide_eq_true in Hp|]. intros Hin. apply negb_true_iff in Hc.
  assert (existsb (Ascii.eqb ":") (bytes (pad_zero 2 z)) = true) as E; [|by rewrite E in Hc].
  apply existsb_exists. by exists ":"%char.
Qed.

(** [to] is the whole seconds of the end of the range in its day. *)
Lemma time_of_day_back ms : parse_time (time_of_day ms) = Some ((ms mod DAY_MS) / 1000).
Proof.
  unfold parse_time, time_of_day. set (s := (ms mod DAY_MS) / 1000).
  assert (Hs : 0 <= s < 86400).
  { pose proof (Z.mod_pos_bound ms DAY_MS eq_refl). unfold s, DAY_MS in *.
    split; [apply Z.div_pos; lia|apply Z.div_lt_upper_bound; lia]. }
  destruct (pad_two_back (s / 3600)) as [Eh Nh]; [split; [apply Z.div_pos; lia|apply Z.div_lt_upper_bound; lia]|].
  destruct (pad_two_back (s / 60 mod 60)) as [Em Nm]; [pose proof (Z.mod_pos_bound (s / 60) 60); lia|].
  destruct (pad_two_back (s mod 60)) as [Es Ns]; [pose proof (Z.mod_pos_bound s 60); lia|].
  cbn [String.append]. rewrite (split_char_app _ _ _ Nh), (split_char_app _ _ _ Nm), (split_char_none _ _ Ns). rewrite Eh, Em, Es. cbn. f_equal.
  pose proof (Z.div_mod s 60). pose proof (Z.div_mod (s / 60) 60). rewrite Z.div_div in * by lia.
  change (60 * 60) with 3600 in *. lia.
Qed.

Definition initial_secs : Z := (input_end_ms mod DAY_MS) / 1000.
Definition initial_day : Z := input_end_ms / DAY_MS.

Lemma newest_today t : t ∈ history -> from_option day_of 0 (head history) = today.
Proof using HH.
  intros Ht. destruct (head history) as [h|] eqn:E; [by apply (th_today _ _ HH)|].
  apply head_None in E. rewrite E in Ht. by apply elem_of_nil in Ht.
Qed.

(** No trade is of a later day. *)
Lemma day_before t : t ∈ history -> day_of t <= today.
Proof using HH.
  intros Ht. destruct (head history) as [h|] eqn:E.
  - unfold today. rewrite <- (th_today _ _ HH h E). apply Z.div_le_mono; [done|].
    apply head_Some in E as [l E]. pose proof (th_sorted _ _ HH) as Hs. rewrite E in Hs, Ht.
    apply StronglySorted_inv in Hs as [_ Hall]. apply elem_of_cons in Ht as [->|Ht]; [done|].
    rewrite Forall_forall in Hall. by destruct (Hall t Ht).
  - apply head_None in E. rewrite E in Ht. by apply elem_of_nil in Ht.
Qed.

Lemma filter_filter {A} (p q : A -> bool) (l : list A) :
  List.filter q (List.filter p l) = List.filter (fun x => p x && q x) l.
Proof. induction l as [|x l IH]; [done|]. cbn. destruct (p x); cbn; by rewrite IH. Qed.

Lemma filter_in {A} (p q : A -> bool) (l : list A) : (forall x, x ∈ l -> p x = q x) ->
  List.filter p l = List.filter q l.
Proof. intros Hpq. apply List.filter_ext_in. intros x Hx. by apply Hpq, list_elem_of_In. Qed.

(** The first page: of the day the range ends in. *)
Lemma first_page initial : initial_cursor now_ns input_end_ms = Ok initial ->
  fetch_trade_page get_ticks rest_base_url (ub_market market) initial None true
  = Ok (take (Z.to_nat UPBIT_PAGE_LIMIT) (ticks_upto initial_day initial_secs)).
Proof using HH.
  unfold initial_cursor. destruct (datetime_from_ms input_end_ms) as [e|] eqn:Ee; [|done].
  assert (e = input_end_ms) as ->.
  { unfold datetime_from_ms in Ee. destruct (bool_decide _); [by injection Ee|done]. }
  cbn [mbind result_bind]. fold today. set (ago := today - input_end_ms / DAY_MS).
  destruct ((0 <=? ago) && (ago <=? UPBIT_RECENT_WINDOW_DAYS)) eqn:Hago; cbn [negb]; [|done].
  apply andb_prop in Hago as [H0 H7]. unfold UPBIT_RECENT_WINDOW_DAYS in H7. intros [= <-].
  destruct (th_url _ _ HH) as (url & Hurl & Hget). unfold fetch_trade_page. rewrite Hurl. cbn [mbind result_bind].
  rewrite Hget by done. f_equal. unfold ticks_answer, ticks_upto, query_get. cbn [uc_to uc_days_ago].
  destruct (Z.eqb_spec ago 0) as [Hz|Hz]; cbn -[parse_int time_of_day show_Z take parse_time].
  all: rewrite (parse_show_Z I64 UPBIT_PAGE_LIMIT) by (by vm_compute); cbn -[UPBIT_PAGE_LIMIT parse_int time_of_day show_Z take parse_time];
    rewrite time_of_day_back; f_equal; apply filter_in; intros t Ht; rewrite andb_true_r;
    fold initial_secs; rewrite (newest_today t Ht).
  - do 2 f_equal. unfold initial_day. lia.
  - rewrite parse_show_Z by (unfold in_range; cbn; lia). cbn. do 2 f_equal. unfold initial_day. lia.
Qed.

(** A later page: of today. *)
Lemma later_page initial x : x ∈ history ->
  fetch_trade_page get_ticks rest_base_url (ub_market market) initial (Some (up_sequential_id x)) false
  = Ok (take (Z.to_nat UPBIT_PAGE_LIMIT) (behind (up_sequential_id x))).
Proof using HH.
  intros Hx. destruct (th_url _ _ HH) as (url & Hurl & Hget). unfold fetch_trade_page. rewrite Hurl.
  cbn [mbind result_bind]. rewrite Hget by done. f_equal. unfold ticks_answer, query_get.
  cbn -[parse_int show_Z take]. rewrite (parse_show_Z I64 UPBIT_PAGE_LIMIT) by (by vm_compute).
  rewrite (parse_show_Z I64 (up_sequential_id x)) by by apply (th_ids _ _ HH).
  cbn -[take UPBIT_PAGE_LIMIT]. f_equal. apply filter_in. intros t Ht. rewrite andb_true_r, (newest_today t Ht). do 2 f_equal. lia.
Qed.

Lemma behind_tick l x : StronglySorted newer l ->
  last (take (Z.to_nat UPBIT_PAGE_LIMIT) l) = Some x ->
  List.filter (fun t => up_sequential_id t <? up_sequential_id x) l
  = drop (Z.to_nat UPBIT_PAGE_LIMIT) l.
Proof.
  intros Hs Hx. apply (filter_behind_page newer _ _ _ x); [done|done| | |]; unfold newer; intros; lia.
Qed.

(** *** The pages *)

(** A page ends the loop when it is empty, reaches behind the start or is short. *)
Definition last_one (page : list (UpbitTrade (F := F))) : bool :=
  is_nil page
  || existsb (fun t => (up_timestamp t <=? input_end_ms) && (up_timestamp t <? input_start_ms)) page
  || (zlen page <? UPBIT_PAGE_LIMIT).

Lemma page_step fuel initial cursor first report page :
  fetch_trade_page get_ticks rest_base_url (ub_market market) initial cursor first = Ok page ->
  (forall x, last page = Some x -> cursor <> Some (up_sequential_id x)) ->
  upbit_pages storage clock get_ticks rest_base_url market input_start_ms input_end_ms (S fuel)
    initial cursor first report ≅
  (r ← io_fold store_tick report (List.filter tick_in_range page);
   if last_one page then mret (Some r)
   else upbit_pages storage clock get_ticks rest_base_url market input_start_ms input_end_ms fuel
          initial (up_sequential_id <$> last page) false r).
Proof.
  intros Hfetch Hcursor. cbn [upbit_pages]. rewrite Hfetch, io_bind_of_ok. unfold last_one.
  destruct (decide (page = [])) as [->|Hnil]; [done|].
  replace (is_nil page) with false by by destruct page.
  rewrite append_page_trades_stores, io_bind_assoc. apply io_bind_proper; [|done]. intros r.
  rewrite io_bind_ret_l. cbn [fst snd orb]. destruct (existsb _ page); [done|].
  destruct (last_page page Hnil) as (x & Hx & _). unfold advance_cursor. rewrite Hx.
  rewrite bool_decide_eq_false_2 by (intros Hc; by apply (Hcursor x Hx)). rewrite io_bind_of_ok. cbn [orb].
  by destruct (zlen page <? UPBIT_PAGE_LIMIT).
Qed.

(** The trades a page of today is taken of: all of today's behind their first. *)
Definition upto_ok (ticks : list (UpbitTrade (F := F))) : Prop :=
  StronglySorted newer ticks /\ forall x, x ∈ ticks -> x ∈ history /\
    behind (up_sequential_id x) = List.filter (fun t => up_sequential_id t <? up_sequential_id x) ticks.

Lemma id_order t u : t ∈ history -> u ∈ history -> up_sequential_id t < up_sequential_id u ->
  up_timestamp t <= up_timestamp u.
Proof using HH.
  intros Ht Hu Hlt. destruct (sorted_total newer history t u) as [->|[[]|[]]]; first [done|apply HH|lia].
Qed.

Lemma behind_filtered p : (forall t u, t ∈ history -> u ∈ history -> p u = true -> day_of t = today ->
    up_sequential_id t < up_sequential_id u -> p t = true) ->
  (forall t, p t = true -> day_of t = today) -> upto_ok (List.filter p history).
Proof using HH.
  intros Hp Hd. split; [apply sorted_filter, HH|]. intros x [Hx HT]%list_elem_of_In%List.filter_In.
  apply list_elem_of_In in Hx. split; [done|]. rewrite filter_filter. apply filter_in. intros t Ht.
  destruct (Z.ltb_spec (up_sequential_id t) (up_sequential_id x)) as [Hlt|]; [|by rewrite !andb_false_r].
  rewrite !andb_true_r. destruct (p t) eqn:Ept; [by apply Z.eqb_eq, Hd|].
  apply Z.eqb_neq. intros Hday. by rewrite (Hp t x Ht Hx HT Hday Hlt) in Ept.
Qed.

Lemma upto_ok_first secs : upto_ok (ticks_upto today secs).
Proof using HH.
  apply behind_filtered.
  - intros t u Ht Hu [Hd Hup]%andb_prop Hday Hlt. rewrite Hday, Z.eqb_refl. cbn.
    apply (th_upto _ _ HH secs (up_timestamp u mod DAY_MS)); [done|].
    pose proof (id_order t u Ht Hu Hlt). apply Z.eqb_eq in Hd. unfold day_of in *.
    rewrite !Z.mod_eq by done. lia.
  - intros t [Hd _]%andb_prop. by apply Z.eqb_eq.
Qed.

Lemma upto_ok_behind cursor : upto_ok (behind cursor).
Proof using HH.
  apply behind_filtered.
  - intros t u _ _ [_ Hc]%andb_prop Hday Hlt. rewrite Hday, Z.eqb_refl. cbn. lia.
  - intros t [Hd _]%andb_prop. by apply Z.eqb_eq.
Qed.

Lemma before_start l l' (t : UpbitTrade (F := F)) : StronglySorted newer (l ++ l') -> t ∈ l ->
  up_timestamp t < input_start_ms -> List.filter tick_in_range l' = [].
Proof.
  intros (_ & _ & Hlt)%sorted_app Ht Hstart. apply filter_none. intros u Hu%list_elem_of_In.
  destruct (Hlt t u Ht Hu). unfold tick_in_range.
  by rewrite (proj2 (Z.leb_gt input_start_ms (up_timestamp u))) by lia.
Qed.

(** Behind the last page of a loop there is nothing of the range. *)
Lemma last_one_rest ticks : StronglySorted newer ticks -> last_one (take (Z.to_nat UPBIT_PAGE_LIMIT) ticks) = true ->
  List.filter tick_in_range (drop (Z.to_nat UPBIT_PAGE_LIMIT) ticks) = [].
Proof.
  intros Hs H. unfold last_one in H. apply orb_prop in H as [H|Hshort].
  - apply orb_prop in H as [Hnil|Hreached].
    + destruct (take _ ticks) eqn:E; [|done]. by rewrite (page_nil UPBIT_PAGE_LIMIT ticks eq_refl E).
    + apply existsb_exists in Hreached as (u & Hu%list_elem_of_In & Hlt%andb_true_iff).
      rewrite <- (take_drop (Z.to_nat UPBIT_PAGE_LIMIT) ticks) in Hs.
      eapply (before_start _ _ u); [exact Hs|done|lia].
  - apply Z.ltb_lt in Hshort. rewrite short_page; [done|done|]. intros He. rewrite He in Hshort. lia.
Qed.

Lemma upbit_pages_store fuel initial cursor first report ticks :
  fetch_trade_page get_ticks rest_base_url (ub_market market) initial cursor first
    = Ok (take (Z.to_nat UPBIT_PAGE_LIMIT) ticks) ->
  upto_ok ticks -> (forall c, cursor = Some c -> forall t, t ∈ ticks -> up_sequential_id t < c) ->
  (Datatypes.length ticks < fuel)%nat ->
  upbit_pages storage clock get_ticks rest_base_url market input_start_ms input_end_ms fuel
    initial cursor first report ≅
  (r ← io_fold store_tick report (List.filter tick_in_range ticks); mret (Some r)).
Proof using HH.
  revert cursor first report ticks. induction fuel as [|fuel IH];
    intros cursor first report ticks Hfetch [Hs Hbehind] Hcursor Hfuel; [lia|].
  set (page := take (Z.to_nat UPBIT_PAGE_LIMIT) ticks) in *.
  set (rest := drop (Z.to_nat UPBIT_PAGE_LIMIT) ticks).
  assert (Hcut : ticks = page ++ rest) by (symmetry; apply take_drop).
  assert (Hin : forall x, last page = Some x -> x ∈ ticks).
  { intros x Hx. rewrite Hcut. apply elem_of_app. left. by apply last_Some_elem_of. }
  rewrite (page_step _ _ _ _ _ page Hfetch) by (intros x Hx Hc; pose proof (Hcursor _ Hc x (Hin x Hx)); lia).
  rewrite Hcut. rewrite List.filter_app, io_fold_app, io_bind_assoc.
  apply io_bind_proper; [|done]. intros r. destruct (last_one page) eqn:Elast.
  { unfold rest. by rewrite last_one_rest. }
  destruct (last page) as [x|] eqn:Hx; [|by apply last_None in Hx; rewrite Hx in Elast].
  assert (Hnext : behind (up_sequential_id x) = rest)
    by by (rewrite (proj2 (Hbehind x (Hin x eq_refl))); by apply behind_tick).
  apply IH.
  - cbn [fmap option_fmap option_map]. rewrite later_page, Hnext; [done|by apply Hbehind, Hin].
  - rewrite <- Hnext. apply upto_ok_behind.
  - rewrite <- Hnext. intros c [= <-] t [_ [_ Ht]%andb_prop]%list_elem_of_In%List.filter_In. lia.
  - assert (Datatypes.length rest < Datatypes.length ticks)%nat; [|lia].
    apply page_shrinks; [done|]. fold page. by intros Hnil; rewrite Hnil in Hx.
Qed.

(** The trades of the range's last day that the exchange shows: all of them when it is
    today, and one page when it is over, as the pages that follow are of today. *)
Definition shown_ticks : list (UpbitTrade (F := F)) :=
  let ticks := ticks_upto initial_day initial_secs in
  if initial_day =? today then ticks else take (Z.to_nat UPBIT_PAGE_LIMIT) ticks.

Lemma shown_pages_store fuel initial report : initial_cursor now_ns input_end_ms = Ok initial ->
  (Datatypes.length history < fuel)%nat ->
  upbit_pages storage clock get_ticks rest_base_url market input_start_ms input_end_ms fuel
    initial None true report ≅
  (r ← io_fold store_tick report (List.filter tick_in_range shown_ticks); mret (Some r)).
Proof using HH.
  intros Hi Hfuel. pose proof (first_page initial Hi) as Hfirst. unfold shown_ticks.
  destruct (Z.eqb_spec initial_day today) as [Hd|Hd].
  { rewrite Hd in *. apply upbit_pages_store; [done|apply upto_ok_first|done|].
    eapply Nat.le_lt_trans; [apply List.filter_length_le|done]. }
  destruct fuel as [|fuel]; [lia|]. set (page := take _ _) in *.
  rewrite (page_step _ _ _ _ _ page Hfirst) by done. apply io_bind_proper; [|done]. intros r.
  destruct (last_one page) eqn:Elast; [done|].
  destruct (last page) as [x|] eqn:Hx; [|by apply last_None in Hx; rewrite Hx in Elast].
  assert (Hxt : x ∈ ticks_upto initial_day initial_secs).
  { eapply elem_of_sublist; [by apply last_Some_elem_of|]. apply sublist_take. }
  apply list_elem_of_In, List.filter_In in Hxt as [Hxh [Hxd _]%andb_prop]. apply list_elem_of_In in Hxh.
  assert (Hempty : behind (up_sequential_id x) = []).
  { apply filter_none. intros t Ht%list_elem_of_In. apply andb_false_iff.
    destruct (Z.eqb_spec (day_of t) today) as [Ht'|]; [right|by left]. apply Z.ltb_ge.
    destruct (Z.le_gt_cases (up_sequential_id x) (up_sequential_id t)) as [|Hlt]; [done|exfalso].
    pose proof (id_order t x Ht Hxh ltac:(lia)) as Hle. apply (Z.div_le_mono _ _ DAY_MS) in Hle; [|done].
    pose proof (day_before x Hxh). apply Z.eqb_eq in Hxd. unfold day_of in *. lia. }
  destruct fuel as [|fuel].
  { destruct history; [by apply elem_of_nil in Hxh|cbn in Hfuel; lia]. }
  cbn [fmap option_fmap option_map].
  rewrite (page_step fuel initial (Some (up_sequential_id x)) false r []); [done| |done].
  by rewrite later_page, Hempty.
Qed.

Definition store_tick_range (ticks : list (UpbitTrade (F := F)))
    : io L0StorageSink BackfillError SymbolBackfillReport :=
  r ← io_fold store_tick (empty_report (ub_market market) (ub_base_asset market)) ticks;
  if is_nil ticks then
    _ ← append_empty_gap_alert (F := F) storage clock "upbit" "execution" (ub_market market)
          input_start_ms input_end_ms "no_trade_records_returned";
    mret (note_gap r)
  else mret r.

Lemma store_tick_report l r k k' r' : io_fold store_tick r l k = (k', Ok r') ->
  r' = report_of (map up_timestamp l) r.
Proof.
  intros H. apply (io_fold_answer _ (fun r t => observe_trade (up_timestamp t) r)) in H as ->.
  - unfold report_of. by rewrite fold_left_map.
  - clear. intros r t k k' r'. unfold store_tick, mbind, io_bind, io_of.
    destruct (upbit_trade_draft _ _ _); [|done]. destruct (sink_op _ _ _) as [? [[]|]]; [|done].
    by intros [= _ <-].
Qed.

Abbreviation ticks := (List.filter tick_in_range shown_ticks).

Lemma ticks_count : zlen (map up_timestamp ticks) < 2 ^ 64.
Proof using HH.
  assert (Hshown : (Datatypes.length shown_ticks <= Datatypes.length history)%nat).
  { unfold shown_ticks. destruct (_ =? _); [|rewrite length_take; etransitivity; [apply Nat.le_min_r|]];
      apply List.filter_length_le. }
  pose proof (th_count _ _ HH) as Hn. unfold zlen in *. rewrite length_map.
  pose proof (List.filter_length_le tick_in_range shown_ticks). lia.
Qed.

Lemma store_tick_range_reports k k' r : store_tick_range ticks k = (k', Ok r) ->
  reports_trades (map up_timestamp ticks) r.
Proof using HH.
  unfold store_tick_range, mbind, io_bind. intros H.
  destruct (io_fold store_tick _ _ k) as [k1 [r1|]] eqn:E; [|done].
  apply store_tick_report in E.
  pose proof (report_of_trades (ub_market market) (ub_base_asset market) _ ticks_count) as Hr.
  cbn zeta in Hr. rewrite <- E in Hr. destruct ticks as [|t l]; [|by injection H as _ <-].
  cbn [is_nil] in H. destruct (append_empty_gap_alert _ _ _ _ _ _ _ _ k1) as [? [?|]]; [|done].
  by injection H as _ <-.
Qed.

Lemma upbit_backfill_stores fuel initial : initial_cursor now_ns input_end_ms = Ok initial ->
  (Datatypes.length history < fuel)%nat ->
  backfill_upbit_symbol storage clock now_ns get_ticks rest_base_url market
    input_start_ms input_end_ms fuel ≅
  (r ← store_tick_range ticks; mret (Some r)).
Proof using HH.
  intros Hi Hfuel. unfold backfill_upbit_symbol. cbn zeta. rewrite Hi, io_bind_of_ok.
  rewrite (shown_pages_store fuel initial _ Hi Hfuel).
  unfold store_tick_range. rewrite !io_bind_assoc. split. intros k. unfold mbind, io_bind.
  destruct (io_fold store_tick _ _ k) as [k' [r|]] eqn:E; [|done]. cbn [mret io_ret].
  apply store_tick_report in E as ->. pose proof ticks_count as Hn.
  rewrite report_of_count by (cbn; lia). destruct ticks as [|t l]; cbn [is_nil map].
  - match goal with |- context [if ?b =? 0 then _ else _] => change (b =? 0) with true end.
    cbn. destruct (append_empty_gap_alert _ _ _ _ _ _ _ _ k') as [? [?|]]; done.
  - rewrite zlen_cons. pose proof (zlen_nonneg (map up_timestamp l)).
    by rewrite (proj2 (Z.eqb_neq _ 0)) by (cbn; lia).
Qed.
End upbit.

(** ** Exactly the range *)

(** C12: A Binance backfill ends, and runs as the plain loop over the trades of its range: each
    of them is drafted and appended once, in the order of the exchange, and nothing else
    is, whatever the sink answers.  Fuel for one page more than there are trades is enough.
    A run that succeeds reports how many trades there were, the first and the last of their
    times, and one gap alert exactly when there were none. *)
Theorem binance_backfill_stores_the_range {L : StorageLib} {F} {J : BackfillJson F} {C : ConfigFiles}
    storage clock get_agg rest_base_url market input_start_ms input_end_ms history fuel
    (HH : agg_history get_agg rest_base_url market input_start_ms input_end_ms history)
    (Hfuel : (Datatypes.length history < fuel)%nat) :
  let trades := List.filter (agg_in_range input_start_ms input_end_ms) history in
  let run := backfill_binance_symbol storage clock get_agg rest_base_url market
    input_start_ms input_end_ms fuel in
  run ≅ (r ← store_agg_range storage clock market input_start_ms input_end_ms trades; mret (Some r))
  /\ forall k k' r, run k = (k', Ok r) ->
     exists report, r = Some report /\ reports_trades (map ag_trade_timestamp_ms trades) report.
Proof.
  intros trades run. assert (Hrun := backfill_stores storage clock _ _ _ _ _ _ HH fuel Hfuel).
  split; [done|]. intros k k' r. unfold run. rewrite (io_run Hrun). unfold mbind, io_bind.
  destruct (store_agg_range _ _ _ _ _ _ k) as [k1 [report|]] eqn:E; [|done].
  intros [= _ <-]. exists report. split; [done|]. by eapply store_agg_range_reports.
Qed.

(** C27: An Upbit backfill ends, and runs as the plain loop over the trades of its range that
    the exchange shows it, the newest first, each appended once, whatever the sink answers.
    The exchange answers with the trades of one UTC day, as Upbit documents [trades/ticks];
    the first request asks for the day in which the range ends, up to the last whole second
    of the range, and the others for today.  So the trades shown are those of today up to
    that second when the range ends today, and otherwise the first two hundred of its last
    day: nothing of the days before, and the report does not say so.  It is the report of
    the stored trades, with one gap alert exactly when there were none. *)
Theorem upbit_backfill_stores_the_last_day {L : StorageLib} {F} {J : BackfillJson F} {C : ConfigFiles}
    storage clock now_ns get_ticks rest_base_url market input_start_ms input_end_ms upto history fuel
    initial (HH : tick_history (F := F) now_ns get_ticks rest_base_url market upto history)
    (Hinitial : initial_cursor now_ns input_end_ms = Ok initial)
    (Hfuel : (Datatypes.length history < fuel)%nat) :
  let today := now_ns / DAY_NS in
  let last_day := input_end_ms / DAY_MS in
  let asked := List.filter (fun t => (up_timestamp t / DAY_MS =? last_day)
    && upto ((input_end_ms mod DAY_MS) / 1000) (up_timestamp t mod DAY_MS)) history in
  let ticks := List.filter (tick_in_range input_start_ms input_end_ms)
    (if last_day =? today then asked else take 200 asked) in
  let run := backfill_upbit_symbol storage clock now_ns get_ticks rest_base_url market
    input_start_ms input_end_ms fuel in
  run ≅ (r ← store_tick_range storage clock market input_start_ms input_end_ms ticks; mret (Some r))
  /\ forall k k' r, run k = (k', Ok r) ->
     exists report, r = Some report /\ reports_trades (map up_timestamp ticks) report.
Proof.
  intros today last_day asked ticks run.
  assert (Hrun := upbit_backfill_stores storage clock now_ns get_ticks _ _ input_start_ms input_end_ms
    _ _ HH fuel initial Hinitial Hfuel).
  split; [exact Hrun|]. intros k k' r. unfold run. rewrite (io_run Hrun). unfold mbind, io_bind.
  destruct (store_tick_range _ _ _ _ _ _ k) as [k1 [report|]] eqn:E; [|done].
  intros [= _ <-]. exists report. split; [done|]. by eapply (store_tick_range_reports _ _ _ _ _ _ _ _ _ _ HH).
Qed.

(** ** Samples *)

#[local] Instance sample_config : ConfigFiles :=
  Build_ConfigFiles (fun _ => Err "none"%string) (fun _ => Err "none"%string) (fun _ => Err "none"%string)
    (fun s => Ok (mkRestUrl s "https" (Some "api"%string) "" None None None)) (fun _ u => u) ru_text.
#[local] Instance sample_json : BackfillJson string := {| bj_text := fun _ => Ok "{}"%string |}.

Definition sample_market : BinanceMarket := mkMarket "BTCUSDT" "BTC" "USDT".
Definition sample_trade (id ts : Z) : AggTrade := mkAgg id "1.0" "2.0" id id ts false true.
Definition sample_history : list AggTrade := [sample_trade 7 100; sample_trade 8 200; sample_trade 9 900].
Definition sample_get_agg (_ : RestUrl) (q : list (string * string)) : result BackfillError (list AggTrade) :=
  match q with
  | [_; (_, id); _] => match parse_int I64 id with
      | Some id => Ok (take (Z.to_nat BINANCE_PAGE_LIMIT)
          (List.filter (fun t => id <=? ag_aggregate_trade_id t) sample_history))
      | None => Err (BfInvalidConfig "id") end
  | _ => Ok (take (Z.to_nat BINANCE_PAGE_LIMIT) (List.filter (agg_in_range 150 500) sample_history))
  end.

Lemma sample_agg_history :
  agg_history sample_get_agg "https://api.binance.com" sample_market 150 500 sample_history.
Proof.
  split; [by repeat constructor|unfold sample_history; repeat constructor; by vm_compute| |by vm_compute| |
    by vm_compute].
  - intros t Ht. set_solver by (cbn; lia).
  - intros id Hid. unfold fetch_agg_trades_from_id.
    replace (spot_market_data_url _ _) with (Ok (A := RestUrl) (E := BackfillError)
      (mkRestUrl "https://api.binance.com/api/v3/aggTrades" "https" (Some "api"%string) "" None None None))
      by by vm_compute.
    cbn [mbind]. unfold sample_get_agg. cbn. rewrite parse_show_Z; [done|].
    unfold in_range. cbn in *. lia.
Qed.

Lemma binance_backfill_stores_the_range_witness :
  exists k report,
    backfill_binance_symbol (L := sample_lib) (F := string) sample_io (fun t => t) sample_get_agg
      "https://api.binance.com" sample_market 150 500 4 (sink_start sample_l0_config)
      = (k, Ok (Some report)) /\ zlen (family_records (sk_raw k)) = 1 /\
    reports_trades [200] report.
Proof.
  destruct (binance_backfill_stores_the_range (L := sample_lib) (F := string) sample_io (fun t => t) sample_get_agg
    "https://api.binance.com" sample_market 150 500 sample_history 4 sample_agg_history
    ltac:(cbn; lia)) as [_ Hreport].
  eexists _, _. split; [by vm_compute|]. split; [by vm_compute|].
  edestruct (Hreport (sink_start sample_l0_config)) as (report & Heq & Hr); [by vm_compute|].
  injection Heq as <-. exact Hr.
Defined.

Definition sample_krw : UpbitBackfillMarket := mkUBMarket "KRW-BTC" "BTC" "KRW".
Definition sample_tick (id ts : Z) : UpbitTrade := mkUpTrade "KRW-BTC" ts "1.0"%string "2.0"%string "ASK" id.
(** Two trades of yesterday and three of today, of which the last is after the range. *)
Definition sample_ticks : list UpbitTrade :=
  [sample_tick 12 86402300; sample_tick 11 86401800; sample_tick 10 86400900; sample_tick 9 86399000;
   sample_tick 8 86398000].
Definition sample_upto (secs ms : Z) : bool := ms <=? secs * 1000.
Definition sample_get_ticks (_ : RestUrl) (query : list (string * string))
    : result BackfillError (list UpbitTrade) := Ok (ticks_answer sample_upto sample_ticks query).

Lemma sample_tick_history :
  tick_history 86405000000000 sample_get_ticks "https://api.upbit.com" sample_krw sample_upto sample_ticks.
Proof.
  split; [unfold sample_ticks; repeat constructor; by vm_compute|by vm_compute| | | |].
  - by intros t [= <-].
  - intros t Ht. apply list_elem_of_In in Ht. repeat (destruct Ht as [<-|Ht]; [by vm_compute|]). destruct Ht.
  - unfold sample_upto. intros. lia.
  - eexists. split; [by vm_compute|done].
Qed.

Lemma upbit_backfill_stores_the_last_day_witness :
  exists k report,
    backfill_upbit_symbol (L := sample_lib) sample_io (fun t => t) 86405000000000 sample_get_ticks
      "https://api.upbit.com" sample_krw 86398500 86402500 6 (sink_start sample_l0_config)
      = (k, Ok (Some report)) /\ zlen (family_records (sk_raw k)) = 2 /\
    reports_trades [86401800; 86400900] report.
Proof.
  destruct (upbit_backfill_stores_the_last_day (L := sample_lib) sample_io (fun t => t) 86405000000000
    sample_get_ticks "https://api.upbit.com" sample_krw 86398500 86402500 sample_upto sample_ticks 6
    (mkCursor "00:00:02" None) sample_tick_history ltac:(by vm_compute) ltac:(cbn; lia)) as [_ Hreport].
  eexists _, _. split; [by vm_compute|]. split; [by vm_compute|].
  edestruct (Hreport (sink_start sample_l0_config)) as (report & Heq & Hr); [by vm_compute|].
  injection Heq as <-. exact Hr.
Defined.
