(* ===== verification/SupervisorArgs.v ===== *)
(** * SupervisorArgs: the command lines of the supervisor and of its workers

    [supervisor/args] and [worker_args.rs]: the options of the supervisor, and the argument
    lists it starts the realtime watcher, the backfill and the normalizer with.  The
    theorems run those lists through the parsers of the workers. *)
From S2P Require Import Prelude Text Cli NormalizeArgs IngestArgs Config BackfillArgs.
Open Scope Z_scope.

(* rust: src/supervisor/args/types.rs SupervisorArgs *)
Record SupervisorArgs := mkSArgs {
  ss_config_dir : string;
  ss_l0_s3_bucket : string;
  ss_l1_s3_bucket : string;
  ss_aws_profile : option string;
  ss_aws_region : string;
  ss_l0_spool_root : string;
  ss_l1_spool_root : string;
  ss_catchup_tmp_root : string;
  ss_realtime_bin : string;
  ss_backfill_bin : string;
  ss_normalize_bin : string;
  ss_realtime_venue : string;
  ss_realtime_venues : list string;
  ss_expect_symbol_count : Z;
  ss_realtime_duration_seconds : Z;
  ss_log_interval_seconds : Z;
  ss_l0_flush_records : Z;
  ss_l0_shard_count : Z;
  ss_bootstrap_enabled : bool;
  ss_bootstrap_lookback_days : Z;
  ss_bootstrap_chunk_hours : Z;
  ss_bootstrap_interval_secs : Z;
  ss_bootstrap_symbols : option (list string);
  ss_normalize_schedule_interval_ms : Z;
  ss_l0_run_key_overlap_ms : Z;
  ss_normalize_max_windows_per_tick : Z;
  ss_l0_s3_retention_days : Z;
  ss_l1_s3_retention_days : Z;
  ss_s3_retention_check_interval_secs : Z;
  ss_s3_retention_max_deletes_per_run : Z;
  ss_restart_delay_secs : Z;
  ss_live_nats_url : option string;
  ss_live_nats_stream : string;
  ss_live_nats_subject_prefix : string;
  ss_live_nats_required : bool;
}.

Definition set_ss_config_dir (v : string) (s : SupervisorArgs) : SupervisorArgs :=
  mkSArgs v (ss_l0_s3_bucket s) (ss_l1_s3_bucket s) (ss_aws_profile s) (ss_aws_region s) (ss_l0_spool_root s) (ss_l1_spool_root s) (ss_catchup_tmp_root s) (ss_realtime_bin s) (ss_backfill_bin s) (ss_normalize_bin s) (ss_realtime_venue s) (ss_realtime_venues s) (ss_expect_symbol_count s) (ss_realtime_duration_seconds s) (ss_log_interval_seconds s) (ss_l0_flush_records s) (ss_l0_shard_count s) (ss_bootstrap_enabled s) (ss_bootstrap_lookback_days s) (ss_bootstrap_chunk_hours s) (ss_bootstrap_interval_secs s) (ss_bootstrap_symbols s) (ss_normalize_schedule_interval_ms s) (ss_l0_run_key_overlap_ms s) (ss_normalize_max_windows_per_tick s) (ss_l0_s3_retention_days s) (ss_l1_s3_retention_days s) (ss_s3_retention_check_interval_secs s) (ss_s3_retention_max_deletes_per_run s) (ss_restart_delay_secs s) (ss_live_nats_url s) (ss_live_nats_stream s) (ss_live_nats_subject_prefix s) (ss_live_nats_required s).
Definition set_ss_l0_s3_bucket (v : string) (s : SupervisorArgs) : SupervisorArgs :=
  mkSArgs (ss_config_dir s) v (ss_l1_s3_bucket s) (ss_aws_profile s) (ss_aws_region s) (ss_l0_spool_root s) (ss_l1_spool_root s) (ss_catchup_tmp_root s) (ss_realtime_bin s) (ss_backfill_bin s) (ss_normalize_bin s) (ss_realtime_venue s) (ss_realtime_venues s) (ss_expect_symbol_count s) (ss_realtime_duration_seconds s) (ss_log_interval_seconds s) (ss_l0_flush_records s) (ss_l0_shard_count s) (ss_bootstrap_enabled s) (ss_bootstrap_lookback_days s) (ss_bootstrap_chunk_hours s) (ss_bootstrap_interval_secs s) (ss_bootstrap_symbols s) (ss_normalize_schedule_interval_ms s) (ss_l0_run_key_overlap_ms s) (ss_normalize_max_windows_per_tick s) (ss_l0_s3_retention_days s) (ss_l1_s3_retention_days s) (ss_s3_retention_check_interval_secs s) (ss_s3_retention_max_deletes_per_run s) (ss_restart_delay_secs s) (ss_live_nats_url s) (ss_live_nats_stream s) (ss_live_nats_subject_prefix s) (ss_live_nats_required s).
Definition set_ss_l1_s3_bucket (v : string) (s : SupervisorArgs) : SupervisorArgs :=
  mkSArgs (ss_config_dir s) (ss_l0_s3_bucket s) v (ss_aws_profile s) (ss_aws_region s) (ss_l0_spool_root s) (ss_l1_spool_root s) (ss_catchup_tmp_root s) (ss_realtime_bin s) (ss_backfill_bin s) (ss_normalize_bin s) (ss_realtime_venue s) (ss_realtime_venues s) (ss_expect_symbol_count s) (ss_realtime_duration_seconds s) (ss_log_interval_seconds s) (ss_l0_flush_records s) (ss_l0_shard_count s) (ss_bootstrap_enabled s) (ss_bootstrap_lookback_days s) (ss_bootstrap_chunk_hours s) (ss_bootstrap_interval_secs s) (ss_bootstrap_symbols s) (ss_normalize_schedule_interval_ms s) (ss_l0_run_key_overlap_ms s) (ss_normalize_max_windows_per_tick s) (ss_l0_s3_retention_days s) (ss_l1_s3_retention_days s) (ss_s3_retention_check_interval_secs s) (ss_s3_retention_max_deletes_per_run s) (ss_restart_delay_secs s) (ss_live_nats_url s) (ss_live_nats_stream s) (ss_live_nats_subject_prefix s) (ss_live_nats_required s).
Definition set_ss_aws_profile (v : option string) (s : SupervisorArgs) : SupervisorArgs :=
  mkSArgs (ss_config_dir s) (ss_l0_s3_bucket s) (ss_l1_s3_bucket s) v (ss_aws_region s) (ss_l0_spool_root s) (ss_l1_spool_root s) (ss_catchup_tmp_root s) (ss_realtime_bin s) (ss_backfill_bin s) (ss_normalize_bin s) (ss_realtime_venue s) (ss_realtime_venues s) (ss_expect_symbol_count s) (ss_realtime_duration_seconds s) (ss_log_interval_seconds s) (ss_l0_flush_records s) (ss_l0_shard_count s) (ss_bootstrap_enabled s) (ss_bootstrap_lookback_days s) (ss_bootstrap_chunk_hours s) (ss_bootstrap_interval_secs s) (ss_bootstrap_symbols s) (ss_normalize_schedule_interval_ms s) (ss_l0_run_key_overlap_ms s) (ss_normalize_max_windows_per_tick s) (ss_l0_s3_retention_days s) (ss_l1_s3_retention_days s) (ss_s3_retention_check_interval_secs s) (ss_s3_retention_max_deletes_per_run s) (ss_restart_delay_secs s) (ss_live_nats_url s) (ss_live_nats_stream s) (ss_live_nats_subject_prefix s) (ss_live_nats_required s).
Definition set_ss_aws_region (v : string) (s : SupervisorArgs) : SupervisorArgs :=
  mkSArgs (ss_config_dir s) (ss_l0_s3_bucket s) (ss_l1_s3_bucket s) (ss_aws_profile s) v (ss_l0_spool_root s) (ss_l1_spool_root s) (ss_catchup_tmp_root s) (ss_realtime_bin s) (ss_backfill_bin s) (ss_normalize_bin s) (ss_realtime_venue s) (ss_realtime_venues s) (ss_expect_symbol_count s) (ss_realtime_duration_seconds s) (ss_log_interval_seconds s) (ss_l0_flush_records s) (ss_l0_shard_count s) (ss_bootstrap_enabled s) (ss_bootstrap_lookback_days s) (ss_bootstrap_chunk_hours s) (ss_bootstrap_interval_secs s) (ss_bootstrap_symbols s) (ss_normalize_schedule_interval_ms s) (ss_l0_run_key_overlap_ms s) (ss_normalize_max_windows_per_tick s) (ss_l0_s3_retention_days s) (ss_l1_s3_retention_days s) (ss_s3_retention_check_interval_secs s) (ss_s3_retention_max_deletes_per_run s) (ss_restart_delay_secs s) (ss_live_nats_url s) (ss_live_nats_stream s) (ss_live_nats_subject_prefix s) (ss_live_nats_required s).
Definition set_ss_l0_spool_root (v : string) (s : SupervisorArgs) : SupervisorArgs :=
  mkSArgs (ss_config_dir s) (ss_l0_s3_bucket s) (ss_l1_s3_bucket s) (ss_aws_profile s) (ss_aws_region s) v (ss_l1_spool_root s) (ss_catchup_tmp_root s) (ss_realtime_bin s) (ss_backfill_bin s) (ss_normalize_bin s) (ss_realtime_venue s) (ss_realtime_venues s) (ss_expect_symbol_count s) (ss_realtime_duration_seconds s) (ss_log_interval_seconds s) (ss_l0_flush_records s) (ss_l0_shard_count s) (ss_bootstrap_enabled s) (ss_bootstrap_lookback_days s) (ss_bootstrap_chunk_hours s) (ss_bootstrap_interval_secs s) (ss_bootstrap_symbols s) (ss_normalize_schedule_interval_ms s) (ss_l0_run_key_overlap_ms s) (ss_normalize_max_windows_per_tick s) (ss_l0_s3_retention_days s) (ss_l1_s3_retention_days s) (ss_s3_retention_check_interval_secs s) (ss_s3_retention_max_deletes_per_run s) (ss_restart_delay_secs s) (ss_live_nats_url s) (ss_live_nats_stream s) (ss_live_nats_subject_prefix s) (ss_live_nats_required s).
Definition set_ss_l1_spool_root (v : string) (s : SupervisorArgs) : SupervisorArgs :=
  mkSArgs (ss_config_dir s) (ss_l0_s3_bucket s) (ss_l1_s3_bucket s) (ss_aws_profile s) (ss_aws_region s) (ss_l0_spool_root s) v (ss_catchup_tmp_root s) (ss_realtime_bin s) (ss_backfill_bin s) (ss_normalize_bin s) (ss_realtime_venue s) (ss_realtime_venues s) (ss_expect_symbol_count s) (ss_realtime_duration_seconds s) (ss_log_interval_seconds s) (ss_l0_flush_records s) (ss_l0_shard_count s) (ss_bootstrap_enabled s) (ss_bootstrap_lookback_days s) (ss_bootstrap_chunk_hours s) (ss_bootstrap_interval_secs s) (ss_bootstrap_symbols s) (ss_normalize_schedule_interval_ms s) (ss_l0_run_key_overlap_ms s) (ss_normalize_max_windows_per_tick s) (ss_l0_s3_retention_days s) (ss_l1_s3_retention_days s) (ss_s3_retention_check_interval_secs s) (ss_s3_retention_max_deletes_per_run s) (ss_restart_delay_secs s) (ss_live_nats_url s) (ss_live_nats_stream s) (ss_live_nats_subject_prefix s) (ss_live_nats_required s).
Definition set_ss_catchup_tmp_root (v : string) (s : SupervisorArgs) : SupervisorArgs :=
  mkSArgs (ss_config_dir s) (ss_l0_s3_bucket s) (ss_l1_s3_bucket s) (ss_aws_profile s) (ss_aws_region s) (ss_l0_spool_root s) (ss_l1_spool_root s) v (ss_realtime_bin s) (ss_backfill_bin s) (ss_normalize_bin s) (ss_realtime_venue s) (ss_realtime_venues s) (ss_expect_symbol_count s) (ss_realtime_duration_seconds s) (ss_log_interval_seconds s) (ss_l0_flush_records s) (ss_l0_shard_count s) (ss_bootstrap_enabled s) (ss_bootstrap_lookback_days s) (ss_bootstrap_chunk_hours s) (ss_bootstrap_interval_secs s) (ss_bootstrap_symbols s) (ss_normalize_schedule_interval_ms s) (ss_l0_run_key_overlap_ms s) (ss_normalize_max_windows_per_tick s) (ss_l0_s3_retention_days s) (ss_l1_s3_retention_days s) (ss_s3_retention_check_interval_secs s) (ss_s3_retention_max_deletes_per_run s) (ss_restart_delay_secs s) (ss_live_nats_url s) (ss_live_nats_stream s) (ss_live_nats_subject_prefix s) (ss_live_nats_required s).
Definition set_ss_realtime_bin (v : string) (s : SupervisorArgs) : SupervisorArgs :=
  mkSArgs (ss_config_dir s) (ss_l0_s3_bucket s) (ss_l1_s3_bucket s) (ss_aws_profile s) (ss_aws_region s) (ss_l0_spool_root s) (ss_l1_spool_root s) (ss_catchup_tmp_root s) v (ss_backfill_bin s) (ss_normalize_bin s) (ss_realtime_venue s) (ss_realtime_venues s) (ss_expect_symbol_count s) (ss_realtime_duration_seconds s) (ss_log_interval_seconds s) (ss_l0_flush_records s) (ss_l0_shard_count s) (ss_bootstrap_enabled s) (ss_bootstrap_lookback_days s) (ss_bootstrap_chunk_hours s) (ss_bootstrap_interval_secs s) (ss_bootstrap_symbols s) (ss_normalize_schedule_interval_ms s) (ss_l0_run_key_overlap_ms s) (ss_normalize_max_windows_per_tick s) (ss_l0_s3_retention_days s) (ss_l1_s3_retention_days s) (ss_s3_retention_check_interval_secs s) (ss_s3_retention_max_deletes_per_run s) (ss_restart_delay_secs s) (ss_live_nats_url s) (ss_live_nats_stream s) (ss_live_nats_subject_prefix s) (ss_live_nats_required s).
Definition set_ss_backfill_bin (v : string) (s : SupervisorArgs) : SupervisorArgs :=
  mkSArgs (ss_config_dir s) (ss_l0_s3_bucket s) (ss_l1_s3_bucket s) (ss_aws_profile s) (ss_aws_region s) (ss_l0_spool_root s) (ss_l1_spool_root s) (ss_catchup_tmp_root s) (ss_realtime_bin s) v (ss_normalize_bin s) (ss_realtime_venue s) (ss_realtime_venues s) (ss_expect_symbol_count s) (ss_realtime_duration_seconds s) (ss_log_interval_seconds s) (ss_l0_flush_records s) (ss_l0_shard_count s) (ss_bootstrap_enabled s) (ss_bootstrap_lookback_days s) (ss_bootstrap_chunk_hours s) (ss_bootstrap_interval_secs s) (ss_bootstrap_symbols s) (ss_normalize_schedule_interval_ms s) (ss_l0_run_key_overlap_ms s) (ss_normalize_max_windows_per_tick s) (ss_l0_s3_retention_days s) (ss_l1_s3_retention_days s) (ss_s3_retention_check_interval_secs s) (ss_s3_retention_max_deletes_per_run s) (ss_restart_delay_secs s) (ss_live_nats_url s) (ss_live_nats_stream s) (ss_live_nats_subject_prefix s) (ss_live_nats_required s).
Definition set_ss_normalize_bin (v : string) (s : SupervisorArgs) : SupervisorArgs :=
  mkSArgs (ss_config_dir s) (ss_l0_s3_bucket s) (ss_l1_s3_bucket s) (ss_aws_profile s) (ss_aws_region s) (ss_l0_spool_root s) (ss_l1_spool_root s) (ss_catchup_tmp_root s) (ss_realtime_bin s) (ss_backfill_bin s) v (ss_realtime_venue s) (ss_realtime_venues s) (ss_expect_symbol_count s) (ss_realtime_duration_seconds s) (ss_log_interval_seconds s) (ss_l0_flush_records s) (ss_l0_shard_count s) (ss_bootstrap_enabled s) (ss_bootstrap_lookback_days s) (ss_bootstrap_chunk_hours s) (ss_bootstrap_interval_secs s) (ss_bootstrap_symbols s) (ss_normalize_schedule_interval_ms s) (ss_l0_run_key_overlap_ms s) (ss_normalize_max_windows_per_tick s) (ss_l0_s3_retention_days s) (ss_l1_s3_retention_days s) (ss_s3_retention_check_interval_secs s) (ss_s3_retention_max_deletes_per_run s) (ss_restart_delay_secs s) (ss_live_nats_url s) (ss_live_nats_stream s) (ss_live_nats_subject_prefix s) (ss_live_nats_required s).
Definition set_ss_realtime_venue (v : string) (s : SupervisorArgs) : SupervisorArgs :=
  mkSArgs (ss_config_dir s) (ss_l0_s3_bucket s) (ss_l1_s3_bucket s) (ss_aws_profile s) (ss_aws_region s) (ss_l0_spool_root s) (ss_l1_spool_root s) (ss_catchup_tmp_root s) (ss_realtime_bin s) (ss_backfill_bin s) (ss_normalize_bin s) v (ss_realtime_venues s) (ss_expect_symbol_count s) (ss_realtime_duration_seconds s) (ss_log_interval_seconds s) (ss_l0_flush_records s) (ss_l0_shard_count s) (ss_bootstrap_enabled s) (ss_bootstrap_lookback_days s) (ss_bootstrap_chunk_hours s) (ss_bootstrap_interval_secs s) (ss_bootstrap_symbols s) (ss_normalize_schedule_interval_ms s) (ss_l0_run_key_overlap_ms s) (ss_normalize_max_windows_per_tick s) (ss_l0_s3_retention_days s) (ss_l1_s3_retention_days s) (ss_s3_retention_check_interval_secs s) (ss_s3_retention_max_deletes_per_run s) (ss_restart_delay_secs s) (ss_live_nats_url s) (ss_live_nats_stream s) (ss_live_nats_subject_prefix s) (ss_live_nats_required s).
Definition set_ss_realtime_venues (v : list string) (s : SupervisorArgs) : SupervisorArgs :=
  mkSArgs (ss_config_dir s) (ss_l0_s3_bucket s) (ss_l1_s3_bucket s) (ss_aws_profile s) (ss_aws_region s) (ss_l0_spool_root s) (ss_l1_spool_root s) (ss_catchup_tmp_root s) (ss_realtime_bin s) (ss_backfill_bin s) (ss_normalize_bin s) (ss_realtime_venue s) v (ss_expect_symbol_count s) (ss_realtime_duration_seconds s) (ss_log_interval_seconds s) (ss_l0_flush_records s) (ss_l0_shard_count s) (ss_bootstrap_enabled s) (ss_bootstrap_lookback_days s) (ss_bootstrap_chunk_hours s) (ss_bootstrap_interval_secs s) (ss_bootstrap_symbols s) (ss_normalize_schedule_interval_ms s) (ss_l0_run_key_overlap_ms s) (ss_normalize_max_windows_per_tick s) (ss_l0_s3_retention_days s) (ss_l1_s3_retention_days s) (ss_s3_retention_check_interval_secs s) (ss_s3_retention_max_deletes_per_run s) (ss_restart_delay_secs s) (ss_live_nats_url s) (ss_live_nats_stream s) (ss_live_nats_subject_prefix s) (ss_live_nats_required s).
Definition set_ss_expect_symbol_count (v : Z) (s : SupervisorArgs) : SupervisorArgs :=
  mkSArgs (ss_config_dir s) (ss_l0_s3_bucket s) (ss_l1_s3_bucket s) (ss_aws_profile s) (ss_aws_region s) (ss_l0_spool_root s) (ss_l1_spool_root s) (ss_catchup_tmp_root s) (ss_realtime_bin s) (ss_backfill_bin s) (ss_normalize_bin s) (ss_realtime_venue s) (ss_realtime_venues s) v (ss_realtime_duration_seconds s) (ss_log_interval_seconds s) (ss_l0_flush_records s) (ss_l0_shard_count s) (ss_bootstrap_enabled s) (ss_bootstrap_lookback_days s) (ss_bootstrap_chunk_hours s) (ss_bootstrap_interval_secs s) (ss_bootstrap_symbols s) (ss_normalize_schedule_interval_ms s) (ss_l0_run_key_overlap_ms s) (ss_normalize_max_windows_per_tick s) (ss_l0_s3_retention_days s) (ss_l1_s3_retention_days s) (ss_s3_retention_check_interval_secs s) (ss_s3_retention_max_deletes_per_run s) (ss_restart_delay_secs s) (ss_live_nats_url s) (ss_live_nats_stream s) (ss_live_nats_subject_prefix s) (ss_live_nats_required s).
Definition set_ss_realtime_duration_seconds (v : Z) (s : SupervisorArgs) : SupervisorArgs :=
  mkSArgs (ss_config_dir s) (ss_l0_s3_bucket s) (ss_l1_s3_bucket s) (ss_aws_profile s) (ss_aws_region s) (ss_l0_spool_root s) (ss_l1_spool_root s) (ss_catchup_tmp_root s) (ss_realtime_bin s) (ss_backfill_bin s) (ss_normalize_bin s) (ss_realtime_venue s) (ss_realtime_venues s) (ss_expect_symbol_count s) v (ss_log_interval_seconds s) (ss_l0_flush_records s) (ss_l0_shard_count s) (ss_bootstrap_enabled s) (ss_bootstrap_lookback_days s) (ss_bootstrap_chunk_hours s) (ss_bootstrap_interval_secs s) (ss_bootstrap_symbols s) (ss_normalize_schedule_interval_ms s) (ss_l0_run_key_overlap_ms s) (ss_normalize_max_windows_per_tick s) (ss_l0_s3_retention_days s) (ss_l1_s3_retention_days s) (ss_s3_retention_check_interval_secs s) (ss_s3_retention_max_deletes_per_run s) (ss_restart_delay_secs s) (ss_live_nats_url s) (ss_live_nats_stream s) (ss_live_nats_subject_prefix s) (ss_live_nats_required s).
Definition set_ss_log_interval_seconds (v : Z) (s : SupervisorArgs) : SupervisorArgs :=
  mkSArgs (ss_config_dir s) (ss_l0_s3_bucket s) (ss_l1_s3_bucket s) (ss_aws_profile s) (ss_aws_region s) (ss_l0_spool_root s) (ss_l1_spool_root s) (ss_catchup_tmp_root s) (ss_realtime_bin s) (ss_backfill_bin s) (ss_normalize_bin s) (ss_realtime_venue s) (ss_realtime_venues s) (ss_expect_symbol_count s) (ss_realtime_duration_seconds s) v (ss_l0_flush_records s) (ss_l0_shard_count s) (ss_bootstrap_enabled s) (ss_bootstrap_lookback_days s) (ss_bootstrap_chunk_hours s) (ss_bootstrap_interval_secs s) (ss_bootstrap_symbols s) (ss_normalize_schedule_interval_ms s) (ss_l0_run_key_overlap_ms s) (ss_normalize_max_windows_per_tick s) (ss_l0_s3_retention_days s) (ss_l1_s3_retention_days s) (ss_s3_retention_check_interval_secs s) (ss_s3_retention_max_deletes_per_run s) (ss_restart_delay_secs s) (ss_live_nats_url s) (ss_live_nats_stream s) (ss_live_nats_subject_prefix s) (ss_live_nats_required s).
Definition set_ss_l0_flush_records (v : Z) (s : SupervisorArgs) : SupervisorArgs :=
  mkSArgs (ss_config_dir s) (ss_l0_s3_bucket s) (ss_l1_s3_bucket s) (ss_aws_profile s) (ss_aws_region s) (ss_l0_spool_root s) (ss_l1_spool_root s) (ss_catchup_tmp_root s) (ss_realtime_bin s) (ss_backfill_bin s) (ss_normalize_bin s) (ss_realtime_venue s) (ss_realtime_venues s) (ss_expect_symbol_count s) (ss_realtime_duration_seconds s) (ss_log_interval_seconds s) v (ss_l0_shard_count s) (ss_bootstrap_enabled s) (ss_bootstrap_lookback_days s) (ss_bootstrap_chunk_hours s) (ss_bootstrap_interval_secs s) (ss_bootstrap_symbols s) (ss_normalize_schedule_interval_ms s) (ss_l0_run_key_overlap_ms s) (ss_normalize_max_windows_per_tick s) (ss_l0_s3_retention_days s) (ss_l1_s3_retention_days s) (ss_s3_retention_check_interval_secs s) (ss_s3_retention_max_deletes_per_run s) (ss_restart_delay_secs s) (ss_live_nats_url s) (ss_live_nats_stream s) (ss_live_nats_subject_prefix s) (ss_live_nats_required s).
Definition set_ss_l0_shard_count (v : Z) (s : SupervisorArgs) : SupervisorArgs :=
  mkSArgs (ss_config_dir s) (ss_l0_s3_bucket s) (ss_l1_s3_bucket s) (ss_aws_profile s) (ss_aws_region s) (ss_l0_spool_root s) (ss_l1_spool_root s) (ss_catchup_tmp_root s) (ss_realtime_bin s) (ss_backfill_bin s) (ss_normalize_bin s) (ss_realtime_venue s) (ss_realtime_venues s) (ss_expect_symbol_count s) (ss_realtime_duration_seconds s) (ss_log_interval_seconds s) (ss_l0_flush_records s) v (ss_bootstrap_enabled s) (ss_bootstrap_lookback_days s) (ss_bootstrap_chunk_hours s) (ss_bootstrap_interval_secs s) (ss_bootstrap_symbols s) (ss_normalize_schedule_interval_ms s) (ss_l0_run_key_overlap_ms s) (ss_normalize_max_windows_per_tick s) (ss_l0_s3_retention_days s) (ss_l1_s3_retention_days s) (ss_s3_retention_check_interval_secs s) (ss_s3_retention_max_deletes_per_run s) (ss_restart_delay_secs s) (ss_live_nats_url s) (ss_live_nats_stream s) (ss_live_nats_subject_prefix s) (ss_live_nats_required s).
Definition set_ss_bootstrap_enabled (v : bool) (s : SupervisorArgs) : SupervisorArgs :=
  mkSArgs (ss_config_dir s) (ss_l0_s3_bucket s) (ss_l1_s3_bucket s) (ss_aws_profile s) (ss_aws_region s) (ss_l0_spool_root s) (ss_l1_spool_root s) (ss_catchup_tmp_root s) (ss_realtime_bin s) (ss_backfill_bin s) (ss_normalize_bin s) (ss_realtime_venue s) (ss_realtime_venues s) (ss_expect_symbol_count s) (ss_realtime_duration_seconds s) (ss_log_interval_seconds s) (ss_l0_flush_records s) (ss_l0_shard_count s) v (ss_bootstrap_lookback_days s) (ss_bootstrap_chunk_hours s) (ss_bootstrap_interval_secs s) (ss_bootstrap_symbols s) (ss_normalize_schedule_interval_ms s) (ss_l0_run_key_overlap_ms s) (ss_normalize_max_windows_per_tick s) (ss_l0_s3_retention_days s) (ss_l1_s3_retention_days s) (ss_s3_retention_check_interval_secs s) (ss_s3_retention_max_deletes_per_run s) (ss_restart_delay_secs s) (ss_live_nats_url s) (ss_live_nats_stream s) (ss_live_nats_subject_prefix s) (ss_live_nats_required s).
Definition set_ss_bootstrap_lookback_days (v : Z) (s : SupervisorArgs) : SupervisorArgs :=
  mkSArgs (ss_config_dir s) (ss_l0_s3_bucket s) (ss_l1_s3_bucket s) (ss_aws_profile s) (ss_aws_region s) (ss_l0_spool_root s) (ss_l1_spool_root s) (ss_catchup_tmp_root s) (ss_realtime_bin s) (ss_backfill_bin s) (ss_normalize_bin s) (ss_realtime_venue s) (ss_realtime_venues s) (ss_expect_symbol_count s) (ss_realtime_duration_seconds s) (ss_log_interval_seconds s) (ss_l0_flush_records s) (ss_l0_shard_count s) (ss_bootstrap_enabled s) v (ss_bootstrap_chunk_hours s) (ss_bootstrap_interval_secs s) (ss_bootstrap_symbols s) (ss_normalize_schedule_interval_ms s) (ss_l0_run_key_overlap_ms s) (ss_normalize_max_windows_per_tick s) (ss_l0_s3_retention_days s) (ss_l1_s3_retention_days s) (ss_s3_retention_check_interval_secs s) (ss_s3_retention_max_deletes_per_run s) (ss_restart_delay_secs s) (ss_live_nats_url s) (ss_live_nats_stream s) (ss_live_nats_subject_prefix s) (ss_live_nats_required s).
Definition set_ss_bootstrap_chunk_hours (v : Z) (s : SupervisorArgs) : SupervisorArgs :=
  mkSArgs (ss_config_dir s) (ss_l0_s3_bucket s) (ss_l1_s3_bucket s) (ss_aws_profile s) (ss_aws_region s) (ss_l0_spool_root s) (ss_l1_spool_root s) (ss_catchup_tmp_root s) (ss_realtime_bin s) (ss_backfill_bin s) (ss_normalize_bin s) (ss_realtime_venue s) (ss_realtime_venues s) (ss_expect_symbol_count s) (ss_realtime_duration_seconds s) (ss_log_interval_seconds s) (ss_l0_flush_records s) (ss_l0_shard_count s) (ss_bootstrap_enabled s) (ss_bootstrap_lookback_days s) v (ss_bootstrap_interval_secs s) (ss_bootstrap_symbols s) (ss_normalize_schedule_interval_ms s) (ss_l0_run_key_overlap_ms s) (ss_normalize_max_windows_per_tick s) (ss_l0_s3_retention_days s) (ss_l1_s3_retention_days s) (ss_s3_retention_check_interval_secs s) (ss_s3_retention_max_deletes_per_run s) (ss_restart_delay_secs s) (ss_live_nats_url s) (ss_live_nats_stream s) (ss_live_nats_subject_prefix s) (ss_live_nats_required s).
Definition set_ss_bootstrap_interval_secs (v : Z) (s : SupervisorArgs) : SupervisorArgs :=
  mkSArgs (ss_config_dir s) (ss_l0_s3_bucket s) (ss_l1_s3_bucket s) (ss_aws_profile s) (ss_aws_region s) (ss_l0_spool_root s) (ss_l1_spool_root s) (ss_catchup_tmp_root s) (ss_realtime_bin s) (ss_backfill_bin s) (ss_normalize_bin s) (ss_realtime_venue s) (ss_realtime_venues s) (ss_expect_symbol_count s) (ss_realtime_duration_seconds s) (ss_log_interval_seconds s) (ss_l0_flush_records s) (ss_l0_shard_count s) (ss_bootstrap_enabled s) (ss_bootstrap_lookback_days s) (ss_bootstrap_chunk_hours s) v (ss_bootstrap_symbols s) (ss_normalize_schedule_interval_ms s) (ss_l0_run_key_overlap_ms s) (ss_normalize_max_windows_per_tick s) (ss_l0_s3_retention_days s) (ss_l1_s3_retention_days s) (ss_s3_retention_check_interval_secs s) (ss_s3_retention_max_deletes_per_run s) (ss_restart_delay_secs s) (ss_live_nats_url s) (ss_live_nats_stream s) (ss_live_nats_subject_prefix s) (ss_live_nats_required s).
Definition set_ss_bootstrap_symbols (v : option (list string)) (s : SupervisorArgs) : SupervisorArgs :=
  mkSArgs (ss_config_dir s) (ss_l0_s3_bucket s) (ss_l1_s3_bucket s) (ss_aws_profile s) (ss_aws_region s) (ss_l0_spool_root s) (ss_l1_spool_root s) (ss_catchup_tmp_root s) (ss_realtime_bin s) (ss_backfill_bin s) (ss_normalize_bin s) (ss_realtime_venue s) (ss_realtime_venues s) (ss_expect_symbol_count s) (ss_realtime_duration_seconds s) (ss_log_interval_seconds s) (ss_l0_flush_records s) (ss_l0_shard_count s) (ss_bootstrap_enabled s) (ss_bootstrap_lookback_days s) (ss_bootstrap_chunk_hours s) (ss_bootstrap_interval_secs s) v (ss_normalize_schedule_interval_ms s) (ss_l0_run_key_overlap_ms s) (ss_normalize_max_windows_per_tick s) (ss_l0_s3_retention_days s) (ss_l1_s3_retention_days s) (ss_s3_retention_check_interval_secs s) (ss_s3_retention_max_deletes_per_run s) (ss_restart_delay_secs s) (ss_live_nats_url s) (ss_live_nats_stream s) (ss_live_nats_subject_prefix s) (ss_live_nats_required s).
Definition set_ss_normalize_schedule_interval_ms (v : Z) (s : SupervisorArgs) : SupervisorArgs :=
  mkSArgs (ss_config_dir s) (ss_l0_s3_bucket s) (ss_l1_s3_bucket s) (ss_aws_profile s) (ss_aws_region s) (ss_l0_spool_root s) (ss_l1_spool_root s) (ss_catchup_tmp_root s) (ss_realtime_bin s) (ss_backfill_bin s) (ss_normalize_bin s) (ss_realtime_venue s) (ss_realtime_venues s) (ss_expect_symbol_count s) (ss_realtime_duration_seconds s) (ss_log_interval_seconds s) (ss_l0_flush_records s) (ss_l0_shard_count s) (ss_bootstrap_enabled s) (ss_bootstrap_lookback_days s) (ss_bootstrap_chunk_hours s) (ss_bootstrap_interval_secs s) (ss_bootstrap_symbols s) v (ss_l0_run_key_overlap_ms s) (ss_normalize_max_windows_per_tick s) (ss_l0_s3_retention_days s) (ss_l1_s3_retention_days s) (ss_s3_retention_check_interval_secs s) (ss_s3_retention_max_deletes_per_run s) (ss_restart_delay_secs s) (ss_live_nats_url s) (ss_live_nats_stream s) (ss_live_nats_subject_prefix s) (ss_live_nats_required s).
Definition set_ss_l0_run_key_overlap_ms (v : Z) (s : SupervisorArgs) : SupervisorArgs :=
  mkSArgs (ss_config_dir s) (ss_l0_s3_bucket s) (ss_l1_s3_bucket s) (ss_aws_profile s) (ss_aws_region s) (ss_l0_spool_root s) (ss_l1_spool_root s) (ss_catchup_tmp_root s) (ss_realtime_bin s) (ss_backfill_bin s) (ss_normalize_bin s) (ss_realtime_venue s) (ss_realtime_venues s) (ss_expect_symbol_count s) (ss_realtime_duration_seconds s) (ss_log_interval_seconds s) (ss_l0_flush_records s) (ss_l0_shard_count s) (ss_bootstrap_enabled s) (ss_bootstrap_lookback_days s) (ss_bootstrap_chunk_hours s) (ss_bootstrap_interval_secs s) (ss_bootstrap_symbols s) (ss_normalize_schedule_interval_ms s) v (ss_normalize_max_windows_per_tick s) (ss_l0_s3_retention_days s) (ss_l1_s3_retention_days s) (ss_s3_retention_check_interval_secs s) (ss_s3_retention_max_deletes_per_run s) (ss_restart_delay_secs s) (ss_live_nats_url s) (ss_live_nats_stream s) (ss_live_nats_subject_prefix s) (ss_live_nats_required s).
Definition set_ss_normalize_max_windows_per_tick (v : Z) (s : SupervisorArgs) : SupervisorArgs :=
  mkSArgs (ss_config_dir s) (ss_l0_s3_bucket s) (ss_l1_s3_bucket s) (ss_aws_profile s) (ss_aws_region s) (ss_l0_spool_root s) (ss_l1_spool_root s) (ss_catchup_tmp_root s) (ss_realtime_bin s) (ss_backfill_bin s) (ss_normalize_bin s) (ss_realtime_venue s) (ss_realtime_venues s) (ss_expect_symbol_count s) (ss_realtime_duration_seconds s) (ss_log_interval_seconds s) (ss_l0_flush_records s) (ss_l0_shard_count s) (ss_bootstrap_enabled s) (ss_bootstrap_lookback_days s) (ss_bootstrap_chunk_hours s) (ss_bootstrap_interval_secs s) (ss_bootstrap_symbols s) (ss_normalize_schedule_interval_ms s) (ss_l0_run_key_overlap_ms s) v (ss_l0_s3_retention_days s) (ss_l1_s3_retention_days s) (ss_s3_retention_check_interval_secs s) (ss_s3_retention_max_deletes_per_run s) (ss_restart_delay_secs s) (ss_live_nats_url s) (ss_live_nats_stream s) (ss_live_nats_subject_prefix s) (ss_live_nats_required s).
Definition set_ss_l0_s3_retention_days (v : Z) (s : SupervisorArgs) : SupervisorArgs :=
  mkSArgs (ss_config_dir s) (ss_l0_s3_bucket s) (ss_l1_s3_bucket s) (ss_aws_profile s) (ss_aws_region s) (ss_l0_spool_root s) (ss_l1_spool_root s) (ss_catchup_tmp_root s) (ss_realtime_bin s) (ss_backfill_bin s) (ss_normalize_bin s) (ss_realtime_venue s) (ss_realtime_venues s) (ss_expect_symbol_count s) (ss_realtime_duration_seconds s) (ss_log_interval_seconds s) (ss_l0_flush_records s) (ss_l0_shard_count s) (ss_bootstrap_enabled s) (ss_bootstrap_lookback_days s) (ss_bootstrap_chunk_hours s) (ss_bootstrap_interval_secs s) (ss_bootstrap_symbols s) (ss_normalize_schedule_interval_ms s) (ss_l0_run_key_overlap_ms s) (ss_normalize_max_windows_per_tick s) v (ss_l1_s3_retention_days s) (ss_s3_retention_check_interval_secs s) (ss_s3_retention_max_deletes_per_run s) (ss_restart_delay_secs s) (ss_live_nats_url s) (ss_live_nats_stream s) (ss_live_nats_subject_prefix s) (ss_live_nats_required s).
Definition set_ss_l1_s3_retention_days (v : Z) (s : SupervisorArgs) : SupervisorArgs :=
  mkSArgs (ss_config_dir s) (ss_l0_s3_bucket s) (ss_l1_s3_bucket s) (ss_aws_profile s) (ss_aws_region s) (ss_l0_spool_root s) (ss_l1_spool_root s) (ss_catchup_tmp_root s) (ss_realtime_bin s) (ss_backfill_bin s) (ss_normalize_bin s) (ss_realtime_venue s) (ss_realtime_venues s) (ss_expect_symbol_count s) (ss_realtime_duration_seconds s) (ss_log_interval_seconds s) (ss_l0_flush_records s) (ss_l0_shard_count s) (ss_bootstrap_enabled s) (ss_bootstrap_lookback_days s) (ss_bootstrap_chunk_hours s) (ss_bootstrap_interval_secs s) (ss_bootstrap_symbols s) (ss_normalize_schedule_interval_ms s) (ss_l0_run_key_overlap_ms s) (ss_normalize_max_windows_per_tick s) (ss_l0_s3_retention_days s) v (ss_s3_retention_check_interval_secs s) (ss_s3_retention_max_deletes_per_run s) (ss_restart_delay_secs s) (ss_live_nats_url s) (ss_live_nats_stream s) (ss_live_nats_subject_prefix s) (ss_live_nats_required s).
Definition set_ss_s3_retention_check_interval_secs (v : Z) (s : SupervisorArgs) : SupervisorArgs :=
  mkSArgs (ss_config_dir s) (ss_l0_s3_bucket s) (ss_l1_s3_bucket s) (ss_aws_profile s) (ss_aws_region s) (ss_l0_spool_root s) (ss_l1_spool_root s) (ss_catchup_tmp_root s) (ss_realtime_bin s) (ss_backfill_bin s) (ss_normalize_bin s) (ss_realtime_venue s) (ss_realtime_venues s) (ss_expect_symbol_count s) (ss_realtime_duration_seconds s) (ss_log_interval_seconds s) (ss_l0_flush_records s) (ss_l0_shard_count s) (ss_bootstrap_enabled s) (ss_bootstrap_lookback_days s) (ss_bootstrap_chunk_hours s) (ss_bootstrap_interval_secs s) (ss_bootstrap_symbols s) (ss_normalize_schedule_interval_ms s) (ss_l0_run_key_overlap_ms s) (ss_normalize_max_windows_per_tick s) (ss_l0_s3_retention_days s) (ss_l1_s3_retention_days s) v (ss_s3_retention_max_deletes_per_run s) (ss_restart_delay_secs s) (ss_live_nats_url s) (ss_live_nats_stream s) (ss_live_nats_subject_prefix s) (ss_live_nats_required s).
Definition set_ss_s3_retention_max_deletes_per_run (v : Z) (s : SupervisorArgs) : SupervisorArgs :=
  mkSArgs (ss_config_dir s) (ss_l0_s3_bucket s) (ss_l1_s3_bucket s) (ss_aws_profile s) (ss_aws_region s) (ss_l0_spool_root s) (ss_l1_spool_root s) (ss_catchup_tmp_root s) (ss_realtime_bin s) (ss_backfill_bin s) (ss_normalize_bin s) (ss_realtime_venue s) (ss_realtime_venues s) (ss_expect_symbol_count s) (ss_realtime_duration_seconds s) (ss_log_interval_seconds s) (ss_l0_flush_records s) (ss_l0_shard_count s) (ss_bootstrap_enabled s) (ss_bootstrap_lookback_days s) (ss_bootstrap_chunk_hours s) (ss_bootstrap_interval_secs s) (ss_bootstrap_symbols s) (ss_normalize_schedule_interval_ms s) (ss_l0_run_key_overlap_ms s) (ss_normalize_max_windows_per_tick s) (ss_l0_s3_retention_days s) (ss_l1_s3_retention_days s) (ss_s3_retention_check_interval_secs s) v (ss_restart_delay_secs s) (ss_live_nats_url s) (ss_live_nats_stream s) (ss_live_nats_subject_prefix s) (ss_live_nats_required s).
Definition set_ss_restart_delay_secs (v : Z) (s : SupervisorArgs) : SupervisorArgs :=
  mkSArgs (ss_config_dir s) (ss_l0_s3_bucket s) (ss_l1_s3_bucket s) (ss_aws_profile s) (ss_aws_region s) (ss_l0_spool_root s) (ss_l1_spool_root s) (ss_catchup_tmp_root s) (ss_realtime_bin s) (ss_backfill_bin s) (ss_normalize_bin s) (ss_realtime_venue s) (ss_realtime_venues s) (ss_expect_symbol_count s) (ss_realtime_duration_seconds s) (ss_log_interval_seconds s) (ss_l0_flush_records s) (ss_l0_shard_count s) (ss_bootstrap_enabled s) (ss_bootstrap_lookback_days s) (ss_bootstrap_chunk_hours s) (ss_bootstrap_interval_secs s) (ss_bootstrap_symbols s) (ss_normalize_schedule_interval_ms s) (ss_l0_run_key_overlap_ms s) (ss_normalize_max_windows_per_tick s) (ss_l0_s3_retention_days s) (ss_l1_s3_retention_days s) (ss_s3_retention_check_interval_secs s) (ss_s3_retention_max_deletes_per_run s) v (ss_live_nats_url s) (ss_live_nats_stream s) (ss_live_nats_subject_prefix s) (ss_live_nats_required s).
Definition set_ss_live_nats_url (v : option string) (s : SupervisorArgs) : SupervisorArgs :=
  mkSArgs (ss_config_dir s) (ss_l0_s3_bucket s) (ss_l1_s3_bucket s) (ss_aws_profile s) (ss_aws_region s) (ss_l0_spool_root s) (ss_l1_spool_root s) (ss_catchup_tmp_root s) (ss_realtime_bin s) (ss_backfill_bin s) (ss_normalize_bin s) (ss_realtime_venue s) (ss_realtime_venues s) (ss_expect_symbol_count s) (ss_realtime_duration_seconds s) (ss_log_interval_seconds s) (ss_l0_flush_records s) (ss_l0_shard_count s) (ss_bootstrap_enabled s) (ss_bootstrap_lookback_days s) (ss_bootstrap_chunk_hours s) (ss_bootstrap_interval_secs s) (ss_bootstrap_symbols s) (ss_normalize_schedule_interval_ms s) (ss_l0_run_key_overlap_ms s) (ss_normalize_max_windows_per_tick s) (ss_l0_s3_retention_days s) (ss_l1_s3_retention_days s) (ss_s3_retention_check_interval_secs s) (ss_s3_retention_max_deletes_per_run s) (ss_restart_delay_secs s) v (ss_live_nats_stream s) (ss_live_nats_subject_prefix s) (ss_live_nats_required s).
Definition set_ss_live_nats_stream (v : string) (s : SupervisorArgs) : SupervisorArgs :=
  mkSArgs (ss_config_dir s) (ss_l0_s3_bucket s) (ss_l1_s3_bucket s) (ss_aws_profile s) (ss_aws_region s) (ss_l0_spool_root s) (ss_l1_spool_root s) (ss_catchup_tmp_root s) (ss_realtime_bin s) (ss_backfill_bin s) (ss_normalize_bin s) (ss_realtime_venue s) (ss_realtime_venues s) (ss_expect_symbol_count s) (ss_realtime_duration_seconds s) (ss_log_interval_seconds s) (ss_l0_flush_records s) (ss_l0_shard_count s) (ss_bootstrap_enabled s) (ss_bootstrap_lookback_days s) (ss_bootstrap_chunk_hours s) (ss_bootstrap_interval_secs s) (ss_bootstrap_symbols s) (ss_normalize_schedule_interval_ms s) (ss_l0_run_key_overlap_ms s) (ss_normalize_max_windows_per_tick s) (ss_l0_s3_retention_days s) (ss_l1_s3_retention_days s) (ss_s3_retention_check_interval_secs s) (ss_s3_retention_max_deletes_per_run s) (ss_restart_delay_secs s) (ss_live_nats_url s) v (ss_live_nats_subject_prefix s) (ss_live_nats_required s).
Definition set_ss_live_nats_subject_prefix (v : string) (s : SupervisorArgs) : SupervisorArgs :=
  mkSArgs (ss_config_dir s) (ss_l0_s3_bucket s) (ss_l1_s3_bucket s) (ss_aws_profile s) (ss_aws_region s) (ss_l0_spool_root s) (ss_l1_spool_root s) (ss_catchup_tmp_root s) (ss_realtime_bin s) (ss_backfill_bin s) (ss_normalize_bin s) (ss_realtime_venue s) (ss_realtime_venues s) (ss_expect_symbol_count s) (ss_realtime_duration_seconds s) (ss_log_interval_seconds s) (ss_l0_flush_records s) (ss_l0_shard_count s) (ss_bootstrap_enabled s) (ss_bootstrap_lookback_days s) (ss_bootstrap_chunk_hours s) (ss_bootstrap_interval_secs s) (ss_bootstrap_symbols s) (ss_normalize_schedule_interval_ms s) (ss_l0_run_key_overlap_ms s) (ss_normalize_max_windows_per_tick s) (ss_l0_s3_retention_days s) (ss_l1_s3_retention_days s) (ss_s3_retention_check_interval_secs s) (ss_s3_retention_max_deletes_per_run s) (ss_restart_delay_secs s) (ss_live_nats_url s) (ss_live_nats_stream s) v (ss_live_nats_required s).
Definition set_ss_live_nats_required (v : bool) (s : SupervisorArgs) : SupervisorArgs :=
  mkSArgs (ss_config_dir s) (ss_l0_s3_bucket s) (ss_l1_s3_bucket s) (ss_aws_profile s) (ss_aws_region s) (ss_l0_spool_root s) (ss_l1_spool_root s) (ss_catchup_tmp_root s) (ss_realtime_bin s) (ss_backfill_bin s) (ss_normalize_bin s) (ss_realtime_venue s) (ss_realtime_venues s) (ss_expect_symbol_count s) (ss_realtime_duration_seconds s) (ss_log_interval_seconds s) (ss_l0_flush_records s) (ss_l0_shard_count s) (ss_bootstrap_enabled s) (ss_bootstrap_lookback_days s) (ss_bootstrap_chunk_hours s) (ss_bootstrap_interval_secs s) (ss_bootstrap_symbols s) (ss_normalize_schedule_interval_ms s) (ss_l0_run_key_overlap_ms s) (ss_normalize_max_windows_per_tick s) (ss_l0_s3_retention_days s) (ss_l1_s3_retention_days s) (ss_s3_retention_check_interval_secs s) (ss_s3_retention_max_deletes_per_run s) (ss_restart_delay_secs s) (ss_live_nats_url s) (ss_live_nats_stream s) (ss_live_nats_subject_prefix s) v.

Section args.
Context {V : Environment}.

(* rust: src/supervisor/args/types.rs with_defaults *)
Definition supervisor_defaults : SupervisorArgs :=
  mkSArgs "/opt/nangman-crypto/strategies/crypto/rust-engine/config" "" "" None "ap-northeast-2"
    "/opt/nangman-crypto/data/spool/market-ingest/l0" "/opt/nangman-crypto/data/spool/market-ingest/l1"
    "/opt/nangman-crypto/data/spool/market-normalize/catchup" "/usr/local/bin/market-ingest-app"
    "/usr/local/bin/market-backfill" "/usr/local/bin/market-normalize" "binance" ["binance"%string]
    50 31536000 30 1000 1 true 210 24 60 None 900000 360000 192 45 240 21600 1000 15
    (env_string "MARKET_LIVE_NATS_URL")
    (default DEFAULT_MARKET_LIVE_NATS_STREAM (env_string "MARKET_LIVE_NATS_STREAM"))
    (default DEFAULT_MARKET_LIVE_NATS_SUBJECT_PREFIX (env_string "MARKET_LIVE_NATS_SUBJECT_PREFIX"))
    (env_bool "MARKET_LIVE_NATS_REQUIRED").

(** ** Values *)

(** [parse_positive_i64], [parse_positive_u64], [parse_positive_usize] and
    [parse_positive_u16], with the standard library's message for what is no number. *)
(* rust: src/supervisor/args/validation.rs parse_positive_i64 *)
Definition supervisor_positive (t : int_ty) (value : string) : result string Z :=
  parsed ← ok_or (parse_int t value) (parse_int_error t value);
  if parsed <=? 0 then Err "value must be positive"%string else Ok parsed.

(* rust: src/supervisor/args/validation.rs next_arg *)
Definition next_arg (value : option string) (name : string) : result string string :=
  ok_or value (name ++ " requires a value")%string.

(* rust: src/supervisor/args/validation.rs validate_venue *)
Definition supervisor_validate_venue (value name : string) : result string () :=
  if negb (String.eqb value "binance") && negb (String.eqb value "upbit")
  then Err (name ++ " must contain only binance or upbit")%string else Ok ().

Fixpoint validate_venues (venues : list string) : result string () :=
  match venues with
  | [] => Ok ()
  | venue :: venues => _ ← supervisor_validate_venue venue "--realtime-venues"; validate_venues venues
  end.

(* rust: src/supervisor/args/validation.rs parse_venues *)
Definition parse_venues (value : string) : result string (list string) :=
  let venues := map to_ascii_lowercase (split_list value) in
  if is_nil venues then Err "--realtime-venues requires at least one venue"%string else
  _ ← validate_venues venues; Ok venues.

(* rust: src/supervisor/args/validation.rs parse_symbols *)
Definition supervisor_symbols (value name : string) : result string (list string) :=
  let symbols := map to_ascii_uppercase (split_list value) in
  if is_nil symbols then Err (name ++ " requires at least one symbol")%string else Ok symbols.

(* rust: src/supervisor/args/validation.rs validate_bucket_arg *)
Definition validate_bucket_arg (value name : string) : result string () :=
  if str_is_empty (trim value) then Err (name ++ " is required")%string
  else if contains "<" value || contains ">" value
  then Err (name ++ " must be a real bucket name, not a public-doc placeholder")%string
  else Ok ().

(** ** Options *)

Definition supervisor_flag (name : string) (p : SupervisorArgs) : option SupervisorArgs :=
  if String.eqb name "--disable-bootstrap" then Some (set_ss_bootstrap_enabled false p)
  else if String.eqb name "--live-nats-required" then Some (set_ss_live_nats_required true p)
  else None.

(** An option with a value; [value] is the argument after it, if any. *)
Definition supervisor_option (name : string) (value : option string) (p : SupervisorArgs)
    : result string SupervisorArgs :=
  if String.eqb name "--config" then
    v ← next_arg value name; Ok (set_ss_config_dir v p) else
  if String.eqb name "--l0-s3-bucket" then
    v ← next_arg value name; Ok (set_ss_l0_s3_bucket v p) else
  if String.eqb name "--l1-s3-bucket" then
    v ← next_arg value name; Ok (set_ss_l1_s3_bucket v p) else
  if String.eqb name "--aws-profile" then
    v ← next_arg value name; Ok (set_ss_aws_profile (Some v) p) else
  if String.eqb name "--aws-region" then
    v ← next_arg value name; Ok (set_ss_aws_region v p) else
  if String.eqb name "--l0-spool-root" then
    v ← next_arg value name; Ok (set_ss_l0_spool_root v p) else
  if String.eqb name "--l1-spool-root" then
    v ← next_arg value name; Ok (set_ss_l1_spool_root v p) else
  if String.eqb name "--catchup-tmp-root" then
    v ← next_arg value name; Ok (set_ss_catchup_tmp_root v p) else
  if String.eqb name "--realtime-bin" then
    v ← next_arg value name; Ok (set_ss_realtime_bin v p) else
  if String.eqb name "--backfill-bin" then
    v ← next_arg value name; Ok (set_ss_backfill_bin v p) else
  if String.eqb name "--normalize-bin" then
    v ← next_arg value name; Ok (set_ss_normalize_bin v p) else
  if String.eqb name "--realtime-venue" then
    v ← next_arg value name; Ok (set_ss_realtime_venues [v] (set_ss_realtime_venue v p)) else
  if String.eqb name "--realtime-venues" then
    v ← next_arg value name; venues ← parse_venues v;
    Ok (set_ss_realtime_venue (default "binance"%string (head venues)) (set_ss_realtime_venues venues p)) else
  if String.eqb name "--expect-symbol-count" then
    v ← next_arg value name; n ← supervisor_positive Usize v; Ok (set_ss_expect_symbol_count n p) else
  if String.eqb name "--realtime-duration-seconds" then
    v ← next_arg value name; n ← supervisor_positive U64 v; Ok (set_ss_realtime_duration_seconds n p) else
  if String.eqb name "--log-interval-seconds" then
    v ← next_arg value name; n ← supervisor_positive U64 v; Ok (set_ss_log_interval_seconds n p) else
  if String.eqb name "--l0-flush-records" then
    v ← next_arg value name; n ← supervisor_positive Usize v; Ok (set_ss_l0_flush_records n p) else
  if String.eqb name "--l0-shard-count" then
    v ← next_arg value name; n ← supervisor_positive U16 v; Ok (set_ss_l0_shard_count n p) else
  if String.eqb name "--bootstrap-lookback-days" then
    v ← next_arg value name; n ← supervisor_positive I64 v; Ok (set_ss_bootstrap_lookback_days n p) else
  if String.eqb name "--bootstrap-chunk-hours" then
    v ← next_arg value name; n ← supervisor_positive I64 v; Ok (set_ss_bootstrap_chunk_hours n p) else
  if String.eqb name "--bootstrap-interval-secs" then
    v ← next_arg value name; n ← supervisor_positive U64 v; Ok (set_ss_bootstrap_interval_secs n p) else
  if String.eqb name "--bootstrap-symbols" then
    v ← next_arg value name; symbols ← supervisor_symbols v name; Ok (set_ss_bootstrap_symbols (Some symbols) p) else
  if String.eqb name "--normalize-schedule-interval-ms" then
    v ← next_arg value name; n ← supervisor_positive I64 v; Ok (set_ss_normalize_schedule_interval_ms n p) else
  if String.eqb name "--l0-run-key-overlap-ms" then
    v ← next_arg value name; n ← supervisor_positive I64 v; Ok (set_ss_l0_run_key_overlap_ms n p) else
  if String.eqb name "--normalize-max-windows-per-tick" then
    v ← next_arg value name; n ← supervisor_positive Usize v; Ok (set_ss_normalize_max_windows_per_tick n p) else
  if String.eqb name "--l0-s3-retention-days" then
    v ← next_arg value name; n ← supervisor_positive I64 v; Ok (set_ss_l0_s3_retention_days n p) else
  if String.eqb name "--l1-s3-retention-days" then
    v ← next_arg value name; n ← supervisor_positive I64 v; Ok (set_ss_l1_s3_retention_days n p) else
  if String.eqb name "--s3-retention-check-interval-secs" then
    v ← next_arg value name; n ← supervisor_positive U64 v; Ok (set_ss_s3_retention_check_interval_secs n p) else
  if String.eqb name "--s3-retention-max-deletes-per-run" then
    v ← next_arg value name; n ← supervisor_positive Usize v; Ok (set_ss_s3_retention_max_deletes_per_run n p) else
  if String.eqb name "--restart-delay-secs" then
    v ← next_arg value name; n ← supervisor_positive U64 v; Ok (set_ss_restart_delay_secs n p) else
  if String.eqb name "--live-nats-url" then
    v ← next_arg value name; Ok (set_ss_live_nats_url (Some v) p) else
  if String.eqb name "--live-nats-stream" then
    v ← next_arg value name; Ok (set_ss_live_nats_stream v p) else
  if String.eqb name "--live-nats-subject-prefix" then
    v ← next_arg value name; Ok (set_ss_live_nats_subject_prefix v p) else
  Err ("unknown supervisor argument: " ++ name)%string.

(* rust: src/supervisor/args/validation.rs validate_completed_args *)
Definition supervisor_validate (p : SupervisorArgs) : result string SupervisorArgs :=
  match ss_realtime_venues p with
  | [] => Err "--realtime-venues requires at least one venue"%string
  | venue :: _ =>
      _ ← validate_venues (ss_realtime_venues p);
      let p := set_ss_realtime_venue venue p in
      _ ← validate_bucket_arg (ss_l0_s3_bucket p) "--l0-s3-bucket";
      _ ← validate_bucket_arg (ss_l1_s3_bucket p) "--l1-s3-bucket";
      _ ← validate_live (ss_live_nats_url p) (ss_live_nats_stream p) (ss_live_nats_subject_prefix p);
      if (0 <? ss_bootstrap_lookback_days p) && (24 <? ss_bootstrap_chunk_hours p)
      then Err "--bootstrap-chunk-hours must be <= 24 to keep recovery chunks bounded"%string
      else if negb (Z.rem 24 (ss_bootstrap_chunk_hours p) =? 0)
      then Err "--bootstrap-chunk-hours must evenly divide 24 for stable UTC day partitions"%string
      else Ok p
  end.

(* rust: src/supervisor/args/parse.rs parse_args *)
Definition parse_supervisor_args (argv : list string) : result string (option SupervisorArgs) :=
  parsed ← cli_loop supervisor_flag supervisor_option argv supervisor_defaults;
  match parsed with
  | None => Ok None
  | Some p => p ← supervisor_validate p; Ok (Some p)
  end.
End args.

(** ** The workers' command lines *)

(* rust: src/supervisor/bootstrap/chunk.rs BootstrapChunk *)
Record BootstrapChunk := mkChunk { ch_start_ms : Z; ch_end_ms : Z }.

#[export] Instance BootstrapChunk_eq_dec : EqDecision BootstrapChunk.
Proof. solve_decision. Defined.

Definition given_option (name : string) (o : option string) : list string :=
  match o with Some value => [name; value] | None => [] end.

(* rust: src/supervisor/worker_args.rs realtime_args *)
Definition realtime_args (a : SupervisorArgs) (venue : string) : list string :=
  (["--venue"; venue; "--config"; ss_config_dir a;
    "--duration-seconds"; show_Z (ss_realtime_duration_seconds a);
    "--log-interval-seconds"; show_Z (ss_log_interval_seconds a);
    "--expect-symbol-count"; show_Z (ss_expect_symbol_count a);
    "--allow-partial-symbol-coverage";
    "--l0-s3-bucket"; ss_l0_s3_bucket a; "--aws-region"; ss_aws_region a;
    "--l0-spool-root"; ss_l0_spool_root a;
    "--l0-flush-records"; show_Z (ss_l0_flush_records a);
    "--l0-shard-count"; show_Z (ss_l0_shard_count a);
    "--s3-retention-days"; "45"; "--disable-s3-retention"]
   ++ (if String.eqb venue "binance"
       then ["--depth-snapshot-limit"; "100"; "--binance-futures-rest-base-url"; "https://fapi.binance.com"]
       else [])
   ++ match ss_live_nats_url a with
      | Some url =>
          ["--live-nats-url"; url; "--live-nats-stream"; ss_live_nats_stream a;
           "--live-nats-subject-prefix"; ss_live_nats_subject_prefix a]
          ++ (if ss_live_nats_required a then ["--live-nats-required"] else [])
      | None => []
      end
   ++ given_option "--aws-profile" (ss_aws_profile a))%list%string.

(* rust: src/supervisor/worker_args.rs backfill_args *)
Definition backfill_args (a : SupervisorArgs) (chunk : BootstrapChunk) : list string :=
  (["--venue"; "binance"; "--config"; ss_config_dir a;
    "--input-start-ms"; show_Z (ch_start_ms chunk); "--input-end-ms"; show_Z (ch_end_ms chunk);
    "--expect-symbol-count"; show_Z (ss_expect_symbol_count a);
    "--l0-s3-bucket"; ss_l0_s3_bucket a; "--aws-region"; ss_aws_region a;
    "--l0-spool-root"; ss_l0_spool_root a;
    "--l0-flush-records"; show_Z (ss_l0_flush_records a);
    "--l0-shard-count"; show_Z (ss_l0_shard_count a);
    "--s3-retention-days"; "45"; "--disable-s3-retention"]
   ++ given_option "--symbols" (Text.join "," <$> ss_bootstrap_symbols a)
   ++ given_option "--aws-profile" (ss_aws_profile a))%list%string.

(* rust: src/supervisor/worker_args.rs normalize_args *)
Definition normalize_args (a : SupervisorArgs) : list string :=
  (["--l0-s3-bucket"; ss_l0_s3_bucket a; "--l0-local-root"; ss_l0_spool_root a;
    "--l1-s3-bucket"; ss_l1_s3_bucket a; "--aws-region"; ss_aws_region a;
    "--schedule-interval-ms"; show_Z (ss_normalize_schedule_interval_ms a);
    "--window-ms"; "1000"; "--scan-margin-ms"; "300000"; "--watermark-delay-ms"; "360000";
    "--clock-skew-margin-ms"; "1000"; "--max-latency-ms"; "1000";
    "--l0-run-key-overlap-ms"; show_Z (ss_l0_run_key_overlap_ms a);
    "--max-windows-per-tick"; show_Z (ss_normalize_max_windows_per_tick a);
    "--live-priority"; "--live-priority-lag-threshold-ms"; "900000";
    "--spool-root"; ss_l1_spool_root a; "--catchup-tmp-root"; ss_catchup_tmp_root a;
    "--l0-s3-retention-days"; "45"; "--l1-s3-retention-days"; "240"; "--disable-s3-retention"]
   ++ given_option "--aws-profile" (ss_aws_profile a))%list%string.

(* rust: src/supervisor/worker_args.rs live_priority_normalize_args *)
Definition live_priority_normalize_args (a : SupervisorArgs) : list string :=
  (normalize_args a ++ ["--live-priority-only"; "--max-windows-per-tick"; "1"])%list%string.

(* rust: src/supervisor/worker_args.rs normalize_backfill_args *)
Definition normalize_backfill_args (a : SupervisorArgs) (chunk : BootstrapChunk) : list string :=
  (normalize_args a ++ ["--input-start-ms"; show_Z (ch_start_ms chunk);
                        "--input-end-ms"; show_Z (ch_end_ms chunk)])%list%string.
