(* ===== verification/Maintenance.v ===== *)
(** * Maintenance: the loops that run beside a watcher and a normalizer

    [storage/retention_loop.rs], [storage/disk.rs], [maintenance.rs],
    [normalize/run/worker/retention.rs] and [supervisor/retention.rs]: a loop runs its pass in every tick of a timer,
    whatever the pass before it did.  A loop is given by the ticks it lives through; the
    log line of a pass is its result. *)
From S2P Require Import Prelude Text Records Retention Eviction Orphan Cli NormalizeArgs IngestArgs SupervisorArgs.
Open Scope Z_scope.
Open Scope list_scope.

(** ** Retention loops *)

(* rust: src/storage/retention_loop.rs S3RetentionLoopEvents *)
Record S3RetentionLoopEvents := mkEvents { le_run_event : string; le_error_event : string }.

(** The bucket at a tick, and the clock. *)
Record RetentionTick := mkRetentionTick {
  rt_now_ms : Z;
  rt_listing : string -> result StorageError (list S3ObjectSummary);
  rt_delete : string -> result StorageError () }.

(** A pass: the logged event, the layer, and the statistics with the keys deleted, or the
    error. *)
Record RetentionPass := mkPass {
  rp_event : string; rp_layer : string;
  rp_outcome : result StorageError (S3RetentionStats * list string) }.

(* rust: src/storage/retention_loop.rs run_s3_retention_loop *)
Definition run_s3_retention_loop (layer : string) (config : S3RetentionConfig) (events : S3RetentionLoopEvents)
    (ticks : list RetentionTick) : list RetentionPass :=
  map (fun t =>
    let outcome := run_s3_retention_once (rt_listing t) (rt_delete t) config (rt_now_ms t) in
    mkPass (match outcome with Ok _ => le_run_event events | Err _ => le_error_event events end) layer outcome) ticks.

(** A loop that was spawned: its layer, its configuration, the seconds between ticks and
    its events. *)
Record RetentionLoop := mkRetentionLoop {
  rl_layer : string; rl_config : S3RetentionConfig; rl_interval_secs : Z; rl_events : S3RetentionLoopEvents }.

(* rust: src/storage/retention_loop.rs spawn_s3_retention_loop *)
Definition spawn_s3_retention_loop (layer : string) (config : S3RetentionConfig) (interval_secs : Z)
    (events : S3RetentionLoopEvents) : RetentionLoop := mkRetentionLoop layer config interval_secs events.

(* rust: src/storage/retention_loop.rs DualBucketRetention *)
Record DualBucketRetention := mkDual {
  db_l0_bucket : string; db_l1_bucket : string; db_aws_region : string; db_aws_profile : option string;
  db_l0_retention_days : Z; db_l1_retention_days : Z; db_max_deletes_per_run : Z; db_interval_secs : Z;
  db_events : S3RetentionLoopEvents }.

(* rust: src/storage/retention_loop.rs spawn_l0_l1_retention_loops *)
Definition spawn_l0_l1_retention_loops (config : DualBucketRetention) : list RetentionLoop :=
  map (fun l : string * S3RetentionConfig =>
         spawn_s3_retention_loop l.1 l.2 (db_interval_secs config) (db_events config))
    [("l0"%string, l0_s3_retention_config (db_l0_bucket config) (db_aws_region config) (db_aws_profile config)
                     (db_l0_retention_days config) (db_max_deletes_per_run config));
     ("l1"%string, l1_s3_retention_config (db_l1_bucket config) (db_aws_region config) (db_aws_profile config)
                     (db_l1_retention_days config) (db_max_deletes_per_run config))].

(* rust: src/normalize/run/worker/retention.rs spawn_s3_retention_loops *)
Definition spawn_s3_retention_loops (args : NormalizeArgs) : list RetentionLoop :=
  if negb (na_s3_retention_enabled args) then []
  else spawn_l0_l1_retention_loops (mkDual (na_l0_s3_bucket args) (na_l1_s3_bucket args) (na_aws_region args)
    (na_aws_profile args) (na_l0_s3_retention_days args) (na_l1_s3_retention_days args)
    (na_s3_retention_max_deletes_per_run args) (na_s3_retention_check_interval_secs args)
    (mkEvents "market_normalize_s3_retention_run" "market_normalize_s3_retention_error")).

(* rust: src/maintenance.rs spawn_l0_s3_retention_loop *)
Definition spawn_l0_s3_retention_loop (args : Args) : option RetentionLoop :=
  if negb (ar_s3_retention_enabled args) then None else
  bucket ← ar_l0_s3_bucket args;
  let config := l0_s3_retention_config bucket (ar_aws_region args) (ar_aws_profile args)
    (ar_s3_retention_days args) (ar_s3_retention_max_deletes_per_run args) in
  Some (spawn_s3_retention_loop "l0" config (ar_s3_retention_check_interval_secs args)
    (mkEvents "market_ingest_s3_retention_run" "market_ingest_s3_retention_error")).

(* rust: src/supervisor/retention.rs spawn_supervisor_s3_retention_loops *)
Definition spawn_supervisor_s3_retention_loops (args : SupervisorArgs) : list RetentionLoop :=
  spawn_l0_l1_retention_loops (mkDual (ss_l0_s3_bucket args) (ss_l1_s3_bucket args) (ss_aws_region args)
    (ss_aws_profile args) (ss_l0_s3_retention_days args) (ss_l1_s3_retention_days args)
    (ss_s3_retention_max_deletes_per_run args) (ss_s3_retention_check_interval_secs args)
    (mkEvents "crypto_market_ingest_s3_retention_run" "crypto_market_ingest_s3_retention_error")).

(** What a loop does in its ticks. *)
Definition run_loop (l : RetentionLoop) (ticks : list RetentionTick) : list RetentionPass :=
  run_s3_retention_loop (rl_layer l) (rl_config l) (rl_events l) ticks.

(** ** The spool disk *)

(** The numbers [statvfs] answers, in blocks of [fs_frsize] bytes. *)
Record Statvfs := mkStatvfs { fs_blocks : Z; fs_bfree : Z; fs_frsize : Z }.

Definition wrap_u128 (z : Z) : Z := z mod 2 ^ 128.

(** [statvfs] answers for an existing path. *)
(* rust: src/storage/disk.rs disk_used_pct *)
Definition disk_used_pct {E} (path_exists : bool) (statvfs : result E Statvfs) : result E Z :=
  if negb path_exists then Ok 0 else
  stat ← statvfs;
  let total := wrap_u128 (fs_blocks stat * fs_frsize stat) in
  let free := wrap_u128 (fs_bfree stat * fs_frsize stat) in
  if total =? 0 then Ok 0 else
  let used := Z.max (total - free) 0 in
  Ok (Z.min (wrap_u128 (used * 100) / total) 100).

(* rust: src/maintenance.rs disk_probe *)
Definition disk_probe (path_exists : bool) (statvfs : result string Statvfs) : result StorageError Z :=
  map_err SIo (disk_used_pct path_exists statvfs).

(* rust: src/maintenance.rs spawn_eviction_loop *)
Definition spawn_eviction_loop (args : Args) : EvictionConfig * Z :=
  (mkEvConfig (ar_l0_spool_root args) (ar_local_disk_high_water_pct args) (ar_local_disk_emergency_pct args)
     (saturate I64 (ar_safety_floor_hours args * 3600)),
   ar_eviction_check_interval_secs args).

(** The spool at a tick: the clock, the answers of the probe in order, the files of the
    walk and whether a deletion succeeds. *)
Record EvictionTick := mkEvictionTick {
  et_now_ms : Z; et_spool_exists : nat -> bool; et_statvfs : nat -> result string Statvfs;
  et_files : result StorageError (list DiskFile); et_remove : string -> bool }.

(** The passes, and what each logs besides its heartbeat. *)
Inductive EvictionEvent := Heartbeat | EvictionRun | EvictionError.

(* rust: src/maintenance.rs run_eviction_loop *)
Definition run_eviction_loop (config : EvictionConfig) (ticks : list EvictionTick)
    : list (EvictionEvent * result StorageError (EvictionStats * list EvictableFile)) :=
  map (fun t =>
    let probe n := disk_probe (et_spool_exists t n) (et_statvfs t n) in
    let outcome := evict_once probe (et_remove t) (et_files t) config (et_now_ms t) in
    (match outcome with
     | Ok (stats, _) => if es_triggered stats then EvictionRun else Heartbeat
     | Err _ => EvictionError
     end, outcome)) ticks.

(** The cleanup at the start of a watcher: what it logs, and never an error. *)
Inductive CleanupLevel := Warned | Debugged.

(* rust: src/maintenance.rs log_unsealed_orphan_cleanup *)
Definition log_unsealed_orphan_cleanup (rename_error : string -> string -> option StorageError)
    (root_exists : bool) (files : result StorageError (list string)) (nanos_now : Disk -> string -> Z)
    (args : Args) (now_ms : Z) (disk : Disk) : Disk * (CleanupLevel * result StorageError UnsealedOrphanStats) :=
  let config := mkOrphanConfig (ar_l0_spool_root args) (saturate I64 (ar_safety_floor_hours args * 3600)) in
  let (disk, r) := cleanup_invalid_unsealed_once rename_error root_exists files nanos_now config now_ms disk in
  (disk, (match r with
          | Ok stats => if (0 <? os_invalid_unsealed_count stats) || (0 <? os_quarantined_count stats)
                        then Warned else Debugged
          | Err _ => Warned
          end, r)).

(** ** What the retention loops can delete *)

(** A listing answers only keys under the prefix it is asked for. *)
Definition honest (t : RetentionTick) : Prop := forall prefix objects, rt_listing t prefix = Ok objects ->
  Forall (fun o => starts_with prefix (ob_key o) = true) objects.

(** The loops of a normalizer, of a watcher and of a supervisor. *)
Definition program_loops (normalizer : NormalizeArgs) (watcher : Args) (supervisor : SupervisorArgs)
    : list RetentionLoop :=
  spawn_s3_retention_loops normalizer ++ option_list (spawn_l0_s3_retention_loop watcher) ++
  spawn_supervisor_s3_retention_loops supervisor.

(** The parsers accept no negative limit. *)
Record limited (normalizer : NormalizeArgs) (watcher : Args) (supervisor : SupervisorArgs) : Prop := {
  lm_normalizer : 0 <= na_s3_retention_max_deletes_per_run normalizer;
  lm_watcher : 0 <= ar_s3_retention_max_deletes_per_run watcher;
  lm_supervisor : 0 <= ss_s3_retention_max_deletes_per_run supervisor;
}.

(** A loop over the prefixes of a layer. *)
Definition layer_loop (l : RetentionLoop) : Prop :=
  0 <= rc_max_deletes_per_run (rl_config l) /\
  (rc_prefixes (rl_config l) = default_l0_retention_prefixes \/ rc_prefixes (rl_config l) = default_l1_retention_prefixes).

Lemma dual_loops_are_layer_loops config l : 0 <= db_max_deletes_per_run config ->
  l ∈ spawn_l0_l1_retention_loops config -> layer_loop l.
Proof.
  intros H Hl. repeat (apply elem_of_cons in Hl as [->|Hl]; [split; cbn; auto|]). by apply elem_of_nil in Hl.
Qed.

Lemma program_loop_config normalizer watcher supervisor l : limited normalizer watcher supervisor ->
  l ∈ program_loops normalizer watcher supervisor -> layer_loop l.
Proof.
  intros [Hn Hw Hs]. unfold program_loops, spawn_s3_retention_loops, spawn_l0_s3_retention_loop.
  rewrite !elem_of_app. intros [Hl|[Hl|Hl]].
  - destruct (na_s3_retention_enabled normalizer); [|by apply elem_of_nil in Hl].
    revert Hl. by apply dual_loops_are_layer_loops.
  - destruct (ar_s3_retention_enabled watcher); [|by apply elem_of_nil in Hl]. cbn in Hl.
    destruct (ar_l0_s3_bucket watcher); [|by apply elem_of_nil in Hl].
    apply elem_of_cons in Hl as [->|Hl]; [split; cbn; auto|by apply elem_of_nil in Hl].
  - revert Hl. by apply dual_loops_are_layer_loops.
Qed.

(** A key without any of the prefixes of the layers. *)
Definition outside (key : string) : bool :=
  negb (existsb (fun prefix => starts_with prefix key)
    (default_l0_retention_prefixes ++ default_l1_retention_prefixes)).

Lemma saturated_age x d : 0 < d -> saturate I64 d <= saturate I64 x -> d <= int_max I64 -> d <= x.
Proof. unfold saturate. cbn. lia. Qed.

(** C16: Over their whole life, in every tick, the retention loops of a normalizer, of a
    watcher and of a supervisor delete only objects of the record families, reports, manifests and pointers
    that the bucket listed in that very tick and that have not been modified for the
    retention of the loop, and never more of them than the limit: the markers of the
    supervisor, the objects of a preflight and anything else in the buckets are spared. *)
Theorem retention_loops_delete_only_expired (normalizer : NormalizeArgs) (watcher : Args)
    (supervisor : SupervisorArgs) (l : RetentionLoop) (ticks : list RetentionTick) (i : nat) (t : RetentionTick)
    (pass : RetentionPass) (stats : S3RetentionStats) (deleted : list string) :
  limited normalizer watcher supervisor -> l ∈ program_loops normalizer watcher supervisor -> Forall honest ticks ->
  rc_retention_secs (rl_config l) * 1000 <= int_max I64 ->
  ticks !! i = Some t -> run_loop l ticks !! i = Some pass -> rp_outcome pass = Ok (stats, deleted) ->
  zlen deleted <= rc_max_deletes_per_run (rl_config l) /\
  forall key, key ∈ deleted -> outside key = false /\
    exists prefix objects o modified, prefix ∈ rc_prefixes (rl_config l) /\ rt_listing t prefix = Ok objects /\
      o ∈ objects /\ ob_key o = key /\ ob_last_modified_ms o = Some modified /\
      modified + rc_retention_secs (rl_config l) * 1000 <= rt_now_ms t.
Proof.
  intros Hlim Hl Hticks Hmax Hi Hpass Hout. destruct (program_loop_config _ _ _ _ Hlim Hl) as [Hdel Hpre].
  unfold run_loop, run_s3_retention_loop in Hpass. rewrite list_lookup_fmap, Hi in Hpass. injection Hpass as <-.
  cbn in Hout. apply run_deletes in Hout as (listed & p & Hlist & Hinv & -> & Hpos); [|done].
  pose proof (pi_limit _ _ _ _ Hinv) as Hlen. split; [unfold zlen in *; by rewrite length_fmap|].
  intros key (d & -> & Hd)%list_elem_of_fmap.
  pose proof (pi_sound _ _ _ _ Hinv) as Hs. rewrite Forall_forall in Hs.
  destruct (Hs d Hd) as (o & Ho & (m & Hm & Hage & _) & Hkey & _).
  apply try_map_ok_Forall2 in Hlist.
  apply list_elem_of_In, in_concat in Ho as (objects & Hobj & Ho).
  apply list_elem_of_In, list_elem_of_lookup in Hobj as [n Hn].
  destruct (Forall2_lookup_r _ _ _ _ _ Hlist Hn) as (prefix & Hp & Hok).
  assert (Hin : prefix ∈ rc_prefixes (rl_config l)) by (apply list_elem_of_lookup; by exists n).
  apply list_elem_of_In in Ho.
  assert (Hstart : starts_with prefix (ob_key o) = true).
  { assert (Ht : t ∈ ticks) by (apply list_elem_of_lookup; by exists i). rewrite Forall_forall in Hticks.
    specialize (Hticks t Ht prefix objects Hok). rewrite Forall_forall in Hticks. by apply Hticks. }
  rewrite Hkey. split.
  - unfold outside. apply negb_false_iff, existsb_exists. exists prefix. split; [|done].
    rewrite in_app_iff, <- !list_elem_of_In. destruct Hpre as [<-|<-]; auto.
  - exists prefix, objects, o, m. split_and!; try done. apply saturated_age in Hage; lia.
Qed.

Lemma prefix_shorter {A} (l a b : list A) : l `prefix_of` a ++ b -> (Datatypes.length l <= Datatypes.length a)%nat ->
  l `prefix_of` a.
Proof.
  intros [k H] Hlen. exists (drop (Datatypes.length l) a).
  rewrite <- (take_drop (Datatypes.length l) a) at 1. f_equal.
  rewrite <- (take_app_le a b) by done. rewrite H. by rewrite take_app_length.
Qed.

(** The pointers are the last prefix of the L1 layer: while as many expired slices are
    listed as a run may delete, the loop deletes slices and nothing else, and the pointers
    to them stay. *)
Theorem expired_slices_starve_pointers (normalizer : NormalizeArgs) (t : RetentionTick)
    (slices : list S3ObjectSummary) (stats : S3RetentionStats) (deleted : list string) :
  let config := l1_s3_retention_config (na_l1_s3_bucket normalizer) (na_aws_region normalizer)
    (na_aws_profile normalizer) (na_l1_s3_retention_days normalizer)
    (na_s3_retention_max_deletes_per_run normalizer) in
  0 <= na_s3_retention_max_deletes_per_run normalizer -> honest t ->
  rt_listing t "normalized_market_slice/" = Ok slices ->
  na_s3_retention_max_deletes_per_run normalizer <= zlen (filter (expired config (rt_now_ms t)) slices) ->
  run_s3_retention_once (rt_listing t) (rt_delete t) config (rt_now_ms t) = Ok (stats, deleted) ->
  Forall (fun key => starts_with "normalized_market_slice/" key = true) deleted.
Proof.
  intros config Hmax Hhonest Hslices Hmany H.
  apply run_deletes in H as (listed & p & Hl & Hinv & -> & _); [|done].
  cbn [config rc_prefixes l1_s3_retention_config default_l1_retention_prefixes try_map] in Hl.
  rewrite Hslices in Hl. apply bind_ok in Hl as (? & [= <-] & Hl).
  apply bind_ok in Hl as (rest & _ & [= <-]). cbn [List.concat] in Hinv.
  pose proof (pi_prefix _ _ _ _ Hinv) as Hpre. pose proof (pi_limit _ _ _ _ Hinv) as Hlen.
  rewrite filter_app, fmap_app in Hpre. apply prefix_shorter in Hpre as [k Hk].
  2: { rewrite !length_fmap. unfold zlen in *. cbn in Hlen. lia. }
  specialize (Hhonest _ _ Hslices). apply Forall_forall. intros key Hkey.
  assert (Hin : key ∈ ob_key <$> filter (expired config (rt_now_ms t)) slices) by (rewrite Hk, elem_of_app; by left).
  apply list_elem_of_fmap in Hin as (o & -> & [_ Ho]%list_elem_of_filter).
  rewrite Forall_forall in Hhonest. by apply Hhonest.
Qed.

(** The percentage is that of the used blocks, rounded down; a filesystem never counts as
    fuller than it is, nor as fuller than full. *)
Theorem disk_used_pct_spec (stat : Statvfs) :
  0 <= fs_bfree stat <= fs_blocks stat -> 0 < fs_blocks stat <= int_max U64 -> 0 < fs_frsize stat ->
  fs_blocks stat * fs_frsize stat * 100 < 2 ^ 128 ->
  exists pct, disk_used_pct (E := string) true (Ok stat) = Ok pct /\ 0 <= pct <= 100 /\
    pct * fs_blocks stat <= 100 * (fs_blocks stat - fs_bfree stat) < (pct + 1) * fs_blocks stat.
Proof.
  intros Hfree [Hb _] Hf Hfit. unfold disk_used_pct, wrap_u128. cbn [negb mbind result_bind].
  rewrite (Z.mod_small (fs_blocks stat * fs_frsize stat)), (Z.mod_small (fs_bfree stat * fs_frsize stat)) by nia.
  destruct (Z.eqb_spec (fs_blocks stat * fs_frsize stat) 0) as [|Ht]; [nia|].
  rewrite <- Z.mul_sub_distr_r, Z.max_l, Z.mod_small by nia.
  set (used := fs_blocks stat - fs_bfree stat). set (b := fs_blocks stat) in *. set (f := fs_frsize stat) in *.
  replace (used * f * 100) with (100 * used * f) by lia. rewrite Z.div_mul_cancel_r by lia.
  pose proof (Z.div_mod (100 * used) b ltac:(lia)). pose proof (Z.mod_pos_bound (100 * used) b Hb).
  assert (0 <= 100 * used / b <= 100).
  { split; [apply Z.div_pos; lia|]. apply Z.div_le_upper_bound; lia. }
  exists (100 * used / b). rewrite Z.min_l by lia. split; [done|]. split; [done|]. nia.
Qed.

(** ** A normalizer, a watcher and a tick *)

#[local] Instance sample_environment : Environment := {| env_var := fun _ => None |}.
Definition sample_watcher : Args := set_ar_l0_s3_bucket (Some "l0"%string) default_args.

Definition sample_normalizer : NormalizeArgs :=
  set_na_l0_s3_bucket "l0" (set_na_l1_s3_bucket "l1" NormalizeArgs.with_defaults).

Definition sample_bucket : list S3ObjectSummary :=
  [mkObject "normalized_market_slice/a" (Some 0) 10; mkObject "normalized_market_slice/b" (Some 1) 10;
   mkObject "l1_index/a" (Some 2) 10; mkObject "supervisor/bootstrap/x" (Some 3) 10]%string.
Definition sample_tick : RetentionTick := mkRetentionTick 90000000000
  (fun prefix => Ok (List.filter (fun o => starts_with prefix (ob_key o)) sample_bucket)) (fun _ => Ok ()).

Lemma sample_honest : honest sample_tick.
Proof.
  intros prefix objects H. cbn [rt_listing sample_tick] in H.
  assert (objects = List.filter (fun o => starts_with prefix (ob_key o)) sample_bucket) as -> by congruence.
  apply Forall_forall. intros o Ho. apply list_elem_of_In, filter_In in Ho as [_ Ho]. exact Ho.
Qed.

Lemma sample_limited : limited sample_normalizer sample_watcher supervisor_defaults.
Proof. by split. Qed.

Lemma retention_loops_delete_only_expired_witness : exists stats,
  rp_outcome <$> (l ← program_loops sample_normalizer sample_watcher supervisor_defaults !! 1%nat; run_loop l [sample_tick] !! 0%nat)
    = Some (Ok (stats, ["normalized_market_slice/a"; "normalized_market_slice/b"; "l1_index/a"]%string)) /\
  outside "supervisor/bootstrap/x" = true /\ outside "l1_index/a" = false.
Proof.
  eexists. split; [by vm_compute|]. split; [by vm_compute|].
  edestruct (retention_loops_delete_only_expired sample_normalizer sample_watcher supervisor_defaults) with
    (l := nth 1 (program_loops sample_normalizer sample_watcher supervisor_defaults) (mkRetentionLoop "" (mkRetention "" "" None [] [] 0 0) 0 (mkEvents "" "")))
    (ticks := [sample_tick]) (i := 0%nat) (deleted := ["normalized_market_slice/a"; "normalized_market_slice/b"; "l1_index/a"]%string)
    as [_ H].
  - exact sample_limited.
  - right. left.
  - constructor; [exact sample_honest|constructor].
  - by vm_compute.
  - done.
  - done.
  - by vm_compute.
  - apply H. right. right. left.
Defined.

(** With a limit of one deletion per run the pointer to the expired slices is left. *)
Lemma expired_slices_starve_pointers_witness :
  let args := set_na_s3_retention_max_deletes_per_run 1 sample_normalizer in
  Forall (fun key => starts_with "normalized_market_slice/" key = true) ["normalized_market_slice/a"%string].
Proof.
  intros args. eapply (expired_slices_starve_pointers args sample_tick).
  - done.
  - exact sample_honest.
  - by vm_compute.
  - vm_decide.
  - by vm_compute.
Defined.

Lemma disk_used_pct_spec_witness :
  exists pct, disk_used_pct (E := string) true (Ok (mkStatvfs 1000 255 4096)) = Ok pct /\ pct = 74.
Proof.
  destruct (disk_used_pct_spec (mkStatvfs 1000 255 4096)) as (pct & H & _); [cbn; lia|cbn; lia|cbn; lia|cbn; lia|].
  exists pct. split; [exact H|]. vm_compute in H. by injection H.
Defined.
