(* ===== verification/WorkerArgs.v ===== *)
(** * WorkerArgs: the workers read what the supervisor writes

    The argument lists of [SupervisorArgs] through the parsers of [NormalizeArgs],
    [BackfillArgs] and [IngestArgs]. *)
From S2P Require Import Prelude Text Cli NormalizeArgs IngestArgs Config BackfillArgs SupervisorArgs.
Open Scope Z_scope.

(** ** The supervisor's own settings *)

(** What parsed settings satisfy: the numbers fit their fields. *)
Record numbers_ok (a : SupervisorArgs) : Prop := {
  so_count : 0 < ss_expect_symbol_count a <= int_max Usize;
  so_duration : 0 < ss_realtime_duration_seconds a <= int_max U64;
  so_log : 0 < ss_log_interval_seconds a <= int_max U64;
  so_flush : 0 < ss_l0_flush_records a <= int_max Usize;
  so_shard : 0 < ss_l0_shard_count a <= int_max U16;
  so_lookback : 0 < ss_bootstrap_lookback_days a <= int_max I64;
  so_hours : 0 < ss_bootstrap_chunk_hours a <= int_max I64;
  so_interval : 0 < ss_normalize_schedule_interval_ms a <= int_max I64;
  so_overlap : 0 < ss_l0_run_key_overlap_ms a <= int_max I64;
  so_windows : 0 < ss_normalize_max_windows_per_tick a <= int_max Usize }.

Lemma supervisor_positive_ok t v n : int_min t <= 0 -> supervisor_positive t v = Ok n ->
  0 < n <= int_max t.
Proof.
  unfold supervisor_positive. intros Ht. destruct (parse_int t v) as [w|] eqn:E; cbn; [|done].
  apply parse_int_in_range in E. destruct (Z.leb_spec w 0); [done|]. intros [= <-].
  unfold in_range in E. lia.
Qed.

(** One option: the value parsed is stored in one field. *)
Ltac supervisor_case H :=
  match type of H with
  | (if String.eqb ?a ?b then _ else _) = Ok _ =>
      destruct (String.eqb a b);
      [cbn [next_arg ok_or mbind result_bind] in H;
       try (let E := fresh "Ev" in
            match type of H with mbind _ ?m = Ok _ => destruct m eqn:E; [|discriminate H] end;
            cbn [mbind result_bind] in H); injection H as <- | ]
  end.

Lemma supervisor_option_numbers name value p q :
  supervisor_option name value p = Ok q -> numbers_ok p -> numbers_ok q.
Proof.
  intros H [P1 P2 P3 P4 P5 P6 P7 P8 P9 P10]. unfold supervisor_option in H.
  destruct value as [value|]; [|repeat match type of H with
    (if ?b then _ else _) = _ => destruct b; [discriminate H|] end; discriminate H].
  repeat supervisor_case H; try discriminate H.
  all: try (apply supervisor_positive_ok in Ev; [|done]).
  all: split; cbn in *; lia.
Qed.

(** The symbols are those of some value of [--bootstrap-symbols]. *)
Definition symbols_read (a : SupervisorArgs) : Prop := forall symbols,
  ss_bootstrap_symbols a = Some symbols -> exists value name, supervisor_symbols value name = Ok symbols.

Lemma supervisor_option_symbols name value p q :
  supervisor_option name value p = Ok q -> symbols_read p -> symbols_read q.
Proof.
  intros H Hp. unfold supervisor_option in H.
  destruct value as [value|]; [|repeat match type of H with
    (if ?b then _ else _) = _ => destruct b; [discriminate H|] end; discriminate H].
  repeat supervisor_case H; try discriminate H; try exact Hp.
  intros symbols [= <-]. by eexists _, _.
Qed.

(** What the supervisor works with. *)
Record supervised (a : SupervisorArgs) : Prop := {
  su_numbers : numbers_ok a;
  su_symbols : symbols_read a;
  su_l0_bucket : validate_bucket_arg (ss_l0_s3_bucket a) "--l0-s3-bucket" = Ok ();
  su_l1_bucket : validate_bucket_arg (ss_l1_s3_bucket a) "--l1-s3-bucket" = Ok ();
  su_live : validate_live (ss_live_nats_url a) (ss_live_nats_stream a)
    (ss_live_nats_subject_prefix a) = Ok ();
  su_chunk : ss_bootstrap_chunk_hours a <= 24 /\ Z.rem 24 (ss_bootstrap_chunk_hours a) = 0;
  su_venues : ss_realtime_venues a <> [] /\
    Forall (fun v => v = "binance" \/ v = "upbit")%string (ss_realtime_venues a) }.

Lemma validate_venues_ok venues : validate_venues venues = Ok () ->
  Forall (fun v => v = "binance" \/ v = "upbit")%string venues.
Proof.
  induction venues as [|v venues IH]; cbn; [constructor|]. unfold supervisor_validate_venue.
  destruct (String.eqb_spec v "binance") as [->|]; cbn; [intros H; constructor; auto|].
  destruct (String.eqb_spec v "upbit") as [->|]; cbn; [intros H; constructor; auto|done].
Qed.

Lemma parsed_supervised {V : Environment} argv a :
  parse_supervisor_args argv = Ok (Some a) -> supervised a.
Proof.
  unfold parse_supervisor_args. intros H.
  destruct (cli_loop _ _ argv _) as [[p|]|] eqn:El; try done. cbn in H.
  assert (Hp : numbers_ok p /\ symbols_read p).
  { apply (cli_loop_keeps _ _ (fun p => numbers_ok p /\ symbols_read p)) in El; [done| | |].
    - intros name s s' Ef [[] Hs]. unfold supervisor_flag in Ef.
      repeat case_match_hyp Ef; try discriminate Ef; injection Ef as <-; by split.
    - intros name v s s' Ho [Hn Hs].
      split; [by eapply supervisor_option_numbers|by eapply supervisor_option_symbols].
    - split; [by split|done]. }
  destruct Hp as [Hn Hs]. unfold supervisor_validate in H.
  destruct (ss_realtime_venues p) as [|venue venues] eqn:Ev; [done|].
  destruct (validate_venues _) as [[]|] eqn:E1; [|done]. cbn in H.
  destruct (validate_bucket_arg (ss_l0_s3_bucket p) _) as [[]|] eqn:E2; [|done]. cbn in H.
  destruct (validate_bucket_arg (ss_l1_s3_bucket p) _) as [[]|] eqn:E3; [|done]. cbn in H.
  destruct (validate_live _ _ _) as [[]|] eqn:E4; [|done]. cbn in H.
  destruct ((0 <? ss_bootstrap_lookback_days p) && (24 <? ss_bootstrap_chunk_hours p)) eqn:E5; [done|].
  destruct (Z.eqb_spec (Z.rem 24 (ss_bootstrap_chunk_hours p)) 0); [|done]. cbn in H.
  injection H as <-. destruct Hn. split; [by split|done|done|done|done| |].
  - cbn. apply andb_false_iff in E5. split; [|done]. lia.
  - cbn. rewrite Ev. split; [done|]. by apply validate_venues_ok.
Qed.

(** ** The normalizer *)

(** The settings of the normalizers the supervisor starts. *)
Definition normalize_settings (a : SupervisorArgs) (start_ms end_ms : option Z) (only : bool)
    (max_windows : Z) : NormalizeArgs :=
  mkNArgs (ss_l0_s3_bucket a) (ss_l0_spool_root a) (ss_l1_s3_bucket a) (ss_aws_profile a)
    (ss_aws_region a) start_ms end_ms (ss_normalize_schedule_interval_ms a) 1000 300000 3600000 360000
    1000 1000 (ss_l0_run_key_overlap_ms a) (ss_l1_spool_root a) (ss_catchup_tmp_root a) false None None
    max_windows true only 900000 false 45 240 21600 1000 1.

Lemma show_i64 z n : 0 < z <= int_max I64 -> NormalizeArgs.parse_positive_i64 (Some (show_Z z)) n = Ok z.
Proof.
  intros Hz. unfold NormalizeArgs.parse_positive_i64, parse_i64_arg. cbn.
  rewrite parse_show_Z by (unfold in_range; cbn in *; lia). cbn.
  by rewrite (proj2 (Z.leb_gt z 0)) by lia.
Qed.

Lemma show_any z n : in_range I64 z -> parse_i64_arg (Some (show_Z z)) n = Ok z.
Proof. intros Hz. unfold parse_i64_arg. cbn. by rewrite parse_show_Z. Qed.

Lemma show_pos t z n : int_min t = 0 -> 0 < z <= int_max t -> parse_positive t (Some (show_Z z)) n = Ok z.
Proof.
  intros Ht Hz. unfold parse_positive. cbn. rewrite parse_show_Z by (unfold in_range; lia). cbn.
  by rewrite (proj2 (Z.eqb_neq z 0)) by lia.
Qed.

(** Run the loop on the next option; [by_number] reads its value when that is a number. *)
Ltac eval_option := cbn [String.eqb Ascii.eqb Bool.eqb andb orb negb ok_or mbind result_bind].
Ltac run_option unfold_option by_number :=
  first
  [ erewrite step_flag; [|reflexivity|reflexivity]
  | erewrite step_value;
    [|reflexivity|reflexivity
     |unfold_option; eval_option; first [reflexivity | by_number; cbn [mbind result_bind]; reflexivity]] ].

Ltac normalize_number :=
  first [rewrite show_i64 by lia | rewrite show_pos by (done || lia) | rewrite show_any by done].
Ltac run_normalize := run_option ltac:(unfold parse_option) normalize_number.

Lemma normalize_args_read a rest : supervised a ->
  parse_loop (normalize_args a ++ rest) with_defaults
  = parse_loop rest (normalize_settings a None None false (ss_normalize_max_windows_per_tick a)).
Proof.
  intros [[] _ _ _ _ _ _]. unfold normalize_args, parse_loop. rewrite <- app_assoc. cbn [app].
  do 19 run_normalize.
  unfold normalize_settings. destruct (ss_aws_profile a) as [profile|]; cbn [given_option app].
  - run_normalize. reflexivity.
  - reflexivity.
Qed.

Lemma normalize_settings_valid a range only n : supervised a ->
  validate_parsed_args (normalize_settings a (fst <$> range) (snd <$> range) only n) = Ok ().
Proof.
  intros [_ _ H0 H1 _ _ _]. unfold validate_parsed_args. cbn -[contains trim].
  assert (Hb : forall value name name', validate_bucket_arg value name = Ok () ->
    str_is_empty value = false /\ validate_real_bucket name' value = Ok ()).
  { intros value name name'. unfold validate_bucket_arg, validate_real_bucket.
    destruct (str_is_empty (trim value)) eqn:E; [done|].
    split; [by destruct value|]. by destruct (contains "<" value || contains ">" value). }
  destruct (Hb _ _ "--l0-s3-bucket"%string H0) as [-> ->].
  destruct (Hb _ _ "--l1-s3-bucket"%string H1) as [-> ->]. cbn. by destruct range as [[]|].
Qed.

(** ** The backfill *)

Lemma symbols_reread value name symbols : supervisor_symbols value name = Ok symbols ->
  parse_backfill_symbols (Text.join "," symbols) = Ok symbols.
Proof.
  unfold supervisor_symbols, parse_backfill_symbols. destruct (is_nil _) eqn:E; [done|].
  intros [= <-]. rewrite split_list_join.
  - rewrite List.map_map. rewrite (List.map_ext _ to_ascii_uppercase) by apply upper_idem.
    by rewrite E.
  - by destruct (map _ _).
  - apply Forall_fmap. eapply Forall_impl; [apply split_list_items|]. intros s. apply item_upper.
Qed.

(** The settings of the backfills the supervisor starts. *)
Definition backfill_settings (a : SupervisorArgs) (chunk : BootstrapChunk) : BackfillArgs :=
  mkBArgs Binance (ss_config_dir a) None (ch_start_ms chunk) (ch_end_ms chunk)
    (ss_expect_symbol_count a) (ss_bootstrap_symbols a) "KRW" (ss_l0_s3_bucket a) (ss_aws_profile a)
    (ss_aws_region a) (ss_l0_spool_root a) (ss_l0_flush_records a) (ss_l0_shard_count a) false 45 1000.

Lemma show_backfill t z n : int_min t <= 0 -> 0 < z <= int_max t ->
  backfill_positive_arg t (Some (show_Z z)) n = Ok z.
Proof.
  intros Ht Hz. unfold backfill_positive_arg, backfill_positive. cbn.
  rewrite show_positive; [done|unfold in_range; lia|lia].
Qed.

Ltac backfill_number :=
  first [rewrite show_backfill by first [done | lia | cbn; lia]
    | unfold parse_absolute_path; cbn [next_required_arg ok_or mbind result_bind];
      match goal with H : starts_with "/" _ = true |- _ => rewrite H end
    | cbn [next_required_arg ok_or mbind result_bind]; erewrite symbols_reread by eassumption].
Ltac run_backfill := run_option ltac:(unfold apply_arg) backfill_number.

Abbreviation backfill_loop := (cli_loop backfill_flag apply_arg).

Lemma backfill_args_read a chunk : supervised a ->
  0 < ch_start_ms chunk -> ch_start_ms chunk < ch_end_ms chunk <= int_max I64 ->
  starts_with "/" (ss_config_dir a) = true -> starts_with "/" (ss_l0_spool_root a) = true ->
  backfill_loop (backfill_args a chunk) backfill_defaults = Ok (Some (backfill_settings a chunk)).
Proof.
  intros [[] Hsym _ _ _ _ _] Hs He Hc Hr. unfold backfill_args. cbn [app].
  do 12 run_backfill. unfold backfill_settings.
  destruct (ss_bootstrap_symbols a) as [symbols|] eqn:Es; cbn [given_option fmap option_fmap option_map app].
  - destruct (Hsym _ Es) as (value & name & Hv). run_backfill.
    destruct (ss_aws_profile a); cbn [given_option app]; [run_backfill|]; reflexivity.
  - destruct (ss_aws_profile a); cbn [given_option app]; [run_backfill|]; reflexivity.
Qed.

Lemma validated_bucket value name name' : validate_bucket_arg value name = Ok () ->
  str_is_empty value = false /\ validate_real_bucket name' value = Ok ().
Proof.
  unfold validate_bucket_arg, validate_real_bucket.
  destruct (str_is_empty (trim value)) eqn:E; [done|].
  split; [by destruct value|]. by destruct (contains "<" value || contains ">" value).
Qed.

Lemma backfill_settings_valid {C : ConfigFiles} a chunk : supervised a ->
  0 < ch_start_ms chunk < ch_end_ms chunk -> validate_completed_args (backfill_settings a chunk) = Ok ().
Proof.
  intros [_ _ H0 _ _ _ _] Hc. unfold validate_completed_args. cbn -[contains trim].
  rewrite (proj2 (Z.eqb_neq (ch_start_ms chunk) 0)), (proj2 (Z.eqb_neq (ch_end_ms chunk) 0)) by lia.
  rewrite (proj2 (Z.leb_gt (ch_end_ms chunk) (ch_start_ms chunk))) by lia.
  by destruct (validated_bucket _ _ "--l0-s3-bucket"%string H0) as [-> ->].
Qed.

(** An option the parser refuses ends the run. *)
Ltac run_refused unfold_option :=
  erewrite step_error; [reflexivity|reflexivity|reflexivity|unfold_option; eval_option;
    unfold parse_absolute_path; cbn [next_required_arg ok_or mbind result_bind];
    match goal with H : starts_with "/" _ = false |- _ => rewrite H end; reflexivity].

Lemma backfill_args_refused a chunk : supervised a ->
  0 < ch_start_ms chunk -> ch_start_ms chunk < ch_end_ms chunk <= int_max I64 ->
  starts_with "/" (ss_config_dir a) = true -> starts_with "/" (ss_l0_spool_root a) = false ->
  backfill_loop (backfill_args a chunk) backfill_defaults
  = Err (BfInvalidArgs "--l0-spool-root requires an absolute directory path").
Proof.
  intros [[] _ _ _ _ _ _] Hs He Hc Hr. unfold backfill_args. cbn [app].
  do 7 run_backfill. run_refused ltac:(unfold apply_arg).
Qed.

Lemma backfill_config_refused a chunk : starts_with "/" (ss_config_dir a) = false ->
  backfill_loop (backfill_args a chunk) backfill_defaults
  = Err (BfInvalidArgs "--config requires an absolute config directory path").
Proof.
  intros Hc. unfold backfill_args. cbn [app]. run_backfill. run_refused ltac:(unfold apply_arg).
Qed.

(** ** The realtime watcher *)

Section realtime.
Context {V : Environment}.

(** The live settings start from the environment, which the children share. *)
Record env_kept (a : SupervisorArgs) : Prop := {
  ek_url : ss_live_nats_url a = None -> env_string "MARKET_LIVE_NATS_URL" = None;
  ek_required : ss_live_nats_required a = false -> env_bool "MARKET_LIVE_NATS_REQUIRED" = false }.

Lemma parsed_env_kept argv a : parse_supervisor_args argv = Ok (Some a) -> env_kept a.
Proof.
  unfold parse_supervisor_args. intros H.
  destruct (cli_loop _ _ argv _) as [[p|]|] eqn:El; try done. cbn in H.
  apply (cli_loop_keeps _ _ env_kept) in El; [| | |by split].
  - unfold supervisor_validate in H. destruct (ss_realtime_venues p) as [|venue venues]; [done|].
    destruct (validate_venues _) as [[]|]; [|done]. cbn in H.
    destruct (validate_bucket_arg (ss_l0_s3_bucket p) _) as [[]|]; [|done]. cbn in H.
    destruct (validate_bucket_arg (ss_l1_s3_bucket p) _) as [[]|]; [|done]. cbn in H.
    destruct (validate_live _ _ _) as [[]|]; [|done]. cbn in H.
    destruct (_ && _); [done|]. destruct (negb _); [done|]. injection H as <-. by destruct El.
  - intros name s s' Ef []. unfold supervisor_flag in Ef.
    repeat case_match_hyp Ef; try discriminate Ef; injection Ef as <-; by split.
  - intros name value s s' Ho []. unfold supervisor_option in Ho.
    destruct value as [value|]; [|repeat match type of Ho with
      (if ?b then _ else _) = _ => destruct b; [discriminate Ho|] end; discriminate Ho].
    repeat supervisor_case Ho; try discriminate Ho; by split.
Qed.

(** The settings of the watchers the supervisor starts. *)
Definition realtime_settings (a : SupervisorArgs) (venue : Venue) : Args :=
  let live := match ss_live_nats_url a with Some _ => true | None => false end in
  mkArgs venue (ss_config_dir a) (ss_realtime_duration_seconds a)
    (Z.min (ss_log_interval_seconds a) (ss_realtime_duration_seconds a)) 100
    (ss_expect_symbol_count a) true "https://fapi.binance.com" 300 None None "KRW" 5
    (Some (ss_l0_s3_bucket a)) (ss_aws_profile a) (ss_aws_region a) (ss_l0_spool_root a)
    (ss_l0_flush_records a) (ss_l0_shard_count a) 70 90 2 600 false 45 21600 1000
    (ss_live_nats_url a)
    (if live then ss_live_nats_stream a
     else default DEFAULT_MARKET_LIVE_NATS_STREAM (env_string "MARKET_LIVE_NATS_STREAM"))
    (if live then ss_live_nats_subject_prefix a
     else default DEFAULT_MARKET_LIVE_NATS_SUBJECT_PREFIX (env_string "MARKET_LIVE_NATS_SUBJECT_PREFIX"))
    (if live then ss_live_nats_required a else env_bool "MARKET_LIVE_NATS_REQUIRED").

Lemma show_required t z n : int_min t <= 0 -> 0 < z <= int_max t ->
  positive_arg t (Some (show_Z z)) n = Ok z.
Proof.
  intros Ht Hz. unfold positive_arg. cbn. rewrite show_positive; [done|unfold in_range; lia|lia].
Qed.

Ltac unfold_apply := unfold apply_option, apply_runtime_option, apply_exchange_option,
  apply_storage_option, apply_retention_option, apply_live_option.
Ltac realtime_number := rewrite show_required by first [done | lia | cbn; lia].
Ltac run_realtime := run_option ltac:(unfold_apply) realtime_number.

Lemma realtime_args_loop a venue : numbers_ok a -> env_kept a ->
  cli_loop args_flag apply_option (realtime_args a (venue_str venue)) default_args
  = Ok (Some (set_ar_log_interval_seconds (ss_log_interval_seconds a) (realtime_settings a venue))).
Proof.
  intros [] [Hurl Hreq]. unfold realtime_args, realtime_settings.
  destruct (ss_live_nats_url a) as [url|] eqn:Eu, (ss_live_nats_required a) eqn:Er,
    (ss_aws_profile a) as [profile|], venue;
    cbn [app venue_str given_option String.eqb Ascii.eqb Bool.eqb];
    repeat run_realtime; unfold default_args; cbn; rewrite ?Hurl, ?Hreq by done; reflexivity.
Qed.

Lemma realtime_settings_valid a venue : supervised a -> env_kept a ->
  validate_and_normalize
    (set_ar_log_interval_seconds (ss_log_interval_seconds a) (realtime_settings a venue))
  = Ok (realtime_settings a venue).
Proof.
  intros [[] _ H0 _ Hl _ _] [Hurl _]. unfold validate_and_normalize. cbn -[validate_live contains trim].
  destruct (validated_bucket _ _ "--l0-s3-bucket"%string H0) as [_ ->]. cbn -[validate_live].
  assert (Hlive : validate_live (ss_live_nats_url a)
    (ar_live_nats_stream (realtime_settings a venue))
    (ar_live_nats_subject_prefix (realtime_settings a venue)) = Ok ()).
  { cbn -[validate_live]. by destruct (ss_live_nats_url a). }
  cbn -[validate_live] in Hlive. rewrite Hlive. cbn. unfold realtime_settings.
  destruct (Z.ltb_spec (ss_realtime_duration_seconds a) (ss_log_interval_seconds a)).
  - cbn. by rewrite Z.min_r by lia.
  - by rewrite Z.min_l by lia.
Qed.
End realtime.

(** The parsed settings are [p], which the validation takes. *)
Ltac validated p valid :=
  match goal with |- context [validate_parsed_args ?q] => change q with p end;
  first [rewrite valid | let H := fresh in pose proof valid as H; cbn [fmap option_fmap option_map fst snd] in H; rewrite H];
  reflexivity.

Lemma chunk_args_read a chunk : supervised a ->
  in_range I64 (ch_start_ms chunk) -> in_range I64 (ch_end_ms chunk) ->
  parse_args (normalize_backfill_args a chunk)
  = Ok (Some (normalize_settings a (Some (ch_start_ms chunk)) (Some (ch_end_ms chunk)) false
                (ss_normalize_max_windows_per_tick a))).
Proof.
  intros Hs Hstart Hend. unfold parse_args, normalize_backfill_args.
  rewrite normalize_args_read by done. unfold parse_loop. do 2 run_normalize.
  cbn [cli_loop mbind result_bind].
  validated (normalize_settings a (Some (ch_start_ms chunk)) (Some (ch_end_ms chunk)) false
    (ss_normalize_max_windows_per_tick a))
    (normalize_settings_valid a (Some (ch_start_ms chunk, ch_end_ms chunk)) false
       (ss_normalize_max_windows_per_tick a) Hs).
Qed.

(** C14: The command lines the supervisor builds are read back by the parsers of its workers as
    the settings they were built from, once the supervisor's own arguments have parsed: the
    normalizer of each phase and of each bootstrap chunk, the realtime watcher of each venue
    (its log interval cut to its duration), and the backfill of a chunk, with symbols, which
    runs exactly when the configuration and spool directories are absolute paths: the
    supervisor itself takes any path. *)
Theorem workers_read_their_settings {V : Environment} {C : ConfigFiles} argv a :
  parse_supervisor_args argv = Ok (Some a) ->
  parse_args (normalize_args a)
    = Ok (Some (normalize_settings a None None false (ss_normalize_max_windows_per_tick a))) /\
  parse_args (live_priority_normalize_args a) = Ok (Some (normalize_settings a None None true 1)) /\
  (forall chunk, in_range I64 (ch_start_ms chunk) -> in_range I64 (ch_end_ms chunk) ->
     parse_args (normalize_backfill_args a chunk)
     = Ok (Some (normalize_settings a (Some (ch_start_ms chunk)) (Some (ch_end_ms chunk)) false
                   (ss_normalize_max_windows_per_tick a)))) /\
  (forall venue, parse_ingest_args (realtime_args a (venue_str venue))
     = Ok (Some (realtime_settings a venue))) /\
  (forall chunk, 0 < ch_start_ms chunk < ch_end_ms chunk -> ch_end_ms chunk <= int_max I64 ->
     parse_backfill_args (backfill_args a chunk) =
     if negb (starts_with "/" (ss_config_dir a))
     then Err (BfInvalidArgs "--config requires an absolute config directory path")
     else if negb (starts_with "/" (ss_l0_spool_root a))
     then Err (BfInvalidArgs "--l0-spool-root requires an absolute directory path")
     else Ok (Some (backfill_settings a chunk))).
Proof.
  intros Hp. pose proof (parsed_supervised argv a Hp) as Hs. pose proof (parsed_env_kept argv a Hp) as He.
  pose proof (normalize_settings_valid a) as Hvalid. split_and!.
  - unfold parse_args. rewrite <- (app_nil_r (normalize_args a)), normalize_args_read by done. cbn.
    by rewrite (Hvalid None).
  - unfold parse_args, live_priority_normalize_args. rewrite normalize_args_read by done.
    unfold parse_loop. do 2 run_normalize. cbn [cli_loop mbind result_bind].
    validated (normalize_settings a None None true 1) (Hvalid None true 1 Hs).
  - intros chunk Hstart Hend. by apply chunk_args_read.
  - intros venue. unfold parse_ingest_args. rewrite realtime_args_loop by (done || apply Hs).
    cbn [mbind result_bind]. by rewrite realtime_settings_valid.
  - intros chunk Hc Hm. unfold parse_backfill_args.
    destruct (starts_with "/" (ss_config_dir a)) eqn:Ec; cbn [negb];
      [|by rewrite backfill_config_refused].
    destruct (starts_with "/" (ss_l0_spool_root a)) eqn:Er; cbn [negb].
    + rewrite backfill_args_read by (done || lia). cbn [mbind result_bind].
      by rewrite backfill_settings_valid.
    + by rewrite backfill_args_refused by (done || lia).
Qed.

#[local] Instance sample_environment : Environment := {| env_var := fun _ => None |}.
#[local] Instance sample_files : ConfigFiles :=
  Build_ConfigFiles (fun _ => Err "none"%string) (fun _ => Err "none"%string) (fun _ => Err "none"%string)
    (fun _ => Err "none"%string) (fun _ u => u) (fun _ => ""%string).

Definition sample_supervisor_argv : list string :=
  ["--l0-s3-bucket"; "l0"; "--l1-s3-bucket"; "l1"; "--bootstrap-symbols"; " btcusdt,ethusdt "]%string.

Lemma workers_read_their_settings_witness :
  exists a, parse_supervisor_args sample_supervisor_argv = Ok (Some a) /\
    parse_backfill_args (backfill_args a (mkChunk 3600000 7200000))
      = Ok (Some (backfill_settings a (mkChunk 3600000 7200000))) /\
    ss_bootstrap_symbols a = Some ["BTCUSDT"; "ETHUSDT"]%string.
Proof.
  eexists. split; [by vm_compute|]. split; [|done].
  edestruct (workers_read_their_settings sample_supervisor_argv) as (_ & _ & _ & _ & Hb);
    [by vm_compute|].
  by apply (Hb (mkChunk 3600000 7200000)).
Defined.
