(* ===== verification/Supervisor.v ===== *)
(** * Supervisor: bootstrap chunks, markers, the scheduler and the main loop

    [src/supervisor]: the history is bootstrapped in chunks, each marked in the L1 bucket
    when its L0 objects are stored and when all of its L1 windows are; the main loop keeps
    one realtime watcher per venue and one normalizer running.  A child process is given by
    how it ends, and polling loops by what ends them. *)
From S2P Require Import Prelude Text OrderedMap Records S3Client NormalizeArgs L1Window SupervisorArgs.
From S2P Require Import Effects.
Open Scope Z_scope.

(** ** Chunks *)

(** Both chunk loops: from [cursor], pieces of [step] up to [bound].  There are at most
    [(bound - cursor) / step + 1] of them. *)
Fixpoint chunk_loop (fuel : nat) (cursor bound step : Z) : list BootstrapChunk :=
  match fuel with
  | O => []
  | S fuel =>
      if cursor <? bound then
        let end_ms := Z.min (saturate I64 (cursor + step)) bound in
        if end_ms <=? cursor then []
        else mkChunk cursor end_ms :: chunk_loop fuel end_ms bound step
      else []
  end.
Definition chunk_fuel (start bound step : Z) : nat := S (Z.to_nat ((bound - start) / step)).

(* rust: src/supervisor/bootstrap/chunk.rs align_down_to_chunk *)
Definition align_down_to_chunk (value chunk_ms : Z) : Z :=
  wrap I64 (div_euclid value chunk_ms * chunk_ms).

(* rust: src/supervisor/bootstrap/chunk.rs bootstrap_chunks *)
Definition bootstrap_chunks (a : SupervisorArgs) (now_ms : Z) : list BootstrapChunk :=
  let lookback_ms := saturate I64 (saturate I64 (ss_bootstrap_lookback_days a * 24) * 3600000) in
  let chunk_ms := saturate I64 (ss_bootstrap_chunk_hours a * 3600000) in
  if chunk_ms <=? 0 then [] else
  let end_bound := align_down_to_chunk (saturate I64 (now_ms - 3600000)) chunk_ms in
  let start_bound := align_down_to_chunk (saturate I64 (end_bound - lookback_ms)) chunk_ms in
  chunk_loop (chunk_fuel start_bound end_bound chunk_ms) start_bound end_bound chunk_ms.

(* rust: src/supervisor/bootstrap/chunk.rs normalize_subchunks *)
Definition normalize_subchunks (a : SupervisorArgs) (chunk : BootstrapChunk) : list BootstrapChunk :=
  let interval_ms := ss_normalize_schedule_interval_ms a in
  if (interval_ms <=? 0) || (ch_end_ms chunk <=? ch_start_ms chunk) then [] else
  chunk_loop (chunk_fuel (ch_start_ms chunk) (ch_end_ms chunk) interval_ms)
    (ch_start_ms chunk) (ch_end_ms chunk) interval_ms.

(** ** Markers *)

(** The two documents the supervisor writes. *)
Record Marker := mkMarker {
  mk_schema_version : string; mk_venue : string; mk_input_start_ms : Z; mk_input_end_ms : Z;
  mk_l0_marker_key : option string; mk_completed_at_ms : Z }.

(** How a child ended: by itself, or killed when shutdown was requested. *)
Inductive ChildEnd := ChildSuccess | ChildFailed | ChildKilled.

(** The processes, the clock, shutdown and JSON. *)
Class Host (W B V : Type) := {
  host_run : string -> list string -> io W string ChildEnd;
  host_now : W -> Z;
  host_shutdown : W -> bool;
  (** [sleep_or_shutdown] and [wait_until_shutdown] *)
  host_sleep : Z -> W -> W;
  host_wait : W -> W;
  host_decode : B -> result StorageError V;
  host_marker : Marker -> result string B;
}.

(* rust: src/supervisor/bootstrap/marker.rs l0_marker_key *)
Definition l0_marker_key (chunk : BootstrapChunk) : string :=
  ("supervisor/bootstrap/venue=binance/start_ms=" ++ show_Z (ch_start_ms chunk)
   ++ "/end_ms=" ++ show_Z (ch_end_ms chunk) ++ "/success.json")%string.

(* rust: src/supervisor/bootstrap/marker.rs complete_marker_key *)
Definition complete_marker_key (chunk : BootstrapChunk) : string :=
  ("supervisor/bootstrap/venue=binance/start_ms=" ++ show_Z (ch_start_ms chunk)
   ++ "/end_ms=" ++ show_Z (ch_end_ms chunk) ++ "/complete.json")%string.

Section scheduler.
Context {L : StorageLib} {W B V : Type} {OS : ObjectStore W B} {J : DocJson V} {H : Host W B V}.
Context (a : SupervisorArgs).

Definition from_store {A} (m : io W StorageError A) : io W string A := io_map_err StorageError_display m.

Definition download (key : string) : io W string (option V) :=
  from_store (download_json_optional (ss_l1_s3_bucket a) host_decode key).

(* rust: src/supervisor/bootstrap/marker.rs has_complete *)
Definition has_complete (chunk : BootstrapChunk) : io W string bool :=
  marker ← download (complete_marker_key chunk); mret (given marker).

(* rust: src/supervisor/bootstrap/marker.rs has_l0_success *)
Definition has_l0_success (chunk : BootstrapChunk) : io W string bool :=
  marker ← download (l0_marker_key chunk); mret (given marker).

(** A pointer that says its window's run succeeded and covered just the chunk. *)
Definition pointer_covers (chunk : BootstrapChunk) (pointer : V) : bool :=
  json_status_success pointer
  && bool_decide ((f ← dj_get "input_time_range_start_ms" pointer; dj_as_i64 f) = Some (ch_start_ms chunk))
  && bool_decide ((f ← dj_get "input_time_range_end_ms" pointer; dj_as_i64 f) = Some (ch_end_ms chunk)).

(* rust: src/supervisor/bootstrap/marker.rs has_l1_success *)
Definition has_l1_success (chunk : BootstrapChunk) : io W string bool :=
  pointer ← download (index_pointer_key 1000 (ch_start_ms chunk));
  mret (match pointer with Some pointer => pointer_covers chunk pointer | None => false end).

Definition upload_marker (key : string) (m : Marker) : io W string () :=
  payload ← io_of (host_marker m);
  from_store (upload_json (ss_l1_s3_bucket a) key payload).

(* rust: src/supervisor/bootstrap/marker.rs mark_l0_success *)
Definition mark_l0_success (chunk : BootstrapChunk) : io W string () := fun w =>
  upload_marker (l0_marker_key chunk)
    (mkMarker "crypto_market_ingest_bootstrap_l0_marker_v1" "binance" (ch_start_ms chunk)
       (ch_end_ms chunk) None (host_now w)) w.

(* rust: src/supervisor/bootstrap/marker.rs mark_complete *)
Definition mark_complete (chunk : BootstrapChunk) : io W string () := fun w =>
  upload_marker (complete_marker_key chunk)
    (mkMarker "crypto_market_ingest_bootstrap_complete_marker_v1" "binance" (ch_start_ms chunk)
       (ch_end_ms chunk) (Some (l0_marker_key chunk)) (host_now w)) w.

(** ** The scheduler *)

Fixpoint first_missing (chunks : list BootstrapChunk) : io W string (option BootstrapChunk) :=
  match chunks with
  | [] => mret None
  | chunk :: chunks =>
      complete ← has_complete chunk;
      if (complete : bool) then first_missing chunks else mret (Some chunk)
  end.

(* rust: src/supervisor/bootstrap/selection.rs next_missing_bootstrap_chunk *)
Definition next_missing_bootstrap_chunk : io W string (option BootstrapChunk) := fun w =>
  first_missing (bootstrap_chunks a (host_now w)) w.

Definition child_success (e : ChildEnd) : bool := match e with ChildSuccess => true | _ => false end.

(* rust: src/supervisor/scheduler/child.rs run_backfill_child *)
Definition run_backfill_child (chunk : BootstrapChunk) : io W string bool :=
  status ← host_run (ss_backfill_bin a) (backfill_args a chunk);
  mret (child_success status).

Fixpoint normalize_all (chunks : list BootstrapChunk) : io W string bool :=
  match chunks with
  | [] => mret true
  | chunk :: chunks =>
      present ← has_l1_success chunk;
      if (present : bool) then normalize_all chunks else
      status ← host_run (ss_normalize_bin a) (normalize_backfill_args a chunk);
      if child_success status then normalize_all chunks else mret false
  end.

(* rust: src/supervisor/scheduler/child.rs run_l1_normalize_chunk *)
Definition run_l1_normalize_chunk (chunk : BootstrapChunk) : io W string bool :=
  normalize_all (normalize_subchunks a chunk).

(* rust: src/supervisor/scheduler/chunk.rs run_backfill_chunk *)
Definition run_backfill_chunk (chunk : BootstrapChunk) : io W string () :=
  l0 ← has_l0_success chunk;
  ready ← (if (l0 : bool) then mret true else
           stored ← run_backfill_child chunk;
           if (stored : bool) then _ ← mark_l0_success chunk; mret true else mret false);
  if negb ready then mret () else
  done ← run_l1_normalize_chunk chunk;
  if negb done then mret () else mark_complete chunk.

Definition sleep (secs : Z) : io W string () := fun w => (host_sleep secs w, Ok ()).

(** [None] when [fuel] turns of the loop are not enough. *)
Fixpoint scheduler_loop (fuel : nat) : io W string (option ()) := fun w =>
  match fuel with
  | O => (w, Ok None)
  | S fuel =>
      if host_shutdown w then (w, Ok (Some ())) else
      (chunk ← next_missing_bootstrap_chunk;
       match chunk with
       | None => mret (Some ())
       | Some chunk =>
           _ ← run_backfill_chunk chunk;
           _ ← sleep (ss_bootstrap_interval_secs a);
           scheduler_loop fuel
       end) w
  end.

(* rust: src/supervisor/scheduler.rs run_backfill_scheduler *)
Definition run_backfill_scheduler (fuel : nat) : io W string (option ()) := fun w =>
  if negb (ss_bootstrap_enabled a) then (host_wait w, Ok (Some ())) else scheduler_loop fuel w.
End scheduler.

(** ** The main loop *)

Section main.
Context (a : SupervisorArgs).

(** The scheduler task: [run_backfill_scheduler], the idle one, or none any more. *)
Inductive Task := Bootstrapping | Idle | Stopped.

(** The children with their command lines, and the flags of [run_supervisor]. *)
Record SupervisorState := mkState {
  st_realtime : list (string * list string);
  st_normalize : option (list string);
  st_scheduler : Task;
  st_retention : bool;
  st_bootstrap_active : bool;
  st_shutdown : bool }.

(** What the loop waits for, the scheduler's task having ended with its own result, and the
    signal that sets the flag the tasks see before the loop does. *)
Inductive Event :=
| RealtimeExited (venue status : string)
| NormalizeExited
| SchedulerEnded (r : result string ())
| ShutdownRequested
| ShutdownSeen.

Inductive Outcome := Running (s : SupervisorState) | Returned (r : result string ()).

(** The answer of the system to a spawn. *)
Context (spawn : string -> list string -> result string ()).

(* rust: src/supervisor/process.rs spawn_realtime_children *)
Fixpoint spawn_realtime_children (venues : list string) : result string (list (string * list string)) :=
  match venues with
  | [] => Ok []
  | venue :: venues =>
      _ ← spawn (ss_realtime_bin a) (realtime_args a venue);
      children ← spawn_realtime_children venues;
      Ok ((venue, realtime_args a venue) :: children)
  end.

Definition spawn_with (argv : list string) : result string (list string) :=
  _ ← spawn (ss_normalize_bin a) argv; Ok argv.
(* rust: src/supervisor/process.rs spawn_normalize *)
Definition spawn_normalize : result string (list string) := spawn_with (normalize_args a).
(* rust: src/supervisor/process.rs spawn_live_priority_normalize *)
Definition spawn_live_priority_normalize : result string (list string) :=
  spawn_with (live_priority_normalize_args a).
(* rust: src/supervisor/process.rs spawn_normalize_for_phase *)
Definition spawn_normalize_for_phase (bootstrap_active : bool) : result string (list string) :=
  if bootstrap_active then spawn_live_priority_normalize else spawn_normalize.

Definition returned (r : result string SupervisorState) : Outcome :=
  match r with Ok s => Running s | Err e => Returned (Err e) end.

(** Before the loop. *)
Definition start_supervisor : Outcome := returned (
  realtime ← spawn_realtime_children (ss_realtime_venues a);
  normalize ← spawn_normalize_for_phase (ss_bootstrap_enabled a);
  Ok (mkState realtime (Some normalize) Bootstrapping true (ss_bootstrap_enabled a) false)).

(** One turn of the loop: [select!] took the branch of the event.  A branch that returns
    kills or drops every child, and each was spawned to be killed when dropped. *)
(* rust: src/supervisor/mod.rs run_supervisor *)
Definition supervisor_step (s : SupervisorState) (e : Event) : Outcome :=
  match e with
  | ShutdownRequested => Running (mkState (st_realtime s) (st_normalize s) (st_scheduler s)
      (st_retention s) (st_bootstrap_active s) true)
  | RealtimeExited venue status =>
      Returned (Err ("realtime worker exited venue=" ++ venue ++ ": " ++ status)%string)
  | NormalizeExited =>
      if st_shutdown s then Returned (Ok ()) else returned (
        normalize ← spawn_normalize_for_phase (st_bootstrap_active s);
        Ok (mkState (st_realtime s) (Some normalize) (st_scheduler s) (st_retention s)
              (st_bootstrap_active s) (st_shutdown s)))
  | SchedulerEnded r =>
      if st_shutdown s then Returned (Ok ()) else
      match r with
      | Ok _ => returned (
          normalize ← spawn_normalize;
          Ok (mkState (st_realtime s) (Some normalize) Idle (st_retention s) false (st_shutdown s)))
      | Err _ => Running (mkState (st_realtime s) (st_normalize s) Bootstrapping (st_retention s)
          (st_bootstrap_active s) (st_shutdown s))
      end
  | ShutdownSeen => Returned (Ok ())
  end.

End main.
