(* ===== verification/SupervisorFacts.v ===== *)
(** * SupervisorFacts: the bootstrap covers its range

    The chunks of a bootstrap and the pieces of a chunk, and the settings under which the
    normalizers of a chunk can run. *)
From S2P Require Import Prelude Text OrderedMap Cli Records S3Client NormalizeArgs L1Window IngestArgs.
From S2P Require Import Config BackfillArgs SupervisorArgs WorkerArgs Supervisor Effects.
From Stdlib Require Import Sorting.Sorted.
Open Scope Z_scope.

(** ** Tiling *)

(** Chunks one after the other from [start] to [bound], all of the length [step] but a
    shorter last one. *)
Inductive tiles (step bound : Z) : Z -> list BootstrapChunk -> Prop :=
| tiles_end : tiles step bound bound []
| tiles_next start chunks : start < bound ->
    tiles step bound (Z.min (start + step) bound) chunks ->
    tiles step bound start (mkChunk start (Z.min (start + step) bound) :: chunks).

Lemma chunk_loop_tiles fuel cursor bound step : 0 < step -> int_min I64 <= cursor <= bound ->
  bound <= int_max I64 -> (bound - cursor) / step < Z.of_nat fuel ->
  tiles step bound cursor (chunk_loop fuel cursor bound step).
Proof.
  intros Hstep. revert cursor. induction fuel as [|fuel IH]; intros cursor Hc Hb Hf.
  { pose proof (Z.div_pos (bound - cursor) step ltac:(lia) Hstep). lia. }
  cbn [chunk_loop]. destruct (Z.ltb_spec cursor bound) as [Hlt|Hge].
  2:{ replace cursor with bound by lia. constructor. }
  assert (Hend : Z.min (saturate I64 (cursor + step)) bound = Z.min (cursor + step) bound).
  { unfold saturate. cbn in *. lia. }
  rewrite Hend, (proj2 (Z.leb_gt _ cursor)) by lia. constructor; [done|].
  destruct (Z.le_gt_cases (cursor + step) bound) as [Hle|Hgt].
  - rewrite Z.min_l by done. apply IH; [lia|done|].
    replace (bound - (cursor + step)) with ((bound - cursor) + (-1) * step) by lia.
    rewrite Z.div_add by lia. lia.
  - rewrite Z.min_r by lia. destruct fuel; cbn [chunk_loop]; [|rewrite Z.ltb_irrefl]; constructor.
Qed.

Lemma chunk_fuel_enough start bound step : 0 < step -> start <= bound ->
  (bound - start) / step < Z.of_nat (chunk_fuel start bound step).
Proof.
  intros Hs Hb. unfold chunk_fuel. pose proof (Z.div_pos (bound - start) step ltac:(lia) Hs). lia.
Qed.

(** ** The chunks of a bootstrap *)

(** Where the range is a whole number of steps, the chunks are those of the grid. *)
Lemma tiles_grid step bound start chunks : 0 < step -> tiles step bound start chunks ->
  (step | bound - start) ->
  forall c, c ∈ chunks <-> (step | ch_start_ms c - start) /\ start <= ch_start_ms c < bound /\
    ch_end_ms c = ch_start_ms c + step.
Proof.
  intros Hs Ht. induction Ht as [|start chunks Hlt Ht IH]; intros Hd c.
  - split; [by intros ?%not_elem_of_nil|intros (_ & ? & _); lia].
  - assert (Hle : start + step <= bound) by (destruct Hd as [k Hk]; assert (1 <= k) by nia; nia).
    rewrite Z.min_l in * by done. rewrite elem_of_cons, IH by
      (replace (bound - (start + step)) with (bound - start - step) by lia;
       by apply Z.divide_sub_r, Z.divide_refl).
    split.
    + intros [->|(Hdiv & Hr & He)]; [cbn; split; [by rewrite Z.sub_diag; apply Z.divide_0_r|lia]|].
      split; [|lia]. replace (ch_start_ms c - start) with (ch_start_ms c - (start + step) + step) by lia.
      by apply Z.divide_add_r, Z.divide_refl.
    + intros (Hdiv & Hr & He). destruct (decide (ch_start_ms c = start)) as [Heq|Hne].
      * left. destruct c; cbn in *. by subst.
      * right. destruct Hdiv as [k Hk]. assert (1 <= k) by nia. split; [|split; [nia|done]].
        exists (k - 1). lia.
Qed.

Lemma tiles_ends step bound start chunks : 0 < step -> start <= bound -> tiles step bound start chunks ->
  Forall (fun c => start <= ch_start_ms c < ch_end_ms c /\ ch_end_ms c <= bound) chunks.
Proof.
  intros Hs Hle Ht. induction Ht as [|start chunks Hlt Ht IH]; constructor; [cbn; lia|].
  eapply Forall_impl; [apply IH; lia|]. cbn. lia.
Qed.

Definition HOUR : Z := 3600000.
Definition chunk_length (a : SupervisorArgs) : Z := ss_bootstrap_chunk_hours a * HOUR.
Definition lookback_length (a : SupervisorArgs) : Z := ss_bootstrap_lookback_days a * 24 * HOUR.

(** The chunks end at the last whole chunk that an hour ago had passed. *)
Definition bootstrap_end (a : SupervisorArgs) (now_ms : Z) : Z :=
  (now_ms - HOUR) / chunk_length a * chunk_length a.

(** A clock after the lookback, far from the end of its type. *)
Definition lookback_ok (a : SupervisorArgs) (now_ms : Z) : Prop :=
  lookback_length a + HOUR + chunk_length a <= now_ms <= int_max I64.

Lemma chunk_length_facts a : supervised a ->
  0 < chunk_length a /\ (chunk_length a | lookback_length a) /\ chunk_length a <= 24 * HOUR.
Proof.
  intros [[] _ _ _ _ [Hh Hrem] _]. unfold chunk_length, lookback_length, HOUR. split_and!; [lia| |lia].
  apply Z.rem_divide in Hrem as [k Hk]; [|lia].
  exists (ss_bootstrap_lookback_days a * k). nia.
Qed.

Lemma bootstrap_chunks_tile a now_ms : supervised a -> lookback_ok a now_ms ->
  tiles (chunk_length a) (bootstrap_end a now_ms) (bootstrap_end a now_ms - lookback_length a)
    (bootstrap_chunks a now_ms) /\
  0 <= bootstrap_end a now_ms - lookback_length a /\ bootstrap_end a now_ms <= now_ms - HOUR.
Proof.
  intros Hs [Hlo Hhi]. destruct (chunk_length_facts a Hs) as (Hpos & Hdiv & Hday).
  destruct Hs as [[] _ _ _ _ _ _].
  assert (Hlook : 0 < lookback_length a) by (unfold lookback_length, HOUR; lia).
  set (c := chunk_length a) in *. set (e := bootstrap_end a now_ms).
  assert (He : e = (now_ms - HOUR) / c * c) by done. clearbody e.
  pose proof (Z.div_mod (now_ms - HOUR) c ltac:(lia)) as Hdm.
  pose proof (Z.mod_pos_bound (now_ms - HOUR) c Hpos) as Hmod.
  assert (Hs0 : 0 <= e - lookback_length a) by (unfold HOUR in *; nia).
  split; [|unfold HOUR in *; split; [done|nia]].
  unfold bootstrap_chunks.
  assert (Hl : saturate I64 (saturate I64 (ss_bootstrap_lookback_days a * 24) * 3600000)
    = lookback_length a).
  { unfold lookback_length, HOUR in *. unfold saturate. cbn in *. lia. }
  assert (Hc : saturate I64 (ss_bootstrap_chunk_hours a * 3600000) = c).
  { unfold c, chunk_length, HOUR in *. unfold saturate. cbn in *. lia. }
  rewrite Hl, Hc, (proj2 (Z.leb_gt c 0)) by lia. cbn zeta. unfold align_down_to_chunk.
  rewrite !div_euclid_pos by done. change 3600000 with HOUR.
  assert (Hr : forall z, 0 <= z <= now_ms -> in_range I64 z) by (intros z Hz; unfold in_range; cbn in *; lia).
  assert (Hle : e <= now_ms - HOUR) by nia.
  rewrite (saturate_id _ (now_ms - HOUR)) by (apply Hr; unfold HOUR in *; lia). rewrite <- He.
  rewrite (wrap_id _ e) by (apply Hr; unfold HOUR in *; lia).
  rewrite (saturate_id _ (e - _)) by (apply Hr; unfold HOUR in *; lia).
  assert (Hgrid : (e - lookback_length a) / c * c = e - lookback_length a).
  { rewrite Z.mul_comm, <- Z.divide_div_mul_exact; [|lia|].
    - rewrite Z.mul_comm. apply Z.div_mul. lia.
    - apply Z.divide_sub_r; [rewrite He; by apply Z.divide_factor_r|done]. }
  rewrite Hgrid, wrap_id by (apply Hr; unfold HOUR in *; lia).
  apply chunk_loop_tiles; [done|unfold HOUR in *; cbn in *; lia|unfold HOUR in *; lia|].
  apply chunk_fuel_enough; lia.
Qed.

Lemma subchunks_tile a chunk : supervised a -> 0 <= ch_start_ms chunk < ch_end_ms chunk ->
  ch_end_ms chunk <= int_max I64 ->
  tiles (ss_normalize_schedule_interval_ms a) (ch_end_ms chunk) (ch_start_ms chunk)
    (normalize_subchunks a chunk).
Proof.
  intros [[] _ _ _ _ _ _] Hc Hm. unfold normalize_subchunks.
  rewrite (proj2 (Z.leb_gt (ss_normalize_schedule_interval_ms a) 0)) by lia.
  rewrite (proj2 (Z.leb_gt (ch_end_ms chunk) _)) by lia. cbn [orb].
  apply chunk_loop_tiles; [lia|cbn in *; lia|done|]. apply chunk_fuel_enough; lia.
Qed.

(** The chunks of a bootstrap: those of the grid of their length, from the lookback before
    the last chunk boundary an hour old up to that boundary. *)
Lemma bootstrap_chunk_iff a now_ms : supervised a -> lookback_ok a now_ms ->
  forall c, c ∈ bootstrap_chunks a now_ms <->
    (chunk_length a | ch_start_ms c) /\ ch_end_ms c = ch_start_ms c + chunk_length a /\
    bootstrap_end a now_ms - lookback_length a <= ch_start_ms c < bootstrap_end a now_ms.
Proof.
  intros Hs Hn c. destruct (chunk_length_facts a Hs) as (Hpos & Hdiv & _).
  destruct (bootstrap_chunks_tile a now_ms Hs Hn) as (Ht & _ & _).
  assert (Hend : (chunk_length a | bootstrap_end a now_ms)) by by apply Z.divide_factor_r.
  rewrite (tiles_grid _ _ _ _ Hpos Ht).
  - assert (Hiff : (chunk_length a | ch_start_ms c - (bootstrap_end a now_ms - lookback_length a))
      <-> (chunk_length a | ch_start_ms c)); [|rewrite Hiff; tauto].
    assert (Hstart : (chunk_length a | bootstrap_end a now_ms - lookback_length a))
      by by apply Z.divide_sub_r.
    split; intros Hd; [|by apply Z.divide_sub_r].
    replace (ch_start_ms c) with (ch_start_ms c - (bootstrap_end a now_ms - lookback_length a)
      + (bootstrap_end a now_ms - lookback_length a)) by lia. by apply Z.divide_add_r.
  - by replace (bootstrap_end a now_ms - (bootstrap_end a now_ms - lookback_length a))
      with (lookback_length a) by lia.
Qed.

Lemma tiles_first step bound start chunks : tiles step bound start chunks -> start < bound ->
  mkChunk start (Z.min (start + step) bound) ∈ chunks.
Proof. intros Ht Hlt. destruct Ht; [lia|]. by left. Qed.

Lemma tiles_last step bound start chunks : tiles step bound start chunks -> start < bound ->
  exists c, c ∈ chunks /\ ch_end_ms c = bound.
Proof.
  intros Ht. induction Ht as [|start chunks Hlt Ht IH]; [lia|]. intros _.
  destruct (decide (Z.min (start + step) bound < bound)) as [Hm|Hm].
  - destruct (IH Hm) as (c & Hc & He). exists c. split; [by right|done].
  - exists (mkChunk start (Z.min (start + step) bound)). split; [by left|]. cbn. lia.
Qed.

(** ** The settings under which a chunk can be normalized *)

(** The normalizer of the piece parses its arguments and takes the piece as its range. *)
Definition normalizer_runs (a : SupervisorArgs) (c : BootstrapChunk) : Prop :=
  exists p, parse_args (normalize_backfill_args a c) = Ok (Some p) /\
    forall now_ms last oldest, decide_mode p now_ms last oldest
      = Ok (Some (mkDecision Backfill (mkRange (ch_start_ms c) (ch_end_ms c)))).

Lemma rem_zero a b : 0 < b -> (Z.rem a b =? 0) = true <-> (b | a).
Proof. intros Hb. rewrite Z.eqb_eq, Z.rem_divide; [done|lia]. Qed.

Lemma validate_range_iff start end_ms window interval : 0 < window -> 0 < interval -> 0 <= start < end_ms ->
  validate_range start end_ms window interval = Ok () <->
  ((window | start) /\ (window | end_ms)) /\ ((interval | start) /\ (interval | end_ms)).
Proof.
  intros Hw Hi Hs. unfold validate_range.
  rewrite (proj2 (Z.ltb_ge start 0)), (proj2 (Z.leb_gt end_ms start)) by lia.
  rewrite (proj2 (Z.ltb_lt 0 window)), (proj2 (Z.ltb_lt 0 interval)) by lia. cbn [orb andb].
  rewrite <- !(rem_zero _ window), <- !(rem_zero _ interval) by done.
  destruct (Z.rem start window =? 0), (Z.rem end_ms window =? 0), (Z.rem start interval =? 0),
    (Z.rem end_ms interval =? 0); cbn; naive_solver.
Qed.

Lemma normalizer_runs_iff {V : Environment} {C : ConfigFiles} argv a c :
  parse_supervisor_args argv = Ok (Some a) -> 0 <= ch_start_ms c < ch_end_ms c ->
  ch_end_ms c <= int_max I64 ->
  normalizer_runs a c <->
  ((1000 | ch_start_ms c) /\ (1000 | ch_end_ms c)) /\
  ((ss_normalize_schedule_interval_ms a | ch_start_ms c)
   /\ (ss_normalize_schedule_interval_ms a | ch_end_ms c)).
Proof.
  intros Hp Hc Hm. destruct (parsed_supervised argv a Hp) as [[] _ _ _ _ _ _].
  assert (Hread : parse_args (normalize_backfill_args a c) = Ok (Some (normalize_settings a
    (Some (ch_start_ms c)) (Some (ch_end_ms c)) false (ss_normalize_max_windows_per_tick a)))).
  { apply chunk_args_read; [by eapply parsed_supervised| |]; unfold in_range; cbn in *; lia. }
  rewrite <- (validate_range_iff _ _ 1000 (ss_normalize_schedule_interval_ms a)) by (done || lia).
  unfold normalizer_runs. rewrite Hread. split.
  - intros (p & [= <-] & Hd). specialize (Hd 0 None None). unfold decide_mode in Hd. cbn in Hd.
    by destruct (validate_range _ _ _ _) as [[]|].
  - intros Hv. eexists. split; [done|]. intros. unfold decide_mode. cbn. by rewrite Hv.
Qed.

Lemma parts_run_iff {V : Environment} {C : ConfigFiles} argv a c :
  parse_supervisor_args argv = Ok (Some a) -> 0 <= ch_start_ms c -> ch_end_ms c <= int_max I64 ->
  ch_end_ms c = ch_start_ms c + chunk_length a -> (chunk_length a | ch_start_ms c) ->
  (forall sub, sub ∈ normalize_subchunks a c -> normalizer_runs a sub) <->
  (ss_normalize_schedule_interval_ms a | chunk_length a) /\ (1000 | ss_normalize_schedule_interval_ms a).
Proof.
  intros Hp Hstart Hmax Hlen Hgrid. pose proof (parsed_supervised argv a Hp) as Hs.
  destruct (chunk_length_facts a Hs) as (Hpos & _ & _).
  assert (Hi : 0 < ss_normalize_schedule_interval_ms a) by (destruct Hs as [[] _ _ _ _ _ _]; lia).
  pose proof (subchunks_tile a c Hs ltac:(lia) Hmax) as Ht.
  set (i := ss_normalize_schedule_interval_ms a) in *.
  pose proof (tiles_ends i (ch_end_ms c) (ch_start_ms c) _ Hi ltac:(lia) Ht) as Hends. rewrite Forall_forall in Hends.
  assert (Hsec : (1000 | chunk_length a)).
  { unfold chunk_length. apply Z.divide_mul_r. by exists 3600. }
  assert (Hiff : forall sub, sub ∈ normalize_subchunks a c -> normalizer_runs a sub <->
    ((1000 | ch_start_ms sub) /\ (1000 | ch_end_ms sub)) /\ ((i | ch_start_ms sub) /\ (i | ch_end_ms sub))).
  { intros sub Hsub%Hends. by apply (normalizer_runs_iff argv); [|lia|lia]. }
  split.
  - intros Hall. pose proof (tiles_first _ _ _ _ Ht ltac:(lia)) as Hfirst.
    destruct (tiles_last _ _ _ _ Ht ltac:(lia)) as (z & Hz & Hze).
    pose proof (proj1 (Hiff _ Hfirst) (Hall _ Hfirst)) as [[Ha Hb] [Hc _]].
    pose proof (proj1 (Hiff _ Hz) (Hall _ Hz)) as [_ [_ Hd]]. cbn in Ha, Hb, Hc. rewrite Hze in Hd.
    assert (Hil : (i | chunk_length a)).
    { replace (chunk_length a) with (ch_end_ms c - ch_start_ms c) by lia. by apply Z.divide_sub_r. }
    split; [done|]. pose proof (Z.divide_pos_le _ _ Hpos Hil) as Hle. rewrite Z.min_l in Hb by lia.
    replace i with (ch_start_ms c + i - ch_start_ms c) by lia. by apply Z.divide_sub_r.
  - intros [Hil H1000] sub Hsub. apply Hiff; [done|].
    apply (tiles_grid _ _ _ _ Hi Ht) in Hsub as (Hd & _ & He); [|by replace (_ - _) with (chunk_length a) by lia].
    pose proof (Z.divide_trans _ _ _ Hil Hgrid) as Hstart'.
    assert (Hs' : (i | ch_start_ms sub)).
    { replace (ch_start_ms sub) with (ch_start_ms sub - ch_start_ms c + ch_start_ms c) by lia.
      by apply Z.divide_add_r. }
    assert (He' : (i | ch_end_ms sub)) by (rewrite He; by apply Z.divide_add_r, Z.divide_refl).
    split; split; try done; by apply (Z.divide_trans _ i).
Qed.

(** The chunks of a bootstrap are consecutive pieces of one grid, each of the configured
    length, that reach from the lookback before the last boundary an hour old up to that
    boundary; a later pass has the same chunks, less those that have left the lookback; and
    the pieces of a chunk cover it, the last one alone being shorter than the interval. *)
Theorem bootstrap_covers_the_lookback {V : Environment} argv a now_ms :
  parse_supervisor_args argv = Ok (Some a) -> lookback_ok a now_ms ->
  tiles (chunk_length a) (bootstrap_end a now_ms) (bootstrap_end a now_ms - lookback_length a)
    (bootstrap_chunks a now_ms) /\
  (bootstrap_end a now_ms <= now_ms - HOUR < bootstrap_end a now_ms + chunk_length a) /\
  (forall c, c ∈ bootstrap_chunks a now_ms ->
     ch_end_ms c = ch_start_ms c + chunk_length a /\ (chunk_length a | ch_start_ms c) /\
     tiles (ss_normalize_schedule_interval_ms a) (ch_end_ms c) (ch_start_ms c)
       (normalize_subchunks a c) /\
     forall later_ms, lookback_ok a later_ms -> now_ms <= later_ms ->
       bootstrap_end a later_ms - lookback_length a <= ch_start_ms c ->
       c ∈ bootstrap_chunks a later_ms).
Proof.
  intros Hp Hn. pose proof (parsed_supervised argv a Hp) as Hs.
  destruct (chunk_length_facts a Hs) as (Hpos & _ & _).
  destruct (bootstrap_chunks_tile a now_ms Hs Hn) as (Ht & H0 & Hle).
  pose proof (Z.div_mod (now_ms - HOUR) (chunk_length a) ltac:(lia)) as Hdm.
  pose proof (Z.mod_pos_bound (now_ms - HOUR) (chunk_length a) Hpos) as Hmod.
  split; [done|]. split; [split; [done|unfold bootstrap_end; lia]|]. intros c Hc.
  pose proof (proj1 (bootstrap_chunk_iff a now_ms Hs Hn c) Hc) as (Hd & He & Hr).
  split_and!; [done|done| |].
  - destruct Hn as [_ Hmax]. apply subchunks_tile; [done|lia|].
    pose proof (tiles_ends (chunk_length a) (bootstrap_end a now_ms)
      (bootstrap_end a now_ms - lookback_length a) _ Hpos ltac:(lia) Ht) as Hends. rewrite Forall_forall in Hends.
    apply Hends in Hc. unfold HOUR in *. lia.
  - intros later Hl Hlater Hin. apply bootstrap_chunk_iff; [done|done|]. split_and!; [done|done|done|].
    eapply Z.lt_le_trans; [apply Hr|]. unfold bootstrap_end.
    apply Z.mul_le_mono_nonneg_r; [lia|]. apply Z.div_le_mono; lia.
Qed.

(** The normalizers of a chunk all parse their arguments and take their piece as the range
    to work on exactly when the interval is a whole number of seconds that divides the
    chunk, though the supervisor takes any positive one. *)
Lemma chunk_normalizers_run_iff {V : Environment} {C : ConfigFiles} argv a now_ms c :
  parse_supervisor_args argv = Ok (Some a) -> lookback_ok a now_ms ->
  c ∈ bootstrap_chunks a now_ms ->
  (forall sub, sub ∈ normalize_subchunks a c -> normalizer_runs a sub) <->
  (ss_normalize_schedule_interval_ms a | chunk_length a) /\ (1000 | ss_normalize_schedule_interval_ms a).
Proof.
  intros Hp Hn Hc. pose proof (parsed_supervised argv a Hp) as Hs.
  destruct (chunk_length_facts a Hs) as (Hpos & _ & _).
  destruct (bootstrap_chunks_tile a now_ms Hs Hn) as (Ht & H0 & Hle).
  apply bootstrap_chunk_iff in Hc as (Hd & He & Hr); [|done|done].
  assert (ch_end_ms c <= bootstrap_end a now_ms).
  { destruct Hd as [k Hk]. unfold bootstrap_end in *.
    set (q := (now_ms - HOUR) / chunk_length a) in *. assert (k < q) by nia. nia. }
  apply (parts_run_iff argv); [done|lia| |done|done]. destruct Hn. unfold HOUR in *. lia.
Qed.

(** There is a first chunk. *)
Lemma first_chunk a now_ms : supervised a -> lookback_ok a now_ms -> exists c, c ∈ bootstrap_chunks a now_ms.
Proof.
  intros Hs Hn. destruct (bootstrap_chunks_tile a now_ms Hs Hn) as (Ht & _ & _).
  eexists. apply (tiles_first _ _ _ _ Ht). unfold lookback_length, HOUR. destruct Hs as [[] _ _ _ _ _ _]. lia.
Qed.

(** The pieces of a chunk are in range. *)
Lemma chunk_bounds a now_ms c sub : supervised a -> lookback_ok a now_ms -> c ∈ bootstrap_chunks a now_ms ->
  sub ∈ normalize_subchunks a c -> in_range I64 (ch_start_ms sub) /\ in_range I64 (ch_end_ms sub).
Proof.
  intros Hs Hn Hc Hsub. destruct (chunk_length_facts a Hs) as (Hpos & _ & _).
  destruct (bootstrap_chunks_tile a now_ms Hs Hn) as (Ht & H0 & Hle).
  assert (0 <= lookback_length a) by (unfold lookback_length, HOUR; destruct Hs as [[] _ _ _ _ _ _]; lia).
  pose proof (tiles_ends (chunk_length a) (bootstrap_end a now_ms)
    (bootstrap_end a now_ms - lookback_length a) _ Hpos ltac:(lia) Ht) as Hends.
  rewrite Forall_forall in Hends. apply Hends in Hc. destruct Hn as [_ Hmax]. unfold HOUR in Hle.
  pose proof (subchunks_tile a c Hs ltac:(lia) ltac:(lia)) as Hts.
  assert (Hi : 0 < ss_normalize_schedule_interval_ms a) by (destruct Hs as [[] _ _ _ _ _ _]; lia).
  pose proof (tiles_ends _ (ch_end_ms c) (ch_start_ms c) _ Hi ltac:(lia) Hts) as He. rewrite Forall_forall in He. apply He in Hsub.
  unfold in_range. cbn in *. lia.
Qed.

(** ** Samples *)

#[local] Instance sample_environment : Environment := {| env_var := fun _ => None |}.
#[local] Instance sample_files : ConfigFiles :=
  Build_ConfigFiles (fun _ => Err "none"%string) (fun _ => Err "none"%string) (fun _ => Err "none"%string)
    (fun _ => Err "none"%string) (fun _ u => u) (fun _ => ""%string).

Definition sample_argv : list string :=
  ["--l0-s3-bucket"; "l0"; "--l1-s3-bucket"; "l1"; "--bootstrap-lookback-days"; "1";
   "--bootstrap-chunk-hours"; "6"; "--normalize-schedule-interval-ms"; "7200000"]%string.
Definition sample_settings : SupervisorArgs :=
  match parse_supervisor_args sample_argv with
  | Ok (Some a) => a | _ => supervisor_defaults end.
Definition sample_now : Z := 1778947200123.
Definition sample_chunk : BootstrapChunk := mkChunk 1778911200000 1778932800000.

Lemma sample_parsed : parse_supervisor_args sample_argv = Ok (Some sample_settings).
Proof. by vm_compute. Qed.
Lemma sample_lookback : lookback_ok sample_settings sample_now.
Proof. split; by vm_compute. Qed.
Lemma sample_chunk_in : sample_chunk ∈ bootstrap_chunks sample_settings sample_now.
Proof. vm_decide. Qed.

Lemma bootstrap_covers_the_lookback_witness :
  zlen (bootstrap_chunks sample_settings sample_now) = 4 /\
  zlen (normalize_subchunks sample_settings sample_chunk) = 3 /\
  tiles 7200000 1778932800000 1778911200000 (normalize_subchunks sample_settings sample_chunk).
Proof.
  split; [by vm_compute|]. split; [by vm_compute|].
  destruct (bootstrap_covers_the_lookback sample_argv _ _ sample_parsed sample_lookback) as (_ & _ & Hc).
  destruct (Hc _ sample_chunk_in) as (_ & _ & Ht & _). exact Ht.
Defined.

Lemma chunk_normalizers_run_iff_witness :
  exists sub, sub ∈ normalize_subchunks sample_settings sample_chunk /\ normalizer_runs sample_settings sub.
Proof.
  exists (mkChunk 1778911200000 1778918400000). split; [vm_decide|].
  apply (chunk_normalizers_run_iff sample_argv _ _ _ sample_parsed sample_lookback sample_chunk_in).
  - split; [by exists 3|by exists 7200].
  - vm_decide.
Defined.
