(* ===== verification/SupervisorRuns.v ===== *)
(** * SupervisorRuns: what the markers mean, and what the main loop keeps

    The bootstrap scheduler over any store, clock and children that behave as documented:
    a complete marker is only ever written when its chunk is stored and normalized.  The
    main loop as a step relation. *)
From S2P Require Import Prelude Text OrderedMap Cli Records S3Client NormalizeArgs L1Window IngestArgs.
From S2P Require Import SupervisorArgs WorkerArgs Supervisor Effects.
Open Scope Z_scope.

(** ** Keys *)

Lemma chunk_keys_inj (c c' : BootstrapChunk) last last' :
  ("supervisor/bootstrap/venue=binance/start_ms=" ++ show_Z (ch_start_ms c) ++ "/end_ms="
     ++ show_Z (ch_end_ms c) ++ "/" ++ last)%string
  = ("supervisor/bootstrap/venue=binance/start_ms=" ++ show_Z (ch_start_ms c') ++ "/end_ms="
     ++ show_Z (ch_end_ms c') ++ "/" ++ last')%string -> c = c' /\ last = last'.
Proof.
  intros H%str_app_inj_l.
  apply (component_inj _ _ "end_ms=") in H as [Hs%show_Z_inj H]; [|apply show_Z_no_slash..].
  apply (component_inj _ _ "") in H as [He%show_Z_inj Hl]; [|apply show_Z_no_slash..].
  destruct c, c'. cbn in *. by subst.
Qed.

Lemma marker_keys_inj c c' :
  (l0_marker_key c = l0_marker_key c' -> c = c') /\
  (complete_marker_key c = complete_marker_key c' -> c = c') /\
  l0_marker_key c <> complete_marker_key c'.
Proof.
  unfold l0_marker_key, complete_marker_key.
  split_and!; intros H; by apply (chunk_keys_inj c c') in H as [? ?].
Qed.

(** ** The scheduler *)

Section scheduler.
Context {L : StorageLib} {W B V : Type} {OS : ObjectStore W B} {J : DocJson V} {H : Host W B V}.
Context (a : SupervisorArgs).

(** The objects of the L1 bucket, and what the world remembers of the work done. *)
Context (stored : W -> gmap string B) (l0_done l1_done : BootstrapChunk -> W -> Prop).

(** Work once done stays done, and time does not go back. *)
Record kept (w w' : W) : Prop := {
  kp_l0 : forall c, l0_done c w -> l0_done c w';
  kp_l1 : forall c, l1_done c w -> l1_done c w';
  kp_now : host_now w <= host_now w' }.

(** Nothing but the supervisor writes its markers. *)
Record steady (w w' : W) : Prop := {
  sd_kept : kept w w';
  sd_markers : forall k, starts_with "supervisor/" k = true -> stored w' !! k = stored w !! k }.

(** Documented behaviour of the store and of the children: a put answered with success has
    happened and another may have; a backfill that exits with success has stored the trades
    of its chunk; a normalizer that does has written the windows of its piece; and so it has
    when the pointer of a piece says so. *)
Record HostLaws : Prop := {
  hl_put : forall r w, pq_bucket r = ss_l1_s3_bucket a -> kept w (os_put r w).1 /\
    ((stored (os_put r w).1 = stored w /\ forall u, (os_put r w).2 <> Ok u) \/
     stored (os_put r w).1 = <[pq_key r := pq_body r]> (stored w));
  hl_get : forall k w, let p := os_get (ss_l1_s3_bucket a) k w in
    kept w p.1 /\ stored p.1 = stored w /\ forall b, p.2 = Ok b -> stored w !! k = Some b;
  hl_sleep : forall d w, kept w (os_sleep d w) /\ stored (os_sleep d w) = stored w;
  hl_pause : forall d w, kept w (host_sleep d w) /\ stored (host_sleep d w) = stored w;
  hl_wait : forall w, kept w (host_wait w) /\ stored (host_wait w) = stored w;
  hl_run : forall bin argv w, steady w (host_run bin argv w).1;
  hl_backfill : forall c w w', host_run (ss_backfill_bin a) (backfill_args a c) w
    = (w', Ok ChildSuccess) -> l0_done c w';
  hl_normalize : forall c w w', host_run (ss_normalize_bin a) (normalize_backfill_args a c) w
    = (w', Ok ChildSuccess) -> l1_done c w';
  hl_pointer : forall c w b v, stored w !! index_pointer_key 1000 (ch_start_ms c) = Some b ->
    host_decode b = Ok v -> pointer_covers c v = true -> l1_done c w }.

Context (HL : HostLaws).

Lemma kept_refl w : kept w w.
Proof. by split. Qed.
Lemma kept_trans w1 w2 w3 : kept w1 w2 -> kept w2 w3 -> kept w1 w3.
Proof. intros [] []. split; [naive_solver|naive_solver|lia]. Qed.

Lemma steady_refl w : steady w w.
Proof. split; [apply kept_refl|done]. Qed.
Lemma steady_trans w1 w2 w3 : steady w1 w2 -> steady w2 w3 -> steady w1 w3.
Proof. intros [H1 M1] [H2 M2]. split; [by eapply kept_trans|]. intros k Hk. by rewrite M2, M1. Qed.
Lemma steady_same w w' : kept w w' /\ stored w' = stored w -> steady w w'.
Proof. intros [Hk Hs]. split; [done|]. by rewrite Hs. Qed.

Lemma download_runs key w w' r : download a key w = (w', r) ->
  steady w w' /\ stored w' = stored w /\
  forall v, r = Ok (Some v) -> exists b, stored w !! key = Some b /\ host_decode b = Ok v.
Proof.
  unfold download, from_store, io_map_err, download_json_optional.
  destruct (hl_get HL key w) as (Hk & Hs & Hb). destruct (os_get _ key w) as [w1 [b|e]]; cbn in *;
    intros [= <- <-]; (split_and!; [by apply steady_same|done|]); intros v Hv.
  - exists b. split; [by apply Hb|]. by destruct (host_decode b); cbn in Hv; simplify_eq.
  - by destruct (is_not_found_get_error e).
Qed.
Lemma put_attempts_runs n attempt request w w' r : pq_bucket request = ss_l1_s3_bucket a ->
  put_attempts (ss_l1_s3_bucket a) n attempt request w = (w', r) ->
  kept w w' /\ ((stored w' = stored w /\ r <> Ok ()) \/
    stored w' = <[pq_key request := pq_body request]> (stored w)).
Proof.
  intros Hb. revert attempt w. induction n as [|n IH]; intros attempt w; cbn [put_attempts].
  { intros [= <- <-]. split; [apply kept_refl|by left]. }
  destruct (hl_put HL request w Hb) as [Hk Hs]. destruct (os_put request w) as [w1 [[]|e]]; cbn in *.
  { intros [= <- <-]. split; [done|]. destruct Hs as [[_ Hs]|Hs]; [by destruct (Hs ())|by right]. }
  destruct (_ || _).
  - intros [= <- <-]. split; [done|]. destruct Hs as [[Hs _]|Hs]; [by left|by right].
  - intros Hr%IH. destruct (hl_sleep HL (retry_delay attempt (pq_key request)) w1) as [Hk' Hs'].
    rewrite Hs' in Hr. destruct Hr as [Hk'' Hr].
    split; [eapply kept_trans; [done|by eapply kept_trans]|].
    destruct Hs as [[Hs _]|Hs]; rewrite Hs in Hr; [done|]. right.
    destruct Hr as [[Hr _]|Hr]; rewrite Hr; [done|]. by rewrite insert_insert_eq.
Qed.

Lemma upload_marker_runs key m w w' r : upload_marker a key m w = (w', r) ->
  kept w w' /\ (stored w' = stored w \/ exists b, stored w' = <[key := b]> (stored w)) /\
  (r = Ok () -> is_Some (stored w' !! key)).
Proof.
  unfold upload_marker, mbind, io_bind, io_of. destruct (host_marker m) as [payload|e]; cbn.
  2:{ intros [= <- <-]. split_and!; [apply kept_refl|by left|done]. }
  unfold from_store, io_map_err. destruct (upload_json _ key payload w) as [w1 r1] eqn:E.
  intros [= <- <-]. unfold upload_json, put_object_with_retry, put_object_with_retry_guarded in E.
  apply put_attempts_runs in E as [Hk Hs].
  2:{ unfold put_request. by destruct (_ && _). }
  assert (Hreq : forall A (f : PutRequest B -> A) k b, (forall c e n, f (mkPut (ss_l1_s3_bucket a) k b c e n)
    = f (mkPut (ss_l1_s3_bucket a) k b "" None None)) -> f (put_request (ss_l1_s3_bucket a) k b
    "application/json" None) = f (mkPut (ss_l1_s3_bucket a) k b "" None None)).
  { intros A f k b Hf. unfold put_request. destruct (_ && _); apply Hf. }
  rewrite (Hreq _ (@pq_key B)), (Hreq _ (@pq_body B)) in Hs by done. cbn in Hs.
  split; [done|]. destruct Hs as [[Hs Hr]|Hs]; rewrite Hs.
  - split; [by left|]. intros Hok. destruct r1 as [[]|]; [by destruct Hr|done].
  - split; [right; by eexists|]. intros _. rewrite lookup_insert_eq. by eexists.
Qed.

Lemma has_l1_runs c w w' r : has_l1_success a c w = (w', r) ->
  steady w w' /\ (r = Ok true -> l1_done c w').
Proof.
  unfold has_l1_success, mbind, io_bind. destruct (download a _ w) as [w1 r1] eqn:E.
  apply download_runs in E as (Hs & Hst & Hv). destruct r1 as [[v|]|e]; intros [= <- <-]; (split; [done|]);
    try discriminate. intros [= Hc]. destruct (Hv v eq_refl) as (b & Hb & Hd). rewrite <- Hst in Hb.
  by eapply hl_pointer.
Qed.

Lemma has_marker_runs key w w' r :
  (marker ← download a key; mret (given marker)) w = (w', r) ->
  steady w w' /\ stored w' = stored w /\ (r = Ok true -> is_Some (stored w' !! key)).
Proof.
  unfold mbind, io_bind. destruct (download a _ w) as [w1 r1] eqn:E.
  apply download_runs in E as (Hs & Hst & Hv). destruct r1 as [[v|]|e]; intros [= <- <-];
    (split_and!; [done|done|]); try discriminate.
  intros _. destruct (Hv v eq_refl) as (b & Hb & _). rewrite Hst, Hb. by eexists.
Qed.

Lemma normalize_all_runs chunks w w' r : normalize_all a chunks w = (w', r) ->
  steady w w' /\ (r = Ok true -> forall c, c ∈ chunks -> l1_done c w').
Proof.
  revert w. induction chunks as [|c chunks IH]; intros w; cbn [normalize_all].
  { intros [= <- <-]. split; [apply steady_refl|]. intros _ c []%not_elem_of_nil. }
  assert (Hnext : forall w1, steady w w1 -> l1_done c w1 -> normalize_all a chunks w1 = (w', r) ->
    steady w w' /\ (r = Ok true -> forall d, d ∈ c :: chunks -> l1_done d w')).
  { intros w1 Hw Hd Hr. apply IH in Hr as [Hs Hall]. split; [by eapply steady_trans|].
    intros Hok d [->|Hin]%elem_of_cons; [by eapply kp_l1; [apply sd_kept|]|by apply Hall]. }
  unfold mbind, io_bind. destruct (has_l1_success a c w) as [w1 [[]|e]] eqn:E;
    apply has_l1_runs in E as [Hs Hd].
  - apply Hnext; [done|by apply Hd].
  - pose proof (hl_run HL (ss_normalize_bin a) (normalize_backfill_args a c) w1) as Hrun.
    destruct (host_run _ _ w1) as [w2 [status|e]] eqn:E2; cbn in Hrun.
    + destruct status; cbn [child_success].
      * apply Hnext; [by eapply steady_trans|]. by eapply hl_normalize.
      * intros [= <- <-]. by split; [eapply steady_trans|].
      * intros [= <- <-]. by split; [eapply steady_trans|].
    + intros [= <- <-]. by split; [eapply steady_trans|].
  - intros [= <- <-]. by split.
Qed.
(** Every marker was earned: that of the L0 objects by a backfill, the complete one by that
    and by the normalizers of all pieces. *)
Record earned (w : W) : Prop := {
  er_l0 : forall c, is_Some (stored w !! l0_marker_key c) -> l0_done c w;
  er_complete : forall c, is_Some (stored w !! complete_marker_key c) ->
    is_Some (stored w !! l0_marker_key c) /\
    forall sub, sub ∈ normalize_subchunks a c -> l1_done sub w }.

Lemma earned_steady w w' : steady w w' -> earned w -> earned w'.
Proof.
  intros [Hk Hm] [H0 Hc]. split; intros c.
  - rewrite Hm by done. intros Hs. by apply (kp_l0 _ _ Hk), H0.
  - rewrite !Hm by done. intros [Hs Hd]%Hc. split; [done|]. intros. by apply (kp_l1 _ _ Hk), Hd.
Qed.

Lemma earned_l0 w w' c b : kept w w' -> stored w' = <[l0_marker_key c := b]> (stored w) ->
  l0_done c w -> earned w -> earned w'.
Proof.
  intros Hk Hs Hd [H0 Hc]. split; intros c'; rewrite !Hs.
  - destruct (decide (c' = c)) as [->|Hne]; [intros _; by apply (kp_l0 _ _ Hk)|].
    rewrite lookup_insert_ne by (intros He%marker_keys_inj; congruence).
    intros Hs'. by apply (kp_l0 _ _ Hk), H0.
  - rewrite lookup_insert_ne by apply marker_keys_inj. intros [Hs' Hd']%Hc. split.
    + destruct (decide (c' = c)) as [->|Hne]; [rewrite lookup_insert_eq; by eexists|].
      by rewrite lookup_insert_ne by (intros He%marker_keys_inj; congruence).
    + intros. by apply (kp_l1 _ _ Hk), Hd'.
Qed.

Lemma earned_complete w w' c b : kept w w' -> stored w' = <[complete_marker_key c := b]> (stored w) ->
  is_Some (stored w !! l0_marker_key c) ->
  (forall sub, sub ∈ normalize_subchunks a c -> l1_done sub w) -> earned w -> earned w'.
Proof.
  intros Hk Hs Hl0 Hd [H0 Hc]. split; intros c'; rewrite !Hs.
  - rewrite lookup_insert_ne by (intros He; by apply (proj2 (proj2 (marker_keys_inj c' c)))).
    intros Hs'. by apply (kp_l0 _ _ Hk), H0.
  - rewrite (lookup_insert_ne _ _ (l0_marker_key c'))
      by (intros He; by apply (proj2 (proj2 (marker_keys_inj c' c)))).
    destruct (decide (c' = c)) as [->|Hne].
    + intros _. split; [done|]. intros. by apply (kp_l1 _ _ Hk), Hd.
    + rewrite lookup_insert_ne by (intros He%marker_keys_inj; congruence).
      intros [Hs' Hd']%Hc. split; [done|]. intros. by apply (kp_l1 _ _ Hk), Hd'.
Qed.

Lemma backfill_child_runs c w w' r : run_backfill_child a c w = (w', r) ->
  steady w w' /\ (r = Ok true -> l0_done c w').
Proof.
  unfold run_backfill_child, mbind, io_bind.
  pose proof (hl_run HL (ss_backfill_bin a) (backfill_args a c) w) as Hrun.
  destruct (host_run _ _ w) as [w1 [status|e]] eqn:E; cbn in Hrun; intros [= <- <-]; (split; [done|]);
    [|done]. destruct status; try discriminate. intros _. by eapply hl_backfill.
Qed.

Definition good (t : Z) (w : W) : Prop := earned w /\ t <= host_now w.

Lemma good_steady t w w' : steady w w' -> good t w -> good t w'.
Proof. intros Hs [He Ht]. split; [by eapply earned_steady|]. destruct Hs as [[] _]. lia. Qed.

Lemma mark_l0_keeps t c : triple (fun w => good t w /\ l0_done c w) (mark_l0_success a c)
  (fun _ w => good t w /\ is_Some (stored w !! l0_marker_key c)) (good t).
Proof.
  intros w [[He Ht] Hd]. unfold mark_l0_success. destruct (upload_marker _ _ _ w) as [w' r] eqn:E.
  apply upload_marker_runs in E as (Hk & Hs & Hok).
  assert (Hg : good t w').
  { split; [|destruct Hk; lia]. destruct Hs as [Hs|[b Hs]]; [|by eapply earned_l0].
    eapply earned_steady; [by apply steady_same|done]. }
  destruct r as [[]|]; [|done]. split; [done|]. by apply Hok.
Qed.

Lemma mark_complete_keeps t c : triple (fun w => (good t w /\ is_Some (stored w !! l0_marker_key c)) /\
    forall sub, sub ∈ normalize_subchunks a c -> l1_done sub w)
  (mark_complete a c) (fun _ => good t) (good t).
Proof.
  intros w [[[He Ht] Hl0] Hd]. unfold mark_complete. destruct (upload_marker _ _ _ w) as [w' r] eqn:E.
  apply upload_marker_runs in E as (Hk & Hs & _).
  assert (Hg : good t w').
  { split; [|destruct Hk; lia]. destruct Hs as [Hs|[b Hs]]; [|by eapply earned_complete].
    eapply earned_steady; [by apply steady_same|done]. }
  by destruct r.
Qed.

Lemma chunk_keeps t c : keeps (good t) (run_backfill_chunk a c).
Proof.
  unfold keeps, run_backfill_chunk.
  eapply triple_bind with (mid := fun b w => good t w /\ (b = true -> is_Some (stored w !! l0_marker_key c))).
  { intros w Hg. destruct (has_l0_success a c w) as [w' r] eqn:E.
    apply has_marker_runs in E as (Hs & _ & Hr). pose proof (good_steady t _ _ Hs Hg) as Hg'.
    destruct r as [b|]; [|done]. split; [done|]. intros ->. by apply Hr. }
  intros l0. eapply triple_bind with (mid := fun b w =>
    good t w /\ (b = true -> is_Some (stored w !! l0_marker_key c))).
  { destruct l0; [apply triple_ret; intros w [Hg Hs]; by split; [|intros _; apply Hs]|].
    eapply triple_bind with (mid := fun b w => good t w /\ (b = true -> l0_done c w)).
    { intros w [Hg _]. destruct (run_backfill_child a c w) as [w' r] eqn:E.
      apply backfill_child_runs in E as [Hs Hr]. pose proof (good_steady t _ _ Hs Hg) as Hg'.
      destruct r as [b|]; [|done]. split; [done|]. intros ->. by apply Hr. }
    intros [].
    - eapply triple_bind with (mid := fun _ w => good t w /\ is_Some (stored w !! l0_marker_key c)).
      + eapply triple_weaken; [apply mark_l0_keeps|intros w [Hg Hd]; by split; [|apply Hd]|done|done].
      + intros _. apply triple_ret. intros w [Hg Hs]. by split; [|intros _].
    - apply triple_ret. by intros w [Hg _]. }
  intros []; cbn [negb]; [|apply triple_ret; by intros w [Hg _]].
  eapply triple_bind with (mid := fun b w => (good t w /\ is_Some (stored w !! l0_marker_key c)) /\
    (b = true -> forall sub, sub ∈ normalize_subchunks a c -> l1_done sub w)).
  { intros w [Hg Hs]. destruct (run_l1_normalize_chunk a c w) as [w' r] eqn:E.
    apply normalize_all_runs in E as [Hst Hr]. pose proof (good_steady t _ _ Hst Hg) as Hg'.
    destruct r as [b|]; [|done]. split; [|intros ->; by apply Hr]. split; [done|].
    rewrite (sd_markers _ _ Hst) by done. by apply Hs. }
  intros []; cbn [negb]; [|apply triple_ret; by intros w [[Hg _] _]].
  eapply triple_weaken; [apply mark_complete_keeps|intros w [Hg Hd]; by split; [|apply Hd]|done|done].
Qed.

Lemma first_missing_runs chunks w w' r : first_missing a chunks w = (w', r) ->
  steady w w' /\ (r = Ok None -> forall c, c ∈ chunks -> is_Some (stored w' !! complete_marker_key c)).
Proof.
  revert w. induction chunks as [|c chunks IH]; intros w; cbn [first_missing].
  { intros [= <- <-]. split; [apply steady_refl|]. intros _ c []%not_elem_of_nil. }
  unfold mbind, io_bind. destruct (has_complete a c w) as [w1 [[]|e]] eqn:E;
    apply has_marker_runs in E as (Hs & _ & Hd).
  - intros Hr%IH. destruct Hr as [Hs' Hall]. split; [by eapply steady_trans|].
    intros Hok d [->|Hin]%elem_of_cons; [|by apply Hall].
    rewrite (sd_markers _ _ Hs') by done. by apply Hd.
  - intros [= <- <-]. by split.
  - intros [= <- <-]. by split.
Qed.

Lemma sleep_keeps t secs : keeps (good t) (Supervisor.sleep secs).
Proof. intros w Hg. cbn. eapply good_steady; [apply steady_same, HL|done]. Qed.

Lemma scheduler_keeps t fuel : triple (good t) (scheduler_loop a fuel)
  (fun r w => good t w /\ (r = Some () -> host_shutdown w = true \/
     exists now, t <= now /\ forall c, c ∈ bootstrap_chunks a now ->
       is_Some (stored w !! complete_marker_key c))) (good t).
Proof.
  induction fuel as [|fuel IH]; intros w Hg; cbn [scheduler_loop]; [done|].
  destruct (host_shutdown w) eqn:Hdown; [split; [done|by left]|]. clear Hdown. revert w Hg.
  eapply (triple_bind (next_missing_bootstrap_chunk a) _ (good t) (fun chunk w => good t w /\
    (chunk = None -> exists now, t <= now /\ forall c, c ∈ bootstrap_chunks a now ->
       is_Some (stored w !! complete_marker_key c)))).
  - intros w Hg. unfold next_missing_bootstrap_chunk.
    destruct (first_missing a _ w) as [w' r] eqn:E. apply first_missing_runs in E as [Hs Hall].
    pose proof (good_steady t _ _ Hs Hg) as Hg'. destruct r as [chunk|]; [|done].
    split; [done|]. intros ->. exists (host_now w). split; [apply Hg|]. by apply Hall.
  - intros [chunk|].
    + eapply (triple_bind _ _ _ (fun _ => good t)).
      * eapply triple_weaken; [apply chunk_keeps|by intros ? [? _]|done|done].
      * intros u. eapply (triple_bind _ _ _ (fun _ => good t)); [apply sleep_keeps|]. intros u'. apply IH.
    + apply triple_ret. intros w' [Hg' Hnow]. split; [done|]. intros _. right. by apply Hnow.
Qed.
End scheduler.

(** What a run of the scheduler leaves. *)
Lemma backfill_scheduler_earns {L : StorageLib} {W B V : Type} {OS : ObjectStore W B}
    {J : DocJson V} {H : Host W B V} a stored l0_done l1_done fuel w
    (HL : HostLaws a stored l0_done l1_done) (Henabled : ss_bootstrap_enabled a = true)
    (Hw : earned a stored l0_done l1_done w) :
  let (w', r) := run_backfill_scheduler a fuel w in
  earned a stored l0_done l1_done w' /\
  (r = Ok (Some ()) -> host_shutdown w' = true \/
     exists now_ms, host_now w <= now_ms /\ forall c, c ∈ bootstrap_chunks a now_ms ->
       l0_done c w' /\ forall sub, sub ∈ normalize_subchunks a c -> l1_done sub w').
Proof.
  unfold run_backfill_scheduler. rewrite Henabled. cbn [negb].
  pose proof (scheduler_keeps a stored l0_done l1_done HL (host_now w) fuel w) as Hrun.
  destruct (scheduler_loop a fuel w) as [w' [r|e]].
  - destruct Hrun as [[He _] Hr]; [by split|]. split; [done|]. intros [= ->].
    destruct (Hr eq_refl) as [?|(now & Hn & Hall)]; [by left|right]. exists now. split; [done|].
    intros c [Hl0 Hl1]%Hall%(er_complete _ _ _ _ _ He). split; [|done]. by apply (er_l0 _ _ _ _ _ He).
  - destruct Hrun as [He _]; [by split|]. by split.
Qed.

(** C13: Over any store that keeps what it was given and any children whose success means their
    work is done, the scheduler only ever leaves markers that were earned: an L0 marker
    after a backfill of the chunk succeeded, a complete marker when that marker is there and
    every piece of the chunk has been normalized, whatever fails in between.  When it
    returns without being told to shut down, every chunk of the lookback is stored and
    normalized. *)
Theorem bootstrap_markers_are_earned {L : StorageLib} {W B V : Type} {OS : ObjectStore W B}
    {J : DocJson V} {H : Host W B V} a stored l0_done l1_done fuel w
    (HL : HostLaws a stored l0_done l1_done) (Henabled : ss_bootstrap_enabled a = true)
    (Hw : earned a stored l0_done l1_done w) :
  let (w', r) := run_backfill_scheduler a fuel w in
  earned a stored l0_done l1_done w' /\
  (r = Ok (Some ()) -> host_shutdown w' = true \/
     exists now_ms, host_now w <= now_ms /\ forall c, c ∈ bootstrap_chunks a now_ms ->
       l0_done c w' /\ forall sub, sub ∈ normalize_subchunks a c -> l1_done sub w').
Proof. by apply backfill_scheduler_earns. Qed.

(** ** A sample run *)

(** Objects, the children that ran, the clock. *)
Record SampleHost := mkHost { sh_objects : gmap string string; sh_ran : list (list string) }.

#[local] Instance sample_store : ObjectStore SampleHost string := {|
  os_put r w := (mkHost (<[pq_key r := pq_body r]> (sh_objects w)) (sh_ran w), Ok ());
  os_head _ k w := (w, Ok None);
  os_get _ k w := (w, match sh_objects w !! k with
    | Some b => Ok b | None => Err (mkServiceError (Some "NoSuchKey"%string) None "none") end);
  os_list _ w := (w, Err (mkServiceError None None "none"));
  os_delete _ _ w := (w, Ok ());
  os_sleep _ w := w |}.
#[local] Instance sample_json : DocJson string := {|
  dj_get _ _ := None; dj_as_str _ := None; dj_as_i64 _ := None |}.
#[local] Instance sample_host : Host SampleHost string string := {|
  host_run _ argv w := (mkHost (sh_objects w) (argv :: sh_ran w), Ok ChildSuccess);
  host_now _ := 1778947200123;
  host_shutdown _ := false;
  host_sleep _ w := w;
  host_wait w := w;
  host_decode b := Ok b;
  host_marker m := Ok (mk_schema_version m) |}.
#[local] Instance sample_lib : StorageLib := {|
  sha256_hex s := s; default_hash _ := 0; utc_date_hour _ := None |}.
#[local] Instance sample_environment : Environment := {| env_var := fun _ => None |}.

Definition sample_settings : SupervisorArgs :=
  match parse_supervisor_args ["--l0-s3-bucket"; "l0"; "--l1-s3-bucket"; "l1";
    "--bootstrap-lookback-days"; "1"; "--normalize-schedule-interval-ms"; "28800000"]%string with
  | Ok (Some a) => a | _ => supervisor_defaults end.

Definition sample_l0_done (c : BootstrapChunk) (w : SampleHost) : Prop :=
  backfill_args sample_settings c ∈ sh_ran w.
Definition sample_l1_done (c : BootstrapChunk) (w : SampleHost) : Prop :=
  normalize_backfill_args sample_settings c ∈ sh_ran w.

Lemma sample_laws : HostLaws sample_settings sh_objects sample_l0_done sample_l1_done.
Proof.
  assert (Hk : forall w w', (forall x, x ∈ sh_ran w -> x ∈ sh_ran w') ->
    kept sample_l0_done sample_l1_done w w').
  { intros w w' Hsub. split; [intros c; apply Hsub|intros c; apply Hsub|done]. }
  split.
  - intros r w _. split; [by apply Hk|by right].
  - intros k w. split_and!; [by apply Hk|done|]. intros b. cbn.
    destruct (sh_objects w !! k) as [b'|]; [|done]. by intros [= ->].
  - intros d w. by split; [apply Hk|].
  - intros d w. by split; [apply Hk|].
  - intros w. by split; [apply Hk|].
  - intros bin argv w. split; [|done]. apply Hk. intros x Hx. cbn. by right.
  - intros c w w' [= <-]. by left.
  - intros c w w' [= <-]. by left.
  - intros c w b v _ _. by vm_compute.
Qed.

Lemma bootstrap_markers_are_earned_witness :
  let w' := (run_backfill_scheduler sample_settings 3 (mkHost ∅ [])).1 in
  zlen (sh_ran w') = 4 /\
  exists now_ms, 1778947200123 <= now_ms /\ forall c, c ∈ bootstrap_chunks sample_settings now_ms ->
    sample_l0_done c w' /\ forall sub, sub ∈ normalize_subchunks sample_settings c -> sample_l1_done sub w'.
Proof.
  pose proof (bootstrap_markers_are_earned sample_settings sh_objects sample_l0_done sample_l1_done 3
    (mkHost ∅ []) sample_laws eq_refl ltac:(by split; intros c [b Hb])) as Hrun.
  set (run := run_backfill_scheduler sample_settings 3 (mkHost ∅ [])) in *.
  assert (Hr : run.2 = Ok (Some ())) by by vm_compute.
  cbn zeta. split; [by vm_compute|]. destruct run as [w' r]. cbn [fst snd] in *.
  destruct Hrun as [_ Hrun]. destruct (Hrun Hr) as [Hdown|Hall]; [discriminate Hdown|exact Hall].
Defined.

(** ** The main loop *)

Section main_loop.
Context (a : SupervisorArgs).

(** What can happen to a state: the loop hears of the shutdown after the flag is set; the
    idle scheduler, and the one of a supervisor without a bootstrap, end after it too. *)
Inductive possible (s : SupervisorState) : Event -> Prop :=
| possible_realtime venue status : venue ∈ map fst (st_realtime s) -> possible s (RealtimeExited venue status)
| possible_normalize argv : st_normalize s = Some argv -> possible s NormalizeExited
| possible_scheduler r : st_scheduler s = Bootstrapping ->
    (ss_bootstrap_enabled a = false -> st_shutdown s = true) -> possible s (SchedulerEnded r)
| possible_idle : st_scheduler s = Idle -> st_shutdown s = true -> possible s (SchedulerEnded (Ok ()))
| possible_request : possible s ShutdownRequested
| possible_seen : st_shutdown s = true -> possible s ShutdownSeen.

(** The states between the turns; the system answers each spawn as it likes. *)
Inductive reachable : SupervisorState -> Prop :=
| reach_start spawn s : start_supervisor a spawn = Running s -> reachable s
| reach_step spawn s e s' : reachable s -> possible s e -> supervisor_step a spawn s e = Running s' ->
    reachable s'.

(** The workers the supervisor is there to keep. *)
Record workers_kept (s : SupervisorState) : Prop := {
  wk_realtime : st_realtime s = map (fun v => (v, realtime_args a v)) (ss_realtime_venues a);
  wk_normalize : st_normalize s = Some (if st_bootstrap_active s then live_priority_normalize_args a
                                        else normalize_args a);
  wk_retention : st_retention s = true;
  wk_active : st_bootstrap_active s = true -> ss_bootstrap_enabled a = true /\ st_scheduler s = Bootstrapping;
  wk_scheduler : st_scheduler s <> Stopped }.

Lemma spawn_realtime_all spawn venues children : spawn_realtime_children a spawn venues = Ok children ->
  children = map (fun v => (v, realtime_args a v)) venues.
Proof.
  revert children. induction venues as [|v venues IH]; intros children; cbn; [by intros [= <-]|].
  destruct (spawn _ _) as [u|]; [|done]. cbn.
  destruct (spawn_realtime_children a spawn venues) as [l|]; [|done]. cbn. intros [= <-].
  f_equal. by apply IH.
Qed.

Lemma spawn_phase spawn active argv : spawn_normalize_for_phase a spawn active = Ok argv ->
  argv = if active then live_priority_normalize_args a else normalize_args a.
Proof.
  unfold spawn_normalize_for_phase, spawn_live_priority_normalize, spawn_normalize, spawn_with.
  destruct active, (spawn _ _); cbn; congruence.
Qed.

Lemma reachable_workers s : reachable s -> workers_kept s.
Proof.
  induction 1 as [spawn s Hs|spawn s e s' _ [Hr Hn Ht Ha Hsch] Hpos Hstep].
  - unfold start_supervisor in Hs. destruct (spawn_realtime_children _ _ _) as [l|] eqn:El; [|done].
    apply spawn_realtime_all in El as ->. cbn in Hs.
    destruct (spawn_normalize_for_phase a spawn _) as [argv|] eqn:En; [|done].
    apply spawn_phase in En as ->. injection Hs as <-. by split.
  - destruct e as [venue status| |r| |]; cbn in Hstep; try discriminate.
    + destruct (st_shutdown s); [done|].
      destruct (spawn_normalize_for_phase a spawn _) as [argv|] eqn:En; [|done].
      apply spawn_phase in En as ->. injection Hstep as <-. by split.
    + destruct (st_shutdown s); [done|]. destruct r as [u|e].
      * change (spawn_normalize a spawn) with (spawn_normalize_for_phase a spawn false) in Hstep.
        destruct (spawn_normalize_for_phase a spawn false) as [argv|] eqn:En; [|done].
        apply spawn_phase in En as ->. injection Hstep as <-. by split.
      * injection Hstep as <-. split; cbn; try done. intros Hact. by apply Ha in Hact as [? _].
    + injection Hstep as <-. by split.
Qed.
End main_loop.

(** C15: Between its turns the supervisor always has a realtime watcher per venue, the retention
    loops and exactly one normalizer running: the one for live windows while the bootstrap
    runs, the full one after it, and it never goes back.  It gives up with success only when
    shutdown was requested, and with an error only when a watcher exited or a worker could
    not be started. *)
Theorem supervisor_keeps_its_workers a s : reachable a s ->
  workers_kept a s /\
  forall spawn e, possible a s e ->
    match supervisor_step a spawn s e with
    | Running s' => workers_kept a s' /\ (st_bootstrap_active s = false -> st_bootstrap_active s' = false)
    | Returned (Ok _) => st_shutdown s = true
    | Returned (Err _) => (exists venue status, e = RealtimeExited venue status) \/
        exists argv error, spawn (ss_normalize_bin a) argv = Err error
    end.
Proof.
  intros Hs. split; [by apply reachable_workers|]. intros spawn e Hpos.
  destruct (supervisor_step a spawn s e) as [s'|[u|error]] eqn:Hstep.
  - split; [eapply reachable_workers, reach_step; eauto|].
    destruct e as [venue status| |r| |]; cbn in Hstep; try discriminate.
    + destruct (st_shutdown s); [done|]. destruct (spawn_normalize_for_phase _ _ _); [|done].
      by injection Hstep as <-.
    + destruct (st_shutdown s); [done|]. destruct r; [|by injection Hstep as <-].
      destruct (spawn_normalize _ _); [|done]. by injection Hstep as <-.
    + by injection Hstep as <-.
  - destruct e as [venue status| |r| |]; cbn in Hstep; try discriminate.
    + destruct (st_shutdown s); [done|]. by destruct (spawn_normalize_for_phase _ _ _).
    + destruct (st_shutdown s); [done|]. destruct r; [|done]. by destruct (spawn_normalize _ _).
    + by inversion Hpos.
  - destruct e as [venue status| |r| |]; cbn in Hstep; try discriminate.
    + left. by eexists _, _.
    + right. destruct (st_shutdown s); [done|].
      unfold spawn_normalize_for_phase, spawn_live_priority_normalize, spawn_normalize, spawn_with in Hstep.
      destruct (st_bootstrap_active s);
        destruct (spawn _ _) eqn:Es; cbn in Hstep; try discriminate; by eexists _, _.
    + right. destruct (st_shutdown s); [done|]. destruct r; [|done].
      unfold spawn_normalize, spawn_with in Hstep.
      destruct (spawn _ _) eqn:Es; cbn in Hstep; try discriminate; by eexists _, _.
Qed.

Definition sample_spawn (_ : string) (_ : list string) : result string () := Ok ().
Definition sample_state : SupervisorState :=
  match start_supervisor sample_settings sample_spawn with
  | Running s => s | Returned _ => mkState [] None Stopped false false false end.

Lemma supervisor_keeps_its_workers_witness :
  exists s', supervisor_step sample_settings sample_spawn sample_state (SchedulerEnded (Ok ())) = Running s' /\
    workers_kept sample_settings s' /\ st_bootstrap_active s' = false.
Proof.
  eexists. split; [by vm_compute|].
  assert (Hs : reachable sample_settings sample_state).
  { apply (reach_start _ sample_spawn). by vm_compute. }
  assert (Hp : possible sample_settings sample_state (SchedulerEnded (Ok ()))).
  { apply possible_scheduler; by vm_compute. }
  destruct (supervisor_keeps_its_workers sample_settings sample_state Hs) as [_ Hstep].
  specialize (Hstep sample_spawn _ Hp). split; [exact (proj1 Hstep)|done].
Defined.
