(* ===== verification/Programs.v ===== *)
(** * Programs: the four executables

    [main.rs], [runtime.rs], [venue_runner.rs] and [bin/]: arguments, the tasks that run
    beside a watcher, its run, and what is left for the shell: an exit code, and a line of
    the log for an error.  A program that has not ended has no exit code. *)
From S2P Require Import Prelude Text Wire Cli LogStream OrderedMap BinanceNormalize Records Sink SinkReach VenueStats.
From S2P Require Import BinanceVenue UpbitVenue Derivatives VenueWatch Retention Eviction Orphan NormalizeArgs IngestArgs.
From S2P Require Import L1Window S3Client Config VenueRun VenueRunFacts NormalizeRun BackfillArgs Backfill.
From S2P Require Import SupervisorArgs WorkerArgs Supervisor SupervisorFacts SupervisorRuns Maintenance Effects.
Open Scope Z_scope.
Open Scope list_scope.

(** ** Errors as they are shown *)

(* rust: src/binance/error.rs fmt *)
Definition BinanceIngestError_display (e : BinanceIngestError) : string :=
  match e with
  | BEMarketData error => "binance market data error: " ++ MarketDataError_display error
  | BEHttp error => "binance http error: " ++ error
  | BEJson error => "binance json error: " ++ error
  | BEWebSocket error => "binance websocket error: " ++ error
  | BEUtf8 error => "binance utf-8 error: " ++ error
  | BEStorage error => "binance storage error: " ++ StorageError_display error
  | BEInvalidMessage message => "binance invalid message: " ++ message
  end%string.

(* rust: src/upbit/error.rs fmt *)
Definition UpbitIngestError_display (e : UpbitIngestError) : string :=
  match e with
  | UEHttp error => "upbit http error: " ++ error
  | UEJson error => "upbit json error: " ++ error
  | UEWebSocket error => "upbit websocket error: " ++ error
  | UEUtf8 error => "upbit utf-8 error: " ++ error
  | UEStorage error => "upbit storage error: " ++ StorageError_display error
  | UEInvalidConfig message => "upbit invalid config: " ++ message
  | UEInvalidMessage message => "upbit invalid message: " ++ message
  end%string.

(** The error of a stage as the boxed error of the program. *)
Definition displayed {E A} (text : E -> string) (m : run E A) : run string A := fun k =>
  let (k, r) := m k in
  (k, map_err (fun s => match s with VenueRun.Failed e => VenueRun.Failed (text e) | VenueRun.Running => VenueRun.Running end) r).

Lemma displayed_ok {E A} (text : E -> string) (m : run E A) k k' a :
  displayed text m k = (k', Ok a) -> m k = (k', Ok a).
Proof. unfold displayed. destruct (m k) as [k1 [b|e]]; cbn; by intros [= -> ->]. Qed.

(** ** The watcher *)

Section watcher.
Context {EV : Environment} {C : ConfigFiles} {L : StorageLib} {T : JsonText}.
Context {V W F64 U : Type} {JE : EventJson V} {JR : RestJson W} {JU : UpbitJson (F64 := F64) (V := U)}.

(** What the machine answers: the clock, the spool disk for the cleanup, and the world of
    the venue. *)
Record WatcherWorld := mkWatcherWorld {
  wt_now_secs : Z; wt_now_ms : Z;
  wt_rename_error : string -> string -> option StorageError;
  wt_root_exists : bool; wt_files : result StorageError (list string); wt_nanos : Disk -> string -> Z;
  wt_disk : Disk;
  wt_binance : BinanceWorld (W := W); wt_upbit : UpbitWorld (F64 := F64) }.

(** The tasks beside the run: the eviction of the spool, and the retention of the bucket. *)
Record Background := mkBackground {
  bg_eviction : EvictionConfig * Z; bg_retention : option RetentionLoop }.

(* rust: src/venue_runner.rs run_binance *)
Definition run_binance (args : Args) (w : WatcherWorld) : run string () :=
  config ← fallible (binance_run_config args (wt_now_secs w));
  displayed BinanceIngestError_display (run_binance_l0_smoke config (wt_binance w)).

(* rust: src/venue_runner.rs run_upbit *)
Definition run_upbit (args : Args) (w : WatcherWorld) : run string () :=
  config ← fallible (upbit_run_config args (wt_now_secs w));
  displayed UpbitIngestError_display (run_upbit_l0_smoke config (wt_upbit w)).

(** The spool after the cleanup, the tasks started, the sink and the result.  The tasks are
    aborted when the run is over; no result means that it is not. *)
Record WatcherRun := mkWatcherRun {
  wr_disk : Disk; wr_background : option Background; wr_sink : option L0StorageSink;
  wr_result : result (Stop string) () }.

(* rust: src/runtime.rs run *)
Definition run_watcher (argv : list string) (w : WatcherWorld) : WatcherRun :=
  match parse_ingest_args argv with
  | Err e => mkWatcherRun (wt_disk w) None None (Err (VenueRun.Failed e))
  | Ok None => mkWatcherRun (wt_disk w) None None (Ok ())
  | Ok (Some args) =>
      let (disk, _) := log_unsealed_orphan_cleanup (wt_rename_error w) (wt_root_exists w) (wt_files w) (wt_nanos w)
                         args (wt_now_ms w) (wt_disk w) in
      let background := mkBackground (spawn_eviction_loop args) (spawn_l0_s3_retention_loop args) in
      let (sink, r) := match ar_venue args with
                       | Binance => run_binance args w
                       | Upbit => run_upbit args w
                       end None in
      mkWatcherRun disk (Some background) sink r
  end.

(** ** The other programs *)

(** No arguments are left for a program that was asked for its help. *)
(* rust: src/bin/market-backfill.rs run *)
Definition run_market_backfill (backfill : BackfillArgs -> result BackfillError ()) (argv : list string)
    : result BackfillError () :=
  args ← parse_backfill_args argv;
  match args with None => Ok () | Some args => backfill args end.

(** The decisions it ran, and whether it has ended. *)
(* rust: src/bin/market-normalize.rs run *)
Definition run_market_normalize (env : string -> option string) (preflight : result string ())
    (list_keys : string -> result string (list string)) (run_decision : RunDecision -> Z -> result string ())
    (signals : result string ()) (ticks : list Tick) (now_ms : Z) (argv : list string)
    : result string (WorkerEnd * list RunDecision) :=
  args ← NormalizeArgs.parse_args argv;
  match args with
  | None => Ok (NormalizeRun.Stopped, [])
  | Some args => run_normalize env preflight list_keys run_decision signals ticks args now_ms
  end.

(** The turns of the supervisor: what it waited for, and what a spawn answered then. *)
Fixpoint supervise (a : SupervisorArgs) (turns : list (Supervisor.Event * (string -> list string -> result string ())))
    (o : Outcome) : Outcome :=
  match turns, o with
  | (e, spawn) :: turns, Supervisor.Running s => supervise a turns (supervisor_step a spawn s e)
  | _, _ => o
  end.

(** [None] is a supervisor that still runs. *)
(* rust: src/bin/crypto-market-ingest-supervisor.rs run *)
Definition run_market_supervisor (spawn : string -> list string -> result string ())
    (turns : list (Supervisor.Event * (string -> list string -> result string ()))) (argv : list string)
    : option (result string ()) :=
  match parse_supervisor_args argv with
  | Err e => Some (Err e)
  | Ok None => Some (Ok ())
  | Ok (Some args) =>
      match supervise args turns (start_supervisor args spawn) with
      | Supervisor.Running _ => None
      | Returned r => Some r
      end
  end.

(** ** What is left of a program *)

Section exit.
Context {J : Type} {D : DataFormat J}.

(** The exit code, and the line on its stream; that the line cannot be written changes
    nothing. *)
Definition exit_with {A} (event : string) (now_ms : Z) (r : result string A) : Z * option (Stream * J) :=
  match r with
  | Ok _ => (0, None)
  | Err message => (1, match LogStream.error now_ms event (Ok (v_map [("message"%string, v_str message)])) with
                       | Ok line => line | Err _ => None end)
  end.

(* rust: src/main.rs main *)
Definition market_ingest_main (now_ms : Z) (argv : list string) (w : WatcherWorld) : option (Z * option (Stream * J)) :=
  match wr_result (run_watcher argv w) with
  | Err VenueRun.Running => None
  | Err (VenueRun.Failed e) => Some (exit_with "market_ingest_error" now_ms (Err (A := ()) e))
  | Ok u => Some (exit_with "market_ingest_error" now_ms (Ok u))
  end.

(* rust: src/bin/market-backfill.rs main *)
Definition market_backfill_main (now_ms : Z) (r : result BackfillError ()) : Z * option (Stream * J) :=
  exit_with "market_backfill_error" now_ms (map_err BackfillError_display r).

(* rust: src/bin/market-normalize.rs main *)
Definition market_normalize_main (now_ms : Z) (r : result string (WorkerEnd * list RunDecision))
    : option (Z * option (Stream * J)) :=
  match r with
  | Ok (StillRunning, _) => None
  | _ => Some (exit_with "market_normalize_error" now_ms r)
  end.

(* rust: src/bin/crypto-market-ingest-supervisor.rs main *)
Definition market_supervisor_main (now_ms : Z) (r : option (result string ())) : option (Z * option (Stream * J)) :=
  exit_with "crypto_market_ingest_supervisor_error" now_ms <$> r.

(** ** The exit code of the watcher *)

Lemma binance_config_keeps args now c : binance_run_config args now = Ok c ->
  br_l0_storage c = l0_storage_config args "binance" now /\
  br_allow_partial_symbol_coverage c = ar_allow_partial_symbol_coverage args.
Proof.
  unfold binance_run_config, mbind, result_bind. repeat (case_match; try done). by intros [= <-].
Qed.

Lemma upbit_config_keeps args now c : upbit_run_config args now = Ok c ->
  ur_l0_storage c = l0_storage_config args "upbit" now /\
  ur_allow_partial_symbol_coverage c = ar_allow_partial_symbol_coverage args.
Proof.
  unfold upbit_run_config, mbind, result_bind. repeat (case_match; try done). by intros [= <-].
Qed.

(** The watch that a run with these arguments is, and what it counted. *)
Inductive watched_venue (args : Args) (w : WatcherWorld) (k : option L0StorageSink) : WatchCore -> Prop :=
| watched_binance c r : ar_venue args = Binance -> binance_run_config args (wt_now_secs w) = Ok c ->
    binance_l0_report c (wt_binance w) None = (k, Ok r) ->
    (ar_allow_partial_symbol_coverage args = false -> forall m, m ∈ br_markets c ->
       is_Some (bget (to_ascii_uppercase (bm_raw_symbol m)) (wc_symbol_counts (bs_core (bp_stats r))))) ->
    (is_Some k -> bs_depth_snapshot_messages (bp_stats r) <> 0) ->
    watched_venue args w k (bs_core (bp_stats r))
| watched_upbit c r markets : ar_venue args = Upbit -> upbit_run_config args (wt_now_secs w) = Ok c ->
    upbit_l0_report c (wt_upbit w) None = (k, Ok r) -> followed_markets c (wt_upbit w) = Ok markets ->
    (ar_allow_partial_symbol_coverage args = false -> forall m, m ∈ markets ->
       is_Some (bget (um_market m) (wc_symbol_counts (us_core (up_stats r))))) ->
    (0 < us_orderbook_messages (up_stats r) -> us_derived_book_tickers (up_stats r) <> 0) ->
    watched_venue args w k (us_core (up_stats r)).

Definition venue_name (v : Venue) : string := match v with Binance => "binance" | Upbit => "upbit" end.

(** What a watcher that exits with 0 has done: it was only asked for its help, or the run
    of its venue is complete with what its arguments say. *)
Inductive succeeded (argv : list string) (w : WatcherWorld) : WatcherRun -> Prop :=
| helped : parse_ingest_args argv = Ok None -> succeeded argv w (mkWatcherRun (wt_disk w) None None (Ok ()))
| stored args disk background sink counts : parse_ingest_args argv = Ok (Some args) ->
    run_complete (l0_storage_config args (venue_name (ar_venue args)) (wt_now_secs w)) sink ->
    watched_venue args w sink counts ->
    wc_received_messages counts <> 0 -> wc_malformed_messages counts <= 0 -> gaps_uploaded counts sink ->
    bg_retention background = spawn_l0_s3_retention_loop args ->
    succeeded argv w (mkWatcherRun disk (Some background) sink (Ok ())).

Lemma binance_run_succeeds args w k : ar_venue args = Binance -> run_binance args w None = (k, Ok ()) ->
  run_complete (l0_storage_config args "binance" (wt_now_secs w)) k /\
  exists c, watched_venue args w k c /\ wc_received_messages c <> 0 /\ wc_malformed_messages c <= 0 /\ gaps_uploaded c k.
Proof.
  intros Hv. unfold run_binance, fallible, io_of, mbind, io_bind.
  destruct (binance_run_config args _) as [c|] eqn:Hc; cbn; [|done]. intros H%displayed_ok.
  destruct (binance_success_is_complete c _ k H) as [Hk (r & Hr & Hm & Hbad & Hseen & Hgaps & Hextra)].
  apply binance_config_keeps in Hc as Hkeep. destruct Hkeep as [Hl0 Hpart]. rewrite Hl0 in Hk. rewrite Hpart in Hseen.
  split; [done|]. eexists. split; [by eapply watched_binance|done].
Qed.

Lemma upbit_run_succeeds args w k : ar_venue args = Upbit -> run_upbit args w None = (k, Ok ()) ->
  run_complete (l0_storage_config args "upbit" (wt_now_secs w)) k /\
  exists c, watched_venue args w k c /\ wc_received_messages c <> 0 /\ wc_malformed_messages c <= 0 /\ gaps_uploaded c k.
Proof.
  intros Hv. unfold run_upbit, fallible, io_of, mbind, io_bind.
  destruct (upbit_run_config args _) as [c|] eqn:Hc; cbn; [|done]. intros H%displayed_ok.
  destruct (upbit_success_is_complete c _ k H) as [Hk (r & markets & Hr & Hmk & Hm & Hbad & Hseen & Hgaps & Hextra)].
  apply upbit_config_keeps in Hc as Hkeep. destruct Hkeep as [Hl0 Hpart]. rewrite Hl0 in Hk. rewrite Hpart in Hseen.
  split; [done|]. eexists. split; [by eapply watched_upbit|done].
Qed.

Context {JL : FormatLaws J}.

(** A program that fails exits with 1 and says why on stderr, whatever level the log is
    limited to. *)
Lemma failure_is_logged (event : string) (now_ms : Z) (message : string) :
  exists line, exit_with event now_ms (Err (A := ()) message) = (1, Some (Stderr, line)) /\
   d_field "event" line = Some (v_str event) /\
   d_field "fields" line = Some (v_map [("message"%string, v_str message)]).
Proof.
  unfold exit_with, LogStream.error, emit. rewrite errors_are_written. cbn [negb mbind result_bind].
  eexists. split; [reflexivity|]. unfold envelope. rewrite !field_back by (cbn; vm_decide). by cbn.
Qed.

(** C8: A watcher that exits has either exited with 0 because it was asked for its help or
    because the run of its venue is complete: messages came in, none of them malformed, and
    every market it follows was seen unless partial coverage is allowed; on Upbit orderbooks
    were followed by book tickers.  When it stores, every spool file is uploaded with the
    manifest after them, a file of gap alerts is among them when gaps were counted, and on
    Binance depth snapshots were recorded.  Or it exited with 1 and wrote its error to
    stderr, whatever level the log is limited to. *)
Theorem watcher_exits_zero_only_when_complete (now_ms : Z) (argv : list string) (w : WatcherWorld)
    (code : Z) (line : option (Stream * J)) :
  market_ingest_main now_ms argv w = Some (code, line) ->
  (code = 0 /\ line = None /\ succeeded argv w (run_watcher argv w)) \/
  (code = 1 /\ exists message text, wr_result (run_watcher argv w) = Err (VenueRun.Failed message) /\
    line = Some (Stderr, text) /\ d_field "event" text = Some (v_str "market_ingest_error") /\
    d_field "fields" text = Some (v_map [("message"%string, v_str message)])).
Proof.
  unfold market_ingest_main. destruct (wr_result (run_watcher argv w)) as [[]|[e|]] eqn:Hr; [| |done]; intros H%(inj Some).
  - injection H as <- <-. left. split_and!; [done|done|]. revert Hr. unfold run_watcher.
    destruct (parse_ingest_args argv) as [[args|]|] eqn:Ha; [| |done]; [|by intros _; apply helped].
    destruct (log_unsealed_orphan_cleanup _ _ _ _ _ _ _) as [disk cleaned].
    destruct (ar_venue args) eqn:Hv.
    + destruct (run_binance args w None) as [sink r] eqn:Hrun. cbn. intros ->. apply binance_run_succeeds in Hrun as (Hk & c & Hc & Hm & Hbad & Hgaps); [|done].
      eapply stored; try done. by rewrite Hv.
    + destruct (run_upbit args w None) as [sink r] eqn:Hrun. cbn. intros ->. apply upbit_run_succeeds in Hrun as (Hk & c & Hc & Hm & Hbad & Hgaps); [|done].
      eapply stored; try done. by rewrite Hv.
  - right. destruct (failure_is_logged "market_ingest_error" now_ms e) as (text & He & Hevent & Hfields).
    rewrite He in H. injection H as <- <-. split; [done|]. by exists e, text.
Qed.

End exit.
End watcher.

(** ** A minute of one market *)

#[local] Existing Instance sample_lib.
#[local] Existing Instance run_json_text.
#[local] Existing Instance run_event_json.
#[local] Existing Instance run_rest_json.
#[local] Existing Instance run_upbit_json.
#[local] Instance no_environment : Environment := {| env_var _ := None |}.
#[local] Instance program_files : ConfigFiles := {|
  cf_universe _ := Ok [mkSymbolConfig "binance" "BTC" "USDT" "BTCUSDT" "BTC-USDT" true];
  cf_cost _ := Ok 500;
  cf_exchanges _ := Ok [mkExchange "binance" true "https://api" "wss://stream"];
  cf_parse_url s := Ok (mkRestUrl s (if starts_with "wss" s then "wss" else "https") (Some "host"%string) "" None None None);
  cf_set_path _ u := u;
  cf_path _ := ""%string;
|}.

Definition program_argv : list string :=
  ["--config"; "/config"; "--duration-seconds"; "60"; "--expect-symbol-count"; "1"; "--l0-s3-bucket"; "market-l0"]%string.
Definition program_world : WatcherWorld (W := string) (F64 := Z) :=
  mkWatcherWorld 1 1000 (fun _ _ => None) false (Ok []) (fun _ _ => 0) ∅ run_world run_upbit_world.

Lemma watcher_exits_zero_only_when_complete_witness :
  market_ingest_main (J := Tree) 0 program_argv program_world = Some (0, None) /\
  succeeded program_argv program_world (run_watcher program_argv program_world) /\
  match wr_sink (run_watcher program_argv program_world) with
  | Some k => zlen (spool_keys k) = 6 /\ co_uploaded_object_count (sk_core k) = 7 | None => False end.
Proof.
  assert (H : market_ingest_main (J := Tree) 0 program_argv program_world = Some (0, None)) by by vm_compute.
  split; [exact H|]. split; [|vm_compute; split; reflexivity].
  destruct (watcher_exits_zero_only_when_complete (J := Tree) 0 program_argv program_world 0 None H) as [[_ [_ Hs]]|[[=] _]].
  exact Hs.
Defined.

(** ** A bootstrap that cannot end *)

(** The normalizer program, started for a piece of a chunk and not told to stop at its
    preflight, can exit with 0. *)
Definition piece_normalized {L : StorageLib} (a : SupervisorArgs) (c : BootstrapChunk) : Prop :=
  exists env preflight list_keys run_decision signals ticks now_ms,
    env_flag env PREFLIGHT_ENV = false /\
    market_normalize_main (J := Tree) now_ms (run_market_normalize env preflight list_keys run_decision
      signals ticks now_ms (normalize_backfill_args a c)) = Some (0, None).

(** Then it has taken the piece as its range. *)
Lemma normalized_piece_runs {L : StorageLib} a c : supervised a ->
  in_range I64 (ch_start_ms c) -> in_range I64 (ch_end_ms c) -> piece_normalized a c -> normalizer_runs a c.
Proof.
  intros Hs Hstart Hend (env & pre & lk & rd & signals & ticks & now & Henv & H).
  pose proof (chunk_args_read a c Hs Hstart Hend) as Hread. unfold run_market_normalize in H.
  rewrite Hread in H. cbn [mbind result_bind] in H. eexists. split; [exact Hread|]. intros now' last oldest.
  unfold run_normalize in H. cbn [na_preflight normalize_settings na_audit_l1_index_start_ms na_input_start_ms] in H.
  rewrite Henv in H. cbn [orb] in H. unfold run_backfill_once, decide_mode in *.
  cbn [normalize_settings na_input_start_ms na_input_end_ms] in *.
  by destruct (validate_range _ _ _ _) as [[]|].
Qed.


(** Pieces of two hours and half a second: the backfill of the first chunk succeeds, its
    first normalizer refuses its range, turn after turn. *)
#[local] Existing Instance SupervisorRuns.sample_store.
#[local] Existing Instance SupervisorRuns.sample_json.
#[local] Instance refusing_host : Host SampleHost string string := {|
  host_run bin argv w := (mkHost (sh_objects w) (argv :: sh_ran w),
    Ok (if String.eqb bin "/usr/local/bin/market-backfill" then ChildSuccess else ChildFailed));
  host_now _ := 1778947200123;
  host_shutdown _ := false;
  host_sleep _ w := w;
  host_wait w := w;
  host_decode b := Ok b;
  host_marker m := Ok (mk_schema_version m) |}.

Definition uneven_argv : list string :=
  ["--l0-s3-bucket"; "l0"; "--l1-s3-bucket"; "l1"; "--bootstrap-lookback-days"; "1";
   "--bootstrap-chunk-hours"; "6"; "--normalize-schedule-interval-ms"; "7200500"]%string.
Definition uneven_settings : SupervisorArgs :=
  match parse_supervisor_args uneven_argv with Ok (Some a) => a | _ => supervisor_defaults end.
Definition uneven_chunk : BootstrapChunk := mkChunk 1778846400000 1778868000000.
Definition backfilled (c : BootstrapChunk) (w : SampleHost) : Prop := backfill_args uneven_settings c ∈ sh_ran w.

Lemma refusing_laws : HostLaws uneven_settings sh_objects backfilled (fun sub _ => piece_normalized uneven_settings sub).
Proof.
  assert (Hk : forall w w', (forall x, x ∈ sh_ran w -> x ∈ sh_ran w') ->
    kept backfilled (fun sub _ => piece_normalized uneven_settings sub) w w').
  { intros w w' Hsub. split; [intros c; apply Hsub|done|done]. }
  split.
  - intros r w _. split; [by apply Hk|by right].
  - intros k w. split_and!; [by apply Hk|done|]. intros b. cbn.
    destruct (sh_objects w !! k) as [b'|]; [|done]. by intros [= ->].
  - intros d w. by split; [apply Hk|].
  - intros d w. by split; [apply Hk|].
  - intros w. by split; [apply Hk|].
  - intros bin argv w. split; [|done]. apply Hk. intros x Hx. cbn. by right.
  - intros c w w' [= <-]. by left.
  - intros c w w' H. by apply (f_equal (fun p => match p.2 with Ok ChildSuccess => true | _ => false end)) in H.
  - intros c w b v _ _ Hp. discriminate Hp.
Qed.

